(* ===== verification/_CoqProject ===== *)
-Q . S2P
Prelude.v
Loops.v
Fsm.v
IOReqFsm.v
IOSegReqFsm.v
PLReqFsm.v
DNUDReqFsm.v
NNMDReqFsm.v
ConnFsm.v
SpaceChunkFsm.v
CommonUtil.v
Bytes.v
CopyData.v
CopyDataSpec.v
CopyDataRead.v
DNProto.v
DNProtoSpec.v
RadixTree.v
MetaCache.v
MetaCacheLRU.v
MetaCachePools.v
IOReqOvlp.v
IOReqPool.v
IOReqSched.v
IOWorker.v
IOWorkerSpec.v
IOWorkerRun.v
IOWorkerLife.v
IOWorkerMain.v
IORequest.v
MDataCommit.v
MDItems.v
MDCache.v
NNProto.v
NNProtoSpec.v
NNReport.v
NNReportSpec.v
Buckets.v
IOSegReq.v
IOSegReqSpec.v
IOSegReqWrite.v
IOSegReqErr.v
Ovw.v
OvwSpec.v
OvwRun.v
PLReqIO.v
PLReqLife.v
ReplicaSelector.v
FlowControl.v
FlowControlSpec.v
NNClient.v
NNClientSpec.v
NNClientLife.v
NNClientRun.v
PLReqTotal.v
