(* ===== verification/Prelude.v ===== *)
(** * The DISCO client node: a verification of the block device driver

    The repository (src/BlockDeviceDriver2) is the Linux kernel client of a distributed
    block store.  A volume is a block device; an IO request of the block layer becomes
    an [io_request_t], which is split into segment requests; a segment obtains the
    metadata of its blocks (which datanodes store them) from a namenode, and a payload
    request per metadata item reads or writes the blocks on up to three datanodes with
    a datanode request each; when the datanodes have answered, the user is told and
    the result is reported to the namenode.

    ** The parts and where they are modelled

    - IO requests of a volume and their conflicts (io_manager/ioreq_ovlp.c,
      discoC_IOReqPool.c, parts of discoC_IORequest.c and discoC_IO_Manager.c):
      [IOReqOvlp] has the comparison of two requests, [IOReqPool] the state (requests,
      overlap items shared by two lists, running and waiting pool) and every operation
      on it, [IOReqSched] the invariant and the theorems.
    - The way from the block layer to the IO requests and back (drv_blkdev.c, the request
      list of a volume in vdisk_manager/volume_manager.c, io_manager/io_worker_manager.c,
      ioReq_commit_user of discoC_IORequest.c): [IOWorker] has the block requests, the list
      of the volume, merging and cutting, the worker threads and the answers, one step per
      critical section; [IOWorkerSpec] the sectors and merging, [IOWorkerRun] the count of
      references, [IOWorkerLife] the list and the io threads, [IOWorkerMain] the invariant of
      runs and the theorems.
    - The work of one IO request (discoC_IORequest.c): [IORequest] has the sector masks,
      the split into segments and the counters that join the segments again; these are
      interleaved step by step, since completions run in several threads.
    - The copies between the block layer's segments and the buffers of a request
      (discoC_IOReq_copyData_func.c): [CopyData], with the theorems about writes and
      allocation in [CopyDataSpec] and about reads in [CopyDataRead]; [Bytes] is the
      memory they work on.
    - Segment requests, their callbacks and leaf requests (discoC_IOSegment_Request.c,
      discoC_ioSegReq_mdata_cbfn.c, discoC_ioSegReq_udata_cbfn.c,
      discoC_IOSegLeaf_Request.c): [IOSegReq]; reads in [IOSegReqSpec], writes and
      partial writes in [IOSegReqWrite], failures in [IOSegReqErr].
    - Commit decisions of one metadata item (metadata_manager/metadata_manager.c):
      [MDataCommit]; the items of a request and their queries and updates in the cache
      (metadata_manager/metadata_cache.c): [MDItems] and [MDCache].
    - The metadata cache (common/cache.c): [MetaCache] has
      the heap of leaves, pools and lists, [MetaCacheLRU] the invariant and the order of
      use, [MetaCachePools] the budget over several volumes; [RadixTree] is the tree under
      it, proved to implement a finite map.
    - The bitmap of written blocks of a volume, which decides between first writes and
      overwrites and is filled from an answer of the namenode
      (discoNN_client/discoC_NNC_ovw.c): [Ovw] has the bitmaps, the worker and the receiver, [OvwSpec] the bit
      operations and the ownership invariant, [OvwRun] the theorems about runs.
    - Requests to the namenode (discoNN_client/discoC_NNMData_Request.c, discoC_NNMDReqPool.c, discoC_NNC_worker.c,
      discoC_NNC_workerfunc.c, the answers in discoC_NNAck_acquireMD.c and discoC_NNAck_reportMD.c, submission and
      retries of discoC_NNC_Manager.c): [NNClient] has the requests, their pool, the queues and every handler, with the
      lists of [Buckets]; [NNClientSpec] has the invariant and how one request is opened and changed, [NNClientLife] the handlers one by
      one, [NNClientRun] the theorems about runs.
    - Flow control (flowcontrol/FlowControl.c): [FlowControl] has what the client remembers of every server, and the slots
      and rates of the namenode; [FlowControlSpec] the theorems.
    - The wire protocols: datanode packets ([DNProto], [DNProtoSpec]), namenode requests and
      answers ([NNProto], [NNProtoSpec]), reports to the namenode ([NNReport],
      [NNReportSpec]).
    - Payload requests (payload_manager/payload_request.c, payload_Req_IODone.c, the
      submission in payload_manager.c, the request creation of
      discoDN_client/discoC_DNC_Manager.c): [PLReqIO] has the state and the handlers,
      [PLReqLife] the safety theorems and [PLReqTotal] the theorems about termination;
      payload_manager/Read_Replica_Selector.c is [ReplicaSelector].
    - The state machines that guard each kind of request: [Fsm] states what a machine is
      and proves the generic facts (a grant that excludes itself is given once, ...);
      [IOReqFsm], [IOSegReqFsm], [PLReqFsm], [DNUDReqFsm] (with the cancellation loop of
      discoC_DNUData_Request.c), [NNMDReqFsm], [ConnFsm] (connections, and the driver
      table of drv_fsm.c) and [SpaceChunkFsm] translate the machines of the directories
      io_manager, payload_manager, discoDN_client, discoNN_client, connection_manager and
      metadata_manager.
    - Shared codecs (common/common_util.c): [CommonUtil].  [Loops] has while loops
      with a measure.

    The parts call each other as in the code: [IOReqPool] uses [IOReqOvlp] and the
    machine of [IOReqFsm]; [IORequest] uses the machine for the joins; [PLReqIO] uses
    [PLReqFsm] and the commit functions of [MDataCommit]; [IOSegReq] uses [IOSegReqFsm],
    the items of [MDItems] and the report check of [NNReport]; [MDCache] joins [MDItems]
    with the cache of [MetaCache]; [NNClient] asks [FlowControl] and uses [NNMDReqFsm] and [NNProto].  Where a component calls one that another file models,
    its state holds the log of the calls, and its theorems speak about that log.

    ** How C becomes Gallina

    A machine integer is a [Z]; a conversion to w bits is written where the code
    converts ([u32], [s32], ...).  An enumeration is an inductive type, with its numbers
    where the code uses them.  A function on an object is a function on a record; the
    objects the code shares between lists (requests, overlap items) live in finite maps
    and the lists hold their keys.  Functions with effects on a payload request are
    threads ([thread], below): they return, they block for ever, or they touch memory
    they do not own, so that a theorem can say that a handler returns.  Loops are
    structural where the code loops over a list or counts down, and take fuel where they
    do not; every theorem about such a function states that the fuel given by the
    definitions is enough (the split of a request: one turn per block and one to stop;
    the replica selection: one turn per replica; draining the queues: one step per
    request; a walk in the radix tree: one turn per level; an update of the cache: one
    turn per entry it may evict).  The cancellation loop of a datanode request has no bound in the code;
    [DNUDReqFsm] gives its outcome for every state and shows a run that does not end.

    A handler of a payload request, and the critical section of a pool operation, is one
    atomic step; theorems quantify over all orders of the steps.  Where the code itself
    relies on single atomic instructions (the joins of [IORequest], the state machines)
    the steps are these instructions.

    ** What the theorems show

    - Scheduling: two conflicting requests never run together; a request runs at once
      exactly when it conflicts with no unfinished earlier one; the end of a request
      starts exactly the requests that waited for it alone; there is no circular wait
      and the queues drain.  These hold while the allocator delivers; a failed
      allocation of an overlap item is shown to break the exclusion.
    - IO workers: the io requests the workers submit are exactly the sectors put on the list of
      the volume, in their order, each within the limit of one io request; a block request is answered once and not
      before its io requests have committed; no request is left on
      the list without a thread that will look at it; the test for an idle volume is exact.
      Two theorems show defects: a failed submission leaves requests that are never answered,
      and the failure of one part of a cut request can be overwritten by the success of the other.
    - One request: the masks are exact, the segments partition the blocks, and exactly
      one completion passes the request on.
    - Commits: at most one commit to the user and to the server; a success is durable;
      the server hears of settled writes only; a read stops waiting exactly when it
      has data or only errors.
    - Payload requests: one outcome per request, given exactly when it is freed; a
      write whose replicas answered is finished and no handler of it blocks; the first
      data completes a read; the replica selection picks a usable datanode.  Four
      theorems show defects: timed-out writes and failed reads that never end, a
      timer that waits for itself, a freed request that is still linked.
    - Segments: a read, a write and a partial write each tell their IO request one result
      and one end, at the right moment, for every order of the callbacks; a partial write
      reads everything before it writes.  Two theorems and a few runs show where outdated
      metadata and failing reads break this.
    - Copies: after a write the buffer holds exactly the user's bytes, after a read the
      user's segments hold exactly the blocks, and a partial write keeps the sectors it
      does not cover.
    - Metadata: the radix tree is a finite map; the cache returns exactly what was put in and not
      evicted or invalidated, evicts the least recently used entry first, stays in its
      budget and never touches freed memory; a query yields items that cover the blocks
      asked for, in order, with the locations stored.
    - Protocols: what one side packs the other side reads back; a namenode's answer is
      parsed into items over the requested blocks; a report holds exactly the failed
      replicas.
    - Bitmaps of written blocks: a range is marked exactly; bitmaps and requests are neither
      used after they were freed nor lost, under stated conditions on the order of the
      threads; an answer of the namenode received in pieces sets exactly the bits of its
      ranges.  Runs outside of these conditions lose the answer, leak or use freed memory.
    - Requests to the namenode: after any order of submissions, timers, worker steps, answers, retries and frees each caller was told
      one end or still owns one request; pool, queues and counters agree; no step faults or blocks.  The conditions for this
      are stated, and one theorem shows that timeouts of requests from number 4001 on violate memory without them.
    - Flow control: what is known of a server is exactly its history; the slots of the namenode are counted exactly and
      bounded; how timeouts lower the limits, and that a datanode that timed out stays avoided.
    - State machines: order of the life cycle, exclusion of competing outcomes
      (acknowledgement or cancellation, response or timeout, commit once), finality.
    - Codecs: round trips of packed locations, byte order and addresses, and the
      exact meaning of the sector-skip functions.

    ** Not modelled

    Kernel threads, sockets, memory pools, locks and printing; the loops of the
    datanode workers around the handlers; attaching and detaching of volumes, and the configuration; the storage
    pool of pre-allocated space (only its state machines are modelled) and erasure
    coding, which are compile-time options that are off (DISCO_PREALLOC_SUPPORT,
    DISCO_ERC_SUPPORT); time stamps for statistics; simulators, tests and tools.

    ** What is left

    Modelled in this order: scheduling, the io workers, splitting, copying, segments, commits, payload requests, the
    metadata cache and its tree, the protocols, the machines, the codecs, the bitmaps, flow control, the requests to the
    namenode.  Left: the pools and workers of the datanode client, which repeat the scheme of the namenode client, the table of
    volumes and the connection manager.

    This file holds the shared vocabulary: machine integers, error numbers, tactics,
    bit fields, sums and runs of integers, threads. *)

From stdpp Require Export base numbers option list list_numbers strings gmap.
From Stdlib Require Export ZArith Lia.

Declare Scope disco_scope.
Delimit Scope disco_scope with disco.
#[global] Open Scope Z_scope.

(** The hint database of the development: well-formedness and range facts that
    the component files register once and discharge with [eauto with disco]. *)
Create HintDb disco.
Create Rewrite HintDb disco.

(** ** Machine integers

    A C value of a w-bit unsigned type is a [Z] in [0, 2^w); the conversions
    of the language are the functions below, applied exactly where the source
    converts (an assignment to a narrower object, a cast, an unsigned sum). *)

Definition u8 (x : Z) : Z := x mod 2 ^ 8.
Definition u16 (x : Z) : Z := x mod 2 ^ 16.
Definition u32 (x : Z) : Z := x mod 2 ^ 32.
Definition u64 (x : Z) : Z := x mod 2 ^ 64.

(** Conversion to [int32_t]: the representative in [-2^31, 2^31). *)
Definition s32 (x : Z) : Z := (x + 2 ^ 31) mod 2 ^ 32 - 2 ^ 31.

(** Conversion to [int8_t] and [int16_t]. *)
Definition s8 (x : Z) : Z := (x + 2 ^ 7) mod 2 ^ 8 - 2 ^ 7.
Definition s16 (x : Z) : Z := (x + 2 ^ 15) mod 2 ^ 16 - 2 ^ 15.

(** Conversion to [int64_t]. *)
Definition s64 (x : Z) : Z := (x + 2 ^ 63) mod 2 ^ 64 - 2 ^ 63.

(** The kernel's [time_after64(a, b)]: is the point [a] of the clock behind [b]? *)
Definition time_after64 (a b : Z) : bool := s64 (b - a) <? 0.

Notation "a +32 b" := (u32 (a + b)) (at level 50, left associativity) : disco_scope.
Notation "a -32 b" := (u32 (a - b)) (at level 50, left associativity) : disco_scope.
Notation "a +64 b" := (u64 (a + b)) (at level 50, left associativity) : disco_scope.
Notation "a -64 b" := (u64 (a - b)) (at level 50, left associativity) : disco_scope.

Definition is_u8 (x : Z) : Prop := 0 <= x < 2 ^ 8.
Definition is_u16 (x : Z) : Prop := 0 <= x < 2 ^ 16.
Definition is_u32 (x : Z) : Prop := 0 <= x < 2 ^ 32.
Definition is_u64 (x : Z) : Prop := 0 <= x < 2 ^ 64.
Definition is_s32 (x : Z) : Prop := - 2 ^ 31 <= x < 2 ^ 31.

(** Linux error numbers used by the modelled files (returned negated). *)
Definition EPERM : Z := 1.
Definition ENOENT : Z := 2.
Definition ENXIO : Z := 6.
Definition ENOMEM : Z := 12.
Definition EFAULT : Z := 14.
Definition EBUSY : Z := 16.
Definition EEXIST : Z := 17.
Definition EINVAL : Z := 22.
Definition ETIME : Z := 62.

Lemma u32_range x : is_u32 (u32 x).
Proof. unfold is_u32, u32. apply Z.mod_pos_bound. lia. Qed.

Lemma u64_range x : is_u64 (u64 x).
Proof. unfold is_u64, u64. apply Z.mod_pos_bound. lia. Qed.

Lemma u16_range x : is_u16 (u16 x).
Proof. unfold is_u16, u16. apply Z.mod_pos_bound. lia. Qed.

Lemma u8_range x : is_u8 (u8 x).
Proof. unfold is_u8, u8. apply Z.mod_pos_bound. lia. Qed.

Lemma s32_range x : is_s32 (s32 x).
Proof.
  unfold is_s32, s32.
  pose proof (Z.mod_pos_bound (x + 2 ^ 31) (2 ^ 32)). lia.
Qed.

Lemma u16_small x : is_u16 x -> u16 x = x.
Proof. intros. by apply Z.mod_small. Qed.

Lemma u8_small x : is_u8 x -> u8 x = x.
Proof. intros. by apply Z.mod_small. Qed.

Lemma u32_small x : is_u32 x -> u32 x = x.
Proof. intros. by apply Z.mod_small. Qed.

Lemma u64_small x : is_u64 x -> u64 x = x.
Proof. intros. by apply Z.mod_small. Qed.

Lemma s32_small x : is_s32 x -> s32 x = x.
Proof. unfold is_s32, s32. intros. rewrite Z.mod_small; lia. Qed.

Lemma s64_small x : - 2 ^ 63 <= x < 2 ^ 63 -> s64 x = x.
Proof. unfold s64. intros. rewrite Z.mod_small; lia. Qed.

Lemma s8_small x : - 2 ^ 7 <= x < 2 ^ 7 -> s8 x = x.
Proof. unfold s8. intros. rewrite Z.mod_small; lia. Qed.

Lemma s32_add x y : s32 (s32 x + y) = s32 (x + y).
Proof.
  unfold s32. f_equal.
  replace ((x + 2 ^ 31) mod 2 ^ 32 - 2 ^ 31 + y + 2 ^ 31) with ((x + 2 ^ 31) mod 2 ^ 32 + y) by lia.
  rewrite Zplus_mod_idemp_l. f_equal. lia.
Qed.

Lemma s32_u32 x : is_s32 x -> s32 (u32 x) = x.
Proof. unfold is_s32, s32, u32. intros H. rewrite Zplus_mod_idemp_l, Z.mod_small; lia. Qed.

#[export] Hint Resolve u8_range u16_range u32_range u64_range s32_range : disco.

(** [wrap_small] removes the wrap-around of a sum that provably fits. *)
Ltac wrap_small :=
  repeat first
    [ rewrite u64_small by (unfold is_u64 in *; lia)
    | rewrite u32_small by (unfold is_u32 in *; lia)
    | rewrite u16_small by (unfold is_u16 in *; lia)
    | rewrite s32_small by (unfold is_s32 in *; lia) ].

(** ** Tactics *)

(** Case analysis on every boolean test and match of the goal. *)
Ltac bsplit :=
  repeat match goal with
  | |- context [if ?b then _ else _] => destruct b eqn:?
  | |- context [match ?x with _ => _ end] => destruct x eqn:?
  end.

(** Evaluate the decisions of closed propositions. *)
Ltac eval_decide :=
  repeat match goal with
  | |- context [bool_decide ?P] =>
      let b := eval vm_compute in (bool_decide P) in change (bool_decide P) with b
  | H : context [bool_decide ?P] |- _ =>
      let b := eval vm_compute in (bool_decide P) in change (bool_decide P) with b in H
  end.

(** Turn boolean comparisons on [Z] in the context into propositions. *)
Ltac zbool :=
  repeat match goal with
  | H : (_ <? _) = true |- _ => apply Z.ltb_lt in H
  | H : (_ <? _) = false |- _ => apply Z.ltb_ge in H
  | H : (_ <=? _) = true |- _ => apply Z.leb_le in H
  | H : (_ <=? _) = false |- _ => apply Z.leb_gt in H
  | H : (_ =? _) = true |- _ => apply Z.eqb_eq in H
  | H : (_ =? _) = false |- _ => apply Z.eqb_neq in H
  | H : (_ >? _) = true |- _ => rewrite Z.gtb_ltb in H; apply Z.ltb_lt in H
  | H : (_ >? _) = false |- _ => rewrite Z.gtb_ltb in H; apply Z.ltb_ge in H
  | H : (_ >=? _) = true |- _ => rewrite Z.geb_leb in H; apply Z.leb_le in H
  | H : (_ >=? _) = false |- _ => rewrite Z.geb_leb in H; apply Z.leb_gt in H
  | H : andb _ _ = true |- _ => apply andb_true_iff in H; destruct H
  | H : orb _ _ = false |- _ => apply orb_false_iff in H; destruct H
  | H : negb _ = true |- _ => apply negb_true_iff in H
  | H : negb _ = false |- _ => apply negb_false_iff in H
  end.

(** ** Bit fields *)

(** Putting a field next to another with a shift and an [or] is an addition. *)
Lemma lor_shiftl_add a b n :
  0 <= n -> 0 <= b < 2 ^ n -> Z.lor (Z.shiftl a n) b = a * 2 ^ n + b.
Proof.
  intros Hn Hb. rewrite Z.shiftl_mul_pow2, Z.add_nocarry_lxor, Z.lxor_lor; try done.
  all: apply Z.bits_inj'; intros i Hi; rewrite Z.land_spec, Z.bits_0.
  all: destruct (decide (i < n)).
  all: rewrite ?(Z.mul_pow2_bits_low a n i) by lia; try done.
  all: rewrite <- (Z.mod_small b (2 ^ n)), Z.mod_pow2_bits_high by lia; apply andb_false_r.
Qed.

(** A field of [n] bits is closed under [or]. *)
Lemma lor_bound a b n :
  0 <= n -> 0 <= a < 2 ^ n -> 0 <= b < 2 ^ n -> 0 <= Z.lor a b < 2 ^ n.
Proof.
  intros Hn Ha Hb.
  assert (Z.lor a b = (Z.lor a b) mod 2 ^ n) as ->; [|apply Z.mod_pos_bound; lia].
  apply Z.bits_inj'. intros i Hi. destruct (decide (i < n)).
  - by rewrite Z.mod_pow2_bits_low by lia.
  - rewrite Z.mod_pow2_bits_high, Z.lor_spec by lia.
    rewrite <- (Z.mod_small a (2 ^ n)), <- (Z.mod_small b (2 ^ n)) by lia.
    by rewrite !Z.mod_pow2_bits_high by lia.
Qed.

Lemma land_bound a b n : 0 <= n -> 0 <= b < 2 ^ n -> 0 <= Z.land a b < 2 ^ n.
Proof.
  intros Hn Hb.
  assert (Z.land a b = (Z.land a b) mod 2 ^ n) as ->; [|apply Z.mod_pos_bound; lia].
  apply Z.bits_inj'. intros i Hi. destruct (decide (i < n)).
  - by rewrite Z.mod_pow2_bits_low by lia.
  - rewrite Z.mod_pow2_bits_high, Z.land_spec by lia.
    rewrite <- (Z.mod_small b (2 ^ n)) by lia. rewrite Z.mod_pow2_bits_high by lia. apply andb_false_r.
Qed.

(** ** Sums over lists of integers *)

Definition zsum (l : list Z) : Z := foldr Z.add 0 l.

Lemma zsum_app l k : zsum (l ++ k) = zsum l + zsum k.
Proof. induction l as [|x l IH]; simpl; [done|]. rewrite IH. lia. Qed.

Lemma zsum_cons x l : zsum (x :: l) = x + zsum l.
Proof. done. Qed.

Lemma zsum_fmap_insert {A} (f : A -> Z) (l : list A) i x y :
  l !! i = Some x -> zsum (f <$> <[i := y]> l) = zsum (f <$> l) - f x + f y.
Proof.
  revert i. induction l as [|a l IH]; intros [|i] H; [done..|injection H as ->|].
  - change (<[0%nat := y]> (x :: l)) with (y :: l). rewrite !fmap_cons, !zsum_cons. lia.
  - change (<[S i := y]> (a :: l)) with (a :: <[i := y]> l). rewrite !fmap_cons, !zsum_cons, (IH i H). lia.
Qed.

Lemma zsum_fmap_delete {B} (f : B -> Z) (l : list B) i p :
  l !! i = Some p -> zsum (f <$> l) = f p + zsum (f <$> delete i l).
Proof.
  revert i. induction l as [|q l IH]; intros [|i] H; [done..|injection H as ->; done|].
  change (delete (S i) (q :: l)) with (q :: delete i l). rewrite !fmap_cons, !zsum_cons, (IH i H). lia.
Qed.

Lemma zsum_nonneg l : Forall (fun x => 0 <= x) l -> 0 <= zsum l.
Proof. induction 1; simpl; lia. Qed.

(** ** Lists indexed by [Z] *)

(** [zseq a n]: the integers a, a+1, ..., a+n-1 (a run of block numbers). *)
Definition zseq (a : Z) (n : nat) : list Z := (fun i : nat => a + Z.of_nat i) <$> seq 0 n.

Lemma zseq_length a n : length (zseq a n) = n.
Proof. unfold zseq. by rewrite length_fmap, length_seq. Qed.

Lemma zseq_lookup a n i : (i < n)%nat -> zseq a n !! i = Some (a + Z.of_nat i).
Proof. intros. unfold zseq. rewrite list_lookup_fmap, lookup_seq_lt by done. done. Qed.

Lemma zseq_S a n : zseq a (S n) = a :: zseq (a + 1) n.
Proof.
  unfold zseq. simpl. f_equal; [lia|].
  rewrite <- fmap_S_seq, <- list_fmap_compose. apply list_fmap_ext. intros. simpl. lia.
Qed.

Lemma zseq_app a n m : zseq a (n + m) = zseq a n ++ zseq (a + Z.of_nat n) m.
Proof.
  revert a. induction n as [|n IH]; intros a.
  - by rewrite Z.add_0_r.
  - change (S n + m)%nat with (S (n + m)). rewrite !zseq_S, IH, <- app_comm_cons.
    replace (a + Z.of_nat (S n)) with (a + 1 + Z.of_nat n) by lia. done.
Qed.

Lemma elem_of_zseq x a n : x ∈ zseq a n <-> a <= x < a + Z.of_nat n.
Proof.
  unfold zseq. rewrite list_elem_of_fmap. split.
  - intros (i & -> & Hi%elem_of_seq). lia.
  - intros. exists (Z.to_nat (x - a)). rewrite elem_of_seq. lia.
Qed.

#[export] Hint Rewrite zsum_app zsum_cons zseq_length : disco.

(** ** Occurrences in a list of keys *)

Definition occ (p : Z) (l : list Z) : Z := Z.of_nat (length (filter (fun q => q = p) l)).

Lemma occ_nil p : occ p [] = 0.
Proof. done. Qed.

Lemma occ_cons p q l : occ p (q :: l) = (if decide (q = p) then 1 else 0) + occ p l.
Proof. unfold occ. rewrite filter_cons. case_decide; simpl; lia. Qed.

Lemma occ_app p l k : occ p (l ++ k) = occ p l + occ p k.
Proof. unfold occ. rewrite filter_app, length_app. lia. Qed.

Lemma occ_nonneg p l : 0 <= occ p l.
Proof. unfold occ. lia. Qed.

Lemma occ_perm p l k : l ≡ₚ k -> occ p l = occ p k.
Proof. intros HP. unfold occ. by rewrite HP. Qed.

Lemma occ_pos p l : p ∈ l -> 0 < occ p l.
Proof.
  induction l as [|q l IH]; [by intros ?%elem_of_nil|]. intros H. rewrite occ_cons.
  pose proof (occ_nonneg p l). apply elem_of_cons in H as [->|H]; [rewrite decide_True by done; lia|].
  specialize (IH H). case_decide; lia.
Qed.

Lemma occ_none p l : p ∉ l -> occ p l = 0.
Proof.
  induction l as [|q l IH]; [done|]. intros H. apply not_elem_of_cons in H as [Hq H].
  rewrite occ_cons, decide_False, IH by congruence. done.
Qed.

Lemma occ_nodup p l : NoDup l -> occ p l = if decide (p ∈ l) then 1 else 0.
Proof.
  induction l as [|q l IH]; [done|]. intros [Hq Hl]%NoDup_cons. rewrite occ_cons, (IH Hl).
  destruct (decide (q = p)) as [->|Hne].
  - rewrite decide_False by done. rewrite decide_True by left. done.
  - destruct (decide (p ∈ l)) as [H|H]; [by rewrite decide_True by (by right)|].
    rewrite decide_False; [done|]. intros [->|?]%elem_of_cons; done.
Qed.

(** ** Threads that may never return

    A stateful C function is a function from the state to an outcome: it returns
    with a new state and a value, it blocks for ever (it waits for a condition
    that nobody can establish any more), or it touches memory it does not own. *)

Inductive outcome (S A : Type) : Type :=
| Returns (s : S) (a : A)
| Blocks
| Faults.
Arguments Returns {S A} s a.
Arguments Blocks {S A}.
Arguments Faults {S A}.

Definition thread (S A : Type) : Type := S -> outcome S A.

#[global] Instance thread_ret {S} : MRet (thread S) := fun A a s => Returns s a.

#[global] Instance thread_bind {S} : MBind (thread S) := fun A B k m s =>
  match m s with
  | Returns s' a => k a s'
  | Blocks => Blocks
  | Faults => Faults
  end.

Definition gets {S A} (f : S -> A) : thread S A := fun s => Returns s (f s).
Definition modify {S} (f : S -> S) : thread S unit := fun s => Returns (f s) tt.
Definition blocks {S A} : thread S A := fun _ => Blocks.
Definition faults {S A} : thread S A := fun _ => Faults.

(** A loop over a list of indices. *)
Fixpoint for_each {S A} (l : list A) (body : A -> thread S unit) : thread S unit :=
  match l with
  | [] => mret tt
  | x :: l => body x;; for_each l body
  end.

(** ** Total weakest preconditions: the thread returns, and its result satisfies [Q]. *)

Definition twp {S A} (m : thread S A) (Q : A -> S -> Prop) (w : S) : Prop :=
  match m w with Returns w' a => Q a w' | Blocks | Faults => False end.

Lemma twp_bind {S A B} (m : thread S A) (k : A -> thread S B) Q w :
  twp m (fun a => twp (k a) Q) w -> twp (m ≫= k) Q w.
Proof. unfold twp, mbind, thread_bind. by destruct (m w). Qed.

Lemma twp_mono {S A} (m : thread S A) (P Q : A -> S -> Prop) w :
  twp m P w -> (forall a w', P a w' -> Q a w') -> twp m Q w.
Proof. unfold twp. destruct (m w); auto. Qed.

Lemma twp_ret {S A} (a : A) Q (w : S) : Q a w -> twp (mret a) Q w.
Proof. done. Qed.

Lemma twp_gets {S A} (f : S -> A) Q w : Q (f w) w -> twp (gets f) Q w.
Proof. done. Qed.

Lemma twp_modify {S} (f : S -> S) Q w : Q tt (f w) -> twp (modify f) Q w.
Proof. done. Qed.

Lemma twp_inv {S A} (m : thread S A) Q w : twp m Q w -> exists w' a, m w = Returns w' a /\ Q a w'.
Proof. unfold twp. destruct (m w) as [w' a| |]; [|done..]. eauto. Qed.
