(* ===== verification/Loops.v ===== *)
(** * Loops: while loops with a measure

    A [while] loop of the source whose number of turns is not structural is a step
    function that either continues with a new state or stops with a result.  It is
    run with binary fuel: [p] turns at most, but a loop that stops early costs only
    the turns it takes, so a fuel of 2^64 can be evaluated. *)

From S2P Require Import Prelude.

Section loop.
Context {S R : Type} (step : S -> S + R).

Fixpoint iter_until (p : positive) (s : S) : S + R :=
  match p with
  | xH => step s
  | xO q =>
      match iter_until q s with
      | inl s' => iter_until q s'
      | inr r => inr r
      end
  | xI q =>
      match step s with
      | inl s' =>
          match iter_until q s' with
          | inl s'' => iter_until q s''
          | inr r => inr r
          end
      | inr r => inr r
      end
  end.

(** A loop whose measure falls with each turn stops, and its result satisfies
    what the loop invariant gives at the last turn. *)
Lemma iter_until_inv (I : S -> Prop) (mu : S -> Z) (Q : R -> Prop) :
  (forall s, I s ->
    match step s with
    | inl s' => I s' /\ 0 <= mu s' < mu s
    | inr r => Q r
    end) ->
  forall p s, I s ->
    match iter_until p s with
    | inl s' => I s' /\ 0 <= mu s' <= mu s - Zpos p
    | inr r => Q r
    end.
Proof.
  intros Hstep p. induction p as [q IH|q IH|]; intros s Hs; simpl.
  - specialize (Hstep s Hs). destruct (step s) as [s1|r]; [|done].
    destruct Hstep as [H1 Hm]. specialize (IH s1 H1) as IH1.
    destruct (iter_until q s1) as [s2|r]; [|done]. destruct IH1 as [H2 Hm2].
    specialize (IH s2 H2). destruct (iter_until q s2); [|done]. split; [easy|lia].
  - specialize (IH s Hs) as IH1. destruct (iter_until q s) as [s1|r]; [|done].
    destruct IH1 as [H1 Hm]. specialize (IH s1 H1).
    destruct (iter_until q s1); [|done]. split; [easy|lia].
  - specialize (Hstep s Hs). destruct (step s); [|done]. split; [easy|lia].
Qed.

Lemma iter_until_first p s r : step s = inr r -> iter_until p s = inr r.
Proof. intros E. induction p as [q IH|q IH|]; simpl; by rewrite ?E, ?IH. Qed.

Lemma iter_until_stops (I : S -> Prop) (mu : S -> Z) (Q : R -> Prop) p s :
  (forall s, I s ->
    match step s with
    | inl s' => I s' /\ 0 <= mu s' < mu s
    | inr r => Q r
    end) ->
  I s -> mu s < Zpos p ->
  exists r, iter_until p s = inr r /\ Q r.
Proof.
  intros Hstep Hs Hm. pose proof (iter_until_inv I mu Q Hstep p s Hs) as H.
  destruct (iter_until p s) as [s'|r]; [lia|eauto].
Qed.
End loop.
