(* ===== verification/Fsm.v ===== *)
(** * Fsm: the interface of the request state machines and its theory

    Every request of the client node (IO request, IO segment, payload,
    datanode and namenode request, connection, space chunk) carries a state
    machine with the same contract: a thread that wants to work on the request
    sends an event with [..._update_state] and may only do the action the call
    returns.  The update runs under the state lock, so an execution of the
    threads is a sequence of events.  This file states the contract once (class
    [FSM]) and proves the properties a client needs from conditions on single
    transitions: reachability and invariants, exclusive grants, the order in which
    rights are granted, progress. *)

From S2P Require Import Prelude.

(** What a state machine offers: its transition function and the answer that
    grants nothing. *)
Class FSM (St Ev Act : Type) := {
  fsm_step : St -> Ev -> St * Act;
  fsm_idle : Act;
  fsm_act_dec :: EqDecision Act;
}.

Section runs.
Context {St Ev Act : Type} `{M : !FSM St Ev Act}.
Implicit Types (s : St) (e : Ev) (es : list Ev).

(** A run: the events are delivered one after the other (each under the lock);
    the trace collects the answers. *)
Fixpoint fsm_run (s : St) (es : list Ev) : St * list Act :=
  match es with
  | [] => (s, [])
  | e :: es =>
      let '(s1, a) := fsm_step s e in
      let '(s2, l) := fsm_run s1 es in
      (s2, a :: l)
  end.

Definition fsm_final (s : St) (es : list Ev) : St := (fsm_run s es).1.
Definition fsm_trace (s : St) (es : list Ev) : list Act := (fsm_run s es).2.

Inductive fsm_reach (s0 : St) : St -> Prop :=
| fsm_reach_refl : fsm_reach s0 s0
| fsm_reach_step s e : fsm_reach s0 s -> fsm_reach s0 (fsm_step s e).1.

Lemma fsm_final_cons s e es : fsm_final s (e :: es) = fsm_final (fsm_step s e).1 es.
Proof.
  unfold fsm_final. simpl. destruct (fsm_step s e) as [s1 a]. simpl.
  by destruct (fsm_run s1 es).
Qed.

Lemma fsm_trace_cons s e es :
  fsm_trace s (e :: es) = (fsm_step s e).2 :: fsm_trace (fsm_step s e).1 es.
Proof.
  unfold fsm_trace. simpl. destruct (fsm_step s e) as [s1 a]. simpl.
  by destruct (fsm_run s1 es).
Qed.

Lemma fsm_final_app s es1 es2 : fsm_final s (es1 ++ es2) = fsm_final (fsm_final s es1) es2.
Proof.
  revert s. induction es1 as [|e es1 IH]; intros s; [done|].
  rewrite <- app_comm_cons, !fsm_final_cons. apply IH.
Qed.

Lemma fsm_trace_app s es1 es2 :
  fsm_trace s (es1 ++ es2) = fsm_trace s es1 ++ fsm_trace (fsm_final s es1) es2.
Proof.
  revert s. induction es1 as [|e es1 IH]; intros s; [done|].
  rewrite <- app_comm_cons, !fsm_trace_cons, fsm_final_cons, IH. done.
Qed.

Lemma fsm_trace_length s es : length (fsm_trace s es) = length es.
Proof.
  revert s. induction es as [|e es IH]; intros s; [done|].
  rewrite fsm_trace_cons. simpl. by rewrite IH.
Qed.

Lemma fsm_reach_trans s0 s1 s2 : fsm_reach s0 s1 -> fsm_reach s1 s2 -> fsm_reach s0 s2.
Proof. intros H. induction 1; [done|]. by constructor. Qed.

(** Reachability by single steps is reachability by event sequences. *)
Lemma fsm_reach_run s0 s : fsm_reach s0 s <-> exists es, fsm_final s0 es = s.
Proof.
  split.
  - induction 1 as [|s e _ [es <-]]; [by exists []|].
    exists (es ++ [e]). by rewrite fsm_final_app, fsm_final_cons.
  - intros [es <-]. revert s0. induction es as [|e es IH]; intros s0; [constructor|].
    rewrite fsm_final_cons. eapply fsm_reach_trans; [|apply IH].
    apply fsm_reach_step. constructor.
Qed.

(** Rule induction: what the initial state has and every transition keeps. *)
Lemma fsm_invariant (I : St -> Prop) s0 :
  I s0 -> (forall s e, I s -> I (fsm_step s e).1) -> forall s, fsm_reach s0 s -> I s.
Proof. intros H0 Hs s. induction 1; auto. Qed.

Lemma fsm_final_invariant (I : St -> Prop) s es :
  I s -> (forall s e, I s -> I (fsm_step s e).1) -> I (fsm_final s es).
Proof. intros H0 Hs. eapply fsm_invariant; eauto. apply fsm_reach_run. eauto. Qed.

(** ** Exclusive grants *)

(** The log of a run pairs each event with the answer it got. *)
Definition fsm_log (s : St) (es : list Ev) : list (Ev * Act) := zip es (fsm_trace s es).

Lemma fsm_log_cons s e es :
  fsm_log s (e :: es) = (e, (fsm_step s e).2) :: fsm_log (fsm_step s e).1 es.
Proof. unfold fsm_log. by rewrite fsm_trace_cons. Qed.

Lemma fsm_log_app s es1 es2 :
  fsm_log s (es1 ++ es2) = fsm_log s es1 ++ fsm_log (fsm_final s es1) es2.
Proof.
  revert s. induction es1 as [|e es1 IH]; intros s; [done|].
  rewrite <- app_comm_cons, !fsm_log_cons, fsm_final_cons, IH. done.
Qed.

(** How many entries of a log satisfy [g]. *)
Definition granted (g : Ev -> Act -> bool) (l : list (Ev * Act)) : nat :=
  length (filter (fun x => g x.1 x.2 = true) l).

Lemma granted_cons g x l : granted g (x :: l) = ((if g x.1 x.2 then 1 else 0) + granted g l)%nat.
Proof.
  unfold granted. rewrite filter_cons.
  case_decide as H; [by rewrite H|]. by destruct (g x.1 x.2).
Qed.

Lemma granted_app g l1 l2 : granted g (l1 ++ l2) = (granted g l1 + granted g l2)%nat.
Proof. unfold granted. by rewrite filter_app, length_app. Qed.

(** [spent] marks the states in which the right [g] was already given away:
    giving it away makes it spent, spent states give nothing and stay spent. *)
Definition exclusive (g : Ev -> Act -> bool) (spent : St -> bool) : Prop :=
  forall s e,
    (g e (fsm_step s e).2 = true -> spent s = false /\ spent (fsm_step s e).1 = true) /\
    (spent s = true -> spent (fsm_step s e).1 = true).

Lemma exclusive_grant g spent s e :
  exclusive g spent -> g e (fsm_step s e).2 = true -> spent (fsm_step s e).1 = true.
Proof. intros Hx Hg. destruct (Hx s e) as [H _]. by apply H. Qed.

Lemma exclusive_spent g spent s es :
  exclusive g spent -> spent s = true -> granted g (fsm_log s es) = 0%nat.
Proof.
  intros Hx. revert s. induction es as [|e es IH]; intros s Hs; [done|].
  destruct (Hx s e) as [Hg Hk]. rewrite fsm_log_cons, granted_cons, IH by auto. simpl.
  destruct (g e (fsm_step s e).2); [|done]. destruct Hg as [Hg _]; [done|congruence].
Qed.

(** Whatever the order in which the threads deliver their events, an exclusive
    right is granted at most once. *)
Lemma exclusive_at_most_once g spent s es :
  exclusive g spent -> (granted g (fsm_log s es) <= 1)%nat.
Proof.
  intros Hx. revert s. induction es as [|e es IH]; intros s; [cbv; lia|].
  destruct (Hx s e) as [Hg Hk]. rewrite fsm_log_cons, granted_cons. simpl.
  destruct (g e (fsm_step s e).2) eqn:E; [|apply IH].
  destruct Hg as [_ Hg]; [done|]. rewrite (exclusive_spent g spent) by done. lia.
Qed.

(** ... and exactly once when a run grants it somewhere. *)
Lemma exclusive_exactly_once g spent s es1 e es2 :
  exclusive g spent -> g e (fsm_step (fsm_final s es1) e).2 = true ->
  granted g (fsm_log s (es1 ++ e :: es2)) = 1%nat.
Proof.
  intros Hx Hg. pose proof (exclusive_at_most_once g spent s (es1 ++ e :: es2) Hx) as H1.
  rewrite fsm_log_app, granted_app, fsm_log_cons, granted_cons in *. simpl in *.
  rewrite Hg in *. lia.
Qed.

(** When the right is the only way to become spent, the state tells whether it
    was granted. *)
Lemma exclusive_count g spent s es :
  exclusive g spent ->
  (forall s e, spent s = false -> spent (fsm_step s e).1 = true -> g e (fsm_step s e).2 = true) ->
  spent s = false ->
  granted g (fsm_log s es) = if spent (fsm_final s es) then 1%nat else 0%nat.
Proof.
  intros Hx Honly. revert s. induction es as [|e es IH]; intros s Hs.
  - unfold fsm_final. simpl. by rewrite Hs.
  - rewrite fsm_log_cons, granted_cons, fsm_final_cons. simpl.
    destruct (spent (fsm_step s e).1) eqn:E.
    + rewrite (Honly _ _ Hs E), (exclusive_spent g spent) by done.
      assert (spent (fsm_final (fsm_step s e).1 es) = true) as ->; [|done].
      apply (fsm_final_invariant (fun s => spent s = true)); [done|]. intros. by apply Hx.
    + rewrite IH by done. destruct (g e (fsm_step s e).2) eqn:G; [|done].
      apply Hx in G. destruct G. congruence.
Qed.

(** A machine is halted in states where every event is answered with nothing. *)
Definition halted (s : St) : Prop := forall e, fsm_step s e = (s, fsm_idle).

Lemma halted_final s es : halted s -> fsm_final s es = s.
Proof.
  intros Hh. induction es as [|e es IH]; [done|]. by rewrite fsm_final_cons, Hh.
Qed.

Lemma halted_silent s es : halted s -> Forall (eq fsm_idle) (fsm_trace s es).
Proof.
  intros Hh. induction es as [|e es IH]; [constructor|].
  rewrite fsm_trace_cons, Hh. by constructor.
Qed.

(** ** Scripts: the order in which rights are granted *)

(** [script s p] says that [p] is a complete remaining sequence of the rights
    selected by [f] from [s]; a transition consumes its head or nothing. *)
Definition scripted (f : Act -> bool) (script : St -> list Act -> Prop) : Prop :=
  (forall s, exists p, script s p) /\
  forall s e p, script (fsm_step s e).1 p ->
    script s (if f (fsm_step s e).2 then (fsm_step s e).2 :: p else p).

Lemma scripted_prefix f script s es :
  scripted f script ->
  exists p, script s p /\ filter (fun a => f a = true) (fsm_trace s es) `prefix_of` p.
Proof.
  intros [Hne Hs]. revert s. induction es as [|e es IH]; intros s.
  - destruct (Hne s) as [p Hp]. exists p. split; [done|]. apply prefix_nil.
  - destruct (IH (fsm_step s e).1) as (p & Hp & Hpre).
    exists (if f (fsm_step s e).2 then (fsm_step s e).2 :: p else p).
    split; [by apply Hs|]. rewrite fsm_trace_cons, filter_cons.
    case_decide as H; [rewrite H; by apply prefix_cons|].
    destruct (f (fsm_step s e).2); done.
Qed.

(** ** Progress *)

(** From every reachable state some continuation reaches [goal]. *)
Definition can_finish (goal : St -> Prop) (s0 : St) : Prop :=
  forall s, fsm_reach s0 s -> exists es, goal (fsm_final s es).

Lemma can_finish_inv (I goal : St -> Prop) s0 :
  I s0 -> (forall s e, I s -> I (fsm_step s e).1) ->
  (forall s, I s -> exists es, goal (fsm_final s es)) -> can_finish goal s0.
Proof. intros H0 Hs Hg s Hr. apply Hg. eapply fsm_invariant; eauto. Qed.

End runs.

(** Transition-level obligations of a finite machine: unfold, case on the
    state and the event, compute. *)
Ltac fsm_cases :=
  repeat match goal with
  | |- forall _, _ => intro
  | s : ?T |- _ => match goal with |- context [s] => is_var s; destruct s end
  end; vm_compute; intuition congruence.

#[export] Hint Resolve fsm_reach_refl fsm_reach_step : disco.
