(* ===== verification/IOReqFsm.v ===== *)
(** * IOReqFsm: the state machine of an IO request

    Translation of io_manager/discoC_IOReq_fsm.c (types from
    io_manager/discoC_IO_Manager.h): one definition per transition function,
    the dispatcher, the locked entry point [IOReq_update_state] and the
    functions that name states and actions.  The theorems say in which order
    the driver may work on an IO request, whatever the interleaving of the
    threads that deliver events. *)

From S2P Require Import Prelude Fsm.

Inductive IOR_FSM_TREvent_t : Type :=
| IOREQ_E_INIT_DONE
| IOREQ_E_OvlpOtherIO
| IOREQ_E_OvlpIODone
| IOREQ_E_RWUDataDone
| IOREQ_E_ReportMDDone
| IOREQ_E_HealDone
| IOREQ_E_IOSeg_IODone
| IOREQ_E_IOSeg_ReportMDDone.

#[global] Instance IOR_FSM_TREvent_t_eq_dec : EqDecision IOR_FSM_TREvent_t.
Proof. solve_decision. Defined.

Inductive IOR_FSM_action_t : Type :=
| IOREQ_A_START
| IOREQ_A_NoAction
| IOREQ_A_AddOvlpWaitQ
| IOREQ_A_SubmitIO
| IOREQ_A_DO_ReportMD
| IOREQ_A_DO_Healing
| IOREQ_A_FreeReq
| IOREQ_A_IOSegIODoneCIIOR
| IOREQ_A_IOSegMDReportDoneCIIOR
| IOREQ_A_END.

#[global] Instance IOR_FSM_action_t_eq_dec : EqDecision IOR_FSM_action_t.
Proof. solve_decision. Defined.

Definition IOR_FSM_action_t_num (x : IOR_FSM_action_t) : nat :=
  match x with
  | IOREQ_A_START => 0
  | IOREQ_A_NoAction => 1
  | IOREQ_A_AddOvlpWaitQ => 2
  | IOREQ_A_SubmitIO => 3
  | IOREQ_A_DO_ReportMD => 4
  | IOREQ_A_DO_Healing => 5
  | IOREQ_A_FreeReq => 6
  | IOREQ_A_IOSegIODoneCIIOR => 7
  | IOREQ_A_IOSegMDReportDoneCIIOR => 8
  | IOREQ_A_END => 9
  end.

Definition IOREQ_A_UNKNOWN : IOR_FSM_action_t := IOREQ_A_END.

Inductive IOR_FSM_state_t : Type :=
| IOREQ_S_START
| IOREQ_S_INIT
| IOREQ_S_RWUserData
| IOREQ_S_OvlpWait
| IOREQ_S_ReportMD
| IOREQ_S_SelfHealing
| IOREQ_S_ReqDone
| IOREQ_S_END.

#[global] Instance IOR_FSM_state_t_eq_dec : EqDecision IOR_FSM_state_t.
Proof. solve_decision. Defined.

Definition IOR_FSM_state_t_num (x : IOR_FSM_state_t) : nat :=
  match x with
  | IOREQ_S_START => 0
  | IOREQ_S_INIT => 1
  | IOREQ_S_RWUserData => 2
  | IOREQ_S_OvlpWait => 3
  | IOREQ_S_ReportMD => 4
  | IOREQ_S_SelfHealing => 5
  | IOREQ_S_ReqDone => 6
  | IOREQ_S_END => 7
  end.

Definition IOREQ_S_UNKNOWN : IOR_FSM_state_t := IOREQ_S_END.

Record IOReq_fsm_t : Type := {
  st_ioReq : IOR_FSM_state_t;
}.

Definition _update_ioReqState_Init (myStat : IOReq_fsm_t) (event : IOR_FSM_TREvent_t)
  : IOReq_fsm_t * IOR_FSM_action_t :=
  match event with
  | IOREQ_E_INIT_DONE =>
      ({| st_ioReq := IOREQ_S_RWUserData |}, IOREQ_A_SubmitIO)
  | IOREQ_E_OvlpOtherIO =>
      ({| st_ioReq := IOREQ_S_OvlpWait |}, IOREQ_A_AddOvlpWaitQ)
  | IOREQ_E_OvlpIODone | IOREQ_E_RWUDataDone | IOREQ_E_ReportMDDone
  | IOREQ_E_HealDone | IOREQ_E_IOSeg_IODone | IOREQ_E_IOSeg_ReportMDDone =>
      (myStat, IOREQ_A_NoAction)
  end.

Definition _update_ioReqState_RWUData (myStat : IOReq_fsm_t) (event : IOR_FSM_TREvent_t)
  : IOReq_fsm_t * IOR_FSM_action_t :=
  match event with
  | IOREQ_E_INIT_DONE | IOREQ_E_OvlpOtherIO | IOREQ_E_OvlpIODone =>
      (myStat, IOREQ_A_NoAction)
  | IOREQ_E_RWUDataDone =>
      ({| st_ioReq := IOREQ_S_ReportMD |}, IOREQ_A_DO_ReportMD)
  | IOREQ_E_ReportMDDone | IOREQ_E_HealDone =>
      (myStat, IOREQ_A_NoAction)
  | IOREQ_E_IOSeg_IODone =>
      (myStat, IOREQ_A_IOSegIODoneCIIOR)
  | IOREQ_E_IOSeg_ReportMDDone =>
      (myStat, IOREQ_A_NoAction)
  end.

Definition _update_ioReqState_OvlpWait (myStat : IOReq_fsm_t) (event : IOR_FSM_TREvent_t)
  : IOReq_fsm_t * IOR_FSM_action_t :=
  match event with
  | IOREQ_E_INIT_DONE | IOREQ_E_OvlpOtherIO =>
      (myStat, IOREQ_A_NoAction)
  | IOREQ_E_OvlpIODone =>
      ({| st_ioReq := IOREQ_S_RWUserData |}, IOREQ_A_SubmitIO)
  | IOREQ_E_RWUDataDone | IOREQ_E_ReportMDDone | IOREQ_E_HealDone
  | IOREQ_E_IOSeg_IODone | IOREQ_E_IOSeg_ReportMDDone =>
      (myStat, IOREQ_A_NoAction)
  end.

Definition _update_ioReqState_ReportMD (myStat : IOReq_fsm_t) (event : IOR_FSM_TREvent_t)
  : IOReq_fsm_t * IOR_FSM_action_t :=
  match event with
  | IOREQ_E_INIT_DONE | IOREQ_E_OvlpOtherIO | IOREQ_E_OvlpIODone
  | IOREQ_E_RWUDataDone =>
      (myStat, IOREQ_A_NoAction)
  | IOREQ_E_ReportMDDone =>
      ({| st_ioReq := IOREQ_S_SelfHealing |}, IOREQ_A_DO_Healing)
  | IOREQ_E_HealDone | IOREQ_E_IOSeg_IODone =>
      (myStat, IOREQ_A_NoAction)
  | IOREQ_E_IOSeg_ReportMDDone =>
      (myStat, IOREQ_A_IOSegMDReportDoneCIIOR)
  end.

Definition _update_ioReqState_SelfHeal (myStat : IOReq_fsm_t) (event : IOR_FSM_TREvent_t)
  : IOReq_fsm_t * IOR_FSM_action_t :=
  match event with
  | IOREQ_E_INIT_DONE | IOREQ_E_OvlpOtherIO | IOREQ_E_OvlpIODone
  | IOREQ_E_RWUDataDone | IOREQ_E_ReportMDDone =>
      (myStat, IOREQ_A_NoAction)
  | IOREQ_E_HealDone =>
      ({| st_ioReq := IOREQ_S_ReqDone |}, IOREQ_A_FreeReq)
  | IOREQ_E_IOSeg_IODone | IOREQ_E_IOSeg_ReportMDDone =>
      (myStat, IOREQ_A_NoAction)
  end.

Definition _update_ioReqState_ReqDone (myStat : IOReq_fsm_t) (event : IOR_FSM_TREvent_t)
  : IOReq_fsm_t * IOR_FSM_action_t :=
  match event with
  | IOREQ_E_INIT_DONE | IOREQ_E_OvlpOtherIO | IOREQ_E_OvlpIODone
  | IOREQ_E_RWUDataDone | IOREQ_E_ReportMDDone | IOREQ_E_HealDone
  | IOREQ_E_IOSeg_IODone | IOREQ_E_IOSeg_ReportMDDone =>
      (myStat, IOREQ_A_NoAction)
  end.

Definition _update_ioReqState_lockless (myStat : IOReq_fsm_t) (event : IOR_FSM_TREvent_t)
  : IOReq_fsm_t * IOR_FSM_action_t :=
  match st_ioReq myStat with
  | IOREQ_S_INIT => _update_ioReqState_Init myStat event
  | IOREQ_S_RWUserData => _update_ioReqState_RWUData myStat event
  | IOREQ_S_OvlpWait => _update_ioReqState_OvlpWait myStat event
  | IOREQ_S_ReportMD => _update_ioReqState_ReportMD myStat event
  | IOREQ_S_SelfHealing => _update_ioReqState_SelfHeal myStat event
  | IOREQ_S_ReqDone => _update_ioReqState_ReqDone myStat event
  | IOREQ_S_START | IOREQ_S_END => (myStat, IOREQ_A_NoAction)
  end.

Definition IOReq_update_state (stat : IOReq_fsm_t) (event : IOR_FSM_TREvent_t)
  : IOReq_fsm_t * IOR_FSM_action_t :=
  _update_ioReqState_lockless stat event.

Definition IOReq_get_state (stat : IOReq_fsm_t) : IOR_FSM_state_t := st_ioReq stat.

Definition ioReqStat_str : list string :=
  ["IOReqS unknown"%string;
   "IOReqS init"%string;
   "IOReqS Ovlp Wait Other IO"%string;
   "IOReqS R/W User Data"%string;
   "IOReqS Report MData"%string;
   "IOReqS Self Healing"%string;
   "IOReqS Request Done"%string;
   "IOReqS unknown"%string].

Definition ioReqAction_str : list string :=
  ["IOReqA Unknown"%string;
   "IOReqA No action"%string;
   "IOReqA Add Ovlp Wait Queue"%string;
   "IOReqA Submit IO"%string;
   "IOReqA DO Report Metadata"%string;
   "IOReqA DO Healing"%string;
   "IOReqA DO Free Request"%string;
   "IOReqA IOSegIODone CI IOReq"%string;
   "IOReqA IOSegMDReportDone CI IOReq"%string;
   "IOReqA Unknown"%string].

Definition IOReq_get_action_str (action : IOR_FSM_action_t) : string :=
  let n := IOR_FSM_action_t_num action in
  if bool_decide (IOR_FSM_action_t_num IOREQ_A_START < n /\ n < IOR_FSM_action_t_num IOREQ_A_END)%nat
  then default EmptyString (ioReqAction_str !! n)
  else default EmptyString (ioReqAction_str !! IOR_FSM_action_t_num IOREQ_A_UNKNOWN).

Definition IOReq_get_state_fsm_str (stat : IOReq_fsm_t) : string :=
  let n := IOR_FSM_state_t_num (IOReq_get_state stat) in
  if bool_decide (IOR_FSM_state_t_num IOREQ_S_START < n /\ n < IOR_FSM_state_t_num IOREQ_S_END)%nat
  then default EmptyString (ioReqStat_str !! n)
  else default EmptyString (ioReqStat_str !! IOR_FSM_state_t_num IOREQ_S_UNKNOWN).

Definition IOReq_init_fsm : IOReq_fsm_t := {| st_ioReq := IOREQ_S_INIT |}.

#[global] Instance IOReq_update_state_FSM : FSM IOReq_fsm_t IOR_FSM_TREvent_t IOR_FSM_action_t := {
  fsm_step := IOReq_update_state;
  fsm_idle := IOREQ_A_NoAction;
}.

(** The rights on the request as a whole (commits of single segments left out). *)
Definition ior_lifecycle (a : IOR_FSM_action_t) : bool :=
  match a with
  | IOREQ_A_NoAction | IOREQ_A_IOSegIODoneCIIOR | IOREQ_A_IOSegMDReportDoneCIIOR => false
  | _ => true
  end.

Definition ior_stages : list IOR_FSM_action_t :=
  [IOREQ_A_SubmitIO; IOREQ_A_DO_ReportMD; IOREQ_A_DO_Healing; IOREQ_A_FreeReq].

Definition ior_script (s : IOReq_fsm_t) (p : list IOR_FSM_action_t) : Prop :=
  match st_ioReq s with
  | IOREQ_S_INIT => p = ior_stages \/ p = IOREQ_A_AddOvlpWaitQ :: ior_stages
  | IOREQ_S_OvlpWait => p = ior_stages
  | IOREQ_S_RWUserData => p = drop 1 ior_stages
  | IOREQ_S_ReportMD => p = drop 2 ior_stages
  | IOREQ_S_SelfHealing => p = drop 3 ior_stages
  | _ => p = []
  end.

Lemma ior_scripted : scripted ior_lifecycle ior_script.
Proof.
  split.
  - intros [[]]; eexists; unfold ior_script; simpl; eauto.
  - intros [[]] [] p; unfold ior_script; simpl; intros Hp; subst; eauto.
Qed.

(** The lifecycle of an IO request.  Whatever events the threads deliver,
    in whatever order and number, the rights granted on the request are granted
    in the order submit, report metadata, heal, free, each at most once,
    preceded by at most one queueing on the overlap wait queue. *)
Theorem IOReq_lifecycle_order (es : list IOR_FSM_TREvent_t) :
  exists p, (p = ior_stages \/ p = IOREQ_A_AddOvlpWaitQ :: ior_stages) /\
    filter (fun a => ior_lifecycle a = true) (fsm_trace IOReq_init_fsm es) `prefix_of` p.
Proof.
  destruct (scripted_prefix _ _ IOReq_init_fsm es ior_scripted) as (p & Hp & Hpre).
  exists p. split; [exact Hp|exact Hpre].
Qed.

(** What the current state says about the past of the request. *)
Lemma ior_history es :
  (IOREQ_A_SubmitIO ∈ fsm_trace IOReq_init_fsm es <->
     match st_ioReq (fsm_final IOReq_init_fsm es) with
     | IOREQ_S_RWUserData | IOREQ_S_ReportMD | IOREQ_S_SelfHealing | IOREQ_S_ReqDone => True
     | _ => False end) /\
  (IOREQ_A_DO_ReportMD ∈ fsm_trace IOReq_init_fsm es <->
     match st_ioReq (fsm_final IOReq_init_fsm es) with
     | IOREQ_S_ReportMD | IOREQ_S_SelfHealing | IOREQ_S_ReqDone => True
     | _ => False end).
Proof.
  induction es as [|e es IH] using rev_ind.
  - cbn. rewrite !elem_of_nil. tauto.
  - rewrite fsm_trace_app, fsm_final_app, !elem_of_app, !fsm_trace_cons, !fsm_final_cons.
    destruct (fsm_final IOReq_init_fsm es) as [st]. cbn in IH.
    destruct st, e; cbn; rewrite ?list_elem_of_singleton; intuition congruence.
Qed.

(** A finished segment may be committed to its IO request exactly while
    user data is in flight (after submit was granted, before metadata reporting
    was), and a finished metadata report exactly from then on until healing. *)
Theorem IOReq_segment_commit_window (es : list IOR_FSM_TREvent_t) :
  (IOReq_update_state (fsm_final IOReq_init_fsm es) IOREQ_E_IOSeg_IODone).2 = IOREQ_A_IOSegIODoneCIIOR
  <-> IOREQ_A_SubmitIO ∈ fsm_trace IOReq_init_fsm es /\
      IOREQ_A_DO_ReportMD ∉ fsm_trace IOReq_init_fsm es.
Proof.
  destruct (ior_history es) as [H1 H2]. rewrite H1, H2.
  destruct (fsm_final IOReq_init_fsm es) as [[]]; cbn; intuition congruence.
Qed.

(** The names printed for two states are exchanged: a request that reads or
    writes user data is shown as waiting for an overlapping IO and vice versa
    (the table of names lists the states in another order than the enum). *)
Theorem IOReq_state_names_exchanged :
  IOReq_get_state_fsm_str {| st_ioReq := IOREQ_S_RWUserData |} = "IOReqS Ovlp Wait Other IO"%string /\
  IOReq_get_state_fsm_str {| st_ioReq := IOREQ_S_OvlpWait |} = "IOReqS R/W User Data"%string.
Proof. split; reflexivity. Qed.

(** A request that was freed is never worked on again. *)
Lemma IOReq_done_halted : halted (M := IOReq_update_state_FSM) {| st_ioReq := IOREQ_S_ReqDone |}.
Proof. by intros []. Qed.

(** Every request can be driven to the end from wherever it is. *)
Lemma IOReq_can_finish :
  can_finish (fun s => s = {| st_ioReq := IOREQ_S_ReqDone |}) IOReq_init_fsm.
Proof.
  apply (can_finish_inv (fun s => st_ioReq s <> IOREQ_S_START /\ st_ioReq s <> IOREQ_S_END)).
  - done.
  - intros [[]] []; done.
  - intros [[]] []; try done.
    + by exists [IOREQ_E_INIT_DONE; IOREQ_E_RWUDataDone; IOREQ_E_ReportMDDone; IOREQ_E_HealDone].
    + by exists [IOREQ_E_RWUDataDone; IOREQ_E_ReportMDDone; IOREQ_E_HealDone].
    + by exists [IOREQ_E_OvlpIODone; IOREQ_E_RWUDataDone; IOREQ_E_ReportMDDone; IOREQ_E_HealDone].
    + by exists [IOREQ_E_ReportMDDone; IOREQ_E_HealDone].
    + by exists [IOREQ_E_HealDone].
    + by exists [].
Qed.
