(* ===== verification/IOSegReqFsm.v ===== *)
(** * IOSegReqFsm: the state machine of an IO segment request

    Translation of io_manager/discoC_ioSegReq_fsm.c (types from
    io_manager/discoC_IOSegment_Request.h).  A segment first acquires metadata
    and then moves user data; a segment that is not aligned to 4K reads before
    it writes; a read that finds the datanode out of step with the metadata
    acquires the true metadata and reads again.  The theorems count the rights
    granted in a run. *)

From S2P Require Import Prelude Fsm.

Inductive IOSegREQ_FSM_TREvent_t : Type :=
| IOSegREQ_E_INIT_4KW
| IOSegREQ_E_W_AcqMD_DONE
| IOSegREQ_E_W_ALLPL_DONE
| IOSegREQ_E_INIT_R
| IOSegREQ_E_R_AcqMD_DONE
| IOSegREQ_E_R_ALLPL_DONE
| IOSegREQ_E_W_RPhase_DONE
| IOSegREQ_E_R_RPhase_DONE
| IOSegREQ_E_MDUD_UNSYNC
| IOSegREQ_E_ATrueMD_DONE.

#[global] Instance IOSegREQ_FSM_TREvent_t_eq_dec : EqDecision IOSegREQ_FSM_TREvent_t.
Proof. solve_decision. Defined.

Inductive IOSegREQ_FSM_action_t : Type :=
| IOSegREQ_A_START
| IOSegREQ_A_NoAction
| IOSegREQ_A_RetryTR
| IOSegREQ_A_W_AcqMD
| IOSegREQ_A_DO_WUD
| IOSegREQ_A_R_AcqMD
| IOSegREQ_A_DO_RUD
| IOSegREQ_A_DO_ATrueMD_PROC
| IOSegREQ_A_DO_ATrueMD_DONE
| IOSegREQ_A_DO_CI2IOSegREQ
| IOSegREQ_A_DO_CI2IOREQ
| IOSegREQ_A_END.

#[global] Instance IOSegREQ_FSM_action_t_eq_dec : EqDecision IOSegREQ_FSM_action_t.
Proof. solve_decision. Defined.

Definition IOSegREQ_FSM_action_t_num (x : IOSegREQ_FSM_action_t) : nat :=
  match x with
  | IOSegREQ_A_START => 0
  | IOSegREQ_A_NoAction => 1
  | IOSegREQ_A_RetryTR => 2
  | IOSegREQ_A_W_AcqMD => 3
  | IOSegREQ_A_DO_WUD => 4
  | IOSegREQ_A_R_AcqMD => 5
  | IOSegREQ_A_DO_RUD => 6
  | IOSegREQ_A_DO_ATrueMD_PROC => 7
  | IOSegREQ_A_DO_ATrueMD_DONE => 8
  | IOSegREQ_A_DO_CI2IOSegREQ => 9
  | IOSegREQ_A_DO_CI2IOREQ => 10
  | IOSegREQ_A_END => 11
  end.

Definition IOSegREQ_A_UNKNOWN : IOSegREQ_FSM_action_t := IOSegREQ_A_END.

Inductive IOSegREQ_FSM_state_t : Type :=
| IOSegREQ_S_START
| IOSegREQ_S_INIT
| IOSegREQ_S_W_AcqMD
| IOSegREQ_S_WUD
| IOSegREQ_S_R_AcqMD
| IOSegREQ_S_RUD
| IOSegREQ_S_ATrueMD_Proc
| IOSegREQ_S_CI2IOSeg
| IOSegREQ_S_CI2IOR
| IOSegREQ_S_END.

#[global] Instance IOSegREQ_FSM_state_t_eq_dec : EqDecision IOSegREQ_FSM_state_t.
Proof. solve_decision. Defined.

Definition IOSegREQ_FSM_state_t_num (x : IOSegREQ_FSM_state_t) : nat :=
  match x with
  | IOSegREQ_S_START => 0
  | IOSegREQ_S_INIT => 1
  | IOSegREQ_S_W_AcqMD => 2
  | IOSegREQ_S_WUD => 3
  | IOSegREQ_S_R_AcqMD => 4
  | IOSegREQ_S_RUD => 5
  | IOSegREQ_S_ATrueMD_Proc => 6
  | IOSegREQ_S_CI2IOSeg => 7
  | IOSegREQ_S_CI2IOR => 8
  | IOSegREQ_S_END => 9
  end.

Definition IOSegREQ_S_UNKNOWN : IOSegREQ_FSM_state_t := IOSegREQ_S_END.

Inductive IOSegREQ_ciFSM_state_t : Type :=
| IOSegREQ_CI_S_START
| IOSegREQ_CI_S_INIT
| IOSegREQ_CI_S_CI.

#[global] Instance IOSegREQ_ciFSM_state_t_eq_dec : EqDecision IOSegREQ_ciFSM_state_t.
Proof. solve_decision. Defined.

Record IOSegReq_fsm_t : Type := {
  st_ioSegReq : IOSegREQ_FSM_state_t;
  cist_ioSegReq : IOSegREQ_ciFSM_state_t;
}.

Definition _update_ioSegReqState_Init (myStat : IOSegReq_fsm_t) (event : IOSegREQ_FSM_TREvent_t)
  : IOSegReq_fsm_t * IOSegREQ_FSM_action_t :=
  match event with
  | IOSegREQ_E_INIT_4KW =>
      ({| st_ioSegReq := IOSegREQ_S_W_AcqMD; cist_ioSegReq := cist_ioSegReq myStat |}, IOSegREQ_A_W_AcqMD)
  | IOSegREQ_E_W_AcqMD_DONE | IOSegREQ_E_W_ALLPL_DONE =>
      (myStat, IOSegREQ_A_NoAction)
  | IOSegREQ_E_INIT_R =>
      ({| st_ioSegReq := IOSegREQ_S_R_AcqMD; cist_ioSegReq := cist_ioSegReq myStat |}, IOSegREQ_A_R_AcqMD)
  | IOSegREQ_E_R_AcqMD_DONE | IOSegREQ_E_R_ALLPL_DONE | IOSegREQ_E_W_RPhase_DONE
  | IOSegREQ_E_R_RPhase_DONE | IOSegREQ_E_MDUD_UNSYNC | IOSegREQ_E_ATrueMD_DONE =>
      (myStat, IOSegREQ_A_NoAction)
  end.

Definition _update_ioSegReqState_WAcqMD (myStat : IOSegReq_fsm_t) (event : IOSegREQ_FSM_TREvent_t)
  : IOSegReq_fsm_t * IOSegREQ_FSM_action_t :=
  match event with
  | IOSegREQ_E_INIT_4KW =>
      (myStat, IOSegREQ_A_NoAction)
  | IOSegREQ_E_W_AcqMD_DONE =>
      ({| st_ioSegReq := IOSegREQ_S_WUD; cist_ioSegReq := cist_ioSegReq myStat |}, IOSegREQ_A_DO_WUD)
  | IOSegREQ_E_W_ALLPL_DONE | IOSegREQ_E_INIT_R | IOSegREQ_E_R_AcqMD_DONE
  | IOSegREQ_E_R_ALLPL_DONE | IOSegREQ_E_W_RPhase_DONE | IOSegREQ_E_R_RPhase_DONE
  | IOSegREQ_E_MDUD_UNSYNC | IOSegREQ_E_ATrueMD_DONE =>
      (myStat, IOSegREQ_A_NoAction)
  end.

Definition _update_ioSegReqState_WriteUD (myStat : IOSegReq_fsm_t) (event : IOSegREQ_FSM_TREvent_t)
  : IOSegReq_fsm_t * IOSegREQ_FSM_action_t :=
  match event with
  | IOSegREQ_E_INIT_4KW | IOSegREQ_E_W_AcqMD_DONE =>
      (myStat, IOSegREQ_A_NoAction)
  | IOSegREQ_E_W_ALLPL_DONE =>
      ({| st_ioSegReq := IOSegREQ_S_CI2IOR; cist_ioSegReq := cist_ioSegReq myStat |}, IOSegREQ_A_DO_CI2IOREQ)
  | IOSegREQ_E_INIT_R | IOSegREQ_E_R_AcqMD_DONE | IOSegREQ_E_R_ALLPL_DONE
  | IOSegREQ_E_W_RPhase_DONE | IOSegREQ_E_R_RPhase_DONE | IOSegREQ_E_MDUD_UNSYNC
  | IOSegREQ_E_ATrueMD_DONE =>
      (myStat, IOSegREQ_A_NoAction)
  end.

Definition _update_ioSegReqState_RAcqMD (myStat : IOSegReq_fsm_t) (event : IOSegREQ_FSM_TREvent_t)
  : IOSegReq_fsm_t * IOSegREQ_FSM_action_t :=
  match event with
  | IOSegREQ_E_INIT_4KW | IOSegREQ_E_W_AcqMD_DONE | IOSegREQ_E_W_ALLPL_DONE
  | IOSegREQ_E_INIT_R =>
      (myStat, IOSegREQ_A_NoAction)
  | IOSegREQ_E_R_AcqMD_DONE =>
      ({| st_ioSegReq := IOSegREQ_S_RUD; cist_ioSegReq := cist_ioSegReq myStat |}, IOSegREQ_A_DO_RUD)
  | IOSegREQ_E_R_ALLPL_DONE | IOSegREQ_E_W_RPhase_DONE | IOSegREQ_E_R_RPhase_DONE
  | IOSegREQ_E_MDUD_UNSYNC | IOSegREQ_E_ATrueMD_DONE =>
      (myStat, IOSegREQ_A_NoAction)
  end.

Definition _update_ioSegReqState_ReadUD (myStat : IOSegReq_fsm_t) (event : IOSegREQ_FSM_TREvent_t)
  : IOSegReq_fsm_t * IOSegREQ_FSM_action_t :=
  match event with
  | IOSegREQ_E_INIT_4KW | IOSegREQ_E_W_AcqMD_DONE | IOSegREQ_E_W_ALLPL_DONE
  | IOSegREQ_E_INIT_R | IOSegREQ_E_R_AcqMD_DONE =>
      (myStat, IOSegREQ_A_NoAction)
  | IOSegREQ_E_R_ALLPL_DONE =>
      ({| st_ioSegReq := IOSegREQ_S_CI2IOSeg; cist_ioSegReq := cist_ioSegReq myStat |}, IOSegREQ_A_DO_CI2IOSegREQ)
  | IOSegREQ_E_W_RPhase_DONE | IOSegREQ_E_R_RPhase_DONE =>
      (myStat, IOSegREQ_A_NoAction)
  | IOSegREQ_E_MDUD_UNSYNC =>
      ({| st_ioSegReq := IOSegREQ_S_ATrueMD_Proc; cist_ioSegReq := cist_ioSegReq myStat |}, IOSegREQ_A_DO_ATrueMD_PROC)
  | IOSegREQ_E_ATrueMD_DONE =>
      (myStat, IOSegREQ_A_NoAction)
  end.

Definition _update_ioSegReqState_ProcAcqTMD (myStat : IOSegReq_fsm_t) (event : IOSegREQ_FSM_TREvent_t)
  : IOSegReq_fsm_t * IOSegREQ_FSM_action_t :=
  match event with
  | IOSegREQ_E_INIT_4KW | IOSegREQ_E_W_AcqMD_DONE | IOSegREQ_E_W_ALLPL_DONE
  | IOSegREQ_E_INIT_R | IOSegREQ_E_R_AcqMD_DONE =>
      (myStat, IOSegREQ_A_NoAction)
  | IOSegREQ_E_R_ALLPL_DONE =>
      (myStat, IOSegREQ_A_RetryTR)
  | IOSegREQ_E_W_RPhase_DONE | IOSegREQ_E_R_RPhase_DONE =>
      (myStat, IOSegREQ_A_NoAction)
  | IOSegREQ_E_MDUD_UNSYNC =>
      (myStat, IOSegREQ_A_RetryTR)
  | IOSegREQ_E_ATrueMD_DONE =>
      ({| st_ioSegReq := IOSegREQ_S_RUD; cist_ioSegReq := cist_ioSegReq myStat |}, IOSegREQ_A_DO_RUD)
  end.

Definition _update_ioSegReqState_CIIOSeg (myStat : IOSegReq_fsm_t) (event : IOSegREQ_FSM_TREvent_t)
  : IOSegReq_fsm_t * IOSegREQ_FSM_action_t :=
  match event with
  | IOSegREQ_E_INIT_4KW | IOSegREQ_E_W_AcqMD_DONE | IOSegREQ_E_W_ALLPL_DONE
  | IOSegREQ_E_INIT_R | IOSegREQ_E_R_AcqMD_DONE | IOSegREQ_E_R_ALLPL_DONE =>
      (myStat, IOSegREQ_A_NoAction)
  | IOSegREQ_E_W_RPhase_DONE =>
      ({| st_ioSegReq := IOSegREQ_S_W_AcqMD; cist_ioSegReq := cist_ioSegReq myStat |}, IOSegREQ_A_W_AcqMD)
  | IOSegREQ_E_R_RPhase_DONE =>
      ({| st_ioSegReq := IOSegREQ_S_CI2IOR; cist_ioSegReq := cist_ioSegReq myStat |}, IOSegREQ_A_DO_CI2IOREQ)
  | IOSegREQ_E_MDUD_UNSYNC | IOSegREQ_E_ATrueMD_DONE =>
      (myStat, IOSegREQ_A_NoAction)
  end.

Definition _update_ioSegReqState_CIIOR (myStat : IOSegReq_fsm_t) (event : IOSegREQ_FSM_TREvent_t)
  : IOSegReq_fsm_t * IOSegREQ_FSM_action_t :=
  match event with
  | IOSegREQ_E_INIT_4KW | IOSegREQ_E_W_AcqMD_DONE | IOSegREQ_E_W_ALLPL_DONE
  | IOSegREQ_E_INIT_R | IOSegREQ_E_R_AcqMD_DONE | IOSegREQ_E_R_ALLPL_DONE
  | IOSegREQ_E_W_RPhase_DONE | IOSegREQ_E_R_RPhase_DONE | IOSegREQ_E_MDUD_UNSYNC
  | IOSegREQ_E_ATrueMD_DONE =>
      (myStat, IOSegREQ_A_NoAction)
  end.

Definition _update_ioSegReqState_lockless (myStat : IOSegReq_fsm_t) (event : IOSegREQ_FSM_TREvent_t)
  : IOSegReq_fsm_t * IOSegREQ_FSM_action_t :=
  match st_ioSegReq myStat with
  | IOSegREQ_S_INIT => _update_ioSegReqState_Init myStat event
  | IOSegREQ_S_W_AcqMD => _update_ioSegReqState_WAcqMD myStat event
  | IOSegREQ_S_WUD => _update_ioSegReqState_WriteUD myStat event
  | IOSegREQ_S_R_AcqMD => _update_ioSegReqState_RAcqMD myStat event
  | IOSegREQ_S_RUD => _update_ioSegReqState_ReadUD myStat event
  | IOSegREQ_S_ATrueMD_Proc => _update_ioSegReqState_ProcAcqTMD myStat event
  | IOSegREQ_S_CI2IOSeg => _update_ioSegReqState_CIIOSeg myStat event
  | IOSegREQ_S_CI2IOR => _update_ioSegReqState_CIIOR myStat event
  | IOSegREQ_S_START | IOSegREQ_S_END => (myStat, IOSegREQ_A_NoAction)
  end.

Definition IOSegReq_update_state (stat : IOSegReq_fsm_t) (event : IOSegREQ_FSM_TREvent_t)
  : IOSegReq_fsm_t * IOSegREQ_FSM_action_t :=
  _update_ioSegReqState_lockless stat event.

Definition IOSegReq_get_state (stat : IOSegReq_fsm_t) : IOSegREQ_FSM_state_t := st_ioSegReq stat.

Definition ioSegReqStat_str : list string :=
  ["IOSegS unknown"%string;
   "IOSegS init"%string;
   "IOSegS Acquire MD Write"%string;
   "IOSegS Write User Data"%string;
   "IOSegS Acquire MD Read"%string;
   "IOSegS Read User Data"%string;
   "IOSegS Process Acquire TrueMD"%string;
   "IOSegS CI IOSeg"%string;
   "IOSegS CI IOReq"%string;
   "IOSegS unknown"%string].

Definition ioSegReqAction_str : list string :=
  ["IOSegA Unknown"%string;
   "IOSegA No action"%string;
   "IOSegA Retry TR"%string;
   "IOSegA Acquire MD Write"%string;
   "IOSegA Write User Data"%string;
   "IOSegA Acquire MD Read"%string;
   "IOSegA Read User Data"%string;
   "IOSReqA Process Acquire TrueMD"%string;
   "IOSegA Process Acquire TrueMD DONE"%string;
   "IOSegA CI IOSegReq"%string;
   "IOSegA CI IOReq"%string;
   "IOSegA Unknown"%string].

Definition IOSegReq_get_action_str (action : IOSegREQ_FSM_action_t) : string :=
  let n := IOSegREQ_FSM_action_t_num action in
  if bool_decide (IOSegREQ_FSM_action_t_num IOSegREQ_A_START < n /\ n < IOSegREQ_FSM_action_t_num IOSegREQ_A_END)%nat
  then default EmptyString (ioSegReqAction_str !! n)
  else default EmptyString (ioSegReqAction_str !! IOSegREQ_FSM_action_t_num IOSegREQ_A_UNKNOWN).

Definition IOSegReq_get_state_fsm_str (stat : IOSegReq_fsm_t) : string :=
  let n := IOSegREQ_FSM_state_t_num (IOSegReq_get_state stat) in
  if bool_decide (IOSegREQ_FSM_state_t_num IOSegREQ_S_START < n /\ n < IOSegREQ_FSM_state_t_num IOSegREQ_S_END)%nat
  then default EmptyString (ioSegReqStat_str !! n)
  else default EmptyString (ioSegReqStat_str !! IOSegREQ_FSM_state_t_num IOSegREQ_S_UNKNOWN).

Definition IOSegReq_init_fsm : IOSegReq_fsm_t := {| st_ioSegReq := IOSegREQ_S_INIT; cist_ioSegReq := IOSegREQ_CI_S_INIT |}.

#[global] Instance IOSegReq_update_state_FSM : FSM IOSegReq_fsm_t IOSegREQ_FSM_TREvent_t IOSegREQ_FSM_action_t := {
  fsm_step := IOSegReq_update_state;
  fsm_idle := IOSegREQ_A_NoAction;
}.

(** How often an answer occurs in a run from the initial state. *)
Definition seg_count (a : IOSegREQ_FSM_action_t) (es : list IOSegREQ_FSM_TREvent_t) : nat :=
  granted (fun _ b => bool_decide (b = a)) (fsm_log IOSegReq_init_fsm es).

Definition seg_in (l : list IOSegREQ_FSM_state_t) (es : list IOSegREQ_FSM_TREvent_t) : nat :=
  if bool_decide (st_ioSegReq (fsm_final IOSegReq_init_fsm es) ∈ l) then 1 else 0.

Lemma seg_count_snoc a es e :
  seg_count a (es ++ [e]) =
  (seg_count a es +
   if bool_decide ((IOSegReq_update_state (fsm_final IOSegReq_init_fsm es) e).2 = a) then 1 else 0)%nat.
Proof.
  unfold seg_count. rewrite fsm_log_app, granted_app, fsm_log_cons, granted_cons.
  cbn. case_bool_decide; cbn; lia.
Qed.

Lemma seg_final_snoc es e :
  fsm_final IOSegReq_init_fsm (es ++ [e]) =
  (IOSegReq_update_state (fsm_final IOSegReq_init_fsm es) e).1.
Proof. by rewrite fsm_final_app, fsm_final_cons. Qed.

(** Metadata comes before data.  In every run, each right to write user
    data was preceded by its own right to acquire write metadata, and each right
    to read user data by one to acquire read metadata or to process a true
    metadata request: the counts differ by exactly the acquisition in progress. *)
Theorem IOSegReq_metadata_before_data (es : list IOSegREQ_FSM_TREvent_t) :
  seg_count IOSegREQ_A_W_AcqMD es =
    (seg_count IOSegREQ_A_DO_WUD es + seg_in [IOSegREQ_S_W_AcqMD] es)%nat /\
  (seg_count IOSegREQ_A_R_AcqMD es + seg_count IOSegREQ_A_DO_ATrueMD_PROC es)%nat =
    (seg_count IOSegREQ_A_DO_RUD es + seg_in [IOSegREQ_S_R_AcqMD; IOSegREQ_S_ATrueMD_Proc] es)%nat.
Proof.
  induction es as [|e es IH] using rev_ind; [by vm_compute|].
  rewrite !seg_count_snoc. unfold seg_in in *. rewrite !seg_final_snoc.
  revert IH. generalize (seg_count IOSegREQ_A_W_AcqMD es) (seg_count IOSegREQ_A_DO_WUD es)
    (seg_count IOSegREQ_A_R_AcqMD es) (seg_count IOSegREQ_A_DO_ATrueMD_PROC es)
    (seg_count IOSegREQ_A_DO_RUD es). intros.
  destruct (fsm_final IOSegReq_init_fsm es) as [[] ci], e; cbn in *; eval_decide; cbn in *; lia.
Qed.

Definition seg_commit (_ : IOSegREQ_FSM_TREvent_t) (a : IOSegREQ_FSM_action_t) : bool :=
  bool_decide (a = IOSegREQ_A_DO_CI2IOREQ).

Definition seg_committed (s : IOSegReq_fsm_t) : bool :=
  bool_decide (st_ioSegReq s = IOSegREQ_S_CI2IOR).

Lemma seg_commit_exclusive : exclusive seg_commit seg_committed.
Proof. intros [[] ci] []; vm_compute; intuition congruence. Qed.

Lemma seg_committed_halted s : seg_committed s = true -> halted (M := IOSegReq_update_state_FSM) s.
Proof. destruct s as [[] ci]; try done; by intros _ []. Qed.

(** A segment is committed to its IO request at most once, and after the
    commit was granted every further event is answered with no action. *)
Theorem IOSegReq_commit_final (es1 es2 : list IOSegREQ_FSM_TREvent_t) (e : IOSegREQ_FSM_TREvent_t) :
  (IOSegReq_update_state (fsm_final IOSegReq_init_fsm es1) e).2 = IOSegREQ_A_DO_CI2IOREQ ->
  seg_count IOSegREQ_A_DO_CI2IOREQ (es1 ++ e :: es2) = 1%nat /\
  Forall (eq IOSegREQ_A_NoAction) (fsm_trace (fsm_final IOSegReq_init_fsm (es1 ++ [e])) es2).
Proof.
  intros H. split.
  - apply (exclusive_exactly_once seg_commit seg_committed); [apply seg_commit_exclusive|].
    by apply bool_decide_eq_true.
  - apply (halted_silent (M := IOSegReq_update_state_FSM)). apply seg_committed_halted.
    rewrite seg_final_snoc.
    exact (exclusive_grant seg_commit seg_committed (fsm_final IOSegReq_init_fsm es1) e
             seg_commit_exclusive (bool_decide_eq_true_2 _ H)).
Qed.

Lemma IOSegReq_commit_final_witness :
  seg_count IOSegREQ_A_DO_CI2IOREQ
    ([IOSegREQ_E_INIT_R; IOSegREQ_E_R_AcqMD_DONE; IOSegREQ_E_MDUD_UNSYNC;
      IOSegREQ_E_ATrueMD_DONE; IOSegREQ_E_R_ALLPL_DONE] ++
     IOSegREQ_E_R_RPhase_DONE :: [IOSegREQ_E_R_RPhase_DONE; IOSegREQ_E_W_RPhase_DONE]) = 1%nat /\
  Forall (eq IOSegREQ_A_NoAction)
    (fsm_trace (fsm_final IOSegReq_init_fsm
      ([IOSegREQ_E_INIT_R; IOSegREQ_E_R_AcqMD_DONE; IOSegREQ_E_MDUD_UNSYNC;
        IOSegREQ_E_ATrueMD_DONE; IOSegREQ_E_R_ALLPL_DONE] ++ [IOSegREQ_E_R_RPhase_DONE]))
      [IOSegREQ_E_R_RPhase_DONE; IOSegREQ_E_W_RPhase_DONE]).
Proof. apply IOSegReq_commit_final. reflexivity. Defined.
