(* ===== verification/PLReqFsm.v ===== *)
(** * PLReqFsm: the state machine of a payload request

    Translation of payload_manager/payload_request_fsm.c and .h.  Ack threads
    and the timeout thread compete for a payload request; the theorems show
    that exactly one of them commits it to the caller. *)

From S2P Require Import Prelude Fsm.

Inductive PLREQ_FSM_TREvent_t : Type :=
| PLREQ_E_InitDone
| PLREQ_E_CICaller
| PLREQ_E_TOFireChk
| PLREQ_E_TOFireChkDone.

#[global] Instance PLREQ_FSM_TREvent_t_eq_dec : EqDecision PLREQ_FSM_TREvent_t.
Proof. solve_decision. Defined.

Inductive PLREQ_FSM_action_t : Type :=
| PLREQ_A_START
| PLREQ_A_NoAction
| PLREQ_A_RWData
| PLREQ_A_DO_CICaller
| PLREQ_A_DO_TOFireChk
| PLREQ_A_DO_WaitData
| PLREQ_A_END.

#[global] Instance PLREQ_FSM_action_t_eq_dec : EqDecision PLREQ_FSM_action_t.
Proof. solve_decision. Defined.

Definition PLREQ_FSM_action_t_num (x : PLREQ_FSM_action_t) : nat :=
  match x with
  | PLREQ_A_START => 0
  | PLREQ_A_NoAction => 1
  | PLREQ_A_RWData => 2
  | PLREQ_A_DO_CICaller => 3
  | PLREQ_A_DO_TOFireChk => 4
  | PLREQ_A_DO_WaitData => 5
  | PLREQ_A_END => 6
  end.

Definition PLREQ_A_UNKNOWN : PLREQ_FSM_action_t := PLREQ_A_END.

Inductive PLREQ_FSM_state_t : Type :=
| PLREQ_S_START
| PLREQ_S_INIT
| PLREQ_S_WAIT_IO_DONE
| PLREQ_S_CI_CALLER
| PLREQ_S_TO_Check
| PLREQ_S_END.

#[global] Instance PLREQ_FSM_state_t_eq_dec : EqDecision PLREQ_FSM_state_t.
Proof. solve_decision. Defined.

Definition PLREQ_FSM_state_t_num (x : PLREQ_FSM_state_t) : nat :=
  match x with
  | PLREQ_S_START => 0
  | PLREQ_S_INIT => 1
  | PLREQ_S_WAIT_IO_DONE => 2
  | PLREQ_S_CI_CALLER => 3
  | PLREQ_S_TO_Check => 4
  | PLREQ_S_END => 5
  end.

Definition PLREQ_S_UNKNOWN : PLREQ_FSM_state_t := PLREQ_S_END.

Record PLReq_fsm_t : Type := {
  st_plReq : PLREQ_FSM_state_t;
}.

Definition _update_PLReqS_Init (myStat : PLReq_fsm_t) (event : PLREQ_FSM_TREvent_t)
  : PLReq_fsm_t * PLREQ_FSM_action_t :=
  match event with
  | PLREQ_E_InitDone =>
      ({| st_plReq := PLREQ_S_WAIT_IO_DONE |}, PLREQ_A_RWData)
  | PLREQ_E_CICaller | PLREQ_E_TOFireChk | PLREQ_E_TOFireChkDone =>
      (myStat, PLREQ_A_NoAction)
  end.

Definition _update_PLReqS_WaitIO (myStat : PLReq_fsm_t) (event : PLREQ_FSM_TREvent_t)
  : PLReq_fsm_t * PLREQ_FSM_action_t :=
  match event with
  | PLREQ_E_InitDone =>
      (myStat, PLREQ_A_NoAction)
  | PLREQ_E_CICaller =>
      ({| st_plReq := PLREQ_S_CI_CALLER |}, PLREQ_A_DO_CICaller)
  | PLREQ_E_TOFireChk =>
      ({| st_plReq := PLREQ_S_TO_Check |}, PLREQ_A_DO_TOFireChk)
  | PLREQ_E_TOFireChkDone =>
      (myStat, PLREQ_A_NoAction)
  end.

Definition _update_PLReqS_CICaller (myStat : PLReq_fsm_t) (event : PLREQ_FSM_TREvent_t)
  : PLReq_fsm_t * PLREQ_FSM_action_t :=
  match event with
  | PLREQ_E_InitDone | PLREQ_E_CICaller | PLREQ_E_TOFireChk
  | PLREQ_E_TOFireChkDone =>
      (myStat, PLREQ_A_NoAction)
  end.

Definition _update_PLReqS_TOCheck (myStat : PLReq_fsm_t) (event : PLREQ_FSM_TREvent_t)
  : PLReq_fsm_t * PLREQ_FSM_action_t :=
  match event with
  | PLREQ_E_InitDone =>
      (myStat, PLREQ_A_NoAction)
  | PLREQ_E_CICaller =>
      ({| st_plReq := PLREQ_S_CI_CALLER |}, PLREQ_A_DO_CICaller)
  | PLREQ_E_TOFireChk =>
      (myStat, PLREQ_A_NoAction)
  | PLREQ_E_TOFireChkDone =>
      ({| st_plReq := PLREQ_S_WAIT_IO_DONE |}, PLREQ_A_DO_WaitData)
  end.

Definition _update_plReqState_lockless (myStat : PLReq_fsm_t) (event : PLREQ_FSM_TREvent_t)
  : PLReq_fsm_t * PLREQ_FSM_action_t :=
  match st_plReq myStat with
  | PLREQ_S_INIT => _update_PLReqS_Init myStat event
  | PLREQ_S_WAIT_IO_DONE => _update_PLReqS_WaitIO myStat event
  | PLREQ_S_CI_CALLER => _update_PLReqS_CICaller myStat event
  | PLREQ_S_TO_Check => _update_PLReqS_TOCheck myStat event
  | PLREQ_S_START | PLREQ_S_END => (myStat, PLREQ_A_NoAction)
  end.

Definition PLReq_update_state (stat : PLReq_fsm_t) (event : PLREQ_FSM_TREvent_t)
  : PLReq_fsm_t * PLREQ_FSM_action_t :=
  _update_plReqState_lockless stat event.

Definition PLReq_get_state (stat : PLReq_fsm_t) : PLREQ_FSM_state_t := st_plReq stat.

Definition plReqStat_str : list string :=
  ["PLReq unknown"%string;
   "PLReq init"%string;
   "PLReq wait IO DONE"%string;
   "PLReq Commit Caller"%string;
   "PLReq timeout check"%string;
   "PLReq unknown"%string].

Definition plReqAction_str : list string :=
  ["PLReq Unknown"%string;
   "PLReq No action"%string;
   "PLReq RW Data"%string;
   "PLReq Commit Caller"%string;
   "PLReq timeout check"%string;
   "PLReq Wait Data"%string;
   "PLReq Unknown"%string].

Definition PLReq_get_action_str (action : PLREQ_FSM_action_t) : string :=
  let n := PLREQ_FSM_action_t_num action in
  if bool_decide (PLREQ_FSM_action_t_num PLREQ_A_START < n /\ n < PLREQ_FSM_action_t_num PLREQ_A_END)%nat
  then default EmptyString (plReqAction_str !! n)
  else default EmptyString (plReqAction_str !! PLREQ_FSM_action_t_num PLREQ_A_UNKNOWN).

Definition PLReq_get_state_str (stat : PLReq_fsm_t) : string :=
  let n := PLREQ_FSM_state_t_num (PLReq_get_state stat) in
  if bool_decide (PLREQ_FSM_state_t_num PLREQ_S_START < n /\ n < PLREQ_FSM_state_t_num PLREQ_S_END)%nat
  then default EmptyString (plReqStat_str !! n)
  else default EmptyString (plReqStat_str !! PLREQ_FSM_state_t_num PLREQ_S_UNKNOWN).

Definition PLReq_init_fsm : PLReq_fsm_t := {| st_plReq := PLREQ_S_INIT |}.

#[global] Instance PLReq_update_state_FSM : FSM PLReq_fsm_t PLREQ_FSM_TREvent_t PLREQ_FSM_action_t := {
  fsm_step := PLReq_update_state;
  fsm_idle := PLREQ_A_NoAction;
}.

Definition pl_commit (_ : PLREQ_FSM_TREvent_t) (a : PLREQ_FSM_action_t) : bool :=
  bool_decide (a = PLREQ_A_DO_CICaller).

Definition pl_committed (s : PLReq_fsm_t) : bool := bool_decide (st_plReq s = PLREQ_S_CI_CALLER).

Lemma pl_commit_exclusive : exclusive pl_commit pl_committed.
Proof. intros [[]] []; vm_compute; intuition congruence. Qed.

Lemma pl_committed_halted s : pl_committed s = true -> halted (M := PLReq_update_state_FSM) s.
Proof. destruct s as [[]]; try done; by intros _ []. Qed.

(** After initialisation a payload request waits, is checked, or is committed. *)
Definition pl_live (s : PLReq_fsm_t) : Prop :=
  match st_plReq s with
  | PLREQ_S_WAIT_IO_DONE | PLREQ_S_TO_Check | PLREQ_S_CI_CALLER => True
  | _ => False
  end.

Lemma pl_live_step s e : pl_live s -> pl_live (PLReq_update_state s e).1.
Proof. by destruct s as [[]], e. Qed.

Lemma pl_live_after_init es : PLREQ_E_InitDone ∈ es -> pl_live (fsm_final PLReq_init_fsm es).
Proof.
  intros Hin. cut (forall s, pl_live s \/ s = PLReq_init_fsm -> pl_live (fsm_final s es)).
  { intros H. apply H. by right. }
  induction es as [|e es IH]; intros s Hs; [by apply elem_of_nil in Hin|].
  rewrite fsm_final_cons. destruct Hs as [Hs| ->].
  - apply (fsm_final_invariant (M := PLReq_update_state_FSM) pl_live).
    + by apply pl_live_step.
    + apply pl_live_step.
  - destruct (decide (e = PLREQ_E_InitDone)) as [->|Hne].
    + apply (fsm_final_invariant (M := PLReq_update_state_FSM) pl_live); [done|apply pl_live_step].
    + apply IH; [apply elem_of_cons in Hin; intuition congruence|]. destruct e; try done; by right.
Qed.

(** Exactly one thread commits a payload request.  Once it was initialised,
    if at least one thread asks to commit it, the commit is granted exactly once
    over the whole run, however acknowledgements and timeout checks interleave. *)
Theorem PLReq_commit_exactly_once (es1 es2 : list PLREQ_FSM_TREvent_t) :
  PLREQ_E_InitDone ∈ es1 ->
  granted pl_commit (fsm_log PLReq_init_fsm (es1 ++ PLREQ_E_CICaller :: es2)) = 1%nat.
Proof.
  intros Hin%pl_live_after_init.
  rewrite (exclusive_count pl_commit pl_committed);
    [|apply pl_commit_exclusive|intros [[]] []; done|done].
  rewrite fsm_final_app, fsm_final_cons.
  enough (pl_committed (fsm_step (fsm_final PLReq_init_fsm es1) PLREQ_E_CICaller).1 = true) as H.
  { rewrite halted_final by (by apply pl_committed_halted). by rewrite H. }
  revert Hin. by destruct (fsm_final PLReq_init_fsm es1) as [[]].
Qed.

Lemma PLReq_commit_exactly_once_witness :
  granted pl_commit (fsm_log PLReq_init_fsm
    ([PLREQ_E_InitDone; PLREQ_E_TOFireChk; PLREQ_E_CICaller] ++
     PLREQ_E_CICaller :: [PLREQ_E_TOFireChkDone])) = 1%nat.
Proof. apply PLReq_commit_exactly_once. left. Defined.

(** The commit ends the competition: after it was granted, neither a timeout
    check nor a second commit nor anything else is ever granted. *)
Theorem PLReq_commit_silences (es1 es2 : list PLREQ_FSM_TREvent_t) (e : PLREQ_FSM_TREvent_t) :
  (PLReq_update_state (fsm_final PLReq_init_fsm es1) e).2 = PLREQ_A_DO_CICaller ->
  Forall (eq PLREQ_A_NoAction) (fsm_trace (fsm_final PLReq_init_fsm (es1 ++ [e])) es2).
Proof.
  intros H. apply (halted_silent (M := PLReq_update_state_FSM)), pl_committed_halted.
  rewrite fsm_final_app, fsm_final_cons.
  exact (exclusive_grant pl_commit pl_committed (fsm_final PLReq_init_fsm es1) e
           pl_commit_exclusive (bool_decide_eq_true_2 _ H)).
Qed.

Lemma PLReq_commit_silences_witness :
  Forall (eq PLREQ_A_NoAction)
    (fsm_trace (fsm_final PLReq_init_fsm ([PLREQ_E_InitDone; PLREQ_E_TOFireChk] ++ [PLREQ_E_CICaller]))
       [PLREQ_E_CICaller; PLREQ_E_TOFireChkDone]).
Proof. apply PLReq_commit_silences. reflexivity. Defined.
