(* ===== verification/DNUDReqFsm.v ===== *)
(** * DNUDReqFsm: the state machine of a datanode user-data request

    Translation of discoDN_client/discoC_DNUDReq_fsm.c (types from
    discoC_DNUData_Request.h) and of the cancel loop of
    [DNUDReq_cancel_Req] (discoC_DNUData_Request.c).  Sender, ack worker,
    housekeeping and canceller compete for a request; the theorems show that a
    final acknowledgement and a cancellation exclude each other, and what the
    cancel loop does in each state. *)

From S2P Require Import Prelude Fsm.

Inductive DNUDREQ_FSM_TREvent_t : Type :=
| DNREQ_E_InitDone
| DNREQ_E_PeekWorkQ
| DNREQ_E_SendDone
| DNREQ_E_FindReqOK_MemAck
| DNREQ_E_FindReqOK
| DNREQ_E_ConnBack
| DNREQ_E_RetryChkDone
| DNREQ_E_Cancel.

#[global] Instance DNUDREQ_FSM_TREvent_t_eq_dec : EqDecision DNUDREQ_FSM_TREvent_t.
Proof. solve_decision. Defined.

Inductive DNUDREQ_FSM_action_t : Type :=
| DNREQ_A_START
| DNREQ_A_NoAction
| DNREQ_A_DO_ADD_WORKQ
| DNREQ_A_DO_SEND
| DNREQ_A_DO_WAIT_RESP
| DNREQ_A_DO_PROCESS_RESP
| DNREQ_A_DO_RETRY_REQ
| DNREQ_A_DO_CANCEL_REQ
| DNREQ_A_DO_RETRY_CANCEL_REQ
| DNREQ_A_END.

#[global] Instance DNUDREQ_FSM_action_t_eq_dec : EqDecision DNUDREQ_FSM_action_t.
Proof. solve_decision. Defined.

Definition DNUDREQ_FSM_action_t_num (x : DNUDREQ_FSM_action_t) : nat :=
  match x with
  | DNREQ_A_START => 0
  | DNREQ_A_NoAction => 1
  | DNREQ_A_DO_ADD_WORKQ => 2
  | DNREQ_A_DO_SEND => 3
  | DNREQ_A_DO_WAIT_RESP => 4
  | DNREQ_A_DO_PROCESS_RESP => 5
  | DNREQ_A_DO_RETRY_REQ => 6
  | DNREQ_A_DO_CANCEL_REQ => 7
  | DNREQ_A_DO_RETRY_CANCEL_REQ => 8
  | DNREQ_A_END => 9
  end.

Definition DNREQ_A_UNKNOWN : DNUDREQ_FSM_action_t := DNREQ_A_END.

Inductive DNUDREQ_FSM_state_t : Type :=
| DNREQ_S_START
| DNREQ_S_INIT
| DNREQ_S_WAIT_SEND
| DNREQ_S_SENDING
| DNREQ_S_WAIT_RESP
| DNREQ_S_PROCESS_RESP
| DNREQ_S_RETRY_REQ
| DNREQ_S_CANCEL_REQ
| DNREQ_S_END.

#[global] Instance DNUDREQ_FSM_state_t_eq_dec : EqDecision DNUDREQ_FSM_state_t.
Proof. solve_decision. Defined.

Definition DNUDREQ_FSM_state_t_num (x : DNUDREQ_FSM_state_t) : nat :=
  match x with
  | DNREQ_S_START => 0
  | DNREQ_S_INIT => 1
  | DNREQ_S_WAIT_SEND => 2
  | DNREQ_S_SENDING => 3
  | DNREQ_S_WAIT_RESP => 4
  | DNREQ_S_PROCESS_RESP => 5
  | DNREQ_S_RETRY_REQ => 6
  | DNREQ_S_CANCEL_REQ => 7
  | DNREQ_S_END => 8
  end.

Definition DNREQ_S_UNKNOWN : DNUDREQ_FSM_state_t := DNREQ_S_END.

Record DNUDReq_fsm_t : Type := {
  st_dnReq : DNUDREQ_FSM_state_t;
}.

Definition _update_dnReqS_Init (dnRStat : DNUDReq_fsm_t) (event : DNUDREQ_FSM_TREvent_t)
  : DNUDReq_fsm_t * DNUDREQ_FSM_action_t :=
  match event with
  | DNREQ_E_InitDone =>
      ({| st_dnReq := DNREQ_S_WAIT_SEND |}, DNREQ_A_DO_ADD_WORKQ)
  | DNREQ_E_PeekWorkQ | DNREQ_E_SendDone | DNREQ_E_FindReqOK
  | DNREQ_E_FindReqOK_MemAck | DNREQ_E_ConnBack | DNREQ_E_RetryChkDone
  | DNREQ_E_Cancel =>
      (dnRStat, DNREQ_A_NoAction)
  end.

Definition _update_dnReqS_WaitSend (dnRStat : DNUDReq_fsm_t) (event : DNUDREQ_FSM_TREvent_t)
  : DNUDReq_fsm_t * DNUDREQ_FSM_action_t :=
  match event with
  | DNREQ_E_InitDone =>
      (dnRStat, DNREQ_A_NoAction)
  | DNREQ_E_PeekWorkQ =>
      ({| st_dnReq := DNREQ_S_SENDING |}, DNREQ_A_DO_SEND)
  | DNREQ_E_SendDone | DNREQ_E_FindReqOK | DNREQ_E_FindReqOK_MemAck
  | DNREQ_E_ConnBack | DNREQ_E_RetryChkDone =>
      (dnRStat, DNREQ_A_NoAction)
  | DNREQ_E_Cancel =>
      ({| st_dnReq := DNREQ_S_CANCEL_REQ |}, DNREQ_A_DO_CANCEL_REQ)
  end.

Definition _update_dnReqS_Sending (dnRStat : DNUDReq_fsm_t) (event : DNUDREQ_FSM_TREvent_t)
  : DNUDReq_fsm_t * DNUDREQ_FSM_action_t :=
  match event with
  | DNREQ_E_InitDone | DNREQ_E_PeekWorkQ =>
      (dnRStat, DNREQ_A_NoAction)
  | DNREQ_E_SendDone =>
      ({| st_dnReq := DNREQ_S_WAIT_RESP |}, DNREQ_A_DO_WAIT_RESP)
  | DNREQ_E_FindReqOK | DNREQ_E_FindReqOK_MemAck | DNREQ_E_ConnBack
  | DNREQ_E_RetryChkDone =>
      (dnRStat, DNREQ_A_NoAction)
  | DNREQ_E_Cancel =>
      ({| st_dnReq := DNREQ_S_CANCEL_REQ |}, DNREQ_A_DO_CANCEL_REQ)
  end.

Definition _update_dnReqS_WaitResp (dnRStat : DNUDReq_fsm_t) (event : DNUDREQ_FSM_TREvent_t)
  : DNUDReq_fsm_t * DNUDREQ_FSM_action_t :=
  match event with
  | DNREQ_E_InitDone | DNREQ_E_PeekWorkQ | DNREQ_E_SendDone =>
      (dnRStat, DNREQ_A_NoAction)
  | DNREQ_E_FindReqOK_MemAck =>
      (dnRStat, DNREQ_A_DO_PROCESS_RESP)
  | DNREQ_E_FindReqOK =>
      ({| st_dnReq := DNREQ_S_PROCESS_RESP |}, DNREQ_A_DO_PROCESS_RESP)
  | DNREQ_E_ConnBack =>
      ({| st_dnReq := DNREQ_S_RETRY_REQ |}, DNREQ_A_DO_RETRY_REQ)
  | DNREQ_E_RetryChkDone =>
      (dnRStat, DNREQ_A_NoAction)
  | DNREQ_E_Cancel =>
      ({| st_dnReq := DNREQ_S_CANCEL_REQ |}, DNREQ_A_DO_CANCEL_REQ)
  end.

Definition _update_dnReqS_PResp (dnRStat : DNUDReq_fsm_t) (event : DNUDREQ_FSM_TREvent_t)
  : DNUDReq_fsm_t * DNUDREQ_FSM_action_t :=
  match event with
  | DNREQ_E_InitDone | DNREQ_E_PeekWorkQ | DNREQ_E_SendDone
  | DNREQ_E_FindReqOK_MemAck | DNREQ_E_FindReqOK | DNREQ_E_ConnBack
  | DNREQ_E_RetryChkDone | DNREQ_E_Cancel =>
      (dnRStat, DNREQ_A_NoAction)
  end.

Definition _update_dnReqS_Retry (dnRStat : DNUDReq_fsm_t) (event : DNUDREQ_FSM_TREvent_t)
  : DNUDReq_fsm_t * DNUDREQ_FSM_action_t :=
  match event with
  | DNREQ_E_InitDone | DNREQ_E_PeekWorkQ | DNREQ_E_SendDone
  | DNREQ_E_FindReqOK_MemAck | DNREQ_E_FindReqOK | DNREQ_E_ConnBack =>
      (dnRStat, DNREQ_A_NoAction)
  | DNREQ_E_RetryChkDone =>
      ({| st_dnReq := DNREQ_S_WAIT_SEND |}, DNREQ_A_DO_ADD_WORKQ)
  | DNREQ_E_Cancel =>
      ({| st_dnReq := DNREQ_S_CANCEL_REQ |}, DNREQ_A_DO_RETRY_CANCEL_REQ)
  end.

Definition _update_dnReqS_Cancel (dnRStat : DNUDReq_fsm_t) (event : DNUDREQ_FSM_TREvent_t)
  : DNUDReq_fsm_t * DNUDREQ_FSM_action_t :=
  match event with
  | DNREQ_E_InitDone | DNREQ_E_PeekWorkQ | DNREQ_E_SendDone
  | DNREQ_E_FindReqOK_MemAck | DNREQ_E_FindReqOK | DNREQ_E_ConnBack
  | DNREQ_E_RetryChkDone | DNREQ_E_Cancel =>
      (dnRStat, DNREQ_A_NoAction)
  end.

Definition _update_dnReqState_lockless (myStat : DNUDReq_fsm_t) (event : DNUDREQ_FSM_TREvent_t)
  : DNUDReq_fsm_t * DNUDREQ_FSM_action_t :=
  match st_dnReq myStat with
  | DNREQ_S_INIT => _update_dnReqS_Init myStat event
  | DNREQ_S_WAIT_SEND => _update_dnReqS_WaitSend myStat event
  | DNREQ_S_SENDING => _update_dnReqS_Sending myStat event
  | DNREQ_S_WAIT_RESP => _update_dnReqS_WaitResp myStat event
  | DNREQ_S_PROCESS_RESP => _update_dnReqS_PResp myStat event
  | DNREQ_S_RETRY_REQ => _update_dnReqS_Retry myStat event
  | DNREQ_S_CANCEL_REQ => _update_dnReqS_Cancel myStat event
  | DNREQ_S_START | DNREQ_S_END => (myStat, DNREQ_A_NoAction)
  end.

Definition DNUDReq_update_state (stat : DNUDReq_fsm_t) (event : DNUDREQ_FSM_TREvent_t)
  : DNUDReq_fsm_t * DNUDREQ_FSM_action_t :=
  _update_dnReqState_lockless stat event.

Definition DNUDReq_get_state (stat : DNUDReq_fsm_t) : DNUDREQ_FSM_state_t := st_dnReq stat.

Definition dnReqStat_str : list string :=
  ["DNReq unknown"%string;
   "DNReq init"%string;
   "DNReq wait_send"%string;
   "DNReq sending"%string;
   "DNReq wait_resp"%string;
   "DNReq process_resp"%string;
   "DNReq retry_req"%string;
   "DNReq cancel_req"%string;
   "DNReq unknown"%string].

Definition dnReqAction_str : list string :=
  ["DNReq Unknown"%string;
   "DNReq No action"%string;
   "DNReq Do Add WorkerQ"%string;
   "DNReq Do Send Req"%string;
   "DNReq Do Wait Resp"%string;
   "DNReq Process Resp"%string;
   "DBReq Do retry req"%string;
   "DNReq Cancel Req"%string;
   "DNReq Retry Cancel Req"%string;
   "DNReq Unknown"%string].

Definition DNUDReq_get_action_str (action : DNUDREQ_FSM_action_t) : string :=
  let n := DNUDREQ_FSM_action_t_num action in
  if bool_decide (DNUDREQ_FSM_action_t_num DNREQ_A_START < n /\ n < DNUDREQ_FSM_action_t_num DNREQ_A_END)%nat
  then default EmptyString (dnReqAction_str !! n)
  else default EmptyString (dnReqAction_str !! DNUDREQ_FSM_action_t_num DNREQ_A_UNKNOWN).

Definition DNUDReq_get_state_str (stat : DNUDReq_fsm_t) : string :=
  let n := DNUDREQ_FSM_state_t_num (DNUDReq_get_state stat) in
  if bool_decide (DNUDREQ_FSM_state_t_num DNREQ_S_START < n /\ n < DNUDREQ_FSM_state_t_num DNREQ_S_END)%nat
  then default EmptyString (dnReqStat_str !! n)
  else default EmptyString (dnReqStat_str !! DNUDREQ_FSM_state_t_num DNREQ_S_UNKNOWN).

Definition DNUDReq_init_fsm : DNUDReq_fsm_t := {| st_dnReq := DNREQ_S_INIT |}.

#[global] Instance DNUDReq_update_state_FSM : FSM DNUDReq_fsm_t DNUDREQ_FSM_TREvent_t DNUDREQ_FSM_action_t := {
  fsm_step := DNUDReq_update_state;
  fsm_idle := DNREQ_A_NoAction;
}.

(** Rights that end the life of a request: processing the disk or read ack
    (not the memory ack), or cancelling it. *)
Definition dn_final (e : DNUDREQ_FSM_TREvent_t) (a : DNUDREQ_FSM_action_t) : bool :=
  match e, a with
  | DNREQ_E_FindReqOK, DNREQ_A_DO_PROCESS_RESP => true
  | _, (DNREQ_A_DO_CANCEL_REQ | DNREQ_A_DO_RETRY_CANCEL_REQ) => true
  | _, _ => false
  end.

Definition dn_ended (s : DNUDReq_fsm_t) : bool :=
  bool_decide (st_dnReq s ∈ [DNREQ_S_PROCESS_RESP; DNREQ_S_CANCEL_REQ]).

Lemma dn_final_exclusive : exclusive dn_final dn_ended.
Proof. intros [[]] []; vm_compute; intuition congruence. Qed.

Lemma dn_ended_halted s : dn_ended s = true -> halted (M := DNUDReq_update_state_FSM) s.
Proof. destruct s as [[]]; try done; by intros _ []. Qed.

(** A final acknowledgement and a cancellation of the same datanode request
    exclude each other: at most one of them is granted in any run. *)
Theorem DNUDReq_ack_xor_cancel (es : list DNUDREQ_FSM_TREvent_t) :
  (granted dn_final (fsm_log DNUDReq_init_fsm es) <= 1)%nat.
Proof. apply (exclusive_at_most_once dn_final dn_ended), dn_final_exclusive. Qed.

(** ** The cancel loop *)

(** The request as the canceller sees it: its state machine, who owns it, and
    whether it is in the request pool or was freed. *)
Record dn_request : Type := {
  dr_CallerReqID : Z;
  dr_stat : DNUDReq_fsm_t;
  dr_in_pool : bool;
  dr_freed : bool;
}.

(** One pass of the loop body: find the request in the pool, check its owner,
    send the cancel event; the answer decides between removing it from the
    pool, looping and giving up.  [action] is the variable of the function: a
    pass that does not find the request leaves it as the pass before set it. *)
Definition cancel_pass (r : dn_request) (callerID : Z) (action : DNUDREQ_FSM_action_t)
  : dn_request * DNUDREQ_FSM_action_t :=
  if negb (dr_in_pool r) then (r, action)
  else if negb (dr_CallerReqID r =? callerID) then (r, action)
  else
    let '(st, action) := DNUDReq_update_state (dr_stat r) DNREQ_E_Cancel in
    ({| dr_CallerReqID := dr_CallerReqID r;
        dr_stat := st;
        dr_in_pool := if decide (action = DNREQ_A_DO_CANCEL_REQ) then false else dr_in_pool r;
        dr_freed := dr_freed r |}, action).

(** The code from the label on; [None]: the fuel ran out while the loop still
    retries. *)
Fixpoint cancel_again (fuel : nat) (r : dn_request) (callerID : Z) (action : DNUDREQ_FSM_action_t)
  : option dn_request :=
  match fuel with
  | O => None
  | S fuel =>
      let '(r', action) := cancel_pass r callerID action in
      if decide (action = DNREQ_A_DO_RETRY_CANCEL_REQ) then cancel_again fuel r' callerID action
      else if decide (action = DNREQ_A_DO_CANCEL_REQ) then
        Some {| dr_CallerReqID := dr_CallerReqID r'; dr_stat := dr_stat r';
                dr_in_pool := dr_in_pool r'; dr_freed := true |}
      else Some r'
  end.

Definition DNUDReq_cancel_Req (fuel : nat) (r : dn_request) (callerID : Z) : option dn_request :=
  cancel_again fuel r callerID DNREQ_A_NoAction.

(** Two passes are always enough when nobody else touches the request. *)
Lemma cancel_terminates r callerID n : is_Some (DNUDReq_cancel_Req (2 + n) r callerID).
Proof.
  destruct r as [c [[]] [] f]; unfold DNUDReq_cancel_Req; cbn; unfold cancel_pass; cbn;
    destruct (c =? callerID) eqn:E; cbn; unfold cancel_pass; cbn; rewrite ?E; cbn; eauto.
Qed.

(** A request that leaves the pool between two passes (its response worker
    removes it) keeps the canceller in its loop for ever: the second pass does
    not reset the answer of the first. *)
Lemma cancel_spins r callerID fuel :
  dr_in_pool r = false -> cancel_again fuel r callerID DNREQ_A_DO_RETRY_CANCEL_REQ = None.
Proof.
  intros Hr. induction fuel as [|fuel IH]; [done|]. simpl. unfold cancel_pass.
  by rewrite Hr.
Qed.

(** What cancelling does to a request that its owner finds in the pool.  In
    the waiting, sending and waiting-for-response states it is removed from the
    pool and freed.  In the retry state the first pass already moves it to the
    cancelled state, the second is refused, and the request stays in the pool,
    unfreed, in a state in which every later event is refused: it is leaked. *)
Theorem DNUDReq_cancel_outcome (c : Z) (st : DNUDREQ_FSM_state_t) (n : nat) :
  DNUDReq_cancel_Req (2 + n)
    {| dr_CallerReqID := c; dr_stat := {| st_dnReq := st |}; dr_in_pool := true; dr_freed := false |} c
  = Some match st with
    | DNREQ_S_WAIT_SEND | DNREQ_S_SENDING | DNREQ_S_WAIT_RESP =>
        {| dr_CallerReqID := c; dr_stat := {| st_dnReq := DNREQ_S_CANCEL_REQ |};
           dr_in_pool := false; dr_freed := true |}
    | DNREQ_S_RETRY_REQ =>
        {| dr_CallerReqID := c; dr_stat := {| st_dnReq := DNREQ_S_CANCEL_REQ |};
           dr_in_pool := true; dr_freed := false |}
    | _ =>
        {| dr_CallerReqID := c; dr_stat := {| st_dnReq := st |};
           dr_in_pool := true; dr_freed := false |}
    end.
Proof.
  destruct st; cbn; unfold cancel_pass; cbn; rewrite ?Z.eqb_refl; cbn; rewrite ?Z.eqb_refl; reflexivity.
Qed.

(** The number of sends equals the number of queueings still to be sent plus
    those sent: every send right was preceded by a queueing right of its own. *)
Definition dn_count (a : DNUDREQ_FSM_action_t) (es : list DNUDREQ_FSM_TREvent_t) : nat :=
  granted (fun _ b => bool_decide (b = a)) (fsm_log DNUDReq_init_fsm es).

Lemma dn_count_snoc a es e :
  dn_count a (es ++ [e]) =
  (dn_count a es +
   if bool_decide ((DNUDReq_update_state (fsm_final DNUDReq_init_fsm es) e).2 = a) then 1 else 0)%nat.
Proof.
  unfold dn_count. rewrite fsm_log_app, granted_app, fsm_log_cons, granted_cons.
  cbn. case_bool_decide; cbn; lia.
Qed.

(** A request is sent at most once per queueing, and queued at most once
    more than it was sent for retry: sends never exceed queueings, and
    re-queueings never exceed granted retries. *)
Theorem DNUDReq_send_accounting (es : list DNUDREQ_FSM_TREvent_t) :
  (dn_count DNREQ_A_DO_SEND es <= dn_count DNREQ_A_DO_ADD_WORKQ es)%nat /\
  (dn_count DNREQ_A_DO_WAIT_RESP es <= dn_count DNREQ_A_DO_SEND es)%nat /\
  (dn_count DNREQ_A_DO_ADD_WORKQ es <= 1 + dn_count DNREQ_A_DO_RETRY_REQ es)%nat.
Proof.
  pose (q := fun es => match st_dnReq (fsm_final DNUDReq_init_fsm es) with
             | DNREQ_S_INIT => (0,0,0,1)%nat | DNREQ_S_WAIT_SEND => (1,0,0,0)%nat
             | DNREQ_S_SENDING => (0,1,0,0)%nat | DNREQ_S_RETRY_REQ => (0,0,1,0)%nat
             | _ => (0,0,0,0)%nat end).
  cut (dn_count DNREQ_A_DO_ADD_WORKQ es >= dn_count DNREQ_A_DO_SEND es + (q es).1.1.1 /\
       dn_count DNREQ_A_DO_SEND es >= dn_count DNREQ_A_DO_WAIT_RESP es + (q es).1.1.2 /\
       1 + dn_count DNREQ_A_DO_RETRY_REQ es >=
         dn_count DNREQ_A_DO_ADD_WORKQ es + (q es).1.2 + (q es).2)%nat; [lia|].
  subst q. induction es as [|e es IH] using rev_ind; [by vm_compute; lia|].
  rewrite !dn_count_snoc, !fsm_final_app, !fsm_final_cons in *.
  revert IH. generalize (dn_count DNREQ_A_DO_ADD_WORKQ es) (dn_count DNREQ_A_DO_SEND es)
    (dn_count DNREQ_A_DO_WAIT_RESP es) (dn_count DNREQ_A_DO_RETRY_REQ es). intros.
  destruct (fsm_final DNUDReq_init_fsm es) as [[]], e; cbn in *; eval_decide; cbn in *; lia.
Qed.
