(* ===== verification/NNMDReqFsm.v ===== *)
(** * NNMDReqFsm: the two state machines of a namenode metadata request

    Translation of discoNN_client/discoC_NNMDReq_fsm.c (types from
    discoC_NNMData_Request.h).  One structure holds the machine of the acquire
    phase and the machine of the commit phase, under one lock. *)

From S2P Require Import Prelude Fsm.

Inductive NNMDgetReq_FSM_TREvent_t : Type :=
| NNREQ_E_InitDone
| NNREQ_E_PeekWorkQ
| NNREQ_E_SendDone
| NNREQ_E_FindReqOK
| NNREQ_E_TimeoutFire
| NNREQ_E_ConnBack
| NNREQ_E_RetryChkDone.

#[global] Instance NNMDgetReq_FSM_TREvent_t_eq_dec : EqDecision NNMDgetReq_FSM_TREvent_t.
Proof. solve_decision. Defined.

Inductive NNMDgetReq_FSM_action_t : Type :=
| NNREQ_A_START
| NNREQ_A_NoAction
| NNREQ_A_DO_ADD_WORKQ
| NNREQ_A_DO_SEND
| NNREQ_A_DO_WAIT_RESP
| NNREQ_A_DO_PROCESS_RESP
| NNREQ_A_DO_TO_PROCESS
| NNREQ_A_DO_RETRY_REQ
| NNREQ_A_END.

#[global] Instance NNMDgetReq_FSM_action_t_eq_dec : EqDecision NNMDgetReq_FSM_action_t.
Proof. solve_decision. Defined.

Definition NNMDgetReq_FSM_action_t_num (x : NNMDgetReq_FSM_action_t) : nat :=
  match x with
  | NNREQ_A_START => 0
  | NNREQ_A_NoAction => 1
  | NNREQ_A_DO_ADD_WORKQ => 2
  | NNREQ_A_DO_SEND => 3
  | NNREQ_A_DO_WAIT_RESP => 4
  | NNREQ_A_DO_PROCESS_RESP => 5
  | NNREQ_A_DO_TO_PROCESS => 6
  | NNREQ_A_DO_RETRY_REQ => 7
  | NNREQ_A_END => 8
  end.

Definition NNREQ_A_UNKNOWN : NNMDgetReq_FSM_action_t := NNREQ_A_END.

Inductive NNMDgetReq_FSM_state_t : Type :=
| NNREQ_S_START
| NNREQ_S_INIT
| NNREQ_S_WAIT_SEND
| NNREQ_S_SENDING
| NNREQ_S_WAIT_RESP
| NNREQ_S_PROCESS_RESP
| NNREQ_S_RETRY_REQ
| NNREQ_S_TIMEOUT_FIRE
| NNREQ_S_END.

#[global] Instance NNMDgetReq_FSM_state_t_eq_dec : EqDecision NNMDgetReq_FSM_state_t.
Proof. solve_decision. Defined.

Definition NNMDgetReq_FSM_state_t_num (x : NNMDgetReq_FSM_state_t) : nat :=
  match x with
  | NNREQ_S_START => 0
  | NNREQ_S_INIT => 1
  | NNREQ_S_WAIT_SEND => 2
  | NNREQ_S_SENDING => 3
  | NNREQ_S_WAIT_RESP => 4
  | NNREQ_S_PROCESS_RESP => 5
  | NNREQ_S_RETRY_REQ => 6
  | NNREQ_S_TIMEOUT_FIRE => 7
  | NNREQ_S_END => 8
  end.

Definition NNREQ_S_UNKNOWN : NNMDgetReq_FSM_state_t := NNREQ_S_END.

Inductive NNMDciReq_FSM_state_t : Type :=
| NNCIREQ_S_START
| NNCIREQ_S_INIT
| NNCIREQ_S_WAIT_SEND
| NNCIREQ_S_SENDING
| NNCIREQ_S_WAIT_RESP
| NNCIREQ_S_PROCESS_RESP
| NNCIREQ_S_RETRY_REQ
| NNCIREQ_S_END.

#[global] Instance NNMDciReq_FSM_state_t_eq_dec : EqDecision NNMDciReq_FSM_state_t.
Proof. solve_decision. Defined.

Definition NNMDciReq_FSM_state_t_num (x : NNMDciReq_FSM_state_t) : nat :=
  match x with
  | NNCIREQ_S_START => 0
  | NNCIREQ_S_INIT => 1
  | NNCIREQ_S_WAIT_SEND => 2
  | NNCIREQ_S_SENDING => 3
  | NNCIREQ_S_WAIT_RESP => 4
  | NNCIREQ_S_PROCESS_RESP => 5
  | NNCIREQ_S_RETRY_REQ => 6
  | NNCIREQ_S_END => 7
  end.

Definition NNCIREQ_S_UNKNOWN : NNMDciReq_FSM_state_t := NNCIREQ_S_END.

Record NNMDReq_fsm_t : Type := {
  st_nnReq : NNMDgetReq_FSM_state_t;
  st_nnCIReq : NNMDciReq_FSM_state_t;
}.

Definition _update_nnReqS_Init (nnReqStat : NNMDReq_fsm_t) (event : NNMDgetReq_FSM_TREvent_t)
  : NNMDReq_fsm_t * NNMDgetReq_FSM_action_t :=
  match event with
  | NNREQ_E_InitDone =>
      ({| st_nnReq := NNREQ_S_WAIT_SEND; st_nnCIReq := st_nnCIReq nnReqStat |}, NNREQ_A_DO_ADD_WORKQ)
  | NNREQ_E_PeekWorkQ | NNREQ_E_SendDone | NNREQ_E_FindReqOK
  | NNREQ_E_TimeoutFire | NNREQ_E_ConnBack | NNREQ_E_RetryChkDone =>
      (nnReqStat, NNREQ_A_NoAction)
  end.

Definition _update_nnReqS_WaitSend (nnReqStat : NNMDReq_fsm_t) (event : NNMDgetReq_FSM_TREvent_t)
  : NNMDReq_fsm_t * NNMDgetReq_FSM_action_t :=
  match event with
  | NNREQ_E_InitDone =>
      (nnReqStat, NNREQ_A_NoAction)
  | NNREQ_E_PeekWorkQ =>
      ({| st_nnReq := NNREQ_S_SENDING; st_nnCIReq := st_nnCIReq nnReqStat |}, NNREQ_A_DO_SEND)
  | NNREQ_E_SendDone | NNREQ_E_FindReqOK =>
      (nnReqStat, NNREQ_A_NoAction)
  | NNREQ_E_TimeoutFire =>
      ({| st_nnReq := NNREQ_S_TIMEOUT_FIRE; st_nnCIReq := st_nnCIReq nnReqStat |}, NNREQ_A_DO_TO_PROCESS)
  | NNREQ_E_ConnBack | NNREQ_E_RetryChkDone =>
      (nnReqStat, NNREQ_A_NoAction)
  end.

Definition _update_nnReqS_Sending (nnReqStat : NNMDReq_fsm_t) (event : NNMDgetReq_FSM_TREvent_t)
  : NNMDReq_fsm_t * NNMDgetReq_FSM_action_t :=
  match event with
  | NNREQ_E_InitDone | NNREQ_E_PeekWorkQ =>
      (nnReqStat, NNREQ_A_NoAction)
  | NNREQ_E_SendDone =>
      ({| st_nnReq := NNREQ_S_WAIT_RESP; st_nnCIReq := st_nnCIReq nnReqStat |}, NNREQ_A_DO_WAIT_RESP)
  | NNREQ_E_FindReqOK =>
      (nnReqStat, NNREQ_A_NoAction)
  | NNREQ_E_TimeoutFire =>
      ({| st_nnReq := NNREQ_S_TIMEOUT_FIRE; st_nnCIReq := st_nnCIReq nnReqStat |}, NNREQ_A_DO_TO_PROCESS)
  | NNREQ_E_ConnBack | NNREQ_E_RetryChkDone =>
      (nnReqStat, NNREQ_A_NoAction)
  end.

Definition _update_nnReqS_WaitResp (nnReqStat : NNMDReq_fsm_t) (event : NNMDgetReq_FSM_TREvent_t)
  : NNMDReq_fsm_t * NNMDgetReq_FSM_action_t :=
  match event with
  | NNREQ_E_InitDone | NNREQ_E_PeekWorkQ | NNREQ_E_SendDone =>
      (nnReqStat, NNREQ_A_NoAction)
  | NNREQ_E_FindReqOK =>
      ({| st_nnReq := NNREQ_S_PROCESS_RESP; st_nnCIReq := st_nnCIReq nnReqStat |}, NNREQ_A_DO_PROCESS_RESP)
  | NNREQ_E_TimeoutFire =>
      ({| st_nnReq := NNREQ_S_TIMEOUT_FIRE; st_nnCIReq := st_nnCIReq nnReqStat |}, NNREQ_A_DO_TO_PROCESS)
  | NNREQ_E_ConnBack =>
      ({| st_nnReq := NNREQ_S_RETRY_REQ; st_nnCIReq := st_nnCIReq nnReqStat |}, NNREQ_A_DO_RETRY_REQ)
  | NNREQ_E_RetryChkDone =>
      (nnReqStat, NNREQ_A_NoAction)
  end.

Definition _update_nnReqS_PResp (nnReqStat : NNMDReq_fsm_t) (event : NNMDgetReq_FSM_TREvent_t)
  : NNMDReq_fsm_t * NNMDgetReq_FSM_action_t :=
  match event with
  | NNREQ_E_InitDone | NNREQ_E_PeekWorkQ | NNREQ_E_SendDone
  | NNREQ_E_FindReqOK | NNREQ_E_TimeoutFire | NNREQ_E_ConnBack
  | NNREQ_E_RetryChkDone =>
      (nnReqStat, NNREQ_A_NoAction)
  end.

Definition _update_nnReqS_Retry (nnReqStat : NNMDReq_fsm_t) (event : NNMDgetReq_FSM_TREvent_t)
  : NNMDReq_fsm_t * NNMDgetReq_FSM_action_t :=
  match event with
  | NNREQ_E_InitDone | NNREQ_E_PeekWorkQ | NNREQ_E_SendDone
  | NNREQ_E_FindReqOK | NNREQ_E_TimeoutFire | NNREQ_E_ConnBack =>
      (nnReqStat, NNREQ_A_NoAction)
  | NNREQ_E_RetryChkDone =>
      ({| st_nnReq := NNREQ_S_WAIT_SEND; st_nnCIReq := st_nnCIReq nnReqStat |}, NNREQ_A_DO_ADD_WORKQ)
  end.

Definition _update_nnReqS_TOFire (nnReqStat : NNMDReq_fsm_t) (event : NNMDgetReq_FSM_TREvent_t)
  : NNMDReq_fsm_t * NNMDgetReq_FSM_action_t :=
  match event with
  | NNREQ_E_InitDone | NNREQ_E_PeekWorkQ | NNREQ_E_SendDone
  | NNREQ_E_FindReqOK | NNREQ_E_TimeoutFire | NNREQ_E_ConnBack
  | NNREQ_E_RetryChkDone =>
      (nnReqStat, NNREQ_A_NoAction)
  end.

Definition _update_nnReqState_lockless (myStat : NNMDReq_fsm_t) (event : NNMDgetReq_FSM_TREvent_t)
  : NNMDReq_fsm_t * NNMDgetReq_FSM_action_t :=
  match st_nnReq myStat with
  | NNREQ_S_INIT => _update_nnReqS_Init myStat event
  | NNREQ_S_WAIT_SEND => _update_nnReqS_WaitSend myStat event
  | NNREQ_S_SENDING => _update_nnReqS_Sending myStat event
  | NNREQ_S_WAIT_RESP => _update_nnReqS_WaitResp myStat event
  | NNREQ_S_PROCESS_RESP => _update_nnReqS_PResp myStat event
  | NNREQ_S_RETRY_REQ => _update_nnReqS_Retry myStat event
  | NNREQ_S_TIMEOUT_FIRE => _update_nnReqS_TOFire myStat event
  | NNREQ_S_START | NNREQ_S_END => (myStat, NNREQ_A_NoAction)
  end.

Definition NNMDgetReq_update_state (stat : NNMDReq_fsm_t) (event : NNMDgetReq_FSM_TREvent_t)
  : NNMDReq_fsm_t * NNMDgetReq_FSM_action_t :=
  _update_nnReqState_lockless stat event.

Definition NNMDgetReq_get_state (stat : NNMDReq_fsm_t) : NNMDgetReq_FSM_state_t := st_nnReq stat.

Definition nnReqStat_str : list string :=
  ["unknown"%string;
   "init"%string;
   "wait_send"%string;
   "sending"%string;
   "wait_resp"%string;
   "process_resp"%string;
   "timeout_handle"%string;
   "retry_req"%string;
   "unknown"%string].

Definition nnReqAction_str : list string :=
  ["Unknown"%string;
   "No action"%string;
   "Do Add WorkerQ"%string;
   "Do Send Req"%string;
   "Do Wait Resp"%string;
   "Process Resp"%string;
   "Do timeout process"%string;
   "Do retry req"%string;
   "Unknown"%string].

Definition NNMDgetReq_get_action_str (action : NNMDgetReq_FSM_action_t) : string :=
  let n := NNMDgetReq_FSM_action_t_num action in
  if bool_decide (NNMDgetReq_FSM_action_t_num NNREQ_A_START < n /\ n < NNMDgetReq_FSM_action_t_num NNREQ_A_END)%nat
  then default EmptyString (nnReqAction_str !! n)
  else default EmptyString (nnReqAction_str !! NNMDgetReq_FSM_action_t_num NNREQ_A_UNKNOWN).

Definition NNMDgetReq_get_state_str (stat : NNMDReq_fsm_t) : string :=
  let n := NNMDgetReq_FSM_state_t_num (NNMDgetReq_get_state stat) in
  if bool_decide (NNMDgetReq_FSM_state_t_num NNREQ_S_START < n /\ n < NNMDgetReq_FSM_state_t_num NNREQ_S_END)%nat
  then default EmptyString (nnReqStat_str !! n)
  else default EmptyString (nnReqStat_str !! NNMDgetReq_FSM_state_t_num NNREQ_S_UNKNOWN).

Definition NNMDReq_init_fsm : NNMDReq_fsm_t := {| st_nnReq := NNREQ_S_INIT; st_nnCIReq := NNCIREQ_S_INIT |}.

#[global] Instance NNMDgetReq_update_state_FSM : FSM NNMDReq_fsm_t NNMDgetReq_FSM_TREvent_t NNMDgetReq_FSM_action_t := {
  fsm_step := NNMDgetReq_update_state;
  fsm_idle := NNREQ_A_NoAction;
}.

Inductive NNMDciReq_FSM_TREvent_t : Type :=
| NNCIREQ_E_InitDone
| NNCIREQ_E_PeekWorkQ
| NNCIREQ_E_SendDone
| NNCIREQ_E_FindReqOK
| NNCIREQ_E_ConnBack
| NNCIREQ_E_RetryChkDone.

#[global] Instance NNMDciReq_FSM_TREvent_t_eq_dec : EqDecision NNMDciReq_FSM_TREvent_t.
Proof. solve_decision. Defined.

Inductive NNMDciReq_FSM_action_t : Type :=
| NNCIREQ_A_START
| NNCIREQ_A_NoAction
| NNCIREQ_A_DO_ADD_WORKQ
| NNCIREQ_A_DO_SEND
| NNCIREQ_A_DO_WAIT_RESP
| NNCIREQ_A_DO_PROCESS_RESP
| NNCIREQ_A_DO_RETRY_REQ
| NNCIREQ_A_END.

#[global] Instance NNMDciReq_FSM_action_t_eq_dec : EqDecision NNMDciReq_FSM_action_t.
Proof. solve_decision. Defined.

Definition NNMDciReq_FSM_action_t_num (x : NNMDciReq_FSM_action_t) : nat :=
  match x with
  | NNCIREQ_A_START => 0
  | NNCIREQ_A_NoAction => 1
  | NNCIREQ_A_DO_ADD_WORKQ => 2
  | NNCIREQ_A_DO_SEND => 3
  | NNCIREQ_A_DO_WAIT_RESP => 4
  | NNCIREQ_A_DO_PROCESS_RESP => 5
  | NNCIREQ_A_DO_RETRY_REQ => 6
  | NNCIREQ_A_END => 7
  end.

Definition NNCIREQ_A_UNKNOWN : NNMDciReq_FSM_action_t := NNCIREQ_A_END.

Definition _update_nnCIReqS_Init (nnReqStat : NNMDReq_fsm_t) (event : NNMDciReq_FSM_TREvent_t)
  : NNMDReq_fsm_t * NNMDciReq_FSM_action_t :=
  match event with
  | NNCIREQ_E_InitDone =>
      ({| st_nnReq := st_nnReq nnReqStat; st_nnCIReq := NNCIREQ_S_WAIT_SEND |}, NNCIREQ_A_DO_ADD_WORKQ)
  | NNCIREQ_E_PeekWorkQ | NNCIREQ_E_SendDone | NNCIREQ_E_FindReqOK
  | NNCIREQ_E_ConnBack | NNCIREQ_E_RetryChkDone =>
      (nnReqStat, NNCIREQ_A_NoAction)
  end.

Definition _update_nnCIReqS_WaitSend (nnReqStat : NNMDReq_fsm_t) (event : NNMDciReq_FSM_TREvent_t)
  : NNMDReq_fsm_t * NNMDciReq_FSM_action_t :=
  match event with
  | NNCIREQ_E_InitDone =>
      (nnReqStat, NNCIREQ_A_NoAction)
  | NNCIREQ_E_PeekWorkQ =>
      ({| st_nnReq := st_nnReq nnReqStat; st_nnCIReq := NNCIREQ_S_SENDING |}, NNCIREQ_A_DO_SEND)
  | NNCIREQ_E_SendDone | NNCIREQ_E_FindReqOK | NNCIREQ_E_ConnBack
  | NNCIREQ_E_RetryChkDone =>
      (nnReqStat, NNCIREQ_A_NoAction)
  end.

Definition _update_nnCIReqS_Sending (nnReqStat : NNMDReq_fsm_t) (event : NNMDciReq_FSM_TREvent_t)
  : NNMDReq_fsm_t * NNMDciReq_FSM_action_t :=
  match event with
  | NNCIREQ_E_InitDone | NNCIREQ_E_PeekWorkQ =>
      (nnReqStat, NNCIREQ_A_NoAction)
  | NNCIREQ_E_SendDone =>
      ({| st_nnReq := st_nnReq nnReqStat; st_nnCIReq := NNCIREQ_S_WAIT_RESP |}, NNCIREQ_A_DO_WAIT_RESP)
  | NNCIREQ_E_FindReqOK | NNCIREQ_E_ConnBack | NNCIREQ_E_RetryChkDone =>
      (nnReqStat, NNCIREQ_A_NoAction)
  end.

Definition _update_nnCIReqS_WaitResp (nnReqStat : NNMDReq_fsm_t) (event : NNMDciReq_FSM_TREvent_t)
  : NNMDReq_fsm_t * NNMDciReq_FSM_action_t :=
  match event with
  | NNCIREQ_E_InitDone | NNCIREQ_E_PeekWorkQ | NNCIREQ_E_SendDone =>
      (nnReqStat, NNCIREQ_A_NoAction)
  | NNCIREQ_E_FindReqOK =>
      ({| st_nnReq := st_nnReq nnReqStat; st_nnCIReq := NNCIREQ_S_PROCESS_RESP |}, NNCIREQ_A_DO_PROCESS_RESP)
  | NNCIREQ_E_ConnBack =>
      ({| st_nnReq := st_nnReq nnReqStat; st_nnCIReq := NNCIREQ_S_RETRY_REQ |}, NNCIREQ_A_DO_RETRY_REQ)
  | NNCIREQ_E_RetryChkDone =>
      (nnReqStat, NNCIREQ_A_NoAction)
  end.

Definition _update_nnCIReqS_PResp (nnReqStat : NNMDReq_fsm_t) (event : NNMDciReq_FSM_TREvent_t)
  : NNMDReq_fsm_t * NNMDciReq_FSM_action_t :=
  match event with
  | NNCIREQ_E_InitDone | NNCIREQ_E_PeekWorkQ | NNCIREQ_E_SendDone
  | NNCIREQ_E_FindReqOK | NNCIREQ_E_ConnBack | NNCIREQ_E_RetryChkDone =>
      (nnReqStat, NNCIREQ_A_NoAction)
  end.

Definition _update_nnCIReqS_Retry (nnReqStat : NNMDReq_fsm_t) (event : NNMDciReq_FSM_TREvent_t)
  : NNMDReq_fsm_t * NNMDciReq_FSM_action_t :=
  match event with
  | NNCIREQ_E_InitDone | NNCIREQ_E_PeekWorkQ | NNCIREQ_E_SendDone
  | NNCIREQ_E_FindReqOK | NNCIREQ_E_ConnBack =>
      (nnReqStat, NNCIREQ_A_NoAction)
  | NNCIREQ_E_RetryChkDone =>
      ({| st_nnReq := st_nnReq nnReqStat; st_nnCIReq := NNCIREQ_S_WAIT_SEND |}, NNCIREQ_A_DO_ADD_WORKQ)
  end.

Definition _update_nnCIReqState_lockless (myStat : NNMDReq_fsm_t) (event : NNMDciReq_FSM_TREvent_t)
  : NNMDReq_fsm_t * NNMDciReq_FSM_action_t :=
  match st_nnCIReq myStat with
  | NNCIREQ_S_INIT => _update_nnCIReqS_Init myStat event
  | NNCIREQ_S_WAIT_SEND => _update_nnCIReqS_WaitSend myStat event
  | NNCIREQ_S_SENDING => _update_nnCIReqS_Sending myStat event
  | NNCIREQ_S_WAIT_RESP => _update_nnCIReqS_WaitResp myStat event
  | NNCIREQ_S_PROCESS_RESP => _update_nnCIReqS_PResp myStat event
  | NNCIREQ_S_RETRY_REQ => _update_nnCIReqS_Retry myStat event
  | NNCIREQ_S_START | NNCIREQ_S_END => (myStat, NNCIREQ_A_NoAction)
  end.

Definition NNMDciReq_update_state (stat : NNMDReq_fsm_t) (event : NNMDciReq_FSM_TREvent_t)
  : NNMDReq_fsm_t * NNMDciReq_FSM_action_t :=
  _update_nnCIReqState_lockless stat event.

Definition NNMDciReq_get_state (stat : NNMDReq_fsm_t) : NNMDciReq_FSM_state_t := st_nnCIReq stat.

Definition nnCIReqStat_str : list string :=
  ["CIReq unknown"%string;
   "CIReq init"%string;
   "CIReq wait_send"%string;
   "CIReq sending"%string;
   "CIReq wait_resp"%string;
   "CIReq process_resp"%string;
   "CIReq retry_req"%string;
   "CIReq unknown"%string].

Definition nnCIReqAction_str : list string :=
  ["CIReq Unknown"%string;
   "CIReq No action"%string;
   "CIReq Do Add WorkerQ"%string;
   "CIReq Do Send Req"%string;
   "CIReq Do Wait Resp"%string;
   "CIReq Process Resp"%string;
   "CIReq Do retry req"%string;
   "Unknown"%string].

Definition NNMDciReq_get_action_str (action : NNMDciReq_FSM_action_t) : string :=
  let n := NNMDciReq_FSM_action_t_num action in
  if bool_decide (NNMDciReq_FSM_action_t_num NNCIREQ_A_START < n /\ n < NNMDciReq_FSM_action_t_num NNCIREQ_A_END)%nat
  then default EmptyString (nnCIReqAction_str !! n)
  else default EmptyString (nnCIReqAction_str !! NNMDciReq_FSM_action_t_num NNCIREQ_A_UNKNOWN).

Definition NNMDciReq_get_state_str (stat : NNMDReq_fsm_t) : string :=
  let n := NNMDciReq_FSM_state_t_num (NNMDciReq_get_state stat) in
  if bool_decide (NNMDciReq_FSM_state_t_num NNCIREQ_S_START < n /\ n < NNMDciReq_FSM_state_t_num NNCIREQ_S_END)%nat
  then default EmptyString (nnCIReqStat_str !! n)
  else default EmptyString (nnCIReqStat_str !! NNMDciReq_FSM_state_t_num NNCIREQ_S_UNKNOWN).

#[global] Instance NNMDciReq_update_state_FSM : FSM NNMDReq_fsm_t NNMDciReq_FSM_TREvent_t NNMDciReq_FSM_action_t := {
  fsm_step := NNMDciReq_update_state;
  fsm_idle := NNCIREQ_A_NoAction;
}.

(** Processing the namenode's response and processing the timeout are the two
    ways an acquire request ends. *)
Definition nn_final (_ : NNMDgetReq_FSM_TREvent_t) (a : NNMDgetReq_FSM_action_t) : bool :=
  match a with NNREQ_A_DO_PROCESS_RESP | NNREQ_A_DO_TO_PROCESS => true | _ => false end.

Definition nn_ended (s : NNMDReq_fsm_t) : bool :=
  bool_decide (st_nnReq s ∈ [NNREQ_S_PROCESS_RESP; NNREQ_S_TIMEOUT_FIRE]).

Lemma nn_final_exclusive : exclusive nn_final nn_ended.
Proof. intros [[] ci] []; vm_compute; intuition congruence. Qed.

(** The receiver thread and the timeout thread never both work on a
    metadata request: over any run at most one response-or-timeout right is
    granted, however often the request was retried before. *)
Theorem NNMDgetReq_response_xor_timeout (es : list NNMDgetReq_FSM_TREvent_t) :
  (granted nn_final (fsm_log NNMDReq_init_fsm es) <= 1)%nat.
Proof. apply (exclusive_at_most_once nn_final nn_ended), nn_final_exclusive. Qed.

(** The acquire and the commit machine share one structure and one lock but
    not their states: delivering an acquire event and a commit event in either
    order gives the same structure and the same two answers. *)
Theorem NNMDReq_machines_commute (s : NNMDReq_fsm_t)
    (e : NNMDgetReq_FSM_TREvent_t) (c : NNMDciReq_FSM_TREvent_t) :
  let '(s1, a) := NNMDgetReq_update_state s e in
  let '(s2, b) := NNMDciReq_update_state s1 c in
  let '(s3, b') := NNMDciReq_update_state s c in
  let '(s4, a') := NNMDgetReq_update_state s3 e in
  s2 = s4 /\ a = a' /\ b = b'.
Proof. destruct s as [[] []], e, c; vm_compute; repeat split. Qed.

(** From every state an acquire request can be in, its response can still be
    processed or it was already ended. *)
Lemma NNMDgetReq_can_finish :
  can_finish (fun s => nn_ended s = true) (M := NNMDgetReq_update_state_FSM) NNMDReq_init_fsm.
Proof.
  apply (can_finish_inv (fun s => st_nnReq s <> NNREQ_S_START /\ st_nnReq s <> NNREQ_S_END)).
  - done.
  - intros [[] ci] []; done.
  - intros [[] ci] []; try done.
    + by exists [NNREQ_E_InitDone; NNREQ_E_TimeoutFire].
    + by exists [NNREQ_E_TimeoutFire].
    + by exists [NNREQ_E_TimeoutFire].
    + by exists [NNREQ_E_FindReqOK].
    + by exists [].
    + by exists [NNREQ_E_RetryChkDone; NNREQ_E_TimeoutFire].
    + by exists [].
Qed.

(** A timeout that fires while the request waits for its retry check gets no
    answer: it is the state that keeps it alive until it is queued again. *)
Lemma NNMDgetReq_retry_ignores_timeout ci :
  NNMDgetReq_update_state {| st_nnReq := NNREQ_S_RETRY_REQ; st_nnCIReq := ci |} NNREQ_E_TimeoutFire =
  ({| st_nnReq := NNREQ_S_RETRY_REQ; st_nnCIReq := ci |}, NNREQ_A_NoAction).
Proof. reflexivity. Qed.
