(* ===== verification/ConnFsm.v ===== *)
(** * ConnFsm: the connection state machine and the driver state machine

    Translation of connection_manager/conn_state_fsm.c (types from
    conn_state_fsm.h and conn_manager_export.h) and of drv_fsm.c with its
    transition table (drv_fsm_private.h). *)

From S2P Require Import Prelude Fsm.

Inductive conn_TRevent_t : Type :=
| CONN_E_Connect
| CONN_E_Connect_OK
| CONN_E_Connect_FAIL
| CONN_E_Connect_Broken
| CONN_E_STOP
| CONN_E_STOP_DONE
| CONN_E_Unknown.

#[global] Instance conn_TRevent_t_eq_dec : EqDecision conn_TRevent_t.
Proof. solve_decision. Defined.

Inductive conn_action_t : Type :=
| CONN_A_NoAction
| CONN_A_DO_Connect
| CONN_A_DO_Service
| CONN_A_DO_Retry
| CONN_A_DO_Close
| CONN_A_DO_Free
| CONN_A_Unknown.

#[global] Instance conn_action_t_eq_dec : EqDecision conn_action_t.
Proof. solve_decision. Defined.

Definition conn_action_t_num (x : conn_action_t) : nat :=
  match x with
  | CONN_A_NoAction => 0
  | CONN_A_DO_Connect => 1
  | CONN_A_DO_Service => 2
  | CONN_A_DO_Retry => 3
  | CONN_A_DO_Close => 4
  | CONN_A_DO_Free => 5
  | CONN_A_Unknown => 6
  end.

Inductive conn_stat_t : Type :=
| CONN_S_INIT
| CONN_S_Connecting
| CONN_S_Connected
| CONN_S_ConnectRetry
| CONN_S_Closing
| CONN_S_End
| CONN_S_Unknown.

#[global] Instance conn_stat_t_eq_dec : EqDecision conn_stat_t.
Proof. solve_decision. Defined.

Definition conn_stat_t_num (x : conn_stat_t) : nat :=
  match x with
  | CONN_S_INIT => 0
  | CONN_S_Connecting => 1
  | CONN_S_Connected => 2
  | CONN_S_ConnectRetry => 3
  | CONN_S_Closing => 4
  | CONN_S_End => 5
  | CONN_S_Unknown => 6
  end.

Record connStat_fsm_t : Type := {
  conn_state : conn_stat_t;
}.

Definition _update_connInit (myStat : connStat_fsm_t) (event : conn_TRevent_t)
  : connStat_fsm_t * conn_action_t :=
  match event with
  | CONN_E_Connect =>
      ({| conn_state := CONN_S_Connecting |}, CONN_A_DO_Connect)
  | CONN_E_Connect_OK | CONN_E_Connect_FAIL | CONN_E_Connect_Broken
  | CONN_E_STOP | CONN_E_STOP_DONE | CONN_E_Unknown =>
      (myStat, CONN_A_NoAction)
  end.

Definition _update_connConning (myStat : connStat_fsm_t) (event : conn_TRevent_t)
  : connStat_fsm_t * conn_action_t :=
  match event with
  | CONN_E_Connect =>
      (myStat, CONN_A_NoAction)
  | CONN_E_Connect_OK =>
      ({| conn_state := CONN_S_Connected |}, CONN_A_DO_Service)
  | CONN_E_Connect_FAIL =>
      ({| conn_state := CONN_S_ConnectRetry |}, CONN_A_DO_Retry)
  | CONN_E_Connect_Broken =>
      (myStat, CONN_A_NoAction)
  | CONN_E_STOP =>
      ({| conn_state := CONN_S_Closing |}, CONN_A_DO_Close)
  | CONN_E_STOP_DONE | CONN_E_Unknown =>
      (myStat, CONN_A_NoAction)
  end.

Definition _update_connConnected (myStat : connStat_fsm_t) (event : conn_TRevent_t)
  : connStat_fsm_t * conn_action_t :=
  match event with
  | CONN_E_Connect | CONN_E_Connect_OK | CONN_E_Connect_FAIL =>
      (myStat, CONN_A_NoAction)
  | CONN_E_Connect_Broken =>
      ({| conn_state := CONN_S_ConnectRetry |}, CONN_A_DO_Retry)
  | CONN_E_STOP =>
      ({| conn_state := CONN_S_Closing |}, CONN_A_DO_Close)
  | CONN_E_STOP_DONE | CONN_E_Unknown =>
      (myStat, CONN_A_NoAction)
  end.

Definition _update_connRetry (myStat : connStat_fsm_t) (event : conn_TRevent_t)
  : connStat_fsm_t * conn_action_t :=
  match event with
  | CONN_E_Connect =>
      (myStat, CONN_A_NoAction)
  | CONN_E_Connect_OK =>
      ({| conn_state := CONN_S_Connected |}, CONN_A_DO_Service)
  | CONN_E_Connect_FAIL | CONN_E_Connect_Broken =>
      (myStat, CONN_A_NoAction)
  | CONN_E_STOP =>
      ({| conn_state := CONN_S_Closing |}, CONN_A_DO_Close)
  | CONN_E_STOP_DONE | CONN_E_Unknown =>
      (myStat, CONN_A_NoAction)
  end.

Definition _update_connClosing (myStat : connStat_fsm_t) (event : conn_TRevent_t)
  : connStat_fsm_t * conn_action_t :=
  match event with
  | CONN_E_Connect | CONN_E_Connect_OK | CONN_E_Connect_FAIL
  | CONN_E_Connect_Broken | CONN_E_STOP =>
      (myStat, CONN_A_NoAction)
  | CONN_E_STOP_DONE =>
      ({| conn_state := CONN_S_End |}, CONN_A_DO_Free)
  | CONN_E_Unknown =>
      (myStat, CONN_A_NoAction)
  end.

Definition _update_connStat (myStat : connStat_fsm_t) (event : conn_TRevent_t)
  : connStat_fsm_t * conn_action_t :=
  match conn_state myStat with
  | CONN_S_INIT => _update_connInit myStat event
  | CONN_S_Connecting => _update_connConning myStat event
  | CONN_S_Connected => _update_connConnected myStat event
  | CONN_S_ConnectRetry => _update_connRetry myStat event
  | CONN_S_Closing => _update_connClosing myStat event
  | CONN_S_End | CONN_S_Unknown => (myStat, CONN_A_NoAction)
  end.

Definition update_conn_state (stat : connStat_fsm_t) (event : conn_TRevent_t)
  : connStat_fsm_t * conn_action_t :=
  _update_connStat stat event.

Definition get_conn_state (stat : connStat_fsm_t) : conn_stat_t := conn_state stat.

Definition connStat_str : list string :=
  ["init"%string;
   "connecting"%string;
   "connected"%string;
   "connection retry"%string;
   "closing"%string;
   "end"%string;
   "Unknown"%string].

Definition connAction_str : list string :=
  ["No action"%string;
   "Do Connect"%string;
   "Open Service"%string;
   "Do Connection Retry"%string;
   "Do Close"%string;
   "Do Free"%string;
   "Unknown"%string].

Definition get_connStat_action_str (action : conn_action_t) : string :=
  let n := conn_action_t_num action in
  if bool_decide (conn_action_t_num CONN_A_NoAction <= n /\ n < conn_action_t_num CONN_A_Unknown)%nat
  then default EmptyString (connAction_str !! n)
  else default EmptyString (connAction_str !! conn_action_t_num CONN_A_Unknown).

Definition get_conn_state_str (stat : connStat_fsm_t) : string :=
  let n := conn_stat_t_num (get_conn_state stat) in
  if bool_decide (conn_stat_t_num CONN_S_INIT <= n /\ n < conn_stat_t_num CONN_S_Unknown)%nat
  then default EmptyString (connStat_str !! n)
  else default EmptyString (connStat_str !! conn_stat_t_num CONN_S_Unknown).

Definition init_conn_state_fsm : connStat_fsm_t := {| conn_state := CONN_S_INIT |}.

#[global] Instance update_conn_state_FSM : FSM connStat_fsm_t conn_TRevent_t conn_action_t := {
  fsm_step := update_conn_state;
  fsm_idle := CONN_A_NoAction;
}.

Definition is_conn_connected (stat : connStat_fsm_t) : bool :=
  if decide (CONN_S_Connected = conn_state stat) then true else false.

Definition conn_script (s : connStat_fsm_t) (p : list conn_action_t) : Prop :=
  match conn_state s with
  | CONN_S_INIT | CONN_S_Connecting | CONN_S_Connected | CONN_S_ConnectRetry =>
      p = [CONN_A_DO_Close; CONN_A_DO_Free]
  | CONN_S_Closing => p = [CONN_A_DO_Free]
  | _ => p = []
  end.

Definition conn_shutdown (a : conn_action_t) : bool :=
  match a with CONN_A_DO_Close | CONN_A_DO_Free => true | _ => false end.

Lemma conn_scripted : scripted conn_shutdown conn_script.
Proof.
  split.
  - intros [[]]; eexists; reflexivity.
  - intros [[]] [] p; unfold conn_script; simpl; intros ->; reflexivity.
Qed.

(** A connection is closed at most once and then freed at most once, in
    this order, over every run. *)
Theorem conn_close_then_free (es : list conn_TRevent_t) :
  filter (fun a => conn_shutdown a = true) (fsm_trace init_conn_state_fsm es)
    `prefix_of` [CONN_A_DO_Close; CONN_A_DO_Free].
Proof.
  destruct (scripted_prefix _ _ init_conn_state_fsm es conn_scripted) as (p & Hp & Hpre).
  unfold conn_script in Hp. simpl in Hp. by subst.
Qed.

(** The states of a connection that was told to stop. *)
Definition conn_stopping (s : connStat_fsm_t) : Prop :=
  conn_state s = CONN_S_Closing \/ conn_state s = CONN_S_End.

Lemma conn_stopping_step s e : conn_stopping s -> conn_stopping (update_conn_state s e).1.
Proof. destruct s as [[]], e; intros []; try done; by (left + right). Qed.

(** A stop that was granted is final: afterwards the connection is never
    reported as connected and only the free right can be granted. *)
Theorem conn_stop_is_final (es1 es2 : list conn_TRevent_t) :
  (update_conn_state (fsm_final init_conn_state_fsm es1) CONN_E_STOP).2 = CONN_A_DO_Close ->
  is_conn_connected (fsm_final init_conn_state_fsm (es1 ++ CONN_E_STOP :: es2)) = false /\
  Forall (fun a => a = CONN_A_NoAction \/ a = CONN_A_DO_Free)
    (fsm_trace (fsm_final init_conn_state_fsm (es1 ++ [CONN_E_STOP])) es2).
Proof.
  intros H. rewrite !fsm_final_app, !fsm_final_cons.
  assert (Hs : conn_stopping (update_conn_state (fsm_final init_conn_state_fsm es1) CONN_E_STOP).1).
  { revert H. destruct (fsm_final init_conn_state_fsm es1) as [[]]; try done; by left. }
  revert Hs. change update_conn_state with (@fsm_step _ _ _ update_conn_state_FSM).
  generalize (fsm_step (fsm_final init_conn_state_fsm es1) CONN_E_STOP).1. intros s Hs. split.
  - pose proof (fsm_final_invariant (M := update_conn_state_FSM) conn_stopping s es2 Hs
                  conn_stopping_step) as Hf.
    revert Hf. destruct (fsm_final s es2) as [[]]; intros []; done.
  - change (fsm_final s []) with s.
    revert s Hs. induction es2 as [|e es2 IH]; intros s Hs; [constructor|].
    rewrite fsm_trace_cons. constructor; [|apply IH, conn_stopping_step; done].
    destruct s as [[]], e; destruct Hs; try done; cbn; auto.
Qed.

Lemma conn_stop_is_final_witness :
  is_conn_connected (fsm_final init_conn_state_fsm
    ([CONN_E_Connect; CONN_E_Connect_OK; CONN_E_Connect_Broken] ++
     CONN_E_STOP :: [CONN_E_Connect_OK; CONN_E_STOP_DONE])) = false /\
  Forall (fun a => a = CONN_A_NoAction \/ a = CONN_A_DO_Free)
    (fsm_trace (fsm_final init_conn_state_fsm
       ([CONN_E_Connect; CONN_E_Connect_OK; CONN_E_Connect_Broken] ++ [CONN_E_STOP]))
       [CONN_E_Connect_OK; CONN_E_STOP_DONE]).
Proof. apply conn_stop_is_final. reflexivity. Defined.

(** A stop that arrives before the first connect is ignored. *)
Lemma conn_stop_before_connect :
  update_conn_state init_conn_state_fsm CONN_E_STOP = (init_conn_state_fsm, CONN_A_NoAction).
Proof. reflexivity. Qed.

(** ** The driver state machine *)

Inductive drv_state_type_t : Type := Drv_init | Drv_running | Drv_shuting_down | Drv_shutdown.

#[global] Instance drv_state_type_t_eq_dec : EqDecision drv_state_type_t.
Proof. solve_decision. Defined.

Inductive drv_state_op_t : Type := Drv_init_done | Drv_turn_off | Drv_off_fail | Drv_all_stop.

Definition drv_state_num (s : drv_state_type_t) : nat :=
  match s with Drv_init => 0 | Drv_running => 1 | Drv_shuting_down => 2 | Drv_shutdown => 3 end.

Definition drv_op_num (o : drv_state_op_t) : nat :=
  match o with Drv_init_done => 0 | Drv_turn_off => 1 | Drv_off_fail => 2 | Drv_all_stop => 3 end.

Definition drv_state_of_num (n : nat) : option drv_state_type_t :=
  [Drv_init; Drv_running; Drv_shuting_down; Drv_shutdown] !! n.

Definition drv_state_transition : list (list nat) :=
  [[1; 0; 0; 0];
   [1; 2; 1; 1];
   [2; 2; 1; 3];
   [3; 3; 3; 3]]%nat.

(** [update_drv_state]: the table is indexed with the old state and the
    operation; the result is [None] only if an index were out of the table. *)
Definition update_drv_state (drvStat : drv_state_type_t) (drv_op : drv_state_op_t)
  : option (drv_state_type_t * drv_state_type_t) :=
  row ← drv_state_transition !! drv_state_num drvStat;
  n ← row !! drv_op_num drv_op;
  new ← drv_state_of_num n;
  Some (new, drvStat).

(** The driver's table is total on its states and operations, returns the
    old state, and describes the intended lifecycle: the driver can only be shut
    down from the shutting-down state by "all stop", a failed shutdown goes back
    to running, and a driver that is shut down stays so. *)
Theorem update_drv_state_spec (s : drv_state_type_t) (o : drv_state_op_t) :
  exists s', update_drv_state s o = Some (s', s) /\
    (s' = Drv_shutdown <-> s = Drv_shutdown \/ s = Drv_shuting_down /\ o = Drv_all_stop) /\
    (s' = Drv_running <-> s = Drv_init /\ o = Drv_init_done \/
                          s = Drv_running /\ o <> Drv_turn_off \/
                          s = Drv_shuting_down /\ o = Drv_off_fail) /\
    (s' = Drv_init -> s = Drv_init).
Proof. destruct s, o; cbv; eexists; (split; [reflexivity|]); intuition congruence. Qed.
