(* ===== verification/SpaceChunkFsm.v ===== *)
(** * SpaceChunkFsm: the state machines of free and allocated space chunks

    Translation of metadata_manager/space_chunk_fsm.c and .h.  A free-space
    chunk hands out space to writers (several may be allocating at once, counted
    by [num_allocating]) until the namenode takes it back: it is invalidated,
    the unused rest is reported, and it is cleaned up.  A chunk of allocated
    space is committed, flushed to the namenode and removed. *)

From S2P Require Import Prelude Fsm.

(** ** Free space chunks *)

Inductive fschunk_TRevent_t : Type :=
| fsChunk_E_AllocSpace
| fsChunk_E_AllocDONE
| fsChunk_E_InvalidateSpace
| fsChunk_E_ReportFree
| fsChunk_E_CleanSpace
| fsChunk_E_Unknown.

Inductive fschunk_action_t : Type :=
| fsChunk_A_NoAction
| fsChunk_A_DO_Alloc
| fsChunk_A_DO_Inval
| fsChunk_A_DO_Report
| fsChunk_A_DO_Clean
| fsChunk_A_DO_Retry
| fsChunk_A_Unknown.

#[global] Instance fschunk_action_t_eq_dec : EqDecision fschunk_action_t.
Proof. solve_decision. Defined.

Inductive fschunk_stat_t : Type :=
| fsChunk_S_INIT
| fsChunk_S_Free
| fsChunk_S_Allocating
| fsChunk_S_Invalidated
| fsChunk_S_Reporting
| fsChunk_S_Removable
| fsChunk_S_End
| fsChunk_S_Unknown.

#[global] Instance fschunk_stat_t_eq_dec : EqDecision fschunk_stat_t.
Proof. solve_decision. Defined.

(** [num_allocating] is an [atomic_t], a 32-bit signed counter. *)
Record fs_chunkStat_fsm_t : Type := {
  fs_chunkStat : fschunk_stat_t;
  num_allocating : Z;
}.

Definition _update_fschunkInit (chunkStat : fs_chunkStat_fsm_t) (event : fschunk_TRevent_t)
  : fs_chunkStat_fsm_t * fschunk_action_t :=
  match event with
  | fsChunk_E_AllocSpace | fsChunk_E_AllocDONE | fsChunk_E_InvalidateSpace
  | fsChunk_E_ReportFree | fsChunk_E_CleanSpace | fsChunk_E_Unknown =>
      (chunkStat, fsChunk_A_NoAction)
  end.

Definition _update_fschunkFree (chunkStat : fs_chunkStat_fsm_t) (event : fschunk_TRevent_t)
  : fs_chunkStat_fsm_t * fschunk_action_t :=
  match event with
  | fsChunk_E_AllocSpace =>
      ({| fs_chunkStat := fsChunk_S_Allocating;
          num_allocating := s32 (num_allocating chunkStat + 1) |}, fsChunk_A_DO_Alloc)
  | fsChunk_E_AllocDONE =>
      (chunkStat, fsChunk_A_NoAction)
  | fsChunk_E_InvalidateSpace =>
      ({| fs_chunkStat := fsChunk_S_Invalidated;
          num_allocating := num_allocating chunkStat |}, fsChunk_A_DO_Inval)
  | fsChunk_E_ReportFree | fsChunk_E_CleanSpace | fsChunk_E_Unknown =>
      (chunkStat, fsChunk_A_NoAction)
  end.

Definition _update_fschunkAllocating (chunkStat : fs_chunkStat_fsm_t) (event : fschunk_TRevent_t)
  : fs_chunkStat_fsm_t * fschunk_action_t :=
  match event with
  | fsChunk_E_AllocSpace =>
      ({| fs_chunkStat := fsChunk_S_Allocating;
          num_allocating := s32 (num_allocating chunkStat + 1) |}, fsChunk_A_DO_Alloc)
  | fsChunk_E_AllocDONE =>
      let n := s32 (num_allocating chunkStat - 1) in
      ({| fs_chunkStat := if n =? 0 then fsChunk_S_Free else fs_chunkStat chunkStat;
          num_allocating := n |}, fsChunk_A_NoAction)
  | fsChunk_E_InvalidateSpace =>
      (chunkStat, fsChunk_A_DO_Retry)
  | fsChunk_E_ReportFree | fsChunk_E_CleanSpace =>
      (chunkStat, fsChunk_A_NoAction)
  | fsChunk_E_Unknown =>
      (chunkStat, fsChunk_A_NoAction)
  end.

Definition _update_fschunkInval (chunkStat : fs_chunkStat_fsm_t) (event : fschunk_TRevent_t)
  : fs_chunkStat_fsm_t * fschunk_action_t :=
  match event with
  | fsChunk_E_AllocSpace | fsChunk_E_AllocDONE | fsChunk_E_InvalidateSpace =>
      (chunkStat, fsChunk_A_NoAction)
  | fsChunk_E_ReportFree =>
      ({| fs_chunkStat := fsChunk_S_Reporting;
          num_allocating := num_allocating chunkStat |}, fsChunk_A_DO_Report)
  | fsChunk_E_CleanSpace | fsChunk_E_Unknown =>
      (chunkStat, fsChunk_A_NoAction)
  end.

Definition _update_fschunkReport (chunkStat : fs_chunkStat_fsm_t) (event : fschunk_TRevent_t)
  : fs_chunkStat_fsm_t * fschunk_action_t :=
  match event with
  | fsChunk_E_AllocSpace | fsChunk_E_AllocDONE | fsChunk_E_InvalidateSpace
  | fsChunk_E_ReportFree =>
      (chunkStat, fsChunk_A_NoAction)
  | fsChunk_E_CleanSpace =>
      ({| fs_chunkStat := fsChunk_S_Removable;
          num_allocating := num_allocating chunkStat |}, fsChunk_A_DO_Clean)
  | fsChunk_E_Unknown =>
      (chunkStat, fsChunk_A_NoAction)
  end.

Definition _update_fschunkRemovable (chunkStat : fs_chunkStat_fsm_t) (event : fschunk_TRevent_t)
  : fs_chunkStat_fsm_t * fschunk_action_t :=
  match event with
  | fsChunk_E_AllocSpace | fsChunk_E_AllocDONE | fsChunk_E_InvalidateSpace
  | fsChunk_E_ReportFree | fsChunk_E_CleanSpace | fsChunk_E_Unknown =>
      (chunkStat, fsChunk_A_NoAction)
  end.

Definition _update_fschunkStat (chunkStat : fs_chunkStat_fsm_t) (event : fschunk_TRevent_t)
  : fs_chunkStat_fsm_t * fschunk_action_t :=
  match fs_chunkStat chunkStat with
  | fsChunk_S_INIT => _update_fschunkInit chunkStat event
  | fsChunk_S_Free => _update_fschunkFree chunkStat event
  | fsChunk_S_Allocating => _update_fschunkAllocating chunkStat event
  | fsChunk_S_Invalidated => _update_fschunkInval chunkStat event
  | fsChunk_S_Reporting => _update_fschunkReport chunkStat event
  | fsChunk_S_Removable => _update_fschunkRemovable chunkStat event
  | fsChunk_S_End | fsChunk_S_Unknown => (chunkStat, fsChunk_A_NoAction)
  end.

Definition update_fschunk_state (stat : fs_chunkStat_fsm_t) (event : fschunk_TRevent_t)
  : fs_chunkStat_fsm_t * fschunk_action_t :=
  _update_fschunkStat stat event.

Definition get_fschunk_state (stat : fs_chunkStat_fsm_t) : fschunk_stat_t := fs_chunkStat stat.

(** The initial state INIT is left before the function returns. *)
Definition init_fschunk_state_fsm : fs_chunkStat_fsm_t :=
  {| fs_chunkStat := fsChunk_S_Free; num_allocating := 0 |}.

#[global] Instance update_fschunk_state_FSM
  : FSM fs_chunkStat_fsm_t fschunk_TRevent_t fschunk_action_t := {
  fsm_step := update_fschunk_state;
  fsm_idle := fsChunk_A_NoAction;
}.

(** ** Allocated space chunks *)

Inductive aschunk_TRevent_t : Type :=
| asChunk_E_Commit
| asChunk_E_FlushSpace
| asChunk_E_CleanSpace
| asChunk_E_Unknown.

#[global] Instance aschunk_TRevent_t_eq_dec : EqDecision aschunk_TRevent_t.
Proof. solve_decision. Defined.

Inductive aschunk_action_t : Type :=
| asChunk_A_NoAction
| asChunk_A_DO_Commit
| asChunk_A_DO_Flush
| asChunk_A_DO_Clean
| asChunk_A_DO_Retry
| asChunk_A_Unknown.

#[global] Instance aschunk_action_t_eq_dec : EqDecision aschunk_action_t.
Proof. solve_decision. Defined.

Definition aschunk_action_t_num (x : aschunk_action_t) : nat :=
  match x with
  | asChunk_A_NoAction => 0
  | asChunk_A_DO_Commit => 1
  | asChunk_A_DO_Flush => 2
  | asChunk_A_DO_Clean => 3
  | asChunk_A_DO_Retry => 4
  | asChunk_A_Unknown => 5
  end.

Inductive aschunk_stat_t : Type :=
| asChunk_S_INIT
| asChunk_S_Allocated
| asChunk_S_Committed
| asChunk_S_Flushing
| asChunk_S_Removable
| asChunk_S_End
| asChunk_S_Unknown.

#[global] Instance aschunk_stat_t_eq_dec : EqDecision aschunk_stat_t.
Proof. solve_decision. Defined.

Definition aschunk_stat_t_num (x : aschunk_stat_t) : nat :=
  match x with
  | asChunk_S_INIT => 0
  | asChunk_S_Allocated => 1
  | asChunk_S_Committed => 2
  | asChunk_S_Flushing => 3
  | asChunk_S_Removable => 4
  | asChunk_S_End => 5
  | asChunk_S_Unknown => 6
  end.

Record as_chunkStat_fsm_t : Type := {
  as_chunkStat : aschunk_stat_t;
}.

Definition _update_aschunkInit (chunkStat : as_chunkStat_fsm_t) (event : aschunk_TRevent_t)
  : as_chunkStat_fsm_t * aschunk_action_t :=
  match event with
  | asChunk_E_Commit | asChunk_E_FlushSpace | asChunk_E_CleanSpace
  | asChunk_E_Unknown =>
      (chunkStat, asChunk_A_NoAction)
  end.

Definition _update_aschunkAlloc (chunkStat : as_chunkStat_fsm_t) (event : aschunk_TRevent_t)
  : as_chunkStat_fsm_t * aschunk_action_t :=
  match event with
  | asChunk_E_Commit =>
      ({| as_chunkStat := asChunk_S_Committed |}, asChunk_A_DO_Commit)
  | asChunk_E_FlushSpace | asChunk_E_CleanSpace | asChunk_E_Unknown =>
      (chunkStat, asChunk_A_NoAction)
  end.

Definition _update_aschunkCommit (chunkStat : as_chunkStat_fsm_t) (event : aschunk_TRevent_t)
  : as_chunkStat_fsm_t * aschunk_action_t :=
  match event with
  | asChunk_E_Commit =>
      (chunkStat, asChunk_A_NoAction)
  | asChunk_E_FlushSpace =>
      ({| as_chunkStat := asChunk_S_Flushing |}, asChunk_A_DO_Flush)
  | asChunk_E_CleanSpace | asChunk_E_Unknown =>
      (chunkStat, asChunk_A_NoAction)
  end.

Definition _update_aschunkFlushing (chunkStat : as_chunkStat_fsm_t) (event : aschunk_TRevent_t)
  : as_chunkStat_fsm_t * aschunk_action_t :=
  match event with
  | asChunk_E_Commit | asChunk_E_FlushSpace =>
      (chunkStat, asChunk_A_NoAction)
  | asChunk_E_CleanSpace =>
      ({| as_chunkStat := asChunk_S_Removable |}, asChunk_A_DO_Clean)
  | asChunk_E_Unknown =>
      (chunkStat, asChunk_A_NoAction)
  end.

Definition _update_aschunkRemovable (chunkStat : as_chunkStat_fsm_t) (event : aschunk_TRevent_t)
  : as_chunkStat_fsm_t * aschunk_action_t :=
  match event with
  | asChunk_E_Commit | asChunk_E_FlushSpace | asChunk_E_CleanSpace
  | asChunk_E_Unknown =>
      (chunkStat, asChunk_A_NoAction)
  end.

Definition _update_aschunkStat (chunkStat : as_chunkStat_fsm_t) (event : aschunk_TRevent_t)
  : as_chunkStat_fsm_t * aschunk_action_t :=
  match as_chunkStat chunkStat with
  | asChunk_S_INIT => _update_aschunkInit chunkStat event
  | asChunk_S_Allocated => _update_aschunkAlloc chunkStat event
  | asChunk_S_Committed => _update_aschunkCommit chunkStat event
  | asChunk_S_Flushing => _update_aschunkFlushing chunkStat event
  | asChunk_S_Removable => _update_aschunkRemovable chunkStat event
  | asChunk_S_End | asChunk_S_Unknown => (chunkStat, asChunk_A_NoAction)
  end.

Definition update_aschunk_state (stat : as_chunkStat_fsm_t) (event : aschunk_TRevent_t)
  : as_chunkStat_fsm_t * aschunk_action_t :=
  _update_aschunkStat stat event.

Definition get_aschunk_state (stat : as_chunkStat_fsm_t) : aschunk_stat_t := as_chunkStat stat.

Definition asChunkStat_str : list string :=
  ["init"%string;
   "allocated"%string;
   "committed"%string;
   "flushing"%string;
   "removable"%string;
   "end"%string;
   "Unknown"%string].

Definition asChunkAction_str : list string :=
  ["No action"%string;
   "Do Commit"%string;
   "Do Flush"%string;
   "Do Clean"%string;
   "Retry TR Event"%string;
   "Unknown"%string].

Definition get_aschunkStat_action_str (action : aschunk_action_t) : string :=
  let n := aschunk_action_t_num action in
  if bool_decide (aschunk_action_t_num asChunk_A_NoAction <= n /\ n < aschunk_action_t_num asChunk_A_Unknown)%nat
  then default EmptyString (asChunkAction_str !! n)
  else default EmptyString (asChunkAction_str !! aschunk_action_t_num asChunk_A_Unknown).

Definition get_aschunk_state_str (stat : as_chunkStat_fsm_t) : string :=
  let n := aschunk_stat_t_num (get_aschunk_state stat) in
  if bool_decide (aschunk_stat_t_num asChunk_S_INIT <= n /\ n < aschunk_stat_t_num asChunk_S_Unknown)%nat
  then default EmptyString (asChunkStat_str !! n)
  else default EmptyString (asChunkStat_str !! aschunk_stat_t_num asChunk_S_Unknown).

Definition init_aschunk_state_fsm : as_chunkStat_fsm_t := {| as_chunkStat := asChunk_S_Allocated |}.

#[global] Instance update_aschunk_state_FSM : FSM as_chunkStat_fsm_t aschunk_TRevent_t aschunk_action_t := {
  fsm_step := update_aschunk_state;
  fsm_idle := asChunk_A_NoAction;
}.

(** ** Theorems *)

(** The counter and the state agree: allocations are in progress exactly in the
    allocating state. *)
Definition fschunk_wf (bound : Z) (s : fs_chunkStat_fsm_t) : Prop :=
  0 <= num_allocating s <= bound /\
  (fs_chunkStat s = fsChunk_S_Allocating <-> 0 < num_allocating s).

Lemma fschunk_wf_step bound s e :
  bound < 2 ^ 31 - 1 -> fschunk_wf bound s -> fschunk_wf (bound + 1) (update_fschunk_state s e).1.
Proof.
  unfold fschunk_wf. destruct s as [st n]. simpl. intros Hb [Hr Hw].
  assert (Hst : (st = fsChunk_S_Allocating /\ 0 < n) \/ (st <> fsChunk_S_Allocating /\ n = 0))
    by (destruct (decide (0 < n)) as [Hn|Hn]; [left; tauto|right; split; [tauto|lia]]).
  clear Hw. destruct Hst as [[-> Hn]|[Hst ->]].
  - destruct e; cbn -[s32]; wrap_small; simpl; try (split; [lia|]; intuition (congruence || lia)).
    destruct (n - 1 =? 0) eqn:E; zbool; simpl; (split; [lia|]); intuition (congruence || lia).
  - destruct st; try congruence; destruct e; cbn -[s32]; wrap_small;
      (split; [lia|]); intuition (congruence || lia).
Qed.

Lemma fschunk_wf_run bound s es :
  fschunk_wf bound s -> bound + Z.of_nat (length es) < 2 ^ 31 ->
  fschunk_wf (bound + Z.of_nat (length es)) (fsm_final s es).
Proof.
  revert bound s. induction es as [|e es IH]; intros bound s Hw Hlen.
  - by rewrite Z.add_0_r.
  - rewrite fsm_final_cons. simpl length in *.
    replace (bound + Z.of_nat (S (length es))) with ((bound + 1) + Z.of_nat (length es)) by lia.
    apply IH; [|lia]. apply fschunk_wf_step; [lia|done].
Qed.

(** The allocation counter of a free-space chunk never goes wrong: after any
    run of fewer than 2^31 events it is non-negative and positive exactly in the
    allocating state, so invalidation is granted only when nobody allocates. *)
Theorem fschunk_counter_invariant (es : list fschunk_TRevent_t) :
  Z.of_nat (length es) < 2 ^ 31 ->
  fschunk_wf (Z.of_nat (length es)) (fsm_final init_fschunk_state_fsm es) /\
  ((update_fschunk_state (fsm_final init_fschunk_state_fsm es) fsChunk_E_InvalidateSpace).2
     = fsChunk_A_DO_Inval -> num_allocating (fsm_final init_fschunk_state_fsm es) = 0).
Proof.
  intros Hlen.
  assert (Hw : fschunk_wf (Z.of_nat (length es)) (fsm_final init_fschunk_state_fsm es)).
  { apply (fschunk_wf_run 0 init_fschunk_state_fsm es); [|lia].
    split; [done|]. simpl. split; [congruence|lia]. }
  split; [done|]. revert Hw. unfold fschunk_wf.
  destruct (fsm_final init_fschunk_state_fsm es) as [[] n]; simpl; try congruence.
  intros [Hr Hw] _. assert (~ 0 < n) by (rewrite <- Hw; congruence). lia.
Qed.

Lemma fschunk_counter_invariant_witness :
  fschunk_wf 2 (fsm_final init_fschunk_state_fsm
    [fsChunk_E_AllocSpace; fsChunk_E_AllocDONE]) /\
  ((update_fschunk_state (fsm_final init_fschunk_state_fsm
      [fsChunk_E_AllocSpace; fsChunk_E_AllocDONE]) fsChunk_E_InvalidateSpace).2
     = fsChunk_A_DO_Inval ->
   num_allocating (fsm_final init_fschunk_state_fsm
      [fsChunk_E_AllocSpace; fsChunk_E_AllocDONE]) = 0).
Proof.
  apply (fschunk_counter_invariant [fsChunk_E_AllocSpace; fsChunk_E_AllocDONE]).
  simpl. lia.
Defined.

Definition fs_retire (a : fschunk_action_t) : bool :=
  match a with
  | fsChunk_A_DO_Inval | fsChunk_A_DO_Report | fsChunk_A_DO_Clean => true
  | _ => false
  end.

Definition fs_script (s : fs_chunkStat_fsm_t) (p : list fschunk_action_t) : Prop :=
  match fs_chunkStat s with
  | fsChunk_S_Free | fsChunk_S_Allocating =>
      p = [fsChunk_A_DO_Inval; fsChunk_A_DO_Report; fsChunk_A_DO_Clean]
  | fsChunk_S_Invalidated => p = [fsChunk_A_DO_Report; fsChunk_A_DO_Clean]
  | fsChunk_S_Reporting => p = [fsChunk_A_DO_Clean]
  | _ => p = []
  end.

Lemma fs_scripted : scripted fs_retire fs_script.
Proof.
  split.
  - intros [[] n]; eexists; reflexivity.
  - intros [[] n] [] p; unfold fs_script; simpl; try (destruct (_ =? _)); simpl; intros ->; done.
Qed.

(** The states in which a chunk was taken back. *)
Definition fs_retired (s : fs_chunkStat_fsm_t) : Prop :=
  match fs_chunkStat s with
  | fsChunk_S_Free | fsChunk_S_Allocating | fsChunk_S_INIT => False
  | _ => True
  end.

Lemma fs_retired_step s e : fs_retired s -> fs_retired (update_fschunk_state s e).1.
Proof. by destruct s as [[] n], e. Qed.

(** A free-space chunk is retired in order, once: invalidate, report, clean;
    and once the invalidation was granted no allocation is ever granted again. *)
Theorem fschunk_retirement (es1 es2 : list fschunk_TRevent_t) :
  filter (fun a => fs_retire a = true) (fsm_trace init_fschunk_state_fsm es1)
    `prefix_of` [fsChunk_A_DO_Inval; fsChunk_A_DO_Report; fsChunk_A_DO_Clean] /\
  (fs_retired (fsm_final init_fschunk_state_fsm es1) ->
   fsChunk_A_DO_Alloc ∉ fsm_trace (fsm_final init_fschunk_state_fsm es1) es2).
Proof.
  split.
  - destruct (scripted_prefix _ _ init_fschunk_state_fsm es1 fs_scripted) as (p & Hp & Hpre).
    unfold fs_script in Hp. simpl in Hp. by subst.
  - generalize (fsm_final init_fschunk_state_fsm es1). induction es2 as [|e es2 IH]; intros s Hs.
    + apply not_elem_of_nil.
    + rewrite fsm_trace_cons, elem_of_cons. intros [Ha|Hin].
      * by destruct s as [[] n], e.
      * by eapply IH, Hin; apply fs_retired_step.
Qed.

Lemma fschunk_retirement_witness :
  fsChunk_A_DO_Alloc ∉ fsm_trace (fsm_final init_fschunk_state_fsm [fsChunk_E_InvalidateSpace])
    [fsChunk_E_AllocSpace; fsChunk_E_ReportFree; fsChunk_E_AllocSpace].
Proof.
  apply (fschunk_retirement [fsChunk_E_InvalidateSpace]
    [fsChunk_E_AllocSpace; fsChunk_E_ReportFree; fsChunk_E_AllocSpace]). exact I.
Defined.

(** Allocated chunks go through commit, flush and clean in this order, each
    at most once. *)
Theorem aschunk_lifecycle (es : list aschunk_TRevent_t) :
  filter (fun a => a <> asChunk_A_NoAction) (fsm_trace init_aschunk_state_fsm es)
    `prefix_of` [asChunk_A_DO_Commit; asChunk_A_DO_Flush; asChunk_A_DO_Clean].
Proof.
  pose (f := fun a => negb (bool_decide (a = asChunk_A_NoAction))).
  pose (script := fun (s : as_chunkStat_fsm_t) p => p = match as_chunkStat s with
    | asChunk_S_Allocated => [asChunk_A_DO_Commit; asChunk_A_DO_Flush; asChunk_A_DO_Clean]
    | asChunk_S_Committed => [asChunk_A_DO_Flush; asChunk_A_DO_Clean]
    | asChunk_S_Flushing => [asChunk_A_DO_Clean]
    | _ => [] end).
  destruct (scripted_prefix f script init_aschunk_state_fsm es) as (p & Hp & Hpre).
  { split; [intros [[]]; by eexists|]. by intros [[]] [] p; unfold script; simpl; intros ->. }
  subst script. simpl in Hp. subst p. revert Hpre. subst f.
  erewrite list_filter_iff; [done|]. intros a. simpl. by destruct a.
Qed.
