(* ===== verification/CommonUtil.v ===== *)
(** * CommonUtil: the helpers of common/common_util.c

    Physical-location triplets packed into 64-bit words, byte order, the sector
    skips of a block mask, the three-way comparison of the copy loops, the state
    bits of a request and the text form of an IPv4 address. *)

From S2P Require Import Prelude.

(** ** Sizes (common/discoC_sys_def.h) *)

Definition BIT_LEN_DMS_LB_SECTS : Z := 3.
Definition BIT_LEN_DMS_LB_SIZE : Z := 12.
Definition MAX_SECTS_PER_RQ : Z := 256.
Definition NUM_SECTS_PER_DMS_LB : Z := 8.
Definition MAX_LBS_PER_IOR : Z := MAX_SECTS_PER_RQ / NUM_SECTS_PER_DMS_LB + 1.
Definition MAX_LBS_PER_ALLOCMD_REQ : Z := MAX_SECTS_PER_RQ / NUM_SECTS_PER_DMS_LB.
Definition MAX_NUM_REPLICA : Z := 3.

(** ** Packed physical locations *)

Definition compose_len_off (len offset : Z) : Z :=
  Z.lor (u64 (Z.shiftl (u64 len) 40)) (u64 offset).

(** The [int32_t] arguments are converted to [uint64_t]: a negative one is
    sign-extended before it is shifted. *)
Definition compose_triple (rbid len offset : Z) : Z :=
  Z.lor (Z.lor (u64 (Z.shiftl (u64 rbid) 32)) (u64 (Z.shiftl (u64 len) 20))) (u64 offset).

(** The length goes through [int32_t] before the last shift, which is then
    an arithmetic one. *)
Definition decompose_triple (val : Z) : Z * Z * Z :=
  let rbid := s32 (Z.shiftr val 32) in
  let tmp := u64 (Z.shiftl val 32) in
  let len := Z.shiftr (s32 (Z.shiftr tmp 32)) 20 in
  let offset := s32 (Z.land val 0x00000000000fffff) in
  (rbid, len, offset).

(** ** Byte order *)

Definition htonll (x : Z) : Z :=
  Z.lor (Z.lor (Z.lor (Z.lor (Z.lor (Z.lor (Z.lor
    (Z.shiftr (Z.land x 0xff00000000000000) 56)
    (Z.shiftr (Z.land x 0x00ff000000000000) 40))
    (Z.shiftr (Z.land x 0x0000ff0000000000) 24))
    (Z.shiftr (Z.land x 0x000000ff00000000) 8))
    (u64 (Z.shiftl (Z.land x 0x00000000ff000000) 8)))
    (u64 (Z.shiftl (Z.land x 0x0000000000ff0000) 24)))
    (u64 (Z.shiftl (Z.land x 0x000000000000ff00) 40)))
    (u64 (Z.shiftl (Z.land x 0x00000000000000ff) 56)).

Definition ntohll (x : Z) : Z := htonll x.

Definition MAGIC_NUM : Z := 0xa5a5a5a5a5a5a5a5.
Definition MAGIC_NUM_END : Z := 0xeeeeeeeeeeeeeeee.

(** ** Sector skips *)

Definition BIT_LEN_PER_1_MASK : Z := 8.

(** [test_bit] on the one-byte object [mask_val]; a bit outside of the object is
    an out-of-bounds read, [None]. *)
Definition test_mask_bit (bit mask_val : Z) : option bool :=
  if (0 <=? bit) && (bit <? 8) then Some (Z.testbit mask_val bit) else None.

Fixpoint head_sect_loop (fuel : nat) (mask_bit_start num_of_sec mask_val : Z) : option Z :=
  match fuel with
  | O => None
  | S fuel =>
      if mask_bit_start <? BIT_LEN_PER_1_MASK then
        b ← test_mask_bit mask_bit_start mask_val;
        if b : bool then Some num_of_sec
        else head_sect_loop fuel (u64 (mask_bit_start + 1)) (s32 (num_of_sec + 1)) mask_val
      else Some num_of_sec
  end.

(** Nine rounds: eight bits and the final test of the loop condition. *)
Definition head_sect_skip (mask_val : Z) : option Z := head_sect_loop 9 0 0 mask_val.

(** The loop counter is a [uint64_t], so the condition [mask_bit_start >= 0] is
    always true and the decrement of 0 wraps around. *)
Fixpoint tail_sect_loop (fuel : nat) (mask_bit_start num_of_sec mask_val : Z) : option Z :=
  match fuel with
  | O => None
  | S fuel =>
      if 0 <=? mask_bit_start then
        b ← test_mask_bit mask_bit_start mask_val;
        if b : bool then Some num_of_sec
        else tail_sect_loop fuel (u64 (mask_bit_start - 1)) (s32 (num_of_sec + 1)) mask_val
      else Some num_of_sec
  end.

Definition tail_sect_skip (mask_val : Z) : option Z :=
  tail_sect_loop 10 (BIT_LEN_PER_1_MASK - 1) 0 mask_val.

(** ** Comparison and division *)

Inductive triple_cmp_type_t : Type := cmp_1st_Min | cmp_2nd_Min | cmp_3rd_Min.

#[global] Instance triple_cmp_type_t_eq_dec : EqDecision triple_cmp_type_t.
Proof. solve_decision. Defined.

Definition cmp_triple_int (num1 num2 num3 : Z) : triple_cmp_type_t :=
  if num1 >=? num2 then (if num2 >=? num3 then cmp_3rd_Min else cmp_2nd_Min)
  else (if num1 >=? num3 then cmp_3rd_Min else cmp_1st_Min).

Definition do_divide (dividend divisor : Z) : Z :=
  if divisor <=? 0 then 0 else dividend / divisor.

(** ** Request state bits

    [state] is a 32-bit word; the callers pass bit numbers below 32.  The
    atomic bit operations of the kernel are single steps. *)

Record req_state_trace_t : Type := { rs_state : Z }.

Definition test_req_state (r : req_state_trace_t) (bit : Z) : bool := Z.testbit (rs_state r) bit.

Definition set_request_state (r : req_state_trace_t) (bit : Z) (value : bool) : req_state_trace_t :=
  {| rs_state := if value then Z.setbit (rs_state r) bit else Z.clearbit (rs_state r) bit |}.

Definition test_and_set_request_state (r : req_state_trace_t) (bit : Z) (value : bool)
  : req_state_trace_t * bool :=
  (set_request_state r bit value, Z.testbit (rs_state r) bit).

Definition test_req_state_lock (r : req_state_trace_t) (bit : Z) : bool := test_req_state r bit.

Definition set_req_state_lock (r : req_state_trace_t) (bit : Z) (value : bool) : req_state_trace_t :=
  set_request_state r bit value.

Definition clear_request_state (r : req_state_trace_t) : req_state_trace_t := {| rs_state := 0 |}.

Definition init_request_state : req_state_trace_t := {| rs_state := 0 |}.

(** ** IPv4 addresses as text *)

(** Characters are their codes. *)
Definition chr_dot : Z := 46.
Definition is_digit (c : Z) : bool := (48 <=? c) && (c <=? 57).
Definition is_space (c : Z) : bool := (c =? 32) || ((9 <=? c) && (c <=? 13)).

(** [%d] of [sprintf] for a non-negative number. *)
Fixpoint print_digits (fuel : nat) (n : Z) (acc : list Z) : list Z :=
  match fuel with
  | O => acc
  | S fuel =>
      let acc := (48 + n mod 10) :: acc in
      if n / 10 =? 0 then acc else print_digits fuel (n / 10) acc
  end.

Definition print_dec (n : Z) : list Z := print_digits 10 n [].

(** The result is the content of the buffer up to the terminating NUL. *)
Definition ccma_inet_aton (ipaddr : Z) : list Z :=
  print_dec (Z.land ipaddr 0xff) ++ [chr_dot] ++
  print_dec (Z.land (Z.shiftr ipaddr 8) 0xff) ++ [chr_dot] ++
  print_dec (Z.land (Z.shiftr ipaddr 16) 0xff) ++ [chr_dot] ++
  print_dec (Z.land (Z.shiftr ipaddr 24) 0xff).

(** [%d] of [sscanf]: white space, a sign, at least one digit. *)
Fixpoint scan_spaces (s : list Z) : list Z :=
  match s with
  | c :: t => if is_space c then scan_spaces t else s
  | [] => []
  end.

Fixpoint scan_digits (s : list Z) (acc : Z) : Z * list Z :=
  match s with
  | c :: t => if is_digit c then scan_digits t (acc * 10 + (c - 48)) else (acc, s)
  | [] => (acc, [])
  end.

Definition scan_unsigned (s : list Z) : option (Z * list Z) :=
  match s with
  | c :: _ => if is_digit c then Some (scan_digits s 0) else None
  | [] => None
  end.

Definition scan_int (s : list Z) : option (Z * list Z) :=
  match scan_spaces s with
  | c :: t =>
      if c =? 45 then '(n, r) ← scan_unsigned t; Some (s32 (- n), r)
      else if c =? 43 then '(n, r) ← scan_unsigned t; Some (s32 n, r)
      else '(n, r) ← scan_unsigned (c :: t); Some (s32 n, r)
  | [] => None
  end.

Definition scan_dot (s : list Z) : option (list Z) :=
  match s with
  | c :: t => if c =? chr_dot then Some t else None
  | [] => None
  end.

(** [None]: a conversion failed and one of a, b, c, d is read uninitialised.
    The four bytes are stored in memory order and read as a little-endian
    [uint32_t]. *)
Definition ccma_inet_ntoa (ipaddr : list Z) : option Z :=
  '(a, s) ← scan_int ipaddr; s ← scan_dot s;
  '(b, s) ← scan_int s; s ← scan_dot s;
  '(c, s) ← scan_int s; s ← scan_dot s;
  '(d, _) ← scan_int s;
  Some (u8 a + u8 b * 2 ^ 8 + u8 c * 2 ^ 16 + u8 d * 2 ^ 24).

(** ** Theorems *)

Lemma compose_triple_sum rbid len offset :
  0 <= len < 2 ^ 12 -> 0 <= offset < 2 ^ 20 ->
  compose_triple rbid len offset = (u64 rbid mod 2 ^ 32) * 2 ^ 32 + (len * 2 ^ 20 + offset).
Proof.
  intros Hl Ho. unfold compose_triple.
  rewrite (u64_small len), (u64_small offset) by (unfold is_u64; lia).
  rewrite (u64_small (Z.shiftl len 20)) by (unfold is_u64; rewrite Z.shiftl_mul_pow2; lia).
  rewrite <- Z.lor_assoc, lor_shiftl_add by lia.
  assert (u64 (Z.shiftl (u64 rbid) 32) = Z.shiftl (u64 rbid mod 2 ^ 32) 32) as ->.
  { unfold u64 at 1. rewrite !Z.shiftl_mul_pow2 by lia.
    change (2 ^ 64) with (2 ^ 32 * 2 ^ 32). by rewrite Z.mul_mod_distr_r by lia. }
  rewrite lor_shiftl_add by lia. done.
Qed.

Lemma s32_u64 x : is_s32 x -> s32 (u64 x mod 2 ^ 32) = x.
Proof.
  unfold is_s32, s32, u64. intros H.
  change (2 ^ 64) with (2 ^ 32 * 2 ^ 32).
  rewrite Z.rem_mul_r by lia. rewrite (Z.mul_comm (2 ^ 32)), Z.mod_add, Z.mod_mod by lia.
  rewrite Zplus_mod_idemp_l, Z.mod_small; lia.
Qed.

Lemma decompose_parts val rbid lo :
  val = rbid * 2 ^ 32 + lo -> 0 <= lo < 2 ^ 32 ->
  decompose_triple val = (s32 rbid, Z.shiftr (s32 lo) 20, lo mod 2 ^ 20).
Proof.
  intros -> Hlo. unfold decompose_triple.
  assert (Hdiv : (rbid * 2 ^ 32 + lo) / 2 ^ 32 = rbid)
    by (rewrite Z.div_add_l, Z.div_small; lia).
  f_equal; [f_equal|].
  - rewrite Z.shiftr_div_pow2 by lia. by rewrite Hdiv.
  - do 2 f_equal. unfold u64. rewrite Z.shiftl_mul_pow2, Z.shiftr_div_pow2 by lia.
    change (2 ^ 64) with (2 ^ 32 * 2 ^ 32). rewrite Z.mul_mod_distr_r, Z.div_mul by lia.
    rewrite Z.add_comm, Z.mod_add, Z.mod_small; lia.
  - change 0x00000000000fffff with (Z.ones 20). rewrite Z.land_ones by lia.
    change (2 ^ 32) with (2 ^ 12 * 2 ^ 20). rewrite Z.mul_assoc, Z.add_comm, Z.mod_add by lia.
    apply s32_small. unfold is_s32. pose proof (Z.mod_pos_bound lo (2 ^ 20)). lia.
Qed.

Lemma decompose_compose_gen (rbid len offset : Z) :
  is_s32 rbid -> 0 <= len < 2 ^ 12 -> 0 <= offset < 2 ^ 20 ->
  decompose_triple (compose_triple rbid len offset)
    = (rbid, (if len <? 2 ^ 11 then len else len - 2 ^ 12), offset).
Proof.
  intros Hr Hl Ho. rewrite compose_triple_sum by done.
  rewrite (decompose_parts _ (u64 rbid mod 2 ^ 32) (len * 2 ^ 20 + offset)) by lia.
  rewrite s32_u64 by done.
  assert ((len * 2 ^ 20 + offset) mod 2 ^ 20 = offset) as ->
    by (rewrite Z.add_comm, Z.mod_add, Z.mod_small; lia).
  do 2 f_equal. rewrite Z.shiftr_div_pow2 by lia. destruct (len <? 2 ^ 11) eqn:E; zbool.
  - wrap_small. rewrite Z.div_add_l, Z.div_small; lia.
  - unfold s32.
    replace (len * 2 ^ 20 + offset + 2 ^ 31)
      with (((len - 2 ^ 12) * 2 ^ 20 + offset + 2 ^ 31) + 1 * 2 ^ 32) by lia.
    rewrite Z.mod_add, Z.mod_small by lia.
    replace ((len - 2 ^ 12) * 2 ^ 20 + offset + 2 ^ 31 - 2 ^ 31)
      with ((len - 2 ^ 12) * 2 ^ 20 + offset) by lia.
    rewrite Z.div_add_l, Z.div_small; lia.
Qed.

(** Unpacking a packed triplet gives back the RBID and the offset, and the
    length modulo the sign of its 12-bit field: lengths below 2048 come back
    unchanged, lengths from 2048 to 4095, which the layout comment allows, come
    back negative. *)
Theorem decompose_compose_triple (rbid len offset : Z) :
  is_s32 rbid -> 0 <= len < 2 ^ 12 -> 0 <= offset < 2 ^ 20 ->
  decompose_triple (compose_triple rbid len offset)
    = (rbid, (if len <? 2 ^ 11 then len else len - 2 ^ 12), offset).
Proof. apply decompose_compose_gen. Qed.

Lemma decompose_compose_triple_witness :
  decompose_triple (compose_triple (-1009778692) 7 123456) = (-1009778692, 7, 123456) /\
  decompose_triple (compose_triple 5 4095 1) = (5, -1, 1).
Proof.
  split.
  - apply (decompose_compose_triple (-1009778692) 7 123456); unfold is_s32; lia.
  - apply (decompose_compose_triple 5 4095 1); unfold is_s32; lia.
Defined.

(** Packing what was unpacked restores the word whenever its length field
    does not have the sign bit set, so no two such words denote the same location. *)
Theorem compose_decompose_triple (val rbid len offset : Z) :
  is_u64 val -> Z.testbit val 31 = false ->
  decompose_triple val = (rbid, len, offset) -> compose_triple rbid len offset = val.
Proof.
  intros Hv Hbit.
  set (lo := val mod 2 ^ 32). assert (Hlo : 0 <= lo < 2 ^ 32) by (apply Z.mod_pos_bound; lia).
  assert (Hval : val = (val / 2 ^ 32) * 2 ^ 32 + lo) by (subst lo; rewrite Z.mul_comm; apply Z.div_mod; lia).
  assert (Hlo31 : lo < 2 ^ 31).
  { rewrite Z.testbit_false in Hbit by lia. subst lo.
    change (2 ^ 32) with (2 ^ 31 * 2). rewrite Z.rem_mul_r by lia.
    rewrite Hbit. pose proof (Z.mod_pos_bound val (2 ^ 31)). lia. }
  rewrite (decompose_parts val _ lo Hval Hlo). intros [= <- <- <-].
  unfold is_u64 in Hv.
  assert (Hhi : 0 <= val / 2 ^ 32 < 2 ^ 32).
  { split; [apply Z.div_pos; lia|]. apply Z.div_lt_upper_bound; lia. }
  rewrite (s32_small lo) by (unfold is_s32; lia). rewrite Z.shiftr_div_pow2 by lia.
  rewrite compose_triple_sum.
  - etrans; [|symmetry; exact Hval]. f_equal.
    + f_equal. unfold s32, u64.
      change (2 ^ 64) with (2 ^ 32 * 2 ^ 32). rewrite Z.rem_mul_r by lia.
      rewrite (Z.mul_comm (2 ^ 32)), Z.mod_add, Z.mod_mod by lia.
      rewrite Zminus_mod_idemp_l. rewrite Z.add_simpl_r. apply Z.mod_small. lia.
    + rewrite (Z.mul_comm (lo / _)). symmetry. apply Z.div_mod. lia.
  - split; [apply Z.div_pos; lia|apply Z.div_lt_upper_bound; lia].
  - apply Z.mod_pos_bound. lia.
Qed.

Lemma compose_decompose_triple_witness :
  compose_triple (-2) 5 9 = 0xfffffffe00500009.
Proof. apply (compose_decompose_triple 0xfffffffe00500009 (-2) 5 9); reflexivity || (unfold is_u64; lia). Defined.

Lemma htonll_bit x i :
  0 <= i < 64 -> Z.testbit (htonll x) i = Z.testbit x (8 * (7 - i / 8) + i mod 8).
Proof.
  intros Hi. unfold htonll. rewrite !Z.lor_spec.
  assert (Hr : forall m n, Z.testbit (Z.shiftr (Z.land x m) n) i = Z.testbit x (i + n) && Z.testbit m (i + n))
    by (intros; by rewrite Z.shiftr_spec, Z.land_spec by lia).
  assert (Hl : forall m n, Z.testbit (u64 (Z.shiftl (Z.land x m) n)) i = Z.testbit x (i - n) && Z.testbit m (i - n)).
  { intros. unfold u64. by rewrite Z.mod_pow2_bits_low, Z.shiftl_spec, Z.land_spec by lia. }
  rewrite !Hr, !Hl. clear Hr Hl.
  generalize (Z.testbit x). intros f.
  assert (Hc : i ∈ zseq 0 64) by (apply elem_of_zseq; lia). clear Hi.
  let l := eval vm_compute in (zseq 0 64) in change (zseq 0 64) with l in Hc.
  repeat (apply elem_of_cons in Hc as [->|Hc]; [vm_compute; by repeat case (f _)|]).
  by apply elem_of_nil in Hc.
Qed.

Lemma htonll_range x : is_u64 (htonll x).
Proof.
  unfold is_u64, htonll.
  assert (Hm : forall m n, 0 <= m < 2 ^ 64 -> 0 <= n -> 0 <= Z.shiftr (Z.land x m) n < 2 ^ 64).
  { intros m n Hm Hn.
    assert (0 <= Z.land x m < 2 ^ 64) by (apply land_bound; lia).
    split; [apply Z.shiftr_nonneg; lia|]. rewrite Z.shiftr_div_pow2 by done.
    pose proof (Z.div_le_upper_bound (Z.land x m) (2 ^ n) (Z.land x m)).
    pose proof (Z.pow_pos_nonneg 2 n). nia. }
  repeat (apply lor_bound; [lia| |]); try apply u64_range; apply Hm; lia.
Qed.

(** [htonll] reverses the eight bytes of a 64-bit word and [ntohll] undoes it. *)
Theorem htonll_reverses_bytes (x : Z) :
  is_u64 x ->
  (forall j : Z, 0 <= j < 8 -> Z.shiftr (htonll x) (8 * j) mod 2 ^ 8 = Z.shiftr x (8 * (7 - j)) mod 2 ^ 8) /\
  ntohll (htonll x) = x.
Proof.
  intros Hx. split.
  - intros j Hj. apply Z.bits_inj'. intros k Hk. destruct (decide (k < 8)).
    + rewrite !Z.mod_pow2_bits_low, !Z.shiftr_spec, htonll_bit by lia. f_equal.
      rewrite (Z.add_comm k), (Z.mul_comm 8 j), Z.div_add_l, Z.div_small by lia.
      rewrite (Z.add_comm (j * 8)), Z.mod_add, Z.mod_small by lia. lia.
    + by rewrite !Z.mod_pow2_bits_high by lia.
  - unfold ntohll. apply Z.bits_inj'. intros i Hi. destruct (decide (i < 64)).
    + rewrite !htonll_bit by (pose proof (Z.div_mod i 8); pose proof (Z.mod_pos_bound i 8); lia).
      f_equal. pose proof (Z.div_mod i 8 ltac:(lia)). pose proof (Z.mod_pos_bound i 8 ltac:(lia)).
      generalize dependent (i / 8). generalize dependent (i mod 8). intros r Hr q Hq.
      rewrite (Z.mul_comm 8 (7 - q)), Z.div_add_l, Z.div_small by lia.
      rewrite (Z.add_comm (_ * 8)), Z.mod_add, Z.mod_small by lia. lia.
    + rewrite <- (u64_small (htonll (htonll x))), <- (u64_small x) by auto using htonll_range.
      unfold u64. by rewrite !Z.mod_pow2_bits_high by lia.
Qed.

Lemma ntohll_htonll x : is_u64 x -> ntohll (htonll x) = x.
Proof. intros H. by apply htonll_reverses_bytes. Qed.

Lemma htonll_reverses_bytes_witness :
  Z.shiftr (htonll MAGIC_NUM_END) (8 * 3) mod 2 ^ 8 = Z.shiftr MAGIC_NUM_END (8 * 4) mod 2 ^ 8 /\
  ntohll (htonll 0x0102030405060708) = 0x0102030405060708.
Proof.
  split.
  - apply (htonll_reverses_bytes MAGIC_NUM_END); unfold is_u64, MAGIC_NUM_END; lia.
  - apply (htonll_reverses_bytes 0x0102030405060708). unfold is_u64. lia.
Defined.

Lemma test_mask_bit_in bit m : 0 <= bit < 8 -> test_mask_bit bit m = Some (Z.testbit m bit).
Proof. intros. unfold test_mask_bit. by rewrite (proj2 (Z.leb_le _ _)), (proj2 (Z.ltb_lt _ _)) by lia. Qed.

Lemma head_sect_loop_spec m fuel start :
  0 <= start <= 8 -> 8 - start < Z.of_nat fuel ->
  (forall i, 0 <= i < start -> Z.testbit m i = false) ->
  exists k, head_sect_loop fuel start start m = Some k /\ 0 <= k <= 8 /\
    (forall i, 0 <= i < k -> Z.testbit m i = false) /\ (k < 8 -> Z.testbit m k = true).
Proof.
  revert start. induction fuel as [|fuel IH]; intros start Hs Hf Hz; [lia|].
  cbn -[u64 s32]. unfold BIT_LEN_PER_1_MASK. destruct (start <? 8) eqn:E; zbool.
  - rewrite test_mask_bit_in by lia. cbn -[u64 s32].
    destruct (Z.testbit m start) eqn:Hb; [exists start; repeat split; auto; lia|].
    wrap_small. apply IH; [lia..|]. intros i Hi.
    destruct (decide (i = start)) as [->|]; [done|]. apply Hz. lia.
  - exists start. repeat split; auto; lia.
Qed.

Lemma tail_sect_loop_spec m fuel start :
  0 <= start < 8 -> start < Z.of_nat fuel ->
  (forall i, start < i < 8 -> Z.testbit m i = false) ->
  (exists i, 0 <= i <= start /\ Z.testbit m i = true) ->
  exists k, tail_sect_loop fuel start (7 - start) m = Some k /\ 0 <= k < 8 /\
    (forall i, 8 - k <= i < 8 -> Z.testbit m i = false) /\ Z.testbit m (7 - k) = true.
Proof.
  revert start. induction fuel as [|fuel IH]; intros start Hs Hf Hz [j [Hj Hjb]]; [lia|].
  cbn -[u64 s32]. rewrite (proj2 (Z.leb_le 0 start)) by lia.
  rewrite test_mask_bit_in by lia. cbn -[u64 s32].
  destruct (Z.testbit m start) eqn:Hb.
  - exists (7 - start). repeat split; try lia; [intros; apply Hz; lia|].
    by replace (7 - (7 - start)) with start by lia.
  - assert (j <> start) by congruence. wrap_small.
    replace (7 - start + 1) with (7 - (start - 1)) by lia. apply IH; [lia..| |].
    + intros i Hi. destruct (decide (i = start)) as [->|]; [done|]. apply Hz. lia.
    + exists j. split; [lia|done].
Qed.

Lemma u8_nonzero_bit m : is_u8 m -> m <> 0 -> exists i, 0 <= i <= 7 /\ Z.testbit m i = true.
Proof.
  unfold is_u8. intros Hm Hnz. exists (Z.log2 m).
  pose proof (Z.log2_nonneg m). pose proof (Z.log2_lt_pow2 m 8).
  split; [lia|]. apply Z.bit_log2. lia.
Qed.

(** The sector skips of a block mask.  [head_sect_skip] counts the zero bits
    below the first set bit (all eight for an empty mask) and never reads outside
    of the mask; [tail_sect_skip] counts the zero bits above the last set bit of a
    non-empty mask, and for an empty mask runs past bit 0 and out of the object. *)
Theorem sect_skip_spec (m : Z) :
  is_u8 m ->
  (exists k, head_sect_skip m = Some k /\ 0 <= k <= 8 /\
     (forall i, 0 <= i < k -> Z.testbit m i = false) /\ (k < 8 -> Z.testbit m k = true)) /\
  (m <> 0 -> exists k, tail_sect_skip m = Some k /\ 0 <= k < 8 /\
     (forall i, 8 - k <= i < 8 -> Z.testbit m i = false) /\ Z.testbit m (7 - k) = true) /\
  (m = 0 -> tail_sect_skip m = None).
Proof.
  intros Hm. split; [|split].
  - apply head_sect_loop_spec; lia.
  - intros Hnz. apply (tail_sect_loop_spec m 10 7); [lia..|by apply u8_nonzero_bit].
  - intros ->. reflexivity.
Qed.

Lemma sect_skip_spec_witness :
  (exists k, head_sect_skip 24 = Some k /\ 0 <= k <= 8 /\
     (forall i, 0 <= i < k -> Z.testbit 24 i = false) /\ (k < 8 -> Z.testbit 24 k = true)) /\
  (exists k, tail_sect_skip 24 = Some k /\ 0 <= k < 8 /\
     (forall i, 8 - k <= i < 8 -> Z.testbit 24 i = false) /\ Z.testbit 24 (7 - k) = true) /\
  head_sect_skip 24 = Some 3 /\ tail_sect_skip 24 = Some 3.
Proof.
  destruct (sect_skip_spec 24) as (Hh & Ht & _); [unfold is_u8; lia|].
  split; [exact Hh|]. split; [by apply Ht|]. split; reflexivity.
Defined.

(** The three-way comparison names a minimum (the last one among equals). *)
Lemma cmp_triple_int_min a b c :
  match cmp_triple_int a b c with
  | cmp_1st_Min => a < b /\ a < c
  | cmp_2nd_Min => b <= a /\ b < c
  | cmp_3rd_Min => c <= a /\ c <= b
  end.
Proof. unfold cmp_triple_int. bsplit; zbool; lia. Qed.

Lemma test_set_request_state r bit bit' value :
  0 <= bit -> 0 <= bit' ->
  test_req_state (set_request_state r bit value) bit'
    = if bit =? bit' then value else test_req_state r bit'.
Proof.
  intros Hb Hb'. unfold test_req_state, set_request_state. simpl.
  destruct value; [rewrite Z.setbit_eqb by done|rewrite Z.clearbit_eqb];
    destruct (bit =? bit') eqn:E; simpl; rewrite ?andb_true_r, ?andb_false_r; done.
Qed.

Lemma set_request_state_range r bit value :
  is_u32 (rs_state r) -> 0 <= bit < 32 -> is_u32 (rs_state (set_request_state r bit value)).
Proof.
  unfold is_u32, set_request_state. simpl. intros Hr Hb. destruct value.
  - rewrite Z.setbit_spec'. apply lor_bound; [lia..|].
    split; [apply Z.pow_nonneg; lia|apply Z.pow_lt_mono_r; lia].
  - rewrite Z.clearbit_spec', Z.ldiff_land, Z.land_comm. by apply land_bound.
Qed.

(** The state word of a request is an array of independent flags: after any
    sequence of updates a flag has the value last written to it (or its initial
    value), test-and-set returns the value before it, and the word stays within
    32 bits. *)
Theorem request_state_flags (ops : list (Z * bool)) (r : req_state_trace_t) (bit : Z) (value : bool) :
  Forall (fun op => 0 <= op.1 < 32) ops -> 0 <= bit < 32 -> is_u32 (rs_state r) ->
  let r' := foldl (fun r op => set_request_state r op.1 op.2) r ops in
  is_u32 (rs_state r') /\
  test_req_state_lock r' bit
    = default (test_req_state r bit) (snd <$> last (filter (fun op => op.1 = bit) ops)) /\
  test_and_set_request_state r' bit value = (set_req_state_lock r' bit value, test_req_state r' bit).
Proof.
  intros Hops Hb. revert r. induction ops as [|[b v] ops IH] using rev_ind; intros r Hr; [done|].
  apply Forall_app in Hops as [Hops Hbv]. apply Forall_cons in Hbv as [Hbv _]. simpl in Hbv.
  destruct (IH Hops r Hr) as (H1 & H2 & _). rewrite foldl_app. cbn [foldl fst snd]. cbv zeta.
  split; [by apply set_request_state_range|]. split; [|done].
  unfold test_req_state_lock in *. rewrite test_set_request_state, H2 by lia.
  rewrite filter_app, filter_cons, filter_nil. simpl.
  case_decide as Hd; [subst; by rewrite Z.eqb_refl, last_snoc|].
  rewrite (proj2 (Z.eqb_neq b bit)) by done. by rewrite app_nil_r.
Qed.

Lemma request_state_flags_witness :
  test_req_state_lock (set_request_state (set_request_state init_request_state 3 true) 4 true) 3 = true.
Proof. apply (request_state_flags [(3, true); (4, true)] init_request_state 3 false); repeat constructor; simpl; unfold is_u32; lia. Defined.

Lemma scan_print_octet n rest :
  0 <= n < 256 -> scan_int (print_dec n ++ chr_dot :: rest) = Some (n, chr_dot :: rest).
Proof.
  intros Hn. assert (Hc : n ∈ zseq 0 256) by (apply elem_of_zseq; lia). clear Hn.
  let l := eval vm_compute in (zseq 0 256) in change (zseq 0 256) with l in Hc.
  repeat (apply elem_of_cons in Hc as [->|Hc]; [reflexivity|]). by apply elem_of_nil in Hc.
Qed.

Lemma scan_print_last n : 0 <= n < 256 -> scan_int (print_dec n) = Some (n, []).
Proof.
  intros Hn. assert (Hc : n ∈ zseq 0 256) by (apply elem_of_zseq; lia). clear Hn.
  let l := eval vm_compute in (zseq 0 256) in change (zseq 0 256) with l in Hc.
  repeat (apply elem_of_cons in Hc as [->|Hc]; [reflexivity|]). by apply elem_of_nil in Hc.
Qed.

(** Reading back the text form of an IPv4 address gives the address: the
    conversions between a 32-bit address and dotted decimal are a round trip. *)
Theorem inet_roundtrip (ipaddr : Z) :
  is_u32 ipaddr -> ccma_inet_ntoa (ccma_inet_aton ipaddr) = Some ipaddr.
Proof.
  intros Hip. unfold is_u32 in Hip. unfold ccma_inet_aton, ccma_inet_ntoa.
  change 0xff with (Z.ones 8). rewrite !Z.land_ones, !Z.shiftr_div_pow2 by lia.
  assert (Hm : forall x, 0 <= x mod 2 ^ 8 < 256) by (intros; apply Z.mod_pos_bound; lia).
  cbn [app]. rewrite scan_print_octet by done. simpl.
  rewrite scan_print_octet by done. simpl. rewrite scan_print_octet by done. simpl.
  rewrite scan_print_last by done. simpl. f_equal.
  unfold u8. rewrite !Z.mod_mod by lia.
  change (2 ^ 8) with 256 in *. change (2 ^ 16) with 65536. change (2 ^ 24) with 16777216.
  Z.to_euclidean_division_equations. lia.
Qed.

Lemma inet_roundtrip_witness : ccma_inet_ntoa (ccma_inet_aton 0x0100007f) = Some 0x0100007f.
Proof. apply (inet_roundtrip 0x0100007f). unfold is_u32. lia. Defined.
