(* ===== verification/Bytes.v ===== *)
(** * Bytes: memory as lists of bytes

    Copies within arrays of bytes, the image of an integer in the memory of the
    (little-endian) host, and the conversions to network order.  Shared by the copies of
    user data and by the wire protocols. *)

From S2P Require Import Prelude CommonUtil.

(** ** Copies *)

(** [memcpy] and [memset] in an array of bytes. *)
Definition splice (l : list Z) (off : Z) (d : list Z) : option (list Z) :=
  if decide (0 <= off /\ off + Z.of_nat (length d) <= Z.of_nat (length l)) then
    Some (take (Z.to_nat off) l ++ d ++ drop (Z.to_nat off + length d) l)
  else None.

Definition slice (l : list Z) (off n : Z) : option (list Z) :=
  if decide (0 <= off /\ 0 <= n /\ off + n <= Z.of_nat (length l)) then
    Some (take (Z.to_nat n) (drop (Z.to_nat off) l))
  else None.

(** [d] overwrites [l] from place [i] on. *)
Definition put (l : list Z) (i : nat) (d : list Z) : list Z := take i l ++ d ++ drop (i + length d) l.

Lemma length_put l i d : (i + length d <= length l)%nat -> length (put l i d) = length l.
Proof. intros H. unfold put. rewrite !length_app, length_take, length_drop. lia. Qed.

Lemma put_nil l i : put l i [] = l.
Proof. unfold put. simpl. rewrite Nat.add_0_r. apply take_drop. Qed.

Lemma put_put l i d1 d2 :
  (i + length d1 + length d2 <= length l)%nat -> put (put l i d1) (i + length d1) d2 = put l i (d1 ++ d2).
Proof.
  intros H. unfold put. rewrite length_app.
  assert (length (take i l ++ d1) = i + length d1)%nat as Hl by (rewrite length_app, length_take; lia).
  rewrite !app_assoc. rewrite take_app_length' by done. rewrite <- !app_assoc. do 3 f_equal.
  rewrite app_assoc, drop_app_ge by lia. rewrite Hl, drop_drop. f_equal. lia.
Qed.

Lemma put_app_r l1 l2 i d : put (l1 ++ l2) (length l1 + i) d = l1 ++ put l2 i d.
Proof.
  unfold put. rewrite take_app_add, drop_app_ge by lia. rewrite <- app_assoc. do 4 f_equal. lia.
Qed.

Lemma put_app_l l1 l2 i d : (i + length d <= length l1)%nat -> put (l1 ++ l2) i d = put l1 i d ++ l2.
Proof.
  intros H. unfold put. rewrite take_app_le, drop_app_le by lia. by rewrite <- !app_assoc.
Qed.

Lemma splice_put l off d :
  0 <= off -> off + Z.of_nat (length d) <= Z.of_nat (length l) -> splice l off d = Some (put l (Z.to_nat off) d).
Proof. intros. unfold splice. by rewrite decide_True by done. Qed.

Lemma take_add {A} (l : list A) n m : take n l ++ take m (drop n l) = take (n + m) l.
Proof. symmetry. rewrite <- (take_take_drop l n m). done. Qed.

Lemma put_same l i n : (i + n <= length l)%nat -> put l i (take n (drop i l)) = l.
Proof.
  intros H. unfold put. rewrite length_take, length_drop, Nat.min_l by lia.
  rewrite app_assoc, take_add. apply take_drop.
Qed.

(** Overwriting the two ends of a range is overwriting the range with its middle kept. *)
Lemma put_ends l i d1 m d2 :
  (i + length d1 + m + length d2 <= length l)%nat ->
  put (put l i d1) (i + length d1 + m) d2 = put l i (d1 ++ take m (drop (i + length d1) l) ++ d2).
Proof.
  intros H. assert (length (take m (drop (i + length d1) l)) = m) as Hm by (rewrite length_take, length_drop; lia).
  rewrite <- put_put by (rewrite length_app; lia). rewrite <- put_put by (rewrite length_put; lia). f_equal; [|lia].
  symmetry. rewrite <- (put_same (put l i d1) (i + length d1) m) at 2 by (rewrite length_put; lia). do 2 f_equal.
  unfold put. rewrite app_assoc, drop_app_ge; rewrite length_app, length_take; [|lia].
  rewrite drop_drop. f_equal. lia.
Qed.

Lemma put_across l1 l2 i d1 d2 :
  (i + length d1 = length l1)%nat -> (length d2 <= length l2)%nat ->
  put l1 i d1 ++ put l2 0 d2 = put (l1 ++ l2) i (d1 ++ d2).
Proof.
  intros H1 H2. rewrite <- put_put by (rewrite length_app; lia). rewrite put_app_l by lia.
  replace (i + length d1)%nat with (length (put l1 i d1) + 0)%nat by (rewrite length_put; lia).
  by rewrite put_app_r.
Qed.

Lemma slice_app l1 d l2 off n :
  off = Z.of_nat (length l1) -> n = Z.of_nat (length d) -> slice (l1 ++ d ++ l2) off n = Some d.
Proof.
  intros -> ->. unfold slice. rewrite decide_True by (rewrite !length_app; lia).
  rewrite !Nat2Z.id, drop_app_length, take_app_length. done.
Qed.

(** A zeroed buffer of [N] bytes that starts with [W]. *)
Definition zbuf (N : nat) (W : list Z) : list Z := W ++ replicate (N - length W) 0.

Lemma length_zbuf N W : (length W <= N)%nat -> length (zbuf N W) = N.
Proof. intros H. unfold zbuf. rewrite length_app, length_replicate. lia. Qed.

Lemma zbuf_pad N W m : (length W + m <= N)%nat -> zbuf N (W ++ replicate m 0) = zbuf N W.
Proof.
  intros H. unfold zbuf. rewrite <- app_assoc, <- replicate_add, length_app, length_replicate. do 2 f_equal. lia.
Qed.

(** Writing behind what was written. *)
Lemma splice_zbuf N W off d :
  off = Z.of_nat (length W) -> (length W + length d <= N)%nat -> splice (zbuf N W) off d = Some (zbuf N (W ++ d)).
Proof.
  intros -> H. unfold splice. rewrite decide_True by (rewrite length_zbuf; lia). rewrite Nat2Z.id. unfold zbuf.
  rewrite take_app_length, length_app, drop_app_ge, drop_replicate by lia. rewrite <- app_assoc. do 4 f_equal. lia.
Qed.

Lemma splice_zbuf_gap N W m off d :
  off = Z.of_nat (length W) + Z.of_nat m -> (length W + m + length d <= N)%nat ->
  splice (zbuf N W) off d = Some (zbuf N (W ++ replicate m 0 ++ d)).
Proof.
  intros -> H. rewrite <- (zbuf_pad N W m) by lia. rewrite splice_zbuf; [by rewrite app_assoc|..];
    rewrite length_app, length_replicate; lia.
Qed.

Lemma slice_zbuf N W1 d W2 off n :
  off = Z.of_nat (length W1) -> n = Z.of_nat (length d) -> slice (zbuf N (W1 ++ d ++ W2)) off n = Some d.
Proof. intros -> ->. unfold zbuf. rewrite <- !app_assoc. by apply slice_app. Qed.

(** ** Integers in memory *)

(** The [n] bytes of an integer, the lowest one first, and back. *)
Fixpoint le_bytes (n : nat) (v : Z) : list Z :=
  match n with
  | O => []
  | S n => v mod 256 :: le_bytes n (v / 256)
  end.

Fixpoint le_val (l : list Z) : Z :=
  match l with
  | [] => 0
  | b :: l => b + 256 * le_val l
  end.

Definition is_bytes (l : list Z) : Prop := Forall (fun b => 0 <= b < 256) l.

Lemma length_le_bytes n v : length (le_bytes n v) = n.
Proof. revert v. induction n as [|n IH]; intros v; [done|]. simpl. by rewrite IH. Qed.

Lemma le_bytes_ok n v : is_bytes (le_bytes n v).
Proof. revert v. induction n as [|n IH]; intros v; constructor; [by apply Z.mod_pos_bound|apply IH]. Qed.

Lemma le_val_bytes n v : 0 <= v < 256 ^ Z.of_nat n -> le_val (le_bytes n v) = v.
Proof.
  revert v. induction n as [|n IH]; intros v Hv; [change (256 ^ Z.of_nat 0) with 1 in Hv; simpl; lia|].
  rewrite Nat2Z.inj_succ, Z.pow_succ_r in Hv by lia. pose proof (Z.div_mod v 256 ltac:(done)) as Hd.
  cbn [le_bytes le_val]. rewrite IH; [lia|]. split; [apply Z.div_pos; lia|]. apply Z.div_lt_upper_bound; lia.
Qed.

Lemma le_bytes_val l : is_bytes l -> le_bytes (length l) (le_val l) = l.
Proof.
  induction 1 as [|b l Hb Hl IH]; [done|]. cbn [length le_bytes le_val].
  rewrite (Z.mul_comm 256), Z.mod_add, Z.div_add, Z.mod_small, Z.div_small by lia. by rewrite Z.add_0_l, IH.
Qed.

Lemma le_val_range l : is_bytes l -> 0 <= le_val l < 256 ^ Z.of_nat (length l).
Proof.
  induction 1 as [|b l Hb Hl IH]; [done|]. cbn [length le_val]. rewrite Nat2Z.inj_succ, Z.pow_succ_r by lia. lia.
Qed.

Lemma le_bytes_lookup n v i : (i < n)%nat -> le_bytes n v !! i = Some (Z.shiftr v (8 * Z.of_nat i) mod 256).
Proof.
  revert v i. induction n as [|n IH]; intros v [|i] Hi; [lia|lia|by rewrite Z.shiftr_0_r|].
  cbn [le_bytes]. change ((v mod 256 :: le_bytes n (v / 256)) !! S i) with (le_bytes n (v / 256) !! i). rewrite IH by lia.
  do 2 f_equal. change (v / 256) with (v / 2 ^ 8). rewrite <- Z.shiftr_div_pow2, Z.shiftr_shiftr by lia. f_equal. lia.
Qed.

(** ** Network order *)

(** The bytes of an integer, the highest one first. *)
Definition be_bytes (n : nat) (v : Z) : list Z := reverse (le_bytes n v).
Definition be_val (l : list Z) : Z := le_val (reverse l).

(** The conversions of the kernel exchange the bytes of an integer. *)
Definition htons (x : Z) : Z := le_val (be_bytes 2 x).
Definition ntohs (x : Z) : Z := htons x.
Definition htonl (x : Z) : Z := le_val (be_bytes 4 x).
Definition ntohl (x : Z) : Z := htonl x.

Lemma length_be_bytes n v : length (be_bytes n v) = n.
Proof. unfold be_bytes. by rewrite length_reverse, length_le_bytes. Qed.

Lemma be_bytes_ok n v : is_bytes (be_bytes n v).
Proof. apply Forall_reverse, le_bytes_ok. Qed.

Lemma be_val_bytes n v : 0 <= v < 256 ^ Z.of_nat n -> be_val (be_bytes n v) = v.
Proof. intros H. unfold be_val, be_bytes. rewrite reverse_involutive. by apply le_val_bytes. Qed.

(** What is stored after a conversion is the image in network order. *)
Lemma le_bytes_swap n v : le_bytes n (le_val (be_bytes n v)) = be_bytes n v.
Proof. rewrite <- (length_be_bytes n v) at 1. apply le_bytes_val, be_bytes_ok. Qed.

Lemma store_htons x : le_bytes 2 (htons x) = be_bytes 2 x.
Proof. apply le_bytes_swap. Qed.
Lemma store_htonl x : le_bytes 4 (htonl x) = be_bytes 4 x.
Proof. apply le_bytes_swap. Qed.

Lemma store_htonll x : is_u64 x -> le_bytes 8 (htonll x) = be_bytes 8 x.
Proof.
  intros Hx. destruct (htonll_reverses_bytes x Hx) as [H _]. unfold be_bytes.
  apply list_eq. intros i. destruct (decide (i < 8)%nat) as [Hi|Hi].
  - rewrite reverse_lookup by (by rewrite length_le_bytes). rewrite length_le_bytes, !le_bytes_lookup by lia.
    f_equal. change 256 with (2 ^ 8). rewrite H by lia. do 2 f_equal. lia.
  - rewrite !lookup_ge_None_2; [done|..]; rewrite ?length_reverse, length_le_bytes; lia.
Qed.

(** What is read and converted is the number that was sent. *)
Lemma swap_be n l : length l = n -> is_bytes l -> le_val (be_bytes n (le_val l)) = be_val l.
Proof. intros <- Hl. unfold be_bytes, be_val. by rewrite le_bytes_val. Qed.

Lemma load_ntohs l : length l = 2%nat -> is_bytes l -> ntohs (le_val l) = be_val l.
Proof. apply swap_be. Qed.
Lemma load_ntohl l : length l = 4%nat -> is_bytes l -> ntohl (le_val l) = be_val l.
Proof. apply swap_be. Qed.

Lemma load_ntohll l : length l = 8%nat -> is_bytes l -> ntohll (le_val l) = be_val l.
Proof.
  intros Hl Hb. pose proof (le_val_range l Hb) as Hr. rewrite Hl in Hr.
  assert (is_u64 (le_val l)) as Hu by (unfold is_u64; exact Hr). unfold ntohll.
  rewrite <- (le_val_bytes 8 (htonll (le_val l))) by apply htonll_range.
  rewrite store_htonll by done. by apply swap_be.
Qed.

Lemma ntohs_be x : 0 <= x < 2 ^ 16 -> ntohs (le_val (be_bytes 2 x)) = x.
Proof. intros H. rewrite load_ntohs by (apply length_be_bytes || apply be_bytes_ok). by apply be_val_bytes. Qed.
Lemma ntohl_be x : is_u32 x -> ntohl (le_val (be_bytes 4 x)) = x.
Proof. intros H. rewrite load_ntohl by (apply length_be_bytes || apply be_bytes_ok). by apply be_val_bytes. Qed.
Lemma ntohll_be x : is_u64 x -> ntohll (le_val (be_bytes 8 x)) = x.
Proof. intros H. rewrite load_ntohll by (apply length_be_bytes || apply be_bytes_ok). by apply be_val_bytes. Qed.

(** Arrays of 64-bit words in network order. *)
Definition u64s (l : list Z) : list Z := l ≫= be_bytes 8.

Lemma length_u64s l : length (u64s l) = (8 * length l)%nat.
Proof. induction l as [|x l IH]; [done|]. unfold u64s in *. rewrite bind_cons, length_app, IH, length_be_bytes. simpl. lia. Qed.
