(* ===== verification/CopyData.v ===== *)
(** * CopyData: user data between block requests and buffers

    Translation of io_manager/discoC_IOReq_copyData_func.c.  The data of a request of the
    block layer ([rq]) lie in a sequence of segments ([bvec]s, here their bytes); the
    buffers of the driver are arrays of chunks of 128 KB.  The functions copy a write from the
    segments to the buffer, a read from a buffer to the segments, the sectors that a
    partial write leaves alone from the data read to the write buffer, and clear segments.

    A copy that leaves its source or its destination, or goes through a NULL pointer, is a
    fault ([None]), and so is a loop that does not end (the fuel of the copies from one
    segment is its length plus one, and each turn copies at least a byte).  The debugging
    code under ENABLE_PAYLOAD_CACHE_FOR_DEBUG is off. *)

From S2P Require Import Prelude CommonUtil Bytes.

Definition BIT_LEN_SECT_SIZE : Z := 9.
Definition BIT_LEN_MEM_CHUNK : Z := 17.
Definition MAX_SIZE_KERNEL_MEMCHUNK : Z := 128 * 1024.
Definition LEN_MEM_CHUNK_MOD_NUM : Z := 128 * 1024 - 1.

(** A chunk: its memory and how much of it is user data. *)
Record mem_chunk : Type := {
  data_ptr : list Z;
  chunk_item_size : Z;
}.

Abbreviation data_mem_chunks_t := (list mem_chunk).

Definition num_chunks (p : data_mem_chunks_t) : Z := Z.of_nat (length p).

Record request : Type := {
  blk_rq_pos : Z;
  bvecs : list (list Z);
}.

Definition rq_data (r : request) : list Z := concat (bvecs r).
Definition blk_rq_sectors (r : request) : Z := Z.of_nat (length (rq_data r)) / 2 ^ BIT_LEN_SECT_SIZE.

(** The part of [io_request_t] these functions use; a request that was already handed back
    is NULL in [rqs]. *)
Record ioReq_data_t : Type := {
  kern_sect : Z;
  nr_ksects : Z;
  sects_shift : Z;
  lbid_start : Z;
  is_dms_lb_align : bool;
  mask_lb_align : list Z;
  rqs : list (option request);
  payload : data_mem_chunks_t;
}.

Definition set_payload (p : data_mem_chunks_t) (r : ioReq_data_t) : ioReq_data_t :=
  {| kern_sect := kern_sect r; nr_ksects := nr_ksects r; sects_shift := sects_shift r; lbid_start := lbid_start r;
     is_dms_lb_align := is_dms_lb_align r; mask_lb_align := mask_lb_align r; rqs := rqs r; payload := p |}.
Definition set_rqs (l : list (option request)) (r : ioReq_data_t) : ioReq_data_t :=
  {| kern_sect := kern_sect r; nr_ksects := nr_ksects r; sects_shift := sects_shift r; lbid_start := lbid_start r;
     is_dms_lb_align := is_dms_lb_align r; mask_lb_align := mask_lb_align r; rqs := l; payload := payload r |}.

(** ** The write buffer *)

Definition MAX_NUM_MEM_CHUNK_BUFF : Z := MAX_SECTS_PER_RQ * 512 / MAX_SIZE_KERNEL_MEMCHUNK + 1.
Definition MAX_LB_PER_MEM_CHUNK : Z := MAX_SIZE_KERNEL_MEMCHUNK / 4096.

(** The loop takes chunks from the pool of write buffers: [pool] holds what the next calls
    of the allocator return.  [None]: the array of chunks is left, or the fuel ([lblen]
    plus one) is used up.  The flag says that an allocation failed. *)
Fixpoint alloc_wiobuff_loop (fuel : nat) (lblen : Z) (data : data_mem_chunks_t) (pool : list (option (list Z))) :
    option (bool * data_mem_chunks_t) :=
  match fuel with
  | O => None
  | S fuel =>
      if lblen >? 0 then
        let chunk_lb := if lblen >=? MAX_LB_PER_MEM_CHUNK then MAX_LB_PER_MEM_CHUNK else lblen in
        if num_chunks data >=? MAX_NUM_MEM_CHUNK_BUFF then None
        else
          match pool with
          | Some m :: pool =>
              let ch := {| data_ptr := m; chunk_item_size := Z.shiftl chunk_lb BIT_LEN_DMS_LB_SIZE |} in
              alloc_wiobuff_loop fuel (s32 (lblen - chunk_lb)) (data ++ [ch]) pool
          | _ => Some (true, data)
          end
      else Some (false, data)
  end.

(** The chunks that go back to the pool. *)
Definition _ioReq_free_wiobuff (data : data_mem_chunks_t) : data_mem_chunks_t * list (list Z) := ([], data_ptr <$> data).

(** Whether it failed, the chunks of the request, and the memory given back. *)
Definition _ioReq_alloc_wiobuff (lbid_len : Z) (pool : list (option (list Z))) :
    option (bool * data_mem_chunks_t * list (list Z)) :=
  '(alloc_fail, data) ← alloc_wiobuff_loop (S (Z.to_nat lbid_len)) lbid_len [] pool;
  if alloc_fail : bool then
    let '(data, freed) := _ioReq_free_wiobuff data in Some (true, data, freed)
  else Some (false, data, []).

(** ** Memory *)

(** Through a pointer into a chunk; nothing is touched when nothing is copied. *)
Definition write_ptr (ptr : option (Z * Z)) (d : list Z) (p : data_mem_chunks_t) : option data_mem_chunks_t :=
  match d, ptr with
  | [], _ => Some p
  | _, None => None
  | _, Some (c, off) =>
      ch ← p !! Z.to_nat c;
      m ← splice (data_ptr ch) off d;
      Some (<[Z.to_nat c := {| data_ptr := m; chunk_item_size := chunk_item_size ch |}]> p)
  end.

Definition read_ptr (ptr : option (Z * Z)) (n : Z) (p : data_mem_chunks_t) : option (list Z) :=
  if n =? 0 then Some []
  else
    match ptr with
    | None => None
    | Some (c, off) => ch ← p !! Z.to_nat c; slice (data_ptr ch) off n
    end.

Definition item_size (p : data_mem_chunks_t) (c : Z) : Z :=
  match p !! Z.to_nat c with Some ch => chunk_item_size ch | None => 0 end.

(** The place [len] bytes after ([cnt], [off]): the pointer, the new place and what is left
    of its chunk. *)
Definition get_chunk_ptr (p : data_mem_chunks_t) (cnt off len : Z) : option (Z * Z) * Z * Z * Z :=
  let fail := (None, num_chunks p, 0, 0) in
  let cnt := s32 (cnt + Z.shiftr len BIT_LEN_MEM_CHUNK) in
  let len := Z.land len LEN_MEM_CHUNK_MOD_NUM in
  if cnt >=? num_chunks p then fail
  else
    let off := u32 (off + len) in
    if off >=? MAX_SIZE_KERNEL_MEMCHUNK then
      let cnt := s32 (cnt + 1) in
      if cnt >=? num_chunks p then fail
      else
        let off := Z.land off LEN_MEM_CHUNK_MOD_NUM in
        (Some (cnt, off), cnt, off, s32 (item_size p cnt - off))
    else (Some (cnt, off), cnt, off, s32 (item_size p cnt - off)).

(** ** Write: from the segments to the buffer *)

(** The variables of the copy loops. *)
Record cp_state : Type := {
  cp_pay : data_mem_chunks_t;
  cp_pos : Z;
  cp_total : Z;
  cp_num : Z;
  cp_ptr : option (Z * Z);
  cp_rsize : Z;
  cp_cnt : Z;
  cp_off : Z;
}.

Definition next_ptr (n : Z) (s : cp_state) : cp_state :=
  let '(ptr, cnt, off, rsize) := get_chunk_ptr (cp_pay s) (cp_cnt s) (cp_off s) n in
  {| cp_pay := cp_pay s; cp_pos := cp_pos s; cp_total := cp_total s; cp_num := cp_num s;
     cp_ptr := ptr; cp_rsize := rsize; cp_cnt := cnt; cp_off := off |}.

(** The size of the next piece, and whether the segment is not used up by it. *)
Definition piece (total rsize bvlen : Z) : Z * bool :=
  match cmp_triple_int total rsize bvlen with
  | cmp_1st_Min => (total, false)
  | cmp_2nd_Min => (rsize, bvlen >? rsize)
  | cmp_3rd_Min => (bvlen, false)
  end.

(** The copies from one segment (DO_BV_CP_AGAIN); the flag says that everything is copied. *)
Fixpoint w_bvec (fuel : nat) (bv : list Z) (bvec_s bvlen : Z) (s : cp_state) : option (bool * cp_state) :=
  match fuel with
  | O => None
  | S fuel =>
      let bvoff := s32 (cp_pos s - bvec_s) in
      let bvlen := s32 (bvlen - bvoff) in
      let '(pieces_cps, do_bv_cp_again) := piece (cp_total s) (cp_rsize s) bvlen in
      d ← slice bv bvoff pieces_cps;
      pay ← write_ptr (cp_ptr s) d (cp_pay s);
      let s := {| cp_pay := pay; cp_pos := cp_pos s; cp_total := s32 (cp_total s - pieces_cps);
                  cp_num := s32 (cp_num s + pieces_cps); cp_ptr := cp_ptr s; cp_rsize := cp_rsize s;
                  cp_cnt := cp_cnt s; cp_off := cp_off s |} in
      if cp_total s <=? 0 then Some (true, s)
      else
        let s := next_ptr pieces_cps s in
        let s := {| cp_pay := cp_pay s; cp_pos := u64 (cp_pos s + pieces_cps); cp_total := cp_total s;
                    cp_num := cp_num s; cp_ptr := cp_ptr s; cp_rsize := cp_rsize s; cp_cnt := cp_cnt s;
                    cp_off := cp_off s |} in
        if do_bv_cp_again then w_bvec fuel bv bvec_s bvlen s else Some (false, s)
  end.

Fixpoint w_bvecs (bvs : list (list Z)) (bvec_s ior_e : Z) (s : cp_state) : option cp_state :=
  match bvs with
  | [] => Some s
  | bv :: bvs =>
      let bvlen := Z.of_nat (length bv) in
      let bvec_e := u64 (bvec_s + bvlen - 1) in
      if bvec_e <? cp_pos s then w_bvecs bvs (u64 (bvec_e + 1)) ior_e s
      else if bvec_s >? ior_e then Some s
      else
        '(exit, s) ← w_bvec (S (length bv)) bv bvec_s bvlen s;
        if exit : bool then Some s else w_bvecs bvs (u64 (bvec_e + 1)) ior_e s
  end.

(** The state at the start; [None]: there is no room. *)
Definition cp_start (p : data_mem_chunks_t) (pos total cnt off : Z) : option cp_state :=
  if cnt >=? num_chunks p then None
  else if (cnt =? num_chunks p - 1) && (off >=? item_size p cnt) then None
  else
    let '(ptr, cnt, off, rsize) := get_chunk_ptr p cnt off 0 in
    Some {| cp_pay := p; cp_pos := pos; cp_total := total; cp_num := 0; cp_ptr := ptr; cp_rsize := rsize;
            cp_cnt := cnt; cp_off := off |}.

(** The number of bytes copied, the buffer and the place in it. *)
Definition _cp_bio2ioReq (r : request) (ior_s total_bytes_cp : Z) (p : data_mem_chunks_t) (cnt off : Z) :
    option (Z * data_mem_chunks_t * Z * Z) :=
  match cp_start p ior_s total_bytes_cp cnt off with
  | None => Some (0, p, cnt, off)
  | Some s =>
      s ← w_bvecs (bvecs r) (u64 (Z.shiftl (blk_rq_pos r) BIT_LEN_SECT_SIZE)) (u64 (ior_s + total_bytes_cp - 1)) s;
      Some (cp_num s, cp_pay s, cp_cnt s, cp_off s)
  end.

Fixpoint w_rqs (l : list (option request)) (ior_s total : Z) (p : data_mem_chunks_t) (cnt off : Z) :
    option data_mem_chunks_t :=
  match l with
  | [] => Some p
  | None :: _ => Some p
  | Some r :: l =>
      let rq_s := u64 (Z.shiftl (blk_rq_pos r) BIT_LEN_SECT_SIZE) in
      let rq_e := u64 (rq_s + Z.shiftl (blk_rq_sectors r) BIT_LEN_SECT_SIZE - 1) in
      if rq_e <? ior_s then w_rqs l ior_s total p cnt off
      else
        '(num_bytes, p, cnt, off) ← _cp_bio2ioReq r ior_s (s32 total) p cnt off;
        if num_bytes <=? 0 then Some p
        else
          let total := u32 (total - num_bytes) in
          if total <=? 0 then Some p
          else w_rqs l (u64 (ior_s + num_bytes)) total p cnt off
  end.

Definition ioReq_WCopyData_bio2mem (r : ioReq_data_t) : option ioReq_data_t :=
  let ior_s := u64 (Z.shiftl (u64 (kern_sect r - sects_shift r)) BIT_LEN_SECT_SIZE) in
  let total := u32 (Z.shiftl (nr_ksects r) BIT_LEN_SECT_SIZE) in
  if is_dms_lb_align r then
    p ← w_rqs (rqs r) ior_s total (payload r) 0 0;
    Some (set_payload p r)
  else
    m ← mask_lb_align r !! 0%nat;
    num_sect_skip ← head_sect_skip m;
    let bytes_skip := Z.shiftl num_sect_skip BIT_LEN_SECT_SIZE in
    p ← write_ptr (Some (0, 0)) (replicate (Z.to_nat bytes_skip) 0) (payload r);
    p ← w_rqs (rqs r) ior_s total p 0 bytes_skip;
    Some (set_payload p r).

(** ** Read: from a buffer to the segments *)

(** The copies into one segment: whether everything is copied, the segment, where the next
    one starts. *)
Fixpoint r_bvec (fuel : nat) (bv : list Z) (bvec_start bvec_end bvlen : Z) (s : cp_state) :
    option (bool * list Z * Z * cp_state) :=
  match fuel with
  | O => None
  | S fuel =>
      let offset_in_bv := s32 (cp_pos s - bvec_start) in
      let bvlen_cp := s32 (bvlen - offset_in_bv) in
      let '(pieces_cps, do_bv_cp_again) := piece (cp_total s) (cp_rsize s) bvlen_cp in
      let bvec_start' :=
        match cmp_triple_int (cp_total s) (cp_rsize s) bvlen_cp with
        | cmp_3rd_Min => u64 (bvec_end + 1)
        | _ => bvec_start
        end in
      d ← read_ptr (cp_ptr s) pieces_cps (cp_pay s);
      bv ← splice bv offset_in_bv d;
      let s := next_ptr pieces_cps s in
      let s := {| cp_pay := cp_pay s; cp_pos := u64 (cp_pos s + pieces_cps); cp_total := s32 (cp_total s - pieces_cps);
                  cp_num := s32 (cp_num s + pieces_cps); cp_ptr := cp_ptr s; cp_rsize := cp_rsize s;
                  cp_cnt := cp_cnt s; cp_off := cp_off s |} in
      if cp_total s <=? 0 then Some (true, bv, bvec_start', s)
      else if do_bv_cp_again then r_bvec fuel bv bvec_start' bvec_end bvlen s
      else Some (false, bv, bvec_start', s)
  end.

Fixpoint r_bvecs (bvs : list (list Z)) (bvec_start : Z) (s : cp_state) : option (list (list Z) * cp_state) :=
  match bvs with
  | [] => Some ([], s)
  | bv :: bvs =>
      let bvlen := Z.of_nat (length bv) in
      let bvec_end := u64 (bvec_start + bvlen - 1) in
      if bvec_end <? cp_pos s then
        '(bvs, s) ← r_bvecs bvs (u64 (bvec_end + 1)) s; Some (bv :: bvs, s)
      else
        '(exit, bv, bvec_start, s) ← r_bvec (S (length bv)) bv bvec_start bvec_end bvlen s;
        if exit : bool then Some (bv :: bvs, s)
        else '(bvs, s) ← r_bvecs bvs bvec_start s; Some (bv :: bvs, s)
  end.

(** The number of bytes copied, the request and the place in the buffer. *)
Definition _cp_payload_mem2bio (r : request) (dn_start total_bytes_cp : Z) (p : data_mem_chunks_t) (cnt off : Z) :
    option (Z * request * Z * Z) :=
  match cp_start p dn_start total_bytes_cp cnt off with
  | None => Some (0, r, cnt, off)
  | Some s =>
      let bvec_start := u64 (Z.shiftl (blk_rq_pos r) BIT_LEN_SECT_SIZE) in
      let copy s :=
        '(bvs, s) ← r_bvecs (bvecs r) bvec_start s;
        Some (u32 (cp_num s), {| blk_rq_pos := blk_rq_pos r; bvecs := bvs |}, cp_cnt s, cp_off s) in
      if dn_start <? bvec_start then
        let bytes_shift := s32 (bvec_start - dn_start) in
        if total_bytes_cp <=? bytes_shift then
          let '(_, cnt, off, _) := get_chunk_ptr p (cp_cnt s) (cp_off s) total_bytes_cp in
          Some (u32 total_bytes_cp, r, cnt, off)
        else
          (* the chunk and the offset are exchanged in this call *)
          let '(ptr, off, cnt, rsize) := get_chunk_ptr p (cp_off s) (cp_cnt s) bytes_shift in
          copy {| cp_pay := p; cp_pos := bvec_start; cp_total := s32 (total_bytes_cp - bytes_shift);
                  cp_num := bytes_shift; cp_ptr := ptr; cp_rsize := rsize; cp_cnt := cnt; cp_off := off |}
      else copy s
  end.

Fixpoint r_rqs (l : list (option request)) (dn_sect_s dn_sect_e total : Z) (p : data_mem_chunks_t) (cnt off : Z) :
    option (list (option request)) :=
  match l with
  | [] => Some []
  | None :: _ => Some l
  | Some r :: l' =>
      if dn_sect_e <? blk_rq_pos r then Some l
      else if dn_sect_s >=? blk_rq_pos r + blk_rq_sectors r then
        l' ← r_rqs l' dn_sect_s dn_sect_e total p cnt off; Some (Some r :: l')
      else
        '(num_bytes_cps, r, cnt, off) ←
          _cp_payload_mem2bio r (u64 (Z.shiftl dn_sect_s BIT_LEN_SECT_SIZE)) total p cnt off;
        let num_bytes_cps := s32 num_bytes_cps in
        if num_bytes_cps <=? 0 then Some (Some r :: l')
        else
          let total := s32 (total - num_bytes_cps) in
          if total <=? 0 then Some (Some r :: l')
          else
            l' ← r_rqs l' (u64 (dn_sect_s + Z.shiftr num_bytes_cps BIT_LEN_SECT_SIZE)) dn_sect_e total p cnt off;
            Some (Some r :: l')
  end.

Definition ioReq_RCopyData_mem2bio (r : ioReq_data_t) (startlb lb_len payload_off : Z) (p : data_mem_chunks_t) :
    option ioReq_data_t :=
  let idx_s := u32 (startlb - lbid_start r) in
  let idx_e := u32 (idx_s + lb_len - 1) in
  lb_mskVal_s ← mask_lb_align r !! Z.to_nat idx_s;
  lb_mskVal_e ← mask_lb_align r !! Z.to_nat idx_e;
  dnr_sect_hd_skip ← head_sect_skip lb_mskVal_s;
  dnr_sect_tail_skip ← tail_sect_skip lb_mskVal_e;
  let ior_sect_s := u64 (Z.shiftl (lbid_start r) BIT_LEN_DMS_LB_SECTS - sects_shift r) in
  let dn_sect_s := u64 (ior_sect_s + Z.shiftr payload_off BIT_LEN_SECT_SIZE + dnr_sect_hd_skip) in
  let offset := Z.shiftl dnr_sect_hd_skip BIT_LEN_SECT_SIZE in
  let len_sect_to_cp := s32 (Z.shiftl lb_len BIT_LEN_DMS_LB_SECTS - dnr_sect_hd_skip - dnr_sect_tail_skip) in
  let total_bytes_cp := s32 (Z.shiftl len_sect_to_cp BIT_LEN_SECT_SIZE) in
  let dn_sect_e := u64 (dn_sect_s + len_sect_to_cp - 1) in
  l ← r_rqs (rqs r) dn_sect_s dn_sect_e total_bytes_cp p 0 offset;
  Some (set_rqs l r).

(** ** Partial writes: the sectors that are not written *)

(** The clear bits before the first set one, in the order given; [None]: there is no
    set bit. *)
Fixpoint clear_prefix (bits : list bool) : option Z :=
  match bits with
  | [] => None
  | true :: _ => Some 0
  | false :: bits => n ← clear_prefix bits; Some (n + 1)
  end.

(** The bits of the masks in the order of the sectors. *)
Definition mask_bits (masks : list Z) : list bool :=
  masks ≫= (fun m => (fun b => Z.testbit m (Z.of_nat b)) <$> seq 0 (Z.to_nat BIT_LEN_PER_1_MASK)).

(** The loops count the clear bits and return 0 when they find no set bit. *)
Definition copy_payload_from_head (lb_msk : list Z) : Z := default 0 (clear_prefix (mask_bits lb_msk)).
Definition copy_payload_from_tail (lb_msk : list Z) : Z := default 0 (clear_prefix (reverse (mask_bits lb_msk))).

(** The place of an offset in the write buffer. *)
Definition get_payload_ref (p : data_mem_chunks_t) (payload_offset : Z) : option (Z * Z) :=
  let chunk_index := u32 (Z.shiftr payload_offset BIT_LEN_MEM_CHUNK) in
  let chunk_start := u32 (Z.shiftl chunk_index BIT_LEN_MEM_CHUNK) in
  _ ← p !! Z.to_nat chunk_index;
  Some (chunk_index, payload_offset - chunk_start).

Definition ioReq_RCopyData_mem2wbuff (r : ioReq_data_t) (startlb lb_len payload_off : Z) (p : data_mem_chunks_t) :
    option ioReq_data_t :=
  let msk_idx := u32 (startlb - lbid_start r) in
  let num_hbid := u16 lb_len in
  let msk := take (Z.to_nat num_hbid) (drop (Z.to_nat msk_idx) (mask_lb_align r)) in
  if decide (length msk = Z.to_nat num_hbid) then
    src ← p !! 0%nat;
    '(c, off) ← get_payload_ref (payload r) payload_off;
    let head := Z.shiftl (copy_payload_from_head msk) BIT_LEN_SECT_SIZE in
    d ← slice (data_ptr src) 0 head;
    w ← write_ptr (Some (c, off)) d (payload r);
    let tail := Z.shiftl (copy_payload_from_tail msk) BIT_LEN_SECT_SIZE in
    let shift := Z.shiftl num_hbid BIT_LEN_DMS_LB_SIZE - tail in
    d ← slice (data_ptr src) shift tail;
    w ← write_ptr (Some (c, off + shift)) d w;
    Some (set_payload w r)
  else None.

(** ** Clearing segments *)

Fixpoint z_bvecs (bvs : list (list Z)) (bvec_s nn_s lens num_set : Z) : option (list (list Z) * Z) :=
  match bvs with
  | [] => Some ([], num_set)
  | bv :: bvs =>
      let bvlen := Z.of_nat (length bv) in
      let bvec_e := u64 (bvec_s + bvlen - 1) in
      if bvec_e <? nn_s then
        '(bvs, n) ← z_bvecs bvs (u64 (bvec_e + 1)) nn_s lens num_set; Some (bv :: bvs, n)
      else
        let offset_in_bv := s32 (nn_s - bvec_s) in
        let bvlen_set := s32 (bvlen - offset_in_bv) in
        let len_to_set := if lens >? bvlen_set then bvlen_set else lens in
        bv ← (if len_to_set <? 0 then None else splice bv offset_in_bv (replicate (Z.to_nat len_to_set) 0));
        let num_set := s32 (num_set + len_to_set) in
        let lens := s32 (lens - len_to_set) in
        if lens <=? 0 then Some (bv :: bvs, num_set)
        else '(bvs, n) ← z_bvecs bvs (u64 (bvec_e + 1)) (u64 (nn_s + len_to_set)) lens num_set; Some (bv :: bvs, n)
  end.

Definition _set_bio_rq_empty (r : request) (nn_s lens : Z) : option (Z * request) :=
  let bvec_s := u64 (Z.shiftl (blk_rq_pos r) BIT_LEN_SECT_SIZE) in
  let num_set := if nn_s <? bvec_s then s32 (bvec_s - nn_s) else 0 in
  let nn_s := if nn_s <? bvec_s then bvec_s else nn_s in
  '(bvs, n) ← z_bvecs (bvecs r) bvec_s nn_s lens num_set;
  Some (u32 n, {| blk_rq_pos := blk_rq_pos r; bvecs := bvs |}).

Fixpoint z_rqs (l : list (option request)) (nn_sect_s nn_sect_e len_sects : Z) : option (list (option request)) :=
  match l with
  | [] => Some []
  | None :: _ => Some l
  | Some r :: l' =>
      if nn_sect_e <? blk_rq_pos r then Some l
      else if nn_sect_s >=? blk_rq_pos r + blk_rq_sectors r then
        l' ← z_rqs l' nn_sect_s nn_sect_e len_sects; Some (Some r :: l')
      else
        '(n, r) ← _set_bio_rq_empty r (u64 (Z.shiftl nn_sect_s BIT_LEN_SECT_SIZE))
                    (s32 (Z.shiftl len_sects BIT_LEN_SECT_SIZE));
        let num_sect_cps := Z.shiftr (s32 n) BIT_LEN_SECT_SIZE in
        let len_sects := s32 (len_sects - num_sect_cps) in
        if len_sects <=? 0 then Some (Some r :: l')
        else l' ← z_rqs l' (u64 (nn_sect_s + num_sect_cps)) nn_sect_e len_sects; Some (Some r :: l')
  end.

Definition ioReq_RCopyData_zero2bio (r : ioReq_data_t) (startLB LB_cnt : Z) : option ioReq_data_t :=
  let lb_index := s32 (startLB - lbid_start r) in
  m_s ← mask_lb_align r !! Z.to_nat lb_index;
  m_e ← mask_lb_align r !! Z.to_nat (lb_index + LB_cnt - 1);
  nn_sect_hd_skip ← head_sect_skip m_s;
  nn_sect_tail_skip ← tail_sect_skip m_e;
  let nn_sect_s := u64 (Z.shiftl startLB BIT_LEN_DMS_LB_SECTS + nn_sect_hd_skip - sects_shift r) in
  let len_sects := s32 (Z.shiftl LB_cnt BIT_LEN_DMS_LB_SECTS - nn_sect_hd_skip - nn_sect_tail_skip) in
  let nn_sect_e := u64 (nn_sect_s + len_sects - 1) in
  l ← z_rqs (rqs r) nn_sect_s nn_sect_e len_sects;
  Some (set_rqs l r).
