(* ===== verification/CopyDataSpec.v ===== *)
(** * CopyDataSpec: no byte is lost on the way

    What the copies of CopyData do to the contents of the buffers and segments, seen as
    flat sequences of bytes. *)

From S2P Require Import Prelude CommonUtil Bytes CopyData.

(** ** Flat buffers *)

Abbreviation CHUNK := MAX_SIZE_KERNEL_MEMCHUNK.

Definition chunk_data (ch : mem_chunk) : list Z := take (Z.to_nat (chunk_item_size ch)) (data_ptr ch).
Definition flat (p : data_mem_chunks_t) : list Z := p ≫= chunk_data.

Record chunk_ok (ch : mem_chunk) : Prop := {
  ck_size : 0 < chunk_item_size ch <= CHUNK;
  ck_mem : chunk_item_size ch <= Z.of_nat (length (data_ptr ch));
}.

(** All chunks but the last one are full. *)
Record chunks_wf (p : data_mem_chunks_t) : Prop := {
  cw_ok : Forall chunk_ok p;
  cw_full i ch : (S i < length p)%nat -> p !! i = Some ch -> chunk_item_size ch = CHUNK;
  cw_num : num_chunks p < 2 ^ 13;
}.

Definition size (p : data_mem_chunks_t) : Z := Z.of_nat (length (flat p)).

Lemma length_chunk_data ch : chunk_ok ch -> Z.of_nat (length (chunk_data ch)) = chunk_item_size ch.
Proof. intros [H1 H2]. unfold chunk_data. rewrite length_take. lia. Qed.

Lemma flat_app p q : flat (p ++ q) = flat p ++ flat q.
Proof. apply bind_app. Qed.

Lemma chunks_wf_cons ch p : chunks_wf (ch :: p) -> chunks_wf p.
Proof.
  intros [H1 H2 H3]. apply Forall_cons in H1 as [_ H1]. split; [done| |unfold num_chunks in *; simpl in H3; lia].
  intros i c Hi Hc. apply (H2 (S i) c); [simpl; lia|done].
Qed.

(** The chunks before chunk [c] take up [c] times 128 KB. *)
Lemma flat_before p c : chunks_wf p -> (c < length p)%nat -> Z.of_nat (length (flat (take c p))) = Z.of_nat c * CHUNK.
Proof.
  revert c. induction p as [|ch p IH]; intros c Hwf Hc; [simpl in Hc; lia|]. destruct c as [|c]; [done|].
  cbn [take]. unfold flat. rewrite bind_cons, length_app. fold (flat (take c p)).
  pose proof (cw_ok _ Hwf) as [Hch _]%Forall_cons. cbn [length] in Hc.
  rewrite Nat2Z.inj_add, length_chunk_data, IH by (done || lia || by apply (chunks_wf_cons ch)).
  rewrite (cw_full _ Hwf 0 ch); [lia|simpl; lia|done].
Qed.

Lemma chunk_split (p : data_mem_chunks_t) c ch :
  p !! c = Some ch -> p = take c p ++ ch :: drop (S c) p.
Proof. intros H. symmetry. by apply take_drop_middle. Qed.

Lemma size_at (p : data_mem_chunks_t) c ch :
  chunks_wf p -> p !! c = Some ch ->
  size p = Z.of_nat c * CHUNK + chunk_item_size ch + Z.of_nat (length (flat (drop (S c) p))).
Proof.
  intros Hwf Hc. unfold size. rewrite (chunk_split p c ch Hc) at 1. rewrite flat_app, length_app.
  unfold flat at 2. rewrite bind_cons, length_app. fold (flat (drop (S c) p)).
  pose proof (flat_before p c Hwf (lookup_lt_Some _ _ _ Hc)).
  pose proof (proj1 (Forall_lookup _ _) (cw_ok _ Hwf) c ch Hc) as Hok. pose proof (length_chunk_data ch Hok). lia.
Qed.

(** A place before the end of the data lies in a chunk. *)
Lemma place_chunk (p : data_mem_chunks_t) P :
  chunks_wf p -> 0 <= P < size p -> exists ch, p !! Z.to_nat (P / CHUNK) = Some ch /\ P mod CHUNK < chunk_item_size ch.
Proof.
  intros Hwf HP. assert (P / CHUNK < num_chunks p) as Hlt.
  { destruct (Z.lt_ge_cases (P / CHUNK) (num_chunks p)) as [?|Hge]; [done|]. exfalso.
    assert (num_chunks p * CHUNK <= P) as H1.
    { etrans; [apply Z.mul_le_mono_nonneg_r; [done|exact Hge]|]. rewrite Z.mul_comm. apply Z.mul_div_le. done. }
    destruct (decide (p = [])) as [->|Hne]; [unfold size in HP; simpl in HP; lia|].
    destruct (lookup_lt_is_Some_2 p (length p - 1)) as [ch Hch]; [destruct p; [done|simpl; lia]|].
    pose proof (size_at p _ ch Hwf Hch) as Hs. rewrite drop_ge in Hs by lia.
    pose proof (proj1 (Forall_lookup _ _) (cw_ok _ Hwf) _ _ Hch) as [Hsz _].
    assert (length p <> 0%nat) by (by destruct p). unfold num_chunks in *. change (length (flat [])) with 0%nat in Hs. change CHUNK with 131072 in *. lia. }
  assert (0 <= P / CHUNK) as H0 by (apply Z.div_pos; [lia|done]).
  pose proof (Z.div_mod P CHUNK ltac:(done)) as Hdm. pose proof (Z.mod_pos_bound P CHUNK ltac:(done)) as Hm.
  change CHUNK with 131072 in *. set (c := P / 131072) in *. set (o := P mod 131072) in *. clearbody c o.
  destruct (lookup_lt_is_Some_2 p (Z.to_nat c)) as [ch Hch]; [unfold num_chunks in Hlt; lia|].
  exists ch. split; [done|]. pose proof (size_at p _ ch Hwf Hch) as Hs. change CHUNK with 131072 in Hs.
  destruct (decide (S (Z.to_nat c) < length p)%nat) as [Hnl|Hl].
  - rewrite (cw_full _ Hwf _ _ Hnl Hch). change CHUNK with 131072. lia.
  - rewrite drop_ge in Hs by lia. change (length (flat [])) with 0%nat in Hs. lia.
Qed.

(** ** Places in a buffer *)

Record at_place (P : Z) (s : cp_state) : Prop := {
  ap_ptr : cp_ptr s = Some (P / CHUNK, P mod CHUNK);
  ap_cnt : cp_cnt s = P / CHUNK;
  ap_off : cp_off s = P mod CHUNK;
  ap_rsize : cp_rsize s = item_size (cp_pay s) (P / CHUNK) - P mod CHUNK;
}.

Lemma place_bounds p P :
  chunks_wf p -> 0 <= P < size p ->
  0 <= P / CHUNK < num_chunks p /\ 0 <= P mod CHUNK < item_size p (P / CHUNK) /\ item_size p (P / CHUNK) <= CHUNK.
Proof.
  intros Hwf HP. destruct (place_chunk p P Hwf HP) as (ch & Hch & Hm).
  pose proof (proj1 (Forall_lookup _ _) (cw_ok _ Hwf) _ _ Hch) as [Hsz _].
  apply lookup_lt_Some in Hch as Hlt. unfold item_size. rewrite Hch. unfold num_chunks.
  assert (0 <= P / CHUNK) by (apply Z.div_pos; [lia|done]). pose proof (Z.mod_pos_bound P CHUNK ltac:(done)). lia.
Qed.

Lemma get_chunk_ptr_spec p cnt off len :
  chunks_wf p -> 0 <= cnt -> 0 <= off < CHUNK -> 0 <= len < 2 ^ 31 -> cnt * CHUNK + off + len < size p ->
  let P := cnt * CHUNK + off + len in
  get_chunk_ptr p cnt off len =
    (Some (P / CHUNK, P mod CHUNK), P / CHUNK, P mod CHUNK, item_size p (P / CHUNK) - P mod CHUNK).
Proof.
  intros Hwf Hc Ho Hl HP P. assert (0 <= P < size p) as HP' by (unfold P; change CHUNK with 131072 in *; lia).
  destruct (place_bounds p P Hwf HP') as ([_ Hn] & Hm & Hi). pose proof (cw_num _ Hwf) as Hnum.
  unfold get_chunk_ptr. change LEN_MEM_CHUNK_MOD_NUM with (Z.ones 17). unfold BIT_LEN_MEM_CHUNK.
  rewrite !Z.land_ones, Z.shiftr_div_pow2 by lia. change CHUNK with 131072 in *. change (2 ^ 17) with 131072.
  pose proof (Z.div_mod len 131072 ltac:(done)) as Hdl. pose proof (Z.mod_pos_bound len 131072 ltac:(done)) as Hml.
  set (lq := len / 131072) in *. set (lr := len mod 131072) in *. clearbody lq lr.
  assert (P = 131072 * (cnt + lq) + (off + lr)) as EP by (unfold P; lia). clearbody P.
  destruct (Z.lt_ge_cases (off + lr) 131072) as [Hlt|Hge].
  - assert (P / 131072 = cnt + lq) as E1 by (symmetry; apply (Z.div_unique _ _ _ (off + lr)); lia).
    assert (P mod 131072 = off + lr) as E2 by (symmetry; apply (Z.mod_unique _ _ (cnt + lq)); lia).
    rewrite E1, E2 in *. rewrite (s32_small (cnt + lq)) by (unfold is_s32; lia).
    replace (cnt + lq >=? num_chunks p) with false by lia. rewrite u32_small by (unfold is_u32; lia).
    replace (off + lr >=? 131072) with false by lia. rewrite s32_small by (unfold is_s32; lia). done.
  - assert (P / 131072 = cnt + lq + 1) as E1 by (symmetry; apply (Z.div_unique _ _ _ (off + lr - 131072)); lia).
    assert (P mod 131072 = off + lr - 131072) as E2 by (symmetry; apply (Z.mod_unique _ _ (cnt + lq + 1)); lia).
    rewrite E1, E2 in *. rewrite (s32_small (cnt + lq)) by (unfold is_s32; lia).
    replace (cnt + lq >=? num_chunks p) with false by lia. rewrite u32_small by (unfold is_u32; lia).
    replace (off + lr >=? 131072) with true by lia. rewrite s32_small by (unfold is_s32; lia).
    replace (cnt + lq + 1 >=? num_chunks p) with false by lia.
    assert ((off + lr) mod 131072 = off + lr - 131072) as -> by (symmetry; apply (Z.mod_unique _ _ 1); lia).
    rewrite s32_small by (unfold is_s32; lia). done.
Qed.

(** The sizes of the chunks decide how much of a chunk is data. *)
Lemma item_size_eq (p p' : data_mem_chunks_t) c :
  (chunk_item_size <$> p') = (chunk_item_size <$> p) -> item_size p' c = item_size p c.
Proof.
  intros E. unfold item_size. apply (f_equal (fun l => l !! Z.to_nat c)) in E. rewrite !list_lookup_fmap in E.
  destruct (p' !! _), (p !! _); simpl in E; congruence.
Qed.

(** What a write through the pointer does to the flat buffer. *)
Lemma write_ptr_spec p P d :
  chunks_wf p -> 0 <= P < size p -> Z.of_nat (length d) <= item_size p (P / CHUNK) - P mod CHUNK ->
  exists p', write_ptr (Some (P / CHUNK, P mod CHUNK)) d p = Some p' /\ chunks_wf p' /\
    flat p' = put (flat p) (Z.to_nat P) d /\ (chunk_item_size <$> p') = (chunk_item_size <$> p).
Proof.
  intros Hwf HP Hd. destruct (place_bounds p P Hwf HP) as ([Hc0 Hn] & Hm & Hi).
  destruct (place_chunk p P Hwf HP) as (ch & Hch & _). unfold item_size in *. rewrite Hch in *.
  pose proof (proj1 (Forall_lookup _ _) (cw_ok _ Hwf) _ _ Hch) as [Hsz Hmem].
  destruct d as [|b d0]; [exists p; split_and!; try done; by rewrite put_nil|].
  set (d := b :: d0) in *. unfold write_ptr. rewrite Hch. cbn [mbind option_bind].
  rewrite splice_put by lia. cbn [mbind option_bind]. set (c := Z.to_nat (P / CHUNK)) in *.
  set (m := put (data_ptr ch) (Z.to_nat (P mod CHUNK)) d). set (ch' := {| data_ptr := m; chunk_item_size := chunk_item_size ch |}).
  assert (length m = length (data_ptr ch)) as Hlm by (apply length_put; lia).
  assert ((chunk_item_size <$> <[c := ch']> p) = (chunk_item_size <$> p)) as Hsizes.
  { rewrite list_fmap_insert. apply list_insert_id. by rewrite list_lookup_fmap, Hch. }
  eexists. split; [done|]. split_and!; [| |done].
  - split.
    + apply Forall_insert; [apply Hwf|]. split; simpl; [done|by rewrite Hlm].
    + intros i x Hlt Hx. rewrite length_insert in Hlt. apply (f_equal (fun l => l !! i)) in Hsizes.
      rewrite !list_lookup_fmap, Hx in Hsizes. destruct (p !! i) as [y|] eqn:Ey; [|done]. simpl in Hsizes.
      injection Hsizes as ->. by apply (cw_full _ Hwf i).
    + unfold num_chunks. rewrite length_insert. apply Hwf.
  - pose proof (lookup_lt_Some _ _ _ Hch) as Hlt. rewrite insert_take_drop by done. rewrite (chunk_split p c ch Hch) at 3.
    rewrite !flat_app. unfold flat at 2 4. rewrite !bind_cons. fold (flat (drop (S c) p)).
    pose proof (flat_before p c Hwf Hlt) as Hbef.
    assert (Z.to_nat P = length (flat (take c p)) + Z.to_nat (P mod CHUNK))%nat as ->.
    { assert (Z.of_nat c = P / CHUNK) as Hcz by (unfold c; lia). rewrite Hcz in Hbef. change CHUNK with 131072 in *.
      pose proof (Z.div_mod P 131072 ltac:(done)). clear -Hbef Hc0 HP Hm H. clearbody c. lia. }
    rewrite put_app_r. f_equal. rewrite put_app_l.
    + f_equal. unfold chunk_data, ch', m. cbn [data_ptr chunk_item_size]. unfold put.
      rewrite take_app_ge by (rewrite length_take; lia). rewrite length_take, Nat.min_l by lia.
      rewrite take_app_ge by lia. rewrite take_drop_commute, take_take, Nat.min_l by lia. do 3 f_equal.
      f_equal. f_equal. lia.
    + pose proof (length_chunk_data ch (Build_chunk_ok _ Hsz Hmem)). lia.
Qed.

Lemma place_sum P : P / CHUNK * CHUNK + P mod CHUNK = P.
Proof. pose proof (Z.div_mod P CHUNK ltac:(done)). lia. Qed.

Lemma next_ptr_place P n s :
  chunks_wf (cp_pay s) -> at_place P s -> 0 <= P -> 0 <= n < 2 ^ 31 -> P + n < size (cp_pay s) ->
  at_place (P + n) (next_ptr n s) /\ cp_pay (next_ptr n s) = cp_pay s /\ cp_pos (next_ptr n s) = cp_pos s /\
  cp_total (next_ptr n s) = cp_total s /\ cp_num (next_ptr n s) = cp_num s.
Proof.
  intros Hwf [_ Hc Ho _] HP Hn Hs. unfold next_ptr. rewrite Hc, Ho.
  rewrite (get_chunk_ptr_spec (cp_pay s) (P / CHUNK) (P mod CHUNK) n); try done.
  - rewrite place_sum. by split_and!.
  - apply Z.div_pos; [lia|done].
  - by apply Z.mod_pos_bound.
  - by rewrite place_sum.
Qed.

Lemma cp_start_place p pos total P :
  chunks_wf p -> 0 <= P < size p ->
  exists s, cp_start p pos total (P / CHUNK) (P mod CHUNK) = Some s /\ at_place P s /\ cp_pay s = p /\
    cp_pos s = pos /\ cp_total s = total /\ cp_num s = 0.
Proof.
  intros Hwf HP. destruct (place_bounds p P Hwf HP) as (Hn & Hm & Hi). unfold cp_start.
  replace (P / CHUNK >=? num_chunks p) with false by lia.
  replace (P mod CHUNK >=? item_size p (P / CHUNK)) with false by lia. rewrite andb_false_r.
  rewrite (get_chunk_ptr_spec p (P / CHUNK) (P mod CHUNK) 0); try done; try lia.
  - rewrite place_sum, Z.add_0_r. eexists. split; [done|]. by split_and!.
  - rewrite place_sum. lia.
Qed.

Lemma cmp_triple_cases a b c :
  piece a b c = if decide (c <= a /\ c <= b) then (c, false)
                else if decide (b <= a) then (b, c >? b) else (a, false).
Proof.
  unfold piece, cmp_triple_int. destruct (a >=? b) eqn:E1; zbool.
  - destruct (b >=? c) eqn:E2; zbool; [rewrite decide_True by lia; done|].
    rewrite decide_False, decide_True by lia. done.
  - destruct (a >=? c) eqn:E2; zbool; [rewrite decide_True by lia; done|].
    rewrite decide_False, decide_False by lia. done.
Qed.

(** ** Writes *)

(** One piece of a segment: the bytes from [off] on, as many as the chunk takes. *)
Lemma w_bvec_turn fuel bv bvec_s bvlen s P off :
  chunks_wf (cp_pay s) -> at_place P s -> 0 <= P -> 0 <= off ->
  cp_pos s = bvec_s + off -> bvlen - off = Z.of_nat (length bv) - off -> off < Z.of_nat (length bv) < 2 ^ 31 ->
  Z.of_nat (length bv) - off <= cp_total s < 2 ^ 31 -> P + cp_total s <= size (cp_pay s) ->
  0 <= bvec_s -> bvec_s + Z.of_nat (length bv) < 2 ^ 64 -> 0 <= cp_num s -> cp_num s + cp_total s < 2 ^ 31 ->
  let rem := Z.of_nat (length bv) - off in
  let n := Z.min (cp_rsize s) rem in
  0 < n /\
  exists s1, chunks_wf (cp_pay s1) /\ (chunk_item_size <$> cp_pay s1) = (chunk_item_size <$> cp_pay s) /\
    flat (cp_pay s1) = put (flat (cp_pay s)) (Z.to_nat P) (take (Z.to_nat n) (drop (Z.to_nat off) bv)) /\
    cp_total s1 = cp_total s - n /\ cp_num s1 = cp_num s + n /\
    (cp_total s <> n -> at_place (P + n) s1 /\ cp_pos s1 = cp_pos s + n) /\
    w_bvec (S fuel) bv bvec_s bvlen s =
      if decide (cp_total s = n) then Some (true, s1)
      else if decide (n < rem) then w_bvec fuel bv bvec_s (bvlen - off) s1 else Some (false, s1).
Proof.
  intros Hwf Hat HP Hoff Hpos Hbl Hlen Htot Hsz Hb0 Hb Hn0 Hnum rem n.
  destruct (place_bounds (cp_pay s) P Hwf) as (Hc & Hm & Hi); [lia|]. pose proof Hat as [Hptr _ _ Hrs].
  change CHUNK with 131072 in Hi. assert (0 < cp_rsize s <= 131072) as Hr by (change CHUNK with 131072 in *; lia).
  assert (0 < n <= rem /\ n <= cp_rsize s) as Hn by (unfold n, rem; lia). split; [lia|].
  cbn [w_bvec]. rewrite Hpos. replace (bvec_s + off - bvec_s) with off by lia.
  rewrite (s32_small off) by (unfold is_s32; lia). rewrite (s32_small (bvlen - off)) by (unfold is_s32; lia).
  assert (piece (cp_total s) (cp_rsize s) (bvlen - off) = (n, bool_decide (n < rem))) as ->.
  { rewrite cmp_triple_cases. unfold n, rem. destruct (decide (bvlen - off <= cp_total s /\ bvlen - off <= cp_rsize s)).
    - rewrite bool_decide_false by lia. f_equal. lia.
    - rewrite decide_True by lia. rewrite bool_decide_true by lia. f_equal; lia. }
  unfold slice at 1. rewrite decide_True by (unfold rem in *; lia). cbn [mbind option_bind].
  set (d := take (Z.to_nat n) (drop (Z.to_nat off) bv)).
  assert (Z.of_nat (length d) = n) as Hld by (unfold d; rewrite length_take, length_drop; unfold rem in *; lia).
  rewrite Hptr. destruct (write_ptr_spec (cp_pay s) P d Hwf) as (p' & -> & Hwf' & Hflat & Hsizes); [lia|lia|].
  cbn [mbind option_bind cp_total cp_num cp_pay]. rewrite !s32_small by (unfold is_s32; lia).
  assert (size p' = size (cp_pay s)) as Hsz' by (unfold size; rewrite Hflat, length_put; unfold size in Hsz; lia).
  destruct (decide (cp_total s = n)) as [Heq|Hne].
  { rewrite Heq, Z.sub_diag. cbn [Z.leb]. eexists. split_and!; [..|done]; cbn [cp_pay cp_total cp_num]; try done; lia. }
  replace (cp_total s - n <=? 0) with false by (unfold rem in *; lia).
  set (s1 := {| cp_pay := p'; cp_pos := bvec_s + off; cp_total := cp_total s - n; cp_num := cp_num s + n;
    cp_ptr := Some (P / CHUNK, P mod CHUNK); cp_rsize := cp_rsize s; cp_cnt := cp_cnt s; cp_off := cp_off s |}).
  assert (item_size p' (P / CHUNK) = item_size (cp_pay s) (P / CHUNK)) as Hit by by apply item_size_eq.
  destruct (next_ptr_place P n s1) as (Hat' & H1 & H2 & H3 & H4); try done; [|lia|cbn [s1 cp_pay]; unfold rem in *; lia|].
  { destruct Hat as [_ Ha2 Ha3 _]. split; try done. cbn [s1 cp_pay cp_rsize]. by rewrite Hit. }
  cbn [s1 cp_pay cp_pos cp_total cp_num] in H1, H2, H3, H4. rewrite H1, H2, H3, H4.
  eexists. split_and!; [..|by destruct (decide (n < rem)), (bool_decide_reflect (n < rem))].
  all: cbn [cp_pay cp_pos cp_total cp_num]; try done.
  intros _. rewrite u64_small by (unfold is_u64, rem in *; lia). split; [|lia]. destruct Hat' as [A1 A2 A3 A4].
  split; try done. cbn [cp_pay cp_rsize]. by rewrite A4, H1.
Qed.

(** What is left of a chunk: up to its end, or up to the end of the data. *)
Lemma chunk_room p P :
  chunks_wf p -> 0 <= P < size p ->
  item_size p (P / CHUNK) - P mod CHUNK = Z.min (size p - P) (CHUNK - P mod CHUNK).
Proof.
  intros Hwf HP. destruct (place_chunk p P Hwf HP) as (ch & Hch & Hm). unfold item_size. rewrite Hch.
  pose proof (size_at p _ ch Hwf Hch) as Hs. pose proof (place_sum P) as Hps.
  assert (0 <= P / CHUNK) as H0 by (apply Z.div_pos; [lia|done]). rewrite Z2Nat.id in Hs by done.
  pose proof (proj1 (Forall_lookup _ _) (cw_ok _ Hwf) _ _ Hch) as [Hsz _].
  destruct (decide (S (Z.to_nat (P / CHUNK)) < length p)%nat) as [Hnl|Hl].
  - rewrite (cw_full _ Hwf _ _ Hnl Hch) in *. lia.
  - rewrite drop_ge in Hs by lia. change (length (flat [])) with 0%nat in Hs. lia.
Qed.

(** The copy of [d] from place [P] of state [s] to state [s']. *)
Record copied (P : Z) (d : list Z) (s s' : cp_state) : Prop := {
  co_wf : chunks_wf (cp_pay s');
  co_sizes : (chunk_item_size <$> cp_pay s') = (chunk_item_size <$> cp_pay s);
  co_flat : flat (cp_pay s') = put (flat (cp_pay s)) (Z.to_nat P) d;
  co_total : cp_total s' = cp_total s - Z.of_nat (length d);
  co_num : cp_num s' = cp_num s + Z.of_nat (length d);
  co_place : cp_total s <> Z.of_nat (length d) ->
    at_place (P + Z.of_nat (length d)) s' /\ cp_pos s' = cp_pos s + Z.of_nat (length d);
}.

Lemma copied_trans P d1 d2 s s1 s2 :
  0 <= P -> P + Z.of_nat (length d1) + Z.of_nat (length d2) <= size (cp_pay s) -> cp_total s <> Z.of_nat (length d1) ->
  copied P d1 s s1 -> copied (P + Z.of_nat (length d1)) d2 s1 s2 -> copied P (d1 ++ d2) s s2.
Proof.
  intros HP Hsz Hne [A1 A2 A3 A4 A5 A6] [B1 B2 B3 B4 B5 B6]. unfold size in Hsz. split.
  - done.
  - congruence.
  - rewrite B3, A3. replace (Z.to_nat (P + Z.of_nat (length d1))) with (Z.to_nat P + length d1)%nat by lia.
    apply put_put. lia.
  - rewrite length_app. lia.
  - rewrite length_app. lia.
  - rewrite length_app, Nat2Z.inj_add. intros H. destruct (A6 Hne) as [_ E1]. destruct B6 as [Hat E2]; [lia|].
    split; [|lia]. by rewrite Z.add_assoc.
Qed.

Lemma copied_size P d s s' :
  0 <= P -> P + Z.of_nat (length d) <= size (cp_pay s) -> copied P d s s' -> size (cp_pay s') = size (cp_pay s).
Proof. intros HP Hsz [_ _ H _ _ _]. unfold size in *. rewrite H, length_put; lia. Qed.

(** The state of a copy that has [cp_total] bytes to go from place [P]. *)
Record ready (P : Z) (s : cp_state) : Prop := {
  re_wf : chunks_wf (cp_pay s);
  re_place : at_place P s;
  re_pos : 0 <= P;
  re_total : 0 < cp_total s < 2 ^ 31;
  re_room : P + cp_total s <= size (cp_pay s);
  re_num : 0 <= cp_num s /\ cp_num s + cp_total s < 2 ^ 31;
  re_src : 0 <= cp_pos s /\ cp_pos s + cp_total s < 2 ^ 64;
}.

Lemma copied_ready P d s s' :
  ready P s -> copied P d s s' -> Z.of_nat (length d) < cp_total s -> ready (P + Z.of_nat (length d)) s'.
Proof.
  intros [H1 H2 H3 H4 H5 H6 H7] HC Hlt. pose proof (copied_size P d s s' H3 ltac:(lia) HC) as Hs.
  destruct HC as [A1 A2 A3 A4 A5 A6]. destruct A6 as [Hat Hp]; [lia|]. split; try done; lia.
Qed.

(** A segment is copied in one piece, or in two when a chunk ends in it. *)
Lemma w_bvec_spec bv s P :
  ready P s -> bv <> [] -> Z.of_nat (length bv) <= CHUNK -> Z.of_nat (length bv) <= cp_total s ->
  exists s', w_bvec (S (length bv)) bv (cp_pos s) (Z.of_nat (length bv)) s =
      Some (bool_decide (cp_total s = Z.of_nat (length bv)), s') /\ copied P bv s s'.
Proof.
  intros HR Hne Hlen Htot. pose proof HR as [H1 H2 H3 H4 H5 H6 H7]. set (L := Z.of_nat (length bv)) in *.
  assert (0 < L) as HL by (unfold L; destruct bv; [done|simpl; lia]). change CHUNK with 131072 in Hlen.
  destruct (w_bvec_turn (length bv) bv (cp_pos s) L s P 0) as (Hn & s1 & Hwf1 & Hsz1 & Hfl1 & Ht1 & Hn1 & Hp1 & ->);
    try done; try lia.
  fold L in Hn, Hfl1, Ht1, Hn1, Hp1 |- *. rewrite Z.sub_0_r in *. change (drop (Z.to_nat 0) bv) with bv in Hfl1.
  pose proof (chunk_room (cp_pay s) P H1 ltac:(lia)) as Hroom. pose proof (ap_rsize _ _ H2) as Hrs. rewrite Hroom in Hrs.
  set (n := Z.min (cp_rsize s) L) in *.
  assert (copied P (take (Z.to_nat n) bv) s s1) as HC1.
  { assert (Z.of_nat (length (take (Z.to_nat n) bv)) = n) as E by (rewrite length_take; lia). by split; rewrite ?E. }
  assert (Z.of_nat (length (take (Z.to_nat n) bv)) = n) as E1 by (rewrite length_take; lia).
  destruct (decide (n = L)) as [HnL|HnL].
  { rewrite HnL in *. rewrite take_ge in HC1 by lia. destruct (decide (cp_total s = L)) as [E|E].
    - rewrite bool_decide_true by done. by exists s1.
    - rewrite bool_decide_false, decide_False by (done || lia). by exists s1. }
  rewrite decide_False, decide_True by lia. destruct (copied_ready P _ s s1 HR HC1) as [R1 R2 R3 R4 R5 R6 R7]; [lia|].
  rewrite E1 in *. destruct (Hp1 ltac:(lia)) as [_ Hpos1].
  assert (n = cp_rsize s /\ (P + n) mod CHUNK = 0) as [Hnr Hmod].
  { split; [lia|]. assert (n = CHUNK - P mod CHUNK) as -> by lia. pose proof (place_sum P) as Hps.
    replace (P + (CHUNK - P mod CHUNK)) with ((P / CHUNK + 1) * CHUNK) by lia. by apply Z.mod_mul. }
  pose proof (chunk_room (cp_pay s1) (P + n) R1 ltac:(lia)) as Hroom1. rewrite Hmod, Z.sub_0_r in Hroom1.
  pose proof (ap_rsize _ _ R2) as Hrs1. rewrite Hmod, Z.sub_0_r, Hroom1 in Hrs1. change CHUNK with 131072 in Hrs1.
  replace (length bv) with (S (length bv - 1)) by (unfold L in *; lia).
  destruct (w_bvec_turn (length bv - 1) bv (cp_pos s) L s1 (P + n) n)
    as (_ & s2 & Hwf2 & Hsz2 & Hfl2 & Ht2 & Hn2 & Hp2 & ->); try done; try (unfold L in *; lia).
  fold L in Hfl2, Ht2, Hn2, Hp2 |- *. rewrite Z.min_r in * by lia.
  exists s2. split; [destruct (decide (cp_total s1 = L - n)); [rewrite bool_decide_true by lia; done|]|].
  - rewrite decide_False, bool_decide_false by lia. done.
  - rewrite <- (take_drop (Z.to_nat n) bv). eapply copied_trans; [done| |rewrite E1; lia|exact HC1|].
    + rewrite E1, length_drop. unfold L in *. lia.
    + rewrite E1. assert (Z.of_nat (length (drop (Z.to_nat n) bv)) = L - n) as E2 by (rewrite length_drop; unfold L; lia).
      split; rewrite ?E2; try done. rewrite Hfl2, take_ge; [done|rewrite length_drop; unfold L; lia].
Qed.

Definition bvecs_ok (bvs : list (list Z)) : Prop := Forall (fun bv => bv <> [] /\ Z.of_nat (length bv) <= CHUNK) bvs.

Lemma copied_nil P s : ready P s -> copied P [] s s.
Proof.
  intros [H1 H2 H3 H4 H5 H6 H7]. split; cbn [length Z.of_nat]; try done; try lia.
  - by rewrite put_nil.
  - intros _. by rewrite !Z.add_0_r.
Qed.

Lemma concat_nil_ok bvs : bvecs_ok bvs -> concat bvs = [] -> bvs = [].
Proof. intros [|bv bvs' [Hne _] _]; [done|]. simpl. by intros [? _]%app_nil. Qed.

(** All segments of a request. *)
Lemma w_bvecs_spec bvs s P ior_e :
  ready P s -> bvecs_ok bvs -> Z.of_nat (length (concat bvs)) <= cp_total s ->
  ior_e = cp_pos s + cp_total s - 1 ->
  exists s', w_bvecs bvs (cp_pos s) ior_e s = Some s' /\ copied P (concat bvs) s s'.
Proof.
  revert s P. induction bvs as [|bv bvs IH]; intros s P HR Hok Htot Hior.
  { exists s. split; [done|]. by apply copied_nil. }
  apply Forall_cons in Hok as [[Hne Hlen] Hok]. cbn [concat] in Htot |- *. rewrite length_app in Htot.
  destruct (w_bvec_spec bv s P HR Hne Hlen) as (s1 & E & HC); [lia|]. pose proof HR as [H1 H2 H3 H4 H5 H6 H7].
  assert (0 < Z.of_nat (length bv)) as HL by (destruct bv; [done|simpl; lia]).
  cbn [w_bvecs]. rewrite (u64_small (cp_pos s + Z.of_nat (length bv) - 1)) by (unfold is_u64; lia).
  replace (cp_pos s + Z.of_nat (length bv) - 1 <? cp_pos s) with false by lia.
  replace (cp_pos s >? ior_e) with false by lia. rewrite E. cbn [mbind option_bind].
  case_bool_decide as Ht.
  - assert (bvs = []) as -> by (apply concat_nil_ok; [done|]; apply nil_length_inv; lia).
    exists s1. split; [done|]. by rewrite app_nil_r.
  - pose proof (copied_ready P bv s s1 HR HC ltac:(lia)) as HR1. destruct (co_place _ _ _ _ HC Ht) as [_ Hp1].
    pose proof (co_total _ _ _ _ HC) as Ht1.
    rewrite u64_small by (unfold is_u64; lia). replace (cp_pos s + Z.of_nat (length bv) - 1 + 1) with (cp_pos s1) by lia.
    destruct (IH s1 (P + Z.of_nat (length bv)) HR1 Hok) as (s2 & E2 & HC2); [lia|lia|].
    exists s2. split; [done|]. eapply copied_trans; [done|lia|done|done|done].
Qed.

(** The requests of an IO request: they follow each other on the device. *)
Fixpoint rqs_from (sect : Z) (rs : list request) : Prop :=
  match rs with
  | [] => True
  | r :: rs =>
      blk_rq_pos r = sect /\ bvecs_ok (bvecs r) /\ bvecs r <> [] /\
      Z.of_nat (length (rq_data r)) mod 2 ^ BIT_LEN_SECT_SIZE = 0 /\
      rqs_from (sect + blk_rq_sectors r) rs
  end.

Definition rqs_data (rs : list request) : list Z := rs ≫= rq_data.

Lemma sectors_bytes r :
  Z.of_nat (length (rq_data r)) mod 2 ^ BIT_LEN_SECT_SIZE = 0 ->
  Z.shiftl (blk_rq_sectors r) BIT_LEN_SECT_SIZE = Z.of_nat (length (rq_data r)).
Proof.
  intros H. unfold blk_rq_sectors, BIT_LEN_SECT_SIZE in *. rewrite Z.shiftl_mul_pow2 by lia.
  pose proof (Z.div_mod (Z.of_nat (length (rq_data r))) (2 ^ 9) ltac:(done)). lia.
Qed.

Lemma rq_data_pos r : bvecs_ok (bvecs r) -> bvecs r <> [] -> 0 < Z.of_nat (length (rq_data r)).
Proof.
  intros Hok Hne. unfold rq_data. destruct (concat (bvecs r)) as [|b l] eqn:E; [|simpl; lia].
  by apply concat_nil_ok in E.
Qed.

Lemma cp_bio2ioReq_spec r p P total :
  chunks_wf p -> 0 <= P -> 0 < total < 2 ^ 31 -> P + total <= size p -> bvecs_ok (bvecs r) ->
  0 <= blk_rq_pos r -> Z.shiftl (blk_rq_pos r) BIT_LEN_SECT_SIZE + total < 2 ^ 64 ->
  Z.of_nat (length (rq_data r)) <= total ->
  exists p' cnt off,
    _cp_bio2ioReq r (Z.shiftl (blk_rq_pos r) BIT_LEN_SECT_SIZE) total p (P / CHUNK) (P mod CHUNK) =
      Some (Z.of_nat (length (rq_data r)), p', cnt, off) /\
    chunks_wf p' /\ (chunk_item_size <$> p') = (chunk_item_size <$> p) /\ flat p' = put (flat p) (Z.to_nat P) (rq_data r) /\
    (Z.of_nat (length (rq_data r)) < total ->
       cnt = (P + Z.of_nat (length (rq_data r))) / CHUNK /\ off = (P + Z.of_nat (length (rq_data r))) mod CHUNK).
Proof.
  intros Hwf HP Ht Hsz Hok Hpos H64 Hlen. set (pos := Z.shiftl (blk_rq_pos r) BIT_LEN_SECT_SIZE) in *.
  assert (0 <= pos) as Hp0 by (apply Z.shiftl_nonneg; done).
  destruct (cp_start_place p pos total P Hwf) as (s & E & Hat & Hpay & Hps & Htot & Hnum); [lia|].
  unfold _cp_bio2ioReq. rewrite E. fold pos. rewrite !u64_small by (unfold is_u64; lia).
  assert (ready P s) as HR by (split; rewrite ?Hpay, ?Htot, ?Hnum, ?Hps; done || lia).
  destruct (w_bvecs_spec (bvecs r) s P (pos + total - 1) HR Hok) as (s' & E' & HC); [unfold rq_data in Hlen; lia|lia|].
  rewrite Hps in E'. rewrite E'. cbn [mbind option_bind]. destruct HC as [C1 C2 C3 C4 C5 C6]. rewrite Hpay in *.
  exists (cp_pay s'), (cp_cnt s'), (cp_off s'). split_and!; try done.
  - assert (cp_num s' = Z.of_nat (length (rq_data r))) as -> by (unfold rq_data; lia). done.
  - intros Hlt. destruct C6 as [[_ A2 A3 _] _]; [unfold rq_data in Hlt; lia|]. done.
Qed.

Lemma w_rqs_spec rs sect p P :
  chunks_wf p -> 0 <= P -> 0 <= sect -> rqs_from sect rs -> rs <> [] ->
  let total := Z.of_nat (length (rqs_data rs)) in
  total < 2 ^ 31 -> P + total <= size p -> Z.shiftl sect BIT_LEN_SECT_SIZE + total < 2 ^ 64 ->
  exists p', w_rqs (Some <$> rs) (Z.shiftl sect BIT_LEN_SECT_SIZE) total p (P / CHUNK) (P mod CHUNK) = Some p' /\
    chunks_wf p' /\ (chunk_item_size <$> p') = (chunk_item_size <$> p) /\ flat p' = put (flat p) (Z.to_nat P) (rqs_data rs).
Proof.
  revert sect p P. induction rs as [|r rs IH]; intros sect p P Hwf HP Hs Hrs Hne total Ht Hsz H64; [done|].
  destruct Hrs as (<- & Hok & Hnb & Hmod & Hrest). set (pos := Z.shiftl (blk_rq_pos r) BIT_LEN_SECT_SIZE) in *.
  pose proof (rq_data_pos r Hok Hnb) as Hlp. pose proof (sectors_bytes r Hmod) as Hsect.
  assert (total = Z.of_nat (length (rq_data r)) + Z.of_nat (length (rqs_data rs))) as Htot.
  { unfold total, rqs_data. rewrite bind_cons, length_app. fold (rqs_data rs). lia. }
  assert (0 <= pos) as Hp0 by (apply Z.shiftl_nonneg; done).
  cbn [fmap list_fmap w_rqs]. fold pos. rewrite Hsect, !u64_small by (unfold is_u64; rewrite ?u64_small; unfold is_u64; lia).
  replace (pos + Z.of_nat (length (rq_data r)) - 1 <? pos) with false by lia. rewrite s32_small by (unfold is_s32; lia).
  destruct (cp_bio2ioReq_spec r p P total) as (p1 & cnt & off & E & Hwf1 & Hsz1 & Hfl1 & Hpl); try done; try lia.
  fold pos in E. rewrite E. cbn [mbind option_bind].
  replace (Z.of_nat (length (rq_data r)) <=? 0) with false by lia. rewrite u32_small by (unfold is_u32; lia).
  unfold rqs_data. rewrite bind_cons. fold (rqs_data rs). destruct (total - Z.of_nat (length (rq_data r)) <=? 0) eqn:E0; zbool.
  - exists p1. split_and!; try done. assert (rqs_data rs = []) as -> by (apply nil_length_inv; lia). by rewrite app_nil_r.
  - destruct Hpl as [-> ->]; [lia|]. replace (total - Z.of_nat (length (rq_data r))) with (Z.of_nat (length (rqs_data rs))) by lia.
    assert (pos + Z.of_nat (length (rq_data r)) = Z.shiftl (blk_rq_pos r + blk_rq_sectors r) BIT_LEN_SECT_SIZE) as Hnext.
    { rewrite <- Hsect. unfold pos, BIT_LEN_SECT_SIZE. rewrite !Z.shiftl_mul_pow2 by done. lia. }
    rewrite Hnext, ?(u64_small (Z.shiftl _ _)) by (unfold is_u64; lia).
    change (list_fmap _ _ Some rs) with (Some <$> rs).
    assert (size p1 = size p) as Hs1 by (unfold size in *; rewrite Hfl1, length_put; lia).
    destruct (IH (blk_rq_pos r + blk_rq_sectors r) p1 (P + Z.of_nat (length (rq_data r)))) as (p2 & -> & Hwf2 & Hsz2 & Hfl2);
      try done; try lia.
    + unfold blk_rq_sectors. apply Z.add_nonneg_nonneg; [done|]. apply Z.div_pos; [lia|done].
    + intros ->. simpl in *. lia.
    + exists p2. split_and!; try done; [congruence|]. rewrite Hfl2, Hfl1.
      replace (Z.to_nat (P + Z.of_nat (length (rq_data r)))) with (Z.to_nat P + length (rq_data r))%nat by lia.
      apply put_put. unfold size in Hsz. lia.
Qed.

(** ** Whole writes *)

(** The sectors before the data in their first block. *)
Definition w_skip (r : ioReq_data_t) : option Z :=
  if is_dms_lb_align r then Some 0 else mask_lb_align r !! 0%nat ≫= head_sect_skip.

Lemma head_sect_skip_range m k : head_sect_skip m = Some k -> 0 <= k <= 8.
Proof.
  intros E. destruct (head_sect_loop_spec m 9 0) as (k' & E' & H & _); [lia..|].
  unfold head_sect_skip in E. rewrite E in E'. by injection E' as ->.
Qed.

(** A write of [rs] that starts at the first sector of the first request. *)
Record write_ok (r : ioReq_data_t) (rs : list request) (skip : Z) : Prop := {
  wo_rqs : rqs r = Some <$> rs;
  wo_ne : rs <> [];
  wo_first : 0 <= kern_sect r - sects_shift r < 2 ^ 64;
  wo_follow : rqs_from (kern_sect r - sects_shift r) rs;
  wo_sects : Z.shiftl (nr_ksects r) BIT_LEN_SECT_SIZE = Z.of_nat (length (rqs_data rs));
  wo_len : Z.of_nat (length (rqs_data rs)) < 2 ^ 31;
  wo_end : Z.shiftl (kern_sect r - sects_shift r) BIT_LEN_SECT_SIZE + Z.of_nat (length (rqs_data rs)) < 2 ^ 64;
  wo_skip : w_skip r = Some skip;
  wo_wf : chunks_wf (payload r);
  wo_room : Z.shiftl skip BIT_LEN_SECT_SIZE + Z.of_nat (length (rqs_data rs)) <= size (payload r);
}.

(** Clearing the first sectors of the buffer. *)
Lemma clear_head_spec p k :
  chunks_wf p -> 0 <= k <= 8 -> 0 < size p -> Z.shiftl k BIT_LEN_SECT_SIZE <= size p ->
  exists p', write_ptr (Some (0, 0)) (replicate (Z.to_nat (Z.shiftl k BIT_LEN_SECT_SIZE)) 0) p = Some p' /\
    chunks_wf p' /\ flat p' = put (flat p) 0 (replicate (Z.to_nat (Z.shiftl k BIT_LEN_SECT_SIZE)) 0).
Proof.
  intros Hwf Hk Hp Hs. assert (0 <= Z.shiftl k BIT_LEN_SECT_SIZE <= 4096) as Hb.
  { unfold BIT_LEN_SECT_SIZE. rewrite Z.shiftl_mul_pow2 by lia. lia. }
  destruct (write_ptr_spec p 0 (replicate (Z.to_nat (Z.shiftl k BIT_LEN_SECT_SIZE)) 0) Hwf) as (p' & E & H1 & H2 & _).
  - lia.
  - rewrite chunk_room by (done || lia). rewrite length_replicate. change (0 mod CHUNK) with 0.
    change CHUNK with 131072. lia.
  - by exists p'.
Qed.


(** One request of two segments, 1.5 sectors each, into a buffer of one block; the first
    block starts with three sectors that are not written. *)
Definition w_example : ioReq_data_t :=
  {| kern_sect := 83; nr_ksects := 3; sects_shift := 0; lbid_start := 10; is_dms_lb_align := false;
     mask_lb_align := [56];
     rqs := [Some {| blk_rq_pos := 83; bvecs := [replicate 768 1; replicate 768 2] |}];
     payload := [{| data_ptr := replicate 5000 9; chunk_item_size := 4096 |}] |}.


(** ** Partial writes *)

(** What a partial write has to leave in its blocks: of every sector the new data if the
    write has it (its bit is set), and the data that were there otherwise. *)
Fixpoint merge (bits : list bool) (written there : list Z) : list Z :=
  match bits with
  | [] => []
  | b :: bits => take 512 (if b then written else there) ++ merge bits (drop 512 written) (drop 512 there)
  end.

Lemma merge_app b1 b2 w t :
  merge (b1 ++ b2) w t = merge b1 w t ++ merge b2 (drop (length b1 * 512) w) (drop (length b1 * 512) t).
Proof.
  revert w t. induction b1 as [|b b1 IH]; intros w t; [by rewrite !drop_0|].
  cbn [merge app length]. rewrite IH, <- app_assoc, !drop_drop. do 3 f_equal; f_equal; lia.
Qed.

Lemma merge_replicate b n w t : merge (replicate n b) w t = take (n * 512) (if b then w else t).
Proof.
  revert w t. induction n as [|n IH]; intros w t; [done|].
  change (S n * 512)%nat with (512 + n * 512)%nat. rewrite <- take_add. cbn [replicate merge]. rewrite IH. by destruct b.
Qed.

Lemma length_mask_bits msk : length (mask_bits msk) = (length msk * 8)%nat.
Proof. induction msk as [|m msk IH]; [done|]. unfold mask_bits in *. rewrite bind_cons, length_app, IH. simpl. lia. Qed.

Lemma clear_prefix_run h bits : clear_prefix (replicate h false ++ true :: bits) = Some (Z.of_nat h).
Proof. induction h as [|h IH]; [done|]. cbn [replicate app clear_prefix]. rewrite IH. cbn. f_equal. lia. Qed.

(** The bits of a mask that is set in one run. *)
Definition one_run (bits : list bool) (h n t : nat) : Prop :=
  bits = replicate h false ++ replicate (S n) true ++ replicate t false.

Lemma head_of_run msk h n t : one_run (mask_bits msk) h n t -> copy_payload_from_head msk = Z.of_nat h.
Proof. intros E. unfold copy_payload_from_head. rewrite E. cbn [replicate app]. by rewrite clear_prefix_run. Qed.

Lemma tail_of_run msk h n t : one_run (mask_bits msk) h n t -> copy_payload_from_tail msk = Z.of_nat t.
Proof.
  intros E. unfold copy_payload_from_tail. rewrite E, !reverse_app, !reverse_replicate, <- app_assoc.
  cbn [replicate app]. by rewrite clear_prefix_run.
Qed.

Lemma get_payload_ref_spec p P :
  chunks_wf p -> 0 <= P < size p -> P < 2 ^ 32 -> get_payload_ref p P = Some (P / CHUNK, P mod CHUNK).
Proof.
  intros Hwf HP H32. destruct (place_chunk p P Hwf HP) as (ch & Hch & _). pose proof (place_sum P) as Hs.
  pose proof (Z.mod_pos_bound P CHUNK ltac:(done)) as Hm.
  unfold get_payload_ref, BIT_LEN_MEM_CHUNK. rewrite Z.shiftr_div_pow2, Z.shiftl_mul_pow2 by lia.
  change (2 ^ 17) with CHUNK. change CHUNK with 131072 in *.
  assert (0 <= P / 131072) by (apply Z.div_pos; lia). rewrite !(u32_small (P / 131072)), u32_small by (unfold is_u32; lia).
  rewrite Hch. cbn [mbind option_bind]. do 2 f_equal. lia.
Qed.

(** Writing at [o] bytes after place [P] in its chunk. *)
Lemma write_ptr_in_chunk p P o d :
  chunks_wf p -> 0 <= P < size p -> 0 <= o -> P mod CHUNK + o + Z.of_nat (length d) <= item_size p (P / CHUNK) ->
  exists p', write_ptr (Some (P / CHUNK, P mod CHUNK + o)) d p = Some p' /\ chunks_wf p' /\
    flat p' = put (flat p) (Z.to_nat P + Z.to_nat o) d /\ (chunk_item_size <$> p') = (chunk_item_size <$> p).
Proof.
  intros Hwf HP Ho Hd. destruct d as [|b d0]; [exists p; split_and!; try done; by rewrite put_nil|].
  set (d := b :: d0) in *. assert (0 < Z.of_nat (length d)) as Hl by (simpl; lia).
  destruct (place_bounds p P Hwf HP) as (Hc & Hm & Hi). pose proof (place_sum P) as Hs.
  assert ((P + o) / CHUNK = P / CHUNK) as E1.
  { symmetry. apply (Z.div_unique _ _ _ (P mod CHUNK + o)); [change CHUNK with 131072 in *; lia|lia]. }
  assert ((P + o) mod CHUNK = P mod CHUNK + o) as E2.
  { symmetry. apply (Z.mod_unique _ _ (P / CHUNK)); [change CHUNK with 131072 in *; lia|lia]. }
  pose proof (chunk_room p P Hwf HP) as Hroom.
  destruct (write_ptr_spec p (P + o) d Hwf) as (p' & E & H1 & H2 & H3); [lia|rewrite E1, E2; lia|].
  rewrite E1, E2 in E. exists p'. split_and!; try done. rewrite H2. f_equal. lia.
Qed.

(** A read for a partial write of [lb_len] blocks from [startlb], whose blocks lie in one
    chunk of the write buffer from [payload_off] on. *)
Record rmw_ok (r : ioReq_data_t) (startlb lb_len payload_off : Z) (src : mem_chunk) (h n t : nat) : Prop := {
  rm_lb : 0 <= startlb - lbid_start r < 2 ^ 32;
  rm_len : 0 < lb_len < 2 ^ 16;
  rm_masks : startlb - lbid_start r + lb_len <= Z.of_nat (length (mask_lb_align r));
  rm_run : one_run (mask_bits (take (Z.to_nat lb_len) (drop (Z.to_nat (startlb - lbid_start r)) (mask_lb_align r)))) h n t;
  rm_src : lb_len * 4096 <= Z.of_nat (length (data_ptr src));
  rm_wf : chunks_wf (payload r);
  rm_off : 0 <= payload_off < size (payload r);
  rm_u32 : payload_off < 2 ^ 32;
  rm_chunk : payload_off mod CHUNK + lb_len * 4096 <= item_size (payload r) (payload_off / CHUNK);
}.

(** C29: completing a partial write from the data that were read.  The masks of the blocks
    have one run of set bits, as the mask of an IO request does.  Then the blocks in the
    write buffer end up as the sector-wise merge of the data to be written and the data
    that were read; nothing else in the buffer changes. *)
Theorem ioReq_RCopyData_merges (r : ioReq_data_t) (startlb lb_len payload_off : Z) (src : mem_chunk)
    (p : data_mem_chunks_t) (h n t : nat) :
  rmw_ok r startlb lb_len payload_off src h n t ->
  let bits := mask_bits (take (Z.to_nat lb_len) (drop (Z.to_nat (startlb - lbid_start r)) (mask_lb_align r))) in
  exists w, ioReq_RCopyData_mem2wbuff r startlb lb_len payload_off (src :: p) = Some (set_payload w r) /\
    chunks_wf w /\
    flat w = put (flat (payload r)) (Z.to_nat payload_off)
               (merge bits (drop (Z.to_nat payload_off) (flat (payload r))) (data_ptr src)).
Proof.
  intros [H1 H2 H3 H4 H5 H6 H7 H8 H9] bits. unfold ioReq_RCopyData_mem2wbuff.
  rewrite u32_small by (unfold is_u32; lia). assert (u16 lb_len = lb_len) as -> by (unfold u16; apply Z.mod_small; lia).
  unfold bits in *. clear bits. set (msk := take _ _) in *.
  assert (length msk = Z.to_nat lb_len) as Hlm by (unfold msk; rewrite length_take, length_drop; lia).
  rewrite decide_True by done. change ((src :: p) !! 0%nat) with (Some src). cbn [mbind option_bind].
  rewrite get_payload_ref_spec by (done || lia). cbn [mbind option_bind].
  rewrite (head_of_run msk h n t H4), (tail_of_run msk h n t H4). pose proof (length_mask_bits msk) as Hlb.
  rewrite H4, !length_app, !length_replicate in Hlb. unfold BIT_LEN_SECT_SIZE, BIT_LEN_DMS_LB_SIZE.
  rewrite !Z.shiftl_mul_pow2 by lia. change (2 ^ 9) with 512. change (2 ^ 12) with 4096.
  set (d1 := take (h * 512) (data_ptr src)). set (d2 := take (t * 512) (drop ((h + S n) * 512) (data_ptr src))).
  assert (length d1 = h * 512)%nat as Hd1 by (unfold d1; rewrite length_take; lia).
  assert (length d2 = t * 512)%nat as Hd2 by (unfold d2; rewrite length_take, length_drop; lia).
  assert (slice (data_ptr src) 0 (Z.of_nat h * 512) = Some d1) as ->.
  { unfold slice, d1. rewrite decide_True by lia. do 2 f_equal. lia. }
  cbn [mbind option_bind].
  destruct (write_ptr_in_chunk (payload r) payload_off 0 d1) as (w1 & E1 & Hwf1 & Hfl1 & Hsz1); try done; try lia.
  rewrite Z.add_0_r in E1. rewrite E1. cbn [mbind option_bind].
  assert (slice (data_ptr src) (lb_len * 4096 - Z.of_nat t * 512) (Z.of_nat t * 512) = Some d2) as ->.
  { unfold slice, d2. rewrite decide_True by lia. do 2 f_equal; [lia|]. f_equal. lia. }
  cbn [mbind option_bind].
  pose proof (chunk_room (payload r) payload_off H6 H7) as Hroom. unfold size in Hroom.
  assert (size w1 = size (payload r)) as Hs1 by (unfold size; rewrite Hfl1, length_put; lia).
  assert (item_size w1 (payload_off / CHUNK) = item_size (payload r) (payload_off / CHUNK)) as Hit by by apply item_size_eq.
  destruct (write_ptr_in_chunk w1 payload_off (lb_len * 4096 - Z.of_nat t * 512) d2)
    as (w2 & -> & Hwf2 & Hfl2 & _); try done; try lia.
  cbn [mbind option_bind]. exists w2. split_and!; try done. rewrite Hfl2, Hfl1, H4.
  rewrite !merge_app, !merge_replicate, !length_replicate, !drop_drop. fold d1.
  replace (Z.to_nat payload_off + Z.to_nat 0)%nat with (Z.to_nat payload_off) by lia.
  replace (Z.to_nat payload_off + Z.to_nat (lb_len * 4096 - Z.of_nat t * 512))%nat
    with (Z.to_nat payload_off + length d1 + S n * 512)%nat by lia.
  rewrite put_ends by lia. unfold d2. rewrite Hd1. do 5 f_equal. lia.
Qed.

Lemma ioReq_RCopyData_merges_witness :
  exists w, ioReq_RCopyData_mem2wbuff w_example 10 1 0 [{| data_ptr := replicate 4096 5; chunk_item_size := 4096 |}] =
      Some (set_payload w w_example) /\ chunks_wf w /\
    flat w = replicate 1536 5 ++ replicate 1536 9 ++ replicate 1024 5.
Proof.
  destruct (ioReq_RCopyData_merges w_example 10 1 0 {| data_ptr := replicate 4096 5; chunk_item_size := 4096 |} [] 3 2 2)
    as (w & H1 & H2 & H3).
  - split; try done. split.
    + repeat constructor; done.
    + intros i ch Hi. simpl in Hi. lia.
    + done.
  - exists w. split_and!; [done..|]. rewrite H3. by vm_compute.
Defined.

(** ** The write buffer is large enough *)

Lemma flat_snoc p ch : flat (p ++ [ch]) = flat p ++ chunk_data ch.
Proof. rewrite flat_app. unfold flat at 2. by rewrite bind_cons, app_nil_r. Qed.

Lemma chunks_wf_snoc p ch :
  chunks_wf p -> chunk_ok ch -> Forall (fun c => chunk_item_size c = CHUNK) p -> num_chunks p < 2 ->
  chunks_wf (p ++ [ch]).
Proof.
  intros [H1 H2 H3] Hch Hfull Hn. split.
  - apply Forall_app. by split; [|constructor].
  - intros i c Hi Hc. rewrite length_app in Hi. simpl in Hi. rewrite lookup_app_l in Hc by lia.
    by apply (proj1 (Forall_lookup _ _) Hfull i).
  - unfold num_chunks in *. rewrite length_app. simpl. lia.
Qed.

(** The memory of one chunk. *)
Definition pool_ok (pool : list (option (list Z))) : Prop :=
  Forall (fun o => match o with Some m => Z.of_nat (length m) = CHUNK | None => True end) pool.

Lemma alloc_wiobuff_loop_spec fuel lblen data pool :
  chunks_wf data -> Forall (fun c => chunk_item_size c = CHUNK) data -> pool_ok pool ->
  0 <= lblen -> lblen < Z.of_nat fuel -> num_chunks data * 32 + lblen <= MAX_LBS_PER_IOR ->
  exists fail data',
    alloc_wiobuff_loop fuel lblen data pool = Some (fail, data') /\
    exists new, data' = data ++ new /\ Some <$> (data_ptr <$> new) = take (length new) pool /\
      (if fail : bool then pool !! length new = None \/ pool !! length new = Some None
       else chunks_wf data' /\ size data' = size data + lblen * 4096) /\
      num_chunks data' <= MAX_NUM_MEM_CHUNK_BUFF.
Proof.
  revert lblen data pool. induction fuel as [|fuel IH]; intros lblen data pool Hwf Hfull Hpool H0 Hf Hmax; [lia|].
  change MAX_LBS_PER_IOR with 33 in *. change MAX_NUM_MEM_CHUNK_BUFF with 2 in *. cbn [alloc_wiobuff_loop].
  assert (0 <= num_chunks data) as Hn0 by (unfold num_chunks; lia).
  destruct (lblen >? 0) eqn:E; zbool.
  2: { exists false, data. split; [done|]. exists []. rewrite app_nil_r. split_and!; try done; lia. }
  change MAX_LB_PER_MEM_CHUNK with 32. change MAX_NUM_MEM_CHUNK_BUFF with 2.
  set (k := if lblen >=? 32 then 32 else lblen).
  assert (k = Z.min 32 lblen) as Hk by (unfold k; destruct (lblen >=? 32) eqn:E1; zbool; lia). clearbody k.
  replace (num_chunks data >=? 2) with false by lia.
  destruct pool as [|[m|] pool].
  - exists true, data. split; [done|]. exists []. rewrite app_nil_r. split_and!; try done; [by left|lia].
  - apply Forall_cons in Hpool as [Hm Hpool]. unfold BIT_LEN_DMS_LB_SIZE. rewrite Z.shiftl_mul_pow2 by done.
    change (2 ^ 12) with 4096. set (ch := {| data_ptr := m; chunk_item_size := k * 4096 |}).
    assert (chunk_ok ch) as Hch by (split; cbn; rewrite ?Hm; change CHUNK with 131072; lia).
    pose proof (chunks_wf_snoc data ch Hwf Hch Hfull ltac:(lia)) as Hwf'.
    rewrite s32_small by (unfold is_s32; lia).
    assert (size (data ++ [ch]) = size data + k * 4096) as Hsz.
    { unfold size. rewrite flat_snoc, length_app. pose proof (length_chunk_data ch Hch) as Hl. cbn in Hl. lia. }
    assert (num_chunks (data ++ [ch]) = num_chunks data + 1) as Hnum by (unfold num_chunks; rewrite length_app; simpl; lia).
    destruct (decide (lblen <= 32)) as [Hle|Hgt].
    + replace (lblen - k) with 0 by lia. destruct fuel as [|fuel]; [lia|]. cbn.
      exists false, (data ++ [ch]). split; [done|]. exists [ch]. split_and!; try done; [lia|lia].
    + assert (k = 32) as -> by lia.
      destruct (IH (lblen - 32) (data ++ [ch]) pool Hwf') as (fail & data' & -> & new & -> & Hp & Hres & Hnn);
        [apply Forall_app; by split; [|constructor]|done|lia|lia|lia|].
      exists fail, ((data ++ [ch]) ++ new). split; [done|]. exists (ch :: new). rewrite <- app_assoc in *. split_and!; try done.
      * cbn [length take fmap list_fmap]. f_equal. exact Hp.
      * destruct fail; [done|]. destruct Hres as [? ?]. split; [done|lia].
  - exists true, data. split; [done|]. exists []. rewrite app_nil_r. split_and!; try done; [by right|lia].
Qed.

(** The buffer of a write.  For a request of at most MAX_LBS_PER_IOR blocks the
    allocation never leaves the array of chunks.  It either fails, when the pool has no chunk,
    and then gives back exactly the chunks that it took; or it succeeds and the buffer holds
    exactly the blocks of the request, with all chunks but the last one full (which is
    what the copy functions rely on). *)
Theorem alloc_wiobuff_exact (lbid_len : Z) (pool : list (option (list Z))) :
  0 <= lbid_len <= MAX_LBS_PER_IOR -> pool_ok pool ->
  exists fail data freed,
    _ioReq_alloc_wiobuff lbid_len pool = Some (fail, data, freed) /\
    if fail : bool then data = [] /\ Some <$> freed = take (length freed) pool /\
                        (pool !! length freed = None \/ pool !! length freed = Some None)
    else freed = [] /\ chunks_wf data /\ size data = lbid_len * 4096 /\
         num_chunks data <= MAX_NUM_MEM_CHUNK_BUFF /\ Some <$> (data_ptr <$> data) = take (length data) pool.
Proof.
  intros Hl Hpool. unfold _ioReq_alloc_wiobuff.
  destruct (alloc_wiobuff_loop_spec (S (Z.to_nat lbid_len)) lbid_len [] pool) as (fail & data & -> & new & -> & Hp & Hres & Hn);
    try done; try (cbn; lia).
  { change (num_chunks []) with 0. lia. }
  cbn [mbind option_bind app]. destruct fail; cbn.
  - eexists true, [], _. split; [done|]. split_and!; try done; by rewrite length_fmap.
  - destruct Hres as [Hwf Hs]. eexists false, _, _. split; [done|]. by split_and!.
Qed.

Lemma alloc_wiobuff_exact_witness :
  exists data, _ioReq_alloc_wiobuff 33 (replicate 2 (Some (replicate (Z.to_nat CHUNK) 0))) = Some (false, data, []) /\
    chunks_wf data /\ size data = 135168 /\ num_chunks data = 2.
Proof.
  assert (Z.of_nat (length (replicate (Z.to_nat CHUNK) 0)) = CHUNK) as Hm by (rewrite length_replicate; by apply Z2Nat.id).
  revert Hm. generalize (replicate (Z.to_nat CHUNK) 0). intros m Hm.
  destruct (alloc_wiobuff_exact 33 (replicate 2 (Some m))) as (fail & data & freed & E & H).
  - split; done.
  - by apply Forall_replicate.
  - vm_compute in E. injection E as <- <- <-. destruct H as (_ & H1 & H2 & _). eexists. split; [done|]. split; [exact H1|]. by split.
Defined.
