(* ===== verification/CopyDataRead.v ===== *)
(** * CopyDataRead: the bytes of a read end up where they were asked for

    The functional correctness of the read side of CopyData: the copy from a buffer of chunks to
    the segments of the block requests, and the clearing of segments. *)

From S2P Require Import Prelude CommonUtil Bytes CopyData CopyDataSpec.

(** ** Reading a buffer *)

(** [n] bytes of a buffer from place [P] on. *)
Definition bytes_of (p : data_mem_chunks_t) (P n : Z) : list Z := take (Z.to_nat n) (drop (Z.to_nat P) (flat p)).

Lemma length_bytes_of p P n : 0 <= P -> 0 <= n -> P + n <= size p -> length (bytes_of p P n) = Z.to_nat n.
Proof. intros. unfold bytes_of. rewrite length_take, length_drop. unfold size in *. lia. Qed.

Abbreviation bytes_at s P n := (bytes_of (cp_pay s) P n).

Lemma read_ptr_spec p P n :
  chunks_wf p -> 0 <= P < size p -> 0 <= n <= item_size p (P / CHUNK) - P mod CHUNK ->
  read_ptr (Some (P / CHUNK, P mod CHUNK)) n p = Some (bytes_of p P n).
Proof.
  intros Hwf HP Hn. unfold read_ptr. destruct (n =? 0) eqn:E; zbool; [by subst|].
  destruct (place_bounds p P Hwf HP) as ([Hc0 _] & Hm & _).
  destruct (place_chunk p P Hwf HP) as (ch & Hch & _). unfold item_size in *. rewrite Hch in *. cbn [mbind option_bind].
  pose proof (proj1 (Forall_lookup _ _) (cw_ok _ Hwf) _ _ Hch) as [Hsz Hmem].
  pose proof (length_chunk_data ch (Build_chunk_ok _ Hsz Hmem)) as Hl.
  unfold slice. rewrite decide_True by lia. f_equal. unfold bytes_of.
  pose proof (flat_before p _ Hwf (lookup_lt_Some _ _ _ Hch)) as Hbef. rewrite Z2Nat.id in Hbef by done.
  pose proof (place_sum P) as Hs. rewrite (chunk_split p _ ch Hch) at 1. rewrite flat_app. unfold flat at 2.
  rewrite bind_cons, drop_app_ge by lia.
  replace (Z.to_nat P - length (flat (take (Z.to_nat (P / CHUNK)) p)))%nat with (Z.to_nat (P mod CHUNK)) by lia.
  rewrite drop_app_le by lia. rewrite take_app_le by (rewrite length_drop; lia).
  unfold chunk_data. rewrite !take_drop_commute, take_take. do 2 f_equal. lia.
Qed.

(** The variables after [n] more bytes. *)
Record moved (P n : Z) (s s' : cp_state) : Prop := {
  mv_pay : cp_pay s' = cp_pay s;
  mv_total : cp_total s' = cp_total s - n;
  mv_num : cp_num s' = cp_num s + n;
  mv_pos : cp_pos s' = cp_pos s + n;
  mv_place : n < cp_total s -> at_place (P + n) s';
}.

Lemma moved_ready P n s s' : ready P s -> 0 <= n < cp_total s -> moved P n s s' -> ready (P + n) s'.
Proof.
  intros [H1 H2 H3 H4 H5 H6 H7] Hn [A1 A2 A3 A4 A5]. split; rewrite ?A1; try done; try lia. apply A5. lia.
Qed.

Lemma moved_trans P n m s s1 s2 :
  0 <= m -> moved P n s s1 -> moved (P + n) m s1 s2 -> moved P (n + m) s s2.
Proof.
  intros Hm [A1 A2 A3 A4 A5] [B1 B2 B3 B4 B5]. split; try congruence; try lia.
  intros H. rewrite Z.add_assoc. apply B5. lia.
Qed.

Lemma moved_0 P s : at_place P s -> moved P 0 s s.
Proof. intros H. split; try lia; try done. intros _. by rewrite Z.add_0_r. Qed.

(** The step of the variables in the loops. *)
Lemma advance_moved P n s :
  ready P s -> 0 <= n <= cp_total s ->
  let s1 := next_ptr n s in
  moved P n s {| cp_pay := cp_pay s1; cp_pos := u64 (cp_pos s1 + n); cp_total := s32 (cp_total s1 - n);
                 cp_num := s32 (cp_num s1 + n); cp_ptr := cp_ptr s1; cp_rsize := cp_rsize s1;
                 cp_cnt := cp_cnt s1; cp_off := cp_off s1 |}.
Proof.
  intros [H1 H2 H3 H4 H5 H6 H7] Hn s1.
  assert (cp_pay s1 = cp_pay s /\ cp_pos s1 = cp_pos s /\ cp_total s1 = cp_total s /\ cp_num s1 = cp_num s) as (E1 & E2 & E3 & E4).
  { unfold s1, next_ptr. by destruct (get_chunk_ptr _ _ _ _) as [[[??]?]?]. }
  rewrite E1, E2, E3, E4. split; cbn; try done.
  - apply s32_small. unfold is_s32. lia.
  - apply s32_small. unfold is_s32. lia.
  - apply u64_small. unfold is_u64. lia.
  - intros Hlt. destruct (next_ptr_place P n s) as ([A1 A2 A3 A4] & B1 & _); try done; try lia.
    fold s1 in A1, A2, A3, A4, B1. split; cbn; try done. by rewrite A4, B1.
Qed.

(** ** One segment *)

(** One turn: the next piece of [k] bytes. *)
Lemma r_bvec_turn fuel bv b s P :
  ready P s -> 0 <= b <= cp_pos s -> cp_pos s < b + Z.of_nat (length bv) -> Z.of_nat (length bv) < 2 ^ 31 ->
  b + Z.of_nat (length bv) < 2 ^ 64 ->
  let L := Z.of_nat (length bv) in
  let o := cp_pos s - b in
  exists k s1 b1, 0 < k <= Z.min (cp_total s) (L - o) /\ moved P k s s1 /\ (k = L - o -> b1 = b + L) /\
    let bv1 := put bv (Z.to_nat o) (bytes_at s P k) in
    r_bvec (S fuel) bv b (b + L - 1) L s =
      if decide (cp_total s = k) then Some (true, bv1, b1, s1)
      else if decide (k < L - o) then r_bvec fuel bv1 b (b + L - 1) L s1 else Some (false, bv1, b1, s1).
Proof.
  intros HR Hb Hin HL H64 L o. pose proof HR as [H1 H2 H3 H4 H5 H6 H7].
  destruct (place_bounds (cp_pay s) P H1) as (Hc & Hm & Hi); [lia|]. pose proof H2 as [Hptr _ _ Hrs].
  assert (0 < cp_rsize s) as Hr by lia. fold L in Hin, HL, H64.
  set (k := Z.min (Z.min (cp_total s) (L - o)) (cp_rsize s)). assert (0 < k) as Hk by (unfold k, o; lia).
  pose proof (read_ptr_spec (cp_pay s) P k H1 ltac:(lia) ltac:(lia)) as Hread. rewrite <- Hptr in Hread.
  set (d := bytes_at s P k) in *.
  assert (Z.of_nat (length d) = k) as Hd by (unfold d; rewrite length_bytes_of; lia).
  assert (splice bv o d = Some (put bv (Z.to_nat o) d)) as Hspl by (apply splice_put; unfold o, L in *; lia).
  pose proof (advance_moved P k s HR ltac:(lia)) as Hmv. cbn zeta in Hmv.
  cbn [r_bvec]. fold o. rewrite (s32_small o), (s32_small (L - o)) by (unfold is_s32, o; lia).
  assert (exists again, piece (cp_total s) (cp_rsize s) (L - o) = (k, again) /\ (cp_total s <> k -> again = bool_decide (k < L - o)))
    as (again & -> & Hag).
  { rewrite cmp_triple_cases. destruct (decide (L - o <= cp_total s /\ L - o <= cp_rsize s)).
    - exists false. rewrite bool_decide_false by lia. split; [f_equal|]; lia.
    - destruct (decide (cp_rsize s <= cp_total s)).
      + eexists. split; [f_equal; lia|]. intros _. rewrite bool_decide_true by lia. lia.
      + exists false. split; [f_equal|]; lia. }
  rewrite Hread. cbn [mbind option_bind]. rewrite Hspl. cbn [mbind option_bind].
  set (s1 := {| cp_pay := _ |}) in *. pose proof (mv_total _ _ _ _ Hmv) as Ht1.
  set (b1 := match cmp_triple_int _ _ _ with cmp_3rd_Min => _ | _ => _ end).
  assert (b1 = if decide (k = L - o) then b + L else b) as Hb1.
  { unfold b1, cmp_triple_int. rewrite u64_small by (unfold is_u64; lia).
    destruct (_ >=? _) eqn:E1; zbool; destruct (_ >=? L - o) eqn:E2; zbool;
      (rewrite decide_True by lia; lia) || rewrite decide_False by lia; done. }
  exists k, s1, b1. split_and!; [lia|lia|done|intros ->; by rewrite decide_True in Hb1|].
  rewrite Ht1. destruct (decide (cp_total s = k)) as [E|E].
  - by rewrite E, Z.sub_diag.
  - replace (cp_total s - k <=? 0) with false by lia. rewrite (Hag E). case_bool_decide as Hlt.
    + rewrite decide_True by done. rewrite decide_False in Hb1 by lia. by rewrite Hb1.
    + by rewrite decide_False.
Qed.

Lemma bytes_of_add p P n m :
  0 <= P -> 0 <= n -> 0 <= m -> bytes_of p P n ++ bytes_of p (P + n) m = bytes_of p P (n + m).
Proof. intros HP Hn Hm. unfold bytes_of. rewrite !Z2Nat.inj_add by lia. by rewrite <- drop_drop, take_add. Qed.

Lemma r_bvec_spec fuel bv b s P :
  ready P s -> 0 <= b <= cp_pos s -> cp_pos s < b + Z.of_nat (length bv) -> Z.of_nat (length bv) < 2 ^ 31 ->
  b + Z.of_nat (length bv) < 2 ^ 64 -> Z.of_nat (length bv) - (cp_pos s - b) < Z.of_nat fuel ->
  let n := Z.min (cp_total s) (Z.of_nat (length bv) - (cp_pos s - b)) in
  exists b' s',
    r_bvec fuel bv b (b + Z.of_nat (length bv) - 1) (Z.of_nat (length bv)) s =
      Some (bool_decide (cp_total s = n), put bv (Z.to_nat (cp_pos s - b)) (bytes_at s P n), b', s') /\
    moved P n s s' /\ (n < cp_total s -> b' = b + Z.of_nat (length bv)).
Proof.
  revert bv s P. induction fuel as [|fuel IH]; intros bv s P HR Hb Hin HL H64 Hf n; [lia|].
  destruct (r_bvec_turn fuel bv b s P HR Hb Hin HL H64) as (k & s1 & b1 & Hk & Hmv & Hb1 & ->).
  pose proof HR as [_ _ H3 H4 H5 _ _].
  destruct (decide (cp_total s = k)) as [E|E].
  { assert (n = k) as -> by lia. rewrite bool_decide_true by done. exists b1, s1. split_and!; try done. lia. }
  destruct (decide (k < _)) as [Hlt|Hge].
  2: { assert (n = k) as -> by lia. rewrite bool_decide_false by done. exists b1, s1. split_and!; try done. intros _. apply Hb1. lia. }
  set (bv1 := put _ _ _). pose proof (length_bytes_of (cp_pay s) P k H3 ltac:(lia) ltac:(lia)) as Hlb.
  assert (length bv1 = length bv) as Hl1 by (apply length_put; lia).
  pose proof (moved_ready P k s s1 HR ltac:(lia) Hmv) as HR1. pose proof Hmv as [M1 M2 M3 M4 _].
  rewrite <- Hl1 in HL, H64, Hin, Hlt |- *.
  destruct (IH bv1 s1 (P + k)) as (b2 & s2 & -> & Hmv2 & Hb2); try done; try lia.
  set (m := Z.min (cp_total s1) _) in *. assert (n = k + m) as -> by lia.
  exists b2, s2. split_and!.
  - assert (bool_decide (cp_total s1 = m) = bool_decide (cp_total s = k + m)) as -> by (apply bool_decide_ext; lia).
    do 4 f_equal. unfold bv1. replace (Z.to_nat (cp_pos s1 - b)) with (Z.to_nat (cp_pos s - b) + length (bytes_at s P k))%nat by lia.
    rewrite M1, put_put, bytes_of_add; [done|lia..|]. rewrite !length_bytes_of; lia.
  - apply (moved_trans P k m s s1 s2); [lia|done|done].
  - intros ?. apply Hb2. lia.
Qed.

(** ** All segments *)

(** What is copied into segments of [len] bytes that start at [b]. *)
Definition in_range (s : cp_state) (b len : Z) : Z := Z.min (cp_total s) (Z.max 0 (len - (cp_pos s - b))).

Lemma r_bvecs_spec bvs b s P :
  ready P s -> bvecs_ok bvs -> 0 <= b <= cp_pos s -> b + Z.of_nat (length (concat bvs)) < 2 ^ 64 ->
  let n := in_range s b (Z.of_nat (length (concat bvs))) in
  exists bvs' s',
    r_bvecs bvs b s = Some (bvs', s') /\ length <$> bvs' = length <$> bvs /\
    concat bvs' = put (concat bvs) (Z.to_nat (cp_pos s - b)) (bytes_at s P n) /\ moved P n s s'.
Proof.
  revert b s P. induction bvs as [|bv bvs IH]; intros b s P HR Hok Hb H64; cbn zeta.
  { set (n := in_range _ _ _). pose proof HR as [_ Hat _ ? _ _ _]. exists [], s. assert (n = 0) as -> by (unfold n, in_range; simpl; lia).
    split_and!; try done; [by rewrite put_nil|by apply moved_0]. }
  apply Forall_cons in Hok as [[Hne Hlen] Hok]. cbn [concat] in *. rewrite length_app, Nat2Z.inj_add in *. set (n := in_range _ _ _).
  assert (0 < Z.of_nat (length bv)) as HL by (destruct bv; [done|simpl; lia]). change CHUNK with 131072 in Hlen.
  pose proof HR as [_ Hat H3 H4 H5 _ H7]. set (L := Z.of_nat (length bv)) in *. set (R := Z.of_nat (length (concat bvs))) in *.
  cbn [r_bvecs]. fold L. rewrite (u64_small (b + L - 1)), u64_small by (unfold is_u64; lia).
  replace (b + L - 1 + 1) with (b + L) by lia.
  destruct (b + L - 1 <? cp_pos s) eqn:E; zbool.
  - destruct (IH (b + L) s P HR Hok) as (bvs' & s' & -> & Hl & Hc & Hmv); [lia|lia|]. cbn [mbind option_bind].
    assert (in_range s (b + L) R = n) as En by (unfold n, in_range; lia). rewrite En in *.
    exists (bv :: bvs'), s'. split_and!; try done; [by rewrite !fmap_cons, Hl|]. cbn [concat]. rewrite Hc.
    replace (Z.to_nat (cp_pos s - b)) with (length bv + Z.to_nat (cp_pos s - (b + L)))%nat by (unfold L in *; lia).
    by rewrite put_app_r.
  - destruct (r_bvec_spec (S (length bv)) bv b s P HR) as (b' & s1 & Er & Hmv & Hb'); try done; try (unfold L in *; lia).
    fold L in Er, Hmv, Hb'. rewrite Er. cbn [mbind option_bind]. set (k := Z.min (cp_total s) _) in *.
    pose proof (length_bytes_of (cp_pay s) P k H3 ltac:(lia) ltac:(lia)) as Hlb.
    case_bool_decide as Ht.
    + exists (put bv (Z.to_nat (cp_pos s - b)) (bytes_at s P k) :: bvs), s1.
      assert (n = k) as -> by (unfold n, in_range; lia).
      split_and!; try done.
      * rewrite !fmap_cons, length_put by (unfold L in *; lia). done.
      * cbn [concat]. rewrite put_app_l by (unfold L in *; lia). done.
    + rewrite Hb' by lia. pose proof (moved_ready P k s s1 HR ltac:(lia) Hmv) as HR1. pose proof Hmv as [M1 M2 M3 M4 _].
      destruct (IH (b + L) s1 (P + k) HR1 Hok) as (bvs' & s' & -> & Hl & Hc & Hmv'); [lia|lia|]. cbn [mbind option_bind].
      fold R in Hc, Hmv'. set (m := in_range s1 (b + L) R) in *.
      assert (0 <= m /\ n = k + m) as [Hm ->] by (unfold m, n, in_range; lia).
      exists (put bv (Z.to_nat (cp_pos s - b)) (bytes_at s P k) :: bvs'), s'. split_and!; try done.
      * rewrite !fmap_cons, Hl, length_put by (unfold L in *; lia). done.
      * cbn [concat]. rewrite Hc. replace (Z.to_nat (cp_pos s1 - (b + L))) with 0%nat by lia.
        rewrite M1, put_across by (rewrite length_bytes_of; unfold m, in_range, L, R in *; lia).
        by rewrite bytes_of_add by lia.
      * by apply (moved_trans P k m s s1 s').
Qed.

(** ** All requests *)

Definition same_shape (r r' : request) : Prop :=
  blk_rq_pos r' = blk_rq_pos r /\ length <$> bvecs r' = length <$> bvecs r.

(** The copy into one request, when the data start in it. *)
Lemma cp_payload_mem2bio_spec r p P dn total :
  chunks_wf p -> 0 <= P -> 0 < total < 2 ^ 31 -> P + total <= size p -> bvecs_ok (bvecs r) ->
  let pos := Z.shiftl (blk_rq_pos r) BIT_LEN_SECT_SIZE in
  let len := Z.of_nat (length (rq_data r)) in
  0 <= pos <= dn -> dn < pos + len -> pos + len < 2 ^ 64 -> dn + total < 2 ^ 64 ->
  let n := Z.min total (len - (dn - pos)) in
  exists r' cnt off,
    _cp_payload_mem2bio r dn total p (P / CHUNK) (P mod CHUNK) = Some (n, r', cnt, off) /\ same_shape r r' /\
    rq_data r' = put (rq_data r) (Z.to_nat (dn - pos)) (bytes_of p P n) /\
    (n < total -> cnt = (P + n) / CHUNK /\ off = (P + n) mod CHUNK).
Proof.
  intros Hwf HP Ht Hsz Hok pos len Hpos Hin Hend Hdn n.
  destruct (cp_start_place p dn total P Hwf) as (s & E & Hat & Hpay & Hps & Htot & Hnum); [lia|].
  unfold _cp_payload_mem2bio. rewrite E. fold pos. rewrite u64_small by (unfold is_u64; lia).
  replace (dn <? pos) with false by lia.
  assert (ready P s) as HR by (split; rewrite ?Hpay, ?Htot, ?Hnum, ?Hps; done || lia).
  destruct (r_bvecs_spec (bvecs r) pos s P HR Hok) as (bvs' & s' & -> & Hl & Hc & Hmv);
    [lia|unfold len, rq_data in Hend; lia|].
  fold (rq_data r) in Hc, Hmv. fold len in Hc, Hmv. cbn [mbind option_bind].
  assert (in_range s pos len = n) as En by (unfold in_range, n; lia). rewrite En in *.
  destruct Hmv as [M1 M2 M3 M4 M5].
  assert (u32 (cp_num s') = n) as -> by (rewrite M3, Hnum, u32_small; [lia|unfold is_u32; lia]).
  eexists _, _, _. split; [done|]. split_and!; try done.
  - unfold rq_data at 1. cbn [bvecs]. rewrite Hc. unfold bytes_of. by rewrite Hpay, Hps.
  - intros Hlt. destruct M5 as [_ A2 A3 _]; [lia|]. done.
Qed.

Lemma sect_bytes x : Z.shiftl x BIT_LEN_SECT_SIZE = x * 512.
Proof. unfold BIT_LEN_SECT_SIZE. by rewrite Z.shiftl_mul_pow2. Qed.

Lemma shape_length r r' : same_shape r r' -> length (rq_data r') = length (rq_data r).
Proof. intros [_ H]. unfold rq_data. rewrite !length_concat. by change (list_sum (length <$> bvecs r') = list_sum (length <$> bvecs r)); rewrite H. Qed.

Lemma same_shapes_refl rs : Forall2 same_shape rs rs.
Proof. induction rs; by constructor. Qed.

(** The requests of a read that gets [ns] sectors from sector [dn] on, at or after the
    first sector of the first request. *)
Lemma r_rqs_spec rs sect dn ns p P :
  chunks_wf p -> 0 <= P -> 0 <= sect <= dn -> rqs_from sect rs -> 0 < ns -> ns * 512 < 2 ^ 31 ->
  P + ns * 512 <= size p -> sect * 512 + Z.of_nat (length (rqs_data rs)) < 2 ^ 64 -> (dn + ns) * 512 < 2 ^ 64 ->
  let off := (dn - sect) * 512 in
  let n := Z.min (ns * 512) (Z.max 0 (Z.of_nat (length (rqs_data rs)) - off)) in
  exists rs',
    r_rqs (Some <$> rs) dn (dn + ns - 1) (ns * 512) p (P / CHUNK) (P mod CHUNK) = Some (Some <$> rs') /\
    Forall2 same_shape rs rs' /\
    rqs_data rs' = put (rqs_data rs) (Z.to_nat off) (bytes_of p P n).
Proof.
  revert sect dn ns P. induction rs as [|r rs IH]; intros sect dn ns P Hwf HP Hs Hrs Hns H31 Hsz H64 Hdn; cbn zeta.
  { exists []. split_and!; try done. change (length (rqs_data [])) with 0%nat. rewrite Z.max_l, Z.min_r by lia.
    symmetry. apply put_nil. }
  destruct Hrs as (<- & Hok & Hnb & Hmod & Hrest). pose proof (rq_data_pos r Hok Hnb) as Hlp.
  pose proof (sectors_bytes r Hmod) as Hsect. rewrite sect_bytes in Hsect.
  set (sc := blk_rq_sectors r) in *.
  assert (rqs_data (r :: rs) = rq_data r ++ rqs_data rs) as Hcons by done. rewrite Hcons, length_app in *.
  cbn [fmap list_fmap r_rqs]. fold sc. change (list_fmap _ _ Some rs) with (Some <$> rs).
  replace (dn + ns - 1 <? blk_rq_pos r) with false by lia.
  destruct (dn >=? blk_rq_pos r + sc) eqn:E; zbool.
  - destruct (IH (blk_rq_pos r + sc) dn ns P) as (rs' & -> & Hf & Hd); try done; try lia.
    cbn [mbind option_bind]. exists (r :: rs'). split_and!; [done|by constructor|].
    change (rqs_data (r :: rs')) with (rq_data r ++ rqs_data rs'). rewrite Hd.
    replace (Z.to_nat ((dn - blk_rq_pos r) * 512)) with (length (rq_data r) + Z.to_nat ((dn - (blk_rq_pos r + sc)) * 512))%nat by lia.
    rewrite put_app_r. do 4 f_equal. lia.
  - rewrite sect_bytes, u64_small by (unfold is_u64; lia).
    destruct (cp_payload_mem2bio_spec r p P (dn * 512) (ns * 512)) as (r' & cnt & off & -> & Hshape & Hd & Hpl);
      rewrite ?sect_bytes in *; try done; try lia.
    replace (dn * 512 - blk_rq_pos r * 512) with ((dn - blk_rq_pos r) * 512) in * by lia.
    set (o := (dn - blk_rq_pos r) * 512) in *. set (k := Z.min (ns * 512) (Z.of_nat (length (rq_data r)) - o)) in *.
    cbn [mbind option_bind]. rewrite !(s32_small k) by (unfold is_s32; lia). replace (k <=? 0) with false by lia.
    rewrite s32_small by (unfold is_s32; lia).
    pose proof (shape_length r r' Hshape) as Hl'.
    destruct (ns * 512 - k <=? 0) eqn:E0; zbool.
    + exists (r' :: rs). split_and!; [done|constructor; [done|by apply same_shapes_refl]|].
      change (rqs_data (r' :: rs)) with (rq_data r' ++ rqs_data rs). rewrite Hd.
      rewrite put_app_l; [do 3 f_equal; lia|]. rewrite length_bytes_of by lia. lia.
    + destruct Hpl as [-> ->]; [lia|]. assert (k = (blk_rq_pos r + sc - dn) * 512) as Ek by lia.
      assert (Z.shiftr k BIT_LEN_SECT_SIZE = blk_rq_pos r + sc - dn) as ->.
      { unfold BIT_LEN_SECT_SIZE. rewrite Z.shiftr_div_pow2, Ek by done. by apply Z.div_mul. }
      rewrite u64_small by (unfold is_u64; lia). set (dn' := blk_rq_pos r + sc). set (ns' := ns - (dn' - dn)).
      replace (dn + (dn' - dn)) with dn' by lia. replace (ns * 512 - k) with (ns' * 512) by lia.
      replace (dn + ns - 1) with (dn' + ns' - 1) by lia.
      destruct (IH dn' dn' ns' (P + k)) as (rs' & -> & Hf & Hd'); try done; try lia.
      cbn [mbind option_bind]. exists (r' :: rs'). split_and!; [done|by constructor|].
      change (rqs_data (r' :: rs')) with (rq_data r' ++ rqs_data rs'). rewrite Hd', Hd, Z.sub_diag.
      set (m := Z.min (ns' * 512) _). assert (0 <= m) as Hm by lia. cbn [Z.mul]. rewrite put_across.
      * do 2 f_equal. rewrite bytes_of_add by lia. f_equal. lia.
      * rewrite length_bytes_of by lia. lia.
      * rewrite length_bytes_of by lia. lia.
Qed.

(** ** Whole reads *)

(** The first sector on the device of blocks [payload_off] bytes into the IO request, less
    the sectors that were not asked for. *)
Definition r_first (r : ioReq_data_t) (payload_off hd : Z) : Z :=
  Z.shiftl (lbid_start r) BIT_LEN_DMS_LB_SECTS - sects_shift r + Z.shiftr payload_off BIT_LEN_SECT_SIZE + hd.

(** The data of [lb_len] blocks from [startlb] have arrived in [p], for the requests [rs],
    which follow each other from sector [sect] on; the first [hd] and the last [tl] sectors
    were not asked for. *)
Record copy_read_ok (r : ioReq_data_t) (startlb lb_len payload_off : Z) (p : data_mem_chunks_t)
    (rs : list request) (sect hd tl : Z) : Prop := {
  ro_rqs : rqs r = Some <$> rs;
  ro_follow : rqs_from sect rs;
  ro_lb : 0 <= startlb - lbid_start r;
  ro_len : 0 < lb_len < 2 ^ 18;
  ro_idx : startlb - lbid_start r + lb_len < 2 ^ 32;
  ro_hd : (mask_lb_align r !! Z.to_nat (startlb - lbid_start r)) ≫= head_sect_skip = Some hd;
  ro_tl : (mask_lb_align r !! Z.to_nat (startlb - lbid_start r + lb_len - 1)) ≫= tail_sect_skip = Some tl;
  ro_some : 0 <= tl /\ hd + tl < lb_len * 8;
  ro_first : 0 <= sect <= r_first r payload_off hd;
  ro_sects : 0 <= Z.shiftl (lbid_start r) BIT_LEN_DMS_LB_SECTS - sects_shift r < 2 ^ 64;
  ro_off : 0 <= payload_off;
  ro_wf : chunks_wf p;
  ro_room : (lb_len * 8 - tl) * 512 <= size p;
  ro_end : sect * 512 + Z.of_nat (length (rqs_data rs)) < 2 ^ 64;
  ro_dn : (r_first r payload_off hd + lb_len * 8) * 512 < 2 ^ 64;
}.

(** C28: the data of a read arrive in the segments of the block requests.  The masks say
    which sectors of the first and the last block were asked for; the bytes of exactly
    these sectors are copied, in order, to the place of the requests that belongs to
    them, across any segment and chunk boundaries and up to the end of the last request.
    All other bytes of the requests, and the number and length of the segments, are
    as before; no copy leaves its chunk or its segment. *)
Theorem ioReq_RCopyData_exact (r : ioReq_data_t) (startlb lb_len payload_off : Z) (p : data_mem_chunks_t)
    (rs : list request) (sect hd tl : Z) :
  copy_read_ok r startlb lb_len payload_off p rs sect hd tl ->
  let off := (r_first r payload_off hd - sect) * 512 in
  let n := Z.min ((lb_len * 8 - hd - tl) * 512) (Z.max 0 (Z.of_nat (length (rqs_data rs)) - off)) in
  exists rs', ioReq_RCopyData_mem2bio r startlb lb_len payload_off p = Some (set_rqs (Some <$> rs') r) /\
    Forall2 same_shape rs rs' /\
    rqs_data rs' = put (rqs_data rs) (Z.to_nat off) (bytes_of p (hd * 512) n).
Proof.
  intros [H1 H2 H3 H4 H5 H6 H7 H8 H9 H10 H11 H12 H13 H14 H15] off n.
  destruct (mask_lb_align r !! Z.to_nat (startlb - lbid_start r)) as [ms|] eqn:Es; [|done].
  destruct (mask_lb_align r !! Z.to_nat (startlb - lbid_start r + lb_len - 1)) as [me|] eqn:Ee; [|done].
  cbn [mbind option_bind] in H6, H7. pose proof (head_sect_skip_range ms hd H6) as Hhd.
  unfold ioReq_RCopyData_mem2bio. rewrite !(u32_small (startlb - lbid_start r)), (u32_small (_ + lb_len - 1)) by (unfold is_u32; lia).
  rewrite Es, Ee. cbn [mbind option_bind]. rewrite H6, H7. cbn [mbind option_bind].
  assert (0 <= Z.shiftr payload_off BIT_LEN_SECT_SIZE) as Hp by (by apply Z.shiftr_nonneg).
  rewrite (u64_small (Z.shiftl _ _ - _)) by (unfold is_u64; lia). fold (r_first r payload_off hd).
  rewrite !(Z.shiftl_mul_pow2 lb_len), !sect_bytes by done. change (2 ^ BIT_LEN_DMS_LB_SECTS) with 8.
  set (dn := r_first r payload_off hd) in *. set (ns := lb_len * 8 - hd - tl) in *.
  rewrite (u64_small dn), !(s32_small ns), s32_small, u64_small by (unfold is_u64, is_s32; lia).
  destruct (r_rqs_spec rs sect dn ns p (hd * 512)) as (rs' & E & Hsh & Hd); try done; try lia.
  rewrite Z.div_small, Z.mod_small in E by (change CHUNK with 131072; lia).
  rewrite H1, E. cbn [mbind option_bind]. by exists rs'.
Qed.

(** Two requests, the first one with segments that cut through the sectors; the data of
    one block whose last two sectors were not asked for. *)
Definition r_example_rqs : list request :=
  [{| blk_rq_pos := 80; bvecs := [replicate 700 1; replicate 1348 2] |}; {| blk_rq_pos := 84; bvecs := [replicate 1024 3] |}].

Definition r_example : ioReq_data_t :=
  {| kern_sect := 80; nr_ksects := 6; sects_shift := 0; lbid_start := 10; is_dms_lb_align := false;
     mask_lb_align := [63]; rqs := Some <$> r_example_rqs; payload := [] |}.

Lemma ioReq_RCopyData_exact_witness :
  exists rs', ioReq_RCopyData_mem2bio r_example 10 1 0 [{| data_ptr := replicate 4096 7; chunk_item_size := 4096 |}] =
      Some (set_rqs (Some <$> rs') r_example) /\ Forall2 same_shape r_example_rqs rs' /\ rqs_data rs' = replicate 3072 7.
Proof.
  destruct (ioReq_RCopyData_exact r_example 10 1 0 [{| data_ptr := replicate 4096 7; chunk_item_size := 4096 |}]
    r_example_rqs 80 0 2) as (rs' & H1 & H2 & H3).
  - split; try done.
    + cbn -[replicate length Z.of_nat]. split_and!; try done; repeat constructor; done.
    + split.
      * repeat constructor; done.
      * intros i ch Hi. simpl in Hi. lia.
      * done.
  - exists rs'. split_and!; [done..|]. rewrite H3. by vm_compute.
Defined.

(** ** Two corners of the copies *)

(** The data start before the request: the chunk and the offset are exchanged, the second
    segment finds no chunk and its loop copies nothing, for ever. *)
Example mem2bio_gap_spins :
  _cp_payload_mem2bio {| blk_rq_pos := 83; bvecs := [replicate 512 1; replicate 512 1] |} (80 * 512) 4096
    [{| data_ptr := replicate 4096 7; chunk_item_size := 4096 |}] 0 0 = None.
Proof. by vm_compute. Qed.

(** A write that starts inside a segment which crosses a chunk boundary: the offset is taken
    off the length of the segment twice, and the second copy gets a negative length. *)
Example bio2ioReq_inside_faults :
  _cp_bio2ioReq {| blk_rq_pos := 0; bvecs := [replicate 4096 1] |} 2048 2048
    [{| data_ptr := replicate (Z.to_nat CHUNK) 0; chunk_item_size := CHUNK |};
     {| data_ptr := replicate 4096 0; chunk_item_size := 4096 |}] 0 (CHUNK - 512) = None.
Proof. by vm_compute. Qed.

(** ** Clearing *)

Definition zeros (n : Z) : list Z := replicate (Z.to_nat n) 0.

Lemma length_zeros n : length (zeros n) = Z.to_nat n.
Proof. apply length_replicate. Qed.

Lemma zeros_add n m : 0 <= n -> 0 <= m -> zeros n ++ zeros m = zeros (n + m).
Proof. intros. unfold zeros. rewrite Z2Nat.inj_add by lia. by rewrite replicate_add. Qed.

Lemma z_bvecs_spec bvs b nn lens num :
  bvecs_ok bvs -> 0 <= b <= nn -> 0 < lens < 2 ^ 31 -> 0 <= num -> num + lens < 2 ^ 31 ->
  b + Z.of_nat (length (concat bvs)) < 2 ^ 64 -> nn + lens < 2 ^ 64 ->
  let n := Z.min lens (Z.max 0 (Z.of_nat (length (concat bvs)) - (nn - b))) in
  exists bvs', z_bvecs bvs b nn lens num = Some (bvs', num + n) /\ length <$> bvs' = length <$> bvs /\
    concat bvs' = put (concat bvs) (Z.to_nat (nn - b)) (zeros n).
Proof.
  revert b nn lens num. induction bvs as [|bv bvs IH]; intros b nn lens num Hok Hb Hl Hn0 Hn H64 Hnn; cbn zeta.
  { exists []. change (length (concat [])) with 0%nat. rewrite Z.max_l, Z.min_r, Z.add_0_r, put_nil by lia. done. }
  apply Forall_cons in Hok as [[Hne Hlen] Hok]. cbn [concat] in *. rewrite length_app, Nat2Z.inj_add in *.
  assert (0 < Z.of_nat (length bv)) as HL by (destruct bv; [done|simpl; lia]). change CHUNK with 131072 in Hlen.
  set (n := Z.min lens _). set (L := Z.of_nat (length bv)) in *. set (R := Z.of_nat (length (concat bvs))) in *.
  cbn [z_bvecs]. fold L. rewrite (u64_small (b + L - 1)), u64_small by (unfold is_u64; lia).
  replace (b + L - 1 + 1) with (b + L) by lia. destruct (b + L - 1 <? nn) eqn:E; zbool.
  - destruct (IH (b + L) nn lens num Hok) as (bvs' & -> & Hl' & Hc); try lia. cbn [mbind option_bind]. fold R.
    replace (Z.min lens (Z.max 0 (R - (nn - (b + L))))) with n in * by lia.
    exists (bv :: bvs'). split_and!; [done|by rewrite !fmap_cons, Hl'|]. cbn [concat]. fold R in Hc.
    replace (Z.min lens (Z.max 0 (R - (nn - (b + L))))) with n in Hc by lia. rewrite Hc.
    replace (Z.to_nat (nn - b)) with (length bv + Z.to_nat (nn - (b + L)))%nat by (unfold L in *; lia).
    by rewrite put_app_r.
  - rewrite (s32_small (nn - b)), (s32_small (L - _)) by (unfold is_s32; lia).
    set (k := if lens >? L - (nn - b) then L - (nn - b) else lens).
    assert (k = Z.min lens (L - (nn - b)) /\ 0 < k) as [Hk Hk0].
    { unfold k. destruct (lens >? L - (nn - b)) eqn:E1; zbool; lia. }
    clearbody k. replace (k <? 0) with false by lia. fold (zeros k).
    rewrite splice_put by (rewrite ?length_zeros; unfold L in *; lia). cbn [mbind option_bind].
    rewrite !s32_small by (unfold is_s32; lia).
    assert (length (put bv (Z.to_nat (nn - b)) (zeros k)) = length bv) as Hlp by (apply length_put; rewrite length_zeros; unfold L in *; lia).
    destruct (lens - k <=? 0) eqn:E1; zbool.
    + assert (n = k) as -> by lia. eexists. split_and!; [done|by rewrite !fmap_cons, Hlp|].
      cbn [concat]. rewrite put_app_l; [done|]. rewrite length_zeros. unfold L in *. lia.
    + rewrite u64_small by (unfold is_u64; lia). replace (nn + k) with (b + L) by lia.
      destruct (IH (b + L) (b + L) (lens - k) (num + k) Hok) as (bvs' & -> & Hl' & Hc); try lia. cbn [mbind option_bind].
      fold R in Hc |- *. rewrite Z.sub_diag in Hc. set (m := Z.min (lens - k) _) in Hc.
      assert (n = k + m /\ 0 <= m <= R) as [-> Hm] by lia. eexists. split_and!.
      * do 2 f_equal. lia.
      * by rewrite !fmap_cons, Hlp, Hl'.
      * cbn [concat]. rewrite Hc, <- zeros_add by lia. change (Z.to_nat 0) with 0%nat.
        rewrite put_across; [done| |]; rewrite ?length_zeros; unfold L, R in *; lia.
Qed.

Lemma set_bio_rq_empty_spec r nn lens :
  bvecs_ok (bvecs r) -> let pos := blk_rq_pos r * 512 in let len := Z.of_nat (length (rq_data r)) in
  0 <= pos <= nn -> nn < pos + len -> 0 < lens < 2 ^ 31 -> pos + len < 2 ^ 64 -> nn + lens < 2 ^ 64 ->
  let n := Z.min lens (len - (nn - pos)) in
  exists r', _set_bio_rq_empty r nn lens = Some (n, r') /\ same_shape r r' /\
    rq_data r' = put (rq_data r) (Z.to_nat (nn - pos)) (zeros n).
Proof.
  intros Hok pos len Hp Hin Hl H64 Hnn n. unfold _set_bio_rq_empty. rewrite sect_bytes. fold pos.
  rewrite u64_small by (unfold is_u64; lia). replace (nn <? pos) with false by lia.
  destruct (z_bvecs_spec (bvecs r) pos nn lens 0 Hok) as (bvs' & -> & Hl' & Hc); try (unfold len, rq_data in *; lia).
  fold (rq_data r) in Hc |- *. fold len in Hc |- *. cbn [mbind option_bind].
  replace (Z.max 0 (len - (nn - pos))) with (len - (nn - pos)) in * by lia. fold n in Hc |- *.
  rewrite Z.add_0_l, u32_small by (unfold is_u32; lia). eexists. by split_and!.
Qed.

Lemma z_rqs_spec rs sect dn ns :
  0 <= sect <= dn -> rqs_from sect rs -> 0 < ns -> ns * 512 < 2 ^ 31 ->
  sect * 512 + Z.of_nat (length (rqs_data rs)) < 2 ^ 64 -> (dn + ns) * 512 < 2 ^ 64 ->
  let off := (dn - sect) * 512 in
  let n := Z.min (ns * 512) (Z.max 0 (Z.of_nat (length (rqs_data rs)) - off)) in
  exists rs', z_rqs (Some <$> rs) dn (dn + ns - 1) ns = Some (Some <$> rs') /\ Forall2 same_shape rs rs' /\
    rqs_data rs' = put (rqs_data rs) (Z.to_nat off) (zeros n).
Proof.
  revert sect dn ns. induction rs as [|r rs IH]; intros sect dn ns Hs Hrs Hns H31 H64 Hdn; cbn zeta.
  { exists []. split_and!; try done. change (length (rqs_data [])) with 0%nat. rewrite Z.max_l, Z.min_r by lia.
    symmetry. apply put_nil. }
  destruct Hrs as (<- & Hok & Hnb & Hmod & Hrest). pose proof (rq_data_pos r Hok Hnb) as Hlp.
  pose proof (sectors_bytes r Hmod) as Hsect. rewrite sect_bytes in Hsect. set (sc := blk_rq_sectors r) in *.
  assert (rqs_data (r :: rs) = rq_data r ++ rqs_data rs) as Hcons by done. rewrite Hcons, length_app in *.
  cbn [fmap list_fmap z_rqs]. fold sc. change (list_fmap _ _ Some rs) with (Some <$> rs).
  replace (dn + ns - 1 <? blk_rq_pos r) with false by lia.
  destruct (dn >=? blk_rq_pos r + sc) eqn:E; zbool.
  - destruct (IH (blk_rq_pos r + sc) dn ns) as (rs' & -> & Hf & Hd); try done; try lia.
    cbn [mbind option_bind]. exists (r :: rs'). split_and!; [done|by constructor|].
    change (rqs_data (r :: rs')) with (rq_data r ++ rqs_data rs'). rewrite Hd.
    replace (Z.to_nat ((dn - blk_rq_pos r) * 512)) with (length (rq_data r) + Z.to_nat ((dn - (blk_rq_pos r + sc)) * 512))%nat by lia.
    rewrite put_app_r. do 3 f_equal. lia.
  - rewrite !sect_bytes, u64_small, (s32_small (ns * 512)) by (unfold is_u64, is_s32; lia).
    destruct (set_bio_rq_empty_spec r (dn * 512) (ns * 512) Hok) as (r' & -> & Hshape & Hd); try lia.
    replace (dn * 512 - blk_rq_pos r * 512) with ((dn - blk_rq_pos r) * 512) in * by lia.
    set (o := (dn - blk_rq_pos r) * 512) in *. set (k := Z.min (ns * 512) (Z.of_nat (length (rq_data r)) - o)) in *.
    cbn [mbind option_bind]. rewrite (s32_small k) by (unfold is_s32; lia).
    set (ks := Z.min ns (blk_rq_pos r + sc - dn)). assert (k = ks * 512) as Ek by lia.
    assert (Z.shiftr k BIT_LEN_SECT_SIZE = ks) as ->.
    { unfold BIT_LEN_SECT_SIZE. rewrite Z.shiftr_div_pow2, Ek by done. by apply Z.div_mul. }
    rewrite s32_small by (unfold is_s32; lia). pose proof (shape_length r r' Hshape) as Hl'.
    destruct (ns - ks <=? 0) eqn:E0; zbool.
    + exists (r' :: rs). split_and!; [done|constructor; [done|by apply same_shapes_refl]|].
      change (rqs_data (r' :: rs)) with (rq_data r' ++ rqs_data rs). rewrite Hd.
      rewrite put_app_l; [do 3 f_equal; lia|]. rewrite length_zeros. lia.
    + rewrite u64_small by (unfold is_u64; lia). set (dn' := blk_rq_pos r + sc). replace (dn + ks) with dn' by lia.
      replace (dn + ns - 1) with (dn' + (ns - ks) - 1) by lia.
      destruct (IH dn' dn' (ns - ks)) as (rs' & -> & Hf & Hd'); try done; try lia.
      cbn [mbind option_bind]. exists (r' :: rs'). split_and!; [done|by constructor|].
      change (rqs_data (r' :: rs')) with (rq_data r' ++ rqs_data rs'). rewrite Hd', Hd, Z.sub_diag.
      set (m := Z.min ((ns - ks) * 512) _). assert (0 <= m) as Hm by lia. cbn [Z.mul]. rewrite put_across.
      * do 2 f_equal. rewrite zeros_add by lia. f_equal. lia.
      * rewrite length_zeros. lia.
      * rewrite length_zeros. lia.
Qed.

(** The blocks of a read that have never been written. *)
Record zero_ok (r : ioReq_data_t) (startLB LB_cnt : Z) (rs : list request) (sect hd tl : Z) : Prop := {
  zo_rqs : rqs r = Some <$> rs;
  zo_follow : rqs_from sect rs;
  zo_lb : 0 <= startLB - lbid_start r < 2 ^ 31;
  zo_len : 0 < LB_cnt < 2 ^ 18;
  zo_hd : (mask_lb_align r !! Z.to_nat (startLB - lbid_start r)) ≫= head_sect_skip = Some hd;
  zo_tl : (mask_lb_align r !! Z.to_nat (startLB - lbid_start r + LB_cnt - 1)) ≫= tail_sect_skip = Some tl;
  zo_some : 0 <= tl /\ hd + tl < LB_cnt * 8;
  zo_first : 0 <= sect <= startLB * 8 + hd - sects_shift r;
  zo_end : sect * 512 + Z.of_nat (length (rqs_data rs)) < 2 ^ 64;
  zo_nn : (startLB * 8 + hd - sects_shift r + LB_cnt * 8) * 512 < 2 ^ 64;
}.

(** Reading blocks that were never written gives zeros.  Exactly the bytes of the
    sectors that the masks ask for are cleared in the requests; every other byte is as
    before. *)
Theorem ioReq_zero2bio_exact (r : ioReq_data_t) (startLB LB_cnt : Z) (rs : list request) (sect hd tl : Z) :
  zero_ok r startLB LB_cnt rs sect hd tl ->
  let off := (startLB * 8 + hd - sects_shift r - sect) * 512 in
  let n := Z.min ((LB_cnt * 8 - hd - tl) * 512) (Z.max 0 (Z.of_nat (length (rqs_data rs)) - off)) in
  exists rs', ioReq_RCopyData_zero2bio r startLB LB_cnt = Some (set_rqs (Some <$> rs') r) /\
    Forall2 same_shape rs rs' /\ rqs_data rs' = put (rqs_data rs) (Z.to_nat off) (zeros n).
Proof.
  intros [H1 H2 H3 H4 H6 H7 H8 H9 H14 H15] off n. unfold ioReq_RCopyData_zero2bio.
  rewrite (s32_small (startLB - lbid_start r)) by (unfold is_s32; lia).
  destruct (mask_lb_align r !! Z.to_nat (startLB - lbid_start r)) as [ms|] eqn:Es; [|done].
  destruct (mask_lb_align r !! Z.to_nat (startLB - lbid_start r + LB_cnt - 1)) as [me|] eqn:Ee; [|done].
  cbn [mbind option_bind] in H6, H7 |- *. rewrite H6, H7. cbn [mbind option_bind].
  pose proof (head_sect_skip_range ms hd H6) as Hhd.
  rewrite !Z.shiftl_mul_pow2 by done. change (2 ^ BIT_LEN_DMS_LB_SECTS) with 8.
  set (dn := startLB * 8 + hd - sects_shift r) in *. set (ns := LB_cnt * 8 - hd - tl) in *.
  rewrite (u64_small dn), !(s32_small ns), u64_small by (unfold is_u64, is_s32; lia).
  destruct (z_rqs_spec rs sect dn ns) as (rs' & E & Hsh & Hd); try done; try lia.
  rewrite H1, E. cbn [mbind option_bind]. by exists rs'.
Qed.

Lemma ioReq_zero2bio_exact_witness :
  exists rs', ioReq_RCopyData_zero2bio r_example 10 1 = Some (set_rqs (Some <$> rs') r_example) /\
    Forall2 same_shape r_example_rqs rs' /\ rqs_data rs' = replicate 3072 0.
Proof.
  destruct (ioReq_zero2bio_exact r_example 10 1 r_example_rqs 80 0 2) as (rs' & H1 & H2 & H3).
  - split; try done. cbn -[replicate length Z.of_nat]. split_and!; try done; repeat constructor; done.
  - exists rs'. split_and!; [done..|]. rewrite H3. by vm_compute.
Defined.
