(* ===== verification/DNProto.v ===== *)
(** * DNProto: the wire protocol between client node and datanode

    Translation of discoDN_client/discoC_DN_protocol.c (protocol version 1) and
    fingerprint.c, and of the other side of the wire in discoDN_simulator: the
    datanode's view of a request (_DNSrv_rcv_hder) and its acknowledgement
    (DNSrv_gen_ackpkt).  A packet is an array of bytes, a packed structure a
    range of it; an access outside of an array is a fault ([None]). *)

From S2P Require Import Prelude CommonUtil Bytes.

(** ** Operation codes *)

Definition DNUDREQ_WRITE : Z := 3.
Definition DNUDREQ_READ : Z := 4.
Definition DNUDREQ_HEART_BEAT : Z := 10.
Definition DNUDREQ_WRITE_NO_PAYLOAD : Z := 12.
Definition DNUDREQ_READ_NO_PAYLOAD : Z := 13.
Definition DNUDREQ_WRITE_NO_IO : Z := 14.
Definition DNUDREQ_READ_NO_IO : Z := 15.
Definition DNUDREQ_WRITE_NO_PAYLOAD_IO : Z := 16.
Definition DNUDREQ_READ_NO_PAYLOAD_IO : Z := 17.

Definition is_write_op (op : Z) : bool :=
  (op =? DNUDREQ_WRITE) || (op =? DNUDREQ_WRITE_NO_PAYLOAD) || (op =? DNUDREQ_WRITE_NO_IO) ||
  (op =? DNUDREQ_WRITE_NO_PAYLOAD_IO).
Definition is_read_op (op : Z) : bool :=
  (op =? DNUDREQ_READ) || (op =? DNUDREQ_READ_NO_PAYLOAD) || (op =? DNUDREQ_READ_NO_IO) ||
  (op =? DNUDREQ_READ_NO_PAYLOAD_IO).

Definition PKT_MAGIC_NUM_NORDER : Z := htonll MAGIC_NUM.

(** ** Fields of packed structures *)

Definition store (off : Z) (n : nat) (v : Z) (buf : list Z) : option (list Z) := splice buf off (le_bytes n v).
Definition load (off : Z) (n : nat) (buf : list Z) : option Z := le_val <$> slice buf off (Z.of_nat n).

Definition SIZE_REQ_HDER : Z := 32.
Definition SIZE_RESP_HDER : Z := 32.

Record CN2DN_UDRWReq_hder_t : Type := {
  rq_magic_num1 : Z;
  rq_opcode : Z;
  rq_num_hbids : Z;
  rq_num_triplets : Z;
  rq_nnreq_id : Z;
  rq_dnreq_id : Z;
  rq_magic_num2 : Z;
}.

Record CN2DN_UDRWResp_hder_t : Type := {
  rs_magic_num1 : Z;
  responseType : Z;
  num_of_lb : Z;
  pReqID : Z;
  dnid : Z;
  rs_magic_num2 : Z;
}.

(** ** Requests *)

(** The part of a datanode request that goes into its packet. *)
Record DNUData_Req_t : Type := {
  ReqOPCode : Z;
  CallerReqID : Z;
  ReqID : Z;
  dr_num_hbids : Z;
  arr_hbids : list Z;
  num_phyloc : Z;
  phyLoc_rlo : list Z;
  UDataSeg : list (list Z);
  dn_payload_offset : Z;
}.

Definition _gen_DNReq_header (p : Z) (opcode num_hbids num_triplets nnreq_id dnreq_id : Z) (buf : list Z) :
    option (Z * list Z) :=
  buf ← store p 8 PKT_MAGIC_NUM_NORDER buf;
  buf ← store (p + 8) 1 opcode buf;
  buf ← store (p + 9) 2 (htons num_hbids) buf;
  buf ← store (p + 11) 2 (htons num_triplets) buf;
  buf ← store (p + 16) 4 (htonl nnreq_id) buf;
  buf ← store (p + 20) 4 (htonl dnreq_id) buf;
  buf ← store (p + 24) 8 PKT_MAGIC_NUM_NORDER buf;
  Some (SIZE_REQ_HDER, buf).

Fixpoint fill_u64_loop (n : nat) (p : Z) (arr_u64 : list Z) (buf : list Z) : option (list Z) :=
  match n, arr_u64 with
  | O, _ => Some buf
  | S _, [] => None
  | S n, x :: arr_u64 => buf ← store p 8 (htonll x) buf; fill_u64_loop n (p + 8) arr_u64 buf
  end.

Definition _fill_u64_array_pkt (p : Z) (arr_u64 : list Z) (arr_size : Z) (buf : list Z) : option (Z * list Z) :=
  buf ← fill_u64_loop (Z.to_nat arr_size) p arr_u64 buf;
  Some (8 * arr_size, buf).

Definition fill_DNReq_HBID_pkt := _fill_u64_array_pkt.
Definition fill_DNReq_phyLoc_pkt := _fill_u64_array_pkt.

Definition MAX_LBS_PER_RQ : Z := MAX_SECTS_PER_RQ / NUM_SECTS_PER_DMS_LB + 1.

(** The memory comes zeroed; the loop sets every eighth byte. *)
Definition DNProto_ReadMask_buffer : list Z := concat (replicate (Z.to_nat MAX_LBS_PER_RQ) [1; 0; 0; 0; 0; 0; 0; 0]).

Definition fill_DNReq_read_mask_pkt (num_hbids p : Z) (buf : list Z) : option (Z * list Z) :=
  d ← slice DNProto_ReadMask_buffer 0 (8 * num_hbids);
  buf ← splice buf p d;
  Some (8 * num_hbids, buf).

(** ** Fingerprints *)

Definition FP_LENGTH : Z := 20.
Definition DMS_LB_SIZE : Z := 4096.

Inductive fp_method_t : Type :=
| fp_disable
| fp_sha1
| fp_md5.

#[global] Instance fp_method_t_eq_dec : EqDecision fp_method_t.
Proof. solve_decision. Defined.

(** The cache of fingerprints of an IO request: a bit per block, and the fingerprints. *)
Record fp_cache_t : Type := {
  fp_map : list Z;
  fp_cache : list Z;
}.

(** The hash functions of lib/sha1.c and lib/md5.c. *)
Section Fingerprint.
Context (sha1 md5_sum : list Z -> list Z).

Definition fp_hash (m : fp_method_t) (block : list Z) : list Z :=
  match m with
  | fp_disable => []
  | fp_sha1 => sha1 block
  | fp_md5 => md5_sum block
  end.

(** One block: the next place, the packet and the cache. *)
Definition fp_block (m : fp_method_t) (block : list Z) (p lb_off : Z) (c : fp_cache_t) (buf : list Z) :
    option (fp_cache_t * list Z) :=
  let fp_m_index := Z.shiftr lb_off 3 in
  let fp_m_offset := Z.land lb_off 7 in
  v ← fp_map c !! Z.to_nat fp_m_index;
  if Z.testbit v fp_m_offset then
    d ← slice (fp_cache c) (lb_off * FP_LENGTH) FP_LENGTH;
    buf ← splice buf p d;
    Some (c, buf)
  else
    buf ← splice buf p (fp_hash m block);
    d ← slice buf p FP_LENGTH;
    cache ← splice (fp_cache c) (lb_off * FP_LENGTH) d;
    Some ({| fp_map := <[Z.to_nat fp_m_index := Z.setbit v fp_m_offset]> (fp_map c); fp_cache := cache |}, buf).

(** The blocks of one segment; [n] of them are left. *)
Fixpoint fp_seg (m : fp_method_t) (n : nat) (seg : list Z) (j p lb_off : Z) (c : fp_cache_t) (buf : list Z) :
    option (Z * Z * fp_cache_t * list Z) :=
  match n with
  | O => Some (p, lb_off, c, buf)
  | S n =>
      block ← slice seg j DMS_LB_SIZE;
      '(c, buf) ← fp_block m block p lb_off c buf;
      fp_seg m n seg (j + DMS_LB_SIZE) (p + FP_LENGTH) (u32 (lb_off + 1)) c buf
  end.

Fixpoint fp_segs (m : fp_method_t) (segs : list (list Z)) (p lb_off : Z) (c : fp_cache_t) (buf : list Z) :
    option (fp_cache_t * list Z) :=
  match segs with
  | [] => Some (c, buf)
  | seg :: segs =>
      let n := (Z.of_nat (length seg) + DMS_LB_SIZE - 1) / DMS_LB_SIZE in
      '(p, lb_off, c, buf) ← fp_seg m (Z.to_nat n) seg 0 p lb_off c buf;
      fp_segs m segs p lb_off c buf
  end.

Definition _cal_fingerprint (m : fp_method_t) (p : Z) (r : DNUData_Req_t) (c : fp_cache_t) (buf : list Z) :
    option (fp_cache_t * list Z) :=
  fp_segs m (UDataSeg r) p (u32 (Z.shiftr (dn_payload_offset r) BIT_LEN_DMS_LB_SIZE)) c buf.

Definition get_fingerprint (m : fp_method_t) (p : Z) (r : DNUData_Req_t) (c : fp_cache_t) (buf : list Z) :
    option (Z * fp_cache_t * list Z) :=
  let fp_total_len := FP_LENGTH * dr_num_hbids r in
  match m with
  | fp_disable =>
      buf ← splice buf p (replicate (Z.to_nat fp_total_len) 0);
      Some (fp_total_len, c, buf)
  | _ =>
      '(c, buf) ← _cal_fingerprint m p r c buf;
      Some (fp_total_len, c, buf)
  end.

(** ** The packet of a request *)

Definition DNProto_gen_ReqPacket (m : fp_method_t) (r : DNUData_Req_t) (c : fp_cache_t) (pkt_buf : list Z) :
    option (Z * fp_cache_t * list Z) :=
  let len := 0 in
  '(n, buf) ← _gen_DNReq_header len (ReqOPCode r) (dr_num_hbids r) (num_phyloc r) (CallerReqID r) (ReqID r) pkt_buf;
  let len := len + n in
  '(n, buf) ← fill_DNReq_HBID_pkt len (arr_hbids r) (dr_num_hbids r) buf;
  let len := len + n in
  '(n, c, buf) ←
    (if is_write_op (ReqOPCode r) then get_fingerprint m len r c buf
     else if is_read_op (ReqOPCode r) then
       '(n, buf) ← fill_DNReq_read_mask_pkt (dr_num_hbids r) len buf; Some (n, c, buf)
     else Some (0, c, buf));
  let len := len + n in
  '(n, buf) ← fill_DNReq_phyLoc_pkt len (phyLoc_rlo r) (num_phyloc r) buf;
  Some (len + n, c, buf).

End Fingerprint.

(** ** Acknowledgements *)

(** The bytes are read one field after the other; the header in host order. *)
Definition DNProto_ReqAck_ntoh (pkt : list Z) : option CN2DN_UDRWResp_hder_t :=
  magic_num1 ← load 0 8 pkt;
  res_type ← load 8 1 pkt;
  num_of_bytes_byte1 ← load 9 1 pkt;
  num_of_bytes_byte2 ← load 10 2 pkt;
  let num_of_sector := Z.lor (ntohs num_of_bytes_byte2) (Z.shiftl num_of_bytes_byte1 16) in
  cid ← load 16 4 pkt;
  did ← load 20 4 pkt;
  magic_num2 ← load 24 8 pkt;
  Some {| rs_magic_num1 := ntohll magic_num1; responseType := res_type; num_of_lb := num_of_sector;
          pReqID := ntohl cid; dnid := ntohl did; rs_magic_num2 := ntohll magic_num2 |}.

Definition DNProto_gen_HBPacket (pkt_buffer : list Z) : option (Z * list Z) :=
  buf ← store 0 8 (htonll MAGIC_NUM) pkt_buffer;
  buf ← store 8 1 DNUDREQ_HEART_BEAT buf;
  buf ← store 24 8 (htonll MAGIC_NUM) buf;
  Some (32, buf).

(** ** The datanode's side *)

(** [memcpy] of the first bytes of a packet to the structure. *)
Definition load_req_hder (pkt : list Z) : option CN2DN_UDRWReq_hder_t :=
  magic_num1 ← load 0 8 pkt;
  opcode ← load 8 1 pkt;
  num_hbids ← load 9 2 pkt;
  num_triplets ← load 11 2 pkt;
  nnreq_id ← load 16 4 pkt;
  dnreq_id ← load 20 4 pkt;
  magic_num2 ← load 24 8 pkt;
  Some {| rq_magic_num1 := magic_num1; rq_opcode := opcode; rq_num_hbids := num_hbids;
          rq_num_triplets := num_triplets; rq_nnreq_id := nnreq_id; rq_dnreq_id := dnreq_id;
          rq_magic_num2 := magic_num2 |}.

Definition DNClient_ReqHder_ntoh (h : CN2DN_UDRWReq_hder_t) : CN2DN_UDRWReq_hder_t :=
  {| rq_magic_num1 := ntohll (rq_magic_num1 h); rq_opcode := rq_opcode h;
     rq_num_hbids := ntohs (rq_num_hbids h); rq_num_triplets := ntohs (rq_num_triplets h);
     rq_nnreq_id := ntohl (rq_nnreq_id h); rq_dnreq_id := ntohl (rq_dnreq_id h);
     rq_magic_num2 := ntohll (rq_magic_num2 h) |}.

(** A request in the simulator; the arrays stay in network order, as bytes. *)
Record CNReq_t : Type := {
  cn_opcode : Z;
  cn_num_hbids : Z;
  cn_pReqID : Z;
  cn_DNReqID : Z;
  cn_pkt_hder : CN2DN_UDRWReq_hder_t;
  cn_arr_hbids : list Z;
  cn_phyLoc_rlo : list Z;
}.

Definition CNReq_init_request (q : CNReq_t) (opcode numhb pReqID DNReqID : Z) : CNReq_t :=
  {| cn_opcode := opcode; cn_num_hbids := numhb; cn_pReqID := pReqID; cn_DNReqID := DNReqID;
     cn_pkt_hder := cn_pkt_hder q; cn_arr_hbids := cn_arr_hbids q; cn_phyLoc_rlo := cn_phyLoc_rlo q |}.

Definition _DNSrv_rcv_hder (pkt_len : Z) (packet : list Z) (q : CNReq_t) : option CNReq_t :=
  h ← load_req_hder packet;
  let h := DNClient_ReqHder_ntoh h in
  let set a l := {| cn_opcode := cn_opcode q; cn_num_hbids := cn_num_hbids q; cn_pReqID := cn_pReqID q;
                    cn_DNReqID := cn_DNReqID q; cn_pkt_hder := h; cn_arr_hbids := a; cn_phyLoc_rlo := l |} in
  let p := SIZE_REQ_HDER in
  if (rq_opcode h =? DNUDREQ_HEART_BEAT) || (pkt_len =? SIZE_REQ_HDER) then
    Some (set (cn_arr_hbids q) (cn_phyLoc_rlo q))
  else
    d ← slice packet p (8 * rq_num_hbids h);
    a ← splice (cn_arr_hbids q) 0 d;
    let p := p + 8 * rq_num_hbids h in
    let p := if is_write_op (rq_opcode h) then p + FP_LENGTH * rq_num_hbids h
             else if is_read_op (rq_opcode h) then p + 8 * rq_num_hbids h
             else p in
    d ← slice packet p (8 * rq_num_triplets h);
    l ← splice (cn_phyLoc_rlo q) 0 d;
    Some (CNReq_init_request (set a l) (rq_opcode h) (rq_num_hbids h) (rq_nnreq_id h) (rq_dnreq_id h)).

(** The two identifiers are first overwritten with bytes of the magic number and then set
    through the structure. *)
Definition DNSrv_gen_ackpkt (acktype num_of_lb pReqID dnReqID : Z) (pkt : list Z) : option (list Z) :=
  let tmp_ll := htonll MAGIC_NUM in
  pkt ← store 0 8 tmp_ll pkt;
  pkt ← store 8 1 acktype pkt;
  pkt ← store 9 1 0 pkt;
  pkt ← store 10 2 (htons num_of_lb) pkt;
  pkt ← splice pkt 12 (replicate 4 0);
  pkt ← splice pkt 16 (take 4 (le_bytes 8 tmp_ll));
  pkt ← splice pkt 20 (take 4 (le_bytes 8 tmp_ll));
  pkt ← store 24 8 (htonll MAGIC_NUM) pkt;
  pkt ← store 16 4 (htonl pReqID) pkt;
  store 20 4 (htonl dnReqID) pkt.
