(* ===== verification/DNProtoSpec.v ===== *)
(** * DNProtoSpec: both ends of the wire to a datanode agree

    What the generators of DNProto write, byte by byte, and that the other side reads
    the same values. *)

From S2P Require Import Prelude CommonUtil Bytes DNProto.

(** ** The header *)

Definition req_hder_bytes (op nh nt cid did : Z) (res : list Z) : list Z :=
  be_bytes 8 MAGIC_NUM ++ [op mod 256] ++ be_bytes 2 nh ++ be_bytes 2 nt ++ res ++
  be_bytes 4 cid ++ be_bytes 4 did ++ be_bytes 8 MAGIC_NUM.

Lemma length_req_hder op nh nt cid did res : length (req_hder_bytes op nh nt cid did res) = (29 + length res)%nat.
Proof. unfold req_hder_bytes. rewrite !length_app, !length_be_bytes. simpl. lia. Qed.

Lemma magic_bytes : le_bytes 8 (htonll MAGIC_NUM) = be_bytes 8 MAGIC_NUM.
Proof. by vm_compute. Qed.

Ltac len_solve := rewrite ?length_app, ?length_be_bytes, ?length_le_bytes, ?length_replicate; simpl length; lia.

Lemma gen_DNReq_header_spec N op nh nt cid did :
  (32 <= N)%nat ->
  _gen_DNReq_header 0 op nh nt cid did (zbuf N []) =
    Some (SIZE_REQ_HDER, zbuf N (req_hder_bytes op nh nt cid did (replicate 3 0))).
Proof.
  intros Hl. unfold _gen_DNReq_header, store, PKT_MAGIC_NUM_NORDER. rewrite magic_bytes, !store_htons, !store_htonl.
  do 4 (rewrite splice_zbuf; [cbn [mbind option_bind app]|len_solve|len_solve]).
  rewrite (splice_zbuf_gap _ _ 3); [cbn [mbind option_bind app]|len_solve|len_solve].
  do 2 (rewrite splice_zbuf; [cbn [mbind option_bind app]|len_solve|len_solve]).
  unfold req_hder_bytes. by rewrite <- !app_assoc.
Qed.

(** ** Arrays of 64-bit words *)

Lemma fill_u64_loop_spec N W off n arr :
  off = Z.of_nat (length W) -> (n <= length arr)%nat -> Forall is_u64 arr -> (length W + 8 * n <= N)%nat ->
  fill_u64_loop n off arr (zbuf N W) = Some (zbuf N (W ++ u64s (take n arr))).
Proof.
  revert W off arr. induction n as [|n IH]; intros W off arr Ho Hn Hu HN.
  { by rewrite app_nil_r. }
  destruct arr as [|x arr]; [simpl in Hn; lia|]. apply Forall_cons in Hu as [Hx Hu]. cbn [fill_u64_loop length] in *.
  unfold store. rewrite store_htonll by done. rewrite splice_zbuf; [|done|len_solve]. cbn [mbind option_bind].
  rewrite IH; [|len_solve|lia|done|len_solve]. by rewrite <- app_assoc.
Qed.

Lemma fill_u64_array_spec N W off size arr :
  off = Z.of_nat (length W) -> 0 <= size <= Z.of_nat (length arr) -> Forall is_u64 arr ->
  Z.of_nat (length W) + 8 * size <= Z.of_nat N ->
  _fill_u64_array_pkt off arr size (zbuf N W) = Some (8 * size, zbuf N (W ++ u64s (take (Z.to_nat size) arr))).
Proof.
  intros Ho Hs Hu HN. unfold _fill_u64_array_pkt. rewrite fill_u64_loop_spec; [done|done|lia|done|lia].
Qed.

(** ** Masks *)

Definition mask_bytes (n : nat) : list Z := concat (replicate n [1; 0; 0; 0; 0; 0; 0; 0]).

Lemma mask_bytes_add n m : mask_bytes (n + m) = mask_bytes n ++ mask_bytes m.
Proof. unfold mask_bytes. by rewrite replicate_add, concat_app. Qed.

Lemma length_mask_bytes n : length (mask_bytes n) = (8 * n)%nat.
Proof. induction n as [|n IH]; [done|]. change (S n) with (1 + n)%nat. rewrite mask_bytes_add, length_app, IH. simpl. lia. Qed.

Lemma fill_read_mask_spec N W off nh :
  off = Z.of_nat (length W) -> 0 <= nh <= MAX_LBS_PER_RQ -> Z.of_nat (length W) + 8 * nh <= Z.of_nat N ->
  fill_DNReq_read_mask_pkt nh off (zbuf N W) = Some (8 * nh, zbuf N (W ++ mask_bytes (Z.to_nat nh))).
Proof.
  intros Ho Hn HN. unfold fill_DNReq_read_mask_pkt. change DNProto_ReadMask_buffer with (mask_bytes 33).
  change MAX_LBS_PER_RQ with 33 in Hn. replace 33%nat with (Z.to_nat nh + (33 - Z.to_nat nh))%nat by lia.
  rewrite mask_bytes_add. rewrite <- (app_nil_l (_ ++ _)). rewrite slice_app; [|done|rewrite length_mask_bytes; lia].
  cbn [mbind option_bind]. rewrite splice_zbuf; [done|done|rewrite length_mask_bytes; lia].
Qed.

(** ** Fingerprints *)

Lemma slice_some l off n d :
  slice l off n = Some d <-> 0 <= off /\ 0 <= n /\ off + n <= Z.of_nat (length l) /\ d = take (Z.to_nat n) (drop (Z.to_nat off) l).
Proof. unfold slice. case_decide as H; split; [intros [= <-]; tauto|intros (_ & _ & _ & ->); done|done|intros (? & ? & ? & _); tauto]. Qed.

Lemma slice_put_same l i d :
  (i + length d <= length l)%nat -> slice (put l i d) (Z.of_nat i) (Z.of_nat (length d)) = Some d.
Proof. intros H. unfold put. apply slice_app; [rewrite length_take; lia|done]. Qed.

Lemma lookup_put_ne l i d j :
  (i + length d <= length l)%nat -> (j < i \/ i + length d <= j)%nat -> put l i d !! j = l !! j.
Proof.
  intros H Hj. unfold put. destruct (decide (j < i)%nat).
  - rewrite lookup_app_l by (rewrite length_take; lia). by apply lookup_take_lt.
  - rewrite lookup_app_r, length_take, Nat.min_l by (rewrite ?length_take; lia).
    rewrite lookup_app_r by lia. rewrite lookup_drop. f_equal. lia.
Qed.

Lemma slice_put_other l i d off n :
  (i + length d <= length l)%nat -> off + n <= Z.of_nat i \/ Z.of_nat i + Z.of_nat (length d) <= off ->
  slice (put l i d) off n = slice l off n.
Proof.
  intros H Ho. unfold slice. rewrite length_put by done. case_decide as Hd; [|done]. f_equal. apply list_eq. intros j.
  rewrite !lookup_take. case_decide; [|done]. rewrite !lookup_drop. apply lookup_put_ne; [done|lia].
Qed.

Section Fingerprints.
Context (sha1 md5_sum : list Z -> list Z) (m : fp_method_t).
(** The blocks of the user data of the IO request. *)
Context (B : nat -> list Z) (NB : nat).
Hypothesis hash_len : forall i, (length (fp_hash sha1 md5_sum m (B i)) <= 20)%nat.

(** The fingerprint of a block: shorter hashes are filled up. *)
Definition fp_of (block : list Z) : list Z :=
  fp_hash sha1 md5_sum m block ++ replicate (20 - length (fp_hash sha1 md5_sum m block)) 0.

Lemma length_fp_of i : length (fp_of (B i)) = 20%nat.
Proof. unfold fp_of. rewrite length_app, length_replicate. pose proof (hash_len i). lia. Qed.

Definition fp_bit (c : fp_cache_t) (i : nat) : bool :=
  match fp_map c !! Z.to_nat (Z.shiftr (Z.of_nat i) 3) with
  | Some v => Z.testbit v (Z.land (Z.of_nat i) 7)
  | None => false
  end.

(** Whatever the map says is there is the fingerprint of the block. *)
Record fp_inv (c : fp_cache_t) : Prop := {
  fi_map : (NB <= 8 * length (fp_map c))%nat;
  fi_cache : (20 * NB <= length (fp_cache c))%nat;
  fi_bits i : (i < NB)%nat -> fp_bit c i = true -> slice (fp_cache c) (Z.of_nat i * FP_LENGTH) FP_LENGTH = Some (fp_of (B i));
}.

Lemma fp_block_spec N W off lb c :
  fp_inv c -> (lb < NB)%nat -> off = Z.of_nat (length W) -> (length W + 20 <= N)%nat ->
  exists c', fp_block sha1 md5_sum m (B lb) off (Z.of_nat lb) c (zbuf N W) = Some (c', zbuf N (W ++ fp_of (B lb))) /\
    fp_inv c' /\ fp_bit c' lb = true.
Proof.
  intros [H1 H2 H3] Hlb Ho HN. pose proof (length_fp_of lb) as Hfp. pose proof (H3 lb Hlb) as Hb.
  unfold fp_bit in Hb |- *. unfold fp_block.
  assert (Z.shiftr (Z.of_nat lb) 3 = Z.of_nat (lb / 8)) as Hsh by (rewrite Z.shiftr_div_pow2, Nat2Z.inj_div by lia; done).
  assert (Z.land (Z.of_nat lb) 7 = Z.of_nat (lb mod 8)) as Hla by (change 7 with (Z.ones 3); rewrite Z.land_ones, Nat2Z.inj_mod by lia; done).
  rewrite Hsh, Hla, Nat2Z.id in *. pose proof (Nat.div_mod lb 8 ltac:(done)) as Hdm. pose proof (Nat.mod_upper_bound lb 8 ltac:(done)) as Hmb.
  destruct (lookup_lt_is_Some_2 (fp_map c) (lb / 8)) as [v Hv]; [lia|]. rewrite Hv in *. cbn [mbind option_bind].
  destruct (Z.testbit v (Z.of_nat (lb mod 8))) eqn:Hbit.
  { rewrite Hb by done. cbn [mbind option_bind]. rewrite splice_zbuf by lia. cbn [mbind option_bind].
    exists c. rewrite Hv. split_and!; [done|by split|done]. }
  pose proof (hash_len lb) as Hh. rewrite splice_zbuf by lia. cbn [mbind option_bind].
  assert (zbuf N (W ++ fp_hash sha1 md5_sum m (B lb)) = zbuf N (W ++ fp_of (B lb))) as ->.
  { unfold fp_of. rewrite app_assoc, zbuf_pad; [done|]. rewrite length_app. lia. }
  assert (slice (zbuf N (W ++ fp_of (B lb))) off FP_LENGTH = Some (fp_of (B lb))) as ->.
  { pose proof (slice_zbuf N W (fp_of (B lb)) [] off FP_LENGTH Ho) as E. rewrite app_nil_r in E. apply E. by rewrite Hfp. }
  cbn [mbind option_bind].
  unfold FP_LENGTH. rewrite splice_put by (rewrite ?Hfp; lia). cbn [mbind option_bind].
  replace (Z.to_nat (Z.of_nat lb * 20)) with (lb * 20)%nat by lia.
  eexists. split; [done|]. cbn [fp_map]. rewrite list_lookup_insert_eq by (by apply lookup_lt_Some in Hv).
  rewrite Z.setbit_eq by lia. split; [|done]. split; cbn [fp_map fp_cache].
  - by rewrite length_insert.
  - rewrite length_put; rewrite ?Hfp; lia.
  - intros i Hi Hset. unfold FP_LENGTH. destruct (decide (i = lb)) as [->|Hne].
    + pose proof (slice_put_same (fp_cache c) (lb * 20) (fp_of (B lb))) as E. rewrite Hfp in E.
      replace (Z.of_nat lb * 20) with (Z.of_nat (lb * 20)) by lia. apply E. lia.
    + rewrite slice_put_other by (rewrite Hfp; lia). apply H3; [done|]. rewrite <- Hset. unfold fp_bit. cbn [fp_map].
      destruct (decide (Z.to_nat (Z.shiftr (Z.of_nat i) 3) = lb / 8)%nat) as [E|E].
      * rewrite E, list_lookup_insert_eq by (by apply lookup_lt_Some in Hv). rewrite Hv.
        rewrite Z.setbit_neq; [done|lia|]. change 7 with (Z.ones 3). rewrite Z.land_ones by lia. change (2 ^ 3) with 8.
        rewrite Z.shiftr_div_pow2 in E by lia. change (2 ^ 3) with 8 in E.
        pose proof (Z.div_mod (Z.of_nat i) 8 ltac:(done)). assert (0 <= Z.of_nat i / 8) by (apply Z.div_pos; lia). lia.
      * by rewrite list_lookup_insert_ne by done.
Qed.

Definition fps (lb n : nat) : list Z := seq lb n ≫= (fun i => fp_of (B i)).

Lemma length_fps lb n : length (fps lb n) = (20 * n)%nat.
Proof.
  revert lb. induction n as [|n IH]; intros lb; [done|]. unfold fps in *. cbn [seq]. rewrite bind_cons, length_app, IH, length_fp_of. lia.
Qed.

Lemma fps_add lb n k : fps lb (n + k) = fps lb n ++ fps (lb + n) k.
Proof. unfold fps. by rewrite seq_app, bind_app. Qed.

Lemma fp_seg_spec N W off seg j lb n c :
  fp_inv c -> (lb + n <= NB)%nat -> Z.of_nat NB < 2 ^ 32 ->
  (forall k, (k < n)%nat -> slice seg (j + Z.of_nat k * DMS_LB_SIZE) DMS_LB_SIZE = Some (B (lb + k))) ->
  off = Z.of_nat (length W) -> (length W + 20 * n <= N)%nat ->
  exists c', fp_seg sha1 md5_sum m n seg j off (Z.of_nat lb) c (zbuf N W) =
      Some (off + 20 * Z.of_nat n, Z.of_nat (lb + n), c', zbuf N (W ++ fps lb n)) /\ fp_inv c'.
Proof.
  revert W off j lb c. induction n as [|n IH]; intros W off j lb c Hinv Hnb H32 Hseg Ho HN.
  { exists c. cbn [fp_seg]. rewrite app_nil_r, Nat.add_0_r. split; [|done]. do 4 f_equal. lia. }
  pose proof (Hseg 0%nat ltac:(lia)) as H0. change (Z.of_nat 0 * DMS_LB_SIZE) with 0 in H0. rewrite Z.add_0_r, Nat.add_0_r in H0.
  cbn [fp_seg]. rewrite H0. cbn [mbind option_bind].
  destruct (fp_block_spec N W off lb c Hinv) as (c1 & -> & Hinv1 & _); [lia|done|lia|]. cbn [mbind option_bind].
  rewrite u32_small by (unfold is_u32; lia). replace (Z.of_nat lb + 1) with (Z.of_nat (S lb)) by lia.
  destruct (IH (W ++ fp_of (B lb)) (off + FP_LENGTH) (j + DMS_LB_SIZE) (S lb) c1) as (c' & -> & Hinv'); try done; try lia.
  - intros k Hk. replace (S lb + k)%nat with (lb + S k)%nat by lia. rewrite <- (Hseg (S k)) by lia. f_equal. lia.
  - rewrite length_app, length_fp_of. unfold FP_LENGTH. lia.
  - rewrite length_app, length_fp_of. lia.
  - exists c'. split; [|done]. change (S n) with (1 + n)%nat. rewrite fps_add, <- app_assoc. unfold fps at 2. cbn [seq].
    rewrite bind_cons. cbn [mbind list_bind]. rewrite app_nil_r. replace (lb + 1)%nat with (S lb) by lia.
    replace (off + FP_LENGTH + 20 * Z.of_nat n) with (off + 20 * Z.of_nat (1 + n)) by (unfold FP_LENGTH; lia).
    by replace (S lb + n)%nat with (lb + (1 + n))%nat by lia.
Qed.

(** The segments of a datanode request hold whole blocks, the blocks from [lb] on. *)
Fixpoint segs_ok (lb : nat) (segs : list (list Z)) (n : nat) : Prop :=
  match segs with
  | [] => n = 0%nat
  | s :: segs => exists k n', n = (k + n')%nat /\ length s = (4096 * k)%nat /\
      (forall j, (j < k)%nat -> slice s (Z.of_nat j * DMS_LB_SIZE) DMS_LB_SIZE = Some (B (lb + j))) /\ segs_ok (lb + k) segs n'
  end.

Lemma fp_segs_spec N W off segs lb n c :
  fp_inv c -> segs_ok lb segs n -> (lb + n <= NB)%nat -> Z.of_nat NB < 2 ^ 32 ->
  off = Z.of_nat (length W) -> (length W + 20 * n <= N)%nat ->
  exists c', fp_segs sha1 md5_sum m segs off (Z.of_nat lb) c (zbuf N W) = Some (c', zbuf N (W ++ fps lb n)) /\ fp_inv c'.
Proof.
  revert W off lb n c. induction segs as [|s segs IH]; intros W off lb n c Hinv Hok Hnb H32 Ho HN.
  { cbn in Hok. subst n. exists c. by rewrite app_nil_r. }
  destruct Hok as (k & n' & -> & Hl & Hs & Hok). cbn [fp_segs].
  assert ((Z.of_nat (length s) + DMS_LB_SIZE - 1) / DMS_LB_SIZE = Z.of_nat k) as ->.
  { rewrite Hl. unfold DMS_LB_SIZE. symmetry. apply (Z.div_unique _ _ _ 4095); lia. }
  rewrite Nat2Z.id. destruct (fp_seg_spec N W off s 0 lb k c) as (c1 & -> & Hinv1); try done; try lia.
  cbn [mbind option_bind].
  destruct (IH (W ++ fps lb k) (off + 20 * Z.of_nat k) (lb + k)%nat n' c1) as (c' & -> & Hinv'); try done; try lia.
  - rewrite length_app, length_fps. lia.
  - rewrite length_app, length_fps. lia.
  - exists c'. by rewrite <- app_assoc, <- fps_add.
Qed.
End Fingerprints.

(** ** The packet *)

(** The 64-bit words, in network order, at the start of [l]. *)
Fixpoint words (n : nat) (l : list Z) : list Z :=
  match n with
  | O => []
  | S n => be_val (take 8 l) :: words n (drop 8 l)
  end.

Lemma words_u64s l rest : Forall is_u64 l -> words (length l) (u64s l ++ rest) = l.
Proof.
  induction 1 as [|x l Hx Hl IH]; [done|]. cbn [length words].
  change (u64s (x :: l)) with (be_bytes 8 x ++ u64s l). rewrite <- app_assoc.
  rewrite take_app_length' by (by rewrite length_be_bytes). rewrite drop_app_length' by (by rewrite length_be_bytes).
  rewrite be_val_bytes by exact Hx. by rewrite IH.
Qed.

Lemma words_put l n old : length l = n -> Forall is_u64 l -> words n (put old 0 (u64s l)) = l.
Proof. intros <- Hl. unfold put. cbn [take app]. by apply words_u64s. Qed.

Lemma slice_skip d l off n :
  Z.of_nat (length d) <= off -> slice (d ++ l) off n = slice l (off - Z.of_nat (length d)) n.
Proof.
  intros H. unfold slice. rewrite length_app.
  destruct (decide (0 <= off /\ _)) as [Hd|Hd]; [|rewrite decide_False by lia; done].
  rewrite decide_True by lia. rewrite drop_app_ge by lia. do 3 f_equal. lia.
Qed.

Lemma slice_here d l n : n = Z.of_nat (length d) -> slice (d ++ l) 0 n = Some d.
Proof. intros H. rewrite <- (app_nil_l (d ++ l)). by apply slice_app. Qed.

Lemma load_skip d l off n :
  Z.of_nat (length d) <= off -> load off n (d ++ l) = load (off - Z.of_nat (length d)) n l.
Proof. intros H. unfold load. by rewrite slice_skip. Qed.

Lemma load_here d l n : length d = n -> load 0 n (d ++ l) = Some (le_val d).
Proof. intros H. unfold load. by rewrite slice_here by lia. Qed.

(** Finds a field behind the fields before it. *)
Ltac field_len := rewrite ?length_be_bytes, ?length_u64s, ?length_replicate; cbn [length]; lia.
Ltac load_field :=
  rewrite <- ?app_assoc;
  repeat (rewrite load_skip by field_len; rewrite ?length_be_bytes, ?length_replicate; cbn [length]);
  match goal with
  | |- load ?o _ _ = _ => replace o with 0 by lia; apply load_here; field_len
  end.

(** The header as the datanode sees it. *)
Lemma load_req_hder_spec op nh nt cid did res rest :
  length res = 3%nat -> 0 <= op < 256 -> 0 <= nh < 2 ^ 16 -> 0 <= nt < 2 ^ 16 -> is_u32 cid -> is_u32 did ->
  DNClient_ReqHder_ntoh <$> load_req_hder (req_hder_bytes op nh nt cid did res ++ rest) =
    Some {| rq_magic_num1 := MAGIC_NUM; rq_opcode := op; rq_num_hbids := nh; rq_num_triplets := nt;
            rq_nnreq_id := cid; rq_dnreq_id := did; rq_magic_num2 := MAGIC_NUM |}.
Proof.
  intros Hr Hop Hnh Hnt Hc Hd. unfold load_req_hder. set (l := req_hder_bytes op nh nt cid did res ++ rest).
  destruct res as [|r1 [|r2 [|r3 [|]]]]; [done..| |done].
  assert (load 0 8 l = Some (le_val (be_bytes 8 MAGIC_NUM))) as -> by (unfold l, req_hder_bytes; load_field).
  assert (load 8 1 l = Some (le_val [op mod 256])) as -> by (unfold l, req_hder_bytes; load_field).
  assert (load 9 2 l = Some (le_val (be_bytes 2 nh))) as -> by (unfold l, req_hder_bytes; load_field).
  assert (load 11 2 l = Some (le_val (be_bytes 2 nt))) as -> by (unfold l, req_hder_bytes; load_field).
  assert (load 16 4 l = Some (le_val (be_bytes 4 cid))) as -> by (unfold l, req_hder_bytes; load_field).
  assert (load 20 4 l = Some (le_val (be_bytes 4 did))) as -> by (unfold l, req_hder_bytes; load_field).
  assert (load 24 8 l = Some (le_val (be_bytes 8 MAGIC_NUM))) as -> by (unfold l, req_hder_bytes; load_field).
  cbn [mbind option_bind fmap option_fmap option_map]. unfold DNClient_ReqHder_ntoh. cbn [rq_magic_num1 rq_opcode rq_num_hbids
    rq_num_triplets rq_nnreq_id rq_dnreq_id rq_magic_num2].
  rewrite !ntohs_be, !ntohl_be, ntohll_be by done. cbn [le_val]. by rewrite Z.mod_small, Z.mul_0_r, Z.add_0_r by lia.
Qed.

Section Packet.
Context (sha1 md5_sum : list Z -> list Z) (m : fp_method_t) (B : nat -> list Z) (NB : nat).

(** A request that the client node sends: codes, numbers and identifiers in the ranges of
    their types, as many blocks as an IO request may have, and whole blocks of user data
    behind a write. *)
Record dnreq_ok (r : DNUData_Req_t) : Prop := {
  dq_op : is_write_op (ReqOPCode r) = true \/ is_read_op (ReqOPCode r) = true;
  dq_ids : is_u32 (CallerReqID r) /\ is_u32 (ReqID r);
  dq_hbids : 0 < dr_num_hbids r <= MAX_LBS_PER_RQ;
  dq_arr : dr_num_hbids r <= Z.of_nat (length (arr_hbids r)) /\ Forall is_u64 (arr_hbids r);
  dq_locs : 0 <= num_phyloc r <= MAX_LBS_PER_RQ;
  dq_rlo : num_phyloc r <= Z.of_nat (length (phyLoc_rlo r)) /\ Forall is_u64 (phyLoc_rlo r);
  dq_off : 0 <= dn_payload_offset r;
  dq_data : is_write_op (ReqOPCode r) = true -> m <> fp_disable ->
    let lb := Z.to_nat (Z.shiftr (dn_payload_offset r) BIT_LEN_DMS_LB_SIZE) in
    segs_ok B lb (UDataSeg r) (Z.to_nat (dr_num_hbids r)) /\ (lb + Z.to_nat (dr_num_hbids r) <= NB)%nat;
}.

(** What stands between the block numbers and the locations. *)
Definition middle_bytes (r : DNUData_Req_t) : list Z :=
  let n := Z.to_nat (dr_num_hbids r) in
  if is_write_op (ReqOPCode r) then
    match m with
    | fp_disable => replicate (20 * n) 0
    | _ => fps sha1 md5_sum m B (Z.to_nat (Z.shiftr (dn_payload_offset r) BIT_LEN_DMS_LB_SIZE)) n
    end
  else mask_bytes n.

Definition pkt_bytes (r : DNUData_Req_t) : list Z :=
  req_hder_bytes (ReqOPCode r) (dr_num_hbids r) (num_phyloc r) (CallerReqID r) (ReqID r) (replicate 3 0) ++
  u64s (take (Z.to_nat (dr_num_hbids r)) (arr_hbids r)) ++ middle_bytes r ++
  u64s (take (Z.to_nat (num_phyloc r)) (phyLoc_rlo r)).

Hypothesis hash_len : forall i, (length (fp_hash sha1 md5_sum m (B i)) <= 20)%nat.
Hypothesis NB_small : Z.of_nat NB < 2 ^ 32.

Lemma length_middle r :
  length (middle_bytes r) = (if is_write_op (ReqOPCode r) then 20 * Z.to_nat (dr_num_hbids r) else 8 * Z.to_nat (dr_num_hbids r))%nat.
Proof.
  unfold middle_bytes. destruct (is_write_op _); [|by rewrite length_mask_bytes].
  destruct m; [by rewrite length_replicate|..]; by apply length_fps.
Qed.

Lemma fp_branch r c N W off :
  fp_inv sha1 md5_sum m B NB c -> m <> fp_disable -> 0 <= dn_payload_offset r ->
  let lb := Z.to_nat (Z.shiftr (dn_payload_offset r) BIT_LEN_DMS_LB_SIZE) in
  let n := Z.to_nat (dr_num_hbids r) in
  segs_ok B lb (UDataSeg r) n -> (lb + n <= NB)%nat -> 0 <= dr_num_hbids r ->
  off = Z.of_nat (length W) -> (length W + 20 * n <= N)%nat ->
  exists c', ('(c, buf) ← _cal_fingerprint sha1 md5_sum m off r c (zbuf N W); Some (20 * dr_num_hbids r, c, buf)) =
      Some (Z.of_nat (length (fps sha1 md5_sum m B lb n)), c', zbuf N (W ++ fps sha1 md5_sum m B lb n)) /\
    fp_inv sha1 md5_sum m B NB c'.
Proof.
  intros Hinv Hm Hoff lb n Hsegs Hnb Hn Ho HN. unfold _cal_fingerprint.
  assert (0 <= Z.shiftr (dn_payload_offset r) BIT_LEN_DMS_LB_SIZE) as H0 by (by apply Z.shiftr_nonneg).
  rewrite u32_small by (unfold is_u32; lia).
  replace (Z.shiftr (dn_payload_offset r) BIT_LEN_DMS_LB_SIZE) with (Z.of_nat lb) by (unfold lb; lia).
  destruct (fp_segs_spec sha1 md5_sum m B NB hash_len N W off (UDataSeg r) lb n c) as (c' & -> & Hinv'); try done.
  cbn [mbind option_bind]. exists c'. split; [|done]. rewrite length_fps by done. do 2 f_equal. f_equal. unfold n. lia.
Qed.

Lemma gen_ReqPacket_spec r c N :
  dnreq_ok r -> fp_inv sha1 md5_sum m B NB c -> (1220 <= N)%nat ->
  exists c', DNProto_gen_ReqPacket sha1 md5_sum m r c (zbuf N []) =
      Some (Z.of_nat (length (pkt_bytes r)), c', zbuf N (pkt_bytes r)) /\ fp_inv sha1 md5_sum m B NB c'.
Proof.
  intros [Hop _ Hnh [Ha Hau] Hnp [Hl Hlu] Hoff Hdata] Hinv HN. change MAX_LBS_PER_RQ with 33 in *.
  unfold DNProto_gen_ReqPacket. rewrite gen_DNReq_header_spec by lia. cbn [mbind option_bind].
  set (H := req_hder_bytes _ _ _ _ _ _). assert (length H = 32%nat) as HH by apply length_req_hder.
  unfold fill_DNReq_HBID_pkt. rewrite fill_u64_array_spec by (rewrite ?HH; done || lia). cbn [mbind option_bind].
  set (U := u64s (take _ (arr_hbids r))).
  assert (length U = 8 * Z.to_nat (dr_num_hbids r))%nat as HU by (unfold U; rewrite length_u64s, length_take; lia).
  set (off := 0 + SIZE_REQ_HDER + 8 * dr_num_hbids r).
  assert (off = Z.of_nat (length (H ++ U))) as Hoff2 by (rewrite length_app, HH, HU; unfold off, SIZE_REQ_HDER; lia).
  set (M := middle_bytes r). pose proof (length_middle r) as HM. fold M in HM.
  assert (exists c', (if is_write_op (ReqOPCode r) then get_fingerprint sha1 md5_sum m off r c (zbuf N (H ++ U))
     else if is_read_op (ReqOPCode r) then
       '(n, buf) ← fill_DNReq_read_mask_pkt (dr_num_hbids r) off (zbuf N (H ++ U)); Some (n, c, buf)
     else Some (0, c, zbuf N (H ++ U))) = Some (Z.of_nat (length M), c', zbuf N ((H ++ U) ++ M)) /\
     fp_inv sha1 md5_sum m B NB c') as (c' & -> & Hinv').
  { unfold M, middle_bytes in *. destruct (is_write_op (ReqOPCode r)) eqn:Ew.
    - destruct (decide (m = fp_disable)) as [Em|Em].
      + unfold get_fingerprint, FP_LENGTH. rewrite Em. exists c.
        replace (Z.to_nat (20 * dr_num_hbids r)) with (20 * Z.to_nat (dr_num_hbids r))%nat by lia.
        rewrite splice_zbuf by (done || rewrite length_app, length_replicate; lia). cbn [mbind option_bind].
        split; [|by rewrite Em in Hinv]. rewrite length_replicate. do 2 f_equal. f_equal. lia.
      + destruct (Hdata eq_refl Em) as [Hsegs Hnb].
        destruct (fp_branch r c N (H ++ U) off) as (c' & E & Hinv'); try done; [lia|rewrite length_app; lia|].
        exists c'. split; [|done]. unfold get_fingerprint, FP_LENGTH. by destruct m.
    - destruct Hop as [|Hr]; [done|]. rewrite Hr. exists c. rewrite fill_read_mask_spec; [|done|change MAX_LBS_PER_RQ with 33; lia|rewrite length_app; lia].
      cbn [mbind option_bind]. split; [|done]. rewrite length_mask_bytes. do 2 f_equal. f_equal. lia. }
  cbn [mbind option_bind]. unfold fill_DNReq_phyLoc_pkt.
  rewrite fill_u64_array_spec; [|rewrite !length_app in *; lia|lia|done|].
  2: { rewrite !length_app, HM. destruct (is_write_op (ReqOPCode r)); lia. }
  cbn [mbind option_bind]. exists c'. split; [|done].
  assert (((H ++ U) ++ M) ++ u64s (take (Z.to_nat (num_phyloc r)) (phyLoc_rlo r)) = pkt_bytes r) as ->.
  { unfold pkt_bytes. by rewrite <- !app_assoc. }
  do 2 f_equal. f_equal. unfold pkt_bytes. fold H U M. rewrite !length_app, length_u64s, length_take. rewrite length_app in Hoff2. lia.
Qed.

(** The datanode's arrays take what the packet holds. *)
Lemma rcv_hder_spec r q :
  dnreq_ok r -> length (cn_arr_hbids q) = (8 * 33)%nat -> length (cn_phyLoc_rlo q) = (8 * 33)%nat ->
  exists q', _DNSrv_rcv_hder (Z.of_nat (length (pkt_bytes r))) (pkt_bytes r) q = Some q' /\
    cn_opcode q' = ReqOPCode r /\ cn_num_hbids q' = dr_num_hbids r /\ cn_pReqID q' = CallerReqID r /\
    cn_DNReqID q' = ReqID r /\ rq_num_triplets (cn_pkt_hder q') = num_phyloc r /\
    rq_magic_num1 (cn_pkt_hder q') = MAGIC_NUM /\ rq_magic_num2 (cn_pkt_hder q') = MAGIC_NUM /\
    words (Z.to_nat (dr_num_hbids r)) (cn_arr_hbids q') = take (Z.to_nat (dr_num_hbids r)) (arr_hbids r) /\
    words (Z.to_nat (num_phyloc r)) (cn_phyLoc_rlo q') = take (Z.to_nat (num_phyloc r)) (phyLoc_rlo r).
Proof.
  intros [Hop [Hc Hd] Hnh [Ha Hau] Hnp [Hl Hlu] _ _] Hqa Hql. change MAX_LBS_PER_RQ with 33 in *.
  assert (0 <= ReqOPCode r < 256 /\ ReqOPCode r <> DNUDREQ_HEART_BEAT) as [Hop256 Hhb].
  { unfold is_write_op, is_read_op, DNUDREQ_HEART_BEAT in *. destruct Hop as [Hop|Hop];
      rewrite !orb_true_iff, !Z.eqb_eq in Hop; destruct Hop as [[[-> | ->] | ->] | ->]; done. }
  set (nh := Z.to_nat (dr_num_hbids r)) in *. set (np := Z.to_nat (num_phyloc r)) in *.
  assert (Z.of_nat nh = dr_num_hbids r /\ Z.of_nat np = num_phyloc r) as [Enh Enp] by (unfold nh, np; lia).
  set (U := u64s (take nh (arr_hbids r))). set (L := u64s (take np (phyLoc_rlo r))).
  assert (length U = 8 * nh)%nat as HU by (unfold U; rewrite length_u64s, length_take; lia).
  assert (length L = 8 * np)%nat as HL by (unfold L; rewrite length_u64s, length_take; lia).
  unfold _DNSrv_rcv_hder.
  pose proof (load_req_hder_spec (ReqOPCode r) (dr_num_hbids r) (num_phyloc r) (CallerReqID r) (ReqID r) (replicate 3 0)
    (U ++ middle_bytes r ++ L) eq_refl Hop256 ltac:(lia) ltac:(lia) Hc Hd) as Hh.
  change (_ ++ U ++ middle_bytes r ++ L) with (pkt_bytes r) in Hh.
  destruct (load_req_hder (pkt_bytes r)) as [h|]; [|done]. cbn [mbind option_bind fmap option_fmap option_map] in Hh |- *.
  apply (inj Some) in Hh. rewrite Hh.
  cbn [rq_opcode rq_num_hbids rq_num_triplets rq_nnreq_id rq_dnreq_id rq_magic_num1 rq_magic_num2].
  set (H := req_hder_bytes (ReqOPCode r) (dr_num_hbids r) (num_phyloc r) (CallerReqID r) (ReqID r) (replicate 3 0)).
  assert (length H = 32%nat) as HH by apply length_req_hder. pose proof (length_middle r) as HM.
  assert (pkt_bytes r = H ++ U ++ middle_bytes r ++ L) as Hpkt by done.
  replace (ReqOPCode r =? DNUDREQ_HEART_BEAT) with false by lia. cbn [orb].
  rewrite (proj2 (Z.eqb_neq (Z.of_nat (length (pkt_bytes r))) SIZE_REQ_HDER))
    by (rewrite Hpkt, !length_app; unfold SIZE_REQ_HDER; lia).
  assert (slice (pkt_bytes r) SIZE_REQ_HDER (8 * dr_num_hbids r) = Some U) as ->.
  { rewrite Hpkt. apply slice_app; [by rewrite HH|lia]. }
  cbn [mbind option_bind]. rewrite splice_put by lia. cbn [mbind option_bind].
  set (p := if is_write_op (ReqOPCode r) then _ else _).
  assert (p = Z.of_nat (length (H ++ U ++ middle_bytes r))) as Hp.
  { unfold p, SIZE_REQ_HDER, FP_LENGTH. rewrite !length_app, HH, HU, HM. destruct (is_write_op (ReqOPCode r)); [lia|].
    destruct Hop as [Hw|Hr]; [discriminate Hw|]. rewrite Hr. lia. }
  assert (slice (pkt_bytes r) p (8 * num_phyloc r) = Some L) as ->.
  { rewrite Hpkt, Hp. rewrite <- (app_nil_r L).
    replace (H ++ U ++ middle_bytes r ++ L ++ []) with ((H ++ U ++ middle_bytes r) ++ L ++ []) by (by rewrite <- !app_assoc).
    rewrite slice_app; [by rewrite app_nil_r|done|lia]. }
  cbn [mbind option_bind]. rewrite splice_put by lia. cbn [mbind option_bind]. eexists. split; [done|].
  do 7 (split; [reflexivity|]). cbn [CNReq_init_request cn_arr_hbids cn_phyLoc_rlo]. split.
  - apply (words_put (take nh (arr_hbids r))); [rewrite length_take; lia|by apply Forall_take].
  - apply (words_put (take np (phyLoc_rlo r))); [rewrite length_take; lia|by apply Forall_take].
Qed.
End Packet.

Definition DN_PACKET_BUFFER_SIZE : nat := Z.to_nat 8192.


(** ** Acknowledgements *)

Lemma splice_over W G off d :
  off = Z.of_nat (length W) -> (length d <= length G)%nat ->
  splice (W ++ G) off d = Some ((W ++ d) ++ drop (length d) G).
Proof.
  intros -> H. unfold splice. rewrite decide_True by (rewrite length_app; lia). rewrite Nat2Z.id.
  rewrite take_app_length, drop_app_ge by lia. rewrite <- app_assoc. do 4 f_equal. lia.
Qed.

Lemma splice_mid A x C off d :
  off = Z.of_nat (length A) -> length d = length x -> splice (A ++ x ++ C) off d = Some (A ++ d ++ C).
Proof.
  intros Ho H. rewrite splice_over; [|done|rewrite length_app; lia]. by rewrite H, drop_app_length, <- app_assoc.
Qed.

Definition ack_bytes (acktype nlb pid did : Z) : list Z :=
  be_bytes 8 MAGIC_NUM ++ [acktype mod 256] ++ [0] ++ be_bytes 2 nlb ++ replicate 4 0 ++
  be_bytes 4 pid ++ be_bytes 4 did ++ be_bytes 8 MAGIC_NUM.

Ltac over HA HT Hl :=
  rewrite splice_over;
  [cbn [mbind option_bind]
  |rewrite ?length_app, ?HA, ?HT, ?length_be_bytes, ?length_replicate; reflexivity
  |rewrite ?length_drop, ?length_app, ?HA, ?HT, ?length_be_bytes, ?length_replicate, ?Hl; simpl; lia].

Lemma gen_ackpkt_spec acktype nlb pid did pkt :
  length pkt = 32%nat -> DNSrv_gen_ackpkt acktype nlb pid did pkt = Some (ack_bytes acktype nlb pid did).
Proof.
  intros Hl. unfold DNSrv_gen_ackpkt, store. rewrite magic_bytes, store_htons, !store_htonl.
  set (A := be_bytes 8 MAGIC_NUM). set (T := take 4 A).
  assert (length A = 8%nat /\ length T = 4%nat) as [HA HT] by done.
  change (le_bytes 1 acktype) with [acktype mod 256]. change (le_bytes 1 0) with [0].
  rewrite <- (app_nil_l pkt). set (W := []). clearbody T.
  do 8 over HA HT Hl. rewrite !drop_drop.
  rewrite (drop_ge pkt) by (rewrite ?HA, ?HT, ?length_be_bytes, ?length_replicate, Hl; simpl; lia).
  unfold W. rewrite app_nil_l, app_nil_r.
  set (P := (((A ++ [acktype mod 256]) ++ [0]) ++ be_bytes 2 nlb) ++ replicate 4 0).
  rewrite <- (app_assoc _ T A). rewrite <- (app_assoc P T (T ++ A)).
  assert (length P = 16%nat) as HP by (unfold P; rewrite !length_app, HA, length_be_bytes; done).
  rewrite splice_mid; [|by rewrite HP|by rewrite length_be_bytes, HT]. cbn [mbind option_bind].
  rewrite (app_assoc P). rewrite splice_mid; [|rewrite length_app, HP, length_be_bytes; done|by rewrite length_be_bytes, HT].
  unfold P. by rewrite <- !app_assoc.
Qed.

(** The client node reads the acknowledgement that the datanode wrote, for every kind of
    answer, number of blocks and pair of request identifiers, whatever the memory of the
    packet held before. *)
Theorem dn_ack_roundtrip (acktype nlb pid did : Z) (pkt : list Z) :
  0 <= acktype < 2 ^ 8 -> 0 <= nlb < 2 ^ 16 -> is_u32 pid -> is_u32 did -> length pkt = 32%nat ->
  DNSrv_gen_ackpkt acktype nlb pid did pkt ≫= DNProto_ReqAck_ntoh =
    Some {| rs_magic_num1 := MAGIC_NUM; responseType := acktype; num_of_lb := nlb; pReqID := pid; dnid := did;
            rs_magic_num2 := MAGIC_NUM |}.
Proof.
  intros Ha Hn Hp Hd Hl. rewrite gen_ackpkt_spec by done. cbn [mbind option_bind]. unfold DNProto_ReqAck_ntoh.
  set (l := ack_bytes acktype nlb pid did).
  assert (load 0 8 l = Some (le_val (be_bytes 8 MAGIC_NUM))) as -> by (unfold l, ack_bytes; load_field).
  assert (load 8 1 l = Some (le_val [acktype mod 256])) as -> by (unfold l, ack_bytes; load_field).
  assert (load 9 1 l = Some (le_val [0])) as -> by (unfold l, ack_bytes; load_field).
  assert (load 10 2 l = Some (le_val (be_bytes 2 nlb))) as -> by (unfold l, ack_bytes; load_field).
  assert (load 16 4 l = Some (le_val (be_bytes 4 pid))) as -> by (unfold l, ack_bytes; load_field).
  assert (load 20 4 l = Some (le_val (be_bytes 4 did))) as -> by (unfold l, ack_bytes; load_field).
  assert (load 24 8 l = Some (le_val (be_bytes 8 MAGIC_NUM))) as ->.
  { unfold l, ack_bytes. rewrite <- (app_nil_r (be_bytes 8 MAGIC_NUM)) at 2. load_field. }
  cbn [mbind option_bind]. rewrite ntohs_be, !ntohl_be, ntohll_be by done. cbn [le_val].
  rewrite Z.mod_small, !Z.mul_0_r, !Z.add_0_r, Z.lor_0_r by lia. done.
Qed.

Lemma dn_ack_roundtrip_witness :
  DNSrv_gen_ackpkt 103 9 0x01020304 77 (replicate 32 0xcc) ≫= DNProto_ReqAck_ntoh =
    Some {| rs_magic_num1 := MAGIC_NUM; responseType := 103; num_of_lb := 9; pReqID := 0x01020304; dnid := 77;
            rs_magic_num2 := MAGIC_NUM |}.
Proof. apply dn_ack_roundtrip; done. Defined.

(** A write of two blocks; the fingerprint of the second one is cached.  The hash function
    repeats the first byte. *)
Definition hash_ex (block : list Z) : list Z := replicate 20 (default 0 (head block)).
Definition B_ex (i : nat) : list Z := replicate (Z.to_nat DMS_LB_SIZE) (Z.of_nat i + 1).

Definition r_ex : DNUData_Req_t :=
  {| ReqOPCode := DNUDREQ_WRITE; CallerReqID := 21; ReqID := 22; dr_num_hbids := 2; arr_hbids := [0x0102; 0x0304];
     num_phyloc := 1; phyLoc_rlo := [0x0000000500200007]; UDataSeg := [B_ex 0 ++ B_ex 1]; dn_payload_offset := 0 |}.
Definition c_ex : fp_cache_t := {| fp_map := [2]; fp_cache := replicate 20 0 ++ replicate 20 2 |}.
Definition q_ex : CNReq_t :=
  {| cn_opcode := 0; cn_num_hbids := 0; cn_pReqID := 0; cn_DNReqID := 0;
     cn_pkt_hder := {| rq_magic_num1 := 0; rq_opcode := 0; rq_num_hbids := 0; rq_num_triplets := 0; rq_nnreq_id := 0;
                       rq_dnreq_id := 0; rq_magic_num2 := 0 |};
     cn_arr_hbids := replicate 264 0; cn_phyLoc_rlo := replicate 264 0 |}.

