(* ===== verification/RadixTree.v ===== *)
(** * RadixTree: the index of the metadata cache

    Translation of lib/dms-radix-tree.c and the types of lib/dms-radix-tree.h: a
    radix tree from 64-bit indices to items, six bits per level.

    A [void *] of the source is a [ptr]: NULL, an item of the client or a node; the
    code knows from the height which of the two it has, and a dereference of NULL
    or of an item as a node is a fault ([None] in the results below).  Every node is
    referenced from one place only, so a tree is a value and the stores through the
    pointers of a path become the values the walk returns to its caller.  A height
    is a [nat] (it is at most 11, see [rt_wf]).

    The slab allocator is code of the kernel: whether [kmem_cache_alloc] delivers is
    read off the list [kmem_outcomes], on which nothing is assumed.  The theorems
    relate a tree to a finite map: insertion, deletion and the ascending scan refine
    the operations of the map, also when memory is short. *)

From stdpp Require Import sorting.
From S2P Require Import Prelude Loops.

Definition _RADIX_TREE_MAP_SHIFT : Z := 6.
Definition _RADIX_TREE_MAP_SIZE : Z := 2 ^ _RADIX_TREE_MAP_SHIFT.
Definition _RADIX_TREE_MAP_MASK : Z := _RADIX_TREE_MAP_SIZE - 1.

Definition DMS_RADIX_TREE_INDEX_BITS : Z := 8 * 8.
Definition DMS_RADIX_TREE_MAX_PATH : Z :=
  DMS_RADIX_TREE_INDEX_BITS / _RADIX_TREE_MAP_SHIFT + 2.

(** [~0ULL]. *)
Definition ULLONG_MAX : Z := 2 ^ 64 - 1.

(** The source computes the shifted value first and discards it when the bits of the
    height exceed those of the index. *)
Definition __maxindex (height : nat) : Z :=
  let tmp := u32 (Z.of_nat height * _RADIX_TREE_MAP_SHIFT) in
  if tmp >=? DMS_RADIX_TREE_INDEX_BITS then ULLONG_MAX
  else Z.shiftr (Z.shiftr ULLONG_MAX (u64 (DMS_RADIX_TREE_INDEX_BITS - tmp - 1))) 1.

(** The table filled by [radix_tree_init_maxindex]. *)
Definition height_to_maxindex : list Z :=
  __maxindex <$> seq 0 (Z.to_nat DMS_RADIX_TREE_MAX_PATH).

(** A read beyond the table is a fault. *)
Definition radix_tree_maxindex (height : nat) : option Z :=
  height_to_maxindex !! height.

(** ** Nodes and their allocation *)

#[warnings="-register-all"]
Inductive ptr (V : Type) : Type :=
| NULL
| Item (v : V)
| Node (count : Z) (slots : list (ptr V)).
Arguments NULL {V}.
Arguments Item {V} v.
Arguments Node {V} count slots.

Definition is_null {V} (p : ptr V) : bool :=
  match p with NULL => true | _ => false end.

Record radix_root (V : Type) : Type := {
  height : nat;
  gfp_blocking : bool;      (** whether [gfp_mask] allows the allocator to wait *)
  rnode : ptr V;
}.
Arguments height {V} _.
Arguments gfp_blocking {V} _.
Arguments rnode {V} _.

Definition DMS_INIT_RADIX_TREE {V} (blocking : bool) : radix_root V :=
  {| height := 0; gfp_blocking := blocking; rnode := NULL |}.

Definition set_tree {V} (h : nat) (p : ptr V) (r : radix_root V) : radix_root V :=
  {| height := h; gfp_blocking := gfp_blocking r; rnode := p |}.

(** The slab cache, the nodes preloaded for this processor and the number of nodes
    in use. *)
Record node_cache : Type := {
  kmem_outcomes : list bool;
  preload_nr : Z;
  dms_node_count : Z;
}.

Definition kmem_cache_alloc (nc : node_cache) : bool * node_cache :=
  match kmem_outcomes nc with
  | [] => (false, nc)
  | b :: l => (b, {| kmem_outcomes := l; preload_nr := preload_nr nc;
                     dms_node_count := dms_node_count nc |})
  end.

Definition new_node {V} : ptr V :=
  Node 0 (replicate (Z.to_nat _RADIX_TREE_MAP_SIZE) NULL).

Definition radix_tree_node_alloc {V} (blocking : bool) (nc : node_cache) :
    ptr V * node_cache :=
  let '(ok, nc) := kmem_cache_alloc nc in
  let '(ok, nc) :=
    if negb ok && negb blocking then
      if preload_nr nc =? 0 then (ok, nc)
      else (true, {| kmem_outcomes := kmem_outcomes nc; preload_nr := s32 (preload_nr nc - 1);
                     dms_node_count := dms_node_count nc |})
    else (ok, nc) in
  if ok then
    (new_node, {| kmem_outcomes := kmem_outcomes nc; preload_nr := preload_nr nc;
                  dms_node_count := s32 (dms_node_count nc + 1) |})
  else (NULL, nc).

Definition radix_tree_node_free {V} (node : ptr V) (nc : node_cache) : node_cache :=
  if is_null node then nc
  else {| kmem_outcomes := kmem_outcomes nc; preload_nr := preload_nr nc;
          dms_node_count := s32 (dms_node_count nc - 1) |}.

(** ** Insertion *)

(** The loop that finds the height; the table ends the search with a fault. *)
Fixpoint extend_height (fuel : nat) (h : nat) (index : Z) : option nat :=
  match fuel with
  | O => None
  | S fuel =>
      m ← radix_tree_maxindex h;
      if index >? m then extend_height fuel (S h) index else Some h
  end.

(** The loop that puts new nodes on top; [n] levels are missing. *)
Fixpoint extend_loop {V} (n : nat) (r : radix_root V) (nc : node_cache) :
    radix_root V * node_cache * Z :=
  match n with
  | O => (r, nc, 0)
  | S n =>
      match radix_tree_node_alloc (gfp_blocking r) nc with
      | (Node _ slots, nc) =>
          let node := Node 1 (<[0%nat := rnode r]> slots) in
          extend_loop n (set_tree (S (height r)) node r) nc
      | (_, nc) => (r, nc, - ENOMEM)
      end
  end.

Definition radix_tree_extend {V} (r : radix_root V) (index : Z) (nc : node_cache) :
    option (radix_root V * node_cache * Z) :=
  h ← extend_height (S (Z.to_nat DMS_RADIX_TREE_MAX_PATH)) (S (height r)) index;
  Some (if is_null (rnode r) then (set_tree h NULL r, nc, 0)
        else extend_loop (h - height r) r nc).

Definition slot_offset (index shift : Z) : nat :=
  Z.to_nat (Z.land (Z.shiftr index shift) _RADIX_TREE_MAP_MASK).

(** A pointer is stored in a slot of a node; an empty slot that is filled is
    counted. *)
Definition store_slot {V} (count : Z) (slots : list (ptr V)) (off : nat)
    (old new : ptr V) : ptr V :=
  Node (if is_null old && negb (is_null new) then u32 (count + 1) else count)
       (<[off := new]> slots).

(** The walk from [slot], [h] levels above the items.  The result is the pointer
    that now stands in the place [slot] was read from, the error, and the item that
    was replaced. *)
Fixpoint insert_walk {V} (h : nat) (shift : Z) (slot : ptr V) (index : Z) (item : V)
    (blocking : bool) (nc : node_cache) : option (ptr V * node_cache * Z * option V) :=
  match h with
  | O =>
      match slot with
      | NULL => Some (Item item, nc, 0, None)
      | Item old => Some (Item item, nc, 0, Some old)
      | Node _ _ => None
      end
  | S h' =>
      let '(slot, nc) :=
        if is_null slot then radix_tree_node_alloc blocking nc else (slot, nc) in
      match slot with
      | NULL => Some (NULL, nc, - ENOMEM, None)
      | Item _ => None
      | Node count slots =>
          let offset := slot_offset index shift in
          child ← slots !! offset;
          '(child', nc, err, replaced) ←
            insert_walk h' (u32 (shift - _RADIX_TREE_MAP_SHIFT)) child index item blocking nc;
          Some (store_slot count slots offset child child', nc, err, replaced)
      end
  end.

Definition root_shift (h : nat) : Z := u32 ((Z.of_nat h - 1) * _RADIX_TREE_MAP_SHIFT).

Definition dms_radix_tree_insert {V} (r : radix_root V) (index : Z) (item : V)
    (nc : node_cache) : option (radix_root V * node_cache * Z * option V) :=
  m ← radix_tree_maxindex (height r);
  '(r, nc, error) ←
    if index >? m then radix_tree_extend r index nc else Some (r, nc, 0);
  if negb (error =? 0) then Some (r, nc, error, None)
  else
    '(p, nc, err, replaced) ←
      insert_walk (height r) (root_shift (height r)) (rnode r) index item (gfp_blocking r) nc;
    Some (set_tree (height r) p r, nc, err, replaced).

(** ** The ascending scan *)

(** The loop over the slots of an inner node from slot [i]; [todo] are the slots from
    there on.  [inl]: the scan of the whole tree stops at this index; [inr]: the
    child found and the index it is entered with. *)
Fixpoint lookup_level {V} (todo : list (ptr V)) (shift index : Z) : Z + (ptr V * Z) :=
  match todo with
  | [] => inl index
  | p :: todo =>
      if negb (is_null p) then inr (p, index)
      else
        let index := Z.land index (Z.lnot (Z.shiftl 1 shift - 1)) in
        let index := u64 (index + Z.shiftl 1 shift) in
        if index =? 0 then inl index else lookup_level todo shift index
  end.

(** The loop over the slots of a node of the lowest level. *)
Fixpoint lookup_bottom {V} (todo : list (ptr V)) (index nr_found max_items : Z) :
    option (list V * Z) :=
  match todo with
  | [] => Some ([], index)
  | p :: todo =>
      let index := u64 (index + 1) in
      match p with
      | NULL => lookup_bottom todo index nr_found max_items
      | Item v =>
          let nr_found := u32 (nr_found + 1) in
          if nr_found =? max_items then Some ([v], index)
          else
            '(res, index) ← lookup_bottom todo index nr_found max_items;
            Some (v :: res, index)
      | Node _ _ => None
      end
  end.

Fixpoint lookup_walk {V} (h : nat) (shift : Z) (slot : ptr V) (index max_items : Z) :
    option (list V * Z) :=
  match slot with
  | Node _ slots =>
      match h with
      | O => None
      | 1%nat =>
          lookup_bottom (drop (Z.to_nat (Z.land index _RADIX_TREE_MAP_MASK)) slots)
            index 0 max_items
      | S h' =>
          match lookup_level (drop (slot_offset index shift) slots) shift index with
          | inl index => Some ([], index)
          | inr (child, index) =>
              lookup_walk h' (u32 (shift - _RADIX_TREE_MAP_SHIFT)) child index max_items
          end
      end
  | _ => None
  end.

(** The items found and the index the next search starts from. *)
Definition __lookup {V} (r : radix_root V) (index max_items : Z) : option (list V * Z) :=
  if decide (height r = 0%nat) then
    match rnode r with
    | NULL => Some ([], index)
    | Item v => Some (if index =? 0 then ([v], index) else ([], index))
    | Node _ _ => None
    end
  else lookup_walk (height r) (root_shift (height r)) (rnode r) index max_items.

(** One turn of the loop of the scan; the state is the items found and the current
    index. *)
Definition gang_step {V} (r : radix_root V) (max_index max_items : Z)
    (s : list V * Z) : (list V * Z) + option (list V) :=
  let '(results, cur_index) := s in
  let ret := Z.of_nat (length results) in
  if negb (ret <? max_items) then inr (Some results)
  else if cur_index >? max_index then inr (Some results)
  else
    match __lookup r cur_index (u32 (max_items - ret)) with
    | None => inr None
    | Some (found, next_index) =>
        let results := results ++ found in
        if next_index =? 0 then inr (Some results) else inl (results, next_index)
    end.

Definition dms_radix_tree_gang_lookup {V} (r : radix_root V) (first_index max_items : Z) :
    option (list V) :=
  max_index ← radix_tree_maxindex (height r);
  match iter_until (gang_step r max_index max_items) (2 ^ 65)%positive ([], first_index) with
  | inl _ => None
  | inr res => res
  end.

(** ** Deletion *)

(** One level less, at most [height] times. *)
Fixpoint shrink_loop {V} (h : nat) (p : ptr V) (nc : node_cache) :
    option (nat * ptr V * node_cache) :=
  match h with
  | O => Some (O, p, nc)
  | S h' =>
      match p with
      | Node count slots =>
          first ← slots !! 0%nat;
          if (count =? 1) && negb (is_null first) then
            shrink_loop h' first (radix_tree_node_free p nc)
          else Some (h, p, nc)
      | _ => None
      end
  end.

Definition radix_tree_shrink {V} (r : radix_root V) (nc : node_cache) :
    option (radix_root V * node_cache) :=
  '(h, p, nc) ← shrink_loop (height r) (rnode r) nc;
  Some (set_tree h p r, nc).

(** What happened to the place a walk was sent to: nothing to delete there, the item
    gone and the place still used ([top]: the node there lost a slot itself), or the
    place cleared. *)
Inductive delete_result (V : Type) : Type :=
| NotPresent
| Kept (v : V) (p : ptr V) (top : bool)
| Cleared (v : V).
Arguments NotPresent {V}.
Arguments Kept {V} v p top.
Arguments Cleared {V} v.

(** The walk down the path and back; the array [path] of the source is the recursion. *)
Fixpoint delete_walk {V} (h : nat) (shift : Z) (slot : ptr V) (index : Z)
    (nc : node_cache) : option (delete_result V * node_cache) :=
  match slot with
  | NULL => Some (NotPresent, nc)
  | _ =>
      match h with
      | O => match slot with Item v => Some (Cleared v, nc) | _ => None end
      | S h' =>
          match slot with
          | Node count slots =>
              let offset := slot_offset index shift in
              child ← slots !! offset;
              '(res, nc) ← delete_walk h' (u32 (shift - _RADIX_TREE_MAP_SHIFT)) child index nc;
              match res with
              | NotPresent => Some (NotPresent, nc)
              | Kept v child _ => Some (Kept v (Node count (<[offset := child]> slots)) false, nc)
              | Cleared v =>
                  let count := u32 (count - 1) in
                  let node := Node count (<[offset := NULL]> slots) in
                  if negb (count =? 0) then Some (Kept v node true, nc)
                  else Some (Cleared v, radix_tree_node_free node nc)
              end
          | _ => None
          end
      end
  end.

(** The path holds an entry per level and one for the root. *)
Definition dms_radix_tree_delete {V} (r : radix_root V) (index : Z) (nc : node_cache) :
    option (radix_root V * node_cache * option V) :=
  m ← radix_tree_maxindex (height r);
  if index >? m then Some (r, nc, None)
  else
    match height r, rnode r with
    | O, Item v => Some (set_tree O NULL r, nc, Some v)
    | O, NULL => Some (r, nc, None)
    | h, p =>
        if DMS_RADIX_TREE_MAX_PATH <=? Z.of_nat h then None
        else
          '(res, nc) ← delete_walk h (root_shift h) p index nc;
          match res with
          | NotPresent => Some (r, nc, None)
          | Kept v p top =>
              if top then
                '(r, nc) ← radix_tree_shrink (set_tree h p r) nc;
                Some (r, nc, Some v)
              else Some (set_tree h p r, nc, Some v)
          | Cleared v => Some (set_tree O NULL r, nc, Some v)
          end
    end.

(** ** Meaning of a tree

    [get] is the item a tree of height [h] holds at an index; [wf_ptr] is the shape
    the code maintains. *)

(** The six bits of the index that select a slot [h] levels above the items. *)
Definition digit (h : nat) (k : Z) : nat :=
  Z.to_nat ((k / 64 ^ Z.of_nat h) mod 64).

Fixpoint get {V} (h : nat) (p : ptr V) (k : Z) : option V :=
  match h, p with
  | O, Item v => Some v
  | S h', Node _ slots => child ← slots !! digit h' k; get h' child k
  | _, _ => None
  end.

Definition used {V} (p : ptr V) : Z := if is_null p then 0 else 1.

Fixpoint wf_ptr {V} (h : nat) (p : ptr V) : Prop :=
  match h, p with
  | _, NULL => True
  | O, Item _ => True
  | S h', Node count slots =>
      length slots = 64%nat /\ count = zsum (used <$> slots) /\ Forall (wf_ptr h') slots
  | _, _ => False
  end.

(** The number of nodes of a tree. *)
Fixpoint nodes {V} (h : nat) (p : ptr V) : Z :=
  match h, p with
  | S h', Node _ slots => 1 + zsum (nodes h' <$> slots)
  | _, _ => 0
  end.

(** The shape of a whole tree; the height fits the table. *)
Definition rt_wf {V} (r : radix_root V) : Prop :=
  (height r <= 11)%nat /\ wf_ptr (height r) (rnode r).

(** A tree that can be scanned: the top is missing at height 0 only. *)
Definition rt_sound {V} (r : radix_root V) : Prop := height r <> 0%nat -> rnode r <> NULL.

Definition root_get {V} (r : radix_root V) (k : Z) : option V :=
  if bool_decide (0 <= k < 64 ^ Z.of_nat (height r)) then get (height r) (rnode r) k else None.

(** The tree holds exactly the items of a finite map. *)
Definition rt_rep {V} (r : radix_root V) (m : gmap Z V) : Prop :=
  rt_wf r /\ forall k, m !! k = (if bool_decide (is_u64 k) then root_get r k else None).

#[global] Opaque s32.
Arguments Z.pow : simpl never.
Arguments Z.mul : simpl never.
Arguments _RADIX_TREE_MAP_SHIFT : simpl never.
Arguments zsum : simpl never.

(** ** Arithmetic of the digits *)

Lemma pow64_S h : 64 ^ Z.of_nat (S h) = 64 * 64 ^ Z.of_nat h.
Proof. rewrite Nat2Z.inj_succ, Z.pow_succ_r; lia. Qed.

Lemma pow64_pos h : 0 < 64 ^ Z.of_nat h.
Proof. apply Z.pow_pos_nonneg; lia. Qed.

Lemma pow64_2 h : 64 ^ Z.of_nat h = 2 ^ (6 * Z.of_nat h).
Proof. change 64 with (2 ^ 6). rewrite <- Z.pow_mul_r; lia. Qed.

Lemma digit_lt h k : (digit h k < 64)%nat.
Proof. unfold digit. pose proof (Z.mod_pos_bound (k / 64 ^ Z.of_nat h) 64). lia. Qed.

Lemma digit_eq h k k' :
  digit h k = digit h k' <-> (k / 64 ^ Z.of_nat h) mod 64 = (k' / 64 ^ Z.of_nat h) mod 64.
Proof.
  unfold digit. pose proof (Z.mod_pos_bound (k / 64 ^ Z.of_nat h) 64).
  pose proof (Z.mod_pos_bound (k' / 64 ^ Z.of_nat h) 64). lia.
Qed.

Lemma low_S h k :
  k mod 64 ^ Z.of_nat (S h) =
  k mod 64 ^ Z.of_nat h + 64 ^ Z.of_nat h * ((k / 64 ^ Z.of_nat h) mod 64).
Proof.
  rewrite pow64_S, Z.mul_comm. pose proof (pow64_pos h). by rewrite Z.rem_mul_r by lia.
Qed.

(** Two indices agree below level h+1 when they agree below level h and in the digit
    of level h. *)
Lemma same_low_S h k k' :
  k mod 64 ^ Z.of_nat (S h) = k' mod 64 ^ Z.of_nat (S h) <->
  digit h k = digit h k' /\ k mod 64 ^ Z.of_nat h = k' mod 64 ^ Z.of_nat h.
Proof.
  rewrite digit_eq, !low_S. pose proof (pow64_pos h) as Hp.
  pose proof (Z.mod_pos_bound k (64 ^ Z.of_nat h) Hp).
  pose proof (Z.mod_pos_bound k' (64 ^ Z.of_nat h) Hp).
  split; [|intros [-> ->]; done]. intros E.
  assert ((k / 64 ^ Z.of_nat h) mod 64 = (k' / 64 ^ Z.of_nat h) mod 64) by nia. nia.
Qed.

Lemma root_shift_S h : (h <= 11)%nat -> root_shift (S h) = 6 * Z.of_nat h.
Proof.
  intros. unfold root_shift, _RADIX_TREE_MAP_SHIFT. rewrite u32_small; unfold is_u32; lia.
Qed.

Lemma next_shift h : (h <= 11)%nat ->
  u32 (6 * Z.of_nat (S h) - _RADIX_TREE_MAP_SHIFT) = 6 * Z.of_nat h.
Proof. intros. unfold _RADIX_TREE_MAP_SHIFT. rewrite u32_small; unfold is_u32; lia. Qed.

Lemma slot_offset_digit h index : slot_offset index (6 * Z.of_nat h) = digit h index.
Proof.
  unfold slot_offset, digit, _RADIX_TREE_MAP_MASK, _RADIX_TREE_MAP_SIZE, _RADIX_TREE_MAP_SHIFT.
  change (2 ^ 6 - 1) with (Z.ones 6). rewrite Z.land_ones, Z.shiftr_div_pow2, <- pow64_2 by lia.
  done.
Qed.

Lemma maxindex_spec h : (h <= 11)%nat ->
  radix_tree_maxindex h = Some (Z.min (64 ^ Z.of_nat h - 1) (2 ^ 64 - 1)).
Proof. intros. do 12 (destruct h as [|h]; [by vm_compute|]). lia. Qed.

(** ** Sums over the slots of a node *)

Lemma used_01 {V} (p : ptr V) : 0 <= used p <= 1.
Proof. unfold used. destruct (is_null p); lia. Qed.

Lemma used_bounds {V} (l : list (ptr V)) : 0 <= zsum (used <$> l) <= Z.of_nat (length l).
Proof.
  induction l as [|p l IH]; [done|]. rewrite fmap_cons, zsum_cons, length_cons.
  pose proof (used_01 p). lia.
Qed.

Lemma used_lookup {V} (l : list (ptr V)) i p :
  l !! i = Some p -> used p <= zsum (used <$> l).
Proof.
  revert i. induction l as [|a l IH]; intros [|i] Hi; simplify_eq/=; rewrite zsum_cons.
  - pose proof (used_bounds l). lia.
  - specialize (IH _ Hi). pose proof (used_01 a). lia.
Qed.

Lemma used_zero {V} (l : list (ptr V)) :
  zsum (used <$> l) = 0 -> forall i p, l !! i = Some p -> p = NULL.
Proof.
  intros H i p Hi. pose proof (used_lookup l i p Hi) as Hu. rewrite H in Hu.
  destruct p; [done|unfold used in Hu; simpl in Hu; lia..].
Qed.

Lemma nodes_unused {V} h (l : list (ptr V)) :
  zsum (used <$> l) = 0 -> zsum (nodes h <$> l) = 0.
Proof.
  induction l as [|p l IH]; intros Hz; [done|]. pose proof (used_zero _ Hz 0%nat p eq_refl) as ->.
  rewrite fmap_cons, zsum_cons in *. unfold used at 1 in Hz. simpl in Hz. rewrite IH by lia.
  by destruct h.
Qed.

Lemma zsum_replicate x n : zsum (replicate n x) = Z.of_nat n * x.
Proof. induction n as [|n IH]; [done|]. rewrite replicate_S, zsum_cons, IH. lia. Qed.

Lemma new_node_wf {V} h : wf_ptr (S h) (@new_node V).
Proof.
  unfold new_node. cbn [wf_ptr]. split; [by rewrite length_replicate|]. split.
  - by rewrite fmap_replicate, zsum_replicate.
  - apply Forall_replicate. by destruct h.
Qed.

Lemma nodes_new_node {V} h : nodes (S h) (@new_node V) = 1.
Proof.
  unfold new_node. cbn [nodes]. rewrite fmap_replicate, zsum_replicate. by destruct h.
Qed.

Lemma get_new_node {V} h k : get (S h) (@new_node V) k = None.
Proof.
  unfold new_node. cbn [get]. rewrite lookup_replicate_2 by apply digit_lt. simpl. by destruct h.
Qed.

Lemma get_null {V} h k : get h (@NULL V) k = None.
Proof. by destruct h. Qed.

Lemma nodes_null {V} h : nodes h (@NULL V) = 0.
Proof. by destruct h. Qed.

Lemma wf_null {V} h : wf_ptr h (@NULL V).
Proof. by destruct h. Qed.

(** ** Insertion *)

(** The counter of nodes moved by [d]. *)
Definition counted (nc nc' : node_cache) (d : Z) : Prop :=
  s32 (dms_node_count nc') = s32 (dms_node_count nc + d).

Lemma counted_refl nc : counted nc nc 0.
Proof. unfold counted. f_equal. lia. Qed.

Lemma counted_trans nc1 nc2 nc3 d1 d2 d :
  counted nc1 nc2 d1 -> counted nc2 nc3 d2 -> d = d1 + d2 -> counted nc1 nc3 d.
Proof.
  unfold counted. intros H1 H2 ->. rewrite H2, <- s32_add, H1, s32_add. f_equal. lia.
Qed.

Lemma s32_idem x : s32 (s32 x) = s32 x.
Proof. transitivity (s32 (s32 x + 0)); [f_equal; lia|]. rewrite s32_add. f_equal. lia. Qed.

#[export] Hint Resolve counted_refl wf_null : disco.

Lemma node_alloc_spec {V} b nc :
  let '(p, nc') := @radix_tree_node_alloc V b nc in
  (p = new_node /\ counted nc nc' 1) \/ (p = NULL /\ counted nc nc' 0).
Proof.
  unfold radix_tree_node_alloc, kmem_cache_alloc, counted.
  destruct (kmem_outcomes nc) as [|[] l], b; simpl; bsplit; simplify_eq/=;
    rewrite ?s32_idem, ?Z.add_0_r; auto.
Qed.

Lemma node_free_counted {V} (p : ptr V) nc :
  is_null p = false -> counted nc (radix_tree_node_free p nc) (-1).
Proof. intros H. unfold radix_tree_node_free, counted. rewrite H. simpl. apply s32_idem. Qed.

Lemma store_slot_wf {V} h c (s : list (ptr V)) off old new :
  wf_ptr (S h) (Node c s) -> s !! off = Some old -> wf_ptr h new ->
  (is_null new = true -> is_null old = true) ->
  wf_ptr (S h) (store_slot c s off old new).
Proof.
  intros (Hl & Hc & Hs) Ho Hn Hnull. unfold store_slot. cbn [wf_ptr].
  rewrite length_insert, (zsum_fmap_insert _ _ _ _ _ Ho). split_and!; [done| |by apply Forall_insert].
  pose proof (used_bounds s) as Hb. rewrite Hl in Hb.
  generalize dependent (zsum (used <$> s)). intros n -> Hb. unfold used.
  destruct (is_null old) eqn:?, (is_null new) eqn:?; simpl; rewrite ?u32_small; unfold is_u32; lia.
Qed.

Lemma get_store_slot {V} h c (s : list (ptr V)) off old new k :
  s !! off = Some old ->
  get (S h) (store_slot c s off old new) k =
  if decide (digit h k = off) then get h new k else get (S h) (Node c s) k.
Proof.
  intros Ho. unfold store_slot. cbn [get]. case_decide as E.
  - rewrite E, list_lookup_insert_eq by by eapply lookup_lt_Some. done.
  - by rewrite list_lookup_insert_ne by done.
Qed.

Lemma get_slot {V} h c (s : list (ptr V)) k p :
  s !! digit h k = Some p -> get (S h) (Node c s) k = get h p k.
Proof. intros E. cbn [get]. by rewrite E. Qed.

Lemma nodes_store_slot {V} h c c' (s : list (ptr V)) off old new :
  s !! off = Some old ->
  nodes (S h) (Node c' (<[off := new]> s)) = nodes (S h) (Node c s) - nodes h old + nodes h new.
Proof. intros Ho. cbn [nodes]. rewrite (zsum_fmap_insert _ _ _ _ _ Ho). lia. Qed.

Lemma wf_lookup {V} h c (s : list (ptr V)) k :
  wf_ptr (S h) (Node c s) -> exists p, s !! digit h k = Some p /\ wf_ptr h p.
Proof.
  intros (Hl & _ & Hs). destruct (lookup_lt_is_Some_2 s (digit h k)) as [p Hp].
  { rewrite Hl. apply digit_lt. }
  exists p. split; [done|]. by eapply Forall_lookup_1.
Qed.

(** What an insertion below a place does: the item is stored under the index and
    nothing else changes, or memory ran out and the contents are as before. *)
Definition inserted {V} (h : nat) (p p' : ptr V) (index : Z) (item : V) (err : Z)
    (replaced : option V) : Prop :=
  wf_ptr h p' /\
  ((err = 0 /\ p' <> NULL /\ replaced = get h p index /\
    forall k, get h p' k =
      if decide (k mod 64 ^ Z.of_nat h = index mod 64 ^ Z.of_nat h) then Some item else get h p k) \/
   (err = - ENOMEM /\ replaced = None /\ (p <> NULL -> p' <> NULL) /\
    forall k, get h p' k = get h p k)).

Lemma inserted_slot {V} h c (s : list (ptr V)) index item p' err replaced p :
  wf_ptr (S h) (Node c s) -> s !! digit h index = Some p ->
  inserted h p p' index item err replaced ->
  inserted (S h) (Node c s) (store_slot c s (digit h index) p p') index item err replaced.
Proof.
  intros Hw Hp [Hw' Hi]. split.
  { apply store_slot_wf; try done. intros Hn. destruct p', p; try done.
    all: destruct Hi as [(_ & ? & _)|(_ & _ & H & _)]; [done|by destruct H]. }
  destruct Hi as [(-> & Hn & -> & Hg)|(-> & -> & Hn & Hg)]; [left|right]; split_and!; try done.
  - by rewrite (get_slot _ _ _ _ _ Hp).
  - intros k. rewrite (get_store_slot _ _ _ _ _ _ _ Hp), Hg.
    destruct (decide (digit h k = digit h index)) as [E|E].
    + destruct (decide (k mod 64 ^ Z.of_nat h = index mod 64 ^ Z.of_nat h)) as [E'|E'].
      * rewrite decide_True; [done|]. by apply same_low_S.
      * rewrite decide_False by (rewrite same_low_S; tauto).
        symmetry. apply get_slot. by rewrite E.
    + rewrite decide_False by (rewrite same_low_S; tauto). done.
  - intros k. rewrite (get_store_slot _ _ _ _ _ _ _ Hp), Hg. case_decide as E; [|done].
    symmetry. apply get_slot. by rewrite E.
Qed.

Lemma inserted_new_node {V} h (p' : ptr V) index item err replaced :
  inserted (S h) new_node p' index item err replaced ->
  inserted (S h) NULL p' index item err replaced.
Proof.
  intros [Hw Hi]. split; [done|].
  destruct Hi as [(-> & Hn & -> & Hg)|(-> & -> & Hn & Hg)]; [left|right]; split_and!; try done.
  - by rewrite get_new_node.
  - intros k. by rewrite Hg, get_new_node.
  - intros k. by rewrite Hg, get_new_node.
Qed.

Lemma insert_walk_spec {V} h (p : ptr V) index item b nc shift :
  wf_ptr h p -> (h <= 11)%nat -> shift = root_shift h ->
  exists p' nc' err replaced,
    insert_walk h shift p index item b nc = Some (p', nc', err, replaced) /\
    inserted h p p' index item err replaced /\
    counted nc nc' (nodes h p' - nodes h p).
Proof.
  revert p nc shift. induction h as [|h IH]; intros p nc shift Hw Hh ->.
  { destruct p; simpl in *; try done; do 4 eexists; (split; [done|]).
    all: (split; [split; [done|left]; split_and!; try done|by apply counted_refl]).
    all: intros k; by rewrite decide_True by (rewrite !Z.mod_1_r; done). }
  rewrite root_shift_S by lia.
  assert (forall c (s : list (ptr V)) nc1,
    wf_ptr (S h) (Node c s) ->
    exists p' nc' err replaced,
      (child ← s !! slot_offset index (6 * Z.of_nat h);
       '(child', nc, err, replaced) ←
         insert_walk h (u32 (6 * Z.of_nat h - _RADIX_TREE_MAP_SHIFT)) child index item b nc1;
       Some (store_slot c s (slot_offset index (6 * Z.of_nat h)) child child', nc, err, replaced))
      = Some (p', nc', err, replaced) /\
      inserted (S h) (Node c s) p' index item err replaced /\
      counted nc1 nc' (nodes (S h) p' - nodes (S h) (Node c s))) as Hnode.
  { intros c s nc1 Hws. destruct (wf_lookup _ _ _ index Hws) as (child & Hc & Hwc).
    destruct (IH child nc1 (root_shift h) Hwc) as (p' & nc' & err & rep & E & Hins & Hcnt); [lia|done|].
    exists (store_slot c s (digit h index) child p'), nc', err, rep.
    rewrite slot_offset_digit, Hc. cbn [mbind option_bind].
    replace (u32 _) with (root_shift h) by (unfold root_shift; f_equal; unfold _RADIX_TREE_MAP_SHIFT; lia).
    rewrite E. cbn [mbind option_bind]. split; [done|]. split; [by apply inserted_slot|].
    unfold store_slot. rewrite (nodes_store_slot _ c _ _ _ _ _ Hc).
    eapply counted_trans; [exact Hcnt|apply counted_refl|lia]. }
  cbn [insert_walk]. destruct p as [|v|c s]; [|done|apply (Hnode c s nc Hw)].
  simpl is_null. cbv iota. pose proof (@node_alloc_spec V b nc) as Ha.
  destruct (radix_tree_node_alloc b nc) as [p1 nc1]. destruct Ha as [[-> Ha]|[-> Ha]].
  - destruct (Hnode _ _ nc1 (new_node_wf h)) as (p' & nc' & err & rep & E & Hins & Hcnt).
    exists p', nc', err, rep. split; [exact E|]. split.
    + by apply inserted_new_node.
    + fold (@new_node V) in Hcnt. rewrite nodes_new_node in Hcnt. rewrite nodes_null.
      eapply counted_trans; [exact Ha|exact Hcnt|lia].
  - do 4 eexists. split; [done|]. split; [split; [done|right; done]|].
    eapply counted_trans; [exact Ha|apply counted_refl|lia].
Qed.

Lemma extend_height_spec fuel h index :
  0 <= index < 2 ^ 64 -> (h <= 11)%nat -> (11 - h < fuel)%nat ->
  exists h', extend_height fuel h index = Some h' /\ (h <= h' <= 11)%nat /\
             index < 64 ^ Z.of_nat h'.
Proof.
  intros Hi. revert h. induction fuel as [|fuel IH]; intros h Hh Hf; [lia|].
  cbn [extend_height]. rewrite maxindex_spec by done. cbn [mbind option_bind].
  destruct (index >? _) eqn:E; zbool; [|exists h; split_and!; auto; lia].
  destruct (decide (h = 11%nat)) as [->|Hne].
  { assert (64 ^ Z.of_nat 11 = 2 ^ 66) as Hp by done. rewrite Hp in E. lia. }
  destruct (IH (S h)) as (h' & -> & ? & ?); [lia..|]. exists h'. split_and!; auto; lia.
Qed.

(** A node put on top of a tree does not change its contents. *)
Definition lifted {V} (p : ptr V) : ptr V :=
  Node 1 (<[0%nat := p]> (replicate (Z.to_nat _RADIX_TREE_MAP_SIZE) NULL)).

Lemma lifted_wf {V} h (p : ptr V) : wf_ptr h p -> p <> NULL -> wf_ptr (S h) (lifted p).
Proof.
  intros Hw Hn. destruct (new_node_wf (V := V) h) as (Hl & Hc & Hs). unfold lifted.
  cbn [wf_ptr]. rewrite length_insert. split_and!; [done| |by apply Forall_insert].
  rewrite (zsum_fmap_insert _ _ _ NULL) by done. rewrite <- Hc. by destruct p.
Qed.

Lemma nodes_lifted {V} h (p : ptr V) : nodes (S h) (lifted p) = nodes h p + 1.
Proof.
  unfold lifted. rewrite (nodes_store_slot h 0 1 _ 0 NULL) by done.
  fold (@new_node V). rewrite nodes_new_node, nodes_null. lia.
Qed.

Lemma get_lifted {V} h (p : ptr V) k :
  0 <= k < 64 ^ Z.of_nat (S h) ->
  get (S h) (lifted p) k = if decide (k < 64 ^ Z.of_nat h) then get h p k else None.
Proof.
  intros Hk. rewrite pow64_S in Hk. pose proof (pow64_pos h) as Hp. unfold lifted. cbn [get].
  assert (0 <= k / 64 ^ Z.of_nat h < 64) as Hd.
  { split; [apply Z.div_pos; lia|apply Z.div_lt_upper_bound; lia]. }
  assert (digit h k = Z.to_nat (k / 64 ^ Z.of_nat h)) as -> by (unfold digit; by rewrite Z.mod_small).
  case_decide as E.
  - rewrite Z.div_small by lia. simpl. done.
  - assert (1 <= k / 64 ^ Z.of_nat h) by (apply Z.div_le_lower_bound; lia).
    rewrite list_lookup_insert_ne by lia. rewrite lookup_replicate_2.
    + apply get_null.
    + unfold _RADIX_TREE_MAP_SIZE, _RADIX_TREE_MAP_SHIFT. change (2 ^ 6) with 64. lia.
Qed.

Definition root_nodes {V} (r : radix_root V) : Z := nodes (height r) (rnode r).

Lemma root_get_lifted {V} (r : radix_root V) k :
  root_get (set_tree (S (height r)) (lifted (rnode r)) r) k = root_get r k.
Proof.
  unfold root_get. cbn [height rnode set_tree]. pose proof (pow64_S (height r)).
  pose proof (pow64_pos (height r)). case_bool_decide as E.
  - rewrite get_lifted by done. case_decide as E'.
    + by rewrite bool_decide_true by lia.
    + by rewrite bool_decide_false by lia.
  - by rewrite bool_decide_false by lia.
Qed.

Lemma extend_loop_spec {V} n (r : radix_root V) nc :
  (height r + n <= 11)%nat -> wf_ptr (height r) (rnode r) -> rnode r <> NULL ->
  exists r' nc' err, extend_loop n r nc = (r', nc', err) /\
    (height r' <= 11)%nat /\ wf_ptr (height r') (rnode r') /\ rnode r' <> NULL /\
    (forall k, root_get r' k = root_get r k) /\
    counted nc nc' (root_nodes r' - root_nodes r) /\
    (err = 0 /\ height r' = (height r + n)%nat \/ err = - ENOMEM).
Proof.
  revert r nc. induction n as [|n IH]; intros r nc Hh Hw Hn.
  { exists r, nc, 0. split_and!; try done; try lia.
    rewrite Z.sub_diag. apply counted_refl. }
  cbn [extend_loop]. pose proof (@node_alloc_spec V (gfp_blocking r) nc) as Ha.
  destruct (radix_tree_node_alloc (gfp_blocking r) nc) as [p1 nc1].
  destruct Ha as [[-> Ha]|[-> Ha]].
  - unfold new_node. fold (lifted (rnode r)).
    destruct (IH (set_tree (S (height r)) (lifted (rnode r)) r) nc1)
      as (r' & nc' & err & E & ? & ? & ? & Hg & Hc & Herr); [simpl; lia|by apply lifted_wf|done|].
    exists r', nc', err. split_and!; try done.
    + intros k. by rewrite Hg, root_get_lifted.
    + eapply counted_trans; [exact Ha|exact Hc|]. unfold root_nodes at 2 4.
      cbn [height rnode set_tree]. rewrite nodes_lifted. lia.
    + simpl in Herr. lia.
  - exists r, nc1, (- ENOMEM). split_and!; try done; try lia.
    by rewrite Z.sub_diag.
Qed.

Lemma root_get_mod {V} (r : radix_root V) p' index item err replaced k :
  0 <= index < 64 ^ Z.of_nat (height r) ->
  inserted (height r) (rnode r) p' index item err replaced ->
  err = 0 ->
  root_get (set_tree (height r) p' r) k = if decide (k = index) then Some item else root_get r k.
Proof.
  intros Hi [_ H] ->. destruct H as [(_ & _ & _ & Hg)|[? _]]; [|done].
  unfold root_get. cbn [height rnode set_tree]. case_bool_decide as E.
  - rewrite Hg, !Z.mod_small by done. done.
  - rewrite decide_False; [done|]. intros ->. done.
Qed.

(** The tree after the height has been settled, before the item is stored: its
    contents are those of the old tree. *)
Lemma rt_rep_get {V} (r r' : radix_root V) m :
  rt_rep r m -> rt_wf r' -> (forall k, root_get r' k = root_get r k) -> rt_rep r' m.
Proof. intros [_ Hm] Hw Hg. split; [done|]. intros k. by rewrite Hm, Hg. Qed.

(** An empty tree at any height holds nothing. *)
Lemma root_get_empty {V} (r : radix_root V) k : rnode r = NULL -> root_get r k = None.
Proof. intros E. unfold root_get. rewrite E, get_null. by destruct (bool_decide _). Qed.

(** The first part of the insertion: the tree becomes high enough for the index. *)
Lemma settle_height {V} (r : radix_root V) index nc :
  rt_wf r -> is_u64 index ->
  exists r' nc' err,
    (m ← radix_tree_maxindex (height r);
     if index >? m then radix_tree_extend r index nc else Some (r, nc, 0)) = Some (r', nc', err) /\
    (height r' <= 11)%nat /\ wf_ptr (height r') (rnode r') /\
    (rnode r = NULL <-> rnode r' = NULL) /\
    (forall k, root_get r' k = root_get r k) /\
    counted nc nc' (root_nodes r' - root_nodes r) /\
    (err = 0 /\ index < 64 ^ Z.of_nat (height r') \/ err = - ENOMEM /\ rnode r <> NULL).
Proof.
  intros (Hh & Hw) Hi. unfold is_u64 in Hi. rewrite maxindex_spec by done.
  cbn [mbind option_bind]. destruct (index >? _) eqn:E; zbool.
  2: { exists r, nc, 0. split_and!; try done; try lia. rewrite Z.sub_diag. apply counted_refl. }
  assert (height r < 11)%nat.
  { destruct (decide (height r = 11%nat)) as [Eh|]; [|lia]. exfalso.
    rewrite Eh in E. change (64 ^ Z.of_nat 11) with (2 ^ 66) in E. lia. }
  unfold radix_tree_extend.
  destruct (extend_height_spec (S (Z.to_nat DMS_RADIX_TREE_MAX_PATH)) (S (height r)) index)
    as (h' & Eh & Hh' & Hi'); [lia| lia| |].
  { change (Z.to_nat DMS_RADIX_TREE_MAX_PATH) with 12%nat. lia. }
  rewrite Eh. cbn [mbind option_bind]. destruct (is_null (rnode r)) eqn:Enull.
  - assert (rnode r = NULL) as Er by (by destruct (rnode r)).
    exists (set_tree h' NULL r), nc, 0. split_and!; try done; cbn [height rnode set_tree]; try lia.
    + apply wf_null.
    + intros k. rewrite !root_get_empty; done.
    + unfold root_nodes. rewrite Er. cbn [height rnode set_tree]. rewrite !nodes_null.
      apply counted_refl.
  - assert (rnode r <> NULL) as Er by (by destruct (rnode r)).
    destruct (extend_loop_spec (h' - height r) r nc) as (r' & nc' & err & E1 & ? & ? & ? & ? & ? & Herr);
      [lia|done|done|].
    exists r', nc', err. rewrite E1. split_and!; try done.
    destruct Herr as [[-> Ehh]| ->]; [left|by right]. split; [done|].
    rewrite Ehh. by replace (height r + (h' - height r))%nat with h' by lia.
Qed.

(** Insertion refines the insertion of a finite map: success stores the item and
    reports the item it replaced; a shortage of memory leaves the contents as they
    were.  Every node that is allocated is counted. *)
Lemma insert_spec {V} (r : radix_root V) m index item nc :
  rt_rep r m -> is_u64 index ->
  exists r' nc' err replaced,
    dms_radix_tree_insert r index item nc = Some (r', nc', err, replaced) /\
    counted nc nc' (root_nodes r' - root_nodes r) /\
    ((err = 0 /\ replaced = m !! index /\ rt_rep r' (<[index := item]> m) /\ rt_sound r') \/
     (err = - ENOMEM /\ replaced = None /\ rt_rep r' m /\ (rnode r <> NULL -> rt_sound r'))).
Proof.
  intros [Hwf Hm] Hi. unfold dms_radix_tree_insert.
  destruct (settle_height r index nc Hwf Hi)
    as (r1 & nc1 & err1 & E1 & Hh1 & Hw1 & Hn1 & Hg1 & Hc1 & Herr1).
  destruct (radix_tree_maxindex (height r)) as [mx|]; [|done].
  cbn [mbind option_bind] in E1 |- *. rewrite E1. cbn [mbind option_bind].
  destruct Herr1 as [[-> Hlt]|[-> Hr]].
  2: { cbn. exists r1, nc1, (- ENOMEM), None. split; [done|]. split; [done|]. right.
       split_and!; try done; [by apply (rt_rep_get r)|]. intros _ _ Hx. apply Hr, Hn1, Hx. }
  change (negb (0 =? 0)) with false. cbv iota.
  destruct (insert_walk_spec (height r1) (rnode r1) index item (gfp_blocking r1) nc1 _ Hw1 Hh1 eq_refl)
    as (p' & nc' & err & rep & E2 & Hins & Hc2).
  rewrite E2. cbn [mbind option_bind]. do 4 eexists. split; [done|].
  split; [eapply counted_trans; [exact Hc1|exact Hc2|unfold root_nodes; simpl; lia]|].
  unfold is_u64 in Hi. pose proof Hins as [Hw' [(-> & Hn & -> & _)|(-> & -> & Hn & Hg)]]; [left|right].
  - split_and!; try done.
    + rewrite Hm, bool_decide_true, <- Hg1 by done. unfold root_get.
      by rewrite bool_decide_true by lia.
    + split; [by split_and!|]. intros k.
      rewrite (root_get_mod r1 p' index item 0 _ k), Hg1 by (done || lia).
      destruct (decide (k = index)) as [->|Hne].
      * by rewrite lookup_insert_eq, bool_decide_true.
      * by rewrite lookup_insert_ne by done.
    + intros _. exact Hn.
  - split_and!; try done; [|intros Hr _; apply Hn; tauto]. apply (rt_rep_get r); [done| |].
    + by split_and!.
    + intros k. rewrite <- Hg1. unfold root_get. cbn [height rnode set_tree]. by rewrite Hg.
Qed.

(** ** The ascending scan *)

Definition key_lt {V} (a b : Z * V) : Prop := a.1 < b.1.

(** [L]: the bindings of [f] in [lo, hi), in ascending order. *)
Definition bindings {V} (f : Z -> option V) (lo hi : Z) (L : list (Z * V)) : Prop :=
  StronglySorted key_lt L /\ forall k v, (k, v) ∈ L <-> lo <= k < hi /\ f k = Some v.

Lemma bindings_nil {V} (f : Z -> option V) lo hi :
  (forall k, lo <= k < hi -> f k = None) -> bindings f lo hi [].
Proof.
  intros H. split; [constructor|]. intros k v. rewrite elem_of_nil. split; [done|].
  intros [Hk E]. by rewrite (H k Hk) in E.
Qed.

Lemma bindings_app {V} (f : Z -> option V) lo mid hi L1 L2 :
  lo <= mid <= hi -> bindings f lo mid L1 -> bindings f mid hi L2 ->
  bindings f lo hi (L1 ++ L2).
Proof.
  intros Hm [S1 M1] [S2 M2]. split.
  - apply StronglySorted_app; split_and!; try done. intros [k1 v1] [k2 v2] H1%M1 H2%M2.
    unfold key_lt. simpl. lia.
  - intros k v. rewrite elem_of_app, M1, M2.
    split; [intros [[? ?]|[? ?]]; (split; [lia|done])|]. intros [? ?].
    destruct (decide (k < mid)); [left|right]; (split; [lia|done]).
Qed.

Lemma bindings_ext {V} (f g : Z -> option V) lo hi L :
  (forall k, lo <= k < hi -> f k = g k) -> bindings f lo hi L -> bindings g lo hi L.
Proof.
  intros H [S1 M1]. split; [done|]. intros k v. rewrite M1.
  split; intros [? E]; (split; [done|]); [by rewrite <- H|by rewrite H].
Qed.

Lemma bindings_one {V} (f : Z -> option V) k v :
  f k = Some v -> bindings f k (k + 1) [(k, v)].
Proof.
  intros Hf. split; [repeat constructor|]. intros k' v'. rewrite list_elem_of_singleton.
  split; [intros [= -> ->]; split; [lia|done]|]. intros [? E].
  assert (k' = k) as -> by lia. congruence.
Qed.

Lemma lookup_bottom_spec {V} (f : Z -> option V) todo index nr max :
  Forall (wf_ptr 0) todo -> 0 <= index -> index + Z.of_nat (length todo) <= 2 ^ 64 ->
  0 <= nr < max -> max < 2 ^ 32 ->
  (forall j p, todo !! j = Some p -> f (index + Z.of_nat j) = get 0 p 0) ->
  exists L nx, lookup_bottom todo (u64 index) nr max = Some (snd <$> L, u64 nx) /\
    index <= nx <= index + Z.of_nat (length todo) /\ (todo <> [] -> index < nx) /\
    bindings f index nx L /\ nr + Z.of_nat (length L) <= max.
Proof.
  intros Hw. revert index nr. induction Hw as [|p todo Hp Hw IH]; intros index nr Hi Hb Hn Hm Hf.
  { exists [], index. simpl in *. split_and!; try done; try lia. apply bindings_nil. lia. }
  rewrite length_cons in *. cbn [lookup_bottom].
  assert (u64 (u64 index + 1) = u64 (index + 1)) as -> by (unfold u64; by rewrite Zplus_mod_idemp_l).
  assert (forall j p, todo !! j = Some p -> f (index + 1 + Z.of_nat j) = get 0 p 0) as Hf'.
  { intros j q Hj. rewrite <- (Hf (S j) q Hj). f_equal. lia. }
  specialize (Hf 0%nat p eq_refl) as Hf0. rewrite Z.add_0_r in Hf0.
  destruct p as [|v|]; [| |done]; simpl in Hf0.
  - destruct (IH (index + 1) nr) as (L & nx & E & ? & ? & HB & ?); try done; try lia.
    exists L, nx. split_and!; try done; try lia.
    apply (bindings_app _ index (index + 1) nx []); [lia| |done].
    apply bindings_nil. intros k ?. by replace k with index by lia.
  - rewrite (u32_small (nr + 1)) by (unfold is_u32; lia). destruct (nr + 1 =? max) eqn:E; zbool.
    + exists [(index, v)], (index + 1). split_and!; try done; try lia; [by apply bindings_one|simpl; lia].
    + destruct (IH (index + 1) (nr + 1)) as (L & nx & E1 & ? & ? & HB & ?); try done; try lia.
      rewrite E1. exists ((index, v) :: L), nx. simpl length. split_and!; try done; try lia.
      apply (bindings_app _ index (index + 1) nx [(index, v)]); [lia| |done]. by apply bindings_one.
Qed.

Lemma clear_low index h :
  0 <= h -> Z.land index (Z.lnot (Z.shiftl 1 h - 1)) = index / 2 ^ h * 2 ^ h.
Proof.
  intros. rewrite Z.shiftl_1_l, <- Z.ldiff_land.
  replace (2 ^ h - 1) with (Z.ones h) by (rewrite Z.ones_equiv; lia).
  by rewrite Z.ldiff_ones_r, Z.shiftl_mul_pow2, Z.shiftr_div_pow2 by lia.
Qed.

Lemma lookup_level_spec {V} (todo : list (ptr V)) h index B :
  B = 2 ^ h -> 0 <= h <= 60 -> is_u64 index -> (todo = [] -> index mod B = 0) ->
  match lookup_level todo h index with
  | inl next => exists nx, next = u64 nx /\
      nx = Z.min ((index / B + Z.of_nat (length todo)) * B) (2 ^ 64) /\
      forall j, (j < length todo)%nat -> (index / B + Z.of_nat j) * B < 2 ^ 64 -> todo !! j = Some NULL
  | inr (p, index') => exists j, todo !! j = Some p /\ p <> NULL /\ is_u64 index' /\
      (forall j', (j' < j)%nat -> todo !! j' = Some NULL) /\
      index' = (if decide (j = 0%nat) then index else (index / B + Z.of_nat j) * B)
  end.
Proof.
  intros HB Hh. assert (0 < B) as HBp by (subst; apply Z.pow_pos_nonneg; lia).
  assert (2 ^ 64 = 2 ^ (64 - h) * B) as HBd by (subst; rewrite <- Z.pow_add_r by lia; f_equal; lia).
  assert (0 < 2 ^ (64 - h)) by (apply Z.pow_pos_nonneg; lia).
  revert index. induction todo as [|p todo IH]; intros index Hi Hnil; unfold is_u64 in Hi.
  { simpl. exists index. specialize (Hnil eq_refl). split_and!; [by wrap_small| |simpl; lia].
    rewrite Z.add_0_r. pose proof (Z.div_mod index B). nia. }
  cbn [lookup_level]. destruct (is_null p) eqn:Ep; simpl negb; cbv iota.
  2: { exists 0%nat. split_and!; try done; [by destruct p|lia]. }
  assert (p = NULL) as -> by (by destruct p).
  rewrite clear_low, Z.shiftl_1_l, <- HB by lia.
  set (q := index / B). assert (0 <= q) by (apply Z.div_pos; lia).
  assert (q * B <= index < (q + 1) * B) by (pose proof (Z.div_mod index B); pose proof (Z.mod_pos_bound index B); nia).
  assert ((q + 1) * B <= 2 ^ 64) as Hle by nia.
  assert (0 < (q + 1) * B) as Hpos by (apply Z.mul_pos_pos; lia).
  replace (q * B + B) with ((q + 1) * B) by lia.
  destruct (u64 ((q + 1) * B) =? 0) eqn:E; zbool.
  - assert ((q + 1) * B = 2 ^ 64) as Eq.
    { destruct (decide ((q + 1) * B = 2 ^ 64)) as [|n]; [done|].
      rewrite u64_small in E; unfold is_u64; lia. }
    exists (2 ^ 64). rewrite Eq. split_and!; [done| |].
    + rewrite length_cons. nia.
    + intros [|j] Hj Hlt; [done|]. nia.
  - assert ((q + 1) * B < 2 ^ 64) as Hlt.
    { destruct (decide ((q + 1) * B = 2 ^ 64)) as [Eq|]; [|lia]. rewrite Eq in E. done. }
    rewrite u64_small in * by (unfold is_u64; nia).
    specialize (IH ((q + 1) * B)). rewrite Z.div_mul, Z.mod_mul in IH by lia.
    destruct (lookup_level todo h ((q + 1) * B)) as [next|[p' index']].
    + destruct IH as (nx & -> & Hnx & Hnull); [unfold is_u64; nia|done|].
      exists nx. split_and!; [done| |].
      * rewrite Hnx, length_cons. f_equal. f_equal. lia.
      * intros [|j] Hj Hlt'; [done|]. apply Hnull; [simpl in Hj; lia|].
        by replace (q + 1 + Z.of_nat j) with (q + Z.of_nat (S j)) by lia.
    + destruct IH as (j & Hj & Hp & Hi' & Hnull & Hix); [unfold is_u64; nia|done|].
      exists (S j). split_and!; try done; try lia.
      * intros [|j'] Hj'; [done|]. apply Hnull. lia.
      * rewrite Hix. simpl. case_decide; [subst j|]; f_equal; lia.
Qed.

(** Inside the block of [64^(h+1)] indices that contains [index], the slot of [k] is
    the slot of [index] plus the number of child blocks between them. *)
Lemma digit_in_block h index k :
  index <= k < (index / 64 ^ Z.of_nat (S h) + 1) * 64 ^ Z.of_nat (S h) ->
  let B := 64 ^ Z.of_nat h in
  digit h k = (digit h index + Z.to_nat (k / B - index / B))%nat /\ index / B <= k / B /\
  k / B < (index / 64 ^ Z.of_nat (S h) + 1) * 64 /\
  (index / 64 ^ Z.of_nat (S h)) * 64 <= index / B /\
  Z.of_nat (digit h index) = index / B - (index / 64 ^ Z.of_nat (S h)) * 64.
Proof.
  intros Hk B. pose proof (pow64_pos h) as Hp. fold B in Hp. rewrite pow64_S in *. fold B in Hk |- *.
  assert (index / (64 * B) = (index / B) / 64) as Eq by (rewrite Z.mul_comm, Z.div_div by lia; done).
  rewrite Eq in *. pose proof (Z.div_le_mono index k B). 
  pose proof (Z.div_mod (index / B) 64). pose proof (Z.mod_pos_bound (index / B) 64).
  assert (k / B < (index / B / 64 + 1) * 64) by (apply Z.div_lt_upper_bound; lia).
  assert ((k / B) mod 64 = k / B - index / B / 64 * 64) as Em.
  { symmetry. apply (Z.mod_unique _ _ (index / B / 64)); lia. }
  unfold digit. fold B. rewrite Em. split_and!; lia.
Qed.

Lemma block_end h index :
  0 <= index -> index < (index / 64 ^ Z.of_nat h + 1) * 64 ^ Z.of_nat h.
Proof.
  intros. pose proof (pow64_pos h). pose proof (Z.div_mod index (64 ^ Z.of_nat h)).
  pose proof (Z.mod_pos_bound index (64 ^ Z.of_nat h)). lia.
Qed.

(** What the search below a node returns, for the block of indices of the node. *)
Definition found {V} (h : nat) (p : ptr V) (index max : Z) (res : option (list V * Z)) : Prop :=
  exists L nx, res = Some (snd <$> L, u64 nx) /\
    index < nx <= 2 ^ 64 /\ nx <= (index / 64 ^ Z.of_nat h + 1) * 64 ^ Z.of_nat h /\
    bindings (get h p) index nx L /\ Z.of_nat (length L) <= max.

Lemma lookup_bottom_found {V} c (slots : list (ptr V)) index max :
  wf_ptr 1 (Node c slots) -> is_u64 index -> 0 < max < 2 ^ 32 ->
  found 1 (Node c slots) index max
    (lookup_bottom (drop (Z.to_nat (Z.land index _RADIX_TREE_MAP_MASK)) slots) index 0 max).
Proof.
  intros (Hl & _ & Hs) Hi Hm. unfold is_u64 in Hi.
  change (Z.to_nat (Z.land index _RADIX_TREE_MAP_MASK)) with (slot_offset index (6 * Z.of_nat 0)).
  rewrite slot_offset_digit. pose proof (digit_lt 0 index) as Hd.
  assert (index / 64 ^ Z.of_nat 1 = index / 64) as E1 by done.
  assert (digit 0 index = Z.to_nat (index mod 64)) as Ed by (unfold digit; by rewrite Z.div_1_r).
  pose proof (Z.div_mod index 64). pose proof (Z.mod_pos_bound index 64).
  destruct (lookup_bottom_spec (get 1 (Node c slots)) (drop (digit 0 index) slots) index 0 max)
    as (L & nx & E & Hnx & Hprog & HB & Hlen); try lia.
  - by apply Forall_drop.
  - rewrite length_drop, Hl. lia.
  - intros j p Hj. rewrite lookup_drop in Hj.
    assert (j < 64 - digit 0 index)%nat by (apply lookup_lt_Some in Hj; lia).
    destruct (digit_in_block 0 index (index + Z.of_nat j)) as (Hdj & _).
    { change (64 ^ Z.of_nat 1) with 64. lia. }
    rewrite !Z.div_1_r in Hdj. rewrite (get_slot 0 _ _ _ p); [by destruct p|].
    rewrite Hdj, <- Hj. f_equal. lia.
  - rewrite u64_small in E by (unfold is_u64; lia). rewrite length_drop, Hl in Hnx.
    exists L, nx. change (64 ^ Z.of_nat 1) with 64. split_and!; try done; try lia.
    apply Hprog. intros E'%(f_equal length). rewrite length_drop, Hl in E'. simpl in E'. lia.
Qed.

Lemma found_child {V} h c (slots : list (ptr V)) index index' child max j res :
  is_u64 index -> is_u64 index' -> (index / 64 ^ Z.of_nat h + Z.of_nat j) * 64 ^ Z.of_nat h <= index' ->
  index' / 64 ^ Z.of_nat h = index / 64 ^ Z.of_nat h + Z.of_nat j -> index <= index' ->
  (digit h index + j < 64)%nat ->
  slots !! (digit h index + j)%nat = Some child ->
  (forall j', (j' < j)%nat -> slots !! (digit h index + j')%nat = Some NULL) ->
  (j = 0%nat -> index' = index) -> 
  (index' = index \/ index' = (index / 64 ^ Z.of_nat h + Z.of_nat j) * 64 ^ Z.of_nat h) ->
  found h child index' max res ->
  found (S h) (Node c slots) index max res.
Proof.
  unfold is_u64. intros Hi Hi' Hge Hq Hle Hj Hc Hnull H0 Hix (L & nx & -> & Hnx & Hblk & HB & Hlen).
  set (B := 64 ^ Z.of_nat h) in *. assert (0 < B) by apply pow64_pos.
  destruct (digit_in_block h index index) as (_ & _ & _ & Hlo & Hdi).
  { split; [lia|apply block_end; lia]. }
  fold B in Hlo, Hdi.
  assert (nx <= (index / 64 ^ Z.of_nat (S h) + 1) * 64 ^ Z.of_nat (S h)) as Hnb.
  { rewrite (pow64_S h) at 2. fold B. nia. }
  assert (forall k, index <= k < nx -> get (S h) (Node c slots) k =
    if decide (k < index') then None else get h child k) as Hg.
  { intros k Hk. destruct (digit_in_block h index k) as (Hdk & Hqk & _); [lia|]. fold B in Hdk, Hqk.
    case_decide as Hlt.
    - destruct (decide (j = 0%nat)) as [->|Hj0]; [lia|].
      assert (k / B < index / B + Z.of_nat j) by (apply Z.div_lt_upper_bound; lia).
      rewrite (get_slot h _ _ _ NULL); [apply get_null|]. rewrite Hdk. apply Hnull. lia.
    - assert (k / B = index / B + Z.of_nat j) as Ek.
      { rewrite <- Hq. symmetry. pose proof (Z.div_mod k B). pose proof (Z.mod_pos_bound k B).
        apply (Z.div_unique _ _ _ (k - index' / B * B)); nia. }
      apply get_slot. rewrite Hdk, <- Hc. f_equal. lia. }
  exists L, nx. split_and!; try done; try lia.
  apply (bindings_app _ index index' nx []); [lia| |].
  - apply bindings_nil. intros k Hk. rewrite Hg by lia. by rewrite decide_True by lia.
  - eapply bindings_ext; [|exact HB]. intros k Hk. rewrite Hg by lia. by rewrite decide_False by lia.
Qed.

Lemma drop_digit_nonempty {V} h index (slots : list (ptr V)) :
  length slots = 64%nat -> drop (digit h index) slots <> [].
Proof.
  intros Hl E%(f_equal length). rewrite length_drop, Hl in E. simpl in E.
  pose proof (digit_lt h index). lia.
Qed.

(** No slot of the node from [index] on is used. *)
Lemma found_nothing {V} h c (slots : list (ptr V)) index max :
  is_u64 index -> 0 < max ->
  (forall j, (j < 64 - digit h index)%nat ->
    (index / 64 ^ Z.of_nat h + Z.of_nat j) * 64 ^ Z.of_nat h < 2 ^ 64 ->
    drop (digit h index) slots !! j = Some NULL) ->
  found (S h) (Node c slots) index max
    (Some ([], u64 (Z.min ((index / 64 ^ Z.of_nat h + Z.of_nat (64 - digit h index)) * 64 ^ Z.of_nat h)
                          (2 ^ 64)))).
Proof.
  intros Hi Hm Hnull. unfold is_u64 in Hi. pose proof (digit_lt h index) as Hd.
  set (B := 64 ^ Z.of_nat h) in *. assert (0 < B) as HB by apply pow64_pos.
  pose proof (block_end h index) as Hbe. fold B in Hbe.
  destruct (digit_in_block h index index) as (_ & _ & _ & Hlo & Hdi).
  { split; [lia|apply block_end; lia]. }
  fold B in Hlo, Hdi.
  exists [], (Z.min ((index / B + Z.of_nat (64 - digit h index)) * B) (2 ^ 64)).
  split_and!; try done; try (simpl; lia); try nia.
  - rewrite (pow64_S h) at 2. fold B. nia.
  - apply bindings_nil. intros k Hk.
    destruct (digit_in_block h index k) as (Hdk & Hqk & Hub & _).
    { rewrite (pow64_S h) at 2. fold B. nia. }
    fold B in Hdk, Hqk, Hub. rewrite (get_slot h _ _ _ NULL); [apply get_null|].
    rewrite Hdk, <- lookup_drop. apply Hnull; [lia|]. rewrite Z2Nat.id by lia.
    pose proof (Z.div_mod k B). pose proof (Z.mod_pos_bound k B). nia.
Qed.

Lemma lookup_walk_spec {V} h (p : ptr V) index max :
  wf_ptr (S h) p -> p <> NULL -> (h <= 10)%nat -> is_u64 index -> 0 < max < 2 ^ 32 ->
  found (S h) p index max (lookup_walk (S h) (6 * Z.of_nat h) p index max).
Proof.
  revert p index. induction h as [|h IH]; intros p index Hw Hn Hh Hi Hm;
    destruct p as [|v|c slots]; try done.
  { by apply lookup_bottom_found. }
  cbn [lookup_walk]. fold (@lookup_walk V). rewrite slot_offset_digit, next_shift by lia.
  pose proof Hw as (Hl & _ & Hs).
  pose proof (lookup_level_spec (drop (digit (S h) index) slots) (6 * Z.of_nat (S h)) index _
    (pow64_2 (S h))) as Hlev.
  rewrite length_drop, Hl in Hlev.
  assert (drop (digit (S h) index) slots <> []) by by apply drop_digit_nonempty.
  destruct (lookup_level _ _ index) as [next|[child index']].
  - destruct Hlev as (nx & -> & -> & Hnull); [lia|done..|]. apply found_nothing; [done|lia|done].
  - destruct Hlev as (j & Hj & Hp & Hi' & Hnull & Hix); [lia|done..|].
    set (B := 64 ^ Z.of_nat (S h)) in *. assert (0 < B) as HB by apply pow64_pos.
    assert (0 <= index) as Hi0 by (unfold is_u64 in Hi; lia).
    pose proof (block_end (S h) index Hi0) as Hbe. fold B in Hbe.
    rewrite lookup_drop in Hj.
    assert (digit (S h) index + j < 64)%nat by (apply lookup_lt_Some in Hj; lia).
    assert (wf_ptr (S h) child) as Hwc by (by eapply Forall_lookup_1 in Hj).
    assert (index' / B = index / B + Z.of_nat j) as Hq.
    { rewrite Hix. case_decide as E0; [subst; lia|]. by rewrite Z.div_mul by lia. }
    apply (found_child (S h) c slots index index' child max j); try done; fold B.
    + rewrite <- Hq. pose proof (Z.div_mod index' B). pose proof (Z.mod_pos_bound index' B). nia.
    + rewrite Hix. case_decide; [lia|]. nia.
    + intros j' Hj'. rewrite <- lookup_drop. by apply Hnull.
    + intros ->. by rewrite Hix, decide_True.
    + rewrite Hix. case_decide; auto.
    + apply IH; try done. lia.
Qed.

Lemma lookup_spec {V} (r : radix_root V) index max :
  rt_wf r -> rt_sound r -> is_u64 index -> index < 64 ^ Z.of_nat (height r) -> 0 < max < 2 ^ 32 ->
  exists L nx, __lookup r index max = Some (snd <$> L, u64 nx) /\
    index < nx <= 2 ^ 64 /\ bindings (root_get r) index nx L /\ Z.of_nat (length L) <= max.
Proof.
  intros (Hh & Hw) Hn Hi Hlt Hm. unfold __lookup, is_u64, rt_sound in *.
  case_decide as E0.
  - rewrite E0 in *. change (64 ^ Z.of_nat 0) with 1 in Hlt. assert (index = 0) as -> by lia.
    assert (forall k, root_get r k = if decide (k = 0) then get 0 (rnode r) 0 else None) as Hg.
    { intros k. unfold root_get. rewrite E0. change (64 ^ Z.of_nat 0) with 1.
      case_decide; [subst|]; [by rewrite bool_decide_true|by rewrite bool_decide_false by lia]. }
    destruct (rnode r) as [|v|]; [| |done].
    + exists [], (2 ^ 64). split_and!; try done; try (simpl; lia). apply bindings_nil.
      intros k _. rewrite Hg. by case_decide.
    + exists [(0, v)], (2 ^ 64). split_and!; try done; try (simpl; lia).
      apply (bindings_app _ 0 1 (2 ^ 64) [(0, v)] []); [lia| |].
      * apply bindings_one. by rewrite Hg.
      * apply bindings_nil. intros k Hk. rewrite Hg. by rewrite decide_False by lia.
  - destruct (height r) as [|h] eqn:Eh; [done|]. rewrite root_shift_S by lia.
    destruct (lookup_walk_spec h (rnode r) index max) as (L & nx & -> & Hnx & Hblk & HB & Hlen);
      try done; [by apply Hn|lia|].
    exists L, nx. split_and!; try done; try lia. eapply bindings_ext; [|exact HB].
    intros k Hk. unfold root_get. rewrite Eh, bool_decide_true; [done|].
    rewrite Z.div_small in Hblk; lia.
Qed.

(** *** The scan of a finite map *)

Definition key_le {V} (a b : Z * V) : Prop := a.1 <= b.1.

#[global] Instance key_le_dec {V} (a b : Z * V) : Decision (key_le a b).
Proof. unfold key_le. apply _. Defined.
#[global] Instance key_le_total {V} : Total (@key_le V).
Proof. intros a b. unfold key_le. lia. Qed.
#[global] Instance key_le_trans {V} : Transitive (@key_le V).
Proof. intros a b c. unfold key_le. lia. Qed.

Definition ascending {V} (m : gmap Z V) : list (Z * V) := merge_sort key_le (map_to_list m).

Definition scan {V} (m : gmap Z V) (first max : Z) : list V :=
  snd <$> take (Z.to_nat max) (filter (fun kv => first <= kv.1) (ascending m)).

Lemma key_lt_le {V} (L : list (Z * V)) :
  StronglySorted key_lt L -> StronglySorted key_le L.
Proof.
  induction 1 as [|x L HL IH Hx]; constructor; [done|].
  eapply Forall_impl; [exact Hx|]. unfold key_lt, key_le. lia.
Qed.

Lemma key_lt_nodup {V} (L : list (Z * V)) : StronglySorted key_lt L -> NoDup L.
Proof.
  induction 1 as [|x L HL IH Hx]; constructor; [|done]. intros Hin.
  rewrite Forall_forall in Hx. specialize (Hx x Hin). unfold key_lt in Hx. lia.
Qed.

Lemma StronglySorted_filter {A} (R : A -> A -> Prop) P `{!forall x, Decision (P x)} (l : list A) :
  StronglySorted R l -> StronglySorted R (filter P l).
Proof.
  induction 1 as [|x l Hl IH Hx]; [constructor|]. rewrite filter_cons. case_decide; [|done].
  constructor; [done|]. apply Forall_forall. intros y [_ Hy]%list_elem_of_filter.
  rewrite Forall_forall in Hx. by apply Hx.
Qed.

(** The bindings from [lo] on, in order, are unique. *)
Lemma bindings_ascending {V} (m : gmap Z V) lo L :
  (forall k v, m !! k = Some v -> k < 2 ^ 64) -> bindings (m !!.) lo (2 ^ 64) L ->
  L = filter (fun kv => lo <= kv.1) (ascending m).
Proof.
  intros Hu [HS HM]. pose proof (merge_sort_Permutation key_le (map_to_list m)) as HP.
  eapply (StronglySorted_unique_strong key_le).
  - intros [k1 v1] [k2 v2] [_ H1]%HM [_ H2]%list_elem_of_filter. unfold key_le. simpl. intros ? ?.
    assert (k1 = k2) as -> by lia. unfold ascending in H2. rewrite HP in H2.
    apply elem_of_map_to_list in H2. congruence.
  - by apply key_lt_le.
  - apply StronglySorted_filter. unfold ascending. apply StronglySorted_merge_sort; apply _.
  - apply NoDup_Permutation; [by apply key_lt_nodup| |].
    + apply NoDup_filter. unfold ascending. rewrite HP. apply NoDup_map_to_list.
    + intros [k v]. rewrite HM, list_elem_of_filter. unfold ascending. rewrite HP, elem_of_map_to_list.
      split; [intros [[? ?] ?]; done|]. intros [? Hk]. pose proof (Hu _ _ Hk). done.
Qed.

Lemma key_le_lt {V} (L : list (Z * V)) :
  StronglySorted key_le L -> NoDup (fst <$> L) -> StronglySorted key_lt L.
Proof.
  induction 1 as [|x L HL IH Hx]; intros HN; constructor; inversion HN as [|? ? Hnin HN']; subst.
  - by apply IH.
  - apply Forall_forall. intros y Hy. rewrite Forall_forall in Hx. specialize (Hx y Hy).
    unfold key_lt, key_le in *. assert (x.1 <> y.1); [|lia]. intros E. apply Hnin. rewrite E.
    by apply list_elem_of_fmap_2.
Qed.

Lemma ascending_bindings {V} (m : gmap Z V) lo :
  (forall k v, m !! k = Some v -> k < 2 ^ 64) ->
  bindings (m !!.) lo (2 ^ 64) (filter (fun kv => lo <= kv.1) (ascending m)).
Proof.
  intros Hu. pose proof (merge_sort_Permutation key_le (map_to_list m)) as HP. split.
  - apply StronglySorted_filter, key_le_lt.
    + unfold ascending. apply StronglySorted_merge_sort; apply _.
    + unfold ascending. rewrite HP. apply NoDup_fst_map_to_list.
  - intros k v. rewrite list_elem_of_filter. unfold ascending. rewrite HP, elem_of_map_to_list. simpl.
    split; [|intros [[? ?] ?]; done]. intros [? Hk]. by pose proof (Hu _ _ Hk).
Qed.

(** A prefix that is full, or that nothing follows, is what the scan returns. *)
Lemma scan_prefix {V} (m : gmap Z V) first max nx L :
  (forall k v, m !! k = Some v -> k < 2 ^ 64) -> first <= nx <= 2 ^ 64 ->
  bindings (m !!.) first nx L -> Z.of_nat (length L) <= max ->
  (Z.of_nat (length L) = max \/ forall k, nx <= k < 2 ^ 64 -> m !! k = None) ->
  snd <$> L = scan m first max.
Proof.
  intros Hu Hnx HB Hlen Hstop. unfold scan. f_equal.
  pose proof (ascending_bindings m nx Hu) as HT.
  rewrite <- (bindings_ascending m first (L ++ filter (fun kv => nx <= kv.1) (ascending m)));
    [|done|by eapply bindings_app].
  destruct Hstop as [Hmax|Hnone].
  - rewrite take_app_length'; [done|lia].
  - rewrite <- (bindings_ascending m nx []); [|done|by apply bindings_nil].
    rewrite app_nil_r, take_ge; [done|lia].
Qed.

(** *** The loop of the scan *)

Definition gang_inv {V} (r : radix_root V) (first max : Z) (s : list V * Z) : Prop :=
  is_u64 s.2 /\ first <= s.2 /\
  exists L, s.1 = snd <$> L /\ bindings (root_get r) first s.2 L /\ Z.of_nat (length L) <= max.

Definition gang_post {V} (r : radix_root V) (first max : Z) (res : option (list V)) : Prop :=
  exists L nx, res = Some (snd <$> L) /\ first <= nx <= 2 ^ 64 /\
    bindings (root_get r) first nx L /\ Z.of_nat (length L) <= max /\
    (Z.of_nat (length L) = max \/ forall k, nx <= k < 2 ^ 64 -> root_get r k = None).

Lemma gang_step_spec {V} (r : radix_root V) mx first max s :
  rt_wf r -> rt_sound r -> mx = Z.min (64 ^ Z.of_nat (height r) - 1) (2 ^ 64 - 1) -> is_u32 max ->
  gang_inv r first max s ->
  match gang_step r mx max s with
  | inl s' => gang_inv r first max s' /\ 0 <= 2 ^ 64 - s'.2 < 2 ^ 64 - s.2
  | inr res => gang_post r first max res
  end.
Proof.
  intros Hwf Hso -> Hmx (Hcur & Hle & L & Hs & HB & Hlen). destruct s as [results cur]; simpl in *. subst.
  unfold is_u64, is_u32 in *. rewrite length_fmap.
  destruct (Z.of_nat (length L) <? max) eqn:E1; simpl; zbool.
  2: { exists L, cur. split_and!; try done; lia. }
  destruct (cur >? _) eqn:E2; zbool.
  { exists L, cur. split_and!; try done; try lia. right. intros k Hk. unfold root_get.
    rewrite bool_decide_false; [done|]. lia. }
  rewrite u32_small by (unfold is_u32; lia).
  destruct (lookup_spec r cur (max - Z.of_nat (length L))) as (L' & nx & -> & Hnx & HB' & Hlen');
    try done; try lia.
  assert (bindings (root_get r) first nx (L ++ L')) as HB2 by (eapply bindings_app; eauto; lia).
  rewrite <- fmap_app. destruct (u64 nx =? 0) eqn:E3; zbool.
  - assert (nx = 2 ^ 64) as ->.
    { destruct (decide (nx = 2 ^ 64)); [done|]. rewrite u64_small in E3; unfold is_u64; lia. }
    exists (L ++ L'), (2 ^ 64). rewrite length_app. split_and!; try done; try lia. right. lia.
  - assert (nx < 2 ^ 64) by (destruct (decide (nx = 2 ^ 64)) as [->|]; [done|lia]).
    simpl. rewrite u64_small by (unfold is_u64; lia). split; [|lia].
    split_and!; try (unfold is_u64; simpl; lia). exists (L ++ L'). rewrite length_app. split_and!; try done; lia.
Qed.

Lemma gang_spec {V} (r : radix_root V) m first max :
  rt_rep r m -> rt_sound r -> is_u64 first -> is_u32 max ->
  dms_radix_tree_gang_lookup r first max = Some (scan m first max).
Proof.
  intros [Hwf Hm] Hso Hf Hmx. pose proof Hwf as (Hh & _). unfold dms_radix_tree_gang_lookup.
  rewrite maxindex_spec by done. cbn [mbind option_bind].
  destruct (iter_until_stops _ (gang_inv r first max) (fun s => 2 ^ 64 - s.2) (gang_post r first max)
    (2 ^ 65) ([], first) (fun s => gang_step_spec r _ first max s Hwf Hso eq_refl Hmx))
    as (res & -> & L & nx & -> & Hnx & HB & Hlen & Hstop).
  - split_and!; try done. exists []. split_and!; try done; [|unfold is_u32 in Hmx; simpl; lia].
    apply bindings_nil. simpl. lia.
  - unfold is_u64 in Hf. simpl. lia.
  - f_equal. apply (scan_prefix m first max nx L); try done.
    + intros k v Hk. rewrite Hm in Hk. case_bool_decide as Hu; [|done]. apply Hu.
    + eapply bindings_ext; [|exact HB]. intros k Hk. unfold is_u64 in Hf.
      by rewrite Hm, bool_decide_true by (unfold is_u64; lia).
    + destruct Hstop as [?|Hnone]; [by left|right]. intros k Hk. rewrite Hm.
      case_bool_decide; [by apply Hnone|done].
Qed.

(** ** Deletion *)

(** What a deletion below a place does. *)
Definition deleted {V} (h : nat) (p : ptr V) (index : Z) (nc nc' : node_cache)
    (res : delete_result V) : Prop :=
  match res with
  | NotPresent => get h p index = None /\ counted nc nc' 0
  | Kept v p' _ =>
      get h p index = Some v /\ wf_ptr h p' /\ p' <> NULL /\
      counted nc nc' (nodes h p' - nodes h p) /\
      forall k, get h p' k =
        if decide (k mod 64 ^ Z.of_nat h = index mod 64 ^ Z.of_nat h) then None else get h p k
  | Cleared v =>
      get h p index = Some v /\ counted nc nc' (- nodes h p) /\
      forall k, k mod 64 ^ Z.of_nat h <> index mod 64 ^ Z.of_nat h -> get h p k = None
  end.

(** A slot of a node is replaced by a pointer that no longer holds the index. *)
Lemma get_without {V} h c c' (s : list (ptr V)) index child child' k :
  s !! digit h index = Some child ->
  (forall k, get h child' k =
    if decide (k mod 64 ^ Z.of_nat h = index mod 64 ^ Z.of_nat h) then None else get h child k) ->
  get (S h) (Node c' (<[digit h index := child']> s)) k =
  if decide (k mod 64 ^ Z.of_nat (S h) = index mod 64 ^ Z.of_nat (S h)) then None
  else get (S h) (Node c s) k.
Proof.
  intros Hc Hg. cbn [get]. destruct (decide (digit h k = digit h index)) as [E|E].
  - rewrite E, list_lookup_insert_eq by by eapply lookup_lt_Some. rewrite Hc. cbn [mbind option_bind].
    rewrite Hg. pose proof (same_low_S h k index). repeat case_decide; tauto.
  - rewrite list_lookup_insert_ne by done. rewrite decide_False by (rewrite same_low_S; tauto). done.
Qed.

(** The last step of a node on the way back: its slot is cleared, and the node goes
    with its last slot. *)
Definition clear_slot {V} (c : Z) (s : list (ptr V)) (off : nat) (v : V) (nc : node_cache) :
    delete_result V * node_cache :=
  let count := u32 (c - 1) in
  let node := Node count (<[off := NULL]> s) in
  if negb (count =? 0) then (Kept v node true, nc)
  else (Cleared v, radix_tree_node_free node nc).

Lemma deleted_cleared {V} h c (s : list (ptr V)) index child nc nc' v :
  wf_ptr (S h) (Node c s) -> s !! digit h index = Some child ->
  deleted h child index nc nc' (Cleared v) ->
  let '(res, nc'') := clear_slot c s (digit h index) v nc' in
  deleted (S h) (Node c s) index nc nc'' res.
Proof.
  intros (Hl & Hcnt & Hs) Hc (Hv & Hcd & Hg). unfold clear_slot.
  assert (child <> NULL) as Hcn by (intros ->; by rewrite get_null in Hv).
  assert (zsum (used <$> <[digit h index := NULL]> s) = c - 1) as Hz.
  { rewrite (zsum_fmap_insert _ _ _ _ _ Hc), <- Hcnt. destruct child; try done; unfold used; simpl; lia. }
  pose proof (used_bounds (<[digit h index := NULL]> s)) as Hb. rewrite Hz, length_insert, Hl in Hb.
  cbv zeta. rewrite u32_small by (unfold is_u32; lia).
  assert (forall k, get (S h) (Node (c - 1) (<[digit h index := NULL]> s)) k =
    if decide (k mod 64 ^ Z.of_nat (S h) = index mod 64 ^ Z.of_nat (S h)) then None
    else get (S h) (Node c s) k) as Hgk.
  { intros k. apply (get_without h c (c - 1) s index child); [done|]. intros k'. rewrite get_null.
    case_decide; [done|]. by rewrite Hg. }
  pose proof (nodes_store_slot h c (c - 1) s _ child NULL Hc) as Hns. rewrite nodes_null in Hns.
  destruct (c - 1 =? 0) eqn:E; simpl negb; cbv iota; zbool; unfold deleted;
    rewrite (get_slot h c s index child Hc); split_and!; try done.
  - eapply counted_trans; [exact Hcd|by apply node_free_counted|].
    cbn [nodes] in Hns |- *. rewrite nodes_unused in Hns; lia.
  - intros k Hk. specialize (Hgk k). rewrite decide_False in Hgk by done. rewrite <- Hgk.
    destruct ((<[digit h index := NULL]> s) !! digit h k) as [q|] eqn:Eq; cbn [get]; rewrite Eq; [|done].
    rewrite E in Hz. rewrite (used_zero _ Hz _ _ Eq). cbn [mbind option_bind]. apply get_null.
  - cbn [wf_ptr]. rewrite length_insert. split_and!; try done. apply Forall_insert; auto with disco.
  - eapply counted_trans; [exact Hcd|apply counted_refl|lia].
Qed.

Lemma deleted_kept {V} h c (s : list (ptr V)) index child child' nc nc' v top :
  wf_ptr (S h) (Node c s) -> s !! digit h index = Some child ->
  deleted h child index nc nc' (Kept v child' top) ->
  deleted (S h) (Node c s) index nc nc' (Kept v (Node c (<[digit h index := child']> s)) false).
Proof.
  intros (Hl & Hcnt & Hs) Hc (Hv & Hw' & Hn & Hcd & Hg). unfold deleted.
  rewrite (get_slot h c s index child Hc). split_and!; try done.
  - cbn [wf_ptr]. rewrite length_insert, (zsum_fmap_insert _ _ _ _ _ Hc).
    split_and!; [done| |by apply Forall_insert].
    assert (child <> NULL) by (intros ->; by rewrite get_null in Hv).
    destruct child, child'; unfold used at 2 3; simpl; try done; lia.
  - rewrite (nodes_store_slot _ c _ _ _ _ _ Hc). eapply counted_trans; [exact Hcd|apply counted_refl|lia].
  - intros k. by apply (get_without h c c s index child).
Qed.

Lemma delete_walk_spec {V} h (p : ptr V) index nc :
  wf_ptr h p -> (h <= 11)%nat ->
  exists res nc', delete_walk h (root_shift h) p index nc = Some (res, nc') /\
                  deleted h p index nc nc' res.
Proof.
  revert p nc. induction h as [|h IH]; intros p nc Hw Hh.
  { destruct p as [|v|]; [| |done]; do 2 eexists; (split; [done|]); simpl.
    - split; [done|apply counted_refl].
    - split_and!; [done|apply counted_refl|]. intros k Hk. by rewrite !Z.mod_1_r in Hk. }
  destruct p as [|v|c s]; [|done|].
  { do 2 eexists. split; [done|]. split; [done|apply counted_refl]. }
  rewrite root_shift_S by lia. cbn [delete_walk]. rewrite slot_offset_digit.
  destruct (wf_lookup _ _ _ index Hw) as (child & Hc & Hwc). rewrite Hc. cbn [mbind option_bind].
  replace (u32 (6 * Z.of_nat h - _RADIX_TREE_MAP_SHIFT)) with (root_shift h)
    by (unfold root_shift; f_equal; unfold _RADIX_TREE_MAP_SHIFT; lia).
  destruct (IH child nc Hwc) as (res & nc' & -> & Hd); [lia|]. cbn [mbind option_bind].
  destruct res as [|v child' top|v].
  - do 2 eexists. split; [done|]. destruct Hd as [Hv Hcd]. split; [|done].
    by rewrite (get_slot h c s index child Hc).
  - do 2 eexists. split; [done|]. by apply (deleted_kept h c s index child child' _ _ _ top).
  - pose proof (deleted_cleared h c s index child nc nc' v Hw Hc Hd) as Hd'. unfold clear_slot in Hd'.
    cbv zeta in Hd' |- *. destruct (negb _); by do 2 eexists.
Qed.

Lemma shrink_loop_spec {V} h (p : ptr V) nc :
  wf_ptr h p -> p <> NULL ->
  exists h' p' nc', shrink_loop h p nc = Some (h', p', nc') /\
    (h' <= h)%nat /\ wf_ptr h' p' /\ p' <> NULL /\
    counted nc nc' (nodes h' p' - nodes h p) /\
    forall k, 0 <= k < 64 ^ Z.of_nat h ->
      get h p k = if decide (k < 64 ^ Z.of_nat h') then get h' p' k else None.
Proof.
  revert p nc. induction h as [|h IH]; intros p nc Hw Hn.
  { exists 0%nat, p, nc. split_and!; try done; [by rewrite Z.sub_diag; apply counted_refl|].
    intros k Hk. by rewrite decide_True by lia. }
  destruct p as [|v|c s]; try done. cbn [shrink_loop].
  pose proof Hw as (Hl & Hc & Hs).
  destruct (lookup_lt_is_Some_2 s 0%nat) as [first Hf]; [rewrite Hl; lia|]. rewrite Hf.
  cbn [mbind option_bind]. destruct ((c =? 1) && negb (is_null first)) eqn:E.
  2: { exists (S h), (Node c s), nc. split_and!; try done; [by rewrite Z.sub_diag; apply counted_refl|].
       intros k Hk. by rewrite decide_True by lia. }
  zbool. assert (first <> NULL) as Hfn by (by intros ->).
  assert (zsum (used <$> <[0%nat := NULL]> s) = 0) as Hz.
  { rewrite (zsum_fmap_insert _ _ _ _ _ Hf), <- Hc. destruct first; try done; unfold used; simpl; lia. }
  destruct (IH first (radix_tree_node_free (Node c s) nc)) as (h' & p' & nc' & E1 & Hh' & Hw' & Hn' & Hcd & Hg);
    [by eapply Forall_lookup_1|done|].
  exists h', p', nc'. split_and!; try done; [lia| |].
  - eapply counted_trans; [by apply (node_free_counted (Node c s))|exact Hcd|].
    pose proof (nodes_store_slot h c c s _ first NULL Hf) as Hns. rewrite nodes_null in Hns.
    cbn [nodes] in Hns |- *. rewrite nodes_unused in Hns; lia.
  - intros k Hk. rewrite pow64_S in Hk. pose proof (pow64_pos h) as Hp.
    destruct (decide (k < 64 ^ Z.of_nat h)) as [Hlt|Hge].
    + rewrite <- Hg by lia. apply get_slot. unfold digit. by rewrite Z.div_small by lia.
    + assert (64 ^ Z.of_nat h' <= 64 ^ Z.of_nat h) by (apply Z.pow_le_mono_r; lia).
      rewrite decide_False by lia.
      assert (1 <= k / 64 ^ Z.of_nat h < 64).
      { split; [apply Z.div_le_lower_bound; lia|apply Z.div_lt_upper_bound; lia]. }
      destruct (s !! digit h k) as [q|] eqn:Eq; cbn [get]; rewrite Eq; [|done]. cbn [mbind option_bind].
      rewrite <- (list_lookup_insert_ne s 0%nat _ NULL) in Eq
        by (unfold digit; rewrite Z.mod_small by lia; lia).
      rewrite (used_zero _ Hz _ _ Eq). apply get_null.
Qed.

(** The tree without an index, when its walk is over. *)
Lemma rt_rep_delete {V} (r r' : radix_root V) m index :
  rt_rep r m -> rt_wf r' ->
  (forall k, is_u64 k -> root_get r' k = if decide (k = index) then None else root_get r k) ->
  rt_rep r' (delete index m).
Proof.
  intros [_ Hm] Hw Hg. split; [done|]. intros k. case_bool_decide as Hu.
  - rewrite Hg by done. case_decide as E; [subst; apply lookup_delete_eq|].
    by rewrite lookup_delete_ne, Hm, bool_decide_true by done.
  - destruct (decide (k = index)) as [->|]; [apply lookup_delete_eq|].
    by rewrite lookup_delete_ne, Hm, bool_decide_false by done.
Qed.

Lemma rt_rep_absent {V} (r : radix_root V) m index :
  rt_rep r m -> root_get r index = None -> m !! index = None /\ rt_rep r (delete index m).
Proof.
  intros Hr Hg. assert (m !! index = None) as E.
  { destruct Hr as [_ Hm]. rewrite Hm, Hg. by destruct (bool_decide _). }
  split; [done|]. by rewrite delete_id.
Qed.

Lemma mod_in_range h k index :
  0 <= index < 64 ^ Z.of_nat h -> 0 <= k < 64 ^ Z.of_nat h ->
  (k mod 64 ^ Z.of_nat h = index mod 64 ^ Z.of_nat h <-> k = index).
Proof. intros. by rewrite !Z.mod_small by lia. Qed.

(** The end of a deletion that leaves a tree: the height is adjusted when the top
    node lost a slot. *)
Lemma delete_kept_root {V} (r : radix_root V) m index h v p' (top : bool) nc nc1 :
  rt_rep r m -> height r = S h -> 0 <= index < 64 ^ Z.of_nat (S h) ->
  deleted (S h) (rnode r) index nc nc1 (Kept v p' top) ->
  exists r' nc',
    (if top then
       '(r, nc) ← radix_tree_shrink (set_tree (S h) p' r) nc1;
       Some (r, nc, Some v)
     else Some (set_tree (S h) p' r, nc1, Some v)) = Some (r', nc', Some v) /\
    counted nc nc' (root_nodes r' - root_nodes r) /\ rt_rep r' (delete index m) /\ rt_sound r'.
Proof.
  intros Hr Eh Hi (Hv & Hw' & Hn' & Hcd & Hg). pose proof Hr as [(Hh & _) _]. rewrite Eh in Hh.
  assert (forall k, is_u64 k -> root_get (set_tree (S h) p' r) k =
    if decide (k = index) then None else root_get r k) as Hgr.
  { intros k _. unfold root_get. cbn [height rnode set_tree]. rewrite Eh.
    case_bool_decide as Ek; [|by case_decide]. rewrite Hg.
    pose proof (mod_in_range (S h) k index). repeat case_decide; tauto || lia. }
  destruct top; cycle 1.
  { do 2 eexists. split; [done|]. unfold root_nodes. rewrite Eh. split; [done|].
    split; [|by intros _]. apply (rt_rep_delete r); [done|by split_and!|done]. }
  unfold radix_tree_shrink. cbn [height rnode set_tree].
  destruct (shrink_loop_spec (S h) p' nc1 Hw' Hn') as (h' & p2 & nc2 & -> & Hh' & Hw2 & Hn2 & Hc2 & Hg2).
  cbn [mbind option_bind]. do 2 eexists. split; [done|]. split.
  { unfold root_nodes. rewrite Eh. eapply counted_trans; [exact Hcd|exact Hc2|simpl; lia]. }
  split; [|by intros _]. apply (rt_rep_delete r); [done|split_and!; simpl; try done; lia|]. intros k Hk.
  rewrite <- Hgr by done. unfold root_get. cbn [height rnode set_tree].
  assert (64 ^ Z.of_nat h' <= 64 ^ Z.of_nat (S h)) by (apply Z.pow_le_mono_r; lia).
  destruct (decide (0 <= k < 64 ^ Z.of_nat (S h))); [|by rewrite !bool_decide_false by lia].
  rewrite (bool_decide_true (0 <= k < 64 ^ Z.of_nat (S h))), Hg2 by lia.
  case_decide; [by rewrite bool_decide_true by lia|by rewrite bool_decide_false by lia].
Qed.

(** The end of a deletion that leaves nothing. *)
Lemma rt_rep_cleared {V} (r : radix_root V) m index :
  rt_rep r m -> (forall k, 0 <= k < 64 ^ Z.of_nat (height r) -> k <> index ->
                           get (height r) (rnode r) k = None) ->
  rt_rep (set_tree 0 NULL r) (delete index m).
Proof.
  intros Hr Hg. apply (rt_rep_delete r); [done|by split_and!; simpl; try lia|]. intros k _.
  rewrite root_get_empty by done. case_decide; [done|]. unfold root_get.
  case_bool_decide; [|done]. symmetry. by apply Hg.
Qed.

(** Deletion refines the deletion of a finite map and frees the nodes it empties. *)
Lemma delete_spec {V} (r : radix_root V) m index nc :
  rt_rep r m -> is_u64 index ->
  exists r' nc', dms_radix_tree_delete r index nc = Some (r', nc', m !! index) /\
    counted nc nc' (root_nodes r' - root_nodes r) /\ rt_rep r' (delete index m) /\
    (rt_sound r -> rt_sound r').
Proof.
  intros Hr Hi. pose proof Hr as [(Hh & Hw) Hm]. unfold dms_radix_tree_delete, is_u64 in *.
  rewrite maxindex_spec by done. cbn [mbind option_bind].
  assert (root_get r index = None -> exists r' nc', Some (r, nc, None) = Some (r', nc', m !! index) /\
    counted nc nc' (root_nodes r' - root_nodes r) /\ rt_rep r' (delete index m) /\
    (rt_sound r -> rt_sound r')) as Habs.
  { intros Hg. destruct (rt_rep_absent r m index Hr Hg) as [-> ?]. exists r, nc. split_and!; try done.
    rewrite Z.sub_diag. apply counted_refl. }
  destruct (index >? _) eqn:E; zbool.
  { apply Habs. unfold root_get. rewrite bool_decide_false; [done|lia]. }
  assert (root_get r index = m !! index) as Hgi by (by rewrite Hm, bool_decide_true).
  assert (root_get r index = get (height r) (rnode r) index) as Hgg
    by (unfold root_get; by rewrite bool_decide_true by lia).
  destruct (height r) as [|h] eqn:Eh.
  - destruct (rnode r) as [|v|] eqn:Er; [by apply Habs| |done].
    rewrite <- Hgi, Hgg. do 2 eexists. split; [done|].
    split; [unfold root_nodes; rewrite Eh, Er; apply counted_refl|].
    split; [|by intros _ H]. apply rt_rep_cleared; [done|]. rewrite Eh. change (64 ^ Z.of_nat 0) with 1 in *. lia.
  - replace (DMS_RADIX_TREE_MAX_PATH <=? Z.of_nat (S h)) with false
      by (symmetry; apply Z.leb_gt; change DMS_RADIX_TREE_MAX_PATH with 12; lia).
    destruct (delete_walk_spec (S h) (rnode r) index nc Hw Hh) as (res & nc1 & E1 & Hd).
    rewrite E1. cbn [mbind option_bind]. rewrite Hgg in Hgi. destruct res as [|v p' top|v].
    + destruct Hd as [Hnone Hcd]. destruct Habs as (r' & nc' & [= <- <- Hx] & _ & Hrd & _); [by rewrite Hgg|].
      exists r, nc1. rewrite <- Hx. split_and!; try done. by rewrite Z.sub_diag.
    + rewrite <- Hgi, (proj1 Hd).
      destruct (delete_kept_root r m index h v p' top nc nc1) as (r' & nc' & ? & ? & ? & ?); try done; [lia|].
      by exists r', nc'.
    + destruct Hd as (Hv & Hcd & Hg). rewrite <- Hgi, Hv. do 2 eexists. split; [done|].
      split; [unfold root_nodes; by rewrite Eh|].
      split; [|by intros _ H]. apply rt_rep_cleared; [done|]. rewrite Eh. intros k ? ?. apply Hg. rewrite mod_in_range by lia. done.
Qed.

(** ** Sequences of operations *)

Inductive rt_op (V : Type) : Type :=
| OpInsert (index : Z) (item : V)
| OpDelete (index : Z)
| OpScan (first_index max_items : Z).
Arguments OpInsert {V} index item.
Arguments OpDelete {V} index.
Arguments OpScan {V} first_index max_items.

Inductive rt_out (V : Type) : Type :=
| OutInsert (error : Z) (replaced : option V)
| OutDelete (v : option V)
| OutScan (results : list V).
Arguments OutInsert {V} error replaced.
Arguments OutDelete {V} v.
Arguments OutScan {V} results.

Definition op_ok {V} (o : rt_op V) : Prop :=
  match o with
  | OpInsert index _ | OpDelete index => is_u64 index
  | OpScan first_index max_items => is_u64 first_index /\ is_u32 max_items
  end.

(** The outputs of a sequence of calls; a fault ends it. *)
Fixpoint rt_run {V} (ops : list (rt_op V)) (r : radix_root V) (nc : node_cache) :
    list (rt_out V) :=
  match ops with
  | [] => []
  | OpInsert index item :: ops =>
      match dms_radix_tree_insert r index item nc with
      | Some (r, nc, err, replaced) => OutInsert err replaced :: rt_run ops r nc
      | None => []
      end
  | OpDelete index :: ops =>
      match dms_radix_tree_delete r index nc with
      | Some (r, nc, v) => OutDelete v :: rt_run ops r nc
      | None => []
      end
  | OpScan first_index max_items :: ops =>
      match dms_radix_tree_gang_lookup r first_index max_items with
      | Some res => OutScan res :: rt_run ops r nc
      | None => []
      end
  end.

(** The specification: a finite map that may refuse an insertion when memory is
    short.  [sound] is lost when the empty map refuses an insertion; until the next
    insertion a scan may then end the run. *)
Inductive map_run {V} : gmap Z V -> bool -> list (rt_op V) -> list (rt_out V) -> Prop :=
| map_done m sound : map_run m sound [] []
| map_insert m sound index item ops outs :
    map_run (<[index := item]> m) true ops outs ->
    map_run m sound (OpInsert index item :: ops) (OutInsert 0 (m !! index) :: outs)
| map_refuse m sound index item ops outs :
    map_run m (sound && negb (bool_decide (m = ∅))) ops outs ->
    map_run m sound (OpInsert index item :: ops) (OutInsert (- ENOMEM) None :: outs)
| map_delete m sound index ops outs :
    map_run (delete index m) sound ops outs ->
    map_run m sound (OpDelete index :: ops) (OutDelete (m !! index) :: outs)
| map_scan m sound first_index max_items ops outs :
    map_run m sound ops outs ->
    map_run m sound (OpScan first_index max_items :: ops)
      (OutScan (scan m first_index max_items) :: outs)
| map_fault m first_index max_items ops outs :
    map_run m false (OpScan first_index max_items :: ops) outs.

Lemma rt_rep_nonempty {V} (r : radix_root V) m : rt_rep r m -> m <> ∅ -> rnode r <> NULL.
Proof.
  intros [_ Hm] Hne E. apply Hne, map_eq. intros k. rewrite Hm, (root_get_empty r k E), lookup_empty.
  by destruct (bool_decide _).
Qed.

Lemma rt_run_refines `{EqDecision V} (ops : list (rt_op V)) r nc m sound :
  rt_rep r m -> (sound = true -> rt_sound r) -> Forall op_ok ops ->
  map_run m sound ops (rt_run ops r nc).
Proof.
  intros Hr Hso Hok. revert r nc m sound Hr Hso.
  induction Hok as [|op ops Hop Hok IH]; intros r nc m sound Hr Hso.
  { constructor. }
  destruct op as [index item|index|first max]; simpl in Hop |- *.
  - destruct (insert_spec r m index item nc Hr Hop) as (r' & nc' & err & rep & -> & _ & Hres).
    destruct Hres as [(-> & -> & Hr' & ?)|(-> & -> & Hr' & Hs')]; constructor; apply IH; try done.
    intros [-> Hne%negb_true_iff%bool_decide_eq_false]%andb_true_iff.
    by apply Hs', (rt_rep_nonempty r m).
  - destruct (delete_spec r m index nc Hr Hop) as (r' & nc' & -> & _ & Hr' & Hs').
    constructor. apply IH; tauto.
  - destruct Hop as [Hf Hm]. destruct sound; [|apply map_fault].
    rewrite (gang_spec r m first max) by auto. constructor. by apply IH.
Qed.

Lemma rt_rep_empty {V} blocking : rt_rep (DMS_INIT_RADIX_TREE (V := V) blocking) ∅.
Proof.
  split; [by split_and!; simpl; try lia|]. intros k. rewrite lookup_empty, root_get_empty by done.
  by destruct (bool_decide _).
Qed.

(** C9: every sequence of insertions, deletions and ascending scans of a radix tree,
    starting with an empty one, gives the results a finite map from 64-bit indices
    gives: an insertion reports the item it replaced, a deletion the item it removed,
    a scan the first items from an index on in ascending order; no call faults and
    every scan ends.  An insertion may fail for lack of memory, which changes nothing
    (but see the next theorem for the empty tree). *)
Theorem radix_tree_refines_map `{EqDecision V} (ops : list (rt_op V)) (blocking : bool)
    (nc : node_cache) :
  Forall op_ok ops -> map_run ∅ true ops (rt_run ops (DMS_INIT_RADIX_TREE blocking) nc).
Proof. intros. apply rt_run_refines; [apply rt_rep_empty|by intros _ ?|done]. Qed.

Definition rt_demo : list (rt_op nat) :=
  [OpInsert 5000 1%nat; OpInsert (2 ^ 64 - 1) 2%nat; OpInsert 7 3%nat; OpInsert 5000 4%nat;
   OpScan 8 10; OpScan 0 2; OpDelete (2 ^ 64 - 1); OpDelete 6; OpScan 0 10].

Definition rt_demo_nc : node_cache :=
  {| kmem_outcomes := replicate 40 true; preload_nr := 0; dms_node_count := 0 |}.

Lemma radix_tree_refines_map_witness :
  map_run ∅ true rt_demo (rt_run rt_demo (DMS_INIT_RADIX_TREE false) rt_demo_nc) /\
  rt_run rt_demo (DMS_INIT_RADIX_TREE false) rt_demo_nc =
    [OutInsert 0 None; OutInsert 0 None; OutInsert 0 None; OutInsert 0 (Some 1%nat);
     OutScan [4%nat; 2%nat]; OutScan [3%nat; 4%nat]; OutDelete (Some 2%nat); OutDelete None;
     OutScan [3%nat; 4%nat]].
Proof.
  split; [|vm_compute; reflexivity]. apply (radix_tree_refines_map rt_demo false rt_demo_nc).
  repeat constructor; unfold is_u64, is_u32; lia.
Defined.

(** When the first insertion into an empty tree gets no node, it reports the
    failure but leaves a root of positive height without a node, and every later scan
    dereferences the NULL pointer. *)
Theorem radix_insert_enomem_faults {V} (index : Z) (item : V) (nc : node_cache) (l : list bool) :
  0 < index < 2 ^ 64 -> kmem_outcomes nc = false :: l ->
  exists r' nc',
    dms_radix_tree_insert (DMS_INIT_RADIX_TREE true) index item nc = Some (r', nc', - ENOMEM, None) /\
    forall first max, 0 <= first <= index -> 0 < max < 2 ^ 32 ->
      dms_radix_tree_gang_lookup r' first max = None.
Proof.
  intros Hi Hk. unfold dms_radix_tree_insert. simpl height. rewrite maxindex_spec by lia.
  cbn [mbind option_bind]. replace (index >? _) with true
    by (symmetry; rewrite Z.gtb_lt; change (64 ^ Z.of_nat 0) with 1; lia).
  unfold radix_tree_extend.
  destruct (extend_height_spec (S (Z.to_nat DMS_RADIX_TREE_MAX_PATH)) 1 index)
    as (h & Eh & Hh & Hlt); [lia|lia|change (Z.to_nat DMS_RADIX_TREE_MAX_PATH) with 12%nat; lia|].
  cbn [height DMS_INIT_RADIX_TREE]. rewrite Eh. cbn. destruct h as [|h]; [lia|]. cbn [insert_walk is_null].
  unfold radix_tree_node_alloc, kmem_cache_alloc. rewrite Hk. cbn. do 2 eexists. split; [done|].
  intros first max Hf Hm. unfold dms_radix_tree_gang_lookup. cbn [height set_tree].
  rewrite maxindex_spec by lia. cbn [mbind option_bind].
  assert (gang_step (V := V) (set_tree (S h) NULL (set_tree (S h) NULL (DMS_INIT_RADIX_TREE true)))
    (Z.min (64 ^ Z.of_nat (S h) - 1) (2 ^ 64 - 1)) max ([], first) = inr None) as E.
  { unfold gang_step. simpl length. replace (Z.of_nat 0 <? max) with true by (symmetry; apply Z.ltb_lt; lia).
    replace (first >? _) with false by (symmetry; rewrite Z.gtb_ltb; apply Z.ltb_ge; lia). done. }
  by rewrite (iter_until_first _ _ _ _ E).
Qed.

Lemma radix_insert_enomem_faults_witness :
  let nc := {| kmem_outcomes := [false]; preload_nr := 0; dms_node_count := 0 |} in
  kmem_outcomes nc = [false] /\
  exists r' nc',
    dms_radix_tree_insert (DMS_INIT_RADIX_TREE true) 300 7%nat nc = Some (r', nc', - ENOMEM, None) /\
    forall first max, 0 <= first <= 300 -> 0 < max < 2 ^ 32 ->
      dms_radix_tree_gang_lookup r' first max = None.
Proof.
  split; [reflexivity|]. eapply (radix_insert_enomem_faults 300); [lia|reflexivity].
Defined.

(** ** The index as a client sees it *)

(** What a client of the index relies on.  [A] is the state of the allocator. *)
Class OrderedIndex (T A V : Type) : Type := {
  oi_rep : T -> gmap Z V -> Prop;
  oi_sound : T -> Prop;
  oi_empty : T;
  oi_insert : T -> Z -> V -> A -> option (T * A * Z * option V);
  oi_delete : T -> Z -> A -> option (T * A * option V);
  oi_scan : T -> Z -> Z -> option (list V);
  oi_empty_ok : oi_rep oi_empty ∅ /\ oi_sound oi_empty;
  oi_nonempty t m : oi_rep t m -> m <> ∅ -> oi_sound t;
  oi_insert_ok t m k v a :
    oi_rep t m -> is_u64 k ->
    exists t' a' err old, oi_insert t k v a = Some (t', a', err, old) /\
      ((err = 0 /\ old = m !! k /\ oi_rep t' (<[k := v]> m) /\ oi_sound t') \/
       (err = - ENOMEM /\ old = None /\ oi_rep t' m));
  oi_delete_ok t m k a :
    oi_rep t m -> is_u64 k ->
    exists t' a', oi_delete t k a = Some (t', a', m !! k) /\ oi_rep t' (delete k m) /\
      (oi_sound t -> oi_sound t');
  oi_scan_ok t m first max :
    oi_rep t m -> oi_sound t -> is_u64 first -> is_u32 max ->
    oi_scan t first max = Some (scan m first max);
}.

(** The radix tree with the node cache is such an index. *)
Section radix_index.
Context {V : Type}.

Lemma radix_insert_ok (t : radix_root V) m k v a :
  rt_rep t m -> is_u64 k ->
  exists t' a' err old, dms_radix_tree_insert t k v a = Some (t', a', err, old) /\
    ((err = 0 /\ old = m !! k /\ rt_rep t' (<[k := v]> m) /\ rt_sound t') \/
     (err = - ENOMEM /\ old = None /\ rt_rep t' m)).
Proof.
  intros Hr Hk. destruct (insert_spec t m k v a Hr Hk) as (r' & nc' & err & rep & -> & _ & Hres).
  do 4 eexists. split; [done|]. destruct Hres as [?|(-> & -> & Hr' & _)]; [by left|by right].
Qed.

Lemma radix_delete_ok (t : radix_root V) m k a :
  rt_rep t m -> is_u64 k ->
  exists t' a', dms_radix_tree_delete t k a = Some (t', a', m !! k) /\ rt_rep t' (delete k m) /\
    (rt_sound t -> rt_sound t').
Proof.
  intros Hr Hk. destruct (delete_spec t m k a Hr Hk) as (r' & nc' & -> & _ & Hr').
  by do 2 eexists.
Qed.

#[global] Instance radix_index : OrderedIndex (radix_root V) node_cache V := {|
  oi_rep := rt_rep;
  oi_sound := rt_sound;
  oi_empty := DMS_INIT_RADIX_TREE false;
  oi_insert := dms_radix_tree_insert;
  oi_delete := dms_radix_tree_delete;
  oi_scan := dms_radix_tree_gang_lookup;
  oi_empty_ok := conj (rt_rep_empty false) (fun H => False_ind _ (H eq_refl));
  oi_nonempty t m Hr Hne _ := rt_rep_nonempty t m Hr Hne;
  oi_insert_ok := radix_insert_ok;
  oi_delete_ok := radix_delete_ok;
  oi_scan_ok := gang_spec;
|}.
End radix_index.
