(* ===== verification/MetaCache.v ===== *)
(** * MetaCache: the metadata cache of the volumes

    Translation of common/cache.c with the types of common/cache.h and
    common/cache_private.h (without the options DISCO_ERC_SUPPORT and
    ENABLE_PAYLOAD_CACHE_FOR_DEBUG, which are off).

    A volume has a pool: an index from block numbers to leaves, a list of the leaves in
    the order of their last use, and a bound on their number.  A leaf is an object on
    the heap that the index, the list and the users of the cache share: [leaves] is the
    store of leaves, addressed by pointers (positive integers, 0 is NULL), and an access
    to a leaf that is not allocated is a fault ([None]).  The data of a leaf is a pointer
    of the client; [freed] logs the pointers given back to it.

    The pools are reached through a hash table of 257 chains.  Every operation on a pool
    runs under the lock of the pool, every traversal of the table under the lock of the
    table.  The index is used through the class [OrderedIndex] only. *)

From S2P Require Import Prelude CommonUtil RadixTree.

Definition E2BIG : Z := 7.
Definition CACHE_POOL_HSIZE : Z := 257.
Definition MAX_FREE_VOL_RETRY : nat := 30.

Inductive cache_inval_op_t : Type :=
| INVAL_CACHE_LB
| INVAL_CACHE_VOLID
| INVAL_CACHE_COND_CHK
| INVAL_CACHE_HB.

Definition cache_inval_op_num (t : cache_inval_op_t) : Z :=
  match t with
  | INVAL_CACHE_LB => 1
  | INVAL_CACHE_VOLID => 2
  | INVAL_CACHE_COND_CHK => 3
  | INVAL_CACHE_HB => 4
  end.

(** ** Leaves *)

Record tree_leaf : Type := {
  data : Z;
  blkid : Z;
  flag_refcnt : Z;
}.

Definition set_flag_refcnt (f : Z) (l : tree_leaf) : tree_leaf :=
  {| data := data l; blkid := blkid l; flag_refcnt := f |}.

Definition tree_leaf_set_delete (l : tree_leaf) : tree_leaf :=
  set_flag_refcnt (Z.lor (flag_refcnt l) (2 ^ 31)) l.
Definition tree_leaf_is_delete (l : tree_leaf) : bool :=
  negb (Z.land (flag_refcnt l) (2 ^ 31) =? 0).
Definition tree_leaf_ref_count (l : tree_leaf) : Z :=
  Z.land (flag_refcnt l) (2 ^ 31 - 1).

Section cache.
Context {T A : Type} `{!OrderedIndex T A Z}.

(** The memory the pools share: the leaves, the pointers the allocator hands out next
    (an empty list: no memory left; [None]: this allocation fails), the count of leaves,
    the data given back, and the allocator of the index. *)
Record leaf_mem : Type := {
  leaves : gmap Z tree_leaf;
  leaf_pool : list (option Z);
  tree_leaf_cnt : Z;
  freed : list Z;
  index_mem : A;
}.

Record cache_pool_t : Type := {
  volid : Z;
  capacity : Z;
  cache_num : Z;
  cache_size : Z;
  tree : T;
  lru_list : list Z;
  ref_cnt : Z;
  m_hit : Z;
  m_miss : Z;
}.

Definition set_leaves (x : gmap Z tree_leaf) (h : leaf_mem) : leaf_mem :=
  {| leaves := x; leaf_pool := leaf_pool h; tree_leaf_cnt := tree_leaf_cnt h;
     freed := freed h; index_mem := index_mem h |}.
Definition set_index_mem (x : A) (h : leaf_mem) : leaf_mem :=
  {| leaves := leaves h; leaf_pool := leaf_pool h; tree_leaf_cnt := tree_leaf_cnt h;
     freed := freed h; index_mem := x |}.
Definition log_free (d : Z) (h : leaf_mem) : leaf_mem :=
  {| leaves := leaves h; leaf_pool := leaf_pool h; tree_leaf_cnt := tree_leaf_cnt h;
     freed := d :: freed h; index_mem := index_mem h |}.

Definition set_items (t : T) (lru : list Z) (n : Z) (c : cache_pool_t) : cache_pool_t :=
  {| volid := volid c; capacity := capacity c; cache_num := n; cache_size := cache_size c;
     tree := t; lru_list := lru; ref_cnt := ref_cnt c; m_hit := m_hit c; m_miss := m_miss c |}.
Definition set_lru (lru : list Z) (c : cache_pool_t) : cache_pool_t :=
  set_items (tree c) lru (cache_num c) c.
Definition set_cache_size (n : Z) (c : cache_pool_t) : cache_pool_t :=
  {| volid := volid c; capacity := capacity c; cache_num := cache_num c; cache_size := n;
     tree := tree c; lru_list := lru_list c; ref_cnt := ref_cnt c; m_hit := m_hit c;
     m_miss := m_miss c |}.
Definition set_ref_cnt (n : Z) (c : cache_pool_t) : cache_pool_t :=
  {| volid := volid c; capacity := capacity c; cache_num := cache_num c;
     cache_size := cache_size c; tree := tree c; lru_list := lru_list c; ref_cnt := n;
     m_hit := m_hit c; m_miss := m_miss c |}.
Definition add_stat (hit miss : Z) (c : cache_pool_t) : cache_pool_t :=
  {| volid := volid c; capacity := capacity c; cache_num := cache_num c;
     cache_size := cache_size c; tree := tree c; lru_list := lru_list c; ref_cnt := ref_cnt c;
     m_hit := u64 (m_hit c + hit); m_miss := u64 (m_miss c + miss) |}.

(** [list_del] of a leaf. *)
Definition list_del (p : Z) (l : list Z) : list Z := filter (fun q => q <> p) l.

(** A leaf with references is only reported. *)
Definition release_tree_leaf (p : Z) (h : leaf_mem) : option leaf_mem :=
  l ← leaves h !! p;
  Some (if tree_leaf_ref_count l >? 0 then h
        else {| leaves := delete p (leaves h); leaf_pool := leaf_pool h;
                tree_leaf_cnt := s32 (tree_leaf_cnt h - 1); freed := data l :: freed h;
                index_mem := index_mem h |}).

(** A leaf that has left the index and the list: it is freed, or marked for its users. *)
Definition drop_leaf (p : Z) (h : leaf_mem) : option leaf_mem :=
  l ← leaves h !! p;
  if tree_leaf_ref_count l >? 0 then
    Some (set_leaves (<[p := tree_leaf_set_delete l]> (leaves h)) h)
  else release_tree_leaf p h.

(** ** Eviction *)

(** The loop over the list from its end; [todo] are the leaves still to visit. *)
Fixpoint kick_loop (todo : list Z) (count total nr flag : Z) (md_cmp_fn : option (Z -> bool))
    (h : leaf_mem) (c : cache_pool_t) : option (leaf_mem * cache_pool_t * Z) :=
  match todo with
  | [] => Some (h, c, flag)
  | p :: todo =>
      l ← leaves h !! p;
      if match md_cmp_fn with Some f => negb (f (data l)) | None => false end then
        kick_loop todo count total nr flag md_cmp_fn h c
      else
        '(t, a, _) ← oi_delete (tree c) (blkid l) (index_mem h);
        let c := set_items t (list_del p (lru_list c)) (s32 (cache_num c - 1)) c in
        let flag :=
          if (tree_leaf_ref_count l >? 0) && (count =? -1) then 1 else flag in
        h ← drop_leaf p (set_index_mem a h);
        let nr := if count =? -1 then nr else u32 (nr + 1) in
        if negb (count =? -1) && (nr >=? total) then Some (h, c, flag)
        else kick_loop todo count total nr flag md_cmp_fn h c
  end.

Definition __kick_meta_cache (c : cache_pool_t) (count : Z) (md_cmp_fn : option (Z -> bool))
    (h : leaf_mem) : option (leaf_mem * cache_pool_t * Z) :=
  let kick total := kick_loop (reverse (lru_list c)) count total 0 0 md_cmp_fn h c in
  if (count =? -1) || (count >? cache_num c) then kick (u32 (cache_num c))
  else if (count =? 0) || (count <? -1) then Some (h, c, 0)
  else kick count.

(** The attempts that follow when leaves were still in use. *)
Fixpoint kick_retry (n : nat) (ret : Z) (h : leaf_mem) (c : cache_pool_t) :
    option (leaf_mem * cache_pool_t) :=
  match n with
  | O => Some (h, c)
  | S n =>
      if ret =? 0 then Some (h, c)
      else
        '(h, c, ret) ← __kick_meta_cache c (-1) None h;
        kick_retry n ret h c
  end.

Definition kick_pool (count : Z) (md_cmp_fn : option (Z -> bool)) (h : leaf_mem)
    (c : cache_pool_t) : option (leaf_mem * cache_pool_t) :=
  '(h, c, ret) ← __kick_meta_cache c count md_cmp_fn h;
  kick_retry MAX_FREE_VOL_RETRY ret h c.

(** ** Lookup *)

(** The loop that moves the leaves found to the places of their blocks, from the last
    result to the first, in the array that holds both. *)
Fixpoint find_loop (n : nat) (start ret_off rret : Z) (basket : list Z) (h : leaf_mem)
    (c : cache_pool_t) : option (leaf_mem * cache_pool_t * list Z * Z) :=
  match n with
  | O => Some (h, c, basket, rret)
  | S i =>
      p ← basket !! i;
      if p =? 0 then find_loop i start ret_off rret basket h c
      else
        l ← leaves h !! p;
        let j := blkid l in
        if (j >=? start) && (j <? ret_off) && negb (tree_leaf_is_delete l) then
          let basket := <[i := 0]> basket in
          let k := Z.to_nat (j - start) in
          if (k <? length basket)%nat then
            find_loop i start j (s32 (rret + 1)) (<[k := p]> basket)
              (set_leaves (<[p := set_flag_refcnt (u32 (flag_refcnt l + 1)) l]> (leaves h)) h)
              (set_lru (p :: list_del p (lru_list c)) c)
          else None
        else find_loop i start ret_off rret (<[i := 0]> basket) h c
  end.

(** The body of [cache_find] for a pool: the basket and the number of leaves in it. *)
Definition pool_find (start count : Z) (h : leaf_mem) (c : cache_pool_t) :
    option (leaf_mem * cache_pool_t * (list Z * Z)) :=
  res ← oi_scan (tree c) start count;
  let ret := Z.of_nat (length res) in
  let basket := res ++ replicate (Z.to_nat count - length res) 0 in
  if ret >? 0 then
    '(h, c, basket, rret) ← find_loop (length res) start (u64 (start + count)) 0 basket h c;
    Some (h, add_stat ret (u32 (count - ret)) c, (basket, rret))
  else Some (h, c, (replicate (Z.to_nat count) 0, 0)).

(** The body of [cache_put]. *)
Fixpoint pool_put (basket : list Z) (h : leaf_mem) : option leaf_mem :=
  match basket with
  | [] => Some h
  | p :: basket =>
      if p =? 0 then pool_put basket h
      else
        l ← leaves h !! p;
        let l := set_flag_refcnt (u32 (flag_refcnt l - 1)) l in
        let h := set_leaves (<[p := l]> (leaves h)) h in
        if negb (tree_leaf_is_delete l) then pool_put basket h
        else if tree_leaf_ref_count l >? 0 then pool_put basket h
        else h ← release_tree_leaf p h; pool_put basket h
  end.

(** ** Invalidation and update *)

(** The body of [cache_invalidate_volLB]: [n] blocks from [start + i] on. *)
Fixpoint inval_loop (n : nat) (blk : Z) (h : leaf_mem) (c : cache_pool_t) :
    option (leaf_mem * cache_pool_t) :=
  match n with
  | O => Some (h, c)
  | S n =>
      '(t, a, leaf) ← oi_delete (tree c) blk (index_mem h);
      let h := set_index_mem a h in
      match leaf with
      | None => inval_loop n (u64 (blk + 1)) h (set_items t (lru_list c) (cache_num c) c)
      | Some p =>
          let c := set_items t (list_del p (lru_list c)) (s32 (cache_num c - 1)) c in
          h ← drop_leaf p h;
          inval_loop n (u64 (blk + 1)) h c
      end
  end.

(** A new leaf: NULL, or its pointer. *)
Definition alloc_tree_leaf (l : tree_leaf) (h : leaf_mem) : option Z * leaf_mem :=
  match leaf_pool h with
  | Some p :: pool =>
      (Some p, {| leaves := <[p := l]> (leaves h); leaf_pool := pool;
                  tree_leaf_cnt := s32 (tree_leaf_cnt h + 1); freed := freed h;
                  index_mem := index_mem h |})
  | None :: pool =>
      (None, {| leaves := leaves h; leaf_pool := pool; tree_leaf_cnt := tree_leaf_cnt h;
                freed := freed h; index_mem := index_mem h |})
  | [] => (None, h)
  end.

(** The loop that enters the items of the basket; [left] is the part of the basket that
    has been visited (an entry is set to NULL when its item got no leaf), [ret] the result
    so far. *)
Fixpoint update_loop (basket left : list Z) (blk ret : Z) (h : leaf_mem) (c : cache_pool_t) :
    option (leaf_mem * cache_pool_t * (Z * list Z)) :=
  match basket with
  | [] => Some (h, c, (ret, left))
  | d :: basket =>
      match alloc_tree_leaf {| data := d; blkid := blk; flag_refcnt := 0 |} h with
      | (None, h) => update_loop basket (left ++ [0]) (u64 (blk + 1)) (- ENOMEM) (log_free d h) c
      | (Some p, h) =>
          let left := left ++ [d] in
          '(t, a, ret, old) ← oi_insert (tree c) blk p (index_mem h);
          let h := set_index_mem a h in
          if ret <? 0 then
            h ← release_tree_leaf p h;
            update_loop basket left (u64 (blk + 1)) ret h (set_items t (lru_list c) (cache_num c) c)
          else
            let c := set_items t (p :: lru_list c) (s32 (cache_num c + 1)) c in
            match old with
            | None => update_loop basket left (u64 (blk + 1)) ret h c
            | Some q =>
                let c := set_items (tree c) (list_del q (lru_list c)) (s32 (cache_num c - 1)) c in
                h ← drop_leaf q h;
                update_loop basket left (u64 (blk + 1)) ret h c
            end
      end
  end.

(** The body of [cache_update] for the items of [basket]: the result and the basket the
    caller finds afterwards. *)
Definition pool_update (start : Z) (basket : list Z) (h : leaf_mem) (c : cache_pool_t) :
    option (leaf_mem * cache_pool_t * (Z * list Z)) :=
  let count := Z.of_nat (length basket) in
  if (count >? cache_size c) || (cache_size c =? 0) then Some (h, c, (- E2BIG, basket))
  else
    let i := s32 (u32 (cache_num c + count - cache_size c)) in
    let i := if i >? s32 (cache_size c) then s32 (cache_size c) else i in
    '(h, c) ←
      (if i >? 0 then '(h, c, _) ← __kick_meta_cache c i None h; Some (h, c) else Some (h, c));
    update_loop basket [] start 0 h c.

(** ** The manager *)

Record cpool_manager_t : Type := {
  cpool_tbl : list (list cache_pool_t);
  cp_mem : leaf_mem;
}.

(** The limits of the configuration. *)
Record cache_config : Type := {
  max_meta_cache_sizes : Z;
  max_cap_cache_all_hit : Z;
}.

(** The chain of a volume. *)
Definition cpool_head (vid : Z) : nat := Z.to_nat (vid mod CACHE_POOL_HSIZE).

Definition get_chain (vid : Z) (tbl : list (list cache_pool_t)) : list cache_pool_t :=
  default [] (tbl !! cpool_head vid).

Fixpoint find_pool (vid : Z) (chain : list cache_pool_t) : option cache_pool_t :=
  match chain with
  | [] => None
  | v :: chain => if volid v =? vid then Some v else find_pool vid chain
  end.

(** The first pool of the volume in its chain is replaced. *)
Fixpoint store_pool (vid : Z) (c : cache_pool_t) (chain : list cache_pool_t) :
    list cache_pool_t :=
  match chain with
  | [] => []
  | v :: chain => if volid v =? vid then c :: chain else v :: store_pool vid c chain
  end.

Fixpoint unhash_pool (vid : Z) (chain : list cache_pool_t) : list cache_pool_t :=
  match chain with
  | [] => []
  | v :: chain => if volid v =? vid then chain else v :: unhash_pool vid chain
  end.

Definition set_chain (vid : Z) (chain : list cache_pool_t) (mgr : cpool_manager_t) :
    cpool_manager_t :=
  {| cpool_tbl := <[cpool_head vid := chain]> (cpool_tbl mgr); cp_mem := cp_mem mgr |}.

(** The pool found has one reference more. *)
Definition _find_cache_pool_nolock (vid : Z) (chain : list cache_pool_t) :
    option cache_pool_t :=
  v ← find_pool vid chain;
  Some (set_ref_cnt (s32 (ref_cnt v + 1)) v).

Definition _find_cache_pool (vid : Z) (mgr : cpool_manager_t) :
    option (cache_pool_t * cpool_manager_t) :=
  let chain := get_chain vid (cpool_tbl mgr) in
  v ← _find_cache_pool_nolock vid chain;
  Some (v, set_chain vid (store_pool vid v chain) mgr).

(** The frame of the operations on the pool of a volume: the pool is looked up, the body
    runs under its lock, the reference is dropped. *)
Definition on_pool {R} (vid : Z) (missing : R)
    (body : leaf_mem -> cache_pool_t -> option (leaf_mem * cache_pool_t * R))
    (mgr : cpool_manager_t) : option (cpool_manager_t * R) :=
  match _find_cache_pool vid mgr with
  | None => Some (mgr, missing)
  | Some (c, mgr) =>
      '(h, c, r) ← body (cp_mem mgr) c;
      let c := set_ref_cnt (s32 (ref_cnt c - 1)) c in
      let chain := store_pool vid c (get_chain vid (cpool_tbl mgr)) in
      Some ({| cpool_tbl := <[cpool_head vid := chain]> (cpool_tbl mgr); cp_mem := h |}, r)
  end.

Definition cache_find (vid start count : Z) : cpool_manager_t ->
    option (cpool_manager_t * (list Z * Z)) :=
  on_pool vid ([], - ENOENT) (pool_find start count).

Definition cache_put (vid : Z) (basket : list Z) :
    cpool_manager_t -> option (cpool_manager_t * Z) :=
  on_pool vid (- ENOENT) (fun h c => h ← pool_put basket h; Some (h, c, 0)).

Definition cache_invalidate_volLB (vid start count : Z) :
    cpool_manager_t -> option (cpool_manager_t * Z) :=
  on_pool vid 0 (fun h c => '(h, c) ← inval_loop (Z.to_nat count) start h c; Some (h, c, 0)).

Definition cache_update (vid start : Z) (basket : list Z) :
    cpool_manager_t -> option (cpool_manager_t * (Z * list Z)) :=
  on_pool vid (- ENOENT, basket) (pool_update start basket).

(** A traversal of the table in the order of the chains, with an accumulator. *)
Fixpoint each_in_chain {B} (body : leaf_mem -> B -> cache_pool_t -> option (leaf_mem * B * cache_pool_t))
    (chain : list cache_pool_t) (h : leaf_mem) (acc : B) :
    option (leaf_mem * B * list cache_pool_t) :=
  match chain with
  | [] => Some (h, acc, [])
  | v :: chain =>
      '(h, acc, v) ← body h acc v;
      '(h, acc, chain) ← each_in_chain body chain h acc;
      Some (h, acc, v :: chain)
  end.

Fixpoint each_pool {B} (body : leaf_mem -> B -> cache_pool_t -> option (leaf_mem * B * cache_pool_t))
    (tbl : list (list cache_pool_t)) (h : leaf_mem) (acc : B) :
    option (leaf_mem * B * list (list cache_pool_t)) :=
  match tbl with
  | [] => Some (h, acc, [])
  | chain :: tbl =>
      '(h, acc, chain) ← each_in_chain body chain h acc;
      '(h, acc, tbl) ← each_pool body tbl h acc;
      Some (h, acc, chain :: tbl)
  end.

Definition _cache_kick_allpool (md_cmp_fn : option (Z -> bool)) (mgr : cpool_manager_t) :
    option cpool_manager_t :=
  '(h, _, tbl) ←
    each_pool (fun h (_ : unit) v => '(h, v) ← kick_pool (-1) md_cmp_fn h v; Some (h, tt, v))
      (cpool_tbl mgr) (cp_mem mgr) tt;
  Some {| cpool_tbl := tbl; cp_mem := h |}.

(** The volume [-1] stands for all volumes. *)
Definition kick_meta_cache (vid count : Z) (md_cmp_fn : option (Z -> bool))
    (mgr : cpool_manager_t) : option cpool_manager_t :=
  if vid =? ULLONG_MAX then _cache_kick_allpool md_cmp_fn mgr
  else
    '(mgr, _) ←
      on_pool vid tt (fun h c => '(h, c) ← kick_pool count md_cmp_fn h c; Some (h, c, tt)) mgr;
    Some mgr.

(** [None] as a type: a number that is none of the operations. *)
Definition cache_invalidate (type : option cache_inval_op_t) (vid start count : Z)
    (md_cmp_fn : option (Z -> bool)) (mgr : cpool_manager_t) : option (cpool_manager_t * Z) :=
  match type with
  | Some INVAL_CACHE_LB =>
      '(mgr, _) ← cache_invalidate_volLB vid start count mgr; Some (mgr, 0)
  | Some INVAL_CACHE_VOLID => mgr ← kick_meta_cache vid (-1) None mgr; Some (mgr, 0)
  | Some INVAL_CACHE_COND_CHK =>
      match md_cmp_fn with
      | Some f => mgr ← kick_meta_cache ULLONG_MAX (-1) (Some f) mgr; Some (mgr, 0)
      | None => Some (mgr, 0)
      end
  | Some INVAL_CACHE_HB | None => Some (mgr, 0)
  end.

(** ** Sizes of the pools *)

Definition blocks_of (cap : Z) : Z := Z.shiftr cap BIT_LEN_DMS_LB_SIZE.

(** A pool that is too full is cut down. *)
Definition trim_pool (excess : Z) (h : leaf_mem) (v : cache_pool_t) :
    option (leaf_mem * cache_pool_t) :=
  '(h, v, _) ← __kick_meta_cache v excess None h; Some (h, v).

(** The accumulator: the items left and the need of the large volumes. *)
Definition small_vol (small_volSize : Z) (h : leaf_mem) (acc : Z * Z) (v : cache_pool_t) :
    option (leaf_mem * (Z * Z) * cache_pool_t) :=
  let '(cache_left, total_cache_need) := acc in
  if capacity v >? u64 small_volSize then
    Some (h, (cache_left, s64 (total_cache_need + blocks_of (capacity v))), v)
  else
    let '(v, cache_left) :=
      if cache_left >=? cache_size v then
        let n := u32 (blocks_of (capacity v)) in
        (set_cache_size n v, s64 (cache_left - n))
      else (set_cache_size (u32 cache_left) v, 0) in
    if u32 (cache_num v) >? cache_size v then
      '(h, v) ← trim_pool (s32 (cache_num v - cache_size v)) h v;
      Some (h, (cache_left, total_cache_need), v)
    else Some (h, (cache_left, total_cache_need), v).

Definition _alloc_cachePoolSize_smallVol (max_citems small_volSize : Z) (mgr : cpool_manager_t) :
    option (cpool_manager_t * (Z * Z)) :=
  '(h, acc, tbl) ← each_pool (small_vol small_volSize) (cpool_tbl mgr) (cp_mem mgr) (max_citems, 0);
  Some ({| cpool_tbl := tbl; cp_mem := h |}, acc).

(** The share is computed in unsigned 64-bit arithmetic. *)
Definition large_vol (max_citems small_volSize total_cache_need : Z) (h : leaf_mem)
    (cache_left : Z) (v : cache_pool_t) : option (leaf_mem * Z * cache_pool_t) :=
  if negb (capacity v >? u64 small_volSize) then Some (h, cache_left, v)
  else
    let cached_need :=
      if max_citems >=? total_cache_need then s32 (blocks_of (capacity v))
      else s32 (u64 (max_citems * blocks_of (capacity v)) / u64 total_cache_need) in
    let '(cached_need, cache_left) :=
      if cache_left >=? cached_need then (cached_need, s32 (cache_left - cached_need))
      else (cache_left, 0) in
    let v := set_cache_size (u32 cached_need) v in
    if cache_num v >? cached_need then
      '(h, v) ← trim_pool (s32 (cache_num v - cached_need)) h v;
      Some (h, cache_left, v)
    else Some (h, cache_left, v).

Definition _alloc_cachePoolSize_largeVol (max_citems small_volSize total_cache_need : Z)
    (mgr : cpool_manager_t) : option cpool_manager_t :=
  '(h, _, tbl) ←
    each_pool (large_vol max_citems small_volSize total_cache_need) (cpool_tbl mgr) (cp_mem mgr)
      (s32 max_citems);
  Some {| cpool_tbl := tbl; cp_mem := h |}.

Definition update_cache_pool_size (cfg : cache_config) (mgr : cpool_manager_t) :
    option cpool_manager_t :=
  '(mgr, (cache_left, total_cache_need)) ←
    _alloc_cachePoolSize_smallVol (max_meta_cache_sizes cfg) (max_cap_cache_all_hit cfg) mgr;
  _alloc_cachePoolSize_largeVol cache_left (max_cap_cache_all_hit cfg) total_cache_need mgr.

(** ** Pools come and go *)

Definition _add_cache_pool_tbl (cfg : cache_config) (v : cache_pool_t) (mgr : cpool_manager_t) :
    option (cpool_manager_t * Z) :=
  let '(mgr, ret) :=
    match _find_cache_pool (volid v) mgr with
    | None => (set_chain (volid v) (v :: get_chain (volid v) (cpool_tbl mgr)) mgr, 0)
    | Some (_, mgr) => (mgr, - EEXIST)
    end in
  mgr ← update_cache_pool_size cfg mgr;
  Some (mgr, ret).

Definition _rm_cache_pool_tbl (vid : Z) (mgr : cpool_manager_t) :
    cpool_manager_t * option cache_pool_t :=
  match _find_cache_pool vid mgr with
  | None => (mgr, None)
  | Some (found, mgr) =>
      (set_chain vid (unhash_pool vid (get_chain vid (cpool_tbl mgr))) mgr,
       Some (set_ref_cnt (s32 (ref_cnt found - 1)) found))
  end.

(** Whether the pool is freed; [later] are the values of its count at the attempts that
    follow, a second apart. *)
Definition _free_cache_pool (c : cache_pool_t) (later : list Z) : bool :=
  (ref_cnt c =? 0) || existsb (fun n => n =? 0) (take MAX_FREE_VOL_RETRY later).

(** [allocated]: whether memory for the pool was found. *)
Definition cacheMgr_create_pool (cfg : cache_config) (vid cap : Z) (allocated : bool)
    (mgr : cpool_manager_t) : option (cpool_manager_t * Z) :=
  if negb allocated then Some (mgr, - ENOMEM)
  else
    let v := {| volid := vid; capacity := cap; cache_num := 0; cache_size := u32 (blocks_of cap);
                tree := oi_empty; lru_list := []; ref_cnt := 0; m_hit := 0; m_miss := 0 |} in
    '(mgr, _) ← _add_cache_pool_tbl cfg v mgr;
    Some (mgr, 0).

(** The result tells whether the pool existed and was freed. *)
Definition cacheMgr_rel_pool (cfg : cache_config) (vid : Z) (later : list Z)
    (mgr : cpool_manager_t) : option (cpool_manager_t * option bool) :=
  mgr ← kick_meta_cache vid (-1) None mgr;
  match _rm_cache_pool_tbl vid mgr with
  | (mgr, None) => Some (mgr, None)
  | (mgr, Some c) =>
      mgr ← update_cache_pool_size cfg mgr;
      Some (mgr, Some (_free_cache_pool c later))
  end.

Definition cacheMgr_get_cachePool_size (vid : Z) :
    cpool_manager_t -> option (cpool_manager_t * (Z * Z)) :=
  on_pool vid (0, 0) (fun h c => Some (h, c, (cache_size c, cache_num c))).

Definition cacheMgr_get_num_treeleaf (mgr : cpool_manager_t) : Z := tree_leaf_cnt (cp_mem mgr).

(** Nothing is in the table of a new manager. *)
Definition cacheMgr_init_manager (h : leaf_mem) : cpool_manager_t :=
  {| cpool_tbl := replicate (Z.to_nat CACHE_POOL_HSIZE) []; cp_mem := h |}.

(** The first pool of the table is taken out and emptied, until the table is empty. *)
Fixpoint first_pool (tbl : list (list cache_pool_t)) : option cache_pool_t :=
  match tbl with
  | [] => None
  | [] :: tbl => first_pool tbl
  | (v :: _) :: _ => Some v
  end.

Fixpoint _rm_all_cache_pool_tbl (fuel : nat) (mgr : cpool_manager_t) : option cpool_manager_t :=
  match fuel with
  | O => None
  | S fuel =>
      match first_pool (cpool_tbl mgr) with
      | None => Some mgr
      | Some v =>
          let mgr := set_chain (volid v) (unhash_pool (volid v) (get_chain (volid v) (cpool_tbl mgr))) mgr in
          '(h, _) ← kick_pool (-1) None (cp_mem mgr) v;
          _rm_all_cache_pool_tbl fuel {| cpool_tbl := cpool_tbl mgr; cp_mem := h |}
      end
  end.

Definition cacheMgr_rel_manager (mgr : cpool_manager_t) : option cpool_manager_t :=
  _rm_all_cache_pool_tbl (S (length (concat (cpool_tbl mgr)))) mgr.

End cache.
