(* ===== verification/MetaCacheLRU.v ===== *)
(** * MetaCacheLRU: the metadata cache is a bounded LRU list

    The reference definition is a list of (block, data) pairs in the order of their last
    use.  The theorems relate the pools of [MetaCache] to it: lookup, update,
    invalidation and eviction act on the list as they should; no operation touches a leaf
    that is not allocated; a leaf that a user holds stays until it is put back; and every
    data pointer handed to the cache is in exactly one leaf or was given back exactly
    once. *)

From stdpp Require Import sorting.
From S2P Require Import Prelude RadixTree MetaCache.

(** ** Reference definition *)

Definition in_range (start count : Z) (kv : Z * Z) : Prop := start <= kv.1 < start + count.

#[global] Instance in_range_dec start count kv : Decision (in_range start count kv).
Proof. unfold in_range. apply _. Defined.

(** The blocks found move to the front, in ascending order. *)
Definition lru_find (start count : Z) (l : list (Z * Z)) : list (Z * Z) :=
  merge_sort key_le (filter (in_range start count) l) ++
  filter (fun kv => ~ in_range start count kv) l.

Definition lru_remove (blk : Z) (l : list (Z * Z)) : list (Z * Z) :=
  filter (fun kv => kv.1 <> blk) l.

Definition lru_inval (start count : Z) (l : list (Z * Z)) : list (Z * Z) :=
  filter (fun kv => ~ in_range start count kv) l.

(** The [n] blocks unused for the longest time go. *)
Definition lru_kick (n : nat) (l : list (Z * Z)) : list (Z * Z) := take (length l - n) l.

(** Items are entered one after the other; one that gets no memory is left out. *)
Fixpoint lru_enter (blk : Z) (ds : list (Z * bool)) (l : list (Z * Z)) : list (Z * Z) :=
  match ds with
  | [] => l
  | (d, ok) :: ds => lru_enter (blk + 1) ds (if ok then (blk, d) :: lru_remove blk l else l)
  end.

Definition lru_update (size start : Z) (ds : list (Z * bool)) (l : list (Z * Z)) : list (Z * Z) :=
  lru_enter start ds (lru_kick (length l + length ds - Z.to_nat size) l).

(** ** Flags of a leaf *)

Lemma ref_count_small f d b :
  0 <= f < 2 ^ 31 -> tree_leaf_ref_count {| data := d; blkid := b; flag_refcnt := f |} = f.
Proof.
  intros. unfold tree_leaf_ref_count. simpl. change (2 ^ 31 - 1) with (Z.ones 31).
  rewrite Z.land_ones by lia. apply Z.mod_small. lia.
Qed.

Lemma testbit_31 f : 0 <= f < 2 ^ 32 -> (Z.land f (2 ^ 31) =? 0) = (f <? 2 ^ 31).
Proof.
  intros Hf. destruct (f <? 2 ^ 31) eqn:E; zbool.
  - apply Z.eqb_eq. apply Z.bits_inj'. intros i Hi. rewrite Z.land_spec, Z.bits_0, Z.pow2_bits_eqb by lia.
    destruct (31 =? i) eqn:Ei; zbool; [subst|apply andb_false_r].
    rewrite <- (Z.mod_small f (2 ^ 31)), Z.mod_pow2_bits_high by lia. done.
  - apply Z.eqb_neq. intros E0. assert (Z.testbit (Z.land f (2 ^ 31)) 31 = true) as Hb.
    { rewrite Z.land_spec, Z.pow2_bits_true by lia. rewrite andb_true_r, Z.testbit_true by lia.
      assert (f / 2 ^ 31 = 1) as -> by (symmetry; apply (Z.div_unique _ _ _ (f - 2 ^ 31)); lia). done. }
    by rewrite E0, Z.bits_0 in Hb.
Qed.

(** A flag word is the reference count, plus 2^31 when the leaf is marked. *)
Definition leaf_state (l : tree_leaf) (refs : Z) (marked : bool) : Prop :=
  0 <= refs < 2 ^ 31 /\ flag_refcnt l = refs + (if marked then 2 ^ 31 else 0).

Lemma leaf_state_refs l r m : leaf_state l r m -> tree_leaf_ref_count l = r.
Proof.
  intros [Hr Hf]. unfold tree_leaf_ref_count. rewrite Hf. change (2 ^ 31 - 1) with (Z.ones 31).
  rewrite Z.land_ones by lia. destruct m.
  - replace (r + 2 ^ 31) with (r + 1 * 2 ^ 31) by lia. rewrite Z_mod_plus_full. apply Z.mod_small. lia.
  - rewrite Z.add_0_r. apply Z.mod_small. lia.
Qed.

Lemma leaf_state_marked l r m : leaf_state l r m -> tree_leaf_is_delete l = m.
Proof.
  intros [Hr Hf]. unfold tree_leaf_is_delete. rewrite Hf, testbit_31 by (destruct m; lia).
  destruct m.
  - apply negb_true_iff, Z.ltb_ge. lia.
  - apply negb_false_iff, Z.ltb_lt. lia.
Qed.

Lemma leaf_state_set_delete l r m : leaf_state l r m -> leaf_state (tree_leaf_set_delete l) r true.
Proof.
  intros [Hr Hf]. split; [done|]. unfold tree_leaf_set_delete, set_flag_refcnt. cbn [flag_refcnt].
  rewrite Hf. change (2 ^ 31) with (Z.shiftl 1 31) at 2. rewrite Z.lor_comm. destruct m.
  - assert (r + 2 ^ 31 = Z.lor (Z.shiftl 1 31) r) as -> by (rewrite lor_shiftl_add by lia; lia).
    rewrite Z.lor_assoc, Z.lor_diag, lor_shiftl_add by lia. lia.
  - rewrite Z.add_0_r, lor_shiftl_add by lia. lia.
Qed.

Lemma leaf_state_add l r m d :
  leaf_state l r m -> 0 <= r + d < 2 ^ 31 ->
  leaf_state (set_flag_refcnt (u32 (flag_refcnt l + d)) l) (r + d) m.
Proof.
  intros [Hr Hf] Hd. split; [done|]. unfold set_flag_refcnt. cbn [flag_refcnt]. rewrite Hf, u32_small.
  - lia.
  - unfold is_u32. destruct m; lia.
Qed.

Section inv.
Context {T A : Type} `{!OrderedIndex T A Z}.
Abbreviation mem := (leaf_mem (A := A)).
Abbreviation pool := (cache_pool_t (T := T)).

(** ** The heap of leaves

    [live] are the leaves in the lists of the pools, [refs] the references the users of
    the cache hold. *)
Record heap_inv (h : mem) (live : list Z) (refs : Z -> Z) : Prop := {
  hi_leaf p l : leaves h !! p = Some l ->
    0 < p /\ is_u64 (blkid l) /\
    exists marked : bool, leaf_state l (refs p) marked /\ (marked = false <-> p ∈ live) /\
      (marked = true -> 0 < refs p);
  hi_alloc p : p ∈ live \/ 0 < refs p -> is_Some (leaves h !! p);
  hi_refs p : 0 <= refs p;
  hi_nodup : NoDup live;
  hi_fresh : NoDup (omap id (leaf_pool h));
  hi_fresh_free p : Some p ∈ leaf_pool h -> 0 < p /\ leaves h !! p = None;
}.

(** The data the cache is responsible for: in a leaf or given back. *)
Definition owned (h : mem) : list Z := freed h ++ (data ∘ snd <$> map_to_list (leaves h)).

Definition leaf_pair (h : mem) (p : Z) : Z * Z :=
  match leaves h !! p with Some l => (blkid l, data l) | None => (0, 0) end.

Lemma heap_inv_perm h live live' refs : live ≡ₚ live' -> heap_inv h live refs -> heap_inv h live' refs.
Proof.
  intros HP [H1 H2 H3 H4 H5 H6]. split; try done.
  - intros p l Hp. destruct (H1 p l Hp) as (? & ? & b & ? & ? & ?). split_and!; try done.
    exists b. by rewrite <- HP.
  - intros p. rewrite <- HP. apply H2.
  - by rewrite <- HP.
Qed.

Lemma heap_live h live refs p :
  heap_inv h live refs -> p ∈ live ->
  exists l, leaves h !! p = Some l /\ leaf_state l (refs p) false /\ 0 < p /\ is_u64 (blkid l).
Proof.
  intros HI Hp. destruct (hi_alloc _ _ _ HI p) as [l Hl]; [by left|]. exists l.
  destruct (hi_leaf _ _ _ HI p l Hl) as (? & ? & b & Hs & Hb & _).
  assert (b = false) as -> by by apply Hb. done.
Qed.

Lemma heap_inv_index h live refs a : heap_inv h live refs -> heap_inv (set_index_mem a h) live refs.
Proof. by intros [H1 H2 H3 H4 H5 H6]. Qed.

Lemma owned_delete h p l :
  leaves h !! p = Some l ->
  owned {| leaves := delete p (leaves h); leaf_pool := leaf_pool h;
           tree_leaf_cnt := s32 (tree_leaf_cnt h - 1); freed := data l :: freed h;
           index_mem := index_mem h |} ≡ₚ owned h.
Proof.
  intros Hp. unfold owned. simpl. rewrite <- (insert_delete_id (leaves h) p l) at 2 by done.
  rewrite map_to_list_insert by apply lookup_delete_eq. simpl. by rewrite <- Permutation_middle.
Qed.

Lemma owned_set_flag h p l f :
  leaves h !! p = Some l -> owned (set_leaves (<[p := set_flag_refcnt f l]> (leaves h)) h) ≡ₚ owned h.
Proof.
  intros Hp. unfold owned. simpl. apply Permutation_app_head.
  rewrite <- (insert_delete_id (leaves h) p l) at 2 by done. rewrite <- insert_delete_eq.
  rewrite !map_to_list_insert by apply lookup_delete_eq. done.
Qed.

(** *** A leaf leaves its pool *)
Lemma drop_leaf_spec h live refs p :
  heap_inv h live refs -> p ∈ live ->
  exists h', drop_leaf p h = Some h' /\ heap_inv h' (list_del p live) refs /\
    (forall q, q <> p -> leaves h' !! q = leaves h !! q) /\
    owned h' ≡ₚ owned h /\ index_mem h' = index_mem h /\ leaf_pool h' = leaf_pool h.
Proof.
  intros HI Hp. destruct (heap_live _ _ _ _ HI Hp) as (l & Hl & Hst & Hpos & Hb).
  unfold drop_leaf, release_tree_leaf. rewrite Hl. cbn [mbind option_bind].
  rewrite (leaf_state_refs _ _ _ Hst).
  assert (forall q, q ∈ list_del p live <-> q <> p /\ q ∈ live) as Hdel
    by (intros q; unfold list_del; by rewrite list_elem_of_filter).
  destruct HI as [H1 H2 H3 H4 H5 H6]. destruct (refs p >? 0) eqn:E; zbool; eexists; (split; [done|]).
  - split_and!; [|by intros; simpl; rewrite lookup_insert_ne|by apply owned_set_flag|done|done].
    split; simpl; try done.
    + intros q l' Hq. destruct (decide (q = p)) as [->|Hne].
      * rewrite lookup_insert_eq in Hq. simplify_eq. split_and!; try done. exists true.
        split_and!; [by eapply leaf_state_set_delete| |lia]. rewrite Hdel. split; [done|tauto].
      * rewrite lookup_insert_ne in Hq by done. destruct (H1 q l' Hq) as (? & ? & b & ? & Hbq & ?).
        split_and!; try done. exists b. rewrite Hdel, Hbq. split_and!; try done. tauto.
    + intros q Hq. destruct (decide (q = p)) as [->|Hne]; [rewrite lookup_insert_eq; eauto|].
      rewrite lookup_insert_ne by done. apply H2. rewrite Hdel in Hq. tauto.
    + unfold list_del. by apply NoDup_filter.
    + intros q Hq. destruct (H6 q Hq). split; [done|]. rewrite lookup_insert_ne by (intros ->; congruence). done.
  - split_and!; [|by intros; simpl; rewrite lookup_delete_ne|by apply owned_delete|done|done].
    assert (refs p = 0) as Hr0 by (specialize (H3 p); lia). split; simpl; try done.
    + intros q l' Hq. destruct (decide (q = p)) as [->|Hne]; [by rewrite lookup_delete_eq in Hq|].
      rewrite lookup_delete_ne in Hq by done. destruct (H1 q l' Hq) as (? & ? & b & ? & Hbq & ?).
      split_and!; try done. exists b. rewrite Hdel, Hbq. split_and!; try done. tauto.
    + intros q Hq. rewrite Hdel in Hq. destruct (decide (q = p)) as [->|Hne]; [lia|].
      rewrite lookup_delete_ne by done. apply H2. tauto.
    + unfold list_del. by apply NoDup_filter.
    + intros q Hq. destruct (H6 q Hq). split; [done|]. by rewrite lookup_delete_None; right.
Qed.

(** ** The pool *)

(** The index maps the block of each leaf of the list to the leaf. *)
Definition indexes (h : mem) (lru : list Z) (m : gmap Z Z) : Prop :=
  forall k p, m !! k = Some p <-> p ∈ lru /\ (leaf_pair h p).1 = k.

Record pool_inv (h : mem) (c : pool) (others : list Z) (refs : Z -> Z) : Prop := {
  pi_heap : heap_inv h (lru_list c ++ others) refs;
  pi_index : exists m, oi_rep (tree c) m /\ indexes h (lru_list c) m;
  pi_num : cache_num c = Z.of_nat (length (lru_list c));
  pi_bound : Z.of_nat (length (lru_list c)) < 2 ^ 31;
}.

(** The contents of a pool as the reference definition sees them. *)
Definition contents (h : mem) (c : pool) : list (Z * Z) := leaf_pair h <$> lru_list c.

Lemma list_del_perm (l : list Z) p : NoDup l -> p ∈ l -> l ≡ₚ p :: list_del p l.
Proof.
  unfold list_del. induction 1 as [|q l Hq Hn IH]; [by intros ?%elem_of_nil|].
  intros [->|Hp]%elem_of_cons.
  - f_equiv. rewrite filter_cons_False by (intros H; by apply H).
    assert (filter (fun q' => q' <> q) l = l) as ->; [|done].
    clear -Hq. induction l as [|a l IH]; [done|]. apply not_elem_of_cons in Hq as [? ?].
    rewrite filter_cons_True by congruence. f_equal. by apply IH.
  - rewrite filter_cons_True by (intros ->; done). rewrite Permutation_swap. f_equiv. by apply IH.
Qed.

Lemma list_del_notin (l : list Z) p : (p ∉ l) -> list_del p l = l.
Proof.
  unfold list_del. induction l as [|a l IH]; [done|]. intros [? ?]%not_elem_of_cons.
  rewrite filter_cons_True by congruence. f_equal. by apply IH.
Qed.

Lemma list_del_app (l k : list Z) p : list_del p (l ++ k) = list_del p l ++ list_del p k.
Proof. apply filter_app. Qed.

Lemma elem_of_del_leaf (l : list Z) p q : q ∈ list_del p l <-> q <> p /\ q ∈ l.
Proof. unfold list_del. by rewrite list_elem_of_filter. Qed.

Lemma nodup_app_l h c others refs p :
  pool_inv h c others refs -> p ∈ lru_list c -> NoDup (lru_list c) /\ (p ∉ others).
Proof.
  intros HI Hp. pose proof (hi_nodup _ _ _ (pi_heap _ _ _ _ HI)) as Hn.
  apply NoDup_app in Hn as (? & Hd & _). split; [done|]. by apply Hd.
Qed.

Lemma leaf_pair_eq h h' p : leaves h' !! p = leaves h !! p -> leaf_pair h' p = leaf_pair h p.
Proof. intros E. unfold leaf_pair. by rewrite E. Qed.

Lemma indexes_delete h h' lru m p :
  indexes h lru m -> p ∈ lru -> (forall q, q <> p -> leaves h' !! q = leaves h !! q) ->
  indexes h' (list_del p lru) (delete (leaf_pair h p).1 m).
Proof.
  intros HI Hp Hfr k q. rewrite elem_of_del_leaf. destruct (decide (k = (leaf_pair h p).1)) as [->|Hk].
  - rewrite lookup_delete_eq. split; [done|]. intros [[Hne Hq] E]. exfalso. apply Hne.
    rewrite (leaf_pair_eq h h') in E by auto.
    assert (m !! (leaf_pair h p).1 = Some q) as E1 by (by apply HI).
    assert (m !! (leaf_pair h p).1 = Some p) as E2 by (by apply HI). congruence.
  - rewrite lookup_delete_ne by done. rewrite (HI k q). split.
    + intros [Hq E]. destruct (decide (q = p)) as [->|Hne]; [congruence|].
      by rewrite (leaf_pair_eq h h') by auto.
    + intros [[Hne Hq] E]. by rewrite (leaf_pair_eq h h') in E by auto.
Qed.

(** A leaf is taken out of the index, the list and the count, and dropped. *)
Lemma unlink h c others refs p m t a :
  pool_inv h c others refs -> p ∈ lru_list c -> indexes h (lru_list c) m ->
  oi_rep t (delete (leaf_pair h p).1 m) ->
  exists h', drop_leaf p (set_index_mem a h) = Some h' /\
    pool_inv h' (set_items t (list_del p (lru_list c)) (s32 (cache_num c - 1)) c) others refs /\
    (forall q, q <> p -> leaves h' !! q = leaves h !! q) /\
    owned h' ≡ₚ owned h /\ leaf_pool h' = leaf_pool h.
Proof.
  intros HI Hp Hm Ht. destruct (nodup_app_l _ _ _ _ _ HI Hp) as [Hnd Hno].
  destruct (drop_leaf_spec (set_index_mem a h) (lru_list c ++ others) refs p)
    as (h' & E & Hh & Hfr & Ho & _ & Hpool).
  { by apply heap_inv_index, HI. }
  { rewrite elem_of_app. by left. }
  exists h'. split_and!; try done. pose proof (list_del_perm _ _ Hnd Hp) as HP.
  apply Permutation_length in HP as Hlen. rewrite length_cons in Hlen.
  destruct HI as [_ _ Hnum Hbd]. split; cbn [lru_list set_items tree cache_num].
  - by rewrite list_del_app, (list_del_notin others) in Hh by done.
  - eexists. split; [exact Ht|]. by apply (indexes_delete h).
  - rewrite Hnum, s32_small by (unfold is_s32; lia). lia.
  - lia.
Qed.

Lemma contents_unlink h h' c others refs p t n :
  pool_inv h c others refs -> p ∈ lru_list c -> (forall q, q <> p -> leaves h' !! q = leaves h !! q) ->
  contents h' (set_items t (list_del p (lru_list c)) n c) = lru_remove (leaf_pair h p).1 (contents h c).
Proof.
  intros HI Hp Hfr. destruct (pi_index _ _ _ _ HI) as (m & _ & Hm). unfold contents, lru_remove.
  cbn [lru_list set_items]. assert (forall q, q ∈ lru_list c -> (leaf_pair h q).1 = (leaf_pair h p).1 -> q = p) as Hinj.
  { intros q Hq E. assert (m !! (leaf_pair h p).1 = Some q) as E1 by (by apply Hm).
    assert (m !! (leaf_pair h p).1 = Some p) as E2 by (by apply Hm). congruence. }
  clear HI Hm Hp. unfold list_del. induction (lru_list c) as [|q l IH]; [done|].
  assert (forall q0, q0 ∈ l -> (leaf_pair h q0).1 = (leaf_pair h p).1 -> q0 = p) as Hinj'
    by (intros ???; apply Hinj; [by apply list_elem_of_further|done]).
  rewrite fmap_cons, filter_cons. case_decide as Hq; rewrite filter_cons.
  - rewrite fmap_cons, decide_True.
    + rewrite IH by done. by rewrite (leaf_pair_eq h h') by auto.
    + intros E. apply Hq. apply Hinj; [by apply list_elem_of_here|done].
  - rewrite decide_False; [by apply IH|]. intros Hne. apply Hne. f_equal. f_equal.
    destruct (decide (q = p)); [done|]. by destruct Hq.
Qed.

(** What the operations that remove the leaves [K] change. *)
Record removed (K : list Z) (h h' : mem) (c c' : pool) : Prop := {
  rm_lru : lru_list c' = filter (fun q => q ∉ K) (lru_list c);
  rm_frame q : (q ∉ K) -> leaves h' !! q = leaves h !! q;
  rm_owned : owned h' ≡ₚ owned h;
  rm_pool : leaf_pool h' = leaf_pool h;
  rm_size : cache_size c' = cache_size c;
  rm_id : volid c' = volid c /\ capacity c' = capacity c;
  rm_sub p : p ∈ K -> p ∈ lru_list c;
}.

Lemma filter_true {B} (P : B -> Prop) `{!forall x, Decision (P x)} (l : list B) :
  (forall x, x ∈ l -> P x) -> filter P l = l.
Proof.
  induction l as [|a l IH]; intros HP; [done|]. rewrite filter_cons_True by (apply HP, list_elem_of_here).
  f_equal. apply IH. intros x Hx. apply HP. by apply list_elem_of_further.
Qed.

Lemma filter_false {B} (P : B -> Prop) `{!forall x, Decision (P x)} (l : list B) :
  (forall x, x ∈ l -> ~ P x) -> filter P l = [].
Proof.
  induction l as [|a l IH]; intros HP; [done|]. rewrite filter_cons_False by (apply HP, list_elem_of_here).
  apply IH. intros x Hx. apply HP. by apply list_elem_of_further.
Qed.

Lemma removed_nil h c : removed [] h h c c.
Proof.
  split; try done; [|by intros p ?%elem_of_nil].
  symmetry. apply filter_true. intros q _. apply not_elem_of_nil.
Qed.

(** A leaf [p] is removed, then the leaves [K]. *)
Lemma removed_cons p K h h1 h' c t n c' :
  p ∈ lru_list c -> (forall q, q <> p -> leaves h1 !! q = leaves h !! q) -> owned h1 ≡ₚ owned h ->
  leaf_pool h1 = leaf_pool h ->
  removed K h1 h' (set_items t (list_del p (lru_list c)) n c) c' ->
  removed (p :: K) h h' c c'.
Proof.
  intros Hp Hfr Ho Hpl [R1 R2 R3 R4 R5 R6 R7]. cbn [lru_list set_items cache_size] in *.
  split; try congruence; try done.
  - rewrite R1. unfold list_del. rewrite list_filter_filter. apply list_filter_iff.
    intros q. rewrite not_elem_of_cons. tauto.
  - intros q [Hq HK]%not_elem_of_cons. rewrite R2 by done. by apply Hfr.
  - by rewrite R3.
  - intros q [->|Hq]%elem_of_cons; [done|]. apply R7, elem_of_del_leaf in Hq. tauto.
Qed.

Definition selected (md_cmp_fn : option (Z -> bool)) (h : mem) (p : Z) : bool :=
  match md_cmp_fn with Some f => f (leaf_pair h p).2 | None => true end.

(** The leaves a traversal of [todo] removes. *)
Definition kicked (todo : list Z) (count n : Z) (md_cmp_fn : option (Z -> bool)) (h : mem) : list Z :=
  let sel := filter (fun p => selected md_cmp_fn h p = true) todo in
  if decide (count = -1) then sel else take (Z.to_nat n) sel.

Lemma kicked_ext todo count n f h h' :
  (forall p, p ∈ todo -> leaves h' !! p = leaves h !! p) ->
  kicked todo count n f h' = kicked todo count n f h.
Proof.
  intros H. unfold kicked.
  assert (filter (fun p => selected f h' p = true) todo = filter (fun p => selected f h p = true) todo) as ->.
  { induction todo as [|p todo IH]; [done|]. rewrite !filter_cons.
    rewrite IH by (intros q Hq; apply H; by apply list_elem_of_further).
    assert (selected f h' p = selected f h p) as ->; [|done]. unfold selected.
    rewrite (leaf_pair_eq h h'); [done|]. apply H, list_elem_of_here. }
  done.
Qed.

Lemma kicked_skip p todo count n f h :
  selected f h p = false -> kicked (p :: todo) count n f h = kicked todo count n f h.
Proof. intros E. unfold kicked. by rewrite filter_cons_False by (by rewrite E). Qed.

Lemma kicked_all p todo n f h :
  selected f h p = true -> kicked (p :: todo) (-1) n f h = p :: kicked todo (-1) n f h.
Proof. intros E. unfold kicked. by rewrite filter_cons_True by done. Qed.

Lemma kicked_some p todo count n f h :
  selected f h p = true -> count <> -1 -> 0 < n ->
  kicked (p :: todo) count n f h = p :: kicked todo count (n - 1) f h.
Proof.
  intros E Hc Hn. unfold kicked. rewrite filter_cons_True, !(decide_False (P := count = -1)) by done.
  by replace (Z.to_nat n) with (S (Z.to_nat (n - 1))) by lia.
Qed.

Lemma kicked_zero todo count n f h : count <> -1 -> n <= 0 -> kicked todo count n f h = [].
Proof.
  intros Hc Hn. unfold kicked. rewrite decide_False by done. by replace (Z.to_nat n) with 0%nat by lia.
Qed.

Lemma kick_loop_spec todo count total nr flag f h c others refs :
  pool_inv h c others refs -> NoDup todo -> (forall p, p ∈ todo -> p ∈ lru_list c) ->
  (count = -1 \/ 0 <= nr < total /\ total < 2 ^ 31) ->
  exists h' c' flag', kick_loop todo count total nr flag f h c = Some (h', c', flag') /\
    let K := kicked todo count (total - nr) f h in
    pool_inv h' c' others refs /\ removed K h h' c c' /\
    (flag' = 0 <-> flag = 0 /\ (count = -1 -> forall p, p ∈ K -> refs p = 0)).
Proof.
  revert h c nr flag. induction todo as [|p todo IH]; intros h c nr flag HI Hnd Hin Hcnt.
  { exists h, c, flag. split; [done|]. assert (kicked [] count (total - nr) f h = []) as ->
      by (unfold kicked; rewrite filter_nil; case_decide; [done|apply take_nil]).
    split_and!; [done|apply removed_nil|]. split; [|tauto]. intros ->. split; [done|]. by intros _ p ?%elem_of_nil. }
  apply NoDup_cons in Hnd as [Hp Hnd]. assert (p ∈ lru_list c) as Hpl by (apply Hin, list_elem_of_here).
  assert (forall q, q ∈ todo -> q ∈ lru_list c) as Hin' by (intros; apply Hin; by apply list_elem_of_further).
  destruct (heap_live _ _ _ p (pi_heap _ _ _ _ HI)) as (l & Hl & Hst & _ & Hb); [rewrite elem_of_app; by left|].
  cbn [kick_loop]. rewrite Hl. cbn [mbind option_bind].
  assert (leaf_pair h p = (blkid l, data l)) as Hpair by (unfold leaf_pair; by rewrite Hl).
  assert (match f with Some g => negb (g (data l)) | None => false end = negb (selected f h p)) as ->
    by (unfold selected; rewrite Hpair; by destruct f).
  destruct (selected f h p) eqn:Esel; cbn [negb].
  2: { rewrite kicked_skip by done. by apply IH. }
  destruct (pi_index _ _ _ _ HI) as (m & Hm & Hidx).
  destruct (oi_delete_ok (tree c) m (blkid l) (index_mem h) Hm Hb) as (t & a & Ed & Ht & _). rewrite Ed.
  cbn [mbind option_bind]. rewrite (leaf_state_refs _ _ _ Hst).
  destruct (unlink h c others refs p m t a) as (h1 & E1 & HI1 & Hfr & Ho & Hlp); try done; [by rewrite Hpair|].
  rewrite E1. cbn [mbind option_bind].
  set (c1 := set_items t (list_del p (lru_list c)) (s32 (cache_num c - 1)) c) in *.
  set (flag1 := if (refs p >? 0) && (count =? -1) then 1 else flag).
  assert (flag1 = 0 <-> flag = 0 /\ (count = -1 -> refs p = 0)) as Hflag.
  { unfold flag1. pose proof (hi_refs _ _ _ (pi_heap _ _ _ _ HI) p).
    destruct (refs p >? 0) eqn:Ep, (count =? -1) eqn:Ec; simpl; zbool; lia. }
  assert (forall q, q ∈ todo -> q ∈ lru_list c1) as Hin1.
  { intros q Hq. unfold c1. cbn [lru_list set_items]. apply elem_of_del_leaf. split; [by intros ->|auto]. }
  assert (forall q, q ∈ todo -> leaves h1 !! q = leaves h !! q) as Hfr1
    by (intros q Hq; apply Hfr; by intros ->).
  destruct (decide (count = -1)) as [->|Hc]; cbn -[kick_loop kicked].
  - destruct (IH h1 c1 nr flag1 HI1 Hnd Hin1) as (h' & c' & fl & -> & HI' & HR & Hfl); [by left|].
    exists h', c', fl. split; [done|]. rewrite kicked_all by done.
    rewrite (kicked_ext todo (-1) (total - nr) f h h1) in HR, Hfl by done.
    split_and!; [done|by eapply removed_cons|].
    rewrite Hfl, Hflag. setoid_rewrite elem_of_cons. clear.
    split; [intros [[? ?] ?]; split; [done|]; intros ? q [->|?]; auto|]. intros [? Hx]. split_and!; auto.
  - rewrite (proj2 (Z.eqb_neq count (-1))) by done. cbn [negb andb]. destruct Hcnt as [|[Hnr Htot]]; [done|].
    rewrite u32_small by (unfold is_u32; lia). rewrite kicked_some by (done || lia).
    replace (total - nr - 1) with (total - (nr + 1)) by lia. destruct (nr + 1 >=? total) eqn:Et; zbool.
    + exists h1, c1, flag1. split; [done|]. rewrite kicked_zero by (done || lia).
      split_and!; [done|eapply removed_cons; try done; apply removed_nil|]. rewrite Hflag. tauto.
    + destruct (IH h1 c1 (nr + 1) flag1 HI1 Hnd Hin1) as (h' & c' & fl & -> & HI' & HR & Hfl); [right; lia|].
      exists h', c', fl. split; [done|].
      rewrite (kicked_ext todo count (total - (nr + 1)) f h h1) in HR, Hfl by done.
      split_and!; [done|by eapply removed_cons|].
      rewrite Hfl, Hflag. tauto.
Qed.

Lemma removed_contents K h h' c c' :
  removed K h h' c c' -> contents h' c' = leaf_pair h <$> filter (fun q => q ∉ K) (lru_list c).
Proof.
  intros [R1 R2 _ _ _ _ _]. unfold contents. rewrite R1. apply list_fmap_ext. intros i q Hq.
  apply list_elem_of_lookup_2, list_elem_of_filter in Hq as [Hq _]. apply leaf_pair_eq. by apply R2.
Qed.

Lemma filter_take_reverse (l : list Z) n :
  NoDup l -> filter (fun q => q ∉ take n (reverse l)) l = take (length l - n) l.
Proof.
  intros Hnd. rewrite take_reverse.
  assert (take (length l - n) l ++ drop (length l - n) l = l) as El by apply take_drop.
  rewrite <- El in Hnd at 1. apply NoDup_app in Hnd as (Hn1 & Hd & Hn2).
  transitivity (filter (fun q => q ∉ reverse (drop (length l - n) l))
    (take (length l - n) l ++ drop (length l - n) l)); [by rewrite El|]. rewrite filter_app.
  rewrite filter_true, filter_false, app_nil_r; [done| |].
  - intros x Hx H. apply H. by rewrite elem_of_reverse.
  - intros x Hx. rewrite elem_of_reverse. by apply Hd.
Qed.

(** Eviction of [n] leaves. *)
Lemma kick_count_spec n h c others refs :
  pool_inv h c others refs -> 0 < n < 2 ^ 31 ->
  exists h' c' ret K, __kick_meta_cache c n None h = Some (h', c', ret) /\
    pool_inv h' c' others refs /\ removed K h h' c c' /\
    contents h' c' = lru_kick (Z.to_nat n) (contents h c).
Proof.
  intros HI Hn. pose proof (pi_num _ _ _ _ HI) as Hnum. pose proof (pi_bound _ _ _ _ HI) as Hbd.
  assert (NoDup (lru_list c)) as Hnd.
  { pose proof (hi_nodup _ _ _ (pi_heap _ _ _ _ HI)) as Hx. by apply NoDup_app in Hx as [? _]. }
  set (total := if n >? cache_num c then u32 (cache_num c) else n).
  assert (__kick_meta_cache c n None h = kick_loop (reverse (lru_list c)) n total 0 0 None h c) as ->.
  { unfold __kick_meta_cache, total. replace (n =? -1) with false by lia. cbn [orb].
    destruct (n >? cache_num c); [done|]. replace (n =? 0) with false by lia.
    by replace (n <? -1) with false by lia. }
  assert (forall h' c' K, K = kicked (reverse (lru_list c)) n (total - 0) None h -> removed K h h' c c' ->
    contents h' c' = lru_kick (Z.to_nat n) (contents h c)) as Hfin.
  { intros h' c' K -> HR. rewrite (removed_contents _ _ _ _ _ HR). unfold kicked, lru_kick, contents.
    rewrite decide_False by lia. rewrite (filter_true (fun p => selected None h p = true)) by done.
    rewrite filter_take_reverse, length_fmap, fmap_take by done. f_equal. unfold total.
    destruct (n >? cache_num c) eqn:E; zbool; [rewrite u32_small by (unfold is_u32; lia)|]; lia. }
  destruct (decide (lru_list c = [])) as [E0|Hne].
  { exists h, c, 0, []. rewrite E0. split_and!; try done; [apply removed_nil|].
    unfold contents, lru_kick. rewrite E0. done. }
  destruct (kick_loop_spec (reverse (lru_list c)) n total 0 0 None h c others refs HI)
    as (h' & c' & fl & E & HI' & HR & _).
  - by rewrite reverse_Permutation.
  - intros p. by rewrite elem_of_reverse.
  - right. destruct (lru_list c) as [|x l]; [done|]. simpl in Hnum, Hbd. unfold total.
    destruct (n >? cache_num c) eqn:E; zbool; [rewrite u32_small by (unfold is_u32; lia)|]; lia.
  - exists h', c', fl, (kicked (reverse (lru_list c)) n (total - 0) None h). split_and!; try done. by eapply Hfin.
Qed.

(** Removal of every leaf, or of every leaf that meets a condition. *)
Lemma kick_all_spec f h c others refs :
  pool_inv h c others refs ->
  exists h' c' ret K, __kick_meta_cache c (-1) f h = Some (h', c', ret) /\
    pool_inv h' c' others refs /\ removed K h h' c c' /\
    (forall p, p ∈ K <-> p ∈ lru_list c /\ selected f h p = true) /\
    (ret = 0 <-> forall p, p ∈ K -> refs p = 0).
Proof.
  intros HI. unfold __kick_meta_cache. cbn [Z.eqb orb].
  destruct (kick_loop_spec (reverse (lru_list c)) (-1) (u32 (cache_num c)) 0 0 f h c others refs HI)
    as (h' & c' & fl & E & HI' & HR & Hfl).
  - rewrite reverse_Permutation. pose proof (hi_nodup _ _ _ (pi_heap _ _ _ _ HI)) as Hx. by apply NoDup_app in Hx as [? _].
  - intros p. by rewrite elem_of_reverse.
  - by left.
  - do 4 eexists. split; [exact E|]. split; [done|]. split; [exact HR|]. split.
    + intros p. unfold kicked. rewrite decide_True by done. rewrite list_elem_of_filter, elem_of_reverse. tauto.
    + rewrite Hfl. intuition.
Qed.

Lemma kick_everything h c others refs :
  pool_inv h c others refs ->
  exists h' c' ret, __kick_meta_cache c (-1) None h = Some (h', c', ret) /\
    pool_inv h' c' others refs /\ lru_list c' = [] /\ owned h' ≡ₚ owned h /\
    (lru_list c = [] -> ret = 0) /\ cache_size c' = cache_size c.
Proof.
  intros HI. destruct (kick_all_spec None h c others refs HI) as (h' & c' & ret & K & E & HI' & HR & HK & Hret).
  exists h', c', ret. split_and!; try done.
  - rewrite (rm_lru _ _ _ _ _ HR). apply filter_false. intros q Hq Hn. apply Hn, HK. done.
  - apply (rm_owned _ _ _ _ _ HR).
  - intros E0. apply Hret. intros p Hp. apply HK in Hp as [Hp _]. rewrite E0 in Hp. by apply elem_of_nil in Hp.
  - apply (rm_size _ _ _ _ _ HR).
Qed.

(** Further attempts empty the pool. *)
Lemma kick_retry_spec ret h c others refs :
  pool_inv h c others refs ->
  exists h' c', kick_retry MAX_FREE_VOL_RETRY ret h c = Some (h', c') /\
    pool_inv h' c' others refs /\ owned h' ≡ₚ owned h /\
    (ret = 0 -> h' = h /\ c' = c) /\ (ret <> 0 -> lru_list c' = []) /\ cache_size c' = cache_size c.
Proof.
  intros HI. unfold MAX_FREE_VOL_RETRY. cbn [kick_retry]. destruct (ret =? 0) eqn:E0; zbool.
  { by exists h, c. }
  destruct (kick_everything _ _ _ _ HI) as (h1 & c1 & ret1 & E1 & HI1 & Hl1 & Ho1 & _ & Hs1). rewrite E1.
  cbn [mbind option_bind]. destruct (ret1 =? 0) eqn:E2; zbool.
  { by exists h1, c1. }
  destruct (kick_everything _ _ _ _ HI1) as (h2 & c2 & ret2 & E3 & HI2 & Hl2 & Ho2 & Hr2 & Hs2). rewrite E3.
  cbn [mbind option_bind]. rewrite (proj2 (Z.eqb_eq ret2 0)) by auto.
  exists h2, c2. split_and!; try done; [by rewrite Ho2|congruence].
Qed.

(** The leaves a conditional removal selects. *)
Lemma removed_cond f K h h' c c' :
  removed K h h' c c' -> (forall p, p ∈ K <-> p ∈ lru_list c /\ selected (Some f) h p = true) ->
  contents h' c' = filter (fun kv => f kv.2 = false) (contents h c).
Proof.
  intros HR HK. rewrite (removed_contents _ _ _ _ _ HR). unfold contents.
  assert (forall q, q ∈ lru_list c -> (q ∉ K) <-> f (leaf_pair h q).2 = false) as Hq.
  { intros q Hin. rewrite HK. simpl. destruct (f (leaf_pair h q).2); intuition congruence. }
  clear HK HR. induction (lru_list c) as [|q l IH]; [done|].
  rewrite fmap_cons, !filter_cons. rewrite <- IH by (intros; apply Hq; by apply list_elem_of_further).
  specialize (Hq q (list_elem_of_here _ _)). repeat case_decide; tauto || done.
Qed.

(** ** Invalidation of a range *)

Lemma removed_tree K h h1 h' c t c' :
  leaves h1 = leaves h -> freed h1 = freed h -> leaf_pool h1 = leaf_pool h ->
  removed K h1 h' (set_items t (lru_list c) (cache_num c) c) c' -> removed K h h' c c'.
Proof.
  intros El Ef Ep [R1 R2 R3 R4 R5 R6 R7]. cbn [lru_list set_items cache_size] in *.
  split; try congruence; try done.
  - intros q Hq. by rewrite R2, El.
  - rewrite R3. unfold owned. by rewrite El, Ef.
Qed.

Lemma inval_remove blk n (l : list (Z * Z)) :
  lru_inval (blk + 1) (Z.of_nat n) (lru_remove blk l) = lru_inval blk (Z.of_nat (S n)) l.
Proof.
  unfold lru_inval, lru_remove. rewrite list_filter_filter. apply list_filter_iff.
  intros [k v]. unfold in_range. simpl. lia.
Qed.

Lemma contents_absent h (c : pool) m blk :
  indexes h (lru_list c) m -> m !! blk = None -> lru_remove blk (contents h c) = contents h c.
Proof.
  intros Hidx Hm. apply filter_true. intros kv (p & -> & Hp)%list_elem_of_fmap Hk.
  assert (m !! blk = Some p) by (by apply Hidx). congruence.
Qed.

Lemma inval_loop_spec n blk h c others refs :
  pool_inv h c others refs -> 0 <= blk -> blk + Z.of_nat n <= 2 ^ 64 ->
  exists h' c' K, inval_loop n (u64 blk) h c = Some (h', c') /\
    pool_inv h' c' others refs /\ removed K h h' c c' /\ (forall p, p ∈ K -> p ∈ lru_list c) /\
    contents h' c' = lru_inval blk (Z.of_nat n) (contents h c).
Proof.
  revert blk h c. induction n as [|n IH]; intros blk h c HI Hb0 Hb.
  { exists h, c, []. split_and!; try done; [apply removed_nil|by intros p ?%elem_of_nil|].
    unfold lru_inval. symmetry. apply filter_true. intros [k v] _. unfold in_range. simpl. lia. }
  cbn [inval_loop]. rewrite (u64_small blk) by (unfold is_u64; lia).
  destruct (pi_index _ _ _ _ HI) as (m & Hm & Hidx).
  destruct (oi_delete_ok (tree c) m blk (index_mem h) Hm) as (t & a & E & Ht & _); [unfold is_u64; lia|].
  rewrite E. cbn [mbind option_bind]. destruct (m !! blk) as [p|] eqn:Ep.
  - apply Hidx in Ep as [Hp Hk]. rewrite <- Hk in Ht.
    destruct (unlink h c others refs p m t a HI Hp Hidx Ht) as (h1 & E1 & HI1 & Hfr & Ho & Hlp).
    rewrite E1. cbn [mbind option_bind].
    destruct (IH (blk + 1) h1 _ HI1) as (h' & c' & K & E2 & HI' & HR & HK & Hc); [lia..|].
    exists h', c', (p :: K). split_and!; try done; [by eapply removed_cons| |].
    + intros q [->|Hq]%elem_of_cons; [done|]. apply HK in Hq. cbn [lru_list set_items] in Hq.
      by apply elem_of_del_leaf in Hq as [_ ?].
    + rewrite Hc, (contents_unlink h h1 c others refs p t _ HI Hp Hfr), Hk. apply inval_remove.
  - rewrite delete_id in Ht by done.
    assert (pool_inv (set_index_mem a h) (set_items t (lru_list c) (cache_num c) c) others refs) as HI1.
    { destruct HI as [H1 H2 H3 H4]. split; [by apply heap_inv_index|by exists m|done|done]. }
    destruct (IH (blk + 1) _ _ HI1) as (h' & c' & K & E2 & HI' & HR & HK & Hc); [lia..|].
    exists h', c', K. split_and!; try done; [by apply (removed_tree K h (set_index_mem a h) h' c t)|]. rewrite Hc, <- inval_remove. f_equal.
    symmetry. by apply (contents_absent h c m).
Qed.

(** ** References *)

Definition nonnull (l : list Z) : list Z := filter (fun q => q <> 0) l.

Lemma heap_inv_refs h live refs refs' :
  (forall p, refs p = refs' p) -> heap_inv h live refs -> heap_inv h live refs'.
Proof.
  intros E [H1 H2 H3 H4 H5 H6]. split; try done.
  - intros p l. rewrite <- E. apply H1.
  - intros p. rewrite <- E. apply H2.
  - intros p. rewrite <- E. apply H3.
Qed.

(** The references of one leaf change by [d]; a leaf that is still live, or still
    referenced, stays. *)
Lemma heap_inv_ref h live refs refs' p l d :
  heap_inv h live refs -> leaves h !! p = Some l -> 0 <= refs p + d < 2 ^ 31 ->
  (p ∈ live \/ 0 < refs p + d) ->
  (forall q, refs' q = if decide (q = p) then refs p + d else refs q) ->
  heap_inv (set_leaves (<[p := set_flag_refcnt (u32 (flag_refcnt l + d)) l]> (leaves h)) h) live refs'.
Proof.
  intros [H1 H2 H3 H4 H5 H6] Hl Hd Hlive Hr. destruct (H1 p l Hl) as (Hp & Hb & b & Hst & Hbl & Hmark).
  split; simpl; try done.
  - intros q l' Hq. destruct (decide (q = p)) as [->|Hne].
    + rewrite lookup_insert_eq in Hq. simplify_eq. split_and!; try done. exists b. rewrite Hr, decide_True by done.
      split_and!; [by apply leaf_state_add|done|]. intros ->. destruct Hlive as [Hin|]; [|done].
      apply Hbl in Hin. done.
    + rewrite lookup_insert_ne in Hq by done. rewrite Hr, decide_False by done. by apply H1.
  - intros q Hq. destruct (decide (q = p)) as [->|Hne]; [rewrite lookup_insert_eq; eauto|].
    rewrite lookup_insert_ne by done. apply H2. rewrite Hr, decide_False in Hq by done. done.
  - intros q. rewrite Hr. case_decide; [lia|apply H3].
  - intros q Hq. destruct (H6 q Hq). split; [done|]. rewrite lookup_insert_ne by (intros ->; congruence). done.
Qed.

(** The last reference of a leaf that has left its pool. *)
Lemma heap_inv_last h live refs refs' p l :
  heap_inv h live refs -> leaves h !! p = Some l -> (p ∉ live) -> refs p = 1 ->
  (forall q, refs' q = if decide (q = p) then 0 else refs q) ->
  heap_inv {| leaves := delete p (leaves h); leaf_pool := leaf_pool h;
              tree_leaf_cnt := s32 (tree_leaf_cnt h - 1); freed := data l :: freed h;
              index_mem := index_mem h |} live refs'.
Proof.
  intros [H1 H2 H3 H4 H5 H6] Hl Hlive Hone Hr. split; simpl; try done.
  - intros q l' Hq. destruct (decide (q = p)) as [->|Hne]; [by rewrite lookup_delete_eq in Hq|].
    rewrite lookup_delete_ne in Hq by done. rewrite Hr, decide_False by done. by apply H1.
  - intros q Hq. rewrite Hr in Hq. destruct (decide (q = p)) as [->|Hne]; [destruct Hq; [done|lia]|].
    rewrite lookup_delete_ne by done. by apply H2.
  - intros q. rewrite Hr. case_decide; [lia|apply H3].
  - intros q Hq. destruct (H6 q Hq). split; [done|]. rewrite lookup_delete_None; auto.
Qed.

Lemma pool_inv_heap h h' c others refs refs' :
  pool_inv h c others refs -> heap_inv h' (lru_list c ++ others) refs' ->
  (forall p, p ∈ lru_list c -> leaf_pair h' p = leaf_pair h p) ->
  pool_inv h' c others refs' /\ contents h' c = contents h c.
Proof.
  intros [H1 (m & Hm & Hidx) H3 H4] Hh Hp. split.
  - split; try done. exists m. split; [done|]. intros k p. rewrite (Hidx k p).
    split; intros [Hin Hk]; (split; [done|]); [by rewrite Hp|by rewrite <- Hp].
  - unfold contents. apply list_fmap_ext. intros i p Hi. apply Hp. by eapply list_elem_of_lookup_2.
Qed.

Lemma leaf_pair_set_flag h p l f q :
  leaves h !! p = Some l ->
  leaf_pair (set_leaves (<[p := set_flag_refcnt f l]> (leaves h)) h) q = leaf_pair h q.
Proof.
  intros Hl. unfold leaf_pair. simpl. destruct (decide (q = p)) as [->|].
  - by rewrite lookup_insert_eq, Hl.
  - by rewrite lookup_insert_ne by done.
Qed.

(** One reference is given back. *)
Lemma put_one p basket h live refs :
  heap_inv h live refs -> 0 < p -> 0 < refs p ->
  exists h1, pool_put (p :: basket) h = pool_put basket h1 /\
    heap_inv h1 live (fun q => if decide (q = p) then refs p - 1 else refs q) /\
    (forall q, q ∈ live -> leaf_pair h1 q = leaf_pair h q) /\ owned h1 ≡ₚ owned h /\
    leaf_pool h1 = leaf_pool h /\ (p ∈ live -> freed h1 = freed h).
Proof.
  intros HI Hp Hr. destruct (hi_alloc _ _ _ HI p) as [l Hl]; [by right|].
  destruct (hi_leaf _ _ _ HI p l Hl) as (_ & Hb & b & Hst & Hbl & Hmark).
  cbn [pool_put]. rewrite (proj2 (Z.eqb_neq p 0)) by lia. rewrite Hl. cbn [mbind option_bind].
  assert (0 <= refs p + -1 < 2 ^ 31) as Hd by (destruct Hst; lia).
  pose proof (leaf_state_add l (refs p) b (-1) Hst Hd) as Hst'.
  replace (flag_refcnt l + -1) with (flag_refcnt l - 1) in Hst' by lia.
  set (l' := set_flag_refcnt (u32 (flag_refcnt l - 1)) l) in *.
  set (h1 := set_leaves (<[p := l']> (leaves h)) h).
  rewrite (leaf_state_marked _ _ _ Hst'), (leaf_state_refs _ _ _ Hst').
  assert (p ∈ live \/ 0 < refs p + -1 -> heap_inv h1 live (fun q => if decide (q = p) then refs p - 1 else refs q)) as Hh1.
  { intros Hor. unfold h1, l'. replace (flag_refcnt l - 1) with (flag_refcnt l + -1) by lia.
    by apply (heap_inv_ref h live refs _ p l (-1)). }
  assert (forall q, leaf_pair h1 q = leaf_pair h q) as Hpair by (intros q; by apply leaf_pair_set_flag).
  assert (owned h1 ≡ₚ owned h) as Ho by by apply owned_set_flag.
  destruct b; cbn [negb].
  - assert (p ∉ live) as Hnl by (intros Hin%Hbl; done).
    destruct (refs p + -1 >? 0) eqn:E; zbool; [exists h1; split_and!; auto|].
    unfold release_tree_leaf. cbn [leaves h1 set_leaves]. rewrite lookup_insert_eq. cbn [mbind option_bind].
    rewrite (leaf_state_refs _ _ _ Hst'). replace (refs p + -1 >? 0) with false by lia.
    rewrite delete_insert_eq. eexists. split; [done|]. cbn [leaf_pool tree_leaf_cnt freed index_mem set_leaves].
    split_and!; [|intros q Hq; unfold leaf_pair; simpl; rewrite lookup_delete_ne; [done|by intros ->]
                 |exact (owned_delete h p l Hl)|done|done].
    refine (heap_inv_last h live refs _ p l HI Hl Hnl _ _); [lia|]. intros q. case_decide; [lia|done].
  - exists h1. split_and!; auto. apply Hh1. left. by apply Hbl.
Qed.

(** References are given back: the leaves the pools use are unchanged, and a leaf that
    nobody uses any more is freed. *)
Lemma pool_put_spec basket h live refs refs' :
  heap_inv h live refs -> Forall (fun p => 0 <= p) basket ->
  (forall p, refs p = occ p (nonnull basket) + refs' p) -> (forall p, 0 <= refs' p) ->
  exists h', pool_put basket h = Some h' /\ heap_inv h' live refs' /\
    (forall q, q ∈ live -> leaf_pair h' q = leaf_pair h q) /\ owned h' ≡ₚ owned h /\
    leaf_pool h' = leaf_pool h /\ ((forall p, p ∈ basket -> p <> 0 -> p ∈ live) -> freed h' = freed h).
Proof.
  intros HI Hpos Hr H0. revert h refs HI Hr.
  induction Hpos as [|p basket Hp Hpos IH]; intros h refs HI Hr.
  { exists h. split_and!; try done. eapply heap_inv_refs; [|done]. intros p. rewrite Hr. done. }
  destruct (decide (p = 0)) as [->|Hne].
  { destruct (IH h refs HI) as (h' & E & HI' & Hpair & Ho & Hlp & Hfr).
    - intros q. rewrite Hr. unfold nonnull. by rewrite filter_cons_False by (intros H; by apply H).
    - exists h'. cbn [pool_put Z.eqb]. split_and!; try done. intros Hl. apply Hfr. intros p Hin. apply Hl.
      by apply list_elem_of_further. }
  assert (forall q, refs q = (if decide (p = q) then 1 else 0) + occ q (nonnull basket) + refs' q) as Hr'.
  { intros q. rewrite Hr. unfold nonnull. rewrite filter_cons_True, occ_cons by done. lia. }
  destruct (put_one p basket h live refs) as (h1 & -> & HI1 & Hpair & Ho & Hlp & Hfr); [done|lia| |].
  { rewrite Hr', decide_True by done. pose proof (occ_nonneg p (nonnull basket)). specialize (H0 p). lia. }
  destruct (IH h1 _ HI1) as (h' & E & HI' & Hpair' & Ho' & Hlp' & Hfr').
  { intros q. cbv beta. destruct (decide (q = p)) as [->|Hq]; rewrite Hr'.
    - rewrite decide_True by done. lia.
    - rewrite decide_False by congruence. lia. }
  exists h'. split_and!; try done; [|by rewrite Ho'|congruence|].
  - intros q Hq. by rewrite Hpair', Hpair.
  - intros Hl. rewrite Hfr', Hfr; [done|apply Hl; [apply list_elem_of_here|done]|].
    intros q Hq. apply Hl. by apply list_elem_of_further.
Qed.

(** ** Update *)

Lemma alloc_leaf_spec h live refs d blk p rest :
  heap_inv h live refs -> is_u64 blk -> leaf_pool h = Some p :: rest ->
  let l := {| data := d; blkid := blk; flag_refcnt := 0 |} in
  exists h1, alloc_tree_leaf l h = (Some p, h1) /\ heap_inv h1 (p :: live) refs /\ (p ∉ live) /\ 0 < p /\
    leaves h1 !! p = Some l /\ (forall q, q <> p -> leaves h1 !! q = leaves h !! q) /\
    owned h1 ≡ₚ d :: owned h /\ index_mem h1 = index_mem h.
Proof.
  intros HI Hb Hpool l. pose proof HI as [H1 H2 H3 H4 H5 H6]. rewrite Hpool in H5, H6.
  destruct (H6 p) as [Hp Hnone]; [apply list_elem_of_here|].
  assert (p ∉ live) as Hnl by (intros Hin; destruct (H2 p) as [? E]; [by left|congruence]).
  assert (refs p = 0) as Hr0.
  { destruct (decide (0 < refs p)); [destruct (H2 p) as [? E]; [by right|congruence]|]. specialize (H3 p). lia. }
  unfold alloc_tree_leaf. rewrite Hpool. eexists. split; [done|]. cbn [omap list_omap id] in H5.
  apply NoDup_cons in H5 as [Hnin H5].
  split_and!; try done; [|by simpl; rewrite lookup_insert_eq|by intros; simpl; rewrite lookup_insert_ne|].
  - split; simpl; try done.
    + intros q l' Hq. destruct (decide (q = p)) as [->|Hne].
      * rewrite lookup_insert_eq in Hq. simplify_eq. split_and!; try done. exists false.
        rewrite Hr0. split_and!; [by split; simpl|..|done]. split; [|done]. intros _. apply list_elem_of_here.
      * rewrite lookup_insert_ne in Hq by done. destruct (H1 q l' Hq) as (? & ? & b & ? & Hbq & ?).
        split_and!; try done. exists b. rewrite elem_of_cons, Hbq. split_and!; try done. tauto.
    + intros q Hq. destruct (decide (q = p)) as [->|Hne]; [rewrite lookup_insert_eq; eauto|].
      rewrite lookup_insert_ne by done. apply H2. rewrite elem_of_cons in Hq. tauto.
    + by apply NoDup_cons.
    + intros q Hq. destruct (H6 q) as [? ?]; [by apply list_elem_of_further|]. split; [done|].
      rewrite lookup_insert_ne; [done|]. intros ->. apply Hnin. apply list_elem_of_omap.
      by exists (Some q).
  - unfold owned. simpl. rewrite map_to_list_insert by done. simpl. by rewrite <- Permutation_middle.
Qed.

(** The leaf of an insertion that failed is freed. *)
Lemma release_fresh h live refs p :
  heap_inv h (p :: live) refs -> (p ∉ live) -> refs p = 0 ->
  exists h', release_tree_leaf p h = Some h' /\ heap_inv h' live refs /\
    (forall q, q <> p -> leaves h' !! q = leaves h !! q) /\ owned h' ≡ₚ owned h.
Proof.
  intros HI Hnl Hr. destruct (drop_leaf_spec h (p :: live) refs p HI) as (h' & E & HI' & Hfr & Ho & _);
    [apply list_elem_of_here|].
  destruct (heap_live _ _ _ p HI) as (l & Hl & Hst & _ & _); [apply list_elem_of_here|].
  exists h'. split_and!; try done.
  - unfold drop_leaf in E. rewrite Hl in E. cbn [mbind option_bind] in E.
    rewrite (leaf_state_refs _ _ _ Hst), Hr in E. done.
  - unfold list_del in HI'. rewrite filter_cons_False in HI' by (intros H; by apply H).
    fold (list_del p live) in HI'. by rewrite list_del_notin in HI'.
Qed.

Lemma indexes_insert h h1 lru m p blk :
  indexes h lru m -> (p ∉ lru) -> (leaf_pair h1 p).1 = blk ->
  (forall q, q ∈ lru -> leaf_pair h1 q = leaf_pair h q) ->
  indexes h1 (p :: match m !! blk with Some q => list_del q lru | None => lru end) (<[blk := p]> m).
Proof.
  intros HI Hp Hb Hfr k q. rewrite elem_of_cons. destruct (decide (k = blk)) as [->|Hk].
  - rewrite lookup_insert_eq. split; [intros [= ->]; by split; [left|]|]. intros [[->|Hq] E]; [done|]. exfalso.
    destruct (m !! blk) as [q0|] eqn:Eq0.
    + apply elem_of_del_leaf in Hq as [Hne Hq]. rewrite Hfr in E by done.
      assert (m !! blk = Some q) by (by apply HI). congruence.
    + rewrite Hfr in E by done. assert (m !! blk = Some q) by (by apply HI). congruence.
  - rewrite lookup_insert_ne by done. rewrite (HI k q). destruct (m !! blk) as [q0|] eqn:Eq0.
    + apply HI in Eq0 as [Hq0 Eq0]. rewrite elem_of_del_leaf. split.
      * intros [Hq E]. rewrite Hfr by done. split; [|done]. right. split; [intros ->; congruence|done].
      * intros [[->|[Hne Hq]] E]; [congruence|]. by rewrite Hfr in E by done.
    + split.
      * intros [Hq E]. rewrite Hfr by done. split; [by right|done].
      * intros [[->|Hq] E]; [congruence|]. by rewrite Hfr in E by done.
Qed.

(** What entering an item changes. *)
Record entered (blk d : Z) (ok : bool) (h h' : mem) (c c' : pool) (others : list Z) : Prop := {
  en_contents : contents h' c' =
    if ok then (blk, d) :: lru_remove blk (contents h c) else contents h c;
  en_owned : owned h' ≡ₚ d :: owned h;
  en_frame q : q ∈ others -> leaves h' !! q = leaves h !! q;
  en_length : (length (lru_list c') <= S (length (lru_list c)))%nat;
  en_size : cache_size c' = cache_size c;
}.

(** The leaf [p] has been stored in the index; the leaf it replaced goes. *)
Lemma enter_stored h h1 c others refs m t a p d blk :
  pool_inv h c others refs -> indexes h (lru_list c) m -> Z.of_nat (length (lru_list c)) + 1 < 2 ^ 31 ->
  heap_inv h1 (p :: lru_list c ++ others) refs -> (p ∉ lru_list c ++ others) -> leaf_pair h1 p = (blk, d) ->
  (forall q, q <> p -> leaves h1 !! q = leaves h !! q) -> owned h1 ≡ₚ d :: owned h ->
  oi_rep t (<[blk := p]> m) ->
  let c1 := set_items t (p :: lru_list c) (s32 (cache_num c + 1)) c in
  exists h2 c2,
    match m !! blk with
    | None => Some (set_index_mem a h1, c1)
    | Some q =>
        h2 ← drop_leaf q (set_index_mem a h1);
        Some (h2, set_items (tree c1) (list_del q (lru_list c1)) (s32 (cache_num c1 - 1)) c1)
    end = Some (h2, c2) /\ pool_inv h2 c2 others refs /\ entered blk d true h h2 c c2 others.
Proof.
  intros HI Hidx Hlen Hh1 Hnp Hpair Hfr Ho Ht c1. pose proof (pi_num _ _ _ _ HI) as Hnum.
  rewrite not_elem_of_app in Hnp. destruct Hnp as [Hpl Hpo].
  assert (forall q, q ∈ lru_list c -> leaf_pair h1 q = leaf_pair h q) as Hfr'
    by (intros q Hq; apply leaf_pair_eq, Hfr; by intros ->).
  pose proof (indexes_insert h h1 (lru_list c) m p blk Hidx Hpl) as Hix. rewrite Hpair in Hix.
  specialize (Hix eq_refl Hfr'). destruct (m !! blk) as [q|] eqn:Eq.
  - apply Hidx in Eq as [Hq Hqb]. destruct (nodup_app_l _ _ _ _ _ HI Hq) as [Hnd Hqo].
    assert (q <> p) as Hqp by (by intros ->).
    destruct (drop_leaf_spec (set_index_mem a h1) (p :: lru_list c ++ others) refs q)
      as (h2 & -> & Hh2 & Hfr2 & Ho2 & _); [by apply heap_inv_index|rewrite elem_of_cons, elem_of_app; auto|].
    cbn [mbind option_bind]. do 2 eexists. split; [done|].
    assert (list_del q (p :: lru_list c) = p :: list_del q (lru_list c)) as Hdel
      by (unfold list_del; by rewrite filter_cons_True by congruence).
    pose proof (list_del_perm _ _ Hnd Hq) as HP%Permutation_length. rewrite length_cons in HP.
    cbn [lru_list set_items tree cache_num c1]. rewrite Hdel. split; split; cbn [lru_list set_items tree cache_num cache_size].
    + change (p :: lru_list c ++ others) with ((p :: lru_list c) ++ others) in Hh2.
      by rewrite list_del_app, Hdel, (list_del_notin others) in Hh2.
    + eexists. split; [exact Ht|]. intros k r. rewrite (Hix k r).
      assert (r ∈ p :: list_del q (lru_list c) -> leaf_pair h2 r = leaf_pair h1 r) as Hr.
      { intros Hr. apply leaf_pair_eq, Hfr2. apply elem_of_cons in Hr as [->|Hr]; [congruence|].
        by apply elem_of_del_leaf in Hr as [? _]. }
      split; intros [Hin E]; (split; [done|]); [by rewrite Hr|by rewrite <- Hr].
    + rewrite length_cons, Hnum, !s32_small by (unfold is_s32; rewrite ?s32_small; unfold is_s32; lia). lia.
    + rewrite length_cons. lia.
    + unfold contents at 1. cbn [lru_list set_items]. rewrite fmap_cons.
      rewrite (leaf_pair_eq h1 h2 p), Hpair by (apply Hfr2; congruence). f_equal.
      rewrite <- Hqb, <- (contents_unlink h h c others refs q t 0 HI Hq) by done. unfold contents.
      cbn [lru_list set_items]. apply list_fmap_ext. intros i r Hr%list_elem_of_lookup_2.
      apply elem_of_del_leaf in Hr as [Hrq Hr]. rewrite <- Hfr' by done. by apply leaf_pair_eq, Hfr2.
    + by rewrite Ho2.
    + intros r Hr. rewrite Hfr2 by (by intros ->). apply Hfr. by intros ->.
    + rewrite length_cons. lia.
    + done.
  - do 2 eexists. split; [done|]. unfold c1. split; split; cbn [lru_list set_items tree cache_num cache_size].
    + by apply heap_inv_index.
    + eexists. split; [exact Ht|exact Hix].
    + rewrite length_cons, Hnum, s32_small by (unfold is_s32; lia). lia.
    + rewrite length_cons. lia.
    + rewrite (contents_absent h c m blk Hidx Eq). unfold contents. cbn [lru_list set_items].
      rewrite fmap_cons. change (leaf_pair (set_index_mem a h1)) with (leaf_pair h1). rewrite Hpair. f_equal.
      apply list_fmap_ext. intros i r Hr%list_elem_of_lookup_2. by apply Hfr'.
    + done.
    + intros r Hr. apply Hfr. by intros ->.
    + done.
    + done.
Qed.

(** The state in which an item was refused and given back. *)
Lemma entered_refused blk d h h' (c : pool) t others refs :
  pool_inv h c others refs -> heap_inv h' (lru_list c ++ others) refs -> owned h' ≡ₚ d :: owned h ->
  (forall q, q ∈ lru_list c ++ others -> leaves h' !! q = leaves h !! q) ->
  (exists m, oi_rep t m /\ indexes h (lru_list c) m) ->
  let c' := set_items t (lru_list c) (cache_num c) c in
  pool_inv h' c' others refs /\ entered blk d false h h' c c' others.
Proof.
  intros HI Hh Ho Hfr (m & Hm & Hidx) c'.
  assert (pool_inv h c' others refs) as HI' by (destruct HI as [H1 _ H3 H4]; split; eauto).
  destruct (pool_inv_heap h h' c' others refs refs HI' Hh) as [HI2 Hc].
  { intros p Hp. apply leaf_pair_eq, Hfr. rewrite elem_of_app. by left. }
  split; [done|]. split; try done; cbn [lru_list set_items tree c'].
  - intros q Hq. apply Hfr. rewrite elem_of_app. by right.
  - lia.
Qed.

(** What an update leaves in the caller's basket: the pointer of a stored item; that of an
    item that was refused, and freed, or NULL. *)
Definition left_over (d : Z) (ok : bool) (x : Z) : Prop := x = d \/ (ok = false /\ x = 0).

Lemma with_left (P Q R : Prop) : Q -> P /\ R -> P /\ Q /\ R.
Proof. tauto. Qed.

Lemma update_step d basket left blk ret h c others refs :
  pool_inv h c others refs -> is_u64 blk -> Z.of_nat (length (lru_list c)) + 1 < 2 ^ 31 ->
  exists h2 c2 (ok : bool) x,
    update_loop (d :: basket) left blk ret h c =
      update_loop basket (left ++ [x]) (u64 (blk + 1)) (if ok then 0 else - ENOMEM) h2 c2 /\
    pool_inv h2 c2 others refs /\ left_over d ok x /\ entered blk d ok h h2 c c2 others.
Proof.
  intros HI Hb Hlen. pose proof (pi_heap _ _ _ _ HI) as Hh. cbn [update_loop].
  destruct (leaf_pool h) as [|[p|] rest] eqn:Epool.
  - assert (alloc_tree_leaf {| data := d; blkid := blk; flag_refcnt := 0 |} h = (None, h)) as ->
      by (unfold alloc_tree_leaf; by rewrite Epool).
    exists (log_free d h), (set_items (tree c) (lru_list c) (cache_num c) c), false, 0. split; [by destruct c|].
    apply with_left; [by right|]. apply entered_refused; try done; [by destruct Hh|apply HI].
  - set (l := {| data := d; blkid := blk; flag_refcnt := 0 |}).
    destruct (alloc_leaf_spec h _ refs d blk p rest Hh Hb Epool) as (h1 & E1 & Hh1 & Hnp & Hp & Hl & Hfr & Ho & Hix).
    fold l in E1, Hl. rewrite E1. destruct (pi_index _ _ _ _ HI) as (m & Hm & Hidx). rewrite Hix.
    destruct (oi_insert_ok (tree c) m blk p (index_mem h) Hm Hb) as (t & a & err & old & -> & Hres).
    cbn [mbind option_bind]. destruct Hres as [(-> & -> & Ht & _)|(-> & -> & Ht)].
    + change (0 <? 0) with false. cbv iota zeta.
      destruct (enter_stored h h1 c others refs m t a p d blk) as (h2 & c2 & E2 & HI2 & Hen); try done.
      { unfold leaf_pair. by rewrite Hl. }
      exists h2, c2, true, d. split; [|split; [done|by split; [left|]]]. cbv zeta in E2. destruct (m !! blk) as [q|]; [|by simplify_eq].
      destruct (drop_leaf q (set_index_mem a h1)) as [h2'|]; [|done]. cbn [mbind option_bind] in E2 |- *.
      by simplify_eq.
    + change (- ENOMEM <? 0) with true. cbv iota.
      assert (refs p = 0) as Hr0.
      { assert (leaves h !! p = None) as Hnone by (apply (hi_fresh_free _ _ _ Hh); rewrite Epool; apply list_elem_of_here).
        pose proof (hi_refs _ _ _ Hh p). destruct (decide (0 < refs p)); [|lia].
        destruct (hi_alloc _ _ _ Hh p) as [? E]; [by right|congruence]. }
      destruct (release_fresh (set_index_mem a h1) (lru_list c ++ others) refs p) as (h2 & -> & Hh2 & Hfr2 & Ho2);
        [by apply heap_inv_index|done|done|].
      cbn [mbind option_bind]. exists h2, (set_items t (lru_list c) (cache_num c) c), false, d. split; [done|].
      apply with_left; [by left|]. apply entered_refused; try done.
      * by rewrite Ho2.
      * intros q Hq. rewrite Hfr2 by (by intros ->). apply Hfr. by intros ->.
      * by exists m.
  - assert (alloc_tree_leaf {| data := d; blkid := blk; flag_refcnt := 0 |} h =
      (None, {| leaves := leaves h; leaf_pool := rest; tree_leaf_cnt := tree_leaf_cnt h;
                freed := freed h; index_mem := index_mem h |})) as ->
      by (unfold alloc_tree_leaf; by rewrite Epool).
    eexists _, (set_items (tree c) (lru_list c) (cache_num c) c), false, 0. split; [by destruct c|].
    apply with_left; [by right|]. apply entered_refused; try done; [|apply HI]. destruct Hh as [H1 H2 H3 H4 H5 H6]. split; try done.
    + rewrite Epool in H5. done.
    + intros q Hq. apply H6. rewrite Epool. by apply list_elem_of_further.
Qed.

(** The result of the last item is the result of the update. *)
Definition last_result (ret : Z) (oks : list bool) : Z :=
  match last oks with
  | None => ret
  | Some ok => if ok then 0 else - ENOMEM
  end.

Lemma last_result_cons ret (ok : bool) oks :
  last_result (if ok then 0 else - ENOMEM) oks = last_result ret (ok :: oks).
Proof.
  unfold last_result. destruct oks as [|b oks]; [done|]. rewrite last_cons_cons.
  destruct (last (b :: oks)) eqn:E; [done|]. by apply last_None in E.
Qed.

Lemma update_loop_spec basket left blk ret h c others refs :
  pool_inv h c others refs -> 0 <= blk -> blk + Z.of_nat (length basket) <= 2 ^ 64 ->
  Z.of_nat (length (lru_list c)) + Z.of_nat (length basket) < 2 ^ 31 ->
  exists h' c' oks xs,
    update_loop basket left (u64 blk) ret h c = Some (h', c', (last_result ret oks, left ++ xs)) /\
    length oks = length basket /\ Forall3 left_over basket oks xs /\ pool_inv h' c' others refs /\
    contents h' c' = lru_enter blk (zip basket oks) (contents h c) /\
    owned h' ≡ₚ basket ++ owned h /\
    (forall q, q ∈ others -> leaves h' !! q = leaves h !! q) /\
    (length (lru_list c') <= length (lru_list c) + length basket)%nat /\ cache_size c' = cache_size c.
Proof.
  revert left blk ret h c. induction basket as [|d basket IH]; intros left blk ret h c HI Hb0 Hb Hlen.
  { exists h, c, (@nil bool), (@nil Z). rewrite app_nil_r. split_and!; try done; [constructor|simpl; lia]. }
  rewrite length_cons in Hb, Hlen. rewrite (u64_small blk) by (unfold is_u64; lia).
  destruct (update_step d basket left blk ret h c others refs HI) as (h2 & c2 & ok & x & -> & HI2 & Hx & [E1 E2 E3 E4 E5]);
    [unfold is_u64; lia|lia|].
  destruct (IH (left ++ [x]) (blk + 1) (if ok then 0 else - ENOMEM) h2 c2 HI2)
    as (h' & c' & oks & xs & -> & Hoks & Hxs & HI' & Hc & Ho & Hfr & Hl & Hs); [lia..|].
  exists h', c', (ok :: oks), (x :: xs). rewrite <- last_result_cons, <- app_assoc. split_and!; try done.
  - simpl. by rewrite Hoks.
  - by constructor.
  - cbn [zip zip_with lru_enter]. by rewrite Hc, E1.
  - rewrite Ho, E2. by rewrite <- Permutation_middle.
  - intros q Hq. by rewrite Hfr, E3.
  - rewrite length_cons. lia.
  - congruence.
Qed.

(** An update stores its items and evicts as many of the others as needed. *)
Lemma pool_update_spec start basket h c others refs :
  pool_inv h c others refs -> cache_num c <= cache_size c -> 0 <= cache_size c < 2 ^ 30 ->
  0 <= start -> start + Z.of_nat (length basket) <= 2 ^ 64 ->
  Z.of_nat (length basket) <= cache_size c -> cache_size c <> 0 ->
  exists h' c' oks left,
    pool_update start basket h c = Some (h', c', (last_result 0 oks, left)) /\
    length oks = length basket /\ Forall3 left_over basket oks left /\ pool_inv h' c' others refs /\
    contents h' c' = lru_update (cache_size c) start (zip basket oks) (contents h c) /\
    owned h' ≡ₚ basket ++ owned h /\
    cache_num c' <= cache_size c' /\ cache_size c' = cache_size c.
Proof.
  intros HI Hnum Hsz Hs0 Hs Hlen Hsz0. pose proof (pi_num _ _ _ _ HI) as Hn. unfold pool_update.
  replace (Z.of_nat (length basket) >? cache_size c) with false by lia.
  rewrite (proj2 (Z.eqb_neq _ _)) by done. cbn [orb].
  set (i := cache_num c + Z.of_nat (length basket) - cache_size c).
  rewrite (s32_u32 i) by (unfold is_s32, i; lia). rewrite (s32_small (cache_size c)) by (unfold is_s32; lia).
  replace (i >? cache_size c) with false by (unfold i; lia).
  assert (forall oks, length oks = length basket -> lru_update (cache_size c) start (zip basket oks) (contents h c)
    = lru_enter start (zip basket oks) (lru_kick (Z.to_nat i) (contents h c))) as Hupd.
  { intros oks Ho. unfold lru_update. f_equal. f_equal. unfold contents. rewrite length_fmap, length_zip. lia. }
  assert (exists h1 c1, (if i >? 0 then '(h, c, _) ← __kick_meta_cache c i None h; Some (h, c) else Some (h, c))
    = Some (h1, c1) /\ pool_inv h1 c1 others refs /\ contents h1 c1 = lru_kick (Z.to_nat i) (contents h c) /\
    owned h1 ≡ₚ owned h /\ cache_size c1 = cache_size c) as (h1 & c1 & -> & HI1 & Hc1 & Ho1 & Hs1).
  { destruct (i >? 0) eqn:Ei; zbool.
    - destruct (kick_count_spec i h c others refs HI) as (h1 & c1 & ret & K & -> & HI1 & HR & Hc); [unfold i in *; lia|].
      exists h1, c1. split_and!; try done; apply HR.
    - exists h, c. split_and!; try done. unfold lru_kick. rewrite take_ge; [done|lia]. }
  cbn [mbind option_bind].
  assert (length (lru_list c1) = (length (lru_list c) - Z.to_nat i)%nat) as Hl1.
  { apply (f_equal length) in Hc1. unfold lru_kick, contents in Hc1.
    rewrite length_take, !length_fmap in Hc1. lia. }
  destruct (update_loop_spec basket [] start 0 h1 c1 others refs HI1)
    as (h' & c' & oks & xs & E & Hoks & Hxs & HI' & Hc & Ho & _ & Hl & Hs'); try lia.
  assert (update_loop basket [] start 0 h1 c1 = Some (h', c', (last_result 0 oks, xs))) as E'.
  { destruct basket as [|d basket]; [exact E|].
    rewrite u64_small in E; [done|]. unfold is_u64. simpl in Hs. lia. }
  exists h', c', oks, xs. split_and!; try done; try congruence.
  - by rewrite Hc, Hc1, <- Hupd.
  - by rewrite Ho, Ho1.
  - rewrite (pi_num _ _ _ _ HI'), Hs', Hs1. unfold i in Hl1. lia.
Qed.

(** ** Lookup *)

(** The results of a scan: ascending, from [start] on, and complete for the blocks asked
    for. *)
Record scanned (start count : Z) (h : mem) (lru : list Z) (L : list (Z * Z)) : Prop := {
  sc_sorted : StronglySorted key_lt L;
  sc_entry k p : (k, p) ∈ L -> start <= k /\ p ∈ lru /\ (leaf_pair h p).1 = k;
  sc_complete p : p ∈ lru -> in_range start count (leaf_pair h p) -> ((leaf_pair h p).1, p) ∈ L;
  sc_length : (length L <= Z.to_nat count)%nat;
}.

Lemma sorted_position (L : list (Z * Z)) start i k p :
  StronglySorted key_lt L -> (forall k p, (k, p) ∈ L -> start <= k) -> L !! i = Some (k, p) ->
  start + Z.of_nat i <= k.
Proof.
  intros HS. revert start i. induction HS as [|[k0 p0] L HS IH Hall]; intros start i Hs Hi; [done|].
  destruct i as [|i]; [simplify_eq/=; specialize (Hs k p (list_elem_of_here _ _)); lia|].
  assert (start + 1 + Z.of_nat i <= k); [|lia]. apply IH; [|done]. intros k' p' Hin.
  rewrite Forall_forall in Hall. specialize (Hall _ Hin). unfold key_lt in Hall. simpl in Hall.
  specialize (Hs k0 p0 (list_elem_of_here _ _)). lia.
Qed.

Lemma sorted_lookup (L : list (Z * Z)) i j a b :
  StronglySorted key_lt L -> L !! i = Some a -> L !! j = Some b -> (i < j)%nat -> a.1 < b.1.
Proof.
  intros HS. revert i j. induction HS as [|x L HS IH Hall]; intros [|i] [|j] Hi Hj Hij; simplify_eq/=; try lia.
  - rewrite Forall_forall in Hall. apply Hall. by eapply list_elem_of_lookup_2.
  - apply (IH i j); try done. lia.
Qed.

(** The block number of a place is found among the results from the [n]th on. *)
Definition placed (L : list (Z * Z)) (start count : Z) (n : nat) (basket : list Z) : Prop :=
  length basket = Z.to_nat count /\
  forall k v, basket !! k = Some v ->
    if decide (k < n)%nat then L.*2 !! k = Some v
    else v <> 0 /\ (start + Z.of_nat k, v) ∈ drop n L \/
         v = 0 /\ forall p, ((start + Z.of_nat k, p) ∉ drop n L).

Lemma placed_step L start count i k p basket (b : bool) :
  StronglySorted key_lt L -> (forall k p, (k, p) ∈ L -> start <= k /\ p <> 0) ->
  L !! i = Some (k, p) -> placed L start count (S i) basket ->
  b = bool_decide (k < start + count) -> (length L <= Z.to_nat count)%nat ->
  placed L start count i (if b then <[Z.to_nat (k - start) := p]> (<[i := 0]> basket) else <[i := 0]> basket) /\
  (b = true -> (Z.to_nat (k - start) < length (<[i := 0%Z]> basket))%nat).
Proof.
  intros HS He Hi [Hlen HB] -> HL. assert (i < length L)%nat by by eapply lookup_lt_Some.
  pose proof (sorted_position L start i k p HS (fun k p H => proj1 (He k p H)) Hi) as Hpos.
  destruct (He k p) as [_ Hp0]; [by eapply list_elem_of_lookup_2|].
  assert (forall k' p', (k', p') ∈ drop (S i) L -> k < k') as Hlater.
  { intros k' p' [j Hj]%list_elem_of_lookup. rewrite lookup_drop in Hj.
    apply (sorted_lookup L i (S i + j) (k, p) (k', p')); try done. lia. }
  split; [|intros Hb%bool_decide_eq_true; rewrite length_insert; lia].
  split; [case_bool_decide; by rewrite !length_insert|]. intros x v Hx.
  rewrite (drop_S L (k, p) i Hi).
  assert ((x < i)%nat -> basket !! x = Some v -> L.*2 !! x = Some v) as Hlow.
  { intros Hxi Hv. specialize (HB x v Hv). by rewrite decide_True in HB by lia. }
  assert ((i < x)%nat -> basket !! x = Some v -> k <> start + Z.of_nat x ->
    v <> 0 /\ (start + Z.of_nat x, v) ∈ (k, p) :: drop (S i) L \/
    v = 0 /\ forall q, ((start + Z.of_nat x, q) ∉ (k, p) :: drop (S i) L)) as Hhigh.
  { intros Hxi Hv Hne. specialize (HB x v Hv). rewrite decide_False in HB by lia.
    destruct HB as [[? ?]|[? HB]]; [left; split; [done|by apply list_elem_of_further]|right; split; [done|]].
    intros q [[= E _]|Hq]%elem_of_cons; [lia|by apply (HB q)]. }
  case_bool_decide as Hb.
  - destruct (decide (x = Z.to_nat (k - start))) as [->|Hne].
    + rewrite list_lookup_insert_eq in Hx by (rewrite length_insert; lia). simplify_eq.
      rewrite decide_False by lia. left. split; [done|].
      rewrite elem_of_cons. left. f_equal. lia.
    + rewrite list_lookup_insert_ne in Hx by done. destruct (decide (x = i)) as [->|Hxi].
      * rewrite list_lookup_insert_eq in Hx by lia. simplify_eq. rewrite decide_False by lia. right.
        split; [done|]. intros q [[= E _]|Hq%Hlater]%elem_of_cons; lia.
      * rewrite list_lookup_insert_ne in Hx by done. case_decide; [by apply Hlow|]. apply Hhigh; try done; lia.
  - assert (x < Z.to_nat count)%nat by (apply lookup_lt_Some in Hx; rewrite length_insert in Hx; lia).
    destruct (decide (x = i)) as [->|Hxi].
    + rewrite list_lookup_insert_eq in Hx by lia. simplify_eq. rewrite decide_False by lia. right.
      split; [done|]. intros q [[= E _]|Hq%Hlater]%elem_of_cons; lia.
    + rewrite list_lookup_insert_ne in Hx by done. case_decide; [by apply Hlow|]. apply Hhigh; try done; lia.
Qed.

(** The leaves found among the first [n] results. *)
Definition hits (L : list (Z * Z)) (start count : Z) (n : nat) : list Z :=
  snd <$> filter (in_range start count) (take n L).

Lemma hits_S L start count i k p :
  L !! i = Some (k, p) ->
  hits L start count (S i) = hits L start count i ++
    (if bool_decide (in_range start count (k, p)) then [p] else []).
Proof.
  intros Hi. unfold hits. rewrite (take_S_r _ _ _ Hi), filter_app, fmap_app. f_equal.
  rewrite filter_cons, filter_nil. case_decide; case_bool_decide; done.
Qed.

(** The list after a lookup. *)
Definition moved (ps lru : list Z) : list Z := ps ++ filter (fun q => q ∉ ps) lru.

Lemma moved_one p ps lru :
  (p ∉ ps) -> moved ps (p :: list_del p lru) = moved (ps ++ [p]) lru.
Proof.
  intros Hp. unfold moved. rewrite filter_cons_True by done. rewrite <- app_assoc. simpl. f_equal. f_equal.
  unfold list_del. rewrite list_filter_filter. apply list_filter_iff. intros q.
  rewrite not_elem_of_app, not_elem_of_cons. pose proof (not_elem_of_nil q). tauto.
Qed.

(** A leaf found gains a reference and moves to the front. *)
Lemma find_hit h c others refs p l :
  pool_inv h c others refs -> p ∈ lru_list c -> leaves h !! p = Some l -> refs p + 1 < 2 ^ 31 ->
  let h1 := set_leaves (<[p := set_flag_refcnt (u32 (flag_refcnt l + 1)) l]> (leaves h)) h in
  let c1 := set_lru (p :: list_del p (lru_list c)) c in
  pool_inv h1 c1 others (fun q => refs q + occ q [p]) /\ (forall q, leaf_pair h1 q = leaf_pair h q) /\
  owned h1 ≡ₚ owned h.
Proof.
  intros HI Hp Hl Hr h1 c1. destruct (nodup_app_l _ _ _ _ _ HI Hp) as [Hnd _].
  pose proof (list_del_perm _ _ Hnd Hp) as HP.
  assert (forall q, leaf_pair h1 q = leaf_pair h q) as Hpair by (intros q; by apply leaf_pair_set_flag).
  split_and!; [|done|by apply owned_set_flag].
  destruct HI as [Hh (m & Hm & Hidx) Hnum Hbd]. pose proof (hi_refs _ _ _ Hh p) as Hr0.
  split; unfold c1; cbn [lru_list set_lru set_items tree cache_num].
  - apply (heap_inv_perm _ (lru_list c ++ others)); [exact (Permutation_app_tail others HP)|].
    apply (heap_inv_ref h (lru_list c ++ others) refs _ p l 1); try done; [lia|left; rewrite elem_of_app; by left|].
    intros q. rewrite occ_cons, occ_nil. repeat case_decide; subst; lia || congruence.
  - exists m. split; [done|]. intros k q. rewrite Hpair, <- HP. apply Hidx.
  - by rewrite <- HP.
  - by rewrite <- HP.
Qed.

Lemma find_loop_spec L start count n ret_off rret basket h c others refs :
  pool_inv h c others refs -> scanned start count h (lru_list c) L -> (n <= length L)%nat ->
  0 <= rret -> rret + Z.of_nat n < 2 ^ 31 ->
  (forall i k p, (i < n)%nat -> L !! i = Some (k, p) -> (k < ret_off <-> k < start + count)) ->
  (forall p, p ∈ lru_list c -> p ∈ (snd <$> take n L) -> refs p + 1 < 2 ^ 31) ->
  placed L start count n basket ->
  exists h' c' basket', let ps := hits L start count n in
    find_loop n start ret_off rret basket h c = Some (h', c', basket', rret + Z.of_nat (length ps)) /\
    pool_inv h' c' others (fun q => refs q + occ q ps) /\ lru_list c' = moved ps (lru_list c) /\
    (forall q, leaf_pair h' q = leaf_pair h q) /\ owned h' ≡ₚ owned h /\
    placed L start count 0 basket' /\ cache_size c' = cache_size c.
Proof.
  revert ret_off rret basket h c refs.
  induction n as [|i IH]; intros ret_off rret basket h c refs HI HS Hn Hr0 Hr Hoff Href HB.
  { exists h, c, basket. cbv zeta. unfold hits. rewrite take_0, filter_nil. split_and!; try done.
    - cbn [length fmap list_fmap find_loop]. by rewrite Z.add_0_r.
    - destruct HI as [H1 H2 H3 H4]. split; try done. eapply heap_inv_refs; [|done]. intros p. rewrite occ_nil. lia.
    - unfold moved. symmetry. apply filter_true. intros. apply not_elem_of_nil. }
  destruct (lookup_lt_is_Some_2 L i) as [[k p] Hi]; [lia|].
  destruct (sc_entry _ _ _ _ _ HS k p) as (Hk & Hp & Hpk); [by eapply list_elem_of_lookup_2|].
  destruct (heap_live _ _ _ p (pi_heap _ _ _ _ HI)) as (l & Hl & Hst & Hp0 & Hb); [rewrite elem_of_app; by left|].
  assert (basket !! i = Some p) as Hbi.
  { destruct HB as [Hlen HB]. pose proof (sc_length _ _ _ _ _ HS).
    destruct (lookup_lt_is_Some_2 basket i) as [v Hv]; [lia|]. rewrite Hv. specialize (HB i v Hv).
    rewrite decide_True in HB by lia. rewrite list_lookup_fmap, Hi in HB. simpl in HB. congruence. }
  assert (blkid l = k) as Hblk by (unfold leaf_pair in Hpk; by rewrite Hl in Hpk).
  destruct (placed_step L start count i k p basket (bool_decide (k < start + count)))
    as [HB1 Hin]; try done; try apply HS.
  { intros k' p' Hin. destruct (sc_entry _ _ _ _ _ HS k' p' Hin) as (? & Hp' & _). split; [done|].
    destruct (heap_live _ _ _ p' (pi_heap _ _ _ _ HI)) as (? & _ & _ & ? & _); [rewrite elem_of_app; by left|lia]. }
  cbn [find_loop]. rewrite Hbi. cbn [mbind option_bind]. rewrite (proj2 (Z.eqb_neq p 0)) by lia.
  rewrite Hl. cbn [mbind option_bind]. rewrite Hblk, (leaf_state_marked _ _ _ Hst). cbn [negb].
  rewrite andb_true_r, (hits_S L start count i k p Hi).
  replace (k >=? start) with true by lia. cbn [andb].
  assert (bool_decide (in_range start count (k, p)) = bool_decide (k < start + count)) as ->
    by (apply bool_decide_ext; unfold in_range; simpl; lia).
  assert ((k <? ret_off) = bool_decide (k < start + count)) as ->.
  { specialize (Hoff i k p ltac:(lia) Hi). case_bool_decide; [apply Z.ltb_lt|apply Z.ltb_ge]; lia. }
  destruct (bool_decide (k < start + count)) eqn:Eb.
  - rewrite (proj2 (Nat.ltb_lt _ _)) by by apply Hin.
    assert (p ∈ (snd <$> take (S i) L)) as Hpin.
    { rewrite (take_S_r _ _ _ Hi), fmap_app, elem_of_app. right. apply list_elem_of_here. }
    destruct (find_hit h c others refs p l HI Hp Hl (Href p Hp Hpin)) as (HI1 & Hpair & Ho).
    set (h1 := set_leaves _ h) in *. set (c1 := set_lru _ c) in *.
    assert (p ∉ (snd <$> take i L)) as Hpn.
    { intros ([k' p'] & Heq & [j Hj]%list_elem_of_lookup)%list_elem_of_fmap. simpl in Heq. subst p'.
      apply lookup_take_Some in Hj as [Hj Hji].
      pose proof (sorted_lookup L j i _ _ (sc_sorted _ _ _ _ _ HS) Hj Hi Hji) as Hlt. simpl in Hlt.
      destruct (sc_entry _ _ _ _ _ HS k' p) as (_ & _ & ?); [by eapply list_elem_of_lookup_2|]. lia. }
    assert (p ∉ hits L start count i) as Hph.
    { intros (x & -> & [_ Hx]%list_elem_of_filter)%list_elem_of_fmap. apply Hpn. by apply list_elem_of_fmap_2. }
    assert (forall q, q ∈ lru_list c1 <-> q ∈ lru_list c) as Hlru.
    { intros q. destruct (nodup_app_l _ _ _ _ _ HI Hp) as [Hnd _].
      unfold c1. cbn [lru_list set_lru set_items]. by rewrite <- (list_del_perm _ _ Hnd Hp). }
    destruct (IH k (s32 (rret + 1)) (<[Z.to_nat (k - start) := p]> (<[i := 0]> basket)) h1 c1 _ HI1)
      as (h' & c' & basket' & E & HI' & Hl' & Hpair' & Ho' & HB' & Hs'); try lia.
    + destruct HS as [S1 S2 S3 S4]. split; try done.
      * intros k' p' Hkp. rewrite Hlru, Hpair. by apply S2.
      * intros q Hq. rewrite Hpair. apply S3. by apply Hlru.
    + rewrite s32_small; unfold is_s32; lia.
    + rewrite s32_small; unfold is_s32; lia.
    + intros i' k' p' Hi' Hk'. apply bool_decide_eq_true in Eb.
      pose proof (sorted_lookup L i' i _ _ (sc_sorted _ _ _ _ _ HS) Hk' Hi Hi') as Hlt. simpl in Hlt. lia.
    + intros q Hq Hqin. rewrite occ_cons, occ_nil, decide_False by (by intros ->).
      rewrite !Z.add_0_r. apply Href; [by apply Hlru|]. rewrite (take_S_r _ _ _ Hi), fmap_app, elem_of_app. by left.
    + done.
    + exists h', c', basket'. cbv zeta. rewrite E, length_app, s32_small by (unfold is_s32; lia).
      split_and!; try done.
      * f_equal. f_equal. simpl. lia.
      * destruct HI' as [H1 H2 H3 H4]. split; try done. eapply heap_inv_refs; [|done].
        intros q. cbv beta. rewrite occ_app. lia.
      * rewrite Hl'. unfold c1. cbn [lru_list set_lru set_items]. by apply moved_one.
      * intros q. by rewrite Hpair', Hpair.
      * by rewrite Ho'.
  - destruct (IH ret_off rret (<[i := 0]> basket) h c refs HI HS)
      as (h' & c' & basket' & E & H'); try done; try lia.
    + intros i' k' p' Hi'. apply Hoff. lia.
    + intros q Hq Hqin. apply Href; [done|]. rewrite (take_S_r _ _ _ Hi), fmap_app, elem_of_app. by left.
    + exists h', c', basket'. rewrite app_nil_r. done.
Qed.

Lemma StronglySorted_take {B} (R : B -> B -> Prop) n l :
  StronglySorted R l -> StronglySorted R (take n l).
Proof.
  intros HS. revert n. induction HS as [|x l HS IH Hall]; intros [|n]; try constructor; [by apply IH|].
  by apply Forall_take.
Qed.

Lemma scan_scanned start count h lru m :
  indexes h lru m -> (forall k p, m !! k = Some p -> k < 2 ^ 64) -> 0 <= count ->
  scanned start count h lru (take (Z.to_nat count) (filter (fun kv => start <= kv.1) (ascending m))).
Proof.
  intros Hidx Hu Hc. destruct (ascending_bindings m start Hu) as [HS HM].
  set (F := filter (fun kv => start <= kv.1) (ascending m)) in *.
  assert (forall k p, (k, p) ∈ F -> start <= k /\ m !! k = Some p) as HF by (intros k p [? ?]%HM; split; [lia|done]).
  split.
  - by apply StronglySorted_take.
  - intros k p Hin. apply elem_of_take in Hin as (i & Hi & _). apply list_elem_of_lookup_2, HF in Hi as [? Hm].
    apply Hidx in Hm. tauto.
  - intros p Hp Hin. assert (m !! (leaf_pair h p).1 = Some p) as Hm by (by apply Hidx).
    assert (((leaf_pair h p).1, p) ∈ F) as HinF.
    { apply HM. split; [|done]. unfold in_range in Hin. specialize (Hu _ _ Hm). lia. }
    apply list_elem_of_lookup in HinF as [i Hi]. apply elem_of_take. exists i. split; [done|].
    pose proof (sorted_position F start i _ _ HS (fun k p H => proj1 (HF k p H)) Hi). unfold in_range in Hin. lia.
  - rewrite length_take. lia.
Qed.

Lemma nodup_nonnull (b : list Z) :
  (forall i j v, b !! i = Some v -> b !! j = Some v -> v <> 0 -> i = j) -> NoDup (nonnull b).
Proof.
  induction b as [|x b IH]; intros Hinj; [constructor|]. unfold nonnull. rewrite filter_cons.
  assert (NoDup (nonnull b)) by (apply IH; intros i j v Hi Hj Hv; specialize (Hinj (S i) (S j) v Hi Hj Hv); lia).
  case_decide as Hx; [|done]. constructor; [|done].
  intros [_ [j Hj]%list_elem_of_lookup]%list_elem_of_filter. specialize (Hinj 0%nat (S j) x eq_refl Hj Hx). lia.
Qed.

(** The basket after a lookup: at each place the leaf of its block, or NULL. *)
Definition basket_ok (h : mem) (lru : list Z) (start count : Z) (basket : list Z) : Prop :=
  length basket = Z.to_nat count /\
  forall k v, basket !! k = Some v ->
    (v <> 0 /\ v ∈ lru /\ (leaf_pair h v).1 = start + Z.of_nat k) \/
    (v = 0 /\ forall p, p ∈ lru -> (leaf_pair h p).1 <> start + Z.of_nat k).

Lemma placed_basket h lru start count L basket :
  scanned start count h lru L -> placed L start count 0 basket -> basket_ok h lru start count basket.
Proof.
  intros [S1 S2 S3 S4] [Hlen HB]. split; [done|]. intros k v Hv. specialize (HB k v Hv).
  rewrite decide_False in HB by lia. rewrite drop_0 in HB. apply lookup_lt_Some in Hv.
  destruct HB as [[Hv0 HB]|[-> HB]]; [left|right].
  - destruct (S2 _ _ HB) as (_ & ? & ?). done.
  - split; [done|]. intros p Hp E. apply (HB p). rewrite <- E. apply S3; [done|]. unfold in_range. lia.
Qed.

Lemma hits_elem h lru start count L p :
  scanned start count h lru L ->
  p ∈ hits L start count (length L) <-> p ∈ lru /\ in_range start count (leaf_pair h p).
Proof.
  intros [S1 S2 S3 S4]. unfold hits. rewrite firstn_all, list_elem_of_fmap. split.
  - intros ([k q] & -> & [Hr Hin]%list_elem_of_filter). destruct (S2 _ _ Hin) as (_ & ? & Hk).
    split; [done|]. unfold in_range in *. simpl in *. lia.
  - intros [Hp Hr]. exists ((leaf_pair h p).1, p). split; [done|]. apply list_elem_of_filter.
    split; [exact Hr|by apply S3].
Qed.

Lemma hits_sorted h lru start count L :
  scanned start count h lru L ->
  StronglySorted key_lt (leaf_pair h <$> hits L start count (length L)).
Proof.
  intros [S1 S2 S3 S4]. unfold hits. rewrite firstn_all. apply (StronglySorted_filter _ (in_range start count)) in S1.
  assert (forall k p, (k, p) ∈ filter (in_range start count) L -> (leaf_pair h p).1 = k) as Hk
    by (intros k p [_ Hin]%list_elem_of_filter; by apply S2).
  induction S1 as [|[k p] F HS IH Hall]; [constructor|]. simpl. constructor.
  - apply IH. intros k' p' ?. apply Hk. by apply list_elem_of_further.
  - apply Forall_forall. intros x (q & -> & ([k' q'] & -> & Hq)%list_elem_of_fmap)%list_elem_of_fmap.
    rewrite Forall_forall in Hall. specialize (Hall _ Hq). unfold key_lt in *. simpl in *.
    rewrite (Hk k p), (Hk k' q'); [done|by apply list_elem_of_further|apply list_elem_of_here].
Qed.

Lemma basket_hits h lru start count L basket refs (h0 : mem) live :
  heap_inv h0 live refs -> (forall p, p ∈ lru -> p ∈ live) ->
  scanned start count h lru L -> basket_ok h lru start count basket -> 0 <= count ->
  (forall p q, p ∈ lru -> q ∈ lru -> (leaf_pair h p).1 = (leaf_pair h q).1 -> p = q) ->
  hits L start count (length L) ≡ₚ nonnull basket.
Proof.
  intros HI Hlive HS [Hlen HB] Hc Hinj. apply NoDup_Permutation.
  - pose proof (hits_sorted _ _ _ _ _ HS) as Hs%key_lt_nodup. by apply NoDup_fmap_1 in Hs.
  - apply nodup_nonnull. intros i j v Hi Hj Hv.
    destruct (HB i v Hi) as [(_ & _ & E1)|[? _]]; [|done]. destruct (HB j v Hj) as [(_ & _ & E2)|[? _]]; [|done]. lia.
  - intros p. rewrite (hits_elem h lru start count L p HS). unfold nonnull. rewrite list_elem_of_filter.
    split.
    + intros [Hp Hr]. destruct (heap_live _ _ _ p HI (Hlive p Hp)) as (_ & _ & _ & Hp0 & _). split; [lia|].
      unfold in_range in Hr. apply list_elem_of_lookup. exists (Z.to_nat ((leaf_pair h p).1 - start)).
      destruct (lookup_lt_is_Some_2 basket (Z.to_nat ((leaf_pair h p).1 - start))) as [v Hv]; [lia|].
      rewrite Hv. f_equal. destruct (HB _ _ Hv) as [(_ & Hvl & Hk)|[-> Hn]].
      * apply Hinj; [done|done|]. rewrite Hk. lia.
      * exfalso. apply (Hn p Hp). lia.
    + intros [Hp0 [k Hk]%list_elem_of_lookup]. apply lookup_lt_Some in Hk as Hlt.
      destruct (HB k p Hk) as [(_ & ? & Hkey)|[? _]]; [|done]. split; [done|]. unfold in_range. lia.
Qed.

Lemma contents_moved h c start count L others refs :
  pool_inv h c others refs -> scanned start count h (lru_list c) L ->
  leaf_pair h <$> moved (hits L start count (length L)) (lru_list c) = lru_find start count (contents h c).
Proof.
  intros HI HS. destruct (pi_index _ _ _ _ HI) as (m & Hm & Hidx).
  assert (NoDup (lru_list c)) as Hnd.
  { pose proof (hi_nodup _ _ _ (pi_heap _ _ _ _ HI)) as Hx. by apply NoDup_app in Hx as [? _]. }
  assert (forall p q, p ∈ lru_list c -> q ∈ lru_list c -> (leaf_pair h p).1 = (leaf_pair h q).1 -> p = q) as Hinj.
  { intros p q Hp Hq E. assert (m !! (leaf_pair h q).1 = Some p) by (by apply Hidx).
    assert (m !! (leaf_pair h q).1 = Some q) by (by apply Hidx). congruence. }
  unfold moved, lru_find. rewrite fmap_app. f_equal.
  - pose proof (hits_sorted _ _ _ _ _ HS) as Hs. set (ps := hits L start count (length L)) in *.
    pose proof (merge_sort_Permutation key_le (filter (in_range start count) (contents h c))) as HP.
    assert ((leaf_pair h <$> ps) ≡ₚ filter (in_range start count) (contents h c)) as HQ.
    { unfold contents. assert (ps ≡ₚ filter (fun q => in_range start count (leaf_pair h q)) (lru_list c)) as ->.
      - apply NoDup_Permutation; [by apply key_lt_nodup, NoDup_fmap_1 in Hs|by apply NoDup_filter|].
        intros p. unfold ps. rewrite (hits_elem h _ _ _ _ p HS), list_elem_of_filter. tauto.
      - clear. induction (lru_list c) as [|q l IH]; [done|]. rewrite fmap_cons, !filter_cons.
        case_decide; by rewrite ?fmap_cons, IH. }
    apply (StronglySorted_unique_strong key_le).
    + intros x y (p & -> & Hp)%list_elem_of_fmap Hy. rewrite HP in Hy.
      apply list_elem_of_filter in Hy as [_ (q & -> & Hq)%list_elem_of_fmap]. unfold key_le. intros ? ?.
      apply (hits_elem h _ _ _ _ p HS) in Hp as [Hp _]. f_equal. apply Hinj; try done. lia.
    + by apply key_lt_le.
    + apply StronglySorted_merge_sort; apply _.
    + by rewrite HQ, HP.
  - unfold contents. assert (forall q, q ∈ lru_list c -> (q ∉ hits L start count (length L)) <-> ~ in_range start count (leaf_pair h q)) as Hq.
    { intros q Hq. rewrite (hits_elem h _ _ _ _ q HS). tauto. }
    clear -Hq. induction (lru_list c) as [|q l IH]; [done|]. rewrite fmap_cons, !filter_cons.
    rewrite <- IH by (intros; apply Hq; by apply list_elem_of_further).
    specialize (Hq q (list_elem_of_here _ _)). repeat case_decide; rewrite ?fmap_cons; tauto || done.
Qed.

(** A lookup finds exactly the leaves of the blocks asked for, takes a reference on each
    and makes them the most recently used ones. *)
Lemma pool_find_spec start count h c others refs :
  pool_inv h c others refs -> oi_sound (tree c) -> 0 <= start -> 0 <= count < 2 ^ 31 ->
  start + count < 2 ^ 64 -> (forall p, refs p + 1 < 2 ^ 31) ->
  exists h' c' basket, let n := Z.of_nat (length (nonnull basket)) in
    pool_find start count h c = Some (h', c', (basket, n)) /\
    pool_inv h' c' others (fun q => refs q + occ q (nonnull basket)) /\
    basket_ok h (lru_list c) start count basket /\
    contents h' c' = lru_find start count (contents h c) /\
    (forall q, leaf_pair h' q = leaf_pair h q) /\ owned h' ≡ₚ owned h /\ cache_size c' = cache_size c.
Proof.
  intros HI Hso Hs0 Hc Hsc Hr. destruct (pi_index _ _ _ _ HI) as (m & Hm & Hidx).
  assert (forall k p, m !! k = Some p -> k < 2 ^ 64) as Hu.
  { intros k p [Hp <-]%Hidx. destruct (heap_live _ _ _ p (pi_heap _ _ _ _ HI)) as (l & Hl & _ & _ & Hb);
      [rewrite elem_of_app; by left|]. unfold leaf_pair. rewrite Hl. apply Hb. }
  pose proof (scan_scanned start count h (lru_list c) m Hidx Hu (proj1 Hc)) as HS.
  unfold pool_find. rewrite (oi_scan_ok (tree c) m start count Hm Hso) by (unfold is_u64, is_u32; lia).
  unfold scan. set (L := take (Z.to_nat count) _) in *. cbn [mbind option_bind]. rewrite length_fmap.
  pose proof (sc_length _ _ _ _ _ HS) as HL.
  destruct (find_loop_spec L start count (length L) (u64 (start + count)) 0
    ((snd <$> L) ++ replicate (Z.to_nat count - length L) 0) h c others refs HI HS)
    as (h' & c' & basket & E & HI' & Hl' & Hpair & Ho & HB & Hsz); try lia.
  { intros i k p _ _. rewrite u64_small by (unfold is_u64; lia). done. }
  { intros. apply Hr. }
  { split; [rewrite length_app, length_fmap, length_replicate; lia|]. intros k v Hv. case_decide as Hk.
    - rewrite lookup_app_l in Hv by (rewrite length_fmap; lia). done.
    - rewrite lookup_app_r, length_fmap in Hv by (rewrite length_fmap; lia).
      apply lookup_replicate in Hv as [-> _]. right. split; [done|]. intros p. rewrite drop_ge by lia. apply not_elem_of_nil. }
  pose proof (placed_basket h (lru_list c) start count L basket HS HB) as HBok.
  assert (hits L start count (length L) ≡ₚ nonnull basket) as HPb.
  { apply (basket_hits h (lru_list c) start count L basket refs h (lru_list c ++ others)); try done;
      [apply HI|intros p Hp; rewrite elem_of_app; by left|lia|].
    intros p q Hp Hq Epq. assert (m !! (leaf_pair h q).1 = Some p) by (by apply Hidx).
    assert (m !! (leaf_pair h q).1 = Some q) by (by apply Hidx). congruence. }
  assert (pool_inv h' c' others (fun q => refs q + occ q (nonnull basket))) as HI2.
  { destruct HI' as [H1 H2 H3 H4]. split; try done. eapply heap_inv_refs; [|done]. intros q. cbv beta.
    by rewrite (occ_perm q _ _ HPb). }
  assert (contents h' c' = lru_find start count (contents h c)) as Hcont.
  { rewrite <- (contents_moved h c start count L others refs HI HS). unfold contents. rewrite Hl'.
    apply list_fmap_ext. intros; apply Hpair. }
  rewrite (Permutation_length HPb) in E. change (0 + Z.of_nat (length (nonnull basket))) with (Z.of_nat (length (nonnull basket))) in E.
  destruct (Z.of_nat (length L) >? 0) eqn:Eret; zbool.
  - rewrite E. cbn [mbind option_bind]. eexists h', _, basket. split; [done|]. split_and!; try done.
    destruct HI2 as [H1 H2 H3 H4]. by split.
  - assert (length L = 0%nat) as L0 by lia. rewrite L0 in E. simpl in E. apply nil_length_inv in L0.
    rewrite L0 in E. simpl in E. rewrite Nat.sub_0_r in E. simplify_eq. exists h', c', (replicate (Z.to_nat count) 0).
    split_and!; try done. by rewrite <- H0.
Qed.

(** ** Sequences of operations

    The users hold baskets they got from lookups and give them back; [cs_given] logs
    the data handed to the cache.  A lookup in an empty pool is left out here: it finds
    nothing, unless an insertion into the empty index failed (see
    [radix_insert_enomem_faults]). *)

Inductive cache_op : Type :=
| OpFind (start count : Z)
| OpPut (i : nat)
| OpUpdate (start : Z) (basket : list Z)
| OpInval (start count : Z)
| OpKick (md_cmp_fn : option (Z -> bool)).

Record cstate : Type := {
  cs_mem : mem;
  cs_pool : pool;
  cs_held : list (list Z);
  cs_given : list Z;
}.

Definition cache_exec (op : cache_op) (s : cstate) : option cstate :=
  let h := cs_mem s in let c := cs_pool s in
  match op with
  | OpFind start count =>
      if decide (lru_list c = []) then Some s
      else
        '(h, c, (basket, _)) ← pool_find start count h c;
        Some {| cs_mem := h; cs_pool := c; cs_held := basket :: cs_held s; cs_given := cs_given s |}
  | OpPut i =>
      match cs_held s !! i with
      | None => Some s
      | Some basket =>
          h ← pool_put basket h;
          Some {| cs_mem := h; cs_pool := c; cs_held := delete i (cs_held s); cs_given := cs_given s |}
      end
  | OpUpdate start basket =>
      '(h, c, (ret, _)) ← pool_update start basket h c;
      Some {| cs_mem := h; cs_pool := c; cs_held := cs_held s;
              cs_given := if ret =? - E2BIG then cs_given s else basket ++ cs_given s |}
  | OpInval start count =>
      '(h, c) ← inval_loop (Z.to_nat count) start h c;
      Some {| cs_mem := h; cs_pool := c; cs_held := cs_held s; cs_given := cs_given s |}
  | OpKick md_cmp_fn =>
      '(h, c) ← kick_pool (-1) md_cmp_fn h c;
      Some {| cs_mem := h; cs_pool := c; cs_held := cs_held s; cs_given := cs_given s |}
  end.

Fixpoint cache_run (ops : list cache_op) (s : cstate) : option cstate :=
  match ops with
  | [] => Some s
  | op :: ops => s ← cache_exec op s; cache_run ops s
  end.

Definition op_fine (op : cache_op) : Prop :=
  match op with
  | OpFind start count | OpInval start count =>
      0 <= start /\ 0 <= count < 2 ^ 31 /\ start + count < 2 ^ 64
  | OpUpdate start basket => 0 <= start /\ start + Z.of_nat (length basket) < 2 ^ 64
  | _ => True
  end.

Definition held_refs (held : list (list Z)) (p : Z) : Z := occ p (concat (nonnull <$> held)).

Record cs_inv (s : cstate) : Prop := {
  ci_pool : pool_inv (cs_mem s) (cs_pool s) [] (held_refs (cs_held s));
  ci_num : cache_num (cs_pool s) <= cache_size (cs_pool s) /\ 0 <= cache_size (cs_pool s) < 2 ^ 30;
  ci_owned : owned (cs_mem s) ≡ₚ cs_given s;
  ci_held : Forall (fun b => NoDup (nonnull b) /\ Forall (fun p => 0 <= p) b) (cs_held s);
}.

Lemma held_refs_cons b held p : held_refs (b :: held) p = occ p (nonnull b) + held_refs held p.
Proof. unfold held_refs. simpl. apply occ_app. Qed.

Lemma held_refs_delete held i b p :
  held !! i = Some b -> held_refs held p = occ p (nonnull b) + held_refs (delete i held) p.
Proof.
  revert i. induction held as [|a held IH]; intros [|i] Hi; simplify_eq/=; rewrite !held_refs_cons; [done|].
  rewrite (IH i Hi). lia.
Qed.

Lemma held_refs_bound held p :
  Forall (fun b => NoDup (nonnull b) /\ Forall (fun p => 0 <= p) b) held ->
  held_refs held p <= Z.of_nat (length held).
Proof.
  induction 1 as [|b held [Hb _] Hh IH]; [done|]. rewrite held_refs_cons, length_cons.
  assert (occ p (nonnull b) <= 1); [|lia]. clear -Hb. induction Hb as [|x l Hx Hl IH]; [done|].
  rewrite occ_cons. case_decide as E; [|lia]. subst. unfold occ. rewrite filter_false; [done|].
  intros q Hq ->. done.
Qed.

Lemma kick_pool_spec f h c others refs :
  pool_inv h c others refs ->
  exists h' c', kick_pool (-1) f h c = Some (h', c') /\ pool_inv h' c' others refs /\
    owned h' ≡ₚ owned h /\ cache_size c' = cache_size c /\ cache_num c' <= cache_num c.
Proof.
  intros HI. destruct (kick_all_spec f h c others refs HI) as (h1 & c1 & ret & K & E & HI1 & HR & HK & Hret).
  unfold kick_pool. rewrite E. cbn [mbind option_bind].
  destruct (kick_retry_spec ret h1 c1 others refs HI1) as (h' & c' & E' & HI' & Ho' & H0 & H1 & Hs').
  exists h', c'. split_and!; try done.
  - rewrite Ho'. apply (rm_owned _ _ _ _ _ HR).
  - rewrite Hs'. apply (rm_size _ _ _ _ _ HR).
  - rewrite (pi_num _ _ _ _ HI'), (pi_num _ _ _ _ HI). destruct (decide (ret = 0)) as [Er|Er].
    + destruct (H0 Er) as [_ ->]. rewrite (rm_lru _ _ _ _ _ HR). apply inj_le, length_filter.
    + rewrite (H1 Er). simpl. lia.
Qed.

Lemma cache_exec_ok op s :
  cs_inv s -> op_fine op -> Z.of_nat (length (cs_held s)) + 1 < 2 ^ 31 ->
  exists s', cache_exec op s = Some s' /\ cs_inv s' /\
    (length (cs_held s') <= S (length (cs_held s)))%nat.
Proof.
  intros [HI [Hn Hsz] Ho Hh] Hop Hlen. pose proof (pi_bound _ _ _ _ HI) as Hbd.
  destruct s as [h c held given]; cbn [cs_mem cs_pool cs_held cs_given] in *.
  destruct op as [start count|i|start basket|start count|f]; simpl in Hop |- *.
  - case_decide as Hne; [eexists; split; [done|]; split; [by split|simpl; lia]|].
    destruct (pi_index _ _ _ _ HI) as (m & Hm & Hidx).
    assert (m <> ∅) as Hm0.
    { destruct (lru_list c) as [|p l] eqn:El; [done|]. intros ->.
      assert ((∅ : gmap Z Z) !! (leaf_pair h p).1 = Some p) as Hx by (apply Hidx; split; [apply list_elem_of_here|done]).
      by rewrite lookup_empty in Hx. }
    destruct (pool_find_spec start count h c [] (held_refs held) HI) as (h' & c' & b & E & HI' & HB & Hc & Hp & Ho' & Hs');
      try lia; [by eapply oi_nonempty|intros p; pose proof (held_refs_bound held p Hh); lia|].
    rewrite E. cbn [mbind option_bind]. eexists. split; [done|]. split; [|simpl; lia].
    assert (NoDup (nonnull b) /\ Forall (fun p => 0 <= p) b) as Hb.
    { destruct HB as [_ HB]. split.
      - apply nodup_nonnull. intros x y v Hx Hy Hv.
        destruct (HB x v Hx) as [(_ & _ & E1)|[? _]]; [|done]. destruct (HB y v Hy) as [(_ & _ & E2)|[? _]]; [|done]. lia.
      - apply Forall_lookup_2. intros x v Hx. destruct (HB x v Hx) as [(_ & Hv & _)|[-> _]]; [|done].
        destruct (heap_live _ _ _ v (pi_heap _ _ _ _ HI)) as (_ & _ & _ & ? & _); [rewrite elem_of_app; by left|lia]. }
    split; simpl.
    + destruct HI' as [H1 H2 H3 H4]. split; try done. eapply heap_inv_refs; [|done].
      intros p. rewrite held_refs_cons. lia.
    + rewrite Hs'. rewrite (pi_num _ _ _ _ HI'), <- (length_fmap (leaf_pair h')). fold (contents h' c'). rewrite Hc.
      unfold lru_find. rewrite length_app, (Permutation_length (merge_sort_Permutation _ _)).
      assert (length (filter (in_range start count) (contents h c)) +
        length (filter (fun kv => ~ in_range start count kv) (contents h c)) = length (contents h c))%nat as ->.
      { clear. induction (contents h c) as [|x l IH]; [done|]. rewrite !filter_cons. repeat case_decide; simpl; try done; lia || tauto. }
      unfold contents. rewrite length_fmap, <- (pi_num _ _ _ _ HI). done.
    + by rewrite Ho'.
    + by constructor.
  - destruct (held !! i) as [b|] eqn:Ei; [|eexists; split; [done|]; split; [by split|simpl; lia]].
    destruct (proj1 (Forall_lookup _ _) Hh i b Ei) as [_ Hb].
    destruct (pool_put_spec b h (lru_list c ++ []) (held_refs held) (held_refs (delete i held)))
      as (h' & E & Hh' & Hp & Ho' & Hlp & _); try done; [apply HI|intros p; by apply held_refs_delete|intros; apply occ_nonneg|].
    rewrite E. cbn [mbind option_bind]. eexists. split; [done|]. split; [|simpl; rewrite length_delete by done; lia].
    split; simpl; try done.
    + eapply pool_inv_heap; [exact HI|done|]. intros p ?. apply Hp. rewrite elem_of_app. by left.
    + by rewrite Ho'.
    + by apply Forall_delete.
  - destruct (decide (Z.of_nat (length basket) <= cache_size c /\ cache_size c <> 0)) as [[Hb Hs0]|Hbig].
    + destruct (pool_update_spec start basket h c [] (held_refs held) HI) as (h' & c' & oks & left & E & Hoks & _ & HI' & Hc & Ho' & Hn' & Hs');
        try done; try lia.
      rewrite E. cbn [mbind option_bind]. eexists. split; [done|]. split; [|simpl; lia].
      assert ((last_result 0 oks =? - E2BIG) = false) as ->.
      { unfold last_result. by destruct (last oks) as [[]|]. }
      split; simpl; try done; [lia|by rewrite Ho', Ho].
    + assert (pool_update start basket h c = Some (h, c, (- E2BIG, basket))) as ->.
      { unfold pool_update. destruct (_ >? cache_size c) eqn:E1; [done|]. destruct (cache_size c =? 0) eqn:E2; [done|].
        zbool. lia. }
      cbn [mbind option_bind]. rewrite Z.eqb_refl. eexists. split; [done|]. split; [by split|simpl; lia].
  - destruct (inval_loop_spec (Z.to_nat count) start h c [] (held_refs held) HI) as (h' & c' & K & E & HI' & HR & HK & Hc); [lia..|].
    rewrite u64_small in E by (unfold is_u64; lia). rewrite E. cbn [mbind option_bind].
    eexists. split; [done|]. split; [|simpl; lia]. split; simpl; try done.
    + rewrite (rm_size _ _ _ _ _ HR), (pi_num _ _ _ _ HI'), (rm_lru _ _ _ _ _ HR). rewrite (pi_num _ _ _ _ HI) in Hn.
      split; [|done]. pose proof (length_filter (fun q => q ∉ K) (lru_list c)). lia.
    + by rewrite (rm_owned _ _ _ _ _ HR).
  - destruct (kick_pool_spec f h c [] (held_refs held) HI) as (h' & c' & E & HI' & Ho' & Hs' & Hn'). rewrite E.
    cbn [mbind option_bind]. eexists. split; [done|]. split; [|simpl; lia]. split; simpl; try done; [lia|by rewrite Ho'].
Qed.

Lemma cache_run_ok ops s :
  cs_inv s -> Forall op_fine ops -> Z.of_nat (length (cs_held s)) + Z.of_nat (length ops) < 2 ^ 31 ->
  exists s', cache_run ops s = Some s' /\ cs_inv s'.
Proof.
  intros HI Hok. revert s HI. induction Hok as [|op ops Hop Hok IH]; intros s HI Hlen; [by exists s|].
  rewrite length_cons in Hlen. destruct (cache_exec_ok op s HI Hop) as (s1 & E & HI1 & Hl1); [lia|].
  cbn [cache_run]. rewrite E. cbn [mbind option_bind]. apply IH; [done|lia].
Qed.

(** An empty pool over a heap without leaves. *)
Definition fresh_state (vid cap size : Z) (pool : list (option Z)) (a : A) : cstate :=
  {| cs_mem := {| leaves := ∅; leaf_pool := pool; tree_leaf_cnt := 0; freed := []; index_mem := a |};
     cs_pool := {| volid := vid; capacity := cap; cache_num := 0; cache_size := size; tree := oi_empty;
                   lru_list := []; ref_cnt := 0; m_hit := 0; m_miss := 0 |};
     cs_held := []; cs_given := [] |}.

Lemma fresh_inv vid cap size pool a :
  0 <= size < 2 ^ 30 -> NoDup (omap id pool) -> Forall (fun p => 0 < p) (omap id pool) ->
  cs_inv (fresh_state vid cap size pool a).
Proof.
  intros Hs Hnd Hpos. split; simpl; try done; [|lia].
  split; simpl; try done.
  - split; simpl; try done; [by intros p [?%elem_of_nil|?]|constructor|].
    intros p Hp. split; [|done]. rewrite Forall_forall in Hpos. apply Hpos. apply list_elem_of_omap.
    by exists (Some p).
  - exists ∅. split; [apply oi_empty_ok|]. intros k p. rewrite lookup_empty, elem_of_nil. split; [done|by intros [? _]].
Qed.


(** C13: a lookup fills the basket exactly: at the place of each block the leaf of that
    block if it is cached, NULL otherwise; it reports how many it found, takes a reference
    on each and makes them the most recently used ones, in ascending order, leaving the
    order of the others. *)
Theorem cache_find_exact start count h c others refs :
  pool_inv h c others refs -> oi_sound (tree c) -> 0 <= start -> 0 <= count < 2 ^ 31 ->
  start + count < 2 ^ 64 -> (forall p, refs p + 1 < 2 ^ 31) ->
  exists h' c' basket,
    pool_find start count h c = Some (h', c', (basket, Z.of_nat (length (nonnull basket)))) /\
    pool_inv h' c' others (fun q => refs q + occ q (nonnull basket)) /\
    length basket = Z.to_nat count /\
    (forall k v, basket !! k = Some v ->
      (v <> 0 /\ leaf_pair h' v ∈ contents h c /\ (leaf_pair h' v).1 = start + Z.of_nat k) \/
      (v = 0 /\ forall d, ((start + Z.of_nat k, d) ∉ contents h c))) /\
    contents h' c' = lru_find start count (contents h c).
Proof.
  intros. destruct (pool_find_spec start count h c others refs) as (h' & c' & b & E & HI' & [Hl HB] & Hc & Hp & _);
    try done.
  exists h', c', b. split_and!; try done. intros k v Hv. rewrite Hp.
  destruct (HB k v Hv) as [(? & Hin & ?)|[-> Hn]]; [left|right]; (split; [done|]).
  - split; [by apply list_elem_of_fmap_2|done].
  - intros d (q & Hq & Hin)%list_elem_of_fmap. apply (Hn q Hin). by rewrite <- Hq.
Qed.


(** The invalidation of the items that meet a condition removes exactly these, when
    nobody uses any of them; when one of them is in use, the attempts that follow
    remove the items that do not meet the condition as well: the pool is empty. *)
Theorem cache_inval_cond_purges f h c others refs :
  pool_inv h c others refs ->
  let in_use := exists p, p ∈ lru_list c /\ f (leaf_pair h p).2 = true /\ 0 < refs p in
  exists h' c', kick_pool (-1) (Some f) h c = Some (h', c') /\ pool_inv h' c' others refs /\
    (~ in_use -> contents h' c' = filter (fun kv => f kv.2 = false) (contents h c)) /\
    (in_use -> lru_list c' = []).
Proof.
  intros HI in_use. destruct (kick_all_spec (Some f) h c others refs HI) as (h1 & c1 & ret & K & E & HI1 & HR & HK & Hret).
  unfold kick_pool. rewrite E. cbn [mbind option_bind].
  destruct (kick_retry_spec ret h1 c1 others refs HI1) as (h' & c' & E' & HI' & _ & H0 & H1 & _).
  exists h', c'. split_and!; try done.
  - intros Hno. assert (ret = 0) as Er.
    { apply Hret. intros p [Hp Hs]%HK. pose proof (hi_refs _ _ _ (pi_heap _ _ _ _ HI) p).
      destruct (decide (0 < refs p)); [|lia]. exfalso. apply Hno. by exists p. }
    destruct (H0 Er) as [-> ->]. by apply (removed_cond f K).
  - intros (p & Hp & Hf & Hr). apply H1. rewrite Hret. intros Hall.
    specialize (Hall p (proj2 (HK p) (conj Hp Hf))). lia.
Qed.

End inv.

(** ** A concrete pool *)

Definition demo_cache : cstate (T := radix_root Z) (A := node_cache) :=
  fresh_state 1 0 3 (Some <$> [11; 12; 13; 14; 15; 16]) rt_demo_nc.

Definition demo_ops : list cache_op :=
  [OpUpdate 10 [100; 101; 102]; OpFind 10 2; OpUpdate 20 [103]; OpInval 10 1; OpPut 0;
   OpKick (Some (fun d => d =? 103)); OpFind 0 100].


Definition demo_filled : cstate (T := radix_root Z) (A := node_cache) :=
  default demo_cache (cache_run [OpUpdate 10 [100; 101; 102]; OpFind 11 1] demo_cache).

Lemma demo_cache_inv : cs_inv demo_cache.
Proof. apply fresh_inv; [lia|apply (bool_decide_unpack _); vm_compute; exact I..]. Qed.

Lemma demo_filled_inv : cs_inv demo_filled.
Proof.
  destruct (cache_run_ok [OpUpdate 10 [100; 101; 102]; OpFind 11 1] demo_cache demo_cache_inv) as (s & E & HI).
  - repeat constructor; simpl; lia.
  - simpl. lia.
  - unfold demo_filled. by rewrite E.
Qed.

Lemma demo_filled_refs p : held_refs (cs_held demo_filled) p + 1 < 2 ^ 31.
Proof.
  pose proof (held_refs_bound (cs_held demo_filled) p (ci_held _ demo_filled_inv)) as H.
  assert (length (cs_held demo_filled) = 1%nat) as E by (vm_compute; done). lia.
Qed.

Lemma cache_find_exact_witness :
  contents (cs_mem demo_filled) (cs_pool demo_filled) = [(11, 101); (12, 102); (10, 100)] /\
  exists h' c' basket,
    pool_find 9 2 (cs_mem demo_filled) (cs_pool demo_filled) =
      Some (h', c', (basket, Z.of_nat (length (nonnull basket)))) /\
    contents h' c' = lru_find 9 2 (contents (cs_mem demo_filled) (cs_pool demo_filled)).
Proof.
  split; [vm_compute; reflexivity|].
  destruct (cache_find_exact 9 2 (cs_mem demo_filled) (cs_pool demo_filled) [] (held_refs (cs_held demo_filled)))
    as (h' & c' & b & E & _ & _ & _ & Hc).
  - apply demo_filled_inv.
  - vm_compute. intros _ H. discriminate H.
  - lia.
  - lia.
  - lia.
  - apply demo_filled_refs.
  - exists h', c', b. split; [exact E|exact Hc].
Defined.


(** The item of block 11 is in use and meets the condition: the items of blocks 10 and 12,
    which do not, go as well. *)
Lemma cache_inval_cond_purges_witness :
  let h := cs_mem demo_filled in let c := cs_pool demo_filled in
  exists h' c', kick_pool (-1) (Some (fun d => d =? 101)) h c = Some (h', c') /\
    filter (fun kv => (kv.2 =? 101) = false) (contents h c) = [(12, 102); (10, 100)] /\
    lru_list c' = [].
Proof.
  intros h c. destruct (cache_inval_cond_purges (fun d => d =? 101) h c [] (held_refs (cs_held demo_filled)))
    as (h' & c' & E & _ & _ & Hp).
  - apply demo_filled_inv.
  - exists h', c'. split; [exact E|]. split; [vm_compute; reflexivity|]. apply Hp. exists 12.
    split; [|split; vm_compute; reflexivity]. apply (bool_decide_unpack _). vm_compute. exact I.
Defined.
