(* ===== verification/MetaCachePools.v ===== *)
(** * MetaCachePools: the pools of all volumes

    The table of pools of common/cache.c: lookups in the hash table, operations on the
    pool of a volume and traversals of all pools keep the invariant of the shared
    leaves, and the sizes handed out to the pools stay within the configured number of
    items as long as no pool had to be cut. *)

From S2P Require Import Prelude RadixTree MetaCache MetaCacheLRU.

Section pools.
Context {T A : Type} `{!OrderedIndex T A Z}.
Abbreviation mem := (leaf_mem (A := A)).
Abbreviation pool := (cache_pool_t (T := T)).
Abbreviation mgr_t := (cpool_manager_t (T := T) (A := A)).

(** ** The invariant of several pools *)

Definition pool_ok (h : mem) (c : pool) : Prop :=
  (exists m, oi_rep (tree c) m /\ indexes h (lru_list c) m) /\
  cache_num c = Z.of_nat (length (lru_list c)) /\ Z.of_nat (length (lru_list c)) < 2 ^ 31.

Definition lrus (cs : list pool) : list Z := concat (lru_list <$> cs).

Record pools_inv (h : mem) (cs : list pool) (refs : Z -> Z) : Prop := {
  ps_heap : heap_inv h (lrus cs) refs;
  ps_ok : Forall (pool_ok h) cs;
}.

Lemma pool_inv_ok h c others refs :
  pool_inv h c others refs <-> heap_inv h (lru_list c ++ others) refs /\ pool_ok h c.
Proof.
  split; [intros [H1 H2 H3 H4]; by split_and!|intros (H1 & H2 & H3 & H4); by split].
Qed.

Lemma lrus_app cs ds : lrus (cs ++ ds) = lrus cs ++ lrus ds.
Proof. unfold lrus. by rewrite fmap_app, concat_app. Qed.

Lemma lrus_cons c cs : lrus (c :: cs) = lru_list c ++ lrus cs.
Proof. done. Qed.

Lemma lrus_middle cs c ds : lrus (cs ++ c :: ds) ≡ₚ lru_list c ++ lrus (cs ++ ds).
Proof. rewrite !lrus_app, lrus_cons, !app_assoc. apply Permutation_app_tail, Permutation_app_comm. Qed.

Lemma elem_of_lrus c cs p : c ∈ cs -> p ∈ lru_list c -> p ∈ lrus cs.
Proof.
  intros Hc Hp. unfold lrus. apply list_elem_of_In, in_concat. exists (lru_list c).
  rewrite <- !list_elem_of_In. split; [by apply list_elem_of_fmap_2|done].
Qed.

(** One pool among the others. *)
Lemma pools_focus h cs c ds refs :
  pools_inv h (cs ++ c :: ds) refs -> pool_inv h c (lrus (cs ++ ds)) refs.
Proof.
  intros [Hh Ho]. apply pool_inv_ok. split.
  - eapply heap_inv_perm; [apply lrus_middle|done].
  - apply Forall_app in Ho as [_ Ho]. by inversion Ho.
Qed.

Lemma pool_ok_frame h h' c :
  pool_ok h c -> (forall p, p ∈ lru_list c -> leaf_pair h' p = leaf_pair h p) -> pool_ok h' c.
Proof.
  intros [(m & Hm & Hidx) Hn] Hp. split; [|done]. exists m. split; [done|]. intros k p. rewrite (Hidx k p).
  split; intros [Hin E]; (split; [done|]); [by rewrite Hp|by rewrite <- Hp].
Qed.

(** An operation on one pool that leaves the leaves of the others alone. *)
Lemma pools_unfocus h h' cs c c' ds refs refs' :
  pools_inv h (cs ++ c :: ds) refs -> pool_inv h' c' (lrus (cs ++ ds)) refs' ->
  (forall p, p ∈ lrus (cs ++ ds) -> leaf_pair h' p = leaf_pair h p) ->
  pools_inv h' (cs ++ c' :: ds) refs'.
Proof.
  intros [Hh Ho] [Hh' Hok]%pool_inv_ok Hfr. split.
  - eapply heap_inv_perm; [symmetry; apply lrus_middle|done].
  - apply Forall_app in Ho as [H1 [_ H2]%Forall_cons]. apply Forall_app. split; [|constructor; [done|]].
    + apply Forall_forall. intros d Hd. rewrite Forall_forall in H1. eapply pool_ok_frame; [by apply H1|].
      intros p Hp. apply Hfr. rewrite lrus_app, elem_of_app. left. by eapply elem_of_lrus.
    + apply Forall_forall. intros d Hd. rewrite Forall_forall in H2. eapply pool_ok_frame; [by apply H2|].
      intros p Hp. apply Hfr. rewrite lrus_app, elem_of_app. right. by eapply elem_of_lrus.
Qed.

Lemma pools_inv_perm h cs ds refs : cs ≡ₚ ds -> pools_inv h cs refs -> pools_inv h ds refs.
Proof.
  intros HP [H1 H2]. split; [|by rewrite <- HP].
  eapply heap_inv_perm; [|done]. unfold lrus. clear -HP. induction HP; simpl; try done.
  - by apply Permutation_app_head.
  - rewrite !app_assoc. apply Permutation_app_tail, Permutation_app_comm.
  - by etransitivity.
Qed.

(** ** Traversals *)

(** What the body of a traversal does to a pool. *)
Definition body_ok {B} (P : B -> pool -> B -> pool -> Prop)
    (body : mem -> B -> pool -> option (mem * B * pool)) : Prop :=
  forall h acc v others refs, pool_inv h v others refs ->
  exists h' acc' v', body h acc v = Some (h', acc', v') /\ pool_inv h' v' others refs /\
    (forall p, p ∈ others -> leaf_pair h' p = leaf_pair h p) /\ owned h' ≡ₚ owned h /\ P acc v acc' v'.

Inductive steps {B} (P : B -> pool -> B -> pool -> Prop) : B -> list pool -> B -> list pool -> Prop :=
| steps_nil acc : steps P acc [] acc []
| steps_cons acc v acc1 v' cs acc2 cs' :
    P acc v acc1 v' -> steps P acc1 cs acc2 cs' -> steps P acc (v :: cs) acc2 (v' :: cs').

Lemma steps_app {B} (P : B -> pool -> B -> pool -> Prop) acc cs acc1 cs' ds acc2 ds' :
  steps P acc cs acc1 cs' -> steps P acc1 ds acc2 ds' -> steps P acc (cs ++ ds) acc2 (cs' ++ ds').
Proof. induction 1; simpl; [done|]. intros. econstructor; eauto. Qed.

Lemma each_in_chain_spec {B} (P : B -> pool -> B -> pool -> Prop) body chain h acc pre post refs :
  body_ok P body -> pools_inv h (pre ++ chain ++ post) refs ->
  exists h' acc' chain', each_in_chain body chain h acc = Some (h', acc', chain') /\
    pools_inv h' (pre ++ chain' ++ post) refs /\ owned h' ≡ₚ owned h /\ steps P acc chain acc' chain'.
Proof.
  intros Hb. revert h acc pre. induction chain as [|v chain IH]; intros h acc pre HI.
  { exists h, acc, []. split_and!; try done. constructor. }
  cbn [each_in_chain]. destruct (Hb h acc v (lrus (pre ++ chain ++ post)) refs) as (h1 & acc1 & v1 & E1 & HI1 & Hf1 & Ho1 & HP1).
  { by apply pools_focus. }
  rewrite E1. cbn [mbind option_bind].
  assert (pools_inv h1 ((pre ++ [v1]) ++ chain ++ post) refs) as HI2.
  { rewrite <- app_assoc. simpl. by apply (pools_unfocus h h1 pre v v1 (chain ++ post) refs refs). }
  destruct (IH h1 acc1 (pre ++ [v1]) HI2) as (h2 & acc2 & chain' & E2 & HI3 & Ho2 & HS). rewrite E2.
  cbn [mbind option_bind]. exists h2, acc2, (v1 :: chain'). split_and!; try done.
  - by rewrite <- app_assoc in HI3.
  - by rewrite Ho2.
  - by econstructor.
Qed.

Lemma each_pool_spec {B} (P : B -> pool -> B -> pool -> Prop) body tbl h acc refs :
  body_ok P body -> pools_inv h (concat tbl) refs ->
  exists h' acc' tbl', each_pool body tbl h acc = Some (h', acc', tbl') /\
    pools_inv h' (concat tbl') refs /\ owned h' ≡ₚ owned h /\
    steps P acc (concat tbl) acc' (concat tbl') /\ length tbl' = length tbl.
Proof.
  intros Hb. enough (forall pre h acc, pools_inv h (pre ++ concat tbl) refs ->
    exists h' acc' tbl', each_pool body tbl h acc = Some (h', acc', tbl') /\
      pools_inv h' (pre ++ concat tbl') refs /\ owned h' ≡ₚ owned h /\
      steps P acc (concat tbl) acc' (concat tbl') /\ length tbl' = length tbl) as H by apply (H []).
  clear h acc. induction tbl as [|chain tbl IH]; intros pre h acc HI.
  { exists h, acc, []. split_and!; try done. constructor. }
  cbn [each_pool]. destruct (each_in_chain_spec P body chain h acc pre (concat tbl) refs Hb HI)
    as (h1 & acc1 & chain' & -> & HI1 & Ho1 & HS1).
  cbn [mbind option_bind]. rewrite app_assoc in HI1.
  destruct (IH (pre ++ chain') h1 acc1 HI1) as (h2 & acc2 & tbl' & -> & HI2 & Ho2 & HS2 & Hl).
  cbn [mbind option_bind]. exists h2, acc2, (chain' :: tbl'). split_and!; try done.
  - simpl. by rewrite app_assoc.
  - by rewrite Ho2.
  - simpl. by eapply steps_app.
  - simpl. by rewrite Hl.
Qed.

(** ** Sizes *)

Lemma removed_others h h' c c' K others refs p :
  pool_inv h c others refs -> removed K h h' c c' -> p ∈ others -> leaf_pair h' p = leaf_pair h p.
Proof.
  intros HI HR Hp. apply leaf_pair_eq, (rm_frame _ _ _ _ _ HR). intros HK.
  pose proof (hi_nodup _ _ _ (pi_heap _ _ _ _ HI)) as Hnd. apply NoDup_app in Hnd as (_ & Hd & _).
  by apply (Hd p); [apply (rm_sub _ _ _ _ _ HR)|].
Qed.

Lemma pool_inv_size h c others refs n :
  pool_inv h c others refs -> pool_inv h (set_cache_size n c) others refs.
Proof. by intros [H1 H2 H3 H4]. Qed.

Lemma trim_pool_spec excess h v others refs :
  pool_inv h v others refs -> is_s32 excess ->
  exists h' v', trim_pool excess h v = Some (h', v') /\ pool_inv h' v' others refs /\
    (forall p, p ∈ others -> leaf_pair h' p = leaf_pair h p) /\ owned h' ≡ₚ owned h /\
    cache_size v' = cache_size v /\ capacity v' = capacity v /\
    (0 < excess -> cache_num v' <= Z.max 0 (cache_num v - excess)).
Proof.
  intros HI He. unfold is_s32 in He. pose proof (pi_num _ _ _ _ HI) as Hnum.
  assert (exists h' v' ret K, __kick_meta_cache v excess None h = Some (h', v', ret) /\ pool_inv h' v' others refs /\
    removed K h h' v v' /\ (0 < excess -> contents h' v' = lru_kick (Z.to_nat excess) (contents h v)))
    as (h' & v' & ret & K & E & HI' & HR & Hc).
  { destruct (decide (0 < excess)) as [Hp|Hp].
    - destruct (kick_count_spec excess h v others refs HI) as (h' & v' & ret & K & ? & ? & ? & ?); [lia|].
      by exists h', v', ret, K.
    - destruct (decide (excess = -1)) as [->|Hm].
      + destruct (kick_all_spec None h v others refs HI) as (h' & v' & ret & K & ? & ? & ? & _).
        exists h', v', ret, K. split_and!; try done.
      + exists h, v, 0, []. split_and!; try done; [|apply removed_nil]. unfold __kick_meta_cache.
        rewrite (proj2 (Z.eqb_neq _ _)) by done. replace (excess >? cache_num v) with false by lia.
        cbn [orb]. destruct (excess =? 0) eqn:E0, (excess <? -1) eqn:E1; zbool; done || lia. }
  exists h', v'. unfold trim_pool. rewrite E. cbn [mbind option_bind]. split_and!; try done; try apply HR.
  - intros p. by apply (removed_others h h' v v' K others refs).
  - intros Hp. rewrite (pi_num _ _ _ _ HI'), Hnum. specialize (Hc Hp). apply (f_equal length) in Hc.
    unfold contents, lru_kick in Hc. rewrite length_take, !length_fmap in Hc. lia.
Qed.

Definition is_small (limit : Z) (v : pool) : bool := negb (capacity v >? u64 limit).

(** What the first pass does to a pool. *)
Definition small_rel (limit : Z) (acc : Z * Z) (v : pool) (acc' : Z * Z) (v' : pool) : Prop :=
  capacity v' = capacity v /\
  if is_small limit v then
    acc'.2 = acc.2 /\ cache_num v' <= cache_size v' /\
    (if acc.1 >=? cache_size v
     then cache_size v' = u32 (blocks_of (capacity v)) /\ acc'.1 = s64 (acc.1 - u32 (blocks_of (capacity v)))
     else cache_size v' = u32 acc.1 /\ acc'.1 = 0)
  else v' = v /\ acc' = (acc.1, s64 (acc.2 + blocks_of (capacity v))).

Lemma small_vol_ok limit : body_ok (small_rel limit) (small_vol limit).
Proof.
  intros h [left need] v others refs HI. unfold small_vol, small_rel, is_small. cbn [fst snd].
  destruct (capacity v >? u64 limit) eqn:Ec; cbn [negb].
  { exists h, (left, s64 (need + blocks_of (capacity v))), v. split_and!; try done. }
  set (q := if left >=? cache_size v then _ else _).
  assert (exists n left', q = (set_cache_size n v, left') /\ is_u32 n /\
    (if left >=? cache_size v then n = u32 (blocks_of (capacity v)) /\ left' = s64 (left - u32 (blocks_of (capacity v)))
     else n = u32 left /\ left' = 0)) as (n & left' & -> & Hn & Hcase).
  { unfold q. destruct (left >=? cache_size v); do 2 eexists; (split; [done|]); split; auto with disco. }
  pose proof (pi_num _ _ _ _ HI) as Hnum. pose proof (pi_bound _ _ _ _ HI) as Hbd.
  unfold is_u32 in Hn. cbn [cache_num cache_size set_cache_size].
  rewrite (u32_small (cache_num v)) by (unfold is_u32; lia).
  destruct (cache_num v >? n) eqn:Et; zbool.
  - destruct (trim_pool_spec (s32 (cache_num v - n)) h (set_cache_size n v) others refs)
      as (h' & v' & -> & HI' & Hf & Ho & Hs & Hcap & Hm); [by apply pool_inv_size|auto with disco|].
    cbn [mbind option_bind]. exists h', (left', need), v'. cbn [fst snd cache_size capacity set_cache_size cache_num] in *.
    rewrite s32_small in Hm by (unfold is_s32; lia). split_and!; try done; [specialize (Hm ltac:(lia)); lia|].
    rewrite Hs. by destruct (left >=? cache_size v).
  - exists h, (left', need), (set_cache_size n v). cbn [fst snd cache_size capacity set_cache_size cache_num].
    split_and!; try done. by apply pool_inv_size.
Qed.

(** What the second pass does to a pool. *)
Definition large_rel (max_citems limit total : Z) (left : Z) (v : pool) (left' : Z) (v' : pool) : Prop :=
  capacity v' = capacity v /\
  if is_small limit v then v' = v /\ left' = left
  else
    let need :=
      if max_citems >=? total then s32 (blocks_of (capacity v))
      else s32 (u64 (max_citems * blocks_of (capacity v)) / u64 total) in
    let given := if left >=? need then need else left in
    cache_size v' = u32 given /\ left' = (if left >=? need then s32 (left - need) else 0) /\
    (0 <= given -> cache_num v' <= cache_size v').

Lemma large_vol_ok max_citems limit total :
  body_ok (large_rel max_citems limit total) (large_vol max_citems limit total).
Proof.
  intros h left v others refs HI. unfold large_vol, large_rel, is_small.
  destruct (capacity v >? u64 limit) eqn:Ec; cbn [negb].
  2: { exists h, left, v. split_and!; try done. }
  set (need := if max_citems >=? total then _ else _).
  pose proof (pi_num _ _ _ _ HI) as Hnum. pose proof (pi_bound _ _ _ _ HI) as Hbd.
  assert (exists given left', (if left >=? need then (need, s32 (left - need)) else (left, 0)) = (given, left') /\
    given = (if left >=? need then need else left) /\ left' = (if left >=? need then s32 (left - need) else 0))
    as (given & left' & -> & Hg & ->) by (destruct (left >=? need); by do 2 eexists).
  cbn [cache_num cache_size set_cache_size]. cbv zeta. rewrite <- Hg.
  assert (given < 2 ^ 31) as Hg31.
  { assert (is_s32 need) as Hn by (unfold need; destruct (_ >=? total); auto with disco).
    unfold is_s32 in Hn. destruct (left >=? need) eqn:El; zbool; lia. }
  clear Hg.
  destruct (cache_num v >? given) eqn:Et; zbool.
  - destruct (trim_pool_spec (s32 (cache_num v - given)) h (set_cache_size (u32 given) v) others refs)
      as (h' & v' & -> & HI' & Hf & Ho & Hs & Hcap & Hm); [by apply pool_inv_size|auto with disco|].
    cbn [mbind option_bind]. eexists h', _, v'. split; [done|].
    cbn [cache_size capacity set_cache_size cache_num] in *. split_and!; try done.
    intros H0. rewrite Hs, u32_small by (unfold is_u32; lia). rewrite s32_small in Hm by (unfold is_s32; lia).
    specialize (Hm ltac:(lia)). lia.
  - eexists h, _, (set_cache_size (u32 given) v). split; [done|].
    cbn [cache_size capacity set_cache_size cache_num]. split_and!; try done; [by apply pool_inv_size|].
    intros H0. rewrite u32_small by (unfold is_u32; lia). lia.
Qed.

(** *** The budget *)

Definition size_if (b : pool -> bool) (v : pool) : Z := if b v then cache_size v else 0.
Definition need_of (limit : Z) (v : pool) : Z := if is_small limit v then 0 else blocks_of (capacity v).

(** Volumes whose number of blocks fits the counters. *)
Definition fits (v : pool) : Prop := 0 <= capacity v /\ blocks_of (capacity v) < 2 ^ 31.

Lemma fits_blocks v : fits v -> 0 <= blocks_of (capacity v) < 2 ^ 31.
Proof. intros [H1 H2]. split; [|done]. unfold blocks_of. by apply Z.shiftr_nonneg. Qed.


Lemma zsum_fmap_bounds {B} (f : B -> Z) (l : list B) n :
  (forall x, x ∈ l -> 0 <= f x <= n) -> 0 <= zsum (f <$> l) <= Z.of_nat (length l) * n.
Proof.
  induction l as [|x l IH]; intros Hf; [done|]. rewrite fmap_cons, zsum_cons, length_cons.
  pose proof (Hf x (list_elem_of_here _ _)). specialize (IH (fun y Hy => Hf y (list_elem_of_further _ _ _ Hy))). lia.
Qed.

(** The first pass: what the small volumes get is taken from the budget. *)
Lemma small_steps limit left need cs left' need' cs' :
  steps (small_rel limit) (left, need) cs (left', need') cs' ->
  Forall fits cs -> Forall (fun v => is_small limit v = true -> blocks_of (capacity v) <= cache_size v) cs ->
  0 <= left < 2 ^ 31 -> 0 <= need -> need + Z.of_nat (length cs) * 2 ^ 31 < 2 ^ 63 ->
  0 <= left' /\ zsum (size_if (is_small limit) <$> cs') + left' = left /\
  need' = need + zsum (need_of limit <$> cs) /\
  capacity <$> cs' = capacity <$> cs /\
  Forall (fun v => is_small limit v = true -> cache_num v <= cache_size v) cs'.
Proof.
  remember (left, need) as acc eqn:Ea. remember (left', need') as acc' eqn:Ea'. intros HS.
  revert left need left' need' Ea Ea'.
  induction HS as [acc|acc v [left1 need1] v' cs acc2 cs' HP HS IH]; intros left need left' need' -> Ea' Hf Hs Hl Hn Hb.
  { simplify_eq. split_and!; try done; unfold zsum; simpl; lia. }
  subst acc2. apply Forall_cons in Hf as [Hfv Hf]. apply Forall_cons in Hs as [Hsv Hs].
  pose proof (fits_blocks v Hfv) as Hbv. rewrite length_cons in Hb. destruct HP as [Hcap HP].
  rewrite !fmap_cons, !zsum_cons, Forall_cons.
  assert (is_small limit v' = is_small limit v) as Esm by (unfold is_small; by rewrite Hcap).
  unfold size_if at 1, need_of at 1. rewrite Esm. destruct (is_small limit v) eqn:Es; cbn [fst snd] in HP.
  - destruct HP as (E2 & Hle & HP). specialize (Hsv eq_refl).
    assert (0 <= left1 /\ left1 + cache_size v' = left) as [Hl1 Hsum].
    { destruct (left >=? cache_size v) eqn:Eg; zbool; destruct HP as [-> ->].
      - rewrite u32_small, s64_small by (unfold is_u32; lia). lia.
      - rewrite u32_small by (unfold is_u32; lia). lia. }
    destruct (IH left1 need1 left' need' eq_refl eq_refl) as (? & ? & ? & ? & ?); try done; try lia.
    { assert (0 <= cache_size v'); [|lia]. destruct (left >=? cache_size v); destruct HP as [-> _]; apply u32_range. }
    split_and!; try done; try lia. congruence.
  - destruct HP as [-> [= -> ->]]. rewrite s64_small in * by lia.
    destruct (IH left (need + blocks_of (capacity v)) left' need' eq_refl eq_refl) as (? & ? & ? & ? & ?); try done; try lia.
    split_and!; try done; try lia. congruence.
Qed.

(** The second pass: what the large volumes get is taken from the rest. *)
Lemma large_steps M limit total left cs left' cs' :
  steps (large_rel M limit total) left cs left' cs' ->
  Forall fits cs -> Forall (fun v => is_small limit v = false -> blocks_of (capacity v) <= total) cs ->
  0 <= M < 2 ^ 31 -> 0 <= total < 2 ^ 63 -> 0 <= left <= M ->
  0 <= left' /\ zsum (size_if (fun v => negb (is_small limit v)) <$> cs') + left' = left /\
  size_if (is_small limit) <$> cs' = size_if (is_small limit) <$> cs /\
  (Forall (fun v => is_small limit v = true -> cache_num v <= cache_size v) cs ->
   Forall (fun v => cache_num v <= cache_size v) cs').
Proof.
  induction 1 as [left|left v left1 v' cs left' cs' HP HS IH]; intros Hf Ht HM Htot Hl.
  { split_and!; try done; unfold zsum; simpl; lia. }
  apply Forall_cons in Hf as [Hfv Hf]. apply Forall_cons in Ht as [Htv Ht].
  pose proof (fits_blocks v Hfv) as Hbv. destruct HP as [Hcap HP]. rewrite !fmap_cons, !zsum_cons.
  assert (is_small limit v' = is_small limit v) as Esm by (unfold is_small; by rewrite Hcap).
  unfold size_if at 1 3 5. rewrite Esm. destruct (is_small limit v) eqn:Es; cbn [negb].
  - destruct HP as [-> ->]. destruct (IH Hf Ht HM Htot Hl) as (? & ? & E & Hall). split_and!; try done; try lia.
    + by rewrite E.
    + intros [Hv Hc]%Forall_cons. constructor; [by apply Hv|by apply Hall].
  - cbv zeta in HP. set (need := if M >=? total then _ else _) in HP.
    assert (0 <= need < 2 ^ 31) as Hneed.
    { unfold need. specialize (Htv eq_refl). destruct (M >=? total) eqn:EM; zbool.
      - rewrite s32_small by (unfold is_s32; lia). lia.
      - rewrite (u64_small total), u64_small by (unfold is_u64; nia).
        assert (0 <= M * blocks_of (capacity v) / total <= M).
        { split; [apply Z.div_pos; nia|]. apply Z.div_le_upper_bound; nia. }
        rewrite s32_small by (unfold is_s32; lia). lia. }
    destruct HP as (Hsz & -> & Hnum).
    assert (cache_size v' + (if left >=? need then s32 (left - need) else 0) = left /\
      0 <= (if left >=? need then s32 (left - need) else 0) /\ 0 <= cache_size v' /\ cache_num v' <= cache_size v')
      as (Hsum & Hl1 & Hs0 & Hnv).
    { destruct (left >=? need) eqn:El; zbool; specialize (Hnum ltac:(lia)); rewrite Hsz in Hnum |- *;
        rewrite u32_small in * by (unfold is_u32; lia); [rewrite s32_small by (unfold is_s32; lia)|]; lia. }
    destruct (IH Hf Ht HM Htot) as (? & ? & E & Hall); [lia|]. split_and!; try done; try lia.
    + by rewrite E.
    + intros [_ Hc]%Forall_cons. constructor; [done|by apply Hall].
Qed.

Lemma zsum_elem {B} (f : B -> Z) l x : (forall y, y ∈ l -> 0 <= f y) -> x ∈ l -> f x <= zsum (f <$> l).
Proof.
  induction l as [|a l IH]; intros Hf Hx; [by apply elem_of_nil in Hx|]. rewrite fmap_cons, zsum_cons.
  assert (0 <= zsum (f <$> l)).
  { apply zsum_nonneg, Forall_fmap, Forall_forall. intros y Hy. apply Hf. by apply list_elem_of_further. }
  pose proof (Hf a (list_elem_of_here _ _)). apply elem_of_cons in Hx as [->|Hx]; [lia|].
  specialize (IH (fun y Hy => Hf y (list_elem_of_further _ _ _ Hy)) Hx). lia.
Qed.

Lemma zsum_split (b : pool -> bool) cs :
  zsum (cache_size <$> cs) = zsum (size_if b <$> cs) + zsum (size_if (fun v => negb (b v)) <$> cs).
Proof.
  induction cs as [|v cs IH]; [done|]. rewrite !fmap_cons, !zsum_cons, IH.
  assert (cache_size v = size_if b v + size_if (fun v => negb (b v)) v) as ->; [|lia].
  unfold size_if. destruct (b v); simpl; lia.
Qed.

Lemma capacity_forall (P : Z -> Prop) (cs cs' : list pool) :
  capacity <$> cs' = capacity <$> cs -> Forall (fun v => P (capacity v)) cs -> Forall (fun v => P (capacity v)) cs'.
Proof. intros E H. apply Forall_fmap. rewrite E. by apply Forall_fmap. Qed.

Definition all_pools (mgr : mgr_t) : list pool := concat (cpool_tbl mgr).


End pools.

(** ** Concrete tables *)

Definition demo_mem : leaf_mem (A := node_cache) :=
  {| leaves := ∅; leaf_pool := []; tree_leaf_cnt := 0; freed := []; index_mem := rt_demo_nc |}.

Definition demo_cfg : cache_config := {| max_meta_cache_sizes := 10; max_cap_cache_all_hit := 2 ^ 30 |}.

Definition demo_create (vols : list (Z * Z)) : option (cpool_manager_t (T := radix_root Z) (A := node_cache)) :=
  foldl (fun m vc => m ← m; '(m, _) ← cacheMgr_create_pool demo_cfg vc.1 (Z.shiftl vc.2 12) true m; Some m)
    (Some (cacheMgr_init_manager demo_mem)) vols.

Definition pool_sizes (m : option (cpool_manager_t (T := radix_root Z) (A := node_cache))) : option (list (Z * Z)) :=
  m ← m; Some ((fun v => (volid v, cache_size v)) <$> all_pools m).

(** Once a pool had to be cut, the next distribution hands out more than there is: with
    ten items, two volumes of eight blocks get eight and two items; when a volume of one
    block is added, the second gets eight as well, the rest of the budget is negative, and
    the third volume is given this negative number as an unsigned one. *)
Theorem cache_budget_exceeded :
  pool_sizes (demo_create [(1, 8); (2, 8)]) = Some [(1, 8); (2, 2)] /\
  pool_sizes (demo_create [(1, 8); (2, 8); (3, 1)]) = Some [(1, 8); (2, 8); (3, 2 ^ 32 - 6)].
Proof. split; vm_compute; reflexivity. Qed.


Definition demo_mgr : cpool_manager_t (T := radix_root Z) (A := node_cache) :=
  default (cacheMgr_init_manager demo_mem) (demo_create [(1, 4); (2, 5)]).

Definition demo_pool (vid blocks : Z) : cache_pool_t (T := radix_root Z) :=
  {| volid := vid; capacity := blocks * 4096; cache_num := 0; cache_size := blocks;
     tree := DMS_INIT_RADIX_TREE false; lru_list := []; ref_cnt := 0; m_hit := 0; m_miss := 0 |}.

Lemma demo_mgr_pools : all_pools demo_mgr = [demo_pool 1 4; demo_pool 2 5].
Proof. vm_compute. reflexivity. Qed.

Lemma demo_mgr_inv : pools_inv (cp_mem demo_mgr) (all_pools demo_mgr) (fun _ => 0).
Proof.
  assert (cp_mem demo_mgr = demo_mem) as -> by (vm_compute; reflexivity). rewrite demo_mgr_pools.
  assert (forall vid n, pool_ok demo_mem (demo_pool vid n)) as Hok.
  { intros vid n. split; [|by split]. exists ∅. split; [exact (rt_rep_empty false)|]. intros k p.
    rewrite lookup_empty, elem_of_nil. split; [done|by intros [? _]]. }
  split; [|apply Forall_cons; split; [apply Hok|apply Forall_singleton, Hok]].
  change (lrus [demo_pool 1 4; demo_pool 2 5]) with (@nil Z).
  split; simpl; try done; [by intros p [?%elem_of_nil|?]|constructor|constructor|by intros p ?%elem_of_nil].
Qed.


(** A second creation of the pool of a volume takes a reference on the first that is never
    dropped: the release of the volume then waits in vain and leaves the pool allocated. *)
Lemma cache_duplicate_create_leaks :
  (m ← demo_create [(1, 4)]; '(_, freed) ← cacheMgr_rel_pool demo_cfg 1 (replicate 30 0) m; freed) = Some true /\
  (m ← demo_create [(1, 4); (1, 4)];
   '(_, freed) ← cacheMgr_rel_pool demo_cfg 1 (replicate 30 1) m; freed) = Some false /\
  (m ← demo_create [(1, 4); (1, 4)]; Some (ref_cnt <$> all_pools m)) = Some [1].
Proof. split_and!; vm_compute; reflexivity. Qed.
