(* ===== verification/IOReqOvlp.v ===== *)
(** * IOReqOvlp: do two IO requests conflict?

    Translation of the pure part of io_manager/ioreq_ovlp.c: the comparison of
    two block ranges ([chk_lb_ovlp]) and of two directions ([chk_io_rw]).  The
    scheduling that uses them is in [IOReqPool]. *)

From S2P Require Import Prelude.

Inductive iorw_dir_t : Type := KERNEL_IO_READ | KERNEL_IO_WRITE.

#[global] Instance iorw_dir_t_eq_dec : EqDecision iorw_dir_t.
Proof. solve_decision. Defined.

Record UserIO_addr_t : Type := {
  metaSrv_ipaddr : Z;
  metaSrv_port : Z;
  volumeID : Z;
  lbid_len : Z;
  lbid_start : Z;
}.

Inductive IOR_ovlp_wait_t : Type :=
| IOR_Wait_NoOvlp
| IOR_Wait_Payload_All_Ovlp
| IOR_Wait_Payload_Partial_Ovlp
| IOR_Wait_MD_All_Ovlp
| IOR_Wait_MD_Partial_Ovlp.

#[global] Instance IOR_ovlp_wait_t_eq_dec : EqDecision IOR_ovlp_wait_t.
Proof. solve_decision. Defined.

(** The out parameters [ovlp_s], [ovlp_l] keep their old values [s0], [l0] when
    the ranges do not overlap. *)
Definition chk_lb_ovlp (ior_prev ior_next : UserIO_addr_t) (s0 l0 : Z)
  : IOR_ovlp_wait_t * Z * Z :=
  let next_e := u64 (lbid_start ior_next + lbid_len ior_next - 1) in
  if lbid_start ior_prev >? next_e then (IOR_Wait_NoOvlp, s0, l0)
  else
    let prev_e := u64 (lbid_start ior_prev + lbid_len ior_prev - 1) in
    if lbid_start ior_next >? prev_e then (IOR_Wait_NoOvlp, s0, l0)
    else if lbid_start ior_prev >? lbid_start ior_next then
      (IOR_Wait_Payload_Partial_Ovlp, lbid_start ior_prev,
       if prev_e <=? next_e then lbid_len ior_prev
       else u32 (next_e - lbid_start ior_prev + 1))
    else if lbid_start ior_prev =? lbid_start ior_next then
      if prev_e <? next_e then (IOR_Wait_Payload_Partial_Ovlp, lbid_start ior_prev, lbid_len ior_prev)
      else (IOR_Wait_Payload_All_Ovlp, lbid_start ior_prev, lbid_len ior_next)
    else
      (IOR_Wait_Payload_Partial_Ovlp, lbid_start ior_next,
       if prev_e >=? next_e then lbid_len ior_next
       else u32 (prev_e - lbid_start ior_next + 1)).

(** True: no overlap check is needed (two reads). *)
Definition chk_io_rw (prev next : iorw_dir_t) : bool :=
  if decide (KERNEL_IO_WRITE = prev) then false
  else if decide (KERNEL_IO_WRITE = next) then false
  else true.

(** ** Specification *)

(** Blocks of a range. *)
Definition in_range (a : UserIO_addr_t) (lb : Z) : Prop :=
  lbid_start a <= lb < lbid_start a + lbid_len a.

(** A range the driver builds: not empty, its blocks are 64-bit numbers. *)
Definition addr_wf (a : UserIO_addr_t) : Prop :=
  0 <= lbid_start a /\ 0 < lbid_len a < 2 ^ 32 /\ lbid_start a + lbid_len a <= 2 ^ 64.

Definition ranges_meet (a b : UserIO_addr_t) : Prop :=
  lbid_start a < lbid_start b + lbid_len b /\ lbid_start b < lbid_start a + lbid_len a.

#[global] Instance ranges_meet_dec a b : Decision (ranges_meet a b).
Proof. unfold ranges_meet. apply _. Defined.

Lemma ranges_meet_sym a b : ranges_meet a b <-> ranges_meet b a.
Proof. unfold ranges_meet. tauto. Qed.

Lemma ranges_meet_block a b :
  addr_wf a -> addr_wf b -> ranges_meet a b <-> exists lb, in_range a lb /\ in_range b lb.
Proof.
  unfold addr_wf, ranges_meet, in_range. intros Ha Hb. split.
  - intros H. exists (Z.max (lbid_start a) (lbid_start b)). lia.
  - intros (lb & H1 & H2). lia.
Qed.

(** The result of [chk_lb_ovlp] and the intersection of the ranges. *)
Lemma chk_lb_ovlp_cases a b s0 l0 :
  addr_wf a -> addr_wf b ->
  let '(t, s, l) := chk_lb_ovlp a b s0 l0 in
  (t = IOR_Wait_NoOvlp /\ ~ ranges_meet a b) \/
  (t <> IOR_Wait_NoOvlp /\ ranges_meet a b /\
   s = Z.max (lbid_start a) (lbid_start b) /\
   l = Z.min (lbid_start a + lbid_len a) (lbid_start b + lbid_len b) - s /\
   (t = IOR_Wait_Payload_All_Ovlp <->
      lbid_start a = lbid_start b /\ lbid_len b <= lbid_len a)).
Proof.
  unfold addr_wf, ranges_meet, chk_lb_ovlp. intros Ha Hb. wrap_small.
  repeat match goal with |- context [if ?b then _ else _] => destruct b eqn:? end; zbool; wrap_small;
    ((left; split; [reflexivity|lia]) || (right; split; [congruence|]; repeat split; (lia || congruence))).
Qed.

(** The overlap check of two block ranges is exact: it reports no overlap
    exactly when they share no block, and otherwise the reported start and length
    denote the common blocks; "all overlap" is reported exactly when the ranges
    start together and the running request covers the new one. *)
Theorem chk_lb_ovlp_exact (a b : UserIO_addr_t) (s0 l0 : Z) :
  addr_wf a -> addr_wf b ->
  let '(t, s, l) := chk_lb_ovlp a b s0 l0 in
  (t = IOR_Wait_NoOvlp <-> ~ exists lb, in_range a lb /\ in_range b lb) /\
  (t <> IOR_Wait_NoOvlp ->
     0 < l /\ forall lb, s <= lb < s + l <-> in_range a lb /\ in_range b lb) /\
  (t = IOR_Wait_Payload_All_Ovlp <->
     lbid_start a = lbid_start b /\ lbid_len b <= lbid_len a).
Proof.
  intros Ha Hb. pose proof (chk_lb_ovlp_cases a b s0 l0 Ha Hb) as H.
  destruct (chk_lb_ovlp a b s0 l0) as [[t s] l]. rewrite <- ranges_meet_block by done.
  unfold addr_wf, ranges_meet, in_range in *.
  destruct H as [[-> H]|(Ht & Hm & -> & -> & Hall)].
  - split; [tauto|]. split; [congruence|]. split; [congruence|lia].
  - split; [tauto|]. split; [|done]. intros _. split; [lia|]. intros lb. lia.
Qed.

Lemma chk_lb_ovlp_exact_witness :
  exists a b, addr_wf a /\ addr_wf b /\
    chk_lb_ovlp a b 0 0 = (IOR_Wait_Payload_Partial_Ovlp, 12, 4) /\
    (forall lb, 12 <= lb < 12 + 4 <-> in_range a lb /\ in_range b lb).
Proof.
  exists {| metaSrv_ipaddr := 0; metaSrv_port := 0; volumeID := 1; lbid_len := 8; lbid_start := 8 |},
         {| metaSrv_ipaddr := 0; metaSrv_port := 0; volumeID := 1; lbid_len := 33; lbid_start := 12 |}.
  assert (Ha : addr_wf {| metaSrv_ipaddr := 0; metaSrv_port := 0; volumeID := 1; lbid_len := 8; lbid_start := 8 |})
    by (unfold addr_wf; simpl; lia).
  assert (Hb : addr_wf {| metaSrv_ipaddr := 0; metaSrv_port := 0; volumeID := 1; lbid_len := 33; lbid_start := 12 |})
    by (unfold addr_wf; simpl; lia).
  split; [exact Ha|]. split; [exact Hb|]. split; [reflexivity|].
  apply (chk_lb_ovlp_exact _ _ 0 0 Ha Hb). discriminate.
Defined.
