(* ===== verification/IOReqPool.v ===== *)
(** * IOReqPool: overlapping IO requests of a volume are serialised

    Translation of the stateful part of io_manager/ioreq_ovlp.c, the request
    queues of io_manager/discoC_IOReqPool.c and the operations of
    io_manager/discoC_IORequest.c that enter a request into its volume's queues
    and take it out again.

    The requests and the overlap items are shared, mutable objects that point to
    each other: the model keeps a store of requests and a store of items,
    addressed by pointers (integers), and the two queues of the volume as lists of
    pointers.  All operations run under the queue lock of the volume. *)

From S2P Require Import Prelude Fsm IOReqFsm IOReqOvlp.


(** ** Data *)

Inductive IOReq_fea_t : Type :=
| IOREQ_FEA_IN_REQPOOL
| IOREQ_FEA_IN_WAITPOOL
| IOREQ_FEA_IN_IODONEPOOL
| IOREQ_FEA_CIUSER.

Definition IOReq_fea_num (f : IOReq_fea_t) : Z :=
  match f with
  | IOREQ_FEA_IN_REQPOOL => 0
  | IOREQ_FEA_IN_WAITPOOL => 1
  | IOREQ_FEA_IN_IODONEPOOL => 2
  | IOREQ_FEA_CIUSER => 3
  end.

Inductive IOR_ovlp_res_t : Type :=
| IOR_ovlp_NoOvlp
| IOR_ovlp_Ovlp
| IOR_ovlp_InQ
| IOR_ovlp_ListBroken.

Record ovlp_item_t : Type := {
  process_ior : Z;
  wait_ior : Z;
  ovlp_s : Z;
  ovlp_l : Z;
  wait_type : IOR_ovlp_wait_t;
}.

(** The part of a request that the queues use.  [wait_list] and [wake_list] hold
    the pointers of the items linked there. *)
Record io_request_t : Type := {
  usrIO_addr : UserIO_addr_t;
  iodir : iorw_dir_t;
  ioReq_fea : Z;
  ioReq_stat : IOReq_fsm_t;
  is_ovlp_ior : bool;
  ref_cnt : Z;
  wait_list : list Z;
  wake_list : list Z;
  cnt_ovlp_wait : Z;
  cnt_ovlp_wake : Z;
}.

(** The volume's queues, the two counters of the IO manager they maintain, and
    the objects in memory.  [mem_next] is the pointer the next allocation
    returns. *)
Record ioq_state : Type := {
  reqs : gmap Z io_request_t;
  items : gmap Z ovlp_item_t;
  mem_next : Z;
  ioReq_pool : list Z;
  ioReq_ovlp_pool : list Z;
  cnt_onfly_ioReq : Z;
  cnt_onfly_ovlpioReq : Z;
}.

Definition ioq_init : ioq_state :=
  {| reqs := ∅; items := ∅; mem_next := 0; ioReq_pool := []; ioReq_ovlp_pool := [];
     cnt_onfly_ioReq := 0; cnt_onfly_ovlpioReq := 0 |}.

(** ** Field updates *)

Definition set_fea (f : Z) (q : io_request_t) : io_request_t :=
  {| usrIO_addr := usrIO_addr q; iodir := iodir q; ioReq_fea := f; ioReq_stat := ioReq_stat q;
     is_ovlp_ior := is_ovlp_ior q; ref_cnt := ref_cnt q; wait_list := wait_list q;
     wake_list := wake_list q; cnt_ovlp_wait := cnt_ovlp_wait q; cnt_ovlp_wake := cnt_ovlp_wake q |}.

Definition set_stat (s : IOReq_fsm_t) (q : io_request_t) : io_request_t :=
  {| usrIO_addr := usrIO_addr q; iodir := iodir q; ioReq_fea := ioReq_fea q; ioReq_stat := s;
     is_ovlp_ior := is_ovlp_ior q; ref_cnt := ref_cnt q; wait_list := wait_list q;
     wake_list := wake_list q; cnt_ovlp_wait := cnt_ovlp_wait q; cnt_ovlp_wake := cnt_ovlp_wake q |}.

Definition set_is_ovlp (q : io_request_t) : io_request_t :=
  {| usrIO_addr := usrIO_addr q; iodir := iodir q; ioReq_fea := ioReq_fea q; ioReq_stat := ioReq_stat q;
     is_ovlp_ior := true; ref_cnt := ref_cnt q; wait_list := wait_list q;
     wake_list := wake_list q; cnt_ovlp_wait := cnt_ovlp_wait q; cnt_ovlp_wake := cnt_ovlp_wake q |}.

Definition add_ref (d : Z) (q : io_request_t) : io_request_t :=
  {| usrIO_addr := usrIO_addr q; iodir := iodir q; ioReq_fea := ioReq_fea q; ioReq_stat := ioReq_stat q;
     is_ovlp_ior := is_ovlp_ior q; ref_cnt := s32 (ref_cnt q + d); wait_list := wait_list q;
     wake_list := wake_list q; cnt_ovlp_wait := cnt_ovlp_wait q; cnt_ovlp_wake := cnt_ovlp_wake q |}.

Definition set_wait (l : list Z) (c : Z) (q : io_request_t) : io_request_t :=
  {| usrIO_addr := usrIO_addr q; iodir := iodir q; ioReq_fea := ioReq_fea q; ioReq_stat := ioReq_stat q;
     is_ovlp_ior := is_ovlp_ior q; ref_cnt := ref_cnt q; wait_list := l;
     wake_list := wake_list q; cnt_ovlp_wait := c; cnt_ovlp_wake := cnt_ovlp_wake q |}.

Definition set_wake (l : list Z) (c : Z) (q : io_request_t) : io_request_t :=
  {| usrIO_addr := usrIO_addr q; iodir := iodir q; ioReq_fea := ioReq_fea q; ioReq_stat := ioReq_stat q;
     is_ovlp_ior := is_ovlp_ior q; ref_cnt := ref_cnt q; wait_list := wait_list q;
     wake_list := l; cnt_ovlp_wait := cnt_ovlp_wait q; cnt_ovlp_wake := c |}.

Definition mod_req (f : io_request_t -> io_request_t) (ior : Z) (w : ioq_state) : ioq_state :=
  {| reqs := alter f ior (reqs w); items := items w; mem_next := mem_next w;
     ioReq_pool := ioReq_pool w; ioReq_ovlp_pool := ioReq_ovlp_pool w;
     cnt_onfly_ioReq := cnt_onfly_ioReq w; cnt_onfly_ovlpioReq := cnt_onfly_ovlpioReq w |}.

Definition set_queues (p o : list Z) (np no : Z) (w : ioq_state) : ioq_state :=
  {| reqs := reqs w; items := items w; mem_next := mem_next w;
     ioReq_pool := p; ioReq_ovlp_pool := o; cnt_onfly_ioReq := np; cnt_onfly_ovlpioReq := no |}.

Definition set_items (i : gmap Z ovlp_item_t) (n : Z) (w : ioq_state) : ioq_state :=
  {| reqs := reqs w; items := i; mem_next := n;
     ioReq_pool := ioReq_pool w; ioReq_ovlp_pool := ioReq_ovlp_pool w;
     cnt_onfly_ioReq := cnt_onfly_ioReq w; cnt_onfly_ovlpioReq := cnt_onfly_ovlpioReq w |}.

Definition free_req (ior : Z) (w : ioq_state) : ioq_state :=
  {| reqs := delete ior (reqs w); items := items w; mem_next := mem_next w;
     ioReq_pool := ioReq_pool w; ioReq_ovlp_pool := ioReq_ovlp_pool w;
     cnt_onfly_ioReq := cnt_onfly_ioReq w; cnt_onfly_ovlpioReq := cnt_onfly_ovlpioReq w |}.

(** [list_del]: the entry leaves the queue it is linked in. *)
Definition list_del (ior : Z) (l : list Z) : list Z := filter (fun x => x <> ior) l.

(** ** Operations *)

Definition ioReq_add_waitReq (ior item : Z) (w : ioq_state) : ioq_state :=
  mod_req (fun q => set_wait (wait_list q ++ [item]) (s32 (cnt_ovlp_wait q + 1)) q) ior w.

Definition ioReq_add_wakeReq (ior item : Z) (w : ioq_state) : ioq_state :=
  mod_req (fun q => set_wake (wake_list q ++ [item]) (s32 (cnt_ovlp_wake q + 1)) q) ior w.

(** [test_and_set_bit] and [test_and_clear_bit]: the old value and the update. *)
Definition ioReq_chkset_fea (ior : Z) (f : IOReq_fea_t) (w : ioq_state) : ioq_state * bool :=
  (mod_req (fun q => set_fea (Z.setbit (ioReq_fea q) (IOReq_fea_num f)) q) ior w,
   match reqs w !! ior with Some q => Z.testbit (ioReq_fea q) (IOReq_fea_num f) | None => false end).

Definition ioReq_chkclear_fea (ior : Z) (f : IOReq_fea_t) (w : ioq_state) : ioq_state * bool :=
  (mod_req (fun q => set_fea (Z.clearbit (ioReq_fea q) (IOReq_fea_num f)) q) ior w,
   match reqs w !! ior with Some q => Z.testbit (ioReq_fea q) (IOReq_fea_num f) | None => false end).

Definition IOReqPool_addOvlpReq_nolock (ior : Z) (w : ioq_state) : ioq_state :=
  let '(w, was) := ioReq_chkset_fea ior IOREQ_FEA_IN_WAITPOOL w in
  if was : bool then w
  else set_queues (ioReq_pool w) (ioReq_ovlp_pool w ++ [ior])
         (cnt_onfly_ioReq w) (s32 (cnt_onfly_ovlpioReq w + 1)) w.

Definition IOReqPool_rmOvlpReq_nolock (ior : Z) (w : ioq_state) : ioq_state :=
  let '(w, was) := ioReq_chkclear_fea ior IOREQ_FEA_IN_WAITPOOL w in
  if was : bool then
    set_queues (list_del ior (ioReq_pool w)) (list_del ior (ioReq_ovlp_pool w))
      (cnt_onfly_ioReq w) (s32 (cnt_onfly_ovlpioReq w - 1)) w
  else w.

Definition IOReqPool_addReq_nolock (ior : Z) (w : ioq_state) : ioq_state :=
  let '(w, was) := ioReq_chkset_fea ior IOREQ_FEA_IN_REQPOOL w in
  if was : bool then w
  else set_queues (ioReq_pool w ++ [ior]) (ioReq_ovlp_pool w)
         (s32 (cnt_onfly_ioReq w + 1)) (cnt_onfly_ovlpioReq w) w.

Definition IOReqPool_rmReq_nolock (ior : Z) (w : ioq_state) : ioq_state :=
  let '(w, was) := ioReq_chkclear_fea ior IOREQ_FEA_IN_REQPOOL w in
  if was : bool then
    set_queues (list_del ior (ioReq_pool w)) (list_del ior (ioReq_ovlp_pool w))
      (s32 (cnt_onfly_ioReq w - 1)) (cnt_onfly_ovlpioReq w) w
  else w.

Definition ioReq_update (ior : Z) (e : IOR_FSM_TREvent_t) (w : ioq_state) : ioq_state * IOR_FSM_action_t :=
  match reqs w !! ior with
  | Some q =>
      let '(s, a) := IOReq_update_state (ioReq_stat q) e in (mod_req (set_stat s) ior w, a)
  | None => (w, IOREQ_A_NoAction)
  end.

Section alloc.
(** The memory allocator: does the allocation that would return this pointer
    succeed? *)
Context (alloc_ok : Z -> bool).

Definition gen_ovlp_item (prev next : Z) (t : IOR_ovlp_wait_t) (s l : Z) (w : ioq_state)
  : ioq_state * option Z :=
  let p := mem_next w in
  if alloc_ok p then
    (set_items (<[p := {| process_ior := prev; wait_ior := next; ovlp_s := s; ovlp_l := l;
                          wait_type := t |}]> (items w)) (p + 1) w, Some p)
  else (set_items (items w) (p + 1) w, None).

(** The loop of [ioReq_chk_ovlp] over the queue entries [q]; a pointer that is not
    one of a request stands for a broken list.  [ovlp_s] and [ovlp_l] are only read
    after an overlap set them. *)
Fixpoint chk_ovlp_loop (q : list Z) (io_req : Z) (w : ioq_state) (ret : IOR_ovlp_res_t)
  : ioq_state * IOR_ovlp_res_t :=
  match q with
  | [] => (w, ret)
  | cur :: q =>
      match reqs w !! cur, reqs w !! io_req with
      | Some c, Some n =>
          if io_req =? cur then (w, IOR_ovlp_InQ)
          else if chk_io_rw (iodir c) (iodir n) then chk_ovlp_loop q io_req w ret
          else
            let '(t, s, l) := chk_lb_ovlp (usrIO_addr c) (usrIO_addr n) 0 0 in
            if decide (t = IOR_Wait_NoOvlp) then chk_ovlp_loop q io_req w ret
            else
              let w := mod_req set_is_ovlp io_req w in
              let '(w, it) := gen_ovlp_item cur io_req t s l w in
              match it with
              | None => (w, ret)
              | Some i =>
                  let w := ioReq_add_waitReq io_req i w in
                  let w := ioReq_add_wakeReq cur i w in
                  chk_ovlp_loop q io_req w IOR_ovlp_Ovlp
              end
      | _, _ => (w, IOR_ovlp_ListBroken)
      end
  end.

(** The queue is walked from its tail. *)
Definition ioReq_chk_ovlp (q : list Z) (io_req : Z) (w : ioq_state) : ioq_state * IOR_ovlp_res_t :=
  chk_ovlp_loop (reverse q) io_req w IOR_ovlp_NoOvlp.

Definition _chk_ovlp_ReqPool (io_req : Z) (q : list Z) (w : ioq_state) : ioq_state * bool * Z :=
  let '(w, r) := ioReq_chk_ovlp q io_req w in
  match r with
  | IOR_ovlp_NoOvlp => (w, false, 0)
  | IOR_ovlp_Ovlp => (w, true, 0)
  | IOR_ovlp_InQ => (w, true, - EEXIST)
  | IOR_ovlp_ListBroken => (w, true, - EFAULT)
  end.

(** The error exit: a request of a broken list is committed to the user with an
    error and freed. *)
Definition add_ReqPool_err (io_req errno : Z) (w : ioq_state) : ioq_state * bool :=
  if errno =? - EFAULT then (free_req io_req w, false) else (w, false).

Definition ioReq_add_ReqPool (io_req : Z) (w : ioq_state) : ioq_state * bool :=
  let '(w, add_ovlp_q, errno) := _chk_ovlp_ReqPool io_req (ioReq_ovlp_pool w) w in
  if negb (errno =? 0) then add_ReqPool_err io_req errno w
  else
    let '(w, add2, errno) := _chk_ovlp_ReqPool io_req (ioReq_pool w) w in
    if negb (errno =? 0) then add_ReqPool_err io_req errno w
    else if add_ovlp_q || add2 then
      let '(w, action) := ioReq_update io_req IOREQ_E_OvlpOtherIO w in
      (if decide (action = IOREQ_A_AddOvlpWaitQ) then IOReqPool_addOvlpReq_nolock io_req w else w, false)
    else
      let '(w, action) := ioReq_update io_req IOREQ_E_INIT_DONE w in
      (if decide (action = IOREQ_A_SubmitIO) then IOReqPool_addReq_nolock io_req w else w, true).

(** [ioReq_submit_request]: the requests of the segments are sent (the returned
    list names the request) when the state allows it. *)
Definition ioReq_submit_request (ior : Z) (w : ioq_state) : ioq_state * list Z :=
  match reqs w !! ior with
  | Some q =>
      if decide (st_ioReq (ioReq_stat q) = IOREQ_S_RWUserData)
      then (mod_req (add_ref (-1)) ior w, [ior]) else (w, [])
  | None => (w, [])
  end.

(** A new request: the fields as [ioReq_init_request] sets them. *)
Definition new_request (addr : UserIO_addr_t) (dir : iorw_dir_t) : io_request_t :=
  {| usrIO_addr := addr; iodir := dir; ioReq_fea := 0; ioReq_stat := IOReq_init_fsm;
     is_ovlp_ior := false; ref_cnt := 1; wait_list := []; wake_list := [];
     cnt_ovlp_wait := 0; cnt_ovlp_wake := 0 |}.

Definition alloc_request (ior : Z) (addr : UserIO_addr_t) (dir : iorw_dir_t) (w : ioq_state) : ioq_state :=
  {| reqs := <[ior := new_request addr dir]> (reqs w); items := items w; mem_next := mem_next w;
     ioReq_pool := ioReq_pool w; ioReq_ovlp_pool := ioReq_ovlp_pool w;
     cnt_onfly_ioReq := cnt_onfly_ioReq w; cnt_onfly_ovlpioReq := cnt_onfly_ovlpioReq w |}.

(** [IOMgr_submit_IOReq] for a request whose object is at pointer [ior]. *)
Definition IOMgr_submit_IOReq (ior : Z) (addr : UserIO_addr_t) (dir : iorw_dir_t) (w : ioq_state)
  : ioq_state * list Z :=
  let w := alloc_request ior addr dir w in
  let '(w, ok) := ioReq_add_ReqPool ior w in
  if ok : bool then ioReq_submit_request ior w else (w, []).

End alloc.

(** ** Completion *)

(** One item of the wake list: the waiter loses one of the requests it waits for;
    with the last one it becomes runnable and moves to the buffer list. *)
Definition wake_item (io_req cur : Z) (st : ioq_state * list Z) : ioq_state * list Z :=
  let '(w, buff) := st in
  match items w !! cur with
  | None => (w, buff)
  | Some it =>
      let w := mod_req (fun q => set_wake (wake_list q) (s32 (cnt_ovlp_wake q - 1)) q) io_req w in
      let wake := wait_ior it in
      let w := mod_req (fun q => set_wait (list_del cur (wait_list q)) (s32 (cnt_ovlp_wait q - 1)) q) wake w in
      match reqs w !! wake with
      | None => (w, buff)
      | Some q =>
          if cnt_ovlp_wait q =? 0 then
            let '(w, action) := ioReq_update wake IOREQ_E_OvlpIODone w in
            if decide (action = IOREQ_A_SubmitIO) then
              (set_queues (list_del wake (ioReq_pool w)) (list_del wake (ioReq_ovlp_pool w))
                 (cnt_onfly_ioReq w) (cnt_onfly_ovlpioReq w) w, buff ++ [wake])
            else (w, buff)
          else (w, buff)
      end
  end.

(** The second loop: the items are unlinked and freed. *)
Definition free_item (io_req cur : Z) (w : ioq_state) : ioq_state :=
  let w := mod_req (fun q => set_wake (list_del cur (wake_list q)) (cnt_ovlp_wake q) q) io_req w in
  set_items (delete cur (items w)) (mem_next w) w.

Definition wake_list_of (ior : Z) (w : ioq_state) : list Z :=
  match reqs w !! ior with Some q => wake_list q | None => [] end.

Definition ioReq_get_ovlpReq (io_req : Z) (w : ioq_state) : ioq_state * list Z :=
  let l := wake_list_of io_req w in
  let '(w, buff) := foldl (fun st cur => wake_item io_req cur st) (w, []) l in
  (foldl (fun w cur => free_item io_req cur w) w l, buff).

(** One runnable request: it is entered into the request pool, split and
    submitted. *)
Definition mv_one (cur : Z) (st : ioq_state * list Z) : ioq_state * list Z :=
  let '(w, sub) := st in
  let w := IOReqPool_rmOvlpReq_nolock cur w in
  let w := mod_req (add_ref 1) cur w in
  let w := IOReqPool_addReq_nolock cur w in
  let '(w, s) := ioReq_submit_request cur w in
  (w, sub ++ s).

Definition mv_ovlp_ior_toIO (io_req : Z) (w : ioq_state) : ioq_state * list Z :=
  let '(w, buff) := ioReq_get_ovlpReq io_req w in
  foldl (fun st cur => mv_one cur st) (w, []) buff.

Definition _ioReq_rm_ioReqQueue (io_req : Z) (w : ioq_state) : ioq_state * list Z :=
  mv_ovlp_ior_toIO io_req (IOReqPool_rmReq_nolock io_req w).

Definition ioReq_rm_all_ovlpReq (io_req : Z) (w : ioq_state) : ioq_state :=
  let l := wake_list_of io_req w in
  let w := foldl (fun w (_ : Z) =>
             mod_req (fun q => set_wake (wake_list q) (s32 (cnt_ovlp_wake q - 1)) q) io_req w) w l in
  foldl (fun w cur => free_item io_req cur w) w l.

(** The request leaves the queues, the requests that only waited for it are
    submitted (the returned list), its memory is freed. *)
Definition ioReq_end_request (io_req : Z) (w : ioq_state) : ioq_state * list Z :=
  let '(w, sub) := _ioReq_rm_ioReqQueue io_req w in
  (free_req io_req (ioReq_rm_all_ovlpReq io_req w), sub).
