(* ===== verification/IOReqSched.v ===== *)
(** * IOReqSched: the overlap scheduler is correct

    The invariant of the queues of a volume modelled in [IOReqPool] and what
    follows from it: requests that conflict never run at the same time, every
    waiting request waits for a running chain of older conflicting requests, a
    waiting request is submitted exactly when the last request it waits for ends,
    and the queues drain. *)

From S2P Require Import Prelude Fsm IOReqFsm IOReqOvlp IOReqPool.

(** ** Specification *)

(** Two requests conflict when they share a block and one of them writes. *)
Definition req_conflict (a b : io_request_t) : Prop :=
  (iodir a = KERNEL_IO_WRITE \/ iodir b = KERNEL_IO_WRITE) /\
  ranges_meet (usrIO_addr a) (usrIO_addr b).

Definition conflict (w : ioq_state) (r s : Z) : Prop :=
  exists a b, reqs w !! r = Some a /\ reqs w !! s = Some b /\ req_conflict a b.

(** [r] is one of the requests [s] waits for. *)
Definition waits_for (w : ioq_state) (s r : Z) : Prop :=
  exists i it, items w !! i = Some it /\ process_ior it = r /\ wait_ior it = s.

Lemma conflict_sym w r s : conflict w r s -> conflict w s r.
Proof.
  intros (a & b & Ha & Hb & Hd & Hm). exists b, a. split; [done|]. split; [done|].
  split; [tauto|]. by apply ranges_meet_sym.
Qed.

#[global] Instance conflict_dec w r s : Decision (conflict w r s).
Proof.
  destruct (reqs w !! r) as [a|] eqn:Ha, (reqs w !! s) as [b|] eqn:Hb;
    try (right; intros (x & y & Hx & Hy & _); congruence).
  destruct (decide (iodir a = KERNEL_IO_WRITE \/ iodir b = KERNEL_IO_WRITE)) as [Hd|Hd];
    [|right; intros (x & y & Hx & Hy & [? _]); simplify_eq; done].
  destruct (decide (ranges_meet (usrIO_addr a) (usrIO_addr b))) as [Hm|Hm];
    [|right; intros (x & y & Hx & Hy & [_ ?]); simplify_eq; done].
  left. by exists a, b.
Defined.

Lemma chk_io_rw_spec a b :
  chk_io_rw a b = false <-> a = KERNEL_IO_WRITE \/ b = KERNEL_IO_WRITE.
Proof. destruct a, b; cbv; intuition congruence. Qed.

(** The overlap graph: [P] are the running, [O] the waiting requests, [cov] the
    pairs that were already compared, [gone] the items already taken from
    the wait lists by a request that is ending.  [rank] orders the requests by their
    arrival. *)
Record ovlp_graph (rank : Z -> nat) (P O : list Z) (cov : Z -> Z -> Prop) (gone : list Z)
    (w : ioq_state) : Prop := {
  og_nodup : NoDup (P ++ O);
  og_req r : r ∈ P ++ O -> exists q, reqs w !! r = Some q /\ addr_wf (usrIO_addr q);
  og_wait r q : r ∈ P ++ O -> reqs w !! r = Some q ->
    cnt_ovlp_wait q = Z.of_nat (length (wait_list q)) /\ NoDup (wait_list q) /\
    forall i, i ∈ wait_list q <->
      (i ∉ gone) /\ exists it, items w !! i = Some it /\ wait_ior it = r;
  og_wake r q : r ∈ P ++ O -> reqs w !! r = Some q ->
    NoDup (wake_list q) /\
    forall i, i ∈ wake_list q <-> exists it, items w !! i = Some it /\ process_ior it = r;
  og_item i it : items w !! i = Some it ->
    i < mem_next w /\ process_ior it ∈ P ++ O /\ wait_ior it ∈ O /\
    (rank (process_ior it) < rank (wait_ior it))%nat /\
    conflict w (process_ior it) (wait_ior it);
  og_uniq i j it jt : items w !! i = Some it -> items w !! j = Some jt ->
    process_ior it = process_ior jt -> wait_ior it = wait_ior jt -> i = j;
  og_cov r s : r ∈ P ++ O -> s ∈ P ++ O -> r <> s -> cov r s -> conflict w r s ->
    waits_for w r s \/ waits_for w s r;
}.

(** ** Changes that do not touch the graph *)

(** What the graph sees of a request. *)
Definition gview (q : io_request_t) :=
  (usrIO_addr q, iodir q, wait_list q, wake_list q, cnt_ovlp_wait q).

Definition gsame (w w' : ioq_state) : Prop :=
  (forall r, gview <$> reqs w !! r = gview <$> reqs w' !! r) /\
  items w = items w' /\ mem_next w = mem_next w'.

Lemma gsame_refl w : gsame w w.
Proof. done. Qed.

Lemma gsame_trans w1 w2 w3 : gsame w1 w2 -> gsame w2 w3 -> gsame w1 w3.
Proof. intros (H1 & H2 & H3) (H1' & H2' & H3'). split; [|split]; congruence. Qed.

Lemma gsame_lookup w w' r q' :
  gsame w w' -> reqs w' !! r = Some q' -> exists q, reqs w !! r = Some q /\ gview q = gview q'.
Proof.
  intros (H & _) Hr. specialize (H r). rewrite Hr in H. simpl in H.
  destruct (reqs w !! r) as [q|]; [|done]. exists q. split; [done|]. by apply (inj Some).
Qed.

Lemma gsame_sym w w' : gsame w w' -> gsame w' w.
Proof. intros (H1 & H2 & H3). split; [|split]; congruence. Qed.

Lemma conflict_gsame w w' r s : gsame w w' -> conflict w r s -> conflict w' r s.
Proof.
  intros Hs (a & b & Ha & Hb & Hc). apply gsame_sym in Hs.
  destruct (gsame_lookup w' w r a Hs Ha) as (a' & Ha' & Ea).
  destruct (gsame_lookup w' w s b Hs Hb) as (b' & Hb' & Eb).
  exists a', b'. split; [done|]. split; [done|]. unfold req_conflict in *.
  unfold gview in Ea, Eb. by injection Ea as -> -> _ _ _; injection Eb as -> -> _ _ _.
Qed.

Lemma waits_for_gsame w w' r s : gsame w w' -> waits_for w r s -> waits_for w' r s.
Proof. intros (_ & Hi & _). unfold waits_for. by rewrite Hi. Qed.

Lemma ovlp_graph_gsame rank P O cov gone w w' :
  gsame w w' -> ovlp_graph rank P O cov gone w -> ovlp_graph rank P O cov gone w'.
Proof.
  intros Hs G. pose proof Hs as (Hr & Hi & Hn).
  assert (Hq : forall r q, reqs w' !! r = Some q -> exists q0, reqs w !! r = Some q0 /\
             usrIO_addr q0 = usrIO_addr q /\ wait_list q0 = wait_list q /\
             wake_list q0 = wake_list q /\ cnt_ovlp_wait q0 = cnt_ovlp_wait q).
  { intros r q Hq. destruct (gsame_lookup _ _ _ _ Hs Hq) as (q0 & Hq0 & E).
    exists q0. unfold gview in E. by injection E as -> _ -> -> ->. }
  split.
  - apply G.
  - intros r HrA. destruct (og_req _ _ _ _ _ _ G r HrA) as (q & Hq1 & Hwf).
    destruct (gsame_lookup w' w r q (gsame_sym _ _ Hs) Hq1) as (q' & Hq' & E).
    exists q'. split; [done|]. unfold gview in E. by injection E as -> _ _ _ _.
  - intros r q HrA Hrq. destruct (Hq _ _ Hrq) as (q0 & Hq0 & _ & <- & _ & <-).
    rewrite <- Hi. by apply G.
  - intros r q HrA Hrq. destruct (Hq _ _ Hrq) as (q0 & Hq0 & _ & _ & <- & _).
    rewrite <- Hi. by apply G.
  - intros i it. rewrite <- Hi, <- Hn. intros Hit.
    destruct (og_item _ _ _ _ _ _ G i it Hit) as (H1 & H2 & H3 & H4 & H5).
    eauto 6 using conflict_gsame.
  - rewrite <- Hi. apply G.
  - intros r s HrA HsA Hne Hc Hcf.
    destruct (og_cov _ _ _ _ _ _ G r s) as [H|H]; eauto using conflict_gsame, gsame_sym, waits_for_gsame.
Qed.

Lemma gsame_mod_req f r w :
  (forall q, gview (f q) = gview q) -> gsame w (mod_req f r w).
Proof.
  intros Hf. split; [|done]. intros s. simpl. destruct (decide (s = r)) as [->|Hne].
  - rewrite lookup_alter_eq. destruct (reqs w !! r); simpl; [by rewrite Hf|done].
  - by rewrite lookup_alter_ne.
Qed.

Lemma gsame_set_queues p o np no w : gsame w (set_queues p o np no w).
Proof. done. Qed.

Lemma gsame_mod_step f r w0 w :
  (forall q, gview (f q) = gview q) -> gsame w0 w -> gsame w0 (mod_req f r w).
Proof. intros Hf Hs. eapply gsame_trans; [exact Hs|]. by apply gsame_mod_req. Qed.

Lemma gsame_queue_step p o np no w0 w : gsame w0 w -> gsame w0 (set_queues p o np no w).
Proof. done. Qed.

(** Closes [gsame] goals about a composition of graph-neutral updates. *)
Ltac gsame_tac :=
  repeat first [ apply gsame_refl | apply gsame_queue_step | apply gsame_mod_step; [done|] ].

(** ** Bounds *)

Definition process_of (w : ioq_state) (i : Z) : Z :=
  match items w !! i with Some it => process_ior it | None => 0 end.

(** A request waits at most once for each other one, so its counter is bounded by
    the number of requests. *)
Lemma og_wait_length rank P O cov gone w r q :
  ovlp_graph rank P O cov gone w -> r ∈ P ++ O -> reqs w !! r = Some q ->
  (length (wait_list q) <= length (P ++ O))%nat.
Proof.
  intros G HrA Hq. destruct (og_wait _ _ _ _ _ _ G r q HrA Hq) as (_ & Hnd & Hin).
  rewrite <- (length_fmap (process_of w)). apply submseteq_length, NoDup_submseteq.
  - apply NoDup_fmap_2_strong; [|done]. intros i j Hi Hj.
    apply Hin in Hi as (_ & it & Hit & Hiw). apply Hin in Hj as (_ & jt & Hjt & Hjw).
    unfold process_of. rewrite Hit, Hjt. intros Heq.
    apply (og_uniq _ _ _ _ _ _ G i j it jt); congruence.
  - intros p Hp. apply list_elem_of_fmap in Hp as (i & -> & Hi).
    apply Hin in Hi as (_ & it & Hit & _). unfold process_of. rewrite Hit.
    by apply (og_item _ _ _ _ _ _ G i it).
Qed.

(** ** Adding an edge *)

(** The pairs compared while the new request [n] is entered and was compared with
    the requests of [D]. *)
Definition covn (n : Z) (D : list Z) (r s : Z) : Prop :=
  (r <> n /\ s <> n) \/ r ∈ D \/ s ∈ D.

(** The state after an overlap of the new request [n] with [cur] was recorded. *)
Definition edge_added (n cur : Z) (t : IOR_ovlp_wait_t) (s l : Z) (w : ioq_state) : ioq_state :=
  let w := mod_req set_is_ovlp n w in
  let p := mem_next w in
  let w := set_items (<[p := {| process_ior := cur; wait_ior := n; ovlp_s := s; ovlp_l := l;
                                wait_type := t |}]> (items w)) (p + 1) w in
  ioReq_add_wakeReq cur p (ioReq_add_waitReq n p w).

Lemma edge_added_lookup n cur t s l w r :
  n <> cur ->
  reqs (edge_added n cur t s l w) !! r =
  (fun q =>
     if decide (r = n) then set_wait (wait_list q ++ [mem_next w]) (s32 (cnt_ovlp_wait q + 1)) (set_is_ovlp q)
     else if decide (r = cur) then set_wake (wake_list q ++ [mem_next w]) (s32 (cnt_ovlp_wake q + 1)) q
     else q) <$> reqs w !! r.
Proof.
  intros Hne. unfold edge_added, ioReq_add_wakeReq, ioReq_add_waitReq. simpl.
  destruct (decide (r = n)) as [->|Hn].
  - rewrite lookup_alter_ne, !lookup_alter_eq by done. by destruct (reqs w !! n).
  - destruct (decide (r = cur)) as [->|Hc].
    + rewrite lookup_alter_eq, !lookup_alter_ne by done. by destruct (reqs w !! cur).
    + rewrite !lookup_alter_ne by done. by destruct (reqs w !! r).
Qed.

Lemma edge_added_items n cur t s l w :
  items (edge_added n cur t s l w) =
  <[mem_next w := {| process_ior := cur; wait_ior := n; ovlp_s := s; ovlp_l := l; wait_type := t |}]> (items w).
Proof. done. Qed.

Lemma edge_added_next n cur t s l w : mem_next (edge_added n cur t s l w) = mem_next w + 1.
Proof. done. Qed.

Lemma edge_added_conflict n cur t s l w a b :
  n <> cur -> conflict w a b <-> conflict (edge_added n cur t s l w) a b.
Proof.
  intros Hne.
  assert (Hsame : forall r, (fun q => (usrIO_addr q, iodir q)) <$> reqs (edge_added n cur t s l w) !! r
                          = (fun q => (usrIO_addr q, iodir q)) <$> reqs w !! r).
  { intros r. rewrite edge_added_lookup by done. destruct (reqs w !! r); [|done]. simpl.
    do 2 (case_decide; [done|]). done. }
  unfold conflict, req_conflict. split; intros (x & y & Hx & Hy & Hc).
  - pose proof (Hsame a) as Ha. pose proof (Hsame b) as Hb. rewrite Hx in Ha. rewrite Hy in Hb.
    simplify_option_eq. eexists _, _. split; [reflexivity|]. split; [reflexivity|]. congruence.
  - pose proof (Hsame a) as Ha. pose proof (Hsame b) as Hb. rewrite Hx in Ha. rewrite Hy in Hb.
    destruct (reqs w !! a) as [x'|]; [|done]. destruct (reqs w !! b) as [y'|]; [|done].
    eexists _, _. split; [reflexivity|]. split; [reflexivity|].
    simplify_eq/=. congruence.
Qed.

Section add_edge.
Context (rank : Z -> nat) (P O : list Z) (D : list Z) (n cur : Z) (t : IOR_ovlp_wait_t) (s l : Z).
Context (w : ioq_state).
Hypothesis G : ovlp_graph rank P O (covn n D) [] w.
Hypothesis Hcur : cur ∈ P ++ O.
Hypothesis HnO : n ∈ O.
Hypothesis Hrank : (rank cur < rank n)%nat.
Hypothesis Hconf : conflict w cur n.
Hypothesis Hnew : forall i it, items w !! i = Some it -> wait_ior it = n -> process_ior it ∈ D.
Hypothesis HcurD : cur ∉ D.
Hypothesis Hbound : Z.of_nat (length (P ++ O)) < 2 ^ 31 - 1.

Local Abbreviation w' := (edge_added n cur t s l w).

Lemma edge_fresh : items w !! mem_next w = None.
Proof.
  destruct (items w !! mem_next w) eqn:E; [|done].
  apply (og_item _ _ _ _ _ _ G) in E. lia.
Qed.

Lemma edge_ne : n <> cur.
Proof. intros ->. lia. Qed.

Lemma edge_added_wait r q : r ∈ P ++ O -> reqs w' !! r = Some q ->
  cnt_ovlp_wait q = Z.of_nat (length (wait_list q)) /\ NoDup (wait_list q) /\
  forall i, i ∈ wait_list q <-> (i ∉ ([] : list Z)) /\ exists it, items w' !! i = Some it /\ wait_ior it = r.
Proof.
  intros HrA. rewrite edge_added_lookup, edge_added_items by apply edge_ne. intros Hq.
  destruct (reqs w !! r) as [q0|] eqn:Hq0; [|done]. simpl in Hq. injection Hq as <-.
  pose proof (og_wait_length _ _ _ _ _ _ _ _ G HrA Hq0) as Hlen.
  destruct (og_wait _ _ _ _ _ _ G r q0 HrA Hq0) as (Hc & Hnd & Hin).
  pose proof edge_fresh as Hf.
  assert (Hp : mem_next w ∉ wait_list q0).
  { rewrite Hin. intros (_ & it & Hit & _). congruence. }
  destruct (decide (r = n)) as [->|Hrn]; simpl.
  - rewrite Hc. split; [|split].
    + rewrite length_app. simpl. wrap_small. lia.
    + apply NoDup_app. split; [done|]. split; [|apply NoDup_singleton].
      intros i Hi Hi'. apply list_elem_of_singleton in Hi'. by subst.
    + intros i. rewrite elem_of_app, list_elem_of_singleton, Hin. split.
      * intros [(_ & it & Hit & Hw)| ->].
        -- split; [apply not_elem_of_nil|]. exists it. rewrite lookup_insert_ne by congruence. done.
        -- split; [apply not_elem_of_nil|]. eexists. rewrite lookup_insert_eq. done.
      * intros (_ & it & Hit & Hw). destruct (decide (i = mem_next w)) as [->|Hne]; [by right|].
        left. rewrite lookup_insert_ne in Hit by done. split; [apply not_elem_of_nil|eauto].
  - assert (Hw : forall (q' : io_request_t), q' = (if decide (r = cur)
        then set_wake (wake_list q0 ++ [mem_next w]) (s32 (cnt_ovlp_wake q0 + 1)) q0 else q0) ->
        wait_list q' = wait_list q0 /\ cnt_ovlp_wait q' = cnt_ovlp_wait q0)
      by (intros ? ->; by case_decide).
    destruct (Hw _ eq_refl) as [-> ->]. split; [done|]. split; [done|]. intros i. rewrite Hin.
    destruct (decide (i = mem_next w)) as [->|Hne].
    + rewrite lookup_insert_eq, Hf. split; intros (? & it & Hit & Hwi); [congruence|].
      injection Hit as <-. simpl in Hwi. congruence.
    + by rewrite lookup_insert_ne.
Qed.

Lemma edge_added_wake r q : r ∈ P ++ O -> reqs w' !! r = Some q ->
  NoDup (wake_list q) /\
  forall i, i ∈ wake_list q <-> exists it, items w' !! i = Some it /\ process_ior it = r.
Proof.
  intros HrA. rewrite edge_added_lookup, edge_added_items by apply edge_ne. intros Hq.
  destruct (reqs w !! r) as [q0|] eqn:Hq0; [|done]. simpl in Hq. injection Hq as <-.
  destruct (og_wake _ _ _ _ _ _ G r q0 HrA Hq0) as (Hnd & Hin). pose proof edge_fresh as Hf.
  assert (Hp : mem_next w ∉ wake_list q0).
  { rewrite Hin. intros (it & Hit & _). congruence. }
  destruct (decide (r = cur)) as [->|Hrn].
  - rewrite decide_False by (apply not_eq_sym, edge_ne). simpl. split.
    + apply NoDup_app. split; [done|]. split; [|apply NoDup_singleton].
      intros i Hi Hi'. apply list_elem_of_singleton in Hi'. by subst.
    + intros i. rewrite elem_of_app, list_elem_of_singleton, Hin. split.
      * intros [(it & Hit & Hw)| ->].
        -- exists it. rewrite lookup_insert_ne by congruence. done.
        -- eexists. rewrite lookup_insert_eq. done.
      * intros (it & Hit & Hw). destruct (decide (i = mem_next w)) as [->|Hne]; [by right|].
        left. rewrite lookup_insert_ne in Hit by done. eauto.
  - assert (Hw : forall (q' : io_request_t), q' = (if decide (r = n)
        then set_wait (wait_list q0 ++ [mem_next w]) (s32 (cnt_ovlp_wait q0 + 1)) (set_is_ovlp q0) else q0) ->
        wake_list q' = wake_list q0) by (intros ? ->; by case_decide).
    rewrite (Hw _ eq_refl). split; [done|]. intros i. rewrite Hin.
    destruct (decide (i = mem_next w)) as [->|Hne].
    + rewrite lookup_insert_eq, Hf. split; intros (it & Hit & Hwi); [congruence|].
      injection Hit as <-. simpl in Hwi. congruence.
    + by rewrite lookup_insert_ne.
Qed.

Lemma edge_added_graph : ovlp_graph rank P O (covn n (cur :: D)) [] w'.
Proof.
  pose proof edge_ne as Hne. pose proof edge_fresh as Hf.
  split.
  - apply G.
  - intros r HrA. destruct (og_req _ _ _ _ _ _ G r HrA) as (q & Hq & Hwf).
    rewrite edge_added_lookup, Hq by done. eexists. split; [reflexivity|].
    do 2 (case_decide; [done|]). done.
  - apply edge_added_wait.
  - apply edge_added_wake.
  - intros i it. rewrite edge_added_items, edge_added_next.
    rewrite <- edge_added_conflict by done.
    intros [[<- <-]|[Hni Hit]]%lookup_insert_Some; simpl.
    + split; [lia|]. done.
    + destruct (og_item _ _ _ _ _ _ G i it Hit) as (H1 & H2 & H3 & H4 & H5).
      split; [lia|]. done.
  - intros i j it jt. rewrite edge_added_items.
    intros [[<- <-]|[Hni Hit]]%lookup_insert_Some [[<- <-]|[Hnj Hjt]]%lookup_insert_Some; simpl;
      intros Hp Hw; try done.
    + destruct HcurD. rewrite Hp. by eapply Hnew.
    + destruct HcurD. rewrite <- Hp. by eapply Hnew.
    + by eapply (og_uniq _ _ _ _ _ _ G).
  - intros a b Ha Hb Hab Hcov. rewrite <- edge_added_conflict by done. intros Hc.
    assert (Hold : forall x y, waits_for w x y -> waits_for w' x y).
    { intros x y (i & it & Hit & H1 & H2). exists i, it. rewrite edge_added_items.
      rewrite lookup_insert_ne by congruence. done. }
    assert (Hedge : waits_for w' n cur).
    { exists (mem_next w). eexists. rewrite edge_added_items, lookup_insert_eq. done. }
    destruct (decide (covn n D a b)) as [Hcv|Hcv].
    { destruct (og_cov _ _ _ _ _ _ G a b) as [H|H]; auto. }
    unfold covn in *. rewrite !elem_of_cons in Hcov.
    assert ((a = cur /\ b = n) \/ (b = cur /\ a = n)) as [[-> ->]|[-> ->]]; [|by right|by left].
    destruct (decide (a = n)), (decide (b = n)); subst; tauto.
Qed.

End add_edge.

(** ** The comparison of a new request with a queue *)

(** What the queue operations look at besides the graph; entering the request [n]
    changes no wait list but its own. *)
Definition cview (q : io_request_t) := (usrIO_addr q, iodir q, ioReq_fea q, ioReq_stat q).

Definition csame (n : Z) (w w' : ioq_state) : Prop :=
  (forall r, cview <$> reqs w !! r = cview <$> reqs w' !! r) /\
  (forall r, r <> n -> wait_list <$> reqs w !! r = wait_list <$> reqs w' !! r) /\
  ioReq_pool w = ioReq_pool w' /\ ioReq_ovlp_pool w = ioReq_ovlp_pool w' /\
  cnt_onfly_ioReq w = cnt_onfly_ioReq w' /\ cnt_onfly_ovlpioReq w = cnt_onfly_ovlpioReq w'.

Lemma csame_refl n w : csame n w w.
Proof. done. Qed.

Lemma csame_trans n w1 w2 w3 : csame n w1 w2 -> csame n w2 w3 -> csame n w1 w3.
Proof.
  intros (H1 & H2 & H3 & H4 & H5 & H6) (H1' & H2' & H3' & H4' & H5' & H6').
  split; [congruence|]. split; [intros; rewrite H2 by done; auto|]. repeat split; congruence.
Qed.

Lemma csame_lookup n w w' r q' :
  csame n w w' -> reqs w' !! r = Some q' ->
  exists q, reqs w !! r = Some q /\ cview q = cview q' /\ (r <> n -> wait_list q = wait_list q').
Proof.
  intros (H & H2 & _) Hr. specialize (H r). specialize (H2 r). rewrite Hr in H, H2. simpl in H, H2.
  destruct (reqs w !! r) as [q|]; [|done]. exists q. split; [done|]. split; [by apply (inj Some)|].
  intros Hne. specialize (H2 Hne). by apply (inj Some).
Qed.

Lemma csame_edge n cur t s l w : n <> cur -> csame n w (edge_added n cur t s l w).
Proof.
  intros Hne. split; [|split; [|done]]; intros r; rewrite edge_added_lookup by done;
    destruct (reqs w !! r); try done; simpl; do 2 (case_decide; try done).
Qed.

Section loop.
Context (alloc_ok : Z -> bool) (Halloc : forall p, alloc_ok p = true).
Context (rank : Z -> nat) (P O : list Z) (n : Z).
Hypothesis HnO : n ∈ O.
Hypothesis Hbound : Z.of_nat (length (P ++ O)) < 2 ^ 31 - 1.

(** The waiting list of the new request. *)
Definition waiting (w : ioq_state) : list Z :=
  match reqs w !! n with Some q => wait_list q | None => [] end.

(** A request that does not conflict with the new one needs no item. *)
Lemma skip_graph D cur w :
  n <> cur -> ovlp_graph rank P O (covn n D) [] w -> ~ conflict w cur n ->
  ovlp_graph rank P O (covn n (D ++ [cur])) [] w.
Proof.
  intros Hne G Hnc. split; try apply G. intros a b Ha Hb Hab Hcv Hcf. apply (og_cov _ _ _ _ _ _ G); try done.
  unfold covn in *. rewrite !elem_of_app, !list_elem_of_singleton in Hcv.
  destruct (decide (a = n)), (decide (b = n)); subst; try tauto.
  - destruct Hcv as [?|[[?|?]|[?|?]]]; subst; try tauto; destruct Hnc; first [done|by apply conflict_sym].
  - destruct Hcv as [?|[[?|?]|[?|?]]]; subst; try tauto; destruct Hnc; first [done|by apply conflict_sym].
Qed.

Lemma covn_graph D D' w :
  (forall x, x ∈ D' -> x ∈ D) -> ovlp_graph rank P O (covn n D) [] w -> ovlp_graph rank P O (covn n D') [] w.
Proof.
  intros HD G. split; try apply G. intros a b Ha Hb Hab Hcv Hcf. apply (og_cov _ _ _ _ _ _ G); try done.
  unfold covn in *. destruct Hcv as [?|[?|?]]; auto.
Qed.

Lemma chk_ovlp_loop_ok L D w ret :
  ovlp_graph rank P O (covn n D) [] w ->
  (forall i it, items w !! i = Some it -> wait_ior it = n -> process_ior it ∈ D) ->
  NoDup L -> (forall r, r ∈ L -> r ∈ P ++ O /\ (r ∉ D) /\ (rank r < rank n)%nat) ->
  exists w' ks,
    chk_ovlp_loop alloc_ok L n w ret = (w', if decide (ks = []) then ret else IOR_ovlp_Ovlp) /\
    ovlp_graph rank P O (covn n (D ++ L)) [] w' /\ csame n w w' /\
    (forall i it, items w' !! i = Some it -> wait_ior it = n -> process_ior it ∈ D ++ L) /\
    waiting w' = waiting w ++ ks.
Proof.
  revert D w ret. induction L as [|cur L IH]; intros D w ret G Hnew Hnd HL.
  - exists w, []. rewrite !app_nil_r. split; [done|]. split; [done|]. split; [apply csame_refl|done].
  - apply NoDup_cons in Hnd as [HcL Hnd].
    destruct (HL cur) as (HcA & HcD & Hrk); [by left|].
    destruct (og_req _ _ _ _ _ _ G cur HcA) as (c & Hc & Hcwf).
    destruct (og_req _ _ _ _ _ _ G n) as (nq & Hn & Hnwf); [by apply elem_of_app; right|].
    assert (Hne : n <> cur) by (intros ->; lia).
    assert (Hassoc : D ++ cur :: L = (D ++ [cur]) ++ L) by by rewrite <- app_assoc.
    (* no edge is needed: the graph already covers [cur] *)
    assert (Hskip : ~ conflict w cur n ->
      exists w' ks, chk_ovlp_loop alloc_ok L n w ret = (w', if decide (ks = []) then ret else IOR_ovlp_Ovlp) /\
        ovlp_graph rank P O (covn n (D ++ cur :: L)) [] w' /\ csame n w w' /\
        (forall i it, items w' !! i = Some it -> wait_ior it = n -> process_ior it ∈ D ++ cur :: L) /\
        waiting w' = waiting w ++ ks).
    { intros Hnc. rewrite Hassoc.
      apply IH; [by apply skip_graph|intros; apply elem_of_app; left; by eapply Hnew|done|].
      intros r Hr. destruct (HL r) as (H1 & H2 & H3); [by right|]. split; [done|].
      split; [|done]. rewrite not_elem_of_app, list_elem_of_singleton. split; [done|congruence]. }
    simpl. rewrite Hc, Hn. rewrite (proj2 (Z.eqb_neq n cur)) by done.
    destruct (chk_io_rw (iodir c) (iodir nq)) eqn:Hrw.
    { apply Hskip. intros (a & b & Ha & Hb & Hd & _). simplify_eq.
      apply chk_io_rw_spec in Hd. congruence. }
    pose proof (chk_lb_ovlp_cases (usrIO_addr c) (usrIO_addr nq) 0 0 Hcwf Hnwf) as Hcase.
    destruct (chk_lb_ovlp (usrIO_addr c) (usrIO_addr nq) 0 0) as [[t s] l].
    destruct Hcase as [[-> Hno]|(Ht & Hmeet & _)].
    { rewrite decide_True by done. apply Hskip. intros (a & b & Ha & Hb & _ & Hm). simplify_eq. }
    rewrite decide_False by done. unfold gen_ovlp_item. rewrite Halloc.
    change (chk_ovlp_loop alloc_ok L n (ioReq_add_wakeReq cur _ _) IOR_ovlp_Ovlp)
      with (chk_ovlp_loop alloc_ok L n (edge_added n cur t s l w) IOR_ovlp_Ovlp).
    assert (Hconf : conflict w cur n).
    { exists c, nq. split; [done|]. split; [done|]. split; [|done]. by apply chk_io_rw_spec. }
    destruct (IH (cur :: D) (edge_added n cur t s l w) IOR_ovlp_Ovlp) as (w' & ks & Hrun & G' & Hcs & Hnew' & Hwait).
    + by apply edge_added_graph.
    + intros i it. rewrite edge_added_items.
      intros [[<- <-]|[_ Hit]]%lookup_insert_Some Hw; [by left|]. right. by eapply Hnew.
    + done.
    + intros r Hr. destruct (HL r) as (H1 & H2 & H3); [by right|].
      split; [done|]. split; [|done]. rewrite elem_of_cons. intros [->|?]; done.
    + exists w', (mem_next w :: ks). split; [|split; [|split; [|split]]].
      * rewrite Hrun. by case_decide.
      * eapply covn_graph; [|exact G']. intros x. rewrite !elem_of_app, !elem_of_cons. tauto.
      * eapply csame_trans; [|exact Hcs]. by apply csame_edge.
      * intros i it Hit Hw. specialize (Hnew' i it Hit Hw). rewrite !elem_of_app, !elem_of_cons in *. tauto.
      * rewrite Hwait. unfold waiting. rewrite edge_added_lookup, Hn by done. simpl.
        rewrite decide_True by done. simpl. by rewrite <- app_assoc.
Qed.

End loop.

(** ** The invariant of the queues *)

Definition running_ok (q : io_request_t) : Prop :=
  Z.testbit (ioReq_fea q) 0 = true /\ Z.testbit (ioReq_fea q) 1 = false /\
  match st_ioReq (ioReq_stat q) with
  | IOREQ_S_START | IOREQ_S_INIT | IOREQ_S_OvlpWait => False
  | _ => True
  end.

Definition waiting_ok (q : io_request_t) : Prop :=
  Z.testbit (ioReq_fea q) 0 = false /\ Z.testbit (ioReq_fea q) 1 = true /\
  st_ioReq (ioReq_stat q) = IOREQ_S_OvlpWait.

(** Both queues together hold exactly the live requests; the graph of waits is
    complete and acyclic; every waiting request waits for somebody. *)
Record ioq_inv (w : ioq_state) : Prop := {
  iv_graph : exists rank,
    ovlp_graph rank (ioReq_pool w) (ioReq_ovlp_pool w) (fun _ _ => True) [] w;
  iv_run r q : r ∈ ioReq_pool w -> reqs w !! r = Some q -> running_ok q;
  iv_wait r q : r ∈ ioReq_ovlp_pool w -> reqs w !! r = Some q -> waiting_ok q /\ wait_list q <> [];
  iv_live r : is_Some (reqs w !! r) -> r ∈ ioReq_pool w ++ ioReq_ovlp_pool w;
  iv_cnt : cnt_onfly_ioReq w = s32 (Z.of_nat (length (ioReq_pool w))) /\
           cnt_onfly_ovlpioReq w = s32 (Z.of_nat (length (ioReq_ovlp_pool w)));
  iv_bound : Z.of_nat (length (ioReq_pool w ++ ioReq_ovlp_pool w)) < 2 ^ 31 - 1;
}.

Lemma ovlp_graph_perm rank P O P' O' cov gone w :
  P ++ O ≡ₚ P' ++ O' ->
  (forall i it, items w !! i = Some it -> wait_ior it ∈ O -> wait_ior it ∈ O') ->
  ovlp_graph rank P O cov gone w -> ovlp_graph rank P' O' cov gone w.
Proof.
  intros HP HO G. assert (Hel : forall r, r ∈ P' ++ O' <-> r ∈ P ++ O) by (intros; by rewrite HP).
  split.
  - rewrite <- HP. apply G.
  - intros r. rewrite Hel. apply G.
  - intros r q. rewrite Hel. apply G.
  - intros r q. rewrite Hel. apply G.
  - intros i it Hit. rewrite Hel. destruct (og_item _ _ _ _ _ _ G i it Hit) as (H1 & H2 & H3 & H4).
    split; [done|]. split; [done|]. split; [|done]. eauto.
  - apply G.
  - intros r s. rewrite !Hel. apply G.
Qed.

Lemma ovlp_graph_cov rank P O cov cov' gone w :
  (forall r s, r ∈ P ++ O -> s ∈ P ++ O -> r <> s -> cov' r s -> cov r s) ->
  ovlp_graph rank P O cov gone w -> ovlp_graph rank P O cov' gone w.
Proof. intros Hc G. split; try apply G. intros. apply (og_cov _ _ _ _ _ _ G); auto. Qed.

(** A fresh request enters the graph, not compared with anybody yet. *)
Lemma ovlp_graph_alloc rank P O w n addr dir :
  ovlp_graph rank P O (fun _ _ => True) [] w -> reqs w !! n = None -> addr_wf addr ->
  exists rank', (forall r, r ∈ P ++ O -> (rank' r < rank' n)%nat) /\
    ovlp_graph rank' P (O ++ [n]) (covn n []) [] (alloc_request n addr dir w).
Proof.
  intros G Hfresh Hwf.
  assert (HnA : n ∉ P ++ O).
  { intros HnA. destruct (og_req _ _ _ _ _ _ G n HnA) as (q & Hq & _). congruence. }
  set (rank' := fun x => if decide (x = n) then S (max_list (rank <$> P ++ O)) else rank x).
  assert (Hrk : forall r, r ∈ P ++ O -> rank' r = rank r).
  { intros r Hr. unfold rank'. rewrite decide_False; [done|]. intros ->. done. }
  exists rank'. split.
  { intros r Hr. rewrite Hrk by done. unfold rank'. rewrite decide_True by done.
    pose proof (max_list_elem_of_le (rank r) (rank <$> P ++ O)) as Hm.
    assert (rank r ∈ rank <$> P ++ O) by (by apply list_elem_of_fmap_2). specialize (Hm H). lia. }
  assert (Hlk : forall r, r ∈ P ++ O -> reqs (alloc_request n addr dir w) !! r = reqs w !! r).
  { intros r Hr. simpl. apply lookup_insert_ne. congruence. }
  assert (Hcf : forall r s, r ∈ P ++ O -> s ∈ P ++ O ->
            conflict (alloc_request n addr dir w) r s <-> conflict w r s).
  { intros r s Hr Hs. unfold conflict. by rewrite !Hlk. }
  assert (HA : forall r, r ∈ P ++ O ++ [n] -> r <> n -> r ∈ P ++ O).
  { intros r. rewrite app_assoc, (elem_of_app (P ++ O)), list_elem_of_singleton. tauto. }
  assert (Hno : forall i it, items w !! i = Some it -> process_ior it <> n /\ wait_ior it <> n).
  { intros i it Hit. destruct (og_item _ _ _ _ _ _ G i it Hit) as (_ & H2 & H3 & _).
    split; [congruence|]. intros E. apply HnA, elem_of_app. right. congruence. }
  split.
  - rewrite app_assoc. apply NoDup_app. split; [apply G|]. split; [|apply NoDup_singleton].
    intros x Hx Hx'. apply list_elem_of_singleton in Hx'. congruence.
  - intros r Hr. destruct (decide (r = n)) as [->|Hne].
    + eexists. simpl. rewrite lookup_insert_eq. done.
    + rewrite Hlk by auto. apply G. auto.
  - intros r q Hr Hq. destruct (decide (r = n)) as [->|Hne].
    + simpl in Hq. rewrite lookup_insert_eq in Hq. injection Hq as <-. simpl.
      split; [done|]. split; [constructor|]. intros i. split; [by intros ?%elem_of_nil|].
      intros (_ & it & Hit & Hw). by destruct (Hno i it Hit).
    + rewrite Hlk in Hq by auto. apply (og_wait _ _ _ _ _ _ G); auto.
  - intros r q Hr Hq. destruct (decide (r = n)) as [->|Hne].
    + simpl in Hq. rewrite lookup_insert_eq in Hq. injection Hq as <-. simpl.
      split; [constructor|]. intros i. split; [by intros ?%elem_of_nil|].
      intros (it & Hit & Hw). by destruct (Hno i it Hit).
    + rewrite Hlk in Hq by auto. apply (og_wake _ _ _ _ _ _ G); auto.
  - intros i it Hit. destruct (og_item _ _ _ _ _ _ G i it Hit) as (H1 & H2 & H3 & H4 & H5).
    assert (wait_ior it ∈ P ++ O) by (apply elem_of_app; by right).
    rewrite !Hrk by done. split; [done|]. split; [rewrite app_assoc; apply elem_of_app; by left|].
    split; [apply elem_of_app; by left|]. split; [done|]. by apply Hcf.
  - apply (og_uniq _ _ _ _ _ _ G).
  - intros r s Hr Hs Hrs [[H1 H2]|[[]%elem_of_nil|[]%elem_of_nil]] Hc.
    apply (og_cov _ _ _ _ _ _ G r s); auto. apply Hcf; auto.
Qed.

(** ** Submission keeps the invariant *)

Section submit.
Context (alloc_ok : Z -> bool) (Halloc : forall p, alloc_ok p = true).

Lemma chk_ReqPool_ok rank P O n L D w :
  n ∈ O -> Z.of_nat (length (P ++ O)) < 2 ^ 31 - 1 ->
  ovlp_graph rank P O (covn n D) [] w ->
  (forall i it, items w !! i = Some it -> wait_ior it = n -> process_ior it ∈ D) ->
  NoDup L -> (forall r, r ∈ L -> r ∈ P ++ O /\ (r ∉ D) /\ (rank r < rank n)%nat) ->
  exists w' ks,
    _chk_ovlp_ReqPool alloc_ok n L w = (w', negb (bool_decide (ks = [])), 0) /\
    ovlp_graph rank P O (covn n (D ++ L)) [] w' /\ csame n w w' /\
    (forall i it, items w' !! i = Some it -> wait_ior it = n -> process_ior it ∈ D ++ L) /\
    waiting n w' = waiting n w ++ ks.
Proof.
  intros HnO Hb G Hnew Hnd HL.
  destruct (chk_ovlp_loop_ok alloc_ok Halloc rank P O n HnO Hb (reverse L) D w IOR_ovlp_NoOvlp)
    as (w' & ks & Hrun & G' & Hcs & Hnew' & Hw); [done|done|by rewrite reverse_Permutation| |].
  { intros r Hr. apply HL. by apply elem_of_reverse. }
  assert (Hel : forall r, r ∈ D ++ reverse L <-> r ∈ D ++ L).
  { intros r. rewrite !elem_of_app. by rewrite elem_of_reverse. }
  exists w', ks. split; [|split; [|split; [done|split; [|done]]]].
  - unfold _chk_ovlp_ReqPool, ioReq_chk_ovlp. rewrite Hrun.
    case_decide as Hk; [by rewrite bool_decide_true|by rewrite bool_decide_false].
  - eapply ovlp_graph_cov; [|exact G']. intros a b _ _ _. unfold covn. rewrite !Hel. done.
  - intros i it Hit Hiw. apply Hel. eauto.
Qed.

(** Entering a request: the new one was compared with every live one. *)
Lemma add_ReqPool_compared rank P O n w0 :
  ovlp_graph rank P (O ++ [n]) (covn n []) [] w0 ->
  ioReq_pool w0 = P -> ioReq_ovlp_pool w0 = O ->
  (forall r, r ∈ P ++ O -> (rank r < rank n)%nat) ->
  (forall i it, items w0 !! i = Some it -> wait_ior it <> n) -> waiting n w0 = [] ->
  Z.of_nat (length (P ++ O ++ [n])) < 2 ^ 31 - 1 ->
  exists w2,
    ovlp_graph rank P (O ++ [n]) (fun _ _ => True) [] w2 /\ csame n w0 w2 /\
    ioReq_add_ReqPool alloc_ok n w0 =
      if decide (waiting n w2 = []) then
        let '(w, action) := ioReq_update n IOREQ_E_INIT_DONE w2 in
        (if decide (action = IOREQ_A_SubmitIO) then IOReqPool_addReq_nolock n w else w, true)
      else
        let '(w, action) := ioReq_update n IOREQ_E_OvlpOtherIO w2 in
        (if decide (action = IOREQ_A_AddOvlpWaitQ) then IOReqPool_addOvlpReq_nolock n w else w, false).
Proof.
  intros G HP HO Hrank Hnew Hwait Hb.
  pose proof (og_nodup _ _ _ _ _ _ G) as Hnd. rewrite app_assoc in Hnd.
  apply NoDup_app in Hnd as (HndA & Hdis & _). apply NoDup_app in HndA as (HndP & HdPO & HndO).
  assert (HnOn : n ∈ O ++ [n]) by (apply elem_of_app; right; by left).
  destruct (chk_ReqPool_ok rank P (O ++ [n]) n O [] w0) as (w1 & ks1 & Hrun1 & G1 & Hcs1 & Hnew1 & Hw1); try done.
  { intros i it Hit Hiw. by destruct (Hnew i it Hit). }
  { intros r Hr. split; [rewrite !elem_of_app; tauto|]. split; [apply not_elem_of_nil|].
    apply Hrank, elem_of_app. by right. }
  destruct (chk_ReqPool_ok rank P (O ++ [n]) n P ([] ++ O) w1) as (w2 & ks2 & Hrun2 & G2 & Hcs2 & _ & Hw2); try done.
  { intros r Hr. split; [rewrite elem_of_app; by left|]. split; [simpl; by apply HdPO|].
    apply Hrank, elem_of_app. by left. }
  exists w2. split; [|split; [by eapply csame_trans|]].
  - eapply ovlp_graph_cov; [|exact G2]. intros a b Ha Hb' Hab _.
    unfold covn. rewrite !elem_of_app in *. rewrite !list_elem_of_singleton in *.
    destruct (decide (a = n)), (decide (b = n)); subst; tauto.
  - unfold ioReq_add_ReqPool. rewrite HO, Hrun1. simpl.
    replace (ioReq_pool w1) with P by (destruct Hcs1 as (_ & _ & Hp & _); congruence). rewrite Hrun2. simpl.
    rewrite Hw2, Hw1, Hwait. simpl.
    destruct ks1, ks2; simpl; try done.
Qed.

Lemma ioReq_update_lookup n e w q :
  reqs w !! n = Some q ->
  ioReq_update n e w =
  (mod_req (set_stat (IOReq_update_state (ioReq_stat q) e).1) n w, (IOReq_update_state (ioReq_stat q) e).2).
Proof. intros Hq. unfold ioReq_update. rewrite Hq. by destruct (IOReq_update_state _ _). Qed.

Lemma running_ok_cview q q' : cview q = cview q' -> running_ok q -> running_ok q'.
Proof. unfold cview, running_ok. by intros [= _ _ -> ->]. Qed.

Lemma waiting_ok_cview q q' : cview q = cview q' -> waiting_ok q -> waiting_ok q'.
Proof. unfold cview, waiting_ok. by intros [= _ _ -> ->]. Qed.

Lemma setbit_same a b : 0 <= b -> Z.testbit (Z.setbit a b) b = true.
Proof. intros. apply Z.setbit_eq. done. Qed.

Lemma setbit_other a b c : 0 <= b -> b <> c -> Z.testbit (Z.setbit a b) c = Z.testbit a c.
Proof. intros. apply Z.setbit_neq; done. Qed.

Lemma clearbit_same a b : 0 <= b -> Z.testbit (Z.clearbit a b) b = false.
Proof. intros. apply Z.clearbit_eq. Qed.

Lemma clearbit_other a b c : 0 <= b -> b <> c -> Z.testbit (Z.clearbit a b) c = Z.testbit a c.
Proof. intros. by apply Z.clearbit_neq. Qed.

(** The two possible final states. *)
Definition entered_run (n : Z) (w : ioq_state) : ioq_state :=
  mod_req (add_ref (-1)) n
    (set_queues (ioReq_pool w ++ [n]) (ioReq_ovlp_pool w) (s32 (cnt_onfly_ioReq w + 1)) (cnt_onfly_ovlpioReq w)
      (mod_req (fun q => set_fea (Z.setbit (ioReq_fea q) 0) q) n
        (mod_req (set_stat {| st_ioReq := IOREQ_S_RWUserData |}) n w))).

Definition entered_wait (n : Z) (w : ioq_state) : ioq_state :=
  set_queues (ioReq_pool w) (ioReq_ovlp_pool w ++ [n]) (cnt_onfly_ioReq w) (s32 (cnt_onfly_ovlpioReq w + 1))
    (mod_req (fun q => set_fea (Z.setbit (ioReq_fea q) 1) q) n
      (mod_req (set_stat {| st_ioReq := IOREQ_S_OvlpWait |}) n w)).

Lemma entered_run_gsame n w : gsame w (entered_run n w).
Proof. unfold entered_run. gsame_tac. Qed.

Lemma entered_wait_gsame n w : gsame w (entered_wait n w).
Proof. unfold entered_wait. gsame_tac. Qed.

Lemma entered_run_other n w r : r <> n -> reqs (entered_run n w) !! r = reqs w !! r.
Proof. intros. simpl. by rewrite !lookup_alter_ne. Qed.

Lemma entered_wait_other n w r : r <> n -> reqs (entered_wait n w) !! r = reqs w !! r.
Proof. intros. simpl. by rewrite !lookup_alter_ne. Qed.

Lemma submit_run n w q :
  reqs w !! n = Some q -> ioReq_fea q = 0 -> ioReq_stat q = IOReq_init_fsm ->
  (let '(w, ok) := (let '(w, action) := ioReq_update n IOREQ_E_INIT_DONE w in
     (if decide (action = IOREQ_A_SubmitIO) then IOReqPool_addReq_nolock n w else w, true)) in
   if ok : bool then ioReq_submit_request n w else (w, [])) = (entered_run n w, [n]).
Proof.
  intros Hq Hf Hs. rewrite (ioReq_update_lookup _ _ _ q) by done. rewrite Hs. simpl.
  unfold IOReqPool_addReq_nolock, ioReq_chkset_fea. simpl. rewrite lookup_alter_eq, Hq. simpl.
  rewrite Hf. simpl. unfold ioReq_submit_request. simpl. by rewrite !lookup_alter_eq, Hq.
Qed.

Lemma submit_wait n w q :
  reqs w !! n = Some q -> ioReq_fea q = 0 -> ioReq_stat q = IOReq_init_fsm ->
  (let '(w, ok) := (let '(w, action) := ioReq_update n IOREQ_E_OvlpOtherIO w in
     (if decide (action = IOREQ_A_AddOvlpWaitQ) then IOReqPool_addOvlpReq_nolock n w else w, false)) in
   if ok : bool then ioReq_submit_request n w else (w, [])) = (entered_wait n w, []).
Proof.
  intros Hq Hf Hs. rewrite (ioReq_update_lookup _ _ _ q) by done. rewrite Hs. simpl.
  unfold IOReqPool_addOvlpReq_nolock, ioReq_chkset_fea. simpl. rewrite lookup_alter_eq, Hq. simpl.
  by rewrite Hf.
Qed.

(** [w2]: the state [w] with the new request [n] compared and linked, not queued
    yet. *)
Record compared (rank : Z -> nat) (n : Z) (w w2 : ioq_state) : Prop := {
  cp_new : n ∉ ioReq_pool w ++ ioReq_ovlp_pool w;
  cp_rank r : r ∈ ioReq_pool w ++ ioReq_ovlp_pool w -> (rank r < rank n)%nat;
  cp_graph : ovlp_graph rank (ioReq_pool w) (ioReq_ovlp_pool w ++ [n]) (fun _ _ => True) [] w2;
  cp_old r q2 : r <> n -> reqs w2 !! r = Some q2 ->
    exists q, reqs w !! r = Some q /\ cview q = cview q2 /\ wait_list q = wait_list q2;
  cp_req : exists q2, reqs w2 !! n = Some q2 /\ ioReq_fea q2 = 0 /\ ioReq_stat q2 = IOReq_init_fsm;
  cp_queues : ioReq_pool w2 = ioReq_pool w /\ ioReq_ovlp_pool w2 = ioReq_ovlp_pool w /\
    cnt_onfly_ioReq w2 = cnt_onfly_ioReq w /\ cnt_onfly_ovlpioReq w2 = cnt_onfly_ovlpioReq w;
}.

Lemma compared_waiting rank n w w2 :
  compared rank n w w2 ->
  waiting n w2 = [] <-> (forall r, r ∈ ioReq_pool w ++ ioReq_ovlp_pool w -> ~ conflict w2 r n).
Proof.
  intros C. pose proof (cp_graph _ _ _ _ C) as G. destruct (cp_req _ _ _ _ C) as (q2 & Hq2 & _).
  assert (HnA : n ∈ ioReq_pool w ++ ioReq_ovlp_pool w ++ [n])
    by (rewrite !elem_of_app; right; right; by left).
  destruct (og_wait _ _ _ _ _ _ G n q2 HnA Hq2) as (_ & _ & Hin).
  unfold waiting. rewrite Hq2. split.
  - intros Hnil r Hr Hc. rewrite Hnil in Hin.
    assert (Hne : r <> n) by (intros ->; by destruct (cp_new _ _ _ _ C)).
    destruct (og_cov _ _ _ _ _ _ G r n) as [(i & it & Hit & Hp & Hw)|(i & it & Hit & Hp & Hw)]; try done.
    + rewrite app_assoc. apply elem_of_app. by left.
    + destruct (og_item _ _ _ _ _ _ G i it Hit) as (_ & _ & _ & Hrk & _).
      pose proof (cp_rank _ _ _ _ C r Hr). rewrite Hp, Hw in Hrk. lia.
    + apply (not_elem_of_nil i), Hin. split; [apply not_elem_of_nil|eauto].
  - intros Hno. destruct (wait_list q2) as [|i l]; [done|]. exfalso.
    destruct (Hin i) as [[_ (it & Hit & Hw)] _]; [by left|].
    destruct (og_item _ _ _ _ _ _ G i it Hit) as (_ & Hp & _ & Hrk & Hc).
    rewrite Hw in *. apply (Hno (process_ior it)); [|done].
    rewrite app_assoc, elem_of_app, list_elem_of_singleton in Hp.
    destruct Hp as [Hp|Hp]; [done|]. rewrite Hp in Hrk. lia.
Qed.

Lemma entered_run_inv rank n w w2 :
  ioq_inv w -> compared rank n w w2 -> waiting n w2 = [] ->
  Z.of_nat (length (ioReq_pool w ++ ioReq_ovlp_pool w)) < 2 ^ 31 - 2 -> ioq_inv (entered_run n w2).
Proof.
  intros Hinv C Hw Hlen. pose proof (cp_graph _ _ _ _ C) as G.
  destruct (cp_req _ _ _ _ C) as (q2 & Hq2 & Hf & Hst). destruct (cp_queues _ _ _ _ C) as (Hp & Ho & Hcp & Hco).
  assert (HnA : n ∈ ioReq_pool w ++ ioReq_ovlp_pool w ++ [n])
    by (rewrite !elem_of_app; right; right; by left).
  split.
  - exists rank. apply (ovlp_graph_gsame _ _ _ _ _ w2); [apply entered_run_gsame|]. simpl. rewrite Hp, Ho.
    apply (ovlp_graph_perm rank (ioReq_pool w) (ioReq_ovlp_pool w ++ [n])); [| |done].
    + rewrite <- app_assoc. apply Permutation_app_head, Permutation_app_comm.
    + intros i it Hit. rewrite elem_of_app, list_elem_of_singleton. intros [?|Hwn]; [done|].
      destruct (og_wait _ _ _ _ _ _ G n q2 HnA Hq2) as (_ & _ & Hin). unfold waiting in Hw. rewrite Hq2 in Hw.
      destruct (not_elem_of_nil i). rewrite <- Hw. apply Hin. split; [apply not_elem_of_nil|eauto].
  - intros r q. simpl. rewrite Hp, elem_of_app, list_elem_of_singleton. intros Hr Hq.
    destruct (decide (r = n)) as [->|Hne].
    + rewrite !lookup_alter_eq, Hq2 in Hq. injection Hq as <-. unfold running_ok. simpl.
      by rewrite Hf.
    + rewrite !lookup_alter_ne in Hq by done. destruct Hr as [Hr|]; [|done].
      destruct (cp_old _ _ _ _ C r q Hne Hq) as (q0 & Hq0 & Hcv & _).
      eapply running_ok_cview; [exact Hcv|]. by eapply iv_run.
  - intros r q. simpl. rewrite Ho. intros Hr Hq.
    assert (Hne : r <> n).
    { intros ->. apply (cp_new _ _ _ _ C), elem_of_app. by right. }
    rewrite !lookup_alter_ne in Hq by done.
    destruct (cp_old _ _ _ _ C r q Hne Hq) as (q0 & Hq0 & Hcv & <-).
    destruct (iv_wait w Hinv r q0 Hr Hq0). split; [by eapply waiting_ok_cview|done].
  - intros r. destruct (decide (r = n)) as [->|Hne].
    + intros _. simpl. rewrite !elem_of_app. left; right; by left.
    + rewrite entered_run_other by done. intros [q Hq]. simpl. rewrite Hp, Ho.
      destruct (cp_old _ _ _ _ C r q Hne Hq) as (q0 & Hq0 & _).
      pose proof (iv_live w Hinv r ltac:(eauto)) as Hl. rewrite !elem_of_app in *. tauto.
  - destruct (iv_cnt w Hinv) as [H1 H2]. simpl. rewrite Hp, Ho, Hcp, Hco, H1, H2, s32_add.
    split; [|done]. f_equal. rewrite length_app. simpl. lia.
  - simpl. rewrite Hp, Ho. rewrite !length_app in *. simpl. lia.
Qed.

Lemma entered_wait_inv rank n w w2 :
  ioq_inv w -> compared rank n w w2 -> waiting n w2 <> [] ->
  Z.of_nat (length (ioReq_pool w ++ ioReq_ovlp_pool w)) < 2 ^ 31 - 2 -> ioq_inv (entered_wait n w2).
Proof.
  intros Hinv C Hw Hlen. pose proof (cp_graph _ _ _ _ C) as G.
  destruct (cp_req _ _ _ _ C) as (q2 & Hq2 & Hf & Hst). destruct (cp_queues _ _ _ _ C) as (Hp & Ho & Hcp & Hco).
  split.
  - exists rank. apply (ovlp_graph_gsame _ _ _ _ _ w2); [apply entered_wait_gsame|]. simpl. by rewrite Hp, Ho.
  - intros r q. simpl. rewrite Hp. intros Hr Hq.
    assert (Hne : r <> n).
    { intros ->. apply (cp_new _ _ _ _ C), elem_of_app. by left. }
    rewrite !lookup_alter_ne in Hq by done.
    destruct (cp_old _ _ _ _ C r q Hne Hq) as (q0 & Hq0 & Hcv & _).
    eapply running_ok_cview; [exact Hcv|]. by eapply iv_run.
  - intros r q. simpl. rewrite Ho, elem_of_app, list_elem_of_singleton. intros Hr Hq.
    destruct (decide (r = n)) as [->|Hne].
    + unfold waiting in Hw. rewrite !lookup_alter_eq, Hq2 in Hq. rewrite Hq2 in Hw. injection Hq as <-.
      unfold waiting_ok. simpl. by rewrite Hf.
    + rewrite !lookup_alter_ne in Hq by done. destruct Hr as [Hr|]; [|done].
      destruct (cp_old _ _ _ _ C r q Hne Hq) as (q0 & Hq0 & Hcv & <-).
      destruct (iv_wait w Hinv r q0 Hr Hq0). split; [by eapply waiting_ok_cview|done].
  - intros r. destruct (decide (r = n)) as [->|Hne].
    + intros _. simpl. rewrite !elem_of_app. right; right; by left.
    + rewrite entered_wait_other by done. intros [q Hq]. simpl. rewrite Hp, Ho.
      destruct (cp_old _ _ _ _ C r q Hne Hq) as (q0 & Hq0 & _).
      pose proof (iv_live w Hinv r ltac:(eauto)) as Hl. rewrite !elem_of_app in *. tauto.
  - destruct (iv_cnt w Hinv) as [H1 H2]. simpl. rewrite Hp, Ho, Hcp, Hco, H1, H2, s32_add.
    split; [done|]. f_equal. rewrite length_app. simpl. lia.
  - simpl. rewrite Hp, Ho. rewrite !length_app in *. simpl. lia.
Qed.

Lemma submit_compared w n addr dir :
  ioq_inv w -> reqs w !! n = None -> addr_wf addr ->
  Z.of_nat (length (ioReq_pool w ++ ioReq_ovlp_pool w)) < 2 ^ 31 - 2 ->
  exists rank w2, compared rank n w w2 /\
    IOMgr_submit_IOReq alloc_ok n addr dir w =
      if decide (waiting n w2 = []) then (entered_run n w2, [n]) else (entered_wait n w2, []).
Proof.
  intros Hinv Hfresh Hwf Hlen. destruct (iv_graph w Hinv) as (rank0 & G0).
  destruct (ovlp_graph_alloc rank0 _ _ w n addr dir G0 Hfresh Hwf) as (rank & Hrk & G1).
  assert (HnA : n ∉ ioReq_pool w ++ ioReq_ovlp_pool w).
  { intros HnA. destruct (og_req _ _ _ _ _ _ G0 n HnA) as (q & Hq & _). congruence. }
  assert (Hn0 : reqs (alloc_request n addr dir w) !! n = Some (new_request addr dir))
    by (simpl; apply lookup_insert_eq).
  destruct (add_ReqPool_compared rank (ioReq_pool w) (ioReq_ovlp_pool w) n (alloc_request n addr dir w))
    as (w2 & G2 & Hcs & Hrun); try done.
  { intros i it Hit. destruct (og_item _ _ _ _ _ _ G0 i it Hit) as (_ & _ & H3 & _).
    intros <-. apply HnA, elem_of_app. by right. }
  { unfold waiting. by rewrite Hn0. }
  { rewrite app_assoc, length_app. simpl. lia. }
  exists rank, w2.
  assert (C : compared rank n w w2).
  { split; try done.
    - intros r q2 Hne Hq2. destruct (csame_lookup _ _ _ _ _ Hcs Hq2) as (q & Hq & Hcv & Hwl).
      simpl in Hq. rewrite lookup_insert_ne in Hq by done. eauto.
    - destruct Hcs as (Hcv & _). specialize (Hcv n). rewrite Hn0 in Hcv. simpl in Hcv.
      destruct (reqs w2 !! n) as [q2|]; [|done]. exists q2. split; [done|].
      unfold cview in Hcv. simpl in Hcv. split; congruence.
    - destruct Hcs as (_ & _ & H1 & H2 & H3 & H4). split; [done|]. done. }
  split; [done|]. unfold IOMgr_submit_IOReq. rewrite Hrun.
  destruct (cp_req _ _ _ _ C) as (q2 & Hq2 & Hf & Hst).
  case_decide; [by apply (submit_run n w2 q2)|by apply (submit_wait n w2 q2)].
Qed.

Lemma submit_inv w n addr dir :
  ioq_inv w -> reqs w !! n = None -> addr_wf addr ->
  Z.of_nat (length (ioReq_pool w ++ ioReq_ovlp_pool w)) < 2 ^ 31 - 2 ->
  exists w' sub, IOMgr_submit_IOReq alloc_ok n addr dir w = (w', sub) /\ ioq_inv w' /\
    ((sub = [n] /\ ioReq_pool w' = ioReq_pool w ++ [n] /\ ioReq_ovlp_pool w' = ioReq_ovlp_pool w /\
      forall r, r ∈ ioReq_pool w ++ ioReq_ovlp_pool w -> ~ conflict w' r n) \/
     (sub = [] /\ ioReq_pool w' = ioReq_pool w /\ ioReq_ovlp_pool w' = ioReq_ovlp_pool w ++ [n] /\
      exists r, r ∈ ioReq_pool w ++ ioReq_ovlp_pool w /\ conflict w' r n)).
Proof.
  intros Hinv Hfresh Hwf Hlen.
  destruct (submit_compared w n addr dir Hinv Hfresh Hwf Hlen) as (rank & w2 & C & Hrun).
  destruct (cp_queues _ _ _ _ C) as (Hp & Ho & _).
  pose proof (compared_waiting _ _ _ _ C) as Hcw. rewrite Hrun.
  case_decide as Hw.
  - exists (entered_run n w2), [n]. split; [done|]. split; [by apply (entered_run_inv rank n w w2)|].
    left. simpl. rewrite Hp, Ho. repeat split; auto.
    intros r Hr Hc. apply (proj1 Hcw Hw r Hr). eapply conflict_gsame; [|exact Hc].
    apply gsame_sym, entered_run_gsame.
  - exists (entered_wait n w2), []. split; [done|]. split; [by apply (entered_wait_inv rank n w w2)|].
    right. simpl. rewrite Hp, Ho. repeat split; auto.
    destruct (waiting n w2) eqn:Hwl; [done|].
    destruct (decide (Exists (fun r => conflict w2 r n) (ioReq_pool w ++ ioReq_ovlp_pool w))) as [Hex|Hex].
    + apply Exists_exists in Hex as (r & Hr & Hc). exists r. split; [done|].
      eapply conflict_gsame; [|exact Hc]. apply entered_wait_gsame.
    + exfalso. apply Hw. apply Hcw. intros r Hr Hc. apply Hex, Exists_exists. eauto.
Qed.

End submit.

(** ** Removing the edges of a request that ends *)

Lemma list_del_not_in x l : x ∉ l -> list_del x l = l.
Proof.
  intros Hx. unfold list_del. induction l as [|y l IH]; [done|].
  rewrite elem_of_cons in Hx. rewrite filter_cons_True by (intros ->; apply Hx; by left).
  f_equal. apply IH. tauto.
Qed.

Lemma filter_notin_nil (l : list Z) : filter (fun x => x ∉ ([] : list Z)) l = l.
Proof.
  induction l as [|x l IH]; [done|]. rewrite filter_cons_True by apply not_elem_of_nil. by rewrite IH.
Qed.

Lemma filter_notin_self (l : list Z) : filter (fun x => x ∉ l) l = [].
Proof. apply elem_of_nil_inv. intros x. rewrite list_elem_of_filter. tauto. Qed.

Lemma elem_of_list_del x y l : x ∈ list_del y l <-> x <> y /\ x ∈ l.
Proof. unfold list_del. by rewrite list_elem_of_filter. Qed.

Lemma NoDup_list_del x l : NoDup l -> NoDup (list_del x l).
Proof. apply NoDup_filter. Qed.

Lemma list_del_length x l : NoDup l -> x ∈ l -> S (length (list_del x l)) = length l.
Proof.
  induction 1 as [|y l Hy Hnd IH]; [by intros ?%elem_of_nil|].
  destruct (decide (y = x)) as [->|Hne]; unfold list_del in *.
  - intros _. rewrite filter_cons_False by (intros H; by apply H).
    simpl. f_equal. f_equal. by apply list_del_not_in.
  - intros [->|Hx]%elem_of_cons; [done|]. rewrite filter_cons_True by done. simpl. by rewrite IH.
Qed.

(** The waiter of item [cur] drops it from its wait list. *)
Definition dropped (k cur : Z) (w : ioq_state) : ioq_state :=
  mod_req (fun q => set_wait (list_del cur (wait_list q)) (s32 (cnt_ovlp_wait q - 1)) q) k w.

Lemma dropped_lookup k cur w r :
  reqs (dropped k cur w) !! r =
  (fun q => if decide (r = k) then set_wait (list_del cur (wait_list q)) (s32 (cnt_ovlp_wait q - 1)) q
            else q) <$> reqs w !! r.
Proof.
  simpl. destruct (decide (r = k)) as [->|Hne].
  - rewrite lookup_alter_eq. done.
  - rewrite lookup_alter_ne by done. by destruct (reqs w !! r).
Qed.

Lemma dropped_conflict k cur w r s : conflict (dropped k cur w) r s <-> conflict w r s.
Proof.
  unfold conflict. rewrite !dropped_lookup. split.
  - intros (a & b & Ha & Hb & Hc).
    destruct (reqs w !! r) as [a0|]; [|done]. destruct (reqs w !! s) as [b0|]; [|done].
    exists a0, b0. split; [done|]. split; [done|]. simpl in *. injection Ha as <-. injection Hb as <-.
    unfold req_conflict in *. do 2 case_decide; done.
  - intros (a & b & -> & -> & Hc). eexists _, _. split; [reflexivity|]. split; [reflexivity|].
    unfold req_conflict in *. do 2 case_decide; done.
Qed.

Lemma ovlp_graph_drop rank P O cov gone w k cur it :
  ovlp_graph rank P O cov gone w -> Z.of_nat (length (P ++ O)) < 2 ^ 31 - 1 ->
  items w !! cur = Some it -> wait_ior it = k -> cur ∉ gone ->
  ovlp_graph rank P O cov (cur :: gone) (dropped k cur w).
Proof.
  intros G Hb Hit Hk Hcur. split.
  - apply G.
  - intros r Hr. destruct (og_req _ _ _ _ _ _ G r Hr) as (q & Hq & Hwf).
    rewrite dropped_lookup, Hq. eexists. split; [reflexivity|]. by case_decide.
  - intros r q Hr. rewrite dropped_lookup. intros Hq.
    destruct (reqs w !! r) as [q0|] eqn:Hq0; [|done]. simpl in Hq. injection Hq as <-.
    pose proof (og_wait_length _ _ _ _ _ _ _ _ G Hr Hq0) as Hlen.
    destruct (og_wait _ _ _ _ _ _ G r q0 Hr Hq0) as (Hc & Hnd & Hin).
    change (items (dropped k cur w)) with (items w).
    case_decide as Hrk; simpl.
    + assert (Hcw : cur ∈ wait_list q0) by (apply Hin; subst; eauto).
      pose proof (list_del_length cur _ Hnd Hcw) as Hl. split; [rewrite Hc; wrap_small; lia|].
      split; [by apply NoDup_list_del|]. intros i. rewrite elem_of_list_del, Hin, not_elem_of_cons. tauto.
    + split; [done|]. split; [done|]. intros i. rewrite Hin, not_elem_of_cons. split; [|tauto].
      intros (Hi & jt & Hjt & Hw). split; [|eauto]. split; [|done]. intros ->. congruence.
  - intros r q Hr. rewrite dropped_lookup. intros Hq.
    destruct (reqs w !! r) as [q0|] eqn:Hq0; [|done]. simpl in Hq. injection Hq as <-.
    change (items (dropped k cur w)) with (items w).
    destruct (og_wake _ _ _ _ _ _ G r q0 Hr Hq0). by case_decide.
  - intros i jt Hjt. rewrite dropped_conflict. by apply (og_item _ _ _ _ _ _ G).
  - apply (og_uniq _ _ _ _ _ _ G).
  - intros r s Hr Hs Hrs Hcv. rewrite dropped_conflict. by apply (og_cov _ _ _ _ _ _ G).
Qed.

(** The second loop: unlinking and freeing the handled items. *)
Lemma free_loop_ok r0 L w :
  let w' := foldl (fun w cur => free_item r0 cur w) w L in
  (forall i, items w' !! i = if decide (i ∈ L) then None else items w !! i) /\
  (forall r, r <> r0 -> reqs w' !! r = reqs w !! r) /\
  (cview <$> reqs w' !! r0 = cview <$> reqs w !! r0) /\
  wake_list_of r0 w' = filter (fun i => i ∉ L) (wake_list_of r0 w) /\
  mem_next w' = mem_next w /\ ioReq_pool w' = ioReq_pool w /\ ioReq_ovlp_pool w' = ioReq_ovlp_pool w /\
  cnt_onfly_ioReq w' = cnt_onfly_ioReq w /\ cnt_onfly_ovlpioReq w' = cnt_onfly_ovlpioReq w.
Proof.
  revert w. induction L as [|cur L IH]; intros w; cbn [foldl].
  - split; [intros; rewrite decide_False; [done|apply not_elem_of_nil]|].
    split; [done|]. split; [done|]. split; [|done].
    by rewrite filter_notin_nil.
  - destruct (IH (free_item r0 cur w)) as (H1 & H2 & H3 & H4 & H5 & H6 & H7 & H8 & H9).
    split; [|split; [|split; [|split]]].
    + intros i. rewrite H1. simpl. rewrite lookup_delete.
      repeat case_decide; try done; exfalso; rewrite ?elem_of_cons in *; intuition congruence.
    + intros r Hr. rewrite H2 by done. simpl. by rewrite lookup_alter_ne.
    + rewrite H3. simpl. rewrite lookup_alter_eq. by destruct (reqs w !! r0).
    + rewrite H4. unfold wake_list_of at 1. simpl. rewrite lookup_alter_eq. unfold wake_list_of.
      destruct (reqs w !! r0) as [q|]; [|done]. simpl. unfold list_del. rewrite list_filter_filter.
      apply list_filter_iff. intros x. rewrite not_elem_of_cons. tauto.
    + done.
Qed.

Section ending.
Context (rank : Z -> nat) (P O : list Z) (r0 : Z) (w1 : ioq_state).
Hypothesis Hr0 : r0 ∈ P.
Hypothesis Hbound : Z.of_nat (length (P ++ O)) < 2 ^ 31 - 1.

(** The state while [r0] walks its wake list: [gone] are the items it has
    handled, [B] the waiters that became runnable. *)
Record waking (B gone : list Z) (w : ioq_state) : Prop := {
  wk_graph : ovlp_graph rank P O (fun _ _ => True) gone w;
  wk_queues : ioReq_pool w = ioReq_pool w1 /\ ioReq_ovlp_pool w = filter (fun x => x ∉ B) O /\
    cnt_onfly_ioReq w = cnt_onfly_ioReq w1 /\ cnt_onfly_ovlpioReq w = cnt_onfly_ovlpioReq w1;
  wk_pool : forall k, k ∈ O -> k ∉ ioReq_pool w1;
  wk_B : NoDup B /\ forall k, k ∈ B -> k ∈ O;
  wk_wait k q : k ∈ O -> reqs w !! k = Some q ->
    Z.testbit (ioReq_fea q) 0 = false /\ Z.testbit (ioReq_fea q) 1 = true /\
    (k ∈ B -> wait_list q = [] /\ st_ioReq (ioReq_stat q) = IOREQ_S_RWUserData) /\
    (k ∉ B -> wait_list q <> [] /\ st_ioReq (ioReq_stat q) = IOREQ_S_OvlpWait);
  wk_run r : r ∉ O -> cview <$> reqs w !! r = cview <$> reqs w1 !! r;
  wk_live r : is_Some (reqs w !! r) <-> is_Some (reqs w1 !! r);
  wk_items : items w = items w1 /\ mem_next w = mem_next w1;
  wk_wake0 : wake_list_of r0 w = wake_list_of r0 w1;
}.

Lemma filter_snoc_del B k :
  filter (fun x => x ∉ B ++ [k]) O = list_del k (filter (fun x => x ∉ B) O).
Proof.
  unfold list_del. rewrite list_filter_filter. apply list_filter_iff. intros x.
  rewrite not_elem_of_app, list_elem_of_singleton. tauto.
Qed.

(** The states the pass over one item goes through. *)
Definition counted (w : ioq_state) : ioq_state :=
  mod_req (fun q => set_wake (wake_list q) (s32 (cnt_ovlp_wake q - 1)) q) r0 w.

Definition released (k : Z) (w : ioq_state) : ioq_state :=
  let w' := mod_req (set_stat {| st_ioReq := IOREQ_S_RWUserData |}) k w in
  set_queues (list_del k (ioReq_pool w)) (list_del k (ioReq_ovlp_pool w))
    (cnt_onfly_ioReq w) (cnt_onfly_ovlpioReq w) w'.

Lemma counted_waking B gone w : waking B gone w -> waking B gone (counted w).
Proof.
  intros W. assert (Hgs : gsame w (counted w)) by (unfold counted; gsame_tac).
  assert (Hlk : forall r, reqs (counted w) !! r = (fun q => if decide (r = r0)
             then set_wake (wake_list q) (s32 (cnt_ovlp_wake q - 1)) q else q) <$> reqs w !! r).
  { intros r. simpl. destruct (decide (r = r0)) as [->|Hne]; [by rewrite lookup_alter_eq|].
    rewrite lookup_alter_ne by done. by destruct (reqs w !! r). }
  split; try apply W.
  - eapply ovlp_graph_gsame; [exact Hgs|apply W].
  - intros k q Hk. rewrite Hlk. destruct (reqs w !! k) as [q0|] eqn:Hq0; [|done].
    intros [= <-]. pose proof (wk_wait _ _ _ W k q0 Hk Hq0). by case_decide.
  - intros r Hr. rewrite <- (wk_run _ _ _ W r Hr), Hlk. destruct (reqs w !! r); [|done].
    simpl. by case_decide.
  - intros r. rewrite Hlk, fmap_is_Some. apply W.
  - rewrite <- (wk_wake0 _ _ _ W). unfold wake_list_of. rewrite Hlk.
    destruct (reqs w !! r0); [|done]. simpl. by case_decide.
Qed.

(** One item [cur] of the wake list, whose waiter is [k]. *)
Section one_item.
Context (B gone : list Z) (w : ioq_state) (cur k : Z) (q : io_request_t).
Context (W : waking B gone w) (HkO : k ∈ O) (HkB : k ∉ B) (Hnr0 : k <> r0) (Hq : reqs w !! k = Some q).
Context (Hst : st_ioReq (ioReq_stat q) = IOREQ_S_OvlpWait).
Context (G' : ovlp_graph rank P O (fun _ _ => True) (cur :: gone) (dropped k cur w)).

Lemma dropped_self :
  reqs (dropped k cur w) !! k = Some (set_wait (list_del cur (wait_list q)) (s32 (cnt_ovlp_wait q - 1)) q).
Proof. rewrite dropped_lookup, Hq. simpl. by rewrite decide_True. Qed.

Lemma dropped_other r : r <> k -> reqs (dropped k cur w) !! r = reqs w !! r.
Proof. intros Hr. rewrite dropped_lookup. destruct (reqs w !! r); [|done]. simpl. by rewrite decide_False. Qed.

Lemma released_other r : r <> k -> reqs (released k (dropped k cur w)) !! r = reqs w !! r.
Proof.
  intros Hr. unfold released. cbn [reqs set_queues mod_req]. rewrite lookup_alter_ne by done. by apply dropped_other.
Qed.

Lemma released_self :
  exists q', reqs (released k (dropped k cur w)) !! k = Some q' /\ ioReq_fea q' = ioReq_fea q /\
    wait_list q' = list_del cur (wait_list q) /\ ioReq_stat q' = {| st_ioReq := IOREQ_S_RWUserData |}.
Proof. eexists. unfold released. cbn [reqs set_queues mod_req]. rewrite lookup_alter_eq, dropped_self. done. Qed.

(** The waiter still waits for others. *)
Lemma dropped_waking : list_del cur (wait_list q) <> [] -> waking B (cur :: gone) (dropped k cur w).
Proof.
  intros Hne. split; try apply W; [done|..].
  - intros x qx Hx. destruct (decide (x = k)) as [->|Hxk].
    + rewrite dropped_self. intros [= <-]. simpl. destruct (wk_wait _ _ _ W k q HkO Hq) as (H1 & H2 & _).
      split; [done|]. split; [done|]. split; [done|]. intros _. by split.
    + rewrite dropped_other by done. intros Hqx. by apply (wk_wait _ _ _ W).
  - intros r Hr. rewrite dropped_other by (intros ->; done). by apply W.
  - intros r. destruct (decide (r = k)) as [->|Hrk]; [|rewrite dropped_other by done; apply W].
    rewrite dropped_self, <- (wk_live _ _ _ W k), Hq. split; eauto.
  - rewrite <- (wk_wake0 _ _ _ W). unfold wake_list_of. by rewrite dropped_other.
Qed.

(** It was the last item: the waiter is released. *)
Lemma released_waking :
  list_del cur (wait_list q) = [] -> waking (B ++ [k]) (cur :: gone) (released k (dropped k cur w)).
Proof.
  intros Hnil. destruct released_self as (q' & Hq' & Hf' & Hw' & Hs'). rewrite Hnil in Hw'. split; try apply W.
  - eapply ovlp_graph_gsame; [|exact G']. unfold released. gsame_tac.
  - destruct (wk_queues _ _ _ W) as (H1 & H2 & H3 & H4). simpl.
    rewrite filter_snoc_del, <- H2, H1. repeat split; auto. apply list_del_not_in. by apply (wk_pool _ _ _ W).
  - destruct (wk_B _ _ _ W) as [HB1 HB2]. split.
    + apply NoDup_app. split; [done|]. split; [|apply NoDup_singleton].
      intros x Hx Hx'. apply list_elem_of_singleton in Hx'. congruence.
    + intros x. rewrite elem_of_app, list_elem_of_singleton. intros [?| ->]; auto.
  - intros x qx Hx Hqx. rewrite elem_of_app, list_elem_of_singleton. destruct (decide (x = k)) as [->|Hxk].
    + rewrite Hq' in Hqx. injection Hqx as <-. rewrite Hf', Hw', Hs'.
      destruct (wk_wait _ _ _ W k q HkO Hq) as (H1 & H2 & _).
      split; [done|]. split; [done|]. split; [done|]. intros Hn. destruct Hn. by right.
    + rewrite released_other in Hqx by done. destruct (wk_wait _ _ _ W x qx Hx Hqx) as (H1 & H2 & H3 & H4).
      split; [done|]. split; [done|]. split; [intros [?|?]; [auto|done]|]. intros Hn. apply H4. tauto.
  - intros r Hr. rewrite released_other by (intros ->; done). by apply W.
  - intros r. destruct (decide (r = k)) as [->|Hne]; [|rewrite released_other by done; apply W].
    rewrite Hq', <- (wk_live _ _ _ W k), Hq. split; eauto.
  - rewrite <- (wk_wake0 _ _ _ W). unfold wake_list_of. by rewrite released_other.
Qed.

(** The waiter is asked by its state machine to run. *)
Lemma wait_done_submits :
  IOReq_update_state (ioReq_stat q) IOREQ_E_OvlpIODone = ({| st_ioReq := IOREQ_S_RWUserData |}, IOREQ_A_SubmitIO).
Proof. destruct (ioReq_stat q) as [st]. simpl in Hst. subst st. reflexivity. Qed.

End one_item.

Lemma wake_item_ok B gone w cur it :
  waking B gone w -> items w !! cur = Some it -> process_ior it = r0 -> cur ∉ gone ->
  exists w' B', wake_item r0 cur (w, B) = (w', B') /\ waking B' (cur :: gone) w'.
Proof.
  intros W0 Hit Hp Hcur. pose proof (counted_waking _ _ _ W0) as W.
  unfold wake_item. rewrite Hit. fold (counted w).
  remember (wait_ior it) as k eqn:Hk. fold (dropped k cur (counted w)).
  change (items w) with (items (counted w)) in Hit.
  clear W0. generalize dependent (counted w). clear w. intros w Hit W.
  pose proof (wk_graph _ _ _ W) as G.
  destruct (og_item _ _ _ _ _ _ G cur it Hit) as (_ & _ & HkO & _). rewrite <- Hk in HkO.
  assert (HkA : k ∈ P ++ O) by (apply elem_of_app; by right).
  destruct (og_req _ _ _ _ _ _ G k HkA) as (q & Hq & _).
  destruct (og_wait _ _ _ _ _ _ G k q HkA Hq) as (_ & _ & Hin).
  destruct (wk_wait _ _ _ W k q HkO Hq) as (_ & _ & HinB & HnotB).
  assert (HkB : k ∉ B).
  { intros HkB. assert (Hcw : cur ∈ wait_list q) by (apply Hin; eauto).
    rewrite (proj1 (HinB HkB)) in Hcw. by apply elem_of_nil in Hcw. }
  destruct (HnotB HkB) as [_ Hst].
  assert (Hnr0 : k <> r0).
  { intros ->. pose proof (og_nodup _ _ _ _ _ _ G) as HN. apply NoDup_app in HN as (_ & HN & _). by apply (HN r0). }
  pose proof (ovlp_graph_drop _ _ _ _ _ _ k cur it G Hbound Hit (eq_sym Hk) Hcur) as G'.
  pose proof (dropped_self w cur k q Hq) as Hlk.
  destruct (og_wait _ _ _ _ _ _ G' k _ HkA Hlk) as (Hc' & _). simpl in Hc'. rewrite Hlk. simpl. rewrite Hc'.
  destruct (list_del cur (wait_list q)) as [|i l] eqn:Hdel; simpl.
  - rewrite (ioReq_update_lookup _ _ _ _ Hlk). simpl. rewrite (wait_done_submits q Hst). simpl.
    exists (released k (dropped k cur w)), (B ++ [k]). split; [done|]. by eapply released_waking.
  - exists (dropped k cur w), B. split; [done|]. eapply dropped_waking; eauto. congruence.
Qed.

Lemma wake_loop_ok L B gone w :
  waking B gone w -> NoDup L ->
  (forall i, i ∈ L -> (i ∉ gone) /\ exists it, items w1 !! i = Some it /\ process_ior it = r0) ->
  exists w' B' gone',
    foldl (fun st cur => wake_item r0 cur st) (w, B) L = (w', B') /\ waking B' gone' w' /\
    (forall i, i ∈ gone' <-> i ∈ gone \/ i ∈ L).
Proof.
  revert B gone w. induction L as [|cur L IH]; intros B gone w W Hnd HL.
  - exists w, B, gone. split; [done|]. split; [done|]. intros i. rewrite elem_of_nil. tauto.
  - apply NoDup_cons in Hnd as [HcL Hnd]. destruct (HL cur) as (Hcg & it & Hit & Hp); [by left|].
    destruct (wake_item_ok B gone w cur it) as (w' & B' & Hstep & W'); try done.
    { by rewrite (proj1 (wk_items _ _ _ W)). }
    cbn [foldl]. rewrite Hstep.
    destruct (IH B' (cur :: gone) w') as (w2 & B2 & gone2 & Hrun & W2 & Hg); try done.
    { intros i Hi. destruct (HL i) as (Hig & Hex); [by right|]. split; [|done].
      rewrite not_elem_of_cons. split; [congruence|done]. }
    exists w2, B2, gone2. split; [done|]. split; [done|]. intros i. rewrite Hg, !elem_of_cons. tauto.
Qed.

Lemma freed_graph B gone w :
  waking B gone w -> (forall i, i ∈ gone <-> i ∈ wake_list_of r0 w) ->
  ovlp_graph rank (list_del r0 P) O (fun _ _ => True) []
    (foldl (fun w cur => free_item r0 cur w) w (wake_list_of r0 w)).
Proof.
  intros W Hgone. pose proof (wk_graph _ _ _ W) as G.
  destruct (free_loop_ok r0 (wake_list_of r0 w) w) as (Hi & Hr & Hr0v & Hwl & Hn & _).
  set (w' := foldl _ _ _) in *.
  assert (HA : forall r, r ∈ list_del r0 P ++ O -> r ∈ P ++ O /\ r <> r0).
  { intros r. rewrite !elem_of_app, elem_of_list_del. pose proof (og_nodup _ _ _ _ _ _ G) as HN.
    apply NoDup_app in HN as (_ & HN & _). intros [[? ?]|HO]; [tauto|]. split; [tauto|].
    intros ->. by apply (HN r0). }
  assert (Hr0A : r0 ∈ P ++ O) by (apply elem_of_app; by left).
  destruct (og_req _ _ _ _ _ _ G r0 Hr0A) as (q0 & Hq0 & _).
  destruct (og_wake _ _ _ _ _ _ G r0 q0 Hr0A Hq0) as (_ & Hin0).
  assert (HL : forall i it, items w !! i = Some it -> i ∈ wake_list_of r0 w <-> process_ior it = r0).
  { intros i it Hit. unfold wake_list_of. rewrite Hq0, Hin0. split; [|eauto].
    intros (jt & Hjt & Hp). congruence. }
  assert (Hsome : forall i it, items w' !! i = Some it <-> items w !! i = Some it /\ process_ior it <> r0).
  { intros i it. rewrite Hi. case_decide as Hd.
    - split; [done|]. intros [Hit Hp]. destruct Hp. by apply (HL i it).
    - split; [|tauto]. intros Hit. split; [done|]. intros Hp. by apply Hd, (HL i it). }
  assert (Hconf : forall r s, r <> r0 -> s <> r0 -> conflict w' r s <-> conflict w r s).
  { intros r s H1 H2. unfold conflict. by rewrite !Hr. }
  assert (HO : forall r, r ∈ O -> r <> r0) by (intros r Hx; apply HA, elem_of_app; by right).
  split.
  - pose proof (og_nodup _ _ _ _ _ _ G) as HN. apply NoDup_app in HN as (HN1 & HN2 & HN3).
    apply NoDup_app. split; [by apply NoDup_list_del|]. split; [|done].
    intros x Hx. apply elem_of_list_del in Hx as [_ Hx]. by apply HN2.
  - intros r [HrA Hne]%HA. rewrite Hr by done. by apply G.
  - intros r q [HrA Hne]%HA. rewrite Hr by done. intros Hq.
    destruct (og_wait _ _ _ _ _ _ G r q HrA Hq) as (Hc & Hnd & Hin).
    split; [done|]. split; [done|]. intros i. rewrite Hin, Hgone. split.
    + intros (Hni & it & Hit & Hw). split; [apply not_elem_of_nil|]. exists it. rewrite Hsome.
      split; [|done]. split; [done|]. intros Hp. by apply Hni, (HL i it).
    + intros (_ & it & Hit & Hw). apply Hsome in Hit as [Hit Hp]. split; [|eauto].
      intros Hin'. by apply Hp, (HL i it).
  - intros r q [HrA Hne]%HA. rewrite Hr by done. intros Hq.
    destruct (og_wake _ _ _ _ _ _ G r q HrA Hq) as (Hnd & Hin).
    split; [done|]. intros i. rewrite Hin. split; intros (it & Hit & Hp); exists it.
    + rewrite Hsome. split; [|done]. split; [done|congruence].
    + apply Hsome in Hit as [Hit _]. done.
  - intros i it [Hit Hp]%Hsome. rewrite Hn.
    destruct (og_item _ _ _ _ _ _ G i it Hit) as (H1 & H2 & H3 & H4 & H5).
    split; [done|]. split; [|split; [done|split; [done|]]].
    + rewrite elem_of_app in *. rewrite elem_of_list_del. tauto.
    + apply Hconf; auto.
  - intros i j it jt [Hit _]%Hsome [Hjt _]%Hsome. by apply (og_uniq _ _ _ _ _ _ G).
  - intros r s [HrA Hne]%HA [HsA Hnes]%HA Hrs _ Hc%Hconf; [|done..].
    destruct (og_cov _ _ _ _ _ _ G r s) as [(i & it & Hit & Hp & Hw)|(i & it & Hit & Hp & Hw)]; try done;
      [left|right]; exists i, it; rewrite Hsome; (split; [|done]); (split; [done|congruence]).
Qed.

End ending.

(** ** The runnable requests enter the request pool *)

Definition moved (cur : Z) (w : ioq_state) : ioq_state :=
  mod_req (add_ref (-1)) cur
    (set_queues (ioReq_pool w ++ [cur]) (ioReq_ovlp_pool w)
       (s32 (cnt_onfly_ioReq w + 1)) (s32 (cnt_onfly_ovlpioReq w - 1))
       (mod_req (fun q => set_fea (Z.setbit (ioReq_fea q) 0) q) cur
         (mod_req (add_ref 1) cur
           (mod_req (fun q => set_fea (Z.clearbit (ioReq_fea q) 1) q) cur w)))).

Lemma mv_one_ok cur w sub q :
  reqs w !! cur = Some q -> Z.testbit (ioReq_fea q) 0 = false -> Z.testbit (ioReq_fea q) 1 = true ->
  st_ioReq (ioReq_stat q) = IOREQ_S_RWUserData ->
  cur ∉ ioReq_pool w -> cur ∉ ioReq_ovlp_pool w ->
  mv_one cur (w, sub) = (moved cur w, sub ++ [cur]).
Proof.
  intros Hq H0 H1 Hst Hp Ho. unfold mv_one.
  unfold IOReqPool_rmOvlpReq_nolock, ioReq_chkclear_fea. rewrite Hq. simpl IOReq_fea_num. rewrite H1.
  cbn [set_queues mod_req ioReq_pool ioReq_ovlp_pool cnt_onfly_ioReq cnt_onfly_ovlpioReq reqs items mem_next].
  rewrite !list_del_not_in by done.
  unfold IOReqPool_addReq_nolock, ioReq_chkset_fea.
  cbn [set_queues mod_req ioReq_pool ioReq_ovlp_pool cnt_onfly_ioReq cnt_onfly_ovlpioReq reqs items mem_next].
  rewrite !lookup_alter_eq, Hq. simpl fmap. cbn [set_fea add_ref ioReq_fea].
  simpl IOReq_fea_num. rewrite clearbit_other, H0 by lia.
  unfold ioReq_submit_request.
  cbn [set_queues mod_req ioReq_pool ioReq_ovlp_pool cnt_onfly_ioReq cnt_onfly_ovlpioReq reqs items mem_next].
  rewrite !lookup_alter_eq, Hq. simpl fmap. cbn [set_fea add_ref ioReq_stat]. rewrite Hst. done.
Qed.

Lemma moved_gsame cur w : gsame w (moved cur w).
Proof. unfold moved. gsame_tac. Qed.

Lemma moved_other cur w r : r <> cur -> reqs (moved cur w) !! r = reqs w !! r.
Proof. intros. simpl. by rewrite !lookup_alter_ne. Qed.

Lemma moved_running cur w q :
  reqs w !! cur = Some q -> st_ioReq (ioReq_stat q) = IOREQ_S_RWUserData ->
  exists q', reqs (moved cur w) !! cur = Some q' /\ running_ok q'.
Proof.
  intros Hq Hst. eexists. split.
  - simpl. rewrite !lookup_alter_eq, Hq. reflexivity.
  - unfold running_ok. cbn [add_ref set_fea ioReq_fea ioReq_stat fmap option_fmap option_map].
    rewrite Hst, setbit_same, setbit_other, clearbit_same by lia. done.
Qed.

Lemma mv_loop_ok B w sub np no :
  NoDup B -> cnt_onfly_ioReq w = s32 np -> cnt_onfly_ovlpioReq w = s32 no ->
  (forall k, k ∈ B -> (k ∉ ioReq_pool w) /\ (k ∉ ioReq_ovlp_pool w) /\
     exists q, reqs w !! k = Some q /\ Z.testbit (ioReq_fea q) 0 = false /\
       Z.testbit (ioReq_fea q) 1 = true /\ st_ioReq (ioReq_stat q) = IOREQ_S_RWUserData) ->
  exists w', foldl (fun st cur => mv_one cur st) (w, sub) B = (w', sub ++ B) /\ gsame w w' /\
    ioReq_pool w' = ioReq_pool w ++ B /\ ioReq_ovlp_pool w' = ioReq_ovlp_pool w /\
    cnt_onfly_ioReq w' = s32 (np + Z.of_nat (length B)) /\
    cnt_onfly_ovlpioReq w' = s32 (no - Z.of_nat (length B)) /\
    (forall r, r ∉ B -> reqs w' !! r = reqs w !! r) /\
    (forall r q, r ∈ B -> reqs w' !! r = Some q -> running_ok q).
Proof.
  revert w sub np no. induction B as [|k B IH]; intros w sub np no Hnd Hnp Hno HB.
  - exists w. rewrite !app_nil_r, Z.add_0_r, Z.sub_0_r. split; [done|]. split; [apply gsame_refl|].
    do 4 (split; [done|]). split; [done|]. by intros r q ?%elem_of_nil.
  - apply NoDup_cons in Hnd as [HkB Hnd].
    destruct (HB k) as (Hkp & Hko & q & Hq & H0 & H1 & Hst); [by left|].
    cbn [foldl]. rewrite (mv_one_ok k w sub q) by done.
    destruct (IH (moved k w) (sub ++ [k]) (np + 1) (no - 1)) as (w' & Hrun & Hgs & Hp & Ho & Hcp & Hco & Hoth & Hrn).
    + done.
    + simpl. by rewrite Hnp, s32_add.
    + simpl. rewrite Hno. apply (s32_add no (-1)).
    + intros x Hx. destruct (HB x) as (Hxp & Hxo & qx & Hqx & Hx0 & Hx1 & Hxs); [by right|].
      assert (Hxk : x <> k) by congruence. split; [|split; [done|]].
      * simpl. rewrite not_elem_of_app, list_elem_of_singleton. done.
      * exists qx. by rewrite moved_other.
    + exists w'. rewrite Hrun. rewrite <- app_assoc. split; [done|].
      split; [eapply gsame_trans; [apply moved_gsame|exact Hgs]|].
      split; [rewrite Hp; simpl; by rewrite <- app_assoc|]. split; [done|].
      split; [rewrite Hcp; f_equal; simpl length; lia|].
      split; [rewrite Hco; f_equal; simpl length; lia|]. split.
      * intros r Hr. rewrite not_elem_of_cons in Hr. rewrite Hoth by tauto. apply moved_other. tauto.
      * intros r qr [->|Hr]%elem_of_cons Hqr; [|by eapply Hrn].
        rewrite Hoth in Hqr by done. destruct (moved_running k w q Hq Hst) as (q' & Hq' & Hrk). congruence.
Qed.

(** ** Completion keeps the invariant *)

Definition unqueued (r0 : Z) (w : ioq_state) : ioq_state :=
  set_queues (list_del r0 (ioReq_pool w)) (ioReq_ovlp_pool w)
    (s32 (cnt_onfly_ioReq w - 1)) (cnt_onfly_ovlpioReq w)
    (mod_req (fun q => set_fea (Z.clearbit (ioReq_fea q) 0) q) r0 w).

Lemma rmReq_ok r0 w q :
  reqs w !! r0 = Some q -> Z.testbit (ioReq_fea q) 0 = true -> r0 ∉ ioReq_ovlp_pool w ->
  IOReqPool_rmReq_nolock r0 w = unqueued r0 w.
Proof.
  intros Hq Hf Ho. unfold IOReqPool_rmReq_nolock, ioReq_chkclear_fea. rewrite Hq. simpl IOReq_fea_num.
  rewrite Hf. simpl. by rewrite (list_del_not_in r0 (ioReq_ovlp_pool w)).
Qed.

Lemma unqueued_waking rank r0 w :
  ioq_inv w -> r0 ∈ ioReq_pool w ->
  ovlp_graph rank (ioReq_pool w) (ioReq_ovlp_pool w) (fun _ _ => True) [] w ->
  waking rank (ioReq_pool w) (ioReq_ovlp_pool w) r0 (unqueued r0 w) [] [] (unqueued r0 w).
Proof.
  intros Hinv Hr0 G.
  pose proof (og_nodup _ _ _ _ _ _ G) as HN. apply NoDup_app in HN as (HN1 & HN2 & HN3).
  split; try done.
  - eapply ovlp_graph_gsame; [|exact G]. unfold unqueued. gsame_tac.
  - simpl. rewrite filter_notin_nil. done.
  - intros k Hk. simpl. rewrite elem_of_list_del. intros [_ Hk']. by apply (HN2 k).
  - split; [constructor|]. by intros k ?%elem_of_nil.
  - intros k q Hk. simpl. rewrite lookup_alter_ne by (intros ->; by apply (HN2 k)). intros Hq.
    destruct (iv_wait w Hinv k q Hk Hq) as [(H0 & H1 & Hst) Hne].
    split; [done|]. split; [done|]. split; [by intros ?%elem_of_nil|done].
Qed.

(** Freeing a request that is in no queue and in no edge. *)
Lemma ovlp_graph_free rank P O cov gone w r0 :
  r0 ∉ P ++ O -> ovlp_graph rank P O cov gone w -> ovlp_graph rank P O cov gone (free_req r0 w).
Proof.
  intros Hr0 G.
  assert (Hlk : forall r, r ∈ P ++ O -> reqs (free_req r0 w) !! r = reqs w !! r).
  { intros r Hr. simpl. apply lookup_delete_ne. congruence. }
  assert (Hc : forall r s, r ∈ P ++ O -> s ∈ P ++ O -> conflict (free_req r0 w) r s <-> conflict w r s).
  { intros r s Hr Hs. unfold conflict. by rewrite !Hlk. }
  split.
  - apply G.
  - intros r Hr. rewrite Hlk by done. by apply G.
  - intros r q Hr. rewrite Hlk by done. by apply G.
  - intros r q Hr. rewrite Hlk by done. by apply G.
  - intros i it Hit. destruct (og_item _ _ _ _ _ _ G i it Hit) as (H1 & H2 & H3 & H4 & H5).
    split; [done|]. split; [done|]. split; [done|]. split; [done|].
    apply Hc; [done| |done]. apply elem_of_app. by right.
  - apply G.
  - intros r s Hr Hs Hrs Hcv Hcf%Hc; [|done..]. by apply (og_cov _ _ _ _ _ _ G).
Qed.

Lemma Permutation_split_filter (B O : list Z) :
  NoDup O -> NoDup B -> (forall k, k ∈ B -> k ∈ O) -> O ≡ₚ B ++ filter (fun x => x ∉ B) O.
Proof.
  intros HO HB Hsub. apply NoDup_Permutation; [done| |].
  - apply NoDup_app. split; [done|]. split; [|by apply NoDup_filter].
    intros x Hx Hx'. apply list_elem_of_filter in Hx' as [? _]. done.
  - intros x. rewrite elem_of_app, list_elem_of_filter.
    destruct (decide (x ∈ B)); split; intros; intuition.
Qed.

(** The walk over the wake list, with what it leaves behind: the waiters that
    waited only for [r0] are runnable. *)
Lemma get_ovlpReq_ok rank r0 w :
  ioq_inv w -> r0 ∈ ioReq_pool w ->
  ovlp_graph rank (ioReq_pool w) (ioReq_ovlp_pool w) (fun _ _ => True) [] w ->
  exists w2 w3 B gone,
    ioReq_get_ovlpReq r0 (unqueued r0 w) = (w3, B) /\
    waking rank (ioReq_pool w) (ioReq_ovlp_pool w) r0 (unqueued r0 w) B gone w2 /\
    w3 = foldl (fun w cur => free_item r0 cur w) w2 (wake_list_of r0 w2) /\
    (forall i, i ∈ gone <-> i ∈ wake_list_of r0 w2) /\
    (forall k, k ∈ B <-> k ∈ ioReq_ovlp_pool w /\ forall r, waits_for w k r -> r = r0).
Proof.
  intros Hinv Hr0 G. pose proof (unqueued_waking rank r0 w Hinv Hr0 G) as W.
  pose proof (wk_graph _ _ _ _ _ _ _ _ W) as G1.
  assert (Hr0A : r0 ∈ ioReq_pool w ++ ioReq_ovlp_pool w) by (apply elem_of_app; by left).
  destruct (og_req _ _ _ _ _ _ G1 r0 Hr0A) as (q1 & Hq1 & _).
  destruct (og_wake _ _ _ _ _ _ G1 r0 q1 Hr0A Hq1) as (Hnd & Hin).
  assert (HL : wake_list_of r0 (unqueued r0 w) = wake_list q1) by (unfold wake_list_of; by rewrite Hq1).
  destruct (wake_loop_ok rank _ _ r0 (unqueued r0 w) Hr0 (iv_bound w Hinv)
              (wake_list_of r0 (unqueued r0 w)) [] [] (unqueued r0 w) W)
    as (w2 & B & gone & Hrun & W2 & Hgone).
  { by rewrite HL. }
  { intros i Hi. split; [apply not_elem_of_nil|]. apply Hin. by rewrite <- HL. }
  pose proof (wk_wake0 _ _ _ _ _ _ _ _ W2) as Hw0. pose proof (wk_graph _ _ _ _ _ _ _ _ W2) as G2.
  destruct (wk_items _ _ _ _ _ _ _ _ W2) as [Hitems _].
  exists w2, (foldl (fun w cur => free_item r0 cur w) w2 (wake_list_of r0 w2)), B, gone.
  split; [unfold ioReq_get_ovlpReq; by rewrite Hrun, Hw0|].
  split; [done|]. split; [done|].
  assert (Hg : forall i, i ∈ gone <-> i ∈ wake_list_of r0 w2).
  { intros i. rewrite Hgone, Hw0, elem_of_nil. tauto. }
  split; [done|]. intros k.
  assert (Hkey : k ∈ ioReq_ovlp_pool w -> k ∈ B <-> forall r, waits_for w k r -> r = r0).
  { intros Hk. assert (HkA : k ∈ ioReq_pool w ++ ioReq_ovlp_pool w) by (apply elem_of_app; by right).
    destruct (og_req _ _ _ _ _ _ G2 k HkA) as (q & Hq & _).
    destruct (og_wait _ _ _ _ _ _ G2 k q HkA Hq) as (_ & _ & Hkin).
    destruct (wk_wait _ _ _ _ _ _ _ _ W2 k q Hk Hq) as (_ & _ & HB1 & HB2). split.
    - intros HkB r (i & it & Hit & Hp & Hw). destruct (HB1 HkB) as [Hnil _]. rewrite Hnil in Hkin.
      destruct (decide (r = r0)) as [|Hne]; [done|]. exfalso. apply (not_elem_of_nil i), Hkin.
      split; [|rewrite Hitems; eauto]. rewrite Hg, Hw0, HL, Hin. intros (jt & Hjt & Hjp).
      change (items (unqueued r0 w)) with (items w) in Hjt. congruence.
    - intros Hall. destruct (decide (k ∈ B)) as [|HkB]; [done|]. exfalso.
      destruct (HB2 HkB) as [Hne _]. destruct (wait_list q) as [|i l]; [done|].
      destruct (Hkin i) as [[Hig (it & Hit & Hw)] _]; [by left|]. apply Hig. rewrite Hg, Hw0, HL, Hin.
      rewrite Hitems in Hit. exists it. split; [done|].
      apply Hall. exists i, it. done. }
  split; [|intros [Hk Hall]; by apply Hkey].
  intros HkB. assert (Hk : k ∈ ioReq_ovlp_pool w) by by apply (wk_B _ _ _ _ _ _ _ _ W2).
  split; [done|]. by apply Hkey.
Qed.

Lemma rm_all_ovlpReq_nil r0 w : wake_list_of r0 w = [] -> ioReq_rm_all_ovlpReq r0 w = w.
Proof. intros H. unfold ioReq_rm_all_ovlpReq. by rewrite H. Qed.

(** The end of [r0]: [w2] after the walk over its wake list, [w3] after the items are
    freed, [w4] after the released requests [B] moved to the running pool. *)
Section end_request.
Context (w w2 w3 w4 : ioq_state) (r0 : Z) (rank : Z -> nat) (B gone : list Z).
Context (Hinv : ioq_inv w) (Hr0 : r0 ∈ ioReq_pool w).
Context (G : ovlp_graph rank (ioReq_pool w) (ioReq_ovlp_pool w) (fun _ _ => True) [] w).
Context (W : waking rank (ioReq_pool w) (ioReq_ovlp_pool w) r0 (unqueued r0 w) B gone w2).
Context (Hw3 : w3 = foldl (fun w cur => free_item r0 cur w) w2 (wake_list_of r0 w2)).
Context (Hgone : forall i, i ∈ gone <-> i ∈ wake_list_of r0 w2).

Lemma end_neq k : k ∈ ioReq_ovlp_pool w -> k <> r0.
Proof.
  intros Hk ->. pose proof (og_nodup _ _ _ _ _ _ G) as HN. apply NoDup_app in HN as (_ & HN & _). by apply (HN r0).
Qed.

Lemma end_not_released : r0 ∉ B.
Proof. intros H. by apply (end_neq r0); [apply (wk_B _ _ _ _ _ _ _ _ W)|]. Qed.

(** Freeing the items leaves the other requests and the queues alone. *)
Lemma end_freed :
  (forall r, r <> r0 -> reqs w3 !! r = reqs w2 !! r) /\ wake_list_of r0 w3 = [] /\
  ioReq_pool w3 = list_del r0 (ioReq_pool w) /\ ioReq_ovlp_pool w3 = filter (fun x => x ∉ B) (ioReq_ovlp_pool w) /\
  cnt_onfly_ioReq w3 = s32 (Z.of_nat (length (ioReq_pool w)) - 1) /\
  cnt_onfly_ovlpioReq w3 = s32 (Z.of_nat (length (ioReq_ovlp_pool w))).
Proof.
  destruct (free_loop_ok r0 (wake_list_of r0 w2) w2) as (_ & Hoth & _ & Hwl & _ & Hp3 & Ho3 & Hcp3 & Hco3).
  rewrite <- Hw3 in Hoth, Hwl, Hp3, Ho3, Hcp3, Hco3.
  destruct (wk_queues _ _ _ _ _ _ _ _ W) as (Hp2 & Ho2 & Hcp2 & Hco2). destruct (iv_cnt w Hinv) as [Hcp Hco].
  rewrite Hwl, Hp3, Hp2, Ho3, Ho2, Hcp3, Hcp2, Hco3, Hco2. simpl. rewrite Hcp.
  split; [done|]. split; [apply filter_notin_self|]. split; [done|]. split; [done|]. split; [|done].
  apply (s32_add _ (-1)).
Qed.

(** What the released requests look like before they move. *)
Lemma end_released k :
  k ∈ B -> (k ∉ ioReq_pool w3) /\ (k ∉ ioReq_ovlp_pool w3) /\
  exists q, reqs w3 !! k = Some q /\ Z.testbit (ioReq_fea q) 0 = false /\
    Z.testbit (ioReq_fea q) 1 = true /\ st_ioReq (ioReq_stat q) = IOREQ_S_RWUserData.
Proof.
  intros HkB. pose proof (proj2 (wk_B _ _ _ _ _ _ _ _ W) k HkB) as HkO.
  destruct end_freed as (Hoth & _ & Hp3 & Ho3 & _). rewrite Hp3, Ho3, list_elem_of_filter. split; [|split; [tauto|]].
  - apply (wk_pool _ _ _ _ _ _ _ _ W k HkO).
  - assert (HkA : k ∈ ioReq_pool w ++ ioReq_ovlp_pool w) by (apply elem_of_app; by right).
    destruct (og_req _ _ _ _ _ _ (wk_graph _ _ _ _ _ _ _ _ W) k HkA) as (q & Hq & _).
    exists q. rewrite Hoth by (by apply end_neq). split; [done|].
    destruct (wk_wait _ _ _ _ _ _ _ _ W k q HkO Hq) as (H0 & H1 & HB1 & _).
    split; [done|]. split; [done|]. by apply HB1.
Qed.

Context (Hgs : gsame w3 w4) (Hp4 : ioReq_pool w4 = list_del r0 (ioReq_pool w) ++ B).
Context (Ho4 : ioReq_ovlp_pool w4 = filter (fun x => x ∉ B) (ioReq_ovlp_pool w)).
Context (Hoth4 : forall r, r ∉ B -> reqs w4 !! r = reqs w3 !! r).
Context (Hrun4 : forall r q, r ∈ B -> reqs w4 !! r = Some q -> running_ok q).

Lemma end_others r : r <> r0 -> r ∉ B -> reqs w4 !! r = reqs w2 !! r.
Proof. intros H1 H2. rewrite Hoth4 by done. by apply end_freed. Qed.

Lemma end_graph :
  ovlp_graph rank (ioReq_pool w4) (ioReq_ovlp_pool w4) (fun _ _ => True) [] (free_req r0 w4).
Proof.
  pose proof (freed_graph _ _ _ _ _ Hr0 B gone w2 W Hgone) as G3. rewrite <- Hw3 in G3.
  destruct (wk_B _ _ _ _ _ _ _ _ W) as [HndB HBO].
  pose proof (og_nodup _ _ _ _ _ _ G) as HN. apply NoDup_app in HN as (_ & _ & HN3).
  apply ovlp_graph_free.
  { rewrite Hp4, Ho4, !elem_of_app, elem_of_list_del, list_elem_of_filter.
    intros [[[? ?]|?]|[? ?]]; [done|by apply end_not_released|]. by apply (end_neq r0). }
  rewrite Hp4, Ho4. apply (ovlp_graph_perm rank (list_del r0 (ioReq_pool w)) (ioReq_ovlp_pool w)).
  - rewrite <- app_assoc. apply Permutation_app_head. by apply Permutation_split_filter.
  - intros i it Hit Hw. apply list_elem_of_filter. split; [|done]. intros HkB.
    rewrite <- (proj1 (proj2 Hgs)) in Hit.
    assert (HkA : wait_ior it ∈ list_del r0 (ioReq_pool w) ++ ioReq_ovlp_pool w) by (apply elem_of_app; by right).
    destruct (og_req _ _ _ _ _ _ G3 _ HkA) as (q & Hq & _).
    destruct (og_wait _ _ _ _ _ _ G3 _ q HkA Hq) as (_ & _ & Hin).
    rewrite (proj1 end_freed) in Hq by (by apply end_neq).
    destruct (wk_wait _ _ _ _ _ _ _ _ W _ q Hw Hq) as (_ & _ & HB1 & _).
    destruct (HB1 HkB) as [Hnil _]. rewrite Hnil in Hin.
    apply (not_elem_of_nil i), Hin. split; [apply not_elem_of_nil|eauto].
  - eapply ovlp_graph_gsame; [exact Hgs|exact G3].
Qed.

Lemma end_running r q : r ∈ ioReq_pool w4 -> reqs (free_req r0 w4) !! r = Some q -> running_ok q.
Proof.
  pose proof (og_nodup _ _ _ _ _ _ G) as HN. apply NoDup_app in HN as (_ & HN2 & _).
  simpl. rewrite Hp4, elem_of_app, elem_of_list_del. intros Hr Hq. destruct (decide (r ∈ B)) as [HrB|HrB].
  - rewrite lookup_delete_ne in Hq by (intros E; apply end_not_released; by rewrite E). by eapply Hrun4.
  - destruct Hr as [[Hne Hr]|?]; [|done]. rewrite lookup_delete_ne, end_others in Hq by done.
    pose proof (wk_run _ _ _ _ _ _ _ _ W r ltac:(by apply HN2)) as Hcv. rewrite Hq in Hcv. simpl in Hcv.
    rewrite lookup_alter_ne in Hcv by done. destruct (reqs w !! r) as [q'|] eqn:Hq'; [|done].
    eapply running_ok_cview; [|by eapply iv_run]. symmetry. by apply (inj Some).
Qed.

Lemma end_waiting k q :
  k ∈ ioReq_ovlp_pool w4 -> reqs (free_req r0 w4) !! k = Some q -> waiting_ok q /\ wait_list q <> [].
Proof.
  simpl. rewrite Ho4, list_elem_of_filter. intros [HkB Hk] Hq. pose proof (end_neq k Hk) as Hne.
  rewrite lookup_delete_ne, end_others in Hq by (auto using not_eq_sym).
  destruct (wk_wait _ _ _ _ _ _ _ _ W k q Hk Hq) as (H0 & H1 & _ & HB2). destruct (HB2 HkB) as [? ?].
  by repeat split.
Qed.

Lemma end_live r : is_Some (reqs (free_req r0 w4) !! r) -> r ∈ ioReq_pool w4 ++ ioReq_ovlp_pool w4.
Proof.
  simpl. intros Hr. rewrite Hp4, Ho4, !elem_of_app, elem_of_list_del, list_elem_of_filter.
  destruct (decide (r = r0)) as [->|Hne]; [rewrite lookup_delete_eq in Hr; by destruct Hr|].
  destruct (decide (r ∈ B)) as [|HrB]; [tauto|].
  rewrite lookup_delete_ne, end_others, (wk_live _ _ _ _ _ _ _ _ W) in Hr by done. simpl in Hr.
  rewrite lookup_alter_ne in Hr by done. apply (iv_live w Hinv) in Hr. rewrite elem_of_app in Hr. tauto.
Qed.

Lemma end_lengths :
  Z.of_nat (length (ioReq_pool w4)) = Z.of_nat (length (ioReq_pool w)) - 1 + Z.of_nat (length B) /\
  Z.of_nat (length (ioReq_ovlp_pool w4)) = Z.of_nat (length (ioReq_ovlp_pool w)) - Z.of_nat (length B).
Proof.
  pose proof (og_nodup _ _ _ _ _ _ G) as HN. apply NoDup_app in HN as (HN1 & _ & HN3).
  destruct (wk_B _ _ _ _ _ _ _ _ W) as [HndB HBO].
  pose proof (Permutation_length (Permutation_split_filter B (ioReq_ovlp_pool w) HN3 HndB HBO)) as Hl2.
  pose proof (list_del_length r0 _ HN1 Hr0) as Hl1.
  rewrite Hp4, Ho4. rewrite length_app in *. lia.
Qed.

End end_request.

Lemma end_inv w r0 :
  ioq_inv w -> r0 ∈ ioReq_pool w ->
  exists w' B, ioReq_end_request r0 w = (w', B) /\ ioq_inv w' /\
    ioReq_pool w' = list_del r0 (ioReq_pool w) ++ B /\
    ioReq_ovlp_pool w' = filter (fun x => x ∉ B) (ioReq_ovlp_pool w) /\
    (forall k, k ∈ B <-> k ∈ ioReq_ovlp_pool w /\ forall r, waits_for w k r -> r = r0) /\
    reqs w' !! r0 = None /\ NoDup B.
Proof.
  intros Hinv Hr0. destruct (iv_graph w Hinv) as (rank & G).
  assert (Hr0A : r0 ∈ ioReq_pool w ++ ioReq_ovlp_pool w) by (apply elem_of_app; by left).
  destruct (og_req _ _ _ _ _ _ G r0 Hr0A) as (q0 & Hq0 & _).
  destruct (iv_run w Hinv r0 q0 Hr0 Hq0) as (Hf0 & _).
  destruct (get_ovlpReq_ok rank r0 w Hinv Hr0 G) as (w2 & w3 & B & gone & Hget & W & Hw3 & Hgone & HB).
  destruct (end_freed w w2 w3 r0 rank B gone Hinv W Hw3) as (_ & Hwl & Hp3 & Ho3 & Hcp3 & Hco3).
  destruct (mv_loop_ok B w3 [] _ _ (proj1 (wk_B _ _ _ _ _ _ _ _ W)) Hcp3 Hco3
    (end_released w w2 w3 r0 rank B gone Hinv Hr0 G W Hw3))
    as (w4 & Hmv & Hgs & Hp4 & Ho4 & Hcp4 & Hco4 & Hoth4 & Hrun4).
  rewrite app_nil_l in Hmv. rewrite Hp3 in Hp4. rewrite Ho3 in Ho4.
  pose proof (end_not_released w w2 r0 rank B gone Hr0 G W) as Hr0B.
  destruct (end_lengths w w2 w4 r0 rank B gone Hr0 G W Hp4 Ho4) as [Hl1 Hl2].
  exists (free_req r0 w4), B. split; [|split; [|split; [done|split; [done|split; [done|split]]]]].
  - unfold ioReq_end_request, _ioReq_rm_ioReqQueue, mv_ovlp_ior_toIO.
    rewrite (rmReq_ok r0 w q0); try done.
    2: { intros H. by apply (end_neq w r0 rank Hr0 G r0). }
    rewrite Hget, Hmv, rm_all_ovlpReq_nil; [done|]. unfold wake_list_of. by rewrite Hoth4.
  - split.
    + exists rank. by eapply (end_graph w w2 w3 w4).
    + by eapply (end_running w w2 w3 w4).
    + by eapply (end_waiting w w2 w3 w4).
    + by eapply (end_live w w2 w3 w4).
    + simpl. rewrite Hcp4, Hco4, Hl1, Hl2. done.
    + simpl. pose proof (iv_bound w Hinv) as Hb. rewrite !length_app in *. lia.
  - simpl. apply lookup_delete_eq.
  - apply (wk_B _ _ _ _ _ _ _ _ W).
Qed.

(** ** The scheduler as a transition system *)

(** The allocator that always succeeds. *)
Definition alloc_always : Z -> bool := fun _ => true.

(** What happens to the queues of a volume, each step under the queue lock or the
    state lock of one request: a request is submitted, some thread delivers an
    event to a live request (the event that ends a wait comes from the scheduler only),
    a running request ends. *)
Inductive ioq_step : ioq_state -> ioq_state -> Prop :=
| step_submit w n addr dir :
    reqs w !! n = None -> addr_wf addr ->
    Z.of_nat (length (ioReq_pool w ++ ioReq_ovlp_pool w)) < 2 ^ 31 - 2 ->
    ioq_step w (IOMgr_submit_IOReq alloc_always n addr dir w).1
| step_event w r e :
    r ∈ ioReq_pool w \/ (r ∈ ioReq_ovlp_pool w /\ e <> IOREQ_E_OvlpIODone) ->
    ioq_step w (ioReq_update r e w).1
| step_end w r :
    r ∈ ioReq_pool w -> ioq_step w (ioReq_end_request r w).1.

Inductive ioq_reach : ioq_state -> Prop :=
| reach_init : ioq_reach ioq_init
| reach_step w w' : ioq_reach w -> ioq_step w w' -> ioq_reach w'.

#[export] Hint Constructors ioq_step ioq_reach : disco.

Lemma ioq_inv_init : ioq_inv ioq_init.
Proof.
  split; simpl.
  - exists (fun _ => O). split; simpl.
    + constructor.
    + by intros ? ?%elem_of_nil.
    + by intros ? ? ?%elem_of_nil.
    + by intros ? ? ?%elem_of_nil.
    + intros i it Hit. by rewrite lookup_empty in Hit.
    + intros i j it jt Hit. by rewrite lookup_empty in Hit.
    + by intros ? ? ?%elem_of_nil.
  - by intros ? ? ?%elem_of_nil.
  - by intros ? ? ?%elem_of_nil.
  - intros r [q Hq]. by rewrite lookup_empty in Hq.
  - done.
  - lia.
Qed.

Lemma running_ok_event q e s a :
  running_ok q -> IOReq_update_state (ioReq_stat q) e = (s, a) -> running_ok (set_stat s q).
Proof.
  intros (H0 & H1 & Hs) Hu. split; [done|]. split; [done|]. simpl.
  destruct (ioReq_stat q) as [st]. simpl in Hs. destruct st, e; try done; injection Hu as <- <-; done.
Qed.

Lemma waiting_ok_event q e s a :
  waiting_ok q -> e <> IOREQ_E_OvlpIODone -> IOReq_update_state (ioReq_stat q) e = (s, a) -> s = ioReq_stat q.
Proof.
  intros (_ & _ & Hs) He Hu. destruct (ioReq_stat q) as [st]. simpl in Hs. subst st.
  destruct e; try done; by injection Hu as <- <-.
Qed.

Lemma event_inv w r e :
  ioq_inv w -> r ∈ ioReq_pool w \/ (r ∈ ioReq_ovlp_pool w /\ e <> IOREQ_E_OvlpIODone) ->
  ioq_inv (ioReq_update r e w).1.
Proof.
  intros Hinv Hr. destruct (reqs w !! r) as [q|] eqn:Hq; [|unfold ioReq_update; by rewrite Hq].
  rewrite (ioReq_update_lookup _ _ _ q Hq). destruct (IOReq_update_state (ioReq_stat q) e) as [s a] eqn:Hu. simpl.
  destruct (iv_graph w Hinv) as (rank & G).
  pose proof (og_nodup _ _ _ _ _ _ G) as HN. apply NoDup_app in HN as (_ & HN & _).
  split; simpl; try apply Hinv.
  - exists rank. eapply ovlp_graph_gsame; [|exact G]. gsame_tac.
  - intros x qx Hx. destruct (decide (x = r)) as [->|Hne].
    + rewrite lookup_alter_eq, Hq. intros [= <-]. eapply running_ok_event; [|exact Hu]. by eapply iv_run.
    + rewrite lookup_alter_ne by done. by apply iv_run.
  - intros x qx Hx. destruct (decide (x = r)) as [->|Hne].
    + rewrite lookup_alter_eq, Hq. intros [= <-]. destruct Hr as [Hr|[_ He]]; [by destruct (HN r)|].
      destruct (iv_wait w Hinv r q Hx Hq) as [Hok Hwl].
      rewrite (waiting_ok_event q e s a Hok He Hu). by destruct q.
    + rewrite lookup_alter_ne by done. by apply iv_wait.
  - intros x. rewrite lookup_alter. case_decide; subst; rewrite ?fmap_is_Some; apply (iv_live w Hinv).
Qed.

Lemma ioq_reach_inv w : ioq_reach w -> ioq_inv w.
Proof.
  induction 1 as [|w w' _ IH Hs]; [apply ioq_inv_init|]. destruct Hs as [w n addr dir Hf Hwf Hl|w r e Hr|w r Hr].
  - destruct (submit_inv alloc_always ltac:(done) w n addr dir) as (w' & sub & -> & Hi & _); done.
  - by apply event_inv.
  - by destruct (end_inv w r IH Hr) as (w' & B & -> & Hi & _).
Qed.

(** ** Theorems *)

(** C1: mutual exclusion of conflicting requests.  Whatever requests are
    submitted, whatever events the threads deliver and in whatever order requests
    end, two running requests of a volume never share a block that one of them
    writes. *)
Theorem overlap_mutual_exclusion (w : ioq_state) (r s lb : Z) (a b : io_request_t) :
  ioq_reach w -> r ∈ ioReq_pool w -> s ∈ ioReq_pool w -> r <> s ->
  reqs w !! r = Some a -> reqs w !! s = Some b ->
  iodir a = KERNEL_IO_WRITE \/ iodir b = KERNEL_IO_WRITE ->
  in_range (usrIO_addr a) lb -> ~ in_range (usrIO_addr b) lb.
Proof.
  intros Hreach Hr Hs Hrs Ha Hb Hd Hla Hlb. pose proof (ioq_reach_inv w Hreach) as Hinv.
  destruct (iv_graph w Hinv) as (rank & G). pose proof (og_nodup _ _ _ _ _ _ G) as HN.
  apply NoDup_app in HN as (_ & HN & _).
  destruct (og_cov _ _ _ _ _ _ G r s) as [(i & it & Hit & Hp & Hw)|(i & it & Hit & Hp & Hw)]; try done.
  - apply elem_of_app; by left.
  - apply elem_of_app; by left.
  - exists a, b. repeat split; try done; unfold in_range in *; lia.
  - apply (og_item _ _ _ _ _ _ G) in Hit as (_ & _ & Ho & _). rewrite Hw in Ho. by apply (HN r).
  - apply (og_item _ _ _ _ _ _ G) in Hit as (_ & _ & Ho & _). rewrite Hw in Ho. by apply (HN s).
Qed.

(** A concrete volume for the witnesses: a write of blocks 0-7 and a read of blocks
    20-27 run, a read of blocks 4-11 waits for the write. *)
Definition ex_addr (s l : Z) : UserIO_addr_t :=
  {| metaSrv_ipaddr := 0; metaSrv_port := 0; volumeID := 1; lbid_len := l; lbid_start := s |}.

Definition ex_run2 : ioq_state :=
  (IOMgr_submit_IOReq alloc_always 102 (ex_addr 20 8) KERNEL_IO_READ
    (IOMgr_submit_IOReq alloc_always 100 (ex_addr 0 8) KERNEL_IO_WRITE ioq_init).1).1.

Definition ex_run2_wait1 : ioq_state :=
  (IOMgr_submit_IOReq alloc_always 101 (ex_addr 4 8) KERNEL_IO_READ ex_run2).1.

Lemma ex_addr_wf s l : 0 <= s < 1000 -> 0 < l < 1000 -> addr_wf (ex_addr s l).
Proof. unfold addr_wf, ex_addr. simpl. lia. Qed.

Lemma ex_run2_reach : ioq_reach ex_run2.
Proof.
  unfold ex_run2. apply (reach_step (IOMgr_submit_IOReq alloc_always 100 (ex_addr 0 8) KERNEL_IO_WRITE ioq_init).1).
  - apply (reach_step ioq_init); [constructor|]. apply step_submit; [done|apply ex_addr_wf; lia|vm_compute; done].
  - apply step_submit; [vm_compute; done|apply ex_addr_wf; lia|vm_compute; done].
Qed.

Lemma ex_run2_wait1_reach : ioq_reach ex_run2_wait1.
Proof.
  apply (reach_step ex_run2); [apply ex_run2_reach|].
  apply step_submit; [vm_compute; done|apply ex_addr_wf; lia|vm_compute; done].
Qed.

Lemma overlap_mutual_exclusion_witness :
  exists a b, reqs ex_run2 !! 100 = Some a /\ reqs ex_run2 !! 102 = Some b /\
    in_range (usrIO_addr a) 3 /\ ~ in_range (usrIO_addr b) 3.
Proof.
  eexists _, _. split; [vm_compute; reflexivity|]. split; [vm_compute; reflexivity|].
  split; [unfold in_range; simpl; lia|].
  eapply (overlap_mutual_exclusion ex_run2 100 102 3).
  - apply ex_run2_reach.
  - vm_compute. left.
  - vm_compute. right. left.
  - lia.
  - vm_compute. reflexivity.
  - vm_compute. reflexivity.
  - left. reflexivity.
  - unfold in_range. simpl. lia.
Defined.

(** A submitted request starts at once exactly when it conflicts with no live
    request, running or waiting; otherwise it queues behind all of them.  (So a
    stream of new requests cannot overtake a waiting one it conflicts with.) *)
Theorem overlap_submit_exact (w : ioq_state) (n : Z) (addr : UserIO_addr_t) (dir : iorw_dir_t) :
  ioq_reach w -> reqs w !! n = None -> addr_wf addr ->
  Z.of_nat (length (ioReq_pool w ++ ioReq_ovlp_pool w)) < 2 ^ 31 - 2 ->
  let '(w', sub) := IOMgr_submit_IOReq alloc_always n addr dir w in
  (sub = [n] /\ ioReq_pool w' = ioReq_pool w ++ [n] /\ ioReq_ovlp_pool w' = ioReq_ovlp_pool w /\
   forall r, r ∈ ioReq_pool w ++ ioReq_ovlp_pool w -> ~ conflict w' r n) \/
  (sub = [] /\ ioReq_pool w' = ioReq_pool w /\ ioReq_ovlp_pool w' = ioReq_ovlp_pool w ++ [n] /\
   exists r, r ∈ ioReq_pool w ++ ioReq_ovlp_pool w /\ conflict w' r n).
Proof.
  intros Hreach Hf Hwf Hl. pose proof (ioq_reach_inv w Hreach) as Hinv.
  by destruct (submit_inv alloc_always ltac:(done) w n addr dir Hinv Hf Hwf Hl) as (w' & sub & -> & _ & H).
Qed.

Lemma overlap_submit_exact_witness :
  (IOMgr_submit_IOReq alloc_always 101 (ex_addr 4 8) KERNEL_IO_READ ex_run2).2 = [] /\
  exists r, r ∈ ioReq_pool ex_run2 ++ ioReq_ovlp_pool ex_run2 /\ conflict ex_run2_wait1 r 101.
Proof.
  pose proof (overlap_submit_exact ex_run2 101 (ex_addr 4 8) KERNEL_IO_READ ex_run2_reach
    ltac:(vm_compute; reflexivity) ltac:(apply ex_addr_wf; lia) ltac:(vm_compute; reflexivity)) as H.
  split; [vm_compute; reflexivity|]. fold ex_run2_wait1 in *. unfold ex_run2_wait1.
  destruct (IOMgr_submit_IOReq alloc_always 101 (ex_addr 4 8) KERNEL_IO_READ ex_run2) as [w' sub] eqn:E.
  destruct H as [(Hs & _)|(_ & _ & _ & H)]; [|exact H].
  exfalso. assert (Hs' : sub = []) by (change sub with (w', sub).2; rewrite <- E; vm_compute; reflexivity).
  congruence.
Defined.

(** C4: completion is exact.  When a running request ends it is removed and freed,
    and the waiting requests that are submitted are exactly those that waited for
    no other request; each is submitted once and runs afterwards. *)
Theorem overlap_wakeup_exact (w : ioq_state) (r : Z) :
  ioq_reach w -> r ∈ ioReq_pool w ->
  let '(w', sub) := ioReq_end_request r w in
  NoDup sub /\
  (forall k, k ∈ sub <-> k ∈ ioReq_ovlp_pool w /\ forall p, waits_for w k p -> p = r) /\
  ioReq_pool w' = list_del r (ioReq_pool w) ++ sub /\
  ioReq_ovlp_pool w' = filter (fun k => k ∉ sub) (ioReq_ovlp_pool w) /\
  reqs w' !! r = None.
Proof.
  intros Hreach Hr. pose proof (ioq_reach_inv w Hreach) as Hinv.
  destruct (end_inv w r Hinv Hr) as (w' & B & -> & _ & Hp & Ho & HB & Hf & Hnd). done.
Qed.

Lemma overlap_wakeup_exact_witness :
  let '(w', sub) := ioReq_end_request 100 ex_run2_wait1 in
  sub = [101] /\ NoDup sub /\ reqs w' !! 100 = None.
Proof.
  pose proof (overlap_wakeup_exact ex_run2_wait1 100 ex_run2_wait1_reach) as H.
  destruct (ioReq_end_request 100 ex_run2_wait1) as [w' sub] eqn:E.
  destruct H as (Hnd & _ & _ & _ & Hf); [vm_compute; left|].
  split; [|split; [exact Hnd|exact Hf]].
  change sub with (w', sub).2. rewrite <- E. vm_compute. reflexivity.
Defined.

Lemma waiting_chain w k :
  ioq_inv w -> k ∈ ioReq_ovlp_pool w -> exists r, r ∈ ioReq_pool w /\ tc (waits_for w) k r.
Proof.
  intros Hinv. destruct (iv_graph w Hinv) as (rank & G).
  remember (rank k) as m eqn:Hm. revert k Hm. induction (lt_wf m) as [m _ IH]. intros k -> Hk.
  assert (HkA : k ∈ ioReq_pool w ++ ioReq_ovlp_pool w) by (apply elem_of_app; by right).
  destruct (og_req _ _ _ _ _ _ G k HkA) as (q & Hq & _).
  destruct (iv_wait w Hinv k q Hk Hq) as [_ Hwl]. destruct (wait_list q) as [|i l] eqn:El; [done|].
  destruct (og_wait _ _ _ _ _ _ G k q HkA Hq) as (_ & _ & Hin).
  destruct (Hin i) as [[_ (it & Hit & Hw)] _]; [rewrite El; by left|].
  destruct (og_item _ _ _ _ _ _ G i it Hit) as (_ & Hp & _ & Hrk & _). rewrite Hw in Hrk.
  assert (Hwf : waits_for w k (process_ior it)) by (exists i, it; done).
  apply elem_of_app in Hp as [Hp|Hp]; [exists (process_ior it); split; [done|by apply tc_once]|].
  destruct (IH (rank (process_ior it)) Hrk (process_ior it) eq_refl Hp) as (r & Hr & Htc).
  exists r. split; [done|]. by eapply tc_l.
Qed.

(** C2: no request waits in vain: from every waiting request a chain of waits, each
    step to an older live request, leads to a running one. *)
Theorem overlap_no_deadlock (w : ioq_state) (k : Z) :
  ioq_reach w -> k ∈ ioReq_ovlp_pool w -> exists r, r ∈ ioReq_pool w /\ tc (waits_for w) k r.
Proof. intros Hreach. by apply waiting_chain, ioq_reach_inv. Qed.

Lemma overlap_no_deadlock_witness : exists r, r ∈ ioReq_pool ex_run2_wait1 /\ tc (waits_for ex_run2_wait1) 101 r.
Proof. apply (overlap_no_deadlock ex_run2_wait1 101 ex_run2_wait1_reach). vm_compute. left. Defined.

(** Let the oldest running request end, again and again. *)
Fixpoint drain (fuel : nat) (w : ioq_state) : ioq_state :=
  match fuel, ioReq_pool w with
  | S fuel, r :: _ => drain fuel (ioReq_end_request r w).1
  | _, _ => w
  end.

Lemma live_nil w : ioq_inv w -> ioReq_pool w = [] -> ioReq_ovlp_pool w = [] /\ reqs w = ∅ /\ items w = ∅.
Proof.
  intros Hinv Hp.
  assert (Ho : ioReq_ovlp_pool w = []).
  { destruct (ioReq_ovlp_pool w) as [|k l] eqn:E; [done|].
    destruct (waiting_chain w k Hinv) as (r & Hr & _); [rewrite E; by left|].
    rewrite Hp in Hr. by apply elem_of_nil in Hr. }
  split; [done|]. split; apply map_empty; intros i.
  - destruct (reqs w !! i) as [q|] eqn:E; [|done]. pose proof (iv_live w Hinv i ltac:(eauto)) as Hl.
    rewrite Hp, Ho in Hl. by apply elem_of_nil in Hl.
  - destruct (items w !! i) as [it|] eqn:E; [|done]. destruct (iv_graph w Hinv) as (rank & G).
    pose proof (og_item _ _ _ _ _ _ G i it E) as (_ & Hpr & _). rewrite Hp, Ho in Hpr. by apply elem_of_nil in Hpr.
Qed.

(** C3: the queues drain.  From every reachable state, ending the running requests
    one after the other ends every request that was live, in as many steps as
    there were requests, and leaves no request, no overlap item and no counter
    behind. *)
Theorem overlap_drain (w : ioq_state) :
  ioq_reach w ->
  let w' := drain (length (ioReq_pool w ++ ioReq_ovlp_pool w)) w in
  ioReq_pool w' = [] /\ ioReq_ovlp_pool w' = [] /\ reqs w' = ∅ /\ items w' = ∅ /\
  cnt_onfly_ioReq w' = 0 /\ cnt_onfly_ovlpioReq w' = 0.
Proof.
  intros Hreach%ioq_reach_inv. remember (length (ioReq_pool w ++ ioReq_ovlp_pool w)) as m eqn:Hm.
  revert w Hreach Hm. induction m as [|m IH]; intros w Hinv Hm; simpl.
  - assert (Hp : ioReq_pool w = []) by (destruct (ioReq_pool w); simpl in Hm; [done|lia]).
    destruct (live_nil w Hinv Hp) as (Ho & Hr & Hi). destruct (iv_cnt w Hinv) as [H1 H2].
    rewrite H1, H2, Hp, Ho. done.
  - destruct (ioReq_pool w) as [|r l] eqn:Ep.
    + destruct (live_nil w Hinv Ep) as (Ho & _). rewrite Ho in Hm. done.
    + destruct (end_inv w r Hinv) as (w' & B & -> & Hinv' & Hp & Ho & HB & _ & HndB); [rewrite Ep; by left|].
      simpl. apply IH; [done|]. destruct (iv_graph w Hinv) as (rank & G).
      pose proof (og_nodup _ _ _ _ _ _ G) as HN. apply NoDup_app in HN as (HN1 & _ & HN3).
      pose proof (list_del_length r _ HN1 ltac:(rewrite Ep; by left)) as Hl1.
      pose proof (Permutation_length (Permutation_split_filter B (ioReq_ovlp_pool w) HN3 HndB
                    ltac:(intros k Hk; by apply HB))) as Hl2.
      rewrite Hp, Ho, <- Ep in *. rewrite !length_app in *. lia.
Qed.

Lemma overlap_drain_witness :
  ioReq_pool (drain 3 ex_run2_wait1) = [] /\ reqs (drain 3 ex_run2_wait1) = ∅ /\ items (drain 3 ex_run2_wait1) = ∅.
Proof.
  pose proof (overlap_drain ex_run2_wait1 ex_run2_wait1_reach) as H.
  change (length (ioReq_pool ex_run2_wait1 ++ ioReq_ovlp_pool ex_run2_wait1)) with 3%nat in H.
  destruct H as (H1 & _ & H3 & H4 & _). split; [exact H1|]. split; [exact H3|exact H4].
Defined.

(** The scheduler depends on the allocation of overlap items: when one fails the
    new request is started as if there were no overlap, and two requests that
    write the same block run together. *)
Theorem overlap_alloc_failure :
  exists w r s a b, 
    w = (IOMgr_submit_IOReq (fun _ => false) 101 (ex_addr 4 8) KERNEL_IO_WRITE
          (IOMgr_submit_IOReq (fun _ => false) 100 (ex_addr 0 8) KERNEL_IO_WRITE ioq_init).1).1 /\
    r ∈ ioReq_pool w /\ s ∈ ioReq_pool w /\ r <> s /\
    reqs w !! r = Some a /\ reqs w !! s = Some b /\ req_conflict a b.
Proof.
  eexists _, 100, 101, _, _. split; [reflexivity|]. split; [vm_compute; left|].
  split; [vm_compute; right; left|]. split; [lia|].
  split; [vm_compute; reflexivity|]. split; [vm_compute; reflexivity|].
  split; [by left|]. unfold ranges_meet. simpl. lia.
Qed.
