(* ===== verification/IOWorker.v ===== *)
(** * IOWorker: from the request queue of the kernel to io requests

    The block requests of a volume ([drv_blkdev.c]) wait in the list of the volume
    ([vdisk_manager/volume_manager.c]); worker threads ([io_manager/io_worker_manager.c]) take them
    out, merge neighbouring writes, cut them to at most [MAX_SECTS_PER_RQ] sectors and
    submit io requests; a block request is answered when all the io requests it
    belongs to have committed ([io_manager/discoC_IORequest.c]).

    The state is that of one volume; the threads of the kernel, of the workers and
    of the io requests are program counters ([kthread]), one step of a thread is what happens
    between two points where others may run.  [None] is an access to a request that
    has been freed. *)

From S2P Require Import Prelude CommonUtil IOReqOvlp.

Definition MAX_NUM_RQS_MERGE : nat := Z.to_nat MAX_SECTS_PER_RQ.

(** ** Data *)

(** [struct request]: the fields the driver reads. *)
Record request : Type := {
  rq_data_dir : iorw_dir_t;
  blk_rq_pos : Z;
  blk_rq_sectors : Z;
}.

(** [dms_rq_t]; it is named by the number of its block request. *)
Record dms_rq_t : Type := {
  dr_rq : request;
  num_ref_ior : Z;
  dr_result : bool;
}.

Inductive vol_active_stat_t : Type := Vol_Deactive | Vol_Active | Vol_Waiting.

#[global] Instance vol_active_stat_eq_dec : EqDecision vol_active_stat_t.
Proof. solve_decision. Defined.

Inductive vol_active_op_t : Type :=
| Vol_EnqRqs | Vol_RqsDone | Vol_WaitForMoreRqs | Vol_WaitDone
| Vol_NoOP | Vol_DoEnActiveQ | Vol_DoWaiting.

#[global] Instance vol_active_op_eq_dec : EqDecision vol_active_op_t.
Proof. solve_decision. Defined.

Inductive vol_rw_perm_type_t : Type := RW_NO_PERMIT | R_ONLY | W_ONLY | RW_PERMIT.

#[global] Instance vol_rw_perm_eq_dec : EqDecision vol_rw_perm_type_t.
Proof. solve_decision. Defined.

(** [iowker_manager_t]: the volumes that have work, by volume number. *)
Record iowker_manager_t : Type := {
  active_vol_cnt : Z;
  active_vol_list : list Z;
}.

(** A call of [IOMgr_submit_IOReq]: direction, sectors, and whether an io request
    came of it. *)
Record io_call : Type := {
  ic_dir : iorw_dir_t;
  ic_sect_s : Z;
  ic_sect_len : Z;
  ic_ok : bool;
}.

(** The fields of [volume_device_t] that the queue of requests uses, the pool of
    [dms_rq_t], the list of active volumes; and as logs the requests that arrived,
    those put in the list, the io requests the workers submitted, the answers to the user. *)
Record volq : Type := {
  dms_rqs : gmap Z dms_rq_t;
  vol_rqs_list : list Z;
  cnt_rqs : Z;
  rq_agg_wait_cnt : Z;
  vol_act_stat : vol_active_stat_t;
  w_sects : Z;
  r_sects : Z;
  sect_start : Z;
  lgr_rqs : Z;
  linger_wreq_cnt : Z;
  linger_rreq_cnt : Z;
  error_commit_cnt : Z;
  rw_permission : vol_rw_perm_type_t;
  iowker_Mgr : iowker_manager_t;
  arrived : list Z;
  enqueued : list request;
  submitted : list io_call;
  told : list (Z * bool);
}.

(** ** Updates of the state *)

Definition set_rqs (m : gmap Z dms_rq_t) (w : volq) : volq :=
  {| dms_rqs := m; vol_rqs_list := vol_rqs_list w; cnt_rqs := cnt_rqs w; rq_agg_wait_cnt := rq_agg_wait_cnt w;
     vol_act_stat := vol_act_stat w; w_sects := w_sects w; r_sects := r_sects w; sect_start := sect_start w;
     lgr_rqs := lgr_rqs w; linger_wreq_cnt := linger_wreq_cnt w; linger_rreq_cnt := linger_rreq_cnt w;
     error_commit_cnt := error_commit_cnt w; rw_permission := rw_permission w; iowker_Mgr := iowker_Mgr w;
     arrived := arrived w; enqueued := enqueued w; submitted := submitted w; told := told w |}.

Definition set_list (l : list Z) (cnt ws rs start : Z) (w : volq) : volq :=
  {| dms_rqs := dms_rqs w; vol_rqs_list := l; cnt_rqs := cnt; rq_agg_wait_cnt := rq_agg_wait_cnt w;
     vol_act_stat := vol_act_stat w; w_sects := ws; r_sects := rs; sect_start := start;
     lgr_rqs := lgr_rqs w; linger_wreq_cnt := linger_wreq_cnt w; linger_rreq_cnt := linger_rreq_cnt w;
     error_commit_cnt := error_commit_cnt w; rw_permission := rw_permission w; iowker_Mgr := iowker_Mgr w;
     arrived := arrived w; enqueued := enqueued w; submitted := submitted w; told := told w |}.

Definition set_agg (n : Z) (w : volq) : volq :=
  {| dms_rqs := dms_rqs w; vol_rqs_list := vol_rqs_list w; cnt_rqs := cnt_rqs w; rq_agg_wait_cnt := n;
     vol_act_stat := vol_act_stat w; w_sects := w_sects w; r_sects := r_sects w; sect_start := sect_start w;
     lgr_rqs := lgr_rqs w; linger_wreq_cnt := linger_wreq_cnt w; linger_rreq_cnt := linger_rreq_cnt w;
     error_commit_cnt := error_commit_cnt w; rw_permission := rw_permission w; iowker_Mgr := iowker_Mgr w;
     arrived := arrived w; enqueued := enqueued w; submitted := submitted w; told := told w |}.

Definition set_act (st : vol_active_stat_t) (g : iowker_manager_t) (w : volq) : volq :=
  {| dms_rqs := dms_rqs w; vol_rqs_list := vol_rqs_list w; cnt_rqs := cnt_rqs w; rq_agg_wait_cnt := rq_agg_wait_cnt w;
     vol_act_stat := st; w_sects := w_sects w; r_sects := r_sects w; sect_start := sect_start w;
     lgr_rqs := lgr_rqs w; linger_wreq_cnt := linger_wreq_cnt w; linger_rreq_cnt := linger_rreq_cnt w;
     error_commit_cnt := error_commit_cnt w; rw_permission := rw_permission w; iowker_Mgr := g;
     arrived := arrived w; enqueued := enqueued w; submitted := submitted w; told := told w |}.

Definition set_cnts (lgr wr rd err : Z) (w : volq) : volq :=
  {| dms_rqs := dms_rqs w; vol_rqs_list := vol_rqs_list w; cnt_rqs := cnt_rqs w; rq_agg_wait_cnt := rq_agg_wait_cnt w;
     vol_act_stat := vol_act_stat w; w_sects := w_sects w; r_sects := r_sects w; sect_start := sect_start w;
     lgr_rqs := lgr; linger_wreq_cnt := wr; linger_rreq_cnt := rd;
     error_commit_cnt := err; rw_permission := rw_permission w; iowker_Mgr := iowker_Mgr w;
     arrived := arrived w; enqueued := enqueued w; submitted := submitted w; told := told w |}.

Definition set_logs (a : list Z) (e : list request) (s : list io_call) (t : list (Z * bool)) (w : volq) : volq :=
  {| dms_rqs := dms_rqs w; vol_rqs_list := vol_rqs_list w; cnt_rqs := cnt_rqs w; rq_agg_wait_cnt := rq_agg_wait_cnt w;
     vol_act_stat := vol_act_stat w; w_sects := w_sects w; r_sects := r_sects w; sect_start := sect_start w;
     lgr_rqs := lgr_rqs w; linger_wreq_cnt := linger_wreq_cnt w; linger_rreq_cnt := linger_rreq_cnt w;
     error_commit_cnt := error_commit_cnt w; rw_permission := rw_permission w; iowker_Mgr := iowker_Mgr w;
     arrived := a; enqueued := e; submitted := s; told := t |}.

(** [set_vol_rw_perm]: the permission may change while requests are under way. *)
Definition set_vol_rw_perm (perm : vol_rw_perm_type_t) (w : volq) : volq :=
  {| dms_rqs := dms_rqs w; vol_rqs_list := vol_rqs_list w; cnt_rqs := cnt_rqs w; rq_agg_wait_cnt := rq_agg_wait_cnt w;
     vol_act_stat := vol_act_stat w; w_sects := w_sects w; r_sects := r_sects w; sect_start := sect_start w;
     lgr_rqs := lgr_rqs w; linger_wreq_cnt := linger_wreq_cnt w; linger_rreq_cnt := linger_rreq_cnt w;
     error_commit_cnt := error_commit_cnt w; rw_permission := perm; iowker_Mgr := iowker_Mgr w;
     arrived := arrived w; enqueued := enqueued w; submitted := submitted w; told := told w |}.

Definition set_num_ref (n : Z) (d : dms_rq_t) : dms_rq_t :=
  {| dr_rq := dr_rq d; num_ref_ior := n; dr_result := dr_result d |}.

Definition set_result (b : bool) (d : dms_rq_t) : dms_rq_t :=
  {| dr_rq := dr_rq d; num_ref_ior := num_ref_ior d; dr_result := b |}.

(** A volume as [init_volume_device] leaves it. *)
Definition volq_init : volq :=
  {| dms_rqs := ∅; vol_rqs_list := []; cnt_rqs := 0; rq_agg_wait_cnt := 0; vol_act_stat := Vol_Deactive;
     w_sects := 0; r_sects := 0; sect_start := 0; lgr_rqs := 0; linger_wreq_cnt := 0; linger_rreq_cnt := 0;
     error_commit_cnt := 0; rw_permission := RW_PERMIT;
     iowker_Mgr := {| active_vol_cnt := 0; active_vol_list := [] |};
     arrived := []; enqueued := []; submitted := []; told := [] |}.

(** ** Permission and counters of the volume *)

Definition vol_no_perm_to_io (perm : vol_rw_perm_type_t) (io_rw : iorw_dir_t) : bool :=
  match perm with
  | RW_PERMIT => false
  | RW_NO_PERMIT => true
  | R_ONLY => if decide (KERNEL_IO_READ = io_rw) then false else true
  | W_ONLY => if decide (KERNEL_IO_WRITE = io_rw) then false else true
  end.

Definition vm_add_iocnt (n : Z) (dir : iorw_dir_t) (w : volq) : volq :=
  match dir with
  | KERNEL_IO_WRITE => set_cnts (lgr_rqs w) (s32 (linger_wreq_cnt w + n)) (linger_rreq_cnt w) (error_commit_cnt w) w
  | KERNEL_IO_READ => set_cnts (lgr_rqs w) (linger_wreq_cnt w) (s32 (linger_rreq_cnt w + n)) (error_commit_cnt w) w
  end.

Definition vm_inc_iocnt : iorw_dir_t -> volq -> volq := vm_add_iocnt 1.
Definition vm_dec_iocnt : iorw_dir_t -> volq -> volq := vm_add_iocnt (-1).

(** [is_vol_io_done(vol, true)]. *)
Definition is_vol_io_done (w : volq) : bool :=
  (0 =? linger_rreq_cnt w) && (0 =? linger_wreq_cnt w) && (0 =? lgr_rqs w).

(** ** The list of active volumes *)

Definition enq_vol_active_list (vol : Z) (g : iowker_manager_t) : iowker_manager_t :=
  if decide (vol ∈ active_vol_list g) then g
  else {| active_vol_cnt := s32 (active_vol_cnt g + 1); active_vol_list := active_vol_list g ++ [vol] |}.

Definition deq_vol_active_list (g : iowker_manager_t) : iowker_manager_t * option Z :=
  match active_vol_list g with
  | [] => (g, None)
  | v :: l => ({| active_vol_cnt := s32 (active_vol_cnt g - 1); active_vol_list := l |}, Some v)
  end.

Definition update_vol_active_stat (op : vol_active_op_t) (w : volq) : volq * vol_active_op_t :=
  match vol_act_stat w, op with
  | Vol_Deactive, Vol_EnqRqs =>
      if cnt_rqs w >? 0 then (set_act Vol_Active (iowker_Mgr w) w, Vol_DoEnActiveQ) else (w, Vol_NoOP)
  | Vol_Active, Vol_RqsDone =>
      if cnt_rqs w =? 0 then (set_act Vol_Deactive (iowker_Mgr w) w, Vol_NoOP) else (w, Vol_DoEnActiveQ)
  | Vol_Active, Vol_WaitForMoreRqs =>
      if cnt_rqs w >? 0 then (set_act Vol_Waiting (iowker_Mgr w) w, Vol_DoWaiting) else (w, Vol_NoOP)
  | Vol_Waiting, Vol_WaitDone =>
      if cnt_rqs w >? 0 then (set_act Vol_Active (iowker_Mgr w) w, Vol_DoEnActiveQ) else (w, Vol_NoOP)
  | _, _ => (w, Vol_NoOP)
  end.

(** ** The list of requests of the volume *)

(** Add to the sector counter of a direction. *)
Definition add_sects (dir : iorw_dir_t) (n : Z) (w : volq) : volq :=
  match dir with
  | KERNEL_IO_READ => set_list (vol_rqs_list w) (cnt_rqs w) (w_sects w) (s32 (r_sects w + n)) (sect_start w) w
  | KERNEL_IO_WRITE => set_list (vol_rqs_list w) (cnt_rqs w) (s32 (w_sects w + n)) (r_sects w) (sect_start w) w
  end.

(** [enq_dmsrq_vol_list] up to the release of the list. *)
Definition enq_dmsrq_vol_list (p : Z) (w : volq) : option volq :=
  d ← dms_rqs w !! p;
  let tmp := s32 (cnt_rqs w + 1) in
  let start := if tmp =? 1 then blk_rq_pos (dr_rq d) else sect_start w in
  let w := set_list (vol_rqs_list w ++ [p]) tmp (w_sects w) (r_sects w) start w in
  Some (add_sects (rq_data_dir (dr_rq d)) (blk_rq_sectors (dr_rq d)) w).

(** One request put back at the head of the list. *)
Definition put_back (dir : iorw_dir_t) (p : Z) (w : volq) : option volq :=
  d ← dms_rqs w !! p;
  Some (add_sects dir (blk_rq_sectors (dr_rq d))
          (set_list (p :: vol_rqs_list w) (s32 (cnt_rqs w + 1)) (w_sects w) (r_sects w) (sect_start w) w)).

Fixpoint put_back_all (dir : iorw_dir_t) (rqs : list Z) (w : volq) : option volq :=
  match rqs with
  | [] => Some w
  | p :: rest => w ← put_back_all dir rest w; put_back dir p w
  end.

Definition enq_dmsrq_vol_list_batch (rqs : list Z) (sect_s : Z) (w : volq) : option volq :=
  match rqs, last rqs with
  | p0 :: _, Some pl =>
      dl ← dms_rqs w !! pl;
      d0 ← dms_rqs w !! p0;
      let dir := rq_data_dir (dr_rq dl) in
      let w := set_list (vol_rqs_list w) (cnt_rqs w) (w_sects w) (r_sects w) sect_s w in
      w ← put_back_all dir rqs w;
      Some (add_sects dir (- u32 (sect_s - blk_rq_pos (dr_rq d0))) w)
  | _, _ => Some w
  end.

Definition update_vol_rq_list_start (w : volq) : option volq :=
  match vol_rqs_list w with
  | [] => Some w
  | p :: _ =>
      d ← dms_rqs w !! p;
      Some (set_list (vol_rqs_list w) (cnt_rqs w) (w_sects w) (r_sects w) (blk_rq_pos (dr_rq d)) w)
  end.

(** The loop of [deq_dms_rq_list]: at most [n] more requests. *)
Fixpoint deq_loop (n : nat) (first : bool) (start : Z) (w : volq) : option (volq * list Z) :=
  match n, vol_rqs_list w with
  | S n, p :: rest =>
      d ← dms_rqs w !! p;
      let rq := dr_rq d in
      let skip := u32 (start - blk_rq_pos rq) in
      let len_sects := if first : bool then u32 (blk_rq_sectors rq - skip) else blk_rq_sectors rq in
      let w := set_list rest (s32 (cnt_rqs w - 1)) (w_sects w) (r_sects w) (sect_start w) w in
      '(w, l) ← deq_loop n false start (add_sects (rq_data_dir rq) (- len_sects) w);
      Some (w, p :: l)
  | _, _ => Some (w, [])
  end.

(** The requests taken, and the sector the first one continues at. *)
Definition deq_dms_rq_list (w : volq) : option (volq * list Z * Z) :=
  '(w', l) ← deq_loop MAX_NUM_RQS_MERGE true (sect_start w) w;
  Some (w', l, sect_start w).

(** ** Merging *)

Definition rq_mergable (prev_rq next_rq : request) : bool :=
  if decide (rq_data_dir prev_rq = rq_data_dir next_rq) then
    blk_rq_pos next_rq =? u64 (blk_rq_pos prev_rq + blk_rq_sectors prev_rq)
  else false.

(** The [for] loop of [get_merge_len]: the pool, the number of sectors, the number of
    requests, and whether the last one is only partly taken. *)
Fixpoint merge_while (prev : Z) (rest : list Z) (sect_len : Z) (merge_len : nat) (m : gmap Z dms_rq_t)
  : option (gmap Z dms_rq_t * Z * nat * bool) :=
  match rest with
  | [] => Some (m, sect_len, merge_len, false)
  | p :: rest =>
      a ← m !! prev; b ← m !! p;
      if rq_mergable (dr_rq a) (dr_rq b) then
        let new_sect_len := u32 (sect_len + blk_rq_sectors (dr_rq b)) in
        if new_sect_len <? MAX_SECTS_PER_RQ then
          merge_while p rest new_sect_len (S merge_len) (<[p := set_num_ref 1 b]> m)
        else
          let multi := (new_sect_len >? MAX_SECTS_PER_RQ) && negb (sect_len =? MAX_SECTS_PER_RQ) in
          Some (<[p := set_num_ref (if multi then 2 else 1) b]> m, MAX_SECTS_PER_RQ, S merge_len, multi)
      else Some (m, sect_len, merge_len, false)
  end.

(** The result: the pool, [merge_len], [*sect_len] and [*new_index_s]. *)
Definition get_merge_len (rqs : list Z) (index_s : nat) (sect_s : Z) (m : gmap Z dms_rq_t)
  : option (gmap Z dms_rq_t * nat * Z * nat) :=
  match drop index_s rqs with
  | [] => Some (m, 0%nat, 0, index_s)
  | p :: rest =>
      d ← m !! p;
      let m := if num_ref_ior d =? 0 then <[p := set_num_ref 1 d]> m else m in
      let rq := dr_rq d in
      let sect_len := u32 (blk_rq_sectors rq - (u32 sect_s - blk_rq_pos rq)) in
      '(m, sect_len, merge_len, multi) ←
        (if (sect_len =? MAX_SECTS_PER_RQ) || bool_decide (rq_data_dir rq = KERNEL_IO_READ)
         then Some (m, sect_len, 1%nat, false)
         else merge_while p rest sect_len 1 m);
      Some (m, merge_len, sect_len, (index_s + merge_len - (if multi : bool then 1 else 0))%nat)
  end.

(** ** Threads *)

Inductive kthread : Type :=
| E_Update                                             (** [enq_dmsrq_vol_list], the list is released *)
| E_Enq                                                (** ... about to call [enq_vol_active_list] *)
| W_Deq                                                (** [dms_io_worker] at [DEQ_AGAIN] *)
| W_Batch (rqs : list Z) (index_s : nat) (sect_s : Z) (force_io : bool)    (** in [do_io_batch] *)
| W_Back (rqs : list Z) (retcode : option nat) (sect_s : Z)                (** [do_io_batch] has returned *)
| W_Check (again : bool)                               (** about to test [active_vol_cnt] *)
| W_Rest (again : bool)                                (** after that test *)
| W_Wait                                               (** in the loop that waits for more requests *)
| W_Done                                               (** about to call [update_vol_active_stat] *)
| W_Enq                                                (** about to call [enq_vol_active_list] *)
| IO_Run (dir : iorw_dir_t) (refs : list Z)            (** a submitted io request *)
| C_Load (dir : iorw_dir_t) (refs : list Z) (res : bool)           (** [ioReq_commit_user], at the loop *)
| C_Store (dir : iorw_dir_t) (p : Z) (refs : list Z) (res v : bool)        (** ... [result] of [p] has been read *)
| C_Sub (dir : iorw_dir_t) (p : Z) (refs : list Z) (res : bool)            (** ... [result] of [p] has been written *)
| IO_End (dir : iorw_dir_t).                           (** committed to the user, not yet ended *)

(** ** Answers to the user *)

(** [commit_user_request] for the request [p]. *)
Definition commit_user_request (p : Z) (result : bool) (w : volq) : volq :=
  let w := set_cnts (s32 (lgr_rqs w - 1)) (linger_wreq_cnt w) (linger_rreq_cnt w) (error_commit_cnt w) w in
  set_logs (arrived w) (enqueued w) (submitted w) (told w ++ [(p, result)]) w.

(** One reference fewer; with the last one the user is answered and the request freed. *)
Definition rq_put (p : Z) (w : volq) : option volq :=
  d ← dms_rqs w !! p;
  let n := s32 (num_ref_ior d - 1) in
  Some (if n =? 0 then commit_user_request p (dr_result d) (set_rqs (delete p (dms_rqs w)) w)
        else set_rqs (<[p := set_num_ref n d]> (dms_rqs w)) w).

(** [_init_IOR_fail_free_allRQ]: the result of each request is set to false and a
    reference given back. *)
Fixpoint fail_free (rqs : list Z) (w : volq) : option volq :=
  match rqs with
  | [] => Some w
  | p :: rest =>
      d ← dms_rqs w !! p;
      w ← rq_put p (set_rqs (<[p := set_result false d]> (dms_rqs w)) w);
      fail_free rest w
  end.

(** The loop runs from [index_s] while the index is below [num_rqs]. *)
Definition _init_IOR_fail_free_allRQ (rqs : list Z) (index_s num_rqs : nat) (w : volq) : option volq :=
  fail_free (take (num_rqs - index_s) (drop index_s rqs)) w.

(** [IOMgr_submit_IOReq]: [ok] is whether the io request could be allocated and initialised. *)
Definition submit_IOReq (rqs : list Z) (index_s num_rqs : nat) (ok : bool) (w : volq)
  : option (volq * list kthread) :=
  d ← (rqs !! index_s) ≫= fun p => dms_rqs w !! p;
  let iodir := rq_data_dir (dr_rq d) in
  if ok then Some (vm_inc_iocnt iodir w, [IO_Run iodir (take num_rqs (drop index_s rqs))])
  else (fun w => (w, [])) <$> _init_IOR_fail_free_allRQ rqs index_s num_rqs w.

(** ** The loop of [do_io_batch] *)

Definition log_call (dir : iorw_dir_t) (s len : Z) (ok : bool) (w : volq) : volq :=
  set_logs (arrived w) (enqueued w)
    (submitted w ++ [{| ic_dir := dir; ic_sect_s := s; ic_sect_len := len; ic_ok := ok |}]) (told w) w.

Definition batch_turn (ok : bool) (rqs : list Z) (index_s : nat) (sect_s : Z) (force_io : bool) (w : volq)
  : option (volq * list kthread) :=
  '(m, merge_len, sect_len, new_index_s) ← get_merge_len rqs index_s sect_s (dms_rqs w);
  let w := set_rqs m w in
  let num_rqs := length rqs in
  let merge_end := (index_s + merge_len - 1)%nat in
  let do_new_start := bool_decide (new_index_s = merge_end + 1)%nat in
  d ← (rqs !! index_s) ≫= fun p => dms_rqs w !! p;
  let dir := rq_data_dir (dr_rq d) in
  let short := bool_decide (dir = KERNEL_IO_WRITE) && (sect_len <? MAX_SECTS_PER_RQ) &&
               bool_decide (merge_end = num_rqs - 1)%nat in
  let full := short && bool_decide (index_s = 0%nat) && bool_decide (num_rqs = MAX_NUM_RQS_MERGE) in
  if short && negb full && (negb force_io || bool_decide (0 < index_s)%nat) then
    Some (w, [W_Back rqs (Some index_s) sect_s])
  else
    '(w, io) ← submit_IOReq rqs index_s merge_len ok (log_call dir sect_s sect_len ok w);
    let force_io := force_io || full in
    if decide (new_index_s < num_rqs)%nat then
      if do_new_start then
        d ← (rqs !! new_index_s) ≫= fun p => dms_rqs w !! p;
        Some (w, W_Batch rqs new_index_s (blk_rq_pos (dr_rq d)) force_io :: io)
      else Some (w, W_Batch rqs new_index_s (u64 (sect_s + sect_len)) force_io :: io)
    else Some (w, W_Back rqs None 0 :: io).

(** ** The steps of the threads *)

Section threads.
Context (vol_id req_merge_wait_cnt : Z) (req_merge_enable : bool).

(** Enough sectors, or a read, for the worker to go on at once. *)
Definition enough (w : volq) : bool := (r_sects w >? 0) || (w_sects w >=? MAX_SECTS_PER_RQ).

(** The end of [enq_dmsrq_vol_list]: the volume is put on the list of active volumes unless it is there or has an owner. *)
Definition enq_active_step (t : kthread) (w : volq) : option (volq * list kthread) :=
  match t with
  | E_Update =>
      let '(w, op) := update_vol_active_stat Vol_EnqRqs w in
      Some (w, if decide (op = Vol_DoEnActiveQ) then [E_Enq] else [])
  | _ => Some (set_act (vol_act_stat w) (enq_vol_active_list vol_id (iowker_Mgr w)) w, [])
  end.

(** [dms_io_worker], after it took the volume off the list of active volumes. *)
Definition dms_io_worker (b : bool) (t : kthread) (w : volq) : option (volq * list kthread) :=
  match t with
  | W_Deq =>
      '(w, rqs, s) ← deq_dms_rq_list w;
      Some (w, match rqs with [] => [] | _ => [W_Batch rqs 0 s (rq_agg_wait_cnt w >? 0)] end)
  | W_Batch rqs index_s sect_s force_io => batch_turn b rqs index_s sect_s force_io w
  | W_Back rqs (Some retcode) sect_s =>
      w ← enq_dmsrq_vol_list_batch (drop retcode rqs) sect_s w;
      Some (set_agg (u32 (rq_agg_wait_cnt w + 1)) w, [W_Check true])
  | W_Back _ None _ =>
      w ← update_vol_rq_list_start w;
      Some (set_agg 0 w, [W_Check false])
  | W_Check again => Some (w, [if active_vol_cnt (iowker_Mgr w) >? 0 then W_Done else W_Rest again])
  | W_Rest true => Some (if enough w then (set_agg 0 w, [W_Deq]) else (w, [W_Wait]))
  | W_Rest false => Some (set_agg 0 w, [if cnt_rqs w >? 0 then W_Deq else W_Done])
  | W_Wait =>
      Some (if rq_agg_wait_cnt w <? u32 req_merge_wait_cnt then
              if enough w then (set_agg 1 w, [W_Deq])
              else (set_agg (u32 (rq_agg_wait_cnt w + 1)) w, [W_Wait])
            else (set_agg 1 w, [W_Deq]))
  | W_Done =>
      let '(w, op) := update_vol_active_stat Vol_RqsDone w in
      Some (w, if decide (op = Vol_DoEnActiveQ) then [W_Enq] else [])
  | _ => Some (set_act (vol_act_stat w) (enq_vol_active_list vol_id (iowker_Mgr w)) w, [])
  end.

(** [ioReq_commit_user] of an io request: for each of its requests the result is read, written, and the reference given back. *)
Definition ioReq_commit_user (b : bool) (t : kthread) (w : volq) : option (volq * list kthread) :=
  match t with
  | IO_Run dir refs =>
      let err := if b then error_commit_cnt w else u32 (error_commit_cnt w + 1) in
      Some (set_cnts (lgr_rqs w) (linger_wreq_cnt w) (linger_rreq_cnt w) err w, [C_Load dir refs b])
  | C_Load dir [] res => Some (w, [IO_End dir])
  | C_Load dir (p :: refs) res =>
      d ← dms_rqs w !! p;
      Some (w, [C_Store dir p refs res (dr_result d && res)])
  | C_Store dir p refs res v =>
      d ← dms_rqs w !! p;
      Some (set_rqs (<[p := set_result v d]> (dms_rqs w)) w, [C_Sub dir p refs res])
  | C_Sub dir p refs res =>
      w ← rq_put p w;
      Some (w, [C_Load dir refs res])
  | IO_End dir => Some (vm_dec_iocnt dir w, [])
  | _ => Some (w, [])
  end.

(** One step of a thread.  [b] is the outcome of what the environment decides: whether a
    submission succeeds, whether an io request ends well. *)
Definition run_thread (b : bool) (t : kthread) (w : volq) : option (volq * list kthread) :=
  match t with
  | E_Update | E_Enq => enq_active_step t w
  | IO_Run _ _ | C_Load _ _ _ | C_Store _ _ _ _ _ | C_Sub _ _ _ _ | IO_End _ => ioReq_commit_user b t w
  | _ => dms_io_worker b t w
  end.

(** [init_dms_rq]. *)
Definition init_dms_rq (rq : request) : dms_rq_t := {| dr_rq := rq; num_ref_ior := 0; dr_result := true |}.

(** [dms_io_request_fn] for one request that is not a flush; [alloc] is whether [init_dms_rq]
    finds memory, [ok] the outcome of a direct submission. *)
Definition dms_io_request (p : Z) (rq : request) (alloc ok : bool) (w : volq) : option (volq * list kthread) :=
  let w := set_cnts (s32 (lgr_rqs w + 1)) (linger_wreq_cnt w) (linger_rreq_cnt w) (error_commit_cnt w) w in
  let w := set_logs (arrived w ++ [p]) (enqueued w) (submitted w) (told w) w in
  if vol_no_perm_to_io (rw_permission w) (rq_data_dir rq) then Some (commit_user_request p false w, [])
  else if negb alloc then Some (commit_user_request p false w, [])
  else if negb req_merge_enable || (bool_decide (rq_data_dir rq = KERNEL_IO_READ) && (cnt_rqs w =? 0)) then
    submit_IOReq [p] 0 1 ok (set_rqs (<[p := set_num_ref 1 (init_dms_rq rq)]> (dms_rqs w)) w)
  else
    let w := set_rqs (<[p := init_dms_rq rq]> (dms_rqs w)) w in
    let w := set_logs (arrived w) (enqueued w ++ [rq]) (submitted w) (told w) w in
    w ← enq_dmsrq_vol_list p w;
    Some (w, [E_Update]).

(** ** Runs *)

Record iosys : Type := { sv : volq; sth : list kthread }.

Definition io_init : iosys := {| sv := volq_init; sth := [] |}.

(** A request as the block layer gives it: within the limits set on the queue. *)
Definition rq_ok (rq : request) : Prop :=
  0 <= blk_rq_pos rq /\ 0 < blk_rq_sectors rq <= MAX_SECTS_PER_RQ /\ blk_rq_pos rq + blk_rq_sectors rq < 2 ^ 64.

Definition is_io (t : kthread) : Prop :=
  match t with
  | IO_Run _ _ | C_Load _ _ _ | C_Store _ _ _ _ _ | C_Sub _ _ _ _ | IO_End _ => True
  | _ => False
  end.

#[global] Instance is_io_dec t : Decision (is_io t).
Proof. destruct t; simpl; apply _. Defined.

(** What the environment may decide for a step of the thread [t]: a submission succeeds only while there
    is memory for one more io request; it fails only if [fails]. *)
Definition env_allows (fails b : bool) (t : kthread) (ths : list kthread) : Prop :=
  match t with
  | W_Batch _ _ _ _ => if b then Z.of_nat (length (filter is_io ths)) < 2 ^ 31 - 1 else fails = true
  | _ => True
  end.

(** [fails] is whether submissions of the workers may fail.  Requests and io requests are
    objects in memory: there are never 2^31 of them.  A request number is in use until
    the request is answered. *)
Inductive io_step (fails : bool) : iosys -> iosys -> Prop :=
| S_thread b t pre post w w' ts :
    run_thread b t w = Some (w', ts) ->
    env_allows fails b t (pre ++ t :: post) ->
    io_step fails {| sv := w; sth := pre ++ t :: post |} {| sv := w'; sth := pre ++ ts ++ post |}
| S_request p rq alloc ok w w' ths ts :
    dms_rqs w !! p = None -> rq_ok rq ->
    Z.of_nat (size (dms_rqs w)) < 2 ^ 31 - 1 ->
    Z.of_nat (length (filter is_io ths)) < 2 ^ 31 - 1 ->
    dms_io_request p rq alloc ok w = Some (w', ts) ->
    io_step fails {| sv := w; sth := ths |} {| sv := w'; sth := ths ++ ts |}
| S_take g w ths :
    deq_vol_active_list (iowker_Mgr w) = (g, Some vol_id) ->
    io_step fails {| sv := w; sth := ths |} {| sv := set_act (vol_act_stat w) g w; sth := W_Deq :: ths |}
| S_other_take g v w ths :
    deq_vol_active_list (iowker_Mgr w) = (g, Some v) -> v <> vol_id ->
    io_step fails {| sv := w; sth := ths |} {| sv := set_act (vol_act_stat w) g w; sth := ths |}
| S_other_enq v w ths :
    v <> vol_id ->
    io_step fails {| sv := w; sth := ths |}
      {| sv := set_act (vol_act_stat w) (enq_vol_active_list v (iowker_Mgr w)) w; sth := ths |}
| S_perm perm w ths :
    io_step fails {| sv := w; sth := ths |} {| sv := set_vol_rw_perm perm w; sth := ths |}.

Inductive io_steps (fails : bool) : iosys -> iosys -> Prop :=
| io_refl s : io_steps fails s s
| io_more s1 s2 s3 : io_steps fails s1 s2 -> io_step fails s2 s3 -> io_steps fails s1 s3.

End threads.
