(* ===== verification/IOWorkerSpec.v ===== *)
(** * IOWorkerSpec: what the workers submit

    The sectors of a list of requests are a sequence; merging cuts a piece off its front.
    [get_merge_len_spec] says which piece, and how the numbers of references change; the
    invariant of [IOWorkerRun] builds on it. *)

From S2P Require Import Prelude CommonUtil IOReqOvlp IOWorker.

(** ** Sectors *)

Definition sector : Type := iorw_dir_t * Z.

Definition run_of (dir : iorw_dir_t) (s n : Z) : list sector := (fun x => (dir, x)) <$> zseq s (Z.to_nat n).

Definition rq_secs (rq : request) : list sector := run_of (rq_data_dir rq) (blk_rq_pos rq) (blk_rq_sectors rq).

Definition ic_secs (c : io_call) : list sector := run_of (ic_dir c) (ic_sect_s c) (ic_sect_len c).

Definition rq_none : request := {| rq_data_dir := KERNEL_IO_READ; blk_rq_pos := 0; blk_rq_sectors := 0 |}.

Definition rq_at (m : gmap Z dms_rq_t) (p : Z) : request := from_option dr_rq rq_none (m !! p).

Definition secs (m : gmap Z dms_rq_t) (l : list Z) : list sector := l ≫= fun p => rq_secs (rq_at m p).

(** The sectors of [l] without the first [sk] ones. *)
Definition rem_secs (m : gmap Z dms_rq_t) (l : list Z) (sk : Z) : list sector := drop (Z.to_nat sk) (secs m l).

#[global] Arguments secs : simpl never.
#[global] Arguments rem_secs : simpl never.
#[global] Arguments run_of : simpl never.

Lemma run_of_length dir s n : length (run_of dir s n) = Z.to_nat n.
Proof. unfold run_of. by rewrite length_fmap, zseq_length. Qed.

Lemma run_of_app dir s a b : 0 <= a -> 0 <= b -> run_of dir s (a + b) = run_of dir s a ++ run_of dir (s + a) b.
Proof.
  intros Ha Hb. unfold run_of. rewrite Z2Nat.inj_add, zseq_app, fmap_app by lia.
  by rewrite Z2Nat.id by lia.
Qed.

Lemma run_of_drop dir s n k : 0 <= k <= n -> drop (Z.to_nat k) (run_of dir s n) = run_of dir (s + k) (n - k).
Proof.
  intros Hk. replace n with (k + (n - k)) at 1 by lia. rewrite run_of_app by lia.
  rewrite drop_app_le by (rewrite run_of_length; lia).
  rewrite drop_ge by (rewrite run_of_length; lia). done.
Qed.

Lemma rq_at_lookup m p d : m !! p = Some d -> rq_at m p = dr_rq d.
Proof. unfold rq_at. by intros ->. Qed.

(** Pools with the same requests. *)
Definition same_rqs (m m' : gmap Z dms_rq_t) : Prop := forall p, dr_rq <$> m' !! p = dr_rq <$> m !! p.

#[global] Instance same_rqs_refl : Reflexive same_rqs.
Proof. by intros m p. Qed.

#[global] Instance same_rqs_trans : Transitive same_rqs.
Proof. intros a b c H1 H2 p. by rewrite H2, H1. Qed.

Lemma same_rqs_at m m' p : same_rqs m m' -> rq_at m' p = rq_at m p.
Proof. intros H. specialize (H p). unfold rq_at. destruct (m' !! p), (m !! p); simpl in *; congruence. Qed.

Lemma same_rqs_secs m m' l : same_rqs m m' -> secs m' l = secs m l.
Proof.
  intros H. unfold secs. induction l as [|p l IH]; [done|]. rewrite !bind_cons, IH.
  by rewrite (same_rqs_at _ _ _ H).
Qed.

Lemma same_rqs_in m m' p d : same_rqs m m' -> m !! p = Some d -> exists d', m' !! p = Some d' /\ dr_rq d' = dr_rq d.
Proof. intros H E. specialize (H p). rewrite E in H. destruct (m' !! p); simplify_eq/=; eauto. Qed.

Lemma secs_cons m p l : secs m (p :: l) = rq_secs (rq_at m p) ++ secs m l.
Proof. done. Qed.

Lemma secs_app m l k : secs m (l ++ k) = secs m l ++ secs m k.
Proof. unfold secs. by rewrite bind_app. Qed.

Lemma rem_secs_0 m l : rem_secs m l 0 = secs m l.
Proof. done. Qed.

(** Cutting [n] sectors off a request that is begun at sector [sk]. *)
Lemma rem_secs_cut m p l sk n :
  0 <= sk -> 0 <= n -> sk + n <= blk_rq_sectors (rq_at m p) ->
  rem_secs m (p :: l) sk = run_of (rq_data_dir (rq_at m p)) (blk_rq_pos (rq_at m p) + sk) n ++ rem_secs m (p :: l) (sk + n).
Proof.
  intros H1 H2 H3. unfold rem_secs. rewrite secs_cons. unfold rq_secs.
  rewrite !drop_app_le by (rewrite run_of_length; lia).
  rewrite !run_of_drop by lia. rewrite app_assoc. f_equal.
  replace (blk_rq_sectors (rq_at m p) - sk) with (n + (blk_rq_sectors (rq_at m p) - (sk + n))) by lia.
  rewrite run_of_app by lia. do 2 f_equal. lia.
Qed.

Lemma rem_secs_end m p l : 0 <= blk_rq_sectors (rq_at m p) ->
  rem_secs m (p :: l) (blk_rq_sectors (rq_at m p)) = secs m l.
Proof.
  intros H. unfold rem_secs. rewrite secs_cons, drop_app_le by (unfold rq_secs; rewrite run_of_length; lia).
  rewrite drop_ge by (unfold rq_secs; rewrite run_of_length; lia). done.
Qed.

(** ** References *)

(** The effect of the loop on the numbers of references: 1 for each request merged, 2
    for the last one when it is taken in part. *)
Fixpoint mark (l : list Z) (multi : bool) (m : gmap Z dms_rq_t) : gmap Z dms_rq_t :=
  match l with
  | [] => m
  | p :: r => mark r multi (alter (set_num_ref (if multi then match r with [] => 2 | _ => 1 end else 1)) p m)
  end.

Lemma insert_as_alter {A} (m : gmap Z A) p d (f : A -> A) : m !! p = Some d -> <[p := f d]> m = alter f p m.
Proof.
  intros E. apply map_eq. intros q. destruct (decide (q = p)) as [->|Hq].
  - by rewrite lookup_insert_eq, lookup_alter_eq, E.
  - by rewrite lookup_insert_ne, lookup_alter_ne by done.
Qed.

Lemma same_rqs_alter m p f : (forall d, dr_rq (f d) = dr_rq d) -> same_rqs m (alter f p m).
Proof.
  intros Hf q. destruct (decide (q = p)) as [->|Hq]; [rewrite lookup_alter_eq|by rewrite lookup_alter_ne].
  destruct (m !! p); simpl; by rewrite ?Hf.
Qed.

Lemma same_rqs_insert m p d d' : m !! p = Some d -> dr_rq d' = dr_rq d -> same_rqs m (<[p := d']> m).
Proof.
  intros E Hd q. destruct (decide (q = p)) as [->|Hq]; [rewrite lookup_insert_eq, E; simpl; by rewrite Hd|].
  by rewrite lookup_insert_ne.
Qed.

Lemma mark_same l multi m : same_rqs m (mark l multi m).
Proof.
  revert m. induction l as [|p l IH]; intros m; simpl; [done|].
  etrans; [|apply IH]. by apply same_rqs_alter.
Qed.

Lemma mark_ne l multi m p : p ∉ l -> mark l multi m !! p = m !! p.
Proof.
  revert m. induction l as [|q l IH]; intros m Hp; simpl; [done|].
  apply not_elem_of_cons in Hp as [Hq Hp]. by rewrite IH, lookup_alter_ne by done.
Qed.

(** The number a merged request gets. *)
Definition mark_num (l : list Z) (multi : bool) (p : Z) : Z :=
  if multi then if decide (last l = Some p) then 2 else 1 else 1.

Lemma mark_in l multi m p : NoDup l -> p ∈ l -> mark l multi m !! p = set_num_ref (mark_num l multi p) <$> m !! p.
Proof.
  revert m. induction l as [|q l IH]; intros m Hnd Hp; [by apply elem_of_nil in Hp|].
  apply NoDup_cons in Hnd as [Hq Hnd]. simpl. apply elem_of_cons in Hp as [->|Hp].
  - rewrite mark_ne by done. rewrite lookup_alter_eq. unfold mark_num. destruct multi; [|done].
    destruct l as [|r l]; simpl; [by rewrite decide_True|].
    rewrite decide_False; [done|]. intros E. apply Hq. apply last_Some in E as [l' ->].
    rewrite elem_of_app, list_elem_of_singleton. by right.
  - rewrite IH by done. destruct (decide (p = q)) as [->|Hpq]; [done|].
    rewrite lookup_alter_ne by done. unfold mark_num. destruct multi; [|done].
    destruct l as [|r l]; [by apply elem_of_nil in Hp|done].
Qed.

(** ** The merge *)

(** The requests of [l] are in the pool and within the limits. *)
Definition in_pool (m : gmap Z dms_rq_t) (l : list Z) : Prop :=
  Forall (fun p => is_Some (m !! p) /\ rq_ok (rq_at m p)) l.

Lemma in_pool_same m m' l : same_rqs m m' -> in_pool m l -> in_pool m' l.
Proof.
  intros Hs H. eapply Forall_impl; [exact H|]. intros p [[d Hd] Hok]. simpl.
  rewrite (same_rqs_at m m' p Hs). destruct (same_rqs_in _ _ _ _ Hs Hd) as (d' & -> & _). eauto.
Qed.

Definition dir_at (m : gmap Z dms_rq_t) (p : Z) : iorw_dir_t := rq_data_dir (rq_at m p).
Definition end_at (m : gmap Z dms_rq_t) (p : Z) : Z := blk_rq_pos (rq_at m p) + blk_rq_sectors (rq_at m p).

(** A request list with its first [sk] sectors gone. *)
Definition begun (m : gmap Z dms_rq_t) (l : list Z) (sk : Z) : Prop :=
  match l with [] => sk = 0 | p :: _ => 0 <= sk < blk_rq_sectors (rq_at m p) end.

Definition part (multi : bool) : nat := if multi then 1%nat else 0%nat.

(** [j] of the requests [rest] that follow [prev] are merged to the [sl] sectors from [s] on: their
    sectors, up to the limit, follow those of [prev] without a gap; the last one is taken
    in part when [multi], with [sk] of its sectors. *)
Record merged (m : gmap Z dms_rq_t) (prev : Z) (rest : list Z) (s sl sl' : Z) (j : nat) (multi : bool) (sk : Z) : Prop := {
  mg_len : (j <= length rest)%nat;
  mg_sects : sl <= sl' <= MAX_SECTS_PER_RQ;
  mg_dir : Forall (fun p => dir_at m p = dir_at m prev) (take j rest);
  mg_part : if multi then (1 <= j)%nat /\ sl' = MAX_SECTS_PER_RQ /\ 0 < sk /\
              (exists p, rest !! (j - 1)%nat = Some p /\ s + sl' = blk_rq_pos (rq_at m p) + sk) else sk = 0;
  mg_begun : begun m (drop (j - part multi) rest) sk;
  mg_secs : secs m rest = run_of (dir_at m prev) (end_at m prev) (sl' - sl) ++ rem_secs m (drop (j - part multi) rest) sk;
}.

(** What is assumed of the requests while merging. *)
Record mergeable (m : gmap Z dms_rq_t) (prev : Z) (rest : list Z) (s sl : Z) : Prop := {
  mb_pool : in_pool m (prev :: rest);
  mb_nodup : NoDup (prev :: rest);
  mb_end : s + sl = end_at m prev;
  mb_sects : 0 < sl < MAX_SECTS_PER_RQ;
}.

Lemma begun_0 m l : in_pool m l -> begun m l 0.
Proof. destruct l as [|p l]; [done|]. intros H. apply Forall_cons in H as [[_ (_ & ? & _)] _]. simpl. lia. Qed.

Lemma merged_none m prev rest s sl : mergeable m prev rest s sl -> merged m prev rest s sl sl 0 false 0.
Proof.
  intros [Hp ? ? ?]. split; simpl; rewrite ?drop_0, ?Z.sub_diag; try done; try lia.
  apply begun_0. by apply Forall_cons in Hp as [_ Hp].
Qed.

Section next.
Context (m : gmap Z dms_rq_t) (prev p : Z) (rest : list Z) (s sl : Z).
Context (Hm : mergeable m prev (p :: rest) s sl).
Context (Hd : dir_at m prev = dir_at m p) (Hpos : blk_rq_pos (rq_at m p) = end_at m prev).

Lemma merged_whole : sl + blk_rq_sectors (rq_at m p) = MAX_SECTS_PER_RQ ->
  merged m prev (p :: rest) s sl MAX_SECTS_PER_RQ 1 false 0.
Proof.
  intros E. destruct Hm as [Hp _ _ Hsl]. split; simpl; rewrite ?take_0, ?drop_0; try lia; try done.
  - by apply Forall_singleton.
  - apply begun_0. by apply Forall_cons in Hp as [_ [_ Hp]%Forall_cons].
  - rewrite secs_cons, rem_secs_0. f_equal. unfold rq_secs. fold (dir_at m p). rewrite Hd, Hpos. f_equal. lia.
Qed.

Lemma merged_part : sl + blk_rq_sectors (rq_at m p) > MAX_SECTS_PER_RQ ->
  merged m prev (p :: rest) s sl MAX_SECTS_PER_RQ 1 true (MAX_SECTS_PER_RQ - sl).
Proof.
  intros E. destruct Hm as [Hp _ Hend Hsl]. split; simpl; rewrite ?take_0, ?drop_0; try lia; try done.
  - by apply Forall_singleton.
  - repeat split; try lia. exists p. split; [done|]. lia.
  - rewrite <- rem_secs_0, (rem_secs_cut m p rest 0 (MAX_SECTS_PER_RQ - sl)) by lia.
    fold (dir_at m p). rewrite Hd, Z.add_0_r, Hpos. done.
Qed.

Lemma merged_more sl' j multi sk : 0 < blk_rq_sectors (rq_at m p) ->
  merged m p rest s (sl + blk_rq_sectors (rq_at m p)) sl' j multi sk ->
  merged m prev (p :: rest) s sl sl' (S j) multi sk.
Proof.
  intros Hpos0 [Hj Hsl' Hdir Hpt Hbg Hsec].
  assert (Hnj : drop (S j - part multi) (p :: rest) = drop (j - part multi) rest).
  { destruct multi; simpl; [|by rewrite Nat.sub_0_r]. destruct Hpt as (H1 & _). destruct j; [lia|]. simpl. by rewrite Nat.sub_0_r. }
  split; rewrite ?Hnj; try done; simpl.
  - lia.
  - lia.
  - apply Forall_cons. split; [done|]. eapply Forall_impl; [exact Hdir|]. simpl. congruence.
  - destruct multi; [|done]. destruct Hpt as (H1 & H2 & H3 & q & Hq & H4). repeat split; try done; try lia.
    exists q. split; [|done]. destruct j; [lia|]. simpl in *. by rewrite Nat.sub_0_r in Hq.
  - rewrite secs_cons, Hsec, app_assoc. f_equal. unfold rq_secs. fold (dir_at m p).
    replace (sl' - sl) with (blk_rq_sectors (rq_at m p) + (sl' - (sl + blk_rq_sectors (rq_at m p)))) by lia.
    rewrite run_of_app by lia. by rewrite Hd, <- Hpos.
Qed.
End next.

Lemma merged_same m m' prev rest s sl sl' j multi sk :
  same_rqs m m' -> merged m' prev rest s sl sl' j multi sk -> merged m prev rest s sl sl' j multi sk.
Proof.
  intros Hs [? ? Hdir Hpt Hbg Hsec]. unfold dir_at, end_at, rem_secs, begun in *.
  split; try done; unfold dir_at, end_at, rem_secs, begun in *.
  - eapply Forall_impl; [exact Hdir|]. simpl. intros q. by rewrite !(same_rqs_at _ _ _ Hs).
  - destruct multi; [|done]. destruct Hpt as (? & ? & ? & q & Hq & E). rewrite (same_rqs_at _ _ _ Hs) in E. eauto 10.
  - destruct (drop _ rest); [done|]. by rewrite (same_rqs_at _ _ _ Hs) in Hbg.
  - by rewrite !(same_rqs_secs _ _ _ Hs), !(same_rqs_at _ _ _ Hs) in Hsec.
Qed.

Lemma mergeable_next m prev p rest s sl m' :
  mergeable m prev (p :: rest) s sl -> same_rqs m m' -> blk_rq_pos (rq_at m p) = end_at m prev ->
  0 < blk_rq_sectors (rq_at m p) -> sl + blk_rq_sectors (rq_at m p) < MAX_SECTS_PER_RQ ->
  mergeable m' p rest s (sl + blk_rq_sectors (rq_at m p)).
Proof.
  intros [Hp Hnd He Hsl] Hs Hpos H0 Hlt. split.
  - apply Forall_cons in Hp as [_ Hp]. by eapply in_pool_same.
  - by apply NoDup_cons in Hnd as [_ Hnd].
  - unfold end_at in *. rewrite (same_rqs_at _ _ _ Hs). lia.
  - lia.
Qed.

Lemma merge_while_spec rest : forall m prev s sl k, mergeable m prev rest s sl ->
  exists sl' j multi sk,
    merge_while prev rest sl k m = Some (mark (take j rest) multi m, sl', (k + j)%nat, multi) /\
    merged m prev rest s sl sl' j multi sk.
Proof.
  induction rest as [|p rest IH]; intros m prev s sl k Hm.
  all: pose proof (merged_none _ _ _ _ _ Hm) as Hnone.
  { exists sl, 0%nat, false, 0. by rewrite Nat.add_0_r. }
  pose proof Hm as [Hin Hnd Hs Hsl].
  apply Forall_cons in Hin as [[[a Ha] Hpa] [[[b Hb] Hpb] _]%Forall_cons].
  simpl merge_while. rewrite Ha, Hb. simpl mbind. unfold rq_mergable.
  rewrite <- (rq_at_lookup _ _ _ Ha), <- (rq_at_lookup _ _ _ Hb). fold (dir_at m prev) (dir_at m p) (end_at m prev).
  destruct Hpa as (Ha1 & Ha2 & Ha3), Hpb as (Hb1 & Hb2 & Hb3). fold (end_at m prev) in Ha3.
  destruct (decide (dir_at m prev = dir_at m p)) as [Hd|]; [|exists sl, 0%nat, false, 0; by rewrite Nat.add_0_r].
  destruct (blk_rq_pos (rq_at m p) =? u64 (end_at m prev)) eqn:Epos;
    [|exists sl, 0%nat, false, 0; by rewrite Nat.add_0_r].
  zbool. rewrite u64_small in Epos by (unfold end_at in *; split; lia).
  rewrite u32_small by (unfold is_u32, MAX_SECTS_PER_RQ in *; lia).
  rewrite !(insert_as_alter _ _ _ _ Hb).
  destruct (sl + blk_rq_sectors (rq_at m p) <? MAX_SECTS_PER_RQ) eqn:Elt; zbool.
  - assert (Hsame : same_rqs m (alter (set_num_ref 1) p m)) by (by apply same_rqs_alter).
    destruct (IH (alter (set_num_ref 1) p m) p s (sl + blk_rq_sectors (rq_at m p)) (S k)) as (sl' & j & multi & sk & E & Hmg).
    { eapply mergeable_next; eauto; lia. }
    exists sl', (S j), multi, sk. rewrite E. split.
    + rewrite Nat.add_succ_r. simpl. do 4 f_equal. destruct multi; [|done].
      destruct (mg_part _ _ _ _ _ _ _ _ _ Hmg) as (H1 & _). pose proof (mg_len _ _ _ _ _ _ _ _ _ Hmg).
      destruct rest, j; simpl in *; try lia; done.
    + apply merged_more; try done; try lia. eapply merged_same; eauto.
  - assert (Hneq : negb (sl =? MAX_SECTS_PER_RQ) = true) by (apply negb_true_iff, Z.eqb_neq; lia).
    rewrite Hneq, andb_true_r.
    destruct (sl + blk_rq_sectors (rq_at m p) >? MAX_SECTS_PER_RQ) eqn:Egt; zbool.
    + exists MAX_SECTS_PER_RQ, 1%nat, true, (MAX_SECTS_PER_RQ - sl). split.
      { simpl. by rewrite Nat.add_1_r. } apply merged_part; auto; lia.
    + exists MAX_SECTS_PER_RQ, 1%nat, false, 0. split.
      { simpl. by rewrite Nat.add_1_r. } apply merged_whole; auto; lia.
Qed.

(** The piece cut off the requests [l] of which [sk] sectors are gone: [ml] requests, [sl] sectors, the last
    request in part when [multi]; then [sk'] sectors of the next one are gone. *)
Record cut (m : gmap Z dms_rq_t) (l : list Z) (sect_s sk : Z) (ml : nat) (sl : Z) (multi : bool) (sk' : Z) : Prop := {
  ct_len : (1 + part multi <= ml <= length l)%nat;
  ct_sects : 0 < sl <= MAX_SECTS_PER_RQ;
  ct_dir : exists p, head l = Some p /\ Forall (fun q => dir_at m q = dir_at m p) (take ml l) /\
    rem_secs m l sk = run_of (dir_at m p) sect_s sl ++ rem_secs m (drop (ml - part multi) l) sk';
  ct_part : if multi then sl = MAX_SECTS_PER_RQ /\ 0 < sk' /\
              (exists q, l !! (ml - 1)%nat = Some q /\ sect_s + sl = blk_rq_pos (rq_at m q) + sk') else sk' = 0;
  ct_begun : begun m (drop (ml - part multi) l) sk';
}.

(** The first request has at least one reference from now on. *)
Definition touch (d : dms_rq_t) : dms_rq_t := if num_ref_ior d =? 0 then set_num_ref 1 d else d.

Lemma touch_same m p : same_rqs m (alter touch p m).
Proof. apply same_rqs_alter. intros d. unfold touch. by destruct (num_ref_ior d =? 0). Qed.

(** The number of sectors left of the first request, as computed in 32 bits. *)
Lemma sect_len_exact pos n sk : 0 <= sk < n -> n <= MAX_SECTS_PER_RQ -> u32 (n - (u32 (pos + sk) - pos)) = n - sk.
Proof.
  unfold MAX_SECTS_PER_RQ. intros H1 H2. unfold u32. rewrite <- Zminus_mod_idemp_r, Zminus_mod_idemp_l.
  replace (pos + sk - pos) with sk by lia. rewrite Zminus_mod_idemp_r. apply Z.mod_small. lia.
Qed.

(** A merge with the requests behind the first one is a cut. *)
Lemma merged_cut m p rest sk sl' j multi sk' : 0 <= sk < blk_rq_sectors (rq_at m p) ->
  merged m p rest (blk_rq_pos (rq_at m p) + sk) (blk_rq_sectors (rq_at m p) - sk) sl' j multi sk' ->
  cut m (p :: rest) (blk_rq_pos (rq_at m p) + sk) sk (S j) sl' multi sk'.
Proof.
  intros Hsk [Hj Hsl Hdir Hpt Hbg Hsec].
  assert (Hnj : drop (S j - part multi) (p :: rest) = drop (j - part multi) rest).
  { destruct multi; simpl; [|by rewrite Nat.sub_0_r]. destruct Hpt as (H1 & _). destruct j; [lia|]. simpl. by rewrite Nat.sub_0_r. }
  split; rewrite ?Hnj; try done; simpl.
  - destruct multi; simpl; [destruct Hpt|]; lia.
  - lia.
  - exists p. split; [done|]. split; [by apply Forall_cons|].
    rewrite (rem_secs_cut m p rest sk (blk_rq_sectors (rq_at m p) - sk)) by lia.
    replace (sk + (blk_rq_sectors (rq_at m p) - sk)) with (blk_rq_sectors (rq_at m p)) by lia.
    rewrite rem_secs_end, Hsec, app_assoc by lia. f_equal. fold (dir_at m p).
    replace sl' with ((blk_rq_sectors (rq_at m p) - sk) + (sl' - (blk_rq_sectors (rq_at m p) - sk))) at 2 by lia.
    rewrite run_of_app by lia. do 2 f_equal. unfold end_at. lia.
  - destruct multi; [|done]. destruct Hpt as (H1 & H2 & H3 & q & Hq & H4). repeat split; try done.
    exists q. split; [|done]. destruct j; [lia|]. simpl in *. by rewrite Nat.sub_0_r in Hq.
Qed.

(** A first request that is not merged with others. *)
Lemma single_cut m p rest sk : in_pool m (p :: rest) -> 0 <= sk < blk_rq_sectors (rq_at m p) ->
  cut m (p :: rest) (blk_rq_pos (rq_at m p) + sk) sk 1 (blk_rq_sectors (rq_at m p) - sk) false 0.
Proof.
  intros Hp Hsk. apply Forall_cons in Hp as [[_ (_ & Hn & _)] Hp].
  split; simpl; rewrite ?drop_0, ?take_0; try lia; try done.
  - exists p. split; [done|]. split; [by apply Forall_singleton|].
    rewrite (rem_secs_cut m p rest sk (blk_rq_sectors (rq_at m p) - sk)) by lia.
    replace (sk + (blk_rq_sectors (rq_at m p) - sk)) with (blk_rq_sectors (rq_at m p)) by lia.
    by rewrite rem_secs_end by lia.
  - by apply begun_0.
Qed.

Lemma cut_same m m' l s sk ml sl multi sk' : same_rqs m m' -> cut m' l s sk ml sl multi sk' -> cut m l s sk ml sl multi sk'.
Proof.
  intros Hs [Hl Hn (p & Hp & Hd & Hsec) Hpt Hbg]. split; try done.
  - exists p. split; [done|]. unfold dir_at, rem_secs in *.
    rewrite !(same_rqs_secs _ _ _ Hs), !(same_rqs_at _ _ _ Hs) in Hsec. split; [|done].
    eapply Forall_impl; [exact Hd|]. simpl. intros q. by rewrite !(same_rqs_at _ _ _ Hs).
  - destruct multi; [|done]. destruct Hpt as (? & ? & q & Hq & E). rewrite (same_rqs_at _ _ _ Hs) in E. eauto 10.
  - unfold begun in *. destruct (drop _ l); [done|]. by rewrite (same_rqs_at _ _ _ Hs) in Hbg.
Qed.

(** [get_merge_len] cuts a piece off the front, and counts its references. *)
Lemma get_merge_len_spec m rqs i p rest sk :
  drop i rqs = p :: rest -> in_pool m (p :: rest) -> NoDup (p :: rest) -> 0 <= sk < blk_rq_sectors (rq_at m p) ->
  exists ml sl multi sk',
    get_merge_len rqs i (blk_rq_pos (rq_at m p) + sk) m =
      Some (mark (take (ml - 1) rest) multi (alter touch p m), ml, sl, (i + ml - part multi)%nat) /\
    cut m (p :: rest) (blk_rq_pos (rq_at m p) + sk) sk ml sl multi sk'.
Proof.
  intros Hdrop Hin Hnd Hsk. unfold get_merge_len. rewrite Hdrop.
  pose proof Hin as [[[d Hd] (Hp1 & Hp2 & Hp3)] Hrest]%Forall_cons.
  rewrite Hd. simpl mbind. rewrite <- (rq_at_lookup _ _ _ Hd), sect_len_exact by lia.
  pose proof (rq_at_lookup _ _ _ Hd) as Hat.
  assert (Hm : (if num_ref_ior d =? 0 then <[p:=set_num_ref 1 d]> m else m) = alter touch p m).
  { rewrite <- (insert_as_alter _ _ _ touch Hd). unfold touch. destruct (num_ref_ior d =? 0); [done|]. by rewrite insert_id. }
  rewrite Hm. pose proof (touch_same m p) as Hs.
  set (n := blk_rq_sectors (rq_at m p)) in *.
  destruct ((n - sk =? MAX_SECTS_PER_RQ) || bool_decide (rq_data_dir (rq_at m p) = KERNEL_IO_READ)) eqn:E.
  { exists 1%nat, (n - sk), false, 0. simpl. split; [done|]. by apply single_cut. }
  apply orb_false_iff in E as [E _]. apply Z.eqb_neq in E.
  destruct (merge_while_spec rest (alter touch p m) p (blk_rq_pos (rq_at m p) + sk) (n - sk) 1) as (sl' & j & multi & sk' & El & Hmg).
  { split; [by eapply in_pool_same|done| |lia]. unfold end_at. rewrite (same_rqs_at _ _ _ Hs). fold n. lia. }
  exists (S j), sl', multi, sk'. rewrite El. simpl. rewrite Nat.sub_0_r. split; [by destruct multi|].
  apply merged_cut; [done|]. by eapply merged_same.
Qed.
