(* ===== verification/IOWorkerRun.v ===== *)
(** * IOWorkerRun: the invariant of the workers

    For every interleaving of the threads that bring requests, the workers and the
    io requests: the references counted in a request are those that exist ([refs_ok]), the sectors submitted
    and those that wait are the sectors of the requests in their order, at most one thread
    owns the volume and none is forgotten ([queue_ok]). *)

From S2P Require Import Prelude CommonUtil IOReqOvlp IOWorker IOWorkerSpec.

(** ** Ghost views of threads *)

(** The references an io request still holds. *)
Definition refs (t : kthread) : list Z :=
  match t with
  | IO_Run _ l | C_Load _ l _ => l
  | C_Store _ p l _ _ | C_Sub _ p l _ => p :: l
  | _ => []
  end.

Definition outst (p : Z) (ts : list kthread) : Z := occ p (ts ≫= refs).

Lemma outst_app p a b : outst p (a ++ b) = outst p a + outst p b.
Proof. unfold outst. by rewrite bind_app, occ_app. Qed.

Lemma outst_cons p t b : outst p (t :: b) = occ p (refs t) + outst p b.
Proof. unfold outst. by rewrite bind_cons, occ_app. Qed.

Lemma outst_nonneg p ts : 0 <= outst p ts.
Proof. apply occ_nonneg. Qed.

(** ** The pool of requests *)

(** [pend]: the requests with sectors not yet submitted, [sk] sectors of the first one are; [tot p]: the
    references to [p] given to io requests and not given back. *)
Record refs_ok (m : gmap Z dms_rq_t) (pend : list Z) (sk : Z) (tot : Z -> Z) : Prop := {
  r_nodup : NoDup pend;
  r_pend : forall p, p ∈ pend -> is_Some (m !! p);
  r_ok : forall p d, m !! p = Some d -> rq_ok (dr_rq d);
  r_begun : begun m pend sk;
  r_num : forall p d, m !! p = Some d ->
    0 <= num_ref_ior d <= 2 /\
    (if decide (p ∈ pend) then
       if decide (head pend = Some p /\ 0 < sk) then num_ref_ior d = 1 + tot p
       else num_ref_ior d <= 1 /\ tot p = 0
     else num_ref_ior d = tot p /\ 0 < tot p);
  r_none : forall p, m !! p = None -> tot p = 0;
  r_pos : forall p, 0 <= tot p;
}.

Lemma r_pool m pend sk tot : refs_ok m pend sk tot -> in_pool m pend.
Proof.
  intros R. apply Forall_forall. intros p Hp. destruct (r_pend _ _ _ _ R p Hp) as [d Hd]. split; [eauto|].
  rewrite (rq_at_lookup _ _ _ Hd). by eapply r_ok.
Qed.

Lemma refs_tot m pend sk tot p : refs_ok m pend sk tot -> 0 < tot p -> is_Some (m !! p).
Proof. intros R H. destruct (m !! p) eqn:E; [eauto|]. rewrite (r_none _ _ _ _ R p E) in H. lia. Qed.

Lemma begun_ext m m' pend sk : (forall p, p ∈ pend -> rq_at m' p = rq_at m p) -> begun m pend sk -> begun m' pend sk.
Proof. intros H. destruct pend as [|p l]; [done|]. simpl. by rewrite H by left. Qed.

Lemma secs_ext m m' l : (forall p, p ∈ l -> rq_at m' p = rq_at m p) -> secs m' l = secs m l.
Proof.
  induction l as [|p l IH]; [done|]. intros H. rewrite !secs_cons, H by left. f_equal.
  apply IH. intros q Hq. apply H. by right.
Qed.

Lemma rem_secs_ext m m' l sk : (forall p, p ∈ l -> rq_at m' p = rq_at m p) -> rem_secs m' l sk = rem_secs m l sk.
Proof. intros H. unfold rem_secs. by rewrite (secs_ext m m'). Qed.

(** The function [tot] with one reference fewer, or more. *)
Definition tot_add (n : Z) (p : Z) (tot : Z -> Z) : Z -> Z := fun q => tot q + (if decide (p = q) then n else 0).

(** A change of a request other than of its number of references. *)
Lemma refs_ok_update m pend sk tot p d d' :
  refs_ok m pend sk tot -> m !! p = Some d -> dr_rq d' = dr_rq d -> num_ref_ior d' = num_ref_ior d ->
  refs_ok (<[p := d']> m) pend sk tot.
Proof.
  intros [R1 R2 R3 R4 R5 R6 R7] Hd Hrq Hn. pose proof (same_rqs_insert m p d d' Hd Hrq) as Hs. split; try done.
  - intros q Hq. destruct (R2 q Hq) as [e He]. destruct (same_rqs_in _ _ _ _ Hs He) as (e' & -> & _). eauto.
  - intros q e. rewrite lookup_insert_Some. intros [[-> ->]|[_ He]]; [rewrite Hrq|]; eauto.
  - eapply begun_ext; [|done]. intros. by apply same_rqs_at.
  - intros q e. rewrite lookup_insert_Some. intros [[-> ->]|[_ He]]; [rewrite Hn|]; eauto.
  - intros q. rewrite lookup_insert_None. intros [? _]. eauto.
Qed.

(** Giving back a reference: the request is freed exactly when it was the last one, and then
    nothing of it waits. *)
Lemma refs_ok_put m pend sk tot p : refs_ok m pend sk tot -> 0 < tot p ->
  exists d, m !! p = Some d /\ s32 (num_ref_ior d - 1) = num_ref_ior d - 1 /\
  (if decide (num_ref_ior d = 1) then refs_ok (delete p m) pend sk (tot_add (-1) p tot) /\ (p ∉ pend) /\ tot p = 1
  else refs_ok (<[p := set_num_ref (num_ref_ior d - 1) d]> m) pend sk (tot_add (-1) p tot)).
Proof.
  intros R Ht. destruct (refs_tot _ _ _ _ _ R Ht) as [d Hd]. exists d.
  pose proof R as [R1 R2 R3 R4 R5 R6 R7]. destruct (R5 p d Hd) as [Hr Hn].
  split; [done|]. split; [apply s32_small; unfold is_s32; lia|].
  destruct (decide (num_ref_ior d = 1)) as [E|E].
  - assert (Hp : p ∉ pend) by (intros Hp; rewrite decide_True in Hn by done; case_decide; lia).
    rewrite decide_False in Hn by done. split; [|split; [done|lia]]. unfold tot_add. split; try done.
    + intros q Hq. rewrite lookup_delete_ne by (intros ->; done). eauto.
    + intros q e [_ ?]%lookup_delete_Some. eauto.
    + eapply begun_ext; [|done]. intros q Hq. unfold rq_at. by rewrite lookup_delete_ne by (intros ->; done).
    + intros q e [Hne He]%lookup_delete_Some. rewrite (decide_False (P := p = q)), Z.add_0_r by congruence. eauto.
    + intros q [->|Hq]%lookup_delete_None; [rewrite decide_True by done; lia|].
      rewrite (R6 q Hq). destruct (decide (p = q)); [congruence|done].
    + intros q. specialize (R7 q). destruct (decide (p = q)); subst; lia.
  - pose proof (same_rqs_insert m p d (set_num_ref (num_ref_ior d - 1) d) Hd eq_refl) as Hs. unfold tot_add.
    split; try done.
    + intros q Hq. destruct (R2 q Hq) as [e He]. destruct (same_rqs_in _ _ _ _ Hs He) as (e' & -> & _). eauto.
    + intros q e. rewrite lookup_insert_Some. intros [[-> <-]|[_ He]]; simpl; eauto.
    + eapply begun_ext; [|done]. intros. by apply same_rqs_at.
    + intros q e. rewrite lookup_insert_Some. intros [[<- <-]|[Hq He]]; simpl.
      * rewrite (decide_True (P := p = p)) by done. clear R5. repeat case_decide; lia.
      * rewrite (decide_False (P := p = q)), Z.add_0_r by done. eauto.
    + intros q. rewrite lookup_insert_None. intros [? Hq]. rewrite decide_False, Z.add_0_r by congruence. eauto.
    + intros q. specialize (R7 q). destruct (decide (p = q)); subst; lia.
Qed.

(** A new request at the end of the waiting ones. *)
Lemma refs_ok_enq m pend sk tot p rq : refs_ok m pend sk tot -> m !! p = None -> rq_ok rq ->
  refs_ok (<[p := init_dms_rq rq]> m) (pend ++ [p]) sk tot.
Proof.
  intros R Hp Hrq. pose proof R as [R1 R2 R3 R4 R5 R6 R7].
  assert (Hnp : p ∉ pend) by (intros [? E]%R2; congruence).
  split; try done.
  - apply NoDup_app. split; [done|]. split; [|apply NoDup_singleton].
    intros q Hq. rewrite list_elem_of_singleton. by intros ->.
  - intros q [Hq| ->%list_elem_of_singleton]%elem_of_app; [|rewrite lookup_insert_eq; eauto].
    rewrite lookup_insert_ne by (intros ->; done). eauto.
  - intros q e. rewrite lookup_insert_Some. intros [[-> <-]|[_ He]]; simpl; eauto.
  - destruct pend as [|h l]; simpl in *; unfold rq_at.
    + rewrite lookup_insert_eq. simpl. destruct Hrq as (_ & ? & _). lia.
    + rewrite lookup_insert_ne by (intros ->; apply Hnp; left). apply R4.
  - intros q e. rewrite lookup_insert_Some. intros [[<- <-]|[Hq He]]; simpl.
    + split; [lia|]. rewrite decide_True by (apply elem_of_app; right; by apply list_elem_of_singleton).
      rewrite decide_False; [split; [lia|by apply R6]|].
      destruct pend as [|h l]; simpl in *; [lia|]. intros [[= ->] _]. apply Hnp. left.
    + destruct (R5 q e He) as [Hn HR]. split; [done|].
      destruct (decide (q ∈ pend)) as [Hin|Hin].
      * rewrite decide_True by (apply elem_of_app; by left). destruct pend; [by apply elem_of_nil in Hin|done].
      * rewrite decide_False; [done|]. intros [?| ->%list_elem_of_singleton]%elem_of_app; done.
  - intros q [? _]%lookup_insert_None. eauto.
Qed.

(** A request that is submitted as it comes. *)
Lemma refs_ok_direct m pend sk tot p rq : refs_ok m pend sk tot -> m !! p = None -> rq_ok rq ->
  refs_ok (<[p := set_num_ref 1 (init_dms_rq rq)]> m) pend sk (tot_add 1 p tot).
Proof.
  intros R Hp Hrq. pose proof R as [R1 R2 R3 R4 R5 R6 R7]. unfold tot_add.
  assert (Hnp : p ∉ pend) by (intros [? E]%R2; congruence).
  split; try done.
  - intros q Hq. rewrite lookup_insert_ne by (intros ->; done). eauto.
  - intros q e. rewrite lookup_insert_Some. intros [[-> <-]|[_ He]]; simpl; eauto.
  - eapply begun_ext; [|done]. intros q Hq. unfold rq_at. by rewrite lookup_insert_ne by (intros ->; done).
  - intros q e. rewrite lookup_insert_Some. intros [[<- <-]|[Hq He]]; simpl.
    + rewrite (decide_False (P := p ∈ pend)), (decide_True (P := p = p)), (R6 p Hp) by done. lia.
    + rewrite (decide_False (P := p = q)), Z.add_0_r by done. eauto.
  - intros q [? Hq]%lookup_insert_None. rewrite (decide_False (P := p = q)), Z.add_0_r by congruence. eauto.
  - intros q. specialize (R7 q). destruct (decide (p = q)); lia.
Qed.

(** The numbers of references after a piece was cut off and given to an io request. *)
Section cut.
Context (m : gmap Z dms_rq_t) (p : Z) (a0 a pend' : list Z) (sk sk' : Z) (tot : Z -> Z) (multi : bool).
Context (R : refs_ok m (p :: a0 ++ pend') sk tot).
Context (Hcut : if multi then exists y b, pend' = y :: b /\ a = a0 ++ [y] /\ 0 < sk' else a = a0 /\ sk' = 0).

Lemma cut_nodup : NoDup (p :: a).
Proof.
  pose proof (r_nodup _ _ _ _ R) as Hnd. destruct multi.
  - destruct Hcut as (y & b & -> & -> & _). rewrite cons_middle, app_assoc, app_comm_cons in Hnd.
    by apply NoDup_app in Hnd as (? & _).
  - destruct Hcut as [-> _]. rewrite app_comm_cons in Hnd. by apply NoDup_app in Hnd as (? & _).
Qed.

Lemma cut_in x : x ∈ p :: a0 ++ pend' <-> x ∈ p :: a \/ x ∈ pend'.
Proof.
  destruct multi; [destruct Hcut as (y & b & -> & -> & _)|destruct Hcut as [-> _]].
  all: rewrite !elem_of_cons, !elem_of_app, ?elem_of_cons, ?elem_of_nil; tauto.
Qed.

(** A request of the piece that waits no more, but for one taken in part. *)
Lemma cut_out x : x ∈ p :: a0 -> x ∉ pend'.
Proof.
  intros Hx Hx'. pose proof (r_nodup _ _ _ _ R) as Hnd. rewrite app_comm_cons in Hnd.
  apply NoDup_app in Hnd as (_ & H & _). by eapply H.
Qed.

Lemma cut_num x d : mark a multi (alter touch p m) !! x = Some d ->
  0 <= num_ref_ior d <= 2 /\
  (if decide (x ∈ pend') then
     if decide (head pend' = Some x /\ 0 < sk') then num_ref_ior d = 1 + (tot x + occ x (p :: a))
     else num_ref_ior d <= 1 /\ tot x + occ x (p :: a) = 0
   else num_ref_ior d = tot x + occ x (p :: a) /\ 0 < tot x + occ x (p :: a)).
Proof.
  intros Hx. pose proof cut_nodup as Hnd. pose proof cut_out as Hout. rewrite (occ_nodup _ _ Hnd).
  pose proof (r_num _ _ _ _ R) as RN. pose proof (r_pos _ _ _ _ R x) as RP.
  apply NoDup_cons in Hnd as [Hpa Hnda].
  destruct (decide (x = p)) as [->|Hxp].
  - rewrite mark_ne, lookup_alter_eq in Hx by done. apply fmap_Some in Hx as (e & He & ->).
    destruct (RN p e He) as [Hr Hn]. rewrite decide_True in Hn by left.
    rewrite (decide_False (P := p ∈ pend')) by (apply Hout; left).
    rewrite (decide_True (P := p ∈ p :: a)) by left. unfold touch. simpl in Hn.
    destruct (num_ref_ior e =? 0) eqn:E; zbool; simpl; repeat case_decide; lia.
  - destruct (decide (x ∈ a)) as [Ha|Ha].
    + rewrite (mark_in _ _ _ _ Hnda Ha), lookup_alter_ne in Hx by done. apply fmap_Some in Hx as (e & He & ->).
      destruct (RN x e He) as [Hr Hn].
      rewrite (decide_True (P := x ∈ p :: a0 ++ pend')) in Hn by (apply cut_in; left; by right).
      rewrite (decide_False (P := _ /\ _)) in Hn by (simpl; intros [[=] _]; congruence).
      rewrite (decide_True (P := x ∈ p :: a)) by (by right). simpl. unfold mark_num.
      destruct multi.
      * destruct Hcut as (y & b & -> & -> & Hsk). rewrite last_snoc. simpl. destruct (decide (Some y = Some x)) as [[= ->]|Hy].
        { rewrite (decide_True (P := x ∈ x :: b)) by left. rewrite decide_True by done. lia. }
        rewrite (decide_False (P := x ∈ y :: b)); [lia|]. apply Hout. right.
        apply elem_of_app in Ha as [Ha|Ha%list_elem_of_singleton]; congruence.
      * destruct Hcut as [-> _]. rewrite (decide_False (P := x ∈ pend')); [lia|]. apply Hout. by right.
    + rewrite mark_ne, lookup_alter_ne in Hx by done.
      destruct (RN x d Hx) as [Hr Hn]. split; [done|].
      rewrite (decide_False (P := x ∈ p :: a)), Z.add_0_r by (by intros [?|?]%elem_of_cons).
      destruct (decide (x ∈ pend')) as [Hin|Hin].
      * rewrite (decide_True (P := x ∈ p :: a0 ++ pend')) in Hn by (apply cut_in; by right).
        rewrite (decide_False (P := _ /\ _)) in Hn by (simpl; intros [[=] _]; congruence).
        rewrite decide_False; [done|]. destruct multi.
        { destruct Hcut as (y & b & -> & -> & _). intros [[= ->] _]. apply Ha.
          apply elem_of_app. right. by apply list_elem_of_singleton. }
        destruct Hcut as [_ ->]. lia.
      * rewrite decide_False in Hn; [done|]. intros [[?|?]%elem_of_cons|?]%cut_in; done.
Qed.

Lemma cut_same_rqs : same_rqs m (mark a multi (alter touch p m)).
Proof. etrans; [apply touch_same|apply mark_same]. Qed.

Lemma refs_ok_cut : begun m pend' sk' ->
  refs_ok (mark a multi (alter touch p m)) pend' sk' (fun x => tot x + occ x (p :: a)).
Proof.
  intros Hb. pose proof cut_same_rqs as Hs. pose proof R as [R1 R2 R3 R4 R5 R6 R7].
  split.
  - rewrite app_comm_cons in R1. by apply NoDup_app in R1 as (_ & _ & ?).
  - intros x Hx. destruct (R2 x) as [e He]; [apply cut_in; by right|].
    destruct (same_rqs_in _ _ _ _ Hs He) as (e' & -> & _). eauto.
  - intros x e He. specialize (Hs x). rewrite He in Hs. simpl in Hs.
    symmetry in Hs. apply fmap_Some in Hs as (e' & He' & ->). eauto.
  - eapply begun_ext; [|exact Hb]. intros. by apply same_rqs_at.
  - apply cut_num.
  - intros x Hx. specialize (Hs x). rewrite Hx in Hs. symmetry in Hs. apply fmap_None in Hs.
    rewrite (R6 x Hs), occ_none; [done|]. intros Hin.
    destruct (R2 x) as [? E]; [apply cut_in; by left|congruence].
  - intros x. specialize (R7 x). pose proof (occ_nonneg x (p :: a)). lia.
Qed.
End cut.

(** ** Users and io requests *)

Definition live (m : gmap Z dms_rq_t) (p : Z) : Z := if decide (is_Some (m !! p)) then 1 else 0.

(** Every request that arrived was answered once, or is in the pool. *)
Record users_ok (w : volq) : Prop := {
  u_told : forall p, occ p ((told w).*1) + live (dms_rqs w) p = occ p (arrived w);
  u_lgr : lgr_rqs w = Z.of_nat (size (dms_rqs w));
  u_size : Z.of_nat (size (dms_rqs w)) < 2 ^ 31;
}.

Definition io_dirof (t : kthread) : option iorw_dir_t :=
  match t with
  | IO_Run d _ | C_Load d _ _ | C_Store d _ _ _ _ | C_Sub d _ _ _ | IO_End d => Some d
  | _ => None
  end.

(** The io requests of a direction. *)
Definition nios (d : iorw_dir_t) (ts : list kthread) : Z :=
  zsum ((fun t => if decide (io_dirof t = Some d) then 1 else 0) <$> ts).

Lemma nios_app d a b : nios d (a ++ b) = nios d a + nios d b.
Proof. unfold nios. by rewrite fmap_app, zsum_app. Qed.

Lemma nios_cons d t b : nios d (t :: b) = (if decide (io_dirof t = Some d) then 1 else 0) + nios d b.
Proof. done. Qed.

Lemma nios_nonneg d ts : 0 <= nios d ts.
Proof. induction ts as [|t ts IH]; [done|]. rewrite nios_cons. case_decide; lia. Qed.

Lemma nios_total ts : nios KERNEL_IO_READ ts + nios KERNEL_IO_WRITE ts = Z.of_nat (length (filter is_io ts)).
Proof.
  induction ts as [|t ts IH]; [done|]. rewrite !nios_cons, filter_cons.
  destruct t as [| | | | | | | | | |[]|[]|[]|[]|[]]; simpl; rewrite ?Nat2Z.inj_succ; lia.
Qed.

(** The fields of the list and of the threads' business are the same. *)
Record quiet (w w' : volq) : Prop := {
  qt_list : vol_rqs_list w' = vol_rqs_list w;
  qt_cnt : cnt_rqs w' = cnt_rqs w;
  qt_agg : rq_agg_wait_cnt w' = rq_agg_wait_cnt w;
  qt_act : vol_act_stat w' = vol_act_stat w;
  qt_ws : w_sects w' = w_sects w;
  qt_rs : r_sects w' = r_sects w;
  qt_start : sect_start w' = sect_start w;
  qt_mgr : iowker_Mgr w' = iowker_Mgr w;
}.

#[global] Instance quiet_refl : Reflexive quiet.
Proof. by split. Qed.

#[global] Instance quiet_trans : Transitive quiet.
Proof. intros a b c [] []. split; congruence. Qed.

(** The requests that wait are the same. *)
Definition keeps (m m' : gmap Z dms_rq_t) (pend : list Z) : Prop := forall p, p ∈ pend -> rq_at m' p = rq_at m p.

Lemma keeps_refl m pend : keeps m m pend.
Proof. done. Qed.

Lemma keeps_trans m1 m2 m3 pend : keeps m1 m2 pend -> keeps m2 m3 pend -> keeps m1 m3 pend.
Proof. intros H1 H2 p Hp. by rewrite H2, H1. Qed.

Lemma keeps_same m m' pend : same_rqs m m' -> keeps m m' pend.
Proof. intros H p _. by apply same_rqs_at. Qed.

#[export] Hint Resolve keeps_refl keeps_same : disco.

Lemma live_delete m p q : is_Some (m !! p) -> live (delete p m) q = live m q - (if decide (p = q) then 1 else 0).
Proof.
  intros Hp. unfold live. destruct (decide (p = q)) as [<-|Hpq].
  - rewrite decide_False by (rewrite lookup_delete_eq; by intros [? ?]). by rewrite decide_True.
  - rewrite lookup_delete_ne by done. lia.
Qed.

Lemma live_insert m p d q : live (<[p := d]> m) q = if decide (p = q) then 1 else live m q.
Proof.
  unfold live. destruct (decide (p = q)) as [<-|Hpq].
  - by rewrite lookup_insert_eq, decide_True by eauto.
  - by rewrite lookup_insert_ne.
Qed.

Lemma live_same m m' q : same_rqs m m' -> live m' q = live m q.
Proof. intros Hs. specialize (Hs q). unfold live. destruct (m' !! q), (m !! q); simplify_eq/=; done. Qed.

Lemma same_rqs_size m m' : same_rqs m m' -> size m' = size m.
Proof.
  intros Hs. rewrite <- !size_dom. f_equal. apply leibniz_equiv. intros x. rewrite !elem_of_dom. specialize (Hs x).
  destruct (m' !! x), (m !! x); simplify_eq/=; split; intros [? ?]; eauto; discriminate.
Qed.

Lemma users_same w m : users_ok w -> same_rqs (dms_rqs w) m -> users_ok (set_rqs m w).
Proof.
  intros [U1 U2 U3] Hs. pose proof (same_rqs_size _ _ Hs). split; simpl; [|congruence|congruence].
  intros p. by rewrite (live_same _ _ _ Hs).
Qed.

(** References were given back, users answered; [tot] are the references left. *)
Record put_post (w w' : volq) (pend : list Z) (sk : Z) (tot : Z -> Z) : Prop := {
  pp_refs : refs_ok (dms_rqs w') pend sk tot;
  pp_users : users_ok w';
  pp_keeps : keeps (dms_rqs w) (dms_rqs w') pend;
  pp_quiet : quiet w w';
  pp_sub : submitted w' = submitted w;
  pp_enq : enqueued w' = enqueued w;
  pp_wr : linger_wreq_cnt w' = linger_wreq_cnt w;
  pp_rd : linger_rreq_cnt w' = linger_rreq_cnt w;
}.

Lemma put_post_trans w1 w2 w3 pend sk tot2 tot3 :
  put_post w1 w2 pend sk tot2 -> put_post w2 w3 pend sk tot3 -> put_post w1 w3 pend sk tot3.
Proof.
  intros [] []. split; try congruence; try done; [by eapply keeps_trans|by etrans].
Qed.

(** Giving back a reference. *)
Lemma rq_put_ok w pend sk tot p :
  refs_ok (dms_rqs w) pend sk tot -> 0 < tot p -> users_ok w ->
  exists w', rq_put p w = Some w' /\ put_post w w' pend sk (tot_add (-1) p tot).
Proof.
  intros R Ht U. destruct (refs_ok_put _ _ _ _ _ R Ht) as (d & Hd & Hs & H).
  unfold rq_put. rewrite Hd. simpl mbind. rewrite Hs. destruct (decide (num_ref_ior d = 1)) as [E|E].
  - rewrite E. simpl. destruct H as (R' & Hp & _). eexists. split; [done|]. split; simpl; [done| |..].
    { destruct U as [U1 U2 U3].
      assert (Hsz : Z.of_nat (size (delete p (dms_rqs w))) = Z.of_nat (size (dms_rqs w)) - 1).
      { rewrite <- (insert_delete_id _ _ _ Hd) at 2. rewrite map_size_insert_None by apply lookup_delete_eq. lia. }
      split; simpl.
      - intros q. rewrite fmap_app, occ_app, live_delete by eauto. specialize (U1 q). simpl. rewrite occ_cons.
        change (occ q []) with 0. lia.
      - rewrite U2, Hsz. apply s32_small. unfold is_s32. lia.
      - lia. }
    2-6: by repeat split.
    intros q Hq. unfold rq_at. by rewrite lookup_delete_ne by (intros ->; done).
  - destruct (num_ref_ior d - 1 =? 0) eqn:E'; zbool; [lia|]. eexists. split; [done|].
    pose proof (same_rqs_insert _ p d (set_num_ref (num_ref_ior d - 1) d) Hd eq_refl) as Hsm.
    split; simpl; [done|by apply users_same|by apply keeps_same|..]; by repeat split.
Qed.

Lemma refs_ok_tot m pend sk tot tot' : refs_ok m pend sk tot -> (forall x, tot' x = tot x) -> refs_ok m pend sk tot'.
Proof.
  intros [R1 R2 R3 R4 R5 R6 R7] E. split; try done.
  - intros p d. rewrite E. apply R5.
  - intros p. rewrite E. apply R6.
  - intros p. rewrite E. apply R7.
Qed.

(** The result of a request is written. *)
Lemma set_result_ok w pend sk tot p b : refs_ok (dms_rqs w) pend sk tot -> 0 < tot p -> users_ok w ->
  exists d, dms_rqs w !! p = Some d /\
    put_post w (set_rqs (<[p := set_result b d]> (dms_rqs w)) w) pend sk tot.
Proof.
  intros R Ht U. destruct (refs_tot _ _ _ _ _ R Ht) as [d Hd]. exists d. split; [done|].
  pose proof (same_rqs_insert _ p d (set_result b d) Hd eq_refl) as Hs.
  split; simpl; [by eapply refs_ok_update|by apply users_same|by apply keeps_same|..]; by repeat split.
Qed.

(** A failed submission gives back the references of the requests of [l]. *)
Lemma fail_free_ok l : forall w pend sk tot,
  refs_ok (dms_rqs w) pend sk tot -> (forall x, occ x l <= tot x) -> users_ok w ->
  exists w', fail_free l w = Some w' /\ put_post w w' pend sk (fun x => tot x - occ x l).
Proof.
  induction l as [|p l IH]; intros w pend sk tot R Hocc U.
  { exists w. split; [done|]. split; try done.
    eapply refs_ok_tot; [exact R|]. intros x. change (occ x []) with 0. lia. }
  assert (Hp : 0 < tot p).
  { specialize (Hocc p). rewrite occ_cons, decide_True in Hocc by done. pose proof (occ_nonneg p l). lia. }
  destruct (set_result_ok w pend sk tot p false R Hp U) as (d & Hd & P1).
  destruct (rq_put_ok _ _ _ _ p (pp_refs _ _ _ _ _ P1) Hp (pp_users _ _ _ _ _ P1)) as (w1 & E1 & P2).
  destruct (IH w1 pend sk _ (pp_refs _ _ _ _ _ P2)) as (w2 & E2 & P3); [|apply (pp_users _ _ _ _ _ P2)|].
  { intros x. specialize (Hocc x). rewrite occ_cons in Hocc. unfold tot_add. destruct (decide (p = x)); lia. }
  exists w2. simpl fail_free. rewrite Hd. simpl. rewrite E1. simpl. split; [done|].
  pose proof (put_post_trans _ _ _ _ _ _ _ P1 (put_post_trans _ _ _ _ _ _ _ P2 P3)) as [F1 F2 F3 F4 F5 F6 F7 F8].
  split; try done. eapply refs_ok_tot; [exact F1|]. intros x. rewrite occ_cons. unfold tot_add.
  destruct (decide (p = x)); lia.
Qed.

(** A piece that is merged but not submitted. *)
Lemma refs_ok_marked m p a q sk tot : refs_ok m (p :: a ++ q) sk tot ->
  refs_ok (mark a false (alter touch p m)) (p :: a ++ q) sk tot.
Proof.
  intros R. pose proof (cut_same_rqs m p a false) as Hs. pose proof R as [R1 R2 R3 R4 R5 R6 R7].
  assert (Hnd : NoDup (p :: a)) by (rewrite app_comm_cons in R1; by apply NoDup_app in R1 as (? & _)).
  apply NoDup_cons in Hnd as [Hpa Hnda].
  split; try done.
  - intros x Hx. destruct (R2 x Hx) as [e He]. destruct (same_rqs_in _ _ _ _ Hs He) as (e' & -> & _). eauto.
  - intros x e He. specialize (Hs x). rewrite He in Hs. symmetry in Hs. apply fmap_Some in Hs as (e' & He' & ->). eauto.
  - eapply begun_ext; [|exact R4]. intros. by apply same_rqs_at.
  - intros x d Hx. destruct (decide (x = p)) as [->|Hxp]; [|destruct (decide (x ∈ a)) as [Ha|Ha]].
    + rewrite mark_ne, lookup_alter_eq in Hx by done. apply fmap_Some in Hx as (e & He & ->).
      destruct (R5 p e He) as [Hr Hn]. rewrite decide_True by left. rewrite decide_True in Hn by left.
      specialize (R7 p). unfold touch. destruct (num_ref_ior e =? 0) eqn:E; zbool; simpl in *; [|done].
      split; [lia|]. destruct (decide (Some p = Some p /\ 0 < sk)); lia.
    + rewrite (mark_in _ _ _ _ Hnda Ha), lookup_alter_ne in Hx by done. apply fmap_Some in Hx as (e & He & ->).
      destruct (R5 x e He) as [Hr Hn].
      rewrite (decide_True (P := x ∈ _)) in * by (right; apply elem_of_app; by left).
      rewrite (decide_False (P := _ /\ _)) in * by (simpl; intros [[=] _]; congruence). simpl. lia.
    + rewrite mark_ne, lookup_alter_ne in Hx by done. by apply R5.
  - intros x Hx. specialize (Hs x). rewrite Hx in Hs. symmetry in Hs. apply fmap_None in Hs. eauto.
Qed.

(** ** The first half of the invariant *)

Record core (fails : bool) (w : volq) (ts : list kthread) (pend : list Z) (sk : Z) (tot : Z -> Z) : Prop := {
  k_refs : refs_ok (dms_rqs w) pend sk tot;
  k_out : forall p, outst p ts <= tot p;
  k_exact : fails = false -> forall p, tot p = outst p ts;
  k_stream : (submitted w ≫= ic_secs) ++ rem_secs (dms_rqs w) pend sk = enqueued w ≫= rq_secs;
  k_sub : Forall (fun c => 0 < ic_sect_len c <= MAX_SECTS_PER_RQ) (submitted w);
  k_users : users_ok w;
  k_wr : linger_wreq_cnt w = nios KERNEL_IO_WRITE ts;
  k_rd : linger_rreq_cnt w = nios KERNEL_IO_READ ts;
  k_ios : nios KERNEL_IO_READ ts + nios KERNEL_IO_WRITE ts < 2 ^ 31;
}.

(** References were given back by the threads that held them. *)
Lemma core_post fails w w' ts ts' pend sk tot tot' :
  core fails w ts pend sk tot -> put_post w w' pend sk tot' ->
  (forall x, tot' x - tot x = outst x ts' - outst x ts) -> (forall d, nios d ts' = nios d ts) ->
  core fails w' ts' pend sk tot'.
Proof.
  intros [K1 K2 K3 K4 K5 K6 K7 K8 K9] [P1 P2 P3 P4 P5 P6 P7 P8] Ht Hn. split; rewrite ?Hn; try congruence.
  - intros p. specialize (K2 p). specialize (Ht p). lia.
  - intros Hf p. specialize (K3 Hf p). specialize (Ht p). lia.
  - rewrite P5, P6, <- K4. f_equal. by apply rem_secs_ext.
Qed.

(** The threads changed, but not their references. *)
Lemma core_threads fails w ts ts' pend sk tot :
  core fails w ts pend sk tot -> (forall x, outst x ts' = outst x ts) -> (forall d, nios d ts' = nios d ts) ->
  core fails w ts' pend sk tot.
Proof.
  intros [K1 K2 K3 K4 K5 K6 K7 K8 K9] Ho Hn. split; rewrite ?Hn; try done.
  - intros p. by rewrite Ho.
  - intros Hf p. rewrite Ho. by apply K3.
Qed.

(** Fields the core does not look at. *)
Lemma core_fields fails w w' ts pend sk tot :
  core fails w ts pend sk tot -> dms_rqs w' = dms_rqs w -> submitted w' = submitted w -> enqueued w' = enqueued w ->
  told w' = told w -> arrived w' = arrived w -> lgr_rqs w' = lgr_rqs w ->
  linger_wreq_cnt w' = linger_wreq_cnt w -> linger_rreq_cnt w' = linger_rreq_cnt w ->
  core fails w' ts pend sk tot.
Proof.
  intros [K1 K2 K3 K4 K5 [U1 U2 U3] K7 K8 K9] E1 E2 E3 E4 E5 E6 E7 E8.
  split; rewrite ?E1, ?E2, ?E3, ?E7, ?E8; try done.
  split; rewrite ?E1, ?E4, ?E5, ?E6; done.
Qed.

(** An io request ends. *)
Lemma core_end fails w pre dir post pend sk tot :
  core fails w (pre ++ IO_End dir :: post) pend sk tot -> core fails (vm_dec_iocnt dir w) (pre ++ post) pend sk tot.
Proof.
  intros [K1 K2 K3 K4 K5 K6 K7 K8 K9].
  assert (Ho : forall x, outst x (pre ++ post) = outst x (pre ++ IO_End dir :: post)).
  { intros x. by rewrite !outst_app, outst_cons. }
  pose proof (nios_nonneg KERNEL_IO_READ (pre ++ post)). pose proof (nios_nonneg KERNEL_IO_WRITE (pre ++ post)).
  unfold vm_dec_iocnt, vm_add_iocnt. rewrite !nios_app, !nios_cons in *.
  split; [by destruct dir| | | | | | | |].
  - intros p. by rewrite Ho.
  - intros Hf p. rewrite Ho. by apply K3.
  - by destruct dir.
  - by destruct dir.
  - destruct dir, K6; by split.
  - rewrite nios_app. destruct dir; simpl in *; [lia|]. rewrite s32_small by (unfold is_s32; lia). lia.
  - rewrite nios_app. destruct dir; simpl in *; [|lia]. rewrite s32_small by (unfold is_s32; lia). lia.
  - rewrite !nios_app. destruct dir; simpl in *; lia.
Qed.

(** ** Submission of a piece *)

Section submit.
Context (fails : bool) (w : volq) (p : Z) (rest q : list Z) (sk : Z) (tot : Z -> Z).
Context (ml : nat) (sl : Z) (multi : bool) (sk' : Z).
Let l := p :: rest.
Let m' := mark (take (ml - 1) rest) multi (alter touch p (dms_rqs w)).
Let pend' := drop (ml - part multi) l ++ q.
Context (Hcut : cut (dms_rqs w) l (blk_rq_pos (rq_at (dms_rqs w) p) + sk) sk ml sl multi sk').

Lemma piece_refs : take ml l = p :: take (ml - 1) rest.
Proof. destruct (ct_len _ _ _ _ _ _ _ _ Hcut) as [H _]. unfold l. destruct ml as [|n]; [lia|]. simpl. by rewrite Nat.sub_0_r. Qed.

Lemma piece_next : pend' = drop (ml - 1 - part multi) rest ++ q.
Proof.
  destruct (ct_len _ _ _ _ _ _ _ _ Hcut) as [H _]. unfold pend', l.
  destruct multi, ml as [|[|n]]; simpl in *; try lia; by rewrite ?Nat.sub_0_r.
Qed.

Lemma piece_split : l ++ q = p :: take (ml - 1 - part multi) rest ++ pend'.
Proof. rewrite piece_next. unfold l. rewrite app_assoc, take_drop. done. Qed.

Lemma piece_cut : if multi then exists y b, pend' = y :: b /\ take (ml - 1) rest = take (ml - 1 - part multi) rest ++ [y] /\ 0 < sk'
  else take (ml - 1) rest = take (ml - 1 - part multi) rest /\ sk' = 0.
Proof.
  pose proof piece_next as E. destruct Hcut as [[H1 H2] _ _ Hp _]. destruct multi; simpl in *; [|by rewrite Nat.sub_0_r].
  destruct Hp as (_ & Hsk & y & Hy & _). unfold l in *.
  destruct ml as [|[|n]]; simpl in *; try lia. rewrite ?Nat.sub_0_r in *.
  exists y, (drop (S n) rest ++ q). rewrite E, (drop_S _ _ _ Hy). split; [done|]. split; [|done].
  by apply take_S_r.
Qed.

Lemma piece_begun : refs_ok (dms_rqs w) (l ++ q) sk tot -> begun (dms_rqs w) pend' sk'.
Proof.
  intros R. pose proof (ct_begun _ _ _ _ _ _ _ _ Hcut) as Hb. unfold pend'.
  destruct (drop (ml - part multi) l) as [|x b] eqn:E; [|done]. simpl in Hb. subst sk'. simpl.
  apply begun_0. apply r_pool in R. by apply Forall_app in R as [_ R].
Qed.

Lemma piece_same : same_rqs (dms_rqs w) m'.
Proof. apply cut_same_rqs. Qed.

Lemma piece_refs_ok : refs_ok (dms_rqs w) (l ++ q) sk tot ->
  refs_ok m' pend' sk' (fun x => tot x + occ x (take ml l)).
Proof.
  intros R. rewrite piece_refs. pose proof (piece_begun R) as Hb. rewrite piece_split in R.
  by eapply refs_ok_cut; [exact R|exact piece_cut|].
Qed.

Lemma piece_stream : (submitted w ≫= ic_secs) ++ rem_secs (dms_rqs w) (l ++ q) sk = enqueued w ≫= rq_secs ->
  0 <= sk < blk_rq_sectors (rq_at (dms_rqs w) p) -> begun (dms_rqs w) (drop (ml - part multi) l) sk' ->
  (submitted w ≫= ic_secs) ++ run_of (dir_at (dms_rqs w) p) (blk_rq_pos (rq_at (dms_rqs w) p) + sk) sl ++ rem_secs m' pend' sk' =
  enqueued w ≫= rq_secs.
Proof.
  intros <- Hsk Hb. f_equal. unfold pend'.
  rewrite (rem_secs_ext (dms_rqs w) m') by (intros; apply same_rqs_at, piece_same).
  destruct (ct_dir _ _ _ _ _ _ _ _ Hcut) as (p' & [= <-] & _ & Hs).
  assert (Happ : forall k s, (Z.to_nat s <= length (secs (dms_rqs w) k))%nat ->
    rem_secs (dms_rqs w) (k ++ q) s = rem_secs (dms_rqs w) k s ++ secs (dms_rqs w) q).
  { intros k s H. unfold rem_secs. by rewrite secs_app, drop_app_le. }
  rewrite !Happ, Hs, <- app_assoc; [done| |].
  - unfold l. rewrite secs_cons, length_app. unfold rq_secs. rewrite run_of_length. lia.
  - unfold begun in Hb. destruct (drop (ml - part multi) l) as [|y b]; [subst; simpl; lia|].
    rewrite secs_cons, length_app. unfold rq_secs. rewrite run_of_length. lia.
Qed.
End submit.

(** A thread that is not an io request. *)
Definition plain (t : kthread) : Prop := refs t = [] /\ io_dirof t = None.

Lemma outst_plain x pre t io post : plain t -> outst x (pre ++ (t :: io) ++ post) = outst x pre + outst x io + outst x post.
Proof. intros [E _]. rewrite !outst_app, outst_cons, E. change (occ x []) with 0. lia. Qed.

Lemma nios_plain d pre t io post : plain t -> nios d (pre ++ (t :: io) ++ post) = nios d pre + nios d io + nios d post.
Proof. intros [_ E]. rewrite !nios_app, nios_cons, E. rewrite decide_False by done. lia. Qed.

Lemma occ_take x l n k : (n <= k)%nat -> occ x (take n l) <= occ x (take k l).
Proof.
  intros H. rewrite <- (take_drop n (take k l)), take_take, occ_app.
  replace (n `min` k)%nat with n by lia. pose proof (occ_nonneg x (drop n (take k l))). lia.
Qed.

Section submitted.
Context (fails : bool) (w : volq) (rqs : list Z) (i : nat) (p : Z) (rest q : list Z) (sk : Z) (tot : Z -> Z).
Context (ml : nat) (sl : Z) (multi : bool) (sk' : Z) (pre post : list kthread) (t0 : kthread) (ok : bool).
Let l := p :: rest.
Let m' := mark (take (ml - 1) rest) multi (alter touch p (dms_rqs w)).
Let pend' := drop (ml - part multi) l ++ q.
Let dir := dir_at (dms_rqs w) p.
Let s := blk_rq_pos (rq_at (dms_rqs w) p) + sk.
Let w1 := log_call dir s sl ok (set_rqs m' w).
Context (Hdrop : drop i rqs = l) (Ht0 : plain t0).
Context (Hcut : cut (dms_rqs w) l s sk ml sl multi sk').
Context (K : core fails w (pre ++ t0 :: post) (l ++ q) sk tot).
Context (Hb : if ok then nios KERNEL_IO_READ (pre ++ t0 :: post) + nios KERNEL_IO_WRITE (pre ++ t0 :: post) < 2 ^ 31 - 1
              else fails = true).

Lemma w1_stream : (submitted w1 ≫= ic_secs) ++ rem_secs m' pend' sk' = enqueued w ≫= rq_secs.
Proof.
  simpl. rewrite bind_app, <- app_assoc. simpl. rewrite app_nil_r.
  pose proof (r_begun _ _ _ _ (k_refs _ _ _ _ _ _ K)) as Hbg. simpl in Hbg.
  apply (piece_stream w p rest q sk ml sl multi sk' Hcut); [apply (k_stream _ _ _ _ _ _ K)|done|].
  apply (ct_begun _ _ _ _ _ _ _ _ Hcut).
Qed.

Lemma w1_sub : Forall (fun c => 0 < ic_sect_len c <= MAX_SECTS_PER_RQ) (submitted w1).
Proof.
  simpl. apply Forall_app. split; [apply (k_sub _ _ _ _ _ _ K)|]. apply Forall_singleton. simpl.
  apply (ct_sects _ _ _ _ _ _ _ _ Hcut).
Qed.

Lemma w1_users : users_ok w1.
Proof.
  destruct (users_same w m' (k_users _ _ _ _ _ _ K) (piece_same w p rest ml multi)) as [U1 U2 U3]. by split.
Qed.

Lemma w1_first : (rqs !! i) ≫= (fun p => dms_rqs w1 !! p) = m' !! p /\ is_Some (m' !! p).
Proof.
  assert (rqs !! i = Some p) as ->.
  { rewrite <- (Nat.add_0_r i), <- lookup_drop, Hdrop. done. }
  split; [done|]. destruct (r_pend _ _ _ _ (k_refs _ _ _ _ _ _ K) p) as [d Hd]; [left|].
  destruct (same_rqs_in _ _ _ _ (piece_same w p rest ml multi) Hd) as (d' & ? & _). eauto.
Qed.

Lemma w1_outst x : outst x (pre ++ t0 :: post) = outst x pre + outst x post.
Proof. pose proof (outst_plain x pre t0 [] post Ht0) as E. simpl in E. rewrite E. change (outst x []) with 0. lia. Qed.

Lemma w1_nios d : nios d (pre ++ t0 :: post) = nios d pre + nios d post.
Proof. pose proof (nios_plain d pre t0 [] post Ht0) as E. simpl in E. rewrite E. change (nios d []) with 0. lia. Qed.

Lemma w1_dir d : m' !! p = Some d -> rq_data_dir (dr_rq d) = dir.
Proof.
  intros Hd. rewrite <- (rq_at_lookup _ _ _ Hd). unfold m'.
  by rewrite (same_rqs_at _ _ _ (piece_same w p rest ml multi)).
Qed.

(** The io request is accepted. *)
Lemma accepted_core t1 : ok = true -> plain t1 ->
  core fails (vm_inc_iocnt dir w1) (pre ++ (t1 :: [IO_Run dir (take ml l)]) ++ post) pend' sk'
    (fun x => tot x + occ x (take ml l)).
Proof.
  intros Eok Hp1. pose proof (k_out _ _ _ _ _ _ K) as Kout. pose proof (k_exact _ _ _ _ _ _ K) as Kex.
  pose proof (k_wr _ _ _ _ _ _ K) as Kw. pose proof (k_rd _ _ _ _ _ _ K) as Kr.
  pose proof Hb as Hb'. rewrite Eok, !w1_nios in Hb'. rewrite w1_nios in Kw, Kr.
  pose proof w1_stream as S1. pose proof w1_sub as S2. pose proof w1_users as S3.
  pose proof (nios_nonneg KERNEL_IO_READ pre). pose proof (nios_nonneg KERNEL_IO_WRITE pre).
  pose proof (nios_nonneg KERNEL_IO_READ post). pose proof (nios_nonneg KERNEL_IO_WRITE post).
  assert (Ho : forall x, outst x [IO_Run dir (take ml l)] = occ x (take ml l)).
  { intros x. unfold outst. simpl. by rewrite app_nil_r. }
  assert (Hn : forall d', nios d' [IO_Run dir (take ml l)] = if decide (Some dir = Some d') then 1 else 0).
  { intros d'. unfold nios. simpl. lia. }
  unfold vm_inc_iocnt, vm_add_iocnt.
  split; rewrite ?nios_plain by done; rewrite ?Hn.
  - pose proof (piece_refs_ok w p rest q sk tot ml sl multi sk' Hcut (k_refs _ _ _ _ _ _ K)). by destruct dir.
  - intros x. rewrite outst_plain, Ho by done. specialize (Kout x). rewrite w1_outst in Kout. lia.
  - intros Hf x. rewrite outst_plain, Ho by done. specialize (Kex Hf x). rewrite w1_outst in Kex. lia.
  - destruct dir; exact S1.
  - destruct dir; exact S2.
  - destruct dir, S3; by split.
  - destruct dir; simpl; rewrite Kw; [lia|]. rewrite s32_small by (unfold is_s32; lia). lia.
  - destruct dir; simpl; rewrite Kr; [|lia]. rewrite s32_small by (unfold is_s32; lia). lia.
  - destruct dir; simpl; lia.
Qed.

(** The submission fails: some of the references are given back. *)
Lemma refused_core : ok = false ->
  exists w2 tot2, fail_free (take (ml - i) l) w1 = Some w2 /\ quiet w w2 /\ keeps m' (dms_rqs w2) pend' /\
  forall t1, plain t1 -> core fails w2 (pre ++ (t1 :: []) ++ post) pend' sk' tot2.
Proof.
  intros Eok. pose proof (k_out _ _ _ _ _ _ K) as Kout. pose proof Hb as Hb'. rewrite Eok in Hb'.
  pose proof (k_wr _ _ _ _ _ _ K) as Kw. pose proof (k_rd _ _ _ _ _ _ K) as Kr. pose proof (k_ios _ _ _ _ _ _ K) as Ki.
  rewrite w1_nios in Kw, Kr. rewrite !w1_nios in Ki.
  pose proof w1_stream as S1. pose proof w1_sub as S2.
  destruct (fail_free_ok (take (ml - i) l) w1 pend' sk' (fun x => tot x + occ x (take ml l))) as (w2 & E2 & P).
  { exact (piece_refs_ok w p rest q sk tot ml sl multi sk' Hcut (k_refs _ _ _ _ _ _ K)). }
  { intros x. specialize (Kout x). pose proof (occ_take x l (ml - i) ml ltac:(lia)).
    pose proof (outst_nonneg x (pre ++ t0 :: post)). lia. }
  { exact w1_users. }
  exists w2, (fun x => tot x + occ x (take ml l) - occ x (take (ml - i) l)).
  destruct P as [P1 P2 P3 P4 P5 P6 P7 P8]. split; [done|]. split; [etrans; [|exact P4]; by repeat split|]. split; [exact P3|].
  intros t1 Hp1. split; rewrite ?nios_plain by done; change (nios KERNEL_IO_READ []) with 0;
    change (nios KERNEL_IO_WRITE []) with 0; try done.
  - intros x. rewrite outst_plain by done. specialize (Kout x). rewrite w1_outst in Kout.
    change (outst x []) with 0. pose proof (occ_take x l (ml - i) ml ltac:(lia)). lia.
  - congruence.
  - rewrite P5, P6, (rem_secs_ext m'); [exact S1|]. exact P3.
  - by rewrite P5.
  - rewrite P7. simpl. lia.
  - rewrite P8. simpl. lia.
  - lia.
Qed.

Lemma submit_core : exists w2 io tot2,
  submit_IOReq rqs i ml ok w1 = Some (w2, io) /\ Forall is_io io /\ quiet w w2 /\ keeps m' (dms_rqs w2) pend' /\
  forall t1, plain t1 -> core fails w2 (pre ++ (t1 :: io) ++ post) pend' sk' tot2.
Proof.
  destruct w1_first as [Ef [d Hd]]. unfold submit_IOReq, _init_IOR_fail_free_allRQ.
  rewrite Ef, Hd. simpl mbind. rewrite (w1_dir d Hd), Hdrop.
  destruct (decide (ok = true)) as [Eok|Eok%not_true_is_false]; rewrite Eok.
  - pose proof accepted_core as A. exists (vm_inc_iocnt dir w1), [IO_Run dir (take ml l)], (fun x => tot x + occ x (take ml l)).
    split; [done|]. split; [by apply Forall_singleton|].
    split; [by destruct dir; repeat split|]. split; [by destruct dir|]. intros. by apply A.
  - destruct (refused_core Eok) as (w2 & tot2 & -> & H1 & H2 & H3). exists w2, [], tot2.
    split; [done|]. split; [done|]. done.
Qed.
End submitted.
