(* ===== verification/IOWorkerLife.v ===== *)
(** * IOWorkerLife: every step keeps the invariant of the workers

    The second half of the invariant is about the list of the volume: which thread owns the
    volume, where the next sector is, what the counters say.  Then the steps, and the
    theorems about all runs. *)

From S2P Require Import Prelude CommonUtil IOReqOvlp IOWorker IOWorkerSpec IOWorkerRun.

(** ** Who owns the volume *)

(** A thread that owns the volume: a worker that took it off the list of active volumes, or
    a thread that is about to put it there. *)
Definition is_owner (t : kthread) : Prop := ~ is_io t /\ t <> E_Update.

#[global] Instance is_owner_dec t : Decision (is_owner t).
Proof.
  unfold is_owner. destruct t; simpl; try (left; split; [tauto|discriminate]); right; intros [? ?]; congruence || tauto.
Defined.

Definition owners (ts : list kthread) : list kthread := filter is_owner ts.

Lemma owners_app a b : owners (a ++ b) = owners a ++ owners b.
Proof. apply filter_app. Qed.

Lemma owners_io io : Forall is_io io -> owners io = [].
Proof. induction 1 as [|t io Ht _ IH]; [done|]. unfold owners. rewrite filter_cons_False; [done|]. by intros [? _]. Qed.

Definition starts (m : gmap Z dms_rq_t) (pend : list Z) (s sk : Z) : Prop :=
  match pend with [] => True | p :: _ => s = blk_rq_pos (rq_at m p) + sk end.

(** The volume when no request is in the hands of a worker. *)
Definition at_rest (w : volq) (pend : list Z) (sk : Z) : Prop :=
  pend = vol_rqs_list w /\ starts (dms_rqs w) pend (sect_start w) sk.

(** What holds while the thread [t] owns the volume. *)
Definition owner_ok (t : kthread) (w : volq) (pend : list Z) (sk : Z) : Prop :=
  match t with
  | W_Batch rqs i s _ =>
      (i < length rqs)%nat /\ pend = drop i rqs ++ vol_rqs_list w /\ starts (dms_rqs w) pend s sk
  | W_Back rqs (Some i) s =>
      (i < length rqs)%nat /\ pend = drop i rqs ++ vol_rqs_list w /\ starts (dms_rqs w) pend s sk /\
      Forall (fun p => dir_at (dms_rqs w) p = KERNEL_IO_WRITE) (drop i rqs)
  | W_Back _ None _ => pend = vol_rqs_list w /\ sk = 0
  | W_Check false | W_Rest false | W_Done => at_rest w pend sk
  | _ => at_rest w pend sk /\ vol_rqs_list w <> []
  end.

(** The requests that are out of the list. *)
Definition holds (t : kthread) : bool := match t with W_Batch _ _ _ _ | W_Back _ _ _ => true | _ => false end.

(** ** One turn of [do_io_batch] *)

Lemma drop_index {A} (rqs : list A) i p rest : drop i rqs = p :: rest -> (i < length rqs)%nat /\ length rqs = (i + length (p :: rest))%nat.
Proof.
  intros E. apply (f_equal length) in E. rewrite length_drop in E. simpl in *. lia.
Qed.

Section turn.
Context (fails b f : bool) (w : volq) (rqs : list Z) (i : nat) (p : Z) (rest : list Z) (sk : Z) (tot : Z -> Z).
Context (pre post : list kthread).
Let s := blk_rq_pos (rq_at (dms_rqs w) p) + sk.
Let ts := pre ++ W_Batch rqs i s f :: post.
Context (Hdrop : drop i rqs = p :: rest).
Context (K : core fails w ts ((p :: rest) ++ vol_rqs_list w) sk tot).
Context (Hb : if b then nios KERNEL_IO_READ ts + nios KERNEL_IO_WRITE ts < 2 ^ 31 - 1 else fails = true).

(** The piece is short: it goes back to the list. *)
Lemma turn_back ml sl multi sk' : cut (dms_rqs w) (p :: rest) s sk ml sl multi sk' -> sl < MAX_SECTS_PER_RQ ->
  (i + ml = length rqs)%nat -> dir_at (dms_rqs w) p = KERNEL_IO_WRITE ->
  let w' := set_rqs (mark (take (ml - 1) rest) multi (alter touch p (dms_rqs w))) w in
  core fails w' (pre ++ (W_Back rqs (Some i) s :: []) ++ post) ((p :: rest) ++ vol_rqs_list w) sk tot /\
  owner_ok (W_Back rqs (Some i) s) w' ((p :: rest) ++ vol_rqs_list w) sk.
Proof.
  intros [Hml _ (p' & [= <-] & Hdir & _) Hpt _] Hsl Hend Hw w'.
  assert (multi = false) as -> by (destruct multi; [lia|done]).
  destruct (drop_index _ _ _ _ Hdrop) as [Hi Hlen]. simpl in Hlen.
  assert (Et : take (ml - 1) rest = rest) by (apply take_ge; lia).
  assert (Hs : same_rqs (dms_rqs w) (dms_rqs w')) by (apply cut_same_rqs).
  pose proof (users_same w (dms_rqs w') (k_users _ _ _ _ _ _ K) Hs) as U.
  destruct K as [K1 K2 K3 K4 K5 K6 K7 K8 K9]. split.
  - apply (core_threads fails _ ts).
    + split; try done.
      * simpl. rewrite Et. by apply refs_ok_marked.
      * rewrite (rem_secs_ext (dms_rqs w)); [exact K4|]. intros. by apply same_rqs_at.
    + intros x. unfold ts. by rewrite !outst_app.
    + intros d. unfold ts. by rewrite !nios_app.
  - simpl. rewrite Hdrop. split; [done|]. split; [done|]. split.
    + unfold s. by rewrite (same_rqs_at _ _ _ Hs).
    + rewrite take_ge in Hdir by (simpl; lia). eapply Forall_impl; [exact Hdir|]. intros x. simpl.
      unfold dir_at in *. rewrite (same_rqs_at _ _ _ Hs). congruence.
Qed.

(** The next sector after a piece was submitted. *)
Lemma turn_next m2 ml sl multi sk' pend' :
  cut (dms_rqs w) (p :: rest) s sk ml sl multi sk' ->
  pend' = drop (ml - part multi) (p :: rest) ++ vol_rqs_list w ->
  in_pool m2 pend' -> keeps (dms_rqs w) m2 pend' ->
  let i' := (i + ml - part multi)%nat in
  (i' < length rqs)%nat ->
  exists d, (rqs !! i' ≫= fun p => m2 !! p) = Some d /\ drop i' rqs = drop (ml - part multi) (p :: rest) /\
    starts m2 pend' (if multi then u64 (s + sl) else blk_rq_pos (dr_rq d)) sk'.
Proof.
  intros [Hml _ _ Hpt Hbg] Hpd Hin Hk i' Hi'.
  assert (Ed : drop i' rqs = drop (ml - part multi) (p :: rest)).
  { rewrite <- Hdrop, drop_drop. f_equal. unfold i'. lia. }
  destruct (drop (ml - part multi) (p :: rest)) as [|x l] eqn:El.
  { apply (f_equal length) in Ed. rewrite length_drop in Ed. simpl in Ed. lia. }
  assert (Ex : rqs !! i' = Some x) by (rewrite <- (Nat.add_0_r i'), <- lookup_drop, Ed; done).
  subst pend'. pose proof Hin as [[[d Hd] Hok] _]%Forall_cons. exists d. rewrite Ex. simpl. split; [done|]. split; [done|].
  assert (Hat : rq_at m2 x = rq_at (dms_rqs w) x) by (apply Hk; left).
  destruct multi.
  - destruct Hpt as (_ & _ & y & Hy & E). simpl in El.
    assert (y = x) as ->.
    { assert (Some y = Some x) as [= ->]; [|done]. rewrite <- Hy, <- (Nat.add_0_r (ml - 1)), <- lookup_drop.
      by rewrite El. }
    simpl in Hbg. destruct Hok as (H1 & _ & H2). rewrite Hat in *. rewrite <- E. apply u64_small. unfold is_u64. lia.
  - subst sk'. rewrite (rq_at_lookup _ _ _ Hd). lia.
Qed.

(** A turn of the loop keeps the first half of the invariant. *)
Lemma batch_turn_ok : exists w' t io pend' sk' tot',
  batch_turn b rqs i s f w = Some (w', t :: io) /\ Forall is_io io /\ holds t = true /\ quiet w w' /\
  keeps (dms_rqs w) (dms_rqs w') pend' /\ core fails w' (pre ++ (t :: io) ++ post) pend' sk' tot' /\
  owner_ok t w' pend' sk'.
Proof.
  pose proof (k_refs _ _ _ _ _ _ K) as R. destruct (drop_index _ _ _ _ Hdrop) as [Hi Hlen].
  pose proof (r_pool _ _ _ _ R) as Hpool. apply Forall_app in Hpool as [Hpool _].
  pose proof (r_nodup _ _ _ _ R) as Hnd. apply NoDup_app in Hnd as (Hnd & _).
  pose proof (r_begun _ _ _ _ R) as Hbg. simpl in Hbg.
  destruct (get_merge_len_spec _ _ _ _ _ _ Hdrop Hpool Hnd Hbg) as (ml & sl & multi & sk' & E & Hcut).
  unfold batch_turn. fold s in E, Hcut. rewrite E. simpl mbind.
  destruct (w1_first fails w rqs i p rest (vol_rqs_list w) sk tot ml sl multi pre post (W_Batch rqs i s f) true Hdrop K) as [Ef [d Hd]].
  pose proof (w1_dir w p rest ml multi d Hd) as Hdir.
  simpl in Ef. simpl dms_rqs. rewrite Ef, Hd. simpl mbind. rewrite Hdir.
  match goal with |- context [if ?c then Some (_, [W_Back _ _ _]) else _] => destruct c eqn:Ec end.
  - do 2 apply andb_true_iff in Ec as [Ec _]. apply andb_true_iff in Ec as [Ec He]. apply andb_true_iff in Ec as [Ew Es].
    apply bool_decide_eq_true in Ew, He. apply Z.ltb_lt in Es. pose proof (ct_len _ _ _ _ _ _ _ _ Hcut).
    destruct (turn_back ml sl multi sk' Hcut Es) as [K' O]; [lia|done|].
    do 6 eexists. split; [done|]. split; [done|]. split; [done|]. split; [by repeat split|].
    split; [|by split]. apply keeps_same, cut_same_rqs.
  - destruct (submit_core fails w rqs i p rest (vol_rqs_list w) sk tot ml sl multi sk' pre post (W_Batch rqs i s f) b)
      as (w2 & io & tot2 & Esub & Hio & Hq & Hkeep & Hcore); try done.
    fold s in Esub. rewrite Esub. simpl mbind.
    set (pend' := drop (ml - part multi) (p :: rest) ++ vol_rqs_list w) in *.
    assert (Hk : keeps (dms_rqs w) (dms_rqs w2) pend').
    { eapply keeps_trans; [|exact Hkeep]. apply keeps_same, cut_same_rqs. }
    assert (Hin : in_pool (dms_rqs w2) pend').
    { eapply r_pool, k_refs, (Hcore E_Update). done. }
    destruct (decide (i + ml - part multi < length rqs)%nat) as [Hi'|Hi'].
    + destruct (turn_next (dms_rqs w2) ml sl multi sk' pend' Hcut eq_refl Hin Hk Hi') as (d' & Hd' & Edrop & Hst).
      set (f' := f || _). exists w2, (W_Batch rqs (i + ml - part multi) (if multi then u64 (s + sl) else blk_rq_pos (dr_rq d')) f'), io, pend', sk', tot2.
      split.
      { pose proof (ct_len _ _ _ _ _ _ _ _ Hcut). destruct multi; simpl part in *.
        - rewrite bool_decide_false by lia. done.
        - rewrite bool_decide_true by lia. rewrite Hd'. done. }
      split; [done|]. split; [done|]. split; [done|]. split; [done|]. split; [by apply Hcore|].
      simpl. rewrite (qt_list _ _ Hq), Edrop. done.
    + exists w2, (W_Back rqs None 0), io, pend', sk', tot2.
      split; [done|]. split; [done|]. split; [done|]. split; [done|]. split; [done|]. split; [by apply Hcore|].
      pose proof (ct_begun _ _ _ _ _ _ _ _ Hcut) as Hbg'. pose proof (ct_len _ _ _ _ _ _ _ _ Hcut).
      assert (Ed : drop (ml - part multi) (p :: rest) = []) by (apply drop_ge; simpl in *; lia).
      rewrite Ed in Hbg'. simpl. rewrite (qt_list _ _ Hq). unfold pend'. by rewrite Ed.
Qed.
End turn.

(** ** The second half of the invariant *)

(** The sectors of the requests of a direction. *)
Definition sumdir (d : iorw_dir_t) (m : gmap Z dms_rq_t) (l : list Z) : Z :=
  zsum ((fun p => if decide (dir_at m p = d) then blk_rq_sectors (rq_at m p) else 0) <$> l).

(** The sectors of the first request that are submitted already, if it is of the direction. *)
Definition gone (d : iorw_dir_t) (m : gmap Z dms_rq_t) (l : list Z) (sk : Z) : Z :=
  match l with [] => 0 | p :: _ => if decide (dir_at m p = d) then sk else 0 end.

Definition held (os : list kthread) : bool := match os with [t] => holds t | _ => false end.

(** The number of sectors of direction [d] that are in the list. *)
Definition in_list (d : iorw_dir_t) (w : volq) (os : list kthread) (sk : Z) : Z :=
  sumdir d (dms_rqs w) (vol_rqs_list w) - (if held os then 0 else gone d (dms_rqs w) (vol_rqs_list w) sk).

Record queue_ok (vol : Z) (w : volq) (os : list kthread) (pend : list Z) (sk : Z) : Prop := {
  q_cnt : cnt_rqs w = Z.of_nat (length (vol_rqs_list w));
  q_ws : w_sects w = s32 (in_list KERNEL_IO_WRITE w os sk);
  q_rs : r_sects w = s32 (in_list KERNEL_IO_READ w os sk);
  q_nodup : NoDup (active_vol_list (iowker_Mgr w));
  q_owner :
    match os with
    | [] => at_rest w pend sk /\
        if decide (vol ∈ active_vol_list (iowker_Mgr w)) then vol_act_stat w = Vol_Active /\ vol_rqs_list w <> []
        else vol_act_stat w = Vol_Deactive
    | [t] => vol_act_stat w = Vol_Active /\ (vol ∉ active_vol_list (iowker_Mgr w)) /\ owner_ok t w pend sk
    | _ => False
    end;
}.

(** A list that is not empty has an owner, or a thread that will look for one. *)
Definition awake (w : volq) (ts : list kthread) : Prop :=
  vol_rqs_list w <> [] -> vol_act_stat w = Vol_Active \/ E_Update ∈ ts.

Definition io_inv (vol : Z) (fails : bool) (x : iosys) : Prop :=
  exists pend sk tot, core fails (sv x) (sth x) pend sk tot /\ queue_ok vol (sv x) (owners (sth x)) pend sk /\ awake (sv x) (sth x).

Lemma owner_sub t w pend sk : owner_ok t w pend sk -> forall p, p ∈ vol_rqs_list w -> p ∈ pend.
Proof.
  unfold owner_ok, at_rest. intros H p Hp.
  destruct t as [| | |? ? ? ?|? [?|] ?|[]|[]| | | | | | | | ]; destruct_and?; subst; try done; apply elem_of_app; by right.
Qed.

Lemma queue_sub vol w os pend sk : queue_ok vol w os pend sk -> forall p, p ∈ vol_rqs_list w -> p ∈ pend.
Proof.
  intros [_ _ _ _ H]. destruct os as [|t [|? ?]]; [|destruct H as (_ & _ & H); by eapply owner_sub|done].
  destruct H as [[-> _] _]. done.
Qed.

(** The list is shorter than the pool. *)
Lemma queue_len fails vol w ts os pend sk tot : core fails w ts pend sk tot -> queue_ok vol w os pend sk ->
  (length (vol_rqs_list w) <= size (dms_rqs w))%nat.
Proof.
  intros K Q. pose proof (k_refs _ _ _ _ _ _ K) as R.
  assert (Hnd : NoDup (vol_rqs_list w)).
  { pose proof (r_nodup _ _ _ _ R) as Hnd. pose proof (q_owner _ _ _ _ _ Q) as H.
    destruct os as [|t [|? ?]]; [by destruct H as [[<- _] _]| |done]. destruct H as (_ & _ & H). unfold owner_ok, at_rest in H.
    destruct t as [| | |? ? ? ?|? [?|] ?|[]|[]| | | | | | | | ]; destruct_and?; subst; try done;
      by apply NoDup_app in Hnd as (_ & _ & ?). }
  rewrite <- size_dom, <- (size_list_to_set (C := gset Z) (vol_rqs_list w) Hnd).
  apply subseteq_size. intros p Hp%elem_of_list_to_set. apply elem_of_dom.
  eapply r_pend; [exact R|]. by eapply queue_sub.
Qed.

Lemma sumdir_ext d m m' l : (forall p, p ∈ l -> rq_at m' p = rq_at m p) -> sumdir d m' l = sumdir d m l.
Proof.
  intros H. unfold sumdir. f_equal. apply list_fmap_ext. intros i p Hp. unfold dir_at. rewrite H; [done|].
  by eapply list_elem_of_lookup_2.
Qed.

Lemma sumdir_app d m l k : sumdir d m (l ++ k) = sumdir d m l + sumdir d m k.
Proof. unfold sumdir. by rewrite fmap_app, zsum_app. Qed.

Lemma sumdir_cons d m p l :
  sumdir d m (p :: l) = (if decide (dir_at m p = d) then blk_rq_sectors (rq_at m p) else 0) + sumdir d m l.
Proof. done. Qed.

Lemma gone_ext d m m' l sk : (forall p, p ∈ l -> rq_at m' p = rq_at m p) -> gone d m' l sk = gone d m l sk.
Proof. intros H. destruct l as [|p l]; [done|]. simpl. unfold dir_at. by rewrite H by left. Qed.

Lemma starts_ext m m' pend s sk : keeps m m' pend -> starts m pend s sk -> starts m' pend s sk.
Proof. intros H. destruct pend as [|p l]; [done|]. simpl. by rewrite H by left. Qed.

Lemma owner_quiet t w w' pend sk : quiet w w' -> keeps (dms_rqs w) (dms_rqs w') pend ->
  owner_ok t w pend sk -> owner_ok t w' pend sk.
Proof.
  intros Q Hk. unfold owner_ok, at_rest. rewrite (qt_list _ _ Q), (qt_start _ _ Q). pose proof (fun s => starts_ext _ _ pend s sk Hk) as Hs.
  destruct t as [| | |? ? ? ?|? [?|] ?|[]|[]| | | | | | | | ]; intros H; destruct_and?; repeat split; eauto.
  rewrite Forall_forall in *. intros p Hp. unfold dir_at. rewrite Hk; [by apply H3|].
  subst. apply elem_of_app. by left.
Qed.

(** Steps that do not touch the list. *)
Lemma queue_quiet vol w w' os pend sk : quiet w w' -> keeps (dms_rqs w) (dms_rqs w') pend ->
  queue_ok vol w os pend sk -> queue_ok vol w' os pend sk.
Proof.
  intros Q Hk Hq. pose proof (queue_sub _ _ _ _ _ Hq) as Hsub. destruct Hq as [Q1 Q2 Q3 Q4 Q5]. pose proof Q as [E1 E2 E3 E4 E5 E6 E7 E8].
  assert (Hl : forall d, in_list d w' os sk = in_list d w os sk).
  { intros d. unfold in_list. rewrite E1, (sumdir_ext d _ _ _ (fun p H => Hk p (Hsub p H))).
    by rewrite (gone_ext d _ _ _ _ (fun p H => Hk p (Hsub p H))). }
  split; rewrite ?E1, ?E2, ?E5, ?E6, ?E8, ?E4, ?Hl; try done.
  destruct os as [|t [|? ?]]; [|destruct Q5 as (? & ? & ?); repeat split; try done; by eapply owner_quiet|done].
  destruct Q5 as [[-> ?] ?]. split; [|done]. unfold at_rest. rewrite E1, E7. split; [done|]. by eapply starts_ext.
Qed.

(** ** Operations on the list *)

Lemma add_sects_eq d n l c ws rs st w :
  add_sects d n (set_list l c ws rs st w) =
  set_list l c (if decide (d = KERNEL_IO_WRITE) then s32 (ws + n) else ws) (if decide (d = KERNEL_IO_READ) then s32 (rs + n) else rs) st w.
Proof. by destruct d. Qed.

Lemma set_list_twice l c ws rs st l' c' ws' rs' st' w :
  set_list l c ws rs st (set_list l' c' ws' rs' st' w) = set_list l c ws rs st w.
Proof. done. Qed.

(** The change of a counter, written with [sumdir]. *)
Lemma s32_if (P : Prop) `{Decision P} x n : is_s32 x -> (if decide P then s32 (x + n) else x) = s32 (x + if decide P then n else 0).
Proof. intros Hx. case_decide; [done|]. by rewrite Z.add_0_r, s32_small. Qed.

Lemma s32_add_r x y : s32 (s32 x + s32 y) = s32 (x + y).
Proof. by rewrite s32_add, Z.add_comm, s32_add, Z.add_comm. Qed.

Definition set_counts (l : list Z) (c ws rs st : Z) (w : volq) : volq := set_list l (s32 c) (s32 ws) (s32 rs) st w.

(** The sectors of [l] of direction [d] that are still to do. *)
Definition todo (d : iorw_dir_t) (m : gmap Z dms_rq_t) (l : list Z) (first : bool) (sk : Z) : Z :=
  sumdir d m l - if first then gone d m l sk else 0.

Lemma todo_cons d m p l first sk :
  todo d m (p :: l) first sk =
  (if decide (dir_at m p = d) then blk_rq_sectors (rq_at m p) - (if first then sk else 0) else 0) + todo d m l false 0.
Proof. unfold todo. rewrite sumdir_cons. simpl. destruct first, (decide (dir_at m p = d)); lia. Qed.

Lemma deq_loop_spec n : forall first start sk w,
  in_pool (dms_rqs w) (vol_rqs_list w) ->
  (first = true -> starts (dms_rqs w) (vol_rqs_list w) start sk /\ begun (dms_rqs w) (vol_rqs_list w) sk) ->
  is_s32 (cnt_rqs w) -> is_s32 (w_sects w) -> is_s32 (r_sects w) ->
  let l := take n (vol_rqs_list w) in
  deq_loop n first start w =
  Some (set_counts (drop n (vol_rqs_list w)) (cnt_rqs w - Z.of_nat (length l))
          (w_sects w - todo KERNEL_IO_WRITE (dms_rqs w) l first sk) (r_sects w - todo KERNEL_IO_READ (dms_rqs w) l first sk)
          (sect_start w) w, l).
Proof.
  induction n as [|n IH]; intros first start sk w Hin Hf H1 H2 H3 l; unfold l, set_counts.
  { simpl. rewrite drop_0. unfold todo, sumdir. simpl.
    assert (Hz : forall x, is_s32 x -> s32 (x - (0 - (if first then 0 else 0))) = x).
    { intros x Hx. destruct first; rewrite s32_small; unfold is_s32 in *; lia. }
    rewrite !Hz, Z.sub_0_r, s32_small by done. by destruct w. }
  simpl deq_loop. destruct (vol_rqs_list w) as [|p rest] eqn:El.
  { simpl. unfold todo, sumdir. simpl.
    assert (Hz : forall x, is_s32 x -> s32 (x - (0 - (if first then 0 else 0))) = x).
    { intros x Hx. destruct first; rewrite s32_small; unfold is_s32 in *; lia. }
    rewrite !Hz, Z.sub_0_r, s32_small by done. rewrite <- El. by destruct w. }
  pose proof Hin as [[[d Hd] (Hp1 & Hp2 & Hp3)] Hrest]%Forall_cons.
  rewrite Hd. simpl mbind. rewrite <- (rq_at_lookup _ _ _ Hd). fold (dir_at (dms_rqs w) p).
  assert (Hlen : (if first then u32 (blk_rq_sectors (rq_at (dms_rqs w) p) - u32 (start - blk_rq_pos (rq_at (dms_rqs w) p)))
                  else blk_rq_sectors (rq_at (dms_rqs w) p)) = blk_rq_sectors (rq_at (dms_rqs w) p) - (if first then sk else 0)).
  { destruct first; [|lia]. destruct (Hf eq_refl) as [Hs Hb]. simpl in Hs, Hb. subst start.
    unfold MAX_SECTS_PER_RQ in *. rewrite Z.add_simpl_l, (u32_small sk), u32_small by (unfold is_u32; lia). done. }
  rewrite Hlen, add_sects_eq, !s32_if by done.
  rewrite (IH false start 0); simpl; try done; try apply s32_range.
  unfold set_counts. rewrite set_list_twice. simpl. do 2 f_equal.
  rewrite !todo_cons. f_equal.
  - rewrite <- Z.add_opp_r, s32_add. f_equal. lia.
  - rewrite <- Z.add_opp_r, s32_add. f_equal. destruct (decide _); lia.
  - rewrite <- Z.add_opp_r, s32_add. f_equal. destruct (decide _); lia.
Qed.

Definition writes (m : gmap Z dms_rq_t) (l : list Z) : Prop := Forall (fun p => dir_at m p = KERNEL_IO_WRITE) l.

Lemma writes_sum m l : writes m l -> sumdir KERNEL_IO_READ m l = 0.
Proof.
  induction 1 as [|p l Hp _ IH]; [done|]. rewrite sumdir_cons, IH, decide_False by congruence. done.
Qed.

Lemma put_back_all_spec l : forall w, in_pool (dms_rqs w) l -> writes (dms_rqs w) l ->
  is_s32 (cnt_rqs w) -> is_s32 (w_sects w) -> is_s32 (r_sects w) ->
  put_back_all KERNEL_IO_WRITE l w =
  Some (set_counts (l ++ vol_rqs_list w) (cnt_rqs w + Z.of_nat (length l))
          (w_sects w + sumdir KERNEL_IO_WRITE (dms_rqs w) l) (r_sects w) (sect_start w) w).
Proof.
  induction l as [|p l IH]; intros w Hin Hw H1 H2 H3; unfold set_counts.
  { simpl. unfold sumdir. simpl. rewrite !Z.add_0_r, !s32_small by done. by destruct w. }
  apply Forall_cons in Hin as [[[d Hd] _] Hin]. apply Forall_cons in Hw as [Hdir Hw].
  simpl put_back_all. rewrite IH by done. simpl mbind. unfold put_back, set_counts. simpl. rewrite Hd. simpl. f_equal.
  rewrite !set_list_twice, sumdir_cons, decide_True, (rq_at_lookup _ _ _ Hd) by done. f_equal.
  - rewrite s32_add. f_equal. lia.
  - rewrite s32_add. f_equal. lia.
Qed.

(** Putting back what [do_io_batch] returned. *)
Lemma enq_batch_spec l s sk w : l <> [] -> in_pool (dms_rqs w) l -> writes (dms_rqs w) l ->
  starts (dms_rqs w) l s sk -> begun (dms_rqs w) l sk ->
  is_s32 (cnt_rqs w) -> is_s32 (w_sects w) -> is_s32 (r_sects w) ->
  enq_dmsrq_vol_list_batch l s w =
  Some (set_counts (l ++ vol_rqs_list w) (cnt_rqs w + Z.of_nat (length l))
          (w_sects w + todo KERNEL_IO_WRITE (dms_rqs w) l true sk) (r_sects w) s w).
Proof.
  intros Hl Hin Hw Hs Hb H1 H2 H3. unfold enq_dmsrq_vol_list_batch.
  destruct l as [|p l]; [done|]. destruct (last (p :: l)) as [pl|] eqn:Elast; [|by apply last_None in Elast].
  assert (Hpl : pl ∈ p :: l) by (apply last_Some in Elast as [l' ->]; apply elem_of_app; right; left).
  pose proof Hin as HinF. unfold in_pool in HinF. rewrite Forall_forall in HinF. destruct (HinF pl Hpl) as [[dl Hdl] _].
  pose proof Hin as [[[d0 Hd0] (_ & Hsec & _)] _]%Forall_cons.
  rewrite Hdl, Hd0. cbn [mbind option_bind].
  assert (rq_data_dir (dr_rq dl) = KERNEL_IO_WRITE) as ->.
  { rewrite <- (rq_at_lookup _ _ _ Hdl). unfold writes in Hw. rewrite Forall_forall in Hw. by apply Hw. }
  rewrite put_back_all_spec by assumption. cbn [mbind option_bind]. unfold set_counts. rewrite add_sects_eq. simpl.
  f_equal. unfold set_list. simpl. f_equal.
  - simpl in Hs, Hb. rewrite <- (rq_at_lookup _ _ _ Hd0), Hs, Z.add_simpl_l.
    unfold MAX_SECTS_PER_RQ in *. rewrite u32_small by (unfold is_u32; lia). rewrite s32_add. f_equal. unfold todo.
    unfold gone. rewrite decide_True by (by apply Forall_cons in Hw as [? _]). lia.
Qed.

(** ** The list with its owner *)

Section list_steps.
Context (vol : Z) (fails : bool) (w : volq) (ts : list kthread) (pend : list Z) (sk : Z) (tot : Z -> Z).
Context (K : core fails w ts pend sk tot).

Lemma list_s32 os : queue_ok vol w os pend sk -> is_s32 (cnt_rqs w) /\ is_s32 (w_sects w) /\ is_s32 (r_sects w).
Proof.
  intros Q. pose proof (queue_len _ _ _ _ _ _ _ _ K Q) as Hl.
  pose proof (u_size _ (k_users _ _ _ _ _ _ K)) as Hsz. destruct Q as [Q1 Q2 Q3 _ _].
  split; [rewrite Q1; unfold is_s32; lia|]. split; [rewrite Q2|rewrite Q3]; apply s32_range.
Qed.

(** A request is added at the end. *)
Section enq.
Context (p : Z) (rq : request) (w1 : volq).
Context (Hp : dms_rqs w !! p = None) (Hrq : rq_ok rq).
Context (Hw1 : quiet w w1) (Hm1 : dms_rqs w1 = <[p := init_dms_rq rq]> (dms_rqs w)).

Lemma enq_keeps : keeps (dms_rqs w) (dms_rqs w1) pend.
Proof.
  intros x Hx. rewrite Hm1. unfold rq_at. rewrite lookup_insert_ne; [done|]. intros ->.
  destruct (r_pend _ _ _ _ (k_refs _ _ _ _ _ _ K) x Hx) as [? ?]. congruence.
Qed.

Lemma enq_at : rq_at (dms_rqs w1) p = rq.
Proof. rewrite Hm1. unfold rq_at. by rewrite lookup_insert_eq. Qed.

(** The sectors in the list grow by those of the request. *)
Lemma enq_in_list d os c ws rs st : queue_ok vol w os pend sk -> (vol_rqs_list w = [] -> held os = true \/ sk = 0) ->
  in_list d (set_list (vol_rqs_list w ++ [p]) c ws rs st w1) os sk =
  in_list d w os sk + if decide (rq_data_dir rq = d) then blk_rq_sectors rq else 0.
Proof.
  intros Q Hz. pose proof (queue_sub _ _ _ _ _ Q) as Hsub.
  assert (Hk : forall x, x ∈ vol_rqs_list w -> rq_at (dms_rqs w1) x = rq_at (dms_rqs w) x) by (intros; by apply enq_keeps, Hsub).
  unfold in_list. simpl. rewrite sumdir_app, (sumdir_ext d _ _ _ Hk), sumdir_cons. unfold dir_at. rewrite enq_at.
  change (sumdir d (dms_rqs w1) []) with 0.
  assert (Hg : (if held os then 0 else gone d (dms_rqs w1) (vol_rqs_list w ++ [p]) sk) =
               (if held os then 0 else gone d (dms_rqs w) (vol_rqs_list w) sk)); [|rewrite Hg; lia].
  destruct (vol_rqs_list w) as [|h l].
  - destruct (Hz eq_refl) as [-> | ->]; [done|]. simpl. destruct (held os); [done|]. by case_decide.
  - destruct (held os); [done|]. simpl. unfold dir_at. by rewrite Hk by left.
Qed.

Lemma starts_snoc st : (pend = [] -> st = blk_rq_pos rq /\ sk = 0) -> starts (dms_rqs w) pend st sk ->
  starts (dms_rqs w1) (pend ++ [p]) st sk.
Proof.
  intros Hz Hs. pose proof enq_keeps as Hk. pose proof enq_at as Ha. destruct pend as [|h l]; simpl.
  - destruct (Hz eq_refl) as [-> ->]. rewrite Ha. lia.
  - simpl in Hs. by rewrite Hk by left.
Qed.

Lemma enq_owner t c ws rs : owner_ok t w pend sk -> is_owner t ->
  owner_ok t (set_list (vol_rqs_list w ++ [p]) c ws rs (if decide (vol_rqs_list w = []) then blk_rq_pos rq else sect_start w) w1)
    (pend ++ [p]) sk.
Proof.
  intros H Ht. pose proof (r_begun _ _ _ _ (k_refs _ _ _ _ _ _ K)) as Hb.
  assert (Hz : pend = [] -> sk = 0) by (intros E; rewrite E in Hb; done).
  assert (Hrest : at_rest w pend sk ->
    at_rest (set_list (vol_rqs_list w ++ [p]) c ws rs (if decide (vol_rqs_list w = []) then blk_rq_pos rq else sect_start w) w1)
      (pend ++ [p]) sk).
  { intros [E Hs]. split; [by rewrite E|]. simpl. apply starts_snoc.
    - intros E0. split; [|auto]. rewrite decide_True by congruence. done.
    - destruct (decide (vol_rqs_list w = [])) as [E0|]; [|done]. by rewrite E, E0. }
  assert (Hne : vol_rqs_list w ++ [p] <> []) by (by destruct (vol_rqs_list w)).
  assert (Hdrop : forall rqs i s, (i < length rqs)%nat -> pend = drop i rqs ++ vol_rqs_list w -> starts (dms_rqs w) pend s sk ->
    starts (dms_rqs w1) (pend ++ [p]) s sk).
  { intros rqs i s Hi E Hs. apply starts_snoc; [|done]. intros E0. rewrite E0 in E. symmetry in E.
    apply app_eq_nil in E as [E _]. apply (f_equal length) in E. rewrite length_drop in E. simpl in E. lia. }
  unfold owner_ok in *.
  destruct t as [| | |rqs i s f|rqs [i|] s|[]|[]| | | | | | | | ]; try (by destruct Ht); simpl; destruct_and?; repeat split; auto.
  all: try (apply Hrest; assumption); try (eapply Hdrop; eassumption).
  - subst. by rewrite app_assoc.
  - subst. by rewrite app_assoc.
  - rewrite Forall_forall in *. intros x Hx. unfold dir_at. rewrite enq_keeps; [by apply H3|]. subst. apply elem_of_app. by left.
  - by subst.
Qed.

Lemma enq_queue os : Forall is_owner os -> queue_ok vol w os pend sk -> Z.of_nat (size (dms_rqs w)) < 2 ^ 31 - 1 ->
  exists c ws rs st, enq_dmsrq_vol_list p w1 = Some (set_list (vol_rqs_list w ++ [p]) c ws rs st w1) /\
    queue_ok vol (set_list (vol_rqs_list w ++ [p]) c ws rs st w1) os (pend ++ [p]) sk.
Proof.
  intros Hos Q Hsz. pose proof (list_s32 _ Q) as (S1 & S2 & S3). pose proof (queue_len _ _ _ _ _ _ _ _ K Q) as Hl.
  pose proof Hw1 as [E1 E2 E3 E4 E5 E6 E7 E8].
  unfold enq_dmsrq_vol_list. rewrite Hm1, lookup_insert_eq. simpl. rewrite add_sects_eq, E1, E2, E5, E6, E7.
  pose proof Q as [Q1 Q2 Q3 Q4 Q5]. rewrite !s32_if by done.
  assert (Hc : s32 (cnt_rqs w + 1) = Z.of_nat (length (vol_rqs_list w)) + 1) by (rewrite Q1; apply s32_small; unfold is_s32; lia).
  do 4 eexists. split; [done|].
  assert (Hst : (if s32 (cnt_rqs w + 1) =? 1 then blk_rq_pos rq else sect_start w) =
                (if decide (vol_rqs_list w = []) then blk_rq_pos rq else sect_start w)).
  { rewrite Hc. destruct (vol_rqs_list w) as [|h l]; [done|]. rewrite decide_False by done.
    destruct (_ =? 1) eqn:E; zbool; [simpl in E; lia|done]. }
  rewrite Hst.
  assert (Hz : vol_rqs_list w = [] -> held os = true \/ sk = 0).
  { intros E0. pose proof (r_begun _ _ _ _ (k_refs _ _ _ _ _ _ K)) as Hb.
    destruct os as [|t [|? ?]]; [| |done].
    - right. destruct Q5 as [[E _] _]. rewrite E, E0 in Hb. done.
    - destruct Q5 as (_ & _ & Ho). unfold owner_ok, at_rest in Ho. simpl.
      destruct t as [| | |rqs i s f|rqs [i|] s|[]|[]| | | | | | | | ]; auto; right;
        destruct_and?; try done; (match goal with H : pend = _ |- _ => rewrite H, E0 in Hb; exact Hb end || congruence). }
  split; simpl.
  - rewrite Hc, length_app. simpl. lia.
  - rewrite (enq_in_list KERNEL_IO_WRITE os) by done. rewrite Q2, s32_add. done.
  - rewrite (enq_in_list KERNEL_IO_READ os) by done. rewrite Q3, s32_add. done.
  - by rewrite E8.
  - rewrite E4, E8. destruct os as [|t [|? ?]]; [| |done].
    + destruct Q5 as [Hr Ha]. split.
      * pose proof (enq_owner W_Done) as H. apply H; [exact Hr|]. split; [by intros []|done].
      * destruct (decide (vol ∈ _)); [|done]. destruct Ha. split; [done|]. by destruct (vol_rqs_list w).
    + destruct Q5 as (? & ? & ?). split; [done|]. split; [done|]. apply enq_owner; [done|].
      by apply Forall_cons in Hos as [Hos _].
Qed.

End enq.

Lemma list_pool os : queue_ok vol w os pend sk -> in_pool (dms_rqs w) (vol_rqs_list w).
Proof.
  intros Q. pose proof (r_pool _ _ _ _ (k_refs _ _ _ _ _ _ K)) as H. unfold in_pool in *.
  rewrite Forall_forall in *. intros x Hx. apply H. by eapply queue_sub.
Qed.

(** A worker takes requests out. *)
Lemma deq_queue f : queue_ok vol w [W_Deq] pend sk ->
  let l := take MAX_NUM_RQS_MERGE (vol_rqs_list w) in
  exists c ws rs, deq_dms_rq_list w = Some (set_list (drop MAX_NUM_RQS_MERGE (vol_rqs_list w)) c ws rs (sect_start w) w, l, sect_start w) /\
    l <> [] /\ queue_ok vol (set_list (drop MAX_NUM_RQS_MERGE (vol_rqs_list w)) c ws rs (sect_start w) w) [W_Batch l 0 (sect_start w) f] pend sk.
Proof.
  intros Q l. pose proof (list_s32 _ Q) as (S1 & S2 & S3). pose proof (queue_len _ _ _ _ _ _ _ _ K Q) as Hl.
  pose proof (u_size _ (k_users _ _ _ _ _ _ K)) as Hsz. pose proof (list_pool _ Q) as Hin.
  pose proof Q as [Q1 Q2 Q3 Q4 (Hact & Hlist & [Ep Hst] & Hne)].
  pose proof (r_begun _ _ _ _ (k_refs _ _ _ _ _ _ K)) as Hb. rewrite Ep in Hb, Hst.
  unfold deq_dms_rq_list. rewrite (deq_loop_spec _ true (sect_start w) sk) by done. simpl. unfold set_counts.
  fold l. do 3 eexists. split; [done|].
  assert (Hl0 : l <> []) by (unfold l; by destruct (vol_rqs_list w)).
  assert (Hlen : (length l + length (drop MAX_NUM_RQS_MERGE (vol_rqs_list w)) = length (vol_rqs_list w))%nat).
  { unfold l. by rewrite <- length_app, take_drop. }
  assert (Hsum : forall d, in_list d w [W_Deq] sk - todo d (dms_rqs w) l true sk =
                 sumdir d (dms_rqs w) (drop MAX_NUM_RQS_MERGE (vol_rqs_list w))).
  { intros d. unfold in_list, todo. simpl held. cbn match.
    rewrite <- (take_drop MAX_NUM_RQS_MERGE (vol_rqs_list w)) at 1 2. fold l. rewrite sumdir_app.
    destruct l as [|h l']; [done|]. simpl. lia. }
  split; [done|]. split; simpl.
  - rewrite Q1, s32_small; unfold is_s32; lia.
  - rewrite Q2, <- Z.add_opp_r, s32_add, Z.add_opp_r, Hsum. f_equal. unfold in_list. simpl. lia.
  - rewrite Q3, <- Z.add_opp_r, s32_add, Z.add_opp_r, Hsum. f_equal. unfold in_list. simpl. lia.
  - done.
  - split; [done|]. split; [done|]. split; [destruct l; simpl; [done|lia]|]. rewrite drop_0.
    unfold l. rewrite take_drop, Ep. done.
Qed.

(** A worker puts requests back. *)
Lemma back_queue rqs i s : queue_ok vol w [W_Back rqs (Some i) s] pend sk ->
  exists c ws rs, enq_dmsrq_vol_list_batch (drop i rqs) s w = Some (set_list pend c ws rs s w) /\
    queue_ok vol (set_list pend c ws rs s w) [W_Check true] pend sk.
Proof.
  intros Q. pose proof (list_s32 _ Q) as (S1 & S2 & S3).
  pose proof (u_size _ (k_users _ _ _ _ _ _ K)) as Hsz. pose proof (k_refs _ _ _ _ _ _ K) as R.
  pose proof (r_pool _ _ _ _ R) as Hin. pose proof (r_begun _ _ _ _ R) as Hb.
  pose proof Q as [Q1 Q2 Q3 Q4 (Hact & Hlist & Hi & Ep & Hst & Hw)].
  assert (Hlen : (length pend <= size (dms_rqs w))%nat).
  { rewrite <- size_dom, <- (size_list_to_set (C := gset Z) pend (r_nodup _ _ _ _ R)).
    apply subseteq_size. intros p Hp%elem_of_list_to_set. apply elem_of_dom. by eapply r_pend. }
  destruct (drop i rqs) as [|p l] eqn:El.
  { apply (f_equal length) in El. rewrite length_drop in El. simpl in El. lia. }
  rewrite Ep in Hin, Hb, Hst. apply Forall_app in Hin as [Hin _].
  rewrite (enq_batch_spec (p :: l) s sk) by done. unfold set_counts. rewrite <- Ep.
  do 3 eexists. split; [done|]. pose proof (f_equal length Ep) as Elen. rewrite length_app in Elen. simpl in Elen.
  assert (Hd : dir_at (dms_rqs w) p = KERNEL_IO_WRITE) by (by apply Forall_cons in Hw as [? _]).
  unfold in_list in Q2, Q3. simpl held in Q2, Q3. cbn match in Q2, Q3. rewrite Z.sub_0_r in Q2, Q3. split; simpl.
  - rewrite Q1, s32_small; unfold is_s32; lia.
  - rewrite Q2, s32_add. f_equal. unfold in_list, todo. simpl. rewrite Ep, sumdir_app. simpl. lia.
  - rewrite Q3, (s32_small (s32 _)) by apply s32_range. f_equal. unfold in_list. simpl. rewrite Ep, sumdir_app, (writes_sum _ _ Hw).
    simpl. rewrite decide_False by congruence. lia.
  - done.
  - split; [done|]. split; [done|]. split; [|by rewrite Ep]. split; [done|]. simpl. by rewrite Ep.
Qed.

(** ... or has none to put back. *)
Lemma none_queue rqs s : queue_ok vol w [W_Back rqs None s] pend sk ->
  exists st, update_vol_rq_list_start w = Some (set_list (vol_rqs_list w) (cnt_rqs w) (w_sects w) (r_sects w) st w) /\
    queue_ok vol (set_list (vol_rqs_list w) (cnt_rqs w) (w_sects w) (r_sects w) st w) [W_Check false] pend sk.
Proof.
  intros Q. pose proof (list_pool _ Q) as Hin. pose proof Q as [Q1 Q2 Q3 Q4 (Hact & Hlist & Ep & Hsk)].
  unfold update_vol_rq_list_start.
  assert (Hg : forall d l, gone d (dms_rqs w) l 0 = 0) by (intros d [|h l]; [done|]; simpl; by case_decide).
  unfold in_list in Q2, Q3. simpl held in Q2, Q3. cbn match in Q2, Q3. rewrite Z.sub_0_r in Q2, Q3.
  assert (Hq : forall st, starts (dms_rqs w) (vol_rqs_list w) st 0 ->
    queue_ok vol (set_list (vol_rqs_list w) (cnt_rqs w) (w_sects w) (r_sects w) st w) [W_Check false] pend sk).
  { intros st Hst. split; simpl; unfold in_list; simpl; rewrite ?Hsk, ?Hg, ?Z.sub_0_r; try done.
    split; [done|]. split; [done|]. split; [done|]. by rewrite Ep. }
  destruct (vol_rqs_list w) as [|h l] eqn:El.
  - exists (sect_start w). split; [|by apply Hq]. rewrite <- El. by destruct w.
  - apply Forall_cons in Hin as [[[d Hd] _] _]. rewrite Hd. simpl.
    exists (blk_rq_pos (dr_rq d)). split; [done|]. apply Hq. simpl. rewrite (rq_at_lookup _ _ _ Hd). lia.
Qed.
End list_steps.

(** ** Steps *)

Lemma owners_cons_owner t ts : is_owner t -> owners (t :: ts) = t :: owners ts.
Proof. intros H. unfold owners. by rewrite filter_cons_True. Qed.

Lemma owners_cons_other t ts : ~ is_owner t -> owners (t :: ts) = owners ts.
Proof. intros H. unfold owners. by rewrite filter_cons_False. Qed.

Lemma owners_forall ts : Forall is_owner (owners ts).
Proof. apply Forall_forall. intros t [Ht _]%list_elem_of_filter. done. Qed.

(** The owner is alone. *)
Lemma owner_alone vol w pre t post pend sk : is_owner t -> queue_ok vol w (owners (pre ++ t :: post)) pend sk ->
  owners pre = [] /\ owners post = [] /\ queue_ok vol w [t] pend sk.
Proof.
  intros Ht Q. rewrite owners_app, owners_cons_owner in Q by done.
  pose proof (q_owner _ _ _ _ _ Q) as H.
  destruct (owners pre) as [|a pr]; [destruct (owners post); [done|by destruct H]|]. destruct pr; by destruct H.
Qed.

Lemma owner_replace pre ts post : owners pre = [] -> owners post = [] -> owners (pre ++ ts ++ post) = owners ts.
Proof. intros H1 H2. by rewrite !owners_app, H1, H2, app_nil_r. Qed.

Lemma queue_agg vol n w os pend sk : queue_ok vol w os pend sk -> queue_ok vol (set_agg n w) os pend sk.
Proof. intros [Q1 Q2 Q3 Q4 Q5]. by split. Qed.

(** Another state of the same thread, with the list at rest. *)
Lemma queue_owner vol w t t' pend sk : queue_ok vol w [t] pend sk -> holds t = false -> holds t' = false ->
  (owner_ok t w pend sk -> owner_ok t' w pend sk) -> queue_ok vol w [t'] pend sk.
Proof.
  intros [Q1 Q2 Q3 Q4 (Ha & Hv & Ho)] H1 H2 H. unfold in_list in *. simpl in *.
  rewrite H1 in Q2, Q3. split; simpl; unfold in_list; simpl; rewrite ?H2; try done. auto.
Qed.

Lemma awake_active w ts : vol_act_stat w = Vol_Active -> awake w ts.
Proof. intros H _. by left. Qed.

(** A step of a thread of an io request. *)
Lemma inv_io vol fails w w' pre t ts post pend sk tot :
  core fails w' (pre ++ ts ++ post) pend sk tot -> queue_ok vol w (owners (pre ++ t :: post)) pend sk ->
  awake w (pre ++ t :: post) -> is_io t -> Forall is_io ts -> quiet w w' -> keeps (dms_rqs w) (dms_rqs w') pend ->
  io_inv vol fails {| sv := w'; sth := pre ++ ts ++ post |}.
Proof.
  intros K Q A Ht Hts Hq Hk. exists pend, sk, tot. simpl. split; [done|]. split.
  - rewrite owners_app, owners_cons_other in Q by (by intros [? _]). rewrite !owners_app, (owners_io ts Hts).
    by eapply queue_quiet.
  - unfold awake in *. rewrite (qt_list _ _ Hq), (qt_act _ _ Hq). intros H. destruct (A H) as [?|Hin]; [by left|right].
    apply elem_of_app in Hin as [Hin|Hin]; [apply elem_of_app; by left|].
    apply elem_of_cons in Hin as [E|Hin]; [by rewrite <- E in Ht|]. rewrite !elem_of_app. auto.
Qed.

Lemma outst_pos fails w ts pend sk tot p t : core fails w ts pend sk tot -> t ∈ ts -> p ∈ refs t -> 0 < tot p.
Proof.
  intros K Ht Hp. pose proof (k_out _ _ _ _ _ _ K p) as H. assert (0 < outst p ts); [|lia].
  apply occ_pos. apply list_elem_of_bind. eauto.
Qed.

Section steps.
Context (vol cnt : Z) (fails : bool).

Lemma io_thread_ok b t pre post w : is_io t -> io_inv vol fails {| sv := w; sth := pre ++ t :: post |} ->
  exists w' ts, run_thread vol cnt b t w = Some (w', ts) /\ io_inv vol fails {| sv := w'; sth := pre ++ ts ++ post |}.
Proof.
  intros Ht (pend & sk & tot & K & Q & A). simpl in K, Q, A.
  assert (Hin : t ∈ pre ++ t :: post) by (apply elem_of_app; right; left).
  pose proof (fun p H => outst_pos _ _ _ _ _ _ p t K Hin H) as Hpos.
  pose proof (k_refs _ _ _ _ _ _ K) as R. pose proof (k_users _ _ _ _ _ _ K) as U.
  assert (Hsame : forall t', refs t' = refs t -> io_dirof t' = io_dirof t -> core fails w (pre ++ [t'] ++ post) pend sk tot).
  { intros t' H1 H2. eapply core_threads; [exact K| |].
    - intros x. simpl. by rewrite !outst_app, !outst_cons, H1.
    - intros d. simpl. by rewrite !nios_app, !nios_cons, H2. }
  destruct t as [| | | | | | | | | |dir l|dir [|p l] res|dir p l res v|dir p l res|dir]; try done; simpl in Hpos.
  - do 2 eexists. split; [done|]. eapply inv_io; [|exact Q|exact A|done|by repeat constructor|by repeat split|apply keeps_refl].
    eapply core_fields; [by apply Hsame|done..].
  - do 2 eexists. split; [done|]. eapply inv_io; [by apply Hsame|exact Q|exact A|done|by repeat constructor|done|apply keeps_refl].
  - destruct (refs_tot _ _ _ _ p R) as [d Hd]; [apply Hpos; left|]. simpl. rewrite Hd. simpl. do 2 eexists. split; [done|].
    eapply inv_io; [by apply Hsame|exact Q|exact A|done|by repeat constructor|done|apply keeps_refl].
  - destruct (set_result_ok w pend sk tot p v R) as (d & Hd & P); [apply Hpos; left|done|].
    simpl. rewrite Hd. simpl. do 2 eexists. split; [done|].
    eapply inv_io; [|exact Q|exact A|done|by repeat constructor|apply P|apply P].
    eapply core_post; [exact K|exact P| |].
    + intros x. simpl. rewrite !outst_app, !outst_cons. simpl. lia.
    + intros d'. simpl. by rewrite !nios_app, !nios_cons.
  - destruct (rq_put_ok w pend sk tot p R) as (w' & E & P); [apply Hpos; left|done|].
    simpl. rewrite E. simpl. do 2 eexists. split; [done|].
    eapply inv_io; [|exact Q|exact A|done|by repeat constructor|apply P|apply P].
    eapply core_post; [exact K|exact P| |].
    + intros x. unfold tot_add. simpl. rewrite !outst_app, !outst_cons. simpl. rewrite occ_cons.
      destruct (decide (p = x)); lia.
    + intros d'. simpl. by rewrite !nios_app, !nios_cons.
  - simpl. do 2 eexists. split; [done|].
    eapply (inv_io _ _ w _ _ _ []); [simpl; by apply core_end|exact Q|exact A|done|done|by destruct dir; repeat split|by destruct dir].
Qed.

Lemma inv_owner w' pre ts post pend sk tot :
  core fails w' (pre ++ ts ++ post) pend sk tot -> owners pre = [] -> owners post = [] ->
  queue_ok vol w' (owners ts) pend sk -> awake w' (pre ++ ts ++ post) ->
  io_inv vol fails {| sv := w'; sth := pre ++ ts ++ post |}.
Proof. intros K H1 H2 Q A. exists pend, sk, tot. simpl. rewrite owner_replace by done. done. Qed.

Lemma core_plain w w' pre t t' post pend sk tot : core fails w (pre ++ t :: post) pend sk tot -> plain t -> plain t' ->
  dms_rqs w' = dms_rqs w -> submitted w' = submitted w -> enqueued w' = enqueued w ->
  told w' = told w -> arrived w' = arrived w -> lgr_rqs w' = lgr_rqs w ->
  linger_wreq_cnt w' = linger_wreq_cnt w -> linger_rreq_cnt w' = linger_rreq_cnt w ->
  core fails w' (pre ++ [t'] ++ post) pend sk tot.
Proof.
  intros K [H1 H2] [H3 H4] **. eapply core_fields; [|done..]. eapply core_threads; [exact K| |].
  - intros x. simpl. by rewrite !outst_app, !outst_cons, H1, H3.
  - intros d. simpl. by rewrite !nios_app, !nios_cons, H2, H4.
Qed.

Lemma core_gone w w' pre t post pend sk tot : core fails w (pre ++ t :: post) pend sk tot -> plain t ->
  dms_rqs w' = dms_rqs w -> submitted w' = submitted w -> enqueued w' = enqueued w ->
  told w' = told w -> arrived w' = arrived w -> lgr_rqs w' = lgr_rqs w ->
  linger_wreq_cnt w' = linger_wreq_cnt w -> linger_rreq_cnt w' = linger_rreq_cnt w ->
  core fails w' (pre ++ [] ++ post) pend sk tot.
Proof.
  intros K [H1 H2] **. eapply core_fields; [|done..]. eapply core_threads; [exact K| |].
  - intros x. simpl. by rewrite !outst_app, !outst_cons, H1.
  - intros d. simpl. rewrite !nios_app, !nios_cons, H2, decide_False by done. lia.
Qed.

(** A worker or a thread that brought a request goes on, with the list at rest. *)
Lemma rest_step w w' pre t t' post pend sk tot :
  core fails w (pre ++ t :: post) pend sk tot -> owners pre = [] -> owners post = [] -> queue_ok vol w [t] pend sk ->
  plain t -> plain t' -> is_owner t' -> holds t = false -> holds t' = false ->
  (w' = w \/ exists n, w' = set_agg n w) -> (owner_ok t w pend sk -> owner_ok t' w pend sk) ->
  io_inv vol fails {| sv := w'; sth := pre ++ [t'] ++ post |}.
Proof.
  intros K H1 H2 Q P1 P2 Ho Hh Hh' Hw Himp.
  pose proof (q_owner _ _ _ _ _ Q) as (Hact & _).
  pose proof (queue_owner _ _ _ t' _ _ Q Hh Hh' Himp) as Q'.
  apply (inv_owner _ _ _ _ pend sk tot); try done.
  - destruct Hw as [->|[n ->]]; by eapply core_plain.
  - rewrite owners_cons_owner by done. destruct Hw as [->|[n ->]]; [done|by apply queue_agg].
  - apply awake_active. by destruct Hw as [->|[n ->]].
Qed.
End steps.
