(* ===== verification/IOWorkerMain.v ===== *)
(** * IOWorkerMain: theorems about all runs of the workers

    The steps of the threads that own the volume and the arrival of requests keep the invariant; so
    in every run: the io requests are the requests, cut in their order ([io_stream_exact]); every
    request is answered at most once, not before all its sectors are through, and none is freed too early
    ([requests_answered_once]); no request is left waiting without a thread that will take it ([no_request_forgotten]);
    the counter used for flushing and detaching means what it should ([io_done_exact]); and two defects of the
    error paths ([failed_merge_strands], [split_failure_lost]). *)

From S2P Require Import Prelude CommonUtil IOReqOvlp IOWorker IOWorkerSpec IOWorkerRun IOWorkerLife.

(** Side conditions of a step of the owner. *)
Ltac owner_side := first [done | by left | by right; eexists | by split; [intros []|discriminate]].

Section steps.
Context (vol cnt : Z) (enable fails : bool).

(** The volume is put on the list of active volumes. *)
Lemma enq_active_ok w pre t post pend sk tot :
  core fails w (pre ++ t :: post) pend sk tot -> owners pre = [] -> owners post = [] -> queue_ok vol w [t] pend sk ->
  plain t -> holds t = false -> (owner_ok t w pend sk -> at_rest w pend sk /\ vol_rqs_list w <> []) ->
  io_inv vol fails {| sv := set_act (vol_act_stat w) (enq_vol_active_list vol (iowker_Mgr w)) w; sth := pre ++ [] ++ post |}.
Proof.
  intros K H1 H2 [Q1 Q2 Q3 Q4 (Hact & Hv & Ho)] P Hh Himp. destruct (Himp Ho) as [Hr Hne].
  unfold enq_vol_active_list. rewrite decide_False by done.
  apply (inv_owner _ _ _ _ _ _ pend sk tot); try done; [by eapply core_gone| |by apply awake_active].
  unfold in_list in Q2, Q3. simpl in Q2, Q3. rewrite Hh in Q2, Q3.
  split; simpl; try done.
  - apply NoDup_app. split; [done|]. split; [|apply NoDup_singleton].
    intros x Hx. rewrite list_elem_of_singleton. by intros ->.
  - split; [done|]. rewrite decide_True; [done|]. apply elem_of_app. right. left.
Qed.

(** The owner stays, or the volume is at rest with an empty list. *)
Lemma done_ok w pre post pend sk tot :
  core fails w (pre ++ W_Done :: post) pend sk tot -> owners pre = [] -> owners post = [] -> queue_ok vol w [W_Done] pend sk ->
  exists w' ts, run_thread vol cnt true W_Done w = Some (w', ts) /\ io_inv vol fails {| sv := w'; sth := pre ++ ts ++ post |}.
Proof.
  intros K H1 H2 Q. pose proof Q as [Q1 Q2 Q3 Q4 (Hact & Hv & Ho)].
  simpl. unfold update_vol_active_stat. rewrite Hact. destruct (cnt_rqs w =? 0) eqn:E; zbool.
  - do 2 eexists. split; [done|]. rewrite decide_False by done.
    assert (El : vol_rqs_list w = []) by (destruct (vol_rqs_list w); [done|]; simpl in Q1; lia).
    apply (inv_owner _ _ _ _ _ _ pend sk tot); try done; [by eapply core_gone| |].
    + split; simpl; try done. split; [done|]. by rewrite decide_False.
    + intros Hne. done.
  - do 2 eexists. split; [done|]. rewrite decide_True by done.
    eapply rest_step; [exact K|done|done|exact Q|done|done|by split; [intros []|]|done|done|by left|].
    intros Hr. split; [exact Hr|]. intros El. rewrite El in Q1. simpl in Q1. lia.
Qed.

Lemma batch_ok (b : bool) rqs i s f w (pre post : list kthread) pend sk tot :
  let ts := pre ++ W_Batch rqs i s f :: post in
  core fails w ts pend sk tot -> owners pre = [] -> owners post = [] -> queue_ok vol w [W_Batch rqs i s f] pend sk ->
  (if b then nios KERNEL_IO_READ ts + nios KERNEL_IO_WRITE ts < 2 ^ 31 - 1 else fails = true) ->
  exists w' ts, run_thread vol cnt b (W_Batch rqs i s f) w = Some (w', ts) /\
    io_inv vol fails {| sv := w'; sth := pre ++ ts ++ post |}.
Proof.
  intros ts K H1 H2 [Q1 Q2 Q3 Q4 (Hact & Hv & Hi & Ep & Hs)] Hb.
  destruct (drop i rqs) as [|p rest] eqn:Ed.
  { apply (f_equal length) in Ed. rewrite length_drop in Ed. simpl in Ed. lia. }
  rewrite Ep in K, Hs. simpl in Hs. subst s.
  destruct (batch_turn_ok fails b f w rqs i p rest sk tot pre post Ed K Hb)
    as (w' & t & io & pend' & sk' & tot' & E & Hio & Hh & Hq & Hk & K' & Ho).
  exists w', (t :: io). split; [exact E|].
  assert (Ht : is_owner t) by (destruct t; try discriminate; (split; [by intros []|done])).
  pose proof Hq as [E1 E2 E3 E4 E5 E6 E7 E8].
  apply (inv_owner _ _ _ _ _ _ pend' sk' tot'); try done; [|by apply awake_active; rewrite E4].
  rewrite owners_cons_owner, (owners_io _ Hio) by done.
  assert (Hl : forall d, in_list d w' [t] sk' = in_list d w [W_Batch rqs i (blk_rq_pos (rq_at (dms_rqs w) p) + sk) f] sk).
  { intros d. unfold in_list. simpl held. rewrite Hh. simpl. rewrite E1. f_equal. apply sumdir_ext.
    intros x Hx. apply Hk. eapply owner_sub; [exact Ho|]. by rewrite E1. }
  split; rewrite ?E1, ?E2, ?E4, ?E5, ?E6, ?E8, ?Hl; done.
Qed.

Lemma owner_thread_ok (b : bool) t (pre post : list kthread) w : is_owner t -> io_inv vol fails {| sv := w; sth := pre ++ t :: post |} ->
  env_allows fails b t (pre ++ t :: post) ->
  exists w' ts, run_thread vol cnt b t w = Some (w', ts) /\ io_inv vol fails {| sv := w'; sth := pre ++ ts ++ post |}.
Proof.
  intros Ht (pend & sk & tot & K & Q & A) Hg. simpl in K, Q, A.
  destruct (owner_alone _ _ _ _ _ _ _ Ht Q) as (H1 & H2 & Q'). pose proof (q_cnt _ _ _ _ _ Q') as Hc.
  pose proof (q_owner _ _ _ _ _ Q') as (Hact & _).
  assert (Hstep : forall w' t', plain t -> plain t' -> is_owner t' -> holds t = false -> holds t' = false ->
    (w' = w \/ exists n, w' = set_agg n w) -> (owner_ok t w pend sk -> owner_ok t' w pend sk) ->
    exists w2 ts, Some (w', [t']) = Some (w2, ts) /\ io_inv vol fails {| sv := w2; sth := pre ++ ts ++ post |}).
  { intros w' t' **. exists w', [t']. split; [reflexivity|]. by eapply rest_step. }
  destruct t as [| | |rqs i s f|rqs [i|] s|again|[]| | | |? ?|? ? ?|? ? ? ? ?|? ? ? ?|?]; 
    try (exfalso; destruct Ht as [Ha Hb]; first [apply Ha; exact I|apply Hb; reflexivity]); simpl run_thread.
  - do 2 eexists. split; [done|]. by eapply enq_active_ok.
  - destruct (deq_queue vol fails w _ pend sk tot K (rq_agg_wait_cnt w >? 0) Q') as (c & ws & rs & E & Hl & Q2).
    rewrite E. simpl. destruct (take MAX_NUM_RQS_MERGE (vol_rqs_list w)) as [|p l]; [done|].
    do 2 eexists. split; [done|]. apply (inv_owner _ _ _ _ _ _ pend sk tot); try done; [by eapply core_plain|by apply awake_active].
  - unfold env_allows in Hg. rewrite <- nios_total in Hg. by eapply batch_ok.
  - destruct (back_queue vol fails w _ pend sk tot K rqs i s Q') as (c & ws & rs & E & Q2).
    rewrite E. simpl. do 2 eexists. split; [done|].
    apply (inv_owner _ _ _ _ _ _ pend sk tot); try done; [by eapply core_plain|by apply queue_agg|by apply awake_active].
  - destruct (none_queue vol fails w _ pend sk tot K rqs s Q') as (st & E & Q2).
    rewrite E. simpl. do 2 eexists. split; [done|].
    apply (inv_owner _ _ _ _ _ _ pend sk tot); try done; [by eapply core_plain|by apply queue_agg|by apply awake_active].
  - destruct (_ >? 0); apply Hstep; try owner_side; destruct again; simpl; tauto.
  - destruct (enough w); apply Hstep; try owner_side.
  - destruct (cnt_rqs w >? 0) eqn:E; zbool; apply Hstep; try owner_side.
    intros Hr. split; [exact Hr|]. intros El. rewrite El in Hc. simpl in Hc. lia.
  - destruct (_ <? _); [destruct (enough w)|]; apply Hstep; try owner_side.
  - by eapply done_ok.
  - do 2 eexists. split; [done|]. by eapply enq_active_ok.
Qed.

Lemma not_owner_update : ~ is_owner E_Update.
Proof. by intros [_ []]. Qed.

Lemma update_thread_ok b pre post w : io_inv vol fails {| sv := w; sth := pre ++ E_Update :: post |} ->
  exists w' ts, run_thread vol cnt b E_Update w = Some (w', ts) /\ io_inv vol fails {| sv := w'; sth := pre ++ ts ++ post |}.
Proof.
  intros (pend & sk & tot & K & Q & A). simpl in K, Q, A.
  rewrite owners_app, owners_cons_other in Q by apply not_owner_update.
  assert (K' : forall w', w' = w -> core fails w' (pre ++ [] ++ post) pend sk tot) by (intros w' ->; by eapply core_gone).
  simpl. unfold update_vol_active_stat. pose proof Q as [Q1 Q2 Q3 Q4 Q5].
  destruct (vol_act_stat w) eqn:Ea.
  - destruct (owners pre ++ owners post) as [|t [|? ?]] eqn:Eo; [|by destruct Q5|done].
    apply app_eq_nil in Eo as [Eo1 Eo2]. destruct Q5 as [Hr Hv].
    destruct (decide (vol ∈ active_vol_list (iowker_Mgr w))) as [?|Hn]; [by destruct Hv|].
    destruct (cnt_rqs w >? 0) eqn:Ec; zbool.
    + do 2 eexists. split; [done|]. rewrite decide_True by done.
      apply (inv_owner _ _ _ _ _ _ pend sk tot); try done; [by eapply core_plain| |by apply awake_active].
      split; simpl; try done. split; [done|]. split; [done|]. split; [exact Hr|].
      intros El. rewrite El in Q1. simpl in Q1. lia.
    + do 2 eexists. split; [done|]. rewrite decide_False by done. apply (inv_owner _ _ _ _ _ _ pend sk tot); try done; [by apply K'|].
      intros Hne. destruct (vol_rqs_list w); [done|]. simpl in Q1. lia.
  - do 2 eexists. split; [done|]. rewrite decide_False by done. exists pend, sk, tot. simpl. split; [by apply K'|].
    split; [by rewrite owners_app|by apply awake_active].
  - destruct (owners pre ++ owners post) as [|t [|? ?]]; [|by destruct Q5|done].
    destruct Q5 as [_ Hv]. by destruct (decide _); [destruct Hv|].
Qed.

(** ** Requests arrive *)

Definition took (p : Z) (w : volq) : volq :=
  let w := set_cnts (s32 (lgr_rqs w + 1)) (linger_wreq_cnt w) (linger_rreq_cnt w) (error_commit_cnt w) w in
  set_logs (arrived w ++ [p]) (enqueued w) (submitted w) (told w) w.

Section arrive.
Context (p : Z) (rq : request) (w : volq) (ths : list kthread) (pend : list Z) (sk : Z) (tot : Z -> Z).
Context (K : core fails w ths pend sk tot) (Hp : dms_rqs w !! p = None) (Hrq : rq_ok rq).
Context (Hsz : Z.of_nat (size (dms_rqs w)) < 2 ^ 31 - 1).
Context (Hio : nios KERNEL_IO_READ ths + nios KERNEL_IO_WRITE ths < 2 ^ 31 - 1).

Lemma took_users d : users_ok (set_rqs (<[p := d]> (dms_rqs w)) (took p w)).
Proof.
  pose proof (k_users _ _ _ _ _ _ K) as [U1 U2 U3].
  split; simpl; rewrite ?map_size_insert_None by done; rewrite ?Nat2Z.inj_succ.
  - intros x. rewrite live_insert, occ_app, occ_cons. change (occ x []) with 0. specialize (U1 x).
    destruct (decide (p = x)) as [<-|]; [|lia]. unfold live in U1. rewrite Hp, decide_False in U1 by (by intros [? ?]). lia.
  - rewrite U2. apply s32_small. unfold is_s32. lia.
  - lia.
Qed.

Lemma insert_keeps d : keeps (dms_rqs w) (<[p := d]> (dms_rqs w)) pend.
Proof.
  intros x Hx. unfold rq_at. rewrite lookup_insert_ne; [done|]. intros ->.
  destruct (r_pend _ _ _ _ (k_refs _ _ _ _ _ _ K) x Hx) as [? ?]. congruence.
Qed.

(** The user is refused at once. *)
Lemma refuse_core : core fails (commit_user_request p false (took p w)) ths pend sk tot.
Proof.
  destruct K as [K1 K2 K3 K4 K5 [U1 U2 U3] K7 K8 K9]. split; try done. split; simpl; [|rewrite U2|done].
  - intros x. rewrite fmap_app, !occ_app. simpl. specialize (U1 x). lia.
  - rewrite s32_small, s32_small; unfold is_s32; rewrite ?s32_small; unfold is_s32; lia.
Qed.

(** The request waits. *)
Lemma enq_core : core fails (set_logs (arrived w ++ [p]) (enqueued w ++ [rq]) (submitted w) (told w)
                   (set_rqs (<[p := init_dms_rq rq]> (dms_rqs w)) (took p w))) ths (pend ++ [p]) sk tot.
Proof.
  pose proof (took_users (init_dms_rq rq)) as [V1 V2 V3]. pose proof (insert_keeps (init_dms_rq rq)) as Hk.
  pose proof K as [K1 K2 K3 K4 K5 K6 K7 K8 K9]. split; try done.
  - by apply refs_ok_enq.
  - simpl. rewrite bind_app, <- K4, <- app_assoc. f_equal. simpl. rewrite app_nil_r. unfold rem_secs.
    rewrite secs_app, (secs_ext (dms_rqs w)) by done. rewrite drop_app_le.
    + f_equal. rewrite secs_cons. unfold rq_at. rewrite lookup_insert_eq. simpl. by rewrite app_nil_r.
    + pose proof (r_begun _ _ _ _ K1) as Hb. destruct pend as [|h l]; simpl in Hb; [lia|].
      rewrite secs_cons, length_app. unfold rq_secs. rewrite run_of_length. lia.
Qed.

Let w1 := set_rqs (<[p := set_num_ref 1 (init_dms_rq rq)]> (dms_rqs w)) (took p w).

(** The request is submitted at once ... *)
Lemma direct_core dir : core fails (vm_inc_iocnt dir w1) (ths ++ [IO_Run dir [p]]) pend sk (tot_add 1 p tot).
Proof.
  pose proof (took_users (set_num_ref 1 (init_dms_rq rq))) as [V1 V2 V3].
  pose proof (insert_keeps (set_num_ref 1 (init_dms_rq rq))) as Hk.
  pose proof K as [K1 K2 K3 K4 K5 K6 K7 K8 K9].
  pose proof (nios_nonneg KERNEL_IO_READ ths). pose proof (nios_nonneg KERNEL_IO_WRITE ths).
  assert (Hn : forall d, nios d (ths ++ [IO_Run dir [p]]) = nios d ths + if decide (Some dir = Some d) then 1 else 0).
  { intros d. rewrite nios_app. f_equal. unfold nios. simpl. lia. }
  assert (Ho : forall x, outst x (ths ++ [IO_Run dir [p]]) = outst x ths + if decide (p = x) then 1 else 0).
  { intros x. rewrite outst_app. f_equal. unfold outst. simpl. rewrite occ_cons. change (occ x []) with 0. lia. }
  unfold vm_inc_iocnt, vm_add_iocnt. split; rewrite ?Hn.
  - pose proof (refs_ok_direct _ _ _ _ _ _ K1 Hp Hrq). by destruct dir.
  - intros x. rewrite Ho. unfold tot_add. specialize (K2 x). lia.
  - intros Hf x. rewrite Ho. unfold tot_add. specialize (K3 Hf x). lia.
  - destruct dir; simpl; rewrite (rem_secs_ext (dms_rqs w)); done.
  - by destruct dir.
  - destruct dir; by split.
  - destruct dir; simpl; rewrite K7; [lia|]. apply s32_small. unfold is_s32. lia.
  - destruct dir; simpl; rewrite K8; [|lia]. apply s32_small. unfold is_s32. lia.
  - destruct dir; simpl; lia.
Qed.

(** ... or the submission fails and the user is answered. *)
Lemma direct_fail : exists w2, fail_free [p] w1 = Some w2 /\ quiet w w2 /\ keeps (dms_rqs w) (dms_rqs w2) pend /\
  core fails w2 ths pend sk tot.
Proof.
  pose proof (took_users (set_num_ref 1 (init_dms_rq rq))) as V.
  pose proof (insert_keeps (set_num_ref 1 (init_dms_rq rq))) as Hk.
  pose proof K as [K1 K2 K3 K4 K5 K6 K7 K8 K9].
  destruct (fail_free_ok [p] w1 pend sk (tot_add 1 p tot)) as (w2 & E & [P1 P2 P3 P4 P5 P6 P7 P8]); try done.
  { by apply refs_ok_direct. }
  { intros x. rewrite occ_cons. change (occ x []) with 0. unfold tot_add.
    pose proof (r_pos _ _ _ _ K1 x). destruct (decide (p = x)); lia. }
  exists w2. split; [done|]. split; [etrans; [|exact P4]; by repeat split|].
  assert (Hk2 : keeps (dms_rqs w) (dms_rqs w2) pend) by (by eapply keeps_trans). split; [done|].
  split; try done; rewrite ?P5, ?P6, ?P7, ?P8; try done.
  - eapply refs_ok_tot; [exact P1|]. intros x. unfold tot_add. rewrite occ_cons. change (occ x []) with 0. lia.
  - rewrite (rem_secs_ext (dms_rqs w)); done.
Qed.
End arrive.

Lemma awake_more w w' ths ts : quiet w w' -> awake w ths -> awake w' (ths ++ ts).
Proof.
  intros Q A. unfold awake in *. rewrite (qt_list _ _ Q), (qt_act _ _ Q). intros H.
  destruct (A H); [by left|right]. apply elem_of_app. by left.
Qed.

(** A request that does not go to the list. *)
Lemma inv_aside w w' ths ts pend sk tot : queue_ok vol w (owners ths) pend sk -> awake w ths ->
  core fails w' (ths ++ ts) pend sk tot -> Forall is_io ts -> quiet w w' -> keeps (dms_rqs w) (dms_rqs w') pend ->
  io_inv vol fails {| sv := w'; sth := ths ++ ts |}.
Proof.
  intros Q A K Hts Hq Hk. exists pend, sk, tot. simpl. split; [done|]. split; [|by eapply awake_more].
  rewrite owners_app, (owners_io _ Hts), app_nil_r. by eapply queue_quiet.
Qed.

Lemma request_ok p rq alloc ok w ths :
  io_inv vol fails {| sv := w; sth := ths |} -> dms_rqs w !! p = None -> rq_ok rq ->
  Z.of_nat (size (dms_rqs w)) < 2 ^ 31 - 1 -> Z.of_nat (length (filter is_io ths)) < 2 ^ 31 - 1 ->
  exists w' ts, dms_io_request enable p rq alloc ok w = Some (w', ts) /\ io_inv vol fails {| sv := w'; sth := ths ++ ts |}.
Proof.
  intros (pend & sk & tot & K & Q & A) Hp Hrq Hsz Hio. simpl in K, Q, A. rewrite <- nios_total in Hio.
  assert (Hno : exists w' ts, Some (commit_user_request p false (took p w), []) = Some (w', ts) /\
                io_inv vol fails {| sv := w'; sth := ths ++ ts |}).
  { do 2 eexists. split; [reflexivity|].
    eapply inv_aside; [exact Q|exact A|rewrite app_nil_r; by apply refuse_core|done|by repeat split|apply keeps_refl]. }
  unfold dms_io_request. fold (took p w). cbv zeta. destruct (vol_no_perm_to_io _ _); [exact Hno|]. destruct alloc; [|exact Hno]. clear Hno.
  simpl negb. cbn match.
  destruct (negb enable || _).
  - unfold submit_IOReq. simpl. rewrite lookup_insert_eq. simpl. destruct ok.
    + do 2 eexists. split; [reflexivity|].
      eapply inv_aside; [exact Q|exact A|by apply direct_core|by repeat constructor|by destruct (rq_data_dir rq); repeat split|].
      pose proof (insert_keeps p w ths pend sk tot K Hp (set_num_ref 1 (init_dms_rq rq))). by destruct (rq_data_dir rq).
    + destruct (direct_fail p rq w ths pend sk tot K Hp Hrq Hsz) as (w2 & E & Hq & Hk & K2).
      unfold _init_IOR_fail_free_allRQ. simpl drop. simpl take. rewrite E. simpl. do 2 eexists. split; [reflexivity|].
      eapply inv_aside; [exact Q|exact A|by rewrite app_nil_r|done|done|done].
  - set (w1 := set_logs _ _ _ _ (set_rqs _ _)).
    assert (Hq1 : quiet w w1) by (by repeat split).
    destruct (enq_queue vol fails w ths pend sk tot K p rq w1 Hp Hq1 eq_refl (owners ths) (owners_forall ths) Q Hsz)
      as (c & ws & rs & st & E & Q2).
    rewrite E. simpl. do 2 eexists. split; [reflexivity|]. exists (pend ++ [p]), sk, tot. simpl. split; [|split].
    + apply (core_fields _ w1); [|done..]. eapply core_threads; [exact (enq_core p rq w ths pend sk tot K Hp Hrq Hsz)| |].
      * intros x. rewrite outst_app. unfold outst at 2. simpl. change (occ x []) with 0. lia.
      * intros d. rewrite nios_app. unfold nios at 2. simpl. lia.
    + rewrite owners_app. by rewrite (owners_cons_other E_Update) by apply not_owner_update; rewrite app_nil_r.
    + intros _. right. apply elem_of_app. right. left.
Qed.

(** ** The list of active volumes *)

Lemma take_ok g w ths : io_inv vol fails {| sv := w; sth := ths |} ->
  deq_vol_active_list (iowker_Mgr w) = (g, Some vol) ->
  io_inv vol fails {| sv := set_act (vol_act_stat w) g w; sth := W_Deq :: ths |}.
Proof.
  intros (pend & sk & tot & K & Q & A) E. simpl in K, Q, A. unfold deq_vol_active_list in E.
  destruct (active_vol_list (iowker_Mgr w)) as [|v l] eqn:El; simplify_eq.
  pose proof Q as [Q1 Q2 Q3 Q4 Q5]. rewrite El in Q4, Q5. apply NoDup_cons in Q4 as [Hv Hl].
  destruct (owners ths) as [|t [|? ?]] eqn:Eo; [|destruct Q5 as (_ & Hn & _); by destruct Hn; left|done].
  rewrite decide_True in Q5 by left. destruct Q5 as (Hr & Ha & Hne).
  exists pend, sk, tot. simpl. split; [|split].
  - apply (core_fields _ w); [|done..]. eapply core_threads; [exact K| |].
    + intros x. by rewrite outst_cons.
    + intros d. by rewrite nios_cons.
  - rewrite owners_cons_owner, Eo by owner_side. by split; simpl.
  - by apply awake_active.
Qed.

(** Other volumes come and go. *)
Lemma others_ok g w ths : io_inv vol fails {| sv := w; sth := ths |} -> NoDup (active_vol_list g) ->
  (vol ∈ active_vol_list g <-> vol ∈ active_vol_list (iowker_Mgr w)) ->
  io_inv vol fails {| sv := set_act (vol_act_stat w) g w; sth := ths |}.
Proof.
  intros (pend & sk & tot & K & [Q1 Q2 Q3 Q4 Q5] & A) Hnd Hv. simpl in *. exists pend, sk, tot. simpl.
  split; [by eapply core_fields|]. split; [|exact A]. split; simpl; try done.
  destruct (owners ths) as [|t [|? ?]]; [|by rewrite Hv|done].
  destruct Q5 as [Hr Ha]. split; [done|]. by rewrite (decide_ext _ _ _ _ Hv).
Qed.

Lemma perm_ok perm w ths : io_inv vol fails {| sv := w; sth := ths |} ->
  io_inv vol fails {| sv := set_vol_rw_perm perm w; sth := ths |}.
Proof.
  intros (pend & sk & tot & K & [Q1 Q2 Q3 Q4 Q5] & A). simpl in *. exists pend, sk, tot. simpl.
  split; [by eapply core_fields|]. split; [|exact A]. by split.
Qed.

Lemma thread_ok b t pre post w : io_inv vol fails {| sv := w; sth := pre ++ t :: post |} ->
  env_allows fails b t (pre ++ t :: post) ->
  exists w' ts, run_thread vol cnt b t w = Some (w', ts) /\ io_inv vol fails {| sv := w'; sth := pre ++ ts ++ post |}.
Proof.
  intros H Hg. destruct (decide (is_io t)) as [Hio|Hio]; [by apply io_thread_ok|].
  destruct (decide (is_owner t)) as [Ho|Ho]; [by apply owner_thread_ok|].
  assert (t = E_Update) as -> by (destruct t; try done; exfalso; apply Ho; owner_side). by apply update_thread_ok.
Qed.

Lemma io_step_inv s s' : io_inv vol fails s -> io_step vol cnt enable fails s s' -> io_inv vol fails s'.
Proof.
  intros H Hs. destruct Hs as [b t pre post w w' ts E Hg|p rq alloc ok w w' ths ts Hp Hrq Hsz Hio E|g w ths E|g v w ths E Hv|v w ths Hv|perm w ths].
  - destruct (thread_ok b t pre post w H Hg) as (w2 & ts2 & E2 & H2). congruence.
  - destruct (request_ok p rq alloc ok w ths H Hp Hrq Hsz Hio) as (w2 & ts2 & E2 & H2). congruence.
  - by apply take_ok.
  - destruct H as (pend & sk & tot & K & Q & A). pose proof (q_nodup _ _ _ _ _ Q) as Hnd. simpl in *.
    apply others_ok; [by exists pend, sk, tot| |]; unfold deq_vol_active_list in E;
      destruct (active_vol_list (iowker_Mgr w)) as [|v' l]; simplify_eq; simpl.
    + apply NoDup_cons in Hnd as [_ Hnd]. exact Hnd.
    + rewrite elem_of_cons. split; [by right|]. intros [->|?]; [by destruct Hv|done].
  - destruct H as (pend & sk & tot & K & Q & A). pose proof (q_nodup _ _ _ _ _ Q) as Hnd. simpl in *.
    apply others_ok; [by exists pend, sk, tot| |]; unfold enq_vol_active_list; destruct (decide (v ∈ _)); simpl; try done.
    + apply NoDup_app. split; [done|]. split; [|apply NoDup_singleton]. intros x Hx. rewrite list_elem_of_singleton. by intros ->.
    + rewrite elem_of_app, list_elem_of_singleton. split; [|by left]. intros [?| ->]; [done|by destruct Hv].
  - by apply perm_ok.
Qed.

Lemma io_init_inv : io_inv vol fails io_init.
Proof.
  exists [], 0, (fun _ => 0). split; [|split; [|by intros []]].
  - split; try done. split; try done; [constructor|by intros ? ?%elem_of_nil].
  - split; try done. simpl. constructor.
Qed.

Lemma io_run_inv s : io_steps vol cnt enable fails io_init s -> io_inv vol fails s.
Proof.
  intros H. remember io_init as s0 eqn:E. induction H as [s|s1 s2 s3 _ IH Hst]; subst; [apply io_init_inv|].
  eapply io_step_inv; [by apply IH|exact Hst].
Qed.
End steps.

(** ** Schedules, for concrete runs *)

#[global] Instance rq_ok_dec rq : Decision (rq_ok rq).
Proof. unfold rq_ok. apply _. Defined.

#[global] Instance env_allows_dec fails b t ths : Decision (env_allows fails b t ths).
Proof. unfold env_allows. destruct t, b; apply _. Defined.

Inductive io_act : Type :=
| A_req (p : Z) (rq : request)
| A_take
| A_run (i : nat) (b : bool).

Section sched.
Context (vol cnt : Z) (enable fails : bool).

Definition do_act (a : io_act) (s : iosys) : option iosys :=
  match a with
  | A_req p rq =>
      guard (dms_rqs (sv s) !! p = None);; guard (rq_ok rq);;
      guard (Z.of_nat (size (dms_rqs (sv s))) < 2 ^ 31 - 1);; guard (Z.of_nat (length (filter is_io (sth s))) < 2 ^ 31 - 1);;
      '(w, ts) ← dms_io_request enable p rq true true (sv s);
      Some {| sv := w; sth := sth s ++ ts |}
  | A_take =>
      match deq_vol_active_list (iowker_Mgr (sv s)) with
      | (g, Some v) =>
          guard (v = vol);; Some {| sv := set_act (vol_act_stat (sv s)) g (sv s); sth := W_Deq :: sth s |}
      | _ => None
      end
  | A_run i b =>
      t ← sth s !! i; guard (env_allows fails b t (sth s));;
      '(w, ts) ← run_thread vol cnt b t (sv s);
      Some {| sv := w; sth := take i (sth s) ++ ts ++ drop (S i) (sth s) |}
  end.

Definition do_acts (l : list io_act) (s : iosys) : option iosys := foldl (fun o a => o ≫= do_act a) (Some s) l.

Lemma do_act_step a s s' : do_act a s = Some s' -> io_step vol cnt enable fails s s'.
Proof.
  destruct s as [w ths]. destruct a as [p rq| |i b]; simpl; intros H.
  - repeat case_guard; simplify_eq/=. destruct (dms_io_request enable p rq true true w) as [[w' ts]|] eqn:E; simplify_eq/=.
    by eapply S_request.
  - destruct (deq_vol_active_list (iowker_Mgr w)) as [g [v|]] eqn:E; [|done]. case_guard; simplify_eq/=. by apply S_take.
  - destruct (ths !! i) as [t|] eqn:Et; [|done]. simpl in H. case_guard; [|done]. simpl in H.
    destruct (run_thread vol cnt b t w) as [[w' ts]|] eqn:E; simplify_eq/=.
    rewrite <- (take_drop_middle ths i t Et) in H0 |- * at 1. by apply (S_thread _ _ _ _ b).
Qed.

Lemma do_acts_steps l s s' : do_acts l s = Some s' -> io_steps vol cnt enable fails s s'.
Proof.
  unfold do_acts. revert s'. induction l as [|a l IH] using rev_ind; intros s'; simpl; [intros [= ->]; constructor|].
  rewrite foldl_snoc. destruct (foldl _ (Some s) l) as [s1|] eqn:E; [|done]. simpl. intros H.
  eapply io_more; [by apply IH|]. by eapply do_act_step.
Qed.
End sched.

(** ** Theorems *)

Definition wr (pos n : Z) : request := {| rq_data_dir := KERNEL_IO_WRITE; blk_rq_pos := pos; blk_rq_sectors := n |}.
Definition rd (pos n : Z) : request := {| rq_data_dir := KERNEL_IO_READ; blk_rq_pos := pos; blk_rq_sectors := n |}.

(** The run of the witnesses: two writes that are neighbours, with 300 sectors together, a read, and a write
    that comes while the worker is at work. *)
Definition demo_acts : list io_act :=
  [A_req 1 (wr 0 200); A_req 2 (wr 200 100); A_run 0 true; A_req 3 (rd 900 8); A_run 1 true; A_run 0 true; A_take;
   A_run 0 true; A_run 0 true; A_run 0 true; A_run 0 true; A_req 4 (wr 2000 16)].

Definition demo : iosys := default io_init (do_acts 7 10 true false demo_acts io_init).

Lemma demo_run : io_steps 7 10 true false io_init demo.
Proof. apply (do_acts_steps _ _ _ _ demo_acts). vm_compute. reflexivity. Qed.

(** C5: The io requests of the workers are the requests of the list, cut in their order: the sectors submitted are a
    front part of the sectors of the requests, nothing twice, nothing left out, nothing out of order;
    every io request has between one and [MAX_SECTS_PER_RQ] sectors of one direction; when the list is empty and no worker holds
    requests, everything has been submitted. *)
Theorem io_stream_exact vol cnt enable fails s : io_steps vol cnt enable fails io_init s ->
  (submitted (sv s) ≫= ic_secs) `prefix_of` (enqueued (sv s) ≫= rq_secs) /\
  Forall (fun c => 0 < ic_sect_len c <= MAX_SECTS_PER_RQ) (submitted (sv s)) /\
  (vol_rqs_list (sv s) = [] -> Forall (fun t => holds t = false) (sth s) ->
   submitted (sv s) ≫= ic_secs = enqueued (sv s) ≫= rq_secs).
Proof.
  intros H. destruct (io_run_inv _ _ _ _ _ H) as (pend & sk & tot & K & Q & A).
  pose proof (k_stream _ _ _ _ _ _ K) as Hs. split; [by eexists|]. split; [apply K|]. intros El Hh.
  assert (pend = []) as ->; [|rewrite <- Hs; change (rem_secs _ [] sk) with (drop (Z.to_nat sk) (@nil sector)); by rewrite drop_nil, app_nil_r].
  pose proof (q_owner _ _ _ _ _ Q) as Ho. rewrite <- El.
  destruct (owners (sth s)) as [|t [|? ?]] eqn:Eo; [by destruct Ho as [[? _] _]| |done].
  assert (Ht : t ∈ owners (sth s)) by (rewrite Eo; left). apply list_elem_of_filter in Ht as [_ Ht].
  rewrite Forall_forall in Hh. specialize (Hh t Ht). destruct Ho as (_ & _ & Ho). unfold owner_ok, at_rest in Ho.
  destruct t as [| | |rqs i s' f|rqs [i|] s'|[]|[]| | | | | | | | ]; try discriminate; by destruct_and?.
Qed.

Lemma io_stream_exact_witness :
  (submitted (sv demo) ≫= ic_secs) `prefix_of`
    (run_of KERNEL_IO_WRITE 0 300 ++ run_of KERNEL_IO_READ 900 8 ++ run_of KERNEL_IO_WRITE 2000 16) /\
  submitted (sv demo) <> [].
Proof.
  split; [|vm_compute; discriminate]. replace (_ ++ _) with (enqueued (sv demo) ≫= rq_secs) by (vm_compute; reflexivity).
  apply (io_stream_exact 7 10 true false demo demo_run).
Defined.

Lemma refs_live fails w ts pend sk tot t p : core fails w ts pend sk tot -> t ∈ ts -> p ∈ refs t -> is_Some (dms_rqs w !! p).
Proof. intros K Ht Hp. eapply refs_tot; [apply K|]. by eapply outst_pos. Qed.

(** C6: Every request is answered exactly once, and not too early: the answers are as many as
    the arrivals less the requests still in the pool; a request that waits in the list or belongs to an io request
    that has not committed is still in the pool; no thread touches a request that was freed; and when no submission
    of a worker fails, a volume without threads and with an empty list has answered all requests. *)
Theorem requests_answered_once vol cnt enable fails s : io_steps vol cnt enable fails io_init s ->
  (forall p, occ p ((told (sv s)).*1) + live (dms_rqs (sv s)) p = occ p (arrived (sv s))) /\
  (forall p, p ∈ vol_rqs_list (sv s) -> is_Some (dms_rqs (sv s) !! p)) /\
  (forall t p, t ∈ sth s -> p ∈ refs t -> is_Some (dms_rqs (sv s) !! p)) /\
  (forall t b, t ∈ sth s -> env_allows fails b t (sth s) -> is_Some (run_thread vol cnt b t (sv s))) /\
  (fails = false -> sth s = [] -> vol_rqs_list (sv s) = [] -> dms_rqs (sv s) = ∅).
Proof.
  intros H. pose proof (io_run_inv _ _ _ _ _ H) as Hi. pose proof Hi as (pend & sk & tot & K & Q & A).
  pose proof (k_refs _ _ _ _ _ _ K) as R. split; [apply K|]. split.
  { intros p Hp. eapply r_pend; [exact R|]. by eapply queue_sub. }
  split; [intros t p; by apply (refs_live _ _ _ _ _ _ _ _ K)|]. split.
  - intros t b Ht Hg. apply list_elem_of_split in Ht as (pre & post & E). destruct s as [w ths]. simpl in *. subst ths.
    destruct (thread_ok vol cnt fails b t pre post w Hi Hg) as (w' & ts & -> & _). eauto.
  - intros Hf Ets El. apply map_empty. intros p. destruct (dms_rqs (sv s) !! p) as [d|] eqn:Ed; [|done]. exfalso.
    pose proof (q_owner _ _ _ _ _ Q) as Ho. rewrite Ets in Ho. simpl in Ho. destruct Ho as [[Ep _] _].
    destruct (r_num _ _ _ _ R p d Ed) as [_ Hn]. rewrite Ep, El in Hn.
    rewrite decide_False in Hn by (by intros ?%elem_of_nil). rewrite (k_exact _ _ _ _ _ _ K Hf p), Ets in Hn.
    unfold outst in Hn. simpl in Hn. change (occ p []) with 0 in Hn. lia.
Qed.

Lemma requests_answered_once_witness :
  occ 1 ((told (sv demo)).*1) + live (dms_rqs (sv demo)) 1 = 1 /\ occ 4 ((told (sv demo)).*1) + live (dms_rqs (sv demo)) 4 = 1 /\
  is_Some (dms_rqs (sv demo) !! 4).
Proof.
  assert (Ha : arrived (sv demo) = [1; 2; 3; 4]) by (vm_compute; reflexivity).
  destruct (requests_answered_once 7 10 true false demo demo_run) as (Hocc & Hlist & _).
  split; [rewrite Hocc, Ha; reflexivity|]. split; [rewrite Hocc, Ha; reflexivity|].
  apply Hlist. replace (vol_rqs_list (sv demo)) with [4] by (vm_compute; reflexivity). by left.
Defined.

(** C7: No request is forgotten, and no volume has two workers: when requests wait in the list of the volume, the volume
    is on the list of active volumes, or a thread owns it or is about to look at its state; at most one thread owns it, and none
    while it is on the list; a worker that took the volume finds requests. *)
Theorem no_request_forgotten vol cnt enable fails s : io_steps vol cnt enable fails io_init s ->
  (vol_rqs_list (sv s) <> [] ->
     vol ∈ active_vol_list (iowker_Mgr (sv s)) \/ exists t, t ∈ sth s /\ (t = E_Update \/ is_owner t)) /\
  (length (filter is_owner (sth s)) <= 1)%nat /\
  (vol ∈ active_vol_list (iowker_Mgr (sv s)) -> Forall (fun t => ~ is_owner t) (sth s)) /\
  (W_Deq ∈ sth s -> vol_rqs_list (sv s) <> []).
Proof.
  intros H. destruct (io_run_inv _ _ _ _ _ H) as (pend & sk & tot & K & Q & A).
  pose proof (q_owner _ _ _ _ _ Q) as Ho. fold (owners (sth s)). split; [|split; [|split]].
  - intros Hne. destruct (owners (sth s)) as [|t [|? ?]] eqn:Eo; [| |done].
    + destruct (decide (vol ∈ _)); [by left|]. destruct (A Hne) as [Ha|Ha]; [destruct Ho; congruence|eauto].
    + assert (Ht : t ∈ owners (sth s)) by (rewrite Eo; left). apply list_elem_of_filter in Ht as [? ?]. eauto.
  - destruct (owners (sth s)) as [|t [|? ?]]; simpl; [lia|lia|done].
  - intros Hv. destruct (owners (sth s)) as [|t [|? ?]] eqn:Eo; [|by destruct Ho as (_ & [] & _)|done].
    apply Forall_forall. intros t Ht Hot. apply (not_elem_of_nil t). rewrite <- Eo. by apply list_elem_of_filter.
  - intros Hd. assert (Ht : W_Deq ∈ owners (sth s)) by (apply list_elem_of_filter; split; [owner_side|done]).
    destruct (owners (sth s)) as [|t [|? ?]]; [by apply elem_of_nil in Ht| |done].
    apply list_elem_of_singleton in Ht as <-. destruct Ho as (_ & _ & _ & ?). done.
Qed.

Lemma no_request_forgotten_witness : vol_rqs_list (sv demo) <> [] /\ exists t, t ∈ sth demo /\ (t = E_Update \/ is_owner t).
Proof.
  assert (Hne : vol_rqs_list (sv demo) <> []) by (vm_compute; discriminate). split; [exact Hne|].
  destruct (no_request_forgotten 7 10 true false demo demo_run) as [H _]. destruct (H Hne) as [Hv|Ht]; [|exact Ht].
  replace (active_vol_list (iowker_Mgr (sv demo))) with (@nil Z) in Hv by (vm_compute; reflexivity). by apply elem_of_nil in Hv.
Defined.


(** All threads of the run finish. *)
Definition calm_acts : list io_act :=
  [A_req 1 (wr 0 256); A_run 0 true; A_run 0 true; A_take; A_run 0 true; A_run 0 true; A_run 1 true; A_run 1 true; A_run 1 true; A_run 1 true;
   A_run 1 true; A_run 1 true; A_run 0 true; A_run 0 true; A_run 0 true; A_run 0 true].

Definition calm : iosys := default io_init (do_acts 7 10 true false calm_acts io_init).

Lemma calm_run : io_steps 7 10 true false io_init calm.
Proof. apply (do_acts_steps _ _ _ _ calm_acts). vm_compute. reflexivity. Qed.


(** The counters of the list: when no worker holds requests, they are the number of requests in the list and the numbers
    of sectors of each direction that still wait. *)
Theorem list_counters_exact vol cnt enable fails s : io_steps vol cnt enable fails io_init s ->
  cnt_rqs (sv s) = Z.of_nat (length (vol_rqs_list (sv s))) /\
  (Forall (fun t => holds t = false) (sth s) ->
   exists sk, match vol_rqs_list (sv s) with
     | [] => sk = 0
     | p :: _ => sect_start (sv s) = blk_rq_pos (rq_at (dms_rqs (sv s)) p) + sk /\ 0 <= sk < blk_rq_sectors (rq_at (dms_rqs (sv s)) p)
     end /\
     w_sects (sv s) = s32 (todo KERNEL_IO_WRITE (dms_rqs (sv s)) (vol_rqs_list (sv s)) true sk) /\
     r_sects (sv s) = s32 (todo KERNEL_IO_READ (dms_rqs (sv s)) (vol_rqs_list (sv s)) true sk)).
Proof.
  intros H. destruct (io_run_inv _ _ _ _ _ H) as (pend & sk & tot & K & [Q1 Q2 Q3 Q4 Q5] & A). split; [done|]. intros Hh.
  assert (Hheld : held (owners (sth s)) = false /\ at_rest (sv s) pend sk).
  { destruct (owners (sth s)) as [|t [|? ?]] eqn:Eo; [by destruct Q5| |done].
    assert (Ht : t ∈ owners (sth s)) by (rewrite Eo; left). apply list_elem_of_filter in Ht as [_ Ht].
    rewrite Forall_forall in Hh. specialize (Hh t Ht). split; [done|]. destruct Q5 as (_ & _ & Ho). unfold owner_ok in Ho.
    destruct t as [| | |rqs i s' f|rqs [i|] s'|[]|[]| | | | | | | | ]; try discriminate; by destruct_and?. }
  destruct Hheld as [Hn [Ep Hst]]. unfold in_list in Q2, Q3. rewrite Hn in Q2, Q3. exists sk.
  split; [|by unfold todo]. pose proof (r_begun _ _ _ _ (k_refs _ _ _ _ _ _ K)) as Hb. rewrite Ep in Hb, Hst.
  by destruct (vol_rqs_list (sv s)).
Qed.

(** ** Two defects *)

Definition strand_acts : list io_act :=
  [A_req 1 (wr 0 256); A_req 2 (wr 1000 256); A_run 0 true; A_run 0 true; A_run 0 true; A_take; A_run 0 true;
   A_run 0 true; A_run 0 false; A_run 0 true; A_run 0 true; A_run 0 true; A_run 0 true;
   A_run 0 true; A_run 0 true; A_run 0 true; A_run 0 true; A_run 0 true; A_run 0 true].

(** C39: When the submission of requests that are not the first of a batch fails, requests are forgotten: the loop that gives them back runs
    from [index_s] up to the NUMBER of requests, so with [index_s] at least that number it does nothing.  In a run with two
    writes of which the second submission fails, all threads end, the second write is never answered,
    and the volume never becomes idle. *)
Theorem failed_merge_strands :
  (forall rqs n k w, _init_IOR_fail_free_allRQ rqs (n + k) n w = Some w) /\
  exists s, io_steps 7 10 true true io_init s /\ sth s = [] /\ vol_rqs_list (sv s) = [] /\
    arrived (sv s) = [1; 2] /\ told (sv s) = [(1, true)] /\ is_vol_io_done (sv s) = false.
Proof.
  split.
  - intros rqs n k w. unfold _init_IOR_fail_free_allRQ. by replace (n - (n + k))%nat with 0%nat by lia.
  - exists (default io_init (do_acts 7 10 true true strand_acts io_init)). split.
    + apply (do_acts_steps _ _ _ _ strand_acts). vm_compute. reflexivity.
    + vm_compute. repeat split.
Qed.

(** Two neighbouring writes of 300 sectors become the io requests 0 to 255 and 256 to 299; the first one fails. *)
Definition race_acts : list io_act :=
  [A_req 1 (wr 0 200); A_req 2 (wr 200 100); A_run 0 true; A_run 0 true; A_run 0 true; A_take; A_run 0 true;
   A_run 0 true; A_run 0 true; A_run 0 true; A_run 0 true; A_run 0 true; A_run 0 true; A_run 0 true; A_run 0 true;
   A_run 2 false; A_run 2 true; A_run 2 true; A_run 2 true; A_run 2 true; A_run 1 true; A_run 1 true;
   A_run 2 true; A_run 1 true; A_run 2 true; A_run 1 true].

