(* ===== verification/IORequest.v ===== *)
(** * IORequest: from sectors to blocks, segments and completion

    Translation of the parts of io_manager/discoC_IORequest.c that prepare an IO
    request (block range and sector masks of a kernel request, overwrite state of
    its blocks, split into segment requests) and that join its segments again
    ([ioReq_IODone_endfn], [ioReq_MDReport_endfn]). *)

From S2P Require Import Prelude Fsm CommonUtil IOReqFsm IOReqOvlp.

(** ** Block range and sector masks *)

(** The block range of [nr_ksects] sectors from [kern_sect], as
    [ioReq_init_request] computes it. *)
Definition ioReq_lbid_start (kern_sect : Z) : Z := Z.shiftr kern_sect BIT_LEN_DMS_LB_SECTS.

Definition ioReq_lbid_len (kern_sect nr_ksects : Z) : Z :=
  u32 (u64 (Z.shiftr (u64 (kern_sect + nr_ksects - 1)) BIT_LEN_DMS_LB_SECTS
            - ioReq_lbid_start kern_sect + 1)).

(** The inner loop: bits [j .. j+n) of a mask byte are set. *)
Fixpoint set_bits (n : nat) (j m : Z) : Z :=
  match n with
  | O => m
  | S n => set_bits n (j + 1) (Z.setbit m j)
  end.

(** The outer loop; [None] when the mask array is left. *)
Fixpoint lbalign_loop (fuel : nat) (mask : list Z) (i sect_start sect_end : Z) : option (list Z * Z) :=
  match fuel with
  | O => None
  | S fuel =>
      if sect_start <? sect_end then
        let startbit := sect_start mod BIT_LEN_PER_1_MASK in
        let rangebit := u64 (BIT_LEN_PER_1_MASK - startbit) in
        let bitlen := if u64 (sect_start + rangebit) >=? sect_end then u64 (sect_end - sect_start) else rangebit in
        let bitend := u64 (bitlen + startbit) in
        m ← mask !! Z.to_nat i;
        lbalign_loop fuel (<[Z.to_nat i := set_bits (Z.to_nat (bitend - startbit)) startbit m]> mask)
          (u64 (i + 1)) (u64 (sect_start + bitlen)) sect_end
      else Some (mask, i)
  end.

(** The mask array and whether the request is aligned to blocks at both ends. *)
Definition _ioReq_set_lbalign_mask (sect_begin sect_len : Z) : option (list Z * bool) :=
  '(mask, i) ← lbalign_loop 40 (replicate (Z.to_nat MAX_LBS_PER_IOR) 0) 0 sect_begin (u64 (sect_begin + sect_len));
  m0 ← mask !! O;
  if 0 <? i then
    ml ← mask !! Z.to_nat (i - 1);
    Some (mask, (m0 =? 0xff) && (ml =? 0xff))
  else None.

(** ** Overwrite state and split *)

Inductive LBA_fea_stat_t : Type :=
| LBA_FEA_INIT
| LBA_FEA_FW_4KALIGN
| LBA_FEA_FW_non4KALIGN
| LBA_FEA_OVW_4KALIGN
| LBA_FEA_OVW_non4KALIGN
| LBA_FEA_END.

#[global] Instance LBA_fea_stat_t_eq_dec : EqDecision LBA_fea_stat_t.
Proof. solve_decision. Defined.

(** The class of one block: [ovw] is the volume's overwrite flag of the block (a
    read counts as overwritten), [mask] its sector mask. *)
Definition lb_state (dir : iorw_dir_t) (ovw : bool) (mask : Z) : LBA_fea_stat_t :=
  let is_ovw := match dir with KERNEL_IO_WRITE => ovw | KERNEL_IO_READ => true end in
  if is_ovw && (mask =? 0xff) then LBA_FEA_OVW_4KALIGN
  else if is_ovw && negb (mask =? 0xff) then LBA_FEA_OVW_non4KALIGN
  else if negb is_ovw && (mask =? 0xff) then LBA_FEA_FW_4KALIGN
  else LBA_FEA_FW_non4KALIGN.

(** The used part of the array [arr_lbovw]: one class per block and the end mark. *)
Definition _ioReq_get_LBOVW_state (dir : iorw_dir_t) (ovw_get : Z -> bool) (lbid : Z) (masks : list Z)
  : list LBA_fea_stat_t :=
  imap (fun i m => lb_state dir (ovw_get (lbid + Z.of_nat i)) m) masks ++ [LBA_FEA_END].

Definition _chk_max_len_allocMD (io_rw : iorw_dir_t) (split_type : LBA_fea_stat_t) (len : Z) : bool :=
  match io_rw with
  | KERNEL_IO_READ => false
  | KERNEL_IO_WRITE =>
      match split_type with
      | LBA_FEA_OVW_non4KALIGN | LBA_FEA_FW_non4KALIGN => true
      | LBA_FEA_OVW_4KALIGN => false
      | _ => if len <? MAX_LBS_PER_ALLOCMD_REQ then false else true
      end
  end.

Definition is_non4K (t : LBA_fea_stat_t) : bool :=
  match t with LBA_FEA_FW_non4KALIGN | LBA_FEA_OVW_non4KALIGN => true | _ => false end.

(** The loop of [find_cont_len] from index [1]: [g0] is [group[0]], [rest] the
    entries [group[i] .. group[max_len-1]]. *)
Fixpoint cont_loop (g0 : LBA_fea_stat_t) (rest : list LBA_fea_stat_t) (len : Z) (io_rw : iorw_dir_t) : Z :=
  match rest with
  | [] => len
  | g :: rest =>
      if is_non4K g0 then len
      else if negb (bool_decide (g0 = g)) then len
      else
        let len := s32 (len + 1) in
        if _chk_max_len_allocMD io_rw g len then len else cont_loop g0 rest len io_rw
  end.

(** [group] holds at least the [max_len] entries the loop may read; [None] for an
    empty group, whose first entry is read all the same. *)
Definition find_cont_len (group : list LBA_fea_stat_t) (max_len : Z) (io_rw : iorw_dir_t) : option Z :=
  match take (Z.to_nat max_len) group with
  | g0 :: rest => Some (cont_loop g0 rest 1 io_rw)
  | [] => None
  end.

(** One call of [_ioReq_gen_ioSReq_mdcache_state]: which blocks, of which class, at
    which payload offset and mask index. *)
Record ioSeg_group : Type := {
  sg_begin : Z;
  sg_len : Z;
  sg_type : LBA_fea_stat_t;
  sg_payload_off : Z;
  sg_mask : Z;
}.

(** The do-while loop of [_ioReq_gen_ioSReq_ovw]; each round is given [total_len - i]
    remaining blocks. *)
Fixpoint gen_ioSReq_loop (fuel : nat) (grouping : list LBA_fea_stat_t) (lbid_start i total_len payload_offset : Z)
    (io_rw : iorw_dir_t) : option (list ioSeg_group) :=
  match fuel with
  | O => None
  | S fuel =>
      let group := drop (Z.to_nat i) grouping in
      len ← find_cont_len group (total_len - i) io_rw;
      t ← group !! O;
      let ret := s32 (Z.shiftl len BIT_LEN_DMS_LB_SIZE) in
      let seg := {| sg_begin := u64 (lbid_start + i); sg_len := len; sg_type := t;
                    sg_payload_off := payload_offset; sg_mask := i |} in
      if ret =? 0 then None
      else
        let payload_offset := u64 (payload_offset + ret) in
        let i := s32 (i + len) in
        if i <? total_len then
          segs ← gen_ioSReq_loop fuel grouping lbid_start i total_len payload_offset io_rw;
          Some (seg :: segs)
        else Some [seg]
  end.

Definition _ioReq_gen_ioSReq_ovw (dir : iorw_dir_t) (ovw_get : Z -> bool) (addr : UserIO_addr_t) (masks : list Z)
  : option (list ioSeg_group) :=
  let grouping := _ioReq_get_LBOVW_state dir ovw_get (lbid_start addr) (take (Z.to_nat (lbid_len addr)) masks) in
  gen_ioSReq_loop (S (Z.to_nat (lbid_len addr))) grouping (lbid_start addr) 0 (lbid_len addr) 0 dir.

(** ** Theorems: masks *)

Lemma set_bits_spec n j m k :
  0 <= j -> 0 <= k ->
  Z.testbit (set_bits n j m) k = ((j <=? k) && (k <? j + Z.of_nat n)) || Z.testbit m k.
Proof.
  revert j m. induction n as [|n IH]; intros j m Hj Hk; cbn [set_bits].
  - replace ((j <=? k) && (k <? j + Z.of_nat 0)) with false; [done|].
    symmetry. apply andb_false_iff. rewrite Z.leb_gt, Z.ltb_ge. lia.
  - rewrite IH, Z.setbit_eqb, orb_assoc by lia. f_equal. apply eq_true_iff_eq.
    rewrite orb_true_iff, !andb_true_iff, !Z.leb_le, !Z.ltb_lt, Z.eqb_eq. lia.
Qed.

(** The sectors of block number [i] of a request that starts in block [b0] and
    covers the sectors [lo, hi): bit [j] of its mask. *)
Definition mask_bit (b0 lo hi i j : Z) : bool :=
  (lo <=? 8 * (b0 + i) + j) && (8 * (b0 + i) + j <? hi).

(** [mask] is right for the blocks before [i] and empty from [i] on. *)
Definition masks_done (b0 lo hi : Z) (mask : list Z) (i : Z) : Prop :=
  length mask = 33%nat /\
  forall n m, mask !! n = Some m -> is_u8 m /\
    if Z.of_nat n <? i
    then forall j, 0 <= j < 8 -> Z.testbit m j = mask_bit b0 lo hi (Z.of_nat n) j
    else m = 0.

Lemma set_bits_u8 n j m : 0 <= j -> j + Z.of_nat n <= 8 -> is_u8 m -> is_u8 (set_bits n j m).
Proof.
  unfold is_u8. revert j m. induction n as [|n IH]; intros j m Hj Hn Hm; simpl; [done|].
  apply IH; [lia..|]. rewrite Z.setbit_spec'. apply lor_bound; [lia|done|].
  split; [apply Z.pow_nonneg; lia|apply Z.pow_lt_mono_r; lia].
Qed.

Section mask.
Context (b0 lo hi : Z).
Hypothesis Hlo : 8 * b0 <= lo < 8 * b0 + 8.
Hypothesis H0 : 0 <= lo.
Hypothesis Hhi : lo < hi <= lo + 256.
Hypothesis H64 : hi + 8 <= 2 ^ 64.

Lemma lbalign_loop_ok fuel mask i :
  0 <= i -> masks_done b0 lo hi mask i -> 34 - i < Z.of_nat fuel ->
  8 * (b0 + i) < hi + 8 ->
  exists mask' n, lbalign_loop fuel mask i (Z.min hi (Z.max lo (8 * (b0 + i)))) hi = Some (mask', n) /\
    masks_done b0 lo hi mask' n /\ n <= 33 /\ 8 * (b0 + (n - 1)) < hi <= 8 * (b0 + n).
Proof.
  revert mask i. induction fuel as [|fuel IH]; intros mask i Hi Hm Hf Hnear; [lia|].
  cbn [lbalign_loop]. set (ss := Z.min hi (Z.max lo (8 * (b0 + i)))).
  destruct (ss <? hi) eqn:Hss; zbool.
  - unfold BIT_LEN_PER_1_MASK. assert (Hb : 8 * (b0 + i) <= ss < 8 * (b0 + i) + 8) by lia.
    assert (Hsb : ss mod 8 = ss - 8 * (b0 + i)).
    { symmetry. apply (Z.mod_unique_pos _ _ (b0 + i)); lia. }
    rewrite Hsb. rewrite (u64_small (8 - _)) by (unfold is_u64; lia).
    rewrite (u64_small (ss + _)) by (unfold is_u64; lia).
    match goal with |- context [if ?b then u64 (hi - ss) else ?c] =>
      set (bl := if b then u64 (hi - ss) else c) end.
    assert (Hbl : bl = Z.min hi (8 * (b0 + i) + 8) - ss).
    { subst bl. destruct (_ >=? hi) eqn:E; zbool; [rewrite u64_small by (unfold is_u64; lia)|]; lia. }
    clearbody bl. subst bl.
    rewrite !u64_small by (unfold is_u64; lia).
    destruct Hm as [Hlen Hm].
    destruct (mask !! Z.to_nat i) as [m|] eqn:Hmi; [|apply lookup_ge_None in Hmi; lia].
    cbn [mbind option_bind].
    destruct (Hm _ _ Hmi) as [_ Hm0]. rewrite Z2Nat.id, Z.ltb_irrefl in Hm0 by lia. subst m.
    set (mk := set_bits _ _ _).
    replace (ss + _) with (Z.min hi (Z.max lo (8 * (b0 + (i + 1))))) by lia.
    apply IH; [lia| |lia..]. split; [by rewrite length_insert|].
    intros n m' Hn. destruct (decide (n = Z.to_nat i)) as [->|Hne].
    + rewrite list_lookup_insert_eq in Hn by lia. injection Hn as <-.
      split; [apply set_bits_u8; [lia|lia|unfold is_u8; lia]|].
      rewrite (proj2 (Z.ltb_lt _ _)) by lia. intros j Hj. subst mk.
      rewrite set_bits_spec, Z.bits_0, orb_false_r by lia. unfold mask_bit.
      rewrite !Z2Nat.id by lia. apply eq_true_iff_eq. rewrite !andb_true_iff, !Z.leb_le, !Z.ltb_lt. lia.
    + rewrite list_lookup_insert_ne in Hn by done. destruct (Hm n m' Hn) as [Hu Hv]. split; [done|].
      destruct (Z.of_nat n <? i) eqn:E1, (Z.of_nat n <? i + 1) eqn:E2; zbool; try done; lia.
  - exists mask, i. split; [done|]. split; [done|]. lia.
Qed.

End mask.

Lemma u8_full m : is_u8 m -> m = 0xff <-> forall j, 0 <= j < 8 -> Z.testbit m j = true.
Proof.
  unfold is_u8. intros Hm. split.
  - intros -> j Hj. change 0xff with (Z.ones 8). apply Z.ones_spec_low. lia.
  - intros Hall. change 0xff with (Z.ones 8). apply Z.bits_inj'. intros j Hj.
    destruct (decide (j < 8)).
    + rewrite Hall, Z.ones_spec_low; [done|lia..].
    + rewrite Z.ones_spec_high by lia. rewrite <- (Z.mod_small m (2 ^ 8)) by lia.
      apply Z.mod_pow2_bits_high. lia.
Qed.

(** What the loop computed, in terms of the first block, the sector range and the
    number of blocks. *)
Lemma masks_done_props b0 lo hi mask n :
  8 * b0 <= lo < 8 * b0 + 8 -> lo < hi -> 8 * (b0 + (n - 1)) < hi <= 8 * (b0 + n) ->
  masks_done b0 lo hi mask n ->
  (forall i m, mask !! i = Some m -> forall j, 0 <= j < 8 ->
     Z.testbit m j = true <-> lo <= 8 * (b0 + Z.of_nat i) + j < hi) /\
  (forall i m, mask !! i = Some m -> m <> 0 <-> Z.of_nat i < n) /\
  (forall m0 ml, mask !! O = Some m0 -> mask !! Z.to_nat (n - 1) = Some ml ->
     m0 = 0xff /\ ml = 0xff <-> lo = 8 * b0 /\ hi = 8 * (b0 + n)).
Proof.
  intros Hlo Hhi Hn [Hlen Hm].
  assert (Hbits : forall i m, mask !! i = Some m -> forall j, 0 <= j < 8 ->
     Z.testbit m j = true <-> lo <= 8 * (b0 + Z.of_nat i) + j < hi).
  { intros i m Hi j Hj. destruct (Hm i m Hi) as [_ Hv]. destruct (Z.of_nat i <? n) eqn:E; zbool.
    - rewrite (Hv j Hj). unfold mask_bit. rewrite andb_true_iff, Z.leb_le, Z.ltb_lt. lia.
    - subst m. rewrite Z.bits_0. split; [done|lia]. }
  split; [exact Hbits|]. split.
  - intros i m Hi. destruct (Hm i m Hi) as [_ Hv]. destruct (Z.of_nat i <? n) eqn:E; zbool; [|split; [done|lia]].
    split; [done|]. intros _ ->.
    destruct (Hbits i 0 Hi (Z.max lo (8 * (b0 + Z.of_nat i)) - 8 * (b0 + Z.of_nat i))) as [_ H]; [lia|].
    rewrite Z.bits_0 in H. enough (false = true) by done. apply H. lia.
  - intros m0 ml H0 Hl. rewrite (u8_full m0), (u8_full ml) by (by eapply Hm). split.
    + intros [Hf0 Hfl]. pose proof (proj1 (Hbits _ _ H0 0 ltac:(lia)) (Hf0 0 ltac:(lia))).
      pose proof (proj1 (Hbits _ _ Hl 7 ltac:(lia)) (Hfl 7 ltac:(lia))). lia.
    + intros [-> ->]. split; intros j Hj; [apply (Hbits _ _ H0)|apply (Hbits _ _ Hl)]; lia.
Qed.

Lemma lbid_len_blocks lo len n :
  0 <= lo -> 0 < len <= 256 -> lo + len + 8 <= 2 ^ 64 ->
  8 * (lo / 8 + (n - 1)) < lo + len <= 8 * (lo / 8 + n) -> ioReq_lbid_len lo len = n.
Proof.
  intros Hlo Hlen H64 Hn. unfold ioReq_lbid_len, ioReq_lbid_start, BIT_LEN_DMS_LB_SECTS.
  rewrite !Z.shiftr_div_pow2 by lia. change (2 ^ 3) with 8.
  rewrite (u64_small (lo + len - 1)) by (unfold is_u64; lia).
  assert ((lo + len - 1) / 8 = lo / 8 + n - 1) as ->.
  { symmetry. apply (Z.div_unique_pos _ _ _ (lo + len - 1 - 8 * (lo / 8 + n - 1))); lia. }
  pose proof (Z.div_mod lo 8 ltac:(lia)). pose proof (Z.mod_pos_bound lo 8 ltac:(lia)).
  wrap_small. lia.
Qed.

(** C23: the sector masks of a request of at most 256 sectors are exact.  The mask
    array is never left; bit [j] of mask [i] says whether the request covers sector
    [j] of its block [i]; exactly the blocks of the request have a non-empty mask, at
    most 33; and the alignment flag says whether the request consists of whole
    blocks. *)
Theorem set_lbalign_mask_exact (sect_begin sect_len : Z) :
  0 <= sect_begin -> 0 < sect_len <= MAX_SECTS_PER_RQ -> sect_begin + sect_len + 8 <= 2 ^ 64 ->
  exists mask aligned,
    _ioReq_set_lbalign_mask sect_begin sect_len = Some (mask, aligned) /\
    length mask = Z.to_nat MAX_LBS_PER_IOR /\
    ioReq_lbid_len sect_begin sect_len <= MAX_LBS_PER_IOR /\
    (forall i m, mask !! i = Some m -> forall j, 0 <= j < 8 ->
       Z.testbit m j = true <->
       sect_begin <= 8 * (ioReq_lbid_start sect_begin + Z.of_nat i) + j < sect_begin + sect_len) /\
    (forall i m, mask !! i = Some m -> m <> 0 <-> Z.of_nat i < ioReq_lbid_len sect_begin sect_len) /\
    (aligned = true <-> sect_begin mod 8 = 0 /\ (sect_begin + sect_len) mod 8 = 0).
Proof.
  unfold MAX_SECTS_PER_RQ. intros Hb Hl H64. unfold _ioReq_set_lbalign_mask.
  rewrite (u64_small (sect_begin + sect_len)) by (unfold is_u64; lia).
  set (b0 := sect_begin / 8). set (hi := sect_begin + sect_len).
  assert (Hb0 : 8 * b0 <= sect_begin < 8 * b0 + 8)
    by (subst b0; pose proof (Z.div_mod sect_begin 8); pose proof (Z.mod_pos_bound sect_begin 8); lia).
  destruct (lbalign_loop_ok b0 sect_begin hi) with (fuel := 40%nat) (mask := replicate 33 0) (i := 0)
    as (mask & n & Hrun & Hdone & Hn33 & Hn); try lia.
  { split; [apply length_replicate|]. intros k m Hk. apply lookup_replicate in Hk as [-> _].
    split; [unfold is_u8; lia|]. by rewrite (proj2 (Z.ltb_ge _ _)) by lia. }
  replace (Z.min hi (Z.max sect_begin (8 * (b0 + 0)))) with sect_begin in Hrun by lia.
  change (Z.to_nat MAX_LBS_PER_IOR) with 33%nat. change MAX_LBS_PER_IOR with 33. rewrite Hrun. cbn [mbind option_bind].
  destruct (masks_done_props b0 sect_begin hi mask n) as (Hbits & Hnz & Hal); [done|lia|done|done|].
  destruct Hdone as [Hlen _].
  destruct (mask !! O) as [m0|] eqn:Hm0; [|apply lookup_ge_None in Hm0; lia].
  destruct (mask !! Z.to_nat (n - 1)) as [ml|] eqn:Hml; [|apply lookup_ge_None in Hml; lia].
  cbn [mbind option_bind]. rewrite (proj2 (Z.ltb_lt 0 n)) by lia.
  assert (Hlb : ioReq_lbid_len sect_begin sect_len = n) by (apply lbid_len_blocks; done).
  assert (Hst : ioReq_lbid_start sect_begin = b0)
    by (unfold ioReq_lbid_start, BIT_LEN_DMS_LB_SECTS; by rewrite Z.shiftr_div_pow2 by lia).
  exists mask, ((m0 =? 0xff) && (ml =? 0xff)). rewrite Hlb, Hst.
  split; [done|]. split; [done|]. split; [done|]. split; [done|]. split; [done|].
  rewrite andb_true_iff, !Z.eqb_eq, (Hal m0 ml eq_refl eq_refl). fold hi.
  rewrite (Z.mod_eq sect_begin 8), (Z.mod_eq hi 8) by lia. fold b0.
  split.
  - intros [Hs Hh]. split; [lia|].
    assert (hi / 8 = b0 + n) by (rewrite Hh, (Z.mul_comm 8); apply Z.div_mul; lia). lia.
  - intros [H1 H2]. split; lia.
Qed.

Lemma set_lbalign_mask_exact_witness :
  exists mask aligned,
    _ioReq_set_lbalign_mask 13 20 = Some (mask, aligned) /\
    (forall i m, mask !! i = Some m -> m <> 0 <-> Z.of_nat i < ioReq_lbid_len 13 20) /\
    (aligned = true <-> 13 mod 8 = 0 /\ (13 + 20) mod 8 = 0).
Proof.
  destruct (set_lbalign_mask_exact 13 20) as (mask & al & H1 & _ & _ & _ & H5 & H6);
    [lia|unfold MAX_SECTS_PER_RQ; lia|lia|].
  exists mask, al. split; [exact H1|]. split; [exact H5|exact H6].
Defined.


(** ** Theorems: split *)

Lemma cont_loop_spec g0 rest len rw :
  1 <= len -> len + Z.of_nat (length rest) < 2 ^ 31 - 1 ->
  let k := cont_loop g0 rest len rw in
  len <= k <= len + Z.of_nat (length rest) /\
  Forall (eq g0) (take (Z.to_nat (k - len)) rest) /\
  (is_non4K g0 = true -> k = len) /\
  (rw = KERNEL_IO_WRITE -> g0 = LBA_FEA_FW_4KALIGN -> len < MAX_LBS_PER_ALLOCMD_REQ ->
     k <= MAX_LBS_PER_ALLOCMD_REQ).
Proof.
  change MAX_LBS_PER_ALLOCMD_REQ with 32.
  revert len. induction rest as [|g rest IH]; intros len Hlen Hb; cbn [cont_loop].
  - rewrite Z.sub_diag. simpl. repeat split; try lia. constructor.
  - destruct (is_non4K g0) eqn:Hn; [rewrite Z.sub_diag; repeat split; try lia; constructor|].
    destruct (bool_decide (g0 = g)) eqn:Hg; cbn [negb].
    2: { rewrite Z.sub_diag. repeat split; try lia. constructor. }
    apply bool_decide_eq_true in Hg. subst g. simpl length in Hb. wrap_small.
    destruct (_chk_max_len_allocMD rw g0 (len + 1)) eqn:Hm.
    + replace (Z.to_nat (len + 1 - len)) with 1%nat by lia. simpl.
      split; [lia|]. split; [repeat constructor|]. split; [done|]. intros. lia.
    + destruct (IH (len + 1)) as (H1 & H2 & H3 & H4); [lia..|]. set (k := cont_loop g0 rest (len + 1) rw) in *.
      split; [simpl length; lia|]. split; [|split; [done|]].
      * replace (Z.to_nat (k - len)) with (S (Z.to_nat (k - (len + 1)))) by lia. simpl. by constructor.
      * intros -> -> Hl. apply H4; [done..|]. simpl in Hm. change MAX_LBS_PER_ALLOCMD_REQ with 32 in Hm.
        destruct (len + 1 <? 32) eqn:E; zbool; [done|done].
Qed.

(** A segment of the split of the blocks [lb, lb + length classes). *)
Definition seg_ok (dir : iorw_dir_t) (classes : list LBA_fea_stat_t) (lb : Z) (s : ioSeg_group) : Prop :=
  0 < sg_len s /\
  sg_mask s = sg_begin s - lb /\
  sg_payload_off s = 4096 * (sg_begin s - lb) /\
  (forall b, sg_begin s <= b < sg_begin s + sg_len s -> classes !! Z.to_nat (b - lb) = Some (sg_type s)) /\
  (is_non4K (sg_type s) = true -> sg_len s = 1) /\
  (dir = KERNEL_IO_WRITE -> sg_type s = LBA_FEA_FW_4KALIGN -> sg_len s <= MAX_LBS_PER_ALLOCMD_REQ).

Definition seg_blocks (s : ioSeg_group) : list Z := zseq (sg_begin s) (Z.to_nat (sg_len s)).

Lemma find_cont_len_spec dir classes i total :
  0 <= i < total -> total = Z.of_nat (length classes) -> total < 2 ^ 31 - 1 ->
  exists k t, find_cont_len (drop (Z.to_nat i) (classes ++ [LBA_FEA_END])) (total - i) dir = Some k /\
    drop (Z.to_nat i) (classes ++ [LBA_FEA_END]) !! O = Some t /\ 1 <= k <= total - i /\
    (forall j, 0 <= j < k -> classes !! Z.to_nat (i + j) = Some t) /\
    (is_non4K t = true -> k = 1) /\
    (dir = KERNEL_IO_WRITE -> t = LBA_FEA_FW_4KALIGN -> k <= MAX_LBS_PER_ALLOCMD_REQ).
Proof.
  intros Hi Ht Hb. unfold find_cont_len. rewrite drop_app_le by lia.
  rewrite take_app_le by (rewrite length_drop; lia).
  rewrite take_ge by (rewrite length_drop; lia).
  destruct (drop (Z.to_nat i) classes) as [|t rest] eqn:Hd.
  { apply (f_equal length) in Hd. rewrite length_drop in Hd. simpl in Hd. lia. }
  assert (Hl : Z.of_nat (length rest) = total - i - 1).
  { apply (f_equal length) in Hd. rewrite length_drop in Hd. simpl in Hd. lia. }
  destruct (cont_loop_spec t rest 1 dir) as (H1 & H2 & H3 & H4); [lia..|].
  set (k := cont_loop t rest 1 dir) in *. exists k, t. split; [done|]. split; [done|]. split; [lia|].
  split; [|split; [done|intros; apply H4; try done; change MAX_LBS_PER_ALLOCMD_REQ with 32; lia]].
  intros j Hj. replace (Z.to_nat (i + j)) with (Z.to_nat i + Z.to_nat j)%nat by lia.
  rewrite <- lookup_drop, Hd. destruct (decide (j = 0)) as [->|Hne]; [done|].
  replace (Z.to_nat j) with (S (Z.to_nat (j - 1))) by lia. simpl.
  destruct (lookup_lt_is_Some_2 rest (Z.to_nat (j - 1))) as [g Hg]; [lia|].
  rewrite Forall_lookup in H2. rewrite Hg. f_equal. symmetry. apply (H2 (Z.to_nat (j - 1))).
  rewrite lookup_take_lt by lia. done.
Qed.

Lemma gen_ioSReq_loop_ok dir classes lb total fuel i :
  total = Z.of_nat (length classes) -> 0 <= i < total -> total <= 2 ^ 12 -> total - i < Z.of_nat fuel ->
  0 <= lb -> lb + total <= 2 ^ 64 ->
  exists segs,
    gen_ioSReq_loop fuel (classes ++ [LBA_FEA_END]) lb i total (4096 * i) dir = Some segs /\
    concat (seg_blocks <$> segs) = zseq (lb + i) (Z.to_nat (total - i)) /\
    Forall (seg_ok dir classes lb) segs.
Proof.
  revert i. induction fuel as [|fuel IH]; intros i Ht Hi Hmax Hf Hlb H64; [lia|]. cbn [gen_ioSReq_loop].
  destruct (find_cont_len_spec dir classes i total Hi Ht) as (k & t & -> & -> & Hk & Hcls & Hn & Hfw); [lia|].
  cbn [mbind option_bind]. unfold BIT_LEN_DMS_LB_SIZE. rewrite Z.shiftl_mul_pow2 by lia.
  change (2 ^ 12) with 4096 in *. rewrite (s32_small (k * 4096)), (s32_small (i + k)) by (unfold is_s32; lia).
  rewrite (proj2 (Z.eqb_neq _ 0)) by lia. rewrite !u64_small by (unfold is_u64; lia).
  assert (Hok : seg_ok dir classes lb {| sg_begin := lb + i; sg_len := k; sg_type := t;
                  sg_payload_off := 4096 * i; sg_mask := i |}).
  { repeat split; simpl; try done; try lia. intros b Hb.
    replace (b - lb) with (i + (b - lb - i)) by lia. apply Hcls. lia. }
  destruct (i + k <? total) eqn:E; zbool.
  - replace (4096 * i + k * 4096) with (4096 * (i + k)) by lia.
    destruct (IH (i + k)) as (segs & -> & Hcat & Hall); [lia..|]. cbn [mbind option_bind].
    eexists. split; [reflexivity|]. split; [|by constructor].
    rewrite fmap_cons, concat_cons, Hcat. unfold seg_blocks. simpl.
    replace (Z.to_nat (total - i)) with (Z.to_nat k + Z.to_nat (total - (i + k)))%nat by lia.
    rewrite zseq_app. f_equal. f_equal. lia.
  - eexists. split; [reflexivity|]. split; [|constructor; [done|constructor]].
    rewrite fmap_cons, concat_cons. simpl. rewrite app_nil_r. unfold seg_blocks. simpl.
    f_equal. lia.
Qed.

(** C21: the split of an IO request into segments is a partition.  It always
    terminates with segments; read one after the other they are exactly the
    blocks of the request in order; each segment has the payload offset and the mask of
    its first block, contains only blocks of its class, is a single block when it is not
    4K-aligned, and a first write of aligned blocks asks for at most 32
    blocks. *)
Theorem gen_ioSReq_partition (dir : iorw_dir_t) (ovw_get : Z -> bool) (addr : UserIO_addr_t) (masks : list Z) :
  addr_wf addr -> lbid_len addr <= Z.of_nat (length masks) -> lbid_len addr <= MAX_LBS_PER_IOR ->
  exists segs,
    _ioReq_gen_ioSReq_ovw dir ovw_get addr masks = Some segs /\
    concat (seg_blocks <$> segs) = zseq (lbid_start addr) (Z.to_nat (lbid_len addr)) /\
    Forall (seg_ok dir
      (imap (fun i m => lb_state dir (ovw_get (lbid_start addr + Z.of_nat i)) m)
        (take (Z.to_nat (lbid_len addr)) masks)) (lbid_start addr)) segs.
Proof.
  intros (Hs & Hl & H64) Hm Hmax. change MAX_LBS_PER_IOR with 33 in Hmax.
  unfold _ioReq_gen_ioSReq_ovw, _ioReq_get_LBOVW_state.
  set (classes := imap _ _).
  assert (Hlen : Z.of_nat (length classes) = lbid_len addr).
  { subst classes. rewrite length_imap, length_take. lia. }
  destruct (gen_ioSReq_loop_ok dir classes (lbid_start addr) (lbid_len addr) (S (Z.to_nat (lbid_len addr))) 0)
    as (segs & Hrun & Hcat & Hall); [lia..|].
  exists segs. rewrite Z.add_0_r, Z.sub_0_r in Hcat. done.
Qed.

Lemma gen_ioSReq_partition_witness :
  exists segs,
    _ioReq_gen_ioSReq_ovw KERNEL_IO_WRITE (fun lb => lb <? 3)
      {| metaSrv_ipaddr := 0; metaSrv_port := 0; volumeID := 1; lbid_len := 4; lbid_start := 1 |}
      [0xf0; 0xff; 0xff; 0xff] = Some segs /\
    map sg_len segs = [1; 1; 2] /\
    concat (seg_blocks <$> segs) = zseq 1 4.
Proof.
  destruct (gen_ioSReq_partition KERNEL_IO_WRITE (fun lb => lb <? 3)
    {| metaSrv_ipaddr := 0; metaSrv_port := 0; volumeID := 1; lbid_len := 4; lbid_start := 1 |}
    [0xf0; 0xff; 0xff; 0xff]) as (segs & Hrun & Hcat & _);
    [unfold addr_wf; simpl; lia|simpl; lia|vm_compute; discriminate|].
  exists segs. split; [exact Hrun|]. split; [|exact Hcat].
  vm_compute in Hrun. injection Hrun as <-. reflexivity.
Defined.

(** ** Completion of the segments

    [ioReq_IODone_endfn] and [ioReq_MDReport_endfn] are called by the threads
    that complete the segments of a request, concurrently.  Each call is three
    atomic steps: an event to the state machine, a subtraction from a counter, and, for
    the thread that brings the counter to zero, a second event that grants the next
    stage.  [ev1], [grant], [ev2], [next] are the events and answers the two
    functions use. *)

Section endfn.
Context (ev1 : IOR_FSM_TREvent_t) (grant : IOR_FSM_action_t).
Context (ev2 : IOR_FSM_TREvent_t) (next : IOR_FSM_action_t).

(** Where a call is; [PC_done b]: returned, with or without submitting the request to the
    next stage. *)
Inductive endfn_pc : Type :=
| PC_start
| PC_granted
| PC_last
| PC_done (submitted : bool).

(** The part of the request the calls share: its state and the counter. *)
Definition endfn_state : Type := IOReq_fsm_t * Z.

Definition endfn_step (s : endfn_state) (n : Z) (pc : endfn_pc) : endfn_state * endfn_pc :=
  let '(st, remain) := s in
  match pc with
  | PC_start =>
      let '(st, action) := IOReq_update_state st ev1 in
      ((st, remain), if bool_decide (action = grant) then PC_granted else PC_done false)
  | PC_granted =>
      let ret := s32 (remain - n) in
      ((st, ret), if ret =? 0 then PC_last else PC_done false)
  | PC_last =>
      let '(st, action) := IOReq_update_state st ev2 in
      ((st, remain), PC_done (bool_decide (action = next)))
  | PC_done b => (s, PC_done b)
  end.

(** A call that is not interrupted. *)
Definition endfn_call (s : endfn_state) (n : Z) : endfn_state * endfn_pc :=
  let '(s, pc) := endfn_step s n PC_start in
  let '(s, pc) := endfn_step s n pc in
  endfn_step s n pc.

(** Concurrent calls: each with its number of blocks and where it is. *)
Record endfn_calls : Type := {
  ec_state : endfn_state;
  ec_calls : list (Z * endfn_pc);
}.

Inductive endfn_sched : endfn_calls -> endfn_calls -> Prop :=
| endfn_sched_one s l1 n pc l2 :
    endfn_sched {| ec_state := s; ec_calls := l1 ++ (n, pc) :: l2 |}
      (let '(s', pc') := endfn_step s n pc in
       {| ec_state := s'; ec_calls := l1 ++ (n, pc') :: l2 |}).

Definition endfn_start (st : IOReq_fsm_t) (ns : list Z) : endfn_calls :=
  {| ec_state := (st, zsum ns); ec_calls := (fun n => (n, PC_start)) <$> ns |}.

(** Calls that did not subtract yet, calls that found the counter at zero. *)
Definition pend (c : Z * endfn_pc) : Z :=
  match c.2 with PC_start | PC_granted => c.1 | _ => 0 end.

Definition atzero (c : Z * endfn_pc) : Z :=
  match c.2 with PC_last | PC_done true => 1 | _ => 0 end.

Definition subm (c : Z * endfn_pc) : Z :=
  match c.2 with PC_done true => 1 | _ => 0 end.

Definition csum (f : Z * endfn_pc -> Z) (l : list (Z * endfn_pc)) : Z := zsum (f <$> l).

Lemma csum_app f l1 l2 : csum f (l1 ++ l2) = csum f l1 + csum f l2.
Proof. unfold csum. by rewrite fmap_app, zsum_app. Qed.

Lemma csum_cons f c l : csum f (c :: l) = f c + csum f l.
Proof. done. Qed.

Lemma csum_nonneg f l : (forall c, c ∈ l -> 0 <= f c) -> 0 <= csum f l.
Proof.
  intros H. apply zsum_nonneg, Forall_fmap, Forall_forall. intros c Hc. by apply H.
Qed.

Context (S1 S2 : IOReq_fsm_t).
Hypothesis Hev1 : IOReq_update_state S1 ev1 = (S1, grant).
Hypothesis Hev2 : IOReq_update_state S1 ev2 = (S2, next).

Record barrier_inv (total : Z) (c : endfn_calls) : Prop := {
  bi_pos : Forall (fun x => 0 < x.1) (ec_calls c);
  bi_remain : (ec_state c).2 = csum pend (ec_calls c) /\ csum pend (ec_calls c) <= total;
  bi_last : csum atzero (ec_calls c) = if csum pend (ec_calls c) =? 0 then 1 else 0;
  bi_stat : (ec_state c).1 = if csum subm (ec_calls c) =? 0 then S1 else S2;
}.

Lemma pend_nonneg l : Forall (fun x => 0 < x.1) l -> 0 <= csum pend l.
Proof.
  intros Hl. apply csum_nonneg. intros [n pc] Hc. rewrite Forall_forall in Hl.
  specialize (Hl _ Hc). unfold pend. destruct pc; simpl in *; lia.
Qed.

Lemma subm_atzero l : 0 <= csum subm l <= csum atzero l.
Proof.
  induction l as [|[n pc] l IH]; [unfold csum; simpl; lia|]. rewrite !csum_cons.
  unfold subm, atzero in *. destruct pc as [| | |[]]; simpl; lia.
Qed.

Lemma barrier_step total c c' :
  total < 2 ^ 31 -> barrier_inv total c -> endfn_sched c c' -> barrier_inv total c'.
Proof.
  intros Ht [Hpos [Hrem Htot] Hlast Hstat] Hs. destruct Hs as [[st remain] l1 n pc l2]. simpl in *.
  rewrite !csum_app, !csum_cons in *.
  apply Forall_app in Hpos as [Hp1 Hp2]. apply Forall_cons in Hp2 as [Hn Hp2]. simpl in Hn.
  pose proof (pend_nonneg l1 Hp1). pose proof (pend_nonneg l2 Hp2).
  pose proof (subm_atzero l1). pose proof (subm_atzero l2).
  assert (Hpos' : forall pc', Forall (fun x : Z * endfn_pc => 0 < x.1) (l1 ++ (n, pc') :: l2)).
  { intros pc'. apply Forall_app. split; [done|]. by constructor. }
  (* forget the lists: only the six sums matter *)
  assert (Hgoal : forall s' pc',
    s'.2 = csum pend l1 + (pend (n, pc') + csum pend l2) /\ csum pend l1 + (pend (n, pc') + csum pend l2) <= total ->
    csum atzero l1 + (atzero (n, pc') + csum atzero l2)
      = (if csum pend l1 + (pend (n, pc') + csum pend l2) =? 0 then 1 else 0) ->
    s'.1 = (if csum subm l1 + (subm (n, pc') + csum subm l2) =? 0 then S1 else S2) ->
    barrier_inv total {| ec_state := s'; ec_calls := l1 ++ (n, pc') :: l2 |}).
  { intros s' pc' ? ? ?. split; simpl; rewrite ?csum_app, ?csum_cons; auto. }
  clear Hpos' Hp1 Hp2. generalize dependent (csum pend l1). generalize dependent (csum pend l2).
  generalize dependent (csum atzero l1). generalize dependent (csum atzero l2).
  generalize dependent (csum subm l1). generalize dependent (csum subm l2).
  intros s2 s1 Hstat a2 Hsa2 a1 Hsa1 p2 Hp2 p1 Hrem Htot Hlast Hp1 Hgoal.
  unfold pend, atzero, subm in *. cbn [fst snd] in *. destruct pc as [| | |b]; cbn in Hstat, Hrem, Htot, Hlast; cbn.
  - assert (Hst : st = S1).
    { rewrite Hstat, (proj2 (Z.eqb_eq _ 0)); [done|]. destruct (_ =? 0) eqn:E in Hlast; zbool; simpl in *; lia. }
    rewrite Hst, Hev1, bool_decide_true by done. apply Hgoal; simpl; [done|done|congruence].
  - replace (s32 (remain - n)) with (p1 + p2) by (rewrite s32_small; unfold is_s32; lia).
    destruct (p1 + p2 =? 0) eqn:E; zbool; apply Hgoal; simpl; try done; try lia.
    + rewrite (proj2 (Z.eqb_eq _ 0)) by lia. destruct (_ =? 0) eqn:E' in Hlast; zbool; lia.
    + rewrite (proj2 (Z.eqb_neq _ 0)) by lia. destruct (_ =? 0) eqn:E' in Hlast; zbool; lia.
  - assert (Hz : p1 + (0 + p2) = 0 /\ s1 + s2 = 0).
    { destruct (_ =? 0) eqn:E in Hlast; zbool; simpl in *; lia. }
    rewrite (proj2 (Z.eqb_eq (s1 + (0 + s2)) 0)) in Hstat by lia. rewrite Hstat, Hev2, bool_decide_true by done.
    apply Hgoal; simpl; [done|done|]. by rewrite (proj2 (Z.eqb_neq _ 0)) by lia.
  - apply Hgoal; simpl; done.
Qed.

Definition all_returned (l : list (Z * endfn_pc)) : Prop :=
  Forall (fun c => exists b, c.2 = PC_done b) l.

Lemma barrier_start ns :
  ns <> [] -> Forall (fun n => 0 < n) ns -> zsum ns < 2 ^ 31 -> barrier_inv (zsum ns) (endfn_start S1 ns).
Proof.
  intros Hne Hpos Hb.
  assert (Hs : forall l, csum pend ((fun n => (n, PC_start)) <$> l) = zsum l /\
                         csum atzero ((fun n => (n, PC_start)) <$> l) = 0 /\
                         csum subm ((fun n => (n, PC_start)) <$> l) = 0).
  { induction l as [|n l (IH1 & IH2 & IH3)]; [done|]. rewrite fmap_cons, !csum_cons, IH1, IH2, IH3. done. }
  destruct (Hs ns) as (H1 & H2 & H3).
  assert (0 < zsum ns).
  { destruct ns as [|n ns]; [done|]. apply Forall_cons in Hpos as [? Hpos]. rewrite zsum_cons.
    pose proof (zsum_nonneg ns ltac:(eapply Forall_impl; [exact Hpos|simpl; lia])). lia. }
  split; simpl.
  - apply Forall_fmap. exact Hpos.
  - rewrite H1. lia.
  - rewrite H1, H2. by rewrite (proj2 (Z.eqb_neq _ 0)) by lia.
  - by rewrite H3.
Qed.

Lemma barrier_reach ns c :
  ns <> [] -> Forall (fun n => 0 < n) ns -> zsum ns < 2 ^ 31 ->
  rtc endfn_sched (endfn_start S1 ns) c -> barrier_inv (zsum ns) c.
Proof.
  intros Hne Hpos Hb. pose proof (barrier_start ns Hne Hpos Hb) as H0. intros Hr. revert H0.
  induction Hr as [|c1 c2 c3 H1 _ IH]; [done|]. intros Hi. apply IH. eapply barrier_step; eauto.
Qed.

Lemma returned_sums l : all_returned l -> csum pend l = 0 /\ csum atzero l = csum subm l.
Proof.
  induction 1 as [|[n pc] l [b Hb] _ (IH1 & IH2)]; [done|]. simpl in Hb. subst pc.
  rewrite !csum_cons, IH1, IH2. by destruct b.
Qed.

(** The next stage is granted to one call at most, only when every call has
    subtracted its blocks, and to exactly one when all calls returned. *)
Lemma barrier_spec ns c :
  ns <> [] -> Forall (fun n => 0 < n) ns -> zsum ns < 2 ^ 31 ->
  rtc endfn_sched (endfn_start S1 ns) c ->
  csum subm (ec_calls c) <= 1 /\
  (csum subm (ec_calls c) = 1 -> (ec_state c).2 = 0) /\
  (all_returned (ec_calls c) -> csum subm (ec_calls c) = 1 /\ ec_state c = (S2, 0)).
Proof.
  intros Hne Hpos Hb Hr. destruct (barrier_reach ns c Hne Hpos Hb Hr) as [Hp [Hrem _] Hlast Hstat].
  pose proof (subm_atzero (ec_calls c)) as Hsa. destruct (_ =? 0) eqn:E in Hlast; zbool.
  - split; [lia|]. split; [lia|]. intros Hall. destruct (returned_sums _ Hall) as [H1 H2].
    split; [lia|]. destruct (ec_state c) as [st re]. simpl in *.
    rewrite Hstat, Hrem, (proj2 (Z.eqb_neq _ 0)) by lia. congruence.
  - split; [lia|]. split; [lia|]. intros Hall. destruct (returned_sums _ Hall). lia.
Qed.

End endfn.

Definition ioReq_IODone_endfn (s : endfn_state) (num_LBs : Z) : endfn_state * endfn_pc :=
  endfn_call IOREQ_E_IOSeg_IODone IOREQ_A_IOSegIODoneCIIOR IOREQ_E_RWUDataDone IOREQ_A_DO_ReportMD s num_LBs.

(** The report of a segment counts once, whatever its number of blocks. *)
Definition ioReq_MDReport_endfn (s : endfn_state) : endfn_state * endfn_pc :=
  endfn_call IOREQ_E_IOSeg_ReportMDDone IOREQ_A_IOSegMDReportDoneCIIOR IOREQ_E_ReportMDDone IOREQ_A_DO_Healing s 1.

Definition IODone_sched : endfn_calls -> endfn_calls -> Prop :=
  endfn_sched IOREQ_E_IOSeg_IODone IOREQ_A_IOSegIODoneCIIOR IOREQ_E_RWUDataDone IOREQ_A_DO_ReportMD.

Definition MDReport_sched : endfn_calls -> endfn_calls -> Prop :=
  endfn_sched IOREQ_E_IOSeg_ReportMDDone IOREQ_A_IOSegMDReportDoneCIIOR IOREQ_E_ReportMDDone IOREQ_A_DO_Healing.

(** C22: the segments of a request are joined exactly once.  When the completions of
    its segments (positive block counts that add up to the request's counter) run
    concurrently, in every interleaving of their atomic steps at most one of them
    submits the request to the metadata report, none does before all blocks are done, and when all
    calls returned exactly one did and the request is in the report state; likewise
    for the metadata reports of the segments and the next stage. *)
Theorem segments_joined_once (ns : list Z) (k : nat) (c d : endfn_calls) :
  ns <> [] -> Forall (fun n => 0 < n) ns -> zsum ns < 2 ^ 31 -> (0 < k)%nat -> Z.of_nat k < 2 ^ 31 ->
  rtc IODone_sched (endfn_start {| st_ioReq := IOREQ_S_RWUserData |} ns) c ->
  rtc MDReport_sched (endfn_start {| st_ioReq := IOREQ_S_ReportMD |} (replicate k 1)) d ->
  (csum subm (ec_calls c) <= 1 /\
   (csum subm (ec_calls c) = 1 -> (ec_state c).2 = 0) /\
   (all_returned (ec_calls c) ->
      csum subm (ec_calls c) = 1 /\ ec_state c = ({| st_ioReq := IOREQ_S_ReportMD |}, 0))) /\
  (csum subm (ec_calls d) <= 1 /\
   (csum subm (ec_calls d) = 1 -> (ec_state d).2 = 0) /\
   (all_returned (ec_calls d) ->
      csum subm (ec_calls d) = 1 /\ ec_state d = ({| st_ioReq := IOREQ_S_SelfHealing |}, 0))).
Proof.
  intros Hne Hpos Hb Hk Hk' Hc Hd. split.
  - by apply (barrier_spec IOREQ_E_IOSeg_IODone IOREQ_A_IOSegIODoneCIIOR IOREQ_E_RWUDataDone IOREQ_A_DO_ReportMD
      {| st_ioReq := IOREQ_S_RWUserData |} {| st_ioReq := IOREQ_S_ReportMD |} eq_refl eq_refl ns c).
  - assert (Hz : zsum (replicate k 1) = Z.of_nat k).
    { clear. induction k as [|k IH]; [done|]. rewrite replicate_S, zsum_cons, IH. lia. }
    apply (barrier_spec IOREQ_E_IOSeg_ReportMDDone IOREQ_A_IOSegMDReportDoneCIIOR IOREQ_E_ReportMDDone IOREQ_A_DO_Healing
      {| st_ioReq := IOREQ_S_ReportMD |} {| st_ioReq := IOREQ_S_SelfHealing |} eq_refl eq_refl (replicate k 1) d); try done.
    + by destruct k; [lia|].
    + apply Forall_replicate. lia.
    + by rewrite Hz.
Qed.

(** Two segments whose completions interleave: both are granted before either
    subtracts. *)
Lemma ex_IODone_run :
  rtc IODone_sched (endfn_start {| st_ioReq := IOREQ_S_RWUserData |} [3; 5])
    {| ec_state := ({| st_ioReq := IOREQ_S_ReportMD |}, 0);
       ec_calls := [(3, PC_done true); (5, PC_done false)] |}.
Proof.
  eapply rtc_l; [apply (endfn_sched_one _ _ _ _ _ [] 3 PC_start [(5, PC_start)])|]. cbn.
  eapply rtc_l; [apply (endfn_sched_one _ _ _ _ _ [(3, PC_granted)] 5 PC_start [])|]. cbn.
  eapply rtc_l; [apply (endfn_sched_one _ _ _ _ _ [(3, PC_granted)] 5 PC_granted [])|]. cbn.
  eapply rtc_l; [apply (endfn_sched_one _ _ _ _ _ [] 3 PC_granted [(5, PC_done false)])|]. cbn.
  eapply rtc_l; [apply (endfn_sched_one _ _ _ _ _ [] 3 PC_last [(5, PC_done false)])|]. cbn.
  apply rtc_refl.
Qed.

Lemma ex_MDReport_run :
  rtc MDReport_sched (endfn_start {| st_ioReq := IOREQ_S_ReportMD |} (replicate 1 1))
    {| ec_state := ({| st_ioReq := IOREQ_S_SelfHealing |}, 0); ec_calls := [(1, PC_done true)] |}.
Proof.
  eapply rtc_l; [apply (endfn_sched_one _ _ _ _ _ [] 1 PC_start [])|]. cbn.
  eapply rtc_l; [apply (endfn_sched_one _ _ _ _ _ [] 1 PC_granted [])|]. cbn.
  eapply rtc_l; [apply (endfn_sched_one _ _ _ _ _ [] 1 PC_last [])|]. cbn.
  apply rtc_refl.
Qed.

Lemma segments_joined_once_witness :
  csum subm [(3, PC_done true); (5, PC_done false)] <= 1 /\ csum subm [(1, PC_done true)] <= 1.
Proof.
  destruct (segments_joined_once [3; 5] 1 _ _ ltac:(discriminate) ltac:(repeat constructor) ltac:(vm_compute; reflexivity)
    ltac:(lia) ltac:(lia) ex_IODone_run ex_MDReport_run) as ((H1 & _) & (H2 & _)).
  split; [exact H1|exact H2].
Defined.
