(* ===== verification/MDataCommit.v ===== *)
(** * MDataCommit: when is a write committed?

    Translation of the commit logic of metadata_manager/metadata_manager.c.  A
    metadata item names up to three datanodes that store a run of blocks; the
    acknowledgements of the datanodes are counted, and each of them may commit the
    write to the user and to the metadata server (MDS).  The erasure-coding branches
    are a compile-time option that is off. *)

From S2P Require Import Prelude CommonUtil.

Inductive UData_state_t : Type :=
| UData_S_INIT
| UData_S_READ_OK
| UData_S_WRITE_OK
| UData_S_WRITE_MEM_OK
| UData_S_DISK_FAILURE
| UData_S_MD_ERR
| UData_S_READ_NA
| UData_S_WRITE_FAIL
| UData_S_OPERATION_ERR.

#[global] Instance UData_state_t_eq_dec : EqDecision UData_state_t.
Proof. solve_decision. Defined.

Inductive MData_fea_t : Type :=
| MDATA_FEA_UDataCIUser
| MDATA_FEA_UDataCIMDS
| MDATA_FEA_TRUE_MD
| MDATA_FEA_ERC
| MDATA_FEA_PREALLOC.

Definition MData_fea_num (f : MData_fea_t) : Z :=
  match f with
  | MDATA_FEA_UDataCIUser => 0
  | MDATA_FEA_UDataCIMDS => 1
  | MDATA_FEA_TRUE_MD => 2
  | MDATA_FEA_ERC => 3
  | MDATA_FEA_PREALLOC => 4
  end.

(** The counters are [int8_t]; [udata_dnLoc] holds the status of each replica. *)
Record metaD_item_t : Type := {
  num_dnLoc : Z;
  num_hbids : Z;
  udata_dnLoc : list UData_state_t;
  lbid_s : Z;
  memack : Z;
  diskack : Z;
  diskErr_ack : Z;
  wfail_connErr : Z;
  num_replica : Z;
  mdata_fea : Z;
}.

Definition set_counts (m d e w : Z) (md : metaD_item_t) : metaD_item_t :=
  {| num_dnLoc := num_dnLoc md; num_hbids := num_hbids md; udata_dnLoc := udata_dnLoc md;
     lbid_s := lbid_s md; memack := m; diskack := d; diskErr_ack := e; wfail_connErr := w;
     num_replica := num_replica md; mdata_fea := mdata_fea md |}.

Definition set_fea_bits (f : Z) (md : metaD_item_t) : metaD_item_t :=
  {| num_dnLoc := num_dnLoc md; num_hbids := num_hbids md; udata_dnLoc := udata_dnLoc md;
     lbid_s := lbid_s md; memack := memack md; diskack := diskack md; diskErr_ack := diskErr_ack md;
     wfail_connErr := wfail_connErr md; num_replica := num_replica md; mdata_fea := f |}.

Definition set_dnLoc (l : list UData_state_t) (md : metaD_item_t) : metaD_item_t :=
  {| num_dnLoc := num_dnLoc md; num_hbids := num_hbids md; udata_dnLoc := l;
     lbid_s := lbid_s md; memack := memack md; diskack := diskack md; diskErr_ack := diskErr_ack md;
     wfail_connErr := wfail_connErr md; num_replica := num_replica md; mdata_fea := mdata_fea md |}.

Definition fea_test (md : metaD_item_t) (f : MData_fea_t) : bool := Z.testbit (mdata_fea md) (MData_fea_num f).

(** [test_and_set_bit]: the update and the old value. *)
Definition fea_test_set (md : metaD_item_t) (f : MData_fea_t) : metaD_item_t * bool :=
  (set_fea_bits (Z.setbit (mdata_fea md) (MData_fea_num f)) md, fea_test md f).

(** ** Operations *)

Definition MData_init_MDItem (lbid hbids replica : Z) (isERC isTrue isPrealloc : bool) : metaD_item_t :=
  let fea := 0 in
  let fea := if isERC then Z.setbit fea (MData_fea_num MDATA_FEA_ERC) else fea in
  let fea := if isTrue then Z.setbit fea (MData_fea_num MDATA_FEA_TRUE_MD) else fea in
  let fea := if isPrealloc then Z.setbit fea (MData_fea_num MDATA_FEA_PREALLOC) else fea in
  {| num_dnLoc := replica; num_hbids := hbids;
     udata_dnLoc := replicate (Z.to_nat replica) UData_S_INIT; lbid_s := lbid;
     memack := 0; diskack := 0; diskErr_ack := 0; wfail_connErr := 0; num_replica := replica;
     mdata_fea := fea |}.

Definition MData_chk_TrueMD (md : metaD_item_t) : bool := fea_test md MDATA_FEA_TRUE_MD.
Definition MData_chk_ERCProt (md : metaD_item_t) : bool := fea_test md MDATA_FEA_ERC.
Definition MData_chk_ciUser (md : metaD_item_t) : bool := fea_test md MDATA_FEA_UDataCIUser.

Definition MData_set_ciUser (md : metaD_item_t) : metaD_item_t := (fea_test_set md MDATA_FEA_UDataCIUser).1.

(** Whether to commit to the user, and the result to tell him. *)
Definition _chk_ciUser_criteria (md : metaD_item_t) (minDiskAck : Z) : bool * bool :=
  if (minDiskAck =? 0) && ((diskack md >? 0) || (memack md =? num_replica md)) then (true, true)
  else if (diskack md >=? minDiskAck) || (diskack md >=? num_replica md) then (true, true)
  else if num_replica md =? diskErr_ack md then (true, false)
  else if diskack md + diskErr_ack md =? num_replica md then (true, true)
  else (false, false).

Definition _chk_ciMDS_criteria (md : metaD_item_t) : bool :=
  if diskack md =? num_dnLoc md then true
  else if (diskack md >=? 1) &&
          ((diskack md + wfail_connErr md =? num_dnLoc md) ||
           (diskack md + diskErr_ack md + wfail_connErr md =? num_dnLoc md)) then true
  else if diskack md + diskErr_ack md =? num_dnLoc md then true
  else false.

Definition count_ack (md : metaD_item_t) (udstatus : UData_state_t) : metaD_item_t :=
  match udstatus with
  | UData_S_WRITE_MEM_OK => set_counts (s8 (memack md + 1)) (diskack md) (diskErr_ack md) (wfail_connErr md) md
  | UData_S_WRITE_OK => set_counts (memack md) (s8 (diskack md + 1)) (diskErr_ack md) (wfail_connErr md) md
  | UData_S_DISK_FAILURE => set_counts (memack md) (diskack md) (s8 (diskErr_ack md + 1)) (wfail_connErr md) md
  | UData_S_WRITE_FAIL => set_counts (memack md) (diskack md) (diskErr_ack md) (s8 (wfail_connErr md + 1)) md
  | _ => md
  end.

(** The answer of the commit functions: commit to the MDS? commit to the user?
    with which result? *)
Record commit_result : Type := {
  ciMDS : bool;
  ciUser : bool;
  ciUser_ret : bool;
}.

Definition MData_writeAck_commitResult (md : metaD_item_t) (udstatus : UData_state_t) (minDiskAck : Z)
  : metaD_item_t * commit_result :=
  let md := count_ack md udstatus in
  let '(ciU, ret) := _chk_ciUser_criteria md minDiskAck in
  let '(md, ciU) :=
    if ciU : bool then
      let '(md, was) := fea_test_set md MDATA_FEA_UDataCIUser in (md, negb was)
    else (md, false) in
  if _chk_ciMDS_criteria md then
    let '(md, wasM) := fea_test_set md MDATA_FEA_UDataCIMDS in
    if negb wasM then
      let '(md, wasU) := fea_test_set md MDATA_FEA_UDataCIUser in
      (md, {| ciMDS := true; ciUser := if negb wasU then true else ciU; ciUser_ret := ret |})
    else (md, {| ciMDS := false; ciUser := ciU; ciUser_ret := ret |})
  else (md, {| ciMDS := false; ciUser := ciU; ciUser_ret := ret |}).

Definition MData_timeout_commitResult (md : metaD_item_t) : metaD_item_t * commit_result :=
  let ret := diskack md >? 0 in
  let '(md, wasU) := fea_test_set md MDATA_FEA_UDataCIUser in
  let '(md, wasM) := fea_test_set md MDATA_FEA_UDataCIMDS in
  (md, {| ciMDS := negb wasM; ciUser := negb wasU; ciUser_ret := ret |}).

(** [None]: the index is outside of the array of replicas. *)
Definition MData_update_DNUDataStat (md : metaD_item_t) (i : nat) (s : UData_state_t) : option metaD_item_t :=
  _ ← udata_dnLoc md !! i; Some (set_dnLoc (<[i := s]> (udata_dnLoc md)) md).

Definition MData_wRetry_reset_DNLoc (md : metaD_item_t) (i : nat) : option metaD_item_t :=
  s ← udata_dnLoc md !! i;
  Some match s with
  | UData_S_WRITE_MEM_OK =>
      set_dnLoc (<[i := UData_S_INIT]> (udata_dnLoc md))
        (set_counts (s8 (memack md - 1)) (diskack md) (diskErr_ack md) (wfail_connErr md) md)
  | UData_S_WRITE_FAIL =>
      set_dnLoc (<[i := UData_S_INIT]> (udata_dnLoc md))
        (set_counts (memack md) (diskack md) (diskErr_ack md) (s8 (wfail_connErr md - 1)) md)
  | _ => md
  end.

Definition MData_chk_UDStatus_writefail (s : UData_state_t) : bool := negb (bool_decide (s = UData_S_WRITE_OK)).
Definition MData_chk_UDStatus_readfail (s : UData_state_t) : bool := bool_decide (s = UData_S_DISK_FAILURE).
Definition MData_get_num_diskAck (md : metaD_item_t) : Z := diskack md.

(** The item part of [update_metadata_UDataStat]: a new round for the item. *)
Definition update_item_UDataStat (md : metaD_item_t) (s : UData_state_t) : metaD_item_t :=
  let f := Z.clearbit (mdata_fea md) (MData_fea_num MDATA_FEA_UDataCIUser) in
  let f := Z.clearbit f (MData_fea_num MDATA_FEA_UDataCIMDS) in
  set_dnLoc ((fun _ => s) <$> udata_dnLoc md) (set_fea_bits f md).

(** *** Reads *)

(** Keep waiting for other replicas? and the result otherwise. *)
Definition _DNReadAck_check_wait (n num_MDErr num_DiskErr num_DNNA : Z) : bool * bool :=
  if num_MDErr =? n then (false, true)
  else if num_DiskErr =? n then (false, false)
  else if num_DNNA =? n then (true, false)
  else if num_MDErr + num_DiskErr =? n then (false, true)
  else if num_MDErr + num_DNNA =? n then (true, false)
  else if num_DiskErr + num_DNNA =? n then (true, false)
  else if num_MDErr + num_DiskErr + num_DNNA =? n then (true, false)
  else (true, false).

(** The loop over the replicas; [None] for the counts when one has the data. *)
Fixpoint read_counts (l : list UData_state_t) (e d n : Z) : option (Z * Z * Z) :=
  match l with
  | [] => Some (e, d, n)
  | UData_S_READ_OK :: _ => None
  | UData_S_MD_ERR :: l => read_counts l (e + 1) d n
  | UData_S_DISK_FAILURE :: l => read_counts l e (d + 1) n
  | UData_S_READ_NA :: l => read_counts l e d (n + 1)
  | _ :: l => read_counts l e d n
  end.

Definition MData_check_ciUserStatus (md : metaD_item_t) : bool * bool :=
  match read_counts (take (Z.to_nat (num_dnLoc md)) (udata_dnLoc md)) 0 0 0 with
  | None => (false, true)
  | Some (e, d, n) => _DNReadAck_check_wait (num_dnLoc md) e d n
  end.

(** ** The acknowledgements of one write as a transition system *)

Inductive md_event : Type :=
| EvAck (i : nat) (s : UData_state_t)
| EvRetry (i : nat)
| EvTimeout.

Definition no_commit : commit_result := {| ciMDS := false; ciUser := false; ciUser_ret := false |}.

(** The metadata part of handling an acknowledgement, of a retry of one replica and of
    the timer. *)
Definition md_apply (minDiskAck : Z) (md : metaD_item_t) (e : md_event) : metaD_item_t * commit_result :=
  match e with
  | EvAck i s =>
      match MData_update_DNUDataStat md i s with
      | Some md => MData_writeAck_commitResult md s minDiskAck
      | None => (md, no_commit)
      end
  | EvRetry i => (default md (MData_wRetry_reset_DNLoc md i), no_commit)
  | EvTimeout => MData_timeout_commitResult md
  end.

(** What a datanode may answer next: an answer that reached the disk, or failed
    there, is final; after a lost connection the next answer comes after a retry. *)
Definition ack_legal (cur new : UData_state_t) : bool :=
  match cur, new with
  | UData_S_INIT, (UData_S_WRITE_MEM_OK | UData_S_WRITE_OK | UData_S_DISK_FAILURE | UData_S_WRITE_FAIL) => true
  | UData_S_WRITE_MEM_OK, (UData_S_WRITE_OK | UData_S_DISK_FAILURE | UData_S_WRITE_FAIL) => true
  | _, _ => false
  end.

Definition event_legal (md : metaD_item_t) (e : md_event) : Prop :=
  match e with
  | EvAck i s => exists c, udata_dnLoc md !! i = Some c /\ ack_legal c s = true
  | _ => True
  end.

Fixpoint md_run (minDiskAck : Z) (md : metaD_item_t) (es : list md_event) : metaD_item_t * list commit_result :=
  match es with
  | [] => (md, [])
  | e :: es =>
      let '(md1, r) := md_apply minDiskAck md e in
      let '(md2, rs) := md_run minDiskAck md1 es in (md2, r :: rs)
  end.

Fixpoint run_legal (minDiskAck : Z) (md : metaD_item_t) (es : list md_event) : Prop :=
  match es with
  | [] => True
  | e :: es => event_legal md e /\ run_legal minDiskAck (md_apply minDiskAck md e).1 es
  end.

Lemma md_run_snoc k md es e :
  md_run k md (es ++ [e]) =
  let '(md1, rs) := md_run k md es in
  let '(md2, r) := md_apply k md1 e in (md2, rs ++ [r]).
Proof.
  revert md. induction es as [|e' es IH]; intros md; simpl.
  - by destruct (md_apply k md e).
  - destruct (md_apply k md e') as [md1 r]. rewrite IH.
    destruct (md_run k md1 es) as [md2 rs]. by destruct (md_apply k md2 e).
Qed.

Lemma run_legal_snoc k md es e :
  run_legal k md (es ++ [e]) <-> run_legal k md es /\ event_legal (md_run k md es).1 e.
Proof.
  revert md. induction es as [|e' es IH]; intros md; simpl; [tauto|].
  destruct (md_apply k md e') as [md1 r] eqn:E. simpl. rewrite IH.
  destruct (md_run k md1 es) as [md2 rs]. simpl. tauto.
Qed.

(** ** Feature bits *)

#[local] Arguments Z.testbit : simpl never.
#[local] Arguments Z.setbit : simpl never.

Lemma fea_test_set_same md f : fea_test (fea_test_set md f).1 f = true.
Proof. unfold fea_test. simpl. apply Z.setbit_eq. by destruct f. Qed.

Lemma fea_test_set_other md f g : f <> g -> fea_test (fea_test_set md f).1 g = fea_test md g.
Proof. intros Hne. unfold fea_test. simpl. apply Z.setbit_neq; destruct f, g; simpl; congruence || lia. Qed.

(** What a step does to the two commit flags: each commit is answered at most once,
    exactly when its flag goes up, and the MDS flag never goes up alone. *)
Definition flags_ok (md md' : metaD_item_t) (r : commit_result) : Prop :=
  (ciUser r = true <-> fea_test md MDATA_FEA_UDataCIUser = false /\ fea_test md' MDATA_FEA_UDataCIUser = true) /\
  (ciMDS r = true <-> fea_test md MDATA_FEA_UDataCIMDS = false /\ fea_test md' MDATA_FEA_UDataCIMDS = true) /\
  (fea_test md MDATA_FEA_UDataCIUser = true -> fea_test md' MDATA_FEA_UDataCIUser = true) /\
  (fea_test md MDATA_FEA_UDataCIMDS = true -> fea_test md' MDATA_FEA_UDataCIMDS = true) /\
  (ciMDS r = true -> fea_test md' MDATA_FEA_UDataCIUser = true).

Lemma count_ack_fea md s : mdata_fea (count_ack md s) = mdata_fea md.
Proof. by destruct s. Qed.

Ltac flag_cases f :=
  unfold flags_ok, fea_test; simpl; rewrite ?Z.setbit_eqb by lia; simpl;
  destruct (Z.testbit f 0), (Z.testbit f 1); simpl; intuition congruence.

Lemma writeAck_flags k md s :
  flags_ok md (MData_writeAck_commitResult md s k).1 (MData_writeAck_commitResult md s k).2.
Proof.
  unfold MData_writeAck_commitResult, fea_test_set, fea_test.
  pose proof (count_ack_fea md s) as Hf. generalize dependent (count_ack md s). intros c Hf.
  destruct (_chk_ciUser_criteria c k) as [[] ret]; simpl; destruct (_chk_ciMDS_criteria _); simpl; rewrite ?Hf;
    repeat match goal with |- context [if negb (Z.testbit ?x ?y) then _ else _] => destruct (Z.testbit x y) eqn:? end;
    unfold flags_ok, fea_test; simpl; rewrite ?Hf, ?Z.setbit_eqb in * by lia; simpl in *;
    destruct (Z.testbit (mdata_fea md) 0), (Z.testbit (mdata_fea md) 1); simpl in *; intuition congruence.
Qed.

Lemma timeout_flags md :
  flags_ok md (MData_timeout_commitResult md).1 (MData_timeout_commitResult md).2.
Proof. unfold MData_timeout_commitResult, fea_test_set. flag_cases (mdata_fea md). Qed.

Lemma md_apply_flags k md e : flags_ok md (md_apply k md e).1 (md_apply k md e).2.
Proof.
  destruct e as [i s|i|]; simpl.
  - unfold MData_update_DNUDataStat. destruct (udata_dnLoc md !! i); simpl.
    + pose proof (writeAck_flags k (set_dnLoc (<[i:=s]> (udata_dnLoc md)) md) s) as H. exact H.
    + flag_cases (mdata_fea md).
  - unfold MData_wRetry_reset_DNLoc. destruct (udata_dnLoc md !! i) as [[]|]; simpl; flag_cases (mdata_fea md).
  - apply timeout_flags.
Qed.

Definition num_ciUser (rs : list commit_result) : nat := length (filter (fun r => ciUser r = true) rs).
Definition num_ciMDS (rs : list commit_result) : nat := length (filter (fun r => ciMDS r = true) rs).

Lemma md_run_flags k md es :
  fea_test md MDATA_FEA_UDataCIUser = false -> fea_test md MDATA_FEA_UDataCIMDS = false ->
  let '(md', rs) := md_run k md es in
  num_ciUser rs = (if fea_test md' MDATA_FEA_UDataCIUser then 1 else 0)%nat /\
  num_ciMDS rs = (if fea_test md' MDATA_FEA_UDataCIMDS then 1 else 0)%nat /\
  (fea_test md' MDATA_FEA_UDataCIMDS = true -> fea_test md' MDATA_FEA_UDataCIUser = true).
Proof.
  intros HU HM. induction es as [|e es IH] using rev_ind; [simpl; rewrite HU, HM; done|].
  rewrite md_run_snoc. destruct (md_run k md es) as [md1 rs]. destruct IH as (IHU & IHM & IHi).
  pose proof (md_apply_flags k md1 e) as (F1 & F2 & F3 & F4 & F5).
  destruct (md_apply k md1 e) as [md2 r]. simpl in *.
  unfold num_ciUser, num_ciMDS in *. rewrite !filter_app, !length_app, !filter_cons, !filter_nil, IHU, IHM.
  destruct (fea_test md1 MDATA_FEA_UDataCIUser), (fea_test md1 MDATA_FEA_UDataCIMDS),
    (fea_test md2 MDATA_FEA_UDataCIUser) eqn:E1, (fea_test md2 MDATA_FEA_UDataCIMDS) eqn:E2;
    repeat case_decide; simpl; intuition congruence.
Qed.

(** C20: a write is committed to the user at most once and to the metadata server at
    most once, whatever acknowledgements, retries and timeouts arrive and in
    whatever order, and never to the metadata server without the user. *)
Theorem commits_at_most_once (minDiskAck lbid hbids replica : Z) (isTrue : bool) (es : list md_event) :
  let '(md, rs) := md_run minDiskAck (MData_init_MDItem lbid hbids replica false isTrue false) es in
  (num_ciUser rs <= 1)%nat /\ (num_ciMDS rs <= 1)%nat /\ (num_ciMDS rs <= num_ciUser rs)%nat.
Proof.
  pose proof (md_run_flags minDiskAck (MData_init_MDItem lbid hbids replica false isTrue false) es) as H.
  destruct (md_run _ _ _) as [md rs]. destruct H as (HU & HM & Hi); [by destruct isTrue..|].
  rewrite HU, HM. destruct (fea_test md MDATA_FEA_UDataCIUser), (fea_test md MDATA_FEA_UDataCIMDS); lia.
Qed.

(** ** The counters count the replicas *)

Definition cnt (s : UData_state_t) (l : list UData_state_t) : Z :=
  Z.of_nat (length (filter (fun x => x = s) l)).

Lemma cnt_cons s x l : cnt s (x :: l) = (if decide (x = s) then 1 else 0) + cnt s l.
Proof. unfold cnt. rewrite filter_cons. case_decide; simpl; lia. Qed.

Lemma cnt_insert s l i c x :
  l !! i = Some c ->
  cnt s (<[i := x]> l) + (if decide (c = s) then 1 else 0) = cnt s l + (if decide (x = s) then 1 else 0).
Proof.
  revert i. induction l as [|y l IH]; intros [|i]; simpl; try done.
  - intros [= ->]. rewrite !cnt_cons. lia.
  - intros Hl. rewrite !cnt_cons. specialize (IH i Hl). lia.
Qed.

Lemma cnt_nonneg s l : 0 <= cnt s l.
Proof. unfold cnt. lia. Qed.

Lemma cnt_sum l : cnt UData_S_WRITE_OK l + cnt UData_S_DISK_FAILURE l + cnt UData_S_WRITE_FAIL l <= Z.of_nat (length l).
Proof.
  induction l as [|x l IH]; [done|]. rewrite !cnt_cons. destruct x; simpl; lia.
Qed.

Lemma cnt_replicate s x k : s <> x -> cnt s (replicate k x) = 0.
Proof. intros Hs. induction k as [|k IH]; [done|]. simpl. rewrite cnt_cons, IH, decide_False by congruence. done. Qed.

Record md_wf (n : Z) (md : metaD_item_t) : Prop := {
  wf_n : 1 <= n <= MAX_NUM_REPLICA /\ num_dnLoc md = n /\ num_replica md = n /\
         Z.of_nat (length (udata_dnLoc md)) = n;
  wf_disk : diskack md = cnt UData_S_WRITE_OK (udata_dnLoc md);
  wf_err : diskErr_ack md = cnt UData_S_DISK_FAILURE (udata_dnLoc md);
  wf_fail : wfail_connErr md = cnt UData_S_WRITE_FAIL (udata_dnLoc md);
}.

Lemma md_wf_init n lbid hbids t : 1 <= n <= MAX_NUM_REPLICA -> md_wf n (MData_init_MDItem lbid hbids n false t false).
Proof.
  intros Hn. split; simpl; rewrite ?cnt_replicate by done; try done. rewrite length_replicate. lia.
Qed.

(** The item after the status and the counter were updated for a legal answer. *)
Definition acked (md : metaD_item_t) (i : nat) (s : UData_state_t) : metaD_item_t :=
  count_ack (set_dnLoc (<[i := s]> (udata_dnLoc md)) md) s.

Lemma acked_wf n md i c s :
  md_wf n md -> udata_dnLoc md !! i = Some c -> ack_legal c s = true -> md_wf n (acked md i s).
Proof.
  intros [Hn Hd He Hf] Hi Hl.
  pose proof (cnt_insert UData_S_WRITE_OK _ i c s Hi) as I1.
  pose proof (cnt_insert UData_S_DISK_FAILURE _ i c s Hi) as I2.
  pose proof (cnt_insert UData_S_WRITE_FAIL _ i c s Hi) as I3.
  pose proof (cnt_sum (udata_dnLoc md)) as Hs.
  pose proof (cnt_nonneg UData_S_WRITE_OK (udata_dnLoc md)).
  pose proof (cnt_nonneg UData_S_DISK_FAILURE (udata_dnLoc md)).
  pose proof (cnt_nonneg UData_S_WRITE_FAIL (udata_dnLoc md)).
  unfold MAX_NUM_REPLICA in *. unfold acked.
  destruct c, s; try done; simpl in *; split; unfold MAX_NUM_REPLICA; simpl; rewrite ?length_insert; try lia;
    rewrite s8_small; lia.
Qed.

Lemma reset_wf n md i : md_wf n md -> md_wf n (default md (MData_wRetry_reset_DNLoc md i)).
Proof.
  intros W. pose proof W as [Hn Hd He Hf]. unfold MData_wRetry_reset_DNLoc.
  destruct (udata_dnLoc md !! i) as [c|] eqn:Hi; [|done]. simpl.
  pose proof (cnt_insert UData_S_WRITE_OK _ i c UData_S_INIT Hi) as I1.
  pose proof (cnt_insert UData_S_DISK_FAILURE _ i c UData_S_INIT Hi) as I2.
  pose proof (cnt_insert UData_S_WRITE_FAIL _ i c UData_S_INIT Hi) as I3.
  pose proof (cnt_sum (udata_dnLoc md)) as Hs.
  pose proof (cnt_nonneg UData_S_WRITE_FAIL (<[i:=UData_S_INIT]> (udata_dnLoc md))).
  pose proof (cnt_nonneg UData_S_WRITE_OK (udata_dnLoc md)).
  pose proof (cnt_nonneg UData_S_DISK_FAILURE (udata_dnLoc md)).
  unfold MAX_NUM_REPLICA in *.
  destruct c; try done; simpl in *; split; unfold MAX_NUM_REPLICA; simpl; rewrite ?length_insert; try lia.
  rewrite s8_small; lia.
Qed.

(** What a step leaves to the commit flags only. *)
Definition same_counts (md md' : metaD_item_t) : Prop :=
  num_dnLoc md = num_dnLoc md' /\ udata_dnLoc md = udata_dnLoc md' /\ memack md = memack md' /\
  diskack md = diskack md' /\ diskErr_ack md = diskErr_ack md' /\ wfail_connErr md = wfail_connErr md' /\
  num_replica md = num_replica md'.

Lemma md_wf_same n md md' : same_counts md md' -> md_wf n md -> md_wf n md'.
Proof. intros (H1 & H2 & H3 & H4 & H5 & H6 & H7) [Hn Hd He Hf]. split; congruence || by rewrite <- ?H1, <- ?H2, <- ?H7. Qed.

Lemma writeAck_same md s k :
  same_counts (count_ack md s) (MData_writeAck_commitResult md s k).1.
Proof.
  unfold MData_writeAck_commitResult, fea_test_set.
  destruct (_chk_ciUser_criteria (count_ack md s) k) as [[] ret]; simpl; destruct (_chk_ciMDS_criteria _); simpl;
    try destruct (negb _); done.
Qed.

Lemma md_apply_wf n k md e : md_wf n md -> event_legal md e -> md_wf n (md_apply k md e).1.
Proof.
  intros W. destruct e as [i s|i|]; simpl.
  - intros (c & Hi & Hl). unfold MData_update_DNUDataStat. rewrite Hi. simpl.
    eapply md_wf_same; [apply writeAck_same|]. by eapply acked_wf.
  - intros _. by apply reset_wf.
  - intros _. by eapply md_wf_same; [|exact W].
Qed.

Lemma md_run_wf n k md es : md_wf n md -> run_legal k md es -> md_wf n (md_run k md es).1.
Proof.
  intros W. induction es as [|e es IH] using rev_ind; [done|]. rewrite run_legal_snoc, md_run_snoc.
  intros [H1 H2]. specialize (IH H1). destruct (md_run k md es) as [md1 rs]. simpl in *.
  pose proof (md_apply_wf n k md1 e IH H2). by destruct (md_apply k md1 e).
Qed.

(** ** Theorems *)

Lemma chk_ciUser_false md k ret : _chk_ciUser_criteria md k = (false, ret) -> ret = false.
Proof.
  unfold _chk_ciUser_criteria. intros H.
  repeat match type of H with (if ?b then _ else _) = _ => destruct b; [congruence|] end. congruence.
Qed.

Lemma fea_user_set f md : fea_test (set_fea_bits (Z.setbit f 0) md) MDATA_FEA_UDataCIUser = true.
Proof. unfold fea_test. simpl. by apply Z.setbit_eq. Qed.

Lemma fea_user_kept f md :
  fea_test (set_fea_bits (Z.setbit (Z.setbit f 0) 1) md) MDATA_FEA_UDataCIUser = true.
Proof. unfold fea_test. simpl. rewrite Z.setbit_neq by lia. by apply Z.setbit_eq. Qed.

Lemma fea_mds_set f md : fea_test (set_fea_bits (Z.setbit f 1) md) MDATA_FEA_UDataCIMDS = true.
Proof. unfold fea_test. simpl. by apply Z.setbit_eq. Qed.

Lemma fea_mds_kept f md :
  fea_test (set_fea_bits (Z.setbit (Z.setbit f 1) 0) md) MDATA_FEA_UDataCIMDS = true.
Proof. unfold fea_test. simpl. rewrite Z.setbit_neq by lia. by apply Z.setbit_eq. Qed.

#[local] Hint Resolve fea_user_set fea_user_kept fea_mds_set fea_mds_kept : disco.

(** The answer of an acknowledgement in terms of the two criteria. *)
Lemma writeAck_result md s k :
  let md1 := count_ack md s in
  let r := (MData_writeAck_commitResult md s k).2 in
  let md' := (MData_writeAck_commitResult md s k).1 in
  (ciUser r = true -> ciUser_ret r = true -> _chk_ciUser_criteria md1 k = (true, true)) /\
  (ciMDS r = true -> _chk_ciMDS_criteria md1 = true) /\
  ((_chk_ciUser_criteria md1 k).1 = true -> fea_test md' MDATA_FEA_UDataCIUser = true) /\
  (_chk_ciMDS_criteria md1 = true -> fea_test md' MDATA_FEA_UDataCIMDS = true).
Proof.
  unfold MData_writeAck_commitResult, fea_test_set. generalize (count_ack md s). intros c.
  destruct (_chk_ciUser_criteria c k) as [[] ret] eqn:EU; simpl;
    change (_chk_ciMDS_criteria (set_fea_bits ?f c)) with (_chk_ciMDS_criteria c);
    [|apply chk_ciUser_false in EU as ->];
    destruct (_chk_ciMDS_criteria c) eqn:EM; simpl;
    repeat match goal with |- context [if negb ?b then (_, _) else _] => destruct b; simpl end;
    repeat split; intros; try congruence; auto with disco.
Qed.

(** A legal history of a write with [n] replicas and one more acknowledgement. *)
Definition ack_after (k n : Z) (es : list md_event) (i : nat) (s : UData_state_t) : metaD_item_t * commit_result :=
  md_apply k (md_run k (MData_init_MDItem 0 1 n false false false) es).1 (EvAck i s).

Definition history_ok (k n : Z) (es : list md_event) (i : nat) (s : UData_state_t) : Prop :=
  1 <= n <= MAX_NUM_REPLICA /\
  run_legal k (MData_init_MDItem 0 1 n false false false) (es ++ [EvAck i s]).

Lemma ack_after_facts k n es i s :
  history_ok k n es i s ->
  exists md1, md_wf n md1 /\
    same_counts md1 (ack_after k n es i s).1 /\
    let r := (ack_after k n es i s).2 in
    (ciUser r = true -> ciUser_ret r = true -> _chk_ciUser_criteria md1 k = (true, true)) /\
    (ciMDS r = true -> _chk_ciMDS_criteria md1 = true) /\
    ((_chk_ciUser_criteria md1 k).1 = true -> fea_test (ack_after k n es i s).1 MDATA_FEA_UDataCIUser = true) /\
    (_chk_ciMDS_criteria md1 = true -> fea_test (ack_after k n es i s).1 MDATA_FEA_UDataCIMDS = true).
Proof.
  intros [Hn Hl]. apply run_legal_snoc in Hl as [Hl (c & Hi & Hc)].
  pose proof (md_run_wf n k _ es (md_wf_init n 0 1 false Hn) Hl) as W.
  unfold ack_after. set (md := (md_run k _ es).1) in *. simpl. unfold MData_update_DNUDataStat. rewrite Hi. simpl.
  exists (acked md i s). split; [by eapply acked_wf|]. split; [apply writeAck_same|]. apply writeAck_result.
Qed.



(** The metadata server is told about a write exactly when the write is settled:
    a commit happens only when no replica is pending any more (each is on disk, failed
    on disk or lost its connection) and there is a replica on disk or all failed
    there; and once every replica is on disk or failed there, the write has been
    committed to the server and to the user. *)
Theorem mds_commit_settled (k n : Z) (es : list md_event) (i : nat) (s : UData_state_t) :
  history_ok k n es i s ->
  let '(md, r) := ack_after k n es i s in
  let ok := cnt UData_S_WRITE_OK (udata_dnLoc md) in
  let err := cnt UData_S_DISK_FAILURE (udata_dnLoc md) in
  (ciMDS r = true ->
     ok + err + cnt UData_S_WRITE_FAIL (udata_dnLoc md) = n /\ (1 <= ok \/ err = n)) /\
  (ok + err = n ->
     fea_test md MDATA_FEA_UDataCIMDS = true /\ fea_test md MDATA_FEA_UDataCIUser = true).
Proof.
  intros H. destruct (ack_after_facts k n es i s H) as (md1 & [Hn Hd He Hf] & Hsame & _ & HM & HU' & HM').
  destruct (ack_after k n es i s) as [md r]. simpl in *.
  destruct Hsame as (_ & <- & _). rewrite <- Hd, <- He, <- Hf.
  pose proof (cnt_sum (udata_dnLoc md1)). pose proof (cnt_nonneg UData_S_WRITE_FAIL (udata_dnLoc md1)).
  pose proof (cnt_nonneg UData_S_DISK_FAILURE (udata_dnLoc md1)). pose proof (cnt_nonneg UData_S_WRITE_OK (udata_dnLoc md1)).
  split.
  - intros Hc. specialize (HM Hc). unfold _chk_ciMDS_criteria in HM.
    destruct (_ =? _) eqn:E1 in HM; zbool; [lia|].
    destruct (_ && _) eqn:E2 in HM.
    { apply andb_true_iff in E2 as [E2 E3]. apply orb_true_iff in E3 as [E3|E3]; zbool; lia. }
    destruct (_ =? _) eqn:E3 in HM; [zbool; lia|done].
  - intros Hall. split.
    + apply HM'. unfold _chk_ciMDS_criteria. destruct (_ =? _); [done|]. destruct (_ && _); [done|].
      by rewrite (proj2 (Z.eqb_eq _ _)) by lia.
    + apply HU'. unfold _chk_ciUser_criteria. destruct (_ && _); [done|]. destruct (_ || _); [done|].
      destruct (_ =? _); [done|]. by rewrite (proj2 (Z.eqb_eq _ _)) by lia.
Qed.

Lemma mds_commit_settled_witness :
  let '(md, r) := ack_after 2 2 [EvAck 0 UData_S_WRITE_OK] 1 UData_S_DISK_FAILURE in
  fea_test md MDATA_FEA_UDataCIMDS = true /\ fea_test md MDATA_FEA_UDataCIUser = true.
Proof.
  assert (H : history_ok 2 2 [EvAck 0 UData_S_WRITE_OK] 1 UData_S_DISK_FAILURE).
  { split; [unfold MAX_NUM_REPLICA; lia|]. vm_compute. repeat split; eexists; split; reflexivity. }
  pose proof (mds_commit_settled 2 2 [EvAck 0 UData_S_WRITE_OK] 1 UData_S_DISK_FAILURE H) as T.
  destruct (ack_after 2 2 [EvAck 0 UData_S_WRITE_OK] 1 UData_S_DISK_FAILURE) as [md r] eqn:E.
  destruct T as [_ T]. apply T.
  assert (Hm : md = (ack_after 2 2 [EvAck 0 UData_S_WRITE_OK] 1 UData_S_DISK_FAILURE).1) by (rewrite E; reflexivity).
  rewrite Hm. vm_compute. reflexivity.
Defined.

(** With the setting "no disk acknowledgement required" a write succeeds for the
    user on its very first answer, even when that answer is a lost connection or a
    disk failure and no datanode stores the data in memory or on disk. *)
Theorem min_ack_zero_commits_nothing (n : Z) (i : nat) (s : UData_state_t) :
  1 <= n <= MAX_NUM_REPLICA -> Z.of_nat i < n -> s = UData_S_WRITE_FAIL \/ s = UData_S_DISK_FAILURE ->
  let '(md, r) := ack_after 0 n [] i s in
  ciUser r = true /\ ciUser_ret r = true /\
  cnt UData_S_WRITE_OK (udata_dnLoc md) = 0 /\ cnt UData_S_WRITE_MEM_OK (udata_dnLoc md) = 0.
Proof.
  unfold MAX_NUM_REPLICA. intros Hn Hi Hs.
  assert (n = 1 \/ n = 2 \/ n = 3) as [->|[->| ->]] by lia;
    assert (i = 0 \/ i = 1 \/ i = 2)%nat as [->|[->| ->]] by lia; try lia;
    destruct Hs as [->| ->]; vm_compute; done.
Qed.

Lemma min_ack_zero_commits_nothing_witness :
  let '(md, r) := ack_after 0 3 [] 1 UData_S_WRITE_FAIL in
  ciUser r = true /\ ciUser_ret r = true /\
  cnt UData_S_WRITE_OK (udata_dnLoc md) = 0 /\ cnt UData_S_WRITE_MEM_OK (udata_dnLoc md) = 0.
Proof. apply (min_ack_zero_commits_nothing 3 1 UData_S_WRITE_FAIL); [unfold MAX_NUM_REPLICA; lia|lia|by left]. Defined.

(** With two required disk acknowledgements, one replica on disk and two lost
    connections the user is told a failure while the server is told to keep the
    write. *)
Lemma user_failure_mds_success :
  (ack_after 2 3 [EvAck 0 UData_S_WRITE_OK; EvAck 1 UData_S_WRITE_FAIL] 2 UData_S_WRITE_FAIL).2
  = {| ciMDS := true; ciUser := true; ciUser_ret := false |}.
Proof. reflexivity. Qed.

(** ** Reads *)

Lemma read_counts_spec l e d n :
  match read_counts l e d n with
  | None => UData_S_READ_OK ∈ l
  | Some (e', d', n') =>
      (UData_S_READ_OK ∉ l) /\ e' = e + cnt UData_S_MD_ERR l /\ d' = d + cnt UData_S_DISK_FAILURE l /\
      n' = n + cnt UData_S_READ_NA l
  end.
Proof.
  revert e d n. induction l as [|x l IH]; intros e d n; simpl.
  - rewrite elem_of_nil. unfold cnt. simpl. lia.
  - rewrite !cnt_cons.
    destruct x; simpl; try (by left);
      match goal with |- context [read_counts l ?a ?b ?c] => specialize (IH a b c) end;
      destruct (read_counts l _ _ _) as [[[e' d'] n']|];
      (by right) || (rewrite not_elem_of_cons; destruct IH as (? & -> & -> & ->); repeat split; (done || lia)).
Qed.

Lemma cnt_all (p q : UData_state_t) l :
  p <> q -> cnt p l + cnt q l = Z.of_nat (length l) <-> Forall (fun x => x = p \/ x = q) l.
Proof.
  intros Hpq. induction l as [|x l IH]; [split; [constructor|done]|].
  assert (Hle : forall l, cnt p l + cnt q l <= Z.of_nat (length l)).
  { clear -Hpq. induction l as [|x l IH]; [done|]. rewrite !cnt_cons. simpl length.
    destruct (decide (x = p)), (decide (x = q)); subst; try done; lia. }
  specialize (Hle l). rewrite !cnt_cons, Forall_cons, <- IH. simpl length.
  destruct (decide (x = p)), (decide (x = q)); subst; try done; split; intros; try lia;
    (split; [tauto|lia]) || (exfalso; destruct H as [[?|?] ?]; congruence).
Qed.

(** When does a read give up waiting for its replicas?  Exactly when one replica
    delivered the data, or every replica answered with an error (wrong block or
    disk); the answer is then a failure exactly when all replicas have disk errors. *)
Theorem read_wait_exact (md : metaD_item_t) :
  1 <= num_dnLoc md -> Z.of_nat (length (udata_dnLoc md)) = num_dnLoc md ->
  let '(keep_wait, ret) := MData_check_ciUserStatus md in
  (keep_wait = false <->
     UData_S_READ_OK ∈ udata_dnLoc md \/
     Forall (fun s => s = UData_S_MD_ERR \/ s = UData_S_DISK_FAILURE) (udata_dnLoc md)) /\
  (keep_wait = false -> ret = false <-> cnt UData_S_DISK_FAILURE (udata_dnLoc md) = num_dnLoc md).
Proof.
  intros Hn Hlen. unfold MData_check_ciUserStatus. rewrite take_ge by lia.
  pose proof (read_counts_spec (udata_dnLoc md) 0 0 0) as Hc.
  destruct (read_counts (udata_dnLoc md) 0 0 0) as [[[e d] na]|].
  - destruct Hc as (Hno & -> & -> & ->). rewrite !Z.add_0_l.
    pose proof (cnt_all UData_S_MD_ERR UData_S_DISK_FAILURE (udata_dnLoc md) ltac:(done)) as Hall. rewrite Hlen in Hall.
    pose proof (cnt_nonneg UData_S_MD_ERR (udata_dnLoc md)). pose proof (cnt_nonneg UData_S_DISK_FAILURE (udata_dnLoc md)).
    assert (Hle : cnt UData_S_MD_ERR (udata_dnLoc md) + cnt UData_S_DISK_FAILURE (udata_dnLoc md) +
                  cnt UData_S_READ_NA (udata_dnLoc md) <= num_dnLoc md).
    { rewrite <- Hlen. clear. induction (udata_dnLoc md) as [|x l IH]; [done|]. rewrite !cnt_cons. simpl length.
      destruct x; simpl; lia. }
    pose proof (cnt_nonneg UData_S_READ_NA (udata_dnLoc md)).
    unfold _DNReadAck_check_wait.
    repeat match goal with |- context [if ?b then _ else _] => destruct b eqn:? end; zbool; rewrite <- Hall; clear Hall;
      (split; [split; [intros; try done; right; lia|intros [?|?]; [done|try done; lia]]|intros; try done; split; intros; try done; lia]).
  - split; [tauto|]. intros _. split; [done|]. intros Hall.
    assert (Hsum : cnt UData_S_DISK_FAILURE (udata_dnLoc md) + cnt UData_S_READ_OK (udata_dnLoc md) <= num_dnLoc md).
    { rewrite <- Hlen. clear. induction (udata_dnLoc md) as [|x l IH]; [done|]. rewrite !cnt_cons. simpl length.
      destruct x; simpl; lia. }
    assert (1 <= cnt UData_S_READ_OK (udata_dnLoc md)); [|lia].
    revert Hc. clear. induction (udata_dnLoc md) as [|x l IH]; [by intros ?%elem_of_nil|].
    rewrite cnt_cons. pose proof (cnt_nonneg UData_S_READ_OK l).
    intros [Hx|Hin]%elem_of_cons; [rewrite decide_True by done; lia|]. specialize (IH Hin). case_decide; lia.
Qed.

Lemma read_wait_exact_witness :
  MData_check_ciUserStatus (set_dnLoc [UData_S_MD_ERR; UData_S_DISK_FAILURE] (MData_init_MDItem 0 1 2 false true false))
    = (false, true) /\
  Forall (fun s => s = UData_S_MD_ERR \/ s = UData_S_DISK_FAILURE) [UData_S_MD_ERR; UData_S_DISK_FAILURE].
Proof.
  pose proof (read_wait_exact (set_dnLoc [UData_S_MD_ERR; UData_S_DISK_FAILURE] (MData_init_MDItem 0 1 2 false true false))) as T.
  split; [reflexivity|]. simpl in T.
  destruct T as [[T _] _]; [lia|lia|]. destruct T as [T|T]; [reflexivity| |exact T].
  exfalso. rewrite !elem_of_cons, elem_of_nil in T. destruct T as [?|[?|?]]; congruence.
Defined.
