(* ===== verification/MDItems.v ===== *)
(** * MDItems: cached block locations and metadata items

    Translation of the pure part of metadata_manager/metadata_cache.c.  The cache keeps one
    item per block ([mcache_item_t]: the HBID of the block and where its replicas are); a
    request works on metadata items ([metaD_item_t]) that describe a run of blocks, with
    runs of physical locations packed into triplets.  A lookup builds metadata items from
    the cached blocks and joins adjacent triplets ([merge_lr_triplet]); an update splits
    a metadata item into blocks again ([_split_metadata]).

    A metadata item is the commit state of MDataCommit with the parts that only the
    locations need.  Arrays keep their length; an access past their end is a fault
    ([None]).  [a] are the answers of the allocator to come ([true]: memory is granted;
    an empty list: every request is). *)

From S2P Require Import Prelude CommonUtil MDataCommit.

Record mcache_dnloc_t : Type := {
  mc_ipaddr : Z;
  mc_port : Z;
  mc_rbid : Z;
  mc_offset : Z;
}.

Record mcache_item_t : Type := {
  HBID : Z;
  mc_dnLoc : list mcache_dnloc_t;
  mc_num_dnLoc : Z;
}.

Definition zero_dnloc : mcache_dnloc_t := {| mc_ipaddr := 0; mc_port := 0; mc_rbid := 0; mc_offset := 0 |}.

Record metaD_DNLoc_t : Type := {
  dl_ipaddr : Z;
  dl_port : Z;
  rbid_len_offset : list Z;
  num_phyLocs : Z;
}.

Inductive MData_state_t : Type :=
| MData_VALID
| MData_INVALID
| MData_VALID_LESS_REPLICA.

#[global] Instance MData_state_t_eq_dec : EqDecision MData_state_t.
Proof. solve_decision. Defined.

Record mdItem_t : Type := {
  md_core : metaD_item_t;
  mdata_stat : MData_state_t;
  arr_HBID : list Z;
  md_dnLoc : list metaD_DNLoc_t;
}.

Record metadata_t : Type := {
  array_metadata : list mdItem_t;
  volumeID : Z;
  lbid_start : Z;
  lbid_len : Z;
}.

(** [for (i = 0; i < n; i++) arr[i] = l[i]] for an array of fixed length. *)
Definition fill_array {B} (l arr : list B) : option (list B) :=
  if decide (length l <= length arr)%nat then Some (list_inserts 0 l arr) else None.

(** ** Hits and misses *)

(** A pointer that is not NULL. *)
Definition is_ptr {B} (x : option B) : bool := match x with Some _ => true | None => false end.

Fixpoint seg_loop (n : nat) (arr : list (option mcache_item_t)) (md_ch : bool) (cnt : Z) : option Z :=
  match n, arr with
  | O, _ => Some cnt
  | S _, [] => None
  | S n, x :: arr =>
      if negb (is_ptr x) && md_ch then Some cnt
      else if is_ptr x && negb md_ch then Some cnt
      else seg_loop n arr md_ch (s32 (cnt + 1))
  end.

Definition _get_max_seg_len (arr : list (option mcache_item_t)) (max_len : Z) : option (Z * bool) :=
  match arr with
  | [] => None
  | x :: arr =>
      let md_ch := is_ptr x in
      cnt ← seg_loop (Z.to_nat (max_len - 1)) arr md_ch 1;
      Some (cnt, md_ch)
  end.

(** ** Joining triplets *)

Fixpoint triplet_loop (n : nat) (triplet : list Z) (rbid offset accum_len retLen : Z) : option (Z * Z) :=
  match n, triplet with
  | O, _ => Some (retLen, accum_len)
  | S _, [] => None
  | S n, t :: triplet =>
      let '(rbid_n, len_n, offset_n) := decompose_triple t in
      if negb (rbid_n =? rbid) then Some (retLen, accum_len)
      else if negb (s32 (offset + accum_len) =? offset_n) then Some (retLen, accum_len)
      else triplet_loop n triplet rbid offset (s32 (accum_len + len_n)) (s32 (retLen + 1))
  end.

(** The number of triplets to join, and their total length. *)
Definition getContTripletLength (triplet : list Z) (num_of_triplet : Z) : option (Z * Z) :=
  if num_of_triplet =? 1 then Some (1, 0)
  else
    match triplet with
    | [] => None
    | t :: triplet =>
        let '(rbid, len, offset) := decompose_triple t in
        triplet_loop (Z.to_nat (num_of_triplet - 1)) triplet rbid offset len 1
    end.

(** The loop over the triplets of a location, which writes the result over its input. *)
Fixpoint merge_loop (fuel : nat) (start store_index : nat) (num : Z) (arr : list Z) :
    option (list Z * nat) :=
  match fuel with
  | O => None
  | S fuel =>
      if Z.of_nat start <? num then
        t ← arr !! start;
        let '(rbid_s, _, offset_s) := decompose_triple t in
        '(contLen, accum_len) ← getContTripletLength (drop start arr) (num - Z.of_nat start);
        let v := if contLen >? 1 then compose_triple rbid_s accum_len offset_s else t in
        merge_loop fuel (start + Z.to_nat contLen) (S store_index) num (<[store_index := v]> arr)
      else Some (arr, store_index)
  end.

Definition merge_dnLoc (d : metaD_DNLoc_t) : option metaD_DNLoc_t :=
  '(arr, store_index) ← merge_loop (S (Z.to_nat (num_phyLocs d))) 0 0 (num_phyLocs d) (rbid_len_offset d);
  Some {| dl_ipaddr := dl_ipaddr d; dl_port := dl_port d; rbid_len_offset := arr;
          num_phyLocs := u16 (Z.of_nat store_index) |}.

Fixpoint merge_dnLocs (n : nat) (ds : list metaD_DNLoc_t) : option (list metaD_DNLoc_t) :=
  match n, ds with
  | O, _ => Some ds
  | S _, [] => None
  | S n, d :: ds => d ← merge_dnLoc d; ds ← merge_dnLocs n ds; Some (d :: ds)
  end.

Definition merge_mdItem (md : mdItem_t) : option mdItem_t :=
  if decide (mdata_stat md = MData_VALID) then
    ds ← merge_dnLocs (Z.to_nat (num_dnLoc (md_core md))) (md_dnLoc md);
    Some {| md_core := md_core md; mdata_stat := mdata_stat md; arr_HBID := arr_HBID md; md_dnLoc := ds |}
  else Some md.

Definition merge_lr_triplet (mds : list mdItem_t) : option (list mdItem_t) := mapM merge_mdItem mds.

(** ** From cached blocks to metadata items *)

(** The comparison of the datanodes of two blocks. *)
Fixpoint same_DN (n : nat) (src dest : list mcache_dnloc_t) : option bool :=
  match n, src, dest with
  | O, _, _ => Some true
  | S n, s :: src, d :: dest =>
      if negb (mc_ipaddr d =? mc_ipaddr s) then Some false
      else if negb (mc_port d =? mc_port s) then Some false
      else same_DN n src dest
  | S _, _, _ => None
  end.

Fixpoint cont_dn_loop (n : nat) (pSrc : mcache_item_t) (rest : list (option mcache_item_t)) (cn_cont : Z) :
    option Z :=
  match n, rest with
  | O, _ => Some cn_cont
  | S n, Some pDest :: rest =>
      if negb (mc_num_dnLoc pSrc =? mc_num_dnLoc pDest) then Some cn_cont
      else
        same ← same_DN (Z.to_nat (mc_num_dnLoc pDest)) (mc_dnLoc pSrc) (mc_dnLoc pDest);
        if same : bool then cont_dn_loop n pSrc rest (s32 (cn_cont + 1)) else Some cn_cont
  | S _, _ => None
  end.

Definition GetContLenForSameDN (addr : nat) (len : Z) (metaData : list (option mcache_item_t)) : option Z :=
  match drop addr metaData with
  | Some pSrc :: rest => cont_dn_loop (Z.to_nat (len - 1)) pSrc rest 1
  | _ => None
  end.

Definition next_answer (a : list bool) : bool * list bool :=
  match a with [] => (true, []) | b :: a => (b, a) end.

Definition zero_DNLoc : metaD_DNLoc_t :=
  {| dl_ipaddr := 0; dl_port := 0; rbid_len_offset := replicate (Z.to_nat MAX_LBS_PER_IOR) 0; num_phyLocs := 0 |}.

Definition block_triple (j : nat) (it : mcache_item_t) : option Z :=
  l ← mc_dnLoc it !! j;
  Some (compose_triple (s32 (mc_rbid l)) 1 (s32 (mc_offset l))).

(** Location [j] of the item that describes the blocks [its]. *)
Definition create_dnLoc (mci_head : mcache_item_t) (its : list mcache_item_t) (j : nat) : option metaD_DNLoc_t :=
  dnInfo ← mc_dnLoc mci_head !! j;
  ts ← mapM (block_triple j) its;
  arr ← fill_array ts (rbid_len_offset zero_DNLoc);
  Some {| dl_ipaddr := mc_ipaddr dnInfo; dl_port := mc_port dnInfo; rbid_len_offset := arr;
          num_phyLocs := u16 (Z.of_nat (length its)) |}.

(** NULL when the item gets no memory. *)
Definition _create_MDItem (startLB : Z) (addr len : nat) (metaData : list (option mcache_item_t))
    (a : list bool) : option (option mdItem_t * list bool) :=
  let '(granted, a) := next_answer a in
  if negb granted then Some (None, a)
  else
    its ← mapM id (take len (drop addr metaData));
    match its with
    | [] => None
    | mci_head :: _ =>
        hb ← fill_array (HBID <$> its) (replicate (Z.to_nat MAX_LBS_PER_IOR) 0);
        ds ← mapM (create_dnLoc mci_head its) (seq 0 (Z.to_nat (mc_num_dnLoc mci_head)));
        ds ← fill_array ds (replicate (Z.to_nat MAX_NUM_REPLICA) zero_DNLoc);
        Some (Some {| md_core := MData_init_MDItem startLB (u32 (Z.of_nat len)) (mc_num_dnLoc mci_head)
                                   false false false;
                      mdata_stat := MData_VALID; arr_HBID := hb; md_dnLoc := ds |}, a)
    end.

(** The loop of [_create_metadata]; on failure the items built so far are freed. *)
Fixpoint create_loop (fuel : nat) (start_LB : Z) (addr : nat) (len : Z) (acc : list mdItem_t)
    (metaData : list (option mcache_item_t)) (a : list bool) : option (option (list mdItem_t) * list bool) :=
  match fuel with
  | O => None
  | S fuel =>
      if len >? 0 then
        cn_cont ← GetContLenForSameDN addr len metaData;
        '(md, a) ← _create_MDItem start_LB addr (Z.to_nat cn_cont) metaData a;
        match md with
        | None => Some (None, a)
        | Some md =>
            create_loop fuel (u64 (start_LB + cn_cont)) (addr + Z.to_nat cn_cont) (u64 (len - cn_cont))
              (acc ++ [md]) metaData a
        end
      else Some (Some acc, a)
  end.

(** The metadata items of a run of cached blocks; [None] inside: -ENOMEM. *)
Definition _create_metadata (start_LB : Z) (len : Z) (metaData : list (option mcache_item_t)) (addr : nat)
    (a : list bool) : option (option (list mdItem_t) * list bool) :=
  let '(granted, a) := next_answer a in
  if negb granted then Some (None, a)
  else create_loop (S (Z.to_nat len)) start_LB addr len [] metaData a.

(** The loop of [query_volume_MDCache] that describes the blocks found.  The block number
    is kept in an [int32_t]; when there is no memory for a description the loop tries
    again. *)
Fixpoint query_loop (fuel : nat) (volid lstart_lb remain_len : Z) (idx_s : nat) (acc : list metadata_t)
    (metaData : list (option mcache_item_t)) (a : list bool) : option (list metadata_t * list bool) :=
  match fuel with
  | O => None
  | S fuel =>
      if remain_len >? 0 then
        '(seg_len, mdata_ch) ← _get_max_seg_len (drop idx_s metaData) remain_len;
        let done items a :=
          query_loop fuel volid (s32 (lstart_lb + seg_len)) (s32 (remain_len - seg_len)) (idx_s + Z.to_nat seg_len)
            (acc ++ [{| array_metadata := items; volumeID := volid; lbid_start := u64 lstart_lb;
                        lbid_len := u32 seg_len |}]) metaData a in
        if mdata_ch : bool then
          '(items, a) ← _create_metadata (u64 lstart_lb) seg_len metaData idx_s a;
          match items with
          | None => query_loop fuel volid lstart_lb remain_len idx_s acc metaData a
          | Some items => items ← merge_lr_triplet items; done items a
          end
        else done [] a
      else Some (acc, a)
  end.

(** ** From metadata items to cached blocks *)

(** The triplet that holds block [i] of a location; without one nothing is stored. *)
Fixpoint find_phyLoc (n : nat) (ts : list Z) (i prev_len : Z) : option (option (Z * Z)) :=
  match n, ts with
  | O, _ => Some None
  | S _, [] => None
  | S n, t :: ts =>
      let '(rbid, len, offset) := decompose_triple t in
      if i <? s32 (len + prev_len) then Some (Some (u32 rbid, u32 (offset + i - prev_len)))
      else find_phyLoc n ts i (s32 (prev_len + len))
  end.

Definition split_dnLoc (i : Z) (d : metaD_DNLoc_t) : option mcache_dnloc_t :=
  loc ← find_phyLoc (Z.to_nat (num_phyLocs d)) (rbid_len_offset d) i 0;
  let '(rbid, offset) := default (0, 0) loc in
  Some {| mc_ipaddr := dl_ipaddr d; mc_port := dl_port d; mc_rbid := rbid; mc_offset := offset |}.

Definition split_block (md : mdItem_t) (i : nat) : option mcache_item_t :=
  hbid ← arr_HBID md !! i;
  let n := Z.to_nat (num_dnLoc (md_core md)) in
  locs ← (if decide (n <= length (md_dnLoc md))%nat
          then mapM (split_dnLoc (Z.of_nat i)) (take n (md_dnLoc md)) else None);
  locs ← fill_array locs (replicate (Z.to_nat MAX_NUM_REPLICA) zero_dnloc);
  Some {| HBID := hbid; mc_dnLoc := locs; mc_num_dnLoc := num_dnLoc (md_core md) |}.

Definition _split_metadata (md : mdItem_t) : option (list mcache_item_t) :=
  mapM (split_block md) (seq 0 (Z.to_nat (num_hbids (md_core md)))).

(** ** Runs of physical blocks *)

(** A run (rbid, length, offset) and the places of its blocks. *)
Definition pack (t : Z * Z * Z) : Z := let '(r, l, o) := t in compose_triple r l o.
Definition run_len (t : Z * Z * Z) : Z := t.1.2.
Definition run_ok (t : Z * Z * Z) : Prop :=
  let '(r, l, o) := t in is_s32 r /\ 0 < l < 2 ^ 11 /\ 0 <= o < 2 ^ 20.
Definition run_blocks (t : Z * Z * Z) : list (Z * Z) :=
  let '(r, l, o) := t in (fun i => (r, o + Z.of_nat i)) <$> seq 0 (Z.to_nat l).
Definition places (ts : list (Z * Z * Z)) : list (Z * Z) := ts ≫= run_blocks.
Definition total (ts : list (Z * Z * Z)) : Z := zsum (run_len <$> ts).

Lemma decompose_pack t : run_ok t -> decompose_triple (pack t) = t.
Proof.
  destruct t as [[r l] o]. intros (Hr & Hl & Ho). unfold pack. rewrite decompose_compose_gen by (done || lia).
  replace (l <? 2 ^ 11) with true by lia. done.
Qed.

Lemma total_cons t ts : total (t :: ts) = run_len t + total ts.
Proof. unfold total. rewrite fmap_cons. apply zsum_cons. Qed.

Lemma total_app ts us : total (ts ++ us) = total ts + total us.
Proof. induction ts as [|t ts IH]; [done|]. simpl app. rewrite !total_cons, IH. lia. Qed.

Lemma total_nonneg ts : Forall run_ok ts -> 0 <= total ts.
Proof.
  induction 1 as [|[[r l] o] ts (_ & Hl & _) _ IH]; [done|]. rewrite total_cons. unfold run_len. simpl. lia.
Qed.

Lemma places_app ts us : places (ts ++ us) = places ts ++ places us.
Proof. apply bind_app. Qed.

Lemma length_run_blocks t : length (run_blocks t) = Z.to_nat (run_len t).
Proof. destruct t as [[r l] o]. unfold run_blocks. by rewrite length_fmap, length_seq. Qed.

Lemma length_places ts : Forall run_ok ts -> Z.of_nat (length (places ts)) = total ts.
Proof.
  induction 1 as [|t ts Ht Hts IH]; [done|]. rewrite total_cons. unfold places. rewrite bind_cons, length_app.
  fold (places ts). rewrite length_run_blocks. destruct t as [[r l] o], Ht as (_ & Hl & _). unfold run_len. simpl. lia.
Qed.

(** Two runs one after the other are one run. *)
Lemma blocks_join r a b o :
  0 <= a -> 0 <= b -> run_blocks (r, a + b, o) = run_blocks (r, a, o) ++ run_blocks (r, b, o + a).
Proof.
  intros Ha Hb. unfold run_blocks. rewrite Z2Nat.inj_add, seq_app, fmap_app by lia. f_equal.
  rewrite Nat.add_0_l. rewrite <- (Nat.add_0_r (Z.to_nat a)) at 1. rewrite <- fmap_add_seq, <- list_fmap_compose.
  apply list_fmap_ext. intros i x _. simpl. f_equal. lia.
Qed.

Lemma triplet_loop_spec ts tl r o acc ret :
  Forall run_ok ts -> 0 <= acc -> acc + total ts < 2 ^ 11 -> 0 <= o < 2 ^ 20 ->
  0 <= ret -> ret + Z.of_nat (length ts) < 2 ^ 31 ->
  exists k, (k <= length ts)%nat /\
    triplet_loop (length ts) ((pack <$> ts) ++ tl) r o acc ret =
      Some (ret + Z.of_nat k, acc + total (take k ts)) /\
    run_blocks (r, acc + total (take k ts), o) = run_blocks (r, acc, o) ++ places (take k ts).
Proof.
  intros Hts. revert acc ret. induction Hts as [|t ts Ht Hts IH]; intros acc ret Ha Hacc Ho Hr Hn.
  { exists 0%nat. simpl. unfold total. simpl. rewrite !Z.add_0_r, app_nil_r. done. }
  rewrite total_cons in Hacc. rewrite length_cons in Hn |- *. cbn [fmap list_fmap app triplet_loop].
  rewrite decompose_pack by done. pose proof (total_nonneg ts Hts). destruct t as [[rn ln] on].
  pose proof Ht as (_ & Hl & Hon). unfold run_len in Hacc. simpl in Hacc.
  destruct (rn =? r) eqn:Er; zbool; [subst rn|].
  2: { exists 0%nat. rewrite Z.add_0_r. split; [lia|]. unfold total. simpl. rewrite Z.add_0_r, app_nil_r. done. }
  rewrite s32_small by (unfold is_s32; lia). destruct (o + acc =? on) eqn:Eo; zbool; [subst on|].
  2: { exists 0%nat. rewrite Z.add_0_r. split; [lia|]. unfold total. simpl. rewrite Z.add_0_r, app_nil_r. done. }
  cbn [negb]. rewrite !s32_small by (unfold is_s32; lia).
  destruct (IH (acc + ln) (ret + 1)) as (k & Hk & -> & Hb); try lia.
  exists (S k). cbn [take]. rewrite total_cons. unfold run_len. cbn [fst snd].
  replace (acc + (ln + total (take k ts))) with (acc + ln + total (take k ts)) by lia.
  split_and!; [lia|do 2 f_equal; lia|]. rewrite Hb, blocks_join by lia.
  unfold places. by rewrite bind_cons, app_assoc.
Qed.

(** The joined run of the triplets found. *)
Lemma getCont_spec t ts tl :
  Forall run_ok (t :: ts) -> total (t :: ts) < 2 ^ 11 -> Z.of_nat (length (t :: ts)) < 2 ^ 31 ->
  exists k accum t',
    (k <= length ts)%nat /\
    getContTripletLength ((pack <$> t :: ts) ++ tl) (Z.of_nat (length (t :: ts))) = Some (Z.of_nat (S k), accum) /\
    (if Z.of_nat (S k) >? 1 then compose_triple t.1.1 accum t.2 else pack t) = pack t' /\
    run_ok t' /\ places (take (S k) (t :: ts)) = run_blocks t' /\ total (take (S k) (t :: ts)) = run_len t'.
Proof.
  intros [Ht Hts]%Forall_cons Htot Hn. rewrite total_cons in Htot. rewrite length_cons in Hn |- *.
  unfold getContTripletLength. destruct (Z.of_nat (S (length ts)) =? 1) eqn:E1; zbool.
  { exists 0%nat, 0, t. split_and!; try done; [lia|..]; cbn [take]; [unfold places; by rewrite bind_cons, app_nil_r|].
    rewrite total_cons. unfold total. simpl. lia. }
  cbn [fmap list_fmap app]. rewrite decompose_pack by done. destruct t as [[r l] o] eqn:Et.
  pose proof Ht as (Hr & Hl & Ho). unfold run_len in Htot. cbn [fst snd] in Htot.
  replace (Z.to_nat (Z.of_nat (S (length ts)) - 1)) with (length ts) by lia.
  destruct (triplet_loop_spec ts tl r o l 1) as (k & Hk & -> & Hb); try done; try lia.
  pose proof (Forall_take _ k _ Hts) as Htk. pose proof (total_nonneg _ Htk) as Hk0.
  assert (total (take k ts) <= total ts) as Hle.
  { rewrite <- (take_drop k ts) at 2. rewrite total_app. pose proof (total_nonneg _ (Forall_drop _ k _ Hts)). lia. }
  exists k, (l + total (take k ts)), (r, l + total (take k ts), o).
  pose proof Ht as Hok. split; [done|]. split; [do 2 f_equal; lia|]. split; [|split; [unfold run_ok; split_and!; done || lia|split]].
  - destruct (Z.of_nat (S k) >? 1) eqn:Ek; [done|]. zbool. assert (k = 0%nat) as -> by lia.
    simpl. unfold total. simpl. by rewrite Z.add_0_r.
  - rewrite Hb. unfold places. cbn [take]. by rewrite bind_cons.
  - cbn [take]. by rewrite total_cons.
Qed.

(** The loop keeps the places of the blocks; its output is not ahead of its input. *)
Lemma merge_loop_spec fuel pre g ts tl :
  Forall run_ok ts -> total ts < 2 ^ 11 -> (length ts < fuel)%nat ->
  Z.of_nat (length ts) < 2 ^ 31 ->
  exists merged tl',
    merge_loop fuel (length pre + length g) (length pre) (Z.of_nat (length pre + length g + length ts))
      ((pack <$> pre) ++ g ++ (pack <$> ts) ++ tl) =
      Some ((pack <$> pre ++ merged) ++ tl', (length pre + length merged)%nat) /\
    Forall run_ok merged /\ places merged = places ts /\ total merged = total ts /\
    (length merged <= length ts)%nat.
Proof.
  revert pre g ts. induction fuel as [|fuel IH]; intros pre g ts Hts Htot Hf Hn; [lia|]. cbn [merge_loop].
  destruct ts as [|t ts].
  { rewrite (proj2 (Z.ltb_ge _ _)) by (cbn [length]; lia). exists [], (g ++ tl).
    rewrite app_nil_r, Nat.add_0_r. simpl. by split_and!. }
  set (arr := (pack <$> pre) ++ g ++ (pack <$> t :: ts) ++ tl).
  assert (drop (length pre + length g) arr = (pack <$> t :: ts) ++ tl) as Hdrop.
  { unfold arr. rewrite app_assoc, drop_app_length'; [done|]. by rewrite length_app, length_fmap. }
  rewrite (proj2 (Z.ltb_lt _ _)) by (cbn [length]; lia).
  assert (arr !! (length pre + length g)%nat = Some (pack t)) as ->.
  { rewrite <- (Nat.add_0_r (length pre + length g)), <- lookup_drop, Hdrop. done. }
  cbn [mbind option_bind]. rewrite Hdrop, decompose_pack by (by apply Forall_cons in Hts as [? _]).
  replace (Z.of_nat (length pre + length g + length (t :: ts)) - Z.of_nat (length pre + length g))
    with (Z.of_nat (length (t :: ts))) by lia.
  destruct (getCont_spec t ts tl) as (k & accum & t' & Hk & -> & Hv & Ht' & Hpl & Htt); try done.
  destruct t as [[r l] o]. cbn [mbind option_bind]. cbn [fst snd] in Hv. rewrite Hv, Nat2Z.id. clear Hv.
  set (all := (r, l, o) :: ts) in *. assert (length all = S (length ts)) as Hall by done.
  assert (exists x g', g ++ (pack <$> take (S k) all) = x :: g' /\ length g' = (length g + k)%nat) as (x & g' & Hg & Hg').
  { assert (length (g ++ (pack <$> take (S k) all)) = S (length g + k)) as Hlen.
    { rewrite length_app, length_fmap, length_take. unfold all. rewrite length_cons. lia. }
    destruct (g ++ (pack <$> take (S k) all)) as [|x g']; [simpl in Hlen; lia|]. exists x, g'. simpl in Hlen. split; [done|lia]. }
  assert (<[length pre := pack t']> arr = (pack <$> pre ++ [t']) ++ g' ++ (pack <$> drop (S k) all) ++ tl) as ->.
  { unfold arr. rewrite <- (take_drop (S k) all) at 1. rewrite fmap_app, <- app_assoc, (app_assoc g), Hg.
    rewrite insert_app_r_alt by (rewrite length_fmap; lia). rewrite length_fmap, Nat.sub_diag. simpl.
    rewrite fmap_app, <- app_assoc. done. }
  specialize (IH (pre ++ [t']) g' (drop (S k) all)). destruct IH as (merged & tl' & E & Hm & Hp & Ht & Hl).
  - by apply Forall_drop.
  - pose proof (total_app (take (S k) all) (drop (S k) all)) as Hs. rewrite take_drop in Hs. pose proof (total_nonneg _ (Forall_take _ (S k) _ Hts)). lia.
  - rewrite length_drop. lia.
  - rewrite length_drop. lia.
  - exists (t' :: merged), tl'. rewrite length_app, Hg', length_drop in E. cbn [length] in E.
    replace (length pre + length g + S k)%nat with (length pre + 1 + (length g + k))%nat by lia.
    replace (S (length pre)) with (length pre + 1)%nat by lia.
    replace (length pre + length g + length all)%nat
      with (length pre + 1 + (length g + k) + (length all - S k))%nat by lia.
    rewrite E. rewrite <- app_assoc. split_and!.
    + simpl app. do 2 f_equal. rewrite length_cons. lia.
    + by constructor.
    + unfold places at 1. rewrite bind_cons. fold (places merged). rewrite Hp, <- Hpl, <- places_app. by rewrite take_drop.
    + rewrite total_cons, Ht, <- Htt, <- total_app. by rewrite take_drop.
    + rewrite length_cons. rewrite length_drop in Hl. lia.
Qed.

(** The search for block [i] finds its place. *)
Lemma find_phyLoc_spec ts tl i prev :
  Forall run_ok ts -> 0 <= prev <= i -> i < prev + total ts -> prev + total ts < 2 ^ 11 ->
  exists r o, places ts !! Z.to_nat (i - prev) = Some (r, o) /\ is_s32 r /\
    find_phyLoc (length ts) ((pack <$> ts) ++ tl) i prev = Some (Some (u32 r, u32 o)).
Proof.
  intros Hts. revert prev. induction Hts as [|t ts Ht Hts IH]; intros prev Hp Hi Hb.
  { unfold total in Hi. simpl in Hi. lia. }
  rewrite total_cons in Hi, Hb. pose proof (total_nonneg ts Hts). cbn [length fmap list_fmap app find_phyLoc].
  rewrite decompose_pack by done. destruct t as [[r l] o]. pose proof Ht as (Hr & Hl & Ho). unfold run_len in Hi, Hb.
  cbn [fst snd] in Hi, Hb. rewrite s32_small by (unfold is_s32; lia).
  unfold places. rewrite bind_cons. fold (places ts). destruct (i <? l + prev) eqn:E; zbool.
  - exists r, (o + (i - prev)). split_and!; [|done|].
    + rewrite lookup_app_l by (rewrite length_run_blocks; unfold run_len; simpl; lia). unfold run_blocks.
      rewrite list_lookup_fmap, lookup_seq_lt by lia. simpl. do 2 f_equal. lia.
    + by replace (o + (i - prev)) with (o + i - prev) by lia.
  - rewrite s32_small by (unfold is_s32; lia). destruct (IH (prev + l)) as (r' & o' & Hpl & Hr' & ->); try lia.
    exists r', o'. split_and!; try done. rewrite lookup_app_r by (rewrite length_run_blocks; unfold run_len; simpl; lia).
    rewrite <- Hpl. f_equal. rewrite length_run_blocks. unfold run_len. simpl. lia.
Qed.

(** ** Items and the blocks they describe *)

Lemma list_inserts_eq {B} (k l : list B) i :
  (i + length k <= length l)%nat -> list_inserts i k l = take i l ++ k ++ drop (i + length k) l.
Proof.
  revert i. induction k as [|y k IH]; intros i Hi.
  { simpl. rewrite Nat.add_0_r. by rewrite take_drop. }
  cbn [length] in Hi |- *. simpl. rewrite IH by lia.
  destruct (lookup_lt_is_Some_2 l i) as [x Hx]; [lia|]. rewrite (take_S_r l i x Hx), <- app_assoc.
  rewrite insert_app_r_alt by (rewrite length_take; lia). rewrite length_take, Nat.min_l, Nat.sub_diag by lia.
  simpl. by replace (S (i + length k)) with (i + S (length k))%nat by lia.
Qed.

Lemma fill_array_eq {B} (l arr : list B) :
  (length l <= length arr)%nat -> fill_array l arr = Some (l ++ drop (length l) arr).
Proof. intros H. unfold fill_array. rewrite decide_True by done. by rewrite list_inserts_eq. Qed.

Definition dn_of (l : mcache_dnloc_t) : Z * Z := (mc_ipaddr l, mc_port l).
Definition dns (it : mcache_item_t) : list (Z * Z) := dn_of <$> take (Z.to_nat (mc_num_dnLoc it)) (mc_dnLoc it).

(** A block: at most three replicas, the unused places are zero. *)
Record wf_item (it : mcache_item_t) : Prop := {
  wi_num : 0 <= mc_num_dnLoc it <= MAX_NUM_REPLICA;
  wi_length : length (mc_dnLoc it) = Z.to_nat MAX_NUM_REPLICA;
  wi_unused : drop (Z.to_nat (mc_num_dnLoc it)) (mc_dnLoc it) =
    replicate (Z.to_nat (MAX_NUM_REPLICA - mc_num_dnLoc it)) zero_dnloc;
  wi_used : Forall (fun l => is_u32 (mc_rbid l) /\ 0 <= mc_offset l < 2 ^ 20) (mc_dnLoc it);
}.

(** Blocks with the same datanodes as [head], in the same order. *)
Definition same_as (head it : mcache_item_t) : Prop :=
  mc_num_dnLoc it = mc_num_dnLoc head /\ dns it = dns head.

#[global] Instance same_as_dec head it : Decision (same_as head it).
Proof. unfold same_as. apply _. Defined.

Definition place (j : nat) (it : mcache_item_t) : Z * Z :=
  let l := default zero_dnloc (mc_dnLoc it !! j) in (s32 (mc_rbid l), mc_offset l).

(** Location [j] of a metadata item tells where the blocks [its] are. *)
Record loc_describes (j : nat) (d : metaD_DNLoc_t) (its : list mcache_item_t) : Prop := {
  ld_runs : exists ts tl, rbid_len_offset d = (pack <$> ts) ++ tl /\
    num_phyLocs d = Z.of_nat (length ts) /\ Forall run_ok ts /\ places ts = place j <$> its;
  ld_dn it l : it ∈ its -> mc_dnLoc it !! j = Some l -> dn_of l = (dl_ipaddr d, dl_port d);
}.

Record describes (md : mdItem_t) (its : list mcache_item_t) : Prop := {
  de_valid : mdata_stat md = MData_VALID;
  de_num : num_hbids (md_core md) = Z.of_nat (length its);
  de_hbid : take (length its) (arr_HBID md) = HBID <$> its;
  de_dnLoc : Forall (fun it => mc_num_dnLoc it = num_dnLoc (md_core md)) its;
  de_length : length (md_dnLoc md) = Z.to_nat MAX_NUM_REPLICA;
  de_locs j d : Z.of_nat j < num_dnLoc (md_core md) -> md_dnLoc md !! j = Some d -> loc_describes j d its;
}.

Lemma merge_dnLoc_spec j d its :
  loc_describes j d its -> Z.of_nat (length its) < 2 ^ 11 ->
  exists d', merge_dnLoc d = Some d' /\ loc_describes j d' its.
Proof.
  intros [(ts & tl & Ha & Hn & Hok & Hp) Hdn] Hlen. pose proof (length_places ts Hok) as Htot.
  rewrite Hp, length_fmap in Htot.
  assert (Z.of_nat (length ts) <= total ts) as Hle.
  { clear -Hok. induction Hok as [|[[r l] o] ts (_ & Hl & _) _ IH]; [done|].
    rewrite total_cons, length_cons. unfold run_len. simpl. lia. }
  destruct (merge_loop_spec (S (length ts)) [] [] ts tl) as (merged & tl' & E & Hm & Hpl & Ht & Hl); try done; try lia.
  cbn [length app Nat.add] in E. rewrite fmap_nil in E. cbn [app] in E. unfold merge_dnLoc. rewrite Ha, Hn, Nat2Z.id, E. cbn [mbind option_bind]. eexists. split; [done|].
  split; simpl; [|done]. exists merged, tl'. split_and!; try done; [|congruence].
  apply u16_small. unfold is_u16. lia.
Qed.

Lemma merge_dnLocs_spec n ds (P : nat -> metaD_DNLoc_t -> Prop) :
  (forall j d, (j < n)%nat -> ds !! j = Some d -> exists d', merge_dnLoc d = Some d' /\ P j d') ->
  (n <= length ds)%nat ->
  exists ds', merge_dnLocs n ds = Some ds' /\ length ds' = length ds /\
    forall j d, (j < n)%nat -> ds' !! j = Some d -> P j d.
Proof.
  revert ds P. induction n as [|n IH]; intros ds P HP Hn.
  { exists ds. split_and!; [by destruct ds|done|lia]. }
  destruct ds as [|d ds]; [simpl in Hn; lia|]. destruct (HP 0%nat d) as (d' & E & Hd'); [lia|done|].
  destruct (IH ds (fun j => P (S j))) as (ds' & E' & Hl & HP'); [|simpl in Hn; lia|].
  { intros j x Hj Hx. apply (HP (S j)); [lia|done]. }
  exists (d' :: ds'). cbn [merge_dnLocs]. rewrite E. cbn [mbind option_bind]. rewrite E'. cbn [mbind option_bind].
  split_and!; [done|simpl; congruence|]. intros [|j] x Hj Hx; [by simplify_eq/=|]. apply HP'; [lia|done].
Qed.

(** Joining triplets changes nothing for the blocks. *)
Lemma merge_mdItem_spec md its :
  describes md its -> Z.of_nat (length its) < 2 ^ 11 -> num_dnLoc (md_core md) <= MAX_NUM_REPLICA ->
  exists md', merge_mdItem md = Some md' /\ describes md' its /\ md_core md' = md_core md.
Proof.
  intros [H1 H2 H3 H4 H5 H6] Hlen Hn. unfold merge_mdItem. rewrite decide_True by done.
  destruct (merge_dnLocs_spec (Z.to_nat (num_dnLoc (md_core md))) (md_dnLoc md) (fun j d => loc_describes j d its))
    as (ds' & E & Hl & HP).
  - intros j d Hj Hd. apply merge_dnLoc_spec; [|done]. apply (H6 j d); [lia|done].
  - rewrite H5. unfold MAX_NUM_REPLICA in *; lia.
  - rewrite E. cbn [mbind option_bind]. eexists. split; [done|]. split; [|done].
    split; simpl; try done; [congruence|]. intros j d Hj Hd. apply (HP j d); [lia|done].
Qed.

Lemma u32_s32 x : is_u32 x -> u32 (s32 x) = x.
Proof.
  unfold is_u32, u32, s32. intros Hx. rewrite Zminus_mod_idemp_l, Z.add_simpl_r. apply Z.mod_small. lia.
Qed.

(** The item of block [i]. *)
Lemma split_block_spec md its i it :
  describes md its -> Forall wf_item its -> Z.of_nat (length its) < 2 ^ 11 -> its !! i = Some it ->
  split_block md i = Some it.
Proof.
  intros [H1 H2 H3 H4 H5 H6] Hwf Hlen Hi. pose proof (lookup_lt_Some _ _ _ Hi) as Hlt.
  pose proof (proj1 (Forall_lookup _ _) Hwf i it Hi) as [Wn Wl Wu Wo].
  pose proof (proj1 (Forall_lookup _ _) H4 i it Hi) as Hnum. simpl in Hnum.
  unfold split_block. assert (arr_HBID md !! i = Some (HBID it)) as ->.
  { rewrite <- (lookup_take_lt _ (length its)) by done. by rewrite H3, list_lookup_fmap, Hi. }
  cbn [mbind option_bind]. rewrite <- Hnum. set (n := Z.to_nat (mc_num_dnLoc it)).
  rewrite decide_True by (rewrite H5; unfold n, MAX_NUM_REPLICA in *; lia).
  assert (n <= 3)%nat as Hn3 by (unfold n, MAX_NUM_REPLICA in *; lia).
  assert (mapM (split_dnLoc (Z.of_nat i)) (take n (md_dnLoc md)) = Some (take n (mc_dnLoc it))) as ->.
  { apply mapM_Some_2. apply Forall2_same_length_lookup_2.
    { rewrite !length_take, H5, Wl. done. }
    intros j d l Hd Hl. assert (j < n)%nat as Hj.
    { apply lookup_lt_Some in Hd. rewrite length_take in Hd. lia. }
    rewrite lookup_take_lt in Hd by done. rewrite lookup_take_lt in Hl by done.
    destruct (H6 j d) as [(ts & tl & Ha & Hp & Hok & Hpl) Hdn]; [unfold n in Hj; lia|done|].
    pose proof (length_places ts Hok) as Htot. rewrite Hpl, length_fmap in Htot.
    destruct (find_phyLoc_spec ts tl (Z.of_nat i) 0 Hok) as (r & o & Hro & Hr & E); [lia..|].
    rewrite Z.sub_0_r, Nat2Z.id, Hpl, list_lookup_fmap, Hi in Hro. simpl in Hro. unfold place in Hro.
    rewrite Hl in Hro. simpl in Hro. injection Hro as <- <-.
    unfold split_dnLoc. rewrite Hp, Nat2Z.id, Ha, E. cbn [mbind option_bind default from_option id].
    pose proof (proj1 (Forall_lookup _ _) Wo j l Hl) as [Wr Wof].
    rewrite u32_s32, u32_small by (done || unfold is_u32; lia).
    specialize (Hdn it l (list_elem_of_lookup_2 _ _ _ Hi) Hl). injection Hdn as <- <-. by destruct l. }
  cbn [mbind option_bind]. rewrite fill_array_eq.
  - cbn [mbind option_bind]. f_equal. destruct it as [hb ls num]; cbn [HBID mc_dnLoc mc_num_dnLoc] in *. f_equal.
    etrans; [|apply (take_drop n ls)]. f_equal. unfold n at 2. rewrite Wu, length_take, Wl, Nat.min_l
      by (unfold MAX_NUM_REPLICA; lia).
    rewrite drop_replicate. f_equal. unfold n, MAX_NUM_REPLICA. lia.
  - rewrite length_take, length_replicate. unfold MAX_NUM_REPLICA. lia.
Qed.

Lemma split_spec md its :
  describes md its -> Forall wf_item its -> Z.of_nat (length its) < 2 ^ 11 -> _split_metadata md = Some its.
Proof.
  intros HD Hwf Hlen. unfold _split_metadata. rewrite (de_num _ _ HD), Nat2Z.id. apply mapM_Some_2.
  apply Forall2_same_length_lookup_2; [by rewrite length_seq|]. intros i k it Hk Hit.
  apply lookup_seq in Hk as [-> _]. by eapply split_block_spec.
Qed.

(** ** Building items *)

Definition run_of (j : nat) (it : mcache_item_t) : Z * Z * Z := ((place j it).1, 1, (place j it).2).

Lemma run_of_ok j it : wf_item it -> (j < 3)%nat -> run_ok (run_of j it) /\ block_triple j it = Some (pack (run_of j it)).
Proof.
  intros [_ Wl _ Wo] Hj. destruct (lookup_lt_is_Some_2 (mc_dnLoc it) j) as [l Hl];
    [rewrite Wl; unfold MAX_NUM_REPLICA; lia|].
  pose proof (proj1 (Forall_lookup _ _) Wo j l Hl) as [_ Ho]. simpl in Ho.
  unfold run_of, block_triple, place. rewrite Hl. cbn [default from_option id fst snd mbind option_bind]. split.
  - unfold run_ok. split_and!; [apply s32_range|lia..].
  - unfold pack. do 2 f_equal. apply s32_small. unfold is_s32. lia.
Qed.

Lemma places_run_of j its : places (run_of j <$> its) = place j <$> its.
Proof.
  unfold places. induction its as [|it its IH]; [done|]. rewrite fmap_cons, bind_cons, IH. unfold run_of, run_blocks.
  simpl. by rewrite Z.add_0_r.
Qed.

(** Location [j] built for blocks with the same datanodes. *)
Lemma create_dnLoc_spec j head its :
  Forall wf_item its -> Forall (same_as head) its -> wf_item head ->
  Z.of_nat (length its) <= MAX_LBS_PER_IOR -> (j < Z.to_nat (mc_num_dnLoc head))%nat ->
  exists d, create_dnLoc head its j = Some d /\ loc_describes j d its.
Proof.
  intros Hwf Hsame Hh Hlen Hj. assert (j < 3)%nat as Hj3.
  { pose proof (wi_num _ Hh). unfold MAX_NUM_REPLICA in *. lia. }
  destruct (lookup_lt_is_Some_2 (mc_dnLoc head) j) as [l Hl]; [rewrite (wi_length _ Hh); unfold MAX_NUM_REPLICA; lia|].
  unfold create_dnLoc. rewrite Hl. cbn [mbind option_bind].
  assert (mapM (block_triple j) its = Some (pack <$> (run_of j <$> its))) as ->.
  { apply mapM_Some_2. rewrite <- list_fmap_compose. apply Forall2_fmap_r, Forall_Forall2_diag.
    eapply Forall_impl; [exact Hwf|]. intros it Hit. by apply run_of_ok. }
  change MAX_LBS_PER_IOR with 33 in *.
  cbn [mbind option_bind]. rewrite fill_array_eq by (rewrite !length_fmap; cbn [rbid_len_offset zero_DNLoc]; rewrite length_replicate; change MAX_LBS_PER_IOR with 33; lia).
  cbn [mbind option_bind]. eexists. split; [done|]. split; cbn [rbid_len_offset num_phyLocs dl_ipaddr dl_port].
  - exists (run_of j <$> its). eexists. split; [done|]. rewrite length_fmap, u16_small by (unfold is_u16; lia).
    split_and!; [done| |apply places_run_of]. apply Forall_fmap. eapply Forall_impl; [exact Hwf|].
    intros it Hit. by apply run_of_ok.
  - intros it l' Hin Hl'. rewrite Forall_forall in Hsame. destruct (Hsame it Hin) as [Hn Hd]. unfold dns in Hd.
    rewrite Hn in Hd. apply (f_equal (fun x => x !! j)) in Hd. rewrite !list_lookup_fmap, !lookup_take_lt in Hd by lia.
    rewrite Hl, Hl' in Hd. simpl in Hd. injection Hd as H1 H2. unfold dn_of. congruence.
Qed.

Lemma create_granted startLB addr len metaData head its a a' :
  next_answer a = (true, a') ->
  mapM id (take len (drop addr metaData)) = Some (head :: its) -> len = length (head :: its) ->
  Forall wf_item (head :: its) -> Forall (same_as head) (head :: its) -> Z.of_nat len <= MAX_LBS_PER_IOR ->
  exists md, _create_MDItem startLB addr len metaData a = Some (Some md, a') /\ describes md (head :: its) /\
    lbid_s (md_core md) = startLB /\ num_dnLoc (md_core md) <= MAX_NUM_REPLICA.
Proof.
  intros Ha Hits Hl Hwf Hsame Hlen. unfold _create_MDItem. rewrite Ha. cbn [negb]. rewrite Hits. cbn [mbind option_bind].
  pose proof (proj1 (Forall_cons _ _ _) Hwf) as [Hh _]. set (n := Z.to_nat (mc_num_dnLoc head)).
  rewrite fill_array_eq by (rewrite length_fmap, length_replicate; change MAX_LBS_PER_IOR with 33 in *; lia).
  cbn [mbind option_bind]. pose proof (wi_num _ Hh) as Hn3. unfold MAX_NUM_REPLICA in Hn3.
  assert (exists ds, mapM (create_dnLoc head (head :: its)) (seq 0 n) = Some ds /\
    forall j d, ds !! j = Some d -> loc_describes j d (head :: its)) as (ds & E & Hds).
  { destruct (mapM (create_dnLoc head (head :: its)) (seq 0 n)) as [ds|] eqn:E.
    - exists ds. split; [done|]. intros j d Hd. apply mapM_Some_1 in E. destruct (Forall2_lookup_r _ _ _ _ _ E Hd)
        as (k & [-> Hk]%lookup_seq & Hc).
      destruct (create_dnLoc_spec j head (head :: its)) as (d' & Hd' & HD); try done; [lia|]. simpl in Hc. congruence.
    - apply mapM_None, Exists_exists in E as (j & [_ Hj]%elem_of_seq & Hc).
      destruct (create_dnLoc_spec j head (head :: its)) as (d' & Hd' & HD); try done; [lia|]. congruence. }
  rewrite E. cbn [mbind option_bind]. pose proof (length_mapM _ _ _ E) as Hlds. rewrite length_seq in Hlds.
  rewrite fill_array_eq by (rewrite length_replicate, <- Hlds; unfold n, MAX_NUM_REPLICA; lia). cbn [mbind option_bind].
  eexists. split; [done|]. split; [|split; [done|simpl; unfold MAX_NUM_REPLICA; lia]].
  split; cbn [md_core mdata_stat arr_HBID md_dnLoc MData_init_MDItem num_hbids num_dnLoc].
  - done.
  - rewrite u32_small; [by f_equal|]. unfold is_u32. change MAX_LBS_PER_IOR with 33 in *. lia.
  - rewrite take_app_length'; [done|]. by rewrite length_fmap.
  - eapply Forall_impl; [exact Hsame|]. by intros it [? _].
  - rewrite length_app, length_drop, length_replicate, <- Hlds. unfold n, MAX_NUM_REPLICA. lia.
  - intros j d Hj Hd. rewrite lookup_app_l in Hd by (rewrite <- Hlds; unfold n; lia). by apply Hds.
Qed.

Lemma same_DN_spec n src dest :
  (n <= length src)%nat -> (n <= length dest)%nat ->
  same_DN n src dest = Some (bool_decide (dn_of <$> take n dest = dn_of <$> take n src)).
Proof.
  revert src dest. induction n as [|n IH]; intros [|s src] [|d dest] Hs Hd; simpl in Hs, Hd; try lia; try done.
  cbn [same_DN take]. rewrite !fmap_cons. unfold dn_of at 1 3.
  destruct (mc_ipaddr d =? mc_ipaddr s) eqn:E1; cbn [negb]; zbool.
  2: { rewrite bool_decide_false; [done|]. intros [=]. done. }
  destruct (mc_port d =? mc_port s) eqn:E2; cbn [negb]; zbool.
  2: { rewrite bool_decide_false; [done|]. intros [=]. done. }
  rewrite IH by lia. f_equal. apply bool_decide_ext. rewrite E1, E2. split; [by intros ->|by intros [=]].
Qed.

(** The run of blocks with the datanodes of the first one is found exactly. *)
Lemma cont_dn_loop_spec head its tl cnt :
  wf_item head -> Forall wf_item its -> 0 <= cnt -> cnt + Z.of_nat (length its) < 2 ^ 31 ->
  exists k, (k <= length its)%nat /\
    cont_dn_loop (length its) head ((Some <$> its) ++ tl) cnt = Some (cnt + Z.of_nat k) /\
    Forall (same_as head) (take k its) /\ (forall it, its !! k = Some it -> ~ same_as head it).
Proof.
  intros Hh Hits. revert cnt. induction Hits as [|it its Hit Hits IH]; intros cnt Hc Hlen.
  { exists 0%nat. rewrite Z.add_0_r. by split_and!. }
  cbn [length fmap list_fmap app cont_dn_loop]. rewrite length_cons in Hlen.
  assert (~ same_as head it -> exists k, (k <= S (length its))%nat /\ Some cnt = Some (cnt + Z.of_nat k) /\
    Forall (same_as head) (take k (it :: its)) /\ (forall x, (it :: its) !! k = Some x -> ~ same_as head x)) as Hstop.
  { intros Hno. exists 0%nat. rewrite Z.add_0_r. split_and!; [lia|done|constructor|]. intros x Hx. by simplify_eq/=. }
  destruct (mc_num_dnLoc head =? mc_num_dnLoc it) eqn:En; cbn [negb]; zbool.
  2: { apply Hstop. intros [? _]. congruence. }
  pose proof (wi_num _ Hit) as Hn. unfold MAX_NUM_REPLICA in Hn.
  rewrite same_DN_spec by (rewrite wi_length by done; unfold MAX_NUM_REPLICA; lia).
  cbn [mbind option_bind]. destruct (bool_decide _) eqn:Ed.
  - apply bool_decide_eq_true in Ed. rewrite s32_small by (unfold is_s32; lia).
    destruct (IH (cnt + 1)) as (k & Hk & -> & Hs & Hx); [lia..|]. exists (S k). split_and!; [lia|f_equal; lia| |done].
    cbn [take]. constructor; [|done]. split; [done|]. unfold dns. by rewrite En.
  - apply bool_decide_eq_false in Ed. apply Hstop. intros [_ Hd]. apply Ed. unfold dns in Hd. by rewrite En in Hd.
Qed.

(** The items describe the groups of the blocks, one after the other from block [s] on. *)
Inductive described : Z -> list mdItem_t -> list mcache_item_t -> Prop :=
| described_nil s : described s [] []
| described_cons s md g mds its :
    describes md g -> g <> [] -> lbid_s (md_core md) = s -> num_dnLoc (md_core md) <= MAX_NUM_REPLICA ->
    described (s + Z.of_nat (length g)) mds its -> described s (md :: mds) (g ++ its).

Lemma mapM_id_Some {B} (l : list B) : mapM id (Some <$> l) = Some l.
Proof. induction l as [|x l IH]; [done|]. rewrite fmap_cons. simpl. by rewrite IH. Qed.

Lemma length_next_answer a : (length (next_answer a).2 <= length a)%nat.
Proof. destruct a; simpl; lia. Qed.

Lemma next_answer_false a a' : next_answer a = (false, a') -> (length a' < length a)%nat.
Proof. destruct a as [|b a]; [done|]. simpl. intros [= -> ->]. simpl. lia. Qed.

Lemma create_loop_spec fuel start addr its acc metaData tl a :
  drop addr metaData = (Some <$> its) ++ tl -> Forall wf_item its -> Z.of_nat (length its) <= MAX_LBS_PER_IOR ->
  (length its < fuel)%nat -> 0 <= start -> start + Z.of_nat (length its) < 2 ^ 64 ->
  exists res a', create_loop fuel start addr (Z.of_nat (length its)) acc metaData a = Some (res, a') /\
    match res with
    | Some mds' => (length a' <= length a)%nat /\ exists mds, mds' = acc ++ mds /\ described start mds its
    | None => (length a' < length a)%nat
    end.
Proof.
  revert start addr its acc a. induction fuel as [|fuel IH]; intros start addr its acc a Hd Hwf Hlen Hf Hs0 Hs; [lia|].
  cbn [create_loop]. destruct its as [|head its].
  { eexists _, a. split; [done|]. split; [lia|]. exists []. rewrite app_nil_r. split; [done|constructor]. }
  rewrite length_cons in Hlen, Hf, Hs. change MAX_LBS_PER_IOR with 33 in Hlen.
  rewrite (proj2 (Z.gtb_lt _ _)) by (cbn [length]; lia).
  pose proof (proj1 (Forall_cons _ _ _) Hwf) as [Hh Hits]. unfold GetContLenForSameDN. rewrite Hd.
  cbn [fmap list_fmap app]. replace (Z.to_nat (Z.of_nat (length (head :: its)) - 1)) with (length its) by (rewrite length_cons; lia).
  destruct (cont_dn_loop_spec head its tl 1 Hh Hits) as (k & Hk & -> & Hsame & Hnext); [lia..|].
  cbn [mbind option_bind]. replace (Z.to_nat (1 + Z.of_nat k)) with (S k) by lia.
  assert (mapM id (take (S k) (drop addr metaData)) = Some (head :: take k its)) as Htake.
  { rewrite Hd, take_app_le by (rewrite length_fmap, length_cons; lia). rewrite <- fmap_take. apply mapM_id_Some. }
  destruct (next_answer a) as [granted a1] eqn:Ea. pose proof (length_next_answer a) as Hla. rewrite Ea in Hla. simpl in Hla.
  destruct granted.
  2: { unfold _create_MDItem at 1. rewrite Ea. cbn [negb mbind option_bind]. eexists _, a1. split; [done|].
       by apply next_answer_false. }
  destruct (create_granted start addr (S k) metaData head (take k its) a a1 Ea Htake) as (md & -> & HD & Hlb & Hn).
  { rewrite length_cons, length_take. lia. }
  { change (head :: take k its) with (take (S k) (head :: its)). by apply Forall_take. }
  { by constructor. }
  { change MAX_LBS_PER_IOR with 33. lia. }
  cbn [mbind option_bind]. rewrite !u64_small by (unfold is_u64; rewrite ?length_cons; lia).
  replace (Z.of_nat (length (head :: its)) - (1 + Z.of_nat k)) with (Z.of_nat (length (drop k its)))
    by (rewrite length_cons, length_drop; lia).
  destruct (IH (start + (1 + Z.of_nat k)) (addr + S k)%nat (drop k its) (acc ++ [md]) a1) as (res & a' & -> & Hres).
  - rewrite <- drop_drop, Hd, drop_app_le by (rewrite length_fmap, length_cons; lia). by rewrite <- fmap_drop.
  - by apply Forall_drop.
  - rewrite length_drop. change MAX_LBS_PER_IOR with 33. lia.
  - rewrite length_drop. lia.
  - lia.
  - rewrite length_drop. lia.
  - eexists res, a'. split; [done|]. destruct res as [mds'|]; [|lia]. destruct Hres as (Hl & mds & -> & Hmds).
    split; [lia|]. exists (md :: mds). split; [by rewrite <- app_assoc|].
    rewrite <- (take_drop k its), app_comm_cons. constructor; try done.
    rewrite length_cons, length_take. by replace (Z.of_nat (S (k `min` length its))) with (1 + Z.of_nat k) by lia.
Qed.

(** ** What a query returns *)

(** The blocks a segment stands for: the cached blocks of its items; without items,
    blocks that are not in the cache. *)
Definition md_seg_blocks (m : metadata_t) : option (list (option mcache_item_t)) :=
  match array_metadata m with
  | [] => Some (replicate (Z.to_nat (lbid_len m)) None)
  | mds => its ← mapM _split_metadata mds; Some (Some <$> concat its)
  end.

(** Items, and segments, that follow each other from block [s] to block [e]. *)
Fixpoint item_tiles (s : Z) (mds : list mdItem_t) (e : Z) : Prop :=
  match mds with
  | [] => s = e
  | md :: mds => lbid_s (md_core md) = s /\ item_tiles (s + num_hbids (md_core md)) mds e
  end.

Fixpoint seg_tiles (volid s : Z) (segs : list metadata_t) (e : Z) : Prop :=
  match segs with
  | [] => s = e
  | m :: segs =>
      volumeID m = volid /\ lbid_start m = s /\ 0 < lbid_len m /\
      (array_metadata m = [] \/ item_tiles s (array_metadata m) (s + lbid_len m)) /\
      seg_tiles volid (s + lbid_len m) segs e
  end.

(** Neighbours are not of the same kind. *)
Fixpoint alternating (segs : list metadata_t) : Prop :=
  match segs with
  | m :: (m' :: _) as rest => (array_metadata m = [] <-> array_metadata m' <> []) /\ alternating rest
  | _ => True
  end.

Lemma merge_described s mds its :
  described s mds its -> Z.of_nat (length its) < 2 ^ 11 ->
  exists mds', merge_lr_triplet mds = Some mds' /\ described s mds' its.
Proof.
  induction 1 as [s|s md g mds its HD Hg Hlb Hn Hmds IH]; intros Hlen; [exists []; split; [done|constructor]|].
  rewrite length_app in Hlen. destruct (merge_mdItem_spec md g HD) as (md' & E & HD' & Hc); [lia|done|].
  destruct IH as (mds' & E' & H'); [lia|]. exists (md' :: mds'). unfold merge_lr_triplet in *. simpl.
  rewrite E. simpl. rewrite E'. simpl. split; [done|]. constructor; try done; by rewrite Hc.
Qed.

Lemma split_described s mds its :
  described s mds its -> Forall wf_item its -> Z.of_nat (length its) < 2 ^ 11 ->
  exists gs, mapM _split_metadata mds = Some gs /\ concat gs = its.
Proof.
  induction 1 as [s|s md g mds its HD Hg Hlb Hn Hmds IH]; intros Hwf Hlen; [by exists []|].
  rewrite length_app in Hlen. apply Forall_app in Hwf as [Hw1 Hw2]. destruct IH as (gs & E & <-); [done|lia|].
  exists (g :: gs). simpl. rewrite (split_spec md g) by (done || lia). simpl. by rewrite E.
Qed.

Lemma described_tiles s mds its :
  described s mds its -> item_tiles s mds (s + Z.of_nat (length its)) /\ (mds = [] <-> its = []).
Proof.
  induction 1 as [s|s md g mds its HD Hg Hlb Hn Hmds [IH _]]; [simpl; split; [lia|done]|].
  split; [|split; [done|]; intros [? _]%app_nil; done]. simpl. split; [done|]. rewrite (de_num _ _ HD), length_app.
  by replace (s + Z.of_nat (length g + length its)) with (s + Z.of_nat (length g) + Z.of_nat (length its)) by lia.
Qed.

Lemma seg_loop_spec arr tl b cnt :
  0 <= cnt -> cnt + Z.of_nat (length arr) < 2 ^ 31 ->
  exists k, (k <= length arr)%nat /\ seg_loop (length arr) (arr ++ tl) b cnt = Some (cnt + Z.of_nat k) /\
    Forall (fun x => is_ptr x = b) (take k arr) /\ (forall x, arr !! k = Some x -> is_ptr x = negb b).
Proof.
  revert cnt. induction arr as [|x arr IH]; intros cnt Hc Hlen.
  { exists 0%nat. rewrite Z.add_0_r. by split_and!. }
  rewrite length_cons in Hlen. destruct (decide (is_ptr x = b)) as [Hx|Hx].
  - destruct (IH (cnt + 1)) as (k & Hk & E & Hf & Hn); [lia..|]. exists (S k). split_and!.
    + simpl. lia.
    + cbn [length app seg_loop]. rewrite Hx, s32_small by (unfold is_s32; lia).
      replace (negb b && b) with false by (by destruct b). replace (b && negb b) with false by (by destruct b).
      rewrite E. f_equal. lia.
    + by constructor.
    + done.
  - exists 0%nat. rewrite Z.add_0_r. assert (is_ptr x = negb b) as Hx' by (by destruct (is_ptr x), b).
    split_and!; [simpl; lia| |constructor|intros y Hy; by simplify_eq/=]. cbn [length app seg_loop]. rewrite Hx'. by destruct b.
Qed.

Lemma hits_items (arr : list (option mcache_item_t)) :
  Forall (fun x => is_ptr x = true) arr -> exists its, arr = Some <$> its.
Proof.
  induction 1 as [|[it|] arr Hx _ (its & ->)]; [by exists []| |done]. by exists (it :: its).
Qed.

Lemma misses_none (arr : list (option mcache_item_t)) :
  Forall (fun x => is_ptr x = false) arr -> arr = replicate (length arr) None.
Proof. induction 1 as [|[it|] arr Hx _ IH]; [done|done|]. simpl. by f_equal. Qed.

Definition blocks_ok (arr : list (option mcache_item_t)) : Prop :=
  Forall (fun x => forall it, x = Some it -> wf_item it) arr.

Lemma blocks_ok_items its : blocks_ok (Some <$> its) -> Forall wf_item its.
Proof.
  unfold blocks_ok. rewrite Forall_fmap. intros H. eapply Forall_impl; [exact H|]. intros it Hit. by apply Hit.
Qed.

(** A correct list of segments for the blocks [arr] from block [s] on. *)
Record segmented (volid s : Z) (arr : list (option mcache_item_t)) (segs : list metadata_t) : Prop := {
  sg_tiles : seg_tiles volid s segs (s + Z.of_nat (length arr));
  sg_blocks : exists bs, mapM md_seg_blocks segs = Some bs /\ concat bs = arr;
  sg_alternating : alternating segs;
  sg_first m : head segs = Some m -> exists x, head arr = Some x /\ (array_metadata m = [] <-> is_ptr x = false);
}.

Lemma segmented_nil volid s : segmented volid s [] [].
Proof. split; simpl; try done; [lia|by exists []]. Qed.

Lemma segmented_cons volid s m b x arr pre rest segs :
  arr = pre ++ rest -> head pre = Some x -> is_ptr x = b ->
  (forall y, head rest = Some y -> is_ptr y = negb b) ->
  volumeID m = volid -> lbid_start m = s -> lbid_len m = Z.of_nat (length pre) ->
  (array_metadata m = [] <-> b = false) ->
  (array_metadata m = [] \/ item_tiles s (array_metadata m) (s + lbid_len m)) -> md_seg_blocks m = Some pre ->
  segmented volid (s + lbid_len m) rest segs -> segmented volid s arr (m :: segs).
Proof.
  intros -> Hpre Hx Hrest Hv Hs Hl Hb Hit Hblk [H1 (bs & H2 & H3) H4 H5]. destruct pre as [|y pre]; [done|].
  injection Hpre as ->. split.
  - cbn [seg_tiles]. split_and!; try done; [rewrite Hl; simpl; lia|]. rewrite length_app. rewrite Hl in *.
    by replace (s + Z.of_nat (length (x :: pre) + length rest)) with (s + Z.of_nat (length (x :: pre)) + Z.of_nat (length rest)) by lia.
  - exists ((x :: pre) :: bs). simpl. rewrite Hblk. simpl. rewrite H2. simpl. by rewrite H3.
  - destruct segs as [|m' segs]; [done|]. split; [|done]. destruct (H5 m' eq_refl) as (z & Hz & Hm').
    rewrite Hb, Hm', (Hrest z Hz). by destruct b.
  - intros m' [= <-]. exists x. split; [done|]. by rewrite Hb, Hx.
Qed.

(** The description of a run of hits: it fails for want of memory, or it is exact. *)
Lemma create_metadata_spec volid s idx its metaData tl a :
  drop idx metaData = (Some <$> its) ++ tl -> Forall wf_item its -> its <> [] ->
  Z.of_nat (length its) <= MAX_LBS_PER_IOR -> 0 <= s -> s + Z.of_nat (length its) < 2 ^ 31 ->
  exists res a', _create_metadata s (Z.of_nat (length its)) metaData idx a = Some (res, a') /\
    match res with
    | None => (length a' < length a)%nat
    | Some mds => (length a' <= length a)%nat /\ exists mds', merge_lr_triplet mds = Some mds' /\
        mds' <> [] /\ item_tiles s mds' (s + Z.of_nat (length its)) /\
        md_seg_blocks {| array_metadata := mds'; volumeID := volid; lbid_start := s;
                      lbid_len := Z.of_nat (length its) |} = Some (Some <$> its)
    end.
Proof.
  intros Hd Hwf Hne Hlen Hs0 Hs. unfold _create_metadata. destruct (next_answer a) as [granted a1] eqn:Ea.
  pose proof (length_next_answer a) as Hla. rewrite Ea in Hla. simpl in Hla. destruct granted; cbn [negb].
  2: { exists None, a1. split; [done|]. by apply next_answer_false. }
  rewrite Nat2Z.id.
  destruct (create_loop_spec (S (length its)) s idx its [] metaData tl a1) as (res & a2 & -> & Hres); try done; try lia.
  exists res, a2. split; [done|]. destruct res as [mds'|]; [|lia]. destruct Hres as (Hla2 & mds & -> & Hmds).
  split; [lia|]. cbn [app]. change MAX_LBS_PER_IOR with 33 in Hlen.
  destruct (merge_described s mds its Hmds) as (mds' & E & Hm'); [lia|]. exists mds'. split; [done|].
  destruct (described_tiles s mds' its Hm') as [Ht Hnil].
  destruct (split_described s mds' its Hm' Hwf) as (gs & Hgs & Hcat); [lia|].
  assert (mds' <> []) as Hmds' by (by intros ->%Hnil). split_and!; try done.
  unfold md_seg_blocks. cbn [array_metadata]. destruct mds' as [|md mds'']; [done|]. rewrite Hgs.
  cbn [mbind option_bind]. by rewrite Hcat.
Qed.

Lemma query_loop_spec fuel volid s arr tl idx acc metaData a :
  drop idx metaData = arr ++ tl -> blocks_ok arr -> Z.of_nat (length arr) <= MAX_LBS_PER_IOR ->
  (length arr + length a < fuel)%nat -> 0 <= s -> s + Z.of_nat (length arr) < 2 ^ 31 ->
  exists segs a', query_loop fuel volid s (Z.of_nat (length arr)) idx acc metaData a = Some (acc ++ segs, a') /\
    segmented volid s arr segs.
Proof.
  revert s arr idx acc a. induction fuel as [|fuel IH]; intros s arr idx acc a Hd Hok Hlen Hf Hs0 Hs; [lia|].
  change MAX_LBS_PER_IOR with 33 in Hlen. cbn [query_loop]. destruct arr as [|x arr].
  { exists [], a. rewrite app_nil_r. split; [done|apply segmented_nil]. }
  rewrite (proj2 (Z.gtb_lt _ _)) by (cbn [length]; lia). rewrite Hd. cbn [app _get_max_seg_len].
  replace (Z.to_nat (Z.of_nat (length (x :: arr)) - 1)) with (length arr) by (cbn [length]; lia).
  destruct (seg_loop_spec arr tl (is_ptr x) 1) as (k & Hk & -> & Hall & Hnext); [lia|cbn [length] in Hlen; lia|].
  cbn [mbind option_bind]. set (pre := x :: take k arr). set (rest := drop k arr).
  assert (Forall (fun y => is_ptr y = is_ptr x) pre) as Hpre by (by constructor).
  assert (x :: arr = pre ++ rest) as Hsplit by (unfold pre, rest; simpl; by rewrite take_drop).
  assert (length pre = S k) as Hlp by (unfold pre; cbn [length]; rewrite length_take; lia).
  assert (forall y, head rest = Some y -> is_ptr y = negb (is_ptr x)) as Hhd.
  { intros y Hy. apply Hnext. unfold rest in Hy. by rewrite head_lookup, lookup_drop, Nat.add_0_r in Hy. }
  assert (head pre = Some x) as Hx by done. replace (1 + Z.of_nat k) with (Z.of_nat (length pre)) by lia.
  clearbody pre rest. rewrite Hsplit in *. clear Hall Hnext Hk. rewrite length_app in Hlen, Hf, Hs |- *. rewrite Nat2Z.id.
  replace (Z.of_nat (length pre + length rest) - Z.of_nat (length pre)) with (Z.of_nat (length rest)) by lia.
  rewrite !s32_small by (unfold is_s32; lia). rewrite !u64_small by (unfold is_u64; lia).
  rewrite !u32_small by (unfold is_u32; lia). pose proof (proj1 (Forall_app _ _ _) Hok) as [Hok1 Hok2].
  assert (forall a1, (length a1 < length a)%nat -> exists segs a',
    query_loop fuel volid s (Z.of_nat (length pre + length rest)) idx acc metaData a1 = Some (acc ++ segs, a') /\
    segmented volid s (pre ++ rest) segs) as Hagain.
  { intros a1 Ha1. rewrite <- length_app. apply IH; rewrite ?length_app; try done; change MAX_LBS_PER_IOR with 33; lia. }
  rewrite <- app_assoc in Hd.
  assert (forall items a1, (length a1 <= length a)%nat ->
    (items = [] <-> is_ptr x = false) -> (items = [] \/ item_tiles s items (s + Z.of_nat (length pre))) ->
    let m := {| array_metadata := items; volumeID := volid; lbid_start := s; lbid_len := Z.of_nat (length pre) |} in
    md_seg_blocks m = Some pre ->
    exists segs a', query_loop fuel volid (s + Z.of_nat (length pre)) (Z.of_nat (length rest)) (idx + length pre)
      (acc ++ [m]) metaData a1 = Some (acc ++ segs, a') /\ segmented volid s (pre ++ rest) segs) as Hdone.
  { intros items a1 Ha1 Hk1 Hk2 m Hk3.
    destruct (IH (s + Z.of_nat (length pre)) rest (idx + length pre)%nat (acc ++ [m]) a1)
      as (segs & a' & -> & Hseg); try done; try lia.
    - by rewrite <- drop_drop, Hd, drop_app_length.
    - change MAX_LBS_PER_IOR with 33. lia.
    - eexists _, a'. rewrite <- app_assoc. split; [done|]. by eapply (segmented_cons _ _ _ (is_ptr x) x _ pre rest). }
  destruct (is_ptr x) eqn:Ex.
  - destruct (hits_items pre Hpre) as [its Hits]. assert (length its = length pre) as Hli by (by rewrite Hits, length_fmap).
    assert (Forall wf_item its) as Hwf by (rewrite Hits in Hok1; by apply blocks_ok_items).
    rewrite Hits in Hd. rewrite <- Hli in Hlen, Hs, Hdone |- *.
    destruct (create_metadata_spec volid s idx its metaData (rest ++ tl) a) as (res & a1 & -> & Hres);
      try done; [intros ->; by destruct pre|change MAX_LBS_PER_IOR with 33; lia|lia|]. cbn [mbind option_bind].
    destruct res as [mds|]; [|rewrite Hli; by apply Hagain]. destruct Hres as (Ha1 & mds' & -> & Hne & Ht & Hb).
    cbn [mbind option_bind]. apply Hdone; [done|by split|by right|by rewrite Hits].
  - apply Hdone; [done|done|by left|]. unfold md_seg_blocks. cbn [array_metadata lbid_len]. by rewrite Nat2Z.id, <- misses_none.
Qed.
