(* ===== verification/MDCache.v ===== *)
(** * MDCache: the metadata cache as the IO path uses it

    Translation of the operations of metadata_manager/metadata_cache.c on the cache of
    common/cache.c: lookups, updates after an answer of the namenode and invalidations.

    [ms_items] are the cached items in memory, addressed by the pointers that the leaves of
    the cache carry; [ms_pool] are the pointers the allocator hands out for new items (an
    empty list or [None]: no memory) and [ms_answers] its answers to requests for metadata
    items.  The cache gives items back through the function registered at initialisation
    ([free_mdata_cache_item]); freeing an item that is not allocated is a fault. *)

From stdpp Require Import sorting.
From S2P Require Import Prelude CommonUtil RadixTree MetaCache MetaCacheLRU MetaCachePools MDataCommit MDItems.

Section mdcache.
Context {T A : Type} `{!OrderedIndex T A Z}.

Record md_cache : Type := {
  ms_mgr : cpool_manager_t (T := T) (A := A);
  ms_items : gmap Z mcache_item_t;
  ms_pool : list (option Z);
  ms_answers : list bool;
}.

Definition set_mgr (m : cpool_manager_t) (s : md_cache) : md_cache :=
  {| ms_mgr := m; ms_items := ms_items s; ms_pool := ms_pool s; ms_answers := ms_answers s |}.
Definition set_ms_items (i : gmap Z mcache_item_t) (s : md_cache) : md_cache :=
  {| ms_mgr := ms_mgr s; ms_items := i; ms_pool := ms_pool s; ms_answers := ms_answers s |}.
Definition set_ms_pool (p : list (option Z)) (s : md_cache) : md_cache :=
  {| ms_mgr := ms_mgr s; ms_items := ms_items s; ms_pool := p; ms_answers := ms_answers s |}.
Definition set_answers (a : list bool) (s : md_cache) : md_cache :=
  {| ms_mgr := ms_mgr s; ms_items := ms_items s; ms_pool := ms_pool s; ms_answers := a |}.

(** [discoC_mem_free] of a cached item, which ignores NULL; [free_mdata_cache_item] is the
    same with a warning for NULL. *)
Definition free_mdata_cache_item (p : Z) (items : gmap Z mcache_item_t) : option (gmap Z mcache_item_t) :=
  if p =? 0 then Some items else _ ← items !! p; Some (delete p items).

Fixpoint free_all (ps : list Z) (items : gmap Z mcache_item_t) : option (gmap Z mcache_item_t) :=
  match ps with
  | [] => Some items
  | p :: ps => items ← free_mdata_cache_item p items; free_all ps items
  end.

(** A call into the cache, with the items it gives back. *)
Definition with_cache {R} (op : cpool_manager_t (T := T) (A := A) -> option (cpool_manager_t * R))
    (s : md_cache) : option (md_cache * R) :=
  '(m, r) ← op (ms_mgr s);
  let given := take (length (freed (cp_mem m)) - length (freed (cp_mem (ms_mgr s)))) (freed (cp_mem m)) in
  items ← free_all (reverse given) (ms_items s);
  Some (set_ms_items items (set_mgr m s), r).

(** ** Lookup *)

(** The item of an entry of [tree_leaf_bk]. *)
Definition leaf_item (s : md_cache) (p : Z) : option (option mcache_item_t) :=
  if p =? 0 then Some None
  else l ← leaves (cp_mem (ms_mgr s)) !! p; it ← ms_items s !! data l; Some (Some it).

Definition query_volume_MDCache (vid lbid_s lbid_len : Z) (query_cache : bool) (s : md_cache) :
    option (md_cache * list metadata_t) :=
  if negb query_cache then
    Some (s, [{| array_metadata := []; volumeID := vid; lbid_start := lbid_s; lbid_len := lbid_len |}])
  else if lbid_len >? MAX_LBS_PER_IOR then None
  else
    '(s, (basket, ret)) ← with_cache (cache_find vid lbid_s lbid_len) s;
    let tree_leaf_bk := basket ++ replicate (Z.to_nat MAX_LBS_PER_IOR - length basket) 0 in
    metaData ← mapM (leaf_item s) tree_leaf_bk;
    '(segs, a) ← query_loop (S (Z.to_nat lbid_len + length (ms_answers s))) vid (s32 lbid_s) (s32 lbid_len) 0 []
                   metaData (ms_answers s);
    let s := set_answers a s in
    if ret >? 0 then
      '(s, _) ← with_cache (cache_put vid (take (Z.to_nat lbid_len) tree_leaf_bk)) s;
      Some (s, segs)
    else Some (s, segs).

(** ** Invalidation *)

Definition inval_volume_MDCache_LBID (vid start_LB LB_cnt : Z) (s : md_cache) : option (md_cache * Z) :=
  with_cache (cache_invalidate (Some INVAL_CACHE_LB) vid start_LB LB_cnt None) s.

Definition inval_volume_MDCache_HBID (hbid : Z) (s : md_cache) : option (md_cache * Z) :=
  with_cache (cache_invalidate (Some INVAL_CACHE_HB) 0 hbid 1 None) s.

Definition inval_volume_MDCache_volID (vid : Z) (s : md_cache) : option (md_cache * Z) :=
  with_cache (cache_invalidate (Some INVAL_CACHE_VOLID) vid (u64 (-1)) (u32 (-1)) None) s.

(** Whether a replica of the item is on the datanode. *)
Definition _is_mditem_has_DN (item : option mcache_item_t) (ip prt : Z) : bool :=
  match item with
  | None => false
  | Some item =>
      existsb (fun l => (mc_ipaddr l =? ip) && (mc_port l =? prt))
        (take (Z.to_nat (mc_num_dnLoc item)) (mc_dnLoc item))
  end.

(** [ip] is the address the name of the datanode stands for. *)
Definition inval_volume_MDCache_DN (ip prt : Z) (s : md_cache) : option (md_cache * Z) :=
  with_cache (cache_invalidate (Some INVAL_CACHE_COND_CHK) 1 (u64 (-1)) (u32 (-1))
                (Some (fun d => _is_mditem_has_DN (ms_items s !! d) ip (u32 prt)))) s.

(** ** Update *)

Definition zero_item : mcache_item_t :=
  {| HBID := 0; mc_dnLoc := replicate (Z.to_nat MAX_NUM_REPLICA) zero_dnloc; mc_num_dnLoc := 0 |}.

(** New items; when one cannot be allocated the ones before it are freed. *)
Fixpoint _alloc_chItem_arr (num_items : nat) (arr : list Z) (s : md_cache) : option (md_cache * (Z * list Z)) :=
  match num_items with
  | O => Some (s, (0, arr))
  | S num_items =>
      match ms_pool s with
      | Some p :: pool =>
          _alloc_chItem_arr num_items (arr ++ [p])
            (set_ms_pool pool (set_ms_items (<[p := zero_item]> (ms_items s)) s))
      | None :: pool =>
          items ← free_all arr (ms_items s);
          Some (set_ms_pool pool (set_ms_items items s), (- ENOMEM, []))
      | [] => items ← free_all arr (ms_items s); Some (set_ms_items items s, (- ENOMEM, []))
      end
  end.

(** [_split_metadata] writes into the items allocated. *)
Definition store_items (arr : list Z) (its : list mcache_item_t) (items : gmap Z mcache_item_t) :
    gmap Z mcache_item_t :=
  foldr (fun '(p, it) items => <[p := it]> items) items (zip arr its).

(** The body of the loop of [_update_mdcache] for one metadata item. *)
Definition update_mdItem (md : mdItem_t) (vid start_lb : Z) (s : md_cache) : option md_cache :=
  let n := num_hbids (md_core md) in
  let inval s := '(s, _) ← inval_volume_MDCache_LBID vid start_lb n s; Some s in
  if decide (mdata_stat md <> MData_VALID) then inval s
  else if n >? MAX_LBS_PER_IOR then None
  else
    '(s, (ret, arr)) ← _alloc_chItem_arr (Z.to_nat n) [] s;
    if negb (ret =? 0) then inval s
    else
      its ← _split_metadata md;
      let s := set_ms_items (store_items arr its (ms_items s)) s in
      '(s, (update_ret, arr)) ← with_cache (cache_update vid start_lb arr) s;
      if update_ret <? 0 then
        s ← inval s;
        items ← free_all arr (ms_items s);
        Some (set_ms_items items s)
      else Some s.

Fixpoint _update_mdcache (mds : list mdItem_t) (vid start_lb_index : Z) (s : md_cache) :
    option (md_cache * Z) :=
  match mds with
  | [] => Some (s, 0)
  | md :: mds =>
      s ← update_mdItem md vid start_lb_index s;
      _update_mdcache mds vid (u64 (start_lb_index + num_hbids (md_core md))) s
  end.

Definition update_volume_MDCache (my_MData : option (list mdItem_t)) (vid lbid_s lbid_len : Z)
    (enable_mdcache sys_free_mem_low : bool) (s : md_cache) : option (md_cache * Z) :=
  match my_MData with
  | None => Some (s, - EINVAL)
  | Some mds =>
      if negb enable_mdcache then
        '(s, _) ← inval_volume_MDCache_LBID vid lbid_s lbid_len s; Some (s, - EPERM)
      else if sys_free_mem_low then
        '(s, _) ← inval_volume_MDCache_LBID vid lbid_s lbid_len s; Some (s, - ENOMEM)
      else _update_mdcache mds vid lbid_s s
  end.

(** ** Volumes *)

Definition create_volume_MDCache (cfg : cache_config) (vid cap : Z) (allocated : bool) (s : md_cache) :
    option (md_cache * Z) := with_cache (cacheMgr_create_pool cfg vid cap allocated) s.

Definition free_volume_MDCache (cfg : cache_config) (vid : Z) (later : list Z) (s : md_cache) :
    option (md_cache * option bool) := with_cache (cacheMgr_rel_pool cfg vid later) s.

End mdcache.

(** ** A lookup is exact *)

Section query.
Context {T A : Type} `{!OrderedIndex T A Z}.
Abbreviation mem := (leaf_mem (A := A)).
Abbreviation pool := (cache_pool_t (T := T)).
Abbreviation mgr_t := (cpool_manager_t (T := T) (A := A)).
Abbreviation cache_t := (md_cache (T := T) (A := A)).

Lemma find_pool_volid vid (chain : list pool) c : find_pool vid chain = Some c -> volid c = vid.
Proof.
  induction chain as [|v chain IH]; [done|]. simpl. destruct (volid v =? vid) eqn:E; [|done].
  intros [= <-]. by zbool.
Qed.

Lemma find_store_pool vid c (chain : list pool) d :
  find_pool vid chain = Some d -> volid c = vid -> find_pool vid (store_pool vid c chain) = Some c.
Proof.
  intros Hd Hc. induction chain as [|v chain IH]; [done|]. simpl in *. destruct (volid v =? vid) eqn:E; simpl.
  - by rewrite Hc, Z.eqb_refl.
  - rewrite E. by apply IH.
Qed.

Definition pool_of (vid : Z) (m : mgr_t) : option pool := find_pool vid (get_chain vid (cpool_tbl m)).

Lemma get_set_chain vid (chain : list pool) (tbl : list (list pool)) :
  (cpool_head vid < length tbl)%nat -> get_chain vid (<[cpool_head vid := chain]> tbl) = chain.
Proof. intros H. unfold get_chain. by rewrite list_lookup_insert_eq. Qed.

(** An operation on the pool of a volume is its body, with the pool put back. *)
Lemma on_pool_spec {R} vid (missing : R) body (m : mgr_t) c h' c' r :
  pool_of vid m = Some c -> (cpool_head vid < length (cpool_tbl m))%nat ->
  body (cp_mem m) (set_ref_cnt (s32 (ref_cnt c + 1)) c) = Some (h', c', r) -> volid c' = vid ->
  exists m', on_pool vid missing body m = Some (m', r) /\ cp_mem m' = h' /\
    pool_of vid m' = Some (set_ref_cnt (s32 (ref_cnt c' - 1)) c') /\ length (cpool_tbl m') = length (cpool_tbl m).
Proof.
  intros Hc Hlen Hbody Hvol. unfold on_pool, _find_cache_pool, _find_cache_pool_nolock. unfold pool_of in Hc.
  rewrite Hc. cbn [mbind option_bind]. unfold set_chain. cbn [cp_mem cpool_tbl]. rewrite Hbody. cbn [mbind option_bind].
  rewrite get_set_chain by done. eexists. split; [done|]. split; [done|]. unfold pool_of. cbn [cpool_tbl].
  rewrite get_set_chain by (by rewrite length_insert). split; [|by rewrite !length_insert].
  eapply find_store_pool; [|done]. eapply find_store_pool; [done|]. by apply find_pool_volid in Hc.
Qed.

Lemma find_loop_frame n start ret_off rret basket (h : mem) c h' (c' : pool) b r :
  find_loop n start ret_off rret basket h c = Some (h', c', b, r) ->
  freed h' = freed h /\ volid c' = volid c /\ ref_cnt c' = ref_cnt c /\ tree c' = tree c /\
  forall q, q ∈ lru_list c -> q ∈ lru_list c'.
Proof.
  revert ret_off rret basket h c. induction n as [|n IH]; intros ret_off rret basket h c; cbn [find_loop].
  { by intros [= <- <- _ _]. }
  destruct (basket !! n) as [p|]; [|done]. cbn [mbind option_bind]. destruct (p =? 0); [apply IH|].
  destruct (leaves h !! p) as [l|]; [|done]. cbn [mbind option_bind]. destruct (_ && _ && _); [|apply IH].
  destruct (_ <? _)%nat; [|done]. intros (H1 & H2 & H3 & H4 & H5)%IH. split_and!; try done. intros q Hq. apply H5.
  cbn [set_lru set_items lru_list]. rewrite elem_of_cons. destruct (decide (q = p)) as [->|Hne]; [by left|].
  right. by apply elem_of_del_leaf.
Qed.

Lemma pool_find_frame start count (h : mem) c h' (c' : pool) r :
  pool_find start count h c = Some (h', c', r) ->
  freed h' = freed h /\ volid c' = volid c /\ ref_cnt c' = ref_cnt c /\ tree c' = tree c /\
  forall q, q ∈ lru_list c -> q ∈ lru_list c'.
Proof.
  unfold pool_find. destruct (oi_scan _ _ _) as [res|]; [|done]. cbn [mbind option_bind].
  destruct (_ >? 0); [|by intros [= <- <- _]].
  destruct (find_loop _ _ _ _ _ _ _) as [[[[h1 c1] b] n]|] eqn:E; [|done]. cbn [mbind option_bind].
  intros [= <- <- _]. apply find_loop_frame in E. exact E.
Qed.

(** The item cached for a block. *)
Definition cached_at (h : mem) (c : pool) (items : gmap Z mcache_item_t) (blk : Z) : option mcache_item_t :=
  kv ← head (filter (fun kv => kv.1 = blk) (contents h c)); items !! kv.2.

Definition cached_blocks (h : mem) (c : pool) (items : gmap Z mcache_item_t) (start : Z) (n : nat) :
    list (option mcache_item_t) := cached_at h c items <$> zseq start n.

(** A volume whose cached items are in memory and well formed. *)
Record volume_ok (s : cache_t) (vid : Z) (c : pool) (others : list Z) (refs : Z -> Z) : Prop := {
  vo_pool : pool_of vid (ms_mgr s) = Some c;
  vo_table : (cpool_head vid < length (cpool_tbl (ms_mgr s)))%nat;
  vo_inv : pool_inv (cp_mem (ms_mgr s)) c others refs;
  vo_sound : oi_sound (tree c);
  vo_items p : p ∈ lru_list c -> exists it,
    ms_items s !! (leaf_pair (cp_mem (ms_mgr s)) p).2 = Some it /\ wf_item it;
}.

Lemma cached_at_leaf (h : mem) c others refs items p :
  pool_inv h c others refs -> p ∈ lru_list c ->
  cached_at h c items (leaf_pair h p).1 = items !! (leaf_pair h p).2.
Proof.
  intros HI Hp. destruct (pi_index _ _ _ _ HI) as (m & _ & Hidx). unfold cached_at.
  assert (forall x, x ∈ filter (fun kv => kv.1 = (leaf_pair h p).1) (contents h c) -> x = leaf_pair h p) as Hall.
  { intros x [Hx (q & -> & Hq)%list_elem_of_fmap]%list_elem_of_filter.
    assert (m !! (leaf_pair h p).1 = Some q) as H1 by (by apply Hidx).
    assert (m !! (leaf_pair h p).1 = Some p) as H2 by (by apply Hidx). congruence. }
  assert (leaf_pair h p ∈ filter (fun kv => kv.1 = (leaf_pair h p).1) (contents h c)) as Hin.
  { apply list_elem_of_filter. split; [done|]. by apply list_elem_of_fmap_2. }
  destruct (filter _ (contents h c)) as [|x l]; [by apply elem_of_nil in Hin|].
  rewrite <- (Hall x) by apply list_elem_of_here. done.
Qed.

Lemma cached_at_none (h : mem) (c : pool) items blk :
  (forall p, p ∈ lru_list c -> (leaf_pair h p).1 <> blk) -> cached_at h c items blk = None.
Proof.
  intros Hno. unfold cached_at. rewrite filter_false; [done|]. intros x (q & -> & Hq)%list_elem_of_fmap. by apply Hno.
Qed.

Lemma pool_inv_ref_cnt (h : mem) (c : pool) others refs n :
  pool_inv h (set_ref_cnt n c) others refs <-> pool_inv h c others refs.
Proof. split; intros [H1 H2 H3 H4]; by split. Qed.

Lemma with_cache_kept {R} op (s : cache_t) m (r : R) :
  op (ms_mgr s) = Some (m, r) -> freed (cp_mem m) = freed (cp_mem (ms_mgr s)) ->
  with_cache op s = Some (set_mgr m s, r).
Proof.
  intros E Hf. unfold with_cache. rewrite E. cbn [mbind option_bind]. rewrite Hf, Nat.sub_diag, take_0. done.
Qed.

(** The leaves found stand for the items of their blocks. *)
Lemma leaf_items_spec (s : cache_t) (h : mem) c others refs items start count basket :
  pool_inv h c others refs -> basket_ok h (lru_list c) start count basket ->
  (forall q, leaf_pair (cp_mem (ms_mgr s)) q = leaf_pair h q) ->
  (forall q, q ∈ lru_list c -> is_Some (leaves (cp_mem (ms_mgr s)) !! q)) ->
  ms_items s = items -> (forall p, p ∈ lru_list c -> is_Some (items !! (leaf_pair h p).2)) ->
  mapM (leaf_item s) basket = Some (cached_blocks h c items start (Z.to_nat count)).
Proof.
  intros HI [Hlen HB] Hpair Halloc Hs Hit. apply mapM_Some_2, Forall2_same_length_lookup_2.
  { unfold cached_blocks. by rewrite length_fmap, zseq_length. }
  intros i p x Hp Hx. unfold cached_blocks in Hx. rewrite list_lookup_fmap in Hx.
  pose proof (lookup_lt_Some _ _ _ Hp) as Hi. unfold zseq in Hx.
  rewrite list_lookup_fmap, lookup_seq_lt in Hx by lia. simpl in Hx. injection Hx as <-. unfold leaf_item.
  destruct (HB i p Hp) as [(Hp0 & Hin & Hblk)|[-> Hno]].
  - rewrite (proj2 (Z.eqb_neq p 0)) by done. destruct (Halloc p Hin) as [l Hl]. rewrite Hl. cbn [mbind option_bind].
    rewrite <- Hblk, (cached_at_leaf h c others refs items p HI Hin).
    specialize (Hpair p). unfold leaf_pair at 1 in Hpair. rewrite Hl in Hpair.
    destruct (Hit p Hin) as [it Hi2]. rewrite <- Hpair in *. cbn [fst snd] in *. rewrite Hs, Hi2. done.
  - rewrite Z.eqb_refl, cached_at_none by done. done.
Qed.

Lemma cached_blocks_ok (h : mem) (c : pool) items start n :
  (forall p, p ∈ lru_list c -> exists it, items !! (leaf_pair h p).2 = Some it /\ wf_item it) ->
  blocks_ok (cached_blocks h c items start n).
Proof.
  intros Hit. unfold blocks_ok, cached_blocks. apply Forall_fmap, Forall_forall. intros blk _ it E.
  unfold cached_at in E. destruct (head _) as [kv|] eqn:Eh; [|done]. cbn [mbind option_bind] in E.
  assert (kv ∈ contents h c) as (p & -> & Hp)%list_elem_of_fmap.
  { rewrite head_lookup in Eh. apply list_elem_of_lookup_2, list_elem_of_filter in Eh as [_ ?]. done. }
  destruct (Hit p Hp) as (it' & E' & Hwf). congruence.
Qed.

Lemma lru_find_elem start count l x : x ∈ lru_find start count l -> x ∈ l.
Proof.
  unfold lru_find. rewrite elem_of_app, merge_sort_Permutation. by intros [[_ ?]%list_elem_of_filter|[_ ?]%list_elem_of_filter].
Qed.

(** The lookup in the cache: nothing is freed, the leaves found are held. *)
Lemma find_volume (s : cache_t) vid c others refs start count :
  volume_ok s vid c others refs -> 0 <= start -> 0 <= count < 2 ^ 31 -> start + count < 2 ^ 64 ->
  (forall p, refs p + 1 < 2 ^ 31) ->
  exists m' c' basket,
    with_cache (cache_find vid start count) s = Some (set_mgr m' s, (basket, Z.of_nat (length (nonnull basket)))) /\
    basket_ok (cp_mem (ms_mgr s)) (lru_list c) start count basket /\
    (forall q, leaf_pair (cp_mem m') q = leaf_pair (cp_mem (ms_mgr s)) q) /\
    contents (cp_mem m') c' = lru_find start count (contents (cp_mem (ms_mgr s)) c) /\
    (forall q, q ∈ lru_list c -> q ∈ lru_list c') /\
    volume_ok (set_mgr m' s) vid c' others (fun q => refs q + occ q (nonnull basket)).
Proof.
  intros [H1 H2 H3 H4 H5] Hs Hc Hsc Hr.
  destruct (pool_find_spec start count (cp_mem (ms_mgr s)) (set_ref_cnt (s32 (ref_cnt c + 1)) c) others refs)
    as (h' & c' & basket & E & HI' & HB & Hcont & Hpair & _); try done; [by apply pool_inv_ref_cnt|].
  destruct (pool_find_frame _ _ _ _ _ _ _ E) as (Hfr & Hv & Hrc & Htree & Hlru). cbn [set_ref_cnt volid tree lru_list] in Hv, Htree, Hlru.
  pose proof (find_pool_volid _ _ _ H1) as Hvid.
  destruct (on_pool_spec vid ([], - ENOENT) (pool_find start count) (ms_mgr s) c h' c' _ H1 H2 E) as (m' & E' & <- & Hp & Hl);
    [congruence|].
  exists m', (set_ref_cnt (s32 (ref_cnt c' - 1)) c'), basket.
  split_and!; try done; [by apply with_cache_kept|].
  split; cbn [set_mgr ms_mgr ms_items]; try done.
  - by rewrite Hl.
  - by apply pool_inv_ref_cnt.
  - cbn [set_ref_cnt tree]. by rewrite Htree.
  - cbn [set_ref_cnt lru_list]. intros p Hin.
    assert (leaf_pair (cp_mem m') p ∈ contents (cp_mem m') c') as Hc' by (by apply list_elem_of_fmap_2).
    rewrite Hcont in Hc'. apply lru_find_elem, list_elem_of_fmap in Hc' as (q & -> & Hq). by apply H5.
Qed.

(** The leaves are given back: nothing is freed. *)
Lemma put_volume (s : cache_t) vid c others refs basket :
  volume_ok s vid c others (fun q => refs q + occ q (nonnull basket)) -> Forall (fun p => 0 <= p) basket ->
  (forall p, 0 <= refs p) -> (forall p, p ∈ basket -> p <> 0 -> p ∈ lru_list c) ->
  exists m' c', with_cache (cache_put vid basket) s = Some (set_mgr m' s, 0) /\
    contents (cp_mem m') c' = contents (cp_mem (ms_mgr s)) c /\ volume_ok (set_mgr m' s) vid c' others refs.
Proof.
  intros [H1 H2 H3 H4 H5] Hpos Hr Hin. pose proof (find_pool_volid _ _ _ H1) as Hvid.
  destruct (pool_put_spec basket (cp_mem (ms_mgr s)) (lru_list c ++ others) _ refs (pi_heap _ _ _ _ H3) Hpos)
    as (h' & E & Hh & Hpair & _ & _ & Hfr); [intros p; lia|done|].
  specialize (Hfr (fun p Hp Hne => proj2 (elem_of_app _ _ _) (or_introl (Hin p Hp Hne)))).
  destruct (on_pool_spec vid (- ENOENT) (fun h c => h ← pool_put basket h; Some (h, c, 0)) (ms_mgr s) c h'
    (set_ref_cnt (s32 (ref_cnt c + 1)) c) 0 H1 H2) as (m' & E' & <- & Hp & Hl); [by rewrite E|done|].
  set (c1 := set_ref_cnt (s32 (ref_cnt c + 1)) c) in *. exists m', (set_ref_cnt (s32 (ref_cnt c1 - 1)) c1).
  split; [by apply with_cache_kept|]. destruct (pool_inv_heap (cp_mem (ms_mgr s)) (cp_mem m') c others _ refs H3 Hh) as [HI' Hc].
  { intros p Hp'. apply Hpair. rewrite elem_of_app. by left. }
  split; [exact Hc|]. split; cbn [set_mgr ms_mgr ms_items]; try done.
  - by rewrite Hl.
  - by apply pool_inv_ref_cnt, pool_inv_ref_cnt.
  - intros p Hp'. cbn [set_ref_cnt lru_list] in Hp'. rewrite Hpair by (rewrite elem_of_app; by left). by apply H5.
Qed.

Lemma mapM_app_Some {B C} (f : B -> option C) l1 l2 k1 k2 :
  mapM f l1 = Some k1 -> mapM f l2 = Some k2 -> mapM f (l1 ++ l2) = Some (k1 ++ k2).
Proof. intros H1%mapM_Some_1 H2%mapM_Some_1. by apply mapM_Some_2, Forall2_app. Qed.

Lemma leaf_items_padding (s : cache_t) n : mapM (leaf_item s) (replicate n 0) = Some (replicate n None).
Proof. apply mapM_Some_2. induction n as [|n IH]; by constructor. Qed.

Lemma volume_ok_answers (s : cache_t) vid c others refs a :
  volume_ok s vid c others refs -> volume_ok (set_answers a s) vid c others refs.
Proof. intros [H1 H2 H3 H4 H5]. by split. Qed.

Lemma volume_ok_refs (s : cache_t) vid c others refs refs' :
  (forall p, refs p = refs' p) -> volume_ok s vid c others refs -> volume_ok s vid c others refs'.
Proof.
  intros E [H1 H2 [H3 H4 H6 H7] H5 H8]. split; try done. split; try done. by eapply heap_inv_refs.
Qed.

Lemma basket_entries (h : mem) c others refs start count basket p :
  pool_inv h c others refs -> basket_ok h (lru_list c) start count basket -> p ∈ basket ->
  0 <= p /\ (p <> 0 -> p ∈ lru_list c).
Proof.
  intros HI [_ HB] (i & Hi)%list_elem_of_lookup. destruct (HB i p Hi) as [(_ & Hin & _)|[-> _]]; [|done].
  destruct (heap_live _ _ _ p (pi_heap _ _ _ _ HI)) as (_ & _ & _ & ? & _); [rewrite elem_of_app; by left|].
  split; [lia|done].
Qed.

(** The end of a query: the references go. *)
Lemma query_put (s : cache_t) vid c others refs basket (segs : list metadata_t) n tl :
  volume_ok s vid c others (fun q => refs q + occ q (nonnull basket)) -> (forall p, 0 <= refs p) ->
  (forall p, p ∈ basket -> 0 <= p /\ (p <> 0 -> p ∈ lru_list c)) -> n = length basket ->
  exists s' c', (if Z.of_nat (length (nonnull basket)) >? 0 then
      '(s, _) ← with_cache (cache_put vid (take n (basket ++ tl))) s; Some (s, segs)
    else Some (s, segs)) = Some (s', segs) /\
    volume_ok s' vid c' others refs /\ ms_items s' = ms_items s /\
    contents (cp_mem (ms_mgr s')) c' = contents (cp_mem (ms_mgr s)) c.
Proof.
  intros HV Hr Hin ->. rewrite take_app_length. destruct (_ >? 0) eqn:E; zbool.
  - destruct (put_volume s vid c others refs basket HV) as (m' & c' & -> & Hc & HV'); try done.
    + apply Forall_forall. intros p Hp. by apply Hin.
    + intros p Hp. by apply Hin.
    + cbn [mbind option_bind]. by exists (set_mgr m' s), c'.
  - exists s, c. split_and!; try done. eapply volume_ok_refs; [|exact HV]. intros p. cbv beta.
    assert (nonnull basket = []) as -> by (apply nil_length_inv; lia). rewrite occ_nil. lia.
Qed.


End query.

(** ** A cache with one volume *)

Abbreviation demo_cache_t := (md_cache (T := radix_root Z) (A := node_cache)).

Definition demo_state (leaf_answers : list (option Z)) : demo_cache_t :=
  {| ms_mgr := {| cpool_tbl := <[1%nat := [{| volid := 1; capacity := 2 ^ 20; cache_num := 0; cache_size := 8;
                                 tree := oi_empty; lru_list := []; ref_cnt := 0; m_hit := 0; m_miss := 0 |}]]>
                      (replicate (Z.to_nat CACHE_POOL_HSIZE) []);
                  cp_mem := {| leaves := ∅; leaf_pool := leaf_answers; tree_leaf_cnt := 0; freed := [];
                               index_mem := rt_demo_nc |} |};
     ms_items := ∅; ms_pool := Some <$> [101; 102; 103; 104; 105; 106]; ms_answers := [] |}.

(** The metadata of [n] blocks from block [s] on, stored on one datanode from [offset] on. *)
Definition demo_md (s n rbid offset : Z) : mdItem_t :=
  {| md_core := MData_init_MDItem s n 1 false false false; mdata_stat := MData_VALID;
     arr_HBID := zseq 900 (Z.to_nat MAX_LBS_PER_IOR);
     md_dnLoc := {| dl_ipaddr := 10; dl_port := 20;
                    rbid_len_offset := compose_triple rbid n offset :: replicate 32 0; num_phyLocs := 1 |} ::
                 replicate 2 zero_DNLoc |}.

(** Where a query says that the blocks are. *)
Definition item_places (it : mcache_item_t) : list (Z * Z) :=
  (fun l => (mc_rbid l, mc_offset l)) <$> take (Z.to_nat (mc_num_dnLoc it)) (mc_dnLoc it).

Definition show_blocks (bs : list (list (option mcache_item_t))) : list (option (list (Z * Z))) :=
  option_map item_places <$> concat bs.

Definition query_places (s n : Z) (st : option (demo_cache_t * Z)) : option (list (option (list (Z * Z)))) :=
  match st with
  | None => None
  | Some (st, _) =>
      match query_volume_MDCache 1 s n true st with
      | None => None
      | Some (_, segs) => option_map show_blocks (mapM md_seg_blocks segs)
      end
  end.

Definition demo_update (mds : list mdItem_t) (s : Z) (st : demo_cache_t) : option (demo_cache_t * Z) :=
  update_volume_MDCache (Some mds) 1 s (zsum (num_hbids ∘ md_core <$> mds)) true false st.

(** An update for which memory is short is not undone.  When the leaf of a block
    other than the last cannot be allocated, the update reports success and the
    next query returns the old place of that block; when the leaf of the last
    block cannot be allocated, the items the cache already took, and freed when the range
    was invalidated, are freed again. *)
Theorem mdcache_update_enomem :
  query_places 5 2 (demo_update [demo_md 5 2 7 40] 5 (demo_state (Some <$> [11; 12; 13; 14]))) =
    Some [Some [(7, 40)]; Some [(7, 41)]] /\
  (exists st1 st2,
    demo_update [demo_md 5 2 7 40] 5 (demo_state [Some 11; Some 12; None; Some 14]) = Some (st1, 0) /\
    demo_update [demo_md 5 2 8 90] 5 st1 = Some (st2, 0) /\
    query_places 5 2 (Some (st2, 0)) = Some [Some [(7, 40)]; Some [(8, 91)]]) /\
  demo_update [demo_md 5 2 7 40] 5 (demo_state [Some 11; None]) = None.
Proof.
  split; [vm_compute; reflexivity|]. split; [|vm_compute; reflexivity].
  do 2 eexists. split; [vm_compute; reflexivity|]. split; [vm_compute; reflexivity|]. vm_compute. reflexivity.
Qed.

(** Block numbers from 2^31 on are reported with the wrong start: the number goes through
    an [int32_t]. *)
Lemma mdcache_query_truncates :
  exists s' m, query_volume_MDCache 1 (2 ^ 31) 2 true (demo_state []) = Some (s', [m]) /\
    lbid_start m = 2 ^ 64 - 2 ^ 31.
Proof. do 2 eexists. split; vm_compute; reflexivity. Qed.

(** While there is no memory the query starts its loop over and over: [n] refusals cost
    [n] rounds. *)
Lemma query_loop_spins n volid lstart remain acc it metaData :
  0 < remain ->
  query_loop n volid lstart remain 0 acc (Some it :: metaData) (replicate n false) = None \/
  _get_max_seg_len (Some it :: metaData) remain = None.
Proof.
  intros Hr. destruct (_get_max_seg_len (Some it :: metaData) remain) as [[k b]|] eqn:E; [left|by right].
  assert (b = true) as ->.
  { cbn [_get_max_seg_len is_ptr] in E. destruct (seg_loop _ _ _ _); cbn [mbind option_bind] in E; congruence. }
  induction n as [|n IH]; [done|]. cbn [query_loop]. rewrite (proj2 (Z.gtb_lt _ _)) by lia.
  cbn [drop]. rewrite E. cbn [mbind option_bind]. unfold _create_metadata. cbn [replicate next_answer negb mbind option_bind].
  apply IH.
Qed.

(** A volume with three cached blocks. *)
Definition demo_item (k : Z) : mcache_item_t :=
  {| HBID := k; mc_dnLoc := {| mc_ipaddr := 10; mc_port := 20; mc_rbid := 7; mc_offset := k |} :: replicate 2 zero_dnloc;
     mc_num_dnLoc := 1 |}.

Definition demo_volume : demo_cache_t :=
  {| ms_mgr := {| cpool_tbl := <[1%nat := [cs_pool demo_filled]]> (replicate (Z.to_nat CACHE_POOL_HSIZE) []);
                  cp_mem := cs_mem demo_filled |};
     ms_items := <[100 := demo_item 50]> (<[101 := demo_item 51]> (<[102 := demo_item 8]> ∅));
     ms_pool := []; ms_answers := [false; true; false] |}.

Lemma demo_volume_ok : volume_ok demo_volume 1 (cs_pool demo_filled) [] (held_refs (cs_held demo_filled)).
Proof.
  split.
  - vm_compute. reflexivity.
  - change (length (cpool_tbl (ms_mgr demo_volume))) with 257%nat. vm_compute. lia.
  - apply demo_filled_inv.
  - vm_compute. intros _ [=].
  - intros p Hp. assert (p ∈ [12; 13; 11]) as Hp' by (vm_compute in Hp |- *; exact Hp).
    assert (forall k, 0 <= k < 2 ^ 20 -> wf_item (demo_item k)) as Hwf.
    { intros k Hk. split; try done.
      repeat constructor; simpl; unfold is_u32; lia. }
    apply elem_of_cons in Hp' as [->|[->|[->|Hp']%elem_of_cons]%elem_of_cons].
    + exists (demo_item 51). split; [vm_compute; reflexivity|apply Hwf; lia].
    + exists (demo_item 8). split; [vm_compute; reflexivity|apply Hwf; lia].
    + exists (demo_item 50). split; [vm_compute; reflexivity|apply Hwf; lia].
    + by apply elem_of_nil in Hp'.
Qed.

