(* ===== verification/NNProto.v ===== *)
(** * NNProto: the wire protocol between client node and namenode

    Translation of discoNN_client/discoC_NN_protocol.c (without erasure coding and
    pre-allocation, which are compile-time options that are off) and of the headers in
    discoNN_simulator/discoNNSrv_protocol.c, the other side of the wire.

    A packet is an array of bytes.  A generator writes into a buffer of fixed size, a
    parser takes bytes from the front of what it was given; a copy that leaves an array
    (the packet, the address buffer on the stack, the arrays of a metadata item) is a fault
    ([None]). *)

From S2P Require Import Prelude CommonUtil Bytes MDataCommit MDItems.

Definition mnum_net_order : Z := htonll MAGIC_NUM.
Definition IPV4ADDR_NM_LEN : Z := 16.
Definition DN_IPADDR_NAME_LEN : Z := 20.
Definition REQ_NN_QUERY_MDATA_READIO : Z := 0.
Definition REQ_NN_ALLOC_MDATA_NO_OLD : Z := 3.
Definition REQ_NN_QUERY_MDATA_WRITEIO : Z := 4.
Definition REQ_NN_REPORT_READIO_RESULT : Z := 5.
Definition REQ_NN_REPORT_WRITEIO_RESULT : Z := 7.
Definition REQ_NN_UPDATE_HEARTBEAT : Z := 8.
Definition EILSEQ : Z := 84.

(** ** Headers *)

Record CN2NN_getMDReq_hder_t : Type := {
  gm_magic_number1 : Z;
  gm_opcode : Z;
  gm_lb_s : Z;
  gm_nnReqID : Z;
  gm_volumeID : Z;
  gm_lb_len : Z;
  gm_magic_number2 : Z;
}.

Definition NNProto_gen_getMDReqheader (opcode reqID volID lbs lblen : Z) : CN2NN_getMDReq_hder_t :=
  {| gm_magic_number1 := mnum_net_order; gm_opcode := htons opcode; gm_lb_s := htonll lbs;
     gm_nnReqID := htonll reqID; gm_volumeID := htonll volID; gm_lb_len := htonl lblen;
     gm_magic_number2 := mnum_net_order |}.

(** The namenode's side. *)
Definition NNClient_MDReqHder_ntoh (h : CN2NN_getMDReq_hder_t) : CN2NN_getMDReq_hder_t :=
  {| gm_magic_number1 := gm_magic_number1 h; gm_opcode := ntohs (gm_opcode h); gm_lb_s := ntohll (gm_lb_s h);
     gm_nnReqID := ntohll (gm_nnReqID h); gm_volumeID := ntohll (gm_volumeID h); gm_lb_len := ntohl (gm_lb_len h);
     gm_magic_number2 := gm_magic_number2 h |}.

Record CN2NN_MDResp_hder_t : Type := {
  mr_magic_number1 : Z;
  response_type : Z;
  resp_data_size : Z;
  request_ID : Z;
}.

Definition gen_MDReq_ackHeader (opcode dataSize cnReqID : Z) : CN2NN_MDResp_hder_t :=
  {| mr_magic_number1 := htonll MAGIC_NUM; response_type := s16 (htons opcode); resp_data_size := s16 (htons dataSize);
     request_ID := htonll cnReqID |}.

(** The result (0: the packet is valid) and the header in host order; the two 16-bit fields
    are signed. *)
Definition NNProto_MDRespheader_ntoh (p : CN2NN_MDResp_hder_t) : Z * CN2NN_MDResp_hder_t :=
  let rt := s16 (ntohs (u16 (response_type p))) in
  let size := s16 (ntohs (u16 (resp_data_size p))) in
  let id := ntohll (request_ID p) in
  let h size := {| mr_magic_number1 := mr_magic_number1 p; response_type := rt; resp_data_size := size; request_ID := id |} in
  if negb (mr_magic_number1 p =? mnum_net_order) then (- EILSEQ, h size)
  else if size =? 0 then (- EILSEQ, h size)
  else (0, h (s16 (size - 8))).

Definition NNProto_gen_HBPacket (pkt_buffer : list Z) : option (Z * list Z) :=
  buf ← splice pkt_buffer 0 (le_bytes 8 (htonll MAGIC_NUM));
  buf ← splice buf 8 (le_bytes 2 (htons REQ_NN_UPDATE_HEARTBEAT));
  Some (10, buf).

(** ** Metadata items of an answer *)

(** DMS_MEM_READ_NEXT: the next [n] bytes and the rest. *)
Definition read_next (n : Z) (l : list Z) : option (list Z * list Z) :=
  if decide (0 <= n <= Z.of_nat (length l)) then Some (take (Z.to_nat n) l, drop (Z.to_nat n) l) else None.

Definition read_u16 (l : list Z) : option (Z * list Z) := '(b, l) ← read_next 2 l; Some (ntohs (le_val b), l).
Definition read_u32 (l : list Z) : option (Z * list Z) := '(b, l) ← read_next 4 l; Some (ntohl (le_val b), l).

(** [n] words of 64 bits, read into an array of words and converted in place. *)
Fixpoint ntohll_words (n : nat) (b : list Z) : list Z :=
  match n with
  | O => []
  | S n => ntohll (le_val (take 8 b)) :: ntohll_words n (drop 8 b)
  end.

Definition read_words (n : Z) (arr : list Z) (l : list Z) : option (list Z * list Z) :=
  '(b, l) ← read_next (8 * n) l;
  arr ← fill_array (ntohll_words (Z.to_nat n) b) arr;
  Some (arr, l).

(** The string in a buffer, up to its end; [None]: it does not end in the buffer. *)
Fixpoint c_string (l : list Z) : option (list Z) :=
  match l with
  | [] => None
  | c :: l => if c =? 0 then Some [] else s ← c_string l; Some (c :: s)
  end.

(** The locations of the replicas.  The address buffer is cleared before the loop only. *)
Fixpoint dnLoc_loop (n : nat) (i : nat) (locs : list metaD_DNLoc_t) (ipv4addr : list Z) (l : list Z) :
    option (list metaD_DNLoc_t * list Z) :=
  match n with
  | O => Some (locs, l)
  | S n =>
      d ← locs !! i;
      '(strlen_ipv4addr, l) ← read_u16 l;
      '(s, l) ← read_next strlen_ipv4addr l;
      ipv4addr ← splice ipv4addr 0 s;
      str ← c_string ipv4addr;
      ipaddr ← ccma_inet_ntoa str;
      '(port, l) ← read_u32 l;
      '(num_rlo, l) ← read_u16 l;
      '(arr, l) ← read_words num_rlo (rbid_len_offset d) l;
      let d := {| dl_ipaddr := ipaddr; dl_port := port; rbid_len_offset := arr; num_phyLocs := num_rlo |} in
      dnLoc_loop n (S i) (<[i := d]> locs) ipv4addr l
  end.

Definition NNAck_DNLoc_ntoh_order (num_dnLoc : Z) (locs : list metaD_DNLoc_t) (mem_buff : list Z) :
    option (list metaD_DNLoc_t * list Z) :=
  dnLoc_loop (Z.to_nat num_dnLoc) 0 locs (replicate (Z.to_nat IPV4ADDR_NM_LEN) 0) mem_buff.

(** A metadata item as the parser leaves it: the commit state of MDataCommit, the arrays, and
    the state that the namenode reports. *)
Record nnItem_t : Type := {
  ni_core : metaD_item_t;
  ni_stat : Z;
  ni_HBID : list Z;
  ni_dnLoc : list metaD_DNLoc_t;
}.

(** The item and the bytes behind it. *)
Definition NNProto_getMDResp_MDItem_ntoh (arr_HBID : list Z) (locs : list metaD_DNLoc_t) (startLB : Z) (mem_buff : list Z) :
    option (nnItem_t * list Z) :=
  '(len_hbids, l) ← read_u16 mem_buff;
  let len_hbids := s16 len_hbids in
  '(hbids, l) ← read_words len_hbids arr_HBID l;
  '(len_DN, l) ← read_u16 l;
  let len_DN := s16 len_DN in
  let core := MData_init_MDItem startLB (u32 len_hbids) (u16 len_DN) false false false in
  '(locs, l) ← NNAck_DNLoc_ntoh_order (num_dnLoc core) locs l;
  '(stat, l) ← read_u16 l;
  Some ({| ni_core := core; ni_stat := stat; ni_HBID := hbids; ni_dnLoc := locs |}, l).

Definition MDATA_VALID : Z := 0.
Definition MDATA_INVALID : Z := 1.
Definition MDATA_VALID_LESS_REPLICA : Z := 2.

(** The state after the comparison with the number of replicas of the volume. *)
Definition _nnack_update_MDItem_state (RR_enabled : bool) (mdstat volReplica num_dnLoc : Z) (allocMD : bool) (lr_index : nat) : Z :=
  if negb (mdstat =? MDATA_VALID) then mdstat
  else if (num_dnLoc <? volReplica) && RR_enabled then
    if allocMD then (if decide (lr_index = 0%nat) then MDATA_VALID_LESS_REPLICA else mdstat)
    else MDATA_VALID_LESS_REPLICA
  else mdstat.

(** What a request for metadata knows when its answer arrives. *)
Record acquire_t : Type := {
  aq_true_md : bool;
  aq_alloc : bool;
  aq_volReplica : Z;
  aq_RR : bool;
}.

Definition MData_set_TrueMD (md : metaD_item_t) : metaD_item_t := (fea_test_set md MDATA_FEA_TRUE_MD).1.

(** The parsed items with NULL where no memory was available (the bytes of such an item are
    not skipped), the number of invalid ones, the ranges marked as overwritten, and the
    bytes behind.  [mem] are the answers of the allocator; the memory comes zeroed. *)
Fixpoint parse_items (q : acquire_t) (n i : nat) (startLB : Z) (mem : list bool) (l : list Z) :
    option (list (option nnItem_t) * Z * list (Z * Z) * list Z) :=
  match n with
  | O => Some ([], 0, [], l)
  | S n =>
      let '(ok, mem) := match mem with b :: mem => (b, mem) | [] => (true, []) end in
      if ok : bool then
        let zero := {| dl_ipaddr := 0; dl_port := 0; rbid_len_offset := replicate (Z.to_nat MAX_LBS_PER_IOR) 0; num_phyLocs := 0 |} in
        '(it, l) ← NNProto_getMDResp_MDItem_ntoh (replicate (Z.to_nat MAX_LBS_PER_IOR) 0)
                     (replicate (Z.to_nat MAX_NUM_REPLICA) zero) startLB l;
        let core := if aq_true_md q then MData_set_TrueMD (ni_core it) else ni_core it in
        let stat := _nnack_update_MDItem_state (aq_RR q) (ni_stat it) (aq_volReplica q) (num_dnLoc core) (aq_alloc q) i in
        let it := {| ni_core := core; ni_stat := stat; ni_HBID := ni_HBID it; ni_dnLoc := ni_dnLoc it |} in
        '(its, inval, ovw, l) ← parse_items q n (S i) (u64 (startLB + num_hbids core)) mem l;
        let inval := if stat =? MDATA_INVALID then u16 (inval + 1) else inval in
        let ovw := if negb (stat =? MDATA_INVALID) && aq_alloc q then (startLB, num_hbids core) :: ovw else ovw in
        Some (Some it :: its, inval, ovw, l)
      else
        '(its, inval, ovw, l) ← parse_items q n (S i) startLB mem l;
        Some (None :: its, inval, ovw, l)
  end.

Record CN2NN_getMDResp_fcpkt_t : Type := {
  rate_SlowStart : Z;
  rate_SlowStartMaxReqs : Z;
  rate_Alloc : Z;
  rate_AllocMaxReqs : Z;
  rate_AgeTime : Z;
}.

Definition NNProto_getMDResp_FlowCtrl_ntoh (mem_buff : list Z) : option CN2NN_getMDResp_fcpkt_t :=
  '(a, l) ← read_u32 mem_buff;
  '(b, l) ← read_u32 l;
  '(c, l) ← read_u32 l;
  '(d, l) ← read_u32 l;
  '(e, _) ← read_u32 l;
  Some {| rate_SlowStart := s32 a; rate_SlowStartMaxReqs := s32 b; rate_Alloc := s32 c; rate_AllocMaxReqs := s32 d;
          rate_AgeTime := s32 e |}.

(** The outcome of an answer with [num_lrs] items in [totallen] bytes. *)
Inductive parse_result : Type :=
| PR_ENODEV
| PR_ENOMEM
| PR_OK (items : list (option nnItem_t)) (num_invalMD : Z) (ovw : list (Z * Z)) (fc : CN2NN_getMDResp_fcpkt_t).

Definition _do_normal_parse (q : acquire_t) (lbid_start num_lrs totallen : Z) (array_ok : bool) (mem : list bool) (l : list Z) :
    option parse_result :=
  if (u32 totallen <=? 10) || (num_lrs =? 0) then Some PR_ENODEV
  else if negb array_ok then Some PR_ENOMEM
  else
    '(its, inval, ovw, l) ← parse_items q (Z.to_nat num_lrs) 0 lbid_start mem l;
    fc ← NNProto_getMDResp_FlowCtrl_ntoh l;
    Some (PR_OK its inval ovw fc).
