(* ===== verification/NNProtoSpec.v ===== *)
(** * NNProtoSpec: both ends of the wire to the namenode agree

    The format of the answers of the namenode as an encoding, and that the parser of NNProto
    reads it back; what the reports of the client node contain. *)

From S2P Require Import Prelude CommonUtil Bytes MDataCommit MDItems NNProto.

(** ** The format of an answer *)

Record wire_loc : Type := {
  wl_addr : Z;
  wl_port : Z;
  wl_rlo : list Z;
}.

Record wire_item : Type := {
  wi_hbids : list Z;
  wi_locs : list wire_loc;
  wi_stat : Z;
}.

Definition enc_u16 (x : Z) : list Z := be_bytes 2 x.
Definition enc_u32 (x : Z) : list Z := be_bytes 4 x.

Definition enc_loc (w : wire_loc) : list Z :=
  let s := ccma_inet_aton (wl_addr w) in
  enc_u16 (Z.of_nat (length s)) ++ s ++ enc_u32 (wl_port w) ++
  enc_u16 (Z.of_nat (length (wl_rlo w))) ++ u64s (wl_rlo w).

Definition enc_item (w : wire_item) : list Z :=
  enc_u16 (Z.of_nat (length (wi_hbids w))) ++ u64s (wi_hbids w) ++
  enc_u16 (Z.of_nat (length (wi_locs w))) ++ (wi_locs w ≫= enc_loc) ++ enc_u16 (wi_stat w).

(** ** Reading one field *)

Lemma read_next_app n d l : n = Z.of_nat (length d) -> read_next n (d ++ l) = Some (d, l).
Proof.
  intros ->. unfold read_next. rewrite decide_True by (rewrite length_app; lia).
  by rewrite Nat2Z.id, take_app_length, drop_app_length.
Qed.

Lemma read_u16_app x l : 0 <= x < 2 ^ 16 -> read_u16 (enc_u16 x ++ l) = Some (x, l).
Proof. intros H. unfold read_u16, enc_u16. rewrite read_next_app by (by rewrite length_be_bytes). cbn [mbind option_bind]. by rewrite ntohs_be. Qed.

Lemma read_u32_app x l : is_u32 x -> read_u32 (enc_u32 x ++ l) = Some (x, l).
Proof. intros H. unfold read_u32, enc_u32. rewrite read_next_app by (by rewrite length_be_bytes). cbn [mbind option_bind]. by rewrite ntohl_be. Qed.

Lemma ntohll_words_u64s l : Forall is_u64 l -> ntohll_words (length l) (u64s l) = l.
Proof.
  induction 1 as [|x l Hx Hl IH]; [done|]. cbn [length ntohll_words].
  change (u64s (x :: l)) with (be_bytes 8 x ++ u64s l).
  rewrite take_app_length' by (by rewrite length_be_bytes). rewrite drop_app_length' by (by rewrite length_be_bytes).
  by rewrite ntohll_be, IH.
Qed.

Lemma read_words_app ws arr l :
  Forall is_u64 ws -> (length ws <= length arr)%nat ->
  read_words (Z.of_nat (length ws)) arr (u64s ws ++ l) = Some (list_inserts 0 ws arr, l).
Proof.
  intros Hu Hl. unfold read_words. rewrite read_next_app by (rewrite length_u64s; lia). cbn [mbind option_bind].
  rewrite Nat2Z.id, ntohll_words_u64s by done. unfold fill_array. by rewrite decide_True.
Qed.

(** ** Addresses *)

Lemma print_dec_ok n : 0 <= n < 256 -> (1 <= length (print_dec n) <= 3)%nat /\ Forall (fun c => 0 < c < 256) (print_dec n).
Proof.
  intros Hn. assert (Hc : n ∈ zseq 0 256) by (apply elem_of_zseq; lia). clear Hn.
  let l := eval vm_compute in (zseq 0 256) in change (zseq 0 256) with l in Hc.
  repeat (apply elem_of_cons in Hc as [->|Hc]; [split; [vm_compute; lia|repeat constructor; done]|]). by apply elem_of_nil in Hc.
Qed.

Lemma inet_aton_ok a : (7 <= length (ccma_inet_aton a) <= 15)%nat /\ Forall (fun c => 0 < c < 256) (ccma_inet_aton a).
Proof.
  unfold ccma_inet_aton. change 0xff with (Z.ones 8). rewrite !Z.land_ones by lia.
  assert (Hm : forall x, 0 <= x mod 2 ^ 8 < 256) by (intros; by apply Z.mod_pos_bound).
  pose proof (print_dec_ok _ (Hm a)) as [A1 A2]. pose proof (print_dec_ok _ (Hm (Z.shiftr a 8))) as [B1 B2].
  pose proof (print_dec_ok _ (Hm (Z.shiftr a 16))) as [C1 C2]. pose proof (print_dec_ok _ (Hm (Z.shiftr a 24))) as [D1 D2].
  assert (Forall (fun c => 0 < c < 256) [chr_dot]) as E by (by repeat constructor). split.
  - rewrite !length_app. cbn [length]. lia.
  - rewrite !Forall_app. tauto.
Qed.

Lemma c_string_app s l : Forall (fun c => 0 < c < 256) s -> c_string (s ++ 0 :: l) = Some s.
Proof.
  induction 1 as [|c s Hc Hs IH]; [done|]. cbn [app c_string]. replace (c =? 0) with false by lia. by rewrite IH.
Qed.

(** An address buffer that holds [s]. *)
Definition addr_buf (s : list Z) : list Z := s ++ replicate (16 - length s) 0.

Lemma addr_buf_next s1 s2 :
  (length s1 <= length s2 <= 15)%nat -> Forall (fun c => 0 < c < 256) s2 ->
  splice (addr_buf s1) 0 s2 = Some (addr_buf s2) /\ c_string (addr_buf s2) = Some s2.
Proof.
  intros Hl Hs. split.
  - unfold splice, addr_buf. rewrite decide_True by (rewrite length_app, length_replicate; lia). f_equal.
    cbn [take Z.to_nat]. rewrite app_nil_l, drop_app_ge by lia. rewrite drop_replicate. do 2 f_equal. lia.
  - unfold addr_buf. replace (16 - length s2)%nat with (S (15 - length s2)) by lia. cbn [replicate]. by apply c_string_app.
Qed.

(** ** Locations *)

Record loc_ok (w : wire_loc) : Prop := {
  lo_addr : is_u32 (wl_addr w);
  lo_port : is_u32 (wl_port w);
  lo_rlo : Forall is_u64 (wl_rlo w);
  lo_num : Z.of_nat (length (wl_rlo w)) <= MAX_LBS_PER_IOR;
}.

(** No address is shorter than the one before it. *)
Fixpoint addrs_grow (prev : nat) (ws : list wire_loc) : Prop :=
  match ws with
  | [] => True
  | w :: ws => (prev <= length (ccma_inet_aton (wl_addr w)))%nat /\ addrs_grow (length (ccma_inet_aton (wl_addr w))) ws
  end.

Definition dec_loc (d : metaD_DNLoc_t) (w : wire_loc) : metaD_DNLoc_t :=
  {| dl_ipaddr := wl_addr w; dl_port := wl_port w; rbid_len_offset := list_inserts 0 (wl_rlo w) (rbid_len_offset d);
     num_phyLocs := Z.of_nat (length (wl_rlo w)) |}.

Lemma dnLoc_loop_spec ws pre olds post s l :
  Forall loc_ok ws -> length olds = length ws -> Forall (fun d => length (rbid_len_offset d) = Z.to_nat MAX_LBS_PER_IOR) olds ->
  addrs_grow (length s) ws ->
  dnLoc_loop (length ws) (length pre) (pre ++ olds ++ post) (addr_buf s) ((ws ≫= enc_loc) ++ l) =
    Some (pre ++ zip_with dec_loc olds ws ++ post, l).
Proof.
  revert pre olds s. induction ws as [|w ws IH]; intros pre olds s Hok Hlen Hold Hgrow.
  { destruct olds; [done|done]. }
  destruct olds as [|d olds]; [done|]. apply Forall_cons in Hok as [[H1 H2 H3 H4] Hok]. apply Forall_cons in Hold as [Hd Hold].
  destruct Hgrow as [Hg Hgrow]. rewrite bind_cons, <- app_assoc. cbn [length dnLoc_loop].
  assert ((pre ++ (d :: olds) ++ post) !! length pre = Some d) as -> by (rewrite lookup_app_r, Nat.sub_diag by done; done).
  cbn [mbind option_bind].
  change MAX_LBS_PER_IOR with 33 in *.
  destruct (inet_aton_ok (wl_addr w)) as [Hs1 Hs2]. set (str := ccma_inet_aton (wl_addr w)) in *.
  destruct (addr_buf_next s str) as [E1 E2]; [lia|done|].
  unfold enc_loc at 1. fold str. rewrite <- !app_assoc. rewrite read_u16_app by lia. cbn [mbind option_bind].
  rewrite read_next_app by done. cbn [mbind option_bind]. rewrite E1. cbn [mbind option_bind]. rewrite E2. cbn [mbind option_bind].
  assert (ccma_inet_ntoa str = Some (wl_addr w)) as -> by (by apply inet_roundtrip). cbn [mbind option_bind].
  rewrite read_u32_app by done. cbn [mbind option_bind]. rewrite read_u16_app by lia. cbn [mbind option_bind].
  rewrite read_words_app by (done || lia). cbn [mbind option_bind].
  replace (<[length pre := _]> (pre ++ (d :: olds) ++ post)) with ((pre ++ [dec_loc d w]) ++ olds ++ post)
    by (rewrite <- app_assoc; rewrite (insert_app_r_alt pre) by done; by rewrite Nat.sub_diag).
  replace (S (length pre)) with (length (pre ++ [dec_loc d w])) by (rewrite length_app; simpl; lia).
  cbn [length] in Hlen. rewrite IH; [|done|lia|done|done]. cbn [zip_with]. by rewrite <- app_assoc.
Qed.

(** ** Items *)

Record item_ok (w : wire_item) : Prop := {
  io_hbids : Forall is_u64 (wi_hbids w);
  io_num : Z.of_nat (length (wi_hbids w)) <= MAX_LBS_PER_IOR;
  io_locs : Forall loc_ok (wi_locs w);
  io_replica : Z.of_nat (length (wi_locs w)) <= MAX_NUM_REPLICA;
  io_grow : addrs_grow 0 (wi_locs w);
  io_stat : 0 <= wi_stat w < 2 ^ 16;
}.

Definition zero_loc : metaD_DNLoc_t :=
  {| dl_ipaddr := 0; dl_port := 0; rbid_len_offset := replicate (Z.to_nat MAX_LBS_PER_IOR) 0; num_phyLocs := 0 |}.

Definition dec_item (startLB : Z) (w : wire_item) : nnItem_t :=
  {| ni_core := MData_init_MDItem startLB (Z.of_nat (length (wi_hbids w))) (Z.of_nat (length (wi_locs w))) false false false;
     ni_stat := wi_stat w;
     ni_HBID := list_inserts 0 (wi_hbids w) (replicate (Z.to_nat MAX_LBS_PER_IOR) 0);
     ni_dnLoc := (dec_loc zero_loc <$> wi_locs w) ++ replicate (Z.to_nat MAX_NUM_REPLICA - length (wi_locs w)) zero_loc |}.

Lemma zip_with_zero ws : zip_with dec_loc (replicate (length ws) zero_loc) ws = dec_loc zero_loc <$> ws.
Proof. induction ws as [|x ws IH]; [done|]. cbn [length replicate zip_with]. by rewrite IH. Qed.

Lemma MDItem_ntoh_spec w startLB l :
  item_ok w ->
  NNProto_getMDResp_MDItem_ntoh (replicate (Z.to_nat MAX_LBS_PER_IOR) 0) (replicate (Z.to_nat MAX_NUM_REPLICA) zero_loc)
    startLB (enc_item w ++ l) = Some (dec_item startLB w, l).
Proof.
  intros [H1 H2 H3 H4 H5 H6]. change MAX_LBS_PER_IOR with 33 in *. change MAX_NUM_REPLICA with 3 in *.
  unfold NNProto_getMDResp_MDItem_ntoh, enc_item. rewrite <- !app_assoc.
  rewrite read_u16_app by lia. cbn [mbind option_bind].
  assert (forall n, 0 <= n <= 33 -> s16 n = n) as Hs by (intros n Hn; unfold s16; rewrite Z.mod_small; lia).
  rewrite Hs by lia. rewrite read_words_app by (done || rewrite length_replicate; lia). cbn [mbind option_bind].
  rewrite read_u16_app by lia. cbn [mbind option_bind]. rewrite Hs, u32_small by (unfold is_u32; lia).
  assert (u16 (Z.of_nat (length (wi_locs w))) = Z.of_nat (length (wi_locs w))) as -> by (unfold u16; apply Z.mod_small; lia).
  cbn [MData_init_MDItem num_dnLoc]. unfold NNAck_DNLoc_ntoh_order. rewrite Nat2Z.id.
  change (replicate (Z.to_nat IPV4ADDR_NM_LEN) 0) with (addr_buf []).
  replace (replicate (Z.to_nat 3) zero_loc)
    with (replicate (length (wi_locs w)) zero_loc ++ replicate (Z.to_nat 3 - length (wi_locs w)) zero_loc)
    by (rewrite <- replicate_add; f_equal; lia).
  pose proof (dnLoc_loop_spec (wi_locs w) [] (replicate (length (wi_locs w)) zero_loc)
    (replicate (Z.to_nat 3 - length (wi_locs w)) zero_loc) [] (enc_u16 (wi_stat w) ++ l)) as E.
  cbn [app length] in E. rewrite E; [|done|by rewrite length_replicate|by apply Forall_replicate|done].
  cbn [mbind option_bind]. rewrite read_u16_app by done. cbn [mbind option_bind]. by rewrite zip_with_zero.
Qed.

(** ** Answers *)

Definition finish (q : acquire_t) (i : nat) (it : nnItem_t) : nnItem_t :=
  let core := if aq_true_md q then MData_set_TrueMD (ni_core it) else ni_core it in
  {| ni_core := core;
     ni_stat := _nnack_update_MDItem_state (aq_RR q) (ni_stat it) (aq_volReplica q) (num_dnLoc core) (aq_alloc q) i;
     ni_HBID := ni_HBID it; ni_dnLoc := ni_dnLoc it |}.

Definition blocks (ws : list wire_item) : Z := Z.of_nat (length (ws ≫= wi_hbids)).

Lemma blocks_cons w ws : blocks (w :: ws) = Z.of_nat (length (wi_hbids w)) + blocks ws.
Proof. unfold blocks. rewrite bind_cons, length_app. lia. Qed.

Fixpoint dec_items (q : acquire_t) (i : nat) (startLB : Z) (ws : list wire_item) : list nnItem_t :=
  match ws with
  | [] => []
  | w :: ws => finish q i (dec_item startLB w) :: dec_items q (S i) (startLB + Z.of_nat (length (wi_hbids w))) ws
  end.

Definition is_inval (it : nnItem_t) : bool := ni_stat it =? MDATA_INVALID.

(** The ranges of the items that are valid. *)
Definition valid_ranges (its : list nnItem_t) : list (Z * Z) :=
  (fun it => (lbid_s (ni_core it), num_hbids (ni_core it))) <$> filter (fun it => is_inval it = false) its.

Lemma finish_core q i it : num_hbids (ni_core (finish q i it)) = num_hbids (ni_core it) /\
  num_dnLoc (ni_core (finish q i it)) = num_dnLoc (ni_core it) /\ lbid_s (ni_core (finish q i it)) = lbid_s (ni_core it).
Proof. unfold finish. cbn. by destruct (aq_true_md q). Qed.

Lemma parse_items_spec q ws i startLB l :
  Forall item_ok ws -> 0 <= startLB -> startLB + blocks ws < 2 ^ 64 -> Z.of_nat (length ws) < 2 ^ 16 ->
  let its := dec_items q i startLB ws in
  parse_items q (length ws) i startLB [] ((ws ≫= enc_item) ++ l) =
    Some (Some <$> its, Z.of_nat (length (filter (fun it => is_inval it = true) its)),
          if aq_alloc q then valid_ranges its else [], l).
Proof.
  revert i startLB. induction ws as [|w ws IH]; intros i startLB Hok H0 H64 H16; cbn zeta.
  { cbn. by destruct (aq_alloc q). }
  apply Forall_cons in Hok as [Hw Hok]. rewrite blocks_cons in H64. cbn [length] in H16 |- *.
  rewrite bind_cons, <- app_assoc. cbn [parse_items]. rewrite MDItem_ntoh_spec by done. cbn [mbind option_bind].
  destruct (finish_core q i (dec_item startLB w)) as (F1 & F2 & F3). set (it := finish q i (dec_item startLB w)) in *.
  change (num_hbids (if aq_true_md q then _ else _)) with (num_hbids (ni_core it)).
  rewrite F1. cbn [dec_item ni_core MData_init_MDItem num_hbids].
  assert (0 <= blocks ws) as Hb by (unfold blocks; lia). rewrite u64_small by (unfold is_u64; lia).
  rewrite IH by (done || lia). cbn [mbind option_bind dec_items]. fold it.
  set (its := dec_items q (S i) _ ws). cbn [fmap list_fmap].
  match goal with |- Some (Some ?r :: _, _, _, _) = _ => change r with it end.
  match goal with |- context [if ?s =? MDATA_INVALID then u16 _ else _] => change (s =? MDATA_INVALID) with (is_inval it) end.
  rewrite !filter_cons. unfold valid_ranges. rewrite filter_cons.
  assert (Z.of_nat (length (filter (fun it => is_inval it = true) its)) <= Z.of_nat (length ws)) as Hlen.
  { assert (length its = length ws) as <-.
    { unfold its. clear. generalize (startLB + Z.of_nat (length (wi_hbids w))) as s. revert i.
      induction ws as [|x ws IH]; intros i s; [done|]. cbn. by rewrite IH. }
    pose proof (length_filter (fun it => is_inval it = true) its). lia. }
  destruct (is_inval it) eqn:Ei.
  - rewrite decide_True, decide_False by done. cbn [negb andb].
    assert (u16 (Z.of_nat (length (filter (fun it => is_inval it = true) its)) + 1) =
      Z.of_nat (length (it :: filter (fun it => is_inval it = true) its))) as ->.
    { unfold u16. rewrite Z.mod_small by lia. simpl. lia. }
    done.
  - rewrite decide_False, decide_True by done. cbn [negb andb fmap list_fmap]. destruct (aq_alloc q); [|done]. by rewrite F1, F3.
Qed.

(** What an item must be after the answer [w] for the blocks from [startLB] on. *)
Record item_is (q : acquire_t) (k : nat) (startLB : Z) (w : wire_item) (it : nnItem_t) : Prop := {
  ii_lbid : lbid_s (ni_core it) = startLB;
  ii_num : num_hbids (ni_core it) = Z.of_nat (length (wi_hbids w));
  ii_hbid : take (length (wi_hbids w)) (ni_HBID it) = wi_hbids w;
  ii_replica : num_dnLoc (ni_core it) = Z.of_nat (length (wi_locs w));
  ii_locs j wl : wi_locs w !! j = Some wl ->
    exists d, ni_dnLoc it !! j = Some d /\ dl_ipaddr d = wl_addr wl /\ dl_port d = wl_port wl /\
      num_phyLocs d = Z.of_nat (length (wl_rlo wl)) /\ take (length (wl_rlo wl)) (rbid_len_offset d) = wl_rlo wl;
  ii_stat : ni_stat it = _nnack_update_MDItem_state (aq_RR q) (wi_stat w) (aq_volReplica q)
                           (Z.of_nat (length (wi_locs w))) (aq_alloc q) k;
  ii_true : MData_chk_TrueMD (ni_core it) = aq_true_md q;
}.

Lemma take_inserts {A} (l arr : list A) : (length l <= length arr)%nat -> take (length l) (list_inserts 0 l arr) = l.
Proof.
  intros H. apply list_eq. intros i. rewrite lookup_take. case_decide as Hi.
  - rewrite list_lookup_inserts by lia. f_equal. lia.
  - symmetry. apply lookup_ge_None_2. lia.
Qed.

Lemma dec_item_is q k s w : item_ok w -> item_is q k s w (finish q k (dec_item s w)).
Proof.
  intros [H1 H2 H3 H4 H5 H6]. change MAX_LBS_PER_IOR with 33 in *.
  destruct (finish_core q k (dec_item s w)) as (F1 & F2 & F3). split.
  - by rewrite F3.
  - by rewrite F1.
  - cbn. rewrite take_inserts; [done|]. rewrite length_replicate. change MAX_LBS_PER_IOR with 33. lia.
  - by rewrite F2.
  - intros j wl Hj. exists (dec_loc zero_loc wl). pose proof (lookup_lt_Some _ _ _ Hj) as Hlt.
    pose proof (proj1 (Forall_lookup _ _) H3 j wl Hj) as [_ _ _ Hn]. change MAX_LBS_PER_IOR with 33 in Hn. split_and!; try done.
    + cbn [finish ni_dnLoc dec_item]. rewrite lookup_app_l by (by rewrite length_fmap). by rewrite list_lookup_fmap, Hj.
    + cbn [dec_loc rbid_len_offset zero_loc]. rewrite take_inserts; [done|]. rewrite length_replicate.
      change MAX_LBS_PER_IOR with 33. lia.
  - unfold finish. cbn [ni_stat dec_item]. by destruct (aq_true_md q).
  - unfold finish. cbn [ni_core dec_item]. by destruct (aq_true_md q).
Qed.

Lemma dec_items_lookup q ws i s k w :
  Forall item_ok ws -> ws !! k = Some w ->
  exists it, dec_items q i s ws !! k = Some it /\ item_is q (i + k) (s + blocks (take k ws)) w it.
Proof.
  revert i s k. induction ws as [|x ws IH]; intros i s k Hok Hk; [done|]. apply Forall_cons in Hok as [Hx Hok].
  destruct k as [|k].
  - injection Hk as ->. eexists. split; [done|]. rewrite Nat.add_0_r. change (blocks (take 0 _)) with 0. rewrite Z.add_0_r.
    by apply dec_item_is.
  - destruct (IH (S i) (s + Z.of_nat (length (wi_hbids x))) k Hok Hk) as (it & Hit & His). exists it. split; [done|].
    cbn [take]. rewrite blocks_cons. replace (i + S k)%nat with (S i + k)%nat by lia. by rewrite Z.add_assoc.
Qed.

Definition enc_fc (f : CN2NN_getMDResp_fcpkt_t) : list Z :=
  enc_u32 (u32 (rate_SlowStart f)) ++ enc_u32 (u32 (rate_SlowStartMaxReqs f)) ++ enc_u32 (u32 (rate_Alloc f)) ++
  enc_u32 (u32 (rate_AllocMaxReqs f)) ++ enc_u32 (u32 (rate_AgeTime f)).

Record fc_ok (f : CN2NN_getMDResp_fcpkt_t) : Prop := {
  fc1 : is_s32 (rate_SlowStart f);
  fc2 : is_s32 (rate_SlowStartMaxReqs f);
  fc3 : is_s32 (rate_Alloc f);
  fc4 : is_s32 (rate_AllocMaxReqs f);
  fc5 : is_s32 (rate_AgeTime f);
}.

Lemma FlowCtrl_spec f l : fc_ok f -> NNProto_getMDResp_FlowCtrl_ntoh (enc_fc f ++ l) = Some f.
Proof.
  intros [H1 H2 H3 H4 H5]. unfold NNProto_getMDResp_FlowCtrl_ntoh, enc_fc. rewrite <- !app_assoc.
  do 5 (rewrite read_u32_app by apply u32_range; cbn [mbind option_bind]). rewrite !s32_u32 by done. by destruct f.
Qed.


Definition ws_ex : list wire_item :=
  [{| wi_hbids := [0x0a0b; 0x0a0c];
      wi_locs := [{| wl_addr := 0x0100000a; wl_port := 20100; wl_rlo := [0x0000000700200003] |};
                  {| wl_addr := 0x64010a0a; wl_port := 20100; wl_rlo := [0x0000000800100001; 0x0000000800100009] |}];
      wi_stat := 0 |};
   {| wi_hbids := [0x0a0d]; wi_locs := []; wi_stat := 1 |}].
Definition fc_ex : CN2NN_getMDResp_fcpkt_t :=
  {| rate_SlowStart := 5; rate_SlowStartMaxReqs := 6; rate_Alloc := -1; rate_AllocMaxReqs := 7; rate_AgeTime := 1000 |}.
Definition q_alloc : acquire_t := {| aq_true_md := false; aq_alloc := true; aq_volReplica := 3; aq_RR := true |}.

Lemma ws_ex_ok : Forall item_ok ws_ex.
Proof.
  unfold ws_ex, MAX_LBS_PER_IOR. repeat constructor; unfold is_u32, is_u64; cbn [wl_addr wl_port wi_stat];
    try lia; vm_compute; congruence.
Qed.

Lemma fc_ex_ok : fc_ok fc_ex.
Proof. split; unfold is_s32, fc_ex; cbn; lia. Qed.


(** The address buffer keeps the rest of the address before.  When the second replica has
    a shorter address than the first one, the characters of the first address stay behind
    it and are read with it: 10.0.0.1 after 192.168.1.20 is taken for 10.0.0.11, and the client node talks to another datanode. *)
Theorem nn_answer_stale_address :
  let first := {| wl_addr := 0x1401a8c0; wl_port := 20100; wl_rlo := [] |} in
  let second := {| wl_addr := 0x0100000a; wl_port := 20100; wl_rlo := [] |} in
  option_map (fun r => map dl_ipaddr r.1) (NNAck_DNLoc_ntoh_order 2 (replicate 2 zero_loc) (enc_loc first ++ enc_loc second)) =
    Some [0x1401a8c0; 0x0b00000a].
Proof. by vm_compute. Qed.

(** ** Headers *)

Lemma ntohs_htons x : 0 <= x < 2 ^ 16 -> ntohs (htons x) = x.
Proof. apply ntohs_be. Qed.
Lemma ntohl_htonl x : is_u32 x -> ntohl (htonl x) = x.
Proof. apply ntohl_be. Qed.

(** The namenode reads the header of a request for metadata, the client node the header of the
    answer; the size of the answer must fit in 15 bits. *)
Theorem nn_headers_roundtrip (opcode reqID volID lbs lblen dataSize : Z) :
  0 <= opcode < 2 ^ 15 -> is_u32 reqID -> is_u32 volID -> is_u64 lbs -> is_u32 lblen -> 0 < dataSize < 2 ^ 15 ->
  NNClient_MDReqHder_ntoh (NNProto_gen_getMDReqheader opcode reqID volID lbs lblen) =
    {| gm_magic_number1 := mnum_net_order; gm_opcode := opcode; gm_lb_s := lbs; gm_nnReqID := reqID;
       gm_volumeID := volID; gm_lb_len := lblen; gm_magic_number2 := mnum_net_order |} /\
  NNProto_MDRespheader_ntoh (gen_MDReq_ackHeader opcode dataSize reqID) =
    (0, {| mr_magic_number1 := mnum_net_order; response_type := opcode; resp_data_size := dataSize - 8; request_ID := reqID |}).
Proof.
  intros Ho Hr Hv Hl Hn Hd. split.
  - unfold NNClient_MDReqHder_ntoh, NNProto_gen_getMDReqheader.
    cbn [gm_magic_number1 gm_opcode gm_lb_s gm_nnReqID gm_volumeID gm_lb_len gm_magic_number2].
    rewrite ntohs_htons by lia. rewrite ntohl_htonl, !ntohll_htonll by (done || unfold is_u64, is_u32 in *; lia). done.
  - unfold NNProto_MDRespheader_ntoh, gen_MDReq_ackHeader.
    cbn [mr_magic_number1 response_type resp_data_size request_ID]. rewrite Z.eqb_refl. cbn [negb].
    assert (forall x, u16 (s16 (htons x)) = htons x) as Hu.
    { intros x. pose proof (le_val_range _ (be_bytes_ok 2 x)) as Hx. rewrite length_be_bytes in Hx.
      change (256 ^ Z.of_nat 2) with (2 ^ 16) in Hx. unfold u16, s16, htons. rewrite Zminus_mod_idemp_l.
      replace (_ + 2 ^ 15 - 2 ^ 15) with (le_val (be_bytes 2 x)) by lia. by apply Z.mod_small. }
    rewrite !Hu, !ntohs_htons, ntohll_htonll by (unfold is_u64, is_u32 in *; lia).
    assert (forall x, 0 <= x < 2 ^ 15 -> s16 x = x) as Hs by (intros x Hx; unfold s16; rewrite Z.mod_small; lia).
    rewrite !(Hs opcode), !(Hs dataSize) by lia. replace (dataSize =? 0) with false by lia.
    do 2 f_equal. unfold s16. rewrite Z.mod_small; lia.
Qed.
