(* ===== verification/NNReport.v ===== *)
(** * NNReport: what the client node reports to the namenode about its IO

    Translation of the commit packets of discoNN_client/discoC_NN_protocol.c and of their
    sender discoNN_client/discoC_NNC_workerfunc_reportMD.c (without erasure coding, a
    compile-time option that is off).  After a write the namenode is told which replicas
    hold the data, after a read which ones have a broken disk.

    A packet is written through a cursor into a buffer of fixed size: a writer takes the
    position and the buffer, and a write that leaves the buffer is a fault ([None]). *)

From S2P Require Import Prelude CommonUtil Bytes MDataCommit MDItems NNProto.

(** ** Writing through a cursor *)

Definition cursor : Type := Z * list Z.
Definition writer : Type := cursor -> option cursor.

(** [memcpy(local_ptr, &x, n); local_ptr += n]. *)
Definition wr (d : list Z) : writer := fun '(p, buf) => buf ← splice buf p d; Some (p + Z.of_nat (length d), buf).
Definition wr_u64 (x : Z) : writer := wr (le_bytes 8 (htonll x)).
Definition wr_u32 (x : Z) : writer := wr (le_bytes 4 (htonl x)).
Definition wr_seq (w1 w2 : writer) : writer := fun c => c ← w1 c; w2 c.
Infix ";;;" := wr_seq (at level 62, right associativity).

Fixpoint wr_words (n j : nat) (arr : list Z) : writer :=
  match n with
  | O => Some
  | S n => fun c => v ← arr !! j; (wr_u64 v ;;; wr_words n (S j) arr) c
  end.

(** [ccma_inet_aton(ip, local_ptr, DN_IPADDR_NAME_LEN); local_ptr += DN_IPADDR_NAME_LEN]:
    the field is cleared, then the text and its end are written. *)
Definition wr_ipaddr (ip : Z) : writer := fun '(p, buf) =>
  buf ← splice buf p (replicate (Z.to_nat DN_IPADDR_NAME_LEN) 0);
  buf ← splice buf p (ccma_inet_aton ip ++ [0]);
  Some (p + DN_IPADDR_NAME_LEN, buf).

(** ** Packets *)

(** One replica: address, port, physical locations. *)
Definition pack_dnLoc (d : metaD_DNLoc_t) : writer :=
  wr_ipaddr (dl_ipaddr d) ;;; wr_u32 (dl_port d) ;;; wr_u32 (num_phyLocs d) ;;;
  wr_words (Z.to_nat (num_phyLocs d)) 0 (rbid_len_offset d).

(** The loop over the replicas, skipping those that [skip] selects by their status;
    the number of replicas written and the cursor. *)
Fixpoint dnLocs_loop (skip : UData_state_t -> bool) (n i : nat) (it : mdItem_t) (num : Z) (c : cursor) :
    option (Z * cursor) :=
  match n with
  | O => Some (num, c)
  | S n =>
      d ← md_dnLoc it !! i;
      s ← udata_dnLoc (md_core it) !! i;
      if skip s then dnLocs_loop skip n (S i) it num c
      else c ← pack_dnLoc d c; dnLocs_loop skip n (S i) it (num + 1) c
  end.

Definition dnLocs (skip : UData_state_t -> bool) (it : mdItem_t) (c : cursor) : option (Z * cursor) :=
  dnLocs_loop skip (Z.to_nat (num_dnLoc (md_core it))) 0 it 0 c.

(** Start block, number of blocks and their numbers. *)
Definition pack_blocks (it : mdItem_t) : writer :=
  wr_u64 (lbid_s (md_core it)) ;;; wr_u32 (num_hbids (md_core it)) ;;;
  wr_words (Z.to_nat (num_hbids (md_core it))) 0 (arr_HBID it).

(** *** After a read: the replicas with a broken disk *)

(** The replicas are written first, behind the space for what comes before them, which is
    filled when there are any; the number of failed replicas and the cursor behind the item. *)
Definition pack_failLHO_pkt (it : mdItem_t) (c : cursor) : option (Z * cursor) :=
  let '(p, buf) := c in
  let space := 8 + 4 + 8 * num_hbids (md_core it) + 4 in
  '(num_failDN, (q, buf)) ← dnLocs (fun s => negb (MData_chk_UDStatus_readfail s)) it (p + space, buf);
  if num_failDN >? 0 then
    '(_, buf) ← (pack_blocks it ;;; wr_u32 num_failDN) (p, buf);
    Some (num_failDN, (q, buf))
  else Some (num_failDN, (p, buf)).

Fixpoint failLHO_items (its : list mdItem_t) (num_mdItem : Z) (c : cursor) : option (Z * cursor) :=
  match its with
  | [] => Some (num_mdItem, c)
  | it :: its =>
      '(numFailDN, c) ← pack_failLHO_pkt it c;
      failLHO_items its (if numFailDN >? 0 then num_mdItem + 1 else num_mdItem) c
  end.

(** [None] for the items: the array is NULL. *)
Definition pack_MData_failLHO (items : option (list mdItem_t)) (c : cursor) : option (Z * cursor) :=
  match items with
  | None => Some (0, c)
  | Some its => failLHO_items its 0 c
  end.

(** The header without the magic number at its end, which goes behind the items. *)
Definition ciMDReq_hder (opcode volumeID nnReqID n : Z) : list Z :=
  le_bytes 8 mnum_net_order ++ le_bytes 2 (htons opcode) ++ le_bytes 8 (htonll volumeID) ++
  le_bytes 8 (htonll nnReqID) ++ le_bytes 4 (htonl n).

Definition SIZE_ciMDReq_hder : Z := 38.

(** Length of the packet (0: nothing to report) and the buffer. *)
Definition NNProto_gen_ciMDReq_ReadIO_pkt (volumeID nnReqID : Z) (items : option (list mdItem_t)) (msg_buf : list Z) :
    option (Z * list Z) :=
  let pkt_size := SIZE_ciMDReq_hder - 8 in
  '(num_mdItem, (q, buf)) ← pack_MData_failLHO items (pkt_size, msg_buf);
  if num_mdItem >? 0 then
    buf ← splice buf 0 (ciMDReq_hder REQ_NN_REPORT_READIO_RESULT volumeID nnReqID num_mdItem);
    buf ← splice buf q (le_bytes 8 mnum_net_order);
    Some (q + 8, buf)
  else Some (0, buf).

(** *** After a write: the replicas that have the data *)

Definition pack_Success_item (it : mdItem_t) (c : cursor) : option cursor :=
  '(ptr_for_num_of_dns, buf) ← pack_blocks it c;
  '(numOfDNs, (q, buf)) ← dnLocs MData_chk_UDStatus_writefail it (ptr_for_num_of_dns + 4, buf);
  buf ← splice buf ptr_for_num_of_dns (le_bytes 4 (htonl numOfDNs));
  Some (q, buf).

Fixpoint pack_SuccessLHO_pkt (its : list mdItem_t) (num_MDItem : Z) (c : cursor) : option (Z * cursor) :=
  match its with
  | [] => Some (num_MDItem, c)
  | it :: its => c ← pack_Success_item it c; pack_SuccessLHO_pkt its (num_MDItem + 1) c
  end.

Definition NNProto_gen_ciMDReq_WriteIO_pkt (volumeID nnReqID : Z) (its : list mdItem_t) (msg_buf : list Z) :
    option (Z * list Z) :=
  let pkt_size := SIZE_ciMDReq_hder - 8 in
  '(n, (q, buf)) ← pack_SuccessLHO_pkt its 0 (pkt_size, msg_buf);
  buf ← splice buf 0 (ciMDReq_hder REQ_NN_REPORT_WRITEIO_RESULT volumeID nnReqID n);
  buf ← splice buf q (le_bytes 8 mnum_net_order);
  Some (q + 8, buf).

(** *** Printing a packet for debugging *)

(** Integers in the packet; [None]: the read leaves the buffer. *)
Definition pkt_u64 (p : Z) (buf : list Z) : option Z := b ← slice buf p 8; Some (ntohll (le_val b)).
Definition pkt_s32 (p : Z) (buf : list Z) : option Z := b ← slice buf p 4; Some (s32 (ntohl (le_val b))).

(** Each function gives the position behind what it printed. *)
Fixpoint show_words (n : nat) (p : Z) (buf : list Z) : option Z :=
  match n with
  | O => Some p
  | S n => _ ← pkt_u64 p buf; show_words n (p + 8) buf
  end.

(** The printer takes the address field for IPV4ADDR_NM_LEN bytes. *)
Definition print_CommitDNLoc_in_pkt (p : Z) (buf : list Z) : option Z :=
  _ ← slice buf p IPV4ADDR_NM_LEN;
  _ ← pkt_s32 (p + IPV4ADDR_NM_LEN) buf;
  numOfLocation ← pkt_s32 (p + IPV4ADDR_NM_LEN + 4) buf;
  show_words (Z.to_nat numOfLocation) (p + IPV4ADDR_NM_LEN + 8) buf.

Fixpoint show_DNs (n : nat) (p : Z) (buf : list Z) : option Z :=
  match n with
  | O => Some p
  | S n => p ← print_CommitDNLoc_in_pkt p buf; show_DNs n p buf
  end.

Fixpoint show_LHOs (n : nat) (p : Z) (buf : list Z) : option Z :=
  match n with
  | O => Some p
  | S n =>
      _ ← pkt_u64 p buf;
      lbid_cnt ← pkt_s32 (p + 8) buf;
      p ← show_words (Z.to_nat lbid_cnt) (p + 12) buf;
      numOfDNs ← pkt_s32 p buf;
      p ← show_DNs (Z.to_nat numOfDNs) (p + 4) buf;
      show_LHOs n p buf
  end.

(** [dbg]: messages of this level are printed. *)
Definition NNProto_show_ciMDReq_WriteIO_pkt (dbg : bool) (msg_buf : list Z) : option unit :=
  if dbg then
    _ ← slice msg_buf 0 26;
    numOfLHOs ← pkt_s32 26 msg_buf;
    p ← show_LHOs (Z.to_nat numOfLHOs) 30 msg_buf;
    _ ← pkt_u64 p msg_buf;
    Some tt
  else Some tt.

(** ** Sending *)

Definition ENETUNREACH : Z := 101.
Definition ENETRESET : Z := 102.
Definition MD_CI_BUFFER_SIZE : Z := 8192.

(** What the worker does with other components, in order. *)
Inductive report_call : Type :=
| Inval_LBID (volumeID lbid_start lbid_len : Z)
| Tx_send (pkt : list Z)
| ResetConn
| Reconnect.

(** The connection: is it up, does the node run a self test, the number of bytes [tx_send]
    takes of a packet. *)
Record report_conn : Type := {
  rc_up : bool;
  rc_selftest : bool;
  rc_tx_send : list Z -> Z;
}.

Definition _nnc_send_MDReport_packet (conn : option report_conn) (msg : list Z) : Z * list report_call :=
  match conn with
  | None => (- ENETUNREACH, [])
  | Some nc =>
      if rc_up nc then
        let '(s, calls) := if rc_selftest nc then (Z.of_nat (length msg), []) else (rc_tx_send nc msg, [Tx_send msg]) in
        if s =? Z.of_nat (length msg) then (0, calls) else (- ENETRESET, calls ++ [ResetConn])
      else (- ENETUNREACH, [Reconnect])
  end.

(** Is there something to report: an item with too few replicas, or a replica without the data?
    The loop over the replicas reads the status array; [None]: it leaves it. *)
Fixpoint write_fail_loop (n i : nat) (it : mdItem_t) : option bool :=
  match n with
  | O => Some false
  | S n =>
      s ← udata_dnLoc (md_core it) !! i;
      if MData_chk_UDStatus_writefail s then Some true else write_fail_loop n (S i) it
  end.

Fixpoint _nnc_chk_write_fail (its : list mdItem_t) : option bool :=
  match its with
  | [] => Some false
  | it :: its =>
      if decide (mdata_stat it <> MData_VALID) then Some true
      else
        b ← write_fail_loop (Z.to_nat (num_dnLoc (md_core it))) 0 it;
        if b : bool then Some true else _nnc_chk_write_fail its
  end.

Record report_req : Type := {
  rq_volumeID : Z;
  rq_lbid_start : Z;
  rq_lbid_len : Z;
  rq_ReqID : Z;
  rq_items : option (list mdItem_t);
  rq_conn : option report_conn;
}.

Definition SIZE_dnLoc_pkt : Z := 16 + 4 + 4 + 8.

(** The buffer of the client, or a new one when that is too small; [mem]: memory is
    available.  The part that may be used is cleared. *)
Definition report_buffer (msg_buf_size : Z) (message_buffer : list Z) (mem : bool) : option (option (list Z)) :=
  if msg_buf_size >? MD_CI_BUFFER_SIZE then
    if mem then Some (Some (replicate (Z.to_nat msg_buf_size) 0)) else Some None
  else b ← splice message_buffer 0 (replicate (Z.to_nat msg_buf_size) 0); Some (Some b).

Definition NNClient_reportMD_writeErr (q : report_req) (message_buffer : list Z) (mem : bool) :
    option (Z * list report_call) :=
  match rq_items q with
  | None => Some (- EINVAL, [])
  | Some its =>
      fail ← _nnc_chk_write_fail its;
      if fail : bool then
        let inval := Inval_LBID (rq_volumeID q) (rq_lbid_start q) (rq_lbid_len q) in
        let size_of_1_LHO := 8 + 4 + 8 + (SIZE_dnLoc_pkt + 8) * MAX_NUM_REPLICA in
        let msg_buf_size := SIZE_ciMDReq_hder + size_of_1_LHO * rq_lbid_len q in
        mb ← report_buffer msg_buf_size message_buffer mem;
        match mb with
        | None => Some (- ENOMEM, [inval])
        | Some msg_buf =>
            '(len, buf) ← NNProto_gen_ciMDReq_WriteIO_pkt (rq_volumeID q) (rq_ReqID q) its msg_buf;
            let '(ret, calls) :=
              if len >? 0 then _nnc_send_MDReport_packet (rq_conn q) (take (Z.to_nat len) buf) else (0, []) in
            Some (ret, inval :: calls)
        end
      else Some (0, [])
  end.

(** The result of the transmission is not returned. *)
Definition NNClient_reportMD_readErr (dbg : bool) (q : report_req) (message_buffer : list Z) (mem : bool) :
    option (Z * list report_call) :=
  let inval := Inval_LBID (rq_volumeID q) (rq_lbid_start q) (rq_lbid_len q) in
  let size_of_1_LHO := 8 + 4 + 8 + 4 + (SIZE_dnLoc_pkt + 8) * MAX_NUM_REPLICA in
  let msg_buf_size := SIZE_ciMDReq_hder + size_of_1_LHO * rq_lbid_len q in
  mb ← report_buffer msg_buf_size message_buffer mem;
  match mb with
  | None => Some (- ENOMEM, [inval])
  | Some msg_buf =>
      '(len, buf) ← NNProto_gen_ciMDReq_ReadIO_pkt (rq_volumeID q) (rq_ReqID q) (rq_items q) msg_buf;
      _ ← NNProto_show_ciMDReq_WriteIO_pkt dbg buf;
      let calls := if len >? 0 then (_nnc_send_MDReport_packet (rq_conn q) (take (Z.to_nat len) buf)).2 else [] in
      Some (0, inval :: calls)
  end.
