(* ===== verification/NNReportSpec.v ===== *)
(** * NNReportSpec: the reports to the namenode are exact and fit their buffer

    The format of the reports, and that the writers of NNReport produce it: each item of the
    metadata with exactly the replicas that have the data (after a write) or a broken disk
    (after a read), within the buffer that the sender sizes by the number of blocks. *)

From S2P Require Import Prelude CommonUtil Bytes MDataCommit MDItems NNProto NNProtoSpec NNReport.

(** ** Writers that emit bytes at the cursor *)

(** The writer puts [d] at the cursor, whatever is in the buffer. *)
Definition emits (w : writer) (d : list Z) : Prop :=
  forall (p : nat) buf, (p + length d <= length buf)%nat ->
    w (Z.of_nat p, buf) = Some (Z.of_nat (p + length d), put buf p d).

Lemma emits_wr d : emits (wr d) d.
Proof.
  intros p buf H. unfold wr. rewrite splice_put by lia. cbn [mbind option_bind]. rewrite Nat2Z.id. do 2 f_equal. lia.
Qed.

Lemma emits_nil : emits Some [].
Proof. intros p buf H. rewrite put_nil. do 3 f_equal. simpl. lia. Qed.

Lemma emits_seq w1 w2 d1 d2 : emits w1 d1 -> emits w2 d2 -> emits (w1 ;;; w2) (d1 ++ d2).
Proof.
  intros H1 H2 p buf H. rewrite length_app in H. unfold wr_seq. rewrite H1 by lia. cbn [mbind option_bind].
  rewrite H2 by (rewrite length_put; lia). rewrite put_put by lia. rewrite length_app. do 2 f_equal. lia.
Qed.

Lemma emits_u64 x : is_u64 x -> emits (wr_u64 x) (be_bytes 8 x).
Proof. intros H. rewrite <- store_htonll by done. apply emits_wr. Qed.

Lemma emits_u32 x : emits (wr_u32 x) (be_bytes 4 x).
Proof. rewrite <- store_htonl. apply emits_wr. Qed.

Create HintDb emits discriminated.
#[export] Hint Resolve emits_wr emits_nil emits_seq emits_u64 emits_u32 : emits.

Lemma emits_words arr n j :
  Forall is_u64 arr -> (j + n <= length arr)%nat -> emits (wr_words n j arr) (u64s (take n (drop j arr))).
Proof.
  intros Ha. revert j. induction n as [|n IH]; intros j H; [apply emits_nil|].
  destruct (lookup_lt_is_Some_2 arr j) as [v Hv]; [lia|]. rewrite (drop_S arr v j) by done.
  intros p buf Hp. cbn [wr_words]. rewrite Hv. cbn [mbind option_bind].
  apply (emits_seq _ _ (be_bytes 8 v)); [|apply IH; lia|done].
  apply emits_u64. rewrite Forall_lookup in Ha. eauto.
Qed.

Lemma put_over l i d1 d2 : (length d2 <= length d1)%nat -> (i + length d1 <= length l)%nat ->
  put (put l i d1) i d2 = put l i (d2 ++ drop (length d2) d1).
Proof.
  intros H1 H2. unfold put. rewrite take_app_le, take_take by (rewrite length_take; lia).
  rewrite drop_app_ge by (rewrite length_take; lia). rewrite length_take, drop_app_le by lia.
  rewrite !length_app, length_drop, <- !app_assoc. f_equal; [f_equal; lia|]. f_equal.
  f_equal; f_equal; lia.
Qed.

(** The address as text in a field of 20 bytes. *)
Definition ip_field (ip : Z) : list Z :=
  let s := ccma_inet_aton ip in s ++ replicate (Z.to_nat DN_IPADDR_NAME_LEN - length s) 0.

Lemma length_ip_field ip : length (ip_field ip) = 20%nat.
Proof.
  destruct (inet_aton_ok ip) as [H _]. unfold ip_field. rewrite length_app, length_replicate.
  change (Z.to_nat DN_IPADDR_NAME_LEN) with 20%nat. lia.
Qed.

Lemma emits_ip ip : emits (wr_ipaddr ip) (ip_field ip).
Proof.
  intros p buf H. rewrite length_ip_field in *. destruct (inet_aton_ok ip) as [Ha _]. unfold wr_ipaddr.
  change (Z.to_nat DN_IPADDR_NAME_LEN) with 20%nat. rewrite splice_put by (rewrite ?length_replicate; lia).
  cbn [mbind option_bind]. rewrite Nat2Z.id.
  rewrite splice_put by (rewrite ?length_put, ?length_app, ?length_replicate; simpl; lia). cbn [mbind option_bind].
  rewrite Nat2Z.id, put_over by (rewrite ?length_app, ?length_replicate; simpl; lia). do 2 f_equal; [unfold DN_IPADDR_NAME_LEN; lia|].
  f_equal. unfold ip_field. change (Z.to_nat DN_IPADDR_NAME_LEN) with 20%nat. rewrite <- app_assoc. f_equal.
  rewrite drop_replicate, length_app. change [0] with (replicate 1 0). rewrite <- replicate_add. f_equal. simpl. lia.
Qed.

(** ** The format of a report *)

Definition dn_bytes (d : metaD_DNLoc_t) : list Z :=
  ip_field (dl_ipaddr d) ++ be_bytes 4 (dl_port d) ++ be_bytes 4 (num_phyLocs d) ++
  u64s (take (Z.to_nat (num_phyLocs d)) (rbid_len_offset d)).

(** The replicas of the item whose status [skip] does not reject. *)
Definition reps (skip : UData_state_t -> bool) (it : mdItem_t) : list metaD_DNLoc_t :=
  fst <$> filter (fun x => skip x.2 = false)
            (take (Z.to_nat (num_dnLoc (md_core it))) (zip (md_dnLoc it) (udata_dnLoc (md_core it)))).

Definition blocks_bytes (it : mdItem_t) : list Z :=
  be_bytes 8 (lbid_s (md_core it)) ++ be_bytes 4 (num_hbids (md_core it)) ++
  u64s (take (Z.to_nat (num_hbids (md_core it))) (arr_HBID it)).

Definition item_bytes (skip : UData_state_t -> bool) (it : mdItem_t) : list Z :=
  blocks_bytes it ++ be_bytes 4 (Z.of_nat (length (reps skip it))) ++ (reps skip it ≫= dn_bytes).

Definition report_bytes (skip : UData_state_t -> bool) (opcode vol reqID : Z) (its : list mdItem_t) : list Z :=
  be_bytes 8 MAGIC_NUM ++ be_bytes 2 opcode ++ be_bytes 8 vol ++ be_bytes 8 reqID ++
  be_bytes 4 (Z.of_nat (length its)) ++ (its ≫= item_bytes skip) ++ be_bytes 8 MAGIC_NUM.

(** A replica and an item within the arrays: at least one block, no more physical locations
    per replica than blocks. *)
Record dn_ok (n : Z) (d : metaD_DNLoc_t) : Prop := {
  do_num : 0 <= num_phyLocs d <= n;
  do_arr : num_phyLocs d <= Z.of_nat (length (rbid_len_offset d));
  do_rlo : Forall is_u64 (rbid_len_offset d);
}.

Record rit_ok (it : mdItem_t) : Prop := {
  ri_lbid : is_u64 (lbid_s (md_core it));
  ri_num : 1 <= num_hbids (md_core it);
  ri_arr : num_hbids (md_core it) <= Z.of_nat (length (arr_HBID it));
  ri_hbid : Forall is_u64 (arr_HBID it);
  ri_rep : 0 <= num_dnLoc (md_core it) <= MAX_NUM_REPLICA;
  ri_loc : num_dnLoc (md_core it) <= Z.of_nat (length (md_dnLoc it));
  ri_stat : num_dnLoc (md_core it) <= Z.of_nat (length (udata_dnLoc (md_core it)));
  ri_dn : Forall (dn_ok (num_hbids (md_core it))) (md_dnLoc it);
}.

Lemma emits_dnLoc n d : dn_ok n d -> emits (pack_dnLoc d) (dn_bytes d).
Proof.
  intros [H1 H2 H3]. unfold pack_dnLoc, dn_bytes. repeat apply emits_seq; [apply emits_ip|apply emits_u32..|].
  apply (emits_words (rbid_len_offset d) (Z.to_nat (num_phyLocs d)) 0); [done|lia].
Qed.

Lemma emits_blocks it : rit_ok it -> emits (pack_blocks it) (blocks_bytes it).
Proof.
  intros H. unfold pack_blocks, blocks_bytes. repeat apply emits_seq; [apply emits_u64, H|apply emits_u32|].
  apply (emits_words (arr_HBID it) (Z.to_nat (num_hbids (md_core it))) 0); [apply H|]. pose proof (ri_arr it H). lia.
Qed.

(** The loop over the replicas, from the [i]th one. *)
Lemma dnLocs_loop_spec skip it n i num (p : nat) buf :
  Forall (fun d => exists m, dn_ok m d) (md_dnLoc it) ->
  (i + n <= length (md_dnLoc it))%nat -> (i + n <= length (udata_dnLoc (md_core it)))%nat ->
  let rs := fst <$> filter (fun x => skip x.2 = false)
                      (take n (drop i (zip (md_dnLoc it) (udata_dnLoc (md_core it))))) in
  (p + length (rs ≫= dn_bytes) <= length buf)%nat ->
  dnLocs_loop skip n i it num (Z.of_nat p, buf) =
    Some (num + Z.of_nat (length rs), (Z.of_nat (p + length (rs ≫= dn_bytes)), put buf p (rs ≫= dn_bytes))).
Proof.
  intros Hd. revert i num p buf. induction n as [|n IH]; intros i num p buf H1 H2 rs Hp.
  { unfold rs. cbn. by rewrite put_nil, Z.add_0_r, Nat.add_0_r. }
  destruct (lookup_lt_is_Some_2 (md_dnLoc it) i) as [d Ed]; [lia|].
  destruct (lookup_lt_is_Some_2 (udata_dnLoc (md_core it)) i) as [st Es]; [lia|].
  cbn [dnLocs_loop]. rewrite Ed, Es. cbn [mbind option_bind].
  assert (zip (md_dnLoc it) (udata_dnLoc (md_core it)) !! i = Some (d, st)) as Ez
    by (apply lookup_zip_with_Some; eauto 10).
  unfold rs in *. rewrite (drop_S _ _ _ Ez) in *. cbn [take] in *. clear rs.
  destruct (skip st) eqn:Esk.
  - rewrite filter_cons_False in * by (simpl; congruence). apply IH; [lia..|done].
  - rewrite filter_cons_True in * by (simpl; congruence). rewrite fmap_cons, bind_cons in *. simpl fst in *.
    rewrite length_app in Hp. destruct (Forall_lookup_1 _ _ _ _ Hd Ed) as [m Hm].
    rewrite (emits_dnLoc m d Hm) by lia. cbn [mbind option_bind].
    rewrite IH by (rewrite ?length_put; lia). rewrite put_put by lia. rewrite length_app, length_cons.
    do 2 f_equal; [lia|]. f_equal. lia.
Qed.

Lemma dnLocs_spec skip it (p : nat) buf :
  rit_ok it -> (p + length (reps skip it ≫= dn_bytes) <= length buf)%nat ->
  dnLocs skip it (Z.of_nat p, buf) =
    Some (Z.of_nat (length (reps skip it)),
          (Z.of_nat (p + length (reps skip it ≫= dn_bytes)), put buf p (reps skip it ≫= dn_bytes))).
Proof.
  intros H Hp. pose proof (ri_loc it H). pose proof (ri_stat it H). pose proof (ri_rep it H). unfold dnLocs.
  rewrite dnLocs_loop_spec; [done| |lia|lia|done].
  eapply Forall_impl; [apply H|]. eauto.
Qed.

(** What is written before a part that is already there. *)
Lemma put_before l i d1 d2 : (i + length d1 + length d2 <= length l)%nat ->
  put (put l (i + length d1) d2) i d1 = put l i (d1 ++ d2).
Proof.
  intros H. unfold put. rewrite take_app_le, take_take by (rewrite length_take; lia).
  rewrite drop_app_ge by (rewrite length_take; lia). rewrite length_take, length_app, <- app_assoc.
  f_equal; [f_equal; lia|]. f_equal.
  replace (i + length d1 - (i + length d1) `min` length l)%nat with 0%nat by lia. rewrite drop_0. do 2 f_equal. lia.
Qed.

Ltac put_lia := repeat first [rewrite length_put by put_lia | rewrite length_app]; lia.

Definition wfail : UData_state_t -> bool := MData_chk_UDStatus_writefail.
Definition rgood (s : UData_state_t) : bool := negb (MData_chk_UDStatus_readfail s).

Lemma length_blocks_bytes it : rit_ok it -> Z.of_nat (length (blocks_bytes it)) = 12 + 8 * num_hbids (md_core it).
Proof.
  intros H. pose proof (ri_num it H). pose proof (ri_arr it H). unfold blocks_bytes.
  rewrite !length_app, !length_be_bytes, length_u64s, length_take. lia.
Qed.

Lemma Success_item_spec it (p : nat) buf :
  rit_ok it -> (p + length (item_bytes wfail it) <= length buf)%nat ->
  pack_Success_item it (Z.of_nat p, buf) =
    Some (Z.of_nat (p + length (item_bytes wfail it)), put buf p (item_bytes wfail it)).
Proof.
  intros Hok Hp. unfold pack_Success_item, item_bytes in *. set (B := blocks_bytes it) in *.
  set (N := be_bytes 4 (Z.of_nat (length (reps wfail it)))) in *. set (D := reps wfail it ≫= dn_bytes) in *.
  assert (length N = 4%nat) as HN by apply length_be_bytes. rewrite !length_app in Hp.
  rewrite (emits_blocks it Hok) by (fold B; lia). cbn [mbind option_bind]. fold B.
  replace (Z.of_nat (p + length B) + 4) with (Z.of_nat (p + length B + length N)) by lia.
  rewrite (dnLocs_spec _ it) by (done || (fold wfail; fold D; put_lia)). cbn [mbind option_bind]. fold wfail D.
  rewrite store_htonl. fold N. rewrite splice_put by put_lia. cbn [mbind option_bind].
  rewrite Nat2Z.id, put_before by put_lia. rewrite put_put by put_lia.
  rewrite !length_app. do 2 f_equal. lia.
Qed.

Lemma failLHO_spec it (p : nat) buf :
  rit_ok it -> (p + length (item_bytes rgood it) <= length buf)%nat ->
  pack_failLHO_pkt it (Z.of_nat p, buf) =
    Some (Z.of_nat (length (reps rgood it)),
          if decide (reps rgood it = []) then (Z.of_nat p, buf)
          else (Z.of_nat (p + length (item_bytes rgood it)), put buf p (item_bytes rgood it))).
Proof.
  intros Hok Hp. unfold pack_failLHO_pkt, item_bytes in *. pose proof (length_blocks_bytes it Hok) as HB.
  set (B := blocks_bytes it) in *. fold rgood.
  set (N := be_bytes 4 (Z.of_nat (length (reps rgood it)))) in *. set (D := reps rgood it ≫= dn_bytes) in *.
  assert (length N = 4%nat) as HN by apply length_be_bytes. rewrite !length_app in Hp.
  replace (Z.of_nat p + (8 + 4 + 8 * num_hbids (md_core it) + 4)) with (Z.of_nat (p + length (B ++ N)))
    by put_lia.
  rewrite (dnLocs_spec _ it) by (done || (fold D; put_lia)). cbn [mbind option_bind]. fold D.
  case_decide as Hr.
  - rewrite Hr. cbn. assert (D = []) as -> by (unfold D; by rewrite Hr). by rewrite put_nil.
  - assert (length (reps rgood it) <> 0%nat) by (by destruct (reps rgood it)).
    replace (Z.of_nat (length (reps rgood it)) >? 0) with true by lia.
    rewrite (emits_seq _ _ B N (emits_blocks it Hok) (emits_u32 _))
      by put_lia.
    cbn [mbind option_bind]. rewrite put_before by put_lia. rewrite <- app_assoc.
    rewrite !length_app. do 4 f_equal. lia.
Qed.

Lemma SuccessLHO_spec its num (p : nat) buf :
  Forall rit_ok its -> (p + length (its ≫= item_bytes wfail) <= length buf)%nat ->
  pack_SuccessLHO_pkt its num (Z.of_nat p, buf) =
    Some (num + Z.of_nat (length its),
          (Z.of_nat (p + length (its ≫= item_bytes wfail)), put buf p (its ≫= item_bytes wfail))).
Proof.
  intros Hok. revert num p buf. induction Hok as [|it its Hit _ IH]; intros num p buf Hp.
  { cbn. by rewrite put_nil, Z.add_0_r, Nat.add_0_r. }
  rewrite bind_cons, length_app in *. cbn [pack_SuccessLHO_pkt]. rewrite Success_item_spec by (done || lia).
  cbn [mbind option_bind]. rewrite IH by put_lia. rewrite put_put by lia.
  rewrite length_cons. f_equal; f_equal; [lia|f_equal; lia].
Qed.

(** The items with a replica on a broken disk. *)
Definition failed (its : list mdItem_t) : list mdItem_t := filter (fun it => reps rgood it <> []) its.

Lemma failLHO_items_spec its num (p : nat) buf :
  Forall rit_ok its -> (p + length (its ≫= item_bytes rgood) <= length buf)%nat ->
  failLHO_items its num (Z.of_nat p, buf) =
    Some (num + Z.of_nat (length (failed its)),
          (Z.of_nat (p + length (failed its ≫= item_bytes rgood)), put buf p (failed its ≫= item_bytes rgood))).
Proof.
  intros Hok. revert num p buf. induction Hok as [|it its Hit _ IH]; intros num p buf Hp.
  { cbn. by rewrite put_nil, Z.add_0_r, Nat.add_0_r. }
  rewrite bind_cons, length_app in Hp. cbn [failLHO_items]. rewrite failLHO_spec by (done || lia).
  cbn [mbind option_bind]. unfold failed in *. case_decide as Hr.
  - rewrite (filter_cons_False _ it its) by (by intros H). rewrite Hr. apply IH. lia.
  - rewrite (filter_cons_True _ it its) by done. rewrite bind_cons, length_app, length_cons.
    assert (length (reps rgood it) <> 0%nat) by (by destruct (reps rgood it)).
    replace (Z.of_nat (length (reps rgood it)) >? 0) with true by lia.
    assert (length (filter (fun it => reps rgood it <> []) its ≫= item_bytes rgood)
              <= length (its ≫= item_bytes rgood))%nat as Hle.
    { clear. induction its as [|x its IH]; [done|]. rewrite filter_cons. case_decide;
        rewrite ?bind_cons, ?length_app; lia. }
    rewrite IH by put_lia. rewrite put_put by lia. f_equal; f_equal; [lia|f_equal; lia].
Qed.

Lemma ciMDReq_hder_bytes opcode vol reqID n :
  is_u64 vol -> is_u64 reqID ->
  ciMDReq_hder opcode vol reqID n =
    be_bytes 8 MAGIC_NUM ++ be_bytes 2 opcode ++ be_bytes 8 vol ++ be_bytes 8 reqID ++ be_bytes 4 n.
Proof.
  intros H1 H2. unfold ciMDReq_hder, mnum_net_order.
  by rewrite !store_htonll, store_htons, store_htonl by (done || unfold is_u64; vm_compute; by split).
Qed.

(** The header in front of the items and the magic number behind them. *)
Lemma report_frame opcode vol reqID n (I : list Z) buf :
  is_u64 vol -> is_u64 reqID -> (38 + length I <= length buf)%nat ->
  (b ← splice (put buf 30 I) 0 (ciMDReq_hder opcode vol reqID n);
   b ← splice b (Z.of_nat (30 + length I)) (le_bytes 8 mnum_net_order);
   Some (Z.of_nat (30 + length I) + 8, b)) =
    Some (38 + Z.of_nat (length I),
          put buf 0 (be_bytes 8 MAGIC_NUM ++ be_bytes 2 opcode ++ be_bytes 8 vol ++ be_bytes 8 reqID ++
                     be_bytes 4 n ++ I ++ be_bytes 8 MAGIC_NUM)).
Proof.
  intros H1 H2 H. rewrite ciMDReq_hder_bytes by done. unfold mnum_net_order.
  rewrite store_htonll by (unfold is_u64; vm_compute; by split).
  set (M := be_bytes 8 MAGIC_NUM). set (H' := M ++ be_bytes 2 opcode ++ be_bytes 8 vol ++ be_bytes 8 reqID ++ be_bytes 4 n).
  assert (length M = 8%nat) as HM by apply length_be_bytes.
  assert (length H' = 30%nat) as HH by (unfold H'; by rewrite !length_app, !length_be_bytes).
  rewrite splice_put by put_lia. cbn [mbind option_bind]. change (Z.to_nat 0) with 0%nat.
  replace 30%nat with (0 + length H')%nat by lia. rewrite put_before by lia.
  rewrite splice_put by put_lia. cbn [mbind option_bind]. rewrite Nat2Z.id.
  replace (0 + length H' + length I)%nat with (0 + length (H' ++ I))%nat by put_lia. rewrite put_put by put_lia.
  rewrite length_app, HH. unfold H'. rewrite <- !app_assoc. do 2 f_equal. lia.
Qed.

(** ** Sizes *)

Lemma reps_sub skip it : rit_ok it -> (length (reps skip it) <= 3)%nat /\ Forall (dn_ok (num_hbids (md_core it))) (reps skip it).
Proof.
  intros H. unfold reps. split.
  - rewrite length_fmap. etrans; [apply length_filter|]. rewrite length_take. pose proof (ri_rep it H).
    change MAX_NUM_REPLICA with 3 in *. lia.
  - apply Forall_fmap, Forall_forall. intros [d s] Hin. apply list_elem_of_filter in Hin as [_ Hin].
    apply list_elem_of_lookup in Hin as [i Hi]. apply lookup_take_Some in Hi as [Hi _]. apply lookup_zip_with_Some in Hi as (d' & s' & E & Hd & _).
    injection E as -> ->. simpl. exact (Forall_lookup_1 _ _ _ _ (ri_dn it H) Hd).
Qed.

Lemma length_dn_bytes n d : dn_ok n d -> Z.of_nat (length (dn_bytes d)) <= 28 + 8 * n.
Proof.
  intros [H1 H2 _]. unfold dn_bytes. rewrite !length_app, length_ip_field, !length_be_bytes, length_u64s, length_take. lia.
Qed.

Lemma length_item_bytes skip it :
  rit_ok it -> Z.of_nat (length (item_bytes skip it)) <= 100 + 32 * num_hbids (md_core it).
Proof.
  intros H. destruct (reps_sub skip it H) as [Hl Hd]. unfold item_bytes. rewrite !length_app, length_be_bytes.
  pose proof (length_blocks_bytes it H). pose proof (ri_num it H).
  assert (Z.of_nat (length (reps skip it ≫= dn_bytes)) <= Z.of_nat (length (reps skip it)) * (28 + 8 * num_hbids (md_core it)));
    [|nia].
  clear Hl. induction Hd as [|d ds Hd _ IH]; [done|]. rewrite bind_cons, length_app, length_cons.
  pose proof (length_dn_bytes _ d Hd). lia.
Qed.

Definition num_blocks (its : list mdItem_t) : Z := foldr (fun it s => num_hbids (md_core it) + s) 0 its.

Lemma length_items_bytes skip its :
  Forall rit_ok its -> Z.of_nat (length (its ≫= item_bytes skip)) <= 132 * num_blocks its.
Proof.
  induction 1 as [|it its H _ IH]; [done|]. rewrite bind_cons, length_app. cbn [num_blocks foldr]. fold (num_blocks its).
  pose proof (length_item_bytes skip it H). pose proof (ri_num it H). lia.
Qed.

(** ** The packets *)

Lemma length_report_bytes skip opcode vol reqID its :
  Z.of_nat (length (report_bytes skip opcode vol reqID its)) = 38 + Z.of_nat (length (its ≫= item_bytes skip)).
Proof. unfold report_bytes. rewrite !length_app, !length_be_bytes. lia. Qed.

Lemma WriteIO_pkt_spec vol reqID its buf :
  Forall rit_ok its -> is_u64 vol -> is_u64 reqID -> 38 + 132 * num_blocks its <= Z.of_nat (length buf) ->
  let R := report_bytes wfail REQ_NN_REPORT_WRITEIO_RESULT vol reqID its in
  NNProto_gen_ciMDReq_WriteIO_pkt vol reqID its buf = Some (Z.of_nat (length R), put buf 0 R).
Proof.
  intros Hok Hv Hr Hl R. pose proof (length_items_bytes wfail its Hok). unfold R. rewrite length_report_bytes.
  unfold NNProto_gen_ciMDReq_WriteIO_pkt. change (SIZE_ciMDReq_hder - 8) with (Z.of_nat 30).
  rewrite SuccessLHO_spec by (done || lia). cbn [mbind option_bind]. apply report_frame; [done..|lia].
Qed.

Lemma ReadIO_pkt_spec vol reqID its buf :
  Forall rit_ok its -> is_u64 vol -> is_u64 reqID -> 38 + 132 * num_blocks its <= Z.of_nat (length buf) ->
  let R := report_bytes rgood REQ_NN_REPORT_READIO_RESULT vol reqID (failed its) in
  NNProto_gen_ciMDReq_ReadIO_pkt vol reqID (Some its) buf =
    Some (if decide (failed its = []) then (0, buf) else (Z.of_nat (length R), put buf 0 R)).
Proof.
  intros Hok Hv Hr Hl R. pose proof (length_items_bytes rgood its Hok) as Hb. unfold R. rewrite length_report_bytes.
  assert (Z.of_nat (length (failed its ≫= item_bytes rgood)) <= Z.of_nat (length (its ≫= item_bytes rgood))) as Hle.
  { clear. unfold failed. induction its as [|x its IH]; [done|]. rewrite filter_cons. case_decide;
      rewrite ?bind_cons, ?length_app; lia. }
  unfold NNProto_gen_ciMDReq_ReadIO_pkt. change (SIZE_ciMDReq_hder - 8) with (Z.of_nat 30). cbn [pack_MData_failLHO].
  rewrite failLHO_items_spec by (done || lia). cbn [mbind option_bind]. rewrite Z.add_0_l. case_decide as Hf.
  - rewrite Hf. cbn. by rewrite put_nil.
  - assert (length (failed its) <> 0%nat) by (by destruct (failed its)).
    replace (Z.of_nat (length (failed its)) >? 0) with true by lia. apply report_frame; [done..|lia].
Qed.

(** ** The senders *)

(** Nothing to report: the metadata is valid and every replica has the data. *)
Definition clean (it : mdItem_t) : bool :=
  bool_decide (mdata_stat it = MData_VALID) &&
  forallb (fun s => negb (wfail s)) (take (Z.to_nat (num_dnLoc (md_core it))) (udata_dnLoc (md_core it))).

Lemma write_fail_loop_spec it n i :
  (i + n <= length (udata_dnLoc (md_core it)))%nat ->
  write_fail_loop n i it = Some (negb (forallb (fun s => negb (wfail s)) (take n (drop i (udata_dnLoc (md_core it)))))).
Proof.
  revert i. induction n as [|n IH]; intros i H; [done|].
  destruct (lookup_lt_is_Some_2 (udata_dnLoc (md_core it)) i) as [s Es]; [lia|].
  cbn [write_fail_loop]. rewrite Es, (drop_S _ _ _ Es). cbn. fold wfail. destruct (wfail s); [done|].
  cbn. apply IH. lia.
Qed.

Lemma chk_write_fail_spec its :
  Forall rit_ok its -> _nnc_chk_write_fail its = Some (negb (forallb clean its)).
Proof.
  induction 1 as [|it its H _ IH]; [done|]. cbn [_nnc_chk_write_fail forallb]. unfold clean at 1.
  pose proof (ri_stat it H). pose proof (ri_rep it H). case_decide as Hs.
  - by rewrite bool_decide_false.
  - rewrite bool_decide_true by (destruct (mdata_stat it); naive_solver).
    rewrite write_fail_loop_spec by lia. rewrite drop_0. cbn [mbind option_bind andb].
    destruct (forallb _ (take _ _)); [done|]. done.
Qed.

Lemma report_buffer_spec sz mb mem :
  0 <= sz -> Z.of_nat (length mb) = MD_CI_BUFFER_SIZE ->
  report_buffer sz mb mem = Some None /\ (MD_CI_BUFFER_SIZE < sz /\ mem = false) \/
  exists b, report_buffer sz mb mem = Some (Some b) /\ sz <= Z.of_nat (length b) /\ ~ (MD_CI_BUFFER_SIZE < sz /\ mem = false).
Proof.
  intros Hs Hl. unfold report_buffer. destruct (sz >? MD_CI_BUFFER_SIZE) eqn:E.
  - destruct mem; [right|left; split; [done|split; [lia|done]]].
    eexists. split; [done|]. rewrite length_replicate. split; [lia|by intros [_ ?]].
  - right. rewrite splice_put by (rewrite ?length_replicate; lia). eexists. split; [done|].
    rewrite length_put by (rewrite ?length_replicate; lia). split; [lia|]. intros [? _]. lia.
Qed.

(** The size the senders reserve is enough for any report. *)
Lemma take_put_0 buf d : (length d <= length buf)%nat -> take (length d) (put buf 0 d) = d.
Proof. intros H. unfold put. by rewrite take_0, app_nil_l, take_app_length. Qed.

Record report_ok (q : report_req) (its : list mdItem_t) : Prop := {
  rp_items : rq_items q = Some its;
  rp_each : Forall rit_ok its;
  rp_len : num_blocks its <= rq_lbid_len q;
  rp_vol : is_u64 (rq_volumeID q);
  rp_id : is_u64 (rq_ReqID q);
}.

Definition inval_call (q : report_req) : report_call := Inval_LBID (rq_volumeID q) (rq_lbid_start q) (rq_lbid_len q).

Lemma num_blocks_pos its : Forall rit_ok its -> 0 <= num_blocks its.
Proof. induction 1 as [|it its H _ IH]; [done|]. pose proof (ri_num it H). unfold num_blocks in *. cbn. lia. Qed.

(** After a write the namenode learns exactly which replicas have the data.  For metadata
    within its arrays, nothing is sent when every item is valid and every replica has
    acknowledged; otherwise the blocks are first invalidated in the metadata cache, then
    one packet is sent that holds, for every item, its blocks and exactly the replicas
    with a successful write, in the format of the namenode; no write leaves the buffer, whose size is
    computed from the number of blocks.  Only when that is too large for the buffer of the
    client and no memory is available, nothing is sent and the error is returned. *)
Theorem reportMD_write_exact (q : report_req) (its : list mdItem_t) (message_buffer : list Z) (mem : bool) :
  report_ok q its -> Z.of_nat (length message_buffer) = MD_CI_BUFFER_SIZE ->
  NNClient_reportMD_writeErr q message_buffer mem =
    Some (if forallb clean its then (0, [])
          else if decide (MD_CI_BUFFER_SIZE < 38 + 140 * rq_lbid_len q /\ mem = false) then (- ENOMEM, [inval_call q])
          else let '(ret, calls) := _nnc_send_MDReport_packet (rq_conn q)
                 (report_bytes wfail REQ_NN_REPORT_WRITEIO_RESULT (rq_volumeID q) (rq_ReqID q) its) in
               (ret, inval_call q :: calls)).
Proof.
  intros [Hi Hok Hl Hv Hr] Hb. unfold NNClient_reportMD_writeErr. rewrite Hi, chk_write_fail_spec by done.
  cbn [mbind option_bind]. destruct (forallb clean its); [done|]. cbn [negb]. pose proof (num_blocks_pos its Hok).
  change (SIZE_ciMDReq_hder + (8 + 4 + 8 + (SIZE_dnLoc_pkt + 8) * MAX_NUM_REPLICA) * rq_lbid_len q)
    with (38 + 140 * rq_lbid_len q).
  destruct (report_buffer_spec (38 + 140 * rq_lbid_len q) message_buffer mem) as [[-> Hn]|(b & -> & Hsz & Hn)];
    [lia|done|by rewrite decide_True|].
  rewrite decide_False by done. cbn [mbind option_bind]. rewrite WriteIO_pkt_spec by (done || lia). cbn [mbind option_bind].
  pose proof (length_report_bytes wfail REQ_NN_REPORT_WRITEIO_RESULT (rq_volumeID q) (rq_ReqID q) its).
  pose proof (length_items_bytes wfail its Hok).
  set (R := report_bytes _ _ _ _ _) in *. replace (Z.of_nat (length R) >? 0) with true by lia.
  rewrite Nat2Z.id, take_put_0 by lia. by destruct (_nnc_send_MDReport_packet (rq_conn q) R).
Qed.

(** After a read the namenode learns exactly which replicas have a broken disk.  The blocks
    are invalidated in the metadata cache; then, when there are any, one packet is sent
    with exactly the items and replicas that reported a disk failure, within the buffer; the
    result of the transmission is not returned. *)
Theorem reportMD_read_exact (q : report_req) (its : list mdItem_t) (message_buffer : list Z) (mem : bool) :
  report_ok q its -> Z.of_nat (length message_buffer) = MD_CI_BUFFER_SIZE ->
  NNClient_reportMD_readErr false q message_buffer mem =
    Some (if decide (MD_CI_BUFFER_SIZE < 38 + 144 * rq_lbid_len q /\ mem = false) then (- ENOMEM, [inval_call q])
          else (0, inval_call q ::
                   if decide (failed its = []) then []
                   else (_nnc_send_MDReport_packet (rq_conn q)
                           (report_bytes rgood REQ_NN_REPORT_READIO_RESULT (rq_volumeID q) (rq_ReqID q) (failed its))).2)).
Proof.
  intros [Hi Hok Hl Hv Hr] Hb. unfold NNClient_reportMD_readErr. pose proof (num_blocks_pos its Hok).
  change (SIZE_ciMDReq_hder + (8 + 4 + 8 + 4 + (SIZE_dnLoc_pkt + 8) * MAX_NUM_REPLICA) * rq_lbid_len q)
    with (38 + 144 * rq_lbid_len q).
  destruct (report_buffer_spec (38 + 144 * rq_lbid_len q) message_buffer mem) as [[-> Hn]|(b & -> & Hsz & Hn)];
    [lia|done|by rewrite decide_True|].
  rewrite (decide_False (P := _ /\ _)) by done. cbn [mbind option_bind]. rewrite Hi, ReadIO_pkt_spec by (done || lia).
  cbn [mbind option_bind]. case_decide as Hf; [done|].
  pose proof (length_report_bytes rgood REQ_NN_REPORT_READIO_RESULT (rq_volumeID q) (rq_ReqID q) (failed its)).
  assert (Forall rit_ok (failed its)) as Hokf 
    by (apply Forall_forall; intros x Hx; apply list_elem_of_filter in Hx as [_ Hx]; rewrite Forall_forall in Hok; auto).
  pose proof (length_items_bytes rgood (failed its) Hokf).
  assert (num_blocks (failed its) <= num_blocks its).
  { clear -Hok. unfold failed. induction Hok as [|x its Hx _ IH]; [done|]. pose proof (ri_num x Hx). rewrite filter_cons.
    case_decide; unfold num_blocks in *; cbn [foldr]; lia. }
  set (R := report_bytes _ _ _ _ _) in *. cbn [NNProto_show_ciMDReq_WriteIO_pkt mbind option_bind].
  replace (Z.of_nat (length R) >? 0) with true by lia. by rewrite Nat2Z.id, take_put_0 by lia.
Qed.

(** *** Examples *)

Definition ex_dn (ip : Z) : metaD_DNLoc_t :=
  {| dl_ipaddr := ip; dl_port := 20100; rbid_len_offset := [0x0000000700200003; 0x0000000700200013]; num_phyLocs := 1 |}.
Definition ex_item (st : list UData_state_t) : mdItem_t :=
  {| md_core := set_dnLoc st (MData_init_MDItem 100 2 2 false false false); mdata_stat := MData_VALID;
     arr_HBID := [0x0a0b; 0x0a0c]; md_dnLoc := [ex_dn 0x0100000a; ex_dn 0x0200000a] |}.
Definition ex_conn : report_conn := {| rc_up := true; rc_selftest := false; rc_tx_send m := Z.of_nat (length m) |}.
Definition ex_req (st : list UData_state_t) : report_req :=
  {| rq_volumeID := 7; rq_lbid_start := 100; rq_lbid_len := 2; rq_ReqID := 55; rq_items := Some [ex_item st];
     rq_conn := Some ex_conn |}.

Lemma ex_req_ok st : length st = 2%nat -> report_ok (ex_req st) [ex_item st].
Proof.
  intros Hst. split; [done| |done|unfold is_u64; cbn; lia..]. constructor; [|done].
  split; cbn; rewrite ?Hst; unfold is_u64, MAX_NUM_REPLICA; try lia; repeat constructor; cbn; unfold is_u64; lia.
Qed.

(** One of two replicas has the data: the packet names that one. *)
Lemma reportMD_write_exact_witness :
  NNClient_reportMD_writeErr (ex_req [UData_S_WRITE_OK; UData_S_WRITE_FAIL]) (replicate (Z.to_nat 8192) 0) true =
    Some (0, [Inval_LBID 7 100 2;
              Tx_send (report_bytes wfail REQ_NN_REPORT_WRITEIO_RESULT 7 55 [ex_item [UData_S_WRITE_OK; UData_S_WRITE_FAIL]])]) /\
  reps wfail (ex_item [UData_S_WRITE_OK; UData_S_WRITE_FAIL]) = [ex_dn 0x0100000a].
Proof.
  split; [|reflexivity]. rewrite (reportMD_write_exact _ _ _ _ (ex_req_ok [UData_S_WRITE_OK; UData_S_WRITE_FAIL] eq_refl))
    by (rewrite length_replicate; reflexivity).
  cbn [rq_conn ex_req _nnc_send_MDReport_packet rc_up ex_conn rc_selftest rc_tx_send]. rewrite Z.eqb_refl. reflexivity.
Defined.

(** The second replica has a broken disk: the packet names that one. *)
Lemma reportMD_read_exact_witness :
  NNClient_reportMD_readErr false (ex_req [UData_S_READ_OK; UData_S_DISK_FAILURE]) (replicate (Z.to_nat 8192) 0) true =
    Some (0, [Inval_LBID 7 100 2;
              Tx_send (report_bytes rgood REQ_NN_REPORT_READIO_RESULT 7 55 [ex_item [UData_S_READ_OK; UData_S_DISK_FAILURE]])]) /\
  reps rgood (ex_item [UData_S_READ_OK; UData_S_DISK_FAILURE]) = [ex_dn 0x0200000a].
Proof.
  split; [|reflexivity]. rewrite (reportMD_read_exact _ _ _ _ (ex_req_ok [UData_S_READ_OK; UData_S_DISK_FAILURE] eq_refl))
    by (rewrite length_replicate; reflexivity).
  cbn [rq_conn ex_req _nnc_send_MDReport_packet rc_up ex_conn rc_selftest rc_tx_send]. rewrite Z.eqb_refl. reflexivity.
Defined.

(** With debug messages on the report of a read is printed before it is sent.  The printer takes the
    address field for 16 bytes where 20 were written, so that it reads the port as the
    number of physical locations: it runs out of the buffer. *)
Theorem reportMD_read_debug_overrun :
  NNClient_reportMD_readErr true (ex_req [UData_S_READ_OK; UData_S_DISK_FAILURE]) (replicate (Z.to_nat 8192) 0) true = None.
Proof. vm_compute. reflexivity. Qed.
