(* ===== verification/Buckets.v ===== *)
(** * Buckets: hash tables of linked lists

    The request pool and the worker queues of the namenode client (discoC_NNMDReqPool.c, discoC_NNC_worker.c) are arrays of
    doubly linked lists; an element is added to the end of the list its key selects and removed through its own links,
    wherever it is.  The lists hold addresses. *)

From S2P Require Import Prelude.

Abbreviation buckets := (list (list Z)).

(** [list_add_tail(entry, &table[i])]; an index outside of the array is the caller's fault. *)
Definition bk_add (i : Z) (p : Z) (L : buckets) : option buckets :=
  if 0 <=? i then l ← L !! Z.to_nat i; Some (<[Z.to_nat i := l ++ [p]]> L) else None.

(** [list_del(entry)]; an element that is in no list has no links to follow. *)
Definition bk_del (p : Z) (L : buckets) : option buckets :=
  if bool_decide (p ∈ concat L) then Some (filter (fun q => q <> p) <$> L) else None.

Definition bk_get (i : Z) (L : buckets) : option (list Z) := if 0 <=? i then L !! Z.to_nat i else None.

Lemma bk_add_some i p L :
  0 <= i < Z.of_nat (length L) ->
  exists L' l, bk_add i p L = Some L' /\ bk_get i L = Some l /\ length L' = length L /\ concat L' ≡ₚ p :: concat L /\
    (forall j, bk_get j L' = if decide (j = i) then Some (l ++ [p]) else bk_get j L).
Proof.
  intros Hi. destruct (lookup_lt_is_Some_2 L (Z.to_nat i)) as [l Hl]; [lia|]. unfold bk_add, bk_get. rewrite (proj2 (Z.leb_le 0 i)) by lia. rewrite Hl.
  exists (<[Z.to_nat i := l ++ [p]]> L), l. cbn. split_and!; try done; [by rewrite length_insert| |].
  - rewrite <- (take_drop_middle L (Z.to_nat i) l Hl) at 2. rewrite insert_take_drop by lia. rewrite !concat_app, !concat_cons.
    rewrite <- app_assoc. cbn [app]. rewrite <- !Permutation_middle. done.
  - intros j. case_decide as Hj; [subst j|].
    + rewrite (proj2 (Z.leb_le 0 i)) by lia. rewrite list_lookup_insert_eq by lia. done.
    + destruct (0 <=? j) eqn:E; [|done]. zbool. rewrite list_lookup_insert_ne by lia. done.
Qed.

Lemma concat_filter (p : Z) (L : buckets) : concat (filter (fun q => q <> p) <$> L) = filter (fun q => q <> p) (concat L).
Proof. induction L as [|l L IH]; [done|]. cbn [fmap list_fmap concat]. by rewrite filter_app, IH. Qed.

Lemma filter_absent (p : Z) (l : list Z) : p ∉ l -> filter (fun q => q <> p) l = l.
Proof.
  induction l as [|q l IH]; intros H; [done|]. apply not_elem_of_cons in H as [Hq Hl]. rewrite filter_cons, decide_True by done. by rewrite IH.
Qed.

Lemma filter_remove (p : Z) (l : list Z) : NoDup l -> p ∈ l -> l ≡ₚ p :: filter (fun q => q <> p) l.
Proof.
  induction 1 as [|q l Hq Hl IH]; intros Hp; [by apply not_elem_of_nil in Hp|]. rewrite filter_cons. destruct (decide (q = p)) as [->|Hne].
  - rewrite decide_False by (intros H; by apply H). by rewrite filter_absent.
  - rewrite decide_True by done. apply elem_of_cons in Hp as [->|Hp]; [done|]. rewrite IH at 1 by done. apply Permutation_swap.
Qed.

Lemma bk_del_some p L :
  NoDup (concat L) -> p ∈ concat L ->
  exists L', bk_del p L = Some L' /\ length L' = length L /\ concat L ≡ₚ p :: concat L' /\
    (forall j, bk_get j L' = filter (fun q => q <> p) <$> bk_get j L).
Proof.
  intros Hn Hp. unfold bk_del. rewrite bool_decide_true by done. eexists. split; [done|]. split; [by rewrite length_fmap|]. split.
  - rewrite concat_filter. by apply filter_remove.
  - intros j. unfold bk_get. destruct (0 <=? j); [|done]. by rewrite list_lookup_fmap.
Qed.

Lemma elem_concat (p : Z) (L : buckets) : p ∈ concat L <-> exists i l, bk_get i L = Some l /\ p ∈ l.
Proof.
  assert (p ∈ concat L <-> exists l, p ∈ l /\ l ∈ L) as ->.
  { induction L as [|l L IH]; cbn [concat].
    - split; [intros H; by apply not_elem_of_nil in H|intros (l & _ & H); by apply not_elem_of_nil in H].
    - rewrite elem_of_app, IH. setoid_rewrite elem_of_cons. naive_solver. }
  split.
  - intros (l & Hp & Hl). apply list_elem_of_lookup in Hl as [i Hi]. exists (Z.of_nat i), l. unfold bk_get.
    rewrite (proj2 (Z.leb_le _ _)), Nat2Z.id by lia. done.
  - intros (i & l & Hi & Hp). unfold bk_get in Hi. destruct (0 <=? i); [|done]. exists l. split; [done|]. by eapply list_elem_of_lookup_2.
Qed.
