(* ===== verification/IOSegReq.v ===== *)
(** * IOSegReq: the requests for the segments of an IO request

    Translation of io_manager/discoC_IOSegment_Request.c, of the callbacks in
    io_manager/discoC_ioSegReq_mdata_cbfn.c and discoC_ioSegReq_udata_cbfn.c, and of
    io_manager/discoC_IOSegLeaf_Request.c (without pre-allocation of space, a compile-time
    option that is off).  A segment acquires the metadata of its blocks, moves the user
    data with one payload request per metadata item, and tells its IO request the result;
    a write that does not cover whole blocks first reads them.  When a datanode says that
    the metadata are outdated, the blocks concerned are read again one by one by leaf
    requests with fresh metadata.

    The state holds the segment, the counters of the IO request it shares with the other
    segments, the payload requests and leaf requests on their way with the callbacks they
    were given, and the calls made to other components.  [sg_inval] is the rest of the loop
    of [_invalMD_IODone_Proc], whose turns interleave with the callbacks.  Time stamps for
    statistics are left out. *)

From S2P Require Import Prelude CommonUtil Fsm IOSegReqFsm MDataCommit MDItems NNProto NNReport IOReqOvlp.

Inductive ciMDS_opCode_t : Type :=
| CI_MDS_OP_REPORT_NONE
| CI_MDS_OP_REPORT_SUCCESS
| CI_MDS_OP_REPORT_FAILURE.

#[global] Instance ciMDS_opCode_t_eq_dec : EqDecision ciMDS_opCode_t.
Proof. solve_decision. Defined.

Inductive IOSegR_fea_t : Type :=
| IOSegR_FEA_NON_4KALIGN
| IOSegR_FEA_OVW
| IOSegR_FEA_MDCacheH
| IOSegR_FEA_HBID_MISMATCH
| IOSegR_FEA_CIUSER
| IOSegR_FEA_TrueProc.

Definition IOSegR_fea_num (f : IOSegR_fea_t) : Z :=
  match f with
  | IOSegR_FEA_NON_4KALIGN => 0
  | IOSegR_FEA_OVW => 1
  | IOSegR_FEA_MDCacheH => 2
  | IOSegR_FEA_HBID_MISMATCH => 3
  | IOSegR_FEA_CIUSER => 4
  | IOSegR_FEA_TrueProc => 5
  end.

(** [sr_MData]: the metadata array, [None] for NULL; [userLB_state]: NUM_BYTES_MAX_LB bytes
    as one number. *)
Record ioSeg_req_t : Type := {
  sr_addr : UserIO_addr_t;
  sr_ReqOPCode : iorw_dir_t;
  sr_fea : Z;
  sr_stat : IOSegReq_fsm_t;
  mdata_opcode : Z;
  io_dir_true : iorw_dir_t;
  sr_MData : option (list mdItem_t);
  num_invalMD_items : Z;
  sr_payload_offset : Z;
  ciUser_result : bool;
  ciMDS_status : ciMDS_opCode_t;
  ciUser_remainLB : Z;
  ciMDS_remainLB : Z;
  userLB_state : Z;
  num_pReq : Z;
  num_leaf_ioSR : Z;
}.

Definition set_sr_OPCode (x0 : iorw_dir_t) (r : ioSeg_req_t) : ioSeg_req_t :=
  {| sr_addr := sr_addr r; sr_ReqOPCode := x0; sr_fea := sr_fea r; sr_stat := sr_stat r; mdata_opcode :=
     mdata_opcode r; io_dir_true := io_dir_true r; sr_MData := sr_MData r; num_invalMD_items :=
     num_invalMD_items r; sr_payload_offset := sr_payload_offset r; ciUser_result := ciUser_result r;
     ciMDS_status := ciMDS_status r; ciUser_remainLB := ciUser_remainLB r; ciMDS_remainLB := ciMDS_remainLB r;
     userLB_state := userLB_state r; num_pReq := num_pReq r; num_leaf_ioSR := num_leaf_ioSR r |}.

Definition set_sr_fea (x0 : Z) (r : ioSeg_req_t) : ioSeg_req_t :=
  {| sr_addr := sr_addr r; sr_ReqOPCode := sr_ReqOPCode r; sr_fea := x0; sr_stat := sr_stat r; mdata_opcode :=
     mdata_opcode r; io_dir_true := io_dir_true r; sr_MData := sr_MData r; num_invalMD_items :=
     num_invalMD_items r; sr_payload_offset := sr_payload_offset r; ciUser_result := ciUser_result r;
     ciMDS_status := ciMDS_status r; ciUser_remainLB := ciUser_remainLB r; ciMDS_remainLB := ciMDS_remainLB r;
     userLB_state := userLB_state r; num_pReq := num_pReq r; num_leaf_ioSR := num_leaf_ioSR r |}.

Definition set_sr_stat (x0 : IOSegReq_fsm_t) (r : ioSeg_req_t) : ioSeg_req_t :=
  {| sr_addr := sr_addr r; sr_ReqOPCode := sr_ReqOPCode r; sr_fea := sr_fea r; sr_stat := x0; mdata_opcode :=
     mdata_opcode r; io_dir_true := io_dir_true r; sr_MData := sr_MData r; num_invalMD_items :=
     num_invalMD_items r; sr_payload_offset := sr_payload_offset r; ciUser_result := ciUser_result r;
     ciMDS_status := ciMDS_status r; ciUser_remainLB := ciUser_remainLB r; ciMDS_remainLB := ciMDS_remainLB r;
     userLB_state := userLB_state r; num_pReq := num_pReq r; num_leaf_ioSR := num_leaf_ioSR r |}.

Definition set_mdata_opcode (x0 : Z) (r : ioSeg_req_t) : ioSeg_req_t :=
  {| sr_addr := sr_addr r; sr_ReqOPCode := sr_ReqOPCode r; sr_fea := sr_fea r; sr_stat := sr_stat r;
     mdata_opcode := x0; io_dir_true := io_dir_true r; sr_MData := sr_MData r; num_invalMD_items :=
     num_invalMD_items r; sr_payload_offset := sr_payload_offset r; ciUser_result := ciUser_result r;
     ciMDS_status := ciMDS_status r; ciUser_remainLB := ciUser_remainLB r; ciMDS_remainLB := ciMDS_remainLB r;
     userLB_state := userLB_state r; num_pReq := num_pReq r; num_leaf_ioSR := num_leaf_ioSR r |}.

Definition set_MData (x0 : option (list mdItem_t)) (x1 : Z) (r : ioSeg_req_t) : ioSeg_req_t :=
  {| sr_addr := sr_addr r; sr_ReqOPCode := sr_ReqOPCode r; sr_fea := sr_fea r; sr_stat := sr_stat r;
     mdata_opcode := mdata_opcode r; io_dir_true := io_dir_true r; sr_MData := x0; num_invalMD_items := x1;
     sr_payload_offset := sr_payload_offset r; ciUser_result := ciUser_result r; ciMDS_status := ciMDS_status
     r; ciUser_remainLB := ciUser_remainLB r; ciMDS_remainLB := ciMDS_remainLB r; userLB_state := userLB_state
     r; num_pReq := num_pReq r; num_leaf_ioSR := num_leaf_ioSR r |}.

Definition set_sr_offset (x0 : Z) (r : ioSeg_req_t) : ioSeg_req_t :=
  {| sr_addr := sr_addr r; sr_ReqOPCode := sr_ReqOPCode r; sr_fea := sr_fea r; sr_stat := sr_stat r;
     mdata_opcode := mdata_opcode r; io_dir_true := io_dir_true r; sr_MData := sr_MData r; num_invalMD_items
     := num_invalMD_items r; sr_payload_offset := x0; ciUser_result := ciUser_result r; ciMDS_status :=
     ciMDS_status r; ciUser_remainLB := ciUser_remainLB r; ciMDS_remainLB := ciMDS_remainLB r; userLB_state :=
     userLB_state r; num_pReq := num_pReq r; num_leaf_ioSR := num_leaf_ioSR r |}.

Definition set_ciUser_result (x0 : bool) (r : ioSeg_req_t) : ioSeg_req_t :=
  {| sr_addr := sr_addr r; sr_ReqOPCode := sr_ReqOPCode r; sr_fea := sr_fea r; sr_stat := sr_stat r;
     mdata_opcode := mdata_opcode r; io_dir_true := io_dir_true r; sr_MData := sr_MData r; num_invalMD_items
     := num_invalMD_items r; sr_payload_offset := sr_payload_offset r; ciUser_result := x0; ciMDS_status :=
     ciMDS_status r; ciUser_remainLB := ciUser_remainLB r; ciMDS_remainLB := ciMDS_remainLB r; userLB_state :=
     userLB_state r; num_pReq := num_pReq r; num_leaf_ioSR := num_leaf_ioSR r |}.

Definition set_ciMDS_status (x0 : ciMDS_opCode_t) (r : ioSeg_req_t) : ioSeg_req_t :=
  {| sr_addr := sr_addr r; sr_ReqOPCode := sr_ReqOPCode r; sr_fea := sr_fea r; sr_stat := sr_stat r;
     mdata_opcode := mdata_opcode r; io_dir_true := io_dir_true r; sr_MData := sr_MData r; num_invalMD_items
     := num_invalMD_items r; sr_payload_offset := sr_payload_offset r; ciUser_result := ciUser_result r;
     ciMDS_status := x0; ciUser_remainLB := ciUser_remainLB r; ciMDS_remainLB := ciMDS_remainLB r;
     userLB_state := userLB_state r; num_pReq := num_pReq r; num_leaf_ioSR := num_leaf_ioSR r |}.

Definition set_ciUser_remainLB (x0 : Z) (r : ioSeg_req_t) : ioSeg_req_t :=
  {| sr_addr := sr_addr r; sr_ReqOPCode := sr_ReqOPCode r; sr_fea := sr_fea r; sr_stat := sr_stat r;
     mdata_opcode := mdata_opcode r; io_dir_true := io_dir_true r; sr_MData := sr_MData r; num_invalMD_items
     := num_invalMD_items r; sr_payload_offset := sr_payload_offset r; ciUser_result := ciUser_result r;
     ciMDS_status := ciMDS_status r; ciUser_remainLB := x0; ciMDS_remainLB := ciMDS_remainLB r; userLB_state
     := userLB_state r; num_pReq := num_pReq r; num_leaf_ioSR := num_leaf_ioSR r |}.

Definition set_ciMDS_remainLB (x0 : Z) (r : ioSeg_req_t) : ioSeg_req_t :=
  {| sr_addr := sr_addr r; sr_ReqOPCode := sr_ReqOPCode r; sr_fea := sr_fea r; sr_stat := sr_stat r;
     mdata_opcode := mdata_opcode r; io_dir_true := io_dir_true r; sr_MData := sr_MData r; num_invalMD_items
     := num_invalMD_items r; sr_payload_offset := sr_payload_offset r; ciUser_result := ciUser_result r;
     ciMDS_status := ciMDS_status r; ciUser_remainLB := ciUser_remainLB r; ciMDS_remainLB := x0; userLB_state
     := userLB_state r; num_pReq := num_pReq r; num_leaf_ioSR := num_leaf_ioSR r |}.

Definition set_userLB_state (x0 : Z) (r : ioSeg_req_t) : ioSeg_req_t :=
  {| sr_addr := sr_addr r; sr_ReqOPCode := sr_ReqOPCode r; sr_fea := sr_fea r; sr_stat := sr_stat r;
     mdata_opcode := mdata_opcode r; io_dir_true := io_dir_true r; sr_MData := sr_MData r; num_invalMD_items
     := num_invalMD_items r; sr_payload_offset := sr_payload_offset r; ciUser_result := ciUser_result r;
     ciMDS_status := ciMDS_status r; ciUser_remainLB := ciUser_remainLB r; ciMDS_remainLB := ciMDS_remainLB r;
     userLB_state := x0; num_pReq := num_pReq r; num_leaf_ioSR := num_leaf_ioSR r |}.

Definition set_num_pReq (x0 : Z) (r : ioSeg_req_t) : ioSeg_req_t :=
  {| sr_addr := sr_addr r; sr_ReqOPCode := sr_ReqOPCode r; sr_fea := sr_fea r; sr_stat := sr_stat r;
     mdata_opcode := mdata_opcode r; io_dir_true := io_dir_true r; sr_MData := sr_MData r; num_invalMD_items
     := num_invalMD_items r; sr_payload_offset := sr_payload_offset r; ciUser_result := ciUser_result r;
     ciMDS_status := ciMDS_status r; ciUser_remainLB := ciUser_remainLB r; ciMDS_remainLB := ciMDS_remainLB r;
     userLB_state := userLB_state r; num_pReq := x0; num_leaf_ioSR := num_leaf_ioSR r |}.

Definition set_num_leaf (x0 : Z) (r : ioSeg_req_t) : ioSeg_req_t :=
  {| sr_addr := sr_addr r; sr_ReqOPCode := sr_ReqOPCode r; sr_fea := sr_fea r; sr_stat := sr_stat r;
     mdata_opcode := mdata_opcode r; io_dir_true := io_dir_true r; sr_MData := sr_MData r; num_invalMD_items
     := num_invalMD_items r; sr_payload_offset := sr_payload_offset r; ciUser_result := ciUser_result r;
     ciMDS_status := ciMDS_status r; ciUser_remainLB := ciUser_remainLB r; ciMDS_remainLB := ciMDS_remainLB r;
     userLB_state := userLB_state r; num_pReq := num_pReq r; num_leaf_ioSR := x0 |}.

Definition NUM_BYTES_MAX_LB : Z := (MAX_LBS_PER_IOR + 7) / 8.

(** A payload request of the segment: its blocks, and whose callbacks it calls.  A write has
    told its user result or not yet.  [CB_Freed]: the request was freed and its entry is
    still linked. *)
Inductive seg_cb : Type :=
| CB_Read
| CB_PartialW_Read
| CB_Write (told : bool)
| CB_Freed.

Record seg_pl : Type := {
  pl_item : nat;
  pl_lb : Z;
  pl_len : Z;
  pl_off : Z;
  pl_cb : seg_cb;
}.

Definition set_pl_cb (cb : seg_cb) (p : seg_pl) : seg_pl :=
  {| pl_item := pl_item p; pl_lb := pl_lb p; pl_len := pl_len p; pl_off := pl_off p; pl_cb := cb |}.

(** A leaf request: its block, its user result, how often its metadata were asked for
    without an answer yet, and the payload requests on their way. *)
Record seg_leaf : Type := {
  lf_lb : Z;
  lf_result : bool;
  lf_waiting : Z;
  lf_reading : Z;
}.

Inductive seg_call : Type :=
| C_acquire_metadata (opcode : iorw_dir_t) (cache_hit ovw hbid_err : bool)
| C_leaf_acquire_metadata (lb : Z)
| C_report_metadata (opcode : iorw_dir_t) (cache_hit ovw hbid_err : bool)
| C_set_ovw (lb_s lb_len : Z)
| C_cpData_bio (lb_s lb_len payload_off : Z)
| C_cpData_wbuff (lb_s lb_len payload_off : Z)
| C_zero2bio (lb_s lb_len : Z)
| C_read_payload (lb_s lb_len payload_off : Z)
| C_write_payload (lb_s lb_len payload_off : Z)
| C_ioReq_commit_user (result : bool)
| C_ioReq_IODone (num_LBs : Z)
| C_ioReq_MDReport (num_LBs : Z).

#[global] Instance seg_call_eq_dec : EqDecision seg_call.
Proof. solve_decision. Defined.

(** [sg_mem]: the answers of the allocators ([true] when exhausted). *)
Record seg_world : Type := {
  sg_req : ioSeg_req_t;
  sg_ioResult : bool;
  sg_io_ciUser_remainLB : Z;
  sg_pl : list seg_pl;
  sg_leaves : list seg_leaf;
  sg_inval : option (nat * nat * Z);
  sg_mem : list bool;
  sg_calls : list seg_call;
}.

Definition set_sg_req (x0 : ioSeg_req_t) (w : seg_world) : seg_world :=
  {| sg_req := x0; sg_ioResult := sg_ioResult w; sg_io_ciUser_remainLB := sg_io_ciUser_remainLB w; sg_pl :=
     sg_pl w; sg_leaves := sg_leaves w; sg_inval := sg_inval w; sg_mem := sg_mem w; sg_calls := sg_calls w |}.

Definition set_sg_io (x0 : bool) (x1 : Z) (w : seg_world) : seg_world :=
  {| sg_req := sg_req w; sg_ioResult := x0; sg_io_ciUser_remainLB := x1; sg_pl := sg_pl w; sg_leaves :=
     sg_leaves w; sg_inval := sg_inval w; sg_mem := sg_mem w; sg_calls := sg_calls w |}.

Definition set_sg_pl (x0 : list seg_pl) (w : seg_world) : seg_world :=
  {| sg_req := sg_req w; sg_ioResult := sg_ioResult w; sg_io_ciUser_remainLB := sg_io_ciUser_remainLB w; sg_pl
     := x0; sg_leaves := sg_leaves w; sg_inval := sg_inval w; sg_mem := sg_mem w; sg_calls := sg_calls w |}.

Definition set_sg_leaves (x0 : list seg_leaf) (w : seg_world) : seg_world :=
  {| sg_req := sg_req w; sg_ioResult := sg_ioResult w; sg_io_ciUser_remainLB := sg_io_ciUser_remainLB w; sg_pl
     := sg_pl w; sg_leaves := x0; sg_inval := sg_inval w; sg_mem := sg_mem w; sg_calls := sg_calls w |}.

Definition set_sg_inval (x0 : option (nat * nat * Z)) (w : seg_world) : seg_world :=
  {| sg_req := sg_req w; sg_ioResult := sg_ioResult w; sg_io_ciUser_remainLB := sg_io_ciUser_remainLB w; sg_pl
     := sg_pl w; sg_leaves := sg_leaves w; sg_inval := x0; sg_mem := sg_mem w; sg_calls := sg_calls w |}.

Definition set_sg_mem (x0 : list bool) (w : seg_world) : seg_world :=
  {| sg_req := sg_req w; sg_ioResult := sg_ioResult w; sg_io_ciUser_remainLB := sg_io_ciUser_remainLB w; sg_pl
     := sg_pl w; sg_leaves := sg_leaves w; sg_inval := sg_inval w; sg_mem := x0; sg_calls := sg_calls w |}.

Definition set_sg_calls (x0 : list seg_call) (w : seg_world) : seg_world :=
  {| sg_req := sg_req w; sg_ioResult := sg_ioResult w; sg_io_ciUser_remainLB := sg_io_ciUser_remainLB w; sg_pl
     := sg_pl w; sg_leaves := sg_leaves w; sg_inval := sg_inval w; sg_mem := sg_mem w; sg_calls := x0 |}.

Abbreviation sg := (thread seg_world).

Definition get_sr {A} (f : ioSeg_req_t -> A) : sg A := gets (fun w => f (sg_req w)).
Definition upd_sr (f : ioSeg_req_t -> ioSeg_req_t) : sg unit := modify (fun w => set_sg_req (f (sg_req w)) w).
Definition seg_do (c : seg_call) : sg unit := modify (fun w => set_sg_calls (sg_calls w ++ [c]) w).

Definition sg_alloc : sg bool := fun w =>
  match sg_mem w with
  | [] => Returns w true
  | b :: mem => Returns (set_sg_mem mem w) b
  end.

(** ** Features and state *)

Definition seg_test_fea (f : IOSegR_fea_t) : sg bool := get_sr (fun r => Z.testbit (sr_fea r) (IOSegR_fea_num f)).
Definition seg_set_fea (f : IOSegR_fea_t) : sg unit := upd_sr (fun r => set_sr_fea (Z.setbit (sr_fea r) (IOSegR_fea_num f)) r).
Definition seg_clear_fea (f : IOSegR_fea_t) : sg unit :=
  upd_sr (fun r => set_sr_fea (Z.clearbit (sr_fea r) (IOSegR_fea_num f)) r).

Definition ioSReq_resetFea_PartialRDone : sg unit :=
  seg_clear_fea IOSegR_FEA_NON_4KALIGN;;
  seg_clear_fea IOSegR_FEA_OVW;;
  seg_clear_fea IOSegR_FEA_MDCacheH;;
  seg_clear_fea IOSegR_FEA_HBID_MISMATCH;;
  seg_clear_fea IOSegR_FEA_CIUSER.

Definition ioSReq_get_ovw : sg bool := seg_test_fea IOSegR_FEA_OVW.
Definition ioSReq_chk_MDCacheHit : sg bool := seg_test_fea IOSegR_FEA_MDCacheH.
Definition ioSReq_chk_HBIDErr : sg bool := seg_test_fea IOSegR_FEA_HBID_MISMATCH.
Definition ioSReq_chk_4KAlign : sg bool := b ← seg_test_fea IOSegR_FEA_NON_4KALIGN; mret (negb b).
Definition ioSReq_set_ovw : sg unit := seg_set_fea IOSegR_FEA_OVW.
Definition ioSReq_set_MDCacheHit : sg unit := seg_set_fea IOSegR_FEA_MDCacheH.
Definition ioSReq_set_HBIDErr : sg unit := seg_set_fea IOSegR_FEA_HBID_MISMATCH.
Definition ioSReq_chk_TrueMDProc : sg bool := seg_test_fea IOSegR_FEA_TrueProc.

Definition ioSReq_chkset_ciUser : sg bool :=
  old ← seg_test_fea IOSegR_FEA_CIUSER; seg_set_fea IOSegR_FEA_CIUSER;; mret old.
Definition ioSReq_chkset_TrueMDProc : sg bool :=
  old ← seg_test_fea IOSegR_FEA_TrueProc; seg_set_fea IOSegR_FEA_TrueProc;; mret old.

Definition seg_event (e : IOSegREQ_FSM_TREvent_t) : sg IOSegREQ_FSM_action_t := fun w =>
  let '(st, a) := IOSegReq_update_state (sr_stat (sg_req w)) e in
  Returns (set_sg_req (set_sr_stat st (sg_req w)) w) a.

Definition grants (a : IOSegREQ_FSM_action_t) (e : IOSegREQ_FSM_TREvent_t) : sg bool :=
  action ← seg_event e; mret (bool_decide (action = a)).

(** ** Creation *)

Definition ioSReq_init_request (ioaddr : UserIO_addr_t) (ioDir : iorw_dir_t) : ioSeg_req_t :=
  {| sr_addr := ioaddr; sr_ReqOPCode := ioDir; sr_fea := 0; sr_stat := IOSegReq_init_fsm; mdata_opcode := 0;
     io_dir_true := ioDir; sr_MData := None; num_invalMD_items := 0; sr_payload_offset := 0; ciUser_result := true;
     ciMDS_status := CI_MDS_OP_REPORT_SUCCESS; ciUser_remainLB := s32 (lbid_len ioaddr);
     ciMDS_remainLB := s32 (lbid_len ioaddr); userLB_state := 0; num_pReq := 0; num_leaf_ioSR := 0 |}.

Definition _ioSReq_get_MDReq_opcode (iorw : iorw_dir_t) (is_ovw is4Kalign : bool) : Z :=
  if decide (iorw = KERNEL_IO_READ) then REQ_NN_QUERY_MDATA_READIO
  else if is_ovw && is4Kalign then REQ_NN_QUERY_MDATA_WRITEIO
  else if negb is_ovw && is4Kalign then REQ_NN_ALLOC_MDATA_NO_OLD
  else if is_ovw && negb is4Kalign then REQ_NN_QUERY_MDATA_READIO
  else REQ_NN_QUERY_MDATA_READIO.

Definition ioSReq_set_request (payload_off : Z) (is_ovw is_chit is4Kalign : bool) : sg Z :=
  (if is_ovw then seg_set_fea IOSegR_FEA_OVW else mret tt);;
  (if is_chit then seg_set_fea IOSegR_FEA_MDCacheH else mret tt);;
  (if negb is4Kalign then seg_set_fea IOSegR_FEA_NON_4KALIGN else mret tt);;
  upd_sr (set_sr_offset payload_off);;
  st ← get_sr (fun r => IOSegReq_get_state (sr_stat r));
  if decide (st = IOSegREQ_S_INIT) then
    dir ← get_sr io_dir_true;
    upd_sr (set_mdata_opcode (_ioSReq_get_MDReq_opcode dir is_ovw is4Kalign));;
    (if decide (dir = KERNEL_IO_WRITE) then
       if is4Kalign then
         ok ← grants IOSegREQ_A_W_AcqMD IOSegREQ_E_INIT_4KW; mret (if ok : bool then 0 else - EPERM)
       else
         upd_sr (set_sr_OPCode KERNEL_IO_READ);;
         ok ← grants IOSegREQ_A_R_AcqMD IOSegREQ_E_INIT_R; mret (if ok : bool then 0 else - EPERM)
     else ok ← grants IOSegREQ_A_R_AcqMD IOSegREQ_E_INIT_R; mret (if ok : bool then 0 else - EPERM))
  else mret (- EPERM).

(** ** Metadata *)

Definition ioSReq_submit_acquireMD : sg unit :=
  op ← get_sr sr_ReqOPCode; hit ← ioSReq_chk_MDCacheHit; ovw ← ioSReq_get_ovw; err ← ioSReq_chk_HBIDErr;
  seg_do (C_acquire_metadata op hit ovw err).

(** Whether there is nothing to report; the check of the items is the one of the namenode
    client ([None]: it leaves an array). *)
Definition _ioSReq_chk_MData_doReport (its : list mdItem_t) : option bool := _nnc_chk_write_fail its.

Definition _ioSReq_chk_noReport : sg bool :=
  st ← get_sr ciMDS_status;
  if decide (st = CI_MDS_OP_REPORT_FAILURE) then mret false
  else
    op ← get_sr mdata_opcode;
    if negb (op =? REQ_NN_QUERY_MDATA_WRITEIO) && negb (op =? REQ_NN_ALLOC_MDATA_NO_OLD) then mret true
    else
      md ← get_sr sr_MData;
      match _ioSReq_chk_MData_doReport (default [] md) with
      | Some b => mret (negb b)
      | None => faults
      end.

Definition ioSReq_submit_reportMD : sg unit :=
  no ← _ioSReq_chk_noReport;
  if no : bool then mret tt
  else
    op ← get_sr sr_ReqOPCode; hit ← ioSReq_chk_MDCacheHit; ovw ← ioSReq_get_ovw; err ← ioSReq_chk_HBIDErr;
    seg_do (C_report_metadata op hit ovw err).

Definition ioSReq_reportMD_endfn : sg unit :=
  upd_sr (set_ciMDS_status CI_MDS_OP_REPORT_NONE);;
  n ← get_sr (fun r => lbid_len (sr_addr r));
  seg_do (C_ioReq_MDReport n).

Definition ioSReq_setovw_fn (lb_s lb_len : Z) : sg unit := seg_do (C_set_ovw lb_s lb_len).

(** ** The result of the segment *)

Definition ioSReq_commit_user (result : bool) : sg unit :=
  was ← ioSReq_chkset_ciUser;
  if was : bool then mret tt
  else
    n ← get_sr (fun r => lbid_len (sr_addr r));
    modify (fun w => set_sg_io (sg_ioResult w && result) (s32 (sg_io_ciUser_remainLB w - n)) w);;
    left ← gets sg_io_ciUser_remainLB; res ← gets sg_ioResult;
    if left =? 0 then seg_do (C_ioReq_commit_user res) else mret tt.

Definition ioReq_IODone : sg unit := n ← get_sr (fun r => lbid_len (sr_addr r)); seg_do (C_ioReq_IODone n).

(** [atomic_sub_return] on the two counters. *)
Definition sub_ciUser (n : Z) : sg Z :=
  upd_sr (fun r => set_ciUser_remainLB (s32 (ciUser_remainLB r - n)) r);; get_sr ciUser_remainLB.
Definition sub_ciMDS (n : Z) : sg Z :=
  upd_sr (fun r => set_ciMDS_remainLB (s32 (ciMDS_remainLB r - n)) r);; get_sr ciMDS_remainLB.

(** A bit of [userLB_state]; a bit outside of the array is a fault. *)
Definition LB_bit (bit_off : Z) : sg bool :=
  if (0 <=? bit_off) && (bit_off <? 8 * NUM_BYTES_MAX_LB) then get_sr (fun r => Z.testbit (userLB_state r) bit_off)
  else faults.

(** The loop tests the bit of the first block each time. *)
Fixpoint trueMD_loop (n : nat) (bit_off num_bit_clear : Z) : sg (Z * bool) :=
  match n with
  | O => mret (num_bit_clear, true)
  | S n =>
      b ← LB_bit bit_off;
      if b : bool then
        upd_sr (fun r => set_userLB_state (Z.clearbit (userLB_state r) bit_off) r);;
        trueMD_loop n bit_off (num_bit_clear + 1)
      else mret (num_bit_clear, false)
  end.

Definition _ioSReq_chk_ciUser_trueMD (lb_s lb_len : Z) : sg bool :=
  start ← get_sr (fun r => lbid_start (sr_addr r));
  '(num_bit_clear, ciUser) ← trueMD_loop (Z.to_nat lb_len) (u32 (lb_s - start)) 0;
  (if num_bit_clear =? 0 then mret 0 else sub_ciUser num_bit_clear);;
  st ← get_sr userLB_state;
  mret (ciUser && (st =? 0)).

Definition _ioSReq_chk_ciUser (lb_s lb_len : Z) : sg bool :=
  t ← ioSReq_chk_TrueMDProc;
  if t : bool then _ioSReq_chk_ciUser_trueMD lb_s lb_len
  else left ← sub_ciUser lb_len; mret (left =? 0).

Definition and_ciUser_result (ioRes : bool) : sg unit := upd_sr (fun r => set_ciUser_result (ciUser_result r && ioRes) r).

Definition ioSReq_ReadPL_endfn (lb_s lb_len : Z) (ioRes : bool) (numFailDN : Z) : sg Z :=
  (if negb (numFailDN =? 0) then upd_sr (set_ciMDS_status CI_MDS_OP_REPORT_FAILURE)
   else
     st ← get_sr ciMDS_status;
     if decide (st <> CI_MDS_OP_REPORT_FAILURE) then upd_sr (set_ciMDS_status CI_MDS_OP_REPORT_NONE) else mret tt);;
  and_ciUser_result ioRes;;
  ciUser ← _ioSReq_chk_ciUser lb_s lb_len;
  _ ← sub_ciMDS lb_len;
  if ciUser : bool then
    ok ← grants IOSegREQ_A_DO_CI2IOSegREQ IOSegREQ_E_R_ALLPL_DONE;
    if ok : bool then
      ok ← grants IOSegREQ_A_DO_CI2IOREQ IOSegREQ_E_R_RPhase_DONE;
      if ok : bool then
        res ← get_sr ciUser_result;
        ioSReq_commit_user res;;
        ioReq_IODone;;
        mret 0
      else mret (- EPERM)
    else mret (- EPERM)
  else mret 0.

Definition ioSReq_WritePL_ciUser (numLB : Z) (ioRes : bool) : sg Z :=
  and_ciUser_result ioRes;;
  left ← sub_ciUser numLB;
  (if left =? 0 then res ← get_sr ciUser_result; ioSReq_commit_user res else mret tt);;
  mret 0.

Definition ioSReq_WritePL_endfn (lb_s lb_len : Z) (ioRes : bool) (numFailDN : Z) : sg Z :=
  left ← sub_ciMDS lb_len;
  (if negb (left =? 0) then mret tt
   else
     ok ← grants IOSegREQ_A_DO_CI2IOREQ IOSegREQ_E_W_ALLPL_DONE;
     if ok : bool then ioReq_IODone else mret tt);;
  mret 0.

(** ** Payload requests *)

Definition ioSReq_add_payloadReq (p : seg_pl) : sg unit :=
  modify (fun w => set_sg_pl (sg_pl w ++ [p]) w);; upd_sr (fun r => set_num_pReq (num_pReq r + 1) r).

Definition ioSReq_rm_payloadReq (i : nat) : sg unit :=
  modify (fun w => set_sg_pl (delete i (sg_pl w)) w);; upd_sr (fun r => set_num_pReq (num_pReq r - 1) r).

Definition is_valid (it : mdItem_t) : bool :=
  bool_decide (mdata_stat it = MData_VALID) || bool_decide (mdata_stat it = MData_VALID_LESS_REPLICA).

(** One payload request per item with valid metadata (when memory is available); the number
    of blocks without. *)
Fixpoint read_payload_loop (cb : seg_cb) (its : list mdItem_t) (i : nat) (plOff numLB_inval : Z) : sg Z :=
  match its with
  | [] => mret numLB_inval
  | it :: its =>
      let n := num_hbids (md_core it) in
      let next v := read_payload_loop cb its (S i) (u64 (plOff + Z.shiftl n 12)) v in
      if is_valid it then
        ok ← sg_alloc;
        (if ok : bool then
           ioSReq_add_payloadReq {| pl_item := i; pl_lb := lbid_s (md_core it); pl_len := n; pl_off := plOff; pl_cb := cb |};;
           seg_do (C_read_payload (lbid_s (md_core it)) n plOff)
         else mret tt);;
        next numLB_inval
      else next (s32 (numLB_inval + n))
  end.

Fixpoint write_payload_loop (its : list mdItem_t) (i : nat) (plOff : Z) : sg unit :=
  match its with
  | [] => mret tt
  | it :: its =>
      let n := num_hbids (md_core it) in
      ok ← sg_alloc;
      (if ok : bool then
         ioSReq_add_payloadReq {| pl_item := i; pl_lb := lbid_s (md_core it); pl_len := n; pl_off := plOff;
                                  pl_cb := CB_Write false |};;
         seg_do (C_write_payload (lbid_s (md_core it)) n plOff)
       else mret tt);;
      write_payload_loop its (S i) (u64 (plOff + Z.shiftl n 12))
  end.

Definition PLMgr_read_payload (cb : seg_cb) : sg Z :=
  md ← get_sr sr_MData; off ← get_sr sr_payload_offset; read_payload_loop cb (default [] md) 0 off 0.
Definition PLMgr_write_payload : sg unit :=
  md ← get_sr sr_MData; off ← get_sr sr_payload_offset; write_payload_loop (default [] md) 0 off.

(** A new round for every item. *)
Definition upd_core (f : metaD_item_t -> metaD_item_t) (it : mdItem_t) : mdItem_t :=
  {| md_core := f (md_core it); mdata_stat := mdata_stat it; arr_HBID := arr_HBID it; md_dnLoc := md_dnLoc it |}.
Definition upd_items (f : list mdItem_t -> list mdItem_t) : sg unit :=
  upd_sr (fun r => set_MData (option_map f (sr_MData r)) (num_invalMD_items r) r).
Definition update_metadata_UDataStat (s : UData_state_t) : sg unit :=
  upd_items (map (upd_core (fun md => update_item_UDataStat md s))).

(** *** The write phase of a partial write *)

Definition _ioSReq_PW_resetReq : sg unit :=
  upd_sr (fun r => set_ciUser_remainLB (s32 (lbid_len (sr_addr r))) r);;
  upd_sr (fun r => set_sr_OPCode (io_dir_true r) r);;
  upd_sr (set_ciUser_result true);;
  upd_sr (set_ciMDS_status CI_MDS_OP_REPORT_SUCCESS).

Definition _ioSReq_PW_WPhase_OVW : sg unit :=
  upd_sr (set_mdata_opcode REQ_NN_QUERY_MDATA_WRITEIO);;
  ok ← grants IOSegREQ_A_DO_WUD IOSegREQ_E_W_AcqMD_DONE;
  if ok : bool then update_metadata_UDataStat UData_S_INIT;; PLMgr_write_payload else mret tt.

Definition _ioSReq_PW_WPhase_FW : sg unit :=
  ioSReq_resetFea_PartialRDone;;
  upd_sr (set_MData None 0);;
  upd_sr (set_mdata_opcode REQ_NN_ALLOC_MDATA_NO_OLD);;
  ioSReq_submit_acquireMD.

Definition _ioSReq_PW_WPhase : sg unit :=
  _ioSReq_PW_resetReq;;
  ovw ← ioSReq_get_ovw;
  if ovw : bool then _ioSReq_PW_WPhase_OVW else _ioSReq_PW_WPhase_FW.

Definition ioSReq_PartialW_ReadPL_endfn (lb_s lb_len : Z) (ioRes : bool) (numFailDN : Z) : sg Z :=
  and_ciUser_result ioRes;;
  ciUser ← _ioSReq_chk_ciUser lb_s lb_len;
  if negb ciUser then mret 0
  else
    res ← get_sr ciUser_result;
    if negb res then
      ioSReq_commit_user res;;
      a ← get_sr sr_addr;
      ioSReq_WritePL_endfn (lbid_start a) (lbid_len a) false numFailDN;;
      mret 0
    else
      ok ← grants IOSegREQ_A_DO_CI2IOSegREQ IOSegREQ_E_R_ALLPL_DONE;
      if negb ok then mret 0
      else
        ok ← grants IOSegREQ_A_W_AcqMD IOSegREQ_E_W_RPhase_DONE;
        if negb ok then mret 0
        else _ioSReq_PW_WPhase;; mret 0.

(** *** Metadata arrive *)

Definition check_metadata_status (mdres : Z) : sg bool :=
  if negb (mdres =? 0) then mret true
  else
    n ← get_sr num_invalMD_items;
    if n =? 0 then mret false
    else op ← get_sr sr_ReqOPCode; mret (bool_decide (op = KERNEL_IO_WRITE)).

Definition _post_handle_all_MD_inval : sg unit :=
  ioSReq_commit_user false;;
  upd_sr (set_ciMDS_status CI_MDS_OP_REPORT_NONE);;
  ioReq_IODone.

(** The namenode client has filled the metadata of the segment; a loop over the items without
    valid metadata follows, whose turns are steps of their own. *)
Definition ioSReq_acquireMD_endfn (its : list mdItem_t) (num_inval result : Z) : sg Z :=
  upd_sr (set_MData (Some its) num_inval);;
  bad ← check_metadata_status result;
  if bad : bool then _post_handle_all_MD_inval;; mret 0
  else
    op ← get_sr sr_ReqOPCode;
    match op with
    | KERNEL_IO_READ =>
        ok ← grants IOSegREQ_A_DO_RUD IOSegREQ_E_R_AcqMD_DONE;
        if ok : bool then
          update_metadata_UDataStat UData_S_INIT;;
          dir ← get_sr io_dir_true;
          numLB_inval ← PLMgr_read_payload (if decide (dir = KERNEL_IO_READ) then CB_Read else CB_PartialW_Read);
          if numLB_inval >? 0 then
            start ← get_sr (fun r => lbid_start (sr_addr r));
            modify (set_sg_inval (Some (0%nat, length its, start)));; mret 0
          else mret 0
        else mret 0
    | KERNEL_IO_WRITE =>
        ok ← grants IOSegREQ_A_DO_WUD IOSegREQ_E_W_AcqMD_DONE;
        if ok : bool then update_metadata_UDataStat UData_S_INIT;; PLMgr_write_payload;; mret 0 else mret 0
    end.

(** One turn of the loop of [_invalMD_IODone_Proc]. *)
Definition inval_turn : sg unit :=
  c ← gets sg_inval;
  match c with
  | None => mret tt
  | Some (i, n, LB_s) =>
      if decide (n <= i)%nat then modify (set_sg_inval None)
      else
        md ← get_sr sr_MData;
        match md ≫= (fun its => its !! i) with
        | None => faults
        | Some it =>
            let k := num_hbids (md_core it) in
            modify (set_sg_inval (Some (S i, n, u64 (LB_s + k))));;
            if is_valid it then mret tt
            else
              dir ← get_sr io_dir_true;
              if decide (dir = KERNEL_IO_READ) then
                seg_do (C_zero2bio LB_s k);; ioSReq_ReadPL_endfn LB_s k true 0;; mret tt
              else ioSReq_PartialW_ReadPL_endfn LB_s k true 0;; mret tt
        end
  end.

(** ** Outdated metadata *)

(** Whether the item with the block has been delivered. *)
Fixpoint item_of (its : list mdItem_t) (lbid : Z) : option mdItem_t :=
  match its with
  | [] => None
  | it :: its =>
      if (lbid <? lbid_s (md_core it)) || (lbid >=? u64 (lbid_s (md_core it) + num_hbids (md_core it))) then item_of its lbid
      else Some it
  end.

Definition _ioSReq_taretLB_gotData (lbid : Z) : sg bool :=
  md ← get_sr sr_MData;
  mret (match item_of (default [] md) lbid with Some it => MData_chk_ciUser (md_core it) | None => false end).

Definition set_LBStat_turn (lbid_s : Z) (i : nat) : sg unit :=
  let target_LB := u64 (lbid_s + Z.of_nat i) in
  got ← _ioSReq_taretLB_gotData target_LB;
  if got : bool then mret tt
  else
    start ← get_sr (fun r => lbid_start (sr_addr r));
    let bit_off := u32 (target_LB - start) in
    _ ← LB_bit bit_off;
    upd_sr (fun r => set_userLB_state (Z.setbit (userLB_state r) bit_off) r).

Definition _ioSReq_set_LBStat (lbid_s lb_len : Z) : sg unit :=
  already ← ioSReq_chkset_TrueMDProc;
  if already : bool then mret tt else for_each (seq 0 (Z.to_nat lb_len)) (set_LBStat_turn lbid_s).

Definition ioSReq_add_ioSLeafReq (l : seg_leaf) : sg unit :=
  modify (fun w => set_sg_leaves (sg_leaves w ++ [l]) w);; upd_sr (fun r => set_num_leaf (num_leaf_ioSR r + 1) r).

(** The counter is increased here as well. *)
Definition ioSReq_rm_ioSLeafReq (i : nat) : sg unit :=
  modify (fun w => set_sg_leaves (delete i (sg_leaves w)) w);; upd_sr (fun r => set_num_leaf (num_leaf_ioSR r + 1) r).

Definition ioSegLeafReq_init_request (lb : Z) : seg_leaf :=
  {| lf_lb := lb; lf_result := true; lf_waiting := 0; lf_reading := 0 |}.

Definition gen_leaf_turn (lbid_s : Z) (i : nat) : sg bool :=
  let target_LB := u64 (lbid_s + Z.of_nat i) in
  got ← _ioSReq_taretLB_gotData target_LB;
  if got : bool then mret false
  else
    ok ← sg_alloc;
    if ok : bool then ioSReq_add_ioSLeafReq (ioSegLeafReq_init_request target_LB);; mret true else faults.

Fixpoint _ioSReq_gen_leafIOSReq (idx : list nat) (lbid_s : Z) (do_submit : bool) : sg bool :=
  match idx with
  | [] => mret do_submit
  | i :: idx => b ← gen_leaf_turn lbid_s i; _ioSReq_gen_leafIOSReq idx lbid_s (do_submit || b)
  end.

Definition ioSegLeafReq_submit_request (i : nat) : sg unit :=
  l ← gets (fun w => sg_leaves w !! i);
  match l with
  | None => mret tt
  | Some l =>
      modify (fun w => set_sg_leaves (<[i := {| lf_lb := lf_lb l; lf_result := lf_result l;
                                                lf_waiting := lf_waiting l + 1; lf_reading := lf_reading l |}]> (sg_leaves w)) w);;
      seg_do (C_leaf_acquire_metadata (lf_lb l))
  end.

(** All leaf requests in the pool are submitted. *)
Definition _ioSReq_submit_all_leafR : sg unit :=
  n ← gets (fun w => length (sg_leaves w)); for_each (seq 0 n) ioSegLeafReq_submit_request.

Definition _ioSReq_queryTrue_gut (lbid_s lb_len : Z) : sg unit :=
  _ioSReq_set_LBStat lbid_s lb_len;;
  do_submit ← _ioSReq_gen_leafIOSReq (seq 0 (Z.to_nat lb_len)) lbid_s false;
  if do_submit : bool then _ioSReq_submit_all_leafR else mret tt.

(** The loop ends when the transition is granted.  While another thread is in this function it is
    to be tried again; in any other state it is refused for ever. *)
Definition ioSReq_queryTrueMD (lbid_s lb_len : Z) : sg Z :=
  action ← seg_event IOSegREQ_E_MDUD_UNSYNC;
  if decide (action = IOSegREQ_A_DO_ATrueMD_PROC) then
    _ioSReq_queryTrue_gut lbid_s lb_len;;
    _ ← seg_event IOSegREQ_E_ATrueMD_DONE;
    mret 0
  else blocks.

(** [payload_offset] of a leaf request. *)
Definition leaf_offset (off start lb : Z) : Z := u64 (off + u32 (u32 (lb - start) * 4096)).

Definition set_leaf (i : nat) (l : seg_leaf) : sg unit := modify (fun w => set_sg_leaves (<[i := l]> (sg_leaves w)) w).

(** The metadata of a leaf request arrive; with an error nothing happens any more. *)
Definition _cb_ioSleafR_acquireMD_endfn (i : nat) (valid : bool) (result : Z) : sg unit :=
  l ← gets (fun w => sg_leaves w !! i);
  match l with
  | None => faults
  | Some l =>
      let l := {| lf_lb := lf_lb l; lf_result := lf_result l; lf_waiting := lf_waiting l - 1; lf_reading := lf_reading l |} in
      set_leaf i l;;
      if negb (result =? 0) || negb valid then mret tt
      else
        ok ← sg_alloc;
        if ok : bool then
          set_leaf i {| lf_lb := lf_lb l; lf_result := lf_result l; lf_waiting := lf_waiting l; lf_reading := lf_reading l + 1 |};;
          start ← get_sr (fun r => lbid_start (sr_addr r)); off ← get_sr sr_payload_offset;
          seg_do (C_read_payload (lf_lb l) 1 (leaf_offset off start (lf_lb l)))
        else mret tt
  end.

(** The block of a leaf request has been read ([data]) or not; the leaf request is freed. *)
Definition _cb_ioSleafR_ReadPL_endfn (i : nat) (ioRes data : bool) : sg unit :=
  l ← gets (fun w => sg_leaves w !! i);
  match l with
  | None => faults
  | Some l =>
      start ← get_sr (fun r => lbid_start (sr_addr r)); off ← get_sr sr_payload_offset;
      (if data : bool then seg_do (C_cpData_bio (lf_lb l) 1 (leaf_offset off start (lf_lb l))) else mret tt);;
      ioSReq_rm_ioSLeafReq i;;
      ioSReq_ReadPL_endfn (lf_lb l) 1 (lf_result l && ioRes) 0;;
      mret tt
  end.

(** ** What can happen to a segment *)

(** The callbacks of a payload request, in the order the payload request makes them: a read
    marks its item as delivered and copies the data when it has them, leaves the pool and ends; a
    read with outdated metadata reports that; a write tells its user result and ends. *)
Inductive seg_ev : Type :=
| Ev_acquired (its : list mdItem_t) (num_inval result : Z)
| Ev_inval
| Ev_read_end (i : nat) (data ioRes : bool) (numFailDN : Z)
| Ev_read_mderr (i : nat)
| Ev_write_ciUser (i : nat) (ioRes : bool)
| Ev_write_end (i : nat) (ioRes : bool) (numFailDN : Z)
| Ev_leaf_acquired (i : nat) (valid : bool) (result : Z)
| Ev_leaf_end (i : nat) (ioRes data : bool)
| Ev_report
| Ev_reported.

(** [MData_set_ciUser] on an item of the segment. *)
Definition mark_delivered (k : nat) : sg unit := upd_items (alter (upd_core MData_set_ciUser) k).

Definition pl_at (i : nat) : sg seg_pl :=
  p ← gets (fun w => sg_pl w !! i); match p with Some p => mret p | None => faults end.

Definition seg_step (e : seg_ev) : sg unit :=
  match e with
  | Ev_acquired its num_inval result => ioSReq_acquireMD_endfn its num_inval result;; mret tt
  | Ev_inval => inval_turn
  | Ev_read_end i data ioRes numFailDN =>
      p ← pl_at i;
      (if data : bool then
         mark_delivered (pl_item p);;
         seg_do (match pl_cb p with
                 | CB_Read => C_cpData_bio (pl_lb p) (pl_len p) (pl_off p)
                 | _ => C_cpData_wbuff (pl_lb p) (pl_len p) (pl_off p)
                 end)
       else mret tt);;
      ioSReq_rm_payloadReq i;;
      match pl_cb p with
      | CB_Read => ioSReq_ReadPL_endfn (pl_lb p) (pl_len p) ioRes numFailDN;; mret tt
      | CB_PartialW_Read => ioSReq_PartialW_ReadPL_endfn (pl_lb p) (pl_len p) ioRes numFailDN;; mret tt
      | _ => faults
      end
  | Ev_read_mderr i =>
      p ← pl_at i;
      match pl_cb p with
      | CB_Read | CB_PartialW_Read =>
          ioSReq_queryTrueMD (pl_lb p) (pl_len p);;
          modify (fun w => set_sg_pl (<[i := set_pl_cb CB_Freed p]> (sg_pl w)) w)
      | _ => faults
      end
  | Ev_write_ciUser i ioRes =>
      p ← pl_at i;
      match pl_cb p with
      | CB_Write false =>
          modify (fun w => set_sg_pl (<[i := set_pl_cb (CB_Write true) p]> (sg_pl w)) w);;
          ioSReq_WritePL_ciUser (pl_len p) ioRes;; mret tt
      | _ => faults
      end
  | Ev_write_end i ioRes numFailDN =>
      p ← pl_at i;
      match pl_cb p with
      | CB_Write true => ioSReq_rm_payloadReq i;; ioSReq_WritePL_endfn (pl_lb p) (pl_len p) ioRes numFailDN;; mret tt
      | _ => faults
      end
  | Ev_leaf_acquired i valid result => _cb_ioSleafR_acquireMD_endfn i valid result
  | Ev_leaf_end i ioRes data => _cb_ioSleafR_ReadPL_endfn i ioRes data
  | Ev_report => ioSReq_submit_reportMD
  | Ev_reported => ioSReq_reportMD_endfn
  end.

Fixpoint seg_run (evs : list seg_ev) : sg unit :=
  match evs with
  | [] => mret tt
  | e :: evs => seg_step e;; seg_run evs
  end.
