(* ===== verification/IOSegReqSpec.v ===== *)
(** * IOSegReqSpec: a segment gives its IO request one result, when all its blocks are done

    Invariants of the segments of IOSegReq for reads, writes and partial writes, over every
    order in which payload requests end and the loop over blocks without metadata proceeds;
    and the runs in which outdated metadata break the promise. *)

From S2P Require Import Prelude CommonUtil Fsm IOSegReqFsm MDataCommit MDItems NNProto NNReport IOReqOvlp IOSegReq.

Lemma bind_returns {S A B} (m : thread S A) (k : A -> thread S B) w w' a : m w = Returns w' a -> (m ≫= k) w = k a w'.
Proof. intros H. unfold mbind, thread_bind. by rewrite H. Qed.

(** ** What the IO request sees *)

Definition is_outcome (c : seg_call) : bool :=
  match c with C_ioReq_commit_user _ | C_ioReq_IODone _ => true | _ => false end.

Definition outcomes (l : list seg_call) : list seg_call := filter (fun c => is_outcome c = true) l.

Lemma outcomes_app l1 l2 : outcomes (l1 ++ l2) = outcomes l1 ++ outcomes l2.
Proof. apply filter_app. Qed.

Lemma outcomes_other l c : is_outcome c = false -> outcomes (l ++ [c]) = outcomes l.
Proof.
  intros H. rewrite outcomes_app. unfold outcomes at 2. rewrite filter_cons_False by congruence. apply app_nil_r.
Qed.

(** ** The accounting of a read *)

Definition ciMDS_after (numFailDN : Z) (s : ciMDS_opCode_t) : ciMDS_opCode_t :=
  if negb (numFailDN =? 0) then CI_MDS_OP_REPORT_FAILURE
  else if decide (s <> CI_MDS_OP_REPORT_FAILURE) then CI_MDS_OP_REPORT_NONE else s.

Definition read_acct (n : Z) (ioRes : bool) (numFailDN : Z) (r : ioSeg_req_t) : ioSeg_req_t :=
  set_ciMDS_remainLB (s32 (ciMDS_remainLB r - n))
    (set_ciUser_remainLB (s32 (ciUser_remainLB r - n))
       (set_ciUser_result (ciUser_result r && ioRes) (set_ciMDS_status (ciMDS_after numFailDN (ciMDS_status r)) r))).

Definition true_proc (r : ioSeg_req_t) : bool := Z.testbit (sr_fea r) 5.
Definition ci_user (r : ioSeg_req_t) : bool := Z.testbit (sr_fea r) 4.

Lemma sr_eta (r : ioSeg_req_t) : set_ciMDS_status (ciMDS_status r) r = r.
Proof. by destruct r. Qed.

(** The two parts every read callback starts with. *)
Lemma ciMDS_part {A} nf (k : unit -> sg A) w :
  (((if negb (nf =? 0) then upd_sr (set_ciMDS_status CI_MDS_OP_REPORT_FAILURE)
     else
       st ← get_sr ciMDS_status;
       if decide (st <> CI_MDS_OP_REPORT_FAILURE) then upd_sr (set_ciMDS_status CI_MDS_OP_REPORT_NONE) else mret tt)
    : sg unit) ≫= k) w =
  k tt (set_sg_req (set_ciMDS_status (ciMDS_after nf (ciMDS_status (sg_req w))) (sg_req w)) w).
Proof.
  unfold ciMDS_after. destruct (nf =? 0); cbn; [|done]. unfold mbind, thread_bind, get_sr, gets.
  case_decide; [done|]. rewrite sr_eta. by destruct w.
Qed.

Lemma chk_ciUser_normal lb n w :
  true_proc (sg_req w) = false ->
  _ioSReq_chk_ciUser lb n w =
    let left := s32 (ciUser_remainLB (sg_req w) - n) in
    Returns (set_sg_req (set_ciUser_remainLB left (sg_req w)) w) (left =? 0).
Proof.
  intros H. unfold _ioSReq_chk_ciUser, ioSReq_chk_TrueMDProc, seg_test_fea, get_sr, gets, mbind, thread_bind.
  unfold true_proc in H. cbn [IOSegR_fea_num]. by rewrite H.
Qed.

Lemma ReadPL_more lb n ioRes nf w :
  true_proc (sg_req w) = false -> s32 (ciUser_remainLB (sg_req w) - n) <> 0 ->
  ioSReq_ReadPL_endfn lb n ioRes nf w = Returns (set_sg_req (read_acct n ioRes nf (sg_req w)) w) 0.
Proof.
  intros Ht Hn. unfold ioSReq_ReadPL_endfn. rewrite ciMDS_part.
  unfold and_ciUser_result, upd_sr, modify, mbind at 1, thread_bind at 1. unfold mbind at 1, thread_bind at 1.
  rewrite chk_ciUser_normal by done. cbn -[s32]. rewrite (proj2 (Z.eqb_neq _ _)) by done. done.
Qed.

(** The result of the segment, given to the IO request. *)
Definition give (res : bool) (w : seg_world) : seg_world :=
  let n := lbid_len (sr_addr (sg_req w)) in
  let left := s32 (sg_io_ciUser_remainLB w - n) in
  set_sg_calls (sg_calls w ++ (if left =? 0 then [C_ioReq_commit_user (sg_ioResult w && res)] else []))
    (set_sg_io (sg_ioResult w && res) left (set_sg_req (set_sr_fea (Z.setbit (sr_fea (sg_req w)) 4) (sg_req w)) w)).

Lemma commit_user_spec res w :
  ci_user (sg_req w) = false -> ioSReq_commit_user res w = Returns (give res w) tt.
Proof.
  intros H. unfold ioSReq_commit_user, ioSReq_chkset_ciUser, seg_test_fea, seg_set_fea, upd_sr, get_sr, gets, modify, mbind,
    thread_bind, mret, thread_ret. unfold ci_user in H. cbn [IOSegR_fea_num]. rewrite H. unfold give. cbn -[s32].
  destruct (s32 _ =? 0); [done|]. by rewrite app_nil_r.
Qed.

Definition st_is (s : IOSegREQ_FSM_state_t) (r : ioSeg_req_t) : Prop := st_ioSegReq (sr_stat r) = s.

Definition to_state (s : IOSegREQ_FSM_state_t) (r : ioSeg_req_t) : ioSeg_req_t :=
  set_sr_stat {| st_ioSegReq := s; cist_ioSegReq := cist_ioSegReq (sr_stat r) |} r.

Definition done_call (w : seg_world) : seg_world :=
  set_sg_calls (sg_calls w ++ [C_ioReq_IODone (lbid_len (sr_addr (sg_req w)))]) w.

Lemma ReadPL_last lb n ioRes nf w :
  true_proc (sg_req w) = false -> ci_user (sg_req w) = false -> st_is IOSegREQ_S_RUD (sg_req w) ->
  s32 (ciUser_remainLB (sg_req w) - n) = 0 ->
  ioSReq_ReadPL_endfn lb n ioRes nf w =
    Returns (done_call (give (ciUser_result (sg_req w) && ioRes)
               (set_sg_req (to_state IOSegREQ_S_CI2IOR (read_acct n ioRes nf (sg_req w))) w))) 0.
Proof.
  intros Ht Hc Hs Hn. unfold ioSReq_ReadPL_endfn. rewrite ciMDS_part.
  unfold and_ciUser_result, upd_sr, modify, mbind at 1, thread_bind at 1. unfold mbind at 1, thread_bind at 1.
  rewrite chk_ciUser_normal by done. cbn -[s32 ioSReq_commit_user give]. rewrite Hn. cbn -[s32 ioSReq_commit_user give].
  unfold sub_ciMDS, grants, seg_event, upd_sr, get_sr, gets, modify, mbind, thread_bind, mret, thread_ret.
  unfold IOSegReq_update_state, _update_ioSegReqState_lockless. unfold st_is in Hs. cbn -[s32 ioSReq_commit_user give].
  rewrite Hs. rewrite bool_decide_true by done. cbn -[s32 ioSReq_commit_user give].
  rewrite bool_decide_true by done. rewrite commit_user_spec by done. unfold done_call, read_acct, to_state.
  cbn -[s32 give]. rewrite Hn. done.
Qed.

Definition pw_acct (n : Z) (ioRes : bool) (r : ioSeg_req_t) : ioSeg_req_t :=
  set_ciUser_remainLB (s32 (ciUser_remainLB r - n)) (set_ciUser_result (ciUser_result r && ioRes) r).

Lemma PartialW_more lb n ioRes nf w :
  true_proc (sg_req w) = false -> s32 (ciUser_remainLB (sg_req w) - n) <> 0 ->
  ioSReq_PartialW_ReadPL_endfn lb n ioRes nf w = Returns (set_sg_req (pw_acct n ioRes (sg_req w)) w) 0.
Proof.
  intros Ht Hn. unfold ioSReq_PartialW_ReadPL_endfn, and_ciUser_result, upd_sr, modify, mbind at 1, thread_bind at 1.
  unfold mbind at 1, thread_bind at 1. rewrite chk_ciUser_normal by done. cbn -[s32].
  rewrite (proj2 (Z.eqb_neq _ _)) by done. done.
Qed.

(** ** Payload requests *)

Definition item_pl (cb : seg_cb) (i : nat) (off : Z) (it : mdItem_t) : seg_pl :=
  {| pl_item := i; pl_lb := lbid_s (md_core it); pl_len := num_hbids (md_core it); pl_off := off; pl_cb := cb |}.

Definition next_off (off : Z) (it : mdItem_t) : Z := u64 (off + Z.shiftl (num_hbids (md_core it)) 12).

Fixpoint read_pls (cb : seg_cb) (its : list mdItem_t) (i : nat) (off : Z) : list seg_pl :=
  match its with
  | [] => []
  | it :: its => (if is_valid it then [item_pl cb i off it] else []) ++ read_pls cb its (S i) (next_off off it)
  end.

Fixpoint write_pls (its : list mdItem_t) (i : nat) (off : Z) : list seg_pl :=
  match its with
  | [] => []
  | it :: its => item_pl (CB_Write false) i off it :: write_pls its (S i) (next_off off it)
  end.

(** Payload requests were added and submitted. *)
Definition add_pls (mk : Z -> Z -> Z -> seg_call) (ps : list seg_pl) (w : seg_world) : seg_world :=
  set_sg_calls (sg_calls w ++ ((fun p => mk (pl_lb p) (pl_len p) (pl_off p)) <$> ps))
    (set_sg_pl (sg_pl w ++ ps)
       (set_sg_req (set_num_pReq (num_pReq (sg_req w) + Z.of_nat (length ps)) (sg_req w)) w)).

Lemma add_pls_nil mk w : add_pls mk [] w = w.
Proof.
  unfold add_pls. rewrite fmap_nil, !app_nil_r, Z.add_0_r. destruct w as [r]. by destruct r.
Qed.

Lemma add_pls_cons mk p ps w : add_pls mk ps (add_pls mk [p] w) = add_pls mk (p :: ps) w.
Proof.
  destruct w as [r res R pl leaves inval mem calls]. unfold add_pls. cbn -[Z.add Z.of_nat]. unfold set_sg_calls, set_sg_pl, set_sg_req.
  cbn -[Z.add Z.of_nat set_num_pReq]. rewrite <- !app_assoc. f_equal. destruct r. unfold set_num_pReq. cbn -[Z.add Z.of_nat].
  f_equal. cbn. lia.
Qed.

(** Blocks with and without valid metadata. *)
Definition blocks_of (b : bool) (its : list mdItem_t) : Z :=
  zsum ((fun it => if bool_decide (is_valid it = b) then num_hbids (md_core it) else 0) <$> its).

Definition items_ok (its : list mdItem_t) : Prop := Forall (fun it => 1 <= num_hbids (md_core it)) its.

Lemma blocks_of_cons b it its :
  blocks_of b (it :: its) = (if bool_decide (is_valid it = b) then num_hbids (md_core it) else 0) + blocks_of b its.
Proof. done. Qed.

Lemma blocks_of_nonneg b its : items_ok its -> 0 <= blocks_of b its.
Proof.
  induction 1 as [|it its H _ IH]; [done|]. rewrite blocks_of_cons. case_bool_decide; lia.
Qed.

Lemma read_payload_spec cb its i off v w :
  sg_mem w = [] -> items_ok its -> 0 <= v -> v + blocks_of false its < 2 ^ 31 ->
  read_payload_loop cb its i off v w =
    Returns (add_pls C_read_payload (read_pls cb its i off) w) (v + blocks_of false its).
Proof.
  intros Hm Hok. revert i off v w Hm. induction Hok as [|it its H Hok IH]; intros i off v w Hm Hv Hb.
  { cbn. by rewrite add_pls_nil, Z.add_0_r. }
  rewrite blocks_of_cons in *. pose proof (blocks_of_nonneg false its Hok). cbn [read_payload_loop read_pls].
  destruct (is_valid it) eqn:E.
  - unfold mbind, thread_bind, sg_alloc. rewrite Hm. cbn [app]. rewrite <- add_pls_cons.
    change (bool_decide (true = false)) with false in *. rewrite Z.add_0_l in *. fold (next_off off it).
    apply (IH (S i) (next_off off it) v (add_pls C_read_payload [item_pl cb i off it] w)); done.
  - change (bool_decide (false = false)) with true in *. rewrite s32_small by (unfold is_s32; lia).
    fold (next_off off it). rewrite IH by (done || lia). f_equal. lia.
Qed.

Lemma write_payload_spec its i off w :
  sg_mem w = [] ->
  write_payload_loop its i off w = Returns (add_pls C_write_payload (write_pls its i off) w) tt.
Proof.
  revert i off w. induction its as [|it its IH]; intros i off w Hm; [cbn; by rewrite add_pls_nil|].
  cbn [write_payload_loop write_pls]. unfold mbind, thread_bind, sg_alloc. rewrite Hm. rewrite <- add_pls_cons.
  fold (next_off off it). by apply (IH (S i) (next_off off it) (add_pls C_write_payload [item_pl (CB_Write false) i off it] w)).
Qed.

Lemma outcomes_pls mk (ps : list seg_pl) :
  (forall a b c, is_outcome (mk a b c) = false) -> outcomes ((fun p => mk (pl_lb p) (pl_len p) (pl_off p)) <$> ps) = [].
Proof.
  intros H. induction ps as [|p ps IH]; [done|]. rewrite fmap_cons. unfold outcomes. rewrite filter_cons_False; [exact IH|].
  by rewrite H.
Qed.

Definition is_write (c : seg_call) : bool := match c with C_write_payload _ _ _ => true | _ => false end.
Definition nowrite (w : seg_world) : Prop := Forall (fun c => is_write c = false) (sg_calls w).

Lemma nowrite_reads ps w : nowrite w -> nowrite (add_pls C_read_payload ps w).
Proof. intros H. apply Forall_app. split; [done|]. by apply Forall_fmap, Forall_true. Qed.

Lemma read_pls_spec cb its i off :
  items_ok its ->
  zsum (pl_len <$> read_pls cb its i off) = blocks_of true its /\
  Forall (fun p => pl_cb p = cb /\ 1 <= pl_len p) (read_pls cb its i off) /\
  length (read_pls cb its i off) = length (filter (fun it => is_valid it = true) its).
Proof.
  intros Hok. revert i off. induction Hok as [|it its H Hok IH]; intros i off; [done|].
  cbn [read_pls]. rewrite blocks_of_cons. destruct (IH (S i) (next_off off it)) as (IH1 & IH2 & IH3).
  destruct (is_valid it) eqn:E.
  - rewrite filter_cons_True by done. cbn [app]. rewrite fmap_cons, zsum_cons, IH1, !length_cons, IH3.
    split_and!; [done| |done]. by constructor.
  - rewrite filter_cons_False by congruence. by split_and!.
Qed.

Lemma write_pls_spec its i off :
  items_ok its ->
  pl_len <$> write_pls its i off = (fun it => num_hbids (md_core it)) <$> its /\
  Forall (fun p => pl_cb p = CB_Write false /\ 1 <= pl_len p) (write_pls its i off) /\
  length (write_pls its i off) = length its.
Proof.
  intros Hok. revert i off. induction Hok as [|it its H Hok IH]; intros i off; [done|].
  cbn [write_pls]. destruct (IH (S i) (next_off off it)) as (IH1 & IH2 & IH3).
  rewrite !fmap_cons, IH1, !length_cons, IH3. split_and!; [done| |done]. by constructor.
Qed.

(** ** The read phase *)

Definition shape (it : mdItem_t) : Z * bool := (num_hbids (md_core it), is_valid it).

Lemma shape_upd f (its : list mdItem_t) : (forall md, num_hbids (f md) = num_hbids md) -> shape <$> map (upd_core f) its = shape <$> its.
Proof.
  intros Hf. induction its as [|it its IH]; [done|]. cbn [map]. rewrite !fmap_cons, IH. f_equal.
  unfold shape, is_valid, upd_core. cbn [md_core mdata_stat]. by rewrite Hf.
Qed.

Lemma shape_alter (k : nat) (its : list mdItem_t) : shape <$> alter (upd_core MData_set_ciUser) k its = shape <$> its.
Proof.
  revert k. induction its as [|it its IH]; intros [|k]; [done..|]. cbn. by rewrite IH.
Qed.

Lemma blocks_of_shape b (its its' : list mdItem_t) : shape <$> its = shape <$> its' -> blocks_of b its = blocks_of b its'.
Proof.
  revert its'. induction its as [|it its IH]; intros [|it' its'] H; try done.
  rewrite !fmap_cons in H. injection H as H1 H2 H3. rewrite !blocks_of_cons, (IH its' H3). by rewrite H1, H2.
Qed.

(** Blocks the loop over the items without metadata has still to visit. *)
Definition inval_left (its : list mdItem_t) (w : seg_world) : Z :=
  match sg_inval w with
  | None => 0
  | Some (i, _, _) => blocks_of false (drop i its)
  end.

(** Blocks that are not done. *)
Definition pending (its : list mdItem_t) (w : seg_world) : Z := zsum (pl_len <$> sg_pl w) + inval_left its w.

(** Everything about a segment that does not change in a phase: the answer of the namenode
    and where the loop over its items is, the blocks of the segment. *)
Record steady (its : list mdItem_t) (a : UserIO_addr_t) (dir : iorw_dir_t) (w : seg_world) : Prop := {
  sd_addr : sr_addr (sg_req w) = a;
  sd_dir : io_dir_true (sg_req w) = dir;
  sd_true : true_proc (sg_req w) = false;
  sd_md : exists its', sr_MData (sg_req w) = Some its' /\ shape <$> its' = shape <$> its;
  sd_inval : forall i n lb, sg_inval w = Some (i, n, lb) -> n = length its;
}.

(** The read phase: [cb] are the callbacks of the payload requests, [res0] and [R] the result
    and the counter of the IO request, [b] the result of the blocks that are done. *)
Record reading (its : list mdItem_t) (a : UserIO_addr_t) (cb : seg_cb) (res0 : bool) (R : Z) (b : bool) (w : seg_world) : Prop := {
  rd_steady : steady its a (match cb with CB_Read => KERNEL_IO_READ | _ => KERNEL_IO_WRITE end) w;
  rd_stat : st_is IOSegREQ_S_RUD (sg_req w);
  rd_ci : ci_user (sg_req w) = false;
  rd_pl : Forall (fun p => pl_cb p = cb /\ 1 <= pl_len p) (sg_pl w);
  rd_left : ciUser_remainLB (sg_req w) = pending its w;
  rd_pend : 0 < pending its w < 2 ^ 31;
  rd_res : ciUser_result (sg_req w) = b;
  rd_io : sg_ioResult w = res0 /\ sg_io_ciUser_remainLB w = R;
  rd_out : outcomes (sg_calls w) = [];
}.

(** The segment has given its result. *)
Record read_done (its : list mdItem_t) (a : UserIO_addr_t) (res0 : bool) (R : Z) (b : bool) (w : seg_world) : Prop := {
  dn_steady : steady its a KERNEL_IO_READ w;
  dn_pl : sg_pl w = [];
  dn_inval : inval_left its w = 0;
  dn_io : sg_ioResult w = res0 && b /\ sg_io_ciUser_remainLB w = s32 (R - lbid_len a);
  dn_out : outcomes (sg_calls w) =
    (if s32 (R - lbid_len a) =? 0 then [C_ioReq_commit_user (res0 && b)] else []) ++ [C_ioReq_IODone (lbid_len a)];
}.

Lemma zsum_pl_nonneg (l : list seg_pl) : Forall (fun p => 1 <= pl_len p) l -> 0 <= zsum (pl_len <$> l) /\ (zsum (pl_len <$> l) = 0 -> l = []).
Proof.
  induction 1 as [|p l H _ [IH1 IH2]]; [done|]. rewrite fmap_cons, zsum_cons. split; [lia|]. intros ?. exfalso. lia.
Qed.

(** A callback of a read that takes [n] blocks out of what is left, in a state [w1] that accounts
    for the blocks already. *)
Lemma ReadPL_step its a res0 R b w w1 lb n ioRes nf :
  reading its a CB_Read res0 R b w ->
  steady its a KERNEL_IO_READ w1 -> st_is IOSegREQ_S_RUD (sg_req w1) -> ci_user (sg_req w1) = false ->
  ciUser_remainLB (sg_req w1) = ciUser_remainLB (sg_req w) -> ciUser_result (sg_req w1) = b ->
  Forall (fun p => pl_cb p = CB_Read /\ 1 <= pl_len p) (sg_pl w1) ->
  sg_ioResult w1 = res0 -> sg_io_ciUser_remainLB w1 = R -> outcomes (sg_calls w1) = [] ->
  0 <= n -> 0 <= inval_left its w1 -> pending its w = n + pending its w1 ->
  exists w' z, ioSReq_ReadPL_endfn lb n ioRes nf w1 = Returns w' z /\ sg_pl w' = sg_pl w1 /\ sg_inval w' = sg_inval w1 /\
    (0 < pending its w1 -> reading its a CB_Read res0 R (b && ioRes) w') /\
    (pending its w1 = 0 -> read_done its a res0 R (b && ioRes) w').
Proof.
  intros [_ _ _ _ Hl Hp _ _ _] Hs Hst Hci Hr Hb Hpl Hi1 Hi2 Ho Hn Hil Hpe.
  assert (0 <= zsum (pl_len <$> sg_pl w1) /\ (zsum (pl_len <$> sg_pl w1) = 0 -> sg_pl w1 = [])) as [Hz Hz0]
    by (apply zsum_pl_nonneg; eapply Forall_impl; [exact Hpl|tauto]).
  assert (s32 (ciUser_remainLB (sg_req w1) - n) = pending its w1) as E.
  { rewrite Hr, Hl, Hpe. replace (n + pending its w1 - n) with (pending its w1) by lia. apply s32_small. unfold is_s32, pending in *. lia. }
  destruct Hs as [S1 S2 S3 S4 S5].
  destruct (decide (pending its w1 = 0)) as [H0|H0].
  - eexists _, _. split; [apply ReadPL_last; [done..|congruence]|]. split; [done|]. split; [done|]. split; [lia|]. intros _.
    unfold pending in H0. split.
    + split; try done. unfold true_proc in *. cbn -[s32 Z.testbit Z.setbit]. by rewrite Z.setbit_neq by lia.
    + apply Hz0. lia.
    + change (inval_left its w1 = 0). lia.
    + cbn -[s32]. rewrite Hi1, Hi2, Hb, S1. done.
    + cbn -[s32 outcomes]. rewrite Hi1, Hi2, Hb, S1, !outcomes_app, Ho. by destruct (s32 (R - lbid_len a) =? 0).
  - eexists _, _. split; [apply ReadPL_more; [done|congruence]|]. split; [done|]. split; [done|]. split; [|lia]. intros _. split.
    + by split.
    + done.
    + done.
    + done.
    + cbn -[s32]. exact E.
    + change (0 < pending its w1 < 2 ^ 31). unfold pending in *. lia.
    + cbn. by rewrite Hb.
    + done.
    + done.
Qed.

(** A payload request of a read left the pool; [w1] is the state its last callback sees. *)
Definition read_left (i : nat) (p : seg_pl) (data : bool) (w : seg_world) : seg_world :=
  let w := if data then
             let r := sg_req w in
             set_sg_calls (sg_calls w ++ [match pl_cb p with
                                          | CB_Read => C_cpData_bio (pl_lb p) (pl_len p) (pl_off p)
                                          | _ => C_cpData_wbuff (pl_lb p) (pl_len p) (pl_off p)
                                          end])
               (set_sg_req (set_MData (option_map (alter (upd_core MData_set_ciUser) (pl_item p)) (sr_MData r))
                              (num_invalMD_items r) r) w)
           else w in
  let w := set_sg_pl (delete i (sg_pl w)) w in
  set_sg_req (set_num_pReq (num_pReq (sg_req w) - 1) (sg_req w)) w.

Lemma read_end_eq i p data ioRes nf w :
  sg_pl w !! i = Some p -> pl_cb p = CB_Read \/ pl_cb p = CB_PartialW_Read ->
  seg_step (Ev_read_end i data ioRes nf) w =
    (match pl_cb p with
     | CB_Read => ioSReq_ReadPL_endfn (pl_lb p) (pl_len p) ioRes nf;; mret tt
     | _ => ioSReq_PartialW_ReadPL_endfn (pl_lb p) (pl_len p) ioRes nf;; mret tt
     end) (read_left i p data w).
Proof.
  intros Hi Hcb. cbn [seg_step]. unfold pl_at, gets, mbind at 1, thread_bind at 1. unfold mbind at 1, thread_bind at 1.
  rewrite Hi. cbn [mret thread_ret]. destruct Hcb as [E|E]; rewrite E; destruct data; unfold read_left; by rewrite ?E.
Qed.

Lemma read_left_steady its a dir i p data w : steady its a dir w -> steady its a dir (read_left i p data w).
Proof.
  intros [S1 S2 S3 (its' & S4 & S4') S5]. split; [destruct data; done..| |destruct data; done].
  destruct data; cbn; [|eauto]. rewrite S4. eexists. split; [done|]. by rewrite shape_alter.
Qed.

Lemma read_left_frame i p data w :
  sg_pl (read_left i p data w) = delete i (sg_pl w) /\ sg_inval (read_left i p data w) = sg_inval w /\
  outcomes (sg_calls (read_left i p data w)) = outcomes (sg_calls w).
Proof.
  destruct data; [|done]. split_and!; [done..|]. unfold read_left. cbn -[outcomes].
  by destruct (pl_cb p); rewrite outcomes_other.
Qed.

Lemma inval_left_nonneg its w : items_ok its -> 0 <= inval_left its w.
Proof.
  intros H. unfold inval_left. destruct (sg_inval w) as [[[i n] lb]|]; [|done]. apply blocks_of_nonneg.
  by apply Forall_drop.
Qed.

Lemma read_end_step its a res0 R b w i data ioRes nf :
  items_ok its -> reading its a CB_Read res0 R b w -> (i < length (sg_pl w))%nat ->
  exists w', seg_step (Ev_read_end i data ioRes nf) w = Returns w' tt /\
    length (sg_pl w) = S (length (sg_pl w')) /\ sg_inval w' = sg_inval w /\
    (reading its a CB_Read res0 R (b && ioRes) w' \/ read_done its a res0 R (b && ioRes) w').
Proof.
  intros Hok HR Hi. destruct (lookup_lt_is_Some_2 _ _ Hi) as [p Hp].
  pose proof HR as [Hs Hst Hci Hpl Hl Hpe Hr [Hi1 Hi2] Ho].
  destruct (Forall_lookup_1 _ _ _ _ Hpl Hp) as [Hcb Hn]. rewrite (read_end_eq i p) by auto. rewrite Hcb.
  destruct (read_left_frame i p data w) as (F1 & F2 & F3).
  assert (inval_left its (read_left i p data w) = inval_left its w) as F4 by (unfold inval_left; by rewrite F2).
  pose proof (inval_left_nonneg its w Hok) as Hil. pose proof (zsum_fmap_delete pl_len _ _ _ Hp) as Hz.
  assert (Forall (fun p => pl_cb p = CB_Read /\ 1 <= pl_len p) (delete i (sg_pl w))) as Hpl' by (by apply Forall_delete).
  assert (0 <= pending its (read_left i p data w)).
  { unfold pending. rewrite F1, F4. destruct (zsum_pl_nonneg (delete i (sg_pl w))) as [? _]; [|lia].
    eapply Forall_impl; [exact Hpl'|tauto]. }
  destruct (ReadPL_step its a res0 R b w (read_left i p data w) (pl_lb p) (pl_len p) ioRes nf HR)
    as (w' & z & E & P1 & P2 & P3 & P4).
  1: by apply read_left_steady.
  1-4: by destruct data.
  1: by rewrite F1.
  1-2: by destruct data.
  1: by rewrite F3.
  1: lia.
  1: lia.
  1: unfold pending; rewrite F1, F4; lia.
  rewrite (bind_returns _ _ _ _ _ E). eexists. split; [done|]. rewrite P1, F1, P2, F2. split; [rewrite length_delete by eauto; lia|]. split; [done|].
  destruct (decide (pending its (read_left i p data w) = 0)); [right; auto|left; apply P3; lia].
Qed.

(** A turn of the loop over the items. *)
Lemma inval_turn_eq its a dir w i n lb :
  steady its a dir w -> sg_inval w = Some (i, n, lb) -> (i < n)%nat ->
  exists it lb',
    let w1 := set_sg_inval (Some (S i, n, lb')) w in
    inval_turn w =
      (if is_valid it then mret tt
       else if decide (dir = KERNEL_IO_READ) then
         seg_do (C_zero2bio lb (num_hbids (md_core it)));;
         ioSReq_ReadPL_endfn lb (num_hbids (md_core it)) true 0;; mret tt
       else ioSReq_PartialW_ReadPL_endfn lb (num_hbids (md_core it)) true 0;; mret tt) w1 /\
    its !! i = Some it.
Proof.
  intros [S1 S2 S3 (its' & S4 & S4') S5] Hi Hlt. pose proof (S5 i n lb Hi) as ->.
  destruct (lookup_lt_is_Some_2 its i Hlt) as [it Hit].
  assert (exists it', its' !! i = Some it' /\ shape it' = shape it) as (it' & Hit' & Es).
  { assert ((shape <$> its') !! i = Some (shape it)) as H by (rewrite S4', list_lookup_fmap, Hit; done).
    rewrite list_lookup_fmap in H. destruct (its' !! i) as [it'|] eqn:E; [|done]. apply (inj Some) in H. eauto. }
  exists it, (u64 (lb + num_hbids (md_core it))). split; [|done]. injection Es as En Ev.
  unfold inval_turn, get_sr, gets, modify. unfold mbind at 1, thread_bind at 1. rewrite Hi, decide_False by lia.
  unfold mbind at 1, thread_bind at 1. rewrite S4. cbn [mbind option_bind]. rewrite Hit'.
  unfold mbind at 1, thread_bind at 1. rewrite En, Ev. destruct (is_valid it); [done|].
  unfold mbind at 1, thread_bind at 1. cbn [sg_req set_sg_inval]. rewrite S2. by case_decide.
Qed.

Lemma inval_left_step its w i n lb lb' it :
  sg_inval w = Some (i, n, lb) -> its !! i = Some it ->
  inval_left its w = (if is_valid it then 0 else num_hbids (md_core it)) +
                     inval_left its (set_sg_inval (Some (S i, n, lb')) w).
Proof.
  intros H Hit. unfold inval_left. rewrite H. cbn [sg_inval set_sg_inval]. rewrite (drop_S its it i) by done.
  rewrite blocks_of_cons. by destruct (is_valid it).
Qed.

(** The loop ended; nothing is left for it. *)
Lemma inval_end_eq its a dir w i n lb :
  steady its a dir w -> sg_inval w = Some (i, n, lb) -> ~ (i < n)%nat ->
  inval_turn w = Returns (set_sg_inval None w) tt /\ inval_left its w = 0.
Proof.
  intros [S1 S2 S3 _ S5] Hi Hlt. pose proof (S5 i n lb Hi) as ->. split.
  - unfold inval_turn, gets, mbind at 1, thread_bind at 1. rewrite Hi, decide_True by lia. done.
  - unfold inval_left. rewrite Hi, drop_ge by lia. done.
Qed.

Lemma steady_inval its a dir w c :
  steady its a dir w -> (forall i n lb, c = Some (i, n, lb) -> n = length its) -> steady its a dir (set_sg_inval c w).
Proof. intros [S1 S2 S3 S4 S5] H. by split. Qed.

(** How far the loop is: the turns it still needs at most. *)
Definition turns_left (w : seg_world) : nat :=
  match sg_inval w with None => 0 | Some (i, n, _) => n - i end.

Lemma inval_step its a res0 R b w :
  items_ok its -> reading its a CB_Read res0 R b w ->
  exists w', seg_step Ev_inval w = Returns w' tt /\ sg_pl w' = sg_pl w /\ (turns_left w' <= turns_left w - 1)%nat /\
    (reading its a CB_Read res0 R b w' \/ read_done its a res0 R b w').
Proof.
  intros Hok HR. pose proof HR as [Hs Hst Hci Hpl Hl Hpe Hr [Hi1 Hi2] Ho]. cbn [seg_step].
  destruct (sg_inval w) as [[[i n] lb]|] eqn:Ei.
  2:{ exists w. split; [unfold inval_turn, gets, mbind, thread_bind; by rewrite Ei|]. split; [done|].
      split; [unfold turns_left; rewrite Ei; lia|by left]. }
  destruct (decide (i < n)%nat) as [Hlt|Hlt].
  2:{ destruct (inval_end_eq its a _ w i n lb Hs Ei Hlt) as [-> H0]. eexists. split; [done|]. split; [done|].
      split; [unfold turns_left; rewrite Ei; simpl; lia|]. left. split; try done.
      - by apply steady_inval.
      - etrans; [exact Hl|]. unfold pending. by rewrite H0.
      - unfold pending in *. rewrite H0 in Hpe. exact Hpe. }
  destruct (inval_turn_eq its a _ w i n lb Hs Ei Hlt) as (it & lb' & E & Hit). cbn zeta in E.
  pose proof (inval_left_step its w i n lb lb' it Ei Hit) as Hleft. set (w1 := set_sg_inval (Some (S i, n, lb')) w) in *.
  assert (steady its a KERNEL_IO_READ w1) as Hs1.
  { apply steady_inval; [done|]. intros j m l [= <- <- <-]. exact (sd_inval _ _ _ _ Hs _ _ _ Ei). }
  assert (turns_left w1 <= turns_left w - 1)%nat as Ht by (unfold turns_left, w1; rewrite Ei; simpl; lia).
  pose proof (Forall_lookup_1 _ _ _ _ Hok Hit) as Hn. simpl in Hn.
  destruct (is_valid it) eqn:Ev.
  - rewrite E. eexists. split; [done|]. split; [done|]. split; [done|]. left. rewrite Z.add_0_l in Hleft.
    split; try done; unfold pending in *; rewrite Hleft in *; done.
  - rewrite decide_True in E by done.
    set (w2 := set_sg_calls (sg_calls w1 ++ [C_zero2bio lb (num_hbids (md_core it))]) w1).
    destruct (ReadPL_step its a res0 R b w w2 lb (num_hbids (md_core it)) true 0 HR) as (w' & z & E' & P1 & P2 & P3 & P4); try done.
    + destruct Hs1 as [S1 S2 S3 S4 S5]. by split.
    + unfold w2. cbn -[outcomes]. by rewrite outcomes_other.
    + lia.
    + by apply inval_left_nonneg.
    + change (pending its w2) with (pending its w1). unfold pending. rewrite Hleft.
      change (sg_pl w1) with (sg_pl w). lia.
    + exists w'. rewrite E. unfold seg_do, modify, mbind at 1, thread_bind at 1. fold w2.
      rewrite (bind_returns _ _ _ _ _ E'). split; [done|]. split; [by rewrite P1|].
      split; [unfold turns_left in *; by rewrite P2|]. rewrite andb_true_r in *.
      destruct (decide (pending its w2 = 0)); [right; auto|left; apply P3].
      assert (0 <= pending its w2); [|lia]. unfold pending.
      destruct (zsum_pl_nonneg (sg_pl w2)) as [? _]; [eapply Forall_impl; [exact Hpl|tauto]|].
      pose proof (inval_left_nonneg its w2 Hok). lia.
Qed.

Lemma done_inval_step its a res0 R b w :
  items_ok its -> read_done its a res0 R b w ->
  exists w', seg_step Ev_inval w = Returns w' tt /\ (turns_left w' <= turns_left w - 1)%nat /\ read_done its a res0 R b w'.
Proof.
  intros Hok HR. pose proof HR as [Hs Hpl Hil Hio Ho]. cbn [seg_step].
  destruct (sg_inval w) as [[[i n] lb]|] eqn:Ei.
  2:{ exists w. split; [unfold inval_turn, gets, mbind, thread_bind; by rewrite Ei|].
      split; [unfold turns_left; rewrite Ei; lia|done]. }
  destruct (decide (i < n)%nat) as [Hlt|Hlt].
  2:{ destruct (inval_end_eq its a _ w i n lb Hs Ei Hlt) as [-> H0]. eexists. split; [done|].
      split; [unfold turns_left; rewrite Ei; simpl; lia|]. split; try done. by apply steady_inval. }
  destruct (inval_turn_eq its a _ w i n lb Hs Ei Hlt) as (it & lb' & E & Hit). cbn zeta in E.
  pose proof (inval_left_step its w i n lb lb' it Ei Hit) as Hleft.
  pose proof (inval_left_nonneg its (set_sg_inval (Some (S i, n, lb')) w) Hok).
  pose proof (Forall_lookup_1 _ _ _ _ Hok Hit) as Hn. simpl in Hn.
  destruct (is_valid it) eqn:Ev; [|lia]. rewrite E. eexists. split; [done|].
  split; [unfold turns_left; rewrite Ei; simpl; lia|]. split; try done; [|lia]. apply steady_inval; [done|].
  intros j m l [= <- <- <-]. exact (sd_inval _ _ _ _ Hs _ _ _ Ei).
Qed.

(** What may happen in the read phase while [k] payload requests are on their way: they end in any
    order, with any results, and the loop over the items proceeds in between. *)
Fixpoint r_legal (k : nat) (evs : list seg_ev) : Prop :=
  match evs with
  | [] => True
  | Ev_inval :: evs => r_legal k evs
  | Ev_read_end i _ _ _ :: evs => (i < k)%nat /\ r_legal (k - 1) evs
  | _ => False
  end.

Definition ev_result (e : seg_ev) : bool := match e with Ev_read_end _ _ r _ | Ev_write_ciUser _ r => r | _ => true end.
Definition results (evs : list seg_ev) : bool := forallb ev_result evs.
Definition is_read_end (e : seg_ev) : bool := match e with Ev_read_end _ _ _ _ => true | _ => false end.
Definition is_inval (e : seg_ev) : bool := match e with Ev_inval => true | _ => false end.
Definition count (f : seg_ev -> bool) (evs : list seg_ev) : nat := length (filter (fun e => f e = true) evs).

Lemma count_cons f e evs : count f (e :: evs) = ((if f e then 1 else 0) + count f evs)%nat.
Proof. unfold count. rewrite filter_cons. by destruct (f e). Qed.

Lemma seg_run_cons e evs w w' : seg_step e w = Returns w' tt -> seg_run (e :: evs) w = seg_run evs w'.
Proof. intros H. cbn [seg_run]. by rewrite (bind_returns _ _ _ _ _ H). Qed.

Lemma done_run its a res0 R b evs w :
  items_ok its -> read_done its a res0 R b w -> r_legal 0 evs ->
  exists w', seg_run evs w = Returns w' tt /\ read_done its a res0 R (b && results evs) w'.
Proof.
  intros Hok. revert w. induction evs as [|e evs IH]; intros w HR HL.
  { exists w. split; [done|]. by rewrite andb_true_r. }
  destruct e; try done; [|by destruct HL; lia].
  destruct (done_inval_step _ _ _ _ _ _ Hok HR) as (w1 & E & _ & HR1). rewrite (seg_run_cons _ _ _ _ E). by apply IH.
Qed.

Lemma read_run its a res0 R b evs w :
  items_ok its -> reading its a CB_Read res0 R b w -> r_legal (length (sg_pl w)) evs ->
  exists w', seg_run evs w = Returns w' tt /\
    (read_done its a res0 R (b && results evs) w' \/
     reading its a CB_Read res0 R (b && results evs) w' /\
     (length (sg_pl w) = count is_read_end evs + length (sg_pl w'))%nat /\
     (turns_left w' <= turns_left w - count is_inval evs)%nat).
Proof.
  intros Hok. revert b w. induction evs as [|e evs IH]; intros b w HR HL.
  { exists w. split; [done|]. right. cbn. rewrite andb_true_r. split_and!; [done|lia|lia]. }
  rewrite !count_cons. destruct e; try done.
  - destruct (inval_step _ _ _ _ _ _ Hok HR) as (w1 & E & P1 & P2 & [HR1|HR1]); rewrite (seg_run_cons _ _ _ _ E).
    + rewrite <- P1 in HL. destruct (IH b w1 HR1 HL) as (w' & E' & [HD|(HR' & C1 & C2)]); exists w'; (split; [done|]); [by left|right].
      rewrite P1 in C1. cbn. split_and!; [done|lia|lia].
    + destruct (done_run its a res0 R b evs w1 Hok HR1) as (w' & E' & HD); [|eauto].
      cbn in HL. rewrite <- P1, (dn_pl _ _ _ _ _ _ HR1) in HL. done.
  - destruct HL as [Hi HL].
    destruct (read_end_step its a res0 R b w i data ioRes numFailDN Hok HR Hi) as (w1 & E & P1 & P2 & [HR1|HR1]);
      rewrite (seg_run_cons _ _ _ _ E).
    + replace (length (sg_pl w) - 1)%nat with (length (sg_pl w1)) in HL by lia.
      destruct (IH _ w1 HR1 HL) as (w' & E' & HI). exists w'. split; [done|].
      change (results (Ev_read_end i data ioRes numFailDN :: evs)) with (ioRes && results evs).
      rewrite <- andb_assoc in HI. destruct HI as [HD|(HR' & C1 & C2)]; [by left|right].
      unfold turns_left in *. rewrite P2 in C2. split_and!; [done|cbn; lia|exact C2].
    + rewrite P1, (dn_pl _ _ _ _ _ _ HR1) in HL.
      destruct (done_run its a res0 R _ evs w1 Hok HR1 HL) as (w' & E' & HD). exists w'. split; [done|]. left.
      change (results (Ev_read_end i data ioRes numFailDN :: evs)) with (ioRes && results evs). by rewrite andb_assoc.
Qed.

(** ** From the submission on *)

Definition seg0 (a : UserIO_addr_t) (dir : iorw_dir_t) (res0 : bool) (R : Z) : seg_world :=
  {| sg_req := ioSReq_init_request a dir; sg_ioResult := res0; sg_io_ciUser_remainLB := R; sg_pl := []; sg_leaves := [];
     sg_inval := None; sg_mem := []; sg_calls := [] |}.

(** A segment that waits for its metadata. *)
Record waiting (a : UserIO_addr_t) (dir op : iorw_dir_t) (st : IOSegREQ_FSM_state_t) (ovw : bool) (res0 : bool) (R : Z)
    (w : seg_world) : Prop := {
  wt_addr : sr_addr (sg_req w) = a;
  wt_dir : io_dir_true (sg_req w) = dir;
  wt_op : sr_ReqOPCode (sg_req w) = op;
  wt_stat : st_is st (sg_req w);
  wt_true : true_proc (sg_req w) = false;
  wt_ci : ci_user (sg_req w) = false;
  wt_ovw : Z.testbit (sr_fea (sg_req w)) 1 = ovw;
  wt_user : ciUser_remainLB (sg_req w) = lbid_len a;
  wt_mds : ciMDS_remainLB (sg_req w) = lbid_len a;
  wt_res : ciUser_result (sg_req w) = true;
  wt_io : sg_ioResult w = res0 /\ sg_io_ciUser_remainLB w = R;
  wt_pl : sg_pl w = [];
  wt_mem : sg_mem w = [];
  wt_inval : forall i n lb, sg_inval w = Some (i, n, lb) -> (n <= i)%nat;
  wt_out : outcomes (sg_calls w) = [];
}.

Lemma set_request_spec a dir res0 R off ovw hit al :
  0 < lbid_len a < 2 ^ 31 ->
  let partial := negb al && bool_decide (dir = KERNEL_IO_WRITE) in
  exists w, ioSReq_set_request off ovw hit al (seg0 a dir res0 R) = Returns w 0 /\ sg_inval w = None /\ sg_calls w = [] /\
    waiting a dir (if partial then KERNEL_IO_READ else dir)
      (if partial then IOSegREQ_S_R_AcqMD else match dir with KERNEL_IO_READ => IOSegREQ_S_R_AcqMD | _ => IOSegREQ_S_W_AcqMD end)
      ovw res0 R w.
Proof.
  intros Hl. assert (s32 (lbid_len a) = lbid_len a) as Es by (apply s32_small; unfold is_s32; lia).
  unfold seg0, ioSReq_init_request. rewrite Es.
  destruct ovw, hit, al, dir; cbn zeta;
    match goal with |- exists w, ?m = _ /\ _ => let v := eval vm_compute in m in replace m with v by (vm_compute; reflexivity) end;
    (eexists; split; [reflexivity|]; split; [reflexivity|]; split; [reflexivity|]); split; (reflexivity || by split || discriminate).
Qed.

Lemma blocks_total its : blocks_of true its + blocks_of false its = zsum ((fun it => num_hbids (md_core it)) <$> its).
Proof.
  induction its as [|it its IH]; [done|]. rewrite !blocks_of_cons, fmap_cons, zsum_cons, <- IH.
  by destruct (is_valid it); repeat case_bool_decide; try done; lia.
Qed.

Lemma items_ok_upd f its :
  (forall md, num_hbids (f md) = num_hbids md) -> items_ok its -> items_ok (map (upd_core f) its).
Proof.
  intros Hf. induction 1 as [|it its H _ IH]; [by constructor|]. cbn [map]. constructor; [cbn; by rewrite Hf|done].
Qed.

Lemma valid_shape its its' :
  shape <$> its = shape <$> its' ->
  length (filter (fun it => is_valid it = true) its) = length (filter (fun it => is_valid it = true) its').
Proof.
  revert its'. induction its as [|it its IH]; intros [|it' its'] H; try done.
  rewrite !fmap_cons in H. injection H as H1 H2 H3. rewrite !filter_cons, H2. case_decide; cbn; by rewrite (IH its' H3).
Qed.

(** The metadata arrive and the read phase starts. *)
Lemma acquired_reading a dir ovw res0 R its ninval w :
  waiting a dir KERNEL_IO_READ IOSegREQ_S_R_AcqMD ovw res0 R w -> sg_inval w = None ->
  0 < lbid_len a < 2 ^ 31 -> items_ok its -> zsum ((fun it => num_hbids (md_core it)) <$> its) = lbid_len a ->
  let cb := if decide (dir = KERNEL_IO_READ) then CB_Read else CB_PartialW_Read in
  exists w', seg_step (Ev_acquired its ninval 0) w = Returns w' tt /\ reading its a cb res0 R true w' /\
    length (sg_pl w') = length (filter (fun it => is_valid it = true) its) /\ (turns_left w' <= length its)%nat /\
    ciMDS_remainLB (sg_req w') = lbid_len a /\ Z.testbit (sr_fea (sg_req w')) 1 = ovw /\ sg_mem w' = [] /\
    (blocks_of false its = 0 -> sg_inval w' = None) /\
    (0 < blocks_of false its -> sg_inval w' = Some (0%nat, length its, lbid_start a)) /\
    (nowrite w -> nowrite w').
Proof.
  intros [W1 W2 W3 W4 W5 W6 W7 W8 W9 W10 [W11 W12] W13 W14 W15 W16] Hni Hl Hok Hsum cb.
  set (its1 := map (upd_core (fun md => update_item_UDataStat md UData_S_INIT)) its).
  assert (shape <$> its1 = shape <$> its) as Hsh by (by apply shape_upd).
  assert (items_ok its1) as Hok1 by (by apply items_ok_upd).
  set (w1 := set_sg_req (set_MData (Some its1) ninval
               (to_state IOSegREQ_S_RUD (set_MData (Some its) ninval (sg_req w)))) w).
  set (ps := read_pls cb its1 0 (sr_payload_offset (sg_req w))).
  assert (seg_step (Ev_acquired its ninval 0) w =
          Returns (if blocks_of false its >? 0 then set_sg_inval (Some (0%nat, length its, lbid_start a)) (add_pls C_read_payload ps w1)
                   else add_pls C_read_payload ps w1) tt) as E.
  { cbn [seg_step]. unfold ioSReq_acquireMD_endfn, check_metadata_status. unfold upd_sr, get_sr, gets, modify, grants, seg_event.
    unfold mbind, thread_bind, mret, thread_ret. cbn -[Z.gtb PLMgr_read_payload update_metadata_UDataStat IOSegReq_update_state].
    assert (forall x, (if x =? 0 then fun s : seg_world => Returns s false
                   else fun s => Returns s (bool_decide (sr_ReqOPCode (sg_req s) = KERNEL_IO_WRITE)))
              (set_sg_req (set_MData (Some its) ninval (sg_req w)) w) =
            Returns (set_sg_req (set_MData (Some its) ninval (sg_req w)) w) false) as ->.
    { intros x. destruct (x =? 0); [done|]. cbn. by rewrite W3. }
    cbn -[Z.gtb PLMgr_read_payload update_metadata_UDataStat IOSegReq_update_state]. rewrite W3.
    unfold IOSegReq_update_state, _update_ioSegReqState_lockless. cbn -[Z.gtb PLMgr_read_payload update_metadata_UDataStat].
    unfold st_is in W4. rewrite W4. cbn -[Z.gtb PLMgr_read_payload update_metadata_UDataStat].
    rewrite bool_decide_true by done.
    unfold update_metadata_UDataStat, upd_items, upd_sr, modify. cbn -[Z.gtb PLMgr_read_payload]. rewrite W2. fold cb.
    unfold PLMgr_read_payload, get_sr, gets, mbind, thread_bind. cbn -[Z.gtb read_payload_loop].
    fold its1. change (sr_payload_offset (sg_req w)) with (sr_payload_offset (sg_req w1)).
    pose proof (blocks_of_nonneg true its Hok). pose proof (blocks_total its).
    erewrite read_payload_spec; [|done|done|lia|rewrite (blocks_of_shape _ _ _ Hsh); lia].
    rewrite Z.add_0_l, (blocks_of_shape _ _ _ Hsh). fold ps.
    destruct (blocks_of false its >? 0); [|done]. cbn. by rewrite W1. }
  destruct (read_pls_spec cb its1 0 (sr_payload_offset (sg_req w)) Hok1) as (Q1 & Q2 & Q3). fold ps in Q1, Q2, Q3.
  rewrite (blocks_of_shape _ _ _ Hsh) in Q1. rewrite (valid_shape _ _ Hsh) in Q3.
  pose proof (blocks_of_nonneg false its Hok) as Hnn. pose proof (blocks_total its) as Htot.
  rewrite E. eexists. split; [done|].
  set (w' := if blocks_of false its >? 0 then _ else _).
  assert (sg_req w' = sg_req (add_pls C_read_payload ps w1) /\ sg_pl w' = ps /\ sg_ioResult w' = res0 /\
          sg_io_ciUser_remainLB w' = R /\ outcomes (sg_calls w') = [] /\ sg_mem w' = [] /\ inval_left its w' = blocks_of false its /\
          (forall i n lb, sg_inval w' = Some (i, n, lb) -> n = length its) /\ (turns_left w' <= length its)%nat /\
          (blocks_of false its = 0 -> sg_inval w' = None) /\
          (0 < blocks_of false its -> sg_inval w' = Some (0%nat, length its, lbid_start a)) /\ (nowrite w -> nowrite w'))
    as (F1 & F2 & F3 & F4 & F5 & F6 & F7 & F8 & F9 & F10 & F11 & F12).
  { assert (outcomes (sg_calls (add_pls C_read_payload ps w1)) = []) as Ho.
    { cbn -[outcomes]. by rewrite outcomes_app, W16, outcomes_pls. }
    assert (sg_pl (add_pls C_read_payload ps w1) = ps) as Hp by (cbn; by rewrite W13).
    pose proof (nowrite_reads ps w1 : nowrite w -> _) as Hnw.
    unfold w', inval_left, turns_left. destruct (blocks_of false its >? 0) eqn:Eb.
    - split_and!; try done; cbn [sg_inval set_sg_inval]; [by intros i n lb [= _ <- _]|lia|lia].
    - assert (blocks_of false its = 0) by lia. cbn [sg_inval add_pls set_sg_calls set_sg_pl set_sg_req w1]. rewrite Hni.
      split_and!; try done; lia. }
  clearbody w'. split_and!; rewrite ?F1, ?F2; try done. split.
  - split; rewrite ?F1; try done; [by unfold cb; destruct dir|]. exists its1. by split.
  - by rewrite F1.
  - unfold ci_user. by rewrite F1.
  - by rewrite F2.
  - unfold pending. rewrite F1, F2, F7, Q1. cbn. rewrite W8. lia.
  - unfold pending. rewrite F2, F7, Q1. lia.
  - rewrite F1. done.
  - done.
  - done.
Qed.

(** The segment from its submission to the events that follow the answer of the namenode. *)
Definition seg_life (off : Z) (ovw hit al : bool) (evs : list seg_ev) : sg unit :=
  ioSReq_set_request off ovw hit al;; seg_run evs.

(** C24: a read gives its IO request one result, when all its blocks are there.  For every split of the
    blocks into metadata items, with or without valid metadata, and every order in which the
    payload requests end and the loop over the blocks without metadata proceeds: no
    callback leaves an array or waits; as long as a block is missing the IO request hears
    nothing; when none is missing it has been given the number of blocks once and the
    conjunction of all results once, with which the user gets his answer if this was the last
    segment; and when all payload requests have ended and the loop is through, no block is
    missing. *)
Theorem read_segment_exact (a : UserIO_addr_t) (res0 : bool) (R off : Z) (ovw hit al : bool) (its : list mdItem_t) (ninval : Z)
    (evs : list seg_ev) :
  0 < lbid_len a < 2 ^ 31 -> items_ok its -> zsum ((fun it => num_hbids (md_core it)) <$> its) = lbid_len a ->
  r_legal (length (filter (fun it => is_valid it = true) its)) evs ->
  exists w, seg_life off ovw hit al (Ev_acquired its ninval 0 :: evs) (seg0 a KERNEL_IO_READ res0 R) = Returns w tt /\
    (0 < pending its w -> sg_ioResult w = res0 /\ sg_io_ciUser_remainLB w = R /\ outcomes (sg_calls w) = []) /\
    (pending its w = 0 ->
       sg_ioResult w = res0 && results evs /\ sg_io_ciUser_remainLB w = s32 (R - lbid_len a) /\
       outcomes (sg_calls w) =
         (if s32 (R - lbid_len a) =? 0 then [C_ioReq_commit_user (res0 && results evs)] else []) ++
         [C_ioReq_IODone (lbid_len a)]) /\
    (count is_read_end evs = length (filter (fun it => is_valid it = true) its) -> (length its <= count is_inval evs)%nat ->
     pending its w = 0).
Proof.
  intros Hl Hok Hsum HL.
  destruct (set_request_spec a KERNEL_IO_READ res0 R off ovw hit al Hl) as (w0 & E0 & Hni & _ & HW).
  rewrite andb_false_r in HW.
  destruct (acquired_reading a _ ovw res0 R its ninval w0 HW) as (w1 & E1 & HR & Hn & Ht & _); try done.
  rewrite decide_True in HR by done. rewrite <- Hn in HL.
  destruct (read_run _ _ _ _ _ _ _ Hok HR HL) as (w & E & HI). exists w. split.
  { unfold seg_life. rewrite (bind_returns _ _ _ _ _ E0), (seg_run_cons _ _ _ _ E1). exact E. }
  destruct HI as [[Ds Dp Di [Dr1 Dr2] Do]|([Hs Hst Hci Hpl Hlf Hpe Hr [Hi1 Hi2] Ho] & C1 & C2)].
  - assert (pending its w = 0) by (unfold pending; by rewrite Dp, Di). split; [lia|]. split; [done|done].
  - split; [done|]. split; [lia|]. intros Hc1 Hc2. exfalso. unfold pending in Hpe.
    assert (length (sg_pl w) = 0%nat) as Hz by lia. apply nil_length_inv in Hz. rewrite Hz in Hpe.
    unfold turns_left in C2, Ht. unfold inval_left in Hpe. destruct (sg_inval w) as [[[i n] lb]|] eqn:Ei; [|cbn in Hpe; lia].
    rewrite (sd_inval _ _ _ _ Hs _ _ _ Ei) in C2. rewrite drop_ge in Hpe by lia. cbn in Hpe. lia.
Qed.

(** *** Example: four blocks in two items, one of them without metadata *)

Definition ex_addr (s n : Z) : UserIO_addr_t :=
  {| metaSrv_ipaddr := 0; metaSrv_port := 0; volumeID := 1; lbid_len := n; lbid_start := s |}.
Definition ex_md (st : MData_state_t) (lb n : Z) : mdItem_t :=
  {| md_core := MData_init_MDItem lb n 2 false false false; mdata_stat := st; arr_HBID := []; md_dnLoc := [] |}.
Definition ex_its : list mdItem_t := [ex_md MData_VALID 100 2; ex_md MData_INVALID 102 1; ex_md MData_VALID_LESS_REPLICA 103 1].
Definition ex_evs : list seg_ev :=
  [Ev_inval; Ev_read_end 1 true true 0; Ev_inval; Ev_inval; Ev_read_end 0 true true 1; Ev_inval].

Lemma ex_its_ok : items_ok ex_its.
Proof. unfold items_ok, ex_its. rewrite !Forall_cons, Forall_nil. cbn. lia. Qed.

Lemma read_segment_exact_witness :
  exists w, seg_life 0 true false true (Ev_acquired ex_its 1 0 :: ex_evs) (seg0 (ex_addr 100 4) KERNEL_IO_READ true 4) = Returns w tt /\
    outcomes (sg_calls w) = [C_ioReq_commit_user true; C_ioReq_IODone 4].
Proof.
  destruct (read_segment_exact (ex_addr 100 4) true 4 0 true false true ex_its 1 ex_evs) as (w & E & _ & H2 & H3);
    [cbn; lia|exact ex_its_ok|reflexivity|vm_compute; lia|].
  exists w. split; [exact E|]. destruct H2 as (_ & _ & ->); [apply H3; [reflexivity|vm_compute; lia]|]. reflexivity.
Defined.
