(* ===== verification/IOSegReqWrite.v ===== *)
(** * IOSegReqWrite: the write phase of a segment, and partial writes

    A write tells its user result when every payload request told its own, and the end when every
    payload request ended; a partial write first reads all its blocks, then writes them.  The
    runs in which outdated metadata or a failing read break these promises. *)

From S2P Require Import Prelude CommonUtil Fsm IOSegReqFsm MDataCommit MDItems NNProto NNReport IOReqOvlp IOSegReq IOSegReqSpec.

(** ** The write phase *)

Definition untold_len (p : seg_pl) : Z := match pl_cb p with CB_Write false => pl_len p | _ => 0 end.
Definition untold (l : list seg_pl) : Z := zsum (untold_len <$> l).
Definition total (l : list seg_pl) : Z := zsum (pl_len <$> l).

Lemma untold_bounds l : Forall (fun p => 1 <= pl_len p) l -> 0 <= untold l <= total l.
Proof.
  unfold untold, total. induction 1 as [|p l H _ IH]; [done|]. rewrite !fmap_cons, !zsum_cons.
  unfold untold_len at 1 3. destruct (pl_cb p) as [| |[]|]; lia.
Qed.

Definition ci_part (a : UserIO_addr_t) (res0 b : bool) (R : Z) : list seg_call :=
  if s32 (R - lbid_len a) =? 0 then [C_ioReq_commit_user (res0 && b)] else [].

(** [told]: which payload requests have told their user result; [b]: the conjunction of these. *)
Record writing (a : UserIO_addr_t) (res0 : bool) (R : Z) (b : bool) (told : list bool) (w : seg_world) : Prop := {
  wr_addr : sr_addr (sg_req w) = a;
  wr_stat : st_is IOSegREQ_S_WUD (sg_req w);
  wr_cb : pl_cb <$> sg_pl w = CB_Write <$> told;
  wr_len : Forall (fun p => 1 <= pl_len p) (sg_pl w);
  wr_some : 0 < total (sg_pl w) < 2 ^ 31;
  wr_user : ciUser_remainLB (sg_req w) = untold (sg_pl w);
  wr_mds : ciMDS_remainLB (sg_req w) = total (sg_pl w);
  wr_res : ciUser_result (sg_req w) = b;
  wr_ci : ci_user (sg_req w) = bool_decide (untold (sg_pl w) = 0);
  wr_io : sg_ioResult w = (if decide (untold (sg_pl w) = 0) then res0 && b else res0) /\
          sg_io_ciUser_remainLB w = (if decide (untold (sg_pl w) = 0) then s32 (R - lbid_len a) else R);
  wr_out : outcomes (sg_calls w) = if decide (untold (sg_pl w) = 0) then ci_part a res0 b R else [];
  wr_inval : forall i n lb, sg_inval w = Some (i, n, lb) -> (n <= i)%nat;
}.

Record write_done (a : UserIO_addr_t) (res0 : bool) (R : Z) (b : bool) (w : seg_world) : Prop := {
  wd_pl : sg_pl w = [];
  wd_io : sg_ioResult w = res0 && b /\ sg_io_ciUser_remainLB w = s32 (R - lbid_len a);
  wd_out : outcomes (sg_calls w) = ci_part a res0 b R ++ [C_ioReq_IODone (lbid_len a)];
  wd_inval : forall i n lb, sg_inval w = Some (i, n, lb) -> (n <= i)%nat;
}.

Lemma inval_over w :
  (forall i n lb, sg_inval w = Some (i, n, lb) -> (n <= i)%nat) ->
  seg_step Ev_inval w = Returns (match sg_inval w with Some _ => set_sg_inval None w | None => w end) tt.
Proof.
  intros H. cbn [seg_step]. unfold inval_turn, gets, mbind, thread_bind. destruct (sg_inval w) as [[[i n] lb]|] eqn:E; [|done].
  rewrite decide_True by (by eapply H). done.
Qed.

Lemma ciUser_step a res0 R b told w i ioRes :
  writing a res0 R b told w -> told !! i = Some false ->
  exists w', seg_step (Ev_write_ciUser i ioRes) w = Returns w' tt /\ writing a res0 R (b && ioRes) (<[i := true]> told) w'.
Proof.
  intros [W1 W2 W3 W4 W5 W6 W7 W8 W9 [W10 W10'] W11 W12] Hi.
  assert (exists p, sg_pl w !! i = Some p /\ pl_cb p = CB_Write false) as (p & Hp & Hcb).
  { assert ((pl_cb <$> sg_pl w) !! i = Some (CB_Write false)) as H by (rewrite W3, list_lookup_fmap, Hi; done).
    rewrite list_lookup_fmap in H. destruct (sg_pl w !! i) as [p|]; [|done]. apply (inj Some) in H. eauto. }
  set (q := set_pl_cb (CB_Write true) p). set (l' := <[i := q]> (sg_pl w)).
  pose proof (Forall_lookup_1 _ _ _ _ W4 Hp) as Hn. simpl in Hn.
  assert (untold l' = untold (sg_pl w) - pl_len p) as Hu.
  { unfold untold, l'. rewrite (zsum_fmap_insert _ _ _ p) by done. unfold untold_len at 2 3. rewrite Hcb. cbn. lia. }
  assert (total l' = total (sg_pl w)) as Ht.
  { unfold total, l'. rewrite (zsum_fmap_insert _ _ _ p) by done. cbn. lia. }
  assert (Forall (fun p => 1 <= pl_len p) l') as Hl' by (by apply Forall_insert).
  pose proof (untold_bounds l' Hl'). pose proof (untold_bounds _ W4).
  assert (untold (sg_pl w) <> 0) as Hne by lia. rewrite bool_decide_false in W9 by done. 
  rewrite decide_False in W10 by done. rewrite decide_False in W10' by done. rewrite decide_False in W11 by done.
  assert (s32 (ciUser_remainLB (sg_req w) - pl_len p) = untold l') as Es.
  { rewrite W6, <- Hu. apply s32_small. unfold is_s32. lia. }
  assert (pl_cb <$> l' = CB_Write <$> <[i := true]> told) as Hc'.
  { unfold l'. by rewrite list_fmap_insert, list_fmap_insert, W3. }
  set (w1 := set_sg_req (set_ciUser_remainLB (untold l') (set_ciUser_result (b && ioRes) (sg_req w))) (set_sg_pl l' w)).
  assert (seg_step (Ev_write_ciUser i ioRes) w =
          Returns (if untold l' =? 0 then give (b && ioRes) w1 else w1) tt) as E.
  { cbn [seg_step]. unfold pl_at, gets, mbind at 1, thread_bind at 1. unfold mbind at 1, thread_bind at 1.
    rewrite Hp. cbn [mret thread_ret]. rewrite Hcb. unfold ioSReq_WritePL_ciUser, and_ciUser_result, sub_ciUser.
    unfold upd_sr, get_sr, gets, modify, mbind, thread_bind, mret, thread_ret.
    cbn -[s32 ioSReq_commit_user give insert]. rewrite Es, W8. fold q l'.
    change (set_sg_req _ _) with w1. destruct (untold l' =? 0); [|done].
    cbn -[ioSReq_commit_user give]. rewrite commit_user_spec by done. done. }
  rewrite E. eexists. split; [done|]. destruct (untold l' =? 0) eqn:E0.
  - assert (untold l' = 0) as Hz by lia. split; cbn -[s32 outcomes Z.testbit Z.setbit insert total untold]; fold l'; rewrite ?Hz; try done.
    + by rewrite Ht.
    + by rewrite W7, Ht.
    + unfold ci_user. cbn -[Z.testbit Z.setbit s32]. by rewrite Z.setbit_eq.
    + rewrite !decide_True by done. by rewrite W10, W10', W1.
    + rewrite decide_True by done. unfold ci_part. rewrite outcomes_app, W10, W10', W11, W1. by destruct (s32 (R - lbid_len a) =? 0).
  - assert (untold l' <> 0) as Hz by lia. split; cbn -[s32 outcomes insert total untold]; fold l'; try done.
    + by rewrite Ht.
    + by rewrite W7, Ht.
    + by rewrite bool_decide_false.
    + by rewrite !decide_False.
    + by rewrite decide_False.
Qed.

Lemma write_end_step a res0 R b told w i ioRes nf :
  writing a res0 R b told w -> told !! i = Some true ->
  exists w', seg_step (Ev_write_end i ioRes nf) w = Returns w' tt /\
    ((delete i told <> [] /\ writing a res0 R b (delete i told) w') \/ (delete i told = [] /\ write_done a res0 R b w')).
Proof.
  intros [W1 W2 W3 W4 W5 W6 W7 W8 W9 [W10 W10'] W11 W12] Hi.
  assert (exists p, sg_pl w !! i = Some p /\ pl_cb p = CB_Write true) as (p & Hp & Hcb).
  { assert ((pl_cb <$> sg_pl w) !! i = Some (CB_Write true)) as H by (rewrite W3, list_lookup_fmap, Hi; done).
    rewrite list_lookup_fmap in H. destruct (sg_pl w !! i) as [p|]; [|done]. apply (inj Some) in H. eauto. }
  set (l' := delete i (sg_pl w)). pose proof (Forall_lookup_1 _ _ _ _ W4 Hp) as Hn. simpl in Hn.
  assert (untold l' = untold (sg_pl w)) as Hu.
  { unfold untold, l'. rewrite (zsum_fmap_delete untold_len (sg_pl w) i p) by done. unfold untold_len at 2. rewrite Hcb. lia. }
  assert (total (sg_pl w) = pl_len p + total l') as Ht by (by apply zsum_fmap_delete).
  assert (Forall (fun p => 1 <= pl_len p) l') as Hl' by (by apply Forall_delete).
  pose proof (untold_bounds l' Hl') as Hb.
  assert (pl_cb <$> l' = CB_Write <$> delete i told) as Hc'.
  { unfold l'. by rewrite !list_fmap_delete, W3. }
  assert (delete i told = [] <-> total l' = 0) as Hem.
  { destruct (zsum_pl_nonneg l' Hl') as [_ Hz]. split; intros H.
    - rewrite H in Hc'. destruct l'; [done|discriminate].
    - specialize (Hz H). rewrite Hz in Hc'. by destruct (delete i told). }
  assert (s32 (ciMDS_remainLB (sg_req w) - pl_len p) = total l') as Es.
  { rewrite W7, Ht. replace (pl_len p + total l' - pl_len p) with (total l') by lia. apply s32_small. unfold is_s32. lia. }
  set (w1 := set_sg_req (set_ciMDS_remainLB (total l') (set_num_pReq (num_pReq (sg_req w) - 1) (sg_req w))) (set_sg_pl l' w)).
  assert (seg_step (Ev_write_end i ioRes nf) w =
          Returns (if total l' =? 0 then done_call (set_sg_req (to_state IOSegREQ_S_CI2IOR (sg_req w1)) w1) else w1) tt) as E.
  { cbn [seg_step]. unfold pl_at, gets, mbind at 1, thread_bind at 1. unfold mbind at 1, thread_bind at 1.
    rewrite Hp. cbn [mret thread_ret]. rewrite Hcb. unfold ioSReq_rm_payloadReq, ioSReq_WritePL_endfn, sub_ciMDS.
    unfold upd_sr, get_sr, gets, modify, mbind, thread_bind, mret, thread_ret. cbn -[s32 grants ioReq_IODone delete].
    fold l'. rewrite Es. destruct (total l' =? 0); [|done]. cbn -[s32 grants ioReq_IODone].
    unfold grants, seg_event, IOSegReq_update_state, _update_ioSegReqState_lockless, mbind, thread_bind.
    unfold st_is in W2. cbn -[ioReq_IODone]. rewrite W2. cbn -[ioReq_IODone]. rewrite bool_decide_true by done. done. }
  rewrite E. eexists. split; [done|]. destruct (total l' =? 0) eqn:E0.
  - assert (total l' = 0) as Hz by lia. right. split; [by apply Hem|]. assert (untold (sg_pl w) = 0) as Hz0 by lia.
    rewrite decide_True in W10 by done. rewrite decide_True in W10' by done. rewrite decide_True in W11 by done.
    split; cbn -[outcomes s32]; try done.
    + apply (zsum_pl_nonneg l' Hl'). exact Hz.
    + by rewrite outcomes_app, W11, W1.
  - left. split; [rewrite Hem; lia|]. split; cbn -[outcomes s32 total untold]; fold l'; rewrite ?Hu; try done. lia.
Qed.

(** What may happen in the write phase: every payload request tells its result once and then ends. *)
Fixpoint w_legal (told : list bool) (evs : list seg_ev) : Prop :=
  match evs with
  | [] => True
  | Ev_inval :: evs => w_legal told evs
  | Ev_write_ciUser i _ :: evs => told !! i = Some false /\ w_legal (<[i := true]> told) evs
  | Ev_write_end i _ _ :: evs => told !! i = Some true /\ w_legal (delete i told) evs
  | _ => False
  end.

(** The payload requests on their way afterwards. *)
Fixpoint told_after (told : list bool) (evs : list seg_ev) : list bool :=
  match evs with
  | [] => told
  | Ev_write_ciUser i _ :: evs => told_after (<[i := true]> told) evs
  | Ev_write_end i _ _ :: evs => told_after (delete i told) evs
  | _ :: evs => told_after told evs
  end.

Lemma writing_inval a res0 R b told w :
  writing a res0 R b told w -> exists w', seg_step Ev_inval w = Returns w' tt /\ writing a res0 R b told w'.
Proof.
  intros HW. rewrite inval_over by apply HW. eexists. split; [done|]. destruct (sg_inval w); [|done].
  destruct HW as [W1 W2 W3 W4 W5 W6 W7 W8 W9 W10 W11 W12]. by split.
Qed.

Lemma write_done_run a res0 R b evs w :
  write_done a res0 R b w -> w_legal [] evs ->
  exists w', seg_run evs w = Returns w' tt /\ write_done a res0 R (b && results evs) w' /\ told_after [] evs = [].
Proof.
  revert w. induction evs as [|e evs IH]; intros w HD HL.
  { exists w. split; [done|]. by rewrite andb_true_r. }
  destruct e; try done; [|by destruct HL..].
  assert (seg_step Ev_inval w = Returns (match sg_inval w with Some _ => set_sg_inval None w | None => w end) tt) as E
    by (apply inval_over, HD).
  rewrite (seg_run_cons _ _ _ _ E). apply IH; [|done]. destruct (sg_inval w); [|done].
  destruct HD as [D1 D2 D3 D4]. by split.
Qed.

Lemma write_run a res0 R b told evs w :
  writing a res0 R b told w -> w_legal told evs ->
  exists w', seg_run evs w = Returns w' tt /\
    ((told_after told evs = [] /\ write_done a res0 R (b && results evs) w') \/
     (told_after told evs <> [] /\ writing a res0 R (b && results evs) (told_after told evs) w')).
Proof.
  revert b told w. induction evs as [|e evs IH]; intros b told w HW HL.
  { exists w. split; [done|]. right. cbn. rewrite andb_true_r. split; [|done]. intros ->.
    destruct HW as [_ _ W3 _ W5 _ _ _ _ _ _ _]. destruct (sg_pl w); [cbn in W5; lia|discriminate]. }
  destruct e; try done.
  - destruct (writing_inval _ _ _ _ _ _ HW) as (w1 & E & HW1). rewrite (seg_run_cons _ _ _ _ E). by apply IH.
  - destruct HL as [Hi HL]. destruct (ciUser_step _ _ _ _ _ _ i ioRes HW Hi) as (w1 & E & HW1).
    rewrite (seg_run_cons _ _ _ _ E). cbn. rewrite andb_assoc. by apply IH.
  - destruct HL as [Hi HL]. destruct (write_end_step _ _ _ _ _ _ i ioRes numFailDN HW Hi) as (w1 & E & [[Hne HW1]|[He HD]]);
      rewrite (seg_run_cons _ _ _ _ E); cbn.
    + by apply IH.
    + rewrite He in *. destruct (write_done_run _ _ _ _ _ _ HD HL) as (w' & E' & HD' & ->). exists w'. split; [done|]. by left.
Qed.

(** The payload requests that have still to tell their result. *)
Definition all_told (told : list bool) : bool := forallb id told.

Lemma untold_told told l :
  pl_cb <$> l = CB_Write <$> told -> Forall (fun p => 1 <= pl_len p) l -> untold l = 0 <-> all_told told = true.
Proof.
  unfold untold. revert told. induction l as [|p l IH]; intros [|t told] H Hl; try done.
  rewrite !fmap_cons in H. injection H as Hc H. apply Forall_cons in Hl as [Hn Hl]. rewrite fmap_cons, zsum_cons.
  destruct (untold_bounds l Hl) as [Hb _]. unfold untold in Hb. specialize (IH told H Hl). unfold untold_len at 1. rewrite Hc.
  destruct t.
  - change (all_told (true :: told)) with (all_told told). rewrite <- IH. lia.
  - change (all_told (false :: told)) with false. split; [lia|done].
Qed.

(** What the IO request has been told when the payload requests [left] are on their way. *)
Definition write_outcome (a : UserIO_addr_t) (res0 : bool) (R : Z) (b : bool) (left : list bool) (w : seg_world) : Prop :=
  sg_ioResult w = (if all_told left then res0 && b else res0) /\
  sg_io_ciUser_remainLB w = (if all_told left then s32 (R - lbid_len a) else R) /\
  outcomes (sg_calls w) =
    (if all_told left then ci_part a res0 b R else []) ++ (if decide (left = []) then [C_ioReq_IODone (lbid_len a)] else []).

Lemma write_phase a res0 R b told evs w :
  writing a res0 R b told w -> w_legal told evs ->
  exists w', seg_run evs w = Returns w' tt /\ write_outcome a res0 R (b && results evs) (told_after told evs) w'.
Proof.
  intros HW HL. destruct (write_run _ _ _ _ _ _ _ HW HL) as (w' & E & [[H HD]|[H HW']]); exists w'; (split; [done|]).
  - destruct HD as [_ [D1 D2] D3 _]. unfold write_outcome. rewrite H, decide_True by done. done.
  - destruct HW' as [_ _ W3 W4 _ _ _ _ _ [W10 W10'] W11 _]. unfold write_outcome. rewrite (decide_False (P := _ = [])) by done.
    rewrite app_nil_r, W10, W10', W11. pose proof (untold_told _ _ W3 W4) as Hu.
    destruct (all_told (told_after told evs)); [rewrite !decide_True by (by apply Hu); done|].
    by repeat rewrite decide_False by (intros Hz; apply Hu in Hz; done).
Qed.

(** Payload requests for all items have been submitted. *)
Lemma submitted_writing a res0 R its off w :
  0 < lbid_len a < 2 ^ 31 -> items_ok its -> zsum ((fun it => num_hbids (md_core it)) <$> its) = lbid_len a ->
  sr_addr (sg_req w) = a -> st_is IOSegREQ_S_WUD (sg_req w) -> ciUser_remainLB (sg_req w) = lbid_len a ->
  ciMDS_remainLB (sg_req w) = lbid_len a -> ciUser_result (sg_req w) = true -> ci_user (sg_req w) = false ->
  sg_ioResult w = res0 -> sg_io_ciUser_remainLB w = R -> outcomes (sg_calls w) = [] -> sg_pl w = [] ->
  (forall i n lb, sg_inval w = Some (i, n, lb) -> (n <= i)%nat) ->
  writing a res0 R true (replicate (length its) false) (add_pls C_write_payload (write_pls its 0 off) w).
Proof.
  intros Hl Hok Hsum H1 H2 H3 H4 H5 H6 H7 H8 H9 H10 H11.
  destruct (write_pls_spec its 0 off Hok) as (P1 & P2 & P3). set (ps := write_pls its 0 off) in *.
  assert (sg_pl (add_pls C_write_payload ps w) = ps) as Hp by (cbn; by rewrite H10).
  assert (total ps = lbid_len a) as Ht by (unfold total; by rewrite P1).
  assert (pl_cb <$> ps = CB_Write <$> replicate (length its) false) as Hc.
  { rewrite <- P3. clear -P2. induction P2 as [|p l [H _] _ IH]; [done|]. cbn. by rewrite H, IH. }
  assert (Forall (fun p => 1 <= pl_len p) ps) as Hlen by (eapply Forall_impl; [exact P2|tauto]).
  assert (untold ps = lbid_len a) as Hu.
  { rewrite <- Ht. unfold untold, total. clear -P2. induction P2 as [|p l [H _] _ IH]; [done|].
    rewrite !fmap_cons, !zsum_cons, IH. unfold untold_len. by rewrite H. }
  assert (untold ps <> 0) as Hne by lia.
  split; rewrite ?Hp; try done; try congruence.
  - rewrite Hu. exact H3.
  - rewrite Ht. exact H4.
  - by rewrite bool_decide_false.
  - by rewrite !decide_False.
  - rewrite decide_False by done. cbn -[outcomes]. by rewrite outcomes_app, H9, outcomes_pls.
Qed.

(** The metadata of a write arrive. *)
Lemma acquired_writing a dir ovw res0 R its w :
  waiting a dir KERNEL_IO_WRITE IOSegREQ_S_W_AcqMD ovw res0 R w -> 0 < lbid_len a < 2 ^ 31 -> items_ok its ->
  zsum ((fun it => num_hbids (md_core it)) <$> its) = lbid_len a ->
  exists w', seg_step (Ev_acquired its 0 0) w = Returns w' tt /\ writing a res0 R true (replicate (length its) false) w'.
Proof.
  intros [W1 W2 W3 W4 W5 W6 W7 W8 W9 W10 [W11 W12] W13 W14 W15 W16] Hl Hok Hsum.
  set (its1 := map (upd_core (fun md => update_item_UDataStat md UData_S_INIT)) its).
  assert (items_ok its1) as Hok1 by (by apply items_ok_upd).
  assert ((fun it => num_hbids (md_core it)) <$> its1 = (fun it => num_hbids (md_core it)) <$> its) as Hn1.
  { unfold its1. clear. induction its as [|it its IH]; [done|]. cbn [map]. by rewrite !fmap_cons, IH. }
  assert (length its1 = length its) as Hlen by apply length_map.
  set (w1 := set_sg_req (set_MData (Some its1) 0 (to_state IOSegREQ_S_WUD (set_MData (Some its) 0 (sg_req w)))) w).
  exists (add_pls C_write_payload (write_pls its1 0 (sr_payload_offset (sg_req w))) w1). split.
  - cbn [seg_step]. unfold ioSReq_acquireMD_endfn, check_metadata_status. unfold upd_sr, get_sr, gets, modify, grants, seg_event.
    unfold mbind, thread_bind, mret, thread_ret. cbn -[PLMgr_write_payload update_metadata_UDataStat IOSegReq_update_state].
    rewrite W3. unfold IOSegReq_update_state, _update_ioSegReqState_lockless. cbn -[PLMgr_write_payload update_metadata_UDataStat].
    unfold st_is in W4. rewrite W4. cbn -[PLMgr_write_payload update_metadata_UDataStat]. rewrite bool_decide_true by done.
    unfold update_metadata_UDataStat, upd_items, upd_sr, modify. cbn -[PLMgr_write_payload].
    unfold PLMgr_write_payload, get_sr, gets, mbind, thread_bind. cbn -[write_payload_loop]. fold its1.
    erewrite write_payload_spec by done. done.
  - rewrite <- Hlen. apply submitted_writing; try done; congruence.
Qed.

(** C25: a write of whole blocks tells its IO request one result and one end.  For every split of the
    blocks into metadata items and every order in which the payload requests tell their results
    and end: no callback leaves an array or waits; the user result, the conjunction of
    all results, is given exactly when the last payload request has told its own, and the
    number of blocks is reported done exactly when the last one has ended. *)
Theorem write_segment_exact (a : UserIO_addr_t) (res0 : bool) (R off : Z) (ovw hit : bool) (its : list mdItem_t) (evs : list seg_ev) :
  0 < lbid_len a < 2 ^ 31 -> items_ok its -> zsum ((fun it => num_hbids (md_core it)) <$> its) = lbid_len a ->
  w_legal (replicate (length its) false) evs ->
  exists w, seg_life off ovw hit true (Ev_acquired its 0 0 :: evs) (seg0 a KERNEL_IO_WRITE res0 R) = Returns w tt /\
    write_outcome a res0 R (results evs) (told_after (replicate (length its) false) evs) w.
Proof.
  intros Hl Hok Hsum HL. destruct (set_request_spec a KERNEL_IO_WRITE res0 R off ovw hit true Hl) as (w0 & E0 & _ & _ & HW).
  destruct (acquired_writing _ _ _ _ _ its w0 HW Hl Hok Hsum) as (w1 & E1 & HW1).
  destruct (write_phase _ _ _ _ _ evs w1 HW1 HL) as (w & E & HO). exists w. split; [|done].
  unfold seg_life. by rewrite (bind_returns _ _ _ _ _ E0), (seg_run_cons _ _ _ _ E1).
Qed.

Lemma write_segment_exact_witness :
  exists w, seg_life 0 true false true
      [Ev_acquired ex_its 0 0; Ev_write_ciUser 2 true; Ev_write_ciUser 0 true; Ev_write_end 2 true 0; Ev_write_ciUser 1 false;
       Ev_write_end 0 true 0; Ev_write_end 0 true 1] (seg0 (ex_addr 100 4) KERNEL_IO_WRITE true 4) = Returns w tt /\
    outcomes (sg_calls w) = [C_ioReq_commit_user false; C_ioReq_IODone 4].
Proof.
  destruct (write_segment_exact (ex_addr 100 4) true 4 0 true false ex_its
    [Ev_write_ciUser 2 true; Ev_write_ciUser 0 true; Ev_write_end 2 true 0; Ev_write_ciUser 1 false;
     Ev_write_end 0 true 0; Ev_write_end 0 true 1]) as (w & E & _ & _ & Ho);
    [cbn; lia|exact ex_its_ok|reflexivity|repeat split|].
  exists w. split; [exact E|]. rewrite Ho. reflexivity.
Defined.

(** ** Partial writes: the read phase ends *)

(** What the write phase needs of the read phase before it. *)
Record pw_ready (a : UserIO_addr_t) (ovw : bool) (w : seg_world) : Prop := {
  pw_ovw : Z.testbit (sr_fea (sg_req w)) 1 = ovw;
  pw_mem : sg_mem w = [];
  pw_mds : ciMDS_remainLB (sg_req w) = lbid_len a;
  pw_nowrite : nowrite w;
}.

(** The state in which the write phase starts. *)
Definition pw_restart (n : Z) (w : seg_world) : ioSeg_req_t :=
  let r := pw_acct n true (sg_req w) in
  set_ciMDS_status CI_MDS_OP_REPORT_SUCCESS
    (set_ciUser_result true
       (set_sr_OPCode (io_dir_true r)
          (set_ciUser_remainLB (s32 (lbid_len (sr_addr r))) (to_state IOSegREQ_S_W_AcqMD r)))).

Lemma PartialW_last lb n nf w :
  true_proc (sg_req w) = false -> st_is IOSegREQ_S_RUD (sg_req w) -> ciUser_result (sg_req w) = true ->
  s32 (ciUser_remainLB (sg_req w) - n) = 0 ->
  ioSReq_PartialW_ReadPL_endfn lb n true nf w =
    ((if Z.testbit (sr_fea (sg_req w)) 1 then _ioSReq_PW_WPhase_OVW else _ioSReq_PW_WPhase_FW);; mret 0)
      (set_sg_req (pw_restart n w) w).
Proof.
  intros Ht Hs Hr Hn. unfold ioSReq_PartialW_ReadPL_endfn, and_ciUser_result, upd_sr, modify, mbind at 1, thread_bind at 1.
  unfold mbind at 1, thread_bind at 1. rewrite chk_ciUser_normal by done.
  cbn -[s32 _ioSReq_PW_WPhase grants Z.testbit]. rewrite Hn, Hr. cbn -[s32 _ioSReq_PW_WPhase grants Z.testbit].
  unfold grants, seg_event, IOSegReq_update_state, _update_ioSegReqState_lockless, get_sr, gets, mbind, thread_bind, mret, thread_ret.
  unfold st_is in Hs. cbn -[s32 _ioSReq_PW_WPhase Z.testbit]. rewrite Hs. cbn -[s32 _ioSReq_PW_WPhase Z.testbit].
  rewrite bool_decide_true by done. cbn -[s32 _ioSReq_PW_WPhase Z.testbit].
  rewrite bool_decide_true by done. cbn -[s32 _ioSReq_PW_WPhase Z.testbit].
  unfold _ioSReq_PW_WPhase, _ioSReq_PW_resetReq, ioSReq_get_ovw, seg_test_fea, upd_sr, get_sr, gets, modify, mbind, thread_bind.
  unfold pw_restart, pw_acct, to_state. cbn -[s32 _ioSReq_PW_WPhase_OVW _ioSReq_PW_WPhase_FW Z.testbit]. by rewrite Hn.
Qed.

Lemma set_sg_req_twice r r' w : set_sg_req r (set_sg_req r' w) = set_sg_req r w.
Proof. done. Qed.

Lemma items_ok_shape its its' : shape <$> its' = shape <$> its -> items_ok its -> items_ok its'.
Proof.
  revert its'. induction its as [|it its IH]; intros [|it' its'] H Hok; try done.
  rewrite !fmap_cons in H. injection H as H1 H2 H3. apply Forall_cons in Hok as [Hn Hok].
  constructor; [by rewrite H1|by apply IH].
Qed.

Lemma PW_OVW_writing a res0 R its its' n w :
  0 < lbid_len a < 2 ^ 31 -> items_ok its -> zsum ((fun it => num_hbids (md_core it)) <$> its) = lbid_len a ->
  sr_MData (sg_req w) = Some its' -> shape <$> its' = shape <$> its ->
  sr_addr (sg_req w) = a -> ci_user (sg_req w) = false -> sg_ioResult w = res0 -> sg_io_ciUser_remainLB w = R ->
  outcomes (sg_calls w) = [] -> sg_pl w = [] -> pw_ready a true w ->
  (forall i n lb, sg_inval w = Some (i, n, lb) -> (n <= i)%nat) ->
  exists w', _ioSReq_PW_WPhase_OVW (set_sg_req (pw_restart n w) w) = Returns w' tt /\
    writing a res0 R true (replicate (length its) false) w'.
Proof.
  intros Hl Hok Hsum Hmd Hsh Ha Hci Hi1 Hi2 Ho Hp [P1 P2 P3 P4] Hin.
  set (its1 := map (upd_core (fun md => update_item_UDataStat md UData_S_INIT)) its').
  assert (shape <$> its1 = shape <$> its) as Hsh1 by (unfold its1; by rewrite shape_upd).
  assert ((fun it => num_hbids (md_core it)) <$> its1 = (fun it => num_hbids (md_core it)) <$> its) as Hn1.
  { apply (f_equal (fmap fst)) in Hsh1. rewrite <- !list_fmap_compose in Hsh1. exact Hsh1. }
  assert (items_ok its1) as Hok1 by (by eapply items_ok_shape).
  assert (length its1 = length its) as Hlen by (apply (f_equal length) in Hsh1; by rewrite !length_fmap in Hsh1).
  set (w1 := set_sg_req (set_MData (Some its1) (num_invalMD_items (sg_req w))
               (set_sr_stat {| st_ioSegReq := IOSegREQ_S_WUD; cist_ioSegReq := cist_ioSegReq (sr_stat (sg_req w)) |}
                  (set_mdata_opcode REQ_NN_QUERY_MDATA_WRITEIO (pw_restart n w)))) w).
  exists (add_pls C_write_payload (write_pls its1 0 (sr_payload_offset (sg_req w))) w1). split.
  - unfold _ioSReq_PW_WPhase_OVW, upd_sr, modify, grants, seg_event, mbind, thread_bind, mret, thread_ret.
    cbn -[PLMgr_write_payload update_metadata_UDataStat s32].
    unfold update_metadata_UDataStat, upd_items, upd_sr, modify. cbn -[PLMgr_write_payload s32].
    unfold PLMgr_write_payload, get_sr, gets, mbind, thread_bind. cbn -[write_payload_loop s32].
    rewrite bool_decide_true by done. cbn -[write_payload_loop s32]. rewrite Hmd. cbn -[write_payload_loop s32]. fold its1.
    rewrite write_payload_spec by exact P2. by rewrite !set_sg_req_twice.
  - rewrite <- Hlen. apply submitted_writing; try done; try congruence. cbn -[s32]. rewrite Ha. apply s32_small. unfold is_s32. lia.
Qed.

Definition fea_reset (f : Z) : Z := Z.clearbit (Z.clearbit (Z.clearbit (Z.clearbit (Z.clearbit f 0) 1) 2) 3) 4.

Lemma resetFea_spec r w :
  ioSReq_resetFea_PartialRDone (set_sg_req r w) = Returns (set_sg_req (set_sr_fea (fea_reset (sr_fea r)) r) w) tt.
Proof. done. Qed.

(** What is left of the features: [true_proc]. *)
Lemma fea_reset_bits f : Forall (fun i => Z.testbit (fea_reset f) i = false) [1; 2; 3; 4] /\ Z.testbit (fea_reset f) 5 = Z.testbit f 5.
Proof.
  unfold fea_reset. rewrite !Forall_cons, !Z.clearbit_eqb. cbn -[Z.testbit]. by rewrite !andb_false_r, !andb_true_r.
Qed.

Lemma submit_acquireMD_spec r w :
  ioSReq_submit_acquireMD (set_sg_req r w) =
    Returns (set_sg_calls (sg_calls w ++ [C_acquire_metadata (sr_ReqOPCode r) (Z.testbit (sr_fea r) 2) (Z.testbit (sr_fea r) 1)
                                            (Z.testbit (sr_fea r) 3)]) (set_sg_req r w)) tt.
Proof. done. Qed.

Lemma PW_FW_waiting a res0 R n w :
  0 < lbid_len a < 2 ^ 31 -> io_dir_true (sg_req w) = KERNEL_IO_WRITE ->
  sr_addr (sg_req w) = a -> true_proc (sg_req w) = false -> sg_ioResult w = res0 -> sg_io_ciUser_remainLB w = R ->
  outcomes (sg_calls w) = [] -> sg_pl w = [] -> pw_ready a false w ->
  (forall i n lb, sg_inval w = Some (i, n, lb) -> (n <= i)%nat) ->
  exists w', _ioSReq_PW_WPhase_FW (set_sg_req (pw_restart n w) w) = Returns w' tt /\
    waiting a KERNEL_IO_WRITE KERNEL_IO_WRITE IOSegREQ_S_W_AcqMD false res0 R w' /\
    sg_calls w' = sg_calls w ++ [C_acquire_metadata KERNEL_IO_WRITE false false false].
Proof.
  intros Hl Hd Ha Ht Hi1 Hi2 Ho Hp [P1 P2 P3 P4] Hin.
  assert (s32 (lbid_len (sr_addr (sg_req w))) = lbid_len a) as Es by (rewrite Ha; apply s32_small; unfold is_s32; lia).
  set (f := fea_reset (sr_fea (sg_req w))). destruct (fea_reset_bits (sr_fea (sg_req w))) as [HB B5].
  rewrite !Forall_cons in HB. destruct HB as (B1 & B2 & B3 & B4 & _). fold f in B1, B2, B3, B4, B5. unfold true_proc in Ht. rewrite Ht in B5.
  set (r1 := set_mdata_opcode REQ_NN_ALLOC_MDATA_NO_OLD (set_MData None 0 (set_sr_fea f (pw_restart n w)))).
  exists (set_sg_calls (sg_calls w ++ [C_acquire_metadata KERNEL_IO_WRITE false false false]) (set_sg_req r1 w)). split; [|split].
  - unfold _ioSReq_PW_WPhase_FW. rewrite (bind_returns _ _ _ _ _ (resetFea_spec _ _)).
    rewrite (bind_returns (upd_sr _) _ _ _ _ eq_refl), (bind_returns (upd_sr _) _ _ _ _ eq_refl), !set_sg_req_twice.
    change (ioSReq_submit_acquireMD (set_sg_req r1 w) = Returns (set_sg_calls (sg_calls w ++ [C_acquire_metadata KERNEL_IO_WRITE false false false]) (set_sg_req r1 w)) tt).
    rewrite submit_acquireMD_spec. change (sr_fea r1) with f. rewrite B1, B2, B3. change (sr_ReqOPCode r1) with (io_dir_true (sg_req w)).
    by rewrite Hd.
  - split; cbn -[s32 Z.testbit outcomes]; try done.
    by rewrite outcomes_other.
  - done.
Qed.

(** The read phase of a partial write, [n] blocks of which are about to be accounted for. *)
Record pw_mid (its : list mdItem_t) (a : UserIO_addr_t) (res0 : bool) (R : Z) (ovw : bool) (n : Z) (w : seg_world) : Prop := {
  pm_steady : steady its a KERNEL_IO_WRITE w;
  pm_stat : st_is IOSegREQ_S_RUD (sg_req w);
  pm_ci : ci_user (sg_req w) = false;
  pm_pl : Forall (fun p => pl_cb p = CB_PartialW_Read /\ 1 <= pl_len p) (sg_pl w);
  pm_left : ciUser_remainLB (sg_req w) = n + pending its w;
  pm_pend : 0 <= n /\ n + pending its w < 2 ^ 31;
  pm_res : ciUser_result (sg_req w) = true;
  pm_io : sg_ioResult w = res0 /\ sg_io_ciUser_remainLB w = R;
  pm_out : outcomes (sg_calls w) = [];
  pm_ready : pw_ready a ovw w;
}.

(** The loop over the items is through. *)
Definition loop_over (w : seg_world) : Prop := forall i n lb, sg_inval w = Some (i, n, lb) -> (n <= i)%nat.

(** Where the write phase starts: at once, or with new metadata for a first write. *)
Definition pw_next (its : list mdItem_t) (a : UserIO_addr_t) (res0 : bool) (R : Z) (ovw : bool) (w : seg_world) : Prop :=
  if ovw then writing a res0 R true (replicate (length its) false) w
  else waiting a KERNEL_IO_WRITE KERNEL_IO_WRITE IOSegREQ_S_W_AcqMD false res0 R w.

Lemma nowrite_snoc c w : is_write c = false -> nowrite w -> nowrite (set_sg_calls (sg_calls w ++ [c]) w).
Proof. intros H Hw. unfold nowrite. cbn. apply Forall_app. split; [done|]. by constructor. Qed.

Lemma pending_nonneg its w : items_ok its -> Forall (fun p => 1 <= pl_len p) (sg_pl w) -> 0 <= pending its w.
Proof.
  intros Hok Hp. unfold pending. pose proof (inval_left_nonneg its w Hok). destruct (zsum_pl_nonneg _ Hp). lia.
Qed.

Lemma PartialW_mid its a res0 R ovw n lb nf w :
  items_ok its -> pw_mid its a res0 R ovw n w -> 0 < pending its w ->
  exists w', ioSReq_PartialW_ReadPL_endfn lb n true nf w = Returns w' 0 /\ sg_pl w' = sg_pl w /\ sg_inval w' = sg_inval w /\
    pw_mid its a res0 R ovw 0 w'.
Proof.
  intros Hok [Hs Hst Hci Hpl Hl [Hn Hlt] Hr [Hi1 Hi2] Ho [P1 P2 P3 P4]] Hp.
  assert (s32 (ciUser_remainLB (sg_req w) - n) = pending its w) as E.
  { rewrite Hl. replace (n + pending its w - n) with (pending its w) by lia. apply s32_small. unfold is_s32. lia. }
  eexists. split; [apply PartialW_more; [apply Hs|lia]|]. split; [done|]. split; [done|].
  destruct Hs as [S1 S2 S3 S4 S5]. split; try done.
  - split; [done|]. change (0 + pending its w < 2 ^ 31). lia.
  - cbn. by rewrite Hr.
Qed.

Lemma PartialW_final its a res0 R ovw n lb nf w :
  0 < lbid_len a < 2 ^ 31 -> items_ok its -> zsum ((fun it => num_hbids (md_core it)) <$> its) = lbid_len a ->
  pw_mid its a res0 R ovw n w -> pending its w = 0 -> loop_over w ->
  exists w', ioSReq_PartialW_ReadPL_endfn lb n true nf w = Returns w' 0 /\ pw_next its a res0 R ovw w'.
Proof.
  intros Hlen Hok Hsum [Hs Hst Hci Hpl Hl [Hn Hlt] Hr [Hi1 Hi2] Ho Hrdy] Hp Hov.
  assert (sg_pl w = []) as Hpl0.
  { assert (Forall (fun p => 1 <= pl_len p) (sg_pl w)) as Hf by (eapply Forall_impl; [exact Hpl|tauto]).
    destruct (zsum_pl_nonneg _ Hf) as [H1 H2]. apply H2. unfold pending in Hp. pose proof (inval_left_nonneg its w Hok). lia. }
  destruct Hs as [S1 S2 S3 (its' & S4 & S4') S5].
  rewrite PartialW_last; [|done..|rewrite Hl, Hp; replace (n + 0 - n) with 0 by lia; done].
  rewrite (pw_ovw _ _ _ Hrdy). destruct ovw; unfold pw_next.
  - destruct (PW_OVW_writing a res0 R its its' n w) as (w' & E & HW); try done. exists w'. by rewrite (bind_returns _ _ _ _ _ E).
  - destruct (PW_FW_waiting a res0 R n w) as (w' & E & HW & _); try done. exists w'. by rewrite (bind_returns _ _ _ _ _ E).
Qed.

(** A payload request leaves; a turn of the loop begins. *)
Lemma pw_mid_leave its a res0 R ovw i p data w :
  pw_mid its a res0 R ovw 0 w -> sg_pl w !! i = Some p ->
  pw_mid its a res0 R ovw (pl_len p) (read_left i p data w).
Proof.
  intros [Hs Hst Hci Hpl Hl [Hn Hlt] Hr [Hi1 Hi2] Ho [P1 P2 P3 P4]] Hp.
  destruct (Forall_lookup_1 _ _ _ _ Hpl Hp) as [Hcb Hlen]. destruct (read_left_frame i p data w) as (F1 & F2 & F3).
  assert (pending its w = pl_len p + pending its (read_left i p data w)) as Hpe.
  { unfold pending, inval_left. rewrite F1, F2, (zsum_fmap_delete pl_len _ _ _ Hp). lia. }
  split; [by apply read_left_steady|by destruct data..| | | |by destruct data|by destruct data|by rewrite F3|].
  - rewrite F1. by apply Forall_delete.
  - rewrite <- Hpe. by destruct data.
  - lia.
  - split; [by destruct data..|]. destruct data; [|done]. unfold read_left, nowrite. cbn. apply Forall_app. split; [done|].
    rewrite Hcb. by repeat constructor.
Qed.

Lemma pw_mid_turn its a res0 R ovw i m lb lb' it w :
  pw_mid its a res0 R ovw 0 w -> items_ok its -> sg_inval w = Some (i, m, lb) -> its !! i = Some it ->
  pw_mid its a res0 R ovw (if is_valid it then 0 else num_hbids (md_core it)) (set_sg_inval (Some (S i, m, lb')) w).
Proof.
  intros [Hs Hst Hci Hpl Hl [Hn Hlt] Hr [Hi1 Hi2] Ho [P1 P2 P3 P4]] Hok Hi Hit.
  pose proof (inval_left_step its w i m lb lb' it Hi Hit) as Hleft. set (w1 := set_sg_inval _ w) in *.
  pose proof (Forall_lookup_1 _ _ _ _ Hok Hit) as H1. simpl in H1.
  set (k := if is_valid it then 0 else num_hbids (md_core it)) in *.
  assert (0 <= k) as Hk by (unfold k; destruct (is_valid it); lia). clearbody k.
  assert (pending its w = k + pending its w1) as Hpe.
  { unfold pending. rewrite Hleft. change (sg_pl w1) with (sg_pl w). lia. }
  split; try done.
  - apply steady_inval; [done|]. intros j x l [= <- <- <-]. exact (sd_inval _ _ _ _ Hs _ _ _ Hi).
  - rewrite <- Hpe. exact Hl.
  - lia.
Qed.

Lemma pw_pending_pos its a res0 R ovw n w :
  items_ok its -> pw_mid its a res0 R ovw n w -> (0 < length (sg_pl w))%nat -> 0 < pending its w.
Proof.
  intros Hok HM Hlen. unfold pending. pose proof (inval_left_nonneg its w Hok). pose proof (pm_pl _ _ _ _ _ _ _ HM) as Hpl.
  assert (Forall (fun p => 1 <= pl_len p) (sg_pl w)) as Hf by (eapply Forall_impl; [exact Hpl|by intros x [_ ?]]).
  destruct (zsum_pl_nonneg _ Hf) as [Z1 Z2]. destruct (decide (zsum (pl_len <$> sg_pl w) = 0)) as [H0|]; [|lia].
  rewrite (Z2 H0) in Hlen. cbn in Hlen. lia.
Qed.

Lemma pw_read_more its a res0 R ovw i data nf w :
  items_ok its -> pw_mid its a res0 R ovw 0 w -> (i < length (sg_pl w))%nat -> (1 < length (sg_pl w))%nat ->
  exists w', seg_step (Ev_read_end i data true nf) w = Returns w' tt /\ length (sg_pl w) = S (length (sg_pl w')) /\
    sg_inval w' = sg_inval w /\ pw_mid its a res0 R ovw 0 w'.
Proof.
  intros Hok HM Hi Hmany. destruct (lookup_lt_is_Some_2 _ _ Hi) as [p Hp].
  destruct (Forall_lookup_1 _ _ _ _ (pm_pl _ _ _ _ _ _ _ HM) Hp) as [Hcb _].
  rewrite (read_end_eq i p) by auto. rewrite Hcb. pose proof (pw_mid_leave _ _ _ _ _ i p data _ HM Hp) as HM1.
  destruct (read_left_frame i p data w) as (F1 & F2 & F3). set (w1 := read_left i p data w) in *.
  assert (length (sg_pl w) = S (length (sg_pl w1))) as Hlen by (rewrite F1, length_delete by eauto; lia).
  assert (0 < pending its w1) as Hp1 by (eapply pw_pending_pos; [done..|lia]).
  destruct (PartialW_mid _ _ _ _ _ _ (pl_lb p) nf _ Hok HM1 Hp1) as (w' & E & Q1 & Q2 & Q3).
  exists w'. rewrite (bind_returns _ _ _ _ _ E), Q1, Q2. by split_and!.
Qed.

Lemma pw_inval_more its a res0 R ovw w :
  items_ok its -> pw_mid its a res0 R ovw 0 w -> (0 < length (sg_pl w))%nat ->
  exists w', seg_step Ev_inval w = Returns w' tt /\ sg_pl w' = sg_pl w /\ (turns_left w' <= turns_left w - 1)%nat /\
    pw_mid its a res0 R ovw 0 w'.
Proof.
  intros Hok HM Hlen. cbn [seg_step]. pose proof (pm_steady _ _ _ _ _ _ _ HM) as Hs.
  destruct (sg_inval w) as [[[i m] lb]|] eqn:Ei.
  2:{ exists w. split; [unfold inval_turn, gets, mbind, thread_bind; by rewrite Ei|].
      split; [done|]. split; [unfold turns_left; rewrite Ei; lia|done]. }
  destruct (decide (i < m)%nat) as [Hlt|Hlt].
  2:{ destruct (inval_end_eq its a _ w i m lb Hs Ei Hlt) as [-> H0]. eexists. split; [done|]. split; [done|].
      split; [unfold turns_left; rewrite Ei; simpl; lia|].
      destruct HM as [_ Hst Hci Hpl Hl Hn Hr Hio Ho [P1 P2 P3 P4]]. unfold pending in Hl, Hn. rewrite H0 in Hl, Hn.
      split; try done. by apply steady_inval. }
  destruct (inval_turn_eq its a _ w i m lb Hs Ei Hlt) as (it & lb' & E & Hit). cbn zeta in E.
  pose proof (pw_mid_turn _ _ _ _ _ i m lb lb' it w HM Hok Ei Hit) as HM1. set (w1 := set_sg_inval (Some (S i, m, lb')) w) in *.
  assert (turns_left w1 <= turns_left w - 1)%nat as Ht by (unfold turns_left, w1; rewrite Ei; simpl; lia).
  destruct (is_valid it); [rewrite E; by exists w1|]. rewrite decide_False in E by done.
  assert (0 < pending its w1) as Hp1 by (by eapply pw_pending_pos).
  destruct (PartialW_mid _ _ _ _ _ _ lb 0 _ Hok HM1 Hp1) as (w' & E' & Q1 & Q2 & Q3).
  exists w'. rewrite E, (bind_returns _ _ _ _ _ E'). split_and!; [done|by rewrite Q1| |done]. unfold turns_left in *. by rewrite Q2.
Qed.

Lemma pw_run its a res0 R ovw evs w :
  items_ok its -> pw_mid its a res0 R ovw 0 w -> r_legal (length (sg_pl w)) evs -> results evs = true ->
  (count is_read_end evs < length (sg_pl w))%nat ->
  exists w', seg_run evs w = Returns w' tt /\ pw_mid its a res0 R ovw 0 w' /\
    (length (sg_pl w) = count is_read_end evs + length (sg_pl w'))%nat /\ (turns_left w' <= turns_left w - count is_inval evs)%nat.
Proof.
  intros Hok. revert w. induction evs as [|e evs IH]; intros w HM HL Hr Hc.
  { exists w. split_and!; [done|done|cbn; lia|cbn; lia]. }
  rewrite count_cons in Hc. rewrite !count_cons. destruct e; try done.
  - cbn in Hc. destruct (pw_inval_more its a res0 R ovw w Hok HM) as (w1 & E & Q1 & Q2 & HM1); [lia|].
    rewrite (seg_run_cons _ _ _ _ E). rewrite <- Q1 in HL, Hc |- *. destruct (IH w1 HM1 HL Hr Hc) as (w' & E' & HM' & C1 & C2).
    exists w'. cbn. split_and!; [done|done|lia|lia].
  - destruct HL as [Hi HL]. apply andb_true_iff in Hr as [Hx Hr]. cbn in Hx. subst ioRes. cbn in Hc.
    destruct (pw_read_more its a res0 R ovw i data numFailDN w Hok HM Hi) as (w1 & E & Q1 & Q2 & HM1); [lia|].
    rewrite (seg_run_cons _ _ _ _ E). replace (length (sg_pl w) - 1)%nat with (length (sg_pl w1)) in HL by lia.
    destruct (IH w1 HM1 HL Hr) as (w' & E' & HM' & C1 & C2); [lia|].
    exists w'. unfold turns_left in *. rewrite Q2 in C2. cbn. split_and!; [done|done|lia|exact C2].
Qed.

Lemma turns_over its a dir w : steady its a dir w -> turns_left w = 0%nat -> loop_over w /\ inval_left its w = 0.
Proof.
  intros Hs Ht. unfold turns_left in Ht. unfold loop_over, inval_left. destruct (sg_inval w) as [[[i m] lb]|] eqn:E; [|done].
  split; [intros ? ? ? [= <- <- <-]; lia|]. rewrite (sd_inval _ _ _ _ Hs _ _ _ E) in Ht. by rewrite drop_ge by lia.
Qed.

Lemma pw_read_last its a res0 R ovw data nf w :
  0 < lbid_len a < 2 ^ 31 -> items_ok its -> zsum ((fun it => num_hbids (md_core it)) <$> its) = lbid_len a ->
  pw_mid its a res0 R ovw 0 w -> length (sg_pl w) = 1%nat -> turns_left w = 0%nat ->
  exists w', seg_step (Ev_read_end 0 data true nf) w = Returns w' tt /\ pw_next its a res0 R ovw w'.
Proof.
  intros Hlen Hok Hsum HM Hone Ht. destruct (sg_pl w) as [|p [|]] eqn:Hpl; try done.
  assert (sg_pl w !! 0%nat = Some p) as Hp by (by rewrite Hpl).
  destruct (Forall_lookup_1 _ _ _ _ (pm_pl _ _ _ _ _ _ _ HM) Hp) as [Hcb _].
  rewrite (read_end_eq 0 p) by auto. rewrite Hcb. pose proof (pw_mid_leave _ _ _ _ _ 0%nat p data _ HM Hp) as HM1.
  destruct (read_left_frame 0 p data w) as (F1 & F2 & F3). set (w1 := read_left 0 p data w) in *.
  assert (turns_left w1 = 0%nat) as Ht1 by (unfold turns_left in *; by rewrite F2).
  destruct (turns_over its a _ w1 (pm_steady _ _ _ _ _ _ _ HM1) Ht1) as [Hov Hz].
  destruct (PartialW_final its a res0 R ovw _ (pl_lb p) nf w1 Hlen Hok Hsum HM1) as (w' & E & HN); [|done|].
  { unfold pending. by rewrite F1, Hpl, Hz. }
  exists w'. by rewrite (bind_returns _ _ _ _ _ E).
Qed.

(** Only blocks without metadata: the turns of the loop before the last one. *)
Lemma pw_inval_some its a res0 R ovw j i lb w :
  items_ok its -> Forall (fun it => is_valid it = false) its -> pw_mid its a res0 R ovw 0 w -> sg_pl w = [] ->
  sg_inval w = Some (i, length its, lb) -> (i + j < length its)%nat ->
  exists w' lb', seg_run (replicate j Ev_inval) w = Returns w' tt /\ pw_mid its a res0 R ovw 0 w' /\ sg_pl w' = [] /\
    sg_inval w' = Some ((i + j)%nat, length its, lb').
Proof.
  intros Hok Hall. revert i lb w. induction j as [|j IH]; intros i lb w HM Hpl Hi Hk.
  { exists w, lb. split_and!; [done..|by rewrite Nat.add_0_r]. }
  destruct (inval_turn_eq its a _ w i (length its) lb (pm_steady _ _ _ _ _ _ _ HM) Hi) as (it & lb' & E & Hit); [lia|]. cbn zeta in E.
  pose proof (pw_mid_turn _ _ _ _ _ i _ lb lb' it w HM Hok Hi Hit) as HM1.
  pose proof (Forall_lookup_1 _ _ _ _ Hall Hit) as Hv. simpl in Hv. rewrite Hv in E, HM1. rewrite decide_False in E by done.
  set (w1 := set_sg_inval _ w) in *.
  destruct (lookup_lt_is_Some_2 its (S i)) as [it2 Hit2]; [lia|].
  pose proof (Forall_lookup_1 _ _ _ _ Hall Hit2) as Hv2. pose proof (Forall_lookup_1 _ _ _ _ Hok Hit2) as Hn2. simpl in Hv2, Hn2.
  assert (0 < pending its w1) as Hp1.
  { unfold pending, inval_left, w1. cbn [sg_inval set_sg_inval sg_pl]. rewrite Hpl. cbn [fmap list_fmap]. rewrite (drop_S its it2) by done.
    rewrite blocks_of_cons, Hv2, bool_decide_true by done. change (zsum []) with 0.
    pose proof (blocks_of_nonneg false (drop (S (S i)) its) (Forall_drop _ _ _ Hok)). lia. }
  destruct (PartialW_mid _ _ _ _ _ _ lb 0 _ Hok HM1 Hp1) as (w2 & E' & Q1 & Q2 & HM2). rewrite (bind_returns _ _ _ _ _ E') in E.
  destruct (IH (S i) lb' w2 HM2) as (w' & lb2 & E2 & HM' & Hp' & Hi'); [by rewrite Q1|by rewrite Q2|lia|].
  exists w', lb2. rewrite Hi'. replace (S i + j)%nat with (i + S j)%nat by lia. split_and!; try done.
  change (replicate (S j) Ev_inval) with (Ev_inval :: replicate j Ev_inval). by rewrite (seg_run_cons Ev_inval _ _ _ E).
Qed.

Lemma pw_inval_last its a res0 R ovw i lb w :
  0 < lbid_len a < 2 ^ 31 -> items_ok its -> zsum ((fun it => num_hbids (md_core it)) <$> its) = lbid_len a ->
  Forall (fun it => is_valid it = false) its -> pw_mid its a res0 R ovw 0 w -> sg_pl w = [] ->
  sg_inval w = Some (i, length its, lb) -> length its = S i ->
  exists w', seg_step Ev_inval w = Returns w' tt /\ pw_next its a res0 R ovw w'.
Proof.
  intros Hlen Hok Hsum Hall HM Hpl Hi Hk.
  destruct (inval_turn_eq its a _ w i (length its) lb (pm_steady _ _ _ _ _ _ _ HM) Hi) as (it & lb' & E & Hit); [lia|]. cbn zeta in E.
  pose proof (pw_mid_turn _ _ _ _ _ i _ lb lb' it w HM Hok Hi Hit) as HM1.
  pose proof (Forall_lookup_1 _ _ _ _ Hall Hit) as Hv. simpl in Hv. rewrite Hv in E, HM1. rewrite decide_False in E by done.
  set (w1 := set_sg_inval _ w) in *.
  destruct (turns_over its a _ w1 (pm_steady _ _ _ _ _ _ _ HM1)) as [Hov Hz]; [cbn; lia|].
  destruct (PartialW_final its a res0 R ovw _ lb 0 w1 Hlen Hok Hsum HM1) as (w' & E' & HN); [|done|].
  { unfold pending. rewrite Hz. change (sg_pl w1) with (sg_pl w). by rewrite Hpl. }
  rewrite (bind_returns _ _ _ _ _ E') in E. by exists w'.
Qed.

(** The payload requests of the read phase. *)
Definition num_valid (its : list mdItem_t) : nat := length (filter (fun it => is_valid it = true) its).

(** The read phase of a partial write: all payload requests end, in any order, and with success; the
    loop over the items is through before the last one ends. *)
Definition pw_reads (its : list mdItem_t) (evs : list seg_ev) : Prop :=
  if decide (num_valid its = 0%nat) then evs = replicate (length its) Ev_inval
  else exists evs0 data nf, evs = evs0 ++ [Ev_read_end 0 data true nf] /\
    r_legal (num_valid its) evs0 /\ results evs0 = true /\ num_valid its = S (count is_read_end evs0) /\
    (blocks_of false its = 0 \/ (length its <= count is_inval evs0)%nat).

Lemma no_valid its : num_valid its = 0%nat -> Forall (fun it => is_valid it = false) its.
Proof.
  unfold num_valid. induction its as [|it its IH]; [by constructor|]. rewrite filter_cons. case_decide as Hv; [done|].
  intros H. constructor; [by destruct (is_valid it)|by apply IH].
Qed.

Lemma no_valid_blocks its : Forall (fun it => is_valid it = false) its -> blocks_of true its = 0.
Proof. induction 1 as [|it its H _ IH]; [done|]. rewrite blocks_of_cons, IH, H. done. Qed.

Lemma seg_run_app evs1 evs2 w w' : seg_run evs1 w = Returns w' tt -> seg_run (evs1 ++ evs2) w = seg_run evs2 w'.
Proof.
  revert w. induction evs1 as [|e evs1 IH]; intros w H; cbn in *; [by injection H as ->|].
  unfold mbind, thread_bind in *. destruct (seg_step e w) as [w1 []| |]; [by apply IH|done|done].
Qed.

(** What the read phase keeps until its last event. *)
Definition pw_quiet (w : seg_world) : Prop := nowrite w /\ outcomes (sg_calls w) = [].

Lemma r_legal_app k evs1 evs2 : r_legal k (evs1 ++ evs2) -> r_legal k evs1.
Proof. revert k. induction evs1 as [|e evs1 IH]; intros k; [done|]. destruct e; cbn; try done; [apply IH|]. intros [H1 H2]. split; [done|eauto]. Qed.

Lemma pw_started a res0 R ovw its ninval w :
  waiting a KERNEL_IO_WRITE KERNEL_IO_READ IOSegREQ_S_R_AcqMD ovw res0 R w -> sg_inval w = None -> nowrite w ->
  0 < lbid_len a < 2 ^ 31 -> items_ok its -> zsum ((fun it => num_hbids (md_core it)) <$> its) = lbid_len a ->
  exists w', seg_step (Ev_acquired its ninval 0) w = Returns w' tt /\ pw_mid its a res0 R ovw 0 w' /\ length (sg_pl w') = num_valid its /\
    (turns_left w' <= length its)%nat /\ (blocks_of false its = 0 -> turns_left w' = 0%nat) /\
    (num_valid its = 0%nat -> sg_inval w' = Some (0%nat, length its, lbid_start a) /\ Forall (fun it => is_valid it = false) its).
Proof.
  intros HW Hni Hnw Hl Hok Hsum.
  destruct (acquired_reading a _ ovw res0 R its ninval w HW) as (w1 & E1 & HR & Hn & Ht & Q1 & Q2 & Q3 & Q4 & Q5 & Q6); try done.
  rewrite decide_False in HR by done. destruct HR as [Hs Hst Hci Hpl Hlf Hpe Hr Hio Ho].
  exists w1. split; [done|]. split.
  { split; try done; [lia|]. split; auto. }
  split; [done|]. split; [done|]. split.
  { intros H0. unfold turns_left. by rewrite (Q4 H0). }
  intros Hv. pose proof (no_valid its Hv) as Hall. split; [|done]. apply Q5.
  pose proof (no_valid_blocks its Hall). pose proof (blocks_total its). lia.
Qed.

Lemma pw_prefix its a res0 R ovw evs1 e evs2 w :
  items_ok its -> pw_mid its a res0 R ovw 0 w -> length (sg_pl w) = num_valid its ->
  (num_valid its = 0%nat -> sg_inval w = Some (0%nat, length its, lbid_start a) /\ Forall (fun it => is_valid it = false) its) ->
  pw_reads its (evs1 ++ e :: evs2) -> exists w', seg_run evs1 w = Returns w' tt /\ pw_quiet w'.
Proof.
  intros Hok HM Hn Hz Hev. unfold pw_reads in Hev. case_decide as Hv.
  - destruct (Hz Hv) as [Hi Hall]. assert (sg_pl w = []) as Hp by (apply nil_length_inv; lia).
    pose proof (f_equal length Hev) as Hlen. rewrite length_replicate, length_app in Hlen. cbn in Hlen.
    apply (f_equal (take (length evs1))) in Hev. rewrite take_app_length, take_replicate in Hev.
    replace (length evs1 `min` length its)%nat with (length evs1) in Hev by lia. rewrite Hev.
    destruct (pw_inval_some its a res0 R ovw (length evs1) 0 _ w Hok Hall HM Hp Hi) as (w' & lb & E & HM' & _); [lia|].
    exists w'. split; [done|]. split; apply HM'.
  - destruct Hev as (evs0 & data & nf & Heq & HL & Hres & Hc & _).
    assert (exists rest, evs0 = evs1 ++ rest) as [rest ->].
    { pose proof (f_equal length Heq) as Hlen. rewrite !length_app in Hlen. cbn in Hlen.
      apply (f_equal (take (length evs1))) in Heq. rewrite take_app_length, take_app_le in Heq by lia.
      exists (drop (length evs1) evs0). rewrite Heq at 1. by rewrite take_drop. }
    rewrite <- Hn in HL. apply r_legal_app in HL. unfold results in Hres. rewrite forallb_app in Hres. apply andb_true_iff in Hres as [Hres _].
    unfold count in Hc. rewrite filter_app, length_app in Hc. fold (count is_read_end evs1) in Hc.
    destruct (pw_run its a res0 R ovw evs1 w Hok HM HL Hres) as (w' & E & HM' & _); [lia|].
    exists w'. split; [done|]. split; apply HM'.
Qed.

Lemma pw_read_phase its a res0 R ovw evs w :
  0 < lbid_len a < 2 ^ 31 -> items_ok its -> zsum ((fun it => num_hbids (md_core it)) <$> its) = lbid_len a ->
  pw_mid its a res0 R ovw 0 w -> length (sg_pl w) = num_valid its -> (turns_left w <= length its)%nat ->
  (blocks_of false its = 0 -> turns_left w = 0%nat) ->
  (num_valid its = 0%nat -> sg_inval w = Some (0%nat, length its, lbid_start a) /\ Forall (fun it => is_valid it = false) its) ->
  pw_reads its evs -> exists w', seg_run evs w = Returns w' tt /\ pw_next its a res0 R ovw w'.
Proof.
  intros Hl Hok Hsum HM Hn Ht H0 Hz Hev. unfold pw_reads in Hev. case_decide as Hv.
  - destruct (Hz Hv) as [Hi Hall]. assert (sg_pl w = []) as Hp by (apply nil_length_inv; lia).
    destruct (length its) as [|k] eqn:Ek; [apply nil_length_inv in Ek; subst its; cbn in Hsum; lia|]. rewrite <- Ek in *.
    destruct (pw_inval_some its a res0 R ovw k 0 _ w Hok Hall HM Hp Hi) as (w1 & lb & E & HM1 & Hp1 & Hi1); [lia|].
    destruct (pw_inval_last its a res0 R ovw k lb w1) as (w2 & E2 & HN); try done.
    exists w2. split; [|done]. rewrite Hev, Ek, replicate_S_end, (seg_run_app _ _ _ _ E). by rewrite (seg_run_cons _ _ _ _ E2).
  - destruct Hev as (evs0 & data & nf & -> & HL & Hres & Hc & Hloop). rewrite <- Hn in HL.
    destruct (pw_run its a res0 R ovw evs0 w Hok HM HL Hres) as (w2 & E2 & HM2 & C1 & C2); [lia|].
    rewrite (seg_run_app _ _ _ _ E2).
    destruct (pw_read_last its a res0 R ovw data nf w2 Hl Hok Hsum HM2) as (w3 & E3 & HN); [lia| |].
    + destruct Hloop as [Hb|Hb]; [rewrite (H0 Hb) in C2; lia|lia].
    + exists w3. split; [|done]. by rewrite (seg_run_cons _ _ _ _ E3).
Qed.


