(* ===== verification/IOSegReqErr.v ===== *)
(** * IOSegReqErr: the ways in which a segment does not end as it should

    A partial write whose read phase fails is never reported done; a read with outdated
    metadata is reported done too early, and a thread can then wait for ever; a partial write
    with outdated metadata is reported successful and writes nothing; the loop over the blocks without
    metadata can meet the array that the write phase has given back. *)

From S2P Require Import Prelude CommonUtil Fsm IOSegReqFsm MDataCommit MDItems NNProto NNReport IOReqOvlp IOSegReq IOSegReqSpec IOSegReqWrite.

(** ** The read phase of a partial write fails *)

Lemma WritePL_refused lb n ioRes nf w :
  st_is IOSegREQ_S_RUD (sg_req w) ->
  exists w', ioSReq_WritePL_endfn lb n ioRes nf w = Returns w' 0 /\ sg_pl w' = sg_pl w /\ sg_leaves w' = sg_leaves w /\
    st_is IOSegREQ_S_RUD (sg_req w') /\ sg_calls w' = sg_calls w.
Proof.
  intros Hs. unfold st_is in Hs. unfold ioSReq_WritePL_endfn, sub_ciMDS, grants, seg_event, IOSegReq_update_state, _update_ioSegReqState_lockless, upd_sr,
    get_sr, gets, modify, mbind, thread_bind, mret, thread_ret. destruct w as [r]. destruct r. cbn -[s32] in *.
  destruct (s32 _ =? 0); cbn -[s32]; [|by eexists]. rewrite Hs. cbn -[s32]. rewrite bool_decide_false by done. by eexists.
Qed.

Lemma PartialW_failed lb n nf w :
  true_proc (sg_req w) = false -> st_is IOSegREQ_S_RUD (sg_req w) -> ci_user (sg_req w) = false ->
  s32 (ciUser_remainLB (sg_req w) - n) = 0 ->
  exists w' z, ioSReq_PartialW_ReadPL_endfn lb n false nf w = Returns w' z /\
    sg_pl w' = sg_pl w /\ sg_leaves w' = sg_leaves w /\ st_is IOSegREQ_S_RUD (sg_req w') /\
    outcomes (sg_calls w') = outcomes (sg_calls w) ++ ci_part (sr_addr (sg_req w)) (sg_ioResult w) false (sg_io_ciUser_remainLB w).
Proof.
  intros Ht Hs Hc Hn. unfold ioSReq_PartialW_ReadPL_endfn, and_ciUser_result.
  rewrite (bind_returns (upd_sr _) _ _ _ _ eq_refl). set (w1 := set_sg_req _ w).
  rewrite (bind_returns _ _ _ _ _ (chk_ciUser_normal lb n w1 Ht)). cbn zeta. change (ciUser_remainLB (sg_req w1)) with (ciUser_remainLB (sg_req w)).
  rewrite Hn. cbn [Z.eqb negb]. set (w2 := set_sg_req _ w1). rewrite (bind_returns (get_sr _) _ _ _ _ eq_refl).
  change (ciUser_result (sg_req w2)) with (ciUser_result (sg_req w) && false). rewrite andb_false_r. cbn [negb].
  rewrite (bind_returns _ _ _ _ _ (commit_user_spec false w2 Hc)). set (w3 := give false w2).
  rewrite (bind_returns (get_sr _) _ _ _ _ eq_refl). 
  destruct (WritePL_refused (lbid_start (sr_addr (sg_req w3))) (lbid_len (sr_addr (sg_req w3))) false nf w3 Hs) as (w' & E & Q1 & Q2 & Q3 & Q4).
  rewrite (bind_returns _ _ _ _ _ E). exists w', 0. rewrite Q1, Q2, Q4. split_and!; [done..|].
  unfold w3, give. cbn -[s32 outcomes]. rewrite outcomes_app. unfold ci_part.
  by destruct (s32 (sg_io_ciUser_remainLB w - lbid_len (sr_addr (sg_req w))) =? 0).
Qed.



(** ** Outdated metadata *)

(** Payload requests that have not ended. *)
Definition unread (w : seg_world) : list (Z * Z) :=
  (fun p => (pl_lb p, pl_len p)) <$> filter (fun p => match pl_cb p with CB_Read | CB_PartialW_Read => true | _ => false end = true) (sg_pl w).

Definition two_items : list mdItem_t := [ex_md MData_VALID 100 2; ex_md MData_VALID 102 2].

(** The first of two items is outdated, its two blocks are read one by one. *)
Definition outdated_evs (r1 r2 d1 d2 : bool) : list seg_ev :=
  [Ev_acquired two_items 0 0; Ev_read_mderr 0; Ev_leaf_acquired 0 true 0; Ev_leaf_acquired 1 true 0;
   Ev_leaf_end 1 r2 d2; Ev_leaf_end 0 r1 d1].

(** A read with outdated metadata of one item ends without the others.  The blocks of the outdated item are
    read again one by one; when these are there the user gets his answer and the blocks are reported
    done, although the payload request for the other item has not ended: only the blocks of the first
    outdated item are marked as missing.  When this payload request meets outdated metadata in its turn, its thread
    tries a transition for ever that the state of the segment does not grant any more. *)
Theorem outdated_read_ends_early (res0 r1 r2 d1 d2 ovw hit : bool) :
  exists w, seg_life 0 ovw hit true (outdated_evs r1 r2 d1 d2) (seg0 (ex_addr 100 4) KERNEL_IO_READ res0 4) = Returns w tt /\
    outcomes (sg_calls w) = [C_ioReq_commit_user (res0 && (r1 && r2)); C_ioReq_IODone 4] /\
    unread w = [(102, 2)] /\ seg_step (Ev_read_mderr 1) w = Blocks.
Proof.
  destruct ovw, hit, res0, r1, r2, d1, d2; (eexists; split; [vm_compute; reflexivity|]; vm_compute; by split_and!).
Qed.

(** A partial write with outdated metadata is reported successful and writes nothing: the leaf requests call back as for
    a read. *)
Theorem outdated_partial_write_lost (res0 ovw hit : bool) :
  exists w, seg_life 0 ovw hit false
      [Ev_acquired [ex_md MData_VALID 100 2] 0 0; Ev_read_mderr 0; Ev_leaf_acquired 0 true 0; Ev_leaf_acquired 1 true 0;
       Ev_leaf_end 1 true true; Ev_leaf_end 0 true true] (seg0 (ex_addr 100 2) KERNEL_IO_WRITE res0 2) = Returns w tt /\
    outcomes (sg_calls w) = [C_ioReq_commit_user res0; C_ioReq_IODone 2] /\ nowrite w /\ sg_leaves w = [] /\ unread w = [].
Proof.
  destruct ovw, hit, res0; (eexists; split; [vm_compute; reflexivity|]; vm_compute; split_and!; try done; by repeat constructor).
Qed.

(** A second outdated item submits the leaf requests of the first one again. *)
Theorem outdated_twice_submits_again (res0 ovw hit : bool) :
  exists w, seg_life 0 ovw hit true [Ev_acquired two_items 0 0; Ev_read_mderr 0; Ev_read_mderr 1]
      (seg0 (ex_addr 100 4) KERNEL_IO_READ res0 4) = Returns w tt /\
    (fun l => (lf_lb l, lf_waiting l)) <$> sg_leaves w = [(100, 2); (101, 2); (102, 1); (103, 1)].
Proof. destruct ovw, hit, res0; (eexists; split; [vm_compute; reflexivity|]; reflexivity). Qed.

(** The metadata of a leaf request cannot be had: nothing more happens, and the IO request never hears of the segment. *)
Theorem leaf_metadata_error_strands (res0 ovw hit valid : bool) :
  exists w, seg_life 0 ovw hit true [Ev_acquired [ex_md MData_VALID 100 1] 0 0; Ev_read_mderr 0; Ev_leaf_acquired 0 valid (- EPERM)]
      (seg0 (ex_addr 100 1) KERNEL_IO_READ res0 1) = Returns w tt /\
    outcomes (sg_calls w) = [] /\ unread w = [] /\ (fun l => (lf_waiting l, lf_reading l)) <$> sg_leaves w = [(0, 0)].
Proof. destruct ovw, hit, res0, valid; (eexists; split; [vm_compute; reflexivity|]; vm_compute; by split_and!). Qed.

(** The last payload request ends while the loop over the items is still to visit the last item: the first write has
    given the metadata back, and the loop reads from NULL. *)
Theorem first_write_null_metadata (res0 hit : bool) :
  seg_life 0 false hit false [Ev_acquired [ex_md MData_INVALID 100 1; ex_md MData_VALID 101 1] 1 0; Ev_inval;
                              Ev_read_end 0 true true 0; Ev_inval] (seg0 (ex_addr 100 2) KERNEL_IO_WRITE res0 2) = Faults.
Proof. destruct res0, hit; vm_compute; reflexivity. Qed.
