(* ===== verification/Ovw.v ===== *)
(** * Ovw: which blocks of a volume have been written

    Translation of discoNN_client/discoC_NNC_ovw.c with discoC_NNC_ovw.h, and of
    [set_vol_ovw_read_state] and [clear_volume_ovw] of vdisk_manager/volume_manager.c.

    A volume has a bitmap, one bit per block, which decides between first writes and
    overwrites.  It is allocated empty when the volume is attached or restarted; a request in a
    queue asks the namenode for the blocks written so far, a worker sends it, and the
    receiver sets the bits of the answer.  The volume can be released meanwhile: the request is
    then cancelled, and the receiver or the worker frees what is left.

    [ow_mem] are the allocated bitmaps and [ow_reqs] the allocated requests, by address (0 is NULL);
    an access to anything else, or outside of a bitmap, is a fault ([None]).  The steps are
    the critical sections; the receiver is a state of its own ([ow_rx]) since it works on one
    answer in several steps.  The answers of the allocators are arguments. *)

From S2P Require Import Prelude CommonUtil Bytes.

Inductive ovw_state : Type :=
| OVW_REQ_STATE_REQ_OVW_START
| OVW_REQ_STATE_REQ_SEND_TO_NN
| OVW_REQ_STATE_REQ_PROCESS_RESPONSE
| OVW_REQ_STATE_REQ_PROCESS_RESPONSE_DONE
| OVW_REQ_STATE_REQ_CANCEL.

#[global] Instance ovw_state_eq_dec : EqDecision ovw_state.
Proof. solve_decision. Defined.

Definition DMS_NN_REQUEST_CMD_TYPE_OVERWRITTEN : Z := 1.
Definition DMS_NN_REQUEST_CMD_TYPE_OVW_UPDATE_HB : Z := 8.
Definition DMS_NN_CMD_OVW_SUB_TYPE_REQUEST : Z := 1.
Definition NN_OVW_RESPONSE_PAYLOAD_UNIT_SIZE : Z := 16.
Definition OVW_BUF_SIZE : Z := 4096.
Definition OVW_SOCKET_RECV_BUFFER_SIZE : Z := 4096.
Definition max_ovw_request_can_be_send_out : Z := 4.
Definition PAGE_SIZE : Z := 4096.
Definition PAGE_ALIGN (n : Z) : Z := (n + (PAGE_SIZE - 1)) / PAGE_SIZE * PAGE_SIZE.

(** The packet of a request or a heartbeat: a packed structure. *)
Definition ovw_req_header (cmd sub volid : Z) : list Z :=
  le_bytes 8 (htonll MAGIC_NUM) ++ le_bytes 2 (htons cmd) ++ le_bytes 2 (htons sub) ++ le_bytes 8 (htonll volid) ++
  le_bytes 8 (htonll MAGIC_NUM_END).

Definition _gen_nnovw_conn_hb_pkt (pkt_buffer : list Z) : option (Z * list Z) :=
  buf ← splice pkt_buffer 0
          (ovw_req_header DMS_NN_REQUEST_CMD_TYPE_OVW_UPDATE_HB DMS_NN_CMD_OVW_SUB_TYPE_REQUEST 1);
  Some (28, buf).

Record ovw_req : Type := {
  req_header : list Z;
  ovw_req_state : ovw_state;
  ovw_ptr : Z;
  req_vol_id : Z;
}.

Record volume_ovw_t : Type := {
  ovw_memory : Z;
  ovw_init : bool;
  ovw_reading : bool;
  capacity : Z;
}.

(** An answer, as it lies in memory. *)
Record ovw_res : Type := {
  begin_magic_number : Z;
  res_vol_id : Z;
  req_cmd_type : Z;
  res_sub_type : Z;
  error_code : Z;
  len_in_byte : Z;
  end_magic_number : Z;
}.

(** The receiver: in the loop over the bytes of an answer, or behind the change of the state.
    [rx_set] is [set_ovw]. *)
Record ovw_rx : Type := {
  rx_req : Z;
  rx_set : Z;
  rx_left : Z;
  rx_fail : bool;
  rx_done : bool;
}.

Record ovw_world : Type := {
  nn_ovw_manager_ready : bool;
  ow_vols : gmap Z volume_ovw_t;
  ow_mem : gmap Z (list Z);
  ow_reqs : gmap Z ovw_req;
  ow_queue : list Z;
  ow_size : Z;
  ow_send : Z;
  ow_wait : Z;
  ow_rx : option ovw_rx;
  ow_sent : list (list Z);
}.

Definition set_or_state (x0 : ovw_state) (r : ovw_req) : ovw_req :=
  {| req_header := req_header r; ovw_req_state := x0; ovw_ptr := ovw_ptr r; req_vol_id := req_vol_id r |}.

Definition set_or_ptr (x0 : Z) (r : ovw_req) : ovw_req :=
  {| req_header := req_header r; ovw_req_state := ovw_req_state r; ovw_ptr := x0; req_vol_id := req_vol_id r |}.

Definition set_vo_memory (x0 : Z) (v : volume_ovw_t) : volume_ovw_t :=
  {| ovw_memory := x0; ovw_init := ovw_init v; ovw_reading := ovw_reading v; capacity := capacity v |}.

Definition set_vo_init (x0 : bool) (v : volume_ovw_t) : volume_ovw_t :=
  {| ovw_memory := ovw_memory v; ovw_init := x0; ovw_reading := ovw_reading v; capacity := capacity v |}.

Definition set_vo_reading (x0 : bool) (v : volume_ovw_t) : volume_ovw_t :=
  {| ovw_memory := ovw_memory v; ovw_init := ovw_init v; ovw_reading := x0; capacity := capacity v |}.

Definition set_rx_set (x0 : Z) (x : ovw_rx) : ovw_rx :=
  {| rx_req := rx_req x; rx_set := x0; rx_left := rx_left x; rx_fail := rx_fail x; rx_done := rx_done x |}.

Definition set_rx_left (x0 : Z) (x : ovw_rx) : ovw_rx :=
  {| rx_req := rx_req x; rx_set := rx_set x; rx_left := x0; rx_fail := rx_fail x; rx_done := rx_done x |}.

Definition set_rx_fail (x0 : bool) (x : ovw_rx) : ovw_rx :=
  {| rx_req := rx_req x; rx_set := rx_set x; rx_left := rx_left x; rx_fail := x0; rx_done := rx_done x |}.

Definition set_rx_done (x0 : bool) (x : ovw_rx) : ovw_rx :=
  {| rx_req := rx_req x; rx_set := rx_set x; rx_left := rx_left x; rx_fail := rx_fail x; rx_done := x0 |}.

Definition set_ow_ready (x0 : bool) (w : ovw_world) : ovw_world :=
  {| nn_ovw_manager_ready := x0; ow_vols := ow_vols w; ow_mem := ow_mem w; ow_reqs := ow_reqs w; ow_queue :=
     ow_queue w; ow_size := ow_size w; ow_send := ow_send w; ow_wait := ow_wait w; ow_rx := ow_rx w; ow_sent :=
     ow_sent w |}.

Definition set_ow_vols (x0 : gmap Z volume_ovw_t) (w : ovw_world) : ovw_world :=
  {| nn_ovw_manager_ready := nn_ovw_manager_ready w; ow_vols := x0; ow_mem := ow_mem w; ow_reqs := ow_reqs w;
     ow_queue := ow_queue w; ow_size := ow_size w; ow_send := ow_send w; ow_wait := ow_wait w; ow_rx := ow_rx w;
     ow_sent := ow_sent w |}.

Definition set_ow_mem (x0 : gmap Z (list Z)) (w : ovw_world) : ovw_world :=
  {| nn_ovw_manager_ready := nn_ovw_manager_ready w; ow_vols := ow_vols w; ow_mem := x0; ow_reqs := ow_reqs w;
     ow_queue := ow_queue w; ow_size := ow_size w; ow_send := ow_send w; ow_wait := ow_wait w; ow_rx := ow_rx w;
     ow_sent := ow_sent w |}.

Definition set_ow_reqs (x0 : gmap Z ovw_req) (w : ovw_world) : ovw_world :=
  {| nn_ovw_manager_ready := nn_ovw_manager_ready w; ow_vols := ow_vols w; ow_mem := ow_mem w; ow_reqs := x0;
     ow_queue := ow_queue w; ow_size := ow_size w; ow_send := ow_send w; ow_wait := ow_wait w; ow_rx := ow_rx w;
     ow_sent := ow_sent w |}.

Definition set_ow_queue (x0 : list Z) (x1 : Z) (w : ovw_world) : ovw_world :=
  {| nn_ovw_manager_ready := nn_ovw_manager_ready w; ow_vols := ow_vols w; ow_mem := ow_mem w; ow_reqs :=
     ow_reqs w; ow_queue := x0; ow_size := x1; ow_send := ow_send w; ow_wait := ow_wait w; ow_rx := ow_rx w;
     ow_sent := ow_sent w |}.

Definition set_ow_send (x0 : Z) (w : ovw_world) : ovw_world :=
  {| nn_ovw_manager_ready := nn_ovw_manager_ready w; ow_vols := ow_vols w; ow_mem := ow_mem w; ow_reqs :=
     ow_reqs w; ow_queue := ow_queue w; ow_size := ow_size w; ow_send := x0; ow_wait := ow_wait w; ow_rx :=
     ow_rx w; ow_sent := ow_sent w |}.

Definition set_ow_wait (x0 : Z) (w : ovw_world) : ovw_world :=
  {| nn_ovw_manager_ready := nn_ovw_manager_ready w; ow_vols := ow_vols w; ow_mem := ow_mem w; ow_reqs :=
     ow_reqs w; ow_queue := ow_queue w; ow_size := ow_size w; ow_send := ow_send w; ow_wait := x0; ow_rx :=
     ow_rx w; ow_sent := ow_sent w |}.

Definition set_ow_rx (x0 : option ovw_rx) (w : ovw_world) : ovw_world :=
  {| nn_ovw_manager_ready := nn_ovw_manager_ready w; ow_vols := ow_vols w; ow_mem := ow_mem w; ow_reqs :=
     ow_reqs w; ow_queue := ow_queue w; ow_size := ow_size w; ow_send := ow_send w; ow_wait := ow_wait w; ow_rx
     := x0; ow_sent := ow_sent w |}.

Definition set_ow_sent (x0 : list (list Z)) (w : ovw_world) : ovw_world :=
  {| nn_ovw_manager_ready := nn_ovw_manager_ready w; ow_vols := ow_vols w; ow_mem := ow_mem w; ow_reqs :=
     ow_reqs w; ow_queue := ow_queue w; ow_size := ow_size w; ow_send := ow_send w; ow_wait := ow_wait w; ow_rx
     := ow_rx w; ow_sent := x0 |}.

Definition BIT_LEN_BYTE : Z := 3.
Definition BYTE_MOD_NUM : Z := 7.

(** ** The bitmap *)

Definition byte_at (m : list Z) (i : Z) : option Z := if i <? 0 then None else m !! Z.to_nat i.

Definition bit_get (m : list Z) (LBID : Z) : option bool :=
  data ← byte_at m (Z.shiftr LBID BIT_LEN_BYTE); Some (Z.testbit data (Z.land LBID BYTE_MOD_NUM)).

Definition bit_set (m : list Z) (LBID : Z) (bitvalue : bool) : option (list Z) :=
  data ← byte_at m (Z.shiftr LBID BIT_LEN_BYTE);
  let data := if bitvalue then Z.setbit data (Z.land LBID BYTE_MOD_NUM) else Z.clearbit data (Z.land LBID BYTE_MOD_NUM) in
  Some (<[Z.to_nat (Z.shiftr LBID BIT_LEN_BYTE) := data]> m).

Definition set_mem (p : Z) (m : list Z) (w : ovw_world) : ovw_world := set_ow_mem (<[p := m]> (ow_mem w)) w.

Definition ovw_get (dev : Z) (LBID : Z) (w : ovw_world) : option bool :=
  match ow_vols w !! dev with
  | None => Some false
  | Some v =>
      if negb (ovw_init v) then Some false
      else if ovw_memory v =? 0 then Some false
      else m ← ow_mem w !! ovw_memory v; bit_get m LBID
  end.

Definition ovw_set (dev : Z) (LBID : Z) (bitvalue : bool) (w : ovw_world) : option (ovw_world * bool) :=
  match ow_vols w !! dev with
  | None => Some (w, false)
  | Some v =>
      if negb (ovw_init v) then Some (w, false)
      else
        m ← ow_mem w !! ovw_memory v;
        m ← bit_set m LBID bitvalue;
        Some (set_mem (ovw_memory v) m w, true)
  end.

(** Blank buffers are copied until [size] bytes are reached. *)
Fixpoint blank_loop (n : nat) (p : Z) (m : list Z) : option (list Z) :=
  match n with
  | O => Some m
  | S n => m ← splice m p (replicate (Z.to_nat OVW_BUF_SIZE) 0); blank_loop n (p + OVW_BUF_SIZE) m
  end.

Definition ovw_size (capacity : Z) : Z :=
  PAGE_ALIGN (Z.shiftr (Z.shiftr capacity BIT_LEN_DMS_LB_SIZE) 3).

Definition blank (size : Z) (m : list Z) : option (list Z) :=
  blank_loop (Z.to_nat ((size + (OVW_BUF_SIZE - 1)) / OVW_BUF_SIZE)) 0 m.

Definition ovw_clear (dev : Z) (w : ovw_world) : option (ovw_world * bool) :=
  match ow_vols w !! dev with
  | None => Some (w, false)
  | Some v =>
      if negb (ovw_init v) then Some (w, false)
      else
        m ← ow_mem w !! ovw_memory v;
        m ← blank (ovw_size (capacity v)) m;
        Some (set_mem (ovw_memory v) m w, true)
  end.

Fixpoint ovw_range_loop (n : nat) (vol lbid_s : Z) (val : bool) (w : ovw_world) : option (ovw_world * Z) :=
  match n with
  | O => Some (w, 0)
  | S n =>
      '(w, ok) ← ovw_set vol lbid_s val w;
      if ok : bool then ovw_range_loop n vol (u64 (lbid_s + 1)) val w else Some (w, - EINVAL)
  end.

Definition set_vol_ovw_range (vol lbid_s lbid_len : Z) (val : bool) (w : ovw_world) : option (ovw_world * Z) :=
  ovw_range_loop (Z.to_nat lbid_len) vol lbid_s val w.

Definition set_vol_ovw_read_state (vol_id : Z) (reading : bool) (w : ovw_world) : ovw_world :=
  set_ow_vols (alter (set_vo_reading reading) (u32 vol_id) (ow_vols w)) w.

(** ** The queue of requests *)

(** The first request of the volume; a request that is not allocated is a fault. *)
Fixpoint queue_find (volid : Z) (q : list Z) (w : ovw_world) : option (option Z) :=
  match q with
  | [] => Some None
  | p :: q =>
      r ← ow_reqs w !! p;
      if req_vol_id r =? volid then Some (Some p) else queue_find volid q w
  end.

Definition upd_req (p : Z) (f : ovw_req -> ovw_req) (w : ovw_world) : ovw_world := set_ow_reqs (alter f p (ow_reqs w)) w.

Definition find_ovw_req (volid : Z) (set_req_state : bool) (state : ovw_state) (w : ovw_world) :
    option (ovw_world * option (Z * ovw_state)) :=
  if negb (nn_ovw_manager_ready w) then Some (w, None)
  else
    found ← queue_find volid (ow_queue w) w;
    match found with
    | None => Some (w, None)
    | Some p =>
        r ← ow_reqs w !! p;
        let old := ovw_req_state r in
        if set_req_state && negb (bool_decide (old = OVW_REQ_STATE_REQ_CANCEL)) then
          let cancel := bool_decide (state = OVW_REQ_STATE_REQ_CANCEL) in
          let w := if cancel && (bool_decide (old = OVW_REQ_STATE_REQ_OVW_START) ||
                                 bool_decide (old = OVW_REQ_STATE_REQ_SEND_TO_NN) ||
                                 bool_decide (old = OVW_REQ_STATE_REQ_PROCESS_RESPONSE_DONE))
                   then upd_req p (set_or_ptr 0) w else w in
          let w := if cancel && bool_decide (old = OVW_REQ_STATE_REQ_OVW_START)
                   then set_ow_wait (s32 (ow_wait w - 1)) w else w in
          let w := if bool_decide (old = OVW_REQ_STATE_REQ_SEND_TO_NN) then set_ow_send (s32 (ow_send w - 1)) w else w in
          Some (upd_req p (set_or_state state) w, Some (p, old))
        else Some (w, Some (p, old))
    end.

Definition create_ovw_req (volid ovw_mem_ptr : Z) : ovw_req :=
  {| req_header := ovw_req_header DMS_NN_REQUEST_CMD_TYPE_OVERWRITTEN DMS_NN_CMD_OVW_SUB_TYPE_REQUEST volid;
     ovw_req_state := OVW_REQ_STATE_REQ_OVW_START; ovw_ptr := ovw_mem_ptr; req_vol_id := volid |}.

(** [p]: the memory for the request. *)
Definition add_ovw_req (volid ovw_mem_ptr p : Z) (w : ovw_world) : option ovw_world :=
  if negb (nn_ovw_manager_ready w) then Some w
  else
    '(w, found) ← find_ovw_req volid false OVW_REQ_STATE_REQ_OVW_START w;
    match found with
    | Some _ => Some w
    | None =>
        if p =? 0 then Some w
        else
          let w := set_ow_reqs (<[p := create_ovw_req volid ovw_mem_ptr]> (ow_reqs w)) w in
          Some (set_ow_queue (ow_queue w ++ [p]) (s32 (ow_size w + 1)) (set_ow_wait (s32 (ow_wait w + 1)) w))
    end.

Definition vfree (p : Z) (w : ovw_world) : option ovw_world :=
  _ ← ow_mem w !! p; Some (set_ow_mem (delete p (ow_mem w)) w).

Definition free_req (p : Z) (w : ovw_world) : option ovw_world :=
  _ ← ow_reqs w !! p; Some (set_ow_reqs (delete p (ow_reqs w)) w).

(** The first request that waits to be sent, or was cancelled; the others are passed over. *)
Fixpoint queue_next (q : list Z) (w : ovw_world) : option (option (Z * ovw_req)) :=
  match q with
  | [] => Some None
  | p :: q =>
      r ← ow_reqs w !! p;
      if decide (ovw_req_state r = OVW_REQ_STATE_REQ_OVW_START \/ ovw_req_state r = OVW_REQ_STATE_REQ_CANCEL)
      then Some (Some (p, r)) else queue_next q w
  end.

Definition del_queue (p : Z) (w : ovw_world) : ovw_world :=
  set_ow_queue (filter (fun q => q <> p) (ow_queue w)) (s32 (ow_size w - 1)) w.

(** A cancelled request is freed, and none is returned. *)
Definition get_ovw_req (w : ovw_world) : option (ovw_world * Z) :=
  next ← queue_next (ow_queue w) w;
  match next with
  | None => Some (w, 0)
  | Some (p, r) =>
      if decide (ovw_req_state r = OVW_REQ_STATE_REQ_OVW_START) then
        let w := upd_req p (set_or_state OVW_REQ_STATE_REQ_SEND_TO_NN) w in
        Some (set_ow_wait (s32 (ow_wait w - 1)) (set_ow_send (s32 (ow_send w + 1)) w), p)
      else
        let w := del_queue p w in
        w ← (if ovw_ptr r =? 0 then Some w else vfree (ovw_ptr r) w);
        w ← free_req p w;
        Some (w, 0)
  end.

(** What the worker waits for. *)
Definition worker_ready (w : ovw_world) : bool :=
  (ow_size w >? 0) && (ow_send w <=? max_ovw_request_can_be_send_out) && (ow_wait w >? 0).

(** One turn of the worker. *)
Definition nn_ovw_request_worker (connected : bool) (w : ovw_world) : option ovw_world :=
  if negb (worker_ready w) then Some w
  else
    '(w, p) ← get_ovw_req w;
    if (p =? 0) || negb connected then Some w
    else r ← ow_reqs w !! p; Some (set_ow_sent (ow_sent w ++ [req_header r]) w).

Definition rm_ovw_req (p : Z) (w : ovw_world) : ovw_world :=
  if decide (p ∈ ow_queue w) then del_queue p w else w.

(** ** The answer *)

Definition change_byteorder_nn_ovw_response (h : ovw_res) : ovw_res :=
  {| begin_magic_number := ntohll (begin_magic_number h); res_vol_id := ntohll (res_vol_id h);
     req_cmd_type := ntohs (req_cmd_type h); res_sub_type := ntohs (res_sub_type h); error_code := ntohs (error_code h);
     len_in_byte := ntohll (len_in_byte h); end_magic_number := ntohll (end_magic_number h) |}.

Definition set_ovw_by_ptr (ovw_mem_ptr LBID : Z) (w : ovw_world) : option ovw_world :=
  if ovw_mem_ptr =? 0 then Some w
  else m ← ow_mem w !! ovw_mem_ptr; m ← bit_set m LBID true; Some (set_mem ovw_mem_ptr m w).

(** The pointer is read from the request each time. *)
Fixpoint range_loop (n : nat) (p startLB j : Z) (w : ovw_world) : option ovw_world :=
  match n with
  | O => Some w
  | S n =>
      r ← ow_reqs w !! p;
      w ← set_ovw_by_ptr (ovw_ptr r) (u64 (startLB + j)) w;
      range_loop n p startLB (j + 1) w
  end.

Definition load64 (d : list Z) (off : Z) : option Z := ntohll ∘ le_val <$> slice d off 8.

(** The units of a buffer: a first block and a number of blocks each. *)
Fixpoint unit_loop (cnt : nat) (p : Z) (d : list Z) (w : ovw_world) : option ovw_world :=
  match cnt with
  | O => Some w
  | S cnt =>
      startLB ← load64 d 0;
      LBCnt ← load64 d (NN_OVW_RESPONSE_PAYLOAD_UNIT_SIZE / 2);
      w ← range_loop (Z.to_nat LBCnt) p startLB 0 w;
      unit_loop cnt p (drop (Z.to_nat NN_OVW_RESPONSE_PAYLOAD_UNIT_SIZE) d) w
  end.

(** The header of an answer has been received. *)
Definition rx_header (h : ovw_res) (w : ovw_world) : option ovw_world :=
  let h := change_byteorder_nn_ovw_response h in
  if negb (begin_magic_number h =? MAGIC_NUM) || negb (end_magic_number h =? MAGIC_NUM_END) then Some w
  else
    '(w, found) ← find_ovw_req (res_vol_id h) true OVW_REQ_STATE_REQ_PROCESS_RESPONSE w;
    let '(p, set) := match found with
                     | None => (0, 0)
                     | Some (p, old) => (p, if decide (old = OVW_REQ_STATE_REQ_CANCEL) then 1 else 2)
                     end in
    Some (set_ow_rx (Some {| rx_req := p; rx_set := set; rx_left := s64 (len_in_byte h); rx_fail := false; rx_done := false |}) w).

(** One turn of the loop over the bytes of an answer, with what was received. *)
Definition rx_chunk (data : list Z) (w : ovw_world) : option ovw_world :=
  match ow_rx w with
  | None => Some w
  | Some x =>
      if (rx_left x <=? 0) || rx_fail x || rx_done x then Some w
      else
        let expected := if rx_left x >? OVW_SOCKET_RECV_BUFFER_SIZE then OVW_SOCKET_RECV_BUFFER_SIZE else rx_left x in
        if negb (Z.of_nat (length data) =? expected) then Some (set_ow_rx (Some (set_rx_fail true x)) w)
        else
          w ← (if rx_set x =? 2 then unit_loop (Z.to_nat (expected / NN_OVW_RESPONSE_PAYLOAD_UNIT_SIZE)) (rx_req x) data w
               else Some w);
          Some (set_ow_rx (Some (set_rx_left (rx_left x - OVW_SOCKET_RECV_BUFFER_SIZE) x)) w)
  end.

(** Behind the loop: the state of the request changes. *)
Definition rx_state (w : ovw_world) : option ovw_world :=
  match ow_rx w with
  | None => Some w
  | Some x =>
      if ((rx_left x >? 0) && negb (rx_fail x)) || rx_done x then Some w
      else if rx_set x =? 0 then Some (set_ow_rx None w)
      else if rx_set x =? 2 then
        r ← ow_reqs w !! rx_req x;
        if decide (ovw_req_state r = OVW_REQ_STATE_REQ_CANCEL) then
          Some (set_ow_rx (Some (set_rx_done true (set_rx_set 1 x))) w)
        else if rx_fail x then
          Some (set_ow_rx None (upd_req (rx_req x) (set_or_state OVW_REQ_STATE_REQ_OVW_START) w))
        else
          Some (set_ow_rx (Some (set_rx_done true x))
                  (upd_req (rx_req x) (set_or_state OVW_REQ_STATE_REQ_PROCESS_RESPONSE_DONE) w))
      else Some (set_ow_rx (Some (set_rx_done true x)) w)
  end.

(** The end of an answer: the request is freed. *)
Definition rx_finish (w : ovw_world) : option ovw_world :=
  match ow_rx w with
  | None => Some w
  | Some x =>
      if negb (rx_done x) then Some w
      else
        r ← ow_reqs w !! rx_req x;
        let w := set_vol_ovw_read_state (req_vol_id r) false w in
        let w := rm_ovw_req (rx_req x) w in
        w ← (if (rx_set x =? 1) && negb (ovw_ptr r =? 0) then vfree (ovw_ptr r) w else Some w);
        w ← free_req (rx_req x) w;
        Some (set_ow_rx None w)
  end.

(** The connection is back: what was sent is to be sent again. *)
Fixpoint retry_loop (q : list Z) (w : ovw_world) : option ovw_world :=
  match q with
  | [] => Some w
  | p :: q =>
      r ← ow_reqs w !! p;
      retry_loop q
        (if decide (ovw_req_state r = OVW_REQ_STATE_REQ_SEND_TO_NN) then
           set_ow_wait (s32 (ow_wait w + 1))
             (set_ow_send (s32 (ow_send w - 1)) (upd_req p (set_or_state OVW_REQ_STATE_REQ_OVW_START) w))
         else w)
  end.

Definition retry_nn_ovw_req (w : ovw_world) : option ovw_world := retry_loop (ow_queue w) w.

(** ** Volumes come and go *)

Definition set_vol (dev : Z) (v : volume_ovw_t) (w : ovw_world) : ovw_world := set_ow_vols (<[dev := v]> (ow_vols w)) w.

(** [area]: the memory for the bitmap and what it holds; [p]: the memory for the request. *)
Definition init_ovw (volid capacity : Z) (area : option (Z * list Z)) (p : Z) (w : ovw_world) : option (ovw_world * bool) :=
  let reading := match ow_vols w !! volid with Some v => ovw_reading v | None => false end in
  let init := match ow_vols w !! volid with Some v => ovw_init v | None => false end in
  match area with
  | None => Some (set_vol volid {| ovw_memory := 0; ovw_init := init; ovw_reading := reading; capacity := capacity |} w, false)
  | Some (a, m) =>
      m ← blank (ovw_size capacity) m;
      let w := set_mem a m w in
      let w := set_vol volid {| ovw_memory := a; ovw_init := true; ovw_reading := true; capacity := capacity |} w in
      w ← add_ovw_req volid a p w;
      Some (w, true)
  end.

Definition release_ovw (dev : Z) (w : ovw_world) : option ovw_world :=
  match ow_vols w !! dev with
  | None => Some w
  | Some v =>
      let v := set_vo_init false v in
      let w := set_vol dev v w in
      '(w, found) ← find_ovw_req dev true OVW_REQ_STATE_REQ_CANCEL w;
      let free := if ovw_memory v =? 0 then Some w
                  else w ← vfree (ovw_memory v) w; Some (set_vol dev (set_vo_memory 0 v) w) in
      match found with
      | None => free
      | Some (_, old) =>
          if decide (old = OVW_REQ_STATE_REQ_OVW_START \/ old = OVW_REQ_STATE_REQ_SEND_TO_NN \/
                     old = OVW_REQ_STATE_REQ_PROCESS_RESPONSE_DONE) then free
          else Some (set_vol dev (set_vo_memory 0 v) w)
      end
  end.

(** The manager is taken down: all requests are freed with their bitmaps. *)
Fixpoint release_loop (q : list Z) (w : ovw_world) : option ovw_world :=
  match q with
  | [] => Some w
  | p :: q =>
      r ← ow_reqs w !! p;
      let w := set_ow_queue q (ow_size w) w in
      w ← (if ovw_ptr r =? 0 then Some w else vfree (ovw_ptr r) w);
      w ← free_req p w;
      release_loop q w
  end.

Definition rel_nnovw_manager (w : ovw_world) : option ovw_world :=
  let w := set_ow_ready false w in release_loop (ow_queue w) w.

Definition init_nnovw_manager : ovw_world :=
  {| nn_ovw_manager_ready := true; ow_vols := ∅; ow_mem := ∅; ow_reqs := ∅; ow_queue := []; ow_size := 0; ow_send := 0;
     ow_wait := 0; ow_rx := None; ow_sent := [] |}.

(** ** What can happen *)

Inductive ovw_ev : Type :=
| Ov_init (volid capacity : Z) (area : option (Z * list Z)) (p : Z)
| Ov_release (dev : Z)
| Ov_worker (connected : bool)
| Ov_header (h : ovw_res)
| Ov_chunk (data : list Z)
| Ov_state
| Ov_finish
| Ov_retry
| Ov_set (vol lbid_s lbid_len : Z) (val : bool)
| Ov_clear (vol : Z).

Definition ovw_step (e : ovw_ev) (w : ovw_world) : option ovw_world :=
  match e with
  | Ov_init volid capacity area p => fst <$> init_ovw volid capacity area p w
  | Ov_release dev => release_ovw dev w
  | Ov_worker connected => nn_ovw_request_worker connected w
  | Ov_header h => match ow_rx w with None => rx_header h w | Some _ => Some w end
  | Ov_chunk data => rx_chunk data w
  | Ov_state => rx_state w
  | Ov_finish => rx_finish w
  | Ov_retry => retry_nn_ovw_req w
  | Ov_set vol lbid_s lbid_len val => fst <$> set_vol_ovw_range vol lbid_s lbid_len val w
  | Ov_clear vol => fst <$> ovw_clear vol w
  end.

Fixpoint ovw_run (evs : list ovw_ev) (w : ovw_world) : option ovw_world :=
  match evs with
  | [] => Some w
  | e :: evs => w ← ovw_step e w; ovw_run evs w
  end.
