(* ===== verification/OvwSpec.v ===== *)
(** * OvwSpec: the bitmaps of written blocks

    The bitmap is exact (reading after setting, ranges, bounds); bitmaps and requests are neither
    used after they were freed nor lost, for every interleaving of attachments, releases, worker
    and receiver in which no request is left over; the answer of the namenode sets exactly its
    ranges.  The runs in which a volume is restarted too early or an answer is cut off. *)

From S2P Require Import Prelude CommonUtil Bytes Ovw.

(** ** The bitmap *)

Definition lb_ok (m : list Z) (lb : Z) : Prop := 0 <= lb < 8 * Z.of_nat (length m).

Lemma shiftr3 lb : Z.shiftr lb BIT_LEN_BYTE = lb / 8.
Proof. unfold BIT_LEN_BYTE. by rewrite Z.shiftr_div_pow2. Qed.

Lemma land7 lb : Z.land lb BYTE_MOD_NUM = lb mod 8.
Proof. unfold BYTE_MOD_NUM. change 7 with (Z.ones 3). by rewrite Z.land_ones. Qed.

Lemma byte_at_ok m lb : lb_ok m lb -> exists b, byte_at m (lb / 8) = Some b /\ m !! Z.to_nat (lb / 8) = Some b.
Proof.
  intros [H1 H2]. assert (0 <= lb / 8 < Z.of_nat (length m)) as Hd
    by (split; [apply Z.div_pos; lia|apply Z.div_lt_upper_bound; lia]).
  destruct (lookup_lt_is_Some_2 m (Z.to_nat (lb / 8))) as [b Hb]; [lia|]. exists b. unfold byte_at.
  rewrite (proj2 (Z.ltb_ge _ _)) by lia. done.
Qed.

(** The bit of a block, [false] outside of the bitmap. *)
Definition bit (m : list Z) (lb : Z) : bool := default false (bit_get m lb).

Lemma bit_get_ok m lb : lb_ok m lb -> bit_get m lb = Some (bit m lb).
Proof. intros H. unfold bit, bit_get. rewrite shiftr3. destruct (byte_at_ok m lb H) as (b & -> & _). done. Qed.

Lemma bit_set_ok m lb v :
  lb_ok m lb -> exists m', bit_set m lb v = Some m' /\ length m' = length m /\
    forall k, 0 <= k -> bit m' k = if decide (k = lb) then v else bit m k.
Proof.
  intros H. unfold bit_set. rewrite shiftr3, land7. destruct (byte_at_ok m lb H) as (b & -> & Hb). cbn [mbind option_bind].
  eexists. split; [done|]. split; [apply length_insert|]. intros k Hk.
  pose proof (Z.div_mod lb 8 ltac:(done)). pose proof (Z.mod_pos_bound lb 8 ltac:(done)).
  pose proof (Z.div_mod k 8 ltac:(done)). pose proof (Z.mod_pos_bound k 8 ltac:(done)).
  destruct H as [Ha Hz]. assert (0 <= lb / 8) by (apply Z.div_pos; lia). assert (0 <= k / 8) by (apply Z.div_pos; lia).
  unfold bit, bit_get, byte_at. rewrite !shiftr3, !land7. rewrite (proj2 (Z.ltb_ge (k / 8) 0)) by lia.
  destruct (decide (k / 8 = lb / 8)) as [E|E].
  - rewrite E, list_lookup_insert_eq by (by eapply lookup_lt_Some). rewrite Hb. cbn.
    destruct v; [rewrite Z.setbit_eqb by lia|rewrite Z.clearbit_eqb]; case_decide as Hd.
    + subst k. by rewrite Z.eqb_refl.
    + rewrite (proj2 (Z.eqb_neq (lb mod 8) (k mod 8))) by lia. done.
    + subst k. by rewrite Z.eqb_refl, andb_false_r.
    + rewrite (proj2 (Z.eqb_neq (lb mod 8) (k mod 8))) by lia. by rewrite andb_true_r.
  - rewrite list_lookup_insert_ne by lia. rewrite decide_False by (intros ->; done). done.
Qed.

(** Both ways to set a range end in this. *)
Fixpoint bits_set (n : nat) (lb : Z) (v : bool) (m : list Z) : option (list Z) :=
  match n with
  | O => Some m
  | S n => m ← bit_set m lb v; bits_set n (lb + 1) v m
  end.

Lemma bits_set_ok n lb v m :
  0 <= lb -> lb + Z.of_nat n <= 8 * Z.of_nat (length m) ->
  exists m', bits_set n lb v m = Some m' /\ length m' = length m /\
    forall k, 0 <= k -> bit m' k = if decide (lb <= k < lb + Z.of_nat n) then v else bit m k.
Proof.
  revert lb m. induction n as [|n IH]; intros lb m H1 H2.
  { exists m. split; [done|]. split; [done|]. intros k _. by rewrite decide_False by lia. }
  destruct (bit_set_ok m lb v) as (m1 & E & L & B); [unfold lb_ok; lia|]. cbn [bits_set]. rewrite E. cbn [mbind option_bind].
  destruct (IH (lb + 1) m1) as (m2 & E2 & L2 & B2); [lia|lia|]. exists m2. split; [done|]. split; [lia|]. intros k Hk.
  rewrite B2, B by done. repeat case_decide; try done; lia.
Qed.

Lemma blank_ok size m :
  0 <= size -> size mod OVW_BUF_SIZE = 0 -> Z.of_nat (length m) = size -> blank size m = Some (replicate (length m) 0).
Proof.
  intros H0 Hm Hl. unfold blank. set (n := Z.to_nat _).
  assert (size = OVW_BUF_SIZE * Z.of_nat n) as Hs.
  { pose proof (Z.div_mod size OVW_BUF_SIZE ltac:(done)) as Hd. unfold OVW_BUF_SIZE in *.
    assert ((size + (4096 - 1)) / 4096 = size / 4096) as Hq.
    { replace (size + (4096 - 1)) with ((4096 - 1) + (size / 4096) * 4096) by lia. rewrite Z.div_add by done. done. }
    unfold n. rewrite Hq, Z2Nat.id by (apply Z.div_pos; lia). lia. }
  clearbody n. clear Hm.
  assert (forall k m1 m2, length m2 = (Z.to_nat OVW_BUF_SIZE * k)%nat ->
            blank_loop k (Z.of_nat (length m1)) (m1 ++ m2) = Some (m1 ++ replicate (length m2) 0)) as Hgen.
  { clear. induction k as [|k IH]; intros m1 m2 Hl.
    - rewrite Nat.mul_0_r in Hl. apply nil_length_inv in Hl. by subst m2.
    - cbn [blank_loop]. rewrite <- (take_drop (Z.to_nat OVW_BUF_SIZE) m2). set (a := take _ m2). set (b := drop _ m2).
      assert (length a = Z.to_nat OVW_BUF_SIZE) as La by (unfold a; rewrite length_take; lia).
      assert (length b = (Z.to_nat OVW_BUF_SIZE * k)%nat) as Lb by (unfold b; rewrite length_drop; lia).
      rewrite splice_put; [|lia|rewrite !length_app, length_replicate; lia]. cbn [mbind option_bind].
      rewrite Nat2Z.id. rewrite <- (Nat.add_0_r (length m1)) at 2. rewrite put_app_r, put_app_l by (rewrite length_replicate; lia).
      unfold put. rewrite length_replicate, drop_ge by lia. rewrite app_nil_r, take_0, app_nil_l.
      specialize (IH (m1 ++ replicate (Z.to_nat OVW_BUF_SIZE) 0) b Lb). rewrite length_app, length_replicate in IH.
      replace (Z.of_nat (length m1) + OVW_BUF_SIZE) with (Z.of_nat (length m1 + Z.to_nat OVW_BUF_SIZE)) by (unfold OVW_BUF_SIZE; lia).
      rewrite app_assoc, IH, length_app, La, replicate_add, app_assoc. done. }
  apply (Hgen n [] m). unfold OVW_BUF_SIZE in *. lia.
Qed.

Lemma ovw_size_ok c : 0 <= c -> 0 <= ovw_size c /\ ovw_size c mod OVW_BUF_SIZE = 0.
Proof.
  intros H. unfold ovw_size, PAGE_ALIGN, PAGE_SIZE, OVW_BUF_SIZE. rewrite Z_mod_mult. split; [|done].
  assert (0 <= Z.shiftr (Z.shiftr c BIT_LEN_DMS_LB_SIZE) 3) by (rewrite !Z.shiftr_nonneg; lia).
  apply Z.mul_nonneg_nonneg; [apply Z.div_pos; lia|lia].
Qed.

Lemma bit_zeros n lb : bit (replicate n 0) lb = false.
Proof.
  unfold bit, bit_get, byte_at. destruct (_ <? 0); [done|]. destruct (replicate n 0 !! _) as [b|] eqn:E; [|done].
  apply lookup_replicate in E as [-> _]. cbn. by rewrite Z.testbit_0_l.
Qed.

(** A volume with its bitmap. *)
Definition attached (w : ovw_world) (vol : Z) (m : list Z) : Prop :=
  exists v, ow_vols w !! vol = Some v /\ ovw_init v = true /\ ovw_memory v <> 0 /\ ow_mem w !! ovw_memory v = Some m.

Lemma set_mem_lookup w p q m : ow_mem (set_mem p m w) !! q = if decide (p = q) then Some m else ow_mem w !! q.
Proof. unfold set_mem. cbn. case_decide as H; [subst; apply lookup_insert_eq|by apply lookup_insert_ne]. Qed.

Lemma attached_get w vol m lb : attached w vol m -> lb_ok m lb -> ovw_get vol lb w = Some (bit m lb).
Proof.
  intros (v & Hv & Hi & Hn & Hm) Hlb. unfold ovw_get. rewrite Hv, Hi, (proj2 (Z.eqb_neq _ _)) by done. cbn [negb].
  rewrite Hm. by apply bit_get_ok.
Qed.

Lemma attached_set_mem w vol v m' :
  ow_vols w !! vol = Some v -> ovw_init v = true -> ovw_memory v <> 0 -> attached (set_mem (ovw_memory v) m' w) vol m'.
Proof. intros Hv Hi Hn. exists v. split; [done|]. split; [done|]. split; [done|]. rewrite set_mem_lookup. by rewrite decide_True. Qed.

Lemma set_mem_twice p m m' w : set_mem p m' (set_mem p m w) = set_mem p m' w.
Proof. unfold set_mem. cbn. by rewrite insert_insert_eq. Qed.

Lemma ovw_range_bits n vol lb v w m :
  attached w vol m -> 0 <= lb -> lb + Z.of_nat n <= 8 * Z.of_nat (length m) -> lb + Z.of_nat n < 2 ^ 64 ->
  exists w' m', ovw_range_loop n vol lb v w = Some (w', 0) /\ bits_set n lb v m = Some m' /\ attached w' vol m' /\
    (forall vol' v', ow_vols w !! vol' = Some v' -> ow_vols w' !! vol' = Some v') /\
    (exists d, ow_vols w !! vol = Some d /\ w' = if decide (n = 0%nat) then w else set_mem (ovw_memory d) m' w).
Proof.
  revert lb w m. induction n as [|n IH]; intros lb w m HA H1 H2 H3.
  { exists w, m. destruct HA as (d & Hd & HA). split_and!; try done; [by exists d|]. exists d. done. }
  pose proof HA as (d & Hv & Hi & Hn & Hm). cbn [ovw_range_loop bits_set]. unfold ovw_set. rewrite Hv, Hi. cbn [negb]. rewrite Hm. cbn [mbind option_bind].
  destruct (bit_set_ok m lb v) as (m1 & -> & L & _); [unfold lb_ok; lia|]. cbn [mbind option_bind].
  rewrite u64_small by (unfold is_u64; lia).
  destruct (IH (lb + 1) (set_mem (ovw_memory d) m1 w) m1) as (w2 & m2 & E2 & B2 & A2 & V2 & (d2 & Hd2 & W2)); try lia.
  { by apply attached_set_mem. }
  assert (d2 = d) as -> by (change (ow_vols w !! vol = Some d2) in Hd2; congruence).
  exists w2, m2. split_and!; try done. exists d. split; [done|]. rewrite decide_False by done. rewrite W2.
  case_decide; [|apply set_mem_twice]. subst n. cbn in B2. by injection B2 as ->.
Qed.

(** A range of blocks is marked exactly.  For a volume whose bitmap covers the range: the operation succeeds and
    leaves every array alone but the bitmap, in which the bits of the range have the new value and
    all others the old one. *)
Theorem ovw_range_exact (w : ovw_world) (vol s n : Z) (v : bool) (m : list Z) :
  attached w vol m -> 0 <= s -> 0 <= n -> s + n <= 8 * Z.of_nat (length m) -> s + n < 2 ^ 64 ->
  exists w', set_vol_ovw_range vol s n v w = Some (w', 0) /\
    forall k, lb_ok m k -> ovw_get vol k w' = Some (if decide (s <= k < s + n) then v else bit m k) /\
                           ovw_get vol k w = Some (bit m k).
Proof.
  intros HA Hs Hn H1 H2. destruct (ovw_range_bits (Z.to_nat n) vol s v w m HA) as (w' & m' & E & B & A' & _); try lia.
  exists w'. split; [done|]. intros k Hk. destruct (bits_set_ok (Z.to_nat n) s v m) as (m2 & E2 & L2 & B2); [lia|lia|].
  assert (m2 = m') as -> by congruence. rewrite (attached_get w' vol m' k A') by (unfold lb_ok in *; lia).
  rewrite (attached_get w vol m k HA Hk), B2, Z2Nat.id by (unfold lb_ok in *; lia). done.
Qed.

(** *** How many blocks the bitmap covers *)

(** The bitmap of a volume covers all its blocks, unless their number is up to seven more than a multiple of
    32768: the number of bytes is rounded down before it is rounded up to pages. *)
Theorem ovw_size_bounds (c : Z) :
  0 <= c -> (Z.shiftr c BIT_LEN_DMS_LB_SIZE <= 8 * ovw_size c <-> ~ (1 <= Z.shiftr c BIT_LEN_DMS_LB_SIZE mod 32768 <= 7)).
Proof.
  intros H. unfold ovw_size, PAGE_ALIGN, PAGE_SIZE. set (n := Z.shiftr c BIT_LEN_DMS_LB_SIZE).
  assert (0 <= n) as Hn by (unfold n; by rewrite Z.shiftr_nonneg). clearbody n. rewrite Z.shiftr_div_pow2 by done. change (2 ^ 3) with 8.
  pose proof (Z.div_mod n 32768 ltac:(done)) as Hd. pose proof (Z.mod_pos_bound n 32768 ltac:(done)) as Hb.
  set (q := n / 32768) in *. set (t := n mod 32768) in *. clearbody q t.
  assert (n / 8 = 4096 * q + t / 8) as E8.
  { rewrite Hd. replace (32768 * q + t) with (t + (4096 * q) * 8) by lia. rewrite Z.div_add by done. lia. }
  pose proof (Z.div_mod t 8 ltac:(done)) as Ht. pose proof (Z.mod_pos_bound t 8 ltac:(done)) as Hb8.
  assert ((n / 8 + (4096 - 1)) / 4096 = q + (if decide (t < 8) then 0 else 1)) as Ep.
  { rewrite E8. replace (4096 * q + t / 8 + (4096 - 1)) with ((t / 8 + 4095) + q * 4096) by lia. rewrite Z.div_add by done.
    case_decide.
    - replace (t / 8) with 0 by lia. change ((0 + 4095) / 4096) with 0. lia.
    - assert ((t / 8 + 4095) / 4096 = 1); [|lia]. symmetry. apply Z.div_unique with (r := t / 8 - 1); lia. }
  rewrite Ep. case_decide; lia.
Qed.

Lemma ovw_range_exact_witness :
  exists w, set_vol_ovw_range 7 3 4 true
      (set_vol 7 {| ovw_memory := 64; ovw_init := true; ovw_reading := false; capacity := 65536 |}
         (set_mem 64 [0; 1] init_nnovw_manager)) = Some (w, 0) /\ ovw_get 7 6 w = Some true /\ ovw_get 7 8 w = Some true /\ ovw_get 7 7 w = Some false.
Proof.
  set (w0 := set_vol _ _ _).
  assert (attached w0 7 [0; 1]) as HA by (eexists; split; [reflexivity|]; split; [reflexivity|]; split; [done|reflexivity]).
  destruct (ovw_range_exact w0 7 3 4 true [0; 1] HA) as (w & E & H); [lia|lia|cbn; lia|lia|].
  exists w. split; [exact E|].
  assert (forall k, lb_ok [0; 1] k -> ovw_get 7 k w = Some (if decide (3 <= k < 3 + 4) then true else bit [0; 1] k)) as G by (intros; by apply H).
  rewrite !G by (unfold lb_ok; cbn; lia). split_and!; reflexivity.
Defined.

(** Seven blocks too many, and a size that fits. *)
Lemma ovw_size_bounds_witness :
  ~ (Z.shiftr (32775 * 4096) BIT_LEN_DMS_LB_SIZE <= 8 * ovw_size (32775 * 4096)) /\
  Z.shiftr (32776 * 4096) BIT_LEN_DMS_LB_SIZE <= 8 * ovw_size (32776 * 4096).
Proof. split; rewrite ovw_size_bounds by lia; vm_compute; [intros H; apply H|intros [_ H]]; done. Defined.

(** ** Bitmaps and requests are used and freed correctly *)

Section Ownership.
Implicit Types (w : ovw_world) (p q a vid : Z) (r : ovw_req) (v : volume_ovw_t) (x : ovw_rx).

(** A request whose bitmap is the one of its volume. *)
Definition live w r : Prop := exists v, ow_vols w !! req_vol_id r = Some v /\ ovw_memory v = ovw_ptr r /\ ovw_ptr r <> 0.

(** The receiver works on the request [p]. *)
Definition rx_is w p (set : Z) (done : bool) : Prop :=
  exists x, ow_rx w = Some x /\ rx_req x = p /\ rx_set x = set /\ rx_done x = done.

Definition unowned w a : Prop := forall vid v, ow_vols w !! vid = Some v -> ovw_memory v <> a.

(** A cancelled request: the volume is released, and if the receiver was busy with it the request has the bitmap. *)
Definition cancelled w p r : Prop :=
  (forall v, ow_vols w !! req_vol_id r = Some v -> ovw_memory v = 0) /\
  (ovw_ptr r <> 0 -> is_Some (ow_mem w !! ovw_ptr r) /\ unowned w (ovw_ptr r) /\ (rx_is w p 2 false \/ rx_is w p 1 true)).

Definition req_ok w p r : Prop :=
  match ovw_req_state r with
  | OVW_REQ_STATE_REQ_OVW_START | OVW_REQ_STATE_REQ_SEND_TO_NN => live w r
  | OVW_REQ_STATE_REQ_PROCESS_RESPONSE => live w r /\ rx_is w p 2 false
  | OVW_REQ_STATE_REQ_PROCESS_RESPONSE_DONE => live w r /\ rx_is w p 2 true
  | OVW_REQ_STATE_REQ_CANCEL => cancelled w p r
  end.

Definition rx_ok w x : Prop :=
  rx_set x = 0 /\ rx_done x = false \/
  exists r, ow_reqs w !! rx_req x = Some r /\
    (rx_set x = 1 /\ ovw_req_state r = OVW_REQ_STATE_REQ_CANCEL \/
     rx_set x = 2 /\ rx_done x = false /\
       (ovw_req_state r = OVW_REQ_STATE_REQ_PROCESS_RESPONSE \/ ovw_req_state r = OVW_REQ_STATE_REQ_CANCEL) \/
     rx_set x = 2 /\ rx_done x = true /\
       (ovw_req_state r = OVW_REQ_STATE_REQ_PROCESS_RESPONSE_DONE \/
        ovw_req_state r = OVW_REQ_STATE_REQ_CANCEL /\ ovw_ptr r = 0)).

Record ovw_ok w : Prop := {
  ok_ready : nn_ovw_manager_ready w = true;
  ok_nodup : NoDup (ow_queue w);
  ok_heap : forall p, p ∈ ow_queue w <-> is_Some (ow_reqs w !! p);
  ok_one : forall p q r r', ow_reqs w !! p = Some r -> ow_reqs w !! q = Some r' -> req_vol_id r = req_vol_id r' -> p = q;
  ok_req : forall p r, ow_reqs w !! p = Some r -> req_ok w p r;
  ok_vol : forall vid v, ow_vols w !! vid = Some v -> ovw_memory v <> 0 ->
    exists m, ow_mem w !! ovw_memory v = Some m /\ Z.of_nat (length m) = ovw_size (capacity v) /\ 0 <= capacity v;
  ok_init : forall vid v, ow_vols w !! vid = Some v -> ovw_init v = true -> ovw_memory v <> 0;
  ok_inj : forall vid vid' v v', ow_vols w !! vid = Some v -> ow_vols w !! vid' = Some v' -> ovw_memory v = ovw_memory v' ->
    ovw_memory v <> 0 -> vid = vid';
  ok_leak : forall a, is_Some (ow_mem w !! a) ->
    (exists vid v, ow_vols w !! vid = Some v /\ ovw_memory v = a) \/
    (exists p r, ow_reqs w !! p = Some r /\ ovw_req_state r = OVW_REQ_STATE_REQ_CANCEL /\ ovw_ptr r = a);
  ok_null : ow_mem w !! 0 = None;
  ok_rx : forall x, ow_rx w = Some x -> rx_ok w x;
}.

Lemma ok_init_manager : ovw_ok init_nnovw_manager.
Proof.
  split; cbn; try done; try (intros; by simplify_map_eq).
  - constructor.
  - intros p. rewrite lookup_empty. split; [by intros ?%not_elem_of_nil|by intros []].
Qed.

(** Only these parts matter. *)
Lemma ok_same w w' :
  ovw_ok w -> nn_ovw_manager_ready w' = nn_ovw_manager_ready w -> ow_vols w' = ow_vols w -> ow_mem w' = ow_mem w ->
  ow_reqs w' = ow_reqs w -> ow_queue w' = ow_queue w -> ow_rx w' = ow_rx w -> ovw_ok w'.
Proof.
  intros [] E1 E2 E3 E4 E5 E6. split; rewrite ?E1, ?E2, ?E3, ?E4, ?E5, ?E6; try done.
  - intros p r Hp. specialize (ok_req0 p r Hp). unfold req_ok, live, cancelled, rx_is, unowned in *. by rewrite E2, E3, E6.
  - intros x Hx. specialize (ok_rx0 x Hx). unfold rx_ok in *. by rewrite E4.
Qed.

(** The bits of a bitmap change. *)
Lemma ok_set_mem w a m m' : ovw_ok w -> ow_mem w !! a = Some m -> length m' = length m -> ovw_ok (set_mem a m' w).
Proof.
  intros [] Hm Hl.
  assert (forall b, is_Some (ow_mem (set_mem a m' w) !! b) <-> is_Some (ow_mem w !! b)) as Hd.
  { intros b. rewrite set_mem_lookup. case_decide; [subst; rewrite Hm; split; eauto|done]. }
  split; try done.
  - intros p r Hp. specialize (ok_req0 p r Hp). unfold req_ok, live, cancelled, rx_is, unowned in *.
    destruct (ovw_req_state r); try done. rewrite Hd. done.
  - intros vid v Hv Hn. destruct (ok_vol0 vid v Hv Hn) as (m0 & Hm0 & Hs). rewrite set_mem_lookup. case_decide as E; [|eauto].
    exists m'. assert (m0 = m) as -> by congruence. by rewrite Hl.
  - intros b Hb. apply ok_leak0. by apply Hd.
  - rewrite set_mem_lookup. case_decide as E; [|done]. congruence.
Qed.

(** The fields of a request change, and the receiver with it. *)
Definition upd w p r (y : option ovw_rx) : ovw_world := set_ow_rx y (set_ow_reqs (<[p := r]> (ow_reqs w)) w).

Lemma req_ok_other w p q r r' y :
  q <> p -> y = ow_rx w \/ (forall x, ow_rx w = Some x -> rx_set x <> 0 -> rx_req x = p) ->
  req_ok w q r -> req_ok (upd w p r' y) q r.
Proof.
  intros Hn [->|Hx] H; [done|]. unfold req_ok, live, cancelled, rx_is, unowned in *. cbn.
  assert (forall s b, s <> 0 -> ~ (exists x, ow_rx w = Some x /\ rx_req x = q /\ rx_set x = s /\ rx_done x = b)) as Hno.
  { intros s b Hs (x & Hx' & <- & <- & _). by apply Hn, Hx. }
  destruct (ovw_req_state r); try done.
  - destruct H as [_ H]. by destruct (Hno 2 false).
  - destruct H as [_ H]. by destruct (Hno 2 true).
  - destruct H as [H1 H2]. split; [done|]. intros Hp. destruct (H2 Hp) as (_ & _ & [H|H]); [by destruct (Hno 2 false)|by destruct (Hno 1 true)].
Qed.

Lemma rx_ok_other w p r' y x : rx_set x = 0 \/ rx_req x <> p -> rx_ok w x -> rx_ok (upd w p r' y) x.
Proof.
  intros H [H0|(r & Hr & HC)]; [by left|]. right. exists r. split; [|done]. cbn. rewrite lookup_insert_ne; [done|].
  intros ->. destruct H; [|done]. destruct HC as [[? _]|[[? _]|[? _]]]; lia.
Qed.

Lemma ok_upd w p r r' y :
  ovw_ok w -> ow_reqs w !! p = Some r -> req_vol_id r' = req_vol_id r ->
  (ovw_req_state r = OVW_REQ_STATE_REQ_CANCEL -> ovw_req_state r' = OVW_REQ_STATE_REQ_CANCEL /\ ovw_ptr r' = ovw_ptr r) ->
  y = ow_rx w \/ (forall x, ow_rx w = Some x -> rx_set x <> 0 -> rx_req x = p) -> (forall x, y = Some x -> rx_ok (upd w p r' y) x) ->
  req_ok (upd w p r' y) p r' -> ovw_ok (upd w p r' y).
Proof.
  intros Hok Hp Hv Hc Hx Hy Hr. pose proof Hok as []. split; try done; cbn.
  - intros q. rewrite ok_heap0. destruct (decide (p = q)) as [<-|]; [rewrite lookup_insert_eq, Hp; split; eauto|by rewrite lookup_insert_ne].
  - intros q1 q2 r1 r2. rewrite !lookup_insert_Some.
    intros [[<- <-]|[H1 G1]] [[<- <-]|[H2 G2]] E; [done|..]; rewrite ?Hv in E; eauto.
  - intros q r1. rewrite lookup_insert_Some. intros [[<- <-]|[Hn Hq]]; [done|]. apply req_ok_other; [done|done|by apply ok_req0].
  - intros a Ha. destruct (ok_leak0 a Ha) as [Hl|(q & r1 & Hq & Hs & Ha')]; [by left|]. right.
    destruct (decide (p = q)) as [<-|]; [|exists q, r1; by rewrite lookup_insert_ne].
    assert (r1 = r) as -> by congruence. exists p, r'. rewrite lookup_insert_eq. destruct (Hc Hs) as [-> ->]. done.
Qed.

(** A request goes back and forth between waiting and sent. *)
Definition idle r : Prop := ovw_req_state r = OVW_REQ_STATE_REQ_OVW_START \/ ovw_req_state r = OVW_REQ_STATE_REQ_SEND_TO_NN.

Lemma rx_not_idle w p r x : ovw_ok w -> ow_reqs w !! p = Some r -> idle r -> ow_rx w = Some x -> rx_set x = 0 \/ rx_req x <> p.
Proof.
  intros Hok Hp Hi Hx. destruct (ok_rx _ Hok x Hx) as [[H _]|(r1 & Hr & HC)]; [by left|]. right. intros Hq. subst p.
  assert (r1 = r) as -> by congruence. unfold idle in Hi. destruct HC as [[_ H]|[(_ & _ & [H|H])|(_ & _ & [H|[H _]])]]; destruct Hi; congruence.
Qed.

Lemma ok_upd_idle w p r s :
  ovw_ok w -> ow_reqs w !! p = Some r -> idle r -> idle (set_or_state s r) -> ovw_ok (upd w p (set_or_state s r) (ow_rx w)).
Proof.
  intros Hok Hp Hi Hs. apply (ok_upd w p r); try done.
  - intros E. unfold idle in Hi. rewrite E in Hi. by destruct Hi.
  - by left.
  - intros x Hx. apply rx_ok_other; [by eapply rx_not_idle|by apply Hok].
  - pose proof (ok_req _ Hok p r Hp) as Hr. unfold req_ok in *. cbn in Hs. unfold idle in Hi, Hs. cbn in Hs |- *.
    destruct Hi as [E|E]; rewrite E in Hr; destruct Hs as [-> | ->]; exact Hr.
Qed.

Lemma alter_some w p r (f : ovw_req -> ovw_req) : ow_reqs w !! p = Some r -> alter f p (ow_reqs w) = <[p := f r]> (ow_reqs w).
Proof.
  intros Hp. apply map_eq. intros q. destruct (decide (q = p)) as [->|Hn].
  - by rewrite lookup_alter_eq, Hp, lookup_insert_eq.
  - by rewrite lookup_alter_ne, lookup_insert_ne.
Qed.

(** A request leaves the queue and is freed; [w'] may have lost its bitmap. *)
Lemma ok_drop w p r y :
  ovw_ok w -> ow_reqs w !! p = Some r ->
  (y = ow_rx w /\ (forall x, y = Some x -> rx_set x = 0 \/ rx_req x <> p)) \/
  (y = None /\ (forall x, ow_rx w = Some x -> rx_set x <> 0 -> rx_req x = p)) ->
  forall w', ow_vols w' = ow_vols w -> ow_reqs w' = delete p (ow_reqs w) -> ow_queue w' = filter (fun q => q <> p) (ow_queue w) ->
    ow_rx w' = y -> nn_ovw_manager_ready w' = true ->
    ow_mem w' = (if decide (ovw_req_state r = OVW_REQ_STATE_REQ_CANCEL) then delete (ovw_ptr r) (ow_mem w) else ow_mem w) ->
    ovw_ok w'.
Proof.
  intros Hok Hp Hy w' E1 E2 E3 E4 E5 E6. pose proof Hok as [].
  assert (forall a, (forall vid v, ow_vols w !! vid = Some v -> ovw_memory v <> a) \/ ow_mem w' !! a = ow_mem w !! a) as Hmem.
  { intros a. rewrite E6. case_decide as Hc; [|by right]. destruct (decide (ovw_ptr r = a)) as [Ha|]; [|right; by rewrite lookup_delete_ne].
    specialize (ok_req0 p r Hp). unfold req_ok in ok_req0. rewrite Hc in ok_req0. destruct ok_req0 as [_ H].
    destruct (decide (ovw_ptr r = 0)) as [H0|H0].
    - right. subst a. rewrite H0, lookup_delete_eq, ok_null0. done.
    - left. subst a. by apply H. }
  split; rewrite ?E1, ?E2, ?E3, ?E4, ?E5; try done.
  - by apply NoDup_filter.
  - intros q. rewrite list_elem_of_filter, ok_heap0. rewrite lookup_delete_is_Some. naive_solver.
  - intros q1 q2 r1 r2 [_ H1]%lookup_delete_Some [_ H2]%lookup_delete_Some. eauto.
  - intros q r1 [Hn Hq]%lookup_delete_Some. specialize (ok_req0 q r1 Hq) as Hq1.
    assert (forall s b, s <> 0 -> rx_is w q s b -> rx_is w' q s b) as Hrx.
    { intros s b Hs (x & Hx & Hxp & Hxs & Hxd). destruct Hy as [[Hy1 Hy2]|[Hy1 Hy2]].
      - exists x. rewrite E4, Hy1. done.
      - destruct Hn. rewrite <- Hxp. symmetry. apply Hy2; [done|lia]. }
    unfold req_ok, live, cancelled, unowned in *. rewrite E1. destruct (ovw_req_state r1) eqn:Es; try done.
    + destruct Hq1 as [H1 H2]. split; [done|]. by apply Hrx.
    + destruct Hq1 as [H1 H2]. split; [done|]. by apply Hrx.
    + destruct Hq1 as [H1 H2]. split; [done|]. intros Ha. destruct (H2 Ha) as ([m Hm] & Hu & Hx). split_and!; [|done|].
      * rewrite E6. case_decide as Hc; [|by eauto]. rewrite lookup_delete_ne; [by eauto|]. intros Hpp.
        (* two cancelled requests with the same bitmap: the receiver works on one only *)
        specialize (ok_req0 p r Hp). unfold req_ok in ok_req0. rewrite Hc in ok_req0. destruct ok_req0 as [_ G].
        rewrite Hpp in G. destruct (G Ha) as (_ & _ & Gx).
        assert (exists x, ow_rx w = Some x /\ rx_req x = q) as (x1 & Hx1 & Hq') by (destruct Hx as [(x & ? & ? & _)|(x & ? & ? & _)]; eauto).
        assert (exists x, ow_rx w = Some x /\ rx_req x = p) as (x2 & Hx2 & Hp') by (destruct Gx as [(x & ? & ? & _)|(x & ? & ? & _)]; eauto).
        congruence.
      * destruct Hx as [Hx|Hx]; [left|right]; by apply Hrx.
  - intros vid v Hv Hn. destruct (ok_vol0 vid v Hv Hn) as (m & Hm & Hs). exists m. split; [|done].
    destruct (Hmem (ovw_memory v)) as [Hno|Heq]; [by destruct (Hno vid v)|by rewrite Heq].
  - intros a [m Ha]. assert (ow_mem w !! a = Some m) as Ha'.
    { rewrite E6 in Ha. case_decide; [|done]. by apply lookup_delete_Some in Ha as [_ ?]. }
    destruct (ok_leak0 a (ex_intro _ m Ha')) as [Hl|(q & r1 & Hq & Hs & Hpa)]; [by left|]. right. exists q, r1.
    split; [|done]. rewrite lookup_delete_ne; [done|]. intros <-. assert (r1 = r) as -> by congruence.
    rewrite E6, decide_True, Hpa, lookup_delete_eq in Ha by done. done.
  - rewrite E6. case_decide; [|done]. rewrite lookup_delete_None. by right.
  - intros x Hx. destruct Hy as [[Hy1 Hy2]|[Hy1 Hy2]]; [|congruence]. rewrite <- Hy1 in ok_rx0.
    destruct (ok_rx0 x Hx) as [H0|(r1 & Hr1 & HC)]; [by left|]. right. exists r1. rewrite E2. split; [|done].
    rewrite lookup_delete_ne; [done|]. destruct (Hy2 x Hx) as [H0|]; [|done]. destruct HC as [[? _]|[[? _]|[? _]]]; lia.
Qed.

Lemma queue_find_ok w volid l :
  (forall p, p ∈ l -> is_Some (ow_reqs w !! p)) ->
  exists f, queue_find volid l w = Some f /\
    match f with
    | Some p => p ∈ l /\ exists r, ow_reqs w !! p = Some r /\ req_vol_id r = volid
    | None => forall p r, p ∈ l -> ow_reqs w !! p = Some r -> req_vol_id r <> volid
    end.
Proof.
  induction l as [|p l IH]; intros Hq; [exists None; split; [done|]; by intros p r ?%not_elem_of_nil|].
  destruct (Hq p) as [r Hr]; [by left|]. cbn [queue_find]. rewrite Hr. cbn [mbind option_bind].
  destruct (req_vol_id r =? volid) eqn:E.
  - exists (Some p). split; [done|]. split; [by left|]. exists r. split; [done|lia].
  - destruct IH as (f & -> & Hf); [intros; apply Hq; by right|]. exists f. split; [done|]. destruct f as [p'|].
    + destruct Hf as [H1 H2]. split; [by right|done].
    + intros p' r' [->|Hin]%elem_of_cons Hp'; [|by eapply Hf]. assert (r' = r) as -> by congruence. lia.
Qed.

(** What [find_ovw_req] finds in a queue that is in order. *)
Lemma find_ok w volid :
  ovw_ok w ->
  queue_find volid (ow_queue w) w = Some None /\ (forall p r, ow_reqs w !! p = Some r -> req_vol_id r <> volid) \/
  exists p r, queue_find volid (ow_queue w) w = Some (Some p) /\ ow_reqs w !! p = Some r /\ req_vol_id r = volid.
Proof.
  intros []. destruct (queue_find_ok w volid (ow_queue w)) as (f & E & Hf); [intros; by apply ok_heap0|]. destruct f as [p|].
  - right. destruct Hf as (_ & r & Hr & Hv). by exists p, r.
  - left. split; [done|]. intros p r Hp. eapply Hf; [|done]. apply ok_heap0. by eauto.
Qed.

Lemma queue_next_ok w l :
  (forall p, p ∈ l -> is_Some (ow_reqs w !! p)) ->
  exists f, queue_next l w = Some f /\
    forall p r, f = Some (p, r) -> ow_reqs w !! p = Some r /\
      (ovw_req_state r = OVW_REQ_STATE_REQ_OVW_START \/ ovw_req_state r = OVW_REQ_STATE_REQ_CANCEL).
Proof.
  induction l as [|p l IH]; intros Hq; [by exists None|]. destruct (Hq p) as [r Hr]; [by left|]. cbn [queue_next]. rewrite Hr.
  cbn [mbind option_bind]. case_decide as Hs; [|apply IH; intros; apply Hq; by right].
  exists (Some (p, r)). split; [done|]. by intros p' r' [= <- <-].
Qed.

Lemma ok_worker w c :
  ovw_ok w -> (forall x r, ow_rx w = Some x -> rx_set x <> 0 -> ow_reqs w !! rx_req x = Some r -> ovw_req_state r <> OVW_REQ_STATE_REQ_CANCEL) ->
  exists w', nn_ovw_request_worker c w = Some w' /\ ovw_ok w'.
Proof.
  intros Hok Hleg. unfold nn_ovw_request_worker. destruct (worker_ready w); [cbn [negb]|by exists w].
  destruct (queue_next_ok w (ow_queue w)) as (f & E & Hf); [intros; by apply Hok|]. unfold get_ovw_req. rewrite E. cbn [mbind option_bind].
  destruct f as [[p r]|]; [|by exists w]. destruct (Hf p r eq_refl) as [Hp Hs]. clear Hf E. case_decide as Hd.
  - cbn [mbind option_bind]. set (w1 := set_ow_wait _ _).
    assert (ovw_ok w1) as Hok1.
    { eapply ok_same; [exact (ok_upd_idle w p r OVW_REQ_STATE_REQ_SEND_TO_NN Hok Hp (or_introl Hd) (or_intror eq_refl))|..]; try done.
      exact (alter_some w p r _ Hp). }
    destruct ((p =? 0) || negb c); [by exists w1|].
    assert (ow_reqs w1 !! p = Some (set_or_state OVW_REQ_STATE_REQ_SEND_TO_NN r)) as ->.
    { unfold w1, upd_req. cbn. by rewrite lookup_alter_eq, Hp. }
    eexists. split; [done|]. by eapply ok_same.
  - destruct Hs as [Hs|Hs]; [done|]. unfold del_queue.
    pose proof (ok_req _ Hok p r Hp) as Hr. unfold req_ok in Hr. rewrite Hs in Hr. destruct Hr as [_ Hr].
    set (w1 := set_ow_queue _ _ w). assert (ow_reqs w1 !! p = Some r) as Hp1 by done.
    assert ((if ovw_ptr r =? 0 then Some w1 else vfree (ovw_ptr r) w1) = Some (set_ow_mem (delete (ovw_ptr r) (ow_mem w)) w1)) as ->.
    { destruct (ovw_ptr r =? 0) eqn:E0.
      - apply Z.eqb_eq in E0. rewrite E0, delete_id by apply Hok. by destruct w.
      - apply Z.eqb_neq in E0. destruct (Hr E0) as ([m Hm] & _). unfold vfree. change (ow_mem w1) with (ow_mem w). by rewrite Hm. }
    cbn [mbind option_bind]. unfold free_req. cbn [ow_reqs set_ow_mem]. rewrite Hp1. cbn [mbind option_bind].
    change ((0 =? 0) || negb c) with true. eexists. split; [done|].
    eapply (ok_drop w p r (ow_rx w) Hok Hp); try done; [|apply Hok|cbn; by rewrite decide_True].
    left. split; [done|]. intros x Hx. destruct (decide (rx_set x = 0)); [by left|right]. intros <-. by destruct (Hleg x r).
Qed.

Lemma ok_rx_only w y : ovw_ok w -> (forall x, ow_rx w = Some x -> rx_set x = 0) -> (forall x, y = Some x -> rx_set x = 0 /\ rx_done x = false) ->
  ovw_ok (set_ow_rx y w).
Proof.
  intros [] Hx Hy. split; try done.
  - intros p r Hp. specialize (ok_req0 p r Hp). unfold req_ok, live, cancelled, rx_is, unowned in *. cbn.
    assert (forall s b, s <> 0 -> ~ (exists x, ow_rx w = Some x /\ rx_req x = p /\ rx_set x = s /\ rx_done x = b)) as Hno.
    { intros s b Hs (x & Hx' & _ & <- & _). by apply Hs, Hx. }
    destruct (ovw_req_state r); try done.
    + destruct ok_req0 as [_ H]. by destruct (Hno 2 false).
    + destruct ok_req0 as [_ H]. by destruct (Hno 2 true).
    + destruct ok_req0 as [H1 H2]. split; [done|]. intros Hpp. destruct (H2 Hpp) as (_ & _ & [H|H]); [by destruct (Hno 2 false)|by destruct (Hno 1 true)].
  - cbn. intros x Hxy. left. by apply Hy.
Qed.

Lemma ok_header w h : ovw_ok w -> ow_rx w = None -> exists w', rx_header h w = Some w' /\ ovw_ok w'.
Proof.
  intros Hok Hrx. unfold rx_header. set (h' := change_byteorder_nn_ovw_response h). destruct (_ || _); [by exists w|].
  unfold find_ovw_req. rewrite (ok_ready _ Hok). cbn [negb]. destruct (find_ok w (res_vol_id h') Hok) as [[E _]|(p & r & E & Hp & _)];
    rewrite E; cbn [mbind option_bind].
  - eexists. split; [done|]. apply ok_rx_only; [done|by rewrite Hrx|]. by intros x [= <-].
  - rewrite Hp. cbn [mbind option_bind]. rewrite andb_true_l.
    assert (forall x, ow_rx w = Some x -> rx_set x <> 0 -> rx_req x = p) as Hno by (rewrite Hrx; done).
    destruct (bool_decide_reflect (ovw_req_state r = OVW_REQ_STATE_REQ_CANCEL)) as [Hc|Hc]; cbn [negb].
    + cbn [mbind option_bind]. rewrite decide_True by done. eexists. split; [done|]. set (y := Some _).
      replace (set_ow_rx y w) with (upd w p r y) by (unfold upd; rewrite insert_id by done; by destruct w).
      apply (ok_upd w p r); try done; [by right| |].
      * intros x [= <-]. right. exists r. cbn. rewrite lookup_insert_eq. split; [done|]. by left.
      * pose proof (ok_req _ Hok p r Hp) as Hr. unfold req_ok in *. rewrite Hc in *. destruct Hr as [H1 H2]. split; [done|].
        intros Hn. destruct (H2 Hn) as (_ & _ & [(x & Hx & _)|(x & Hx & _)]); congruence.
    + rewrite (bool_decide_false (OVW_REQ_STATE_REQ_PROCESS_RESPONSE = OVW_REQ_STATE_REQ_CANCEL)) by done. cbn [andb mbind option_bind]. rewrite decide_False by done. eexists. split; [done|]. set (y := Some _).
      assert (live w r) as Hl.
      { pose proof (ok_req _ Hok p r Hp) as Hr. unfold req_ok in Hr. destruct (ovw_req_state r); try done; by destruct Hr. }
      eapply ok_same; [apply (ok_upd w p r (set_or_state OVW_REQ_STATE_REQ_PROCESS_RESPONSE r) y Hok Hp)|..]; try done.
      * by right.
      * intros x [= <-]. right. eexists. cbn. rewrite lookup_insert_eq. split; [done|]. right. left. cbn. auto.
      * unfold req_ok. cbn. split; [done|]. by eexists.
      * by case_match.
      * by case_match.
      * by case_match.
      * case_match; exact (alter_some w p r _ Hp).
      * by case_match.
Qed.

(** ** The receiver *)

(** The units of a buffer lie in a bitmap of [L] bytes. *)
Fixpoint units_fit (cnt : nat) (d : list Z) (L : Z) : Prop :=
  match cnt with
  | O => True
  | S cnt => exists s c, load64 d 0 = Some s /\ load64 d (NN_OVW_RESPONSE_PAYLOAD_UNIT_SIZE / 2) = Some c /\
      s + c <= 8 * L /\ s + c < 2 ^ 64 /\ units_fit cnt (drop (Z.to_nat NN_OVW_RESPONSE_PAYLOAD_UNIT_SIZE) d) L
  end.

Lemma load64_range d off s : load64 d off = Some s -> 0 <= s < 2 ^ 64.
Proof. unfold load64. destruct (slice d off 8); [|done]. cbn. intros [= <-]. apply htonll_range. Qed.

(** The bits of a range, through the pointer of a request. *)
Lemma range_loop_bits n p s j w r m :
  ow_reqs w !! p = Some r -> ovw_ptr r <> 0 -> ow_mem w !! ovw_ptr r = Some m -> 0 <= s + j ->
  s + j + Z.of_nat n <= 8 * Z.of_nat (length m) -> s + j + Z.of_nat n < 2 ^ 64 ->
  exists m', bits_set n (s + j) true m = Some m' /\ range_loop n p s j w = Some (if decide (n = 0%nat) then w else set_mem (ovw_ptr r) m' w).
Proof.
  revert j w m. induction n as [|n IH]; intros j w m Hr Hp Hm H1 H2 H3; [by exists m|].
  cbn [range_loop bits_set]. rewrite Hr. cbn [mbind option_bind]. unfold set_ovw_by_ptr. rewrite (proj2 (Z.eqb_neq _ _)) by done.
  rewrite Hm. cbn [mbind option_bind]. rewrite u64_small by (unfold is_u64; lia).
  destruct (bit_set_ok m (s + j) true) as (m1 & -> & L & _); [unfold lb_ok; lia|]. cbn [mbind option_bind].
  destruct (IH (j + 1) (set_mem (ovw_ptr r) m1 w) m1) as (m2 & B2 & E2); [done|done|rewrite set_mem_lookup; by rewrite decide_True|lia|lia|lia|].
  exists m2. replace (s + j + 1) with (s + (j + 1)) by lia. split; [done|]. rewrite E2. f_equal. case_decide; [|by rewrite set_mem_twice].
  subst n. cbn in B2. by injection B2 as ->.
Qed.

Lemma range_loop_null n p s j w r : ow_reqs w !! p = Some r -> ovw_ptr r = 0 -> range_loop n p s j w = Some w.
Proof.
  intros Hr Hp. revert j. induction n as [|n IH]; intros j; [done|]. cbn [range_loop]. rewrite Hr. cbn [mbind option_bind].
  unfold set_ovw_by_ptr. rewrite Hp. cbn [Z.eqb mbind option_bind]. apply IH.
Qed.

(** What the units of a buffer do to the bitmap. *)
Definition marked (l : list (Z * Z)) (k : Z) : Prop := exists s c, (s, c) ∈ l /\ s <= k < s + c.

#[global] Instance marked_dec l k : Decision (marked l k).
Proof.
  destruct (decide (Exists (fun sc => sc.1 <= k < sc.1 + sc.2) l)) as [H|H]; [left|right].
  - apply Exists_exists in H as ([s c] & Hin & Hk). by exists s, c.
  - intros (s & c & Hin & Hk). apply H, Exists_exists. by exists (s, c).
Defined.

Fixpoint units (cnt : nat) (d : list Z) : list (Z * Z) :=
  match cnt with
  | O => []
  | S cnt => (default 0 (load64 d 0), default 0 (load64 d (NN_OVW_RESPONSE_PAYLOAD_UNIT_SIZE / 2))) ::
      units cnt (drop (Z.to_nat NN_OVW_RESPONSE_PAYLOAD_UNIT_SIZE) d)
  end.

Lemma unit_loop_bits cnt p d w r m :
  ow_reqs w !! p = Some r -> ovw_ptr r <> 0 -> ow_mem w !! ovw_ptr r = Some m -> units_fit cnt d (Z.of_nat (length m)) ->
  exists m', unit_loop cnt p d w = Some (set_mem (ovw_ptr r) m' w) /\ length m' = length m /\
    forall k, 0 <= k -> bit m' k = (bool_decide (marked (units cnt d) k) || bit m k).
Proof.
  revert d w m. induction cnt as [|cnt IH]; intros d w m Hr Hp Hm Hf.
  { exists m. cbn. split_and!; [|done|].
    - f_equal. unfold set_mem. rewrite insert_id by done. by destruct w.
    - intros k _. rewrite bool_decide_false; [done|]. intros (s & c & H%not_elem_of_nil & _). done. }
  destruct Hf as (s & c & E1 & E2 & H1 & H2 & Hf). cbn [unit_loop units]. rewrite E1, E2. cbn [mbind option_bind default].
  pose proof (load64_range _ _ _ E1). pose proof (load64_range _ _ _ E2).
  destruct (range_loop_bits (Z.to_nat c) p s 0 w r m) as (m1 & B1 & R1); try done; try lia. rewrite Z.add_0_r in B1.
  destruct (bits_set_ok (Z.to_nat c) s true m) as (m1' & B1' & L1 & G1); [lia|lia|]. assert (m1' = m1) as -> by congruence.
  set (w1 := set_mem (ovw_ptr r) m1 w).
  assert (range_loop (Z.to_nat c) p s 0 w = Some w1) as ->.
  { rewrite R1. f_equal. unfold w1. case_decide as Hz; [|done]. rewrite Hz in B1. injection B1 as <-. unfold set_mem. rewrite insert_id by done. by destruct w. }
  cbn [mbind option_bind].
  destruct (IH (drop (Z.to_nat NN_OVW_RESPONSE_PAYLOAD_UNIT_SIZE) d) w1 m1) as (m2 & U2 & L2 & G2); [done|done| |by rewrite L1|].
  { unfold w1. rewrite set_mem_lookup. by rewrite decide_True. }
  exists m2. rewrite U2. unfold w1. rewrite set_mem_twice. split_and!; [done|lia|]. intros k Hk. rewrite G2, G1 by done.
  rewrite Z2Nat.id by lia. cbn [id from_option default]. unfold id.
  destruct (decide (s <= k < s + c)) as [Hd|Hd].
  - rewrite orb_true_r. symmetry. rewrite bool_decide_true; [done|]. exists s, c. split; [by left|done].
  - f_equal. apply bool_decide_ext. split; intros (s' & c' & Hin & Hk').
    + exists s', c'. split; [by right|done].
    + apply elem_of_cons in Hin as [[= -> ->]|Hin]; [done|]. by exists s', c'.
Qed.

Lemma unit_loop_null cnt p d w r L :
  ow_reqs w !! p = Some r -> ovw_ptr r = 0 -> units_fit cnt d L -> unit_loop cnt p d w = Some w.
Proof.
  intros Hr Hp. revert d. induction cnt as [|cnt IH]; intros d Hf; [done|]. destruct Hf as (s & c & E1 & E2 & _ & _ & Hf).
  cbn [unit_loop]. rewrite E1, E2. cbn [mbind option_bind]. rewrite (range_loop_null _ _ _ _ _ _ Hr Hp). by apply IH.
Qed.

(** The receiver goes on with the same request. *)
Lemma ok_rx_same w x x' :
  ovw_ok w -> ow_rx w = Some x -> rx_req x' = rx_req x -> rx_set x' = rx_set x -> rx_done x' = rx_done x ->
  ovw_ok (set_ow_rx (Some x') w).
Proof.
  intros [] Hx E1 E2 E3. split; try done.
  - intros p r Hp. specialize (ok_req0 p r Hp).
    assert (forall q s b, rx_is w q s b -> rx_is (set_ow_rx (Some x') w) q s b) as Hrx.
    { intros q s b (y & Hy & Hq & Hs & Hb). assert (y = x) as -> by congruence. exists x'. split; [done|]. by rewrite E1, E2, E3. }
    unfold req_ok, live, cancelled, unowned in *. destruct (ovw_req_state r); try done.
    + destruct ok_req0. auto.
    + destruct ok_req0. auto.
    + destruct ok_req0 as [H1 H2]. split; [done|]. intros Hn. destruct (H2 Hn) as (G1 & G2 & [G3|G3]); auto.
  - intros y [= <-]. specialize (ok_rx0 x Hx). unfold rx_ok in *. by rewrite E1, E2, E3.
Qed.

Definition chunk_legal (data : list Z) w : Prop :=
  forall x r, ow_rx w = Some x -> rx_set x = 2 -> ow_reqs w !! rx_req x = Some r ->
    exists L, units_fit (length data / 16) data L /\ forall m, ow_mem w !! ovw_ptr r = Some m -> Z.of_nat (length m) = L.

Lemma ok_ptr_mem w p r : ovw_ok w -> ow_reqs w !! p = Some r -> ovw_ptr r <> 0 -> is_Some (ow_mem w !! ovw_ptr r).
Proof.
  intros Hok Hp Hn. pose proof (ok_req _ Hok p r Hp) as H. unfold req_ok in H.
  assert (live w r -> is_Some (ow_mem w !! ovw_ptr r)) as Hl.
  { intros (v & Hv & <- & Hn'). destruct (ok_vol _ Hok _ _ Hv Hn') as (m & -> & _). by eauto. }
  destruct (ovw_req_state r); [by apply Hl|by apply Hl|by apply Hl, H|by apply Hl, H|]. by apply H.
Qed.

Lemma ok_chunk w data : ovw_ok w -> chunk_legal data w -> exists w', rx_chunk data w = Some w' /\ ovw_ok w'.
Proof.
  intros Hok Hleg. unfold rx_chunk. destruct (ow_rx w) as [x|] eqn:Hx; [|by exists w]. destruct (_ || rx_done x); [by exists w|].
  set (ex := if rx_left x >? _ then _ else _). destruct (Z.of_nat (length data) =? ex) eqn:Ee; cbn [negb].
  2:{ eexists. split; [done|]. by apply (ok_rx_same w x). }
  apply Z.eqb_eq in Ee.
  destruct (rx_set x =? 2) eqn:Es; [|cbn [mbind option_bind]; eexists; split; [done|]; by apply (ok_rx_same w x)].
  apply Z.eqb_eq in Es. destruct (ok_rx _ Hok x Hx) as [[H0 _]|(r & Hr & _)]; [lia|].
  destruct (Hleg x r Hx Es Hr) as (L & Hf & HL).
  assert (Z.to_nat (ex / NN_OVW_RESPONSE_PAYLOAD_UNIT_SIZE) = (length data / 16)%nat) as ->.
  { rewrite <- Ee. rewrite <- (Nat2Z.id (length data / 16)), Nat2Z.inj_div. done. }
  destruct (decide (ovw_ptr r = 0)) as [H0|H0].
  - rewrite (unit_loop_null _ _ _ _ _ _ Hr H0 Hf). cbn [mbind option_bind]. eexists. split; [done|]. by apply (ok_rx_same w x).
  - destruct (ok_ptr_mem w _ r Hok Hr H0) as [m Hm]. rewrite <- (HL m Hm) in Hf.
    destruct (unit_loop_bits _ _ _ _ _ _ Hr H0 Hm Hf) as (m' & -> & Hl & _). cbn [mbind option_bind]. eexists. split; [done|].
    apply (ok_rx_same (set_mem (ovw_ptr r) m' w) x); try done. by eapply ok_set_mem.
Qed.

Lemma rx_req_only w x p : ow_rx w = Some x -> rx_req x = p -> forall y, ow_rx w = Some y -> rx_set y <> 0 -> rx_req y = p.
Proof. intros Hx <- y Hy _. congruence. Qed.

Lemma ok_state w : ovw_ok w -> exists w', rx_state w = Some w' /\ ovw_ok w'.
Proof.
  intros Hok. unfold rx_state. destruct (ow_rx w) as [x|] eqn:Hx; [|by exists w]. destruct (_ || rx_done x) eqn:Ed; [by exists w|].
  apply orb_false_iff in Ed as [_ Ed].
  destruct (rx_set x =? 0) eqn:E0.
  { eexists. split; [done|]. apply ok_rx_only; [done| |done]. intros y Hy. assert (y = x) as -> by congruence. lia. }
  destruct (ok_rx _ Hok x Hx) as [[H0 _]|(r & Hr & HC)]; [lia|]. set (p := rx_req x) in *. pose proof (ok_req _ Hok p r Hr) as Hreq.
  pose proof (rx_req_only w x p Hx eq_refl) as Hno.
  assert (forall y, set_ow_rx y w = upd w p r y) as Hupd.
  { intros y. unfold upd. rewrite insert_id by done. by destruct w. }
  destruct (rx_set x =? 2) eqn:E2.
  - destruct HC as [[H1 _]|[(H2 & _ & HC)|(_ & H3 & _)]]; [lia| |congruence]. rewrite Hr. cbn [mbind option_bind].
    case_decide as Hc.
    + eexists. split; [done|]. rewrite Hupd. apply (ok_upd w p r); try done; [by right| |].
      * intros y [= <-]. right. exists r. cbn. rewrite lookup_insert_eq. split; [done|]. by left.
      * unfold req_ok in *. rewrite Hc in *. destruct Hreq as [G1 G2]. split; [done|]. intros Hn. destruct (G2 Hn) as (G3 & G4 & _).
        split_and!; [done|done|]. right. by eexists.
    + destruct HC as [HC|HC]; [|done]. unfold req_ok in Hreq. rewrite HC in Hreq. destruct Hreq as [Hl _].
      destruct (rx_fail x).
      * eexists. split; [done|]. eapply ok_same; [apply (ok_upd w p r (set_or_state OVW_REQ_STATE_REQ_OVW_START r) None Hok Hr)|..]; try done.
        -- by right.
        -- exact (alter_some w p r _ Hr).
      * eexists. split; [done|]. set (y := Some _).
        eapply ok_same; [apply (ok_upd w p r (set_or_state OVW_REQ_STATE_REQ_PROCESS_RESPONSE_DONE r) y Hok Hr)|..]; try done.
        -- by right.
        -- intros z [= <-]. right. eexists. cbn. rewrite lookup_insert_eq. split; [done|]. right. right. cbn. split; [done|]. split; [done|]. by left.
        -- unfold req_ok. cbn. split; [done|]. by eexists.
        -- exact (alter_some w p r _ Hr).
  - destruct HC as [[H1 HC]|[(H2 & _)|(H2 & _)]]; [|lia|lia].
    eexists. split; [done|]. rewrite Hupd. apply (ok_upd w p r); try done; [by right| |].
    + intros y [= <-]. right. exists r. cbn. rewrite lookup_insert_eq. split; [done|]. by left.
    + unfold req_ok in *. rewrite HC in *. destruct Hreq as [G1 G2]. split; [done|]. intros Hn. destruct (G2 Hn) as (G3 & G4 & _).
      split_and!; [done|done|]. right. by eexists.
Qed.

Lemma ok_retry_loop l w :
  ovw_ok w -> Forall (fun p => is_Some (ow_reqs w !! p)) l -> exists w', retry_loop l w = Some w' /\ ovw_ok w'.
Proof.
  revert w. induction l as [|p l IH]; intros w Hok Hl; [by exists w|]. apply Forall_cons in Hl as [[r Hr] Hl].
  cbn [retry_loop]. rewrite Hr. cbn [mbind option_bind]. apply IH.
  - case_decide as Hs; [|done].
    eapply ok_same; [exact (ok_upd_idle w p r OVW_REQ_STATE_REQ_OVW_START Hok Hr (or_intror Hs) (or_introl eq_refl))|..]; try done.
    exact (alter_some w p r _ Hr).
  - eapply Forall_impl; [exact Hl|]. intros q [r' Hq]. case_decide; [|by eauto]. cbn. rewrite (alter_some w p r _ Hr).
    destruct (decide (p = q)) as [<-|]; [rewrite lookup_insert_eq|rewrite lookup_insert_ne by done]; by eauto.
Qed.

Lemma ok_retry w : ovw_ok w -> exists w', retry_nn_ovw_req w = Some w' /\ ovw_ok w'.
Proof. intros Hok. apply ok_retry_loop; [done|]. apply Forall_forall. intros p. apply Hok. Qed.

Lemma ok_reading w k b : ovw_ok w -> ovw_ok (set_ow_vols (alter (set_vo_reading b) k (ow_vols w)) w).
Proof.
  intros []. set (w' := set_ow_vols _ w).
  assert (forall vid v', ow_vols w' !! vid = Some v' <-> exists v, ow_vols w !! vid = Some v /\ v' = if decide (vid = k) then set_vo_reading b v else v) as Hv.
  { intros vid v'. unfold w'. cbn. case_decide as E; [subst; rewrite lookup_alter_eq|rewrite lookup_alter_ne by done].
    - destruct (ow_vols w !! k) as [v|]; cbn; [|naive_solver]. split; [intros [= <-]; by exists v|intros (v1 & [= <-] & ->); done].
    - split; [by eauto|by intros (v & Hv & ->)]. }
  assert (forall vid v', ow_vols w' !! vid = Some v' -> exists v, ow_vols w !! vid = Some v /\ ovw_memory v' = ovw_memory v /\ ovw_init v' = ovw_init v /\ capacity v' = capacity v) as Hd.
  { intros vid v' (v & H & ->)%Hv. exists v. by case_decide. }
  assert (forall vid v, ow_vols w !! vid = Some v -> exists v', ow_vols w' !! vid = Some v' /\ ovw_memory v' = ovw_memory v) as Hu.
  { intros vid v H. exists (if decide (vid = k) then set_vo_reading b v else v). rewrite Hv. split; [by eauto|by case_decide]. }
  split; try done.
  - intros p r Hp. specialize (ok_req0 p r Hp).
    assert (live w r -> live w' r) as Hl.
    { intros (v & H & Hm & Hn). destruct (Hu _ _ H) as (v' & H' & Hm'). exists v'. by rewrite Hm'. }
    unfold req_ok in *. destruct (ovw_req_state r); auto; [by destruct ok_req0; auto|by destruct ok_req0; auto|].
    destruct ok_req0 as [G1 G2]. split.
    + intros v' (v & H & -> & _)%Hd. by apply G1.
    + intros Hn. destruct (G2 Hn) as (G3 & G4 & G5). split_and!; [done| |done]. intros vid v' (v & H & -> & _)%Hd. by eapply G4.
  - intros vid v' (v & H & -> & _ & ->)%Hd Hn. by eapply ok_vol0.
  - intros vid v' (v & H & -> & -> & _)%Hd Hi. by eapply ok_init0.
  - intros vid1 vid2 v1' v2' (v1 & H1 & -> & _)%Hd (v2 & H2 & -> & _)%Hd E Hn. by eapply (ok_inj0 vid1 vid2).
  - intros a Ha. destruct (ok_leak0 a Ha) as [(vid & v & H & Hm)|]; [|by right]. left. destruct (Hu _ _ H) as (v' & H' & Hm').
    exists vid, v'. by rewrite Hm'.
Qed.

Lemma ok_finish w : ovw_ok w -> exists w', rx_finish w = Some w' /\ ovw_ok w'.
Proof.
  intros Hok. unfold rx_finish. destruct (ow_rx w) as [x|] eqn:Hx; [|by exists w]. destruct (rx_done x) eqn:Ed; cbn [negb]; [|by exists w].
  destruct (ok_rx _ Hok x Hx) as [[_ H0]|(r & Hr & HC)]; [congruence|]. set (p := rx_req x) in *. rewrite Hr. cbn [mbind option_bind].
  pose proof (ok_reading w (u32 (req_vol_id r)) false Hok) as Hok1. unfold set_vol_ovw_read_state. set (w1 := set_ow_vols _ w) in *.
  assert (ow_reqs w1 !! p = Some r) as Hr1 by done. unfold rm_ovw_req. rewrite decide_True by (apply Hok; change (ow_reqs w1) with (ow_reqs w) in Hr1; by eauto).
  set (w2 := del_queue p w1).
  assert (ovw_req_state r = OVW_REQ_STATE_REQ_CANCEL -> ovw_ptr r <> 0 -> rx_set x = 1 /\ is_Some (ow_mem w2 !! ovw_ptr r)) as Hcan.
  { intros Hs Hn. split; [|by apply (ok_ptr_mem w p r Hok Hr)].
    destruct HC as [[H _]|[(_ & H & _)|(_ & _ & [H|[_ H]])]]; congruence. }
  assert ((if (rx_set x =? 1) && negb (ovw_ptr r =? 0) then vfree (ovw_ptr r) w2 else Some w2) =
          Some (set_ow_mem (if decide (ovw_req_state r = OVW_REQ_STATE_REQ_CANCEL) then delete (ovw_ptr r) (ow_mem w2) else ow_mem w2) w2)) as ->.
  { destruct (decide (ovw_ptr r = 0)) as [H0|H0].
    - rewrite H0, andb_false_r. case_decide; [rewrite delete_id by apply Hok|]; by destruct w2.
    - rewrite (proj2 (Z.eqb_neq (ovw_ptr r) 0)) by done. rewrite andb_true_r. case_decide as Hs.
      + destruct (Hcan Hs H0) as [-> [m Hm]]. unfold vfree. cbn. change (ow_mem w) with (ow_mem w2). by rewrite Hm.
      + destruct HC as [[_ H]|[(H & _)|(H & _)]]; [done|..]; rewrite H; by destruct w2. }
  cbn [mbind option_bind]. unfold free_req. change (ow_reqs (set_ow_mem _ w2)) with (ow_reqs w1). rewrite Hr1. cbn [mbind option_bind].
  eexists. split; [done|]. eapply (ok_drop w1 p r None Hok1 Hr1); try done; [|apply Hok].
  right. split; [done|]. by apply (rx_req_only w x p).
Qed.

(** ** Volumes come and go *)

(** A volume with a new bitmap, or without one. *)
Lemma ok_attach w vid v' m' w' :
  ovw_ok w -> (forall v, ow_vols w !! vid = Some v -> ovw_memory v = 0) -> (forall p r, ow_reqs w !! p = Some r -> req_vol_id r <> vid) ->
  (ovw_memory v' = 0 /\ ovw_init v' = false /\ ow_mem w' = ow_mem w \/
   ovw_memory v' <> 0 /\ ow_mem w !! ovw_memory v' = None /\ ow_mem w' = <[ovw_memory v' := m']> (ow_mem w) /\
     Z.of_nat (length m') = ovw_size (capacity v') /\ 0 <= capacity v') ->
  nn_ovw_manager_ready w' = true -> ow_vols w' = <[vid := v']> (ow_vols w) -> ow_reqs w' = ow_reqs w -> ow_queue w' = ow_queue w ->
  ow_rx w' = ow_rx w -> ovw_ok w'.
Proof.
  intros Hok Hold Hreq Hnew E1 E2 E3 E4 E5. pose proof Hok as [].
  assert (forall a, is_Some (ow_mem w !! a) -> ow_mem w' !! a = ow_mem w !! a /\ ovw_memory v' <> a) as Hmem.
  { intros a [b Ha]. destruct Hnew as [(H0 & _ & ->)|(Hn & Hf & -> & _)].
    - split; [done|]. intros <-. congruence.
    - assert (ovw_memory v' <> a) by congruence. by rewrite lookup_insert_ne. }
  assert (forall r p, ow_reqs w !! p = Some r -> ow_vols w' !! req_vol_id r = ow_vols w !! req_vol_id r) as Hvr.
  { intros r p Hp. rewrite E2, lookup_insert_ne; [done|]. intros E. by apply (Hreq p r). }
  split; rewrite ?E3, ?E4, ?E5; try done.
  - intros p r Hp. specialize (ok_req0 p r Hp). pose proof (Hvr r p Hp) as Hv.
    unfold req_ok, live, cancelled, rx_is in *. rewrite Hv, E5. destruct (ovw_req_state r); try done.
    destruct ok_req0 as [G1 G2]. split; [done|]. intros Hn. destruct (G2 Hn) as (G3 & G4 & G5). destruct (Hmem _ G3) as [Hm Hne].
    rewrite Hm. split_and!; [done| |done]. intros vid1 v1. rewrite E2, lookup_insert_Some. intros [[<- <-]|[_ H]]; [done|by eapply G4].
  - intros vid1 v1. rewrite E2, lookup_insert_Some. intros [[<- <-]|[_ H]] Hn.
    + destruct Hnew as [(H0 & _)|(_ & _ & -> & HL)]; [done|]. exists m'. by rewrite lookup_insert_eq.
    + destruct (ok_vol0 vid1 v1 H Hn) as (m & Hm & HL). exists m. destruct (Hmem (ovw_memory v1)) as [-> _]; [by eauto|done].
  - intros vid1 v1. rewrite E2, lookup_insert_Some. intros [[<- <-]|[_ H]] Hi; [|by eapply ok_init0].
    destruct Hnew as [(_ & H & _)|(H & _)]; congruence.
  - intros vid1 vid2 v1 v2. rewrite E2, !lookup_insert_Some.
    assert (forall vid3 v3, ow_vols w !! vid3 = Some v3 -> ovw_memory v3 <> 0 -> ovw_memory v' <> ovw_memory v3) as Hd.
    { intros vid3 v3 H3 Hn3. destruct (ok_vol0 vid3 v3 H3 Hn3) as (m & Hm & _). apply Hmem. by eauto. }
    intros [[<- <-]|[N1 H1]] [[<- <-]|[N2 H2]] E Hn; [done|..].
    + destruct (Hd vid2 v2 H2); congruence.
    + destruct (Hd vid1 v1 H1); congruence.
    + by eapply ok_inj0.
  - intros a Ha. destruct (decide (ow_mem w !! a = None)) as [Hna|Hsa].
    + left. exists vid, v'. rewrite E2, lookup_insert_eq. split; [done|]. destruct Hnew as [(_ & _ & Hm)|(_ & _ & Hm & _)]; rewrite Hm in Ha.
      * rewrite Hna in Ha. by destruct Ha.
      * destruct (decide (ovw_memory v' = a)); [done|]. rewrite lookup_insert_ne, Hna in Ha by done. by destruct Ha.
    + apply not_eq_None_Some in Hsa. destruct (ok_leak0 a Hsa) as [(vid1 & v1 & H1 & Hm1)|]; [|by right]. left. exists vid1, v1.
      rewrite E2, lookup_insert_ne; [done|]. intros <-. pose proof (Hold v1 H1). destruct Hsa as [b Hb]. congruence.
  - destruct Hnew as [(_ & _ & ->)|(Hn & _ & -> & _)]; [done|]. by rewrite lookup_insert_ne.
  - intros x Hx. specialize (ok_rx0 x Hx). unfold rx_ok in *. by rewrite E3.
Qed.

(** A new request for a volume that has none. *)
Lemma ok_add w p vid v w' :
  ovw_ok w -> ow_reqs w !! p = None -> ow_vols w !! vid = Some v -> ovw_memory v <> 0 ->
  (forall q r, ow_reqs w !! q = Some r -> req_vol_id r <> vid) ->
  nn_ovw_manager_ready w' = true -> ow_vols w' = ow_vols w -> ow_mem w' = ow_mem w ->
  ow_reqs w' = <[p := create_ovw_req vid (ovw_memory v)]> (ow_reqs w) -> ow_queue w' = ow_queue w ++ [p] -> ow_rx w' = ow_rx w -> ovw_ok w'.
Proof.
  intros Hok Hp Hv Hn Hone E0 E1 E2 E3 E4 E5. pose proof Hok as [].
  assert (p ∉ ow_queue w) as Hnq by (rewrite ok_heap0, Hp; by intros []).
  split; rewrite ?E1, ?E2, ?E4, ?E5; try done.
  - apply NoDup_app. split_and!; [done| |apply NoDup_singleton]. intros q Hq ->%list_elem_of_singleton. done.
  - intros q. rewrite E3, elem_of_app, list_elem_of_singleton, ok_heap0. destruct (decide (p = q)) as [<-|].
    + rewrite lookup_insert_eq. split; [by eauto|]. by right.
    + rewrite lookup_insert_ne by done. split; [intros [?| ->]; done|by left].
  - intros q1 q2 r1 r2. rewrite E3, !lookup_insert_Some. intros [[<- <-]|[N1 H1]] [[<- <-]|[N2 H2]] E; [done|..].
    + cbn in E. destruct (Hone q2 r2 H2). done.
    + cbn in E. destruct (Hone q1 r1 H1). done.
    + by eapply ok_one0.
  - intros q r. rewrite E3, lookup_insert_Some. intros [[<- <-]|[_ Hq]].
    + unfold req_ok, live. cbn. rewrite E1. by exists v.
    + specialize (ok_req0 q r Hq). unfold req_ok, live, cancelled, rx_is, unowned in *. by rewrite E1, E2, E5.
  - intros a Ha. destruct (ok_leak0 a Ha) as [|(q & r & Hq & Hs & Hpa)]; [by left|]. right. exists q, r. rewrite E3, lookup_insert_ne by congruence. done.
  - intros x Hx. destruct (ok_rx0 x Hx) as [H0|(r & Hr & HC)]; [by left|]. right. exists r. rewrite E3, lookup_insert_ne by congruence. done.
Qed.

Definition init_legal (vid c : Z) (area : option (Z * list Z)) p w : Prop :=
  0 <= c /\ (forall v, ow_vols w !! vid = Some v -> ovw_memory v = 0) /\
  (forall q r, ow_reqs w !! q = Some r -> req_vol_id r <> vid) /\
  (forall a m, area = Some (a, m) -> a <> 0 /\ ow_mem w !! a = None /\ Z.of_nat (length m) = ovw_size c) /\
  (p <> 0 -> ow_reqs w !! p = None).

Lemma ok_init_ovw w vid c area p :
  ovw_ok w -> init_legal vid c area p w -> exists w' b, init_ovw vid c area p w = Some (w', b) /\ ovw_ok w'.
Proof.
  intros Hok (Hc & Hold & Hreq & Harea & Hp). unfold init_ovw. destruct area as [[a m]|].
  - destruct (Harea a m eq_refl) as (Ha & Hfree & Hl). destruct (ovw_size_ok c Hc) as [Hs1 Hs2].
    rewrite (blank_ok _ m Hs1 Hs2 Hl). cbn [mbind option_bind]. set (v' := {| ovw_memory := a; ovw_init := true; ovw_reading := true; capacity := c |}).
    set (m' := replicate (length m) 0). set (w1 := set_vol vid v' (set_mem a m' w)).
    assert (ovw_ok w1) as Hok1.
    { eapply (ok_attach w vid v' m'); try done; [|apply Hok]. right. split_and!; try done. unfold m'. by rewrite length_replicate. }
    unfold add_ovw_req, find_ovw_req. rewrite (ok_ready _ Hok1). cbn [negb].
    destruct (find_ok w1 vid Hok1) as [[E _]|(q & r & _ & Hq & Hqv)]; [|by destruct (Hreq q r)]. rewrite E. cbn [mbind option_bind].
    destruct (p =? 0) eqn:E0; cbn [mbind option_bind]; [by eexists _, _|]. eexists _, _. split; [done|].
    eapply (ok_add w1 p vid v'); try done; [apply Hp; lia|apply lookup_insert_eq|apply Hok].
  - eexists _, _. split; [done|]. eapply (ok_attach w vid _ []); try done; [|apply Hok]. left. split; [done|]. split; [|done]. cbn.
    destruct (ow_vols w !! vid) as [v|] eqn:Hv; [|done]. destruct (ovw_init v) eqn:Hi; [|done]. destruct (ok_init _ Hok vid v Hv Hi). by apply Hold.
Qed.

(** The bitmap of a volume is taken away.  Its request [p], if there is one that is not cancelled, is cancelled; it keeps the
    bitmap when the receiver is busy with it, otherwise the bitmap is freed. *)
Lemma ok_detach w vid v v' w' (keep : bool) :
  ovw_ok w -> ow_vols w !! vid = Some v -> ovw_memory v' = 0 -> ovw_init v' = false ->
  nn_ovw_manager_ready w' = true -> ow_vols w' = <[vid := v']> (ow_vols w) -> ow_queue w' = ow_queue w -> ow_rx w' = ow_rx w ->
  ow_mem w' = (if keep then ow_mem w else delete (ovw_memory v) (ow_mem w)) ->
  (forall p r, ow_reqs w !! p = Some r -> exists r', ow_reqs w' !! p = Some r' /\ req_vol_id r' = req_vol_id r /\
     (if decide (req_vol_id r = vid) then ovw_req_state r' = OVW_REQ_STATE_REQ_CANCEL else r' = r) /\
     (ovw_req_state r = OVW_REQ_STATE_REQ_CANCEL -> r' = r) /\
     (ovw_req_state r <> OVW_REQ_STATE_REQ_CANCEL -> req_vol_id r = vid -> ovw_ptr r' = if keep then ovw_ptr r else 0) /\
     (keep = true -> req_vol_id r = vid -> ovw_req_state r <> OVW_REQ_STATE_REQ_CANCEL -> ovw_req_state r = OVW_REQ_STATE_REQ_PROCESS_RESPONSE)) ->
  (forall p, ow_reqs w !! p = None -> ow_reqs w' !! p = None) ->
  (keep = true -> ovw_memory v <> 0 -> exists p r, ow_reqs w !! p = Some r /\ req_vol_id r = vid /\ ovw_req_state r <> OVW_REQ_STATE_REQ_CANCEL) ->
  ovw_ok w'.
Proof.
  intros Hok Hv Hm0 Hi0 E0 E1 E2 E3 E4 Hr Hn Hkeep. pose proof Hok as [].
  assert (forall p r', ow_reqs w' !! p = Some r' -> exists r, ow_reqs w !! p = Some r) as Hback.
  { intros p r' H. destruct (ow_reqs w !! p) as [r|] eqn:E; [by exists r|]. rewrite (Hn p E) in H. done. }
  assert (forall vid1 v1, ow_vols w' !! vid1 = Some v1 -> ovw_memory v1 <> 0 -> vid1 <> vid /\ ow_vols w !! vid1 = Some v1) as Hvol.
  { intros vid1 v1. rewrite E1, lookup_insert_Some. intros [[<- <-]|[H1 H2]]; done. }
  assert (forall a, a <> ovw_memory v -> ow_mem w' !! a = ow_mem w !! a) as Hmem.
  { intros a Ha. rewrite E4. destruct keep; [done|]. by rewrite lookup_delete_ne. }
  assert (forall q s b, rx_is w q s b -> rx_is w' q s b) as Hrx by (intros q s b H; unfold rx_is; by rewrite E3).
  split; rewrite ?E2, ?E3; try done.
  - intros p. rewrite ok_heap0. split; intros [r H].
    + destruct (Hr p r H) as (r' & H' & _). by eauto.
    + destruct (Hback p r H) as [r0 H0]. by eauto.
  - intros p q r1 r2 H1 H2 E. destruct (Hback p r1 H1) as [r1' H1']. destruct (Hback q r2 H2) as [r2' H2'].
    destruct (Hr p r1' H1') as (x1 & G1 & V1 & _). destruct (Hr q r2' H2') as (x2 & G2 & V2 & _).
    eapply ok_one0; [done|done|]. congruence.
  - intros p r' Hp. destruct (Hback p r' Hp) as [r Hr0]. destruct (Hr p r Hr0) as (r1 & H1 & V1 & S1 & C1 & P1 & K1).
    assert (r1 = r') as -> by congruence. specialize (ok_req0 p r Hr0) as Hreq. unfold req_ok in Hreq |- *.
    assert (forall a, is_Some (ow_mem w !! a) -> unowned w a -> is_Some (ow_mem w' !! a) /\ unowned w' a) as Hun.
    { intros a Ha Hu. rewrite Hmem by (intros ->; by apply (Hu vid v)). split; [done|]. intros vid1 v1 H. rewrite E1 in H.
      apply lookup_insert_Some in H as [[<- <-]|[_ H]]; [|by eapply Hu]. rewrite Hm0. intros <-. destruct Ha as [? Ha]. congruence. }
    destruct (decide (ovw_req_state r = OVW_REQ_STATE_REQ_CANCEL)) as [Hc|Hc].
    { rewrite (C1 Hc) in *. rewrite Hc in *. destruct Hreq as [G1 G2]. split.
      - intros v1. rewrite E1, lookup_insert_Some. intros [[_ <-]|[_ H]]; [done|by apply G1].
      - intros Hnz. destruct (G2 Hnz) as (G3 & G4 & G5). destruct (Hun _ G3 G4). split_and!; [done|done|]. destruct G5; [left|right]; by apply Hrx. }
    assert (live w r) as Hl by (destruct (ovw_req_state r); try done; by destruct Hreq).
    destruct (decide (req_vol_id r = vid)) as [Hd|Hd].
    + rewrite S1. destruct Hl as (v0 & Hv0 & Hmv & Hnz). rewrite Hd in Hv0. assert (v0 = v) as -> by congruence.
      split; [rewrite V1, Hd, E1, lookup_insert_eq; by intros v1 [= <-]|]. rewrite (P1 Hc Hd). destruct keep; [|done]. intros _.
      specialize (K1 eq_refl Hd Hc). rewrite K1 in Hreq. destruct Hreq as [_ Hx]. rewrite E4. split_and!.
      * destruct (ok_vol0 vid v Hv) as (m & Hm & _); [congruence|]. rewrite <- Hmv. by eauto.
      * intros vid1 v1 H. destruct (decide (ovw_memory v1 = 0)); [congruence|]. destruct (Hvol vid1 v1 H) as [N1 H2]; [done|].
        intros E. apply N1. apply (ok_inj0 vid1 vid v1 v); congruence.
      * left. by apply Hrx.
    + subst r'. assert (live w' r) as Hl'.
      { destruct Hl as (v0 & Hv0 & Hmv & Hnz). exists v0. rewrite E1, lookup_insert_ne by done. done. }
      destruct (ovw_req_state r); try done; destruct Hreq as [_ Hx]; split; auto.
  - intros vid1 v1 H Hnz. destruct (Hvol vid1 v1 H Hnz) as [N1 H1]. destruct (ok_vol0 vid1 v1 H1 Hnz) as (m & Hm & HL). exists m. split; [|done].
    rewrite Hmem; [done|]. intros E. apply N1. by apply (ok_inj0 vid1 vid v1 v).
  - intros vid1 v1. rewrite E1, lookup_insert_Some. intros [[<- <-]|[_ H]] Hi; [congruence|by eapply ok_init0].
  - intros vid1 vid2 v1 v2 H1 H2 E Hnz. destruct (Hvol vid1 v1 H1 Hnz) as [_ G1]. destruct (Hvol vid2 v2 H2) as [_ G2]; [congruence|]. by eapply ok_inj0.
  - intros a Ha. assert (is_Some (ow_mem w !! a)) as Ha'.
    { rewrite E4 in Ha. destruct keep; [done|]. destruct Ha as [b Hb]. apply lookup_delete_Some in Hb as [_ Hb]. by eauto. }
    destruct (ok_leak0 a Ha') as [(vid1 & v1 & H1 & Hm1)|(p & r & Hp & Hs & Hpa)].
    + destruct (decide (vid1 = vid)) as [->|Hd].
      * assert (v1 = v) as -> by congruence. destruct keep.
        -- right. assert (ovw_memory v <> 0) as Hnz by (intros E; rewrite Hm1 in E; subst a; rewrite E in Ha'; rewrite ok_null0 in Ha'; by destruct Ha').
           destruct (Hkeep eq_refl Hnz) as (p & r & Hp & Hd & Hc). destruct (Hr p r Hp) as (r' & H' & _ & S1 & _ & P1 & _).
           rewrite decide_True in S1 by done. exists p, r'. split_and!; [done|done|]. rewrite (P1 Hc Hd).
           assert (live w r) as (v0 & Hv0 & Hmv & _).
           { specialize (ok_req0 p r Hp). unfold req_ok in ok_req0. destruct (ovw_req_state r); try done; by destruct ok_req0. }
           rewrite Hd in Hv0. congruence.
        -- rewrite E4, Hm1, lookup_delete_eq in Ha. by destruct Ha.
      * left. exists vid1, v1. rewrite E1, lookup_insert_ne by done. done.
    + right. destruct (Hr p r Hp) as (r' & H' & _ & _ & C1 & _). exists p, r'. rewrite (C1 Hs) in *. done.
  - rewrite E4. destruct keep; [done|]. rewrite lookup_delete_None. by right.
  - intros x Hx. destruct (ok_rx0 x Hx) as [H0|(r & Hrx0 & HC)]; [by left|]. right.
    destruct (Hr _ r Hrx0) as (r' & H' & _ & S1 & C1 & P1 & K1). exists r'. split; [done|].
    destruct (decide (req_vol_id r = vid)) as [Hd|Hd]; [|by subst r'].
    destruct HC as [[H1 Hs]|[(H1 & H2 & Hs)|(H1 & H2 & Hs)]].
    + left. rewrite (C1 Hs). done.
    + right. left. split_and!; [done|done|by right].
    + right. right. split_and!; [done|done|]. right. split; [done|]. destruct Hs as [Hs|[Hs Hz]]; [|by rewrite (C1 Hs)].
      destruct keep; [|apply P1; congruence]. rewrite K1 in Hs; [done|done|done|congruence].
Qed.

Lemma ok_release w dev : ovw_ok w -> exists w', release_ovw dev w = Some w' /\ ovw_ok w'.
Proof.
  intros Hok. unfold release_ovw. destruct (ow_vols w !! dev) as [v|] eqn:Hv; [|by exists w].
  set (v1 := set_vo_init false v). set (w1 := set_vol dev v1 w). set (v2 := set_vo_memory 0 v1).
  assert (forall w2, ow_mem w2 = ow_mem w -> ow_vols w2 = ow_vols w1 ->
    (if ovw_memory v1 =? 0 then Some w2 else w3 ← vfree (ovw_memory v1) w2; Some (set_vol dev v2 w3)) =
    Some (set_ow_vols (<[dev := v2]> (ow_vols w)) (set_ow_mem (delete (ovw_memory v) (ow_mem w)) w2))) as Hfree.
  { intros w2 Hm2 Hv2. change (ovw_memory v1) with (ovw_memory v). destruct (ovw_memory v =? 0) eqn:E0.
    - apply Z.eqb_eq in E0. rewrite E0, delete_id by apply Hok. assert (v2 = v1) as -> by (unfold v2, v1; destruct v; cbn in *; by rewrite E0).
      f_equal. destruct w2. cbn in *. by rewrite <- Hm2, Hv2.
    - apply Z.eqb_neq in E0. destruct (ok_vol _ Hok dev v Hv E0) as (m & Hm & _). unfold vfree. rewrite Hm2, Hm. cbn [mbind option_bind].
      f_equal. unfold set_vol. cbn. rewrite Hv2. unfold w1, set_vol. cbn. by rewrite insert_insert_eq. }
  assert (queue_find dev (ow_queue w) w1 = queue_find dev (ow_queue w) w) as Hq.
  { clear. induction (ow_queue w) as [|p l IH]; [done|]. cbn [queue_find]. change (ow_reqs w1) with (ow_reqs w). by rewrite IH. }
  unfold find_ovw_req. change (nn_ovw_manager_ready w1) with (nn_ovw_manager_ready w). rewrite (ok_ready _ Hok). cbn [negb].
  change (ow_queue w1) with (ow_queue w). rewrite Hq.
  destruct (find_ok w dev Hok) as [[E Hno]|(p & r & E & Hp & Hd)]; rewrite E; cbn [mbind option_bind].
  { rewrite (Hfree w1) by done. eexists. split; [done|]. eapply (ok_detach w dev v v2 _ false Hok Hv); try done; [apply Hok|].
    intros q r Hq'. exists r. split; [done|]. split; [done|]. rewrite decide_False by (by eapply Hno). split; [done|]. split; [done|].
    split; [|done]. intros _ Hr. by destruct (Hno q r). }
  change (ow_reqs w1) with (ow_reqs w). rewrite Hp. cbn [mbind option_bind]. rewrite andb_true_l.
  destruct (bool_decide_reflect (ovw_req_state r = OVW_REQ_STATE_REQ_CANCEL)) as [Hc|Hc]; cbn [negb mbind option_bind].
  - rewrite decide_False by (rewrite Hc; by intros [|[]]). eexists. split; [done|].
    eapply (ok_detach w dev v v2 _ true Hok Hv); try done; [apply Hok|cbn; by rewrite insert_insert_eq| |].
    + intros q r' Hq'. exists r'. split; [done|]. split; [done|].
      assert (req_vol_id r' = dev -> r' = r) as Hone.
      { intros Hd'. assert (q = p) as -> by (eapply (ok_one _ Hok q p r' r); congruence). congruence. }
      split; [case_decide; [by rewrite (Hone)|done]|]. split; [done|]. split; [intros Hc' Hd'|intros _ Hd' Hc']; by rewrite Hone in Hc'.
    + intros _ Hnz. pose proof (ok_req _ Hok p r Hp) as Hr. unfold req_ok in Hr. rewrite Hc in Hr. destruct Hr as [Hr _]. rewrite Hd in Hr. by destruct (Hnz (Hr v Hv)).
  - rewrite (bool_decide_true (OVW_REQ_STATE_REQ_CANCEL = OVW_REQ_STATE_REQ_CANCEL)) by done. rewrite !andb_true_l.
    set (keep := bool_decide (ovw_req_state r = OVW_REQ_STATE_REQ_PROCESS_RESPONSE)).
    set (free3 := bool_decide (ovw_req_state r = OVW_REQ_STATE_REQ_OVW_START) || _ || _).
    assert (free3 = negb keep) as Hf.
    { unfold free3, keep. destruct (ovw_req_state r); try done; by repeat rewrite bool_decide_false by done. }
    set (r' := {| req_header := req_header r; ovw_req_state := OVW_REQ_STATE_REQ_CANCEL; ovw_ptr := if keep then ovw_ptr r else 0; req_vol_id := req_vol_id r |}).
    rewrite Hf. set (w2 := upd_req p (set_or_state OVW_REQ_STATE_REQ_CANCEL) _).
    assert (ow_mem w2 = ow_mem w /\ ow_vols w2 = ow_vols w1 /\ ow_reqs w2 = <[p := r']> (ow_reqs w) /\ ow_queue w2 = ow_queue w /\
            ow_rx w2 = ow_rx w /\ nn_ovw_manager_ready w2 = true) as (F1 & F2 & F3 & F4 & F5 & F6).
    { pose proof (ok_ready _ Hok) as Hready. unfold w2, r'. destruct keep; cbn [negb]; repeat case_bool_decide; cbn; split_and!; try done;
        apply map_eq; intros q; (destruct (decide (q = p)) as [->|Hn]; [rewrite lookup_insert_eq, !lookup_alter_eq, Hp; done|rewrite lookup_insert_ne, !lookup_alter_ne; done]). }
    clearbody w2.
    assert (forall w3, ow_vols w3 = <[dev := v2]> (ow_vols w) -> ow_reqs w3 = ow_reqs w2 -> ow_queue w3 = ow_queue w2 -> ow_rx w3 = ow_rx w2 ->
      nn_ovw_manager_ready w3 = true -> ow_mem w3 = (if keep then ow_mem w else delete (ovw_memory v) (ow_mem w)) -> ovw_ok w3) as Hfin.
    { intros w3 G1 G2 G3 G4 G5 G6. eapply (ok_detach w dev v v2 w3 keep Hok Hv); try done; try congruence.
      - intros q r1 Hq1. rewrite G2, F3. destruct (decide (q = p)) as [->|Hqp].
        + assert (r1 = r) as -> by congruence. exists r'. rewrite lookup_insert_eq. split; [done|]. split; [done|].
          rewrite decide_True by done. split; [done|]. split; [done|]. split; [done|]. intros Hk _ _. unfold keep in Hk. by apply bool_decide_eq_true_1 in Hk.
        + assert (req_vol_id r1 <> dev) as Hnd by (intros Hd1; apply Hqp; eapply (ok_one _ Hok q p r1 r); congruence).
          exists r1. rewrite lookup_insert_ne, decide_False by done. done.
      - intros q Hq1. rewrite G2, F3, lookup_insert_ne by congruence. done.
      - intros _ _. by exists p, r. }
    case_decide as Hs.
    + rewrite Hfree by done. eexists. split; [done|]. apply Hfin; try done. cbn. assert (keep = false) as ->; [|done].
      unfold keep. rewrite bool_decide_false; [done|]. destruct Hs as [->|[->| ->]]; done.
    + eexists. split; [done|]. apply Hfin; try done; [cbn; rewrite F2; unfold w1, set_vol; cbn; by rewrite insert_insert_eq|].
      cbn. assert (keep = true) as ->; [|done]. unfold keep. destruct (ovw_req_state r); try done; exfalso; tauto.
Qed.
End Ownership.
