(* ===== verification/OvwRun.v ===== *)
(** * OvwRun: the bitmaps of written blocks over whole runs

    Bitmaps and requests are neither used after they were freed nor lost; the answer of the
    namenode sets exactly its ranges; and the runs in which a volume is restarted too early, the worker
    frees a request under the receiver, or an answer is cut off. *)

From S2P Require Import Prelude CommonUtil Bytes Ovw OvwSpec.

(** ** Memory *)

Definition ovw_legal (e : ovw_ev) (w : ovw_world) : Prop :=
  match e with
  | Ov_init vid c area p => init_legal vid c area p w
  | Ov_worker _ =>
      forall x r, ow_rx w = Some x -> rx_set x <> 0 -> ow_reqs w !! rx_req x = Some r -> ovw_req_state r <> OVW_REQ_STATE_REQ_CANCEL
  | Ov_chunk data => chunk_legal data w
  | Ov_set vol s n _ =>
      0 <= s /\ 0 <= n /\ s + n < 2 ^ 64 /\ forall v, ow_vols w !! vol = Some v -> s + n <= 8 * ovw_size (capacity v)
  | _ => True
  end.

Inductive ovw_steps : ovw_world -> list ovw_ev -> ovw_world -> Prop :=
| ovw_none w : ovw_steps w [] w
| ovw_more w e w1 evs w2 : ovw_legal e w -> ovw_step e w = Some w1 -> ovw_steps w1 evs w2 -> ovw_steps w (e :: evs) w2.

Lemma ovw_ok_attached w vol v : ovw_ok w -> ow_vols w !! vol = Some v -> ovw_init v = true ->
  exists m, attached w vol m /\ Z.of_nat (length m) = ovw_size (capacity v) /\ 0 <= capacity v.
Proof.
  intros Hok Hv Hi. pose proof (ok_init _ Hok vol v Hv Hi) as Hn. destruct (ok_vol _ Hok vol v Hv Hn) as (m & Hm & HL).
  exists m. split; [by exists v|done].
Qed.

Lemma ovw_step_ok e w : ovw_ok w -> ovw_legal e w -> exists w', ovw_step e w = Some w' /\ ovw_ok w'.
Proof.
  intros Hok HL. destruct e; cbn [ovw_step ovw_legal] in *.
  - destruct (ok_init_ovw w volid capacity area p Hok HL) as (w' & b & -> & H). by exists w'.
  - by apply ok_release.
  - by apply ok_worker.
  - destruct (ow_rx w) eqn:Hx; [by exists w|by apply ok_header].
  - by apply ok_chunk.
  - by apply ok_state.
  - by apply ok_finish.
  - by apply ok_retry.
  - destruct HL as (H1 & H2 & H3 & H4). unfold set_vol_ovw_range. destruct (ow_vols w !! vol) as [v|] eqn:Hv.
    + destruct (ovw_init v) eqn:Hi.
      * destruct (ovw_ok_attached w vol v Hok Hv Hi) as (m & HA & Hl & _). specialize (H4 v eq_refl).
        destruct (ovw_range_bits (Z.to_nat lbid_len) vol lbid_s val w m HA) as (w' & m' & -> & B & _ & _ & (d & Hd & ->)); try lia.
        eexists. split; [done|]. case_decide; [done|]. destruct HA as (v' & Hv' & _ & _ & Hm). assert (d = v') as -> by congruence.
        destruct (bits_set_ok (Z.to_nat lbid_len) lbid_s val m) as (m2 & B2 & L2 & _); [lia|lia|]. assert (m2 = m') as -> by congruence.
        by eapply ok_set_mem.
      * exists w. split; [|done]. destruct (Z.to_nat lbid_len); [done|]. cbn. unfold ovw_set. by rewrite Hv, Hi.
    + exists w. split; [|done]. destruct (Z.to_nat lbid_len); [done|]. cbn. unfold ovw_set. by rewrite Hv.
  - unfold ovw_clear. destruct (ow_vols w !! vol) as [v|] eqn:Hv; [|by exists w]. destruct (ovw_init v) eqn:Hi; cbn [negb]; [|by exists w].
    destruct (ovw_ok_attached w vol v Hok Hv Hi) as (m & (v' & Hv' & _ & _ & Hm) & Hl & Hc). assert (v' = v) as -> by congruence.
    destruct (ovw_size_ok _ Hc) as [S1 S2]. rewrite Hm. cbn [mbind option_bind]. rewrite (blank_ok _ m S1 S2 Hl).
    eexists. split; [done|]. eapply ok_set_mem; [done|done|]. apply length_replicate.
Qed.


(** *** Example: a volume is released while its answer is being received *)

Definition ex_res (vol len : Z) : ovw_res :=
  {| begin_magic_number := htonll MAGIC_NUM; res_vol_id := htonll vol; req_cmd_type := 0; res_sub_type := 0; error_code := 0;
     len_in_byte := htonll len; end_magic_number := htonll MAGIC_NUM_END |}.

Definition ex_run (evs : list ovw_ev) : ovw_world := default init_nnovw_manager (ovw_run evs init_nnovw_manager).
Definition ex_attach : ovw_ev := Ov_init 7 32768 (Some (64, replicate 4096 9)) 96.


(** ** The answer of the namenode *)

(** Ranges as they are sent: the first block and the number of blocks, in network order. *)
Definition enc_ranges (l : list (Z * Z)) : list Z := l ≫= fun sc => be_bytes 8 sc.1 ++ be_bytes 8 sc.2.

Definition range_fits (L : Z) (sc : Z * Z) : Prop := 0 <= sc.1 /\ 0 <= sc.2 /\ sc.1 + sc.2 <= 8 * L /\ sc.1 + sc.2 < 2 ^ 64.

(** Every buffer of an answer but the last one is full. *)
Fixpoint wf_chunks (ls : list (list (Z * Z))) : Prop :=
  match ls with
  | [] => True
  | [l] => (1 <= length l <= 256)%nat
  | l :: ls => length l = 256%nat /\ wf_chunks ls
  end.

Lemma length_enc l : length (enc_ranges l) = (16 * length l)%nat.
Proof.
  unfold enc_ranges. induction l as [|[s c] l IH]; [done|]. rewrite bind_cons, !length_app, IH, !length_be_bytes. cbn. lia.
Qed.

Lemma load64_be d1 x d2 off : is_u64 x -> off = Z.of_nat (length d1) -> load64 (d1 ++ be_bytes 8 x ++ d2) off = Some x.
Proof.
  intros Hx ->. unfold load64. rewrite slice_app by (done || by rewrite length_be_bytes). cbn. f_equal. by apply ntohll_be.
Qed.

Lemma enc_units l L :
  Forall (range_fits L) l -> units (length l) (enc_ranges l) = l /\ units_fit (length l) (enc_ranges l) L.
Proof.
  induction 1 as [|[s c] l (H1 & H2 & H3 & H4) _ [IH1 IH2]]; [done|]. cbn in H1, H2, H3, H4.
  assert (enc_ranges ((s, c) :: l) = be_bytes 8 s ++ be_bytes 8 c ++ enc_ranges l) as E.
  { unfold enc_ranges. rewrite bind_cons. cbn [fst snd]. by rewrite <- app_assoc. }
  assert (load64 (enc_ranges ((s, c) :: l)) 0 = Some s) as L1.
  { rewrite E. apply (load64_be []); [unfold is_u64; lia|done]. }
  assert (load64 (enc_ranges ((s, c) :: l)) (NN_OVW_RESPONSE_PAYLOAD_UNIT_SIZE / 2) = Some c) as L2.
  { rewrite E. apply load64_be; [unfold is_u64; lia|]. by rewrite length_be_bytes. }
  assert (drop (Z.to_nat NN_OVW_RESPONSE_PAYLOAD_UNIT_SIZE) (enc_ranges ((s, c) :: l)) = enc_ranges l) as L3.
  { rewrite E, app_assoc. apply drop_app_length'. by rewrite length_app, !length_be_bytes. }
  cbn [length units units_fit]. rewrite L1, L2, L3, IH1. split; [done|]. by exists s, c.
Qed.

(** The receiver is in the loop over an answer for the volume [vid]. *)
Record loading (vid a p : Z) (m : list Z) (left : Z) (w : ovw_world) : Prop := {
  ld_vol : exists c, ow_vols w !! vid = Some {| ovw_memory := a; ovw_init := true; ovw_reading := true; capacity := c |};
  ld_req : exists h, ow_reqs w = {[p := {| req_header := h; ovw_req_state := OVW_REQ_STATE_REQ_PROCESS_RESPONSE; ovw_ptr := a; req_vol_id := vid |}]};
  ld_queue : ow_queue w = [p];
  ld_mem : ow_mem w !! a = Some m;
  ld_null : a <> 0;
  ld_rx : ow_rx w = Some {| rx_req := p; rx_set := 2; rx_left := left; rx_fail := false; rx_done := false |};
}.

Lemma load_chunk vid a p m left w l :
  loading vid a p m left w -> Forall (range_fits (Z.of_nat (length m))) l ->
  (left = 16 * Z.of_nat (length l) /\ left <= 4096 /\ 0 < left \/ length l = 256%nat /\ 4096 < left) ->
  exists w' m', ovw_step (Ov_chunk (enc_ranges l)) w = Some w' /\ loading vid a p m' (left - 4096) w' /\ length m' = length m /\
    (forall k, 0 <= k -> bit m' k = (bool_decide (marked l k) || bit m k)) /\ ow_sent w' = ow_sent w.
Proof.
  intros [[c Hv] [h Hr] Hq Hm Ha Hx] Hf Hleft. cbn [ovw_step]. unfold rx_chunk. rewrite Hx. cbn [rx_left rx_fail rx_done rx_set rx_req].
  rewrite (proj2 (Z.leb_gt left 0)) by lia. cbn [orb].
  assert ((if left >? OVW_SOCKET_RECV_BUFFER_SIZE then OVW_SOCKET_RECV_BUFFER_SIZE else left) = 16 * Z.of_nat (length l)) as ->.
  { unfold OVW_SOCKET_RECV_BUFFER_SIZE. destruct (left >? 4096) eqn:E; lia. }
  rewrite length_enc, (proj2 (Z.eqb_eq _ _)) by lia. cbn [negb Z.eqb Pos.eqb].
  replace (Z.to_nat (16 * Z.of_nat (length l) / NN_OVW_RESPONSE_PAYLOAD_UNIT_SIZE)) with (length l)
    by (unfold NN_OVW_RESPONSE_PAYLOAD_UNIT_SIZE; rewrite Z.mul_comm, Z.div_mul by done; lia).
  destruct (enc_units l _ Hf) as [U1 U2].
  edestruct (unit_loop_bits (length l) p (enc_ranges l) w) as (m' & E & L & B);
    [rewrite Hr; apply lookup_singleton_eq|exact Ha|exact Hm|exact U2|]. cbn [ovw_ptr] in E. rewrite E. cbn [mbind option_bind]. rewrite U1 in B.
  eexists _, m'. split; [done|]. split; [|done]. split; cbn; try done; [by exists c|by exists h|apply lookup_insert_eq].
Qed.

Lemma marked_app l1 l2 k : bool_decide (marked (l1 ++ l2) k) = bool_decide (marked l1 k) || bool_decide (marked l2 k).
Proof.
  rewrite <- bool_decide_or. apply bool_decide_ext. unfold marked. split.
  - intros (s & c & Hin & Hk). apply elem_of_app in Hin as [Hin|Hin]; [left|right]; by exists s, c.
  - intros [(s & c & Hin & Hk)|(s & c & Hin & Hk)]; exists s, c; (split; [apply elem_of_app; auto|done]).
Qed.

Lemma load_chunks vid a p ls m left w :
  loading vid a p m left w -> Forall (Forall (range_fits (Z.of_nat (length m)))) ls -> wf_chunks ls ->
  left = 16 * Z.of_nat (length (concat ls)) ->
  exists w' m' left', ovw_run ((fun l => Ov_chunk (enc_ranges l)) <$> ls) w = Some w' /\ loading vid a p m' left' w' /\ left' <= 0 /\
    length m' = length m /\ (forall k, 0 <= k -> bit m' k = (bool_decide (marked (concat ls) k) || bit m k)) /\ ow_sent w' = ow_sent w.
Proof.
  revert m left w. induction ls as [|l ls IH]; intros m left w HW Hf Hwf Hleft.
  { exists w, m, left. cbn in Hleft. split_and!; [done|done|lia|done| |done]. intros k _. rewrite bool_decide_false; [done|].
    intros (s & c & Hin & _). by apply not_elem_of_nil in Hin. }
  apply Forall_cons in Hf as [Hf1 Hf2]. cbn [concat] in Hleft. rewrite length_app in Hleft.
  destruct (load_chunk vid a p m left w l HW Hf1) as (w1 & m1 & E1 & HW1 & L1 & B1 & S1).
  { destruct ls as [|l2 ls]; [left; cbn in Hwf, Hleft; lia|right]. destruct Hwf as [H1 H2]. split; [done|].
    assert (1 <= length (concat (l2 :: ls)))%nat; [|lia]. cbn [concat]. rewrite length_app. destruct ls; cbn in H2; lia. }
  rewrite fmap_cons. cbn [ovw_run]. rewrite E1. cbn [mbind option_bind]. destruct ls as [|l2 ls].
  { exists w1, m1, (left - 4096). cbn in Hwf, Hleft. cbn [fmap list_fmap ovw_run concat]. split_and!; [done|done|lia|done| |done].
    intros k Hk. rewrite app_nil_r. by apply B1. }
  destruct Hwf as [H1 H2].
  destruct (IH m1 (left - 4096) w1 HW1) as (w' & m' & left' & E' & HW' & Hle & L' & B' & S'); [by rewrite L1|done|lia|].
  exists w', m', left'. split_and!; [done|done|lia|lia| |congruence]. intros k Hk. rewrite B', B1 by done.
  change (concat (l :: l2 :: ls)) with (l ++ concat (l2 :: ls)). rewrite marked_app.
  destruct (bool_decide (marked l k)), (bool_decide (marked (concat (l2 :: ls)) k)); done.
Qed.

Lemma ovw_run_app evs1 evs2 w w' : ovw_run evs1 w = Some w' -> ovw_run (evs1 ++ evs2) w = ovw_run evs2 w'.
Proof.
  revert w. induction evs1 as [|e evs1 IH]; intros w H; cbn in *; [by injection H as ->|].
  destruct (ovw_step e w) as [w1|]; [|done]. by apply IH.
Qed.

(** A volume is attached, its request is sent and the answer begins. *)
Lemma load_start vid c a p m0 n :
  is_u64 vid -> 0 <= c -> a <> 0 -> p <> 0 -> Z.of_nat (length m0) = ovw_size c -> 0 <= n < 2 ^ 63 ->
  exists w, ovw_run [Ov_init vid c (Some (a, m0)) p; Ov_worker true; Ov_header (ex_res vid n)] init_nnovw_manager = Some w /\
    loading vid a p (replicate (length m0) 0) n w /\
    ow_sent w = [ovw_req_header DMS_NN_REQUEST_CMD_TYPE_OVERWRITTEN DMS_NN_CMD_OVW_SUB_TYPE_REQUEST vid].
Proof.
  intros Hvid Hc Ha Hp Hl Hn. destruct (ovw_size_ok c Hc) as [S1 S2].
  set (m := replicate (length m0) 0). set (v := {| ovw_memory := a; ovw_init := true; ovw_reading := true; capacity := c |}).
  set (w1 := {| nn_ovw_manager_ready := true; ow_vols := {[vid := v]}; ow_mem := {[a := m]};
                ow_reqs := {[p := create_ovw_req vid a]}; ow_queue := [p]; ow_size := 1; ow_send := 0; ow_wait := 1; ow_rx := None; ow_sent := [] |}).
  assert (ovw_step (Ov_init vid c (Some (a, m0)) p) init_nnovw_manager = Some w1) as E1.
  { cbn [ovw_step]. unfold init_ovw. rewrite (blank_ok _ m0 S1 S2 Hl). cbn [mbind option_bind]. unfold add_ovw_req, find_ovw_req.
    cbn -[create_ovw_req]. rewrite (proj2 (Z.eqb_neq p 0)) by done. cbn -[create_ovw_req]. unfold w1. by rewrite !insert_empty. }
  set (r2 := set_or_state OVW_REQ_STATE_REQ_SEND_TO_NN (create_ovw_req vid a)).
  set (w2 := {| nn_ovw_manager_ready := true; ow_vols := {[vid := v]}; ow_mem := {[a := m]};
                ow_reqs := {[p := r2]}; ow_queue := [p]; ow_size := 1; ow_send := 1; ow_wait := 0; ow_rx := None; ow_sent := [req_header r2] |}).
  assert (ovw_step (Ov_worker true) w1 = Some w2) as E2.
  { cbn [ovw_step]. unfold nn_ovw_request_worker. change (worker_ready w1) with true. cbn [negb]. unfold get_ovw_req.
    cbn [queue_next w1 ow_queue ow_reqs]. rewrite lookup_singleton_eq. cbn [mbind option_bind]. rewrite decide_True by auto.
    cbn [mbind option_bind]. rewrite decide_True by done. cbn [mbind option_bind]. rewrite (proj2 (Z.eqb_neq p 0)) by done. cbn [orb negb].
    unfold upd_req. cbn [ow_reqs set_ow_wait set_ow_send set_ow_reqs ow_wait ow_send]. rewrite (alter_some w1 p (create_ovw_req vid a)) by apply lookup_singleton_eq.
    cbn [w1 ow_reqs]. rewrite insert_singleton_eq, lookup_singleton_eq. done. }
  set (r3 := set_or_state OVW_REQ_STATE_REQ_PROCESS_RESPONSE r2).
  set (w3 := {| nn_ovw_manager_ready := true; ow_vols := {[vid := v]}; ow_mem := {[a := m]};
                ow_reqs := {[p := r3]}; ow_queue := [p]; ow_size := 1; ow_send := 0; ow_wait := 0;
                ow_rx := Some {| rx_req := p; rx_set := 2; rx_left := n; rx_fail := false; rx_done := false |}; ow_sent := [req_header r2] |}).
  assert (ovw_step (Ov_header (ex_res vid n)) w2 = Some w3) as E3.
  { cbn [ovw_step w2 ow_rx]. unfold rx_header, change_byteorder_nn_ovw_response. cbn [ex_res begin_magic_number end_magic_number res_vol_id len_in_byte].
    rewrite !ntohll_htonll by (done || (unfold is_u64; lia)). rewrite !Z.eqb_refl. cbn [negb orb]. unfold find_ovw_req.
    cbn [w2 nn_ovw_manager_ready negb ow_queue queue_find ow_reqs]. rewrite lookup_singleton_eq. cbn [mbind option_bind].
    change (req_vol_id r2) with vid. rewrite Z.eqb_refl. cbn [mbind option_bind]. rewrite lookup_singleton_eq. cbn [mbind option_bind].
    change (ovw_req_state r2) with OVW_REQ_STATE_REQ_SEND_TO_NN. rewrite bool_decide_false by done. cbn [negb andb].
    rewrite (bool_decide_false (OVW_REQ_STATE_REQ_PROCESS_RESPONSE = OVW_REQ_STATE_REQ_CANCEL)) by done. cbn [andb].
    rewrite bool_decide_true by done. cbn [mbind option_bind]. rewrite decide_False by done. unfold upd_req. cbn [ow_reqs set_ow_send].
    fold w2. rewrite (alter_some w2 p r2) by apply lookup_singleton_eq. cbn [w2 ow_reqs]. rewrite insert_singleton_eq.
    assert (s64 n = n) as Es by (unfold s64; rewrite Z.mod_small; lia). rewrite Es. done. }
  exists w3. cbn [ovw_run]. rewrite E1. cbn [mbind option_bind]. rewrite E2. cbn [mbind option_bind]. rewrite E3. split; [done|]. split; [|done].
  clear E1 E2 E3. split; cbn [w3 ow_vols ow_reqs ow_queue ow_mem ow_rx].
  - exists c. apply lookup_singleton_eq.
  - eexists. reflexivity.
  - reflexivity.
  - apply lookup_singleton_eq.
  - exact Ha.
  - reflexivity.
Qed.



(** ** When the conditions do not hold *)

(** A volume that is restarted before the answer for its former life has come loses the answer.  The cancelled request is still
    in the queue, so no new one is made; the answer ends the old request without setting a bit, and declares the
    bitmap of the restarted volume complete, although it is empty and nothing is left that could fill it. *)
Theorem ovw_restart_loses_answer (connected : bool) :
  exists w, ovw_run [ex_attach; Ov_worker true; Ov_release 7; Ov_init 7 32768 (Some (65, replicate 4096 9)) 97; Ov_worker connected;
                     Ov_header (ex_res 7 32); Ov_chunk (enc_ranges [(3, 2); (100, 1)]); Ov_state; Ov_finish] init_nnovw_manager = Some w /\
    (exists v, ow_vols w !! 7 = Some v /\ ovw_init v = true /\ ovw_reading v = false) /\
    ow_queue w = [] /\ (forall k, 0 <= k < 8 * ovw_size 32768 -> ovw_get 7 k w = Some false).
Proof.
  assert (forall m, m = replicate 4096 0 -> forall k, 0 <= k < 8 * ovw_size 32768 -> bit_get m k = Some false) as Hz.
  { intros m -> k Hk. assert (ovw_size 32768 = 4096) as Es by (vm_compute; reflexivity). rewrite Es in Hk.
    rewrite bit_get_ok, bit_zeros by (unfold lb_ok; rewrite length_replicate; lia). done. }
  destruct connected; (eexists; split; [vm_compute; reflexivity|]; split; [eexists; split; [vm_compute; reflexivity|by split]|];
    split; [reflexivity|]; intros k Hk; change (bit_get (replicate 4096 0) k = Some false); by apply Hz).
Qed.

(** If the restarted volume is released again, its bitmap is lost: no volume and no request has it. *)
Theorem ovw_restart_leaks :
  exists w, ovw_run [ex_attach; Ov_worker true; Ov_release 7; Ov_init 7 32768 (Some (65, replicate 4096 9)) 97; Ov_release 7]
      init_nnovw_manager = Some w /\
    is_Some (ow_mem w !! 65) /\ ovw_memory <$> ow_vols w !! 7 = Some 0 /\ ovw_ptr <$> ow_reqs w !! 96 = Some 0 /\ ow_queue w = [96].
Proof. eexists. split; [vm_compute; reflexivity|]. split; [vm_compute; eexists; reflexivity|]. split_and!; vm_compute; reflexivity. Qed.

(** The worker can free a request, and its bitmap, while the receiver is working on it: the volume is released while its answer is being
    received, and another volume wakes the worker, which meets the cancelled request first.  The next range of the answer
    is then written through freed memory. *)
Theorem ovw_worker_frees_under_receiver (connected : bool) :
  ovw_run [ex_attach; Ov_worker true; Ov_header (ex_res 7 32); Ov_init 8 32768 (Some (65, replicate 4096 9)) 97; Ov_release 7;
           Ov_worker connected; Ov_chunk (enc_ranges [(3, 2); (100, 1)])] init_nnovw_manager = None.
Proof. destruct connected; vm_compute; reflexivity. Qed.

(** An answer was cut off. *)
Definition ex_cut : ovw_world := ex_run [ex_attach; Ov_worker true; Ov_header (ex_res 7 32); Ov_chunk [1]; Ov_state].

(** An answer that is cut off leaves its volume without bitmap for ever: the request waits to be sent again, but the number of waiting
    requests is not increased, so the worker is never woken; a new connection does not help either. *)
Theorem ovw_cut_off_strands (evs : list ovw_ev) :
  Forall (fun e => e = Ov_retry \/ exists b, e = Ov_worker b) evs ->
  ovw_run [ex_attach; Ov_worker true; Ov_header (ex_res 7 32); Ov_chunk [1]; Ov_state] init_nnovw_manager = Some ex_cut /\
  ovw_run evs ex_cut = Some ex_cut /\ ovw_req_state <$> ow_reqs ex_cut !! 96 = Some OVW_REQ_STATE_REQ_OVW_START /\
  ovw_reading <$> ow_vols ex_cut !! 7 = Some true.
Proof.
  intros H. split; [vm_compute; reflexivity|]. split; [|split; vm_compute; reflexivity].
  assert (forall e, (e = Ov_retry \/ exists b, e = Ov_worker b) -> ovw_step e ex_cut = Some ex_cut) as Hs.
  { intros e [->|[b ->]]; [vm_compute; reflexivity|]. destruct b; vm_compute; reflexivity. }
  induction H as [|e evs He _ IH]; [done|]. cbn [ovw_run]. rewrite (Hs e He). exact IH.
Qed.

Lemma ovw_cut_off_strands_witness :
  Forall (fun e => e = Ov_retry \/ exists b, e = Ov_worker b) [Ov_worker true; Ov_retry; Ov_worker false] /\
  ovw_run [Ov_worker true; Ov_retry; Ov_worker false] ex_cut = Some ex_cut.
Proof.
  assert (Forall (fun e => e = Ov_retry \/ exists b, e = Ov_worker b) [Ov_worker true; Ov_retry; Ov_worker false]) as H
    by (repeat constructor; eauto).
  split; [exact H|]. apply (ovw_cut_off_strands _ H).
Defined.
