(* ===== verification/PLReqIO.v ===== *)
(** * PLReqIO: the life of a payload request

    Translation of payload_manager/payload_request.c (features, buckets, timer, pool
    membership, timeouts), payload_manager/payload_Req_IODone.c (the callbacks of the
    datanode client) and the submission functions of payload_manager/payload_manager.c,
    with the two functions of discoDN_client/discoC_DNC_Manager.c that create a
    datanode request.

    A payload request reads or writes one metadata item on its datanodes.  A handler
    (submission, acknowledgement, timer) runs as one atomic step over the state
    [pl_world]: the request, the lists and the work queue it is linked into and the
    log of the calls it made to its caller and to the datanode client.  The
    competition of the handlers for the request is the subject of [PLReqFsm].

    The erasure-coding branches are a compile-time option that is off. *)

From S2P Require Import Prelude CommonUtil Fsm IOReqOvlp PLReqFsm MDataCommit.

(** ** Data *)

Definition INVAL_REQID : Z := 0.
Definition MIN_PLREQ_SCHED_TIME : Z := 2.
Definition PLREQ_READ_TO_CNT : Z := 5.

Inductive PLReq_fea_t : Type :=
| PLREQ_FEA_IN_REQPOOL
| PLREQ_FEA_TXRX_DATA
| PLREA_FEA_RW_DATA
| PLREQ_FEA_TIMER_ON
| PLREA_FEA_TIMER_SetCtrl.

Definition PLReq_fea_num (f : PLReq_fea_t) : Z :=
  match f with
  | PLREQ_FEA_IN_REQPOOL => 0
  | PLREQ_FEA_TXRX_DATA => 1
  | PLREA_FEA_RW_DATA => 2
  | PLREQ_FEA_TIMER_ON => 3
  | PLREA_FEA_TIMER_SetCtrl => 4
  end.

(** The request; the fields of its [plReq_comm] come first.  The items the
    metadata manager, the datanode client and the payload request share are one
    object, [mdata_item].  Left out are the priority and the caller's number (copied,
    never read here), the fingerprint pointers, the lock, the list entries (see
    [in_pool] and [in_caller] below) and the callbacks (see [pl_call]). *)
Record payload_req_t : Type := {
  ReqID : Z;
  ReqOPCode : iorw_dir_t;
  ReqFeature : Z;
  ReqRefCnt : Z;
  t_sendReq : Z;
  t_rcvReqAck : Z;
  mdata_item : metaD_item_t;
  payload_offset : Z;
  plReq_stat : PLReq_fsm_t;
  arr_DNUDReq : list Z;
  num_DNUDReq : Z;
  last_readReplica_idx : Z;
  last_readDNbk_idx : Z;
  num_readFail_DN : Z;
  t_ciCaller : Z;
  t_submit_PLReq : Z;
  t_callerWait_PLReq : Z;
  rTO_chk_cnt : Z;
  TO_wait_period : Z;
}.

Definition set_ReqFeature (x0 : Z) (r : payload_req_t) : payload_req_t :=
  {| ReqID := ReqID r; ReqOPCode := ReqOPCode r; ReqFeature := x0; ReqRefCnt := ReqRefCnt r; t_sendReq :=
     t_sendReq r; t_rcvReqAck := t_rcvReqAck r; mdata_item := mdata_item r; payload_offset :=
     payload_offset r; plReq_stat := plReq_stat r; arr_DNUDReq := arr_DNUDReq r; num_DNUDReq :=
     num_DNUDReq r; last_readReplica_idx := last_readReplica_idx r; last_readDNbk_idx :=
     last_readDNbk_idx r; num_readFail_DN := num_readFail_DN r; t_ciCaller := t_ciCaller r;
     t_submit_PLReq := t_submit_PLReq r; t_callerWait_PLReq := t_callerWait_PLReq r; rTO_chk_cnt :=
     rTO_chk_cnt r; TO_wait_period := TO_wait_period r |}.

Definition set_ReqRefCnt (x0 : Z) (r : payload_req_t) : payload_req_t :=
  {| ReqID := ReqID r; ReqOPCode := ReqOPCode r; ReqFeature := ReqFeature r; ReqRefCnt := x0; t_sendReq
     := t_sendReq r; t_rcvReqAck := t_rcvReqAck r; mdata_item := mdata_item r; payload_offset :=
     payload_offset r; plReq_stat := plReq_stat r; arr_DNUDReq := arr_DNUDReq r; num_DNUDReq :=
     num_DNUDReq r; last_readReplica_idx := last_readReplica_idx r; last_readDNbk_idx :=
     last_readDNbk_idx r; num_readFail_DN := num_readFail_DN r; t_ciCaller := t_ciCaller r;
     t_submit_PLReq := t_submit_PLReq r; t_callerWait_PLReq := t_callerWait_PLReq r; rTO_chk_cnt :=
     rTO_chk_cnt r; TO_wait_period := TO_wait_period r |}.

Definition set_times (x0 : Z) (x1 : Z) (r : payload_req_t) : payload_req_t :=
  {| ReqID := ReqID r; ReqOPCode := ReqOPCode r; ReqFeature := ReqFeature r; ReqRefCnt := ReqRefCnt r;
     t_sendReq := x0; t_rcvReqAck := x1; mdata_item := mdata_item r; payload_offset := payload_offset r;
     plReq_stat := plReq_stat r; arr_DNUDReq := arr_DNUDReq r; num_DNUDReq := num_DNUDReq r;
     last_readReplica_idx := last_readReplica_idx r; last_readDNbk_idx := last_readDNbk_idx r;
     num_readFail_DN := num_readFail_DN r; t_ciCaller := t_ciCaller r; t_submit_PLReq := t_submit_PLReq
     r; t_callerWait_PLReq := t_callerWait_PLReq r; rTO_chk_cnt := rTO_chk_cnt r; TO_wait_period :=
     TO_wait_period r |}.

Definition set_mdata (x0 : metaD_item_t) (r : payload_req_t) : payload_req_t :=
  {| ReqID := ReqID r; ReqOPCode := ReqOPCode r; ReqFeature := ReqFeature r; ReqRefCnt := ReqRefCnt r;
     t_sendReq := t_sendReq r; t_rcvReqAck := t_rcvReqAck r; mdata_item := x0; payload_offset :=
     payload_offset r; plReq_stat := plReq_stat r; arr_DNUDReq := arr_DNUDReq r; num_DNUDReq :=
     num_DNUDReq r; last_readReplica_idx := last_readReplica_idx r; last_readDNbk_idx :=
     last_readDNbk_idx r; num_readFail_DN := num_readFail_DN r; t_ciCaller := t_ciCaller r;
     t_submit_PLReq := t_submit_PLReq r; t_callerWait_PLReq := t_callerWait_PLReq r; rTO_chk_cnt :=
     rTO_chk_cnt r; TO_wait_period := TO_wait_period r |}.

Definition set_stat (x0 : PLReq_fsm_t) (r : payload_req_t) : payload_req_t :=
  {| ReqID := ReqID r; ReqOPCode := ReqOPCode r; ReqFeature := ReqFeature r; ReqRefCnt := ReqRefCnt r;
     t_sendReq := t_sendReq r; t_rcvReqAck := t_rcvReqAck r; mdata_item := mdata_item r; payload_offset
     := payload_offset r; plReq_stat := x0; arr_DNUDReq := arr_DNUDReq r; num_DNUDReq := num_DNUDReq r;
     last_readReplica_idx := last_readReplica_idx r; last_readDNbk_idx := last_readDNbk_idx r;
     num_readFail_DN := num_readFail_DN r; t_ciCaller := t_ciCaller r; t_submit_PLReq := t_submit_PLReq
     r; t_callerWait_PLReq := t_callerWait_PLReq r; rTO_chk_cnt := rTO_chk_cnt r; TO_wait_period :=
     TO_wait_period r |}.

Definition set_buckets (x0 : list Z) (x1 : Z) (r : payload_req_t) : payload_req_t :=
  {| ReqID := ReqID r; ReqOPCode := ReqOPCode r; ReqFeature := ReqFeature r; ReqRefCnt := ReqRefCnt r;
     t_sendReq := t_sendReq r; t_rcvReqAck := t_rcvReqAck r; mdata_item := mdata_item r; payload_offset
     := payload_offset r; plReq_stat := plReq_stat r; arr_DNUDReq := x0; num_DNUDReq := x1;
     last_readReplica_idx := last_readReplica_idx r; last_readDNbk_idx := last_readDNbk_idx r;
     num_readFail_DN := num_readFail_DN r; t_ciCaller := t_ciCaller r; t_submit_PLReq := t_submit_PLReq
     r; t_callerWait_PLReq := t_callerWait_PLReq r; rTO_chk_cnt := rTO_chk_cnt r; TO_wait_period :=
     TO_wait_period r |}.

Definition set_last_read (x0 : Z) (x1 : Z) (r : payload_req_t) : payload_req_t :=
  {| ReqID := ReqID r; ReqOPCode := ReqOPCode r; ReqFeature := ReqFeature r; ReqRefCnt := ReqRefCnt r;
     t_sendReq := t_sendReq r; t_rcvReqAck := t_rcvReqAck r; mdata_item := mdata_item r; payload_offset
     := payload_offset r; plReq_stat := plReq_stat r; arr_DNUDReq := arr_DNUDReq r; num_DNUDReq :=
     num_DNUDReq r; last_readReplica_idx := x0; last_readDNbk_idx := x1; num_readFail_DN :=
     num_readFail_DN r; t_ciCaller := t_ciCaller r; t_submit_PLReq := t_submit_PLReq r;
     t_callerWait_PLReq := t_callerWait_PLReq r; rTO_chk_cnt := rTO_chk_cnt r; TO_wait_period :=
     TO_wait_period r |}.

Definition set_num_readFail (x0 : Z) (r : payload_req_t) : payload_req_t :=
  {| ReqID := ReqID r; ReqOPCode := ReqOPCode r; ReqFeature := ReqFeature r; ReqRefCnt := ReqRefCnt r;
     t_sendReq := t_sendReq r; t_rcvReqAck := t_rcvReqAck r; mdata_item := mdata_item r; payload_offset
     := payload_offset r; plReq_stat := plReq_stat r; arr_DNUDReq := arr_DNUDReq r; num_DNUDReq :=
     num_DNUDReq r; last_readReplica_idx := last_readReplica_idx r; last_readDNbk_idx :=
     last_readDNbk_idx r; num_readFail_DN := x0; t_ciCaller := t_ciCaller r; t_submit_PLReq :=
     t_submit_PLReq r; t_callerWait_PLReq := t_callerWait_PLReq r; rTO_chk_cnt := rTO_chk_cnt r;
     TO_wait_period := TO_wait_period r |}.

Definition set_t_ciCaller (x0 : Z) (r : payload_req_t) : payload_req_t :=
  {| ReqID := ReqID r; ReqOPCode := ReqOPCode r; ReqFeature := ReqFeature r; ReqRefCnt := ReqRefCnt r;
     t_sendReq := t_sendReq r; t_rcvReqAck := t_rcvReqAck r; mdata_item := mdata_item r; payload_offset
     := payload_offset r; plReq_stat := plReq_stat r; arr_DNUDReq := arr_DNUDReq r; num_DNUDReq :=
     num_DNUDReq r; last_readReplica_idx := last_readReplica_idx r; last_readDNbk_idx :=
     last_readDNbk_idx r; num_readFail_DN := num_readFail_DN r; t_ciCaller := x0; t_submit_PLReq :=
     t_submit_PLReq r; t_callerWait_PLReq := t_callerWait_PLReq r; rTO_chk_cnt := rTO_chk_cnt r;
     TO_wait_period := TO_wait_period r |}.

Definition set_rTO_chk_cnt (x0 : Z) (r : payload_req_t) : payload_req_t :=
  {| ReqID := ReqID r; ReqOPCode := ReqOPCode r; ReqFeature := ReqFeature r; ReqRefCnt := ReqRefCnt r;
     t_sendReq := t_sendReq r; t_rcvReqAck := t_rcvReqAck r; mdata_item := mdata_item r; payload_offset
     := payload_offset r; plReq_stat := plReq_stat r; arr_DNUDReq := arr_DNUDReq r; num_DNUDReq :=
     num_DNUDReq r; last_readReplica_idx := last_readReplica_idx r; last_readDNbk_idx :=
     last_readDNbk_idx r; num_readFail_DN := num_readFail_DN r; t_ciCaller := t_ciCaller r;
     t_submit_PLReq := t_submit_PLReq r; t_callerWait_PLReq := t_callerWait_PLReq r; rTO_chk_cnt := x0;
     TO_wait_period := TO_wait_period r |}.

(** What a handler asks of others: the callbacks of [PLReq_func_t] and the entry
    points of the datanode client. *)
Inductive pl_call : Type :=
| CallAddCaller
| CallRmCaller
| CallCpData (payload_off : Z)
| CallCiUser (numLB : Z) (ioRes : bool)
| CallReportMDErr (lb_s numLB : Z)
| CallEndReq (lb_s lb_len : Z) (ioRes : bool) (numFailDN : Z)
| CallDNRead (dnLoc_idx bk_idx dnReqID : Z)
| CallDNWrite (dnLoc_idx bk_idx dnReqID : Z)
| CallCancelDN (dnReqID callerID : Z)
| CallTOInfo (dnReqID callerID : Z).

#[global] Instance pl_call_eq_dec : EqDecision pl_call.
Proof. solve_decision. Defined.

(** How the creation of a datanode request goes: no memory, refused parameters, fine. *)
Inductive dn_create_t : Type := DNC_OK | DNC_NoMem | DNC_InitFail.

(** The settings of [dms_client_config] the payload manager reads. *)
Record pl_config : Type := {
  ioreq_timeout : Z;
  high_resp_write_io : bool;
  time_wait_other_replica : Z;
  CommitUser_min_DiskAck : Z;
  selftest_mode : bool;
}.

(** [in_pool], [in_caller]: the request is linked in the pool of the payload manager
    and in the pool of its caller; [work_queued], [work_running]: its delayed work is
    in the work queue, is being executed; [dn_create]: how the next creations of
    datanode requests go ([DNC_OK] when exhausted). *)
Record pl_world : Type := {
  w_req : payload_req_t;
  jiffies_64 : Z;
  DNUDReqID_counter : Z;
  dn_create : list dn_create_t;
  in_pool : bool;
  in_caller : bool;
  work_queued : bool;
  work_running : bool;
  freed : bool;
  calls : list pl_call;
}.

Definition set_w_req (x0 : payload_req_t) (w : pl_world) : pl_world :=
  {| w_req := x0; jiffies_64 := jiffies_64 w; DNUDReqID_counter := DNUDReqID_counter w; dn_create :=
     dn_create w; in_pool := in_pool w; in_caller := in_caller w; work_queued := work_queued w;
     work_running := work_running w; freed := freed w; calls := calls w |}.

Definition set_dnc (x0 : Z) (x1 : list dn_create_t) (w : pl_world) : pl_world :=
  {| w_req := w_req w; jiffies_64 := jiffies_64 w; DNUDReqID_counter := x0; dn_create := x1; in_pool :=
     in_pool w; in_caller := in_caller w; work_queued := work_queued w; work_running := work_running w;
     freed := freed w; calls := calls w |}.

Definition set_in_pool (x0 : bool) (w : pl_world) : pl_world :=
  {| w_req := w_req w; jiffies_64 := jiffies_64 w; DNUDReqID_counter := DNUDReqID_counter w; dn_create :=
     dn_create w; in_pool := x0; in_caller := in_caller w; work_queued := work_queued w; work_running :=
     work_running w; freed := freed w; calls := calls w |}.

Definition set_in_caller (x0 : bool) (w : pl_world) : pl_world :=
  {| w_req := w_req w; jiffies_64 := jiffies_64 w; DNUDReqID_counter := DNUDReqID_counter w; dn_create :=
     dn_create w; in_pool := in_pool w; in_caller := x0; work_queued := work_queued w; work_running :=
     work_running w; freed := freed w; calls := calls w |}.

Definition set_work (x0 : bool) (x1 : bool) (w : pl_world) : pl_world :=
  {| w_req := w_req w; jiffies_64 := jiffies_64 w; DNUDReqID_counter := DNUDReqID_counter w; dn_create :=
     dn_create w; in_pool := in_pool w; in_caller := in_caller w; work_queued := x0; work_running := x1;
     freed := freed w; calls := calls w |}.

Definition set_freed (x0 : bool) (w : pl_world) : pl_world :=
  {| w_req := w_req w; jiffies_64 := jiffies_64 w; DNUDReqID_counter := DNUDReqID_counter w; dn_create :=
     dn_create w; in_pool := in_pool w; in_caller := in_caller w; work_queued := work_queued w;
     work_running := work_running w; freed := x0; calls := calls w |}.

Definition set_calls (x0 : list pl_call) (w : pl_world) : pl_world :=
  {| w_req := w_req w; jiffies_64 := jiffies_64 w; DNUDReqID_counter := DNUDReqID_counter w; dn_create :=
     dn_create w; in_pool := in_pool w; in_caller := in_caller w; work_queued := work_queued w;
     work_running := work_running w; freed := freed w; calls := x0 |}.

Definition set_jiffies_64 (x0 : Z) (w : pl_world) : pl_world :=
  {| w_req := w_req w; jiffies_64 := x0; DNUDReqID_counter := DNUDReqID_counter w; dn_create := dn_create
     w; in_pool := in_pool w; in_caller := in_caller w; work_queued := work_queued w; work_running :=
     work_running w; freed := freed w; calls := calls w |}.

Abbreviation pl := (thread pl_world).

Definition get_req {A} (f : payload_req_t -> A) : pl A := gets (fun w => f (w_req w)).
Definition upd_req (f : payload_req_t -> payload_req_t) : pl unit := modify (fun w => set_w_req (f (w_req w)) w).
Definition call (c : pl_call) : pl unit := modify (fun w => set_calls (calls w ++ [c]) w).

(** ** Features *)

Definition set_PLReq_fea (fea : PLReq_fea_t) : pl unit :=
  upd_req (fun r => set_ReqFeature (Z.setbit (ReqFeature r) (PLReq_fea_num fea)) r).

Definition clear_PLReq_fea (fea : PLReq_fea_t) : pl unit :=
  upd_req (fun r => set_ReqFeature (Z.clearbit (ReqFeature r) (PLReq_fea_num fea)) r).

Definition check_PLReq_fea (fea : PLReq_fea_t) : pl bool :=
  get_req (fun r => Z.testbit (ReqFeature r) (PLReq_fea_num fea)).

Definition test_and_set_PLReq_fea (fea : PLReq_fea_t) : pl bool :=
  old ← check_PLReq_fea fea; set_PLReq_fea fea;; mret old.

Definition test_and_clear_PLReq_fea (fea : PLReq_fea_t) : pl bool :=
  old ← check_PLReq_fea fea; clear_PLReq_fea fea;; mret old.

Definition PLReqFea_send_payload : pl bool := check_PLReq_fea PLREQ_FEA_TXRX_DATA.
Definition PLReqFea_rw_payload : pl bool := check_PLReq_fea PLREA_FEA_RW_DATA.

Definition PLReq_ref_Req : pl unit := upd_req (fun r => set_ReqRefCnt (ReqRefCnt r + 1) r).
Definition PLReq_deref_Req : pl unit := upd_req (fun r => set_ReqRefCnt (ReqRefCnt r - 1) r).

(** The transition of the request's state machine. *)
Definition update_state (e : PLREQ_FSM_TREvent_t) : pl PLREQ_FSM_action_t := fun w =>
  let '(st, a) := PLReq_update_state (plReq_stat (w_req w)) e in
  Returns (set_w_req (set_stat st (w_req w)) w) a.

(** ** Buckets of datanode requests *)

Definition PLReq_allocBK_DNUDReq : pl Z :=
  upd_req (fun r => set_buckets (arr_DNUDReq r) (num_DNUDReq r + 1) r);;
  n ← get_req num_DNUDReq;
  let bkIdx := n - 1 in
  mret (if bkIdx >=? MAX_NUM_REPLICA then -1 else bkIdx).

(** An index that is not one of the array writes outside of it. *)
Definition set_bucket (bk_idx id : Z) : pl unit :=
  arr ← get_req arr_DNUDReq;
  if (0 <=? bk_idx) && (bk_idx <? Z.of_nat (length arr))
  then upd_req (fun r => set_buckets (<[Z.to_nat bk_idx := id]> (arr_DNUDReq r)) (num_DNUDReq r) r)
  else faults.

Definition PLReq_rm_DNUDReq (bk_idx : Z) : pl unit :=
  set_bucket bk_idx INVAL_REQID;;
  upd_req (fun r => set_buckets (arr_DNUDReq r) (num_DNUDReq r - 1) r).

(** One turn of the cancelling loops. *)
Definition cancel_bucket (bk_skip : Z) (i : nat) : pl unit :=
  if Z.of_nat i =? bk_skip then mret tt
  else
    myReqID ← get_req (fun r => default INVAL_REQID (arr_DNUDReq r !! i));
    if myReqID =? INVAL_REQID then mret tt
    else
      set_bucket (Z.of_nat i) INVAL_REQID;;
      upd_req (fun r => set_buckets (arr_DNUDReq r) (num_DNUDReq r - 1) r);;
      id ← get_req ReqID;
      call (CallCancelDN myReqID id).

Definition replica_indices : list nat := seq 0 (Z.to_nat MAX_NUM_REPLICA).

Definition PLReq_cancel_DNUDReq (bk_skip : Z) : pl unit :=
  n ← get_req num_DNUDReq;
  if (if bk_skip =? -1 then n =? 0 else n =? 1) then mret tt
  else for_each replica_indices (cancel_bucket bk_skip).

Definition _PLReq_free_allDNReq : pl unit :=
  n ← get_req num_DNUDReq;
  if n =? 0 then mret tt
  else for_each replica_indices (cancel_bucket (-1)).

Definition _PLReqTO_DNNoRes_updateFC : pl unit :=
  n ← get_req num_DNUDReq;
  if n =? 0 then mret tt
  else for_each replica_indices (fun i =>
    myReqID ← get_req (fun r => default INVAL_REQID (arr_DNUDReq r !! i));
    if myReqID =? INVAL_REQID then mret tt
    else id ← get_req ReqID; call (CallTOInfo myReqID id)).

(** ** Freeing *)

(** The wait for the reference count: the handler runs alone, so a reference that
    is held is its own and the wait does not end. *)
Definition PLReq_free_Req : pl unit :=
  n ← get_req ReqRefCnt;
  if n =? 0 then modify (set_freed true) else blocks.

Definition PLMgr_free_PLReq : pl unit := _PLReq_free_allDNReq;; PLReq_free_Req.

(** ** Timer *)

(** Whoever holds the control bit is the handler itself. *)
Definition _gain_PLReq_timer_ctrl : pl unit :=
  busy ← test_and_set_PLReq_fea PLREA_FEA_TIMER_SetCtrl;
  if busy : bool then blocks else mret tt.

Definition _rel_PLReq_timer_ctrl : pl unit := clear_PLReq_fea PLREA_FEA_TIMER_SetCtrl.

Definition PLReq_schedule_timer : pl Z :=
  t_dur ← get_req TO_wait_period;
  if u64 t_dur <? MIN_PLREQ_SCHED_TIME then mret (- ETIME)
  else
    _gain_PLReq_timer_ctrl;;
    on ← test_and_set_PLReq_fea PLREQ_FEA_TIMER_ON;
    ret ← (if on : bool then mret (- EBUSY)
           else modify (fun w => set_work true (work_running w) w);; mret 0);
    _rel_PLReq_timer_ctrl;;
    mret ret.

(** [cancel_delayed_work_sync] waits for the work to finish when it is running; the
    work that cancels itself never finishes. *)
Definition PLReq_cancel_timer : pl unit :=
  _gain_PLReq_timer_ctrl;;
  on ← test_and_clear_PLReq_fea PLREQ_FEA_TIMER_ON;
  (if on : bool then
     running ← gets work_running;
     if running : bool then blocks
     else modify (fun w => set_work false (work_running w) w)
   else mret tt);;
  _rel_PLReq_timer_ctrl.

(** ** Pools *)

Definition PLReq_add_ReqPool : pl Z :=
  was ← test_and_set_PLReq_fea PLREQ_FEA_IN_REQPOOL;
  if was : bool then mret (- EEXIST) else modify (set_in_pool true);; mret 0.

Definition PLReq_rm_ReqPool : pl unit :=
  was ← test_and_clear_PLReq_fea PLREQ_FEA_IN_REQPOOL;
  if was : bool then modify (set_in_pool false) else mret tt.

Definition add_PLReq_CallerReq : pl unit := modify (set_in_caller true);; call CallAddCaller.
Definition rm_PLReq_CallerReq : pl unit := modify (set_in_caller false);; call CallRmCaller.

(** ** Initialisation *)

Definition _set_PLReq_TOValue (jiffies t_callerWait : Z) : Z * Z * Z * Z :=
  let period := Z.quot t_callerWait PLREQ_READ_TO_CNT in
  (t_callerWait, jiffies, PLREQ_READ_TO_CNT, if period =? 0 then MIN_PLREQ_SCHED_TIME else period).

(** A new request [id] with nothing linked; the code zeroes it first. *)
Definition PLReq_init_Req (id : Z) (md : metaD_item_t) (rw_opcode : iorw_dir_t) (payload_off : Z)
    (send_data rw_data : bool) (t_callerWait jiffies : Z) : payload_req_t :=
  let '(wait, submit, cnt, period) := _set_PLReq_TOValue jiffies t_callerWait in
  let fea := 0 in
  let fea := if send_data then Z.setbit fea (PLReq_fea_num PLREQ_FEA_TXRX_DATA) else fea in
  let fea := if rw_data then Z.setbit fea (PLReq_fea_num PLREA_FEA_RW_DATA) else fea in
  {| ReqID := id; ReqOPCode := rw_opcode; ReqFeature := fea; ReqRefCnt := 0;
     t_sendReq := 0; t_rcvReqAck := 0; mdata_item := md; payload_offset := payload_off;
     plReq_stat := PLReq_init_fsm;
     arr_DNUDReq := replicate (Z.to_nat MAX_NUM_REPLICA) INVAL_REQID; num_DNUDReq := 0;
     last_readReplica_idx := 0; last_readDNbk_idx := 0; num_readFail_DN := 0; t_ciCaller := 0;
     t_submit_PLReq := submit; t_callerWait_PLReq := wait; rTO_chk_cnt := cnt; TO_wait_period := period |}.

(** ** The datanode client: creating a request *)

(** A generated ID: the counter skips [INVAL_REQID]. *)
Definition next_ReqID (counter : Z) : Z :=
  if u32 (counter + 1) =? INVAL_REQID then u32 (counter + 2) else u32 (counter + 1).

Definition DNClientMgr_gen_DNUDReqID : pl Z :=
  modify (fun w => set_dnc (next_ReqID (DNUDReqID_counter w)) (dn_create w) w);;
  gets DNUDReqID_counter.

Definition next_create : pl dn_create_t :=
  c ← gets (fun w => default DNC_OK (head (dn_create w)));
  modify (fun w => set_dnc (DNUDReqID_counter w) (tail (dn_create w)) w);;
  mret c.

(** Both submissions store the ID of the new request in the bucket of the caller
    before the request is queued. *)
Definition submit_DNUData_Request (mk : Z -> Z -> Z -> pl_call) (replic_idx bk_idx : Z) : pl Z :=
  c ← next_create;
  match c with
  | DNC_NoMem => mret (- ENOMEM)
  | DNC_InitFail => DNClientMgr_gen_DNUDReqID;; mret (- EPERM)
  | DNC_OK =>
      id ← DNClientMgr_gen_DNUDReqID;
      set_bucket bk_idx id;;
      call (mk replic_idx bk_idx id);;
      mret 0
  end.

Definition submit_DNUData_Read_Request : Z -> Z -> pl Z := submit_DNUData_Request CallDNRead.
Definition submit_DNUData_Write_Request : Z -> Z -> pl Z := submit_DNUData_Request CallDNWrite.

(** ** Sending an action number as an event *)

Definition PLREQ_FSM_TREvent_t_of_num (n : nat) : option PLREQ_FSM_TREvent_t :=
  match n with
  | 0 => Some PLREQ_E_InitDone
  | 1 => Some PLREQ_E_CICaller
  | 2 => Some PLREQ_E_TOFireChk
  | 3 => Some PLREQ_E_TOFireChkDone
  | _ => None
  end%nat.

(** C converts between the two enumerations through their numbers; a number that is
    no event is refused by every state. *)
Definition update_state_num (n : nat) : pl PLREQ_FSM_action_t :=
  match PLREQ_FSM_TREvent_t_of_num n with
  | Some e => update_state e
  | None => mret PLREQ_A_NoAction
  end.

Definition is_CICaller (a : PLREQ_FSM_action_t) : bool := bool_decide (a = PLREQ_A_DO_CICaller).

Section handlers.
Context (cfg : pl_config).

(** The kernel's conversion of a duration. *)
Context (jiffies_to_msecs : Z -> Z).

Definition upd_md (f : metaD_item_t -> metaD_item_t) : pl unit :=
  upd_req (fun r => set_mdata (f (mdata_item r)) r).

(** [MData_update_DNUDataStat] on the replica [i] of the item; the code has no check,
    an index that is not a replica of the item counts as a fault. *)
Definition update_DNUDataStat (i : Z) (s : UData_state_t) : pl unit :=
  md ← get_req mdata_item;
  match MData_update_DNUDataStat md (Z.to_nat i) s with
  | Some md' => if 0 <=? i then upd_md (fun _ => md') else faults
  | None => faults
  end.

(** ** Submitting reads *)

Definition first_init (md : metaD_item_t) (idxs : list nat) : option nat :=
  head (filter (fun i => udata_dnLoc md !! i = Some UData_S_INIT) idxs).

Definition get_next_DN_index (md : metaD_item_t) (start_index : Z) : Z :=
  if selftest_mode cfg then 0
  else
    let start := Z.to_nat start_index in
    match first_init md (seq start (Z.to_nat (num_dnLoc md) - start)) with
    | Some i => Z.of_nat i
    | None =>
        match first_init md (seq 0 start) with
        | Some i => Z.of_nat i
        | None => - ENXIO
        end
    end.

Definition _gen_submit_DNReadReq (dnLoc_idx bk_idx : Z) : pl Z :=
  md ← get_req mdata_item;
  let dnLoc_idx := get_next_DN_index md dnLoc_idx in
  if (dnLoc_idx >=? num_dnLoc md) || (dnLoc_idx <? 0) then mret (- EINVAL)
  else if (bk_idx >=? num_dnLoc md) || (bk_idx <? 0) then mret (- EINVAL)
  else
    upd_req (set_last_read dnLoc_idx bk_idx);;
    submit_DNUData_Read_Request dnLoc_idx bk_idx.

Definition PLMgr_submit_DNUDReadReq (replica_idx : Z) : pl Z :=
  bk_idx ← PLReq_allocBK_DNUDReq;
  _gen_submit_DNReadReq replica_idx bk_idx.

(** The part of [_submit_read_PLReq] after the allocation; [replica_idx] is the
    choice of [PLMgr_Read_selectDN]. *)
Definition _submit_read_PLReq (replica_idx : Z) : pl unit :=
  PLReq_ref_Req;;
  PLReq_add_ReqPool;;
  add_PLReq_CallerReq;;
  action ← update_state PLREQ_E_InitDone;
  (if bool_decide (action = PLREQ_A_RWData) then
     PLReq_schedule_timer;;
     PLMgr_submit_DNUDReadReq replica_idx;;
     mret tt
   else mret tt);;
  PLReq_deref_Req.

(** ** Submitting writes *)

(** The loop over the replicas from [i] on, [n] of them left; [ret] is the result of
    the last submission. *)
Fixpoint gen_write_loop (n : nat) (i ret : Z) : pl Z :=
  match n with
  | O => mret ret
  | S n =>
      bk_idx ← PLReq_allocBK_DNUDReq;
      if bk_idx >? i then mret (- EFAULT)
      else
        upd_req (set_last_read i bk_idx);;
        ret ← submit_DNUData_Write_Request i bk_idx;
        gen_write_loop n (i + 1) ret
  end.

Definition _gen_submit_DNWriteReq : pl Z :=
  md ← get_req mdata_item;
  gen_write_loop (Z.to_nat (num_dnLoc md)) 0 0.

Definition _submit_write_PLReq : pl unit :=
  PLReq_ref_Req;;
  PLReq_add_ReqPool;;
  add_PLReq_CallerReq;;
  action ← update_state PLREQ_E_InitDone;
  (if bool_decide (action = PLREQ_A_RWData) then
     PLReq_schedule_timer;;
     _gen_submit_DNWriteReq;;
     mret tt
   else mret tt);;
  PLReq_deref_Req.

(** ** Acknowledgements of reads *)

(** Ending the request towards the caller. *)
Definition PLReq_endReq (ioRes : bool) (numFailDN : Z) : pl unit :=
  md ← get_req mdata_item;
  call (CallEndReq (lbid_s md) (num_hbids md) ioRes numFailDN).

Definition _PLReq_read_ciCaller (ioResult : bool) : pl unit :=
  PLReq_rm_ReqPool;;
  rm_PLReq_CallerReq;;
  n ← get_req num_readFail_DN;
  PLReq_endReq ioResult n.

Definition _PLReq_read_nextDN (dnLoc_idx bk_idx : Z) : pl bool :=
  ret ← PLMgr_submit_DNUDReadReq dnLoc_idx;
  if ret <? 0 then mret false
  else
    md ← get_req mdata_item;
    let '(keep_wait, ciUser_ret) := MData_check_ciUserStatus md in
    if keep_wait : bool then mret false
    else
      action ← update_state PLREQ_E_CICaller;
      if is_CICaller action then
        PLReq_cancel_timer;;
        PLReq_cancel_DNUDReq bk_idx;;
        _PLReq_read_ciCaller ciUser_ret;;
        mret true
      else mret false.

Definition _PLReq_1st_hbidErr (bk_idx : Z) : pl bool :=
  action ← update_state PLREQ_E_CICaller;
  if is_CICaller action then
    PLReq_cancel_timer;;
    PLReq_cancel_DNUDReq bk_idx;;
    md ← get_req mdata_item;
    call (CallReportMDErr (lbid_s md) (num_hbids md));;
    mret true
  else mret false.

(** [case UData_S_READ_OK] of both handlers. *)
Definition read_ok (bk_idx : Z) : pl bool :=
  PLReq_rm_DNUDReq bk_idx;;
  action ← update_state PLREQ_E_CICaller;
  if is_CICaller action then
    upd_md MData_set_ciUser;;
    PLReq_cancel_timer;;
    off ← get_req payload_offset;
    call (CallCpData off);;
    PLReq_cancel_DNUDReq bk_idx;;
    _PLReq_read_ciCaller true;;
    mret true
  else mret false.

Definition inc_num_readFail : pl unit := upd_req (fun r => set_num_readFail (num_readFail_DN r + 1) r).

(** [if (do_free) PLMgr_free_PLReq] after the reference is given back. *)
Definition deref_and_free (do_free : bool) : pl unit :=
  PLReq_deref_Req;;
  if do_free then PLMgr_free_PLReq else mret tt.

Definition _PLReq_readDN_NonTrueMD (result : UData_state_t) (bk_idx dnLoc_idx : Z) : pl unit :=
  md ← get_req mdata_item;
  do_free ←
    match result with
    | UData_S_READ_OK => read_ok bk_idx
    | UData_S_READ_NA =>
        if num_replica md >? 1 then PLMgr_submit_DNUDReadReq dnLoc_idx;; mret false
        else PLReq_rm_DNUDReq bk_idx;; _PLReq_1st_hbidErr bk_idx
    | UData_S_MD_ERR => PLReq_rm_DNUDReq bk_idx;; _PLReq_1st_hbidErr bk_idx
    | UData_S_DISK_FAILURE =>
        PLReq_rm_DNUDReq bk_idx;;
        inc_num_readFail;;
        if num_replica md >? 1 then _PLReq_read_nextDN dnLoc_idx bk_idx
        else _PLReq_1st_hbidErr bk_idx
    | _ => mret false
    end;
  deref_and_free do_free.

Definition _PLReq_readDN_TrueMD_REP (result : UData_state_t) (bk_idx dnLoc_idx : Z) : pl unit :=
  do_free ←
    match result with
    | UData_S_READ_OK => read_ok bk_idx
    | UData_S_READ_NA => PLMgr_submit_DNUDReadReq dnLoc_idx;; mret false
    | UData_S_MD_ERR => PLReq_rm_DNUDReq bk_idx;; _PLReq_read_nextDN dnLoc_idx bk_idx
    | UData_S_DISK_FAILURE =>
        PLReq_rm_DNUDReq bk_idx;; inc_num_readFail;; _PLReq_read_nextDN dnLoc_idx bk_idx
    | _ => mret false
    end;
  deref_and_free do_free.

(** The times of the datanode request are copied without a lock. *)
Definition copy_times (t_send t_ack : Z) : pl unit :=
  upd_req (fun r => set_times (if t_sendReq r =? 0 then t_send else t_sendReq r) t_ack r).

(** An erasure-coded item leaves the function with its reference still held. *)
Definition PLReq_readDN_endfn (result : UData_state_t) (t_send t_ack bk_idx dnLoc_idx : Z) : pl unit :=
  PLReq_ref_Req;;
  copy_times t_send t_ack;;
  update_DNUDataStat dnLoc_idx result;;
  md ← get_req mdata_item;
  if negb (MData_chk_TrueMD md) then _PLReq_readDN_NonTrueMD result bk_idx dnLoc_idx
  else if negb (MData_chk_ERCProt md) then _PLReq_readDN_TrueMD_REP result bk_idx dnLoc_idx
  else mret tt.

(** ** Acknowledgements of writes *)

Definition ciUser_CallerReq (ret : bool) : pl unit :=
  modify (fun w => set_w_req (set_t_ciCaller (jiffies_64 w) (w_req w)) w);;
  md ← get_req mdata_item;
  call (CallCiUser (num_hbids md) ret).

Definition PLReq_writeDN_endfn (result : UData_state_t) (t_send t_ack bk_idx dnLoc_idx : Z) : pl unit :=
  PLReq_ref_Req;;
  copy_times t_send t_ack;;
  update_DNUDataStat dnLoc_idx result;;
  (if bool_decide (result = UData_S_WRITE_OK \/ result = UData_S_DISK_FAILURE)
   then PLReq_rm_DNUDReq bk_idx else mret tt);;
  md ← get_req mdata_item;
  let '(md, r) := MData_writeAck_commitResult md result (CommitUser_min_DiskAck cfg) in
  upd_md (fun _ => md);;
  (if ciUser r then ciUser_CallerReq (ciUser_ret r) else mret tt);;
  do_free ←
    (if ciMDS r then
       action ← update_state PLREQ_E_CICaller;
       if is_CICaller action then
         PLReq_cancel_timer;;
         PLReq_rm_ReqPool;;
         PLReq_cancel_DNUDReq bk_idx;;
         rm_PLReq_CallerReq;;
         PLReq_endReq true 0;;
         mret true
       else mret false
     else mret false);
  deref_and_free do_free.

(** ** The timer *)

Definition _rPLReq_TO_try_replica : pl unit :=
  r ← get_req id;
  PLReq_readDN_endfn UData_S_READ_NA (t_sendReq r) (t_rcvReqAck r) (last_readDNbk_idx r) (last_readReplica_idx r).

Definition _rPLReq_TO_timeup : pl bool :=
  action ← update_state_num (PLREQ_FSM_action_t_num PLREQ_A_DO_CICaller);
  if is_CICaller action then
    _PLReqTO_DNNoRes_updateFC;;
    clear_PLReq_fea PLREQ_FEA_TIMER_ON;;
    PLReq_cancel_DNUDReq (-1);;
    PLReq_rm_ReqPool;;
    rm_PLReq_CallerReq;;
    n ← get_req num_readFail_DN;
    PLReq_endReq false n;;
    mret true
  else mret false.

Definition _readPLReq_TO_handle : pl bool :=
  cnt ← get_req rTO_chk_cnt;
  if cnt >? 0 then
    _rPLReq_TO_try_replica;;
    update_state PLREQ_E_TOFireChkDone;;
    mret false
  else _rPLReq_TO_timeup.

Definition _wPLReq_chk_wait_otherReplica (w : pl_world) : bool :=
  let t := t_ciCaller (w_req w) in
  if time_after64 t (jiffies_64 w) then true
  else negb (jiffies_to_msecs (u64 (jiffies_64 w - t)) >=? time_wait_other_replica cfg).

Definition _chk_wPLReq_wait (w : pl_world) : bool :=
  if rTO_chk_cnt (w_req w) <=? 0 then false
  else if negb (MData_chk_ciUser (mdata_item (w_req w))) then true
  else if high_resp_write_io cfg then _wPLReq_chk_wait_otherReplica w
  else true.

Definition _writePLReq_TO_handle : pl bool :=
  wait ← gets _chk_wPLReq_wait;
  if wait : bool then update_state PLREQ_E_TOFireChkDone;; mret false
  else
    md ← get_req mdata_item;
    let '(md, r) := MData_timeout_commitResult md in
    upd_md (fun _ => md);;
    (if ciUser r then ciUser_CallerReq (ciUser_ret r) else mret tt);;
    action ← update_state_num (PLREQ_FSM_action_t_num PLREQ_A_DO_CICaller);
    if negb (is_CICaller action) then mret false
    else if ciMDS r then
      _PLReqTO_DNNoRes_updateFC;;
      clear_PLReq_fea PLREQ_FEA_TIMER_ON;;
      PLReq_rm_ReqPool;;
      PLReq_cancel_DNUDReq (-1);;
      rm_PLReq_CallerReq;;
      PLReq_endReq false 0;;
      mret true
    else mret false.

Definition PLReq_TO_handler_gut : pl unit :=
  PLReq_ref_Req;;
  upd_req (fun r => set_rTO_chk_cnt (rTO_chk_cnt r - 1) r);;
  action ← update_state PLREQ_E_TOFireChk;
  do_free ←
    (if bool_decide (action <> PLREQ_A_DO_TOFireChk) then mret false
     else
       op ← get_req ReqOPCode;
       match op with
       | KERNEL_IO_READ => _readPLReq_TO_handle
       | KERNEL_IO_WRITE => _writePLReq_TO_handle
       end);
  deref_and_free do_free.

(** The work queue executes the delayed work. *)
Definition run_timer_work : pl unit :=
  modify (set_work false true);;
  PLReq_TO_handler_gut;;
  modify (fun w => set_work (work_queued w) false w).

(** ** Runs *)

(** What happens to a submitted request, and at which time: an acknowledgement of
    replica [dnLoc_idx] kept in bucket [bk_idx], or the timer. *)
Inductive pl_event : Type :=
| EvReadAck (now : Z) (s : UData_state_t) (bk_idx dnLoc_idx : Z)
| EvWriteAck (now : Z) (s : UData_state_t) (bk_idx dnLoc_idx : Z)
| EvTimer (now : Z).

(** The events of the code's environment: nothing runs on a freed request and the
    work queue only executes queued work. *)
Definition pl_handle (e : pl_event) : pl unit :=
  dead ← gets freed;
  if dead : bool then mret tt
  else
    match e with
    | EvReadAck now s bk dn => modify (set_jiffies_64 now);; PLReq_readDN_endfn s now now bk dn
    | EvWriteAck now s bk dn => modify (set_jiffies_64 now);; PLReq_writeDN_endfn s now now bk dn
    | EvTimer now =>
        modify (set_jiffies_64 now);;
        queued ← gets work_queued;
        if queued : bool then run_timer_work else mret tt
    end.

Definition pl_run (es : list pl_event) : pl unit := for_each es pl_handle.

(** The state in which a request is submitted. *)
Definition pl_start (r : payload_req_t) (now counter : Z) (cr : list dn_create_t) : pl_world :=
  {| w_req := r; jiffies_64 := now; DNUDReqID_counter := counter; dn_create := cr;
     in_pool := false; in_caller := false; work_queued := false; work_running := false;
     freed := false; calls := [] |}.

End handlers.
