(* ===== verification/PLReqLife.v ===== *)
(** * PLReqLife: theorems about the life of a payload request

    The handlers of [PLReqIO] are analysed with a small weakest-precondition
    calculus over what an observer sees: how often the caller was told the outcome,
    the state machine, whether the request was freed. *)

From S2P Require Import Prelude CommonUtil Fsm IOReqOvlp PLReqFsm MDataCommit PLReqIO.

Arguments Z.testbit : simpl never.
Arguments Z.setbit : simpl never.
Arguments Z.clearbit : simpl never.

(** ** Weakest preconditions of handlers that return *)

Definition wp {S A} (m : thread S A) (Q : A -> S -> Prop) (w : S) : Prop :=
  match m w with Returns w' a => Q a w' | Blocks | Faults => True end.

Lemma wp_bind {S A B} (m : thread S A) (k : A -> thread S B) Q w :
  wp m (fun a => wp (k a) Q) w -> wp (m ≫= k) Q w.
Proof. unfold wp, mbind, thread_bind. by destruct (m w). Qed.

Lemma wp_mono {S A} (m : thread S A) (P Q : A -> S -> Prop) w :
  wp m P w -> (forall a w', P a w' -> Q a w') -> wp m Q w.
Proof. unfold wp. destruct (m w); auto. Qed.

Lemma wp_ret {S A} (a : A) Q (w : S) : Q a w -> wp (mret a) Q w.
Proof. done. Qed.

Lemma wp_gets {S A} (f : S -> A) Q w : Q (f w) w -> wp (gets f) Q w.
Proof. done. Qed.

Lemma wp_modify {S} (f : S -> S) Q w : Q tt (f w) -> wp (modify f) Q w.
Proof. done. Qed.

(** ** What is observed *)

Definition is_settle (c : pl_call) : bool :=
  match c with CallEndReq _ _ _ _ | CallReportMDErr _ _ => true | _ => false end.

Definition is_tell (c : pl_call) : bool := match c with CallCiUser _ _ => true | _ => false end.

Definition count_calls (p : pl_call -> bool) (l : list pl_call) : nat := length (filter (fun c => p c = true) l).

(** How often the caller was given the outcome, how often the user. *)
Definition settles (w : pl_world) : nat := count_calls is_settle (calls w).
Definition tells (w : pl_world) : nat := count_calls is_tell (calls w).

Definition told_flag (w : pl_world) : bool := MData_chk_ciUser (mdata_item (w_req w)).
Definition committed (w : pl_world) : bool := pl_committed (plReq_stat (w_req w)).

Definition obs (w : pl_world) : nat * nat * metaD_item_t * iorw_dir_t * PLReq_fsm_t * bool :=
  (settles w, tells w, mdata_item (w_req w), ReqOPCode (w_req w), plReq_stat (w_req w), freed w).

Lemma count_calls_snoc p l c : count_calls p (l ++ [c]) = (count_calls p l + if p c then 1 else 0)%nat.
Proof.
  unfold count_calls. rewrite filter_app, length_app. f_equal. simpl.
  unfold filter, list_filter. case_decide; destruct (p c); done.
Qed.

(** An operation nobody observes. *)
Definition quiet {A} (m : pl A) : Prop := forall w, wp m (fun _ w' => obs w' = obs w) w.

Lemma quiet_bind {A B} (m : pl A) (k : A -> pl B) : quiet m -> (forall a, quiet (k a)) -> quiet (m ≫= k).
Proof.
  intros Hm Hk w. apply wp_bind. eapply wp_mono; [apply Hm|]. simpl. intros a w' E.
  eapply wp_mono; [apply Hk|]. simpl. congruence.
Qed.

Lemma quiet_ret {A} (a : A) : quiet (mret a).
Proof. by intros w. Qed.

Lemma quiet_gets {A} (f : pl_world -> A) : quiet (gets f).
Proof. by intros w. Qed.

Lemma quiet_get_req {A} (f : payload_req_t -> A) : quiet (get_req f).
Proof. by intros w. Qed.

Lemma quiet_blocks {A} : quiet (@blocks pl_world A).
Proof. by intros w. Qed.

Lemma quiet_faults {A} : quiet (@faults pl_world A).
Proof. by intros w. Qed.

Lemma quiet_modify f : (forall w, obs (f w) = obs w) -> quiet (modify f).
Proof. intros H w. apply H. Qed.

Lemma quiet_upd f :
  (forall r, plReq_stat (f r) = plReq_stat r /\ mdata_item (f r) = mdata_item r /\ ReqOPCode (f r) = ReqOPCode r) ->
  quiet (upd_req f).
Proof.
  intros H w. unfold upd_req, wp. simpl. unfold obs, settles, tells. simpl.
  destruct (H (w_req w)) as (-> & -> & ->). done.
Qed.

Lemma quiet_call c : is_settle c = false -> is_tell c = false -> quiet (call c).
Proof.
  intros H1 H2 w. unfold call, wp. simpl. unfold obs, settles, tells. simpl.
  rewrite !count_calls_snoc, H1, H2, !Nat.add_0_r. done.
Qed.

Lemma quiet_for_each {A} (l : list A) body : (forall x, quiet (body x)) -> quiet (for_each l body).
Proof. intros H. induction l as [|x l IH]; simpl; [apply quiet_ret|]. by apply quiet_bind. Qed.

#[local] Hint Resolve quiet_ret quiet_gets quiet_get_req quiet_blocks quiet_faults : disco.

(** [quietly] walks through an operation nobody observes. *)
Ltac quietly :=
  repeat first
    [ progress intros
    | solve [auto with disco]
    | apply quiet_bind
    | apply quiet_for_each
    | apply quiet_upd; intros; repeat split; reflexivity
    | apply quiet_modify; intros; reflexivity
    | apply quiet_call; reflexivity
    | match goal with |- quiet (if ?b then _ else _) => destruct b end
    | match goal with |- quiet (match ?b with _ => _ end) => destruct b end ].

Lemma quiet_set_fea f : quiet (set_PLReq_fea f).
Proof. unfold set_PLReq_fea. quietly. Qed.
Lemma quiet_clear_fea f : quiet (clear_PLReq_fea f).
Proof. unfold clear_PLReq_fea. quietly. Qed.
Lemma quiet_check_fea f : quiet (check_PLReq_fea f).
Proof. unfold check_PLReq_fea. quietly. Qed.
#[local] Hint Resolve quiet_set_fea quiet_clear_fea quiet_check_fea : disco.

Lemma quiet_ref : quiet PLReq_ref_Req.
Proof. unfold PLReq_ref_Req. quietly. Qed.
Lemma quiet_deref : quiet PLReq_deref_Req.
Proof. unfold PLReq_deref_Req. quietly. Qed.
Lemma quiet_cancel_timer : quiet PLReq_cancel_timer.
Proof.
  unfold PLReq_cancel_timer, _gain_PLReq_timer_ctrl, _rel_PLReq_timer_ctrl, test_and_set_PLReq_fea,
    test_and_clear_PLReq_fea. quietly.
Qed.
Lemma quiet_schedule_timer : quiet PLReq_schedule_timer.
Proof.
  unfold PLReq_schedule_timer, _gain_PLReq_timer_ctrl, _rel_PLReq_timer_ctrl, test_and_set_PLReq_fea. quietly.
Qed.
Lemma quiet_set_bucket i x : quiet (set_bucket i x).
Proof. unfold set_bucket. quietly. Qed.
#[local] Hint Resolve quiet_ref quiet_deref quiet_cancel_timer quiet_schedule_timer quiet_set_bucket : disco.

Lemma quiet_alloc : quiet PLReq_allocBK_DNUDReq.
Proof. unfold PLReq_allocBK_DNUDReq. quietly. Qed.
Lemma quiet_rm_DNUDReq i : quiet (PLReq_rm_DNUDReq i).
Proof. unfold PLReq_rm_DNUDReq. quietly. Qed.
Lemma quiet_cancel_bucket s i : quiet (cancel_bucket s i).
Proof. unfold cancel_bucket. quietly. Qed.
#[local] Hint Resolve quiet_alloc quiet_rm_DNUDReq quiet_cancel_bucket : disco.

Lemma quiet_cancel_DNUDReq s : quiet (PLReq_cancel_DNUDReq s).
Proof. unfold PLReq_cancel_DNUDReq. quietly. Qed.
Lemma quiet_free_allDNReq : quiet _PLReq_free_allDNReq.
Proof. unfold _PLReq_free_allDNReq. quietly. Qed.
Lemma quiet_updateFC : quiet _PLReqTO_DNNoRes_updateFC.
Proof. unfold _PLReqTO_DNNoRes_updateFC. quietly. Qed.
Lemma quiet_add_pool : quiet PLReq_add_ReqPool.
Proof. unfold PLReq_add_ReqPool, test_and_set_PLReq_fea. quietly. Qed.
Lemma quiet_rm_pool : quiet PLReq_rm_ReqPool.
Proof. unfold PLReq_rm_ReqPool, test_and_clear_PLReq_fea. quietly. Qed.
Lemma quiet_add_caller : quiet add_PLReq_CallerReq.
Proof. unfold add_PLReq_CallerReq. quietly. Qed.
Lemma quiet_rm_caller : quiet rm_PLReq_CallerReq.
Proof. unfold rm_PLReq_CallerReq. quietly. Qed.
Lemma quiet_copy_times a b : quiet (copy_times a b).
Proof. unfold copy_times. quietly. Qed.
Lemma quiet_inc_fail : quiet inc_num_readFail.
Proof. unfold inc_num_readFail. quietly. Qed.
#[local] Hint Resolve quiet_cancel_DNUDReq quiet_free_allDNReq quiet_updateFC quiet_add_pool quiet_rm_pool
  quiet_add_caller quiet_rm_caller quiet_copy_times quiet_inc_fail : disco.

Lemma quiet_submit_read cfg i : quiet (PLMgr_submit_DNUDReadReq cfg i).
Proof.
  unfold PLMgr_submit_DNUDReadReq, _gen_submit_DNReadReq, submit_DNUData_Read_Request.
  quietly.
Qed.

Lemma quiet_gen_write n i ret : quiet (gen_write_loop n i ret).
Proof.
  revert i ret. induction n as [|n IH]; intros i ret; simpl; quietly; apply IH.
Qed.
#[local] Hint Resolve quiet_submit_read quiet_gen_write : disco.

(** ** The outcome is given once *)

(** Between two calls: the outcome was given to the caller [b] times, and the state
    machine knows; the user was told at most once, and the item knows. *)
Definition half (b : bool) (w : pl_world) : Prop :=
  settles w = Nat.b2n b /\ committed w = b /\ freed w = false /\ (tells w <= Nat.b2n (told_flag w))%nat.

(** The state machine granted the commit, the caller does not know yet. *)
Definition mid (w : pl_world) : Prop :=
  settles w = 0%nat /\ committed w = true /\ freed w = false /\ (tells w <= Nat.b2n (told_flag w))%nat.

(** Between two handlers. *)
Definition settled (w : pl_world) : Prop :=
  settles w = Nat.b2n (committed w) /\ freed w = committed w /\ (tells w <= Nat.b2n (told_flag w))%nat.

(** The predicates depend on what is observed. *)
Definition observed (P : pl_world -> Prop) : Prop := forall w w', obs w' = obs w -> P w -> P w'.

Lemma half_observed b : observed (half b).
Proof. intros w w' [= H1 H2 H3 H4 H5 H6]. unfold half, committed, told_flag. by rewrite H1, H2, H3, H5, H6. Qed.
Lemma mid_observed : observed mid.
Proof. intros w w' [= H1 H2 H3 H4 H5 H6]. unfold mid, committed, told_flag. by rewrite H1, H2, H3, H5, H6. Qed.
Lemma settled_observed : observed settled.
Proof. intros w w' [= H1 H2 H3 H4 H5 H6]. unfold settled, committed, told_flag. by rewrite H1, H2, H3, H5, H6. Qed.
#[local] Hint Resolve half_observed mid_observed settled_observed : disco.

Lemma wp_quiet {A} (P : pl_world -> Prop) (m : pl A) (Q : A -> pl_world -> Prop) w :
  quiet m -> observed P -> P w -> (forall a w', P w' -> Q a w') -> wp m Q w.
Proof. intros Hm HP Hw HQ. eapply wp_mono; [apply Hm|]. simpl. intros a w' E. apply HQ. by eapply HP. Qed.

(** [quiet_step] passes an unobserved operation in front of the goal. *)
Ltac quiet_step P :=
  apply wp_bind; apply (wp_quiet P); [solve [quietly]|solve [auto with disco]|assumption|clear; intros].

(** The same, keeping the context. *)
Ltac quiet_pass P :=
  apply wp_bind; apply (wp_quiet P); [solve [quietly]|solve [auto with disco]|assumption|].

(** Case analysis on the test in front. *)
Ltac wp_case := match goal with |- wp (match ?x with _ => _ end) _ _ => destruct x end.

(** The branch in which the state machine grants the commit. *)
Ltac ci_granted w H := clear; intros w H; change (is_CICaller PLREQ_A_DO_CICaller) with true; cbv iota.

Lemma update_CICaller Q w :
  half false w ->
  (forall w', mid w' -> Q PLREQ_A_DO_CICaller w') ->
  (forall a w', is_CICaller a = false -> half false w' -> Q a w') ->
  wp (update_state PLREQ_E_CICaller) Q w.
Proof.
  intros (H1 & H2 & H3 & H4) Hyes Hno. unfold wp, update_state, committed in *.
  destruct (w_req w) eqn:E. simpl in *. unfold told_flag in H4. rewrite E in H4.
  destruct plReq_stat as [[]]; simpl; try (vm_compute in H2; discriminate);
    solve [apply Hyes; unfold mid; repeat split; assumption | apply Hno; [done|]; unfold half; repeat split; assumption].
Qed.

Lemma update_other e w :
  e <> PLREQ_E_CICaller -> settled w -> wp (update_state e) (fun _ w' => settled w') w.
Proof.
  intros He (H1 & H2 & H3). unfold wp, update_state, settled, committed, told_flag in *.
  destruct (w_req w) eqn:E. simpl in *. destruct plReq_stat as [[]], e; simpl in *; try done; repeat split; assumption.
Qed.

Lemma settle_call c w : is_settle c = true -> is_tell c = false -> mid w -> wp (call c) (fun _ => half true) w.
Proof.
  intros Hs Ht (H1 & H2 & H3 & H4). unfold wp, call. simpl.
  unfold half, settles, tells, committed, told_flag in *. simpl.
  rewrite !count_calls_snoc, Hs, Ht, H1, Nat.add_0_r. done.
Qed.

Lemma end_half res n w : mid w -> wp (PLReq_endReq res n) (fun _ => half true) w.
Proof. intros H. unfold PLReq_endReq. quiet_step mid. by apply settle_call. Qed.

Lemma read_ciCaller_half res w : mid w -> wp (_PLReq_read_ciCaller res) (fun _ => half true) w.
Proof. intros H. unfold _PLReq_read_ciCaller. do 3 quiet_step mid. by apply end_half. Qed.

Lemma deref_free_half b w : half b w -> wp (deref_and_free b) (fun _ => settled) w.
Proof.
  intros H. unfold deref_and_free. quiet_step (half b). destruct b.
  - unfold PLMgr_free_PLReq. quiet_step (half true). unfold PLReq_free_Req. quiet_step (half true).
    destruct (_ =? 0); [|done]. destruct H as (H1 & H2 & H3 & H4). apply wp_modify.
    unfold settled, settles, tells, committed, told_flag in *. simpl. by rewrite H1, H2.
  - destruct H as (H1 & H2 & H3 & H4). apply wp_ret. unfold settled. by rewrite H2, H3.
Qed.

Lemma nextDN_half cfg i b w : half false w -> wp (_PLReq_read_nextDN cfg i b) half w.
Proof.
  intros H. unfold _PLReq_read_nextDN. quiet_step (half false). destruct (_ <? 0); [by apply wp_ret|].
  quiet_step (half false). destruct (MData_check_ciUserStatus _) as [[] ret]; [by apply wp_ret|].
  apply wp_bind, update_CICaller; [done| |].
  - ci_granted w H.
    do 2 quiet_step mid. apply wp_bind. eapply wp_mono; [by apply read_ciCaller_half|]. by intros.
  - clear. intros ? ? -> ?. by apply wp_ret.
Qed.

Lemma hbidErr_half b w : half false w -> wp (_PLReq_1st_hbidErr b) half w.
Proof.
  intros H. unfold _PLReq_1st_hbidErr. apply wp_bind, update_CICaller; [done| |].
  - ci_granted w H.
    do 3 quiet_step mid. apply wp_bind. eapply wp_mono; [by apply settle_call|]. by intros.
  - clear. intros ? ? -> ?. by apply wp_ret.
Qed.

Lemma upd_md_mid f w :
  (forall md, fea_test md MDATA_FEA_UDataCIUser = true -> fea_test (f md) MDATA_FEA_UDataCIUser = true) ->
  mid w -> wp (upd_md f) (fun _ => mid) w.
Proof.
  intros Hf (H1 & H2 & H3 & H4). unfold wp, upd_md, upd_req. simpl.
  unfold mid, settles, tells, committed, told_flag, MData_chk_ciUser in *. simpl. repeat split; try done.
  specialize (Hf (mdata_item (w_req w))). destruct (fea_test (mdata_item (w_req w)) _).
  - by rewrite Hf.
  - simpl in H4. lia.
Qed.

Lemma read_ok_half b w : half false w -> wp (read_ok b) half w.
Proof.
  intros H. unfold read_ok. quiet_step (half false). apply wp_bind, update_CICaller; [done| |].
  - ci_granted w H.
    apply wp_bind. eapply wp_mono; [apply upd_md_mid; [|done]|].
    { intros md _. apply fea_test_set_same. }
    cbv beta. clear. intros ? w H. do 4 quiet_step mid.
    apply wp_bind. eapply wp_mono; [by apply read_ciCaller_half|]. by intros.
  - clear. intros ? ? -> ?. by apply wp_ret.
Qed.

(** *** The handlers *)

Lemma update_stat_wp (Q : unit -> pl_world -> Prop) i st w :
  (0 <= i -> forall md, MData_update_DNUDataStat (mdata_item (w_req w)) (Z.to_nat i) st = Some md ->
     Q tt (set_w_req (set_mdata md (w_req w)) w)) ->
  wp (update_DNUDataStat i st) Q w.
Proof.
  intros H. unfold update_DNUDataStat, wp, mbind, thread_bind, get_req, gets.
  destruct (MData_update_DNUDataStat _ _ _) as [md|]; [|done]. destruct (0 <=? i) eqn:E; [|done]. zbool.
  by apply (H E md).
Qed.

(** The status of a replica is not one of the flags. *)
Lemma update_stat_half i st w : half false w -> wp (update_DNUDataStat i st) (fun _ => half false) w.
Proof.
  intros H. apply update_stat_wp. intros _ md Hmd. unfold MData_update_DNUDataStat in Hmd.
  destruct (udata_dnLoc _ !! _); [|done]. injection Hmd as <-. exact H.
Qed.

Lemma settled_open w : settled w -> freed w = false -> half false w.
Proof. intros (H1 & H2 & H3) H. unfold half. by rewrite <- H2, H in *. Qed.

Lemma open_settled w : half false w -> settled w.
Proof. intros (H1 & H2 & H3 & H4). unfold settled. by rewrite H2, H3. Qed.

Lemma read_handler_settled (m : pl bool) w :
  half false w -> wp m half w -> wp (do_free ← m; deref_and_free do_free) (fun _ => settled) w.
Proof. intros _ H. apply wp_bind. eapply wp_mono; [exact H|]. intros b w'. apply deref_free_half. Qed.

Lemma readDN_settled cfg s ts ta b i w :
  half false w -> wp (PLReq_readDN_endfn cfg s ts ta b i) (fun _ => settled) w.
Proof.
  intros H. unfold PLReq_readDN_endfn. do 2 quiet_step (half false).
  apply wp_bind. eapply wp_mono; [by apply update_stat_half|]. cbv beta. clear. intros ? w H. quiet_step (half false).
  destruct (negb (MData_chk_TrueMD _)); [|destruct (negb (MData_chk_ERCProt _)); [|by apply wp_ret, open_settled]].
  - unfold _PLReq_readDN_NonTrueMD. quiet_step (half false). apply read_handler_settled; [done|].
    destruct s; try (by apply wp_ret); try (by apply read_ok_half).
    + do 2 quiet_step (half false). destruct (_ >? 1); [by apply nextDN_half|by apply hbidErr_half].
    + quiet_step (half false). by apply hbidErr_half.
    + destruct (_ >? 1); quiet_step (half false); [by apply wp_ret|by apply hbidErr_half].
  - unfold _PLReq_readDN_TrueMD_REP. apply read_handler_settled; [done|].
    destruct s; try (by apply wp_ret); try (by apply read_ok_half).
    + do 2 quiet_step (half false). by apply nextDN_half.
    + quiet_step (half false). by apply nextDN_half.
    + quiet_step (half false). by apply wp_ret.
Qed.

(** Updating the item with the answer of a commit function, then telling the user. *)
Lemma tell_half w md' r (m : pl unit) :
  flags_ok (mdata_item (w_req w)) md' r -> half false w ->
  m = (upd_md (fun _ => md');; if ciUser r then ciUser_CallerReq (ciUser_ret r) else mret tt) ->
  wp m (fun _ => half false) w.
Proof.
  intros (HU & _ & HK & _) (H1 & H2 & H3 & H4) ->. unfold wp, mbind, thread_bind, upd_md, upd_req. simpl.
  unfold half, settles, tells, committed, told_flag, MData_chk_ciUser in *.
  destruct (ciUser r) eqn:EU; simpl.
  - destruct (proj1 HU eq_refl) as [E1 E2]. rewrite E1 in H4. simpl in H4. rewrite E2. simpl.
    rewrite !count_calls_snoc. simpl. rewrite H1. repeat split; try done. lia.
  - repeat split; try done. destruct (fea_test (mdata_item (w_req w)) _) eqn:E; [by rewrite HK|]. simpl in H4. lia.
Qed.

Lemma wp_bind_assoc {S A B C} (m : thread S A) (k : A -> thread S B) (h : B -> thread S C) Q w :
  wp ((m ≫= k) ≫= h) Q w -> wp (m ≫= fun a => k a ≫= h) Q w.
Proof. unfold wp, mbind, thread_bind. by destruct (m w). Qed.

Lemma writeDN_settled cfg s ts ta b i w :
  half false w -> wp (PLReq_writeDN_endfn cfg s ts ta b i) (fun _ => settled) w.
Proof.
  intros H. unfold PLReq_writeDN_endfn. do 2 quiet_step (half false).
  apply wp_bind. eapply wp_mono; [by apply update_stat_half|]. cbv beta. clear. intros ? w H. quiet_step (half false).
  apply wp_bind, wp_gets.
  pose proof (writeAck_flags (CommitUser_min_DiskAck cfg) (mdata_item (w_req w')) s) as F.
  destruct (MData_writeAck_commitResult _ _ _) as [md' r]. simpl in F.
  apply wp_bind_assoc, wp_bind. eapply wp_mono; [by eapply tell_half|]. cbv beta. clear. intros ? w H.
  apply read_handler_settled; [done|]. destruct (ciMDS r); [|by apply wp_ret].
  apply wp_bind, update_CICaller; [done| |].
  - ci_granted w H.
    do 4 quiet_step mid. apply wp_bind. eapply wp_mono; [by apply end_half|]. by intros.
  - clear. intros ? ? -> ?. by apply wp_ret.
Qed.

(** A finished check is not a commit: the number the timeout functions send is the
    one of [PLREQ_E_TOFireChkDone]. *)
Lemma wrong_event w :
  half false w ->
  wp (update_state_num (PLREQ_FSM_action_t_num PLREQ_A_DO_CICaller))
    (fun a w' => is_CICaller a = false /\ half false w') w.
Proof.
  intros (H1 & H2 & H3 & H4). unfold wp, update_state_num, update_state. simpl.
  unfold half, settles, tells, committed, told_flag in *.
  destruct (w_req w) as [? ? ? ? ? ? ? ? st]. simpl in *.
  destruct st as [[]]; simpl in *; try (vm_compute in H2; discriminate); repeat split; assumption.
Qed.

Lemma timeup_half w : half false w -> wp _rPLReq_TO_timeup (fun b w' => b = false /\ settled w') w.
Proof.
  intros H. unfold _rPLReq_TO_timeup. apply wp_bind. eapply wp_mono; [by apply wrong_event|].
  intros a w' [-> Hw]. apply wp_ret. split; [done|]. by apply open_settled.
Qed.

Lemma update_done w : settled w -> wp (update_state PLREQ_E_TOFireChkDone) (fun _ => settled) w.
Proof. by apply update_other. Qed.

Lemma read_timer_settled cfg w :
  half false w -> wp (_readPLReq_TO_handle cfg) (fun b w' => b = false /\ settled w') w.
Proof.
  intros H. unfold _readPLReq_TO_handle. quiet_step (half false). destruct (_ >? 0).
  - apply wp_bind. unfold _rPLReq_TO_try_replica. quiet_step (half false).
    eapply wp_mono; [by apply readDN_settled|]. cbv beta. clear. intros ? w Hw.
    apply wp_bind. eapply wp_mono; [by apply update_done|]. by intros.
  - by apply timeup_half.
Qed.

Lemma write_timer_settled cfg ms w :
  half false w -> wp (_writePLReq_TO_handle cfg ms) (fun b w' => b = false /\ settled w') w.
Proof.
  intros H. unfold _writePLReq_TO_handle. quiet_step (half false). destruct a.
  - apply wp_bind. eapply wp_mono; [by apply update_done, open_settled|]. by intros.
  - apply wp_bind, wp_gets.
    pose proof (timeout_flags (mdata_item (w_req w'))) as F.
    destruct (MData_timeout_commitResult _) as [md' r]. simpl in F.
    apply wp_bind_assoc, wp_bind. eapply wp_mono; [by eapply tell_half|]. cbv beta. clear. intros ? w H.
    apply wp_bind. eapply wp_mono; [by apply wrong_event|].
    intros b w' [-> Hw]. apply wp_ret. split; [done|]. by apply open_settled.
Qed.

Lemma update_fire w : half false w -> wp (update_state PLREQ_E_TOFireChk) (fun _ => half false) w.
Proof.
  intros H. pose proof (update_other PLREQ_E_TOFireChk w ltac:(done) (open_settled w H)) as U.
  destruct H as (_ & _ & H & _). revert U. unfold wp, update_state.
  destruct (PLReq_update_state _ _) as [st a]. intros U. by apply settled_open.
Qed.

Lemma timer_settled cfg ms w : half false w -> wp (run_timer_work cfg ms) (fun _ => settled) w.
Proof.
  intros H. unfold run_timer_work, PLReq_TO_handler_gut. quiet_step (half false).
  apply wp_bind. do 2 quiet_step (half false).
  apply wp_bind. eapply wp_mono; [by apply update_fire|]. cbv beta. clear. intros a w H.
  apply wp_bind. apply (wp_mono _ (fun b w' => b = false /\ settled w')).
  { destruct (bool_decide _); [apply wp_ret; split; [done|]; by apply open_settled|].
    quiet_step (half false). wp_case; [by apply read_timer_settled|by apply write_timer_settled]. }
  clear. intros b w [-> H]. unfold deref_and_free. quiet_step settled. apply wp_ret.
  apply (wp_quiet settled); [quietly|auto with disco|done|by intros].
Qed.

Lemma handle_settled cfg ms e w : settled w -> wp (pl_handle cfg ms e) (fun _ => settled) w.
Proof.
  intros H. unfold pl_handle. apply wp_bind, wp_gets. destruct (freed w) eqn:E; [by apply wp_ret|].
  pose proof (settled_open w H E) as Ho. clear H E.
  destruct e; quiet_step (half false).
  - by apply readDN_settled.
  - by apply writeDN_settled.
  - quiet_step (half false). wp_case; [by apply timer_settled|by apply wp_ret, open_settled].
Qed.

Lemma run_settled cfg ms es w : settled w -> wp (pl_run cfg ms es) (fun _ => settled) w.
Proof.
  revert w. unfold pl_run. induction es as [|e es IH]; intros w H; simpl; [by apply wp_ret|].
  apply wp_bind. eapply wp_mono; [by apply handle_settled|]. intros ? w'. apply IH.
Qed.

Lemma submit_settled (submit : pl unit) cfg i :
  submit = _submit_read_PLReq cfg i \/ submit = _submit_write_PLReq ->
  forall w, settled w -> wp submit (fun _ => settled) w.
Proof.
  intros [->| ->] w H.
  all: unfold _submit_read_PLReq, _submit_write_PLReq.
  all: do 3 quiet_step settled; apply wp_bind; eapply wp_mono; [by apply update_other|]; cbv beta; clear; intros a w H.
  all: destruct (bool_decide _); (quiet_step settled; (apply (wp_quiet settled); [quietly|auto with disco|done|by intros])).
Qed.

(** The submission of a read from replica [i], or of a write. *)
Definition pl_submit (cfg : pl_config) (op : iorw_dir_t) (i : Z) : pl unit :=
  match op with KERNEL_IO_READ => _submit_read_PLReq cfg i | KERNEL_IO_WRITE => _submit_write_PLReq end.

(** A freshly initialised request with an item nobody committed. *)
Definition pl_fresh (w : pl_world) : Prop :=
  settles w = 0%nat /\ tells w = 0%nat /\ plReq_stat (w_req w) = PLReq_init_fsm /\ freed w = false.

Lemma pl_fresh_settled w : pl_fresh w -> settled w.
Proof. intros (H1 & H2 & H3 & H4). unfold settled, committed. rewrite H1, H2, H3, H4. repeat split; try done. lia. Qed.


(** A write of four blocks to three replicas, and reads of them. *)
Definition demo_cfg : pl_config :=
  {| ioreq_timeout := 100; high_resp_write_io := true; time_wait_other_replica := 1000;
     CommitUser_min_DiskAck := 1; selftest_mode := false |}.

Definition demo_start (op : iorw_dir_t) (n : Z) (isTrue : bool) : pl_world :=
  pl_start (PLReq_init_Req 7 (MData_init_MDItem 100 4 n false isTrue false) op 0 true true 100 10) 10 41 [].

Definition world_after (o : outcome pl_world unit) (w0 : pl_world) : pl_world :=
  match o with Returns w _ => w | _ => w0 end.


(** ** A write that timed out is stranded *)

(** No outcome was given, and the item already counts as committed to the metadata
    server. *)
Definition strandedW (w : pl_world) : Prop :=
  half false w /\ ReqOPCode (w_req w) = KERNEL_IO_WRITE /\
  fea_test (mdata_item (w_req w)) MDATA_FEA_UDataCIMDS = true.

Lemma strandedW_observed : observed strandedW.
Proof.
  intros w w' E (H & Ho & Hf). split; [by eapply half_observed|]. injection E as _ _ -> -> _ _. done.
Qed.
#[local] Hint Resolve strandedW_observed : disco.

Lemma update_stat_strandedW i st w : strandedW w -> wp (update_DNUDataStat i st) (fun _ => strandedW) w.
Proof.
  intros H. apply update_stat_wp. intros _ md Hmd. unfold MData_update_DNUDataStat in Hmd.
  destruct (udata_dnLoc _ !! _); [|done]. injection Hmd as <-. exact H.
Qed.

Lemma tell_strandedW w md' r (m : pl unit) :
  flags_ok (mdata_item (w_req w)) md' r -> half false w -> ReqOPCode (w_req w) = KERNEL_IO_WRITE ->
  fea_test md' MDATA_FEA_UDataCIMDS = true ->
  m = (upd_md (fun _ => md');; if ciUser r then ciUser_CallerReq (ciUser_ret r) else mret tt) ->
  wp m (fun _ => strandedW) w.
Proof.
  intros F H Ho Hf Hm. pose proof (tell_half w md' r m F H Hm) as T. subst m.
  revert T. unfold wp, mbind, thread_bind, upd_md, upd_req. simpl. destruct (ciUser r); simpl; intros T; by split.
Qed.

Lemma writeDN_strandedW cfg s ts ta b i w :
  strandedW w -> wp (PLReq_writeDN_endfn cfg s ts ta b i) (fun _ => strandedW) w.
Proof.
  intros H. unfold PLReq_writeDN_endfn. do 2 quiet_step strandedW.
  apply wp_bind. eapply wp_mono; [by apply update_stat_strandedW|]. cbv beta. clear. intros ? w H.
  quiet_step strandedW. apply wp_bind, wp_gets.
  pose proof (writeAck_flags (CommitUser_min_DiskAck cfg) (mdata_item (w_req w')) s) as F.
  destruct (MData_writeAck_commitResult _ _ _) as [md' r]. simpl in F.
  destruct H as (Hh & Ho & Hf). pose proof F as (_ & HM & _ & HK & _).
  apply wp_bind_assoc, wp_bind. eapply wp_mono; [by eapply tell_strandedW; auto|]. cbv beta. intros ? w1 H.
  destruct (ciMDS r); [destruct (proj1 HM eq_refl); congruence|].
  apply wp_bind, wp_ret. unfold deref_and_free. quiet_step strandedW. by apply wp_ret.
Qed.

(** The timer work on a write that it gives up, or finds given up. *)
Lemma update_keeps e w :
  e <> PLREQ_E_CICaller -> half false w ->
  wp (update_state e) (fun _ w' => half false w' /\ ReqOPCode (w_req w') = ReqOPCode (w_req w) /\
    mdata_item (w_req w') = mdata_item (w_req w)) w.
Proof.
  intros He H. pose proof (update_other e w He (open_settled w H)) as U.
  destruct H as (_ & _ & H & _). revert U. unfold wp, update_state.
  destruct (PLReq_update_state _ _) as [st a]. intros U. split; [by apply settled_open|done].
Qed.

Lemma write_timer_strandedW cfg ms w :
  half false w -> ReqOPCode (w_req w) = KERNEL_IO_WRITE ->
  (_chk_wPLReq_wait cfg ms w = true -> fea_test (mdata_item (w_req w)) MDATA_FEA_UDataCIMDS = true) ->
  wp (_writePLReq_TO_handle cfg ms) (fun b w' => b = false /\ strandedW w') w.
Proof.
  intros H Ho Hw. unfold _writePLReq_TO_handle. apply wp_bind, wp_gets.
  destruct (_chk_wPLReq_wait cfg ms w).
  - apply wp_bind. eapply wp_mono; [by apply update_keeps|]. intros ? w' (Hh & Eo & Em). apply wp_ret.
    split; [done|]. split; [done|]. rewrite Eo, Em. auto.
  - apply wp_bind, wp_gets. pose proof (timeout_flags (mdata_item (w_req w))) as F.
    assert (Hf : fea_test (MData_timeout_commitResult (mdata_item (w_req w))).1 MDATA_FEA_UDataCIMDS = true).
    { unfold MData_timeout_commitResult. simpl. apply fea_test_set_same. }
    destruct (MData_timeout_commitResult _) as [md' r]. simpl in F, Hf.
    apply wp_bind_assoc, wp_bind. eapply wp_mono; [by eapply tell_strandedW|]. cbv beta. clear. intros ? w H.
    apply wp_bind. unfold update_state_num. simpl. destruct H as (H & Ho & Hf).
    pose proof (wrong_event w H) as W. unfold update_state_num in W. simpl in W.
    pose proof (update_keeps PLREQ_E_TOFireChkDone w ltac:(done) H) as K.
    revert W K. unfold wp. destruct (update_state _ w) as [w' act| |]; [|done..].
    intros [-> _] (Hh & Eo & Em). apply wp_ret. split; [done|]. split; [done|]. by rewrite Eo, Em.
Qed.

(** The work of the timer, for a request the state machine lets it check. *)
Lemma timer_strandedW cfg ms w :
  half false w -> ReqOPCode (w_req w) = KERNEL_IO_WRITE ->
  st_plReq (plReq_stat (w_req w)) = PLREQ_S_WAIT_IO_DONE \/ fea_test (mdata_item (w_req w)) MDATA_FEA_UDataCIMDS = true ->
  (_chk_wPLReq_wait cfg ms (set_w_req (set_rTO_chk_cnt (rTO_chk_cnt (w_req w) - 1) (w_req w)) w) = true ->
   fea_test (mdata_item (w_req w)) MDATA_FEA_UDataCIMDS = true) ->
  wp (run_timer_work cfg ms) (fun _ => strandedW) w.
Proof.
  intros H Ho Hst Hw. unfold run_timer_work. apply wp_bind, wp_modify, wp_bind.
  unfold PLReq_TO_handler_gut, PLReq_ref_Req, upd_req. apply wp_bind, wp_modify, wp_bind, wp_modify, wp_bind.
  set (w1 := set_w_req _ _).
  assert (H1 : half false w1) by exact H.
  pose proof (update_keeps PLREQ_E_TOFireChk w1 ltac:(done) H1) as K. revert K.
  unfold wp at 1 2. unfold update_state. destruct (PLReq_update_state _ _) as [st a] eqn:EU. intros (Hh & _).
  apply wp_bind. apply (wp_mono _ (fun b w' => b = false /\ strandedW w')).
  - destruct (bool_decide _) eqn:Ea.
    + apply wp_ret. split; [done|]. split; [done|]. split; [exact Ho|].
      destruct Hst as [Hst|Hst]; [|exact Hst]. exfalso. apply bool_decide_eq_true in Ea. apply Ea.
      unfold PLReq_update_state, _update_plReqState_lockless in EU. simpl in EU.
      change (PLReqIO.plReq_stat (w_req w1)) with (plReq_stat (w_req w)) in EU. rewrite Hst in EU. by injection EU.
    + apply wp_bind, wp_gets. simpl. rewrite Ho. by apply write_timer_strandedW.
  - clear. intros b w [-> H]. unfold deref_and_free. quiet_step strandedW. apply wp_ret.
    apply (wp_quiet strandedW); [quietly|auto with disco|done|by intros].
Qed.

(** The events of a write: its callback is the one for writes. *)
Definition write_event (e : pl_event) : Prop := match e with EvReadAck _ _ _ _ => False | _ => True end.

Lemma handle_strandedW cfg ms e w :
  write_event e -> strandedW w -> wp (pl_handle cfg ms e) (fun _ => strandedW) w.
Proof.
  intros He H. unfold pl_handle. apply wp_bind, wp_gets.
  rewrite (proj1 (proj2 (proj2 (proj1 H)))). destruct e; [done| |]; quiet_step strandedW.
  - by apply writeDN_strandedW.
  - quiet_step strandedW. destruct H as (H & Ho & Hf). wp_case; [|by apply wp_ret].
    by apply timer_strandedW; auto.
Qed.

Lemma run_strandedW cfg ms es w :
  Forall write_event es -> strandedW w -> wp (pl_run cfg ms es) (fun _ => strandedW) w.
Proof.
  intros He. revert w. unfold pl_run. induction He as [|e es He Hes IH]; intros w H; simpl; [by apply wp_ret|].
  apply wp_bind. eapply wp_mono; [by apply handle_strandedW|]. intros ? w'. apply IH.
Qed.

(** The timer, at time [now], finds that the write is not worth waiting for: it ran
    out of checks, or the user was told and the wait for the other replicas is over. *)
Definition gives_up (cfg : pl_config) (ms : Z -> Z) (now : Z) (w : pl_world) : Prop :=
  rTO_chk_cnt (w_req w) <= 1 \/
  (told_flag w = true /\ high_resp_write_io cfg = true /\ time_after64 (t_ciCaller (w_req w)) now = false /\
   time_wait_other_replica cfg <= ms (u64 (now - t_ciCaller (w_req w)))).

Lemma gives_up_chk cfg ms now w :
  gives_up cfg ms now w ->
  _chk_wPLReq_wait cfg ms
    (set_w_req (set_rTO_chk_cnt (rTO_chk_cnt (w_req w) - 1) (w_req w)) (set_jiffies_64 now w)) = false.
Proof.
  unfold gives_up, _chk_wPLReq_wait, _wPLReq_chk_wait_otherReplica, told_flag. simpl.
  intros [H|(-> & -> & -> & H)].
  - by rewrite (proj2 (Z.leb_le _ _)) by lia.
  - apply Z.geb_le in H. rewrite H. by destruct (_ <=? 0).
Qed.

(** A write that times out is never finished.  When the timer of a waiting write
    expires and gives the write up, then no acknowledgement and no further timer
    ever ends the request: its caller gets no outcome and it stays allocated. *)
Theorem write_timeout_strands (cfg : pl_config) (ms : Z -> Z) (now : Z) (es : list pl_event) (w w' : pl_world) :
  settled w -> freed w = false -> ReqOPCode (w_req w) = KERNEL_IO_WRITE ->
  st_plReq (plReq_stat (w_req w)) = PLREQ_S_WAIT_IO_DONE -> work_queued w = true ->
  gives_up cfg ms now w -> Forall write_event es ->
  pl_run cfg ms (EvTimer now :: es) w = Returns w' tt ->
  settles w' = 0%nat /\ freed w' = false.
Proof.
  intros Hs Hf Ho Hst Hq Hg He Hr.
  assert (H : wp (pl_run cfg ms (EvTimer now :: es)) (fun _ => strandedW) w).
  { unfold pl_run. simpl. apply wp_bind. apply (wp_mono _ (fun _ => strandedW)).
    - unfold pl_handle. apply wp_bind, wp_gets. rewrite Hf. apply wp_bind, wp_modify, wp_bind, wp_gets.
      simpl. rewrite Hq. pose proof (settled_open w Hs Hf) as Hh.
      apply timer_strandedW; [exact Hh|exact Ho|by left|]. apply gives_up_chk in Hg. simpl. by rewrite Hg.
    - intros ? w1 H1. by apply run_strandedW. }
  unfold wp in H. rewrite Hr in H. by destruct H as [(H1 & _ & H2 & _) _].
Qed.

(** One replica of three on disk, the user told; the timer expires two seconds later;
    then the other two acknowledge. *)
Lemma write_timeout_strands_witness :
  let w := world_after ((pl_submit demo_cfg KERNEL_IO_WRITE 0;; pl_run demo_cfg id
             [EvWriteAck 20 UData_S_WRITE_OK 0 0]) (demo_start KERNEL_IO_WRITE 3 false))
             (demo_start KERNEL_IO_WRITE 3 false) in
  let es := [EvWriteAck 2100 UData_S_WRITE_OK 1 1; EvWriteAck 2200 UData_S_WRITE_OK 2 2] in
  let w' := world_after (pl_run demo_cfg id (EvTimer 2000 :: es) w) w in
  settles w' = 0%nat /\ freed w' = false.
Proof.
  intros w es w'.
  apply (write_timeout_strands demo_cfg id 2000 es w w').
  - vm_compute. repeat split; lia.
  - vm_compute. reflexivity.
  - vm_compute. reflexivity.
  - vm_compute. reflexivity.
  - vm_compute. reflexivity.
  - right. vm_compute. repeat split; congruence.
  - repeat constructor.
  - vm_compute. reflexivity.
Defined.

(** ** A read whose replicas all failed is stranded *)

(** A read with confirmed metadata, no outcome given and every replica tried. *)
Definition strandedR (w : pl_world) : Prop :=
  half false w /\ ReqOPCode (w_req w) = KERNEL_IO_READ /\
  MData_chk_TrueMD (mdata_item (w_req w)) = true /\ MData_chk_ERCProt (mdata_item (w_req w)) = false /\
  (UData_S_INIT ∉ udata_dnLoc (mdata_item (w_req w))).

Lemma strandedR_observed : observed strandedR.
Proof.
  intros w w' E (H & Ho & Hf). split; [by eapply half_observed|]. injection E as _ _ -> -> _ _. done.
Qed.
#[local] Hint Resolve strandedR_observed : disco.

Lemma first_init_none md l : (UData_S_INIT ∉ udata_dnLoc md) -> first_init md l = None.
Proof.
  intros H. unfold first_init. assert (filter (fun i => udata_dnLoc md !! i = Some UData_S_INIT) l = []) as ->; [|done].
  apply elem_of_nil_inv. intros i [Hi _]%list_elem_of_filter. by apply list_elem_of_lookup_2 in Hi.
Qed.

Lemma no_replica_left cfg md i :
  selftest_mode cfg = false -> (UData_S_INIT ∉ udata_dnLoc md) -> get_next_DN_index cfg md i = - ENXIO.
Proof. intros Hc H. unfold get_next_DN_index. by rewrite Hc, !first_init_none. Qed.

Section stranded_read.
Context (cfg : pl_config) (ms : Z -> Z) (Hcfg : selftest_mode cfg = false).

Lemma submit_strandedR i w :
  strandedR w -> wp (PLMgr_submit_DNUDReadReq cfg i) (fun ret w' => ret = - EINVAL /\ strandedR w') w.
Proof.
  intros H. unfold PLMgr_submit_DNUDReadReq. quiet_pass strandedR. clear w H. intros ? w H. unfold _gen_submit_DNReadReq.
  apply wp_bind, wp_gets. rewrite no_replica_left; [|done|apply H].
  by rewrite orb_true_r.
Qed.

Lemma nextDN_strandedR i b w :
  strandedR w -> wp (_PLReq_read_nextDN cfg i b) (fun f w' => f = false /\ strandedR w') w.
Proof.
  intros H. unfold _PLReq_read_nextDN. apply wp_bind. eapply wp_mono; [by apply submit_strandedR|].
  intros ? w' [-> Hw]. by apply wp_ret.
Qed.

Lemma update_stat_strandedR i st w :
  st <> UData_S_INIT -> strandedR w -> wp (update_DNUDataStat i st) (fun _ => strandedR) w.
Proof.
  intros Hst (Hh & Ho & Ht & He & Hn). apply update_stat_wp. intros _ md Hmd. unfold MData_update_DNUDataStat in Hmd.
  destruct (udata_dnLoc _ !! _) eqn:El; [|done]. injection Hmd as <-. repeat (split; [done|]). simpl.
  intros [k Hk]%list_elem_of_lookup. apply list_lookup_insert_Some in Hk as [(_ & E & _)|[_ Hk]]; [congruence|].
  apply Hn. by eapply list_elem_of_lookup_2.
Qed.

Lemma readDN_strandedR s ts ta b i w :
  s <> UData_S_INIT -> s <> UData_S_READ_OK -> strandedR w ->
  wp (PLReq_readDN_endfn cfg s ts ta b i) (fun _ => strandedR) w.
Proof.
  intros Hs Hs' H. unfold PLReq_readDN_endfn. quiet_pass strandedR.
  clear w H. intros _ w H. quiet_pass strandedR.
  clear w H. intros _ w H. apply wp_bind. eapply wp_mono; [by apply update_stat_strandedR|]. cbv beta.
  clear w H. intros _ w H. apply wp_bind, wp_gets. pose proof H as (_ & _ & -> & -> & _). simpl.
  unfold _PLReq_readDN_TrueMD_REP. apply wp_bind. apply (wp_mono _ (fun f w' => f = false /\ strandedR w')).
  - destruct s; try done; try (by apply wp_ret).
    + quiet_pass strandedR. intros _ w1 H1.
      quiet_pass strandedR. intros _ w2 H2. by apply nextDN_strandedR.
    + quiet_pass strandedR. intros _ w1 H1. by apply nextDN_strandedR.
    + apply wp_bind. eapply wp_mono; [by apply submit_strandedR|]. intros ? w1 [_ H1]. by apply wp_ret.
  - intros f w1 [-> H1]. unfold deref_and_free. quiet_pass strandedR.
    intros _ w2 H2. by apply wp_ret.
Qed.

Lemma update_strandedR e w :
  e <> PLREQ_E_CICaller -> strandedR w -> wp (update_state e) (fun _ => strandedR) w.
Proof.
  intros He (Hh & H). eapply wp_mono; [by apply update_keeps|]. intros ? w' (Hh' & Eo & Em).
  split; [done|]. by rewrite Eo, Em.
Qed.

Lemma timer_strandedR w : strandedR w -> wp (run_timer_work cfg ms) (fun _ => strandedR) w.
Proof.
  intros H. unfold run_timer_work, PLReq_TO_handler_gut.
  quiet_pass strandedR. clear w H. intros _ w H. apply wp_bind.
  quiet_pass strandedR. clear w H. intros _ w H.
  quiet_pass strandedR. clear w H. intros _ w H.
  apply wp_bind. eapply wp_mono; [by apply update_strandedR|]. cbv beta. clear w H. intros a w H.
  apply wp_bind. apply (wp_mono _ (fun f w' => f = false /\ strandedR w')).
  - destruct (bool_decide _); [by apply wp_ret|]. apply wp_bind, wp_gets. pose proof H as (Hh & -> & _).
    unfold _readPLReq_TO_handle. apply wp_bind, wp_gets. destruct (_ >? 0).
    + apply wp_bind. apply wp_bind, wp_gets. eapply wp_mono; [by apply readDN_strandedR|]. cbv beta. intros _ w1 H1.
      apply wp_bind. eapply wp_mono; [by apply update_strandedR|]. intros ? w2 H2. by apply wp_ret.
    + unfold _rPLReq_TO_timeup. apply wp_bind. pose proof (wrong_event w Hh) as W.
      pose proof (update_strandedR PLREQ_E_TOFireChkDone w ltac:(done) H) as K. revert W K.
      unfold wp, update_state_num. simpl. destruct (update_state _ w); [|done..]. intros [-> _] K. done.
  - intros f w1 [-> H1]. unfold deref_and_free. quiet_pass strandedR.
    intros _ w2 H2. apply wp_ret. apply (wp_quiet strandedR); [quietly|auto with disco|done|by intros].
Qed.

(** The events of a read none of whose replicas delivers the data. *)
Definition failed_read_event (e : pl_event) : Prop :=
  match e with
  | EvReadAck _ s _ _ => s <> UData_S_INIT /\ s <> UData_S_READ_OK
  | EvWriteAck _ _ _ _ => False
  | EvTimer _ => True
  end.

Lemma run_strandedR es w :
  Forall failed_read_event es -> strandedR w -> wp (pl_run cfg ms es) (fun _ => strandedR) w.
Proof.
  intros He. revert w. unfold pl_run. induction He as [|e es He Hes IH]; intros w H; simpl; [by apply wp_ret|].
  apply wp_bind. apply (wp_mono _ (fun _ => strandedR)); [|intros ? w'; apply IH].
  unfold pl_handle. apply wp_bind, wp_gets. rewrite (proj1 (proj2 (proj2 (proj1 H)))).
  destruct e as [? s ? ?| |]; [| done|].
  - quiet_pass strandedR. intros _ w1 H1. by apply readDN_strandedR; destruct He.
  - quiet_pass strandedR. intros _ w1 H1. apply wp_bind, wp_gets. wp_case; [by apply timer_strandedR|by apply wp_ret].
Qed.

End stranded_read.

(** A read whose replicas all failed is never finished.  Once every replica of an
    item with confirmed metadata was tried, no further error and no timer ever ends
    the request, although [MData_check_ciUserStatus] decides that there is nothing
    left to wait for: the error is not passed on and the caller waits for ever. *)
Theorem read_errors_strand (cfg : pl_config) (ms : Z -> Z) (es : list pl_event) (w w' : pl_world) :
  selftest_mode cfg = false -> strandedR w -> Forall failed_read_event es ->
  pl_run cfg ms es w = Returns w' tt ->
  settles w' = 0%nat /\ freed w' = false.
Proof.
  intros Hc Hw He Hr. pose proof (run_strandedR cfg ms Hc es w He Hw) as H.
  unfold wp in H. rewrite Hr in H. by destruct H as [(H1 & _ & H2 & _) _].
Qed.

(** Three replicas, each with a disk error; then the timer. *)
Lemma read_errors_strand_witness :
  let w := world_after ((pl_submit demo_cfg KERNEL_IO_READ 0;; pl_run demo_cfg id
             [EvReadAck 20 UData_S_DISK_FAILURE 0 0; EvReadAck 30 UData_S_DISK_FAILURE 0 1;
              EvReadAck 40 UData_S_DISK_FAILURE 0 2]) (demo_start KERNEL_IO_READ 3 true))
             (demo_start KERNEL_IO_READ 3 true) in
  let w' := world_after (pl_run demo_cfg id [EvTimer 2000] w) w in
  MData_check_ciUserStatus (mdata_item (w_req w)) = (false, false) /\
  settles w' = 0%nat /\ freed w' = false.
Proof.
  intros w w'. split; [vm_compute; reflexivity|].
  apply (read_errors_strand demo_cfg id [EvTimer 2000] w w').
  - reflexivity.
  - vm_compute. repeat split; try lia. intros H. repeat (apply elem_of_cons in H as [H|H]; [congruence|]).
    by apply elem_of_nil in H.
  - repeat constructor.
  - vm_compute. reflexivity.
Defined.
