(* ===== verification/ReplicaSelector.v ===== *)
(** * ReplicaSelector: which replica is read?

    Translation of payload_manager/Read_Replica_Selector.c.  A volume reads from one
    replica index until a number of blocks was read, then moves to the next (round
    robin); a replica whose datanode is not free is passed over. *)

From S2P Require Import Prelude MDataCommit.

(** [struct Read_DN_selector]: a 16-bit index and a 32-bit count. *)
Record Read_DN_selector : Type := {
  readDN_idx : Z;
  readDN_numLB : Z;
}.

Definition _PLMgr_RoundRobin_selectDN (loc : metaD_item_t) (sel : Read_DN_selector) (max_read_bytes : Z)
  : Read_DN_selector * Z :=
  let n := u32 (readDN_numLB sel + num_hbids loc) in
  let sel :=
    if n >=? max_read_bytes then {| readDN_idx := u16 (readDN_idx sel + 1); readDN_numLB := 0 |}
    else {| readDN_idx := readDN_idx sel; readDN_numLB := n |} in
  (sel, readDN_idx sel mod num_dnLoc loc).

Section health.
(** [Check_DN_Resources_Is_Available(...) == RESOURCES_IS_FREE_TO_USE] for the datanode
    of a replica. *)
Context (free : Z -> bool).

(** The loop, with the number of turns it may still take; a turn per replica is
    enough, since the loop ends when it is back at [selectDN]. *)
Fixpoint check_loop (fuel : nat) (n selectDN chk_idx : Z) : option Z :=
  match fuel with
  | O => None
  | S fuel =>
      if free chk_idx then Some chk_idx
      else
        let chk_idx := u32 (chk_idx + 1) mod n in
        if chk_idx =? selectDN then Some chk_idx else check_loop fuel n selectDN chk_idx
  end.

Definition _PLMgr_checkDN_health (loc : metaD_item_t) (selectDN : Z) : option Z :=
  check_loop (Z.to_nat (num_dnLoc loc)) (num_dnLoc loc) selectDN selectDN.

Definition PLMgr_Read_selectDN (loc : metaD_item_t) (sel : Read_DN_selector) (max_read_bytes : Z) (read_rr_on : bool)
  : option (Read_DN_selector * Z) :=
  let '(sel, retIndex) :=
    if read_rr_on then _PLMgr_RoundRobin_selectDN loc sel max_read_bytes else (sel, 0) in
  chk_index ← _PLMgr_checkDN_health loc retIndex;
  Some
    (if negb (chk_index =? retIndex) then
       ((if read_rr_on then {| readDN_idx := u16 chk_index; readDN_numLB := 0 |} else sel), chk_index)
     else (sel, retIndex)).

(** The [d]-th replica after [s], round the ring of [n]. *)
Definition ring (n s d : Z) : Z := (s + d) mod n.

Lemma ring_next n s d : 1 <= n < 2 ^ 16 -> u32 (ring n s d + 1) mod n = ring n s (d + 1).
Proof.
  intros Hn. unfold ring. pose proof (Z.mod_pos_bound (s + d) n ltac:(lia)).
  rewrite u32_small by (unfold is_u32; lia). rewrite Zplus_mod_idemp_l. f_equal. lia.
Qed.

Lemma ring_back n s d : 1 <= n -> 0 <= s < n -> 0 < d < n -> ring n s d <> s.
Proof.
  intros Hn Hs Hd E. unfold ring in E. pose proof (Z.div_mod (s + d) n ltac:(lia)) as D. rewrite E in D.
  assert (d = n * ((s + d) / n)) as Hq by lia. destruct (Z.le_gt_cases ((s + d) / n) 0); nia.
Qed.

(** From [d] on, the loop finds the first free replica, or returns to its start. *)
Lemma check_loop_spec fuel n s d :
  1 <= n < 2 ^ 16 -> 0 <= s < n -> 0 <= d -> d + Z.of_nat fuel = n -> (0 < fuel)%nat ->
  exists e, check_loop fuel n s (ring n s d) = Some (ring n s e) /\ d <= e <= n /\
    (forall k, d <= k < e -> free (ring n s k) = false) /\ (e < n -> free (ring n s e) = true).
Proof.
  intros Hn Hs. revert d. induction fuel as [|fuel IH]; intros d Hd Hf Hpos; [lia|].
  cbn [check_loop]. destruct (free (ring n s d)) eqn:E.
  { exists d. repeat split; try done; try lia. }
  rewrite ring_next by done. destruct fuel as [|fuel].
  - assert (d + 1 = n) as -> by lia. assert (ring n s n = s) as Hr.
    { unfold ring. rewrite <- (Z.mul_1_l n) at 1. rewrite Z_mod_plus_full. by apply Z.mod_small. }
    rewrite Hr, Z.eqb_refl. exists n. rewrite Hr. repeat split; try done; try lia.
    intros k Hk. assert (k = d) as -> by lia. done.
  - rewrite (proj2 (Z.eqb_neq _ _)) by (apply ring_back; lia).
    destruct (IH (d + 1)) as (e & He & Hle & Hno & Hyes); [lia|lia|lia|].
    exists e. repeat split; try done; try lia.
    intros k Hk. destruct (decide (k = d)) as [->|]; [done|]. apply Hno. lia.
Qed.

End health.

Lemma selectDN_free (free : Z -> bool) (loc : metaD_item_t) (sel : Read_DN_selector) (max : Z) (rr : bool) :
  1 <= num_dnLoc loc < 2 ^ 16 ->
  exists sel' i, PLMgr_Read_selectDN free loc sel max rr = Some (sel', i) /\
    0 <= i < num_dnLoc loc /\
    (forall j, 0 <= j < num_dnLoc loc -> free j = true -> free i = true) /\
    (rr = true -> free i = true -> readDN_idx sel' mod num_dnLoc loc = i).
Proof.
  intros Hn. unfold PLMgr_Read_selectDN.
  set (p := if rr then _ else _).
  assert (Hp : 0 <= p.2 < num_dnLoc loc /\ (rr = true -> readDN_idx p.1 mod num_dnLoc loc = p.2)).
  { subst p. destruct rr; simpl; [|split; [lia|done]]. split; [apply Z.mod_pos_bound; lia|done]. }
  destruct p as [sel1 s]. simpl in Hp. destruct Hp as [Hs Hidx]. unfold _PLMgr_checkDN_health.
  destruct (check_loop_spec free (Z.to_nat (num_dnLoc loc)) (num_dnLoc loc) s 0) as (e & He & Hle & Hno & Hyes); try lia.
  assert (ring (num_dnLoc loc) s 0 = s) as Hr by (unfold ring; rewrite Z.add_0_r; by apply Z.mod_small).
  rewrite Hr in He. rewrite He. simpl. set (i := ring (num_dnLoc loc) s e).
  assert (Hi : 0 <= i < num_dnLoc loc) by (apply Z.mod_pos_bound; lia).
  assert (Hfree : forall j, 0 <= j < num_dnLoc loc -> free j = true -> free i = true).
  { intros j Hj Hfj. destruct (decide (e < num_dnLoc loc)) as [Hlt|Hge]; [by apply Hyes|]. exfalso.
    assert (free (ring (num_dnLoc loc) s ((j - s) mod num_dnLoc loc)) = false) as Hf.
    { apply Hno. pose proof (Z.mod_pos_bound (j - s) (num_dnLoc loc)). lia. }
    unfold ring in Hf. rewrite Zplus_mod_idemp_r in Hf. replace (s + (j - s)) with j in Hf by lia.
    rewrite Z.mod_small in Hf by lia. congruence. }
  destruct (i =? s) eqn:Ei; zbool; simpl.
  - exists sel1, s. split; [done|]. rewrite Ei in *. split; [done|]. split; [done|]. auto.
  - exists (if rr then {| readDN_idx := u16 i; readDN_numLB := 0 |} else sel1), i. split; [done|].
    split; [done|]. split; [done|]. intros -> _. simpl. rewrite u16_small by (unfold is_u16; lia). by apply Z.mod_small.
Qed.
