(* ===== verification/FlowControl.v ===== *)
(** * FlowControl: response times, health and request slots of the servers

    Translation of flowcontrol/FlowControl.c with FlowControl.h and FlowControl_private.h.

    Every namenode and datanode that was heard of has an item ([dms_res_item_t]): the last response
    times in a ring, the number of timeouts (which the replica selection reads), the slots of
    requests that are out, and performance counters.  The items are shared by pointers
    (clients and volume groups keep them), so they live in a store [fc_items], and the list
    [fc_reslist] holds their addresses (0 is NULL); an access to anything else is a fault ([None]).
    A function whose body is one critical section is one step.  The answers of the allocator are
    arguments.  [show_res_info], which prints, is not modelled. *)

From S2P Require Import Prelude CommonUtil.

(** ** Data *)

Inductive res_type_t : Type := RES_TYPE_NN | RES_TYPE_DN.

#[global] Instance res_type_t_eq_dec : EqDecision res_type_t.
Proof. solve_decision. Defined.

Definition DEFAULT_NUM_REQ_IN_COUNT : Z := 10.
Definition DMS_RESOURCE_NOT_READY : Z := -1.
Definition DMS_RESOURCE_NOT_AVAILABLE : Z := -2.
Definition RESOURCES_STAT_DATA_COLLECTING : Z := 0.
Definition RESOURCES_STAT_DATA_READY : Z := 1.
Definition MIN_NN_MAX_REQUESTS_TIMEOUT : Z := 20.
Definition MIN_NN_FIXED_RATE_TIMEOUT : Z := 1.
Definition NN_RATE_NO_LIMIT : Z := -1.
Definition DEFAULT_NN_SLOW_START_RATE : Z := 128.
Definition DEFAULT_NN_RATE_AGE_TIME : Z := 300.
Definition DEFAULT_NN_FIXED_RATE : Z := 512.
Definition DEFAULT_NN_MAX_REQUESTS : Z := 2048.
Definition DEFAULT_DN_SLOW_START_RATE : Z := -1.
Definition DEFAULT_DN_RATE_AGE_TIME : Z := -1.
Definition DEFAULT_DN_FIXED_RATE : Z := -1.
Definition DEFAULT_DN_MAX_REQUESTS : Z := -1.
Definition MAX_NUM_OF_SAMPLE : Z := 10000.
Definition NN_RESPONSE_SUB_TYPE_QUERY_METADATA : Z := 0.
Definition NN_RESPONSE_SUB_TYPE_ALLOC_METADATA_NoOld : Z := 1.
Definition NN_RESPONSE_SUB_TYPE_ALLOC_METADATA_WithOld : Z := 2.
Definition DN_RESPONSE_SUB_TYPE_Read : Z := 0.
Definition DN_RESPONSE_SUB_TYPE_Write : Z := 1.
Definition RESOURCES_IS_FREE_TO_USE : Z := 0.
Definition RESOURCES_IS_NOT_AVAILABLE : Z := 1.
Definition FC_NO_BLOCK : Z := 0.
Definition FC_MAX_RES_REQUESTS : Z := -1.
Definition FC_RES_CONNECTION_LOST : Z := -2.
Definition MAX_NN_RES_IN_SPEED_GROUP : nat := 1.
Definition MAX_DN_RES_IN_SPEED_GROUP : nat := 20.
Definition BIT_LEN_KBYTES : Z := 10.

(** The fields [*_Process_Sample_*] of one kind (namenode, reads, writes). *)
Record sample_t : Type := {
  Sample_Start_Time : Z;
  Sample_End_Time : Z;
  Sample_TP : Z;
  Sample_IOPS : Z;
  Sample_Bytes : Z;
  Sample_CNT : Z;
}.

(** The fields of an item under "performance measurement". *)
Record perf_t : Type := {
  Total_process_time : Z;
  Total_process_cnt : Z;
  NN_Process_Time_Query_Metadata : Z;
  NN_Process_Time_Alloc_Metadata_And_NoOld : Z;
  NN_Process_Time_Alloc_Metadata_And_WithOld : Z;
  NN_Process_CNT_Query_Metadata : Z;
  NN_Process_CNT_Alloc_Metadata_And_NoOld : Z;
  NN_Process_CNT_Alloc_Metadata_And_WithOld : Z;
  NN_Process_Sample : sample_t;
  DN_Process_Time_Read : Z;
  DN_Process_Time_Write : Z;
  DN_Process_Time_Write_MemAck : Z;
  DN_Process_CNT_Read : Z;
  DN_Process_CNT_Write : Z;
  DN_Process_Total_Read_Bytes : Z;
  DN_Process_Total_Write_Bytes : Z;
  DN_Process_Sample_Read : sample_t;
  DN_Process_Sample_Write : sample_t;
}.

(** [res_response_time] is [None] when its allocation failed. *)
Record dms_res_item_t : Type := {
  ri_ipaddr : Z;
  ri_port : Z;
  ri_type : res_type_t;
  res_id : Z;
  res_state : Z;
  is_available : bool;
  fc_slow_start_rate : Z;
  fc_start_max_reqs : Z;
  fc_rate_age_time : Z;
  fc_curr_rate : Z;
  fc_curr_max_reqs : Z;
  alloc_out_res_rate : Z;
  alloc_out_res_max : Z;
  last_access_time : Z;
  res_response_time : option (list Z);
  num_of_req_time_in_count : Z;
  total_response_time : Z;
  last_modified_index : Z;
  number_timeout_occur : Z;
  ri_perf : perf_t;
}.

Record dms_fc_group_t : Type := {
  fg_volume_id : Z;
  nn_speed_group : list Z;
  dn_speed_group : list Z;
}.

Record fc_world : Type := {
  fc_items : gmap Z dms_res_item_t;
  fc_reslist : list Z;
  g_res_id : Z;
  wait_flag : Z;
}.

Definition set_sample_end (x0 : Z) (x1 : Z) (x2 : Z) (s : sample_t) : sample_t :=
  {| Sample_Start_Time := Sample_Start_Time s; Sample_End_Time := x0; Sample_TP := Sample_TP s; Sample_IOPS :=
     Sample_IOPS s; Sample_Bytes := x1; Sample_CNT := x2 |}.

Definition set_sample_start (x0 : Z) (x1 : Z) (x2 : Z) (s : sample_t) : sample_t :=
  {| Sample_Start_Time := x0; Sample_End_Time := Sample_End_Time s; Sample_TP := Sample_TP s; Sample_IOPS :=
     Sample_IOPS s; Sample_Bytes := x1; Sample_CNT := x2 |}.

Definition set_sample_rate (x0 : Z) (x1 : Z) (s : sample_t) : sample_t :=
  {| Sample_Start_Time := Sample_Start_Time s; Sample_End_Time := Sample_End_Time s; Sample_TP := x1;
     Sample_IOPS := x0; Sample_Bytes := Sample_Bytes s; Sample_CNT := Sample_CNT s |}.

Definition set_total (x0 : Z) (x1 : Z) (p : perf_t) : perf_t :=
  {| Total_process_time := x0; Total_process_cnt := x1; NN_Process_Time_Query_Metadata :=
     NN_Process_Time_Query_Metadata p; NN_Process_Time_Alloc_Metadata_And_NoOld :=
     NN_Process_Time_Alloc_Metadata_And_NoOld p; NN_Process_Time_Alloc_Metadata_And_WithOld :=
     NN_Process_Time_Alloc_Metadata_And_WithOld p; NN_Process_CNT_Query_Metadata :=
     NN_Process_CNT_Query_Metadata p; NN_Process_CNT_Alloc_Metadata_And_NoOld :=
     NN_Process_CNT_Alloc_Metadata_And_NoOld p; NN_Process_CNT_Alloc_Metadata_And_WithOld :=
     NN_Process_CNT_Alloc_Metadata_And_WithOld p; NN_Process_Sample := NN_Process_Sample p; DN_Process_Time_Read
     := DN_Process_Time_Read p; DN_Process_Time_Write := DN_Process_Time_Write p; DN_Process_Time_Write_MemAck
     := DN_Process_Time_Write_MemAck p; DN_Process_CNT_Read := DN_Process_CNT_Read p; DN_Process_CNT_Write :=
     DN_Process_CNT_Write p; DN_Process_Total_Read_Bytes := DN_Process_Total_Read_Bytes p;
     DN_Process_Total_Write_Bytes := DN_Process_Total_Write_Bytes p; DN_Process_Sample_Read :=
     DN_Process_Sample_Read p; DN_Process_Sample_Write := DN_Process_Sample_Write p |}.

Definition set_nn_sample (x0 : sample_t) (p : perf_t) : perf_t :=
  {| Total_process_time := Total_process_time p; Total_process_cnt := Total_process_cnt p;
     NN_Process_Time_Query_Metadata := NN_Process_Time_Query_Metadata p;
     NN_Process_Time_Alloc_Metadata_And_NoOld := NN_Process_Time_Alloc_Metadata_And_NoOld p;
     NN_Process_Time_Alloc_Metadata_And_WithOld := NN_Process_Time_Alloc_Metadata_And_WithOld p;
     NN_Process_CNT_Query_Metadata := NN_Process_CNT_Query_Metadata p; NN_Process_CNT_Alloc_Metadata_And_NoOld
     := NN_Process_CNT_Alloc_Metadata_And_NoOld p; NN_Process_CNT_Alloc_Metadata_And_WithOld :=
     NN_Process_CNT_Alloc_Metadata_And_WithOld p; NN_Process_Sample := x0; DN_Process_Time_Read :=
     DN_Process_Time_Read p; DN_Process_Time_Write := DN_Process_Time_Write p; DN_Process_Time_Write_MemAck :=
     DN_Process_Time_Write_MemAck p; DN_Process_CNT_Read := DN_Process_CNT_Read p; DN_Process_CNT_Write :=
     DN_Process_CNT_Write p; DN_Process_Total_Read_Bytes := DN_Process_Total_Read_Bytes p;
     DN_Process_Total_Write_Bytes := DN_Process_Total_Write_Bytes p; DN_Process_Sample_Read :=
     DN_Process_Sample_Read p; DN_Process_Sample_Write := DN_Process_Sample_Write p |}.

Definition set_nn_query (x0 : Z) (x1 : Z) (p : perf_t) : perf_t :=
  {| Total_process_time := Total_process_time p; Total_process_cnt := Total_process_cnt p;
     NN_Process_Time_Query_Metadata := x0; NN_Process_Time_Alloc_Metadata_And_NoOld :=
     NN_Process_Time_Alloc_Metadata_And_NoOld p; NN_Process_Time_Alloc_Metadata_And_WithOld :=
     NN_Process_Time_Alloc_Metadata_And_WithOld p; NN_Process_CNT_Query_Metadata := x1;
     NN_Process_CNT_Alloc_Metadata_And_NoOld := NN_Process_CNT_Alloc_Metadata_And_NoOld p;
     NN_Process_CNT_Alloc_Metadata_And_WithOld := NN_Process_CNT_Alloc_Metadata_And_WithOld p; NN_Process_Sample
     := NN_Process_Sample p; DN_Process_Time_Read := DN_Process_Time_Read p; DN_Process_Time_Write :=
     DN_Process_Time_Write p; DN_Process_Time_Write_MemAck := DN_Process_Time_Write_MemAck p;
     DN_Process_CNT_Read := DN_Process_CNT_Read p; DN_Process_CNT_Write := DN_Process_CNT_Write p;
     DN_Process_Total_Read_Bytes := DN_Process_Total_Read_Bytes p; DN_Process_Total_Write_Bytes :=
     DN_Process_Total_Write_Bytes p; DN_Process_Sample_Read := DN_Process_Sample_Read p; DN_Process_Sample_Write
     := DN_Process_Sample_Write p |}.

Definition set_nn_noold (x0 : Z) (x1 : Z) (p : perf_t) : perf_t :=
  {| Total_process_time := Total_process_time p; Total_process_cnt := Total_process_cnt p;
     NN_Process_Time_Query_Metadata := NN_Process_Time_Query_Metadata p;
     NN_Process_Time_Alloc_Metadata_And_NoOld := x0; NN_Process_Time_Alloc_Metadata_And_WithOld :=
     NN_Process_Time_Alloc_Metadata_And_WithOld p; NN_Process_CNT_Query_Metadata :=
     NN_Process_CNT_Query_Metadata p; NN_Process_CNT_Alloc_Metadata_And_NoOld := x1;
     NN_Process_CNT_Alloc_Metadata_And_WithOld := NN_Process_CNT_Alloc_Metadata_And_WithOld p; NN_Process_Sample
     := NN_Process_Sample p; DN_Process_Time_Read := DN_Process_Time_Read p; DN_Process_Time_Write :=
     DN_Process_Time_Write p; DN_Process_Time_Write_MemAck := DN_Process_Time_Write_MemAck p;
     DN_Process_CNT_Read := DN_Process_CNT_Read p; DN_Process_CNT_Write := DN_Process_CNT_Write p;
     DN_Process_Total_Read_Bytes := DN_Process_Total_Read_Bytes p; DN_Process_Total_Write_Bytes :=
     DN_Process_Total_Write_Bytes p; DN_Process_Sample_Read := DN_Process_Sample_Read p; DN_Process_Sample_Write
     := DN_Process_Sample_Write p |}.

Definition set_nn_withold (x0 : Z) (x1 : Z) (p : perf_t) : perf_t :=
  {| Total_process_time := Total_process_time p; Total_process_cnt := Total_process_cnt p;
     NN_Process_Time_Query_Metadata := NN_Process_Time_Query_Metadata p;
     NN_Process_Time_Alloc_Metadata_And_NoOld := NN_Process_Time_Alloc_Metadata_And_NoOld p;
     NN_Process_Time_Alloc_Metadata_And_WithOld := x0; NN_Process_CNT_Query_Metadata :=
     NN_Process_CNT_Query_Metadata p; NN_Process_CNT_Alloc_Metadata_And_NoOld :=
     NN_Process_CNT_Alloc_Metadata_And_NoOld p; NN_Process_CNT_Alloc_Metadata_And_WithOld := x1;
     NN_Process_Sample := NN_Process_Sample p; DN_Process_Time_Read := DN_Process_Time_Read p;
     DN_Process_Time_Write := DN_Process_Time_Write p; DN_Process_Time_Write_MemAck :=
     DN_Process_Time_Write_MemAck p; DN_Process_CNT_Read := DN_Process_CNT_Read p; DN_Process_CNT_Write :=
     DN_Process_CNT_Write p; DN_Process_Total_Read_Bytes := DN_Process_Total_Read_Bytes p;
     DN_Process_Total_Write_Bytes := DN_Process_Total_Write_Bytes p; DN_Process_Sample_Read :=
     DN_Process_Sample_Read p; DN_Process_Sample_Write := DN_Process_Sample_Write p |}.

Definition set_dn_read (x0 : Z) (x1 : Z) (x2 : Z) (x3 : sample_t) (p : perf_t) : perf_t :=
  {| Total_process_time := Total_process_time p; Total_process_cnt := Total_process_cnt p;
     NN_Process_Time_Query_Metadata := NN_Process_Time_Query_Metadata p;
     NN_Process_Time_Alloc_Metadata_And_NoOld := NN_Process_Time_Alloc_Metadata_And_NoOld p;
     NN_Process_Time_Alloc_Metadata_And_WithOld := NN_Process_Time_Alloc_Metadata_And_WithOld p;
     NN_Process_CNT_Query_Metadata := NN_Process_CNT_Query_Metadata p; NN_Process_CNT_Alloc_Metadata_And_NoOld
     := NN_Process_CNT_Alloc_Metadata_And_NoOld p; NN_Process_CNT_Alloc_Metadata_And_WithOld :=
     NN_Process_CNT_Alloc_Metadata_And_WithOld p; NN_Process_Sample := NN_Process_Sample p; DN_Process_Time_Read
     := x0; DN_Process_Time_Write := DN_Process_Time_Write p; DN_Process_Time_Write_MemAck :=
     DN_Process_Time_Write_MemAck p; DN_Process_CNT_Read := x1; DN_Process_CNT_Write := DN_Process_CNT_Write p;
     DN_Process_Total_Read_Bytes := x2; DN_Process_Total_Write_Bytes := DN_Process_Total_Write_Bytes p;
     DN_Process_Sample_Read := x3; DN_Process_Sample_Write := DN_Process_Sample_Write p |}.

Definition set_dn_write (x0 : Z) (x1 : Z) (x2 : Z) (x3 : Z) (x4 : sample_t) (p : perf_t) : perf_t :=
  {| Total_process_time := Total_process_time p; Total_process_cnt := Total_process_cnt p;
     NN_Process_Time_Query_Metadata := NN_Process_Time_Query_Metadata p;
     NN_Process_Time_Alloc_Metadata_And_NoOld := NN_Process_Time_Alloc_Metadata_And_NoOld p;
     NN_Process_Time_Alloc_Metadata_And_WithOld := NN_Process_Time_Alloc_Metadata_And_WithOld p;
     NN_Process_CNT_Query_Metadata := NN_Process_CNT_Query_Metadata p; NN_Process_CNT_Alloc_Metadata_And_NoOld
     := NN_Process_CNT_Alloc_Metadata_And_NoOld p; NN_Process_CNT_Alloc_Metadata_And_WithOld :=
     NN_Process_CNT_Alloc_Metadata_And_WithOld p; NN_Process_Sample := NN_Process_Sample p; DN_Process_Time_Read
     := DN_Process_Time_Read p; DN_Process_Time_Write := x0; DN_Process_Time_Write_MemAck := x1;
     DN_Process_CNT_Read := DN_Process_CNT_Read p; DN_Process_CNT_Write := x2; DN_Process_Total_Read_Bytes :=
     DN_Process_Total_Read_Bytes p; DN_Process_Total_Write_Bytes := x3; DN_Process_Sample_Read :=
     DN_Process_Sample_Read p; DN_Process_Sample_Write := x4 |}.

Definition set_res_state (x0 : Z) (it : dms_res_item_t) : dms_res_item_t :=
  {| ri_ipaddr := ri_ipaddr it; ri_port := ri_port it; ri_type := ri_type it; res_id := res_id it; res_state :=
     x0; is_available := is_available it; fc_slow_start_rate := fc_slow_start_rate it; fc_start_max_reqs :=
     fc_start_max_reqs it; fc_rate_age_time := fc_rate_age_time it; fc_curr_rate := fc_curr_rate it;
     fc_curr_max_reqs := fc_curr_max_reqs it; alloc_out_res_rate := alloc_out_res_rate it; alloc_out_res_max :=
     alloc_out_res_max it; last_access_time := last_access_time it; res_response_time := res_response_time it;
     num_of_req_time_in_count := num_of_req_time_in_count it; total_response_time := total_response_time it;
     last_modified_index := last_modified_index it; number_timeout_occur := number_timeout_occur it; ri_perf :=
     ri_perf it |}.

Definition set_available (x0 : bool) (it : dms_res_item_t) : dms_res_item_t :=
  {| ri_ipaddr := ri_ipaddr it; ri_port := ri_port it; ri_type := ri_type it; res_id := res_id it; res_state :=
     res_state it; is_available := x0; fc_slow_start_rate := fc_slow_start_rate it; fc_start_max_reqs :=
     fc_start_max_reqs it; fc_rate_age_time := fc_rate_age_time it; fc_curr_rate := fc_curr_rate it;
     fc_curr_max_reqs := fc_curr_max_reqs it; alloc_out_res_rate := alloc_out_res_rate it; alloc_out_res_max :=
     alloc_out_res_max it; last_access_time := last_access_time it; res_response_time := res_response_time it;
     num_of_req_time_in_count := num_of_req_time_in_count it; total_response_time := total_response_time it;
     last_modified_index := last_modified_index it; number_timeout_occur := number_timeout_occur it; ri_perf :=
     ri_perf it |}.

Definition set_window (x0 : option (list Z)) (x1 : Z) (x2 : Z) (it : dms_res_item_t) : dms_res_item_t :=
  {| ri_ipaddr := ri_ipaddr it; ri_port := ri_port it; ri_type := ri_type it; res_id := res_id it; res_state :=
     res_state it; is_available := is_available it; fc_slow_start_rate := fc_slow_start_rate it;
     fc_start_max_reqs := fc_start_max_reqs it; fc_rate_age_time := fc_rate_age_time it; fc_curr_rate :=
     fc_curr_rate it; fc_curr_max_reqs := fc_curr_max_reqs it; alloc_out_res_rate := alloc_out_res_rate it;
     alloc_out_res_max := alloc_out_res_max it; last_access_time := last_access_time it; res_response_time :=
     x0; num_of_req_time_in_count := num_of_req_time_in_count it; total_response_time := x1; last_modified_index
     := x2; number_timeout_occur := number_timeout_occur it; ri_perf := ri_perf it |}.

Definition set_timeouts (x0 : Z) (it : dms_res_item_t) : dms_res_item_t :=
  {| ri_ipaddr := ri_ipaddr it; ri_port := ri_port it; ri_type := ri_type it; res_id := res_id it; res_state :=
     res_state it; is_available := is_available it; fc_slow_start_rate := fc_slow_start_rate it;
     fc_start_max_reqs := fc_start_max_reqs it; fc_rate_age_time := fc_rate_age_time it; fc_curr_rate :=
     fc_curr_rate it; fc_curr_max_reqs := fc_curr_max_reqs it; alloc_out_res_rate := alloc_out_res_rate it;
     alloc_out_res_max := alloc_out_res_max it; last_access_time := last_access_time it; res_response_time :=
     res_response_time it; num_of_req_time_in_count := num_of_req_time_in_count it; total_response_time :=
     total_response_time it; last_modified_index := last_modified_index it; number_timeout_occur := x0; ri_perf
     := ri_perf it |}.

Definition set_perf (x0 : perf_t) (it : dms_res_item_t) : dms_res_item_t :=
  {| ri_ipaddr := ri_ipaddr it; ri_port := ri_port it; ri_type := ri_type it; res_id := res_id it; res_state :=
     res_state it; is_available := is_available it; fc_slow_start_rate := fc_slow_start_rate it;
     fc_start_max_reqs := fc_start_max_reqs it; fc_rate_age_time := fc_rate_age_time it; fc_curr_rate :=
     fc_curr_rate it; fc_curr_max_reqs := fc_curr_max_reqs it; alloc_out_res_rate := alloc_out_res_rate it;
     alloc_out_res_max := alloc_out_res_max it; last_access_time := last_access_time it; res_response_time :=
     res_response_time it; num_of_req_time_in_count := num_of_req_time_in_count it; total_response_time :=
     total_response_time it; last_modified_index := last_modified_index it; number_timeout_occur :=
     number_timeout_occur it; ri_perf := x0 |}.

Definition set_curr (x0 : Z) (x1 : Z) (it : dms_res_item_t) : dms_res_item_t :=
  {| ri_ipaddr := ri_ipaddr it; ri_port := ri_port it; ri_type := ri_type it; res_id := res_id it; res_state :=
     res_state it; is_available := is_available it; fc_slow_start_rate := fc_slow_start_rate it;
     fc_start_max_reqs := fc_start_max_reqs it; fc_rate_age_time := fc_rate_age_time it; fc_curr_rate := x0;
     fc_curr_max_reqs := x1; alloc_out_res_rate := alloc_out_res_rate it; alloc_out_res_max := alloc_out_res_max
     it; last_access_time := last_access_time it; res_response_time := res_response_time it;
     num_of_req_time_in_count := num_of_req_time_in_count it; total_response_time := total_response_time it;
     last_modified_index := last_modified_index it; number_timeout_occur := number_timeout_occur it; ri_perf :=
     ri_perf it |}.

Definition set_rates (x0 : Z) (x1 : Z) (x2 : Z) (x3 : Z) (x4 : Z) (it : dms_res_item_t) : dms_res_item_t :=
  {| ri_ipaddr := ri_ipaddr it; ri_port := ri_port it; ri_type := ri_type it; res_id := res_id it; res_state :=
     res_state it; is_available := is_available it; fc_slow_start_rate := x0; fc_start_max_reqs := x1;
     fc_rate_age_time := x2; fc_curr_rate := x3; fc_curr_max_reqs := x4; alloc_out_res_rate :=
     alloc_out_res_rate it; alloc_out_res_max := alloc_out_res_max it; last_access_time := last_access_time it;
     res_response_time := res_response_time it; num_of_req_time_in_count := num_of_req_time_in_count it;
     total_response_time := total_response_time it; last_modified_index := last_modified_index it;
     number_timeout_occur := number_timeout_occur it; ri_perf := ri_perf it |}.

Definition set_out (x0 : Z) (x1 : Z) (it : dms_res_item_t) : dms_res_item_t :=
  {| ri_ipaddr := ri_ipaddr it; ri_port := ri_port it; ri_type := ri_type it; res_id := res_id it; res_state :=
     res_state it; is_available := is_available it; fc_slow_start_rate := fc_slow_start_rate it;
     fc_start_max_reqs := fc_start_max_reqs it; fc_rate_age_time := fc_rate_age_time it; fc_curr_rate :=
     fc_curr_rate it; fc_curr_max_reqs := fc_curr_max_reqs it; alloc_out_res_rate := x0; alloc_out_res_max :=
     x1; last_access_time := last_access_time it; res_response_time := res_response_time it;
     num_of_req_time_in_count := num_of_req_time_in_count it; total_response_time := total_response_time it;
     last_modified_index := last_modified_index it; number_timeout_occur := number_timeout_occur it; ri_perf :=
     ri_perf it |}.

Definition set_access (x0 : Z) (it : dms_res_item_t) : dms_res_item_t :=
  {| ri_ipaddr := ri_ipaddr it; ri_port := ri_port it; ri_type := ri_type it; res_id := res_id it; res_state :=
     res_state it; is_available := is_available it; fc_slow_start_rate := fc_slow_start_rate it;
     fc_start_max_reqs := fc_start_max_reqs it; fc_rate_age_time := fc_rate_age_time it; fc_curr_rate :=
     fc_curr_rate it; fc_curr_max_reqs := fc_curr_max_reqs it; alloc_out_res_rate := alloc_out_res_rate it;
     alloc_out_res_max := alloc_out_res_max it; last_access_time := x0; res_response_time := res_response_time
     it; num_of_req_time_in_count := num_of_req_time_in_count it; total_response_time := total_response_time it;
     last_modified_index := last_modified_index it; number_timeout_occur := number_timeout_occur it; ri_perf :=
     ri_perf it |}.

Definition set_fc_items (x0 : gmap Z dms_res_item_t) (w : fc_world) : fc_world :=
  {| fc_items := x0; fc_reslist := fc_reslist w; g_res_id := g_res_id w; wait_flag := wait_flag w |}.

Definition set_fc_list (x0 : list Z) (x1 : Z) (w : fc_world) : fc_world :=
  {| fc_items := fc_items w; fc_reslist := x0; g_res_id := x1; wait_flag := wait_flag w |}.

Definition set_wait_flag (x0 : Z) (w : fc_world) : fc_world :=
  {| fc_items := fc_items w; fc_reslist := fc_reslist w; g_res_id := g_res_id w; wait_flag := x0 |}.

Definition upd_item (p : Z) (f : dms_res_item_t -> dms_res_item_t) (w : fc_world) : option fc_world :=
  it ← fc_items w !! p; Some (set_fc_items (<[p := f it]> (fc_items w)) w).

(** ** Items *)

Definition init_sample (s : sample_t) : sample_t :=
  {| Sample_Start_Time := 0; Sample_End_Time := 0; Sample_TP := 0; Sample_IOPS := 0; Sample_Bytes := 0;
     Sample_CNT := Sample_CNT s |}.

(** The counts of the samples keep their values. *)
Definition init_res_perf_data (p : perf_t) : perf_t :=
  {| Total_process_time := 0; Total_process_cnt := 0; NN_Process_Time_Query_Metadata := 0;
     NN_Process_Time_Alloc_Metadata_And_NoOld := 0; NN_Process_Time_Alloc_Metadata_And_WithOld := 0;
     NN_Process_CNT_Query_Metadata := 0; NN_Process_CNT_Alloc_Metadata_And_NoOld := 0;
     NN_Process_CNT_Alloc_Metadata_And_WithOld := 0; NN_Process_Sample := init_sample (NN_Process_Sample p);
     DN_Process_Time_Read := 0; DN_Process_Time_Write := 0; DN_Process_Time_Write_MemAck := 0;
     DN_Process_CNT_Read := 0; DN_Process_CNT_Write := 0; DN_Process_Total_Read_Bytes := 0;
     DN_Process_Total_Write_Bytes := 0; DN_Process_Sample_Read := init_sample (DN_Process_Sample_Read p);
     DN_Process_Sample_Write := init_sample (DN_Process_Sample_Write p) |}.

(** The memory of a new item is zero. *)
Definition zero_sample : sample_t :=
  {| Sample_Start_Time := 0; Sample_End_Time := 0; Sample_TP := 0; Sample_IOPS := 0; Sample_Bytes := 0; Sample_CNT := 0 |}.

Definition zero_perf : perf_t :=
  {| Total_process_time := 0; Total_process_cnt := 0; NN_Process_Time_Query_Metadata := 0;
     NN_Process_Time_Alloc_Metadata_And_NoOld := 0; NN_Process_Time_Alloc_Metadata_And_WithOld := 0;
     NN_Process_CNT_Query_Metadata := 0; NN_Process_CNT_Alloc_Metadata_And_NoOld := 0;
     NN_Process_CNT_Alloc_Metadata_And_WithOld := 0; NN_Process_Sample := zero_sample;
     DN_Process_Time_Read := 0; DN_Process_Time_Write := 0; DN_Process_Time_Write_MemAck := 0;
     DN_Process_CNT_Read := 0; DN_Process_CNT_Write := 0; DN_Process_Total_Read_Bytes := 0;
     DN_Process_Total_Write_Bytes := 0; DN_Process_Sample_Read := zero_sample; DN_Process_Sample_Write := zero_sample |}.

(** [new_res], [array]: what the two allocations return.  The messages for a failed first
    allocation read the address out of the NULL item; a failed second allocation is not
    noticed. *)
Definition create_resource_item (ipaddr port : Z) (type : res_type_t) (id : Z) (is_avail : bool)
    (new_res : option Z) (array : bool) : option (Z * dms_res_item_t) :=
  p ← new_res;
  Some (p,
    {| ri_ipaddr := ipaddr; ri_port := port; ri_type := type; res_id := u16 id;
       res_state := RESOURCES_STAT_DATA_COLLECTING; is_available := is_avail;
       fc_slow_start_rate := match type with RES_TYPE_NN => DEFAULT_NN_SLOW_START_RATE | RES_TYPE_DN => DEFAULT_DN_SLOW_START_RATE end;
       fc_start_max_reqs := match type with RES_TYPE_NN => DEFAULT_NN_MAX_REQUESTS | RES_TYPE_DN => DEFAULT_DN_MAX_REQUESTS end;
       fc_rate_age_time := match type with RES_TYPE_NN => DEFAULT_NN_RATE_AGE_TIME | RES_TYPE_DN => DEFAULT_DN_RATE_AGE_TIME end;
       fc_curr_rate := match type with RES_TYPE_NN => DEFAULT_NN_FIXED_RATE | RES_TYPE_DN => DEFAULT_DN_FIXED_RATE end;
       fc_curr_max_reqs := match type with RES_TYPE_NN => DEFAULT_NN_MAX_REQUESTS | RES_TYPE_DN => DEFAULT_DN_MAX_REQUESTS end;
       alloc_out_res_rate := 0; alloc_out_res_max := 0; last_access_time := 0;
       res_response_time := if array then Some (replicate (Z.to_nat DEFAULT_NUM_REQ_IN_COUNT) 0) else None;
       num_of_req_time_in_count := DEFAULT_NUM_REQ_IN_COUNT; total_response_time := 0; last_modified_index := 0;
       number_timeout_occur := 0; ri_perf := zero_perf |}).

Fixpoint find_in_reslist (ipaddr port : Z) (items : gmap Z dms_res_item_t) (l : list Z) : option Z :=
  match l with
  | [] => Some 0
  | cur :: l =>
      it ← items !! cur;
      if (ipaddr =? ri_ipaddr it) && (ri_port it =? port) then Some cur else find_in_reslist ipaddr port items l
  end.

Definition find_resource_item (ipaddr port : Z) (w : fc_world) : option Z :=
  find_in_reslist ipaddr port (fc_items w) (fc_reslist w).

Definition add_resource_item (ipaddr port : Z) (type : res_type_t) (is_avail : bool) (new_res : option Z) (array : bool)
    (w : fc_world) : option (fc_world * Z) :=
  p ← find_resource_item ipaddr port w;
  if p =? 0 then
    '(p, it) ← create_resource_item ipaddr port type (g_res_id w) is_avail new_res array;
    Some (set_fc_list (fc_reslist w ++ [p]) (u32 (g_res_id w + 1)) (set_fc_items (<[p := it]> (fc_items w)) w), p)
  else Some (w, p).

Definition add_NN_Resource (ipaddr port : Z) (new_res : option Z) (array : bool) (w : fc_world) : option (fc_world * Z) :=
  add_resource_item ipaddr port RES_TYPE_NN true new_res array w.

(** ** Health of the datanodes *)

Definition Check_DN_Resources_Is_Available (ipaddr port : Z) (new_res : option Z) (array : bool) (w : fc_world)
  : option (fc_world * Z) :=
  '(w, p) ← add_resource_item ipaddr port RES_TYPE_DN true new_res array w;
  it ← fc_items w !! p;
  Some (w, if negb (is_available it) then RESOURCES_IS_NOT_AVAILABLE else s32 (number_timeout_occur it)).

(** The body of [set_res_available] on the item that was found. *)
Definition set_item_available (is_available : bool) (it : dms_res_item_t) : option dms_res_item_t :=
  let it := set_available is_available it in
  if negb is_available then
    a ← (if num_of_req_time_in_count it <=? 0 then Some (res_response_time it)
         else a ← res_response_time it;
              if num_of_req_time_in_count it <=? Z.of_nat (length a) then
                Some (Some (replicate (Z.to_nat (num_of_req_time_in_count it)) 0 ++ drop (Z.to_nat (num_of_req_time_in_count it)) a))
              else None);
    Some (set_timeouts 0 (set_window a 0 (last_modified_index it) it))
  else Some it.

Definition set_res_available (ipaddr port : Z) (is_available : bool) (w : fc_world) : option fc_world :=
  p ← find_resource_item ipaddr port w;
  if p =? 0 then Some w
  else it ← fc_items w !! p; it ← set_item_available is_available it; upd_item p (fun _ => it) w.

Definition add_request_timeout_record (ipaddr port : Z) (w : fc_world) : option fc_world :=
  p ← find_resource_item ipaddr port w;
  if p =? 0 then Some w
  else upd_item p (fun it => set_timeouts (s64 (number_timeout_occur it + 1)) it) w.

Definition dec_request_timeout_record (ipaddr port : Z) (w : fc_world) : option fc_world :=
  p ← find_resource_item ipaddr port w;
  if p =? 0 then Some w
  else upd_item p (fun it => if number_timeout_occur it >? 1 then set_timeouts (s64 (number_timeout_occur it - 1)) it else it) w.

(** ** Response times *)

Definition get_res_avg_resp_time (it : dms_res_item_t) : Z :=
  if (res_state it =? RESOURCES_STAT_DATA_READY) && is_available it then
    s32 (do_divide (total_response_time it) (num_of_req_time_in_count it))
  else if negb (is_available it) then DMS_RESOURCE_NOT_AVAILABLE
  else DMS_RESOURCE_NOT_READY.

(** The ring of the last response times (lines 599 to 612). *)
Definition add_to_window (time_period : Z) (it : dms_res_item_t) : option dms_res_item_t :=
  let idx := s32 (last_modified_index it + 1) in
  let it :=
    if (res_state it =? RESOURCES_STAT_DATA_COLLECTING) && (u32 idx =? num_of_req_time_in_count it)
    then set_res_state RESOURCES_STAT_DATA_READY it else it in
  let idx := if u32 idx =? num_of_req_time_in_count it then 0 else idx in
  let total := u64 (total_response_time it + time_period) in
  a ← res_response_time it;
  if 0 <=? idx then
    old ← a !! Z.to_nat idx;
    Some (set_window (Some (<[Z.to_nat idx := time_period]> a)) (u64 (total - old)) idx it)
  else None.

Section clock.
(** The kernel's conversions of a time in ticks. *)
Context (jiffies_to_msecs jiffies_to_usecs : Z -> Z).

(** One answer in a sample (lines 627 to 656, and the same for reads and writes); [cnt] is the counter
    that says whether the sample is full. *)
Definition sample_add (cnt ts_start ts_end num_of_bytes : Z) (s : sample_t) : sample_t :=
  let kb := Z.shiftr num_of_bytes BIT_LEN_KBYTES in
  let s := set_sample_end (s64 ts_end) (s64 (Sample_Bytes s + kb)) (s64 (Sample_CNT s + 1)) s in
  if Z.rem cnt MAX_NUM_OF_SAMPLE =? 0 then set_sample_start (s64 ts_start) (s64 kb) 1 s
  else if Z.rem cnt MAX_NUM_OF_SAMPLE =? MAX_NUM_OF_SAMPLE - 1 then
    let tmp :=
      if Sample_End_Time s >? Sample_Start_Time s
      then jiffies_to_msecs (u64 (Sample_End_Time s - Sample_Start_Time s)) else 0 in
    if tmp >? 0 then
      set_sample_rate (s64 (MAX_NUM_OF_SAMPLE * 1000 / tmp)) (s64 (u64 (s64 (Sample_Bytes s * 1000)) / tmp)) s
    else set_sample_rate 0 0 s
  else s.

(** The counters of an answer (lines 614 to 756); [usec], [usec_memack]: the times since the request. *)
Definition add_perf (usec usec_memack : Z) (type : res_type_t) (sub_type ts_start ts_end num_of_bytes : Z) (p : perf_t) : perf_t :=
  if usec >=? 0 then
    let t := s64 (Total_process_time p + usec) in
    let p := if t <? 0 then set_total usec 0 (init_res_perf_data p) else set_total t (Total_process_cnt p) p in
    let p := set_total (Total_process_time p) (s64 (Total_process_cnt p + 1)) p in
    match type with
    | RES_TYPE_NN =>
        let p := set_nn_sample (sample_add (Total_process_cnt p) ts_start ts_end num_of_bytes (NN_Process_Sample p)) p in
        if sub_type =? NN_RESPONSE_SUB_TYPE_QUERY_METADATA then
          set_nn_query (s64 (NN_Process_Time_Query_Metadata p + usec)) (s64 (NN_Process_CNT_Query_Metadata p + 1)) p
        else if sub_type =? NN_RESPONSE_SUB_TYPE_ALLOC_METADATA_NoOld then
          set_nn_noold (s64 (NN_Process_Time_Alloc_Metadata_And_NoOld p + usec))
            (s64 (NN_Process_CNT_Alloc_Metadata_And_NoOld p + 1)) p
        else if sub_type =? NN_RESPONSE_SUB_TYPE_ALLOC_METADATA_WithOld then
          set_nn_withold (s64 (NN_Process_Time_Alloc_Metadata_And_WithOld p + usec))
            (s64 (NN_Process_CNT_Alloc_Metadata_And_WithOld p + 1)) p
        else p
    | RES_TYPE_DN =>
        if sub_type =? DN_RESPONSE_SUB_TYPE_Read then
          let c := s64 (DN_Process_CNT_Read p + 1) in
          set_dn_read (s64 (DN_Process_Time_Read p + usec)) c
            (s64 (DN_Process_Total_Read_Bytes p + Z.shiftr num_of_bytes BIT_LEN_KBYTES))
            (sample_add c ts_start ts_end num_of_bytes (DN_Process_Sample_Read p)) p
        else if sub_type =? DN_RESPONSE_SUB_TYPE_Write then
          if negb (usec =? -1) && negb (usec_memack =? -1) then
            let c := s64 (DN_Process_CNT_Write p + 1) in
            set_dn_write (s64 (DN_Process_Time_Write p + usec)) (s64 (DN_Process_Time_Write_MemAck p + usec_memack)) c
              (s64 (DN_Process_Total_Write_Bytes p + num_of_bytes / 1024))
              (sample_add c ts_start ts_end num_of_bytes (DN_Process_Sample_Write p)) p
          else p
        else p
    end
  else p.

(** The time between two points, in seconds and microseconds (lines 564 to 577). *)
Definition resp_period (ts_start ts_end : Z) : Z :=
  if time_after64 ts_start ts_end then 0 else jiffies_to_msecs (u64 (ts_end - ts_start)) / 1000.

Definition resp_usec (ts_start ts_end : Z) : Z :=
  if time_after64 ts_start ts_end then -1 else jiffies_to_usecs (u64 (ts_end - ts_start)).

(** [show] is [show_performance_data] of the configuration. *)
Definition add_req_response_time (show : bool) (ts_start ts_end w_memack_ts_end : Z) (type : res_type_t)
    (sub_type ipaddr port num_of_bytes : Z) (new_res : option Z) (array : bool) (w : fc_world) : option (fc_world * Z) :=
  '(w, p) ← add_resource_item ipaddr port type true new_res array w;
  it ← fc_items w !! p;
  if negb (is_available it) then Some (w, 0)
  else
    it ← add_to_window (resp_period ts_start ts_end) it;
    let it :=
      if show then
        set_perf (add_perf (resp_usec ts_start ts_end) (resp_usec ts_start w_memack_ts_end) type sub_type ts_start ts_end
                    num_of_bytes (ri_perf it)) it
      else it in
    w ← upd_item p (fun _ => it) w;
    Some (w, 0).

(** ** Slots and rates *)

Definition update_res_rate_timeout (it : dms_res_item_t) : dms_res_item_t :=
  let min_max :=
    if fc_curr_max_reqs it >=? MIN_NN_MAX_REQUESTS_TIMEOUT then Z.shiftr (fc_curr_max_reqs it) 1
    else MIN_NN_MAX_REQUESTS_TIMEOUT in
  let min_rate :=
    if fc_curr_rate it >? MIN_NN_FIXED_RATE_TIMEOUT then Z.shiftr (fc_curr_rate it) 1 else MIN_NN_FIXED_RATE_TIMEOUT in
  set_curr min_rate min_max it.

Definition update_resource_rate (slow_start_rate start_max_reqs rate_age_time curr_rate curr_max_reqs : Z)
    (it : dms_res_item_t) : dms_res_item_t :=
  let min_max := if curr_max_reqs >? 0 then curr_max_reqs else MIN_NN_MAX_REQUESTS_TIMEOUT in
  set_rates slow_start_rate start_max_reqs rate_age_time curr_rate min_max it.

(** The body of the loop of [update_all_resource_rate]. *)
Definition update_one_rate (curr_time : Z) (cur : dms_res_item_t) : dms_res_item_t :=
  let cur := set_out 0 (alloc_out_res_max cur) cur in
  if time_after64 curr_time (last_access_time cur) then
    let time_period := jiffies_to_msecs (u64 (curr_time - last_access_time cur)) / 1000 in
    if time_period >? fc_rate_age_time cur then set_curr (fc_slow_start_rate cur) (fc_start_max_reqs cur) cur else cur
  else cur.

Fixpoint upd_all (f : dms_res_item_t -> dms_res_item_t) (l : list Z) (w : fc_world) : option fc_world :=
  match l with
  | [] => Some w
  | p :: l => w ← upd_item p f w; upd_all f l w
  end.

Definition update_all_resource_rate (curr_time : Z) (w : fc_world) : option fc_world :=
  upd_all (update_one_rate curr_time) (fc_reslist w) w.

Definition reset_all_res_perf_data (w : fc_world) : option fc_world :=
  upd_all (fun it => set_perf (init_res_perf_data (ri_perf it)) it) (fc_reslist w) w.

Definition dec_res_rate_max_reqs (p : Z) (w : fc_world) : option fc_world :=
  if p =? 0 then Some w
  else
    it ← fc_items w !! p;
    let out := s32 (alloc_out_res_max it - 1) in
    w ← upd_item p (set_out (alloc_out_res_rate it) out) w;
    Some (if out <? fc_curr_max_reqs it then set_wait_flag 0 w else w).

(** [curr_time] is [jiffies_64] at the start and at the end of the call. *)
Definition alloc_res (curr_time : Z) (p io_start_time num_reqs_need : Z) (w : fc_world) : option (fc_world * Z) :=
  if p =? 0 then Some (w, FC_NO_BLOCK)
  else
    it ← fc_items w !! p;
    let local_res_max := s32 (alloc_out_res_max it + num_reqs_need) in
    let local_res_rate := s32 (alloc_out_res_rate it + num_reqs_need) in
    let '(ret, w) :=
      if local_res_max <=? fc_curr_max_reqs it then
        if fc_curr_rate it =? NN_RATE_NO_LIMIT then (FC_NO_BLOCK, w)
        else if local_res_rate <? fc_curr_rate it then (FC_NO_BLOCK, w)
        else if time_after64 curr_time io_start_time then
          let ret := s32 (jiffies_to_msecs (u64 (curr_time - io_start_time))) in
          (if ret >? 1000 then 1000 else ret, w)
        else (FC_NO_BLOCK, w)
      else (FC_MAX_RES_REQUESTS, set_wait_flag 1 w) in
    w ← upd_item p (fun it =>
          if negb (ret =? FC_NO_BLOCK) then
            set_out (s32 (local_res_rate - num_reqs_need)) (s32 (local_res_max - num_reqs_need)) it
          else set_access curr_time (set_out local_res_rate local_res_max it)) w;
    Some (w, ret).

Definition alloc_res_no_fc (p num_reqs_need : Z) (w : fc_world) : option fc_world :=
  if p =? 0 then Some w
  else upd_item p (fun it => set_out (s32 (alloc_out_res_rate it + num_reqs_need)) (s32 (alloc_out_res_max it + num_reqs_need)) it) w.

Definition should_trigger_fc (curr_time : Z) (p need_nn_res io_start_time : Z) (w : fc_world) : option (fc_world * Z) :=
  if need_nn_res =? 0 then Some (w, FC_NO_BLOCK)
  else if p =? 0 then Some (w, FC_NO_BLOCK)
  else
    it ← fc_items w !! p;
    if is_available it then alloc_res curr_time p (u64 io_start_time) need_nn_res w
    else Some (w, FC_RES_CONNECTION_LOST).

(** The values of the first namenode in the list; [None] inside: the arguments stay as they are. *)
Fixpoint nn_rate_in (items : gmap Z dms_res_item_t) (l : list Z) : option (option (Z * Z * Z * Z * Z * Z)) :=
  match l with
  | [] => Some None
  | cur :: l =>
      it ← items !! cur;
      if bool_decide (RES_TYPE_NN = ri_type it) then
        Some (Some (fc_slow_start_rate it, fc_start_max_reqs it, fc_curr_rate it, fc_curr_max_reqs it,
                    alloc_out_res_rate it, alloc_out_res_max it))
      else nn_rate_in items l
  end.

Definition get_nn_res_rate (w : fc_world) : option (option (Z * Z * Z * Z * Z * Z)) := nn_rate_in (fc_items w) (fc_reslist w).

(** ** Groups of a volume *)

(** The loop over a group, which ends at the first server that has no average yet. *)
Fixpoint slowest_loop (items : gmap Z dms_res_item_t) (slowest_res : Z) (group : list Z) : option Z :=
  match group with
  | [] => Some slowest_res
  | p :: group =>
      if p =? 0 then slowest_loop items slowest_res group
      else
        it ← items !! p;
        let res := get_res_avg_resp_time it in
        if res >=? 0 then slowest_loop items (if res >=? slowest_res then res else slowest_res) group
        else if res =? DMS_RESOURCE_NOT_READY then Some DMS_RESOURCE_NOT_READY
        else slowest_loop items slowest_res group
  end.

Definition get_slowest_res_resp_time (g : dms_fc_group_t) (type : res_type_t) (w : fc_world) : option Z :=
  slowest_loop (fc_items w) (-1)
    match type with RES_TYPE_NN => nn_speed_group g | RES_TYPE_DN => dn_speed_group g end.

Definition get_fc_resp_time (g : dms_fc_group_t) (type : res_type_t) (w : fc_world) : option Z :=
  avg ← get_slowest_res_resp_time g type w;
  Some (if avg =? DMS_RESOURCE_NOT_READY then 0 else if avg =? DMS_RESOURCE_NOT_AVAILABLE then 0 else avg).

(** The slot for a server: where it is already, else the first that is free. *)
Fixpoint group_slot (p : Z) (i : nat) (add_index : option nat) (group : list Z) : bool * option nat :=
  match group with
  | [] => (false, add_index)
  | q :: group =>
      if p =? q then (true, add_index)
      else group_slot p (S i) (match add_index with Some _ => add_index | None => if q =? 0 then Some i else None end) group
  end.

Definition group_add (p : Z) (group : list Z) : list Z :=
  match group_slot p 0 None group with
  | (true, _) => group
  | (false, Some i) => <[i := p]> group
  | (false, None) => group
  end.

Definition add_res_to_fc_group (p : Z) (g : dms_fc_group_t) (type : res_type_t) : dms_fc_group_t :=
  match type with
  | RES_TYPE_NN =>
      {| fg_volume_id := fg_volume_id g; nn_speed_group := group_add p (nn_speed_group g); dn_speed_group := dn_speed_group g |}
  | RES_TYPE_DN =>
      {| fg_volume_id := fg_volume_id g; nn_speed_group := nn_speed_group g; dn_speed_group := group_add p (dn_speed_group g) |}
  end.

Definition add_res_to_fc_group_by_hostname (ipaddr port : Z) (g : dms_fc_group_t) (type : res_type_t) (w : fc_world)
  : option (dms_fc_group_t * Z) :=
  p ← find_resource_item ipaddr port w;
  Some (if p =? 0 then (g, -1) else (add_res_to_fc_group p g type, 0)).

Definition create_fc_group (volumeID : Z) : dms_fc_group_t :=
  {| fg_volume_id := volumeID; nn_speed_group := replicate MAX_NN_RES_IN_SPEED_GROUP 0;
     dn_speed_group := replicate MAX_DN_RES_IN_SPEED_GROUP 0 |}.

(** The addresses and ports that are written to the buffer. *)
Fixpoint active_dn (items : gmap Z dms_res_item_t) (group : list Z) : option (list Z) :=
  match group with
  | [] => Some []
  | p :: group =>
      if p =? 0 then active_dn items group
      else it ← items !! p; l ← active_dn items group; Some (s32 (ri_ipaddr it) :: s32 (ri_port it) :: l)
  end.

Definition get_vol_active_dn (g : dms_fc_group_t) (w : fc_world) : option (list Z * Z) :=
  l ← active_dn (fc_items w) (dn_speed_group g); Some (l, Z.of_nat (length l) / 2).

(** ** Averages *)

(** What the four functions report for a server without data. *)
Definition no_data (it : dms_res_item_t) : Z :=
  if negb (is_available it) then DMS_RESOURCE_NOT_AVAILABLE else DMS_RESOURCE_NOT_READY.

Definition has_data (it : dms_res_item_t) : bool := (res_state it =? RESOURCES_STAT_DATA_READY) && is_available it.

Definition Get_NN_Sample_Performance (it : dms_res_item_t) : Z * Z * Z * Z :=
  if has_data it then
    let s := NN_Process_Sample (ri_perf it) in
    let period := u64 (jiffies_to_msecs (u64 (Sample_End_Time s - Sample_Start_Time s)) / 1000) in
    (s32 (Sample_TP s), s32 (Sample_IOPS s), s32 (do_divide (u64 (Sample_Bytes s)) period), s32 (do_divide (u64 (Sample_CNT s)) period))
  else let n := no_data it in (n, n, n, n).

(** The rates of the writes are computed with the period of the reads. *)
Definition Get_DN_Sample_Performance (it : dms_res_item_t) : (Z * Z * Z * Z) * (Z * Z * Z * Z) :=
  if has_data it then
    let r := DN_Process_Sample_Read (ri_perf it) in
    let s := DN_Process_Sample_Write (ri_perf it) in
    let period_read := u64 (jiffies_to_msecs (u64 (Sample_End_Time r - Sample_Start_Time r)) / 1000) in
    ((s32 (Sample_TP r), s32 (Sample_IOPS r), s32 (Sample_TP s), s32 (Sample_IOPS s)),
     (s32 (do_divide (u64 (Sample_Bytes r)) period_read), s32 (do_divide (u64 (Sample_CNT r)) period_read),
      s32 (do_divide (u64 (Sample_Bytes s)) period_read), s32 (do_divide (u64 (Sample_CNT s)) period_read)))
  else let n := no_data it in ((n, n, n, n), (n, n, n, n)).

Definition Get_NN_Avg_Latency_Time (it : dms_res_item_t) : Z * Z * Z * Z :=
  let p := ri_perf it in
  if has_data it then
    (s32 (do_divide (u64 (Total_process_time p)) (u64 (Total_process_cnt p))),
     s32 (do_divide (u64 (NN_Process_Time_Query_Metadata p)) (u64 (NN_Process_CNT_Query_Metadata p))),
     s32 (do_divide (u64 (NN_Process_Time_Alloc_Metadata_And_NoOld p)) (u64 (NN_Process_CNT_Alloc_Metadata_And_NoOld p))),
     s32 (do_divide (u64 (NN_Process_Time_Alloc_Metadata_And_WithOld p)) (u64 (NN_Process_CNT_Alloc_Metadata_And_WithOld p))))
  else let n := no_data it in (n, n, n, n).

(** Without data the latency of the memory acknowledgements is 0. *)
Definition Get_DN_Avg_Latency_Time (it : dms_res_item_t) : Z * Z * Z * Z :=
  let p := ri_perf it in
  if has_data it then
    (s32 (do_divide (u64 (Total_process_time p)) (u64 (Total_process_cnt p))),
     s32 (do_divide (u64 (DN_Process_Time_Read p)) (u64 (DN_Process_CNT_Read p))),
     s32 (do_divide (u64 (DN_Process_Time_Write p)) (u64 (DN_Process_CNT_Write p))),
     s32 (do_divide (u64 (DN_Process_Time_Write_MemAck p)) (u64 (DN_Process_CNT_Write p))))
  else let n := no_data it in (n, n, n, 0).

(** Six numbers per datanode. *)
Fixpoint dn_latency (items : gmap Z dms_res_item_t) (l : list Z) : option (list Z) :=
  match l with
  | [] => Some []
  | cur :: l =>
      it ← items !! cur;
      rest ← dn_latency items l;
      match ri_type it with
      | RES_TYPE_NN => Some rest
      | RES_TYPE_DN =>
          let '(_, r, s, _) := Get_DN_Avg_Latency_Time it in
          Some ([s32 (ri_ipaddr it); s32 (ri_port it); s; s; r; r] ++ rest)
      end
  end.

Definition get_dn_latency_info (w : fc_world) : option (list Z * Z) :=
  l ← dn_latency (fc_items w) (fc_reslist w); Some (l, Z.of_nat (length l) / 6).

(** ** The module *)

Definition init_flow_control : fc_world := {| fc_items := ∅; fc_reslist := []; g_res_id := 0; wait_flag := 0 |}.

(** [release_all_resource_items]: the first item is taken from the list and freed, until the list is empty. *)
Fixpoint release_items (l : list Z) (w : fc_world) : option fc_world :=
  match l with
  | [] => Some w
  | p :: l => _ ← fc_items w !! p; release_items l (set_fc_list l (g_res_id w) (set_fc_items (delete p (fc_items w)) w))
  end.

Definition release_flow_control (w : fc_world) : option fc_world := release_items (fc_reslist w) w.

End clock.
