(* ===== verification/FlowControlSpec.v ===== *)
(** * FlowControlSpec: what the flow control knows of a server

    The abstract state of one server ([srv]) depends only on the history of that server: whether it is
    connected, its last ten response times, and how many timeouts are on record.  The store of items refines
    it for every server and every order of events.  With the replica selection: a datanode with
    a timeout on record is read only when no other replica is usable.  Then the slots: requests
    that are out never exceed the limit, and the limits after timeouts. *)

From S2P Require Import Prelude CommonUtil MDataCommit ReplicaSelector FlowControl.

(** ** Events *)

Inductive fc_ev : Type :=
| Fe_resp (ip port ts_start ts_end ts_mem : Z) (type : res_type_t) (sub bytes : Z) (p : Z)
| Fe_check (ip port p : Z)
| Fe_timeout (ip port : Z)
| Fe_answer (ip port : Z)
| Fe_avail (ip port : Z) (b : bool)
| Fe_rates (now : Z).

Section run.
Context (jiffies_to_msecs jiffies_to_usecs : Z -> Z) (show : bool).

(** [p] is what the allocator returns if it is called. *)
Definition fc_step (e : fc_ev) (w : fc_world) : option fc_world :=
  match e with
  | Fe_resp ip port s t m type sub bytes p =>
      fst <$> add_req_response_time jiffies_to_msecs jiffies_to_usecs show s t m type sub ip port bytes (Some p) true w
  | Fe_check ip port p => fst <$> Check_DN_Resources_Is_Available ip port (Some p) true w
  | Fe_timeout ip port => add_request_timeout_record ip port w
  | Fe_answer ip port => dec_request_timeout_record ip port w
  | Fe_avail ip port b => set_res_available ip port b w
  | Fe_rates now => update_all_resource_rate jiffies_to_msecs now w
  end.

(** The allocator returns addresses that are not in use, and never NULL. *)
Definition fc_allowed (e : fc_ev) (w : fc_world) : Prop :=
  match e with
  | Fe_resp _ _ _ _ _ _ _ _ p | Fe_check _ _ p => p <> 0 /\ fc_items w !! p = None
  | _ => True
  end.

Inductive fc_steps : fc_world -> list fc_ev -> fc_world -> Prop :=
| fc_nil w : fc_steps w [] w
| fc_cons w e w1 evs w2 : fc_allowed e w -> fc_step e w = Some w1 -> fc_steps w1 evs w2 -> fc_steps w (e :: evs) w2.

(** ** The abstract server *)

Record srv : Type := {
  sv_avail : bool;
  sv_last : list Z;
  sv_seen : Z;
  sv_timeouts : Z;
}.

Definition srv_new : srv := {| sv_avail := true; sv_last := replicate 10 0; sv_seen := 0; sv_timeouts := 0 |}.

Definition srv_resp (t : Z) (s : srv) : srv :=
  if sv_avail s then
    {| sv_avail := true; sv_last := drop 1 (sv_last s) ++ [t]; sv_seen := sv_seen s + 1; sv_timeouts := sv_timeouts s |}
  else s.

(** The state of the server [(ip, port)], when it is known, after an event. *)
Definition srv_step (ip port : Z) (e : fc_ev) (s : option srv) : option srv :=
  match e with
  | Fe_resp ip' port' a b _ _ _ _ _ =>
      if decide ((ip', port') = (ip, port)) then Some (srv_resp (resp_period jiffies_to_msecs a b) (default srv_new s)) else s
  | Fe_check ip' port' _ => if decide ((ip', port') = (ip, port)) then Some (default srv_new s) else s
  | Fe_timeout ip' port' =>
      if decide ((ip', port') = (ip, port)) then
        (fun s => {| sv_avail := sv_avail s; sv_last := sv_last s; sv_seen := sv_seen s; sv_timeouts := sv_timeouts s + 1 |}) <$> s
      else s
  | Fe_answer ip' port' =>
      if decide ((ip', port') = (ip, port)) then
        (fun s => {| sv_avail := sv_avail s; sv_last := sv_last s; sv_seen := sv_seen s;
                     sv_timeouts := if sv_timeouts s >? 1 then sv_timeouts s - 1 else sv_timeouts s |}) <$> s
      else s
  | Fe_avail ip' port' b =>
      if decide ((ip', port') = (ip, port)) then
        (fun s => if b then {| sv_avail := true; sv_last := sv_last s; sv_seen := sv_seen s; sv_timeouts := sv_timeouts s |}
                  else {| sv_avail := false; sv_last := replicate 10 0; sv_seen := sv_seen s; sv_timeouts := 0 |}) <$> s
      else s
  | Fe_rates _ => s
  end.

Definition srv_run (ip port : Z) (evs : list fc_ev) : option srv := foldl (fun s e => srv_step ip port e s) None evs.

(** The average of the last ten answers, once there were ten. *)
Definition srv_avg (s : srv) : Z :=
  if sv_avail s then if sv_seen s >=? 10 then zsum (sv_last s) / 10 else DMS_RESOURCE_NOT_READY
  else DMS_RESOURCE_NOT_AVAILABLE.

(** What the replica selection hears. *)
Definition srv_health (s : srv) : Z := if sv_avail s then sv_timeouts s else RESOURCES_IS_NOT_AVAILABLE.

(** ** The relation *)

(** [n] bounds the number of events so far. *)
Record srv_item (n : Z) (s : srv) (it : dms_res_item_t) : Prop := {
  io_avail : is_available it = sv_avail s;
  io_num : num_of_req_time_in_count it = 10;
  io_seen : 0 <= sv_seen s <= n;
  io_idx : last_modified_index it = sv_seen s mod 10;
  io_state : res_state it = if sv_seen s >=? 10 then RESOURCES_STAT_DATA_READY else RESOURCES_STAT_DATA_COLLECTING;
  io_ring : exists a, res_response_time it = Some a /\ length a = 10%nat /\
    sv_last s = drop (Z.to_nat (last_modified_index it + 1)) a ++ take (Z.to_nat (last_modified_index it + 1)) a;
  io_bound : Forall (fun t => 0 <= t < 2 ^ 23) (sv_last s);
  io_total : total_response_time it = zsum (sv_last s);
  io_to : number_timeout_occur it = sv_timeouts s;
  io_to_range : 0 <= sv_timeouts s <= n;
}.

Lemma srv_item_mono n m s it : n <= m -> srv_item n s it -> srv_item m s it.
Proof. intros Hn [? ? ? ? ? ? ? ? ? ?]. split; auto; lia. Qed.

(** Only the fields of the relation matter. *)
Lemma srv_item_ext n s it it' :
  srv_item n s it -> is_available it' = is_available it -> num_of_req_time_in_count it' = num_of_req_time_in_count it ->
  last_modified_index it' = last_modified_index it -> res_state it' = res_state it ->
  res_response_time it' = res_response_time it -> total_response_time it' = total_response_time it ->
  number_timeout_occur it' = number_timeout_occur it -> srv_item n s it'.
Proof. intros [] E1 E2 E3 E4 E5 E6 E7. split; rewrite ?E1, ?E2, ?E3, ?E4, ?E5, ?E6, ?E7; auto. Qed.

(** ** The ring *)

(** The slot after the last one holds the oldest time; writing to it moves the ring on. *)
Lemma ring_write (a : list Z) (i t : Z) :
  length a = 10%nat -> 0 <= i < 10 ->
  let j := if i + 1 =? 10 then 0 else i + 1 in
  let l := drop (Z.to_nat (i + 1)) a ++ take (Z.to_nat (i + 1)) a in
  let a' := <[Z.to_nat j := t]> a in
  exists old, a !! Z.to_nat j = Some old /\ l = old :: drop 1 l /\
    drop 1 l ++ [t] = drop (Z.to_nat (j + 1)) a' ++ take (Z.to_nat (j + 1)) a'.
Proof.
  intros Ha Hi. do 10 (destruct a as [|? a]; [done|]). destruct a; [|done].
  assert (i = 0 \/ i = 1 \/ i = 2 \/ i = 3 \/ i = 4 \/ i = 5 \/ i = 6 \/ i = 7 \/ i = 8 \/ i = 9) as Hc by lia.
  repeat (destruct Hc as [->|Hc]; [cbv zeta; cbn; eexists; split_and!; reflexivity|]). subst i. cbv zeta; cbn; eexists; split_and!; reflexivity.
Qed.

Lemma zsum_bounded (l : list Z) (b : Z) : 0 <= b -> Forall (fun t => 0 <= t < b) l -> 0 <= zsum l <= Z.of_nat (length l) * b.
Proof.
  intros Hb. induction 1 as [|x l Hx Hl IH]; [cbn; lia|]. rewrite zsum_cons. cbn [length]. rewrite Nat2Z.inj_succ, Z.mul_succ_l. lia.
Qed.

Lemma last_length n s it : srv_item n s it -> length (sv_last s) = 10%nat.
Proof. intros [_ _ _ _ _ (a & _ & Hl & ->) _ _ _ _]. rewrite length_app, length_drop, length_take. lia. Qed.

(** An answer of a server that is connected. *)
Lemma window_resp n s it t :
  srv_item n s it -> sv_avail s = true -> 0 <= t < 2 ^ 23 -> n + 1 < 2 ^ 31 ->
  exists it', add_to_window t it = Some it' /\ srv_item (n + 1) (srv_resp t s) it' /\
    ri_ipaddr it' = ri_ipaddr it /\ ri_port it' = ri_port it.
Proof.
  intros Hit Hav Ht Hn. pose proof (last_length _ _ _ Hit) as Hlen. destruct Hit as [E1 E2 E3 E4 E5 (a & Ea & La & El) E7 E8 E9 E10].
  pose proof (Z.mod_pos_bound (sv_seen s) 10 ltac:(lia)) as Hi. rewrite <- E4 in Hi.
  destruct (ring_write a (last_modified_index it) t La Hi) as (old & Hold & Hl & Hw). cbv zeta in Hold, Hl, Hw. rewrite <- El in Hl, Hw.
  pose proof (zsum_bounded _ (2 ^ 23) ltac:(lia) E7) as Hsum. rewrite Hlen in Hsum.
  assert (0 <= old < 2 ^ 23) as Hob by (rewrite Hl in E7; by inversion E7).
  assert (zsum (sv_last s) = old + zsum (drop 1 (sv_last s))) as Hz by (rewrite Hl at 1; by rewrite zsum_cons).
  assert (Forall (fun t => 0 <= t < 2 ^ 23) (drop 1 (sv_last s))) as Hd by by apply Forall_drop.
  pose proof (zsum_bounded _ (2 ^ 23) ltac:(lia) Hd) as Hsd. rewrite length_drop, Hlen in Hsd.
  unfold add_to_window. assert (s32 (last_modified_index it + 1) = last_modified_index it + 1) as -> by (rewrite s32_small; [done|unfold is_s32; lia]).
  rewrite (u32_small (last_modified_index it + 1)) by (unfold is_u32; lia). rewrite E2.
  assert ((sv_seen s + 1) mod 10 = if last_modified_index it + 1 =? 10 then 0 else last_modified_index it + 1) as Hnext.
  { rewrite <- Zplus_mod_idemp_l, <- E4. destruct (last_modified_index it + 1 =? 10) eqn:E; zbool; [by rewrite E|apply Z.mod_small; lia]. }
  assert ((last_modified_index it + 1 =? 10) = true -> (sv_seen s >=? 10) = false -> sv_seen s + 1 = 10) as H10.
  { intros H ?. zbool. rewrite Z.mod_small in E4 by lia. lia. }
  assert ((last_modified_index it + 1 =? 10) = false -> (sv_seen s >=? 10) = false -> sv_seen s + 1 < 10) as H11.
  { intros H ?. zbool. rewrite Z.mod_small in E4 by lia. lia. }
  set (it1 := if _ && _ then _ else _).
  assert (res_state it1 = if sv_seen s + 1 >=? 10 then RESOURCES_STAT_DATA_READY else RESOURCES_STAT_DATA_COLLECTING) as Hst.
  { unfold it1. rewrite E5. destruct (sv_seen s >=? 10) eqn:E; cbn.
    - rewrite E5. destruct (sv_seen s + 1 >=? 10) eqn:E'; zbool; [done|lia].
    - destruct (last_modified_index it + 1 =? 10) eqn:E'; cbn.
      + by rewrite H10.
      + rewrite E5. specialize (H11 eq_refl eq_refl). destruct (sv_seen s + 1 >=? 10) eqn:?; zbool; [lia|done]. }
  assert (num_of_req_time_in_count it1 = 10 /\ total_response_time it1 = total_response_time it /\ res_response_time it1 = Some a /\
    is_available it1 = sv_avail s /\ number_timeout_occur it1 = sv_timeouts s /\ ri_ipaddr it1 = ri_ipaddr it /\ ri_port it1 = ri_port it)
    as (F1 & F2 & F3 & F4 & F5 & F6 & F7) by (unfold it1; destruct (_ && _); cbn; rewrite ?E1, ?E9; split_and!; done).
  clearbody it1. rewrite F1, F2, F3. cbn [mbind option_bind]. rewrite <- Hnext in Hold, Hw |- *. pose proof (Z.mod_pos_bound (sv_seen s + 1) 10 ltac:(lia)).
  rewrite (proj2 (Z.leb_le _ _)) by lia. rewrite Hold. cbn [mbind option_bind]. eexists. split; [done|]. unfold srv_resp. rewrite Hav.
  split; [|done]. split; cbn [sv_avail sv_last sv_seen sv_timeouts set_window num_of_req_time_in_count is_available last_modified_index
    res_state res_response_time total_response_time number_timeout_occur]; try done; try lia.
  - by rewrite F4.
  - exists (<[Z.to_nat ((sv_seen s + 1) mod 10) := t]> a). rewrite length_insert. done.
  - apply Forall_app. split; [done|]. by apply Forall_singleton.
  - rewrite zsum_app, E8, Hz. cbn [zsum foldr]. rewrite (u64_small (old + zsum (drop 1 (sv_last s)) + t)), u64_small by (unfold is_u64; lia). lia.
Qed.

(** The average the module reports is the one of the abstract server. *)
Lemma avg_refines n s it : srv_item n s it -> get_res_avg_resp_time it = srv_avg s.
Proof.
  intros Hit. pose proof (last_length _ _ _ Hit) as Hlen. destruct Hit as [E1 E2 E3 E4 E5 _ E7 E8 E9 E10].
  unfold get_res_avg_resp_time, srv_avg. rewrite E1, E2, E5, E8. pose proof (zsum_bounded _ (2 ^ 23) ltac:(lia) E7) as Hsum. rewrite Hlen in Hsum.
  assert (0 <= zsum (sv_last s) / 10 < 2 ^ 31) by (split; [apply Z.div_pos; lia|apply Z.div_lt_upper_bound; lia]).
  destruct (sv_seen s >=? 10), (sv_avail s); cbn [negb andb Z.eqb RESOURCES_STAT_DATA_READY RESOURCES_STAT_DATA_COLLECTING]; try done.
  unfold do_divide. cbn [Z.leb Z.compare]. rewrite s32_small by (unfold is_s32; lia). done.
Qed.

(** ** The list of servers *)

Definition has_key (ip port : Z) (it : dms_res_item_t) : Prop := ri_ipaddr it = ip /\ ri_port it = port.

(** A search reads only the addresses of the servers. *)
Lemma find_ext ip port (m m' : gmap Z dms_res_item_t) l :
  (forall p it, p ∈ l -> m !! p = Some it -> exists it', m' !! p = Some it' /\ has_key (ri_ipaddr it) (ri_port it) it') ->
  Forall (fun p => is_Some (m !! p)) l ->
  find_in_reslist ip port m' l = find_in_reslist ip port m l.
Proof.
  induction l as [|q l IH]; intros H Hl; [done|]. apply Forall_cons in Hl as [[it Hq] Hl]. cbn [find_in_reslist].
  destruct (H q it) as (it' & Hq' & K1 & K2); [by left|done|]. rewrite Hq, Hq'. cbn [mbind option_bind]. rewrite K1, K2.
  rewrite IH; [done| |done]. intros. eapply H; [by right|done].
Qed.

Lemma find_found ip port m l p it :
  Forall (fun p => p <> 0 /\ is_Some (m !! p)) l -> find_in_reslist ip port m l = Some p -> p <> 0 -> m !! p = Some it ->
  p ∈ l /\ has_key ip port it.
Proof.
  induction l as [|q l IH]; intros Hl H Hp Hit; [by injection H as <-|]. apply Forall_cons in Hl as [[_ [qt Hq]] Hl].
  cbn [find_in_reslist] in H. rewrite Hq in H. cbn [mbind option_bind] in H. destruct ((ip =? _) && _) eqn:E.
  - injection H as ->. rewrite Hq in Hit. injection Hit as ->. apply andb_true_iff in E as [E1 E2]. zbool. split; [by left|done].
  - destruct (IH Hl H Hp Hit). split; [by right|done].
Qed.

Lemma find_add ip port m l p it :
  Forall (fun p => p <> 0 /\ is_Some (m !! p)) l -> m !! p = Some it ->
  find_in_reslist ip port m (l ++ [p]) =
    (q ← find_in_reslist ip port m l; if q =? 0 then if decide (has_key ip port it) then Some p else Some 0 else Some q).
Proof.
  intros Hl Hp. induction Hl as [|q l [Hq0 [qt Hq]] Hl IH]; cbn [app find_in_reslist].
  - rewrite Hp. cbn [mbind option_bind Z.eqb]. destruct ((ip =? _) && _) eqn:E; zbool.
    + by rewrite decide_True.
    + rewrite decide_False; [done|]. intros [K1 K2]. rewrite K1, K2, !Z.eqb_refl in E. done.
  - rewrite Hq. cbn [mbind option_bind]. destruct ((ip =? _) && _).
    + cbn [mbind option_bind]. by rewrite (proj2 (Z.eqb_neq _ _)).
    + exact IH.
Qed.

Lemma find_total ip port m l : Forall (fun p => p <> 0 /\ is_Some (m !! p)) l -> exists p, find_in_reslist ip port m l = Some p.
Proof.
  induction 1 as [|q l [_ [qt Hq]] Hl [p IH]]; cbn [find_in_reslist]; [by eexists|]. rewrite Hq. cbn [mbind option_bind]. case_match; eauto.
Qed.

(** ** Refinement *)

(** The item of a server, seen through the search, is the abstract server's. *)
Definition srv_of (n : Z) (w : fc_world) (ip port : Z) (o : option srv) : Prop :=
  match o with
  | None => find_resource_item ip port w = Some 0
  | Some s => exists p it, find_resource_item ip port w = Some p /\ p <> 0 /\ fc_items w !! p = Some it /\ srv_item n s it
  end.

Record fc_ok (n : Z) (st : Z -> Z -> option srv) (w : fc_world) : Prop := {
  fo_live : Forall (fun p => p <> 0 /\ is_Some (fc_items w !! p)) (fc_reslist w);
  fo_srv : forall ip port, srv_of n w ip port (st ip port);
}.

Lemma fc_ok_init : fc_ok 0 (fun _ _ => None) init_flow_control.
Proof. split; [constructor|done]. Qed.

(** A step that changes one item and keeps its address. *)
Lemma ok_update n st w ip port p it it' s :
  fc_ok n st w -> find_resource_item ip port w = Some p -> p <> 0 -> fc_items w !! p = Some it ->
  has_key (ri_ipaddr it) (ri_port it) it' -> srv_item (n + 1) s it' ->
  fc_ok (n + 1) (fun i q => if decide ((ip, port) = (i, q)) then Some s else st i q) (set_fc_items (<[p := it']> (fc_items w)) w).
Proof.
  intros [Hl Hs] Hf Hp Hit [K1 K2] Hof. pose proof (find_found _ _ _ _ _ _ Hl Hf Hp Hit) as [Hin Hkey].
  assert (forall ip' port', find_resource_item ip' port' (set_fc_items (<[p := it']> (fc_items w)) w) = find_resource_item ip' port' w) as Hfind.
  { intros ip' port'. apply find_ext.
    - intros q qt Hq Hqt. cbn [set_fc_items fc_items]. destruct (decide (q = p)) as [->|].
      + rewrite lookup_insert_eq. rewrite Hit in Hqt. injection Hqt as <-. by eexists.
      + rewrite lookup_insert_ne by done. by eexists.
    - eapply Forall_impl; [exact Hl|]. by intros ? []. }
  split.
  - cbn. eapply Forall_impl; [exact Hl|]. intros q [Hq Hqs]. split; [done|]. by apply lookup_insert_is_Some'; right.
  - intros ip' port'. case_decide as Hd.
    + injection Hd as <- <-. exists p, it'. rewrite Hfind. cbn [set_fc_items fc_items]. by rewrite lookup_insert_eq.
    + specialize (Hs ip' port'). unfold srv_of in *. rewrite Hfind. destruct (st ip' port') as [s'|]; [|done].
      destruct Hs as (q & qt & Hq & Hq0 & Hqt & Ho). exists q, qt. cbn [set_fc_items fc_items]. rewrite lookup_insert_ne.
      * split_and!; try done. eapply srv_item_mono; [|done]. lia.
      * intros ->. pose proof (find_found _ _ _ _ _ _ Hl Hq Hq0 Hqt) as [_ [J1 J2]]. destruct Hkey as [J3 J4]. rewrite Hit in Hqt. injection Hqt as <-. congruence.
Qed.

Lemma ok_mono n st st' w : (forall i q, st' i q = st i q) -> fc_ok n st w -> fc_ok (n + 1) st' w.
Proof.
  intros E [Hl Hs]. split; [done|]. intros ip port. rewrite E. specialize (Hs ip port). unfold srv_of in *.
  destruct (st ip port); [|done]. destruct Hs as (p & it & ? & ? & ? & ?). exists p, it. split_and!; try done. eapply srv_item_mono; [|done]. lia.
Qed.

Lemma new_item_of n : 0 <= n -> forall ip port ty id p it, create_resource_item ip port ty id true (Some p) true = Some (p, it) -> srv_item n srv_new it /\ has_key ip port it.
Proof.
  intros Hn ip port ty id p it H. injection H as <-. split; [|done]. split; cbn; try done; try lia.
  - by exists (replicate 10 0).
  - repeat (constructor; [lia|]). constructor.
Qed.

(** The first mention of a server makes its item. *)
Lemma srv_add n st w ip port ty p :
  fc_ok n st w -> 0 <= n -> p <> 0 -> fc_items w !! p = None ->
  exists w' q, add_resource_item ip port ty true (Some p) true w = Some (w', q) /\ q <> 0 /\
    fc_ok n (fun i r => if decide ((ip, port) = (i, r)) then Some (default srv_new (st ip port)) else st i r) w' /\
    find_resource_item ip port w' = Some q /\
    exists it, fc_items w' !! q = Some it /\ srv_item n (default srv_new (st ip port)) it.
Proof.
  intros Hok Hn Hp Hfr. destruct Hok as [Hl Hs]. pose proof (Hs ip port) as Hme. unfold add_resource_item. destruct (st ip port) as [s|] eqn:Est; cbn in Hme.
  { destruct Hme as (q & it & Hf & Hq & Hit & Hof). rewrite Hf. cbn [mbind option_bind]. rewrite (proj2 (Z.eqb_neq _ _)) by done.
    exists w, q. split_and!; try done; [|by exists it]. split; [done|]. intros i r. case_decide as Hd; [|apply Hs]. injection Hd as <- <-. by exists q, it. }
  rewrite Hme. cbn [mbind option_bind Z.eqb]. set (c := create_resource_item _ _ _ _ _ _ _). destruct c as [[p' it]|] eqn:Ec; [|done].
  assert (p' = p) as -> by (by injection Ec). destruct (new_item_of n Hn _ _ _ _ _ _ Ec) as [Hnew [K1 K2]]. clear c Ec. cbn [mbind option_bind].
  eexists _, p. split; [done|]. set (w' := set_fc_list _ _ _).
  assert (Forall (fun q => q <> 0 /\ is_Some (fc_items w' !! q)) (fc_reslist w)) as Hl'.
  { eapply Forall_impl; [exact Hl|]. intros q [Hq Hqs]. split; [done|]. cbn. by apply lookup_insert_is_Some'; right. }
  assert (fc_items w' !! p = Some it) as Hpit by (cbn; by rewrite lookup_insert_eq).
  assert (forall i r, find_resource_item i r w' =
    (q ← find_resource_item i r w; if q =? 0 then if decide (has_key i r it) then Some p else Some 0 else Some q)) as Hfind.
  { intros i r. unfold find_resource_item. cbn [w' set_fc_list fc_reslist]. fold (fc_items w').
    rewrite (find_add i r (fc_items w') (fc_reslist w) p it Hl' Hpit). f_equal. apply find_ext.
    - intros q qt Hq Hqt. exists qt. split; [|done]. cbn. rewrite lookup_insert_ne; [done|]. intros ->. congruence.
    - eapply Forall_impl; [exact Hl|]. by intros ? []. }
  assert (find_resource_item ip port w' = Some p) as Hfp by (rewrite Hfind, Hme; cbn; by rewrite decide_True).
  split_and!; try done; [|by exists it]. split.
  - cbn [w' set_fc_list fc_reslist]. apply Forall_app. split; [done|]. apply Forall_singleton. by rewrite Hpit.
  - intros i r. case_decide as Hd.
    { injection Hd as <- <-. by exists p, it. }
    specialize (Hs i r). destruct (st i r) as [s|]; cbn [srv_of] in Hs |- *.
    + destruct Hs as (q & qt & Hf & Hq & Hqt & Hof). exists q, qt. rewrite Hfind, Hf. cbn [mbind option_bind]. rewrite (proj2 (Z.eqb_neq _ _)) by done.
      split_and!; try done. cbn. rewrite lookup_insert_ne; [done|]. intros ->. congruence.
    + rewrite Hfind, Hs. cbn. rewrite decide_False; [done|]. intros [J1 J2]. congruence.
Qed.

Lemma ok_ext n st st' w : (forall i q, st' i q = st i q) -> fc_ok n st w -> fc_ok n st' w.
Proof. intros E [Hl Hs]. split; [done|]. intros i q. by rewrite E. Qed.

(** A function on the item of a server that is known, against a function on the abstract server. *)
Lemma ok_known n st w ip port (f : dms_res_item_t -> dms_res_item_t) (g : srv -> srv) :
  fc_ok n st w ->
  (forall s it, srv_item n s it -> has_key (ri_ipaddr it) (ri_port it) (f it) /\ srv_item (n + 1) (g s) (f it)) ->
  exists w', (p ← find_resource_item ip port w; if p =? 0 then Some w else upd_item p f w) = Some w' /\
    fc_ok (n + 1) (fun i q => if decide ((ip, port) = (i, q)) then g <$> st i q else st i q) w'.
Proof.
  intros Hok Hfg. pose proof (fo_srv _ _ _ Hok ip port) as Hme. destruct (st ip port) as [s|] eqn:Est; cbn [srv_of] in Hme.
  - destruct Hme as (p & it & Hf & Hp & Hit & Hof). rewrite Hf. cbn [mbind option_bind]. rewrite (proj2 (Z.eqb_neq _ _)) by done.
    unfold upd_item. rewrite Hit. cbn [mbind option_bind]. eexists. split; [done|]. destruct (Hfg s it Hof) as [Hk Ho].
    eapply ok_ext; [|by eapply ok_update]. intros i q. cbv beta. case_decide as Hd; [|done]. injection Hd as <- <-. by rewrite Est.
  - rewrite Hme. cbn [mbind option_bind Z.eqb]. exists w. split; [done|]. eapply ok_mono; [|exact Hok]. intros i q. case_decide as Hd; [|done].
    injection Hd as <- <-. by rewrite Est.
Qed.

(** A function on all items that the abstract servers do not see. *)
Lemma ok_all n st f l w :
  (forall it, has_key (ri_ipaddr it) (ri_port it) (f it)) -> (forall m s it, srv_item m s it -> srv_item m s (f it)) ->
  fc_ok n st w -> l ⊆ fc_reslist w -> exists w', upd_all f l w = Some w' /\ fc_ok n st w'.
Proof.
  intros Hk Ho. revert w. induction l as [|p l IH]; intros w Hok Hl; cbn [upd_all]; [by exists w|].
  pose proof (fo_live _ _ _ Hok) as Hlive. destruct (proj1 (Forall_forall _ _) Hlive p) as [Hp [it Hit]]; [apply Hl; by left|].
  unfold upd_item. rewrite Hit. cbn [mbind option_bind]. apply IH; [|cbn; intros q Hq; apply Hl; by right].
  assert (forall q, exists g, (forall it', has_key (ri_ipaddr it') (ri_port it') (g it')) /\ (forall m s it', srv_item m s it' -> srv_item m s (g it')) /\
    (<[p := f it]> (fc_items w)) !! q = g <$> (fc_items w !! q)) as Hg.
  { intros q. destruct (decide (q = p)) as [->|].
    - exists f. rewrite lookup_insert_eq, Hit. done.
    - exists id. rewrite lookup_insert_ne by done. split_and!; [done|done|]. by destruct (fc_items w !! q). }
  assert (forall i q, find_resource_item i q (set_fc_items (<[p := f it]> (fc_items w)) w) = find_resource_item i q w) as Hfind.
  { intros i q. apply find_ext; [|by eapply Forall_impl; [exact Hlive|intros ? []]]. intros r rt _ Hrt. cbn [set_fc_items fc_items].
    destruct (Hg r) as (g & G1 & _ & G3). rewrite G3, Hrt. by eexists. }
  split.
  - cbn. eapply Forall_impl; [exact Hlive|]. intros q [Hq Hqs]. split; [done|]. by apply lookup_insert_is_Some'; right.
  - intros i q. pose proof (fo_srv _ _ _ Hok i q) as Hs. unfold srv_of in *. rewrite Hfind. destruct (st i q); [|done].
    destruct Hs as (r & rt & ? & ? & Hrt & ?). destruct (Hg r) as (g & G1 & G2 & G3). exists r, (g rt). cbn [set_fc_items fc_items].
    rewrite G3, Hrt. split_and!; auto.
Qed.

Hypothesis msecs_u32 : forall x, 0 <= jiffies_to_msecs x < 2 ^ 32.

Lemma resp_period_bound a b : 0 <= resp_period jiffies_to_msecs a b < 2 ^ 23.
Proof.
  unfold resp_period. case_match; [lia|]. pose proof (msecs_u32 (u64 (b - a))). split; [apply Z.div_pos; lia|apply Z.div_lt_upper_bound; lia].
Qed.

Lemma rate_keeps now it : has_key (ri_ipaddr it) (ri_port it) (update_one_rate jiffies_to_msecs now it).
Proof. unfold update_one_rate. by repeat case_match. Qed.

Lemma rate_item now m s it : srv_item m s it -> srv_item m s (update_one_rate jiffies_to_msecs now it).
Proof. intros H. eapply srv_item_ext; [exact H|..]; unfold update_one_rate; by repeat case_match. Qed.

Lemma ok_timeout n s it :
  n + 1 < 2 ^ 31 -> srv_item n s it ->
  srv_item (n + 1) {| sv_avail := sv_avail s; sv_last := sv_last s; sv_seen := sv_seen s; sv_timeouts := sv_timeouts s + 1 |}
    (set_timeouts (s64 (number_timeout_occur it + 1)) it).
Proof. intros Hn [E1 E2 E3 E4 E5 E6 E7 E8 E9 E10]. split; cbn [sv_avail sv_last sv_seen sv_timeouts]; try done; try lia. cbn. rewrite E9, s64_small; [done|lia]. Qed.

Lemma ok_answer n s it :
  n + 1 < 2 ^ 31 -> srv_item n s it ->
  srv_item (n + 1) {| sv_avail := sv_avail s; sv_last := sv_last s; sv_seen := sv_seen s;
                     sv_timeouts := if sv_timeouts s >? 1 then sv_timeouts s - 1 else sv_timeouts s |}
    (if number_timeout_occur it >? 1 then set_timeouts (s64 (number_timeout_occur it - 1)) it else it).
Proof.
  intros Hn [E1 E2 E3 E4 E5 E6 E7 E8 E9 E10]. rewrite E9.
  destruct (sv_timeouts s >? 1) eqn:E; zbool; split; cbn [sv_avail sv_last sv_seen sv_timeouts]; try done; try lia. cbn. rewrite s64_small; [done|lia].
Qed.

Lemma ok_available n s it (b : bool) :
  srv_item n s it ->
  exists it', set_item_available b it = Some it' /\ has_key (ri_ipaddr it) (ri_port it) it' /\
  srv_item (n + 1) (if b then {| sv_avail := true; sv_last := sv_last s; sv_seen := sv_seen s; sv_timeouts := sv_timeouts s |}
                  else {| sv_avail := false; sv_last := replicate 10 0; sv_seen := sv_seen s; sv_timeouts := 0 |}) it'.
Proof.
  intros Hit. pose proof (last_length _ _ _ Hit) as Hlen. destruct Hit as [E1 E2 E3 E4 E5 (a & Ea & La & El) E7 E8 E9 E10]. unfold set_item_available.
  destruct b; cbn [negb].
  { eexists. split; [done|]. split; [done|]. split; cbn [sv_avail sv_last sv_seen sv_timeouts]; try done; try lia. by exists a. }
  assert (num_of_req_time_in_count (set_available false it) = 10) as -> by done. change (res_response_time (set_available false it)) with (res_response_time it).
  rewrite Ea. cbn [mbind option_bind Z.leb Z.compare]. rewrite La. cbn [mbind option_bind Z.leb Z.compare Z.of_nat Pos.of_succ_nat Pos.succ Pos.compare Pos.compare_cont].
  eexists. split; [done|]. split; [done|]. assert (drop (Z.to_nat 10) a = []) as -> by (apply drop_ge; rewrite La; lia). rewrite app_nil_r.
  split; cbn [sv_avail sv_last sv_seen sv_timeouts set_timeouts set_window set_available num_of_req_time_in_count is_available last_modified_index
    res_state res_response_time total_response_time number_timeout_occur]; try done; try lia.
  - exists (replicate 10 0). split; [done|]. split; [done|]. pose proof (Z.mod_pos_bound (sv_seen s) 10 ltac:(lia)) as Hi. rewrite <- E4 in Hi.
    rewrite drop_replicate, take_replicate, <- replicate_add. f_equal. lia.
  - repeat (constructor; [lia|]). constructor.
Qed.

Lemma step_ok n st w e :
  fc_ok n st w -> 0 <= n -> n + 1 < 2 ^ 31 -> fc_allowed e w ->
  exists w', fc_step e w = Some w' /\ fc_ok (n + 1) (fun i q => srv_step i q e (st i q)) w'.
Proof.
  intros Hok Hn0 Hn Hal. destruct e as [ip port a b m ty sub by_ p|ip port p|ip port|ip port|ip port bl|now]; cbn [fc_step srv_step].
  - destruct Hal as [Hp Hfr]. destruct (srv_add n st w ip port ty p Hok Hn0 Hp Hfr) as (w1 & q & E & Hq & Hok1 & Hf & it & Hit & Hof).
    unfold add_req_response_time. rewrite E. cbn [mbind option_bind]. rewrite Hit. cbn [mbind option_bind].
    pose proof (io_avail _ _ _ Hof) as Hav. rewrite Hav. set (t := resp_period jiffies_to_msecs a b). set (s := default srv_new (st ip port)) in *.
    destruct (sv_avail s) eqn:Es; cbn [negb].
    + destruct (window_resp n s it t Hof Es (resp_period_bound a b) Hn) as (it' & -> & Hof' & K1 & K2). cbn [mbind option_bind]. unfold upd_item. rewrite Hit. cbn.
      eexists. split; [done|]. eapply ok_ext; [|eapply ok_update; [exact Hok1|exact Hf|done|exact Hit| |eapply srv_item_ext; [exact Hof'|..]; by destruct show]].
      * intros i r. cbv beta. case_decide as Hd; [|done]. injection Hd as <- <-. done.
      * by destruct show.
    + eexists. split; [done|]. eapply ok_mono; [|exact Hok1]. intros i r. cbv beta. case_decide as Hd; [|done]. injection Hd as <- <-.
      fold s. unfold srv_resp. by rewrite Es.
  - destruct Hal as [Hp Hfr]. destruct (srv_add n st w ip port RES_TYPE_DN p Hok Hn0 Hp Hfr) as (w1 & q & E & Hq & Hok1 & Hf & it & Hit & Hof).
    unfold Check_DN_Resources_Is_Available. rewrite E. cbn [mbind option_bind]. rewrite Hit. cbn. eexists. split; [done|].
    eapply ok_mono; [|exact Hok1]. intros i r. cbv beta. case_decide as Hd; [|done]. by injection Hd as <- <-.
  - apply ok_known; [done|]. intros s it Hof. split; [done|]. by apply ok_timeout.
  - apply ok_known; [done|]. intros s it Hof. split; [by case_match|]. by apply ok_answer.
  - unfold set_res_available. pose proof (fo_srv _ _ _ Hok ip port) as Hme. destruct (st ip port) as [s|] eqn:Est; cbn [srv_of] in Hme.
    + destruct Hme as (p & it & Hf & Hp & Hit & Hof). rewrite Hf. cbn [mbind option_bind]. rewrite (proj2 (Z.eqb_neq _ _)) by done.
      destruct (ok_available n s it bl Hof) as (it' & E & Hk & Hof'). unfold upd_item. rewrite Hit. cbn [mbind option_bind]. rewrite E. cbn [mbind option_bind].
      eexists. split; [done|]. eapply ok_ext; [|by eapply ok_update]. intros i q. cbv beta. case_decide as Hd; [|done]. injection Hd as <- <-. by rewrite Est.
    + rewrite Hme. cbn [mbind option_bind Z.eqb]. exists w. split; [done|]. eapply ok_mono; [|exact Hok]. intros i q. case_decide as Hd; [|done].
      injection Hd as <- <-. by rewrite Est.
  - destruct (ok_all n st (update_one_rate jiffies_to_msecs now) (fc_reslist w) w) as (w' & E & Hok'); [apply rate_keeps|intros; by apply rate_item|done|done|].
    exists w'. split; [done|]. by eapply ok_mono.
Qed.

Lemma steps_ok evs w n st w' :
  fc_steps w evs w' -> fc_ok n st w -> 0 <= n -> n + Z.of_nat (length evs) < 2 ^ 31 ->
  fc_ok (n + Z.of_nat (length evs)) (fun i q => foldl (fun s e => srv_step i q e s) (st i q) evs) w'.
Proof.
  intros H. revert n st. induction H as [w|w e w1 evs w2 Ha Hst _ IH]; intros n st Hok Hn Hb; cbn [length foldl] in *; [by rewrite Z.add_0_r|].
  destruct (step_ok n st w e Hok Hn ltac:(lia) Ha) as (w1' & E & Hok1). rewrite Hst in E. injection E as <-.
  replace (n + Z.of_nat (S (length evs))) with (n + 1 + Z.of_nat (length evs)) by lia. apply IH; [done|lia|lia].
Qed.

Lemma run_ok evs w :
  fc_steps init_flow_control evs w -> Z.of_nat (length evs) < 2 ^ 31 -> fc_ok (Z.of_nat (length evs)) (fun i q => srv_run i q evs) w.
Proof. intros H Hl. apply (steps_ok evs _ 0 _ _ H fc_ok_init); lia. Qed.

(** What the replica selection hears of a server that is known. *)
Lemma health_refines n st w ip port s p :
  fc_ok n st w -> n < 2 ^ 31 -> st ip port = Some s -> Check_DN_Resources_Is_Available ip port p true w = Some (w, srv_health s).
Proof.
  intros Hok Hn Hs. pose proof (fo_srv _ _ _ Hok ip port) as Hme. rewrite Hs in Hme. destruct Hme as (q & it & Hf & Hq & Hit & Hof).
  unfold Check_DN_Resources_Is_Available, add_resource_item. rewrite Hf. cbn [mbind option_bind]. rewrite (proj2 (Z.eqb_neq _ _)) by done. cbn [mbind option_bind].
  rewrite Hit. cbn [mbind option_bind]. unfold srv_health. destruct Hof as [E1 _ _ _ _ _ _ _ E9 E10]. rewrite E1, E9. destruct (sv_avail s); cbn [negb]; [|done].
  rewrite s32_small by (unfold is_s32; lia). done.
Qed.

End run.


(** A clock of a thousand ticks per second. *)
Definition ms1000 (x : Z) : Z := u32 x.
Definition us1000 (x : Z) : Z := u32 (1000 * x).

Lemma ms1000_range x : 0 <= ms1000 x < 2 ^ 32.
Proof. apply u32_range. Qed.

#[global] Instance fc_allowed_dec e w : Decision (fc_allowed e w).
Proof. destruct e; cbn; apply _. Defined.

(** Runs that can be evaluated. *)
Fixpoint fc_exec (evs : list fc_ev) (w : fc_world) : option fc_world :=
  match evs with
  | [] => Some w
  | e :: evs => if bool_decide (fc_allowed e w) then w ← fc_step ms1000 us1000 true e w; fc_exec evs w else None
  end.

Lemma fc_exec_steps evs w w' : fc_exec evs w = Some w' -> fc_steps ms1000 us1000 true w evs w'.
Proof.
  revert w. induction evs as [|e evs IH]; intros w H; cbn [fc_exec] in H; [injection H as <-; constructor|].
  case_bool_decide as Ha; [|done]. destruct (fc_step ms1000 us1000 true e w) as [w1|] eqn:E; [|done]. econstructor; eauto.
Qed.

(** Twelve answers of one datanode with 1 to 12 seconds, one of another, a timeout and a late answer. *)
Definition ex_answers : list fc_ev :=
  ((fun k => Fe_resp 7 9000 1000 (1000 + 1000 * Z.of_nat k) 1000 RES_TYPE_DN DN_RESPONSE_SUB_TYPE_Read 4096 (64 * Z.of_nat k)) <$> seq 1 12) ++
  [Fe_resp 8 9000 0 5000 0 RES_TYPE_DN DN_RESPONSE_SUB_TYPE_Write 4096 8000; Fe_timeout 7 9000; Fe_answer 7 9000].


(** ** Health of the replicas *)

(** What the loop of the replica selection hears of the replica [i] at address [addr i]; [new] is what the allocator returns when
    the datanode is not known yet. *)
Definition dn_free (w : fc_world) (addr : Z -> Z * Z) (new : option Z) (i : Z) : bool :=
  match Check_DN_Resources_Is_Available (addr i).1 (addr i).2 new true w with
  | Some (_, r) => r =? RESOURCES_IS_FREE_TO_USE
  | None => false
  end.

Definition lost_conn (ip port : Z) (e : fc_ev) : Prop := e = Fe_avail ip port false.

(** A timeout on record stays on record, whatever the datanode answers, until its connection is lost. *)
Lemma timeouts_stay jm ip port evs s :
  sv_timeouts s >= 1 -> Forall (fun e => ~ lost_conn ip port e) evs ->
  exists s', foldl (fun s e => srv_step jm ip port e s) (Some s) evs = Some s' /\ sv_timeouts s' >= 1.
Proof.
  intros Hs He. revert s Hs. induction He as [|e evs Hne _ IH]; intros s Hs; cbn [foldl]; [by exists s|].
  assert (exists s', srv_step jm ip port e (Some s) = Some s' /\ sv_timeouts s' >= 1) as (s1 & -> & H1); [|by apply IH].
  destruct e as [i q a b m ty sub by_ p|i q p|i q|i q|i q bl|now]; cbn [srv_step]; try case_decide as Hd; try (by exists s); cbn [fmap option_fmap option_map default].
  - eexists. split; [done|]. unfold srv_resp, id. destruct (sv_avail s); cbn; lia.
  - eexists. split; [done|]. cbn. lia.
  - eexists. split; [done|]. cbn. destruct (sv_timeouts s >? 1) eqn:E; zbool; lia.
  - injection Hd as -> ->. destruct bl; [by eexists|]. by destruct Hne.
Qed.

Lemma srv_timeouts_nonneg jm ip port evs s : srv_run jm ip port evs = Some s -> 0 <= sv_timeouts s.
Proof.
  unfold srv_run. assert (forall o, (forall s, o = Some s -> 0 <= sv_timeouts s) ->
    forall s, foldl (fun s e => srv_step jm ip port e s) o evs = Some s -> 0 <= sv_timeouts s) as H; [|by apply H].
  induction evs as [|e evs IH]; intros o Ho; cbn [foldl]; [done|]. apply IH. clear IH s. intros s H.
  assert (0 <= sv_timeouts (default srv_new o)) as Hd by (destruct o; cbn; [by apply Ho|lia]).
  destruct e as [i q a b m ty sub by_ p|i q p|i q|i q|i q bl|now]; cbn [srv_step] in H; try case_decide; eauto.
  - injection H as <-. unfold srv_resp. destruct (sv_avail _); cbn; lia.
  - by injection H as <-.
  - destruct o as [s0|]; [|done]. injection H as <-. cbn in *. lia.
  - destruct o as [s0|]; [|done]. injection H as <-. cbn in *. destruct (sv_timeouts s0 >? 1) eqn:E; zbool; lia.
  - destruct o as [s0|]; [|done]. injection H as <-. destruct bl; cbn in *; lia.
Qed.

(** A datanode that timed out once is not read again.  When a request to a known datanode timed out and its connection was not
    lost since, then whatever it answered meanwhile, a read goes to it only if no other replica is usable. *)
Theorem timed_out_replica_avoided (jiffies_to_msecs jiffies_to_usecs : Z -> Z) (show : bool) (evs1 evs2 : list fc_ev) (w : fc_world)
    (ip port : Z) (addr : Z -> Z * Z) (new : option Z) (loc : metaD_item_t) (sel : Read_DN_selector) (max : Z) (rr : bool) :
  (forall x, 0 <= jiffies_to_msecs x < 2 ^ 32) ->
  fc_steps jiffies_to_msecs jiffies_to_usecs show init_flow_control (evs1 ++ Fe_timeout ip port :: evs2) w ->
  Z.of_nat (length (evs1 ++ Fe_timeout ip port :: evs2)) < 2 ^ 31 ->
  is_Some (srv_run jiffies_to_msecs ip port evs1) -> Forall (fun e => ~ lost_conn ip port e) evs2 ->
  1 <= num_dnLoc loc < 2 ^ 16 ->
  exists sel' i, PLMgr_Read_selectDN (dn_free w addr new) loc sel max rr = Some (sel', i) /\ 0 <= i < num_dnLoc loc /\
    ((exists j, 0 <= j < num_dnLoc loc /\ dn_free w addr new j = true) -> addr i <> (ip, port)).
Proof.
  intros Hj Hr Hl [s1 Hs1] Hne Hn. pose proof (run_ok _ _ _ Hj _ _ Hr Hl) as Hok.
  destruct (selectDN_free (dn_free w addr new) loc sel max rr Hn) as (sel' & i & E & Hi & Hfree & _). exists sel', i. split_and!; try lia; [done|].
  intros (j & Hj1 & Hj2) Ha. specialize (Hfree j Hj1 Hj2). unfold dn_free in Hfree. rewrite Ha in Hfree. cbn [fst snd] in Hfree.
  assert (exists s, srv_run jiffies_to_msecs ip port (evs1 ++ Fe_timeout ip port :: evs2) = Some s /\ sv_timeouts s >= 1) as (s & Hs & Ht).
  { unfold srv_run in *. rewrite foldl_app, Hs1. cbn [foldl]. cbn [srv_step]. rewrite decide_True by done. cbn [fmap option_fmap option_map].
    apply timeouts_stay; [|done]. cbn. pose proof (srv_timeouts_nonneg _ _ _ _ _ Hs1). lia. }
  rewrite (health_refines _ _ _ ip port s new Hok ltac:(lia) Hs) in Hfree. unfold srv_health in Hfree. zbool. destruct (sv_avail s); [|done].
  unfold RESOURCES_IS_FREE_TO_USE in Hfree. lia.
Qed.

Lemma timed_out_replica_avoided_witness :
  exists w sel' i, fc_exec ex_answers init_flow_control = Some w /\
    PLMgr_Read_selectDN (dn_free w (fun i => (7 + i, 9000)) (Some 4)) (MData_init_MDItem 0 8 2 false true false)
      {| readDN_idx := 0; readDN_numLB := 0 |} 100 true = Some (sel', i) /\ (7 + i, 9000) <> (7, 9000).
Proof.
  destruct (fc_exec ex_answers init_flow_control) as [w|] eqn:E; [|vm_compute in E; discriminate].
  destruct (timed_out_replica_avoided ms1000 us1000 true (take 13 ex_answers) [Fe_answer 7 9000] w 7 9000 (fun i => (7 + i, 9000)) (Some 4)
    (MData_init_MDItem 0 8 2 false true false) {| readDN_idx := 0; readDN_numLB := 0 |} 100 true ms1000_range) as (sel' & i & H1 & H2 & H3).
  - apply fc_exec_steps. rewrite <- E. reflexivity.
  - vm_compute. reflexivity.
  - eexists. vm_compute. reflexivity.
  - apply Forall_singleton. unfold lost_conn. discriminate.
  - cbn. lia.
  - exists w, sel', i. split_and!; [reflexivity|exact H1|]. apply H3. exists 1. split; [cbn; lia|]. vm_compute in E. injection E as <-. vm_compute. reflexivity.
Defined.

(** ** Slots *)

Inductive slot_ev : Type :=
| Se_alloc (now start : Z)
| Se_return
| Se_timeout
| Se_rates (slow max_start age rate max : Z)
| Se_slot (now : Z).

Section slots.
Context (jiffies_to_msecs : Z -> Z) (p : Z).

(** A step of the requests to the server [p]; [held] counts the requests that were let through and have neither an answer nor a
    timeout yet.  Only such a request returns its slot. *)
Definition slot_step (e : slot_ev) (x : fc_world * Z) : option (fc_world * Z) :=
  let '(w, held) := x in
  match e with
  | Se_alloc now start =>
      '(w, r) ← should_trigger_fc jiffies_to_msecs now p 1 start w; Some (w, if r =? FC_NO_BLOCK then held + 1 else held)
  | Se_return => if held >? 0 then w ← dec_res_rate_max_reqs p w; Some (w, held - 1) else None
  | Se_timeout => w ← upd_item p update_res_rate_timeout w; Some (w, held)
  | Se_rates a b c r m => w ← upd_item p (update_resource_rate a b c r m) w; Some (w, held)
  | Se_slot now => w ← update_all_resource_rate jiffies_to_msecs now w; Some (w, held)
  end.

Fixpoint slot_run (evs : list slot_ev) (x : fc_world * Z) : option (fc_world * Z) :=
  match evs with
  | [] => Some x
  | e :: evs => x ← slot_step e x; slot_run evs x
  end.

(** The limits the namenode sends. *)
Definition limit_ok (M : Z) (e : slot_ev) : Prop :=
  match e with Se_rates _ b _ _ m => b <= M /\ m <= M | _ => True end.

(** The item of the server while requests are out. *)
Record slots_of (M : Z) (held : Z) (it : dms_res_item_t) : Prop := {
  so_out : alloc_out_res_max it = held;
  so_held : 0 <= held <= M;
  so_limit : fc_curr_max_reqs it <= M;
  so_start : fc_start_max_reqs it <= M;
  so_avail : is_available it = true;
}.

Record slots_ok (M : Z) (w : fc_world) (held : Z) : Prop := {
  sk_item : exists it, fc_items w !! p = Some it /\ slots_of M held it;
  sk_live : Forall (fun q => is_Some (fc_items w !! q)) (fc_reslist w);
}.

(** A request is let through while the limit is not reached and the rate allows it, or at the very start of a time slot. *)
Definition slot_granted (now start : Z) (it : dms_res_item_t) : bool :=
  (alloc_out_res_max it <? fc_curr_max_reqs it) &&
  ((fc_curr_rate it =? NN_RATE_NO_LIMIT) || (s32 (alloc_out_res_rate it + 1) <? fc_curr_rate it) || negb (time_after64 now (u64 start))).

(** A function that changes the items one by one and keeps the slots of each. *)
Lemma slots_update M w held f :
  (forall it, slots_of M held it -> slots_of M held (f it)) -> slots_ok M w held ->
  exists w', upd_item p f w = Some w' /\ slots_ok M w' held.
Proof.
  intros Hf [(it & Hit & Hs) Hl]. unfold upd_item. rewrite Hit. eexists. split; [done|]. split.
  - exists (f it). cbn. rewrite lookup_insert_eq. auto.
  - cbn. eapply Forall_impl; [exact Hl|]. intros q Hq. apply lookup_insert_is_Some'. by right.
Qed.

Lemma slots_update_all M w held f l :
  (forall it, slots_of M held it -> slots_of M held (f it)) -> slots_ok M w held -> Forall (fun q => is_Some (fc_items w !! q)) l ->
  exists w', upd_all f l w = Some w' /\ slots_ok M w' held.
Proof.
  intros Hf. revert w. induction l as [|q l IH]; intros w Hok Hl; cbn [upd_all]; [by exists w|].
  apply Forall_cons in Hl as [[qt Hq] Hl]. unfold upd_item. rewrite Hq. cbn [mbind option_bind]. apply IH.
  - destruct Hok as [(it & Hit & Hs) Hlv]. split.
    + cbn. destruct (decide (q = p)) as [->|]; [|exists it; by rewrite lookup_insert_ne].
      rewrite Hit in Hq. injection Hq as <-. exists (f it). rewrite lookup_insert_eq. auto.
    + cbn. eapply Forall_impl; [exact Hlv|]. intros r Hr. apply lookup_insert_is_Some'. by right.
  - cbn. eapply Forall_impl; [exact Hl|]. intros r Hr. apply lookup_insert_is_Some'. by right.
Qed.

Hypothesis msecs_u32 : forall x, 0 <= jiffies_to_msecs x < 2 ^ 32.
(** Two different points of the clock are at least a millisecond apart and less than 25 days. *)
Definition gap_ok (now start : Z) : Prop := time_after64 now (u64 start) = true -> 1 <= jiffies_to_msecs (u64 (now - u64 start)) < 2 ^ 31.

(** A request for a slot: granted or refused, and a refusal changes no counter. *)
Lemma slot_alloc M w held now start :
  slots_ok M w held -> p <> 0 -> M + 1 < 2 ^ 31 -> gap_ok now start ->
  exists w' r it it', should_trigger_fc jiffies_to_msecs now p 1 start w = Some (w', r) /\ fc_items w !! p = Some it /\ fc_items w' !! p = Some it' /\
    (r =? FC_NO_BLOCK) = slot_granted now start it /\
    (if slot_granted now start it then alloc_out_res_max it' = held + 1 else alloc_out_res_max it' = held /\ s32 (alloc_out_res_rate it') = s32 (alloc_out_res_rate it)) /\
    slots_ok M w' (if slot_granted now start it then held + 1 else held).
Proof.
  intros [(it & Hit & [E1 E2 E3 E4 E5]) Hl] Hp HM Hgap. unfold should_trigger_fc. cbn [Z.eqb]. rewrite (proj2 (Z.eqb_neq p 0)) by done.
  rewrite Hit. cbn [mbind option_bind]. rewrite E5. unfold alloc_res. rewrite (proj2 (Z.eqb_neq p 0)) by done. rewrite Hit. cbn [mbind option_bind].
  rewrite E1. rewrite (s32_small (held + 1)) by (unfold is_s32; lia). set (x := if held + 1 <=? _ then _ else _).
  assert ((x.1 =? FC_NO_BLOCK) = slot_granted now start it /\ fc_items x.2 = fc_items w /\ fc_reslist x.2 = fc_reslist w) as (X1 & X2 & X3).
  { unfold x, slot_granted. rewrite E1. replace (held <? fc_curr_max_reqs it) with (held + 1 <=? fc_curr_max_reqs it) by (apply eq_true_iff_eq; zbool; lia).
    destruct (held + 1 <=? fc_curr_max_reqs it); [|done]. destruct (fc_curr_rate it =? NN_RATE_NO_LIMIT); [done|].
    destruct (s32 (alloc_out_res_rate it + 1) <? fc_curr_rate it); [done|]. unfold gap_ok in Hgap. destruct (time_after64 now (u64 start)); [|done].
    specialize (Hgap eq_refl). split; [|done]. cbn [andb orb negb fst]. rewrite s32_small by (unfold is_s32; lia). unfold FC_NO_BLOCK. case_match; zbool; lia. }
  clearbody x. destruct x as [ret w0]. cbn [fst snd] in X1, X2, X3. unfold upd_item. rewrite X2, Hit. cbn [mbind option_bind]. rewrite X1.
  set (it' := if negb (slot_granted now start it) then _ else _). exists (set_fc_items (<[p := it']> (fc_items w)) w0), ret, it, it'.
  split; [done|]. split; [done|]. split; [cbn; by rewrite lookup_insert_eq|]. split; [done|].
  assert (slots_of M (if slot_granted now start it then held + 1 else held) it' /\
    (if slot_granted now start it then alloc_out_res_max it' = held + 1 else alloc_out_res_max it' = held /\ s32 (alloc_out_res_rate it') = s32 (alloc_out_res_rate it)))
    as [H1 H2].
  { unfold it'. destruct (slot_granted now start it) eqn:Eg; cbn [negb].
    - split; [|done]. unfold slot_granted in Eg. rewrite E1 in Eg. apply andb_true_iff in Eg as [Eg _]. zbool. split; cbn; lia || done.
    - rewrite (s32_small (held + 1 - 1)) by (unfold is_s32; lia). cbn. rewrite Z.add_simpl_r. split; [split; cbn; lia || done|]. split; [done|].
      rewrite (s32_small (s32 _)) by apply s32_range. replace (s32 (alloc_out_res_rate it + 1) - 1) with (s32 (alloc_out_res_rate it + 1) + -1) by lia. rewrite s32_add. f_equal. lia. }
  split; [done|]. split.
  - exists it'. cbn. by rewrite lookup_insert_eq.
  - cbn. rewrite X3. eapply Forall_impl; [exact Hl|]. intros q Hq. apply lookup_insert_is_Some'. by right.
Qed.

Lemma slots_step M w held e x :
  slots_ok M w held -> p <> 0 -> 20 <= M -> M + 1 < 2 ^ 31 -> limit_ok M e ->
  match e with Se_alloc now start => gap_ok now start | _ => True end ->
  slot_step e (w, held) = Some x -> slots_ok M x.1 x.2.
Proof.
  intros Hok Hp HM0 HM He Hg Hst. destruct e as [now start| | |a b c r m|now]; cbn [slot_step] in Hst.
  - destruct (slot_alloc M w held now start Hok Hp HM Hg) as (w' & r & it & it' & E & _ & _ & Hr & _ & Hok'). rewrite E in Hst. cbn in Hst. rewrite Hr in Hst.
    by injection Hst as <-.
  - destruct (held >? 0) eqn:Eh; [|done]. zbool. unfold dec_res_rate_max_reqs in Hst. rewrite (proj2 (Z.eqb_neq p 0)) in Hst by done.
    destruct Hok as [(it & Hit & [E1 E2 E3 E4 E5]) Hl]. rewrite Hit in Hst. cbn [mbind option_bind] in Hst. rewrite E1 in Hst. unfold upd_item in Hst. rewrite Hit in Hst.
    cbn [mbind option_bind] in Hst. injection Hst as <-. cbn [fst snd]. set (v := set_fc_items _ w).
    assert (slots_ok M v (held - 1)) as Hv.
    { split.
      - eexists. cbn. rewrite lookup_insert_eq. split; [done|]. split; cbn; try done; try lia. rewrite s32_small; [done|unfold is_s32; lia].
      - cbn. eapply Forall_impl; [exact Hl|]. intros q Hq. apply lookup_insert_is_Some'. by right. }
    case_match; [|done]. destruct Hv as [Hv1 Hv2]. by split.
  - destruct (slots_update M w held update_res_rate_timeout) as (w' & E & Hok'); [|done|rewrite E in Hst; by injection Hst as <-].
    intros it [E1 E2 E3 E4 E5]. split; cbn; try done. case_match; zbool; [|unfold MIN_NN_MAX_REQUESTS_TIMEOUT; lia]. rewrite Z.shiftr_div_pow2 by lia.
    change (2 ^ 1) with 2. assert (fc_curr_max_reqs it / 2 <= fc_curr_max_reqs it) by (apply Z.div_le_upper_bound; unfold MIN_NN_MAX_REQUESTS_TIMEOUT in *; lia). lia.
  - destruct He. destruct (slots_update M w held (update_resource_rate a b c r m)) as (w' & E & Hok'); [|done|rewrite E in Hst; by injection Hst as <-].
    intros it [E1 E2 E3 E4 E5]. split; cbn; try done. case_match; [done|]. unfold MIN_NN_MAX_REQUESTS_TIMEOUT. lia.
  - unfold update_all_resource_rate in Hst. destruct (slots_update_all M w held (update_one_rate jiffies_to_msecs now) (fc_reslist w)) as (w' & E & Hok');
      [|done|apply Hok|rewrite E in Hst; by injection Hst as <-].
    intros it [E1 E2 E3 E4 E5]. unfold update_one_rate. by repeat case_match.
Qed.

End slots.

Definition clock_ok (jm : Z -> Z) (e : slot_ev) : Prop :=
  match e with Se_alloc now start => gap_ok jm now start | _ => True end.

Lemma slots_run jm p M evs w held x :
  slots_ok p M w held -> p <> 0 -> 20 <= M -> M + 1 < 2 ^ 31 -> Forall (limit_ok M) evs -> Forall (clock_ok jm) evs ->
  slot_run jm p evs (w, held) = Some x -> slots_ok p M x.1 x.2.
Proof.
  intros Hok Hp H20 HM Hlim Hclk Hrun. revert w held Hok Hlim Hclk Hrun. induction evs as [|e evs IH]; intros w held Hok Hlim Hclk Hrun; cbn [slot_run] in Hrun.
  - by injection Hrun as <-.
  - destruct (slot_step jm p e (w, held)) as [[w1 h1]|] eqn:E; [|done]. apply Forall_cons in Hlim as [L1 L2]. apply Forall_cons in Hclk as [C1 C2].
    eapply IH; [|exact L2|exact C2|exact Hrun]. exact (slots_step jm p M w held e (w1, h1) Hok Hp H20 HM L1 C1 E).
Qed.


(** A namenode that was just added. *)
Definition ex_nn : fc_world := default init_flow_control (fst <$> add_NN_Resource 7 1234 (Some 64) true init_flow_control).

Definition ex_slots : list slot_ev :=
  [Se_alloc 5 5; Se_alloc 5 5; Se_timeout; Se_return; Se_rates 128 2048 300 (-1) 30; Se_slot 2000].


(** ** Limits after timeouts *)

Lemma timeout_limit it :
  (fc_curr_max_reqs (update_res_rate_timeout it) = if fc_curr_max_reqs it >=? 20 then fc_curr_max_reqs it / 2 else 20) /\
  (fc_curr_rate (update_res_rate_timeout it) = if fc_curr_rate it >? 1 then fc_curr_rate it / 2 else 1).
Proof. unfold update_res_rate_timeout, MIN_NN_MAX_REQUESTS_TIMEOUT, MIN_NN_FIXED_RATE_TIMEOUT. cbn. by rewrite !Z.shiftr_div_pow2. Qed.

(** Timeouts slow the requests down to a floor that is not the documented one.  After any number of timeouts at least 10 requests may be out
    (20 is the least the constants name) and at least one per time slot may be sent; after 32 timeouts the limit is between 10 and 20 and the rate is 1, also when
    the rate had been unlimited. *)
Theorem timeout_backoff (it : dms_res_item_t) (k : nat) :
  is_s32 (fc_curr_max_reqs it) -> is_s32 (fc_curr_rate it) -> (1 <= k)%nat ->
  let it' := Nat.iter k update_res_rate_timeout it in
  10 <= fc_curr_max_reqs it' <= Z.max 20 (fc_curr_max_reqs it) /\ 1 <= fc_curr_rate it' <= Z.max 1 (fc_curr_rate it) /\
  ((32 <= k)%nat -> fc_curr_max_reqs it' <= 20 /\ fc_curr_rate it' = 1).
Proof.
  intros Hm Hr Hk. cbv zeta. unfold is_s32 in *.
  assert (forall j, let it' := Nat.iter (S j) update_res_rate_timeout it in
    10 <= fc_curr_max_reqs it' <= Z.max 20 (fc_curr_max_reqs it) /\ 1 <= fc_curr_rate it' <= Z.max 1 (fc_curr_rate it) /\
    (fc_curr_max_reqs it' <= 20 \/ fc_curr_max_reqs it' * 2 ^ Z.of_nat (S j) < 2 ^ 31) /\ (fc_curr_rate it' = 1 \/ fc_curr_rate it' * 2 ^ Z.of_nat (S j) < 2 ^ 31)) as H.
  { induction j as [|j IH]; cbv zeta in *.
    - cbn [Nat.iter nat_rect]. destruct (timeout_limit it) as [-> ->]. change (2 ^ Z.of_nat 1) with 2.
      pose proof (Z.mul_div_le (fc_curr_max_reqs it) 2 ltac:(lia)). pose proof (Z.mul_div_le (fc_curr_rate it) 2 ltac:(lia)).
      pose proof (Z.mod_pos_bound (fc_curr_max_reqs it) 2 ltac:(lia)). pose proof (Z.div_mod (fc_curr_max_reqs it) 2 ltac:(lia)).
      pose proof (Z.mod_pos_bound (fc_curr_rate it) 2 ltac:(lia)). pose proof (Z.div_mod (fc_curr_rate it) 2 ltac:(lia)).
      split_and!; repeat case_match; zbool; lia.
    - change (Nat.iter (S (S j)) update_res_rate_timeout it) with (update_res_rate_timeout (Nat.iter (S j) update_res_rate_timeout it)).
      set (x := Nat.iter (S j) update_res_rate_timeout it) in *. clearbody x. destruct (timeout_limit x) as [-> ->]. destruct IH as (I1 & I2 & I3 & I4).
      rewrite (Nat2Z.inj_succ (S j)), Z.pow_succ_r by lia. set (P := 2 ^ Z.of_nat (S j)) in *. assert (0 < P) by (apply Z.pow_pos_nonneg; lia). clearbody P.
      pose proof (Z.mod_pos_bound (fc_curr_max_reqs x) 2 ltac:(lia)). pose proof (Z.div_mod (fc_curr_max_reqs x) 2 ltac:(lia)).
      pose proof (Z.mod_pos_bound (fc_curr_rate x) 2 ltac:(lia)). pose proof (Z.div_mod (fc_curr_rate x) 2 ltac:(lia)).
      split_and!; repeat case_match; zbool; lia. }
  destruct k as [|j]; [lia|]. destruct (H j) as (I1 & I2 & I3 & I4). split_and!; try lia; intros H32.
  assert (2 ^ 32 <= 2 ^ Z.of_nat (S j)) by (apply Z.pow_le_mono_r; lia). split; [destruct I3; [done|nia]|destruct I4; [done|nia]].
Qed.

Lemma timeout_backoff_witness :
  exists it, fc_items ex_nn !! 64 = Some it /\ fc_curr_max_reqs (Nat.iter 32 update_res_rate_timeout (update_resource_rate 128 2048 300 (-1) 2048 it)) <= 20.
Proof.
  destruct (fc_items ex_nn !! 64) as [it|] eqn:E; [|vm_compute in E; discriminate]. exists it. split; [done|].
  destruct (timeout_backoff (update_resource_rate 128 2048 300 (-1) 2048 it) 32) as (_ & _ & H); [cbn; unfold is_s32; lia..|lia|].
  apply H. lia.
Defined.
