(* ===== verification/NNClient.v ===== *)
(** * NNClient: requests to the namenode

    Translation of discoNN_client/discoC_NNMData_Request.c, discoC_NNMDReqPool.c, the queues of discoC_NNC_worker.c, the
    worker functions of discoC_NNC_workerfunc.c, the answers of discoC_NNAck_acquireMD.c and discoC_NNAck_reportMD.c, and
    of [discoC_acquire_metadata], [discoC_report_metadata] and the retries of discoC_NNC_Manager.c (without pre-allocation of
    space, a compile-time option that is off).

    A request is in a pool, by its number, until somebody ends it: the answer of the namenode, its timer, or, when
    its metadata came from the cache, the worker for such requests.  Two workers take requests from their queues; the one
    that sends asks the flow control first and may wait there.  After a reconnection the housekeeping
    thread collects the requests without an answer and sends them again.  Whoever ends a request tells the caller
    and waits until nobody refers to the request any more, then frees it.

    [nn_reqs] are the allocated requests by address.  A step is a whole handler, except where a thread waits: the sender in
    the flow control and before the transmission ([nn_cm]), the worker for cached metadata behind its queue ([nn_ch]), the
    housekeeping thread between collecting and sending ([nn_retry]), and everybody who waits to free a
    request ([nn_dying]).  [nn_calls] are the calls to the callers, the cache, the statistics and the connection. *)

From S2P Require Import Prelude CommonUtil Fsm NNMDReqFsm IOReqOvlp NNProto FlowControl Buckets.

Definition NNREQ_HBUCKET_SIZE : Z := 4001.
Definition NNC_WORKQ_HASH_NUM : Z := 32.
Definition NNC_WORKQ_MOD_NUM : Z := NNC_WORKQ_HASH_NUM - 1.
Definition NNC_WORKQ_TOTAL_NUM : Z := NNC_WORKQ_HASH_NUM + 1.
Definition NNC_WORKQ_HP_BK_IDX : Z := NNC_WORKQ_HASH_NUM.
Definition MIN_NNMDREQ_SCHED_TIME : Z := 5.
Definition BASIC_NN_FC_WAIT : Z := 500.
Definition REQ_NN_QUERY_TRUE_MDATA_READIO : Z := 1.
Definition REQ_NN_ALLOC_MDATA_AND_GET_OLD : Z := 2.
Definition REQ_NN_REPORT_WRITEIO_RESULT_DEPRECATED : Z := 6.
Definition SIZE_getMDReq_hder : Z := 46.
Definition EACCES : Z := 13.
Definition ENODEV : Z := 19.

(** [NNMDReq_fea_t]. *)
Definition NNREQ_FEA_CACHE_HIT : Z := 0.
Definition NNREQ_FEA_HBID_ERR : Z := 1.
Definition NNREQ_FEA_IN_WORKQ : Z := 2.
Definition NNREQ_FEA_IN_REQPOOL : Z := 3.
Definition NNREQ_FEA_OVW_STAT : Z := 4.
Definition NNREQ_FEA_SCHED_TIMER : Z := 5.
Definition NNREQ_FEA_MDCACHE_ON : Z := 6.

Inductive nn_fc_code_t : Type := NN_FC_TOGO | NN_FC_CONN_LOST | NN_FC_MAX_REQS | NN_FC_REQ_CTL.

(** [nr_prior_low]: the priority is PRIORITY_LOW; [nr_caller]: the private data of the caller, which names the submission. *)
Record NNMData_Req_t : Type := {
  nr_ReqID : Z;
  nr_OPCode : Z;
  nr_prior_low : bool;
  nr_fea : Z;
  nr_RefCnt : Z;
  t_sendReq : Z;
  t_rcvReqAck : Z;
  nr_vol : Z;
  nr_lbs : Z;
  nr_len : Z;
  t_MDReq_last_submitT : Z;
  t_MDReq_TO_msec : Z;
  t_MDReq_rTO_msec : Z;
  t_MDCIReq_rTO_msec : Z;
  nnReq_stat : NNMDReq_fsm_t;
  nr_volReplica : Z;
  nr_caller : Z;
}.

Record discoNNC_worker_t : Type := {
  wker_ReqPool : buckets;
  deq_bucket_idx : Z;
  wker_ReqQ_size : Z;
  wker_HPReqQ_size : Z;
}.

(** What the sending worker is doing. *)
Inductive cm_state : Type :=
| Cm_idle
| Cm_enter (p : Z)
| Cm_wait (p : Z)
| Cm_send (p : Z).

Inductive nn_call : Type :=
| Nc_end (caller result : Z)
| Nc_setovw (caller : Z) (l : list (Z * Z))
| Nc_cache (vol lbs len : Z) (enable : bool)
| Nc_latency (t_send t_rcv : Z)
| Nc_send (h : CN2NN_getMDReq_hder_t)
| Nc_report (caller opcode : Z)
| Nc_reset.

(** [nn_timers]: the delayed works in the work queue, with the delay and whether the handler is the one of an acquire request;
    [nn_plock]: the locks of the pool that are held between steps. *)
Record nn_world : Type := {
  nn_reqs : gmap Z NNMData_Req_t;
  NNMDReq_pool : buckets;
  nn_plock : gset Z;
  num_NNMDReq : Z;
  MDReq_ID_gen : Z;
  nnMDCH_worker : discoNNC_worker_t;
  nnMDCM_worker : discoNNC_worker_t;
  nn_timers : gmap Z (Z * bool);
  num_nnReq_noResp : Z;
  nnReq_last_rcvID : Z;
  nn_fc_start_t : Z;
  fc_t_slot : Z;
  nn_fc : fc_world;
  nnSrv_resource : Z;
  nnSrv_IPAddr : Z;
  nnSrv_port : Z;
  nn_cm : cm_state;
  nn_ch : option Z;
  nn_retry : list Z;
  nn_dying : list Z;
  nn_calls : list nn_call;
}.

Definition set_nr_fea (x0 : Z) (r : NNMData_Req_t) : NNMData_Req_t :=
  {| nr_ReqID := nr_ReqID r; nr_OPCode := nr_OPCode r; nr_prior_low := nr_prior_low r; nr_fea := x0; nr_RefCnt
     := nr_RefCnt r; t_sendReq := t_sendReq r; t_rcvReqAck := t_rcvReqAck r; nr_vol := nr_vol r; nr_lbs :=
     nr_lbs r; nr_len := nr_len r; t_MDReq_last_submitT := t_MDReq_last_submitT r; t_MDReq_TO_msec :=
     t_MDReq_TO_msec r; t_MDReq_rTO_msec := t_MDReq_rTO_msec r; t_MDCIReq_rTO_msec := t_MDCIReq_rTO_msec r;
     nnReq_stat := nnReq_stat r; nr_volReplica := nr_volReplica r; nr_caller := nr_caller r |}.

Definition set_nr_ref (x0 : Z) (r : NNMData_Req_t) : NNMData_Req_t :=
  {| nr_ReqID := nr_ReqID r; nr_OPCode := nr_OPCode r; nr_prior_low := nr_prior_low r; nr_fea := nr_fea r;
     nr_RefCnt := x0; t_sendReq := t_sendReq r; t_rcvReqAck := t_rcvReqAck r; nr_vol := nr_vol r; nr_lbs :=
     nr_lbs r; nr_len := nr_len r; t_MDReq_last_submitT := t_MDReq_last_submitT r; t_MDReq_TO_msec :=
     t_MDReq_TO_msec r; t_MDReq_rTO_msec := t_MDReq_rTO_msec r; t_MDCIReq_rTO_msec := t_MDCIReq_rTO_msec r;
     nnReq_stat := nnReq_stat r; nr_volReplica := nr_volReplica r; nr_caller := nr_caller r |}.

Definition set_nr_stat (x0 : NNMDReq_fsm_t) (r : NNMData_Req_t) : NNMData_Req_t :=
  {| nr_ReqID := nr_ReqID r; nr_OPCode := nr_OPCode r; nr_prior_low := nr_prior_low r; nr_fea := nr_fea r;
     nr_RefCnt := nr_RefCnt r; t_sendReq := t_sendReq r; t_rcvReqAck := t_rcvReqAck r; nr_vol := nr_vol r;
     nr_lbs := nr_lbs r; nr_len := nr_len r; t_MDReq_last_submitT := t_MDReq_last_submitT r; t_MDReq_TO_msec :=
     t_MDReq_TO_msec r; t_MDReq_rTO_msec := t_MDReq_rTO_msec r; t_MDCIReq_rTO_msec := t_MDCIReq_rTO_msec r;
     nnReq_stat := x0; nr_volReplica := nr_volReplica r; nr_caller := nr_caller r |}.

Definition set_nr_sched (x0 : Z) (x1 : Z) (r : NNMData_Req_t) : NNMData_Req_t :=
  {| nr_ReqID := nr_ReqID r; nr_OPCode := nr_OPCode r; nr_prior_low := nr_prior_low r; nr_fea := nr_fea r;
     nr_RefCnt := nr_RefCnt r; t_sendReq := t_sendReq r; t_rcvReqAck := t_rcvReqAck r; nr_vol := nr_vol r;
     nr_lbs := nr_lbs r; nr_len := nr_len r; t_MDReq_last_submitT := x0; t_MDReq_TO_msec := t_MDReq_TO_msec r;
     t_MDReq_rTO_msec := x1; t_MDCIReq_rTO_msec := t_MDCIReq_rTO_msec r; nnReq_stat := nnReq_stat r;
     nr_volReplica := nr_volReplica r; nr_caller := nr_caller r |}.

Definition set_nr_times (x0 : Z) (x1 : Z) (x2 : Z) (x3 : Z) (x4 : Z) (r : NNMData_Req_t) : NNMData_Req_t :=
  {| nr_ReqID := nr_ReqID r; nr_OPCode := nr_OPCode r; nr_prior_low := nr_prior_low r; nr_fea := nr_fea r;
     nr_RefCnt := nr_RefCnt r; t_sendReq := t_sendReq r; t_rcvReqAck := t_rcvReqAck r; nr_vol := nr_vol r;
     nr_lbs := nr_lbs r; nr_len := nr_len r; t_MDReq_last_submitT := x0; t_MDReq_TO_msec := x1; t_MDReq_rTO_msec
     := x2; t_MDCIReq_rTO_msec := x3; nnReq_stat := nnReq_stat r; nr_volReplica := nr_volReplica r; nr_caller :=
     x4 |}.

Definition set_nr_send (x0 : Z) (r : NNMData_Req_t) : NNMData_Req_t :=
  {| nr_ReqID := nr_ReqID r; nr_OPCode := nr_OPCode r; nr_prior_low := nr_prior_low r; nr_fea := nr_fea r;
     nr_RefCnt := nr_RefCnt r; t_sendReq := x0; t_rcvReqAck := t_rcvReqAck r; nr_vol := nr_vol r; nr_lbs :=
     nr_lbs r; nr_len := nr_len r; t_MDReq_last_submitT := t_MDReq_last_submitT r; t_MDReq_TO_msec :=
     t_MDReq_TO_msec r; t_MDReq_rTO_msec := t_MDReq_rTO_msec r; t_MDCIReq_rTO_msec := t_MDCIReq_rTO_msec r;
     nnReq_stat := nnReq_stat r; nr_volReplica := nr_volReplica r; nr_caller := nr_caller r |}.

Definition set_nr_rcv (x0 : Z) (r : NNMData_Req_t) : NNMData_Req_t :=
  {| nr_ReqID := nr_ReqID r; nr_OPCode := nr_OPCode r; nr_prior_low := nr_prior_low r; nr_fea := nr_fea r;
     nr_RefCnt := nr_RefCnt r; t_sendReq := t_sendReq r; t_rcvReqAck := x0; nr_vol := nr_vol r; nr_lbs := nr_lbs
     r; nr_len := nr_len r; t_MDReq_last_submitT := t_MDReq_last_submitT r; t_MDReq_TO_msec := t_MDReq_TO_msec
     r; t_MDReq_rTO_msec := t_MDReq_rTO_msec r; t_MDCIReq_rTO_msec := t_MDCIReq_rTO_msec r; nnReq_stat :=
     nnReq_stat r; nr_volReplica := nr_volReplica r; nr_caller := nr_caller r |}.

Definition set_wk_deq (x0 : Z) (wk : discoNNC_worker_t) : discoNNC_worker_t :=
  {| wker_ReqPool := wker_ReqPool wk; deq_bucket_idx := x0; wker_ReqQ_size := wker_ReqQ_size wk;
     wker_HPReqQ_size := wker_HPReqQ_size wk |}.

Definition set_nn_reqs (x0 : gmap Z NNMData_Req_t) (w : nn_world) : nn_world :=
  {| nn_reqs := x0; NNMDReq_pool := NNMDReq_pool w; nn_plock := nn_plock w; num_NNMDReq := num_NNMDReq w;
     MDReq_ID_gen := MDReq_ID_gen w; nnMDCH_worker := nnMDCH_worker w; nnMDCM_worker := nnMDCM_worker w;
     nn_timers := nn_timers w; num_nnReq_noResp := num_nnReq_noResp w; nnReq_last_rcvID := nnReq_last_rcvID w;
     nn_fc_start_t := nn_fc_start_t w; fc_t_slot := fc_t_slot w; nn_fc := nn_fc w; nnSrv_resource :=
     nnSrv_resource w; nnSrv_IPAddr := nnSrv_IPAddr w; nnSrv_port := nnSrv_port w; nn_cm := nn_cm w; nn_ch :=
     nn_ch w; nn_retry := nn_retry w; nn_dying := nn_dying w; nn_calls := nn_calls w |}.

Definition set_nn_pool (x0 : buckets) (x1 : Z) (w : nn_world) : nn_world :=
  {| nn_reqs := nn_reqs w; NNMDReq_pool := x0; nn_plock := nn_plock w; num_NNMDReq := x1; MDReq_ID_gen :=
     MDReq_ID_gen w; nnMDCH_worker := nnMDCH_worker w; nnMDCM_worker := nnMDCM_worker w; nn_timers := nn_timers
     w; num_nnReq_noResp := num_nnReq_noResp w; nnReq_last_rcvID := nnReq_last_rcvID w; nn_fc_start_t :=
     nn_fc_start_t w; fc_t_slot := fc_t_slot w; nn_fc := nn_fc w; nnSrv_resource := nnSrv_resource w;
     nnSrv_IPAddr := nnSrv_IPAddr w; nnSrv_port := nnSrv_port w; nn_cm := nn_cm w; nn_ch := nn_ch w; nn_retry :=
     nn_retry w; nn_dying := nn_dying w; nn_calls := nn_calls w |}.

Definition set_nn_plock (x0 : gset Z) (w : nn_world) : nn_world :=
  {| nn_reqs := nn_reqs w; NNMDReq_pool := NNMDReq_pool w; nn_plock := x0; num_NNMDReq := num_NNMDReq w;
     MDReq_ID_gen := MDReq_ID_gen w; nnMDCH_worker := nnMDCH_worker w; nnMDCM_worker := nnMDCM_worker w;
     nn_timers := nn_timers w; num_nnReq_noResp := num_nnReq_noResp w; nnReq_last_rcvID := nnReq_last_rcvID w;
     nn_fc_start_t := nn_fc_start_t w; fc_t_slot := fc_t_slot w; nn_fc := nn_fc w; nnSrv_resource :=
     nnSrv_resource w; nnSrv_IPAddr := nnSrv_IPAddr w; nnSrv_port := nnSrv_port w; nn_cm := nn_cm w; nn_ch :=
     nn_ch w; nn_retry := nn_retry w; nn_dying := nn_dying w; nn_calls := nn_calls w |}.

Definition set_nn_gen (x0 : Z) (w : nn_world) : nn_world :=
  {| nn_reqs := nn_reqs w; NNMDReq_pool := NNMDReq_pool w; nn_plock := nn_plock w; num_NNMDReq := num_NNMDReq w;
     MDReq_ID_gen := x0; nnMDCH_worker := nnMDCH_worker w; nnMDCM_worker := nnMDCM_worker w; nn_timers :=
     nn_timers w; num_nnReq_noResp := num_nnReq_noResp w; nnReq_last_rcvID := nnReq_last_rcvID w; nn_fc_start_t
     := nn_fc_start_t w; fc_t_slot := fc_t_slot w; nn_fc := nn_fc w; nnSrv_resource := nnSrv_resource w;
     nnSrv_IPAddr := nnSrv_IPAddr w; nnSrv_port := nnSrv_port w; nn_cm := nn_cm w; nn_ch := nn_ch w; nn_retry :=
     nn_retry w; nn_dying := nn_dying w; nn_calls := nn_calls w |}.

Definition set_nn_chq (x0 : discoNNC_worker_t) (w : nn_world) : nn_world :=
  {| nn_reqs := nn_reqs w; NNMDReq_pool := NNMDReq_pool w; nn_plock := nn_plock w; num_NNMDReq := num_NNMDReq w;
     MDReq_ID_gen := MDReq_ID_gen w; nnMDCH_worker := x0; nnMDCM_worker := nnMDCM_worker w; nn_timers :=
     nn_timers w; num_nnReq_noResp := num_nnReq_noResp w; nnReq_last_rcvID := nnReq_last_rcvID w; nn_fc_start_t
     := nn_fc_start_t w; fc_t_slot := fc_t_slot w; nn_fc := nn_fc w; nnSrv_resource := nnSrv_resource w;
     nnSrv_IPAddr := nnSrv_IPAddr w; nnSrv_port := nnSrv_port w; nn_cm := nn_cm w; nn_ch := nn_ch w; nn_retry :=
     nn_retry w; nn_dying := nn_dying w; nn_calls := nn_calls w |}.

Definition set_nn_cmq (x0 : discoNNC_worker_t) (w : nn_world) : nn_world :=
  {| nn_reqs := nn_reqs w; NNMDReq_pool := NNMDReq_pool w; nn_plock := nn_plock w; num_NNMDReq := num_NNMDReq w;
     MDReq_ID_gen := MDReq_ID_gen w; nnMDCH_worker := nnMDCH_worker w; nnMDCM_worker := x0; nn_timers :=
     nn_timers w; num_nnReq_noResp := num_nnReq_noResp w; nnReq_last_rcvID := nnReq_last_rcvID w; nn_fc_start_t
     := nn_fc_start_t w; fc_t_slot := fc_t_slot w; nn_fc := nn_fc w; nnSrv_resource := nnSrv_resource w;
     nnSrv_IPAddr := nnSrv_IPAddr w; nnSrv_port := nnSrv_port w; nn_cm := nn_cm w; nn_ch := nn_ch w; nn_retry :=
     nn_retry w; nn_dying := nn_dying w; nn_calls := nn_calls w |}.

Definition set_nn_timers (x0 : gmap Z (Z * bool)) (w : nn_world) : nn_world :=
  {| nn_reqs := nn_reqs w; NNMDReq_pool := NNMDReq_pool w; nn_plock := nn_plock w; num_NNMDReq := num_NNMDReq w;
     MDReq_ID_gen := MDReq_ID_gen w; nnMDCH_worker := nnMDCH_worker w; nnMDCM_worker := nnMDCM_worker w;
     nn_timers := x0; num_nnReq_noResp := num_nnReq_noResp w; nnReq_last_rcvID := nnReq_last_rcvID w;
     nn_fc_start_t := nn_fc_start_t w; fc_t_slot := fc_t_slot w; nn_fc := nn_fc w; nnSrv_resource :=
     nnSrv_resource w; nnSrv_IPAddr := nnSrv_IPAddr w; nnSrv_port := nnSrv_port w; nn_cm := nn_cm w; nn_ch :=
     nn_ch w; nn_retry := nn_retry w; nn_dying := nn_dying w; nn_calls := nn_calls w |}.

Definition set_nn_noResp (x0 : Z) (w : nn_world) : nn_world :=
  {| nn_reqs := nn_reqs w; NNMDReq_pool := NNMDReq_pool w; nn_plock := nn_plock w; num_NNMDReq := num_NNMDReq w;
     MDReq_ID_gen := MDReq_ID_gen w; nnMDCH_worker := nnMDCH_worker w; nnMDCM_worker := nnMDCM_worker w;
     nn_timers := nn_timers w; num_nnReq_noResp := x0; nnReq_last_rcvID := nnReq_last_rcvID w; nn_fc_start_t :=
     nn_fc_start_t w; fc_t_slot := fc_t_slot w; nn_fc := nn_fc w; nnSrv_resource := nnSrv_resource w;
     nnSrv_IPAddr := nnSrv_IPAddr w; nnSrv_port := nnSrv_port w; nn_cm := nn_cm w; nn_ch := nn_ch w; nn_retry :=
     nn_retry w; nn_dying := nn_dying w; nn_calls := nn_calls w |}.

Definition set_nn_rcv (x0 : Z) (x1 : Z) (w : nn_world) : nn_world :=
  {| nn_reqs := nn_reqs w; NNMDReq_pool := NNMDReq_pool w; nn_plock := nn_plock w; num_NNMDReq := num_NNMDReq w;
     MDReq_ID_gen := MDReq_ID_gen w; nnMDCH_worker := nnMDCH_worker w; nnMDCM_worker := nnMDCM_worker w;
     nn_timers := nn_timers w; num_nnReq_noResp := x0; nnReq_last_rcvID := x1; nn_fc_start_t := nn_fc_start_t w;
     fc_t_slot := fc_t_slot w; nn_fc := nn_fc w; nnSrv_resource := nnSrv_resource w; nnSrv_IPAddr :=
     nnSrv_IPAddr w; nnSrv_port := nnSrv_port w; nn_cm := nn_cm w; nn_ch := nn_ch w; nn_retry := nn_retry w;
     nn_dying := nn_dying w; nn_calls := nn_calls w |}.

Definition set_nn_start (x0 : Z) (w : nn_world) : nn_world :=
  {| nn_reqs := nn_reqs w; NNMDReq_pool := NNMDReq_pool w; nn_plock := nn_plock w; num_NNMDReq := num_NNMDReq w;
     MDReq_ID_gen := MDReq_ID_gen w; nnMDCH_worker := nnMDCH_worker w; nnMDCM_worker := nnMDCM_worker w;
     nn_timers := nn_timers w; num_nnReq_noResp := num_nnReq_noResp w; nnReq_last_rcvID := nnReq_last_rcvID w;
     nn_fc_start_t := x0; fc_t_slot := fc_t_slot w; nn_fc := nn_fc w; nnSrv_resource := nnSrv_resource w;
     nnSrv_IPAddr := nnSrv_IPAddr w; nnSrv_port := nnSrv_port w; nn_cm := nn_cm w; nn_ch := nn_ch w; nn_retry :=
     nn_retry w; nn_dying := nn_dying w; nn_calls := nn_calls w |}.

Definition set_nn_fc (x0 : fc_world) (w : nn_world) : nn_world :=
  {| nn_reqs := nn_reqs w; NNMDReq_pool := NNMDReq_pool w; nn_plock := nn_plock w; num_NNMDReq := num_NNMDReq w;
     MDReq_ID_gen := MDReq_ID_gen w; nnMDCH_worker := nnMDCH_worker w; nnMDCM_worker := nnMDCM_worker w;
     nn_timers := nn_timers w; num_nnReq_noResp := num_nnReq_noResp w; nnReq_last_rcvID := nnReq_last_rcvID w;
     nn_fc_start_t := nn_fc_start_t w; fc_t_slot := fc_t_slot w; nn_fc := x0; nnSrv_resource := nnSrv_resource
     w; nnSrv_IPAddr := nnSrv_IPAddr w; nnSrv_port := nnSrv_port w; nn_cm := nn_cm w; nn_ch := nn_ch w; nn_retry
     := nn_retry w; nn_dying := nn_dying w; nn_calls := nn_calls w |}.

Definition set_nn_cm (x0 : cm_state) (w : nn_world) : nn_world :=
  {| nn_reqs := nn_reqs w; NNMDReq_pool := NNMDReq_pool w; nn_plock := nn_plock w; num_NNMDReq := num_NNMDReq w;
     MDReq_ID_gen := MDReq_ID_gen w; nnMDCH_worker := nnMDCH_worker w; nnMDCM_worker := nnMDCM_worker w;
     nn_timers := nn_timers w; num_nnReq_noResp := num_nnReq_noResp w; nnReq_last_rcvID := nnReq_last_rcvID w;
     nn_fc_start_t := nn_fc_start_t w; fc_t_slot := fc_t_slot w; nn_fc := nn_fc w; nnSrv_resource :=
     nnSrv_resource w; nnSrv_IPAddr := nnSrv_IPAddr w; nnSrv_port := nnSrv_port w; nn_cm := x0; nn_ch := nn_ch
     w; nn_retry := nn_retry w; nn_dying := nn_dying w; nn_calls := nn_calls w |}.

Definition set_nn_ch (x0 : option Z) (w : nn_world) : nn_world :=
  {| nn_reqs := nn_reqs w; NNMDReq_pool := NNMDReq_pool w; nn_plock := nn_plock w; num_NNMDReq := num_NNMDReq w;
     MDReq_ID_gen := MDReq_ID_gen w; nnMDCH_worker := nnMDCH_worker w; nnMDCM_worker := nnMDCM_worker w;
     nn_timers := nn_timers w; num_nnReq_noResp := num_nnReq_noResp w; nnReq_last_rcvID := nnReq_last_rcvID w;
     nn_fc_start_t := nn_fc_start_t w; fc_t_slot := fc_t_slot w; nn_fc := nn_fc w; nnSrv_resource :=
     nnSrv_resource w; nnSrv_IPAddr := nnSrv_IPAddr w; nnSrv_port := nnSrv_port w; nn_cm := nn_cm w; nn_ch :=
     x0; nn_retry := nn_retry w; nn_dying := nn_dying w; nn_calls := nn_calls w |}.

Definition set_nn_retry (x0 : list Z) (w : nn_world) : nn_world :=
  {| nn_reqs := nn_reqs w; NNMDReq_pool := NNMDReq_pool w; nn_plock := nn_plock w; num_NNMDReq := num_NNMDReq w;
     MDReq_ID_gen := MDReq_ID_gen w; nnMDCH_worker := nnMDCH_worker w; nnMDCM_worker := nnMDCM_worker w;
     nn_timers := nn_timers w; num_nnReq_noResp := num_nnReq_noResp w; nnReq_last_rcvID := nnReq_last_rcvID w;
     nn_fc_start_t := nn_fc_start_t w; fc_t_slot := fc_t_slot w; nn_fc := nn_fc w; nnSrv_resource :=
     nnSrv_resource w; nnSrv_IPAddr := nnSrv_IPAddr w; nnSrv_port := nnSrv_port w; nn_cm := nn_cm w; nn_ch :=
     nn_ch w; nn_retry := x0; nn_dying := nn_dying w; nn_calls := nn_calls w |}.

Definition set_nn_dying (x0 : list Z) (w : nn_world) : nn_world :=
  {| nn_reqs := nn_reqs w; NNMDReq_pool := NNMDReq_pool w; nn_plock := nn_plock w; num_NNMDReq := num_NNMDReq w;
     MDReq_ID_gen := MDReq_ID_gen w; nnMDCH_worker := nnMDCH_worker w; nnMDCM_worker := nnMDCM_worker w;
     nn_timers := nn_timers w; num_nnReq_noResp := num_nnReq_noResp w; nnReq_last_rcvID := nnReq_last_rcvID w;
     nn_fc_start_t := nn_fc_start_t w; fc_t_slot := fc_t_slot w; nn_fc := nn_fc w; nnSrv_resource :=
     nnSrv_resource w; nnSrv_IPAddr := nnSrv_IPAddr w; nnSrv_port := nnSrv_port w; nn_cm := nn_cm w; nn_ch :=
     nn_ch w; nn_retry := nn_retry w; nn_dying := x0; nn_calls := nn_calls w |}.

Definition set_nn_calls (x0 : list nn_call) (w : nn_world) : nn_world :=
  {| nn_reqs := nn_reqs w; NNMDReq_pool := NNMDReq_pool w; nn_plock := nn_plock w; num_NNMDReq := num_NNMDReq w;
     MDReq_ID_gen := MDReq_ID_gen w; nnMDCH_worker := nnMDCH_worker w; nnMDCM_worker := nnMDCM_worker w;
     nn_timers := nn_timers w; num_nnReq_noResp := num_nnReq_noResp w; nnReq_last_rcvID := nnReq_last_rcvID w;
     nn_fc_start_t := nn_fc_start_t w; fc_t_slot := fc_t_slot w; nn_fc := nn_fc w; nnSrv_resource :=
     nnSrv_resource w; nnSrv_IPAddr := nnSrv_IPAddr w; nnSrv_port := nnSrv_port w; nn_cm := nn_cm w; nn_ch :=
     nn_ch w; nn_retry := nn_retry w; nn_dying := nn_dying w; nn_calls := x0 |}.

(** ** Access *)

Definition nn : Type -> Type := thread nn_world.

Definition get_nr (p : Z) : nn NNMData_Req_t := fun w =>
  match nn_reqs w !! p with Some r => Returns w r | None => Faults end.

Definition upd_nr (p : Z) (f : NNMData_Req_t -> NNMData_Req_t) : nn unit := fun w =>
  match nn_reqs w !! p with Some r => Returns (set_nn_reqs (<[p := f r]> (nn_reqs w)) w) tt | None => Faults end.

Definition nn_do (c : nn_call) : nn unit := modify (fun w => set_nn_calls (nn_calls w ++ [c]) w).

Definition nn_opt {A} (o : nn_world -> option A) : nn A := fun w => match o w with Some a => Returns w a | None => Faults end.

Definition fc_do (f : fc_world -> option fc_world) : nn unit := fun w =>
  match f (nn_fc w) with Some v => Returns (set_nn_fc v w) tt | None => Faults end.

(** ** Features, references, kinds of requests *)

Definition NNMDReq_set_fea (p bit : Z) : nn unit := upd_nr p (fun r => set_nr_fea (Z.setbit (nr_fea r) bit) r).
Definition NNMDReq_clear_fea (p bit : Z) : nn unit := upd_nr p (fun r => set_nr_fea (Z.clearbit (nr_fea r) bit) r).
Definition NNMDReq_check_feature (r : NNMData_Req_t) (bit : Z) : bool := Z.testbit (nr_fea r) bit.

Definition NNMDReq_test_set_fea (p bit : Z) : nn bool :=
  r ← get_nr p; NNMDReq_set_fea p bit;; mret (NNMDReq_check_feature r bit).

Definition NNMDReq_test_clear_fea (p bit : Z) : nn bool :=
  r ← get_nr p; NNMDReq_clear_fea p bit;; mret (NNMDReq_check_feature r bit).

Definition NNMDReq_MData_cacheHit (r : NNMData_Req_t) : bool := NNMDReq_check_feature r NNREQ_FEA_CACHE_HIT.
Definition NNMDReq_MData_hbidErr (r : NNMData_Req_t) : bool := NNMDReq_check_feature r NNREQ_FEA_HBID_ERR.
Definition NNMDReq_MData_cacheEnable (r : NNMData_Req_t) : bool := NNMDReq_check_feature r NNREQ_FEA_MDCACHE_ON.

Definition NNMDReq_check_acquire (r : NNMData_Req_t) : bool := nr_OPCode r <? REQ_NN_REPORT_READIO_RESULT.

Definition NNMDReq_check_alloc (r : NNMData_Req_t) : bool :=
  (REQ_NN_ALLOC_MDATA_NO_OLD =? nr_OPCode r) || (REQ_NN_ALLOC_MDATA_AND_GET_OLD =? nr_OPCode r).

Definition NNMDReq_ref_Req (p : Z) : nn unit := upd_nr p (fun r => set_nr_ref (s32 (nr_RefCnt r + 1)) r).
Definition NNMDReq_deref_Req (p : Z) : nn unit := upd_nr p (fun r => set_nr_ref (s32 (nr_RefCnt r - 1)) r).

(** An event for one of the two machines of the request; returns what the caller may do. *)
Definition getReq_event (p : Z) (e : NNMDgetReq_FSM_TREvent_t) : nn NNMDgetReq_FSM_action_t :=
  r ← get_nr p;
  upd_nr p (set_nr_stat (NNMDgetReq_update_state (nnReq_stat r) e).1);;
  mret (NNMDgetReq_update_state (nnReq_stat r) e).2.

Definition ciReq_event (p : Z) (e : NNMDciReq_FSM_TREvent_t) : nn NNMDciReq_FSM_action_t :=
  r ← get_nr p;
  upd_nr p (set_nr_stat (NNMDciReq_update_state (nnReq_stat r) e).1);;
  mret (NNMDciReq_update_state (nnReq_stat r) e).2.

(** ** The pool *)

Definition NNMDReqPool_acquire_plock (nnReqID : Z) : nn Z := fun w =>
  let buck_idx := nnReqID mod NNREQ_HBUCKET_SIZE in
  if bool_decide (buck_idx ∈ nn_plock w) then Blocks else Returns (set_nn_plock ({[buck_idx]} ∪ nn_plock w) w) buck_idx.

(** A lock outside of the array belongs to somebody else. *)
Definition NNMDReqPool_rel_plock (lockID : Z) : nn unit := fun w =>
  if (0 <=? lockID) && (lockID <? NNREQ_HBUCKET_SIZE) then Returns (set_nn_plock (nn_plock w ∖ {[lockID]}) w) tt else Faults.

Definition NNMDReqPool_addReq_nolock (p lockID : Z) : nn unit :=
  L ← nn_opt (fun w => bk_add lockID p (NNMDReq_pool w));
  modify (fun w => set_nn_pool L (s32 (num_NNMDReq w + 1)) w).

Definition NNMDReqPool_rmReq_nolock (p : Z) : nn unit :=
  L ← nn_opt (fun w => bk_del p (NNMDReq_pool w));
  modify (fun w => set_nn_pool L (s32 (num_NNMDReq w - 1)) w).

(** The first request of the list with this number; 0 when there is none. *)
Fixpoint find_by_id (nnReqID : Z) (l : list Z) : nn Z :=
  match l with
  | [] => mret 0
  | cur :: l => r ← get_nr cur; if nr_ReqID r =? nnReqID then mret cur else find_by_id nnReqID l
  end.

Definition NNMDReqPool_findReq_nolock (nnReqID lockID : Z) : nn Z :=
  l ← nn_opt (fun w => bk_get lockID (NNMDReq_pool w)); find_by_id nnReqID l.

Definition NNMDReqPool_get_numReq (w : nn_world) : Z := num_NNMDReq w.

(** ** The queues of the workers *)

Definition NNCWker_get_numReq_workQ (wk : discoNNC_worker_t) : Z := wker_ReqQ_size wk.

Definition NNCWker_gain_qlock (reqID : Z) (low : bool) : Z :=
  if low then Z.land reqID NNC_WORKQ_MOD_NUM else NNC_WORKQ_HP_BK_IDX.

Definition NNCWker_addReq_workerQ_nolock (lockID p : Z) (wk : discoNNC_worker_t) : option discoNNC_worker_t :=
  L ← bk_add lockID p (wker_ReqPool wk);
  let n := s32 (wker_ReqQ_size wk + 1) in
  let idx := if n =? 1 then lockID else deq_bucket_idx wk in
  let hp := if NNC_WORKQ_HP_BK_IDX =? lockID then s32 (wker_HPReqQ_size wk + 1) else wker_HPReqQ_size wk in
  Some {| wker_ReqPool := L; deq_bucket_idx := idx; wker_ReqQ_size := n; wker_HPReqQ_size := hp |}.

Definition NNCWker_peekReq_gain_lock (wk : discoNNC_worker_t) : discoNNC_worker_t * Z :=
  if wker_HPReqQ_size wk >? 0 then (wk, NNC_WORKQ_HP_BK_IDX)
  else (set_wk_deq (Z.land (u32 (deq_bucket_idx wk + 1)) NNC_WORKQ_MOD_NUM) wk, deq_bucket_idx wk).

(** 0 when the list is empty. *)
Definition NNCWker_peekReq_workerQ_nolock (lockID : Z) (wk : discoNNC_worker_t) : option Z :=
  l ← bk_get lockID (wker_ReqPool wk); Some match l with [] => 0 | p :: _ => p end.

Definition NNCWker_rmReq_workerQ_nolock (lockID p : Z) (wk : discoNNC_worker_t) : option discoNNC_worker_t :=
  L ← bk_del p (wker_ReqPool wk);
  let hp := if NNC_WORKQ_HP_BK_IDX =? lockID then s32 (wker_HPReqQ_size wk - 1) else wker_HPReqQ_size wk in
  Some {| wker_ReqPool := L; deq_bucket_idx := deq_bucket_idx wk; wker_ReqQ_size := s32 (wker_ReqQ_size wk - 1); wker_HPReqQ_size := hp |}.

Definition NNCWker_init_worker : discoNNC_worker_t :=
  {| wker_ReqPool := replicate (Z.to_nat NNC_WORKQ_TOTAL_NUM) []; deq_bucket_idx := 0; wker_ReqQ_size := 0; wker_HPReqQ_size := 0 |}.

(** The queue of the worker for cached metadata ([ch]) or of the sender. *)
Definition get_wk (ch : bool) (w : nn_world) : discoNNC_worker_t := if ch then nnMDCH_worker w else nnMDCM_worker w.

Definition set_wk (ch : bool) (wk : discoNNC_worker_t) (w : nn_world) : nn_world :=
  if ch then set_nn_chq wk w else set_nn_cmq wk w.

Definition upd_wk (ch : bool) (f : discoNNC_worker_t -> option discoNNC_worker_t) : nn unit :=
  wk ← nn_opt (fun w => f (get_wk ch w)); modify (set_wk ch wk).

(** Which queue a request goes to (lines 838 to 850 of [NNMDReq_submit_workerQ]). *)
Definition submit_queue (r : NNMData_Req_t) : bool := NNMDReq_check_acquire r && NNMDReq_MData_cacheHit r.

(** ** Timers *)

Section client.
(** The kernel's clock, the configured waiting time and [enable_fc]; [slot] is a request for a slot of the flow control. *)
Context (jiffies_to_msecs : Z -> Z) (HZ : Z).

Definition _get_MDReq_schedule_time (now p : Z) : nn Z :=
  r ← get_nr p;
  let rto :=
    if t_MDReq_last_submitT r =? 0 then t_MDReq_rTO_msec r
    else
      let t_dur := if time_after64 now (t_MDReq_last_submitT r) then u64 (now - t_MDReq_last_submitT r) else 0 in
      s32 (t_MDReq_rTO_msec r - jiffies_to_msecs t_dur) in
  upd_nr p (set_nr_sched now rto);;
  let ret_time := u64 (Z.quot (rto + 999) 1000) in
  mret (u64 ((if ret_time <=? MIN_NNMDREQ_SCHED_TIME then 0 else ret_time) * HZ)).

Definition _get_MDCIReq_schedule_time (r : NNMData_Req_t) : Z := u64 (u64 (Z.quot (t_MDCIReq_rTO_msec r) 1000) * HZ).

(** A work that is already in the queue stays as it is. *)
Definition NNMDReq_sched_timer (now p : Z) : nn Z :=
  r ← get_nr p;
  let is_mdReq := NNMDReq_check_acquire r in
  t_dur ← (if is_mdReq then _get_MDReq_schedule_time now p else mret (_get_MDCIReq_schedule_time r));
  if t_dur =? 0 then mret (- ETIME)
  else
    old ← NNMDReq_test_set_fea p NNREQ_FEA_SCHED_TIMER;
    if (old : bool) then mret (- EBUSY)
    else
      modify (fun w => set_nn_timers
                (match nn_timers w !! p with Some _ => nn_timers w | None => <[p := (t_dur, is_mdReq)]> (nn_timers w) end) w);;
      mret 0.

Definition NNMDReq_cancel_timer (p : Z) : nn unit :=
  old ← NNMDReq_test_clear_fea p NNREQ_FEA_SCHED_TIMER;
  if (old : bool) then modify (fun w => set_nn_timers (delete p (nn_timers w)) w) else mret tt.

(** ** Ends *)

(** [myReq->nnReq_endfn(...)]. *)
Definition nnReq_endfn (p result : Z) : nn unit := r ← get_nr p; nn_do (Nc_end (nr_caller r) result).

(** The loop that waits for the references to go is the life in [nn_dying]. *)
Definition NNMDReq_free_Req (p : Z) : nn unit := modify (fun w => set_nn_dying (nn_dying w ++ [p]) w).

(** A turn of that loop; [true]: the request was freed. *)
Definition free_turn (p : Z) : nn bool :=
  r ← get_nr p;
  if nr_RefCnt r =? 0 then
    modify (fun w => set_nn_dying (filter (fun q => q <> p) (nn_dying w)) (set_nn_reqs (delete p (nn_reqs w)) w));; mret true
  else mret false.

(** ** The timeout handlers *)

(** The lock is released under the number of the request, not under the number of the list. *)
Definition _NNMDReq_TO_chkState (p : Z) : nn Z :=
  r ← get_nr p;
  let reqID := s32 (nr_ReqID r) in
  NNMDReqPool_acquire_plock (u32 reqID);;
  action ← getReq_event p NNREQ_E_TimeoutFire;
  ret ← match action with
        | NNREQ_A_DO_TO_PROCESS =>
            old ← NNMDReq_test_clear_fea p NNREQ_FEA_IN_REQPOOL;
            if (old : bool) then NNMDReqPool_rmReq_nolock p;; mret 0 else mret (- EPERM)
        | _ => mret (- EACCES)
        end;
  NNMDReqPool_rel_plock reqID;;
  mret ret.

Definition _NNMDReq_TO_rm_workQ (p : Z) : nn unit :=
  r ← get_nr p;
  let lockID := NNCWker_gain_qlock (nr_ReqID r) (nr_prior_low r) in
  old ← NNMDReq_test_clear_fea p NNREQ_FEA_IN_WORKQ;
  if (old : bool) then upd_wk (NNMDReq_MData_cacheHit r) (NNCWker_rmReq_workerQ_nolock lockID p) else mret tt.

Definition NNMDReq_acquire_TOfunc (p : Z) : nn unit :=
  NNMDReq_ref_Req p;;
  ret ← _NNMDReq_TO_chkState p;
  if negb (ret =? 0) then NNMDReq_deref_Req p
  else
    _NNMDReq_TO_rm_workQ p;;
    nnReq_endfn p (- ETIME);;
    res ← gets nnSrv_resource;
    fc_do (dec_res_rate_max_reqs res);;
    fc_do (fun v => if res =? 0 then Some v else upd_item res update_res_rate_timeout v);;
    NNMDReq_deref_Req p;;
    NNMDReq_free_Req p.

Definition NNMDReq_report_TOfunc (p : Z) : nn unit := NNMDReq_ref_Req p;; NNMDReq_deref_Req p.

(** The work queue starts the work of a request. *)
Definition timer_fires (p : Z) : nn unit :=
  t ← nn_opt (fun w => nn_timers w !! p);
  modify (fun w => set_nn_timers (delete p (nn_timers w)) w);;
  if (t.2 : bool) then NNMDReq_acquire_TOfunc p else NNMDReq_report_TOfunc p.

(** ** Submission *)

Definition NNMDReq_submit_workerQ (now p : Z) : nn Z :=
  ret ← NNMDReq_sched_timer now p;
  if negb (ret =? 0) then mret ret
  else
    r ← get_nr p;
    let lockID := NNCWker_gain_qlock (nr_ReqID r) (nr_prior_low r) in
    old ← NNMDReq_test_set_fea p NNREQ_FEA_IN_WORKQ;
    if (old : bool) then mret (- EPERM)
    else upd_wk (submit_queue r) (NNCWker_addReq_workerQ_nolock lockID p);; mret 0.

Definition _get_NNMDReq_opcode (io_rw : iorw_dir_t) (ovw_stat hbid_err do_MDReport : bool) : Z :=
  if do_MDReport then
    if decide (KERNEL_IO_READ = io_rw) then REQ_NN_REPORT_READIO_RESULT else REQ_NN_REPORT_WRITEIO_RESULT
  else if decide (KERNEL_IO_READ = io_rw) then
    if hbid_err then REQ_NN_QUERY_TRUE_MDATA_READIO else REQ_NN_QUERY_MDATA_READIO
  else if ovw_stat then REQ_NN_QUERY_MDATA_WRITEIO
  else REQ_NN_ALLOC_MDATA_NO_OLD.

Definition _add_req2pool (p : Z) : nn unit :=
  r ← get_nr p;
  lockID ← NNMDReqPool_acquire_plock (nr_ReqID r);
  old ← NNMDReq_test_set_fea p NNREQ_FEA_IN_REQPOOL;
  (if (old : bool) then mret tt else NNMDReqPool_addReq_nolock p lockID);;
  NNMDReqPool_rel_plock lockID.

(** What a caller submits. *)
Record nn_submit : Type := {
  sub_vol : Z;
  sub_lbs : Z;
  sub_len : Z;
  sub_rw : iorw_dir_t;
  sub_low : bool;
  sub_replica : Z;
  sub_hit : bool;
  sub_ovw : bool;
  sub_hbid_err : bool;
  sub_cache : bool;
  sub_caller : Z;
}.

Definition init_fea (b : bool) (bit f : Z) : Z := if b then Z.setbit f bit else f.

(** The request gets the next number and enters the pool. *)
Definition NNMDReq_init_Req (p : Z) (a : nn_submit) (do_MDReport : bool) : nn unit :=
  gen ← gets MDReq_ID_gen;
  let op := _get_NNMDReq_opcode (sub_rw a) (sub_ovw a) (sub_hbid_err a) do_MDReport in
  let fea := init_fea (REQ_NN_QUERY_TRUE_MDATA_READIO =? op) NNREQ_FEA_HBID_ERR
    (init_fea (sub_cache a) NNREQ_FEA_MDCACHE_ON (init_fea (sub_ovw a) NNREQ_FEA_OVW_STAT
       (init_fea (sub_hbid_err a) NNREQ_FEA_HBID_ERR (init_fea (sub_hit a) NNREQ_FEA_CACHE_HIT 0)))) in
  modify (fun w => set_nn_gen (s32 (gen + 1)) w);;
  upd_nr p (fun r =>
    {| nr_ReqID := u32 (gen + 1); nr_OPCode := op; nr_prior_low := sub_low a; nr_fea := fea; nr_RefCnt := 0; t_sendReq := 0;
       t_rcvReqAck := 0; nr_vol := sub_vol a; nr_lbs := sub_lbs a; nr_len := sub_len a;
       t_MDReq_last_submitT := t_MDReq_last_submitT r; t_MDReq_TO_msec := t_MDReq_TO_msec r;
       t_MDReq_rTO_msec := t_MDReq_rTO_msec r; t_MDCIReq_rTO_msec := t_MDCIReq_rTO_msec r;
       nnReq_stat := NNMDReq_init_fsm; nr_volReplica := sub_replica a; nr_caller := nr_caller r |});;
  _add_req2pool p.

Definition NNMDReq_init_endfn (p pdata t_dur : Z) : nn Z :=
  r ← get_nr p;
  if NNMDReq_check_acquire r then
    upd_nr p (fun r => set_nr_times 0 (s32 (t_dur * 1000)) (s32 (t_dur * 1000)) (t_MDCIReq_rTO_msec r) pdata r);;
    action ← getReq_event p NNREQ_E_InitDone;
    mret match action with NNREQ_A_DO_ADD_WORKQ => 0 | _ => - EPERM end
  else
    upd_nr p (fun r => set_nr_times (t_MDReq_last_submitT r) (t_MDReq_TO_msec r) (t_MDReq_rTO_msec r) (s32 (t_dur * 1000)) pdata r);;
    action ← ciReq_event p NNCIREQ_E_InitDone;
    mret match action with NNCIREQ_A_DO_ADD_WORKQ => 0 | _ => - EPERM end.

(** [discoC_acquire_metadata] and [discoC_report_metadata]: [mem] is the memory [NNMDReq_alloc_Req] returns, with what it contains. *)
Definition submit_NNMDReq (now ioreq_timeout : Z) (mem : option (Z * NNMData_Req_t)) (a : nn_submit) (do_MDReport : bool) : nn Z :=
  match mem with
  | None => mret (- ENOMEM)
  | Some (p, r0) =>
      modify (fun w => set_nn_reqs (<[p := r0]> (nn_reqs w)) w);;
      NNMDReq_init_Req p a do_MDReport;;
      ret ← NNMDReq_init_endfn p (sub_caller a) ioreq_timeout;
      if negb (ret =? 0) then mret ret
      else
        NNMDReq_ref_Req p;;
        _ ← NNMDReq_submit_workerQ now p;
        NNMDReq_deref_Req p;;
        mret 0
  end.

Definition discoC_acquire_metadata (now ioreq_timeout : Z) (mem : option (Z * NNMData_Req_t)) (a : nn_submit) : nn Z :=
  submit_NNMDReq now ioreq_timeout mem a false.

Definition discoC_report_metadata (now ioreq_timeout : Z) (mem : option (Z * NNMData_Req_t)) (a : nn_submit) : nn Z :=
  submit_NNMDReq now ioreq_timeout mem a true.

(** ** The workers *)

Definition _nnc_peekReq_update_state (p : Z) : nn Z :=
  r ← get_nr p;
  if NNMDReq_check_acquire r then
    action ← getReq_event p NNREQ_E_PeekWorkQ;
    mret match action with NNREQ_A_DO_SEND => 0 | _ => - EPERM end
  else
    action ← ciReq_event p NNCIREQ_E_PeekWorkQ;
    mret match action with NNCIREQ_A_DO_SEND => 0 | _ => - EPERM end.

(** 0 when there is nothing to do. *)
Definition _nnc_peek_MDReq (ch : bool) : nn Z :=
  wk ← gets (get_wk ch);
  let '(wk, lockID) := NNCWker_peekReq_gain_lock wk in
  modify (set_wk ch wk);;
  p ← nn_opt (fun w => NNCWker_peekReq_workerQ_nolock lockID (get_wk ch w));
  if p =? 0 then mret 0
  else
    NNMDReq_ref_Req p;;
    ret ← _nnc_peekReq_update_state p;
    if negb (ret =? 0) then
      old ← NNMDReq_test_clear_fea p NNREQ_FEA_IN_WORKQ;
      (if (old : bool) then upd_wk ch (NNCWker_rmReq_workerQ_nolock lockID p) else mret tt);;
      NNMDReq_deref_Req p;;
      mret 0
    else
      old ← NNMDReq_test_clear_fea p NNREQ_FEA_IN_WORKQ;
      if negb old then NNMDReq_deref_Req p;; mret 0
      else upd_wk ch (NNCWker_rmReq_workerQ_nolock lockID p);; mret p.

Definition _nnc_sendMDReq_updatefctime (now : Z) : nn unit :=
  start ← gets nn_fc_start_t;
  slot ← gets fc_t_slot;
  if time_after64 start now then mret tt
  else if jiffies_to_msecs (u64 (now - start)) >=? slot then
    modify (set_nn_start now);;
    fc_do (update_all_resource_rate jiffies_to_msecs now)
  else mret tt.

Definition _nnc_sendMDReq_fccheck (now num_reqs : Z) : nn (nn_fc_code_t * Z) := fun w =>
  match should_trigger_fc jiffies_to_msecs now (nnSrv_resource w) num_reqs (s64 (nn_fc_start_t w)) (nn_fc w) with
  | None => Faults
  | Some (v, fc_type) =>
      Returns (set_nn_fc v w)
        (if fc_type =? FC_RES_CONNECTION_LOST then (NN_FC_CONN_LOST, BASIC_NN_FC_WAIT)
         else if fc_type =? FC_MAX_RES_REQUESTS then (NN_FC_MAX_REQS, 100)
         else if fc_type =? FC_NO_BLOCK then (NN_FC_TOGO, 0)
         else (NN_FC_REQ_CTL, fc_type))
  end.

(** The loop of [_nnc_sendMDReq_fccongestion] at its condition: the request may go, or the sender sleeps. *)
Definition fc_loop (now p : Z) : nn unit :=
  c ← _nnc_sendMDReq_fccheck now 1;
  modify (set_nn_cm match c.1 with NN_FC_TOGO => Cm_send p | _ => Cm_wait p end).

(** [_nnc_sendMDReq_fccongestion] until it first sleeps. *)
Definition fc_enter (enable_fc : bool) (now p : Z) : nn unit :=
  _nnc_sendMDReq_updatefctime now;;
  r ← get_nr p;
  if negb enable_fc || (negb (nr_prior_low r) && NNMDReq_check_acquire r) then
    res ← gets nnSrv_resource;
    fc_do (alloc_res_no_fc res 1);;
    modify (set_nn_cm (Cm_send p))
  else fc_loop now p.

(** After the sleep.  The state of the acquire machine decides, also for reports; a request that is rejected
    keeps the reference of the sender. *)
Definition fc_wake (enable_fc : bool) (now p : Z) : nn unit :=
  _nnc_sendMDReq_updatefctime now;;
  r ← get_nr p;
  match NNMDgetReq_get_state (nnReq_stat r) with
  | NNREQ_S_SENDING => if negb enable_fc then modify (set_nn_cm (Cm_send p)) else fc_loop now p
  | _ => modify (set_nn_cm Cm_idle)
  end.

(** [conn]: is the connection up; [sent]: the bytes the connection takes. *)
Definition _nnc_send_acquireMDReq (now : Z) (conn : bool) (sent p : Z) : nn unit :=
  r ← get_nr p;
  action ← getReq_event p NNREQ_E_SendDone;
  match action with
  | NNREQ_A_DO_WAIT_RESP =>
      modify (fun w => set_nn_noResp (s32 (num_nnReq_noResp w + 1)) w);;
      if negb conn then mret tt
      else
        upd_nr p (set_nr_send now);;
        nn_do (Nc_send (NNProto_gen_getMDReqheader (nr_OPCode r) (nr_ReqID r) (nr_vol r) (nr_lbs r) (nr_len r)));;
        if negb (sent =? SIZE_getMDReq_hder) then nn_do Nc_reset else mret tt
  | _ => mret tt
  end.

Definition _nnc_send_reportMDReq (p : Z) : nn unit :=
  r ← get_nr p;
  action ← ciReq_event p NNCIREQ_E_SendDone;
  match action with
  | NNCIREQ_A_DO_WAIT_RESP =>
      if (REQ_NN_REPORT_WRITEIO_RESULT =? nr_OPCode r) || (REQ_NN_REPORT_READIO_RESULT =? nr_OPCode r)
      then nn_do (Nc_report (nr_caller r) (nr_OPCode r)) else mret tt
  | _ => mret tt
  end.

(** [NNClient_send_MDReq], first part: a request is taken from the queue. *)
Definition NNClient_send_MDReq_peek : nn unit :=
  p ← _nnc_peek_MDReq false;
  if p =? 0 then mret tt
  else
    r ← get_nr p;
    if (0 <=? nr_OPCode r) && (nr_OPCode r <=? REQ_NN_REPORT_WRITEIO_RESULT) then modify (set_nn_cm (Cm_enter p))
    else NNMDReq_deref_Req p.

(** [NNClient_send_MDReq], last part. *)
Definition NNClient_send_MDReq_send (now : Z) (conn : bool) (sent p : Z) : nn unit :=
  r ← get_nr p;
  (if nr_OPCode r <=? REQ_NN_QUERY_MDATA_WRITEIO then _nnc_send_acquireMDReq now conn sent p else _nnc_send_reportMDReq p);;
  NNMDReq_deref_Req p;;
  modify (set_nn_cm Cm_idle).

Definition NNMDReq_rm_ReqPool (p : Z) : nn Z :=
  r ← get_nr p;
  lockID ← NNMDReqPool_acquire_plock (nr_ReqID r);
  action ← getReq_event p NNREQ_E_FindReqOK;
  ret ← match action with
        | NNREQ_A_DO_PROCESS_RESP =>
            old ← NNMDReq_test_clear_fea p NNREQ_FEA_IN_REQPOOL;
            if negb old then mret (- EPERM) else NNMDReqPool_rmReq_nolock p;; mret 0
        | _ => mret (- EPERM)
        end;
  NNMDReqPool_rel_plock lockID;;
  mret ret.

(** [NNClient_send_getMDReq_cachehit]: a request is taken from the queue, and ended. *)
Definition cachehit_peek : nn unit :=
  p ← _nnc_peek_MDReq true;
  modify (set_nn_ch (if p =? 0 then None else Some p)).

Definition cachehit_end (p : Z) : nn unit :=
  modify (set_nn_ch None);;
  action ← getReq_event p NNREQ_E_SendDone;
  match action with
  | NNREQ_A_DO_WAIT_RESP =>
      ret ← NNMDReq_rm_ReqPool p;
      if negb (ret =? 0) then NNMDReq_deref_Req p
      else
        NNMDReq_cancel_timer p;;
        nnReq_endfn p 0;;
        NNMDReq_deref_Req p;;
        NNMDReq_free_Req p
  | _ => NNMDReq_deref_Req p
  end.

(** ** Answers *)

Definition _findReq_update_state (p : Z) : nn Z :=
  r ← get_nr p;
  if NNMDReq_check_acquire r then
    action ← getReq_event p NNREQ_E_FindReqOK;
    mret match action with NNREQ_A_DO_PROCESS_RESP => 0 | _ => - EPERM end
  else
    action ← ciReq_event p NNCIREQ_E_FindReqOK;
    mret match action with NNCIREQ_A_DO_PROCESS_RESP => 0 | _ => - EPERM end.

Definition NNMDReq_find_ReqPool (nnReqID : Z) : nn Z :=
  lockID ← NNMDReqPool_acquire_plock nnReqID;
  p ← NNMDReqPool_findReq_nolock nnReqID lockID;
  ret ← (if p =? 0 then mret 0
         else
           st ← _findReq_update_state p;
           if negb (st =? 0) then mret 0
           else
             old ← NNMDReq_test_clear_fea p NNREQ_FEA_IN_REQPOOL;
             if negb old then mret 0
             else NNMDReqPool_rmReq_nolock p;; NNMDReq_ref_Req p;; mret p);
  NNMDReqPool_rel_plock lockID;;
  mret ret.

(** [res] is what [_do_normal_parse] makes of the body of the answer. *)
Definition NNAckProc_acquireMDReq (now : Z) (request_ID : Z) (res : parse_result) : nn unit :=
  p ← NNMDReq_find_ReqPool (u32 request_ID);
  if p =? 0 then mret tt
  else
    NNMDReq_cancel_timer p;;
    upd_nr p (set_nr_rcv now);;
    modify (fun w => set_nn_rcv (s32 (num_nnReq_noResp w - 1)) (u32 request_ID) w);;
    rsc ← gets nnSrv_resource;
    fc_do (dec_res_rate_max_reqs rsc);;
    r ← get_nr p;
    nn_do (Nc_latency (t_sendReq r) (t_rcvReqAck r));;
    mdReq_res ← match res with
                | PR_ENODEV => mret (- ENODEV)
                | PR_ENOMEM => mret (- ENOMEM)
                | PR_OK _ _ ovw fc =>
                    nn_do (Nc_setovw (nr_caller r) ovw);;
                    fc_do (upd_item rsc (update_resource_rate (rate_SlowStart fc) (rate_SlowStartMaxReqs fc) (rate_AgeTime fc)
                                           (rate_Alloc fc) (rate_AllocMaxReqs fc)));;
                    nn_do (Nc_cache (nr_vol r) (nr_lbs r) (nr_len r) (NNMDReq_MData_cacheEnable r));;
                    mret 0
                end;
    nnReq_endfn p mdReq_res;;
    NNMDReq_deref_Req p;;
    NNMDReq_free_Req p.

Definition NNAckProc_reportMDReq (request_ID : Z) : nn unit :=
  p ← NNMDReq_find_ReqPool (u32 request_ID);
  if p =? 0 then mret tt
  else
    NNMDReq_cancel_timer p;;
    rsc ← gets nnSrv_resource;
    fc_do (dec_res_rate_max_reqs rsc);;
    nnReq_endfn p 0;;
    NNMDReq_deref_Req p;;
    NNMDReq_free_Req p.

(** ** Retries *)

Definition NNMDReq_acquire_retryable (p : Z) : nn bool :=
  action ← getReq_event p NNREQ_E_ConnBack;
  mret match action with NNREQ_A_DO_RETRY_REQ => true | _ => false end.

Definition NNMDReq_report_retryable (p : Z) : nn bool :=
  action ← ciReq_event p NNCIREQ_E_ConnBack;
  mret match action with NNCIREQ_A_DO_RETRY_REQ => true | _ => false end.

(** The two lists of one list of the pool: acquire requests and reports. *)
Fixpoint _get_NNMDReq_rlist_bk (nnIPaddr nnPort : Z) (l : list Z) : nn (list Z * list Z) :=
  match l with
  | [] => mret ([], [])
  | cur :: l =>
      NNMDReq_ref_Req cur;;
      ip ← gets nnSrv_IPAddr;
      port ← gets nnSrv_port;
      if negb (nnIPaddr =? ip) || negb (nnPort =? port) then NNMDReq_deref_Req cur;; _get_NNMDReq_rlist_bk nnIPaddr nnPort l
      else
        r ← get_nr cur;
        if NNMDReq_check_acquire r then
          ok ← NNMDReq_acquire_retryable cur;
          (if negb ok then NNMDReq_deref_Req cur else mret tt);;
          ls ← _get_NNMDReq_rlist_bk nnIPaddr nnPort l;
          mret (if (ok : bool) then cur :: ls.1 else ls.1, ls.2)
        else
          ok ← NNMDReq_report_retryable cur;
          (if negb ok then NNMDReq_deref_Req cur else mret tt);;
          ls ← _get_NNMDReq_rlist_bk nnIPaddr nnPort l;
          mret (ls.1, if (ok : bool) then cur :: ls.2 else ls.2)
  end.

(** The lists of the pool one after the other, each under its lock. *)
Fixpoint get_retry_loop (nnIPaddr nnPort : Z) (i : nat) (L : buckets) : nn (list Z * list Z) :=
  match L with
  | [] => mret ([], [])
  | l :: L =>
      lockID ← NNMDReqPool_acquire_plock (Z.of_nat i);
      a ← _get_NNMDReq_rlist_bk nnIPaddr nnPort l;
      NNMDReqPool_rel_plock lockID;;
      b ← get_retry_loop nnIPaddr nnPort (S i) L;
      mret (a.1 ++ b.1, a.2 ++ b.2)
  end.

Definition NNMDReqPool_get_retryReq (nnIPaddr nnPort : Z) : nn (list Z * list Z) :=
  L ← gets NNMDReq_pool; get_retry_loop nnIPaddr nnPort 0 L.

(** [NNClientMgr_retry_NNMDReq]: collecting; the turns of the loops over the lists are [NNMDReq_retry_Req]. *)
Definition NNClientMgr_retry_NNMDReq (nnIPaddr nnPort : Z) : nn unit :=
  ls ← NNMDReqPool_get_retryReq nnIPaddr nnPort;
  modify (set_nn_retry (ls.1 ++ ls.2)).

Definition _retryReq_update_state (p : Z) : nn Z :=
  r ← get_nr p;
  if NNMDReq_check_acquire r then
    action ← getReq_event p NNREQ_E_RetryChkDone;
    mret match action with NNREQ_A_DO_ADD_WORKQ => 0 | _ => - EPERM end
  else
    action ← ciReq_event p NNCIREQ_E_RetryChkDone;
    mret match action with NNCIREQ_A_DO_ADD_WORKQ => 0 | _ => - EPERM end.

Definition NNMDReq_retry_Req (now p : Z) : nn unit :=
  NNMDReq_cancel_timer p;;
  st ← _retryReq_update_state p;
  if negb (st =? 0) then mret tt
  else
    ret ← NNMDReq_submit_workerQ now p;
    if - ETIME =? ret then
      nnReq_endfn p ret;;
      NNMDReq_deref_Req p;;
      NNMDReq_free_Req p
    else NNMDReq_deref_Req p.

(** ** The end of the pool *)

(** The loop at [RELEASE_NNMDREQ]: the first request of a list is freed, but stays in the list.  [fuel] bounds the turns. *)
Fixpoint release_bucket (fuel : nat) (i : Z) : nn unit :=
  match fuel with
  | O => blocks
  | S fuel =>
      l ← nn_opt (fun w => bk_get i (NNMDReq_pool w));
      match l with
      | [] => mret tt
      | p :: _ =>
          r ← get_nr p;
          if nr_RefCnt r =? 0 then modify (fun w => set_nn_reqs (delete p (nn_reqs w)) w);; release_bucket fuel i else blocks
      end
  end.

Definition NNMDReqPool_rel_pool (fuel : nat) : nn unit := for_each (zseq 0 (Z.to_nat NNREQ_HBUCKET_SIZE)) (release_bucket fuel).

(** ** Steps *)

Inductive nn_ev : Type :=
| Nv_submit (now ioreq_timeout : Z) (mem : option (Z * NNMData_Req_t)) (a : nn_submit) (report : bool)
| Nv_timer (p : Z)
| Nv_ch_peek
| Nv_ch_end
| Nv_cm_peek
| Nv_cm_fc (enable_fc : bool) (now : Z)
| Nv_cm_send (now : Z) (conn : bool) (sent : Z)
| Nv_ack (now request_ID : Z) (res : parse_result)
| Nv_ack_report (request_ID : Z)
| Nv_collect (ip port : Z)
| Nv_retry (now : Z)
| Nv_free (p : Z).

(** A thread that is elsewhere does not take the step. *)
Definition nn_step (e : nn_ev) : nn unit :=
  match e with
  | Nv_submit now t mem a report => _ ← submit_NNMDReq now t mem a report; mret tt
  | Nv_timer p => ts ← gets nn_timers; match ts !! p with Some _ => timer_fires p | None => mret tt end
  | Nv_ch_peek => c ← gets nn_ch; match c with None => cachehit_peek | Some _ => mret tt end
  | Nv_ch_end => c ← gets nn_ch; match c with None => mret tt | Some p => cachehit_end p end
  | Nv_cm_peek => c ← gets nn_cm; match c with Cm_idle => NNClient_send_MDReq_peek | _ => mret tt end
  | Nv_cm_fc enable now =>
      c ← gets nn_cm; match c with Cm_enter p => fc_enter enable now p | Cm_wait p => fc_wake enable now p | _ => mret tt end
  | Nv_cm_send now conn sent =>
      c ← gets nn_cm; match c with Cm_send p => NNClient_send_MDReq_send now conn sent p | _ => mret tt end
  | Nv_ack now id res => NNAckProc_acquireMDReq now id res
  | Nv_ack_report id => NNAckProc_reportMDReq id
  | Nv_collect ip port => l ← gets nn_retry; match l with [] => NNClientMgr_retry_NNMDReq ip port | _ => mret tt end
  | Nv_retry now => l ← gets nn_retry; match l with [] => mret tt | p :: l => modify (set_nn_retry l);; NNMDReq_retry_Req now p end
  | Nv_free p => l ← gets nn_dying; if bool_decide (p ∈ l) then _ ← free_turn p; mret tt else mret tt
  end.

Fixpoint nn_run (evs : list nn_ev) : nn unit :=
  match evs with
  | [] => mret tt
  | e :: evs => nn_step e;; nn_run evs
  end.

End client.

(** [NNClientMgr_init_manager] and [NNClient_create_client], with the flow control [v] and the item of the namenode in it. *)
Definition init_NNClient (v : fc_world) (res ip port : Z) : nn_world :=
  {| nn_reqs := ∅; NNMDReq_pool := replicate (Z.to_nat NNREQ_HBUCKET_SIZE) []; nn_plock := ∅; num_NNMDReq := 0; MDReq_ID_gen := 0;
     nnMDCH_worker := NNCWker_init_worker; nnMDCM_worker := NNCWker_init_worker; nn_timers := ∅; num_nnReq_noResp := 0;
     nnReq_last_rcvID := 0; nn_fc_start_t := 0; fc_t_slot := 1000; nn_fc := v; nnSrv_resource := res; nnSrv_IPAddr := ip;
     nnSrv_port := port; nn_cm := Cm_idle; nn_ch := None; nn_retry := []; nn_dying := []; nn_calls := [] |}.
