(* ===== verification/NNClientSpec.v ===== *)
(** * NNClientSpec: the life of a request to the namenode

    The invariant of the namenode client: where a request is linked, which threads refer to it, whether its timer runs and whether its
    caller was told, for every state of its machine ([view_ok]); and the shape of the pool and of the queues.  Every handler keeps it,
    and never touches a request that was freed. *)

From S2P Require Import Prelude CommonUtil Fsm NNMDReqFsm IOReqOvlp NNProto FlowControl Buckets NNClient.

(** ** Where a request is *)

Inductive phase_t : Type := Pw | Ps | Pr | Pt | Pe | Px.

#[global] Instance phase_t_eq_dec : EqDecision phase_t.
Proof. solve_decision. Defined.

(** Waiting to be sent, being sent, waiting for an answer, waiting to be sent again, ended. *)
Definition phase (r : NNMData_Req_t) : phase_t :=
  if NNMDReq_check_acquire r then
    match st_nnReq (nnReq_stat r) with
    | NNREQ_S_WAIT_SEND => Pw | NNREQ_S_SENDING => Ps | NNREQ_S_WAIT_RESP => Pr | NNREQ_S_RETRY_REQ => Pt
    | NNREQ_S_PROCESS_RESP | NNREQ_S_TIMEOUT_FIRE => Pe
    | _ => Px
    end
  else
    match st_nnCIReq (nnReq_stat r) with
    | NNCIREQ_S_WAIT_SEND => Pw | NNCIREQ_S_SENDING => Ps | NNCIREQ_S_WAIT_RESP => Pr | NNCIREQ_S_RETRY_REQ => Pt
    | NNCIREQ_S_PROCESS_RESP => Pe
    | _ => Px
    end.

Definition cm_req (c : cm_state) : option Z :=
  match c with Cm_idle => None | Cm_enter p | Cm_wait p | Cm_send p => Some p end.

(** How often a caller was told an end. *)
Definition is_end (c : Z) (x : nn_call) : bool := match x with Nc_end c' _ => c' =? c | _ => false end.
Definition told (c : Z) (l : list nn_call) : Z := Z.of_nat (length (filter (fun x => is_end c x = true) l)).

Record view : Type := {
  v_req : option NNMData_Req_t;
  v_pool : bool;
  v_chq : bool;
  v_cmq : bool;
  v_timer : option bool;
  v_dying : bool;
  v_cm : bool;
  v_ch : bool;
  v_retry : bool;
}.

(** [R] are the requests the housekeeping thread has collected. *)
Definition view_of (R : list Z) (w : nn_world) (p : Z) : view :=
  {| v_req := nn_reqs w !! p;
     v_pool := bool_decide (p ∈ concat (NNMDReq_pool w));
     v_chq := bool_decide (p ∈ concat (wker_ReqPool (nnMDCH_worker w)));
     v_cmq := bool_decide (p ∈ concat (wker_ReqPool (nnMDCM_worker w)));
     v_timer := snd <$> nn_timers w !! p;
     v_dying := bool_decide (p ∈ nn_dying w);
     v_cm := bool_decide (cm_req (nn_cm w) = Some p);
     v_ch := bool_decide (nn_ch w = Some p);
     v_retry := bool_decide (p ∈ R) |}.

Definition v_none : view :=
  {| v_req := None; v_pool := false; v_chq := false; v_cmq := false; v_timer := None; v_dying := false; v_cm := false; v_ch := false;
     v_retry := false |}.

Definition v_hold (v : view) : Z := Z.b2z (v_cm v) + Z.b2z (v_ch v) + Z.b2z (v_retry v).

(** [n] bounds the references that were never given back, [d] are those of the running handler; [t]: how often the caller was told. *)
Record req_ok (n d t : Z) (r : NNMData_Req_t) (v : view) : Prop := {
  rk_pool : NNMDReq_check_feature r NNREQ_FEA_IN_REQPOOL = v_pool v;
  rk_wq : NNMDReq_check_feature r NNREQ_FEA_IN_WORKQ = v_chq v || v_cmq v;
  rk_chq : v_chq v = true -> submit_queue r = true;
  rk_cmq : v_cmq v = true -> submit_queue r = false;
  rk_cm : v_cm v = true -> submit_queue r = false;
  rk_ch : v_ch v = true -> submit_queue r = true;
  rk_timer : forall b, v_timer v = Some b -> b = NNMDReq_check_acquire r /\ NNMDReq_check_feature r NNREQ_FEA_SCHED_TIMER = true /\ phase r <> Pe;
  rk_ref : v_hold v + d <= nr_RefCnt r <= n + v_hold v + d;
  rk_told : t = if decide (phase r = Pe) then 1 else 0;
  rk_dying : v_dying v = negb (v_pool v);
  rk_id : is_u32 (nr_ReqID r) /\ 0 <= nr_OPCode r <= REQ_NN_REPORT_WRITEIO_RESULT;
  rk_phase : match phase r with
             | Pw => v_pool v = true /\ v_chq v || v_cmq v = true /\ v_cm v = false /\ v_ch v = false /\ v_retry v = false
             | Ps => v_pool v = true /\ v_chq v = false /\ v_cmq v = false /\ v_retry v = false
             | Pr => v_pool v = true /\ v_chq v = false /\ v_cmq v = false /\ v_cm v = false /\ v_ch v = false /\ v_retry v = false
             | Pt => v_pool v = true /\ v_chq v = false /\ v_cmq v = false /\ v_cm v = false /\ v_ch v = false /\ v_retry v = true
             | Pe => v_pool v = false /\ v_chq v = false /\ v_cmq v = false /\ v_retry v = false
             | Px => False
             end;
}.

Definition view_ok (n : Z) (w : nn_world) (v : view) : Prop :=
  match v_req v with
  | None => v = v_none
  | Some r => req_ok n 0 (told (nr_caller r) (nn_calls w)) r v
  end.

(** ** The pool and the queues *)

Record table_ok (size : nat) (key : NNMData_Req_t -> Z) (reqs : gmap Z NNMData_Req_t) (L : buckets) : Prop := {
  tb_len : length L = size;
  tb_nodup : NoDup (concat L);
  tb_key : forall i l q r, bk_get i L = Some l -> q ∈ l -> reqs !! q = Some r -> i = key r;
}.

Definition pool_key (r : NNMData_Req_t) : Z := nr_ReqID r mod NNREQ_HBUCKET_SIZE.
Definition queue_key (r : NNMData_Req_t) : Z := NNCWker_gain_qlock (nr_ReqID r) (nr_prior_low r).

Record queue_ok (reqs : gmap Z NNMData_Req_t) (wk : discoNNC_worker_t) : Prop := {
  qo_table : table_ok 33 queue_key reqs (wker_ReqPool wk);
  qo_deq : 0 <= deq_bucket_idx wk < 33;
  qo_size : wker_ReqQ_size wk = Z.of_nat (length (concat (wker_ReqPool wk)));
  qo_hp : exists l, bk_get NNC_WORKQ_HP_BK_IDX (wker_ReqPool wk) = Some l /\ wker_HPReqQ_size wk = Z.of_nat (length l);
}.

(** The flow control still has the item of the namenode. *)
Record fc_live (w : nn_world) : Prop := {
  fl_res : nnSrv_resource w <> 0;
  fl_item : is_Some (fc_items (nn_fc w) !! nnSrv_resource w);
  fl_list : Forall (fun q => is_Some (fc_items (nn_fc w) !! q)) (fc_reslist (nn_fc w));
}.

(** The shape of the world; [m] bounds the number of requests. *)
Record shape (m : Z) (w : nn_world) : Prop := {
  sh_pool : table_ok 4001 pool_key (nn_reqs w) (NNMDReq_pool w);
  sh_num : num_NNMDReq w = Z.of_nat (length (concat (NNMDReq_pool w)));
  sh_ch : queue_ok (nn_reqs w) (nnMDCH_worker w);
  sh_cm : queue_ok (nn_reqs w) (nnMDCM_worker w);
  sh_size : Z.of_nat (size (nn_reqs w)) <= m;
  sh_dying : NoDup (nn_dying w);
  sh_null : nn_reqs w !! 0 = None;
  sh_fc : fc_live w;
}.

(** [S] are the callers that submitted a request.  A caller without a request was told once. *)
Record core (n m : Z) (S : gset Z) (R : list Z) (w : nn_world) : Prop := {
  co_view : forall p, view_ok n w (view_of R w p);
  co_shape : shape m w;
  co_inj : forall p q r s, nn_reqs w !! p = Some r -> nn_reqs w !! q = Some s -> nr_caller r = nr_caller s -> p = q;
  co_sub : forall p r, nn_reqs w !! p = Some r -> nr_caller r ∈ S;
  co_hist : forall c, (forall p r, nn_reqs w !! p = Some r -> nr_caller r <> c) ->
              told c (nn_calls w) = if decide (c ∈ S) then 1 else 0;
  co_retry : NoDup R;
}.

(** Between steps no lock of the pool is held, and the collected requests are the list of the housekeeping thread. *)
Record nn_ok (n m : Z) (S : gset Z) (w : nn_world) : Prop := {
  no_core : core n m S (nn_retry w) w;
  no_lock : nn_plock w = ∅;
}.

(** ** Opening one request

    A handler works on one request [p].  [opened] is the invariant of all others, with what is known of [p]; the operations of
    a handler change that knowledge, and at its end the invariant is closed again. *)

Definition vs_req (x0 : option NNMData_Req_t) (v : view) : view :=
  {| v_req := x0; v_pool := v_pool v; v_chq := v_chq v; v_cmq := v_cmq v; v_timer := v_timer v; v_dying :=
     v_dying v; v_cm := v_cm v; v_ch := v_ch v; v_retry := v_retry v |}.

Definition vs_pool (x0 : bool) (v : view) : view :=
  {| v_req := v_req v; v_pool := x0; v_chq := v_chq v; v_cmq := v_cmq v; v_timer := v_timer v; v_dying :=
     v_dying v; v_cm := v_cm v; v_ch := v_ch v; v_retry := v_retry v |}.

Definition vs_chq (x0 : bool) (v : view) : view :=
  {| v_req := v_req v; v_pool := v_pool v; v_chq := x0; v_cmq := v_cmq v; v_timer := v_timer v; v_dying :=
     v_dying v; v_cm := v_cm v; v_ch := v_ch v; v_retry := v_retry v |}.

Definition vs_cmq (x0 : bool) (v : view) : view :=
  {| v_req := v_req v; v_pool := v_pool v; v_chq := v_chq v; v_cmq := x0; v_timer := v_timer v; v_dying :=
     v_dying v; v_cm := v_cm v; v_ch := v_ch v; v_retry := v_retry v |}.

Definition vs_timer (x0 : option bool) (v : view) : view :=
  {| v_req := v_req v; v_pool := v_pool v; v_chq := v_chq v; v_cmq := v_cmq v; v_timer := x0; v_dying := v_dying
     v; v_cm := v_cm v; v_ch := v_ch v; v_retry := v_retry v |}.

Definition vs_dying (x0 : bool) (v : view) : view :=
  {| v_req := v_req v; v_pool := v_pool v; v_chq := v_chq v; v_cmq := v_cmq v; v_timer := v_timer v; v_dying :=
     x0; v_cm := v_cm v; v_ch := v_ch v; v_retry := v_retry v |}.

Definition vs_cm (x0 : bool) (v : view) : view :=
  {| v_req := v_req v; v_pool := v_pool v; v_chq := v_chq v; v_cmq := v_cmq v; v_timer := v_timer v; v_dying :=
     v_dying v; v_cm := x0; v_ch := v_ch v; v_retry := v_retry v |}.

Definition vs_ch (x0 : bool) (v : view) : view :=
  {| v_req := v_req v; v_pool := v_pool v; v_chq := v_chq v; v_cmq := v_cmq v; v_timer := v_timer v; v_dying :=
     v_dying v; v_cm := v_cm v; v_ch := x0; v_retry := v_retry v |}.

Definition vs_retry (x0 : bool) (v : view) : view :=
  {| v_req := v_req v; v_pool := v_pool v; v_chq := v_chq v; v_cmq := v_cmq v; v_timer := v_timer v; v_dying :=
     v_dying v; v_cm := v_cm v; v_ch := v_ch v; v_retry := x0 |}.

Definition vs_q (ch : bool) (b : bool) (v : view) : view := if ch then vs_chq b v else vs_cmq b v.
Definition v_q (ch : bool) (v : view) : bool := if ch then v_chq v else v_cmq v.

(** The callers of the other requests. *)
Record callers (S : gset Z) (p cl : Z) (w : nn_world) : Prop := {
  ca_inj : forall a b r s, a <> p -> b <> p -> nn_reqs w !! a = Some r -> nn_reqs w !! b = Some s -> nr_caller r = nr_caller s -> a = b;
  ca_sub : forall q s, q <> p -> nn_reqs w !! q = Some s -> nr_caller s <> cl /\ nr_caller s ∈ S;
  ca_hist : forall c, c <> cl -> (forall q s, q <> p -> nn_reqs w !! q = Some s -> nr_caller s <> c) ->
              told c (nn_calls w) = if decide (c ∈ S) then 1 else 0;
  ca_in : cl ∈ S;
}.

(** The list of the housekeeping thread, the locks, and what the workers are doing. *)
Definition misc_t : Type := list Z * gset Z * cm_state * option Z.
Definition misc (w : nn_world) : misc_t := (nn_retry w, nn_plock w, nn_cm w, nn_ch w).

(** [r]: the open request; [v]: where it is; [cl]: the caller it belongs to; [t]: how often that one was told; [K]: what the
    threads are doing, and the locks held. *)
Record opened (n m : Z) (S : gset Z) (R : list Z) (K : misc_t) (p cl : Z) (w : nn_world) (r : NNMData_Req_t) (v : view) (t : Z) : Prop := {
  op_others : forall q, q <> p -> view_ok n w (view_of R w q);
  op_view : view_of R w p = v;
  op_req : v_req v = Some r;
  op_told : told cl (nn_calls w) = t;
  op_shape : shape m w;
  op_callers : callers S p cl w;
  op_retry : NoDup R;
  op_misc : misc w = K;
}.

Lemma open_core n m S R p w r :
  core n m S R w -> nn_reqs w !! p = Some r ->
  opened n m S R (misc w) p (nr_caller r) w r (view_of R w p) (told (nr_caller r) (nn_calls w)) /\
  req_ok n 0 (told (nr_caller r) (nn_calls w)) r (view_of R w p).
Proof.
  intros [H1 H2 H3 H4 H5 H6] Hr. split.
  - split; auto. split; [eauto| |intros c Hc Ho; apply H5|eauto].
    + intros q s Hq Hs. split; [|eauto]. intros E. apply Hq. eauto.
    + intros q s Hs. destruct (decide (q = p)) as [->|Hq]; [|eauto]. rewrite Hr in Hs. by injection Hs as <-.
  - specialize (H1 p). unfold view_ok in H1. cbn [view_of v_req] in H1. by rewrite Hr in H1.
Qed.

Lemma opened_lookup n m S R K p cl w r v t : opened n m S R K p cl w r v t -> nn_reqs w !! p = Some r.
Proof. intros []. rewrite <- op_req0, <- op_view0. done. Qed.

Lemma req_ok_mono n n' d t r v : n <= n' -> req_ok n d t r v -> req_ok n' d t r v.
Proof. intros Hn []. split; auto. lia. Qed.

Lemma view_ok_mono n n' w v : n <= n' -> view_ok n w v -> view_ok n' w v.
Proof. intros Hn. unfold view_ok. case_match; [|done]. by apply req_ok_mono. Qed.

Lemma shape_mono m m' w : m <= m' -> shape m w -> shape m' w.
Proof. intros Hm []. split; auto. lia. Qed.

Lemma core_mono n n' m m' S R w : n <= n' -> m <= m' -> core n m S R w -> core n' m' S R w.
Proof. intros Hn Hm []. split; auto; [intros p; by eapply view_ok_mono|by eapply shape_mono]. Qed.

Lemma close_core n n' m S R K p cl w r v t :
  opened n m S R K p cl w r v t -> n <= n' -> nr_caller r = cl -> req_ok n' 0 t r v -> core n' m S R w.
Proof.
  intros Ho Hn Hc Hok. pose proof (opened_lookup _ _ _ _ _ _ _ _ _ _ _ Ho) as Hr. destruct Ho as [H1 H2 H3 H4 H5 [C1 C2 C3 C4] H7 H8].
  split; auto.
  - intros q. destruct (decide (q = p)) as [->|]; [|by eapply view_ok_mono; eauto]. unfold view_ok. rewrite H2, H3, Hc, H4. done.
  - intros a b x y Ha Hb E. destruct (decide (a = p)) as [->|Hap], (decide (b = p)) as [->|Hbp]; try done; simplify_eq; [..|by eauto].
    + exfalso. by eapply C2.
    + exfalso. by eapply C2.
  - intros q s Hs. destruct (decide (q = p)) as [->|Hq]; [by simplify_eq|]. by eapply C2.
  - intros c Hno. apply C3; [|eauto]. intros ->. by eapply Hno.
Qed.

(** ** Operations on the open request *)

(** A change of the world that the other requests do not see. *)
Lemma open_step n m S R K K' p cl w w' r r' v v' t :
  opened n m S R K p cl w r v t -> (forall q, q <> p -> view_of R w' q = view_of R w q) -> nn_calls w' = nn_calls w ->
  view_of R w' p = v' -> v_req v' = Some r' -> shape m w' -> misc w' = K' -> opened n m S R K' p cl w' r' v' t.
Proof.
  intros [H1 H2 H3 H4 H5 [C1 C2 C3 C4] H7 H8] Hv Hc Hp Hr Hs HK.
  assert (forall q, q <> p -> nn_reqs w' !! q = nn_reqs w !! q) as Hq by (intros q Hq; exact (f_equal v_req (Hv q Hq))).
  split; auto.
  - intros q Hne. rewrite (Hv q Hne). specialize (H1 q Hne). unfold view_ok in *. by rewrite Hc.
  - by rewrite Hc.
  - split; [| | |done].
    + intros a b x y Ha Hb. rewrite !Hq by done. eauto.
    + intros q s Hne. rewrite Hq by done. eauto.
    + intros c Hcc Hno. rewrite Hc. apply C3; [done|]. intros q s Hne Hs'. apply (Hno q); [done|]. by rewrite Hq.
Qed.

Lemma table_ok_reqs size key reqs reqs' L :
  (forall q r', q ∈ concat L -> reqs' !! q = Some r' -> exists r, reqs !! q = Some r /\ key r' = key r) ->
  table_ok size key reqs L -> table_ok size key reqs' L.
Proof.
  intros H [A B C]. split; [done|done|]. intros i l q r' Hi Hq Hr'. destruct (H q r') as (r & Hr & ->); [apply elem_concat; eauto|done|]. by eapply C.
Qed.

Lemma queue_ok_reqs reqs reqs' wk :
  (forall q r', q ∈ concat (wker_ReqPool wk) -> reqs' !! q = Some r' -> exists r, reqs !! q = Some r /\ queue_key r' = queue_key r) ->
  queue_ok reqs wk -> queue_ok reqs' wk.
Proof. intros H [A B C D]. split; [by eapply table_ok_reqs|done..]. Qed.

(** What the lists of a linked request are told apart by stays. *)
Definition keeps (v : view) (r r' : NNMData_Req_t) : Prop :=
  v_pool v = false /\ v_chq v = false /\ v_cmq v = false \/ nr_ReqID r' = nr_ReqID r /\ nr_prior_low r' = nr_prior_low r.

Lemma open_upd n m S R K p cl w r v t f :
  opened n m S R K p cl w r v t -> keeps v r (f r) ->
  twp (upd_nr p f) (fun _ w' => w' = set_nn_reqs (<[p := f r]> (nn_reqs w)) w /\ opened n m S R K p cl w' (f r) (vs_req (Some (f r)) v) t) w.
Proof.
  intros Ho Hk. pose proof (opened_lookup _ _ _ _ _ _ _ _ _ _ _ Ho) as Hr. pose proof (op_view _ _ _ _ _ _ _ _ _ _ _ Ho) as Hv.
  pose proof (op_shape _ _ _ _ _ _ _ _ _ _ _ Ho) as [H1 H2 H3 H4 H5 H6 H7 H8].
  unfold twp, upd_nr. rewrite Hr. split; [done|].
  assert (forall (b : bool) key (l : list Z), b = bool_decide (p ∈ l) -> (b = true -> key (f r) = key r) -> forall q r', q ∈ l -> <[p := f r]> (nn_reqs w) !! q = Some r' ->
    exists r0 : NNMData_Req_t, nn_reqs w !! q = Some r0 /\ (key r' : Z) = key r0) as Hkey.
  { intros b key l Hb Hkr q r' Hl Hq. destruct (decide (q = p)) as [->|]; [|rewrite lookup_insert_ne in Hq by done; eauto].
    rewrite lookup_insert_eq in Hq; injection Hq as <-. exists r. split; [done|]. apply Hkr. rewrite Hb. by apply bool_decide_eq_true. }
  apply (open_step _ _ _ _ _ _ _ _ _ _ _ _ _ _ _ Ho); [|done|rewrite <- Hv; unfold view_of, vs_req; cbn; by rewrite lookup_insert_eq|done| |apply Ho].
  - intros q Hq. unfold view_of. cbn. by rewrite lookup_insert_ne.
  - split; cbn; try done.
    + eapply table_ok_reqs; [|done]. apply (Hkey (v_pool v)); [by rewrite <- Hv|]. intros Ht. destruct Hk as [(E & _)|(E & _)]; [congruence|]. unfold pool_key. by rewrite E.
    + eapply queue_ok_reqs; [|done]. apply (Hkey (v_chq v)); [by rewrite <- Hv|]. intros Ht. destruct Hk as [(_ & E & _)|(E & E2)]; [congruence|]. unfold queue_key. by rewrite E, E2.
    + eapply queue_ok_reqs; [|done]. apply (Hkey (v_cmq v)); [by rewrite <- Hv|]. intros Ht. destruct Hk as [(_ & _ & E)|(E & E2)]; [congruence|]. unfold queue_key. by rewrite E, E2.
    + rewrite map_size_insert_Some; [done|by eexists].
    + destruct (decide (p = 0)) as [->|]; [congruence|]. by rewrite lookup_insert_ne.
    + by destruct H8.
Qed.

Lemma twp_get_nr p r Q w : nn_reqs w !! p = Some r -> Q r w -> twp (get_nr p) Q w.
Proof. intros H HQ. unfold twp, get_nr. by rewrite H. Qed.

(** A change of the world that no request sees. *)
Lemma open_frame n m S R K K' p cl w w' r v t :
  opened n m S R K p cl w r v t -> (forall q, view_of R w' q = view_of R w q) -> nn_calls w' = nn_calls w -> shape m w' -> misc w' = K' ->
  opened n m S R K' p cl w' r v t.
Proof. intros Ho Hv Hc Hs HK. eapply open_step; eauto; [rewrite Hv; apply Ho|apply Ho]. Qed.

Lemma shape_frame m w w' :
  shape m w -> nn_reqs w' = nn_reqs w -> NNMDReq_pool w' = NNMDReq_pool w -> num_NNMDReq w' = num_NNMDReq w ->
  nnMDCH_worker w' = nnMDCH_worker w -> nnMDCM_worker w' = nnMDCM_worker w -> nn_dying w' = nn_dying w -> fc_live w' -> shape m w'.
Proof. intros [] E1 E2 E3 E4 E5 E6 Hf. split; by rewrite ?E1, ?E2, ?E3, ?E4, ?E5, ?E6. Qed.

Lemma fc_live_frame w w' : fc_live w -> nn_fc w' = nn_fc w -> nnSrv_resource w' = nnSrv_resource w -> fc_live w'.
Proof. intros [] E1 E2. split; by rewrite ?E1, ?E2. Qed.

Lemma told_app c l x : told c (l ++ [x]) = told c l + (if is_end c x then 1 else 0).
Proof. unfold told. rewrite filter_app, length_app, filter_cons, filter_nil. destruct (is_end c x) eqn:E; [rewrite decide_True by done|rewrite decide_False by done]; cbn; lia. Qed.

(** A call to another component; only an end of the open request is told. *)
Lemma open_call n m S R K p cl w r v t c :
  opened n m S R K p cl w r v t -> (forall x, is_end x c = true -> x = cl) ->
  twp (nn_do c) (fun _ w' => nnSrv_resource w' = nnSrv_resource w /\ opened n m S R K p cl w' r v (t + if is_end cl c then 1 else 0)) w.
Proof.
  intros [H1 H2 H3 H4 H5 [C1 C2 C3 C4] H7 H8] Hc. apply twp_modify.
  assert (forall x, x <> cl -> told x (nn_calls w ++ [c]) = told x (nn_calls w)) as Hx.
  { intros x Hx. rewrite told_app. destruct (is_end x c) eqn:E; [by apply Hc in E|lia]. }
  split; [done|]. split; cbn; try done.
  - intros q Hq. specialize (H1 q Hq). unfold view_ok in *. cbn in *. destruct (nn_reqs w !! q) as [s|] eqn:Hs; [|done]. rewrite Hx; [done|]. by eapply C2.
  - rewrite told_app. by rewrite H4.
  - eapply shape_frame; [exact H5|done..|]. by eapply fc_live_frame; [apply H5|..].
  - split; cbn; try done. intros x Hxc Hno. rewrite Hx by done. auto.
Qed.

Lemma table_add size key reqs L p r :
  table_ok size key reqs L -> reqs !! p = Some r -> 0 <= key r < Z.of_nat size -> p ∉ concat L ->
  exists L' l, bk_add (key r) p L = Some L' /\ table_ok size key reqs L' /\ concat L' ≡ₚ p :: concat L /\ bk_get (key r) L = Some l /\
    (forall j, bk_get j L' = if decide (j = key r) then Some (l ++ [p]) else bk_get j L).
Proof.
  intros [A B C] Hr Hk Hp. destruct (bk_add_some (key r) p L) as (L' & l & E & El & Hl & Hc & Hg); [by rewrite A|]. exists L', l. split_and!; try done.
  split; [congruence|rewrite Hc; by constructor|]. intros i k q s Hi Hq Hs. rewrite Hg in Hi. case_decide as Hd; [|by eapply C].
  subst i. injection Hi as <-. apply elem_of_app in Hq as [Hq|Hq]; [by eapply C|]. apply list_elem_of_singleton in Hq as ->. congruence.
Qed.

Lemma table_del size key reqs L p r :
  table_ok size key reqs L -> reqs !! p = Some r -> p ∈ concat L ->
  exists L', bk_del p L = Some L' /\ table_ok size key reqs L' /\ concat L ≡ₚ p :: concat L' /\
    (forall j, bk_get j L' = filter (fun q => q <> p) <$> bk_get j L).
Proof.
  intros [A B C] Hr Hp. destruct (bk_del_some p L B Hp) as (L' & E & Hl & Hc & Hg). exists L'. split_and!; try done.
  split; [congruence|rewrite Hc in B; by inversion B|]. intros i k q s Hi Hq Hs. rewrite Hg in Hi. destruct (bk_get i L) as [k'|] eqn:Ek; [|done].
  injection Hi as <-. apply list_elem_of_filter in Hq as [_ Hq]. by eapply C.
Qed.

Lemma perm_member (p q : Z) l l' : l ≡ₚ p :: l' -> q <> p -> bool_decide (q ∈ l) = bool_decide (q ∈ l').
Proof. intros H Hq. apply bool_decide_ext. rewrite H, elem_of_cons. naive_solver. Qed.

Lemma perm_first (p : Z) l l' : l ≡ₚ p :: l' -> bool_decide (p ∈ l) = true.
Proof. intros H. apply bool_decide_eq_true. rewrite H. apply elem_of_cons. by left. Qed.

Lemma perm_gone (p : Z) l l' : NoDup l -> l ≡ₚ p :: l' -> bool_decide (p ∈ l') = false.
Proof. intros Hn H. apply bool_decide_eq_false. rewrite H in Hn. by inversion Hn. Qed.

(** Lists of requests without repetition are not longer than the table of requests. *)
Lemma members_bound (reqs : gmap Z NNMData_Req_t) (l : list Z) m :
  NoDup l -> (forall q, q ∈ l -> is_Some (reqs !! q)) -> Z.of_nat (size reqs) <= m -> Z.of_nat (length l) <= m.
Proof.
  intros Hn Hl Hm. assert (list_to_set l ⊆ dom reqs) as H.
  { intros q Hq. apply elem_of_list_to_set in Hq. apply elem_of_dom. auto. }
  apply subseteq_size in H. rewrite size_list_to_set, size_dom in H by done. lia.
Qed.

Lemma linked_live n m S R K p cl w r v t (q : Z) :
  opened n m S R K p cl w r v t ->
  q ∈ concat (NNMDReq_pool w) \/ q ∈ concat (wker_ReqPool (nnMDCH_worker w)) \/ q ∈ concat (wker_ReqPool (nnMDCM_worker w)) ->
  is_Some (nn_reqs w !! q).
Proof.
  intros Ho Hq. destruct (decide (q = p)) as [->|Hne]; [rewrite (opened_lookup _ _ _ _ _ _ _ _ _ _ _ Ho); by eexists|].
  pose proof (op_others _ _ _ _ _ _ _ _ _ _ _ Ho q Hne) as H. unfold view_ok in H. cbn [view_of v_req] in H. destruct (nn_reqs w !! q); [by eexists|].
  exfalso. injection H as _ H1 H2 H3 _ _ _ _ _. apply bool_decide_eq_false in H1, H2, H3. naive_solver.
Qed.

Section ops.
Context (n m : Z) (Hm : m + 1 < 2 ^ 31) (S : gset Z) (R : list Z) (p cl : Z).
Implicit Types (K : misc_t) (w : nn_world) (r : NNMData_Req_t) (v : view) (t : Z).
Abbreviation opened := (opened n m S R).

Lemma pool_bound K w r v t : opened K p cl w r v t -> Z.of_nat (length (concat (NNMDReq_pool w))) <= m.
Proof. intros Ho. eapply members_bound; [apply Ho|intros q Hq; eapply linked_live; eauto|apply Ho]. Qed.

Lemma open_pool_add K w r v t :
  opened K p cl w r v t -> v_pool v = false ->
  twp (NNMDReqPool_addReq_nolock p (pool_key r)) (fun _ w' => opened K p cl w' r (vs_pool true v) t) w.
Proof.
  intros Ho Hv. pose proof (opened_lookup _ _ _ _ _ _ _ _ _ _ _ Ho) as Hr. pose proof (pool_bound _ _ _ _ _ Ho) as Hb.
  pose proof (op_view _ _ _ _ _ _ _ _ _ _ _ Ho) as H2. pose proof (op_shape _ _ _ _ _ _ _ _ _ _ _ Ho) as Hs.
  assert (p ∉ concat (NNMDReq_pool w)) as Hp by (subst v; by apply bool_decide_eq_false in Hv).
  destruct (table_add _ _ _ _ p r (sh_pool _ _ Hs) Hr) as (L' & l & E & Hok & Hc & _); [apply Z.mod_pos_bound; done|done|].
  unfold NNMDReqPool_addReq_nolock. apply twp_bind. unfold twp at 1, nn_opt. rewrite E. apply twp_modify.
  apply (open_step _ _ _ _ _ _ _ _ _ _ _ _ _ _ _ Ho); [|done| |apply Ho| |apply Ho].
  - intros q Hq. unfold view_of. cbn. by rewrite (perm_member _ _ _ _ Hc Hq).
  - rewrite <- H2. unfold view_of, vs_pool. cbn. by rewrite (perm_first _ _ _ Hc).
  - destruct Hs. split; cbn; try done; [|by eapply fc_live_frame].
    rewrite sh_num0, s32_small by (unfold is_s32; lia). rewrite Hc. cbn [length]. lia.
Qed.

Lemma open_pool_del K w r v t :
  opened K p cl w r v t -> v_pool v = true ->
  twp (NNMDReqPool_rmReq_nolock p) (fun _ w' => opened K p cl w' r (vs_pool false v) t) w.
Proof.
  intros Ho Hv. pose proof (opened_lookup _ _ _ _ _ _ _ _ _ _ _ Ho) as Hr. pose proof (pool_bound _ _ _ _ _ Ho) as Hb.
  pose proof (op_view _ _ _ _ _ _ _ _ _ _ _ Ho) as H2. pose proof (op_shape _ _ _ _ _ _ _ _ _ _ _ Ho) as Hs.
  assert (p ∈ concat (NNMDReq_pool w)) as Hp by (subst v; by apply bool_decide_eq_true in Hv).
  destruct (table_del _ _ _ _ p r (sh_pool _ _ Hs) Hr Hp) as (L' & E & Hok & Hc & _).
  unfold NNMDReqPool_rmReq_nolock. apply twp_bind. unfold twp at 1, nn_opt. rewrite E. apply twp_modify.
  apply (open_step _ _ _ _ _ _ _ _ _ _ _ _ _ _ _ Ho); [|done| |apply Ho| |apply Ho].
  - intros q Hq. unfold view_of. cbn. by rewrite <- (perm_member _ _ _ _ Hc Hq).
  - rewrite <- H2. unfold view_of, vs_pool. cbn. by rewrite (perm_gone _ _ _ (tb_nodup _ _ _ _ (sh_pool _ _ Hs)) Hc).
  - destruct Hs. split; cbn; try done; [|by eapply fc_live_frame].
    rewrite Hc in sh_num0, Hb. cbn [length] in sh_num0, Hb. rewrite sh_num0, s32_small by (unfold is_s32; lia). lia.
Qed.

Lemma queue_key_range r : 0 <= queue_key r < 33.
Proof.
  unfold queue_key, NNCWker_gain_qlock, NNC_WORKQ_MOD_NUM, NNC_WORKQ_HP_BK_IDX, NNC_WORKQ_HASH_NUM. destruct (nr_prior_low r); [|lia].
  change (32 - 1) with (Z.ones 5). rewrite Z.land_ones by lia. pose proof (Z.mod_pos_bound (nr_ReqID r) (2 ^ 5)). lia.
Qed.

Lemma bucket_bound i l (L : buckets) : bk_get i L = Some l -> Z.of_nat (length l) <= Z.of_nat (length (concat L)).
Proof.
  unfold bk_get. destruct (0 <=? i); [|done]. intros H. rewrite <- (take_drop_middle _ _ _ H), concat_app, concat_cons, !length_app. lia.
Qed.

(** A request enters or leaves a queue. *)
Lemma queue_add reqs wk r :
  queue_ok reqs wk -> reqs !! p = Some r -> p ∉ concat (wker_ReqPool wk) -> Z.of_nat (length (concat (wker_ReqPool wk))) <= m ->
  exists wk', NNCWker_addReq_workerQ_nolock (queue_key r) p wk = Some wk' /\ queue_ok reqs wk' /\
    concat (wker_ReqPool wk') ≡ₚ p :: concat (wker_ReqPool wk).
Proof.
  intros [A B C (l0 & D1 & D2)] Hr Hp Hb. destruct (table_add _ _ _ _ p r A Hr (queue_key_range r) Hp) as (L' & l & E & Hok & Hc & Hl & Hg).
  unfold NNCWker_addReq_workerQ_nolock. rewrite E. cbn [mbind option_bind]. eexists. split; [reflexivity|]. split; [|done].
  pose proof (bucket_bound _ _ _ D1) as Hl0.
  split; cbn [wker_ReqPool deq_bucket_idx wker_ReqQ_size wker_HPReqQ_size]; [done| | |].
  - pose proof (queue_key_range r). case_match; lia.
  - rewrite C, s32_small by (unfold is_s32; lia). rewrite Hc. cbn [length]. lia.
  - pose proof (Hg NNC_WORKQ_HP_BK_IDX) as Hh. case_decide as Hd.
    + rewrite <- Hd in *. rewrite D1 in Hl. injection Hl as <-. eexists. split; [done|]. rewrite Z.eqb_refl, D2, s32_small by (unfold is_s32; lia). rewrite length_app. cbn. lia.
    + rewrite (proj2 (Z.eqb_neq _ _)) by done. rewrite Hh. eauto.
Qed.

Lemma queue_del reqs wk r :
  queue_ok reqs wk -> reqs !! p = Some r -> p ∈ concat (wker_ReqPool wk) -> Z.of_nat (length (concat (wker_ReqPool wk))) <= m ->
  exists wk', NNCWker_rmReq_workerQ_nolock (queue_key r) p wk = Some wk' /\ queue_ok reqs wk' /\
    concat (wker_ReqPool wk) ≡ₚ p :: concat (wker_ReqPool wk').
Proof.
  intros [A B C (l0 & D1 & D2)] Hr Hp Hb. destruct (table_del _ _ _ _ p r A Hr Hp) as (L' & E & Hok & Hc & Hg).
  unfold NNCWker_rmReq_workerQ_nolock. rewrite E. cbn [mbind option_bind]. eexists. split; [reflexivity|]. split; [|done].
  pose proof (bucket_bound _ _ _ D1) as Hl0.
  split; cbn [wker_ReqPool deq_bucket_idx wker_ReqQ_size wker_HPReqQ_size]; [done|done| |].
  - rewrite C. rewrite Hc in Hb |- *. cbn [length] in *. rewrite s32_small by (unfold is_s32; lia). lia.
  - pose proof (Hg NNC_WORKQ_HP_BK_IDX) as Hh. rewrite D1 in Hh. cbn [fmap option_fmap option_map] in Hh. eexists. split; [exact Hh|].
    apply elem_concat in Hp as (i & l & Hi & Hl). pose proof (tb_key _ _ _ _ A i l p r Hi Hl Hr) as ->.
    destruct (NNC_WORKQ_HP_BK_IDX =? queue_key r) eqn:Ek; zbool.
    + rewrite <- Ek, D1 in Hi. injection Hi as <-.
      assert (NoDup l0) as Hn.
      { pose proof (tb_nodup _ _ _ _ A) as Hn. unfold bk_get in D1. cbn in D1. rewrite <- (take_drop_middle _ _ _ D1), concat_app, concat_cons in Hn.
        apply NoDup_app in Hn as (_ & _ & Hn). by apply NoDup_app in Hn as (Hn & _). }
      pose proof (filter_remove p l0 Hn Hl) as Hf. apply Permutation_length in Hf. cbn [length] in Hf. rewrite D2, s32_small by (unfold is_s32; lia). lia.
    + rewrite filter_absent; [done|]. intros Hin. apply Ek. by apply (tb_key _ _ _ _ A _ _ p r D1 Hin Hr).
Qed.

Lemma queue_of ch w : shape m w -> queue_ok (nn_reqs w) (get_wk ch w).
Proof. destruct ch; apply _ || by intros []. Qed.

Lemma queue_bound K w r v t ch : opened K p cl w r v t -> Z.of_nat (length (concat (wker_ReqPool (get_wk ch w)))) <= m.
Proof.
  intros Ho. pose proof (op_shape _ _ _ _ _ _ _ _ _ _ _ Ho) as Hs.
  eapply members_bound; [apply (qo_table _ _ (queue_of ch _ Hs))|intros q Hq; eapply linked_live; eauto; destruct ch; eauto|apply Hs].
Qed.

Lemma open_set_wk K w r v t ch wk b :
  opened K p cl w r v t -> queue_ok (nn_reqs w) wk ->
  (forall q, q <> p -> bool_decide (q ∈ concat (wker_ReqPool wk)) = bool_decide (q ∈ concat (wker_ReqPool (get_wk ch w)))) ->
  bool_decide (p ∈ concat (wker_ReqPool wk)) = b ->
  opened K p cl (set_wk ch wk w) r (vs_q ch b v) t.
Proof.
  intros Ho Hwk Hq Hb. pose proof (op_view _ _ _ _ _ _ _ _ _ _ _ Ho) as H2. pose proof (op_shape _ _ _ _ _ _ _ _ _ _ _ Ho) as Hs. pose proof (op_misc _ _ _ _ _ _ _ _ _ _ _ Ho) as HK.
  pose proof (op_req _ _ _ _ _ _ _ _ _ _ _ Ho) as Hrq.
  apply (open_step _ _ _ _ _ _ _ _ _ _ _ _ _ _ _ Ho); destruct ch; try done.
  1, 2: intros q Hne; unfold view_of; cbn; by rewrite (Hq q Hne).
  1, 2: rewrite <- H2; unfold view_of, vs_q, vs_chq, vs_cmq; cbn; by rewrite Hb.
  1, 2: destruct Hs; split; cbn; try done; by eapply fc_live_frame.
Qed.

Lemma open_q_add K w r v t ch :
  opened K p cl w r v t -> v_q ch v = false ->
  twp (upd_wk ch (NNCWker_addReq_workerQ_nolock (queue_key r) p)) (fun _ w' => opened K p cl w' r (vs_q ch true v) t) w.
Proof.
  intros Ho Hv. pose proof (queue_of ch _ (op_shape _ _ _ _ _ _ _ _ _ _ _ Ho)) as Hq.
  assert (p ∉ concat (wker_ReqPool (get_wk ch w))) as Hp.
  { rewrite <- (op_view _ _ _ _ _ _ _ _ _ _ _ Ho) in Hv. destruct ch; by apply bool_decide_eq_false in Hv. }
  destruct (queue_add _ _ r Hq (opened_lookup _ _ _ _ _ _ _ _ _ _ _ Ho) Hp (queue_bound _ _ _ _ _ ch Ho)) as (wk' & E & Hok & Hc).
  unfold upd_wk. apply twp_bind. unfold twp at 1, nn_opt. rewrite E. apply twp_modify.
  apply open_set_wk; [done|done| |by eapply perm_first]. intros q Hne. by apply (perm_member p).
Qed.

Lemma open_q_del K w r v t ch :
  opened K p cl w r v t -> v_q ch v = true ->
  twp (upd_wk ch (NNCWker_rmReq_workerQ_nolock (queue_key r) p)) (fun _ w' => opened K p cl w' r (vs_q ch false v) t) w.
Proof.
  intros Ho Hv. pose proof (queue_of ch _ (op_shape _ _ _ _ _ _ _ _ _ _ _ Ho)) as Hq.
  assert (p ∈ concat (wker_ReqPool (get_wk ch w))) as Hp.
  { rewrite <- (op_view _ _ _ _ _ _ _ _ _ _ _ Ho) in Hv. destruct ch; by apply bool_decide_eq_true in Hv. }
  destruct (queue_del _ _ r Hq (opened_lookup _ _ _ _ _ _ _ _ _ _ _ Ho) Hp (queue_bound _ _ _ _ _ ch Ho)) as (wk' & E & Hok & Hc).
  unfold upd_wk. apply twp_bind. unfold twp at 1, nn_opt. rewrite E. apply twp_modify.
  apply open_set_wk; [done|done| |]. 
  - intros q Hne. symmetry. by apply (perm_member p).
  - eapply perm_gone; [|exact Hc]. apply (qo_table _ _ Hq).
Qed.

Lemma open_timers K w r v t ts b :
  opened K p cl w r v t -> (forall q, q <> p -> ts !! q = nn_timers w !! q) -> snd <$> ts !! p = b ->
  opened K p cl (set_nn_timers ts w) r (vs_timer b v) t.
Proof.
  intros Ho Hq Hb. apply (open_step _ _ _ _ _ _ _ _ _ _ _ _ _ _ _ Ho); [|done| |apply Ho| |apply Ho].
  - intros q Hne. unfold view_of. cbn. by rewrite (Hq q Hne).
  - rewrite <- (op_view _ _ _ _ _ _ _ _ _ _ _ Ho). unfold view_of, vs_timer. cbn. by rewrite Hb.
  - pose proof (op_shape _ _ _ _ _ _ _ _ _ _ _ Ho) as Hs. eapply shape_frame; [exact Hs|done..|]. by eapply fc_live_frame; [apply Hs|..].
Qed.

Lemma open_dying K w r v t :
  opened K p cl w r v t -> v_dying v = false -> twp (NNMDReq_free_Req p) (fun _ w' => opened K p cl w' r (vs_dying true v) t) w.
Proof.
  intros Ho Hv. apply twp_modify. pose proof (op_view _ _ _ _ _ _ _ _ _ _ _ Ho) as H2.
  assert (nn_dying w ++ [p] ≡ₚ p :: nn_dying w) as Hp by (symmetry; apply Permutation_cons_append).
  apply (open_step _ _ _ _ _ _ _ _ _ _ _ _ _ _ _ Ho); [|done| |apply Ho| |apply Ho].
  - intros q Hne. unfold view_of. cbn. by rewrite (perm_member p q _ _ Hp Hne).
  - rewrite <- H2. unfold view_of, vs_dying. cbn. by rewrite (perm_first _ _ _ Hp).
  - pose proof (op_shape _ _ _ _ _ _ _ _ _ _ _ Ho) as []. split; cbn; try done; [|by eapply fc_live_frame].
    rewrite Hp. constructor; [|done]. subst v. by apply bool_decide_eq_false in Hv.
Qed.

Lemma open_cm rt L c0 h w r v t c :
  opened (rt, L, c0, h) p cl w r v t -> cm_req c0 = None \/ cm_req c0 = Some p -> cm_req c = None \/ cm_req c = Some p ->
  opened (rt, L, c, h) p cl (set_nn_cm c w) r (vs_cm (bool_decide (cm_req c = Some p)) v) t.
Proof.
  intros Ho H0 H1. pose proof (op_misc _ _ _ _ _ _ _ _ _ _ _ Ho) as HK. injection HK as K1 K2 K3 K4.
  apply (open_step _ _ _ _ _ _ _ _ _ _ _ _ _ _ _ Ho); [|done| |apply Ho| |by unfold misc; cbn; rewrite K1, K2, K4].
  - intros q Hne. unfold view_of. cbn. rewrite K3. f_equal. rewrite !bool_decide_eq_false_2; [done|naive_solver..].
  - rewrite <- (op_view _ _ _ _ _ _ _ _ _ _ _ Ho). done.
  - pose proof (op_shape _ _ _ _ _ _ _ _ _ _ _ Ho) as Hs. eapply shape_frame; [exact Hs|done..|]. by eapply fc_live_frame; [apply Hs|..].
Qed.

Lemma open_ch rt L c h0 w r v t h :
  opened (rt, L, c, h0) p cl w r v t -> h0 = None \/ h0 = Some p -> h = None \/ h = Some p ->
  opened (rt, L, c, h) p cl (set_nn_ch h w) r (vs_ch (bool_decide (h = Some p)) v) t.
Proof.
  intros Ho H0 H1. pose proof (op_misc _ _ _ _ _ _ _ _ _ _ _ Ho) as HK. injection HK as K1 K2 K3 K4.
  apply (open_step _ _ _ _ _ _ _ _ _ _ _ _ _ _ _ Ho); [|done| |apply Ho| |by unfold misc; cbn; rewrite K1, K2, K3].
  - intros q Hne. unfold view_of. cbn. rewrite K4. f_equal. rewrite !bool_decide_eq_false_2; [done|naive_solver..].
  - rewrite <- (op_view _ _ _ _ _ _ _ _ _ _ _ Ho). done.
  - pose proof (op_shape _ _ _ _ _ _ _ _ _ _ _ Ho) as Hs. eapply shape_frame; [exact Hs|done..|]. by eapply fc_live_frame; [apply Hs|..].
Qed.

(** Fields that no part of the invariant mentions. *)
Lemma open_silent K w w' r v t :
  opened K p cl w r v t -> (forall q, view_of R w' q = view_of R w q) -> nn_calls w' = nn_calls w ->
  NNMDReq_pool w' = NNMDReq_pool w -> num_NNMDReq w' = num_NNMDReq w ->
  nnMDCH_worker w' = nnMDCH_worker w -> nnMDCM_worker w' = nnMDCM_worker w -> nn_reqs w' = nn_reqs w -> nn_dying w' = nn_dying w ->
  nn_fc w' = nn_fc w -> nnSrv_resource w' = nnSrv_resource w -> misc w' = misc w -> opened K p cl w' r v t.
Proof.
  intros Ho Hv Hc E1 E2 E3 E4 E5 E6 E7 E8 E9. pose proof (op_shape _ _ _ _ _ _ _ _ _ _ _ Ho) as Hs.
  apply (open_frame _ _ _ _ _ _ _ _ _ _ _ _ _ Ho); [done|done| |rewrite E9; apply Ho].
  eapply shape_frame; [exact Hs|done..|]. by eapply fc_live_frame; [apply Hs|..].
Qed.

Lemma open_lock rt L c h w r v t id :
  opened (rt, L, c, h) p cl w r v t -> id mod NNREQ_HBUCKET_SIZE ∉ L ->
  twp (NNMDReqPool_acquire_plock id) (fun i w' => i = id mod NNREQ_HBUCKET_SIZE /\ opened (rt, {[i]} ∪ L, c, h) p cl w' r v t) w.
Proof.
  intros Ho HL. pose proof (op_misc _ _ _ _ _ _ _ _ _ _ _ Ho) as HK. injection HK as K1 K2 K3 K4.
  unfold twp, NNMDReqPool_acquire_plock. rewrite K2, bool_decide_eq_false_2 by done. split; [done|].
  apply (open_frame _ _ _ _ _ _ _ _ _ _ _ _ _ Ho); [done|done| |by unfold misc; cbn; rewrite K1, K3, K4].
  pose proof (op_shape _ _ _ _ _ _ _ _ _ _ _ Ho) as Hs. eapply shape_frame; [exact Hs|done..|]. by eapply fc_live_frame; [apply Hs|..].
Qed.

Lemma open_unlock rt L c h w r v t i :
  opened (rt, {[i]} ∪ L, c, h) p cl w r v t -> i ∉ L -> 0 <= i < NNREQ_HBUCKET_SIZE ->
  twp (NNMDReqPool_rel_plock i) (fun _ w' => opened (rt, L, c, h) p cl w' r v t) w.
Proof.
  clear Hm. intros Ho HL Hi. pose proof (op_misc _ _ _ _ _ _ _ _ _ _ _ Ho) as HK. injection HK as K1 K2 K3 K4.
  unfold twp, NNMDReqPool_rel_plock. rewrite (proj2 (Z.leb_le _ _)), (proj2 (Z.ltb_lt _ _)) by lia. cbn [andb].
  apply (open_frame _ _ _ _ _ _ _ _ _ _ _ _ _ Ho); [done|done| |unfold misc; cbn; rewrite K1, K2, K3, K4; do 3 f_equal; set_solver].
  pose proof (op_shape _ _ _ _ _ _ _ _ _ _ _ Ho) as Hs. eapply shape_frame; [exact Hs|done..|]. by eapply fc_live_frame; [apply Hs|..].
Qed.

End ops.

(** ** The flow control keeps its items *)

Definition fc_same (v v' : fc_world) : Prop := dom (fc_items v') = dom (fc_items v) /\ fc_reslist v' = fc_reslist v.

Lemma fc_same_live w v : fc_live w -> fc_same (nn_fc w) v -> fc_live (set_nn_fc v w).
Proof.
  intros [A B C] [D E]. split; cbn; [done| |].
  - apply elem_of_dom. rewrite D. by apply elem_of_dom.
  - rewrite E. eapply Forall_impl; [exact C|]. intros q Hq. apply elem_of_dom. rewrite D. by apply elem_of_dom.
Qed.

Lemma upd_item_same q f v : is_Some (fc_items v !! q) -> exists v', upd_item q f v = Some v' /\ fc_same v v'.
Proof.
  intros [it Hit]. unfold upd_item. rewrite Hit. eexists. split; [reflexivity|]. split; [|done]. cbn. apply dom_insert_lookup_L. by eexists.
Qed.

Lemma upd_all_same f l v : Forall (fun q => is_Some (fc_items v !! q)) l -> exists v', upd_all f l v = Some v' /\ fc_same v v'.
Proof.
  revert v. induction l as [|q l IH]; intros v Hl; [by exists v|]. apply Forall_cons in Hl as [Hq Hl]. cbn [upd_all].
  destruct (upd_item_same q f v Hq) as (v1 & -> & D & E). cbn [mbind option_bind].
  destruct (IH v1) as (v2 & -> & D2 & E2).
  { eapply Forall_impl; [exact Hl|]. intros x Hx. apply elem_of_dom. rewrite D. by apply elem_of_dom. }
  exists v2. split; [done|]. split; congruence.
Qed.

Lemma dec_slots_same w : fc_live w -> exists v', dec_res_rate_max_reqs (nnSrv_resource w) (nn_fc w) = Some v' /\ fc_same (nn_fc w) v'.
Proof.
  intros [A [it B] C]. unfold dec_res_rate_max_reqs. rewrite (proj2 (Z.eqb_neq _ _)) by done. rewrite B. cbn [mbind option_bind].
  destruct (upd_item_same (nnSrv_resource w) (set_out (alloc_out_res_rate it) (s32 (alloc_out_res_max it - 1))) (nn_fc w)) as (v1 & -> & D & E); [by eexists|].
  cbn [mbind option_bind]. eexists. split; [reflexivity|]. by destruct (_ <? _).
Qed.

Lemma no_fc_same w k : fc_live w -> exists v', alloc_res_no_fc (nnSrv_resource w) k (nn_fc w) = Some v' /\ fc_same (nn_fc w) v'.
Proof. intros [A B C]. unfold alloc_res_no_fc. rewrite (proj2 (Z.eqb_neq _ _)) by done. by apply upd_item_same. Qed.

Lemma trigger_same jm now k start w :
  fc_live w -> exists v' x, should_trigger_fc jm now (nnSrv_resource w) k start (nn_fc w) = Some (v', x) /\ fc_same (nn_fc w) v'.
Proof.
  intros [A [it B] C]. unfold should_trigger_fc. destruct (k =? 0); [by eexists _, _; repeat split|]. rewrite (proj2 (Z.eqb_neq _ _)) by done.
  rewrite B. cbn [mbind option_bind]. destruct (is_available it); [|by eexists _, _; repeat split]. unfold alloc_res. rewrite (proj2 (Z.eqb_neq _ _)) by done.
  rewrite B. cbn [mbind option_bind]. cbv zeta. case_match eqn:Ep. rename f into v1.
  assert (fc_same (nn_fc w) v1) as Hsame by (repeat case_match; simplify_eq; by split).
  edestruct (upd_item_same (nnSrv_resource w)) as (v2 & E2 & D & E); [|rewrite E2; cbn [mbind option_bind]; eexists _, _; split; [reflexivity|]].
  - apply elem_of_dom. rewrite (proj1 Hsame). by apply elem_of_dom.
  - destruct Hsame. split; congruence.
Qed.

(** ** Derived operations *)

Section derived.
Context (n m : Z) (Hm : m + 1 < 2 ^ 31) (S : gset Z) (R : list Z) (p cl : Z).
Implicit Types (K : misc_t) (w : nn_world) (r : NNMData_Req_t) (v : view) (t : Z).
Abbreviation opened := (opened n m S R).

Lemma open_fc K w r v t f :
  opened K p cl w r v t -> (fc_live w -> exists x, f (nn_fc w) = Some x /\ fc_same (nn_fc w) x) ->
  twp (fc_do f) (fun _ w' => nnSrv_resource w' = nnSrv_resource w /\ opened K p cl w' r v t) w.
Proof.
  intros Ho Hf. pose proof (op_shape _ _ _ _ _ _ _ _ _ _ _ Ho) as Hs. destruct (Hf (sh_fc _ _ Hs)) as (x & E & Hsame). unfold twp, fc_do. rewrite E. split; [done|].
  apply (open_frame _ _ _ _ _ _ _ _ _ _ _ _ _ Ho); [done|done| |apply Ho]. eapply shape_frame; [exact Hs|done..|]. apply fc_same_live; [apply Hs|done].
Qed.

Definition r_ref (d : Z) (r : NNMData_Req_t) : NNMData_Req_t := set_nr_ref (nr_RefCnt r + d) r.
Definition r_set (bit : Z) (r : NNMData_Req_t) : NNMData_Req_t := set_nr_fea (Z.setbit (nr_fea r) bit) r.
Definition r_clear (bit : Z) (r : NNMData_Req_t) : NNMData_Req_t := set_nr_fea (Z.clearbit (nr_fea r) bit) r.
Definition r_event (e : NNMDgetReq_FSM_TREvent_t) (r : NNMData_Req_t) : NNMData_Req_t :=
  set_nr_stat (NNMDgetReq_update_state (nnReq_stat r) e).1 r.
Definition r_cievent (e : NNMDciReq_FSM_TREvent_t) (r : NNMData_Req_t) : NNMData_Req_t :=
  set_nr_stat (NNMDciReq_update_state (nnReq_stat r) e).1 r.

Lemma open_ref K w r v t :
  opened K p cl w r v t -> is_s32 (nr_RefCnt r + 1) ->
  twp (NNMDReq_ref_Req p) (fun _ w' => opened K p cl w' (r_ref 1 r) (vs_req (Some (r_ref 1 r)) v) t) w.
Proof.
  intros Ho Hd. eapply twp_mono; [apply (open_upd _ _ _ _ _ _ _ _ _ _ _ _ Ho); by right|]. intros _ w' [_ H]. cbn beta in H. by rewrite s32_small in H.
Qed.

Lemma open_deref K w r v t :
  opened K p cl w r v t -> is_s32 (nr_RefCnt r - 1) ->
  twp (NNMDReq_deref_Req p) (fun _ w' => opened K p cl w' (r_ref (-1) r) (vs_req (Some (r_ref (-1) r)) v) t) w.
Proof.
  intros Ho Hd. eapply twp_mono; [apply (open_upd _ _ _ _ _ _ _ _ _ _ _ _ Ho); by right|]. intros _ w' [_ H]. cbn beta in H. by rewrite s32_small in H.
Qed.

Lemma open_test_set K w r v t bit :
  opened K p cl w r v t ->
  twp (NNMDReq_test_set_fea p bit) (fun old w' => old = NNMDReq_check_feature r bit /\
    opened K p cl w' (r_set bit r) (vs_req (Some (r_set bit r)) v) t) w.
Proof.
  intros Ho. apply twp_bind, (twp_get_nr _ r); [by eapply opened_lookup|]. apply twp_bind. eapply twp_mono; [apply (open_upd _ _ _ _ _ _ _ _ _ _ _ _ Ho); by right|].
  intros _ w' [_ H]. by apply twp_ret.
Qed.

Lemma open_test_clear K w r v t bit :
  opened K p cl w r v t ->
  twp (NNMDReq_test_clear_fea p bit) (fun old w' => old = NNMDReq_check_feature r bit /\
    opened K p cl w' (r_clear bit r) (vs_req (Some (r_clear bit r)) v) t) w.
Proof.
  intros Ho. apply twp_bind, (twp_get_nr _ r); [by eapply opened_lookup|]. apply twp_bind. eapply twp_mono; [apply (open_upd _ _ _ _ _ _ _ _ _ _ _ _ Ho); by right|].
  intros _ w' [_ H]. by apply twp_ret.
Qed.

Lemma open_event K w r v t e :
  opened K p cl w r v t ->
  twp (getReq_event p e) (fun a w' => a = (NNMDgetReq_update_state (nnReq_stat r) e).2 /\
    opened K p cl w' (r_event e r) (vs_req (Some (r_event e r)) v) t) w.
Proof.
  intros Ho. apply twp_bind, (twp_get_nr _ r); [by eapply opened_lookup|]. apply twp_bind. eapply twp_mono; [apply (open_upd _ _ _ _ _ _ _ _ _ _ _ _ Ho); by right|].
  intros _ w' [_ H]. by apply twp_ret.
Qed.

Lemma open_ci_event K w r v t e :
  opened K p cl w r v t ->
  twp (ciReq_event p e) (fun a w' => a = (NNMDciReq_update_state (nnReq_stat r) e).2 /\
    opened K p cl w' (r_cievent e r) (vs_req (Some (r_cievent e r)) v) t) w.
Proof.
  intros Ho. apply twp_bind, (twp_get_nr _ r); [by eapply opened_lookup|]. apply twp_bind. eapply twp_mono; [apply (open_upd _ _ _ _ _ _ _ _ _ _ _ _ Ho); by right|].
  intros _ w' [_ H]. by apply twp_ret.
Qed.

End derived.
