(* ===== verification/NNClientLife.v ===== *)
(** * NNClientLife: the handlers of the namenode client keep the invariant

    Every handler of [NNClient] is run on an open request ([opened]) and closes the invariant again.  From this follows that no handler
    faults or waits for a lock for ever, and that every caller is told exactly one end. *)

From S2P Require Import Prelude CommonUtil Fsm NNMDReqFsm IOReqOvlp NNProto FlowControl Buckets NNClient NNClientSpec.

(** ** What the updates of a request leave alone *)

Create Rewrite HintDb nnphase.

Lemma phase_ref d r : phase (r_ref d r) = phase r. Proof. done. Qed.
Lemma phase_set b r : phase (r_set b r) = phase r. Proof. done. Qed.
Lemma phase_clear b r : phase (r_clear b r) = phase r. Proof. done. Qed.
Lemma phase_sched x y r : phase (set_nr_sched x y r) = phase r. Proof. done. Qed.
Lemma phase_send x r : phase (set_nr_send x r) = phase r. Proof. done. Qed.
Lemma phase_rcv x r : phase (set_nr_rcv x r) = phase r. Proof. done. Qed.

#[export] Hint Rewrite phase_ref phase_set phase_clear phase_sched phase_send phase_rcv : nnphase.

(** The view and the fields of a request after some updates. *)
Ltac vsimp :=
  cbn [v_req v_pool v_chq v_cmq v_timer v_dying v_cm v_ch v_retry vs_req vs_pool vs_chq vs_cmq vs_timer vs_dying vs_cm vs_ch vs_retry
       vs_q v_q] in *.
Ltac rsimp :=
  autorewrite with nnphase in *; vsimp;
  unfold v_hold, NNMDReq_check_feature, submit_queue, NNMDReq_MData_cacheHit, NNMDReq_check_feature, NNMDReq_check_acquire in *; vsimp;
  cbn [r_ref r_set r_clear r_event r_cievent set_nr_ref set_nr_fea set_nr_stat set_nr_sched set_nr_send set_nr_rcv
       nr_ReqID nr_OPCode nr_RefCnt nr_fea nr_caller nr_prior_low] in *;
  rewrite ?Z.setbit_eqb, ?Z.clearbit_eqb in * by done;
  change (NNREQ_FEA_CACHE_HIT) with 0 in *; change NNREQ_FEA_IN_WORKQ with 2 in *; change NNREQ_FEA_IN_REQPOOL with 3 in *;
  change NNREQ_FEA_SCHED_TIMER with 5 in *;
  cbn [Z.eqb Pos.eqb negb andb orb Z.b2z] in *; rewrite ?andb_true_r, ?andb_false_r, ?Z.add_0_r in *.
(** The next operation of a handler, by its lemma; [room]: the counters do not overflow. *)
Ltac room := lazymatch goal with |- _ + _ < 2 ^ 31 => eassumption end.
Tactic Notation "ostep" uconstr(l) "as" simple_intropattern(x) := apply twp_bind; eapply twp_mono; [eapply l; try room|cbn beta; intros ? ? x].
Tactic Notation "olast" uconstr(l) "as" simple_intropattern(x) := eapply twp_mono; [eapply l; try room|cbn beta; intros ? ? x].
Ltac oget r := apply twp_bind, (twp_get_nr _ r); [by eapply opened_lookup|].
Ltac rfin := try done; try lia; try naive_solver lia.

(** ** Events *)

Definition next_phase (ph : phase_t) (e : NNMDgetReq_FSM_TREvent_t) : option (phase_t * NNMDgetReq_FSM_action_t) :=
  match e, ph with
  | NNREQ_E_PeekWorkQ, Pw => Some (Ps, NNREQ_A_DO_SEND)
  | NNREQ_E_SendDone, Ps => Some (Pr, NNREQ_A_DO_WAIT_RESP)
  | NNREQ_E_FindReqOK, Pr => Some (Pe, NNREQ_A_DO_PROCESS_RESP)
  | NNREQ_E_TimeoutFire, (Pw | Ps | Pr) => Some (Pe, NNREQ_A_DO_TO_PROCESS)
  | NNREQ_E_ConnBack, Pr => Some (Pt, NNREQ_A_DO_RETRY_REQ)
  | NNREQ_E_RetryChkDone, Pt => Some (Pw, NNREQ_A_DO_ADD_WORKQ)
  | _, _ => None
  end.

Lemma get_event_phase r e :
  NNMDReq_check_acquire r = true -> phase r <> Px ->
  match next_phase (phase r) e with
  | Some (ph, a) => phase (r_event e r) = ph /\ (NNMDgetReq_update_state (nnReq_stat r) e).2 = a
  | None => r_event e r = r /\ (NNMDgetReq_update_state (nnReq_stat r) e).2 = NNREQ_A_NoAction
  end.
Proof.
  intros Ha Hp. unfold phase in *. change (NNMDReq_check_acquire (r_event e r)) with (NNMDReq_check_acquire r). rewrite Ha in *.
  destruct r as [a1 a2 a3 a4 a5 a6 a7 a8 a9 b1 b2 b3 b4 b5 [s1 s2] b7 b8]. cbn in *. by destruct s1, e.
Qed.

Definition next_ciphase (ph : phase_t) (e : NNMDciReq_FSM_TREvent_t) : option (phase_t * NNMDciReq_FSM_action_t) :=
  match e, ph with
  | NNCIREQ_E_PeekWorkQ, Pw => Some (Ps, NNCIREQ_A_DO_SEND)
  | NNCIREQ_E_SendDone, Ps => Some (Pr, NNCIREQ_A_DO_WAIT_RESP)
  | NNCIREQ_E_FindReqOK, Pr => Some (Pe, NNCIREQ_A_DO_PROCESS_RESP)
  | NNCIREQ_E_ConnBack, Pr => Some (Pt, NNCIREQ_A_DO_RETRY_REQ)
  | NNCIREQ_E_RetryChkDone, Pt => Some (Pw, NNCIREQ_A_DO_ADD_WORKQ)
  | _, _ => None
  end.

Lemma ci_event_phase r e :
  NNMDReq_check_acquire r = false -> phase r <> Px ->
  match next_ciphase (phase r) e with
  | Some (ph, a) => phase (r_cievent e r) = ph /\ (NNMDciReq_update_state (nnReq_stat r) e).2 = a
  | None => r_cievent e r = r /\ (NNMDciReq_update_state (nnReq_stat r) e).2 = NNCIREQ_A_NoAction
  end.
Proof.
  intros Ha Hp. unfold phase in *. change (NNMDReq_check_acquire (r_cievent e r)) with (NNMDReq_check_acquire r). rewrite Ha in *.
  destruct r as [a1 a2 a3 a4 a5 a6 a7 a8 a9 b1 b2 b3 b4 b5 [s1 s2] b7 b8]. cbn in *. by destruct s2, e.
Qed.

(** ** Changes of the open request *)

(** The request was claimed by a handler that will end it. *)
Record ending (n : Z) (r : NNMData_Req_t) (v : view) : Prop := {
  en_pool : NNMDReq_check_feature r NNREQ_FEA_IN_REQPOOL = false /\ v_pool v = false;
  en_wq : NNMDReq_check_feature r NNREQ_FEA_IN_WORKQ = false /\ v_chq v = false /\ v_cmq v = false;
  en_cm : v_cm v = true -> submit_queue r = false;
  en_ch : v_ch v = true -> submit_queue r = true;
  en_timer : v_timer v <> None -> NNMDReq_check_feature r NNREQ_FEA_SCHED_TIMER = true;
  en_ref : v_hold v + 1 <= nr_RefCnt r <= n + v_hold v + 1;
  en_dying : v_dying v = false;
  en_retry : v_retry v = false;
  en_id : is_u32 (nr_ReqID r) /\ 0 <= nr_OPCode r <= REQ_NN_REPORT_WRITEIO_RESULT;
  en_phase : phase r = Pe;
}.

Lemma ending_ok n r v :
  ending n r v -> v_timer v = None -> req_ok n 0 1 (r_ref (-1) r) (vs_dying true (vs_req (Some (r_ref (-1) r)) v)).
Proof.
  intros [] Ht. destruct en_pool0 as [P1 P2], en_wq0 as (Q1 & Q2 & Q3).
  split; rsimp; rewrite ?P1, ?P2, ?Q1, ?Q2, ?Q3, ?en_phase0, ?Ht; rfin.
Qed.

Lemma vs_timer_same v x : v_timer v = x -> vs_timer x v = v.
Proof. by destruct v; cbn; intros ->. Qed.

Lemma vs_q_same v ch x : v_q ch v = x -> vs_q ch x v = v.
Proof. destruct v, ch; cbn; by intros ->. Qed.

Lemma req_ok_ref n d t k r v : req_ok n d t r v -> req_ok n (d + k) t (r_ref k r) (vs_req (Some (r_ref k r)) v).
Proof. intros []. split; rsimp; try done. lia. Qed.

Lemma req_ok_req n d t r v x : req_ok n d t r v -> req_ok n d t r (vs_req x v).
Proof. intros []. by split. Qed.

Lemma req_ok_range n d t r v : n + 8 < 2 ^ 31 -> 0 <= d <= 2 -> req_ok n d t r v -> 0 <= nr_RefCnt r < 2 ^ 31 - 2.
Proof. intros Hn Hd []. unfold v_hold in *. destruct (v_cm v), (v_ch v), (v_retry v); cbn in *; lia. Qed.

(** A handler that takes the request out of the pool and the queues will end it. *)
Lemma req_ending n t r v r2 v2 :
  req_ok n 1 t r v -> phase r <> Pe -> phase r <> Pt -> phase r2 = Pe ->
  NNMDReq_check_feature r2 NNREQ_FEA_IN_REQPOOL = false /\ v_pool v2 = false ->
  NNMDReq_check_feature r2 NNREQ_FEA_IN_WORKQ = false /\ v_chq v2 = false /\ v_cmq v2 = false ->
  NNMDReq_check_feature r2 NNREQ_FEA_SCHED_TIMER = NNMDReq_check_feature r NNREQ_FEA_SCHED_TIMER -> submit_queue r2 = submit_queue r ->
  nr_RefCnt r2 = nr_RefCnt r /\ nr_ReqID r2 = nr_ReqID r /\ nr_OPCode r2 = nr_OPCode r ->
  v_cm v2 = v_cm v /\ v_ch v2 = v_ch v /\ v_timer v2 = v_timer v /\ v_dying v2 = v_dying v /\ v_retry v2 = v_retry v ->
  ending n r2 v2 /\ t = 0.
Proof.
  intros [] N1 N2 Hp Hf Hq Hs Hsq (E1 & E2 & E3) (V1 & V2 & V3 & V4 & V5).
  assert (v_retry v = false /\ v_dying v = false) as [Hr Hd].
  { rewrite rk_dying. destruct (phase r); try done; destruct rk_phase as (-> & rk_phase); split; try done; apply rk_phase. }
  split; [|by rewrite decide_False in rk_told].
  split; unfold v_hold in *; rewrite ?Hsq, ?Hs, ?E1, ?E2, ?E3, ?V1, ?V2, ?V3, ?V4, ?V5; try done.
  intros Ht. destruct (v_timer v) as [b|] eqn:E; [|congruence]. by destruct (rk_timer b eq_refl) as (_ & ? & _).
Qed.

Lemma ending_cancel n r v :
  ending n r v -> ending n (r_clear NNREQ_FEA_SCHED_TIMER r) (vs_timer None (vs_req (Some (r_clear NNREQ_FEA_SCHED_TIMER r)) v)).
Proof. intros []. split; rsimp; try done. Qed.

Lemma ending_rcv n r v x y : ending n r v -> ending n (set_nr_rcv x r) (vs_req y v).
Proof. intros []. by split. Qed.

Ltac in_range Hn Hok :=
  match type of Hok with req_ok ?n ?d ?t ?r ?v => let H := fresh in assert (0 <= d <= 2) as H by lia; apply (req_ok_range n d t r v Hn H) in Hok;
    try match goal with |- context [nr_RefCnt ?x] => change (nr_RefCnt x) with (nr_RefCnt r) end end;
  unfold is_s32; lia.

Section life.
Context (n m : Z) (Hm : m + 1 < 2 ^ 31) (Hn : n + 8 < 2 ^ 31) (S : gset Z) (R : list Z) (p cl : Z).
Implicit Types (K : misc_t) (w : nn_world) (r : NNMData_Req_t) (v : view) (t : Z).
Abbreviation opened := (opened n m S R).

Lemma close_now K w r v t : opened K p cl w r v t -> nr_caller r = cl -> req_ok n 0 t r v -> core n m S R w /\ misc w = K.
Proof. intros Ho Hc Hok. split; [|apply Ho]. eapply (close_core n n); eauto. lia. Qed.

(** Whoever ends a request gives back its reference and waits for the others. *)
Lemma finish_end K w r v :
  opened K p cl w r v 1 -> nr_caller r = cl -> ending n r v -> v_timer v = None ->
  twp (NNMDReq_deref_Req p;; NNMDReq_free_Req p) (fun _ w' => core n m S R w' /\ misc w' = K) w.
Proof.
  intros Ho Hc He Ht. pose proof (ending_ok _ _ _ He Ht) as Hok. destruct He.
  ostep open_deref as H1; [exact Ho|unfold is_s32, v_hold in *; destruct (v_cm v), (v_ch v), (v_retry v); cbn in *; lia|].
  olast open_dying as H2; [exact H1|by vsimp|]. by eapply close_now.
Qed.

Lemma open_cancel K w r v t :
  opened K p cl w r v t -> (v_timer v <> None -> NNMDReq_check_feature r NNREQ_FEA_SCHED_TIMER = true) ->
  twp (NNMDReq_cancel_timer p) (fun _ w' => opened K p cl w' (r_clear NNREQ_FEA_SCHED_TIMER r)
    (vs_timer None (vs_req (Some (r_clear NNREQ_FEA_SCHED_TIMER r)) v)) t) w.
Proof.
  intros Ho Ht. ostep open_test_clear as [-> H1]; [exact Ho|]. destruct (NNMDReq_check_feature r NNREQ_FEA_SCHED_TIMER) eqn:E.
  - apply twp_modify. apply (open_timers _ _ _ _ _ _ _ _ _ _ _ _ _ H1); [intros q Hq; by rewrite lookup_delete_ne|by rewrite lookup_delete_eq].
  - apply twp_ret. rewrite vs_timer_same; [done|]. vsimp. destruct (v_timer v); [|done]. by specialize (Ht ltac:(done)).
Qed.

Lemma open_endfn K w r v t res :
  opened K p cl w r v t -> nr_caller r = cl -> twp (nnReq_endfn p res) (fun _ w' => opened K p cl w' r v (t + 1)) w.
Proof.
  intros Ho Hc. oget r. olast (open_call n m S R) as [_ H1]; [exact Ho|intros x Hx; cbn in Hx; zbool; congruence|].
  cbn [is_end] in H1. rewrite Hc, Z.eqb_refl in H1. exact H1.
Qed.

Lemma end_req K w r v res :
  opened K p cl w r v 0 -> nr_caller r = cl -> ending n r v -> v_timer v = None ->
  twp (nnReq_endfn p res;; NNMDReq_deref_Req p;; NNMDReq_free_Req p) (fun _ w' => core n m S R w' /\ misc w' = K) w.
Proof. intros Ho Hc He Ht. ostep open_endfn as H1; [exact Ho|done|]. by eapply finish_end. Qed.

(** The timeout handler claims the request unless it is being sent again. *)
Lemma timeout_claim rt c h w r v t :
  opened (rt, ∅, c, h) p cl w r v t -> req_ok n 1 t r v -> NNMDReq_check_acquire r = true -> phase r <> Pe -> nr_ReqID r < NNREQ_HBUCKET_SIZE ->
  twp (_NNMDReq_TO_chkState p) (fun ret w' =>
    match phase r with
    | Pt => ret = - EACCES /\ opened (rt, ∅, c, h) p cl w' r (vs_req (Some r) v) t
    | _ => let r1 := r_clear NNREQ_FEA_IN_REQPOOL (r_event NNREQ_E_TimeoutFire r) in
        ret = 0 /\ phase r1 = Pe /\ opened (rt, ∅, c, h) p cl w' r1 (vs_pool false (vs_req (Some r1) v)) t
    end) w.
Proof.
  intros Ho Hok Ha Hne Hid. destruct (rk_id _ _ _ _ _ Hok) as [Hu _]. unfold is_u32, NNREQ_HBUCKET_SIZE in *.
  assert (s32 (nr_ReqID r) = nr_ReqID r) as Es by (apply s32_small; unfold is_s32; lia). assert (u32 (nr_ReqID r) = nr_ReqID r) as Eu by (apply u32_small; unfold is_u32; lia).
  assert (nr_ReqID r mod NNREQ_HBUCKET_SIZE = nr_ReqID r) as Em by (apply Z.mod_small; unfold NNREQ_HBUCKET_SIZE; lia).
  unfold _NNMDReq_TO_chkState. oget r. cbv zeta. rewrite Es, Eu. ostep open_lock as [-> H1]; [exact Ho|set_solver|]. rewrite Em in H1.
  ostep open_event as [-> H2]; [exact H1|]. pose proof (get_event_phase r NNREQ_E_TimeoutFire Ha) as He. pose proof (rk_phase _ _ _ _ _ Hok) as Hph.
  pose proof (rk_pool _ _ _ _ _ Hok) as Hp.
  destruct (phase r) eqn:E; try done; specialize (He ltac:(done)); cbn [next_phase] in He; destruct He as [He ->].
  4: { apply twp_bind, twp_ret. ostep open_unlock as H3; [exact H2|set_solver|unfold NNREQ_HBUCKET_SIZE; lia|]. apply twp_ret. rewrite He in H3. done. }
  all: destruct Hph as [Hv _]; rewrite Hv in Hp; apply twp_bind; ostep open_test_clear as [-> H3]; [exact H2|].
  all: change (NNMDReq_check_feature (r_event NNREQ_E_TimeoutFire r) NNREQ_FEA_IN_REQPOOL) with (NNMDReq_check_feature r NNREQ_FEA_IN_REQPOOL); rewrite Hp.
  all: ostep open_pool_del as H4; [exact H3|by vsimp|]; apply twp_ret; ostep open_unlock as H5; [exact H4|set_solver|unfold NNREQ_HBUCKET_SIZE; lia|].
  all: apply twp_ret; by split_and!.
Qed.

(** Out of the queue, whichever it is. *)
Definition v_out (r : NNMData_Req_t) (v : view) : view := vs_chq false (vs_cmq false (vs_req (Some r) v)).

Lemma timeout_dequeue K w r v t :
  opened K p cl w r v t -> NNMDReq_check_feature r NNREQ_FEA_IN_WORKQ = v_chq v || v_cmq v ->
  (v_chq v = true -> NNMDReq_MData_cacheHit r = true) -> (v_cmq v = true -> NNMDReq_MData_cacheHit r = false) ->
  twp (_NNMDReq_TO_rm_workQ p) (fun _ w' => opened K p cl w' (r_clear NNREQ_FEA_IN_WORKQ r) (v_out (r_clear NNREQ_FEA_IN_WORKQ r) v) t) w.
Proof.
  intros Ho Hf Hch Hcm. unfold _NNMDReq_TO_rm_workQ. oget r. cbv zeta. ostep open_test_clear as [-> H1]; [exact Ho|]. rewrite Hf.
  destruct v as [a b vch vcm d e f g i]; vsimp. unfold v_out; vsimp. destruct vch, vcm; cbn [orb].
  - specialize (Hch eq_refl). specialize (Hcm eq_refl). congruence.
  - rewrite (Hch eq_refl). olast (open_q_del n m Hm S R p cl K _ _ _ _ true H1) as H2; [done|exact H2].
  - rewrite (Hcm eq_refl). olast (open_q_del n m Hm S R p cl K _ _ _ _ false H1) as H2; [done|exact H2].
  - apply twp_ret. exact H1.
Qed.

Lemma acquire_timeout rt c h w r v t :
  opened (rt, ∅, c, h) p cl w r v t -> nr_caller r = cl -> req_ok n 0 t r v -> NNMDReq_check_acquire r = true -> phase r <> Pe -> v_timer v = None ->
  nr_ReqID r < NNREQ_HBUCKET_SIZE ->
  twp (NNMDReq_acquire_TOfunc p) (fun _ w' => core n m S R w' /\ misc w' = (rt, ∅, c, h)) w.
Proof.
  intros Ho Hc Hok Ha Hne Ht Hid. unfold NNMDReq_acquire_TOfunc. pose proof Hok as [].
  assert (submit_queue r = NNMDReq_MData_cacheHit r) as Hsq by (unfold submit_queue; by rewrite Ha).
  ostep open_ref as H1; [exact Ho|in_range Hn Hok|].
  pose proof (req_ok_ref _ _ _ 1 _ _ Hok) as Hok1. ostep timeout_claim as H2; [exact H1|exact Hok1|exact Ha|exact Hne|exact Hid|].
  rewrite phase_ref in H2. set (r1 := r_clear NNREQ_FEA_IN_REQPOOL (r_event NNREQ_E_TimeoutFire (r_ref 1 r))) in *.
  assert (phase r = Pt \/ (a0 = 0 /\ phase r1 = Pe /\ opened (rt, ∅, c, h) p cl w'0 r1 (vs_pool false (vs_req (Some r1) v)) t /\ phase r <> Pt)) as [E|(-> & Hp1 & H3 & Hnt)].
  { destruct (phase r); try (by left); right; destruct H2 as (? & ? & ?); by split_and!. }
  - rewrite E in H2. destruct H2 as [-> H2]. olast open_deref as H3; [exact H2|in_range Hn Hok1|].
    pose proof (req_ok_ref _ _ _ (-1) _ _ Hok1) as Hok2. eapply close_now; [exact H3|done|exact Hok2].
  - rewrite Z.eqb_refl. cbn [negb].
    assert (NNMDReq_MData_cacheHit r1 = submit_queue r) as Hhit by (rewrite Hsq; subst r1; clear; by rsimp).
    ostep timeout_dequeue as H4; [exact H3|subst r1; clear - rk_wq; by rsimp|by vsimp; rewrite Hhit|by vsimp; rewrite Hhit|].
    ostep open_endfn as H5; [exact H4|done|]. apply twp_bind, twp_gets. ostep open_fc as [Er H6]; [exact H5|apply dec_slots_same|].
    ostep open_fc as [_ H7]; [exact H6|intros [A B _]; rewrite <- Er, (proj2 (Z.eqb_neq _ _)) by done; by apply upd_item_same|].
    destruct (req_ending n t (r_ref 1 r) (vs_req (Some (r_ref 1 r)) v) (r_clear NNREQ_FEA_IN_WORKQ r1) (v_out (r_clear NNREQ_FEA_IN_WORKQ r1)
         (vs_pool false (vs_req (Some r1) v)))) as [He ->]; [exact Hok1|done|done|done|clear; unfold v_out; subst r1; by rsimp..|].
    eapply finish_end; [exact H7|done|exact He|exact Ht].
Qed.

(** One event of the machine the request uses; it is granted in one state only. *)
Lemma open_both {A} K w r v t e e' (f : NNMDgetReq_FSM_action_t -> A) (g : NNMDciReq_FSM_action_t -> A) ph1 ph2 a1 a2 ok bad :
  opened K p cl w r v t -> phase r <> Px ->
  (forall ph, next_phase ph e = if decide (ph = ph1) then Some (ph2, a1) else None) ->
  (forall ph, next_ciphase ph e' = if decide (ph = ph1) then Some (ph2, a2) else None) ->
  f a1 = ok -> g a2 = ok -> f NNREQ_A_NoAction = bad -> g NNCIREQ_A_NoAction = bad ->
  twp (r ← get_nr p; if NNMDReq_check_acquire r then a ← getReq_event p e; mret (f a) else a ← ciReq_event p e'; mret (g a))
    (fun x w' => exists r' s, r' = set_nr_stat s r /\ opened K p cl w' r' (vs_req (Some r') v) t /\
       (phase r = ph1 /\ phase r' = ph2 /\ x = ok \/ phase r <> ph1 /\ r' = r /\ x = bad)) w.
Proof.
  intros Ho Hpx He He' F1 G1 F2 G2. oget r. destruct (NNMDReq_check_acquire r) eqn:Ha.
  - ostep open_event as [-> H1]; [exact Ho|]. apply twp_ret. eexists _, _. split; [done|]. split; [exact H1|].
    pose proof (get_event_phase r e Ha Hpx) as Hp. rewrite He in Hp. case_decide; destruct Hp as [Hp1 Hp2]; rewrite Hp2; [left|right]; by split_and!.
  - ostep open_ci_event as [-> H1]; [exact Ho|]. apply twp_ret. eexists _, _. split; [done|]. split; [exact H1|].
    pose proof (ci_event_phase r e' Ha Hpx) as Hp. rewrite He' in Hp. case_decide; destruct Hp as [Hp1 Hp2]; rewrite Hp2; [left|right]; by split_and!.
Qed.

Lemma open_peek_state K w r v t :
  opened K p cl w r v t -> phase r <> Px ->
  twp (_nnc_peekReq_update_state p) (fun x w' => exists r' s, r' = set_nr_stat s r /\ opened K p cl w' r' (vs_req (Some r') v) t /\
    (phase r = Pw /\ phase r' = Ps /\ x = 0 \/ phase r <> Pw /\ r' = r /\ x = - EPERM)) w.
Proof. intros Ho Hp. apply (open_both K w r v t _ _ _ _ Pw Ps NNREQ_A_DO_SEND NNCIREQ_A_DO_SEND 0 (- EPERM) Ho Hp); try done; by intros []. Qed.

Lemma open_find_state K w r v t :
  opened K p cl w r v t -> phase r <> Px ->
  twp (_findReq_update_state p) (fun x w' => exists r' s, r' = set_nr_stat s r /\ opened K p cl w' r' (vs_req (Some r') v) t /\
    (phase r = Pr /\ phase r' = Pe /\ x = 0 \/ phase r <> Pr /\ r' = r /\ x = - EPERM)) w.
Proof. intros Ho Hp. apply (open_both K w r v t _ _ _ _ Pr Pe NNREQ_A_DO_PROCESS_RESP NNCIREQ_A_DO_PROCESS_RESP 0 (- EPERM) Ho Hp); try done; by intros []. Qed.

Lemma open_retry_state K w r v t :
  opened K p cl w r v t -> phase r <> Px ->
  twp (_retryReq_update_state p) (fun x w' => exists r' s, r' = set_nr_stat s r /\ opened K p cl w' r' (vs_req (Some r') v) t /\
    (phase r = Pt /\ phase r' = Pw /\ x = 0 \/ phase r <> Pt /\ r' = r /\ x = - EPERM)) w.
Proof. intros Ho Hp. apply (open_both K w r v t _ _ _ _ Pt Pw NNREQ_A_DO_ADD_WORKQ NNCIREQ_A_DO_ADD_WORKQ 0 (- EPERM) Ho Hp); try done; by intros []. Qed.

Lemma rm_pool rt c h w r v t :
  opened (rt, ∅, c, h) p cl w r v t -> NNMDReq_check_acquire r = true -> phase r = Pr -> NNMDReq_check_feature r NNREQ_FEA_IN_REQPOOL = true -> v_pool v = true ->
  twp (NNMDReq_rm_ReqPool p) (fun ret w' => let r1 := r_clear NNREQ_FEA_IN_REQPOOL (r_event NNREQ_E_FindReqOK r) in
    ret = 0 /\ phase r1 = Pe /\ opened (rt, ∅, c, h) p cl w' r1 (vs_pool false (vs_req (Some r1) v)) t) w.
Proof.
  intros Ho Ha Hp Hf Hv. pose proof (get_event_phase r NNREQ_E_FindReqOK Ha) as He. rewrite Hp in He. destruct (He ltac:(done)) as [E1 E2].
  assert (0 <= nr_ReqID r mod NNREQ_HBUCKET_SIZE < NNREQ_HBUCKET_SIZE) as Hi by (apply Z.mod_pos_bound; done).
  unfold NNMDReq_rm_ReqPool. oget r. ostep open_lock as [-> H1]; [exact Ho|set_solver|]. ostep open_event as [-> H2]; [exact H1|]. rewrite E2.
  apply twp_bind. ostep open_test_clear as [-> H3]; [exact H2|].
  change (NNMDReq_check_feature (r_event NNREQ_E_FindReqOK r) NNREQ_FEA_IN_REQPOOL) with (NNMDReq_check_feature r NNREQ_FEA_IN_REQPOOL). rewrite Hf. cbn [negb].
  ostep open_pool_del as H4; [exact H3|by vsimp|]. apply twp_ret. ostep open_unlock as H5; [exact H4|set_solver|done|]. by apply twp_ret.
Qed.

End life.

(** ** Without an open request *)

Lemma core_frame n m S R w w' :
  core n m S R w -> (forall q, view_of R w' q = view_of R w q) -> nn_calls w' = nn_calls w -> shape m w' -> core n m S R w'.
Proof.
  intros [H1 H2 H3 H4 H5 H6] Hv Hc Hs. assert (forall q, nn_reqs w' !! q = nn_reqs w !! q) as Hq by (intros q; exact (f_equal v_req (Hv q))).
  split; auto.
  - intros q. rewrite Hv. specialize (H1 q). unfold view_ok in *. by rewrite Hc.
  - intros a b r s. rewrite !Hq. eauto.
  - intros a r. rewrite Hq. eauto.
  - intros c Hno. rewrite Hc. apply H5. intros a r Ha. apply (Hno a). by rewrite Hq.
Qed.

Lemma core_silent n m S R w w' :
  core n m S R w -> (forall q, view_of R w' q = view_of R w q) -> nn_calls w' = nn_calls w ->
  NNMDReq_pool w' = NNMDReq_pool w -> num_NNMDReq w' = num_NNMDReq w ->
  nnMDCH_worker w' = nnMDCH_worker w -> nnMDCM_worker w' = nnMDCM_worker w -> nn_reqs w' = nn_reqs w -> nn_dying w' = nn_dying w ->
  nn_fc w' = nn_fc w -> nnSrv_resource w' = nnSrv_resource w -> core n m S R w'.
Proof.
  intros Ho Hv Hc E1 E2 E3 E4 E5 E6 E7 E8. pose proof (co_shape _ _ _ _ _ Ho) as Hs.
  apply (core_frame _ _ _ _ _ _ Ho); [done|done|]. eapply shape_frame; [exact Hs|done..|]. by eapply fc_live_frame; [apply Hs|..].
Qed.

Lemma core_dead n m S R w q : core n m S R w -> nn_reqs w !! q = None -> view_of R w q = v_none.
Proof. intros Hc Hq. pose proof (co_view _ _ _ _ _ Hc q) as H. unfold view_ok in H. cbn [view_of v_req] in H. by rewrite Hq in H. Qed.

Lemma core_live n m S R w q : core n m S R w -> q ∈ concat (NNMDReq_pool w) -> exists r, nn_reqs w !! q = Some r.
Proof.
  intros Hc Hq. destruct (nn_reqs w !! q) as [r|] eqn:Hr; [by eexists|]. pose proof (f_equal v_pool (core_dead _ _ _ _ _ _ Hc Hr)) as Hv. by apply bool_decide_eq_false in Hv.
Qed.

Lemma core_queued n m S R w ch q : core n m S R w -> q ∈ concat (wker_ReqPool (get_wk ch w)) -> exists r, nn_reqs w !! q = Some r.
Proof.
  intros Hc Hq. destruct (nn_reqs w !! q) as [r|] eqn:Hr; [by eexists|]. pose proof (core_dead _ _ _ _ _ _ Hc Hr) as Hv.
  destruct ch; [apply (f_equal v_chq) in Hv|apply (f_equal v_cmq) in Hv]; by apply bool_decide_eq_false in Hv.
Qed.

Lemma find_by_id_ok id l w :
  (forall q, q ∈ l -> exists r, nn_reqs w !! q = Some r) ->
  twp (find_by_id id l) (fun q w' => w' = w /\ (q = 0 \/ q ∈ l /\ exists r, nn_reqs w !! q = Some r /\ nr_ReqID r = id)) w.
Proof.
  induction l as [|q l IH]; intros Hl; cbn [find_by_id]; [apply twp_ret; auto|].
  destruct (Hl q) as [r Hr]; [by left|]. apply twp_bind, (twp_get_nr _ r); [done|]. destruct (nr_ReqID r =? id) eqn:E; zbool.
  - apply twp_ret. split; [done|]. right. split; [by left|]. eauto.
  - eapply twp_mono; [apply IH; intros x Hx; apply Hl; by right|]. cbn beta. intros x w' [-> [->|(Hx & Hr')]]; [by auto|]. split; [done|]. right. split; [by right|done].
Qed.

Lemma peek_lock reqs wk wk' i :
  queue_ok reqs wk -> NNCWker_peekReq_gain_lock wk = (wk', i) -> queue_ok reqs wk' /\ wker_ReqPool wk' = wker_ReqPool wk /\ 0 <= i < 33.
Proof.
  intros [A B C D]. unfold NNCWker_peekReq_gain_lock, NNC_WORKQ_HP_BK_IDX, NNC_WORKQ_MOD_NUM, NNC_WORKQ_HASH_NUM.
  destruct (_ >? 0); intros H; injection H as <- <-; [by split_and!|]. split_and!; try done; try lia. split; try done. cbn [deq_bucket_idx set_wk_deq].
  change (32 - 1) with (Z.ones 5). rewrite Z.land_ones by lia. pose proof (Z.mod_pos_bound (u32 (deq_bucket_idx wk + 1)) (2 ^ 5)). lia.
Qed.

(** A request in a queue waits to be sent. *)
Lemma queued_waits n d t r v ch : req_ok n d t r v -> v_q ch v = true -> phase r = Pw /\ submit_queue r = ch /\ v_q (negb ch) v = false.
Proof.
  intros [] Hq. split; [|destruct ch; cbn [negb]; vsimp; split; [auto| |auto|]].
  - destruct (phase r); try done; exfalso; destruct ch; vsimp; destruct_and?; congruence.
  - destruct (v_cmq v); [|done]. rewrite rk_chq in rk_cmq by done. by specialize (rk_cmq eq_refl).
  - destruct (v_chq v); [|done]. rewrite rk_chq in rk_cmq by done. by specialize (rk_cmq Hq).
Qed.

(** The updates between two states of a request that stays in the pool. *)
Record alike (r r2 : NNMData_Req_t) : Prop := {
  al_pool : NNMDReq_check_feature r2 NNREQ_FEA_IN_REQPOOL = NNMDReq_check_feature r NNREQ_FEA_IN_REQPOOL;
  al_timer : NNMDReq_check_feature r2 NNREQ_FEA_SCHED_TIMER = NNMDReq_check_feature r NNREQ_FEA_SCHED_TIMER;
  al_queue : submit_queue r2 = submit_queue r;
  al_acquire : NNMDReq_check_acquire r2 = NNMDReq_check_acquire r;
  al_ref : nr_RefCnt r2 = nr_RefCnt r;
  al_id : nr_ReqID r2 = nr_ReqID r;
  al_op : nr_OPCode r2 = nr_OPCode r;
}.

Lemma queue_only r v ch : v_q (negb ch) v = false -> vs_q ch false (vs_req (Some r) v) = v_out r v.
Proof. unfold v_out. destruct v, ch; cbn; by intros ->. Qed.

Lemma req_taken n d t r v r2 :
  req_ok n d t r v -> phase r = Pw -> alike r r2 -> NNMDReq_check_feature r2 NNREQ_FEA_IN_WORKQ = false -> phase r2 = Ps -> req_ok n d t r2 (v_out r2 v).
Proof.
  intros [] Hp [] Hw Hp2. rewrite Hp in *. destruct rk_phase as (P1 & _ & P3 & P4 & P5). rewrite decide_False in rk_told by done.
  unfold v_out. split; unfold v_hold in *; vsimp; rewrite ?al_pool0, ?al_timer0, ?al_queue0, ?al_acquire0, ?al_ref0, ?al_id0, ?al_op0, ?Hp2; try done.
  intros b Hb. by destruct (rk_timer b Hb) as (? & ? & _).
Qed.

Lemma req_leave_ch n t r v : req_ok n 0 t r v -> v_ch v = true -> req_ok n 1 t r (vs_ch false v).
Proof. intros [] Hv. split; unfold v_hold in *; vsimp; rewrite ?Hv in *; cbn [Z.b2z] in *; try done; [lia|]. destruct (phase r); destruct_and?; try congruence; by split_and!. Qed.

Lemma req_leave_cm n t r v : req_ok n 0 t r v -> v_cm v = true -> req_ok n 1 t r (vs_cm false v).
Proof. intros [] Hv. split; unfold v_hold in *; vsimp; rewrite ?Hv in *; cbn [Z.b2z] in *; try done; [lia|]. destruct (phase r); destruct_and?; try congruence; by split_and!. Qed.

(** What sending changes. *)
Record sent_on (r r' : NNMData_Req_t) : Prop := {
  so_alike : alike r r';
  so_caller : nr_caller r' = nr_caller r;
  so_wq : NNMDReq_check_feature r' NNREQ_FEA_IN_WORKQ = NNMDReq_check_feature r NNREQ_FEA_IN_WORKQ;
  so_phase : phase r' = match phase r with Ps => Pr | x => x end;
}.

Lemma req_sent n t r v r1 :
  req_ok n 0 t r v -> v_cm v = true -> sent_on r r1 -> req_ok n 0 t (r_ref (-1) r1) (vs_cm false (vs_req (Some (r_ref (-1) r1)) (vs_req (Some r1) v))).
Proof.
  intros Hok Hv [[] Hcl Hwq Hp]. assert (v_ch v = false) as Hch.
  { pose proof (rk_cm _ _ _ _ _ Hok Hv). pose proof (rk_ch _ _ _ _ _ Hok). destruct (v_ch v); [|done]. specialize (H0 eq_refl). congruence. }
  apply req_leave_cm in Hok as []; [|done]. vsimp.
  split; unfold v_hold in *; vsimp; change (submit_queue (r_ref (-1) r1)) with (submit_queue r1); change (NNMDReq_check_acquire (r_ref (-1) r1)) with (NNMDReq_check_acquire r1);
    change (nr_RefCnt (r_ref (-1) r1)) with (nr_RefCnt r1 + -1); change (nr_ReqID (r_ref (-1) r1)) with (nr_ReqID r1); change (nr_OPCode (r_ref (-1) r1)) with (nr_OPCode r1);
    change (NNMDReq_check_feature (r_ref (-1) r1)) with (NNMDReq_check_feature r1); rewrite ?phase_ref, ?al_pool0, ?al_timer0, ?al_queue0, ?al_acquire0, ?al_ref0, ?al_id0, ?al_op0, ?Hwq, ?Hp; try done; try lia.
  - intros b Hb. destruct (rk_timer b Hb) as (? & ? & ?). split_and!; try done. by destruct (phase r).
  - by destruct (phase r).
  - destruct (phase r); destruct_and?; done || by split_and!.
Qed.

(** A worker holds requests that are being sent or were ended meanwhile. *)
Lemma held_phase n d t r v : req_ok n d t r v -> v_cm v = true \/ v_ch v = true -> phase r = Ps \/ phase r = Pe.
Proof. intros [] Hv. destruct Hv as [Hv|Hv], (phase r); auto; destruct_and?; by congruence || done. Qed.

(** Nothing points at a request that nobody refers to and somebody waits to free. *)
Lemma dead_request n t r v :
  req_ok n 0 t r v -> v_dying v = true -> nr_RefCnt r = 0 -> t = 1 /\ v = vs_dying true (vs_req (v_req v) v_none).
Proof.
  intros [] Hd Hr. rewrite Hd in rk_dying. assert (v_pool v = false) as Hp by (by destruct (v_pool v)).
  assert (phase r = Pe) as E by (destruct (phase r); try done; destruct_and?; congruence). rewrite E in *. destruct rk_phase as (_ & P2 & P3 & P4).
  split; [by rewrite decide_True in rk_told|]. assert (v_timer v = None) as Ht by (destruct (v_timer v) as [b|]; [|done]; by destruct (rk_timer b eq_refl) as (_ & _ & ?)).
  clear - rk_ref Hr Hd Hp P2 P3 P4 Ht. unfold v_hold in rk_ref. destruct v as [? ? ? ? ? ? [] [] []]; cbn in *; subst; try done; lia.
Qed.

(** ** The collected requests *)

Lemma view_perm R R' w q : R ≡ₚ R' -> view_of R w q = view_of R' w q.
Proof. intros H. unfold view_of. f_equal. apply bool_decide_ext. by rewrite H. Qed.

Lemma core_perm n m S R R' w : R ≡ₚ R' -> core n m S R w -> core n m S R' w.
Proof. intros H []. split; auto; [|by rewrite <- H]. intros p. by rewrite <- (view_perm _ _ _ _ H). Qed.

Lemma open_collect n m S R K p cl w r v t :
  opened n m S R K p cl w r v t -> p ∉ R -> opened n m S (p :: R) K p cl w r (vs_retry true v) t.
Proof.
  intros [] Hp. split; auto.
  - intros q Hq. specialize (op_others q Hq). unfold view_ok, view_of in *. cbn in *. rewrite (bool_decide_ext (q ∈ p :: R) (q ∈ R)); [done|].
    rewrite elem_of_cons. naive_solver.
  - rewrite <- op_view. unfold view_of, vs_retry. cbn. by rewrite (bool_decide_eq_true_2 (p ∈ p :: R)) by (by left).
  - by constructor.
Qed.

Lemma open_uncollect n m S R K p cl w r v t :
  opened n m S (p :: R) K p cl w r v t -> opened n m S R K p cl w r (vs_retry false v) t.
Proof.
  intros []. apply NoDup_cons in op_retry as [Hp Hn]. split; auto.
  - intros q Hq. specialize (op_others q Hq). unfold view_ok, view_of in *. cbn in *. rewrite (bool_decide_ext (q ∈ p :: R) (q ∈ R)) in op_others; [done|].
    rewrite elem_of_cons. naive_solver.
  - rewrite <- op_view. unfold view_of, vs_retry. cbn. by rewrite (bool_decide_eq_false_2 (p ∈ R)).
Qed.

Lemma req_collected n t r v r' x :
  req_ok n 0 t r v -> phase r = Pr -> alike (r_ref 1 r) r' -> NNMDReq_check_feature r' NNREQ_FEA_IN_WORKQ = NNMDReq_check_feature r NNREQ_FEA_IN_WORKQ ->
  phase r' = Pt -> req_ok n 0 t r' (vs_retry true (vs_req x v)).
Proof.
  intros [] Hp [] Hw Hp2. rewrite Hp in *. destruct rk_phase as (P1 & P2 & P3 & P4 & P5 & P6). rewrite decide_False in rk_told by done.
  split; unfold v_hold in *; vsimp; rewrite ?al_pool0, ?al_timer0, ?al_queue0, ?al_acquire0, ?al_ref0, ?al_id0, ?al_op0, ?Hp2, ?Hw, ?P6 in *; try done.
  - intros b Hb. by destruct (rk_timer b Hb) as (? & ? & _).
  - cbn [r_ref set_nr_ref nr_RefCnt Z.b2z] in *. lia.
Qed.

(** Operations that leave the pool alone. *)
Definition keeps_pool {A} (x : nn A) : Prop := forall w w' a, x w = Returns w' a -> NNMDReq_pool w' = NNMDReq_pool w.

Lemma keeps_upd p f : keeps_pool (upd_nr p f).
Proof. intros w w' a. unfold upd_nr. case_match; [|done]. intros E. by injection E as <-. Qed.

Lemma keeps_ret {A} (a : A) : keeps_pool (mret a).
Proof. intros w w' b H. by injection H as <-. Qed.

Lemma keeps_get p : keeps_pool (get_nr p).
Proof. intros w w' a. unfold get_nr. case_match; [|done]. intros E. by injection E as <-. Qed.

Lemma keeps_bind {A B} (x : nn A) (k : A -> nn B) : keeps_pool x -> (forall a, keeps_pool (k a)) -> keeps_pool (x ≫= k).
Proof.
  intros Hx Hk w w' b. unfold mbind, thread_bind. destruct (x w) as [w1 a| |] eqn:E; [|done..]. intros H. rewrite (Hk _ _ _ _ H). by eapply Hx.
Qed.

Lemma twp_pool {A} (x : nn A) P w : keeps_pool x -> twp x P w -> twp x (fun a w' => P a w' /\ NNMDReq_pool w' = NNMDReq_pool w) w.
Proof. intros Hk. unfold twp. destruct (x w) as [w' a| |] eqn:E; [|done..]. intros HP. split; [done|]. by eapply Hk. Qed.

#[local] Hint Resolve keeps_upd keeps_ret keeps_get keeps_bind : core.

Section handlers.
Context (n m : Z) (Hm : m + 1 < 2 ^ 31) (Hn : n + 8 < 2 ^ 31) (S : gset Z).
Implicit Types (w : nn_world) (r : NNMData_Req_t) (v : view) (t : Z).
Abbreviation opened := (opened n m S).

(** The invariant, with what the threads are doing. *)
Definition settled (K : misc_t) (w : nn_world) : Prop := nn_ok n m S w /\ misc w = K.

Lemma settle rt c h w : core n m S rt w -> misc w = (rt, ∅, c, h) -> settled (rt, ∅, c, h) w.
Proof. intros Hc HK. split; [|done]. injection HK as K1 K2 K3 K4. split; [by rewrite K1|done]. Qed.

Lemma find_pool rt c h w id :
  settled (rt, ∅, c, h) w ->
  twp (NNMDReq_find_ReqPool id) (fun q w' => q = 0 /\ settled (rt, ∅, c, h) w' \/
    q <> 0 /\ exists r v, opened rt (rt, ∅, c, h) q (nr_caller r) w' r v 0 /\ ending n r v /\ nr_ReqID r = id) w.
Proof.
  intros [[Hc HL] HK]. injection HK as K1 K2 K3 K4. rewrite K1 in Hc. set (i := id mod NNREQ_HBUCKET_SIZE).
  assert (0 <= i < NNREQ_HBUCKET_SIZE) as Hi by (apply Z.mod_pos_bound; done).
  unfold NNMDReq_find_ReqPool. apply twp_bind. unfold twp at 1, NNMDReqPool_acquire_plock. fold i. rewrite HL, bool_decide_eq_false_2 by set_solver.
  set (w1 := set_nn_plock ({[i]} ∪ ∅) w). assert (core n m S rt w1) as Hc1 by (by eapply core_silent).
  assert (misc w1 = (rt, {[i]} ∪ ∅, c, h)) as HK1 by (unfold misc; cbn; congruence).
  destruct (lookup_lt_is_Some_2 (NNMDReq_pool w1) (Z.to_nat i)) as [l Hl].
  { rewrite (tb_len _ _ _ _ (sh_pool _ _ (co_shape _ _ _ _ _ Hc1))). unfold NNREQ_HBUCKET_SIZE in Hi. lia. }
  assert (bk_get i (NNMDReq_pool w1) = Some l) as Hg by (unfold bk_get; by rewrite (proj2 (Z.leb_le _ _)) by lia).
  apply twp_bind. unfold NNMDReqPool_findReq_nolock. apply twp_bind. unfold twp at 1, nn_opt. rewrite Hg.
  eapply twp_mono; [apply find_by_id_ok; intros q Hq; eapply core_live; [exact Hc1|]; apply elem_concat; eauto|]. cbn beta.
  intros q w' [-> Hq]. destruct (decide (q = 0)) as [->|Hq0].
  - rewrite Z.eqb_refl. apply twp_bind, twp_ret. apply twp_bind. unfold twp at 1, NNMDReqPool_rel_plock.
    rewrite (proj2 (Z.leb_le _ _)), (proj2 (Z.ltb_lt _ _)) by lia. cbn [andb]. apply twp_ret. left. split; [done|].
    apply settle; [by eapply core_silent|]. unfold misc; cbn. rewrite K1, K3, K4. do 3 f_equal. set_solver.
  - destruct Hq as [|(_ & r & Hr & Hid)]; [done|]. rewrite (proj2 (Z.eqb_neq _ _)) by done.
    destruct (open_core _ _ _ _ _ _ _ Hc1 Hr) as [Ho Hok]. rewrite HK1 in Ho. set (v := view_of rt w1 q) in *. set (t := told (nr_caller r) (nn_calls w1)) in *. clearbody v t.
    assert (phase r <> Px) as Hpx by (intros E; pose proof (rk_phase _ _ _ _ _ Hok) as Hp; by rewrite E in Hp).
    apply twp_bind. ostep open_find_state as (r1 & s & -> & H1 & H1'); [exact Ho|exact Hpx|]. set (r1 := set_nr_stat s r) in *.
    destruct H1' as [(E & E1 & ->)|(E & E1 & ->)]; cbn [Z.eqb negb].
    + pose proof (rk_phase _ _ _ _ _ Hok) as Hp. rewrite E in Hp. destruct Hp as (Hv & Hv1 & Hv2 & Hv3). pose proof (rk_pool _ _ _ _ _ Hok) as Hf. rewrite Hv in Hf.
      ostep open_test_clear as [-> H2]; [exact H1|]. change (NNMDReq_check_feature r1 NNREQ_FEA_IN_REQPOOL) with (NNMDReq_check_feature r NNREQ_FEA_IN_REQPOOL). rewrite Hf.
      ostep open_pool_del as H3; [exact H2|done|]. ostep open_ref as H4; [exact H3|in_range Hn Hok|]. apply twp_ret.
      ostep open_unlock as H5; [exact H4|set_solver|done|]. apply twp_ret. right. split; [done|].
      pose proof (req_ok_ref _ _ _ 1 _ _ Hok) as Hok1. pose proof (rk_wq _ _ _ _ _ Hok) as Hw. rewrite Hv1, Hv2 in Hw.
      set (r2 := r_ref 1 (r_clear NNREQ_FEA_IN_REQPOOL r1)) in *.
      destruct (req_ending n t (r_ref 1 r) (vs_req (Some (r_ref 1 r)) v) r2 (vs_pool false (vs_req (Some r2) v))) as [He ->]; 
        [exact Hok1|by rewrite phase_ref, E|by rewrite phase_ref, E|exact E1|clear - Hw Hv1 Hv2; subst r2 r1; by rsimp..|].
      exists r2, (vs_pool false (vs_req (Some r2) v)). done.
    + rewrite E1 in H1. apply twp_ret. ostep open_unlock as H5; [exact H1|set_solver|done|]. apply twp_ret. left. split; [done|].
      apply settle; [|apply H5]. eapply close_now; [exact H5|done|]. by apply req_ok_req.
Qed.

Lemma ack_ok rt c h w now id res :
  settled (rt, ∅, c, h) w -> twp (NNAckProc_acquireMDReq now id res) (fun _ w' => settled (rt, ∅, c, h) w') w.
Proof.
  intros Hw. unfold NNAckProc_acquireMDReq. ostep find_pool as [[-> H]|(Hq & r & v & Ho & He & _)]; [exact Hw|by apply twp_ret|].
  rewrite (proj2 (Z.eqb_neq _ _)) by done. set (cl := nr_caller r) in *.
  ostep open_cancel as H1; [exact Ho|apply He|]. apply ending_cancel in He.
  apply twp_bind. eapply twp_mono; [apply (open_upd _ _ _ _ _ _ _ _ _ _ _ _ H1); by right|]. cbn beta. intros _ w2 [_ H2]. apply (ending_rcv _ _ _ now (Some (set_nr_rcv now (r_clear NNREQ_FEA_SCHED_TIMER r)))) in He.
  set (r2 := set_nr_rcv now (r_clear NNREQ_FEA_SCHED_TIMER r)) in *. set (v2 := vs_req (Some r2) _) in *.
  assert (nr_caller r2 = cl) as Hcl by done. assert (v_timer v2 = None) as Ht by done. clearbody r2 v2.
  apply twp_bind, twp_modify. set (w3 := set_nn_rcv _ _ w2). assert (opened rt (rt, ∅, c, h) a cl w3 r2 v2 0) as H3 by (by apply (open_silent _ _ _ _ _ _ _ _ _ _ _ _ H2)). clearbody w3.
  apply twp_bind, twp_gets. ostep open_fc as [Er H4]; [exact H3|apply dec_slots_same|]. oget r2. ostep (open_call n m S) as [Er1 H5]; [exact H4|done|]. cbn [is_end] in H5.
  apply twp_bind. eapply (twp_mono _ (fun x w' => opened rt (rt, ∅, c, h) a cl w' r2 v2 0)).
  - destruct res as [| |x y ovw fc]; [by apply twp_ret..|]. ostep (open_call n m S) as [Er2 H6]; [exact H5|done|].
    ostep open_fc as [Er3 H7]; [exact H6|intros [A B _]; apply upd_item_same; by rewrite <- Er, <- Er1, <- Er2|].
    ostep (open_call n m S) as [Er4 H8]; [exact H7|done|]. by apply twp_ret.
  - intros x w9 H6. olast end_req as [H7 H8]; [exact H6|done|exact He|done|]. by apply settle.
Qed.

Lemma ack_report_ok rt c h w id :
  settled (rt, ∅, c, h) w -> twp (NNAckProc_reportMDReq id) (fun _ w' => settled (rt, ∅, c, h) w') w.
Proof.
  intros Hw. unfold NNAckProc_reportMDReq. ostep find_pool as [[-> H]|(Hq & r & v & Ho & He & _)]; [exact Hw|by apply twp_ret|].
  rewrite (proj2 (Z.eqb_neq _ _)) by done. ostep open_cancel as H1; [exact Ho|apply He|]. apply ending_cancel in He.
  apply twp_bind, twp_gets. ostep open_fc as [Er H2]; [exact H1|apply dec_slots_same|].
  olast end_req as [H3 H4]; [exact H2|done|exact He|done|]. by apply settle.
Qed.

Lemma timer_ok rt c h w q d b :
  settled (rt, ∅, c, h) w -> nn_timers w !! q = Some (d, b) ->
  (forall r, nn_reqs w !! q = Some r -> NNMDReq_check_acquire r = true -> nr_ReqID r < NNREQ_HBUCKET_SIZE) ->
  twp (timer_fires q) (fun _ w' => settled (rt, ∅, c, h) w') w.
Proof.
  intros [[Hc HL] HK] Hq Hid. assert (nn_retry w = rt) as K1 by (by injection HK). rewrite K1 in Hc.
  unfold timer_fires. apply twp_bind. unfold twp at 1, nn_opt. rewrite Hq. apply twp_bind, twp_modify.
  destruct (nn_reqs w !! q) as [r|] eqn:Hr.
  2: { pose proof (f_equal v_timer (core_dead _ _ _ _ _ _ Hc Hr)) as Hv. cbn in Hv. by rewrite Hq in Hv. }
  destruct (open_core _ _ _ _ _ _ _ Hc Hr) as [Ho Hok]. rewrite HK in Ho. set (v := view_of rt w q) in *.
  assert (v_timer v = Some b) as Hv by (unfold v; cbn; by rewrite Hq). set (t := told (nr_caller r) (nn_calls w)) in *. clearbody v t.
  destruct (rk_timer _ _ _ _ _ Hok b Hv) as (-> & _ & Hne).
  assert (opened rt (rt, ∅, c, h) q (nr_caller r) (set_nn_timers (delete q (nn_timers w)) w) r (vs_timer None v) t) as H1.
  { apply open_timers with (2 := fun x Hx => lookup_delete_ne _ _ _ (not_eq_sym Hx)); [done|by rewrite lookup_delete_eq]. }
  assert (req_ok n 0 t r (vs_timer None v)) as Hok1 by (destruct Hok; split; vsimp; done). cbn [snd].
  destruct (NNMDReq_check_acquire r) eqn:Ha.
  - olast acquire_timeout as [H2 H3]; [exact H1|done|exact Hok1|exact Ha|exact Hne|done|by apply Hid|]. by apply settle.
  - ostep open_ref as H2; [exact H1|in_range Hn Hok1|]. pose proof (req_ok_ref _ _ _ 1 _ _ Hok1) as Hok2. olast open_deref as H3; [exact H2|in_range Hn Hok2|].
    apply (req_ok_ref _ _ _ (-1)) in Hok2. destruct (close_now _ _ _ _ _ _ _ _ _ _ _ H3 eq_refl Hok2). by apply settle.
Qed.

Lemma peek_ok rt c h w ch :
  settled (rt, ∅, c, h) w ->
  twp (_nnc_peek_MDReq ch) (fun q w' => q = 0 /\ settled (rt, ∅, c, h) w' \/
    q <> 0 /\ exists r v t, opened rt (rt, ∅, c, h) q (nr_caller r) w' r v t /\ req_ok n 1 t r v /\ phase r = Ps /\
      v_cm v = false /\ v_ch v = false /\ submit_queue r = ch) w.
Proof.
  intros [[Hc HL] HK]. assert (nn_retry w = rt) as K1 by (by injection HK). rewrite K1 in Hc.
  unfold _nnc_peek_MDReq. apply twp_bind, twp_gets. destruct (NNCWker_peekReq_gain_lock (get_wk ch w)) as [wk i] eqn:E.
  pose proof (co_shape _ _ _ _ _ Hc) as Hs. destruct (peek_lock _ _ _ _ (queue_of m ch w Hs) E) as (Hwk & Hpool & Hi).
  apply twp_bind, twp_modify. set (w1 := set_wk ch wk w).
  assert (core n m S rt w1) as Hc1.
  { apply (core_frame _ _ _ _ w); [done|unfold w1, view_of; intros q; destruct ch; cbn in *; by rewrite Hpool|by destruct ch|].
    destruct Hs; unfold w1; destruct ch; split; cbn in *; try done; by eapply fc_live_frame. }
  assert (misc w1 = (rt, ∅, c, h)) as HK1 by (rewrite <- HK; unfold w1; by destruct ch). clearbody w1.
  pose proof (queue_of m ch w1 (co_shape _ _ _ _ _ Hc1)) as Hq. destruct (lookup_lt_is_Some_2 (wker_ReqPool (get_wk ch w1)) (Z.to_nat i)) as [l Hl].
  { rewrite (tb_len _ _ _ _ (qo_table _ _ Hq)). lia. }
  assert (bk_get i (wker_ReqPool (get_wk ch w1)) = Some l) as Hg by (unfold bk_get; by rewrite (proj2 (Z.leb_le _ _)) by lia).
  apply twp_bind. unfold twp at 1, nn_opt, NNCWker_peekReq_workerQ_nolock. rewrite Hg. cbn [mbind option_bind].
  destruct l as [|p l]; [rewrite Z.eqb_refl; apply twp_ret; left; split; [done|by apply settle]|].
  assert (p ∈ concat (wker_ReqPool (get_wk ch w1))) as Hp by (apply elem_concat; exists i, (p :: l); split; [done|by left]).
  destruct (core_queued _ _ _ _ _ _ _ Hc1 Hp) as [r Hr].
  assert (p <> 0) as Hp0 by (intros ->; by rewrite (sh_null _ _ (co_shape _ _ _ _ _ Hc1)) in Hr). rewrite (proj2 (Z.eqb_neq _ _)) by done.
  pose proof (tb_key _ _ _ _ (qo_table _ _ Hq) i (p :: l) p r Hg ltac:(by left) Hr) as Hk.
  destruct (open_core _ _ _ _ _ _ _ Hc1 Hr) as [Ho Hok]. rewrite HK1 in Ho. set (v := view_of rt w1 p) in *.
  assert (v_q ch v = true) as Hv by (unfold v; destruct ch; by apply bool_decide_eq_true). set (t := told (nr_caller r) (nn_calls w1)) in *. clearbody v t.
  destruct (queued_waits _ _ _ _ _ _ Hok Hv) as (E1 & E2 & E3). pose proof (rk_phase _ _ _ _ _ Hok) as Hph. rewrite E1 in Hph.
  ostep open_ref as H1; [exact Ho|in_range Hn Hok|].
  ostep open_peek_state as (r1 & s & -> & H2 & H2'); [exact H1|by rewrite phase_ref, E1|]. rewrite phase_ref in H2'.
  destruct H2' as [(_ & E4 & ->)|(E4 & _)]; [|done]. cbn [Z.eqb negb]. set (r1 := set_nr_stat s (r_ref 1 r)) in *.
  ostep open_test_clear as [-> H3]; [exact H2|].
  assert (NNMDReq_check_feature r1 NNREQ_FEA_IN_WORKQ = true) as -> by (change (NNMDReq_check_feature r NNREQ_FEA_IN_WORKQ = true); rewrite (rk_wq _ _ _ _ _ Hok); apply Hph).
  cbn [negb]. rewrite Hk. change (queue_key r) with (queue_key (r_clear NNREQ_FEA_IN_WORKQ r1)). ostep (open_q_del n m Hm S rt p) as H4; [exact H3|by destruct ch|]. apply twp_ret. right. split; [done|].
  set (r2 := r_clear NNREQ_FEA_IN_WORKQ r1) in *. exists r2, (v_out r2 v), t.
  assert (vs_q ch false (vs_req (Some r2) (vs_req (Some r1) (vs_req (Some (r_ref 1 r)) v))) = v_out r2 v) as Ev by (by apply (queue_only r2 v)). rewrite Ev in H4.
  split; [exact H4|]. destruct Hph as (_ & _ & P3 & P4 & _). assert (alike (r_ref 1 r) r2) as Hal by (subst r2 r1; clear; split; by rsimp).
  split; [|split_and!; [done|by destruct ch|by destruct ch|by rewrite (al_queue _ _ Hal)]].
  apply (req_ok_ref _ _ _ 1) in Hok. apply (req_taken _ _ _ _ _ r2 Hok E1 Hal); [subst r2 r1; clear; by rsimp|done].
Qed.

(** The worker for cached metadata takes a request. *)
Lemma ch_peek_ok rt c w : settled (rt, ∅, c, None) w -> twp cachehit_peek (fun _ w' => exists h, settled (rt, ∅, c, h) w') w.
Proof.
  intros Hw. unfold cachehit_peek. ostep peek_ok as [[-> H]|(Hq & r & v & t & Ho & Hok & Hp & Hc & Hh & Hs)]; [exact Hw| |].
  - rewrite Z.eqb_refl. apply twp_modify. exists None. destruct H as [[H1 H2] HK]. injection HK as K1 K2 K3 K4. rewrite K1 in H1. apply settle; [|unfold misc; cbn; congruence].
    apply (core_silent _ _ _ _ _ _ H1); try done. intros q. unfold view_of. cbn. by rewrite K4.
  - rewrite (proj2 (Z.eqb_neq _ _)) by done. apply twp_modify. exists (Some a).
    pose proof (open_ch _ _ _ _ _ _ _ _ _ _ _ _ _ _ (Some a) Ho ltac:(by left) ltac:(by right)) as H1. rewrite bool_decide_eq_true_2 in H1 by done.
    destruct (close_now _ _ _ _ _ _ _ _ _ _ _ H1 eq_refl) as [H2 H3]; [|by apply settle].
    clear - Hok Hp Hc Hh Hs. destruct Hok. split; unfold v_hold in *; vsimp; rewrite ?Hc, ?Hh in *; cbn [Z.b2z] in *; try done; [lia|]. by rewrite Hp in *.
Qed.

(** The sender takes a request. *)
Lemma cm_peek_ok rt h w : settled (rt, ∅, Cm_idle, h) w -> twp NNClient_send_MDReq_peek (fun _ w' => exists c, settled (rt, ∅, c, h) w') w.
Proof.
  intros Hw. unfold NNClient_send_MDReq_peek. ostep peek_ok as [[-> H]|(Hq & r & v & t & Ho & Hok & Hp & Hc & Hh & Hs)]; [exact Hw|by rewrite Z.eqb_refl; apply twp_ret; eexists|].
  rewrite (proj2 (Z.eqb_neq _ _)) by done. oget r. destruct (rk_id _ _ _ _ _ Hok) as [_ Hop]. rewrite !(proj2 (Z.leb_le _ _)) by lia. cbn [andb].
  apply twp_modify. exists (Cm_enter a).
  pose proof (open_cm _ _ _ _ _ _ _ _ _ _ _ _ _ _ (Cm_enter a) Ho ltac:(by left) ltac:(by right)) as H1. rewrite bool_decide_eq_true_2 in H1 by done.
  destruct (close_now _ _ _ _ _ _ _ _ _ _ _ H1 eq_refl) as [H2 H3]; [|by apply settle].
  clear - Hok Hp Hc Hh Hs. destruct Hok. split; unfold v_hold in *; vsimp; rewrite ?Hc, ?Hh in *; cbn [Z.b2z] in *; try done; [lia|]. by rewrite Hp in *.
Qed.

Lemma ch_end_ok rt c w q : settled (rt, ∅, c, Some q) w -> twp (cachehit_end q) (fun _ w' => settled (rt, ∅, c, None) w') w.
Proof.
  intros [[Hc HL] HK]. assert (nn_retry w = rt /\ nn_ch w = Some q) as [K1 K4] by (by injection HK). rewrite K1 in Hc.
  destruct (nn_reqs w !! q) as [r|] eqn:Hr.
  2: { pose proof (f_equal v_ch (core_dead _ _ _ _ _ _ Hc Hr)) as Hv. cbn in Hv. by apply bool_decide_eq_false in Hv. }
  destruct (open_core _ _ _ _ _ _ _ Hc Hr) as [Ho Hok]. rewrite HK in Ho. set (v := view_of rt w q) in *.
  assert (v_ch v = true) as Hv by (by apply bool_decide_eq_true). set (t := told (nr_caller r) (nn_calls w)) in *. clearbody v t.
  pose proof (open_ch _ _ _ _ _ _ _ _ _ _ _ _ _ _ None Ho ltac:(by right) ltac:(by left)) as H1. rewrite bool_decide_eq_false_2 in H1 by done.
  pose proof (rk_ch _ _ _ _ _ Hok Hv) as Hsq. assert (NNMDReq_check_acquire r = true) as Ha by (unfold submit_queue in Hsq; by apply andb_true_iff in Hsq as [? _]).
  pose proof (held_phase _ _ _ _ _ Hok ltac:(by right)) as Hph. pose proof (req_leave_ch _ _ _ _ Hok Hv) as Hok1.
  unfold cachehit_end. apply twp_bind, twp_modify. ostep open_event as [-> H2]; [exact H1|].
  pose proof (get_event_phase r NNREQ_E_SendDone Ha) as He.
  destruct Hph as [Hph|Hph]; rewrite Hph in He; specialize (He ltac:(done)); cbn [next_phase] in He; destruct He as [He ->].
  - pose proof (rk_phase _ _ _ _ _ Hok) as Hp. rewrite Hph in Hp. destruct Hp as (P1 & P2 & P3 & P4).
    pose proof (rk_pool _ _ _ _ _ Hok) as Hf. rewrite P1 in Hf. pose proof (rk_wq _ _ _ _ _ Hok) as Hw. rewrite P2, P3 in Hw.
    ostep rm_pool as (-> & E1 & H3); [exact H2|exact Ha|exact He|exact Hf|exact P1|]. cbn [Z.eqb negb].
    set (r1 := r_clear NNREQ_FEA_IN_REQPOOL (r_event NNREQ_E_FindReqOK (r_event NNREQ_E_SendDone r))) in *.
    destruct (req_ending n t r (vs_ch false v) r1 (vs_pool false (vs_req (Some r1) (vs_ch false v)))) as [Hend ->];
      [exact Hok1|by rewrite Hph|by rewrite Hph|exact E1|clear - Hw P2 P3; subst r1; by rsimp..|].
    ostep open_cancel as H4; [exact H3|apply Hend|]. apply ending_cancel in Hend.
    olast end_req as [H5 H6]; [exact H4|done|exact Hend|done|]. by apply settle.
  - rewrite He in H2. olast open_deref as H3; [exact H2|in_range Hn Hok1|]. apply (req_ok_ref _ _ _ (-1)) in Hok1.
    destruct (close_now _ _ _ _ _ _ _ _ _ _ _ H3 eq_refl Hok1). by apply settle.
Qed.

Lemma open_held rt c h w q :
  settled (rt, ∅, c, h) w -> cm_req c = Some q ->
  exists r v t, opened rt (rt, ∅, c, h) q (nr_caller r) w r v t /\ req_ok n 0 t r v /\ v_cm v = true.
Proof.
  intros [[Hc HL] HK] Hq. assert (nn_retry w = rt /\ nn_cm w = c) as [K1 K3] by (by injection HK). rewrite K1 in Hc.
  destruct (nn_reqs w !! q) as [r|] eqn:Hr.
  2: { pose proof (f_equal v_cm (core_dead _ _ _ _ _ _ Hc Hr)) as Hv. cbn in Hv. apply bool_decide_eq_false in Hv. congruence. }
  destruct (open_core _ _ _ _ _ _ _ Hc Hr) as [Ho Hok]. rewrite HK in Ho. eexists r, _, _. split; [exact Ho|]. split; [exact Hok|].
  apply bool_decide_eq_true. congruence.
Qed.

Lemma open_fctime rt K q cl w r v t jm now :
  opened rt K q cl w r v t -> twp (_nnc_sendMDReq_updatefctime jm now) (fun _ w' => opened rt K q cl w' r v t) w.
Proof.
  intros Ho. unfold _nnc_sendMDReq_updatefctime. apply twp_bind, twp_gets. apply twp_bind, twp_gets.
  destruct (time_after64 _ _); [by apply twp_ret|]. destruct (_ >=? _); [|by apply twp_ret]. apply twp_bind, twp_modify.
  set (w1 := set_nn_start now w). assert (opened rt K q cl w1 r v t) as H1 by (by apply (open_silent _ _ _ _ _ _ _ _ _ _ _ _ Ho)). clearbody w1.
  olast open_fc as [_ H2]; [exact H1|intros [A B C]; by apply upd_all_same|exact H2].
Qed.

Lemma cm_move rt c c' h q cl w r v t :
  opened rt (rt, ∅, c, h) q cl w r v t -> nr_caller r = cl -> req_ok n 0 t r v -> v_cm v = true -> cm_req c = Some q -> cm_req c' = Some q ->
  settled (rt, ∅, c', h) (set_nn_cm c' w).
Proof.
  intros Ho Hc Hok Hv H1 H2. pose proof (open_cm _ _ _ _ _ _ _ _ _ _ _ _ _ _ c' Ho ltac:(by right) ltac:(by right)) as H3. rewrite bool_decide_eq_true_2 in H3 by done.
  destruct (close_now _ _ _ _ _ _ _ _ _ _ _ H3 Hc) as [H4 H5]; [|by apply settle]. assert (vs_cm true v = v) as -> by (destruct v; cbn in *; by subst). done.
Qed.

Lemma fc_loop_ok rt c h q cl w r v t jm now :
  opened rt (rt, ∅, c, h) q cl w r v t -> nr_caller r = cl -> req_ok n 0 t r v -> v_cm v = true -> cm_req c = Some q ->
  twp (fc_loop jm now q) (fun _ w' => exists c, settled (rt, ∅, c, h) w') w.
Proof.
  intros Ho Hc Hok Hv Hq. unfold fc_loop, _nnc_sendMDReq_fccheck. apply twp_bind. unfold twp at 1.
  pose proof (op_shape _ _ _ _ _ _ _ _ _ _ _ Ho) as Hs. destruct (trigger_same jm now 1 (s64 (nn_fc_start_t w)) w (sh_fc _ _ Hs)) as (v1 & x & E & Hsame).
  rewrite E. set (code := if x =? FC_RES_CONNECTION_LOST then _ else _). clearbody code. apply twp_modify.
  assert (opened rt (rt, ∅, c, h) q cl (set_nn_fc v1 w) r v t) as H1.
  { apply (open_frame _ _ _ _ _ _ _ _ _ _ _ _ _ Ho); [done|done| |apply Ho]. eapply shape_frame; [exact Hs|done..|]. apply fc_same_live; [apply Hs|done]. }
  eexists. eapply cm_move; [exact H1|done|exact Hok|done|done|]. by destruct code.1.
Qed.

Lemma cm_enter_ok rt h w q jm enable now :
  settled (rt, ∅, Cm_enter q, h) w -> twp (fc_enter jm enable now q) (fun _ w' => exists c, settled (rt, ∅, c, h) w') w.
Proof.
  intros Hw. destruct (open_held _ _ _ _ q Hw eq_refl) as (r & v & t & Ho & Hok & Hv). unfold fc_enter.
  ostep open_fctime as H1; [exact Ho|]. oget r. destruct (_ || _); [|by eapply fc_loop_ok].
  apply twp_bind, twp_gets. ostep open_fc as [_ H2]; [exact H1|apply no_fc_same|]. apply twp_modify. eexists. by eapply cm_move.
Qed.

(** A request that is rejected after a wait keeps the reference of the sender. *)
Lemma cm_wake_ok rt h w q jm enable now :
  settled (rt, ∅, Cm_wait q, h) w -> twp (fc_wake jm enable now q) (fun _ w' => exists c, nn_ok (n + 1) m S w' /\ misc w' = (rt, ∅, c, h)) w.
Proof.
  intros Hw. destruct (open_held _ _ _ _ q Hw eq_refl) as (r & v & t & Ho & Hok & Hv). unfold fc_wake.
  assert (forall c w', settled (rt, ∅, c, h) w' -> nn_ok (n + 1) m S w' /\ misc w' = (rt, ∅, c, h)) as Hmono.
  { intros c w' [[H1 H2] H3]. split; [|done]. split; [|done]. by eapply core_mono; [| |exact H1]; lia. }
  ostep open_fctime as H1; [exact Ho|]. oget r. destruct (NNMDgetReq_get_state (nnReq_stat r)).
  4: { destruct enable; cbn [negb].
    - olast fc_loop_ok as [c Hc]; [exact H1|done|exact Hok|done|done|]. eauto.
    - apply twp_modify. eexists. apply Hmono. by eapply cm_move. }
  all: apply twp_modify; exists Cm_idle; pose proof (open_cm _ _ _ _ _ _ _ _ _ _ _ _ _ _ Cm_idle H1 ltac:(by right) ltac:(by left)) as H2; rewrite bool_decide_eq_false_2 in H2 by done.
  all: assert (core (n + 1) m S rt (set_nn_cm Cm_idle w')) as Hcore
    by (eapply (close_core n); [exact H2|lia|done|]; pose proof (req_leave_cm _ _ _ _ Hok Hv) as []; split; try done; lia).
  all: pose proof (op_misc _ _ _ _ _ _ _ _ _ _ _ H2) as HK; split; [|exact HK]; injection HK as K1 K2 K3; split; [by change (core (n + 1) m S (nn_retry w') (set_nn_cm Cm_idle w')); rewrite K1|done].
Qed.

Lemma send_acquire_ok rt K q cl w r v t now conn sent :
  opened rt K q cl w r v t -> NNMDReq_check_acquire r = true -> phase r = Ps \/ phase r = Pe ->
  twp (_nnc_send_acquireMDReq now conn sent q) (fun _ w' => exists r', opened rt K q cl w' r' (vs_req (Some r') v) t /\ sent_on r r') w.
Proof.
  intros Ho Ha Hp. unfold _nnc_send_acquireMDReq. oget r. ostep open_event as [-> H1]; [exact Ho|].
  pose proof (get_event_phase r NNREQ_E_SendDone Ha) as He. destruct Hp as [Hp|Hp]; rewrite Hp in He; destruct (He ltac:(done)) as [E1 ->].
  - assert (sent_on r (r_event NNREQ_E_SendDone r)) as Hs by (split; [by split|done|done|by rewrite Hp]). set (r1 := r_event NNREQ_E_SendDone r) in *.
    apply twp_bind, twp_modify. set (w1 := set_nn_noResp _ _). assert (opened rt K q cl w1 r1 (vs_req (Some r1) v) t) as H2 by (by apply (open_silent _ _ _ _ _ _ _ _ _ _ _ _ H1)). clearbody w1.
    destruct conn; cbn [negb]; [|apply twp_ret; eauto]. apply twp_bind. eapply twp_mono; [apply (open_upd _ _ _ _ _ _ _ _ _ _ _ _ H2); by right|]. cbn beta. intros _ w2 [_ H3].
    ostep (open_call n m S) as [_ H4]; [exact H3|done|]. cbn [is_end] in H4. rewrite Z.add_0_r in H4.
    assert (sent_on r (set_nr_send now r1)) as Hs2 by (destruct Hs as [[] ? ? ?]; by split).
    destruct (negb _); [|apply twp_ret; eauto]. olast (open_call n m S) as [_ H5]; [exact H4|done|]. cbn [is_end] in H5. rewrite Z.add_0_r in H5. eauto.
  - apply twp_ret. rewrite E1 in H1. exists r. split; [done|]. split; [by split|done|done|by rewrite Hp].
Qed.

Lemma send_report_ok rt K q cl w r v t :
  opened rt K q cl w r v t -> NNMDReq_check_acquire r = false -> phase r = Ps \/ phase r = Pe ->
  twp (_nnc_send_reportMDReq q) (fun _ w' => exists r', opened rt K q cl w' r' (vs_req (Some r') v) t /\ sent_on r r') w.
Proof.
  intros Ho Ha Hp. unfold _nnc_send_reportMDReq. oget r. ostep open_ci_event as [-> H1]; [exact Ho|].
  pose proof (ci_event_phase r NNCIREQ_E_SendDone Ha) as He. destruct Hp as [Hp|Hp]; rewrite Hp in He; destruct (He ltac:(done)) as [E1 ->].
  - assert (sent_on r (r_cievent NNCIREQ_E_SendDone r)) as Hs by (split; [by split|done|done|by rewrite Hp]).
    destruct (_ || _); [|apply twp_ret; eauto]. olast (open_call n m S) as [_ H2]; [exact H1|done|]. cbn [is_end] in H2. rewrite Z.add_0_r in H2. eauto.
  - apply twp_ret. rewrite E1 in H1. exists r. split; [done|]. split; [by split|done|done|by rewrite Hp].
Qed.

Lemma cm_send_ok rt h w q now conn sent :
  settled (rt, ∅, Cm_send q, h) w -> twp (NNClient_send_MDReq_send now conn sent q) (fun _ w' => settled (rt, ∅, Cm_idle, h) w') w.
Proof.
  intros Hw. destruct (open_held _ _ _ _ q Hw eq_refl) as (r & v & t & Ho & Hok & Hv). unfold NNClient_send_MDReq_send. oget r.
  pose proof (held_phase _ _ _ _ _ Hok ltac:(by left)) as Hph.
  apply twp_bind. eapply (twp_mono _ (fun _ w' => exists r', opened rt (rt, ∅, Cm_send q, h) q (nr_caller r) w' r' (vs_req (Some r') v) t /\ sent_on r r')).
  - destruct (nr_OPCode r <=? REQ_NN_QUERY_MDATA_WRITEIO) eqn:E; zbool; [eapply send_acquire_ok|eapply send_report_ok]; try done;
      unfold NNMDReq_check_acquire, REQ_NN_QUERY_MDATA_WRITEIO, REQ_NN_REPORT_READIO_RESULT in *; [apply Z.ltb_lt|apply Z.ltb_ge]; lia.
  - intros _ w1 (r1 & H1 & Hs). pose proof (req_sent _ _ _ _ r1 Hok Hv Hs) as Hok2. pose proof (so_caller _ _ Hs) as Hcl. pose proof (al_ref _ _ (so_alike _ _ Hs)) as Hrf.
    ostep open_deref as H2; [exact H1|rewrite Hrf; in_range Hn Hok|]. apply twp_modify.
    pose proof (open_cm _ _ _ _ _ _ _ _ _ _ _ _ _ _ Cm_idle H2 ltac:(by right) ltac:(by left)) as H3; rewrite bool_decide_eq_false_2 in H3 by done.
    destruct (close_now _ _ _ _ _ _ _ _ _ _ _ H3 Hcl) as [H4 H5]; [|by apply settle]. exact Hok2.
Qed.

Lemma free_ok rt c h w q : settled (rt, ∅, c, h) w -> q ∈ nn_dying w -> twp (free_turn q) (fun _ w' => settled (rt, ∅, c, h) w') w.
Proof.
  intros Hw Hq. pose proof Hw as [[Hc HL] HK]. injection HK as K1 K2 K3 K4. rewrite K1 in Hc.
  destruct (nn_reqs w !! q) as [r|] eqn:Hr.
  2: { pose proof (f_equal v_dying (core_dead _ _ _ _ _ _ Hc Hr)) as Hv. cbn in Hv. by apply bool_decide_eq_false in Hv. }
  apply twp_bind, (twp_get_nr _ r); [done|]. destruct (nr_RefCnt r =? 0) eqn:E; zbool; [|by apply twp_ret]. apply twp_bind, twp_modify, twp_ret.
  destruct (open_core _ _ _ _ _ _ _ Hc Hr) as [_ Hok]. destruct Hc as [H1 H2 H3 H4 H5 H6]. 
  destruct (dead_request _ _ _ _ Hok) as (Ht & Hv); [by apply bool_decide_eq_true|done|]. set (D := filter (fun x => x <> q) (nn_dying w)).
  assert (forall p, p <> q -> bool_decide (p ∈ D) = bool_decide (p ∈ nn_dying w)) as HD.
  { intros p Hp. apply bool_decide_ext. unfold D. rewrite list_elem_of_filter. naive_solver. }
  assert (view_of rt (set_nn_dying D (set_nn_reqs (delete q (nn_reqs w)) w)) q = v_none) as Hvq.
  { unfold view_of in *. cbn in *. rewrite lookup_delete_eq. rewrite (bool_decide_eq_false_2 (q ∈ D)) by (unfold D; rewrite list_elem_of_filter; naive_solver).
    injection Hv as V1 V2 V3 V4 V5 V6 V7 V8. unfold v_none. congruence. }
  assert (forall p, p <> q -> view_of rt (set_nn_dying D (set_nn_reqs (delete q (nn_reqs w)) w)) p = view_of rt w p) as Hvp.
  { intros p Hp. unfold view_of. cbn. rewrite lookup_delete_ne by done. by rewrite HD. }
  assert (forall p s, delete q (nn_reqs w) !! p = Some s -> p <> q /\ nn_reqs w !! p = Some s) as Hdel.
  { intros p s Hs. apply lookup_delete_Some in Hs as [Hp Hs]. by split; [apply not_eq_sym|]. }
  assert (forall key p s, delete q (nn_reqs w) !! p = Some s -> exists s', nn_reqs w !! p = Some s' /\ (key s : Z) = key s') as Hkey.
  { intros key p s Hs. apply Hdel in Hs as [_ Hs]. eauto. }
  apply settle; [|unfold misc; cbn; congruence]. split; cbn [nn_reqs nn_calls set_nn_dying set_nn_reqs].
  - intros p. destruct (decide (p = q)) as [->|Hp]; [by rewrite Hvq|rewrite Hvp by done; apply H1].
  - destruct H2. split; cbn; try done.
    + eapply table_ok_reqs; [|done]. intros p s _. exact (Hkey _ p s).
    + eapply queue_ok_reqs; [|done]. intros p s _. exact (Hkey _ p s).
    + eapply queue_ok_reqs; [|done]. intros p s _. exact (Hkey _ p s).
    + rewrite map_size_delete_Some by eauto. lia.
    + by apply NoDup_filter.
    + by rewrite lookup_delete_None; right.
    + by eapply fc_live_frame.
  - intros a b x y Ha Hb. apply Hdel in Ha as [_ Ha]. apply Hdel in Hb as [_ Hb]. eauto.
  - intros p s Hs. apply Hdel in Hs as [_ Hs]. eauto.
  - intros x Hno. destruct (decide (x = nr_caller r)) as [->|Hx]; [rewrite decide_True; eauto|]. apply H5. intros p s Hs.
    destruct (decide (p = q)) as [->|Hp]; [congruence|]. apply (Hno p). by rewrite lookup_delete_ne.
  - done.
Qed.

(** A request without an answer is marked for a retry and stays referred to; any other is let go. *)
Definition marks (q : Z) (x : nn bool) (r : NNMData_Req_t) : Prop :=
  forall R K cl w v t, opened R K q cl w r v t ->
  twp x (fun ok w' => exists r' s, r' = set_nr_stat s r /\ opened R K q cl w' r' (vs_req (Some r') v) t /\
    (phase r = Pr /\ phase r' = Pt /\ ok = true \/ phase r <> Pr /\ r' = r /\ ok = false)) w.

Lemma marks_acquire q r : NNMDReq_check_acquire r = true -> phase r <> Px -> marks q (NNMDReq_acquire_retryable q) r.
Proof.
  intros Ha Hp R K cl w v t Ho. unfold NNMDReq_acquire_retryable. ostep open_event as [-> H1]; [exact Ho|]. apply twp_ret. eexists _, _. split; [done|]. split; [exact H1|].
  pose proof (get_event_phase r NNREQ_E_ConnBack Ha Hp) as He. destruct (phase r); cbn in He; destruct He as [E1 ->]; first [left; by split_and!|right; by split_and!].
Qed.

Lemma marks_report q r : NNMDReq_check_acquire r = false -> phase r <> Px -> marks q (NNMDReq_report_retryable q) r.
Proof.
  intros Ha Hp R K cl w v t Ho. unfold NNMDReq_report_retryable. ostep open_ci_event as [-> H1]; [exact Ho|]. apply twp_ret. eexists _, _. split; [done|]. split; [exact H1|].
  pose proof (ci_event_phase r NNCIREQ_E_ConnBack Ha Hp) as He. destruct (phase r); cbn in He; destruct He as [E1 ->]; first [left; by split_and!|right; by split_and!].
Qed.

Lemma let_go R K q cl w r v t :
  opened R K q cl w (r_ref 1 r) (vs_req (Some (r_ref 1 r)) v) t -> nr_caller r = cl -> req_ok n 0 t r v ->
  twp (NNMDReq_deref_Req q) (fun _ w' => (core n m S R w' /\ misc w' = K) /\ NNMDReq_pool w' = NNMDReq_pool w) w.
Proof.
  intros Ho Hc Hok. apply (req_ok_ref _ _ _ 1) in Hok. apply twp_pool; [apply keeps_upd|]. olast open_deref as H1; [exact Ho|in_range Hn Hok|].
  apply (req_ok_ref _ _ _ (-1)) in Hok. by eapply close_now.
Qed.

Lemma collect_one {A} R K q cl w r v t x (k : bool -> nn A) Q :
  opened R K q cl w (r_ref 1 r) (vs_req (Some (r_ref 1 r)) v) t -> nr_caller r = cl -> req_ok n 0 t r v -> q ∉ R -> marks q x (r_ref 1 r) -> keeps_pool x ->
  (forall (ok : bool) w', core n m S (if ok then q :: R else R) w' -> misc w' = K -> NNMDReq_pool w' = NNMDReq_pool w -> twp (k ok) Q w') ->
  twp (ok ← x; (if negb ok then NNMDReq_deref_Req q else mret tt);; k ok) Q w.
Proof.
  intros Ho Hc Hok Hq Hx Hkx Hk. apply twp_bind. eapply twp_mono; [apply twp_pool; [done|by apply Hx]|]. cbn beta.
  intros ok w1 ((r' & s & -> & H1 & [(E1 & E2 & ->)|(E1 & E2 & ->)]) & Hp); cbn [negb]; apply twp_bind.
  - apply twp_ret. apply Hk; [|apply H1|done]. apply open_collect in H1; [|done]. eapply (close_core n n); [exact H1|lia|done|].
    refine (req_collected n t r v _ (Some _) Hok _ _ _ _); [done|by split|done|done].
  - rewrite E2 in H1. olast (let_go R K q cl w1 r v t) as [[H2 H3] H4]; [exact H1|done|exact Hok|]. apply Hk; [done|done|congruence].
Qed.

Lemma sub_cons (q : Z) (a b l : list Z) : (forall x, x ∈ a -> x ∈ l) -> b ⊆ q :: a -> forall x, x ∈ b -> x ∈ q :: l.
Proof. intros Ha Hb x Hx. apply Hb, elem_of_cons in Hx as [->|Hx]; [by left|right; auto]. Qed.

Lemma rlist_ok ip port (l R : list Z) K w :
  core n m S R w -> misc w = K -> NoDup l -> (forall q, q ∈ l -> q ∈ concat (NNMDReq_pool w) /\ q ∉ R) ->
  twp (_get_NNMDReq_rlist_bk ip port l) (fun ls w' => core n m S (ls.1 ++ ls.2 ++ R) w' /\ misc w' = K /\
    NNMDReq_pool w' = NNMDReq_pool w /\ forall q : Z, q ∈ ls.1 ++ ls.2 -> q ∈ l) w.
Proof.
  revert R w. induction l as [|q l IH]; intros R w Hc HK Hn' Hl; cbn [_get_NNMDReq_rlist_bk].
  { apply twp_ret. cbn. split_and!; try done. }
  apply NoDup_cons in Hn' as [Hql Hn']. destruct (Hl q ltac:(by left)) as [Hq HqR]. destruct (core_live _ _ _ _ _ _ Hc Hq) as [r Hr].
  destruct (open_core _ _ _ _ _ _ _ Hc Hr) as [Ho Hok]. rewrite HK in Ho. set (v := view_of R w q) in *. set (t := told (nr_caller r) (nn_calls w)) in *. clearbody v t.
  assert (phase r <> Px) as Hpx by (intros E; pose proof (rk_phase _ _ _ _ _ Hok) as Hp; by rewrite E in Hp).
  assert (forall R' w', core n m S R' w' -> misc w' = K -> NNMDReq_pool w' = NNMDReq_pool w -> (forall x : Z, x ∈ R' -> x = q \/ x ∈ R) ->
    twp (_get_NNMDReq_rlist_bk ip port l) (fun ls w'' => core n m S (ls.1 ++ ls.2 ++ R') w'' /\ misc w'' = K /\
      NNMDReq_pool w'' = NNMDReq_pool w /\ forall x : Z, x ∈ ls.1 ++ ls.2 -> x ∈ l) w') as Hrec.
  { intros R' w' H1 H2 H3 H4. rewrite <- H3. apply IH; [done|done|done|]. intros x Hx. destruct (Hl x ltac:(by right)) as [X1 X2]. rewrite H3. split; [done|].
    intros X3. destruct (H4 x X3) as [->|X4]; done. }
  apply twp_bind. eapply twp_mono; [apply twp_pool; [apply keeps_upd|eapply open_ref; [exact Ho|in_range Hn Hok]]|]. cbn beta. intros _ w1 [H1 Hp1].
  apply twp_bind, twp_gets, twp_bind, twp_gets. destruct (negb _ || negb _).
  - ostep let_go as [[H2 H3] H4]; [exact H1|done|exact Hok|]. olast Hrec as (H5 & H6 & H7 & H8); [exact H2|done|congruence|auto|].
    split_and!; try done. intros x Hx. right. auto.
  - oget (r_ref 1 r). change (NNMDReq_check_acquire (r_ref 1 r)) with (NNMDReq_check_acquire r). destruct (NNMDReq_check_acquire r) eqn:Ha.
    + eapply collect_one; [exact H1|done|exact Hok|done|by apply marks_acquire|unfold NNMDReq_acquire_retryable, getReq_event; eauto 6|]. intros ok w2 H2 H3 H4.
      ostep Hrec as (H5 & H6 & H7 & H8); [exact H2|done|congruence|destruct ok; [intros x Hx; by apply elem_of_cons in Hx|auto]|]. apply twp_ret. cbn [fst snd].
      destruct ok; split_and!; try done; try (apply (sub_cons q _ _ l H8); clear; set_solver).
      eapply core_perm; [|exact H5]. cbn [app]. by rewrite <- !Permutation_middle.
    + eapply collect_one; [exact H1|done|exact Hok|done|by apply marks_report|unfold NNMDReq_report_retryable, ciReq_event; eauto 6|]. intros ok w2 H2 H3 H4.
      ostep Hrec as (H5 & H6 & H7 & H8); [exact H2|done|congruence|destruct ok; [intros x Hx; by apply elem_of_cons in Hx|auto]|]. apply twp_ret. cbn [fst snd].
      destruct ok; split_and!; try done; try (apply (sub_cons q _ _ l H8); clear; set_solver).
      eapply core_perm; [|exact H5]. cbn [app]. by rewrite <- !Permutation_middle.
Qed.

Lemma retry_loop_ok ip port rt c h L i R w :
  core n m S R w -> misc w = (rt, ∅, c, h) -> drop i (NNMDReq_pool w) = L -> (i + length L = 4001)%nat -> (forall q, q ∈ concat L -> q ∉ R) ->
  twp (get_retry_loop ip port i L) (fun ls w' => core n m S (ls.1 ++ ls.2 ++ R) w' /\ misc w' = (rt, ∅, c, h)) w.
Proof.
  revert i R w. induction L as [|l L IH]; intros i R w Hc HK HL Hi HR; cbn [get_retry_loop]; [apply twp_ret; by split|].
  assert (NNMDReq_pool w !! i = Some l) as Hil by (rewrite <- (Nat.add_0_r i), <- lookup_drop, HL; done). cbn [length concat] in *.
  pose proof (sh_pool _ _ (co_shape _ _ _ _ _ Hc)) as Htab. pose proof (tb_nodup _ _ _ _ Htab) as Hnd.
  rewrite <- (take_drop i (NNMDReq_pool w)), HL, concat_app in Hnd. apply NoDup_app in Hnd as (_ & _ & Hnd). cbn [concat] in Hnd. apply NoDup_app in Hnd as (Hnl & Hdj & _).
  pose proof HK as HK'. injection HK' as K1 K2 K3 K4.
  apply twp_bind. unfold twp at 1, NNMDReqPool_acquire_plock. rewrite Z.mod_small by (unfold NNREQ_HBUCKET_SIZE; lia). rewrite K2, bool_decide_eq_false_2 by apply not_elem_of_empty.
  set (w1 := set_nn_plock ({[Z.of_nat i]} ∪ ∅) w). assert (core n m S R w1) as Hc1 by (by eapply core_silent).
  ostep rlist_ok as (H1 & H2 & H3 & H4); [exact Hc1|done|exact Hnl|intros q Hq; split; [|apply HR; apply elem_of_app; by left]|].
  { apply elem_concat. exists (Z.of_nat i), l. split; [|done]. unfold bk_get. rewrite (proj2 (Z.leb_le _ _)), Nat2Z.id by lia. done. }
  injection H2 as M1 M2 M3 M4. cbn in M1, M2, M3, M4. apply twp_bind. unfold twp at 1, NNMDReqPool_rel_plock.
  rewrite (proj2 (Z.leb_le _ _)), (proj2 (Z.ltb_lt _ _)) by (unfold NNREQ_HBUCKET_SIZE; lia). cbn [andb].
  set (w2 := set_nn_plock (nn_plock w' ∖ {[Z.of_nat i]}) w'). assert (core n m S (a.1 ++ a.2 ++ R) w2) as Hc2 by (by eapply core_silent).
  ostep (IH (Datatypes.S i)) as [H5 H6]; [exact Hc2| | |lia| |].
  - unfold misc. cbn. rewrite M1, M2, M3, M4, K1, K3, K4. do 3 f_equal. clear. set_solver.
  - cbn [NNMDReq_pool w2 set_nn_plock]. rewrite H3. cbn [NNMDReq_pool w1 set_nn_plock]. replace (Datatypes.S i) with (i + 1)%nat by lia. rewrite <- drop_drop, HL. done.
  - intros q Hq. rewrite app_assoc, elem_of_app. intros [Hx|Hx]; [apply (Hdj q); [by apply H4|done]|]. apply (HR q); [apply elem_of_app; by right|done].
  - apply twp_ret. cbn [fst snd]. split; [|done]. eapply core_perm; [|exact H5]. clear. solve_Permutation.
Qed.

Lemma collect_ok c h w ip port : settled ([], ∅, c, h) w -> twp (NNClientMgr_retry_NNMDReq ip port) (fun _ w' => exists rt, settled (rt, ∅, c, h) w') w.
Proof.
  intros [[Hc HL] HK]. assert (nn_retry w = []) as K1 by (by injection HK). rewrite K1 in Hc. unfold NNClientMgr_retry_NNMDReq, NNMDReqPool_get_retryReq.
  apply twp_bind, twp_bind, twp_gets. eapply twp_mono; [eapply retry_loop_ok; [exact Hc|exact HK|done| |]|].
  - pose proof (tb_len _ _ _ _ (sh_pool _ _ (co_shape _ _ _ _ _ Hc))) as ->. done.
  - intros q _. apply not_elem_of_nil.
  - cbn beta. intros ls w' [H1 H2]. apply twp_modify. exists (ls.1 ++ ls.2). rewrite app_nil_r in H1. injection H2 as M1 M2 M3 M4.
    apply settle; [by eapply core_silent|]. unfold misc. cbn. congruence.
Qed.

(** The time that is left for a request, and whether its timer can be started. *)
Definition rto_after (jm : Z -> Z) (now : Z) (r : NNMData_Req_t) : Z :=
  if t_MDReq_last_submitT r =? 0 then t_MDReq_rTO_msec r
  else s32 (t_MDReq_rTO_msec r - jm (if time_after64 now (t_MDReq_last_submitT r) then u64 (now - t_MDReq_last_submitT r) else 0)).

Definition timer_delay (jm : Z -> Z) (HZ now : Z) (r : NNMData_Req_t) : Z :=
  if NNMDReq_check_acquire r then
    let s := u64 (Z.quot (rto_after jm now r + 999) 1000) in u64 ((if s <=? MIN_NNMDREQ_SCHED_TIME then 0 else s) * HZ)
  else _get_MDCIReq_schedule_time HZ r.

(** What queueing a request changes. *)
Record queued_on (r r' : NNMData_Req_t) : Prop := {
  qn_pool : NNMDReq_check_feature r' NNREQ_FEA_IN_REQPOOL = NNMDReq_check_feature r NNREQ_FEA_IN_REQPOOL;
  qn_timer : NNMDReq_check_feature r' NNREQ_FEA_SCHED_TIMER = true;
  qn_wq : NNMDReq_check_feature r' NNREQ_FEA_IN_WORKQ = true;
  qn_queue : submit_queue r' = submit_queue r;
  qn_acquire : NNMDReq_check_acquire r' = NNMDReq_check_acquire r;
  qn_ref : nr_RefCnt r' = nr_RefCnt r;
  qn_id : nr_ReqID r' = nr_ReqID r;
  qn_op : nr_OPCode r' = nr_OPCode r;
  qn_caller : nr_caller r' = nr_caller r;
  qn_phase : phase r' = phase r;
}.

Lemma sched_ok jm HZ now R K q cl w r v t :
  opened R K q cl w r v t -> v_timer v = None -> NNMDReq_check_feature r NNREQ_FEA_SCHED_TIMER = false -> timer_delay jm HZ now r <> 0 ->
  twp (NNMDReq_sched_timer jm HZ now q) (fun ret w' => ret = 0 /\ exists r1, (r1 = r \/ exists x y, r1 = set_nr_sched x y r) /\
    opened R K q cl w' (r_set NNREQ_FEA_SCHED_TIMER r1) (vs_timer (Some (NNMDReq_check_acquire r)) (vs_req (Some (r_set NNREQ_FEA_SCHED_TIMER r1)) v)) t) w.
Proof.
  intros Ho Ht Hf Hd. unfold NNMDReq_sched_timer. oget r. cbv zeta. unfold timer_delay in Hd.
  apply twp_bind. eapply (twp_mono _ (fun d w' => d <> 0 /\ exists r1, (r1 = r \/ exists x y, r1 = set_nr_sched x y r) /\ opened R K q cl w' r1 (vs_req (Some r1) v) t)).
  - destruct (NNMDReq_check_acquire r).
    + unfold _get_MDReq_schedule_time. oget r. apply twp_bind. eapply twp_mono; [apply (open_upd _ _ _ _ _ _ _ _ _ _ _ _ Ho); by right|]. cbn beta. intros _ w1 [_ H1].
      apply twp_ret. split; [exact Hd|]. eexists. split; [right; by eexists _, _|exact H1].
    + apply twp_ret. split; [exact Hd|]. exists r. split; [by left|]. assert (vs_req (Some r) v = v) as ->; [|done].
      pose proof (op_req _ _ _ _ _ _ _ _ _ _ _ Ho) as E. destruct v; cbn in *. by subst.
  - intros d w1 (Hd1 & r1 & Hr1 & H1). rewrite (proj2 (Z.eqb_neq _ _)) by done. ostep open_test_set as [-> H2]; [exact H1|].
    assert (NNMDReq_check_feature r1 NNREQ_FEA_SCHED_TIMER = false) as -> by (destruct Hr1 as [->|(x & y & ->)]; done).
    apply twp_bind, twp_modify, twp_ret. split; [done|]. exists r1. split; [done|].
    assert (nn_timers w' !! q = None) as Hq.
    { pose proof (f_equal v_timer (op_view _ _ _ _ _ _ _ _ _ _ _ H2)) as E. cbn in E. rewrite Ht in E. by destruct (nn_timers w' !! q). }
    rewrite Hq. eapply open_timers; [exact H2|intros x Hx; by rewrite lookup_insert_ne|by rewrite lookup_insert_eq].
Qed.

Lemma submit_queue_ok jm HZ now R K q cl w r v t :
  opened R K q cl w r v t -> v_timer v = None -> NNMDReq_check_feature r NNREQ_FEA_SCHED_TIMER = false -> timer_delay jm HZ now r <> 0 ->
  NNMDReq_check_feature r NNREQ_FEA_IN_WORKQ = false -> v_chq v = false -> v_cmq v = false ->
  twp (NNMDReq_submit_workerQ jm HZ now q) (fun ret w' => ret = 0 /\ exists r', queued_on r r' /\
    opened R K q cl w' r' (vs_q (submit_queue r) true (vs_timer (Some (NNMDReq_check_acquire r)) (vs_req (Some r') v))) t) w.
Proof.
  intros Ho Ht Hf Hd Hw Hc1 Hc2. unfold NNMDReq_submit_workerQ. ostep sched_ok as (-> & r1 & Hr1 & H1); [exact Ho|done|done|exact Hd|]. rewrite Z.eqb_refl. cbn [negb].
  set (r2 := r_set NNREQ_FEA_SCHED_TIMER r1) in *. oget r2. cbv zeta. ostep open_test_set as [-> H2]; [exact H1|].
  assert (queued_on r (r_set NNREQ_FEA_IN_WORKQ r2)) as Hq.
  { subst r2. clear - Hr1. destruct Hr1 as [->|(x & y & ->)]; split; by rsimp. }
  assert (NNMDReq_check_feature r2 NNREQ_FEA_IN_WORKQ = false /\ submit_queue r2 = submit_queue r) as [-> ->].
  { subst r2. clear - Hr1 Hw. destruct Hr1 as [->|(x & y & ->)]; split; by rsimp. }
  apply twp_bind. change (NNCWker_gain_qlock (nr_ReqID r2) (nr_prior_low r2)) with (queue_key (r_set NNREQ_FEA_IN_WORKQ r2)).
  eapply twp_mono; [eapply (open_q_add n m Hm S R q); [exact H2|by destruct (submit_queue r)]|]. cbn beta. intros _ w2 H3. apply twp_ret. split; [done|].
  eexists. split; [exact Hq|]. exact H3.
Qed.

Lemma retry_phase d t r v : req_ok n d t r v -> v_retry v = true -> phase r = Pt.
Proof. intros [] Hv. destruct (phase r); try done; destruct_and?; congruence. Qed.

(** A request that is queued again. *)
Lemma req_requeued t r v r1 r' x :
  req_ok n 0 t r v -> v_retry v = true -> queued_on r1 r' -> phase r1 = Pw ->
  NNMDReq_check_feature r1 NNREQ_FEA_IN_REQPOOL = NNMDReq_check_feature r NNREQ_FEA_IN_REQPOOL -> submit_queue r1 = submit_queue r ->
  nr_RefCnt r1 = nr_RefCnt r -> nr_ReqID r1 = nr_ReqID r -> nr_OPCode r1 = nr_OPCode r ->
  req_ok n 0 t (r_ref (-1) r') (vs_q (submit_queue r1) true (vs_timer (Some (NNMDReq_check_acquire r1)) (vs_req x (vs_retry false v)))).
Proof.
  intros Hok Hv [] Hp Ef Es Er Ei Eo. pose proof (retry_phase _ _ _ _ Hok Hv) as Hpt. destruct Hok. rewrite Hpt in *. destruct rk_phase as (P1 & P2 & P3 & P4 & P5 & _).
  rewrite decide_False in rk_told by done.
  split; unfold v_hold in *; change (submit_queue (r_ref (-1) r')) with (submit_queue r'); change (NNMDReq_check_acquire (r_ref (-1) r')) with (NNMDReq_check_acquire r');
    change (nr_RefCnt (r_ref (-1) r')) with (nr_RefCnt r' + -1); change (nr_ReqID (r_ref (-1) r')) with (nr_ReqID r'); change (nr_OPCode (r_ref (-1) r')) with (nr_OPCode r');
    change (NNMDReq_check_feature (r_ref (-1) r')) with (NNMDReq_check_feature r');
    rewrite ?phase_ref, ?qn_pool0, ?qn_timer0, ?qn_wq0, ?qn_queue0, ?qn_acquire0, ?qn_ref0, ?qn_id0, ?qn_op0, ?qn_phase0, ?Hp, ?Ef, ?Er, ?Ei, ?Eo; destruct (submit_queue r1) eqn:Esq; vsimp;
    rewrite ?P1, ?P2, ?P3, ?P4, ?P5, ?Hv in *; cbn [Z.b2z orb negb] in *; try done; try lia.
  all: intros b Hb; by injection Hb as <-.
Qed.

Lemma retry_ok jm HZ now rt c h q w :
  settled (q :: rt, ∅, c, h) w -> (forall r, nn_reqs w !! q = Some r -> timer_delay jm HZ now r <> 0) ->
  twp (modify (set_nn_retry rt);; NNMDReq_retry_Req jm HZ now q) (fun _ w' => settled (rt, ∅, c, h) w') w.
Proof.
  intros [[Hc HL] HK] Hd. injection HK as K1 K2 K3 K4. rewrite K1 in Hc.
  destruct (nn_reqs w !! q) as [r|] eqn:Hr.
  2: { pose proof (f_equal v_retry (core_dead _ _ _ _ _ _ Hc Hr)) as Hv. cbn in Hv. apply bool_decide_eq_false in Hv. destruct Hv. by left. }
  specialize (Hd r eq_refl). apply twp_bind, twp_modify. set (w1 := set_nn_retry rt w). assert (core n m S (q :: rt) w1) as Hc1 by (by eapply core_silent).
  destruct (open_core _ _ _ _ q w1 r Hc1 Hr) as [Ho Hok]. assert (misc w1 = (rt, ∅, c, h)) as HK1 by (unfold misc; cbn; congruence). rewrite HK1 in Ho.
  set (v := view_of (q :: rt) w1 q) in *. assert (v_retry v = true) as Hv by (apply bool_decide_eq_true; by left).
  set (t := told (nr_caller r) (nn_calls w1)) in *. clearbody v t w1. pose proof (retry_phase _ _ _ _ Hok Hv) as Hph.
  unfold NNMDReq_retry_Req. ostep open_cancel as H1; [exact Ho|intros Hx; destruct (v_timer v) as [b|] eqn:E; [by destruct (rk_timer _ _ _ _ _ Hok b E) as (_ & ? & _)|done]|].
  set (r1 := r_clear NNREQ_FEA_SCHED_TIMER r) in *. ostep open_retry_state as (r2 & s & Er2 & H2 & [(_ & E2 & ->)|(E2 & _)]); [exact H1|change (phase r <> Px); by rewrite Hph|..|by destruct E2].
  rewrite Z.eqb_refl. cbn [negb]. pose proof (rk_phase _ _ _ _ _ Hok) as Hp. rewrite Hph in Hp. destruct Hp as (P1 & P2 & P3 & P4 & P5 & _).
  pose proof (rk_wq _ _ _ _ _ Hok) as Hw. rewrite P2, P3 in Hw.
  ostep (submit_queue_ok jm HZ now) as (-> & r3 & Hq & H3); [exact H2|done|subst r2 r1; clear; by rsimp|subst r2; exact Hd|subst r2 r1; clear - Hw; by rsimp|done|done|].
  cbn [Z.eqb Z.opp ETIME]. olast open_deref as H4; [exact H3|rewrite (qn_ref _ _ Hq), Er2; in_range Hn Hok|].
  apply open_uncollect in H4.
  destruct (close_now _ _ _ _ _ _ _ _ _ _ _ H4) as [H5 H6]; [cbn; rewrite (qn_caller _ _ Hq), Er2; done| |by apply settle].
  pose proof (req_requeued t r v r2 r3 (Some (r_ref (-1) r3)) Hok Hv Hq E2) as Hfin. 
  assert (vs_q (submit_queue r2) true (vs_timer (Some (NNMDReq_check_acquire r2)) (vs_req (Some (r_ref (-1) r3)) (vs_retry false v))) =
    vs_retry false (vs_req (Some (r_ref (-1) r3)) (vs_q (submit_queue r2) true (vs_timer (Some (NNMDReq_check_acquire r2)) v)))) as Ev by (by destruct (submit_queue r2)).
  rewrite Ev in Hfin. destruct (submit_queue r2) eqn:Eq; apply Hfin; subst r2 r1; clear - Eq; rewrite <- ?Eq; by rsimp.
Qed.

End handlers.

(** ** Submission *)

(** The address of a new request is fresh. *)
Lemma open_new n m S w p cl r0 :
  core n m S (nn_retry w) w -> nn_reqs w !! p = None -> p <> 0 -> cl ∉ S ->
  opened n (m + 1) ({[cl]} ∪ S) (nn_retry w) (misc w) p cl (set_nn_reqs (<[p := r0]> (nn_reqs w)) w) r0 (vs_req (Some r0) v_none) 0.
Proof.
  intros Hc Hp Hp0 Hcl. pose proof (core_dead _ _ _ _ _ _ Hc Hp) as Hdead. destruct Hc as [H1 H2 H3 H4 H5 H6].
  assert (forall q s, q <> p -> <[p := r0]> (nn_reqs w) !! q = Some s -> nn_reqs w !! q = Some s) as Hins by (intros q s Hq; by rewrite lookup_insert_ne).
  split; cbn [nn_reqs nn_calls set_nn_reqs]; try done.
  - intros q Hq. specialize (H1 q). unfold view_ok, view_of in *. cbn in *. by rewrite lookup_insert_ne.
  - unfold view_of in *. cbn in *. rewrite lookup_insert_eq. injection Hdead as V0 V1 V2 V3 V4 V5 V6 V7 V8. unfold vs_req, v_none. cbn. congruence.
  - rewrite H5; [by rewrite decide_False|]. intros q s Hs E. apply Hcl. rewrite <- E. eauto.
  - assert (forall key (l : list Z), p ∉ l -> forall q s, q ∈ l -> <[p := r0]> (nn_reqs w) !! q = Some s -> exists s', nn_reqs w !! q = Some s' /\ (key s : Z) = key s') as Hkey.
    { intros key l Hl q s Hq Hs. assert (q <> p) as Hne by (by intros ->). eauto. }
    injection Hdead as _ V1 V2 V3 _ _ _ _ _. apply bool_decide_eq_false in V1, V2, V3. destruct H2. split; cbn; try done.
    + eapply table_ok_reqs; [|done]. exact (Hkey _ _ V1).
    + eapply queue_ok_reqs; [|done]. exact (Hkey _ _ V2).
    + eapply queue_ok_reqs; [|done]. exact (Hkey _ _ V3).
    + rewrite map_size_insert_None by done. lia.
    + by rewrite lookup_insert_ne.
    + by eapply fc_live_frame.
  - split; cbn.
    + intros a b x y Ha Hb Hx Hy. eauto.
    + intros q s Hq Hs. apply Hins in Hs; [|done]. split; [intros E; apply Hcl; rewrite <- E; eauto|]. apply elem_of_union_r. eauto.
    + intros x Hx Hno. rewrite H5; [|intros q s Hs; destruct (decide (q = p)) as [->|Hq]; [congruence|apply (Hno q); [done|by rewrite lookup_insert_ne]]].
      destruct (decide (x ∈ S)); [rewrite decide_True by set_solver|rewrite decide_False by set_solver]; done.
    + set_solver.
Qed.

(** What [NNMDReq_init_Req] and [NNMDReq_init_endfn] make of the memory. *)
Record fresh (T cl : Z) (rep : bool) (r : NNMData_Req_t) : Prop := {
  fr_fea : NNMDReq_check_feature r NNREQ_FEA_IN_WORKQ = false /\ NNMDReq_check_feature r NNREQ_FEA_SCHED_TIMER = false;
  fr_pool : NNMDReq_check_feature r NNREQ_FEA_IN_REQPOOL = true;
  fr_id : is_u32 (nr_ReqID r) /\ 0 <= nr_OPCode r <= REQ_NN_REPORT_WRITEIO_RESULT;
  fr_ref : nr_RefCnt r = 0;
  fr_caller : nr_caller r = cl;
  fr_phase : phase r = Pw;
  fr_time : NNMDReq_check_acquire r = negb rep /\
            if rep then t_MDCIReq_rTO_msec r = T * 1000 else t_MDReq_last_submitT r = 0 /\ t_MDReq_rTO_msec r = T * 1000;
}.

Lemma opcode_kind rw ovw err rep :
  0 <= _get_NNMDReq_opcode rw ovw err rep <= REQ_NN_REPORT_WRITEIO_RESULT /\ (_get_NNMDReq_opcode rw ovw err rep <? REQ_NN_REPORT_READIO_RESULT) = negb rep.
Proof. by destruct rw, ovw, err, rep. Qed.

Lemma init_features b1 b2 b3 b4 b5 bit :
  bit = 2 \/ bit = 3 \/ bit = 5 ->
  Z.testbit (init_fea b1 NNREQ_FEA_HBID_ERR (init_fea b2 NNREQ_FEA_MDCACHE_ON (init_fea b3 NNREQ_FEA_OVW_STAT (init_fea b4 NNREQ_FEA_HBID_ERR (init_fea b5 NNREQ_FEA_CACHE_HIT 0))))) bit = false.
Proof. intros [->|[->| ->]]; by destruct b1, b2, b3, b4, b5. Qed.

Lemma delay_fresh jm HZ now T cl rep r :
  fresh T cl rep r -> 6 <= T -> T * 1000 < 2 ^ 31 -> 1 <= HZ <= 10000 -> timer_delay jm HZ now r <> 0.
Proof.
  intros [_ _ _ _ _ _ [Ha Ht]] H6 HT HH. unfold timer_delay, rto_after, _get_MDCIReq_schedule_time, MIN_NNMDREQ_SCHED_TIME. rewrite Ha.
  assert (u64 (T * HZ) = T * HZ) as Hu by (apply u64_small; unfold is_u64; nia). destruct rep; cbn [negb].
  - rewrite Ht, Z.quot_mul by lia. rewrite (u64_small T) by (unfold is_u64; lia). rewrite Hu. nia.
  - destruct Ht as [-> ->]. cbn [Z.eqb]. assert (Z.quot (T * 1000 + 999) 1000 = T) as ->.
    { rewrite Z.quot_div_nonneg by lia. rewrite Z.div_add_l by lia. change (999 / 1000) with 0. lia. }
    rewrite (u64_small T) by (unfold is_u64; lia). destruct (T <=? 5) eqn:E; zbool; [lia|]. rewrite Hu. nia.
Qed.

Section submission.
Context (n m : Z) (Hm : m + 1 < 2 ^ 31) (S : gset Z) (R : list Z) (p cl : Z).
Abbreviation opened := (opened n m S R).

(** What [NNMDReq_init_Req] makes of the memory. *)
Record inited (rep : bool) (r : NNMData_Req_t) : Prop := {
  in_fea : NNMDReq_check_feature r NNREQ_FEA_IN_WORKQ = false /\ NNMDReq_check_feature r NNREQ_FEA_SCHED_TIMER = false;
  in_pool : NNMDReq_check_feature r NNREQ_FEA_IN_REQPOOL = true;
  in_id : is_u32 (nr_ReqID r) /\ 0 <= nr_OPCode r <= REQ_NN_REPORT_WRITEIO_RESULT;
  in_ref : nr_RefCnt r = 0;
  in_acquire : NNMDReq_check_acquire r = negb rep;
  in_stat : nnReq_stat r = NNMDReq_init_fsm;
}.

Lemma add_pool_ok rt c h w r t :
  opened (rt, ∅, c, h) p cl w r (vs_req (Some r) v_none) t -> NNMDReq_check_feature r NNREQ_FEA_IN_REQPOOL = false ->
  twp (_add_req2pool p) (fun _ w' => let r1 := r_set NNREQ_FEA_IN_REQPOOL r in opened (rt, ∅, c, h) p cl w' r1 (vs_pool true (vs_req (Some r1) v_none)) t) w.
Proof.
  intros Ho Hf. assert (0 <= nr_ReqID r mod NNREQ_HBUCKET_SIZE < NNREQ_HBUCKET_SIZE) as Hi by (apply Z.mod_pos_bound; done).
  unfold _add_req2pool. oget r. ostep open_lock as [-> H1]; [exact Ho|set_solver|]. ostep open_test_set as [-> H2]; [exact H1|]. rewrite Hf.
  change (nr_ReqID r mod NNREQ_HBUCKET_SIZE) with (pool_key (r_set NNREQ_FEA_IN_REQPOOL r)) in *.
  ostep open_pool_add as H3; [exact H2|done|]. olast open_unlock as H4; [exact H3|set_solver|exact Hi|exact H4].
Qed.

Lemma init_req_ok rt c h w r0 a rep :
  opened (rt, ∅, c, h) p cl w r0 (vs_req (Some r0) v_none) 0 ->
  twp (NNMDReq_init_Req p a rep) (fun _ w' => exists r, inited rep r /\ opened (rt, ∅, c, h) p cl w' r (vs_pool true (vs_req (Some r) v_none)) 0) w.
Proof.
  intros Ho. unfold NNMDReq_init_Req. apply twp_bind, twp_gets. apply twp_bind, twp_modify. set (gen := MDReq_ID_gen w).
  set (w1 := set_nn_gen _ w). assert (opened (rt, ∅, c, h) p cl w1 r0 (vs_req (Some r0) v_none) 0) as H1 by (by apply (open_silent _ _ _ _ _ _ _ _ _ _ _ _ Ho)). clearbody w1.
  apply twp_bind. eapply twp_mono; [apply (open_upd _ _ _ _ _ _ _ _ _ _ _ _ H1); by left|]. cbn beta. intros _ w2 [_ H2].
  set (r1 := {| nr_ReqID := _ |}) in H2. assert (NNMDReq_check_feature r1 NNREQ_FEA_IN_REQPOOL = false) as Hf by (apply init_features; auto).
  olast add_pool_ok as H3; [exact H2|exact Hf|]. eexists. split; [|exact H3]. destruct (opcode_kind (sub_rw a) (sub_ovw a) (sub_hbid_err a) rep) as [O1 O2].
  split; try done.
  - assert (NNMDReq_check_feature r1 NNREQ_FEA_IN_WORKQ = false /\ NNMDReq_check_feature r1 NNREQ_FEA_SCHED_TIMER = false) as [F1 F2] by (split; apply init_features; auto).
    clearbody r1. clear - F1 F2. split; by rsimp.
  - clearbody r1. clear. by rsimp.
  - split; [|exact O1]. unfold is_u32. apply Z.mod_pos_bound. done.
Qed.

Lemma init_endfn_ok K w r v t T rep :
  opened K p cl w r v t -> inited rep r -> is_s32 (T * 1000) ->
  twp (NNMDReq_init_endfn p cl T) (fun ret w' => ret = 0 /\ exists r', fresh T cl rep r' /\ opened K p cl w' r' (vs_req (Some r') v) t) w.
Proof.
  intros Ho [] HT. unfold NNMDReq_init_endfn. oget r. rewrite in_acquire0. destruct rep; cbn [negb]; apply twp_bind.
  all: eapply twp_mono; [apply (open_upd _ _ _ _ _ _ _ _ _ _ _ _ Ho); by right|]; cbn beta; intros _ w1 [_ H1]; rewrite (s32_small _ HT) in H1.
  - ostep open_ci_event as [-> H2]; [exact H1|]. cbn [set_nr_times nnReq_stat] in H2 |- *. rewrite in_stat0 in *. apply twp_ret. split; [done|].
    eexists. split; [|exact H2]. split; try done. unfold phase. change (NNMDReq_check_acquire _) with (NNMDReq_check_acquire r). rewrite in_acquire0. cbn. by rewrite in_stat0.
  - ostep open_event as [-> H2]; [exact H1|]. cbn [set_nr_times nnReq_stat] in H2 |- *. rewrite in_stat0 in *. apply twp_ret. split; [done|].
    eexists. split; [|exact H2]. split; try done. unfold phase. change (NNMDReq_check_acquire _) with (NNMDReq_check_acquire r). rewrite in_acquire0. cbn. by rewrite in_stat0.
Qed.

End submission.

(** A new request, queued. *)
Lemma req_new n T cl rep r r' x :
  fresh T cl rep r -> 0 <= n -> queued_on (r_ref 1 r) r' ->
  req_ok n 0 0 (r_ref (-1) r') (vs_q (submit_queue (r_ref 1 r)) true (vs_timer (Some (NNMDReq_check_acquire (r_ref 1 r))) (vs_req x (vs_pool true v_none)))).
Proof.
  intros [] Hn []. change (phase (r_ref 1 r)) with (phase r) in *. change (NNMDReq_check_feature (r_ref 1 r)) with (NNMDReq_check_feature r) in *.
  change (nr_RefCnt (r_ref 1 r)) with (nr_RefCnt r + 1) in *.
  split; unfold v_hold; change (submit_queue (r_ref (-1) r')) with (submit_queue r'); change (NNMDReq_check_acquire (r_ref (-1) r')) with (NNMDReq_check_acquire r');
    change (nr_RefCnt (r_ref (-1) r')) with (nr_RefCnt r' + -1); change (nr_ReqID (r_ref (-1) r')) with (nr_ReqID r'); change (nr_OPCode (r_ref (-1) r')) with (nr_OPCode r');
    change (NNMDReq_check_feature (r_ref (-1) r')) with (NNMDReq_check_feature r');
    rewrite ?phase_ref, ?qn_pool0, ?qn_timer0, ?qn_wq0, ?qn_queue0, ?qn_acquire0, ?qn_ref0, ?qn_id0, ?qn_op0, ?qn_phase0, ?fr_phase0, ?fr_pool0, ?fr_ref0;
    destruct (submit_queue (r_ref 1 r)) eqn:Esq; vsimp; cbn [v_none v_pool v_chq v_cmq v_timer v_dying v_cm v_ch v_retry Z.b2z orb negb]; try done; try lia.
  all: intros b Hb; by injection Hb as <-.
Qed.

Lemma submit_ok jm HZ n m S w now T p r0 a rep :
  nn_ok n m S w -> 0 <= n -> n + 8 < 2 ^ 31 -> m + 2 < 2 ^ 31 -> nn_reqs w !! p = None -> p <> 0 -> sub_caller a ∉ S ->
  6 <= T -> T * 1000 < 2 ^ 31 -> 1 <= HZ <= 10000 ->
  twp (submit_NNMDReq jm HZ now T (Some (p, r0)) a rep) (fun ret w' => ret = 0 /\ nn_ok n (m + 1) ({[sub_caller a]} ∪ S) w' /\ misc w' = misc w) w.
Proof.
  intros [Hc HL] H0 Hn Hm Hp Hp0 Hcl H6 HT HH. pose proof (open_new n m S w p (sub_caller a) r0 Hc Hp Hp0 Hcl) as Ho.
  assert (m + 1 + 1 < 2 ^ 31) as Hm1 by lia. set (cl := sub_caller a) in *. set (S' := {[cl]} ∪ S) in *.
  assert (misc w = (nn_retry w, ∅, nn_cm w, nn_ch w)) as HK by (unfold misc; by rewrite HL). rewrite HK in Ho |- *.
  unfold submit_NNMDReq. apply twp_bind, twp_modify. set (w1 := set_nn_reqs _ w) in *. clearbody w1.
  ostep init_req_ok as (r1 & Hi & H1); [exact Ho|]. ostep init_endfn_ok as (-> & r2 & Hf & H2); [exact H1|exact Hi|unfold is_s32; lia|]. rewrite Z.eqb_refl. cbn [negb].
  ostep open_ref as H3; [exact H2|rewrite (fr_ref _ _ _ _ Hf); unfold is_s32; lia|].
  ostep (submit_queue_ok n (m + 1) Hm1 S' jm HZ now) as (-> & r3 & Hq & H4); [exact H3|done|apply Hf|apply (delay_fresh jm HZ now T cl rep r2 Hf H6 HT HH)|apply Hf|done|done|].
  ostep open_deref as H5; [exact H4|rewrite (qn_ref _ _ Hq); cbn; rewrite (fr_ref _ _ _ _ Hf); unfold is_s32; lia|]. apply twp_ret. split; [done|].
  destruct (close_now _ _ _ _ _ _ _ _ _ _ _ H5) as [H7 H8]; [cbn; rewrite (qn_caller _ _ Hq); apply Hf| |by apply (settle n (m + 1) S')].
  pose proof (req_new n T cl rep r2 r3 (Some (r_ref (-1) r3)) Hf H0 Hq) as Hfin. by destruct (submit_queue (r_ref 1 r2)).
Qed.
