(* ===== verification/NNClientRun.v ===== *)
(** * NNClientRun: runs of the namenode client

    Any events in any order, from the start of the client, under three conditions ([nn_allowed]): new requests come at free addresses, from
    callers that did not submit before, with a timeout of more than five seconds; a timer of a request with a number from 4001 on does
    not fire; a request that is sent again has time left.  The theorems say that no event faults or blocks, that every caller is told one
    end, and that the pool and the queues are in order; and what happens without the second condition. *)

From S2P Require Import Prelude CommonUtil Fsm NNMDReqFsm IOReqOvlp NNProto FlowControl FlowControlSpec Buckets NNClient NNClientSpec NNClientLife.

Section runs.
Context (jm : Z -> Z) (HZ : Z).

Definition nn_allowed (S : gset Z) (e : nn_ev) (w : nn_world) : Prop :=
  match e with
  | Nv_submit now T (Some (p, r0)) a report =>
      p <> 0 /\ nn_reqs w !! p = None /\ (sub_caller a ∉ S) /\ MIN_NNMDREQ_SCHED_TIME < T /\ T * 1000 < 2 ^ 31
  | Nv_timer p => forall r, nn_reqs w !! p = Some r -> NNMDReq_check_acquire r = true -> nr_ReqID r < NNREQ_HBUCKET_SIZE
  | Nv_retry now => forall p l r, nn_retry w = p :: l -> nn_reqs w !! p = Some r -> timer_delay jm HZ now r <> 0
  | _ => True
  end.

(** The callers after an event. *)
Definition nn_subs (e : nn_ev) (S : gset Z) : gset Z :=
  match e with Nv_submit _ _ (Some _) a _ => {[sub_caller a]} ∪ S | _ => S end.

Inductive nn_runs (w0 : nn_world) : list nn_ev -> gset Z -> nn_world -> Prop :=
| Runs_start : nn_runs w0 [] ∅ w0
| Runs_step evs S w e w' :
    nn_runs w0 evs S w -> nn_allowed S e w -> nn_step jm HZ e w = Returns w' tt -> nn_runs w0 (evs ++ [e]) (nn_subs e S) w'.

Lemma nn_ok_mono n n' m m' S w : n <= n' -> m <= m' -> nn_ok n m S w -> nn_ok n' m' S w.
Proof. intros Hn Hm [H1 H2]. split; [|done]. by eapply core_mono. Qed.

(** One event. *)
Lemma nn_step_ok n m S e w :
  1 <= HZ <= 10000 -> nn_ok n m S w -> 0 <= n -> n + 9 < 2 ^ 31 -> m + 2 < 2 ^ 31 -> nn_allowed S e w ->
  twp (nn_step jm HZ e) (fun _ w' => nn_ok (n + 1) (m + 1) (nn_subs e S) w') w.
Proof.
  intros HH Hw H0 Hn Hm Ha. assert (m + 1 < 2 ^ 31) as Hm1 by lia. assert (n + 8 < 2 ^ 31) as Hn1 by lia.
  assert (settled n m S (nn_retry w, ∅, nn_cm w, nn_ch w) w) as Hs by (split; [done|unfold misc; by rewrite (no_lock _ _ _ _ Hw)]).
  assert (forall K w', settled n m S K w' -> nn_ok (n + 1) (m + 1) S w') as Hset by (intros K w' [H1 _]; eapply nn_ok_mono; [| |exact H1]; lia).
  assert (nn_ok (n + 1) (m + 1) S w) as Hw1 by (eapply nn_ok_mono; [| |exact Hw]; lia).
  destruct e as [now T [[p r0]|] a rep|p| | | |en now|now conn sent|now id res|id|ip port|now|p]; cbn [nn_step nn_subs].
  - destruct Ha as (A1 & A2 & A3 & A4 & A5). unfold MIN_NNMDREQ_SCHED_TIME in A4. apply twp_bind. eapply twp_mono; [apply (submit_ok jm HZ n m S); try done; lia|]. cbn beta.
    intros ret w' (_ & H1 & _). apply twp_ret. eapply nn_ok_mono; [| |exact H1]; lia.
  - by apply twp_bind, twp_ret, twp_ret.
  - apply twp_bind, twp_gets. destruct (nn_timers w !! p) as [[d b]|] eqn:E; [|by apply twp_ret]. eapply twp_mono; [by eapply timer_ok|]. cbn beta. eauto.
  - apply twp_bind, twp_gets. destruct (nn_ch w) eqn:E; [by apply twp_ret|]. eapply twp_mono; [by eapply ch_peek_ok|]. cbn beta. intros _ w' [h H]. eauto.
  - apply twp_bind, twp_gets. destruct (nn_ch w) eqn:E; [|by apply twp_ret]. eapply twp_mono; [by eapply ch_end_ok|]. cbn beta. eauto.
  - apply twp_bind, twp_gets. destruct (nn_cm w) eqn:E; try (by apply twp_ret). eapply twp_mono; [by eapply cm_peek_ok|]. cbn beta. intros _ w' [c H]. eauto.
  - apply twp_bind, twp_gets. destruct (nn_cm w) eqn:E; try (by apply twp_ret).
    + eapply twp_mono; [by eapply cm_enter_ok|]. cbn beta. intros _ w' [c H]. eauto.
    + eapply twp_mono; [by eapply cm_wake_ok|]. cbn beta. intros _ w' (c & H & _). eapply nn_ok_mono; [| |exact H]; lia.
  - apply twp_bind, twp_gets. destruct (nn_cm w) eqn:E; try (by apply twp_ret). eapply twp_mono; [by eapply cm_send_ok|]. cbn beta. eauto.
  - eapply twp_mono; [by eapply ack_ok|]. cbn beta. eauto.
  - eapply twp_mono; [by eapply ack_report_ok|]. cbn beta. eauto.
  - apply twp_bind, twp_gets. destruct (nn_retry w) eqn:E; [|by apply twp_ret]. eapply twp_mono; [by eapply collect_ok|]. cbn beta. intros _ w' [rt H]. eauto.
  - apply twp_bind, twp_gets. destruct (nn_retry w) as [|q l] eqn:E; [by apply twp_ret|]. eapply twp_mono; [eapply retry_ok; try done; eauto|]. cbn beta. eauto.
  - apply twp_bind, twp_gets. destruct (bool_decide (p ∈ nn_dying w)) eqn:E; [|by apply twp_ret]. apply bool_decide_eq_true in E.
    apply twp_bind. eapply twp_mono; [by eapply free_ok|]. cbn beta. intros ret w' H. apply twp_ret. eauto.
Qed.

(** What the invariant says about a caller. *)
Lemma core_callers n m S R w c :
  core n m S R w ->
  if decide (c ∈ S) then
    told c (nn_calls w) = 1 /\ (forall p r, p ∈ concat (NNMDReq_pool w) -> nn_reqs w !! p = Some r -> nr_caller r <> c) \/
    told c (nn_calls w) = 0 /\ exists p r, p ∈ concat (NNMDReq_pool w) /\ nn_reqs w !! p = Some r /\ nr_caller r = c /\
      forall q s, nn_reqs w !! q = Some s -> nr_caller s = c -> q = p
  else told c (nn_calls w) = 0.
Proof.
  intros Hc. destruct (decide (map_Exists (fun _ r => nr_caller r = c) (nn_reqs w))) as [Hex|Hno].
  - apply map_Exists_lookup in Hex as (p & r & Hr & Ec). pose proof (co_sub _ _ _ _ _ Hc p r Hr) as Hin. rewrite Ec in Hin. rewrite decide_True by done.
    destruct (open_core _ _ _ _ _ _ _ Hc Hr) as [_ Hok]. rewrite Ec in Hok.
    assert (forall q s, nn_reqs w !! q = Some s -> nr_caller s = c -> q = p) as Hun by (intros q s Hs Es; eapply (co_inj _ _ _ _ _ Hc); eauto; congruence).
    pose proof (rk_told _ _ _ _ _ Hok) as Ht. pose proof (rk_phase _ _ _ _ _ Hok) as Hp. destruct (decide (phase r = Pe)) as [E|E].
    + left. split; [done|]. rewrite E in Hp. destruct Hp as [Hp _]. cbn in Hp. apply bool_decide_eq_false in Hp. intros q s Hq Hs Es. apply Hp. by rewrite <- (Hun q s Hs Es).
    + right. split; [done|]. exists p, r. split_and!; try done. assert (v_pool (view_of R w p) = true) as Hv by (destruct (phase r); try done; apply Hp). by apply bool_decide_eq_true in Hv.
  - assert (forall p r, nn_reqs w !! p = Some r -> nr_caller r <> c) as Hall by (intros p r Hr E; apply Hno, map_Exists_lookup; eauto).
    pose proof (co_hist _ _ _ _ _ Hc c Hall) as Ht. destruct (decide (c ∈ S)); [|done]. left. split; [done|]. eauto.
Qed.

(** The start of the client. *)
Lemma start_ok v res ip port :
  res <> 0 -> is_Some (fc_items v !! res) -> Forall (fun q => is_Some (fc_items v !! q)) (fc_reslist v) -> nn_ok 0 0 ∅ (init_NNClient v res ip port).
Proof.
  intros H1 H2 H3. assert (forall k, concat (replicate k ([] : list Z)) = []) as Hrep by (induction k; done).
  assert (forall k key, table_ok k key ∅ (replicate k [])) as Htab.
  { intros k key. split; [apply length_replicate|rewrite Hrep; constructor|]. intros i l q r Hi Hq Hr. by rewrite lookup_empty in Hr. }
  assert (queue_ok ∅ NNCWker_init_worker) as Hq.
  { split; cbn; [apply Htab|lia|done|]. by exists []. }
  split; [|done]. split; cbn [init_NNClient nn_reqs nn_calls nn_retry]; try done.
  - split; cbn [init_NNClient nn_reqs NNMDReq_pool num_NNMDReq nnMDCH_worker nnMDCM_worker nn_dying]; first [done|apply Htab|by rewrite Hrep|by split|constructor].
  - constructor.
Qed.

Lemma run_invariant v res ip port evs S w :
  1 <= HZ <= 10000 -> res <> 0 -> is_Some (fc_items v !! res) -> Forall (fun q => is_Some (fc_items v !! q)) (fc_reslist v) ->
  nn_runs (init_NNClient v res ip port) evs S w -> Z.of_nat (length evs) + 10 < 2 ^ 31 ->
  nn_ok (Z.of_nat (length evs)) (Z.of_nat (length evs)) S w.
Proof.
  intros HH H1 H2 H3. induction 1 as [|evs S w e w' Hr IH Ha He]; intros Hl; [by apply start_ok|]. rewrite length_app in *. cbn [length] in *.
  pose proof (nn_step_ok (Z.of_nat (length evs)) (Z.of_nat (length evs)) S e w HH) as Hs. unfold twp in Hs. rewrite He in Hs.
  replace (Z.of_nat (length evs + 1)) with (Z.of_nat (length evs) + 1) by lia. apply Hs; try done; try lia. apply IH. lia.
Qed.

End runs.

(** ** Theorems *)


(** One request from its submission to its answer. *)
Definition ex_memory : NNMData_Req_t :=
  {| nr_ReqID := 9; nr_OPCode := 3; nr_prior_low := false; nr_fea := 255; nr_RefCnt := 5; t_sendReq := 1; t_rcvReqAck := 1; nr_vol := 1; nr_lbs := 1; nr_len := 1;
     t_MDReq_last_submitT := 9; t_MDReq_TO_msec := 9; t_MDReq_rTO_msec := 9; t_MDCIReq_rTO_msec := 9;
     nnReq_stat := {| st_nnReq := NNREQ_S_END; st_nnCIReq := NNCIREQ_S_END |}; nr_volReplica := 3; nr_caller := 77 |}.

Definition ex_submit : nn_submit :=
  {| sub_vol := 3; sub_lbs := 10; sub_len := 2; sub_rw := KERNEL_IO_READ; sub_low := true; sub_replica := 3; sub_hit := false; sub_ovw := false;
     sub_hbid_err := false; sub_cache := true; sub_caller := 77 |}.

Definition ex_start : nn_world := init_NNClient ex_nn 64 7 1234.

Definition ex_life : list nn_ev :=
  [Nv_submit 5 30 (Some (100, ex_memory)) ex_submit false; Nv_cm_peek; Nv_cm_fc true 6; Nv_cm_send 7 true 46; Nv_ack 9 1 PR_ENODEV; Nv_free 100].

Definition ex_after (k : nat) : nn_world := match nn_run ms1000 1000 (take k ex_life) ex_start with Returns w _ => w | _ => ex_start end.

Lemma ex_first : nn_runs ms1000 1000 ex_start [Nv_submit 5 30 (Some (100, ex_memory)) ex_submit false] ({[77]} ∪ ∅) (ex_after 1).
Proof.
  refine (Runs_step _ _ _ [] ∅ ex_start (Nv_submit 5 30 (Some (100, ex_memory)) ex_submit false) _ _ _ _);
    [constructor|cbn [nn_allowed]; unfold MIN_NNMDREQ_SCHED_TIME; repeat split; try done; try lia; apply not_elem_of_empty|vm_compute; reflexivity].
Qed.


(** Somebody points at this address. *)
Definition pointed_at (w : nn_world) (p : Z) : Prop :=
  p ∈ concat (NNMDReq_pool w) \/ p ∈ concat (wker_ReqPool (nnMDCH_worker w)) \/ p ∈ concat (wker_ReqPool (nnMDCM_worker w)) \/
  is_Some (nn_timers w !! p) \/ p ∈ nn_dying w \/ cm_req (nn_cm w) = Some p \/ nn_ch w = Some p \/ p ∈ nn_retry w.

(** The queue of a worker: sizes, places, and kinds of its requests. *)
Record queue_wf (w : nn_world) (ch : bool) : Prop := {
  qw_size : NNCWker_get_numReq_workQ (get_wk ch w) = Z.of_nat (length (concat (wker_ReqPool (get_wk ch w))));
  qw_once : NoDup (concat (wker_ReqPool (get_wk ch w)));
  qw_place : forall i l p r, bk_get i (wker_ReqPool (get_wk ch w)) = Some l -> p ∈ l -> nn_reqs w !! p = Some r ->
    i = NNCWker_gain_qlock (nr_ReqID r) (nr_prior_low r) /\ submit_queue r = ch /\ p ∈ concat (NNMDReq_pool w);
}.

Lemma core_pointed n m S w p : core n m S (nn_retry w) w -> pointed_at w p -> is_Some (nn_reqs w !! p).
Proof.
  intros Hc Hp. destruct (nn_reqs w !! p) as [r|] eqn:Hr; [by eexists|]. pose proof (core_dead _ _ _ _ _ _ Hc Hr) as Hv. unfold view_of in Hv.
  injection Hv as _ V1 V2 V3 V4 V5 V6 V7 V8. rewrite bool_decide_eq_false in V1, V2, V3, V5, V6, V7, V8.
  destruct Hp as [H|[H|[H|[[x H]|[H|[H|[H|H]]]]]]]; try (by exfalso); rewrite ?H in *; done.
Qed.

Lemma core_queue n m S R w ch : core n m S R w -> queue_wf w ch.
Proof.
  intros Hc. pose proof (queue_of m ch w (co_shape _ _ _ _ _ Hc)) as [A B C D]. split; [done|apply A|]. intros i l p r Hi Hp Hr.
  pose proof (tb_key _ _ _ _ A i l p r Hi Hp Hr) as ->. split; [done|]. destruct (open_core _ _ _ _ _ _ _ Hc Hr) as [_ Hok].
  assert (v_q ch (view_of R w p) = true) as Hv by (destruct ch; apply bool_decide_eq_true; apply elem_concat; eauto).
  destruct (queued_waits _ _ _ _ _ _ Hok Hv) as (E & Es & _). split; [done|]. pose proof (rk_phase _ _ _ _ _ Hok) as Hph. rewrite E in Hph. destruct Hph as [Hph _].
  by apply bool_decide_eq_true in Hph.
Qed.

(** C16: the client's tables are well-formed.  After any allowed events no lock is held; every address in a list, with a timer, or held by a thread
    is an allocated request; each request of the pool is there once, in the list of its number, and [num_NNMDReq] counts
    them; the queues of both workers have the size they say, hold requests of the pool of the worker's own kind only, each once and in the list of its number
    and priority. *)
Theorem client_well_formed (jiffies_to_msecs : Z -> Z) (HZ : Z) (v : fc_world) (res ip port : Z) (evs : list nn_ev) (S : gset Z) (w : nn_world) :
  1 <= HZ <= 10000 -> res <> 0 -> is_Some (fc_items v !! res) -> Forall (fun q => is_Some (fc_items v !! q)) (fc_reslist v) ->
  nn_runs jiffies_to_msecs HZ (init_NNClient v res ip port) evs S w -> Z.of_nat (length evs) + 10 < 2 ^ 31 ->
  nn_plock w = ∅ /\ (forall p, pointed_at w p -> is_Some (nn_reqs w !! p)) /\
  NNMDReqPool_get_numReq w = Z.of_nat (length (concat (NNMDReq_pool w))) /\ NoDup (concat (NNMDReq_pool w)) /\
  (forall i l p r, bk_get i (NNMDReq_pool w) = Some l -> p ∈ l -> nn_reqs w !! p = Some r -> i = nr_ReqID r mod NNREQ_HBUCKET_SIZE) /\
  queue_wf w true /\ queue_wf w false.
Proof.
  intros HH H1 H2 H3 Hr Hl. pose proof (run_invariant _ _ _ _ _ _ _ _ _ HH H1 H2 H3 Hr Hl) as [Hc HL]. pose proof (co_shape _ _ _ _ _ Hc) as Hs.
  split_and!; [done|intros p; by eapply core_pointed|apply Hs|apply Hs|apply Hs|by eapply core_queue..].
Qed.

Lemma client_well_formed_witness : NNMDReqPool_get_numReq (ex_after 1) = 1 /\ queue_wf (ex_after 1) false.
Proof.
  destruct (client_well_formed ms1000 1000 ex_nn 64 7 1234 [Nv_submit 5 30 (Some (100, ex_memory)) ex_submit false] ({[77]} ∪ ∅) (ex_after 1)) as (_ & _ & _ & _ & _ & _ & H); [lia|lia|vm_compute; eauto| |exact ex_first|vm_compute; reflexivity|].
  - vm_compute. repeat constructor. by eexists.
  - split; [vm_compute; reflexivity|exact H].
Defined.

(** ** Requests with high numbers *)

Definition fails {A} (x : nn A) (w : nn_world) : Prop := x w = Faults.

Lemma fails_bind {A B} (x : nn A) (k : A -> nn B) w : twp x (fun a w' => fails (k a) w') w -> fails (x ≫= k) w.
Proof. unfold twp, fails, mbind, thread_bind. by destruct (x w). Qed.

Lemma fails_first {A B} (x : nn A) (k : A -> nn B) w : fails x w -> fails (x ≫= k) w.
Proof. unfold fails, mbind, thread_bind. by intros ->. Qed.

(** The timeout handler of such a request releases a lock that does not exist. *)
Lemma timeout_high n m S R p cl rt c h w r v t :
  m + 1 < 2 ^ 31 -> n + 8 < 2 ^ 31 -> opened n m S R (rt, ∅, c, h) p cl w r v t -> req_ok n 1 t r v -> NNMDReq_check_acquire r = true -> phase r <> Pe -> NNREQ_HBUCKET_SIZE <= nr_ReqID r ->
  fails (_NNMDReq_TO_chkState p) w.
Proof.
  intros Hm Hn Ho Hok Ha Hne Hid. destruct (rk_id _ _ _ _ _ Hok) as [Hu _]. unfold is_u32, NNREQ_HBUCKET_SIZE in *.
  unfold _NNMDReq_TO_chkState. apply fails_bind, (twp_get_nr _ r); [by eapply opened_lookup|]. cbv zeta.
  assert (forall w', fails (NNMDReqPool_rel_plock (s32 (nr_ReqID r))) w') as Hrel.
  { intros w'. unfold fails, NNMDReqPool_rel_plock, NNREQ_HBUCKET_SIZE. destruct (_ && _) eqn:E; [|done]. apply andb_true_iff in E as [E1 E2]. zbool.
    destruct (Z_lt_le_dec (nr_ReqID r) (2 ^ 31)) as [Hlt|Hge]; [rewrite s32_small in * by (unfold is_s32; lia); lia|].
    unfold s32 in E1. rewrite <- (Z.mod_add _ (-1)) in E1 by lia. rewrite Z.mod_small in E1; lia. }
  apply fails_bind. eapply twp_mono; [eapply open_lock; [exact Ho|set_solver]|]. cbn beta. intros i w1 [-> H1].
  apply fails_bind. eapply twp_mono; [eapply open_event; exact H1|]. cbn beta. intros a w2 [-> H2]. pose proof (get_event_phase r NNREQ_E_TimeoutFire Ha) as He.
  pose proof (rk_phase _ _ _ _ _ Hok) as Hph. pose proof (rk_pool _ _ _ _ _ Hok) as Hp. apply fails_bind.
  destruct (phase r) eqn:E; try done; destruct (He ltac:(done)) as [E1 ->].
  4: { apply twp_ret. by apply fails_first. }
  all: destruct Hph as [Hv _]; rewrite Hv in Hp; apply twp_bind; eapply twp_mono; [eapply open_test_clear; exact H2|]; cbn beta; intros b w3 [-> H3].
  all: change (NNMDReq_check_feature (r_event NNREQ_E_TimeoutFire r) NNREQ_FEA_IN_REQPOOL) with (NNMDReq_check_feature r NNREQ_FEA_IN_REQPOOL); rewrite Hp.
  all: apply twp_bind; eapply twp_mono; [eapply open_pool_del; [exact Hm|exact H3|by vsimp]|]; cbn beta; intros _ w4 H4; apply twp_ret; by apply fails_first.
Qed.

(** C37: timeouts of all requests but the first 4000 bring the client down.  Whenever the timer of an acquire request with a number of 4001
    or more fires, the handler releases a lock beyond the end of the array of locks. *)
Theorem timeout_high_faults (jiffies_to_msecs : Z -> Z) (HZ n m : Z) (S : gset Z) (w : nn_world) (p : Z) (r : NNMData_Req_t) :
  nn_ok n m S w -> n + 8 < 2 ^ 31 -> m + 1 < 2 ^ 31 -> nn_reqs w !! p = Some r -> is_Some (nn_timers w !! p) ->
  NNMDReq_check_acquire r = true -> NNREQ_HBUCKET_SIZE <= nr_ReqID r ->
  nn_step jiffies_to_msecs HZ (Nv_timer p) w = Faults.
Proof.
  intros [Hc HL] Hn Hm Hr [[d b] Ht] Ha Hid. change (fails (nn_step jiffies_to_msecs HZ (Nv_timer p)) w). cbn [nn_step]. apply fails_bind, twp_gets. rewrite Ht.
  destruct (open_core _ _ _ _ _ _ _ Hc Hr) as [Ho Hok]. set (v := view_of (nn_retry w) w p) in *.
  assert (v_timer v = Some b) as Hv by (unfold v; cbn; by rewrite Ht). set (t := told (nr_caller r) (nn_calls w)) in *. clearbody v t.
  destruct (rk_timer _ _ _ _ _ Hok b Hv) as (-> & _ & Hne).
  unfold timer_fires. apply fails_bind. unfold twp, nn_opt. rewrite Ht. apply fails_bind, twp_modify. cbn [snd]. rewrite Ha. unfold NNMDReq_acquire_TOfunc.
  pose proof (open_timers _ _ _ _ _ _ _ _ _ _ _ (delete p (nn_timers w)) None Ho (fun x Hx => lookup_delete_ne _ _ _ (not_eq_sym Hx)) ltac:(by rewrite lookup_delete_eq)) as H1.
  assert (req_ok n 0 t r (vs_timer None v)) as Hok1 by (destruct Hok; split; vsimp; done).
  apply fails_bind. eapply twp_mono; [eapply open_ref; [exact H1|in_range Hn Hok1]|]. cbn beta. intros _ w1 H2. apply fails_first.
  unfold misc in H2. rewrite HL in H2. eapply timeout_high; [exact Hm|exact Hn|exact H2|exact (req_ok_ref _ _ _ 1 _ _ Hok1)|exact Ha|exact Hne|exact Hid].
Qed.

(** The first request after 4000 others. *)
Definition ex_high : nn_world :=
  match submit_NNMDReq ms1000 1000 5 30 (Some (100, ex_memory)) ex_submit false (set_nn_gen 4000 ex_start) with Returns w _ => w | _ => ex_start end.

Lemma ex_high_ok : nn_ok 0 1 ({[77]} ∪ ∅) ex_high.
Proof.
  assert (nn_ok 0 0 ∅ (set_nn_gen 4000 ex_start)) as H0.
  { assert (nn_ok 0 0 ∅ ex_start) as [H1 H2]; [apply start_ok; [done|vm_compute; eauto|vm_compute; repeat constructor; by eexists]|]. split; [|done]. by eapply core_silent. }
  pose proof (submit_ok ms1000 1000 0 0 ∅ _ 5 30 100 ex_memory ex_submit false H0) as H. unfold ex_high. unfold twp in H.
  destruct (submit_NNMDReq _ _ _ _ _ _ _) as [w a| |]; [apply H|exfalso; apply H..]; try done; try lia; apply not_elem_of_empty.
Qed.

Lemma timeout_high_faults_witness : exists r, nn_reqs ex_high !! 100 = Some r /\ nr_ReqID r = 4001 /\ nn_step ms1000 1000 (Nv_timer 100) ex_high = Faults.
Proof.
  destruct (nn_reqs ex_high !! 100) as [r|] eqn:E; [|vm_compute in E; discriminate]. exists r. split; [done|].
  assert (nr_ReqID r = 4001 /\ NNMDReq_check_acquire r = true) as [E1 E2] by (vm_compute in E; injection E as <-; vm_compute; done). split; [exact E1|].
  apply (timeout_high_faults ms1000 1000 0 1 ({[77]} ∪ ∅) ex_high 100 r ex_high_ok); [lia|lia|exact E|vm_compute; eauto|exact E2|rewrite E1; vm_compute; discriminate].
Defined.
