(* ===== verification/PLReqTotal.v ===== *)
(** * PLReqTotal: payload requests that finish, block or dangle

    Total correctness of the handlers of [PLReqIO]: no handler of a write blocks on
    itself or leaves an array, a write whose replicas all reached the disk or failed
    there has ended, and the first data completes a read; a timer that waits for
    itself; a request that is freed while it is linked.  For writes the setting
    without the early end of slow writes ([high_resp_write_io] off) is assumed; what
    happens with it is in [PLReqLife]. *)

From S2P Require Import Prelude CommonUtil Fsm IOReqOvlp PLReqFsm MDataCommit PLReqIO PLReqLife.

Arguments Z.testbit : simpl never.
Arguments Z.setbit : simpl never.
Arguments Z.clearbit : simpl never.

(** ** Handlers that return *)

(** A handler that returns satisfies what holds when it returns. *)
Lemma twp_wp {S A} (m : thread S A) (P Q : A -> S -> Prop) w :
  twp m P w -> wp m Q w -> twp m (fun a w' => P a w' /\ Q a w') w.
Proof. unfold twp, wp. by destruct (m w). Qed.

Ltac twp_case := match goal with |- twp (match ?x with _ => _ end) _ _ => destruct x eqn:? end.

(** ** Operations that always return *)

(** Nobody holds the timer control or runs the timer work, and the buckets are there. *)
Definition sound (w : pl_world) : Prop :=
  Z.testbit (ReqFeature (w_req w)) (PLReq_fea_num PLREA_FEA_TIMER_SetCtrl) = false /\
  work_running w = false /\ Z.of_nat (length (arr_DNUDReq (w_req w))) = MAX_NUM_REPLICA.

(** What the operations leave alone besides what is observed. *)
Definition same_ctl (w w' : pl_world) : Prop :=
  sound w' /\ ReqRefCnt (w_req w') = ReqRefCnt (w_req w) /\ rTO_chk_cnt (w_req w') = rTO_chk_cnt (w_req w) /\
  num_DNUDReq (w_req w') <= num_DNUDReq (w_req w) /\ (work_queued w' = true -> work_queued w = true).

Definition tame {A} (m : pl A) : Prop :=
  forall w, sound w -> twp m (fun _ w' => obs w' = obs w /\ same_ctl w w') w.

Lemma same_ctl_trans w1 w2 w3 : same_ctl w1 w2 -> same_ctl w2 w3 -> same_ctl w1 w3.
Proof.
  intros (S1 & R1 & C1 & N1 & Q1) (S2 & R2 & C2 & N2 & Q2). unfold same_ctl.
  rewrite R2, C2. repeat split; try done; try apply S2; [lia|auto].
Qed.

Lemma tame_bind {A B} (m : pl A) (k : A -> pl B) : tame m -> (forall a, tame (k a)) -> tame (m ≫= k).
Proof.
  intros Hm Hk w Hw. apply twp_bind. eapply twp_mono; [by apply Hm|]. simpl. intros a w' [E C].
  eapply twp_mono; [apply Hk, C|]. simpl. intros b w2 [E2 C2]. split; [congruence|]. by eapply same_ctl_trans.
Qed.

Lemma same_ctl_refl w : sound w -> same_ctl w w.
Proof. intros H. repeat split; try done; try apply H; lia. Qed.

Lemma tame_ret {A} (a : A) : tame (mret a).
Proof. intros w H. apply twp_ret. split; [done|by apply same_ctl_refl]. Qed.

Lemma tame_get_req {A} (f : payload_req_t -> A) : tame (get_req f).
Proof. intros w H. apply twp_gets. split; [done|by apply same_ctl_refl]. Qed.

Lemma tame_gets {A} (f : pl_world -> A) : tame (gets f).
Proof. intros w H. apply twp_gets. split; [done|by apply same_ctl_refl]. Qed.

Lemma tame_modify f :
  (forall w, obs (f w) = obs w /\ w_req (f w) = w_req w /\ work_running (f w) = work_running w /\
             (work_queued (f w) = true -> work_queued w = true)) -> tame (modify f).
Proof.
  intros H w (S1 & S2 & S3). apply twp_modify. destruct (H w) as (E1 & E2 & E3 & E4).
  split; [done|]. unfold same_ctl, sound. rewrite E2, E3. repeat split; try done; lia.
Qed.

Lemma tame_upd f :
  (forall r, plReq_stat (f r) = plReq_stat r /\ mdata_item (f r) = mdata_item r /\ ReqOPCode (f r) = ReqOPCode r /\
     ReqFeature (f r) = ReqFeature r /\ length (arr_DNUDReq (f r)) = length (arr_DNUDReq r) /\
     ReqRefCnt (f r) = ReqRefCnt r /\ rTO_chk_cnt (f r) = rTO_chk_cnt r /\ num_DNUDReq (f r) <= num_DNUDReq r) ->
  tame (upd_req f).
Proof.
  intros H w (S1 & S2 & S3). apply twp_modify.
  destruct (H (w_req w)) as (E1 & E2 & E3 & E4 & E5 & E6 & E7 & E8).
  split; [unfold obs, settles, tells; simpl; congruence|].
  unfold same_ctl, sound. simpl. rewrite E4, E5, E6, E7. done.
Qed.

Lemma tame_call c : is_settle c = false -> is_tell c = false -> tame (call c).
Proof.
  intros H1 H2 w Hw. apply twp_modify. split.
  - unfold obs, settles, tells. simpl. by rewrite !count_calls_snoc, H1, H2, !Nat.add_0_r.
  - repeat split; try done; try apply Hw.
Qed.

Lemma tame_for_each {A} (l : list A) body : (forall x, tame (body x)) -> tame (for_each l body).
Proof. intros H. induction l as [|x l IH]; simpl; [apply tame_ret|]. by apply tame_bind. Qed.

#[local] Hint Resolve tame_ret tame_gets tame_get_req : disco.

Ltac tamely :=
  repeat first
    [ progress intros
    | solve [auto with disco]
    | apply tame_bind
    | apply tame_for_each
    | apply tame_upd; intros; simpl; repeat split; reflexivity || lia
    | apply tame_modify; intros; simpl; repeat split; done
    | apply tame_call; reflexivity
    | match goal with |- tame (if ?b then _ else _) => destruct b end ].

Definition not_ctrl (f : PLReq_fea_t) : Prop := f <> PLREA_FEA_TIMER_SetCtrl.

(** A feature that is not the timer control does not touch it. *)
Lemma tame_fea_op (op : Z -> Z -> Z) f :
  not_ctrl f -> (forall x, Z.testbit (op x (PLReq_fea_num f)) 4 = Z.testbit x 4) ->
  tame (upd_req (fun r => set_ReqFeature (op (ReqFeature r) (PLReq_fea_num f)) r)).
Proof.
  intros _ Hop w Hw. apply twp_modify. split; [done|].
  destruct Hw as (S1 & S2 & S3). unfold same_ctl, sound. simpl in *. rewrite Hop. repeat split; try done; lia.
Qed.

Lemma tame_set_fea f : not_ctrl f -> tame (set_PLReq_fea f).
Proof. intros H. apply tame_fea_op; [done|]. intros x. apply Z.setbit_neq; destruct f; simpl; done || lia. Qed.

Lemma tame_clear_fea f : not_ctrl f -> tame (clear_PLReq_fea f).
Proof. intros H. apply tame_fea_op; [done|]. intros x. apply Z.clearbit_neq; destruct f; simpl; done || lia. Qed.

Lemma tame_check_fea f : tame (check_PLReq_fea f).
Proof. unfold check_PLReq_fea. tamely. Qed.

Lemma not_ctrl_pool : not_ctrl PLREQ_FEA_IN_REQPOOL.
Proof. done. Qed.
Lemma not_ctrl_timer : not_ctrl PLREQ_FEA_TIMER_ON.
Proof. done. Qed.
#[local] Hint Resolve tame_set_fea tame_clear_fea tame_check_fea not_ctrl_pool not_ctrl_timer : disco.

Lemma tame_add_pool : tame PLReq_add_ReqPool.
Proof. unfold PLReq_add_ReqPool, test_and_set_PLReq_fea. tamely. Qed.
Lemma tame_rm_pool : tame PLReq_rm_ReqPool.
Proof. unfold PLReq_rm_ReqPool, test_and_clear_PLReq_fea. tamely. Qed.
Lemma tame_add_caller : tame add_PLReq_CallerReq.
Proof. unfold add_PLReq_CallerReq. tamely. Qed.
Lemma tame_rm_caller : tame rm_PLReq_CallerReq.
Proof. unfold rm_PLReq_CallerReq. tamely. Qed.
Lemma tame_copy_times a b : tame (copy_times a b).
Proof. unfold copy_times. tamely. Qed.

Lemma tame_set_bucket i x : 0 <= i < MAX_NUM_REPLICA -> tame (set_bucket i x).
Proof.
  intros Hi w Hw. unfold set_bucket. apply twp_bind, twp_gets. destruct Hw as (S1 & S2 & S3).
  destruct (_ && _) eqn:E.
  - apply tame_upd; [|done]. intros r. simpl. rewrite length_insert. repeat split; lia.
  - apply andb_false_iff in E as [E|E]; zbool; lia.
Qed.

Lemma tame_rm_DNUDReq i : 0 <= i < MAX_NUM_REPLICA -> tame (PLReq_rm_DNUDReq i).
Proof. intros Hi. unfold PLReq_rm_DNUDReq. apply tame_bind; [by apply tame_set_bucket|tamely]. Qed.

Lemma tame_cancel_bucket s i : (i < 3)%nat -> tame (cancel_bucket s i).
Proof.
  intros Hi. unfold cancel_bucket. destruct (_ =? s); [tamely|]. apply tame_bind; [tamely|]. intros x.
  destruct (x =? _); [tamely|]. apply tame_bind; [apply tame_set_bucket; unfold MAX_NUM_REPLICA; lia|tamely].
Qed.

Lemma tame_cancel_loop s : tame (for_each replica_indices (cancel_bucket s)).
Proof.
  change replica_indices with [0; 1; 2]%nat. simpl.
  repeat (apply tame_bind; [apply tame_cancel_bucket; lia|intros _]). apply tame_ret.
Qed.
#[local] Hint Resolve tame_add_pool tame_rm_pool tame_add_caller tame_rm_caller tame_copy_times tame_rm_DNUDReq
  tame_cancel_loop : disco.

Lemma tame_cancel_DNUDReq s : tame (PLReq_cancel_DNUDReq s).
Proof. unfold PLReq_cancel_DNUDReq. apply tame_bind; [tamely|]. intros n. destruct (if s =? -1 then _ else _); auto with disco. Qed.
Lemma tame_free_allDNReq : tame _PLReq_free_allDNReq.
Proof. unfold _PLReq_free_allDNReq. apply tame_bind; [tamely|]. intros n. destruct (n =? 0); auto with disco. Qed.

(** Taking and giving back the timer control around an operation. *)
Lemma tame_with_ctrl {A} (m : pl A) :
  (forall w, Z.testbit (ReqFeature (w_req w)) 4 = true -> work_running w = false ->
     twp m (fun _ w' => obs w' = obs w /\ work_running w' = false /\
       arr_DNUDReq (w_req w') = arr_DNUDReq (w_req w) /\ num_DNUDReq (w_req w') = num_DNUDReq (w_req w) /\
       ReqRefCnt (w_req w') = ReqRefCnt (w_req w) /\ rTO_chk_cnt (w_req w') = rTO_chk_cnt (w_req w) /\
       (work_queued w' = true -> work_queued w = true)) w) ->
  tame (_gain_PLReq_timer_ctrl;; (a ← m; (_rel_PLReq_timer_ctrl;; mret a))).
Proof.
  intros Hm w (S1 & S2 & S3). unfold _gain_PLReq_timer_ctrl, test_and_set_PLReq_fea, check_PLReq_fea.
  apply twp_bind, twp_bind, twp_bind, twp_gets. rewrite S1. apply twp_bind, twp_modify, twp_ret, twp_ret, twp_bind.
  eapply twp_mono; [apply Hm; [by apply Z.setbit_eq|done]|]. simpl.
  intros a w' (E1 & E2 & E3 & E4 & E5 & E6 & E7). apply twp_bind, twp_modify, twp_ret.
  split; [by transitivity (obs w'); [|rewrite E1]|]. unfold same_ctl, sound. simpl. rewrite E2, E3, E4, E5, E6, Z.clearbit_eq.
  repeat split; done || lia.
Qed.

Lemma tame_ext {A} (m m' : pl A) : (forall w, m w = m' w) -> tame m' -> tame m.
Proof. intros E H w Hw. unfold twp. rewrite E. by apply H. Qed.

Lemma tame_cancel_timer : tame PLReq_cancel_timer.
Proof.
  eapply tame_ext; [|apply (tame_with_ctrl (on ← test_and_clear_PLReq_fea PLREQ_FEA_TIMER_ON;
    if on : bool then running ← gets work_running;
      if running : bool then blocks else modify (fun w => set_work false (work_running w) w)
    else mret tt))].
  - intros w. unfold PLReq_cancel_timer, mbind, thread_bind. destruct (_gain_PLReq_timer_ctrl w) as [w1 u| |]; try done.
    destruct (test_and_clear_PLReq_fea PLREQ_FEA_TIMER_ON w1) as [w2 b| |]; try done.
    destruct b; [|by destruct u]. unfold gets. by destruct (work_running w2).
  - intros w _ Hr. unfold test_and_clear_PLReq_fea, check_PLReq_fea.
    apply twp_bind, twp_bind, twp_gets, twp_bind, twp_modify, twp_ret.
    destruct (Z.testbit _ _); [|by apply twp_ret].
    apply twp_bind, twp_gets. simpl. rewrite Hr. by apply twp_modify.
Qed.
#[local] Hint Resolve tame_cancel_DNUDReq tame_free_allDNReq tame_cancel_timer : disco.

(** Scheduling the timer queues its work. *)
Lemma schedule_timer_twp w :
  sound w ->
  twp PLReq_schedule_timer (fun _ w' => obs w' = obs w /\ sound w' /\ ReqRefCnt (w_req w') = ReqRefCnt (w_req w) /\
    rTO_chk_cnt (w_req w') = rTO_chk_cnt (w_req w) /\ num_DNUDReq (w_req w') = num_DNUDReq (w_req w)) w.
Proof.
  intros (S1 & S2 & S3). unfold PLReq_schedule_timer. apply twp_bind, twp_gets. destruct (_ <? _); [by apply twp_ret|].
  unfold _gain_PLReq_timer_ctrl, test_and_set_PLReq_fea, check_PLReq_fea, _rel_PLReq_timer_ctrl.
  apply twp_bind, twp_bind, twp_bind, twp_gets. rewrite S1. apply twp_bind, twp_modify, twp_ret, twp_ret.
  apply twp_bind, twp_bind, twp_gets, twp_bind, twp_modify, twp_ret, twp_bind.
  destruct (Z.testbit _ (PLReq_fea_num PLREQ_FEA_TIMER_ON)).
  1: apply twp_ret, twp_bind, twp_modify, twp_ret.
  2: apply twp_bind, twp_modify, twp_ret, twp_bind, twp_modify, twp_ret.
  all: split; [done|]; unfold sound; simpl; rewrite Z.clearbit_eq; done.
Qed.

(** ** The handlers of a write return *)

(** A request that is not freed: its item, its state, its references. *)
Definition phase (op : iorw_dir_t) (md : metaD_item_t) (st : PLReq_fsm_t) (refs : Z) (w : pl_world) : Prop :=
  sound w /\ ReqRefCnt (w_req w) = refs /\ ReqOPCode (w_req w) = op /\ freed w = false /\
  (work_queued w = true -> 2 <= rTO_chk_cnt (w_req w)) /\ mdata_item (w_req w) = md /\ plReq_stat (w_req w) = st.

Lemma phase_tame {A} (m : pl A) op md st c Q w :
  tame m -> phase op md st c w -> (forall a w', phase op md st c w' -> Q a w') -> twp m Q w.
Proof.
  intros Hm (S1 & S2 & S3 & S4 & S5 & S6 & S7) HQ. eapply twp_mono; [by apply Hm|]. simpl.
  intros a w' [[= E1 E2 E3 E4 E5 E6] (C1 & C2 & C3 & C4 & C5)]. apply HQ. unfold phase.
  rewrite C2, C3, E3, E4, E5, E6. split; [done|]. repeat split; auto.
Qed.

(** A phase after an update that does not concern it. *)
Ltac phase_again S := unfold phase; simpl; split; [exact S|]; repeat split; auto; lia.

Ltac tame_step :=
  apply twp_bind; eapply phase_tame; [solve [tamely]|eassumption|];
  match goal with H : phase _ _ _ _ ?w |- _ => clear w H end; intros ? ? ?.

Definition waiting : PLReq_fsm_t := {| st_plReq := PLREQ_S_WAIT_IO_DONE |}.
Definition ended : PLReq_fsm_t := {| st_plReq := PLREQ_S_CI_CALLER |}.

(** What remains of a request that was freed. *)
Definition gone (op : iorw_dir_t) (w : pl_world) : Prop :=
  sound w /\ ReqRefCnt (w_req w) = 0 /\ ReqOPCode (w_req w) = op /\
  (work_queued w = true -> 2 <= rTO_chk_cnt (w_req w)) /\ freed w = true.

Lemma free_twp op md st w : phase op md st 1 w -> twp (deref_and_free true) (fun _ => gone op) w.
Proof.
  intros (S1 & S2 & S3 & S4 & S5 & S6 & S7). unfold deref_and_free. apply twp_bind, twp_modify.
  unfold PLMgr_free_PLReq. apply twp_bind. apply (phase_tame _ op md st 0); [auto with disco| |].
  { phase_again S1. }
  intros _ w1 (T1 & T2 & T3 & T4 & T5 & T6 & T7). unfold PLReq_free_Req. apply twp_bind, twp_gets. rewrite T2.
  apply twp_modify. unfold gone. simpl. split; [exact T1|]. repeat split; auto.
Qed.

Lemma end_twp op md st refs res n w :
  phase op md st refs w -> twp (PLReq_endReq res n) (fun _ => phase op md st refs) w.
Proof.
  intros (S1 & S2). unfold PLReq_endReq. apply twp_bind, twp_gets, twp_modify. split; [exact S1|exact S2].
Qed.

Abbreviation wphase := (phase KERNEL_IO_WRITE).

Lemma tell_twp md md' st refs r w (m : pl unit) :
  wphase md st refs w ->
  m = (upd_md (fun _ => md');; if ciUser r then ciUser_CallerReq (ciUser_ret r) else mret tt) ->
  twp m (fun _ => wphase md' st refs) w.
Proof.
  intros (S1 & S2 & S3 & S4 & S5 & S6 & S7) ->. apply twp_bind, twp_modify.
  destruct (ciUser r); [apply twp_bind, twp_modify, twp_bind, twp_gets, twp_modify|apply twp_ret];
    (split; [exact S1|]; by repeat split).
Qed.

Lemma twp_bind_assoc {S A B C} (m : thread S A) (k : A -> thread S B) (h : B -> thread S C) Q w :
  twp ((m ≫= k) ≫= h) Q w -> twp (m ≫= fun a => k a ≫= h) Q w.
Proof. unfold twp, mbind, thread_bind. by destruct (m w). Qed.

Lemma writeDN_twp cfg s ts ta bk i md md1 w :
  wphase md waiting 0 w -> MData_update_DNUDataStat md (Z.to_nat i) s = Some md1 -> 0 <= i -> 0 <= bk < MAX_NUM_REPLICA ->
  twp (PLReq_writeDN_endfn cfg s ts ta bk i)
    (fun _ w' => let '(md2, r) := MData_writeAck_commitResult md1 s (CommitUser_min_DiskAck cfg) in
       if ciMDS r then gone KERNEL_IO_WRITE w' else wphase md2 waiting 0 w') w.
Proof.
  intros (S1 & S2 & S3 & S4 & S5 & S6 & S7) Hi Hi0 Hb. unfold PLReq_writeDN_endfn.
  apply twp_bind, twp_modify.
  set (w1 := set_w_req _ _). assert (H1 : wphase md waiting 1 w1).
  { phase_again S1. }
  clearbody w1. clear - H1 Hi Hi0 Hb. tame_step.
  apply twp_bind. unfold update_DNUDataStat. apply twp_bind, twp_gets.
  destruct H as (S1 & S2 & S3 & S4 & S5 & S6 & S7). rewrite S6, Hi, (proj2 (Z.leb_le 0 i) Hi0). apply twp_modify.
  set (w1 := set_w_req _ _). assert (H1 : wphase md1 waiting 1 w1).
  { phase_again S1. }
  clearbody w1. clear - H1 Hb. apply twp_bind. apply (phase_tame _ KERNEL_IO_WRITE md1 waiting 1); [|done|].
  { destruct (bool_decide _); auto with disco. }
  clear w1 H1. intros _ w1 H1. apply twp_bind, twp_gets.
  pose proof H1 as (_ & _ & _ & _ & _ & -> & _).
  destruct (MData_writeAck_commitResult md1 s _) as [md2 r].
  apply twp_bind_assoc, twp_bind. eapply twp_mono; [by eapply tell_twp|]. cbv beta. clear w1 H1. intros _ w1 H1.
  apply twp_bind. destruct (ciMDS r).
  - apply twp_bind. unfold twp, update_state. pose proof H1 as (S1 & S2 & S3 & S4 & S5 & S6 & S7). rewrite S7. simpl.
    set (w2 := set_w_req _ _). assert (H2 : wphase md2 ended 1 w2).
    { phase_again S1. }
    clearbody w2. clear - H2. do 4 tame_step. apply twp_bind.
    eapply twp_mono; [by apply (end_twp KERNEL_IO_WRITE md2 ended 1)|]. cbv beta. intros _ w3 H3. apply twp_ret.
    by eapply free_twp.
  - apply twp_ret. unfold deref_and_free. apply twp_bind, twp_modify, twp_ret.
    destruct H1 as (S1 & S2 & S3 & S4 & S5 & S6 & S7). phase_again S1.
Qed.

(** The timer only looks at a write it keeps waiting for. *)
Lemma timer_twp cfg ms md w :
  high_resp_write_io cfg = false -> wphase md waiting 0 w -> work_queued w = true ->
  twp (run_timer_work cfg ms) (fun _ => wphase md waiting 0) w.
Proof.
  intros Hc (S1 & S2 & S3 & S4 & S5 & S6 & S7) Hq. specialize (S5 Hq).
  unfold run_timer_work. apply twp_bind, twp_modify, twp_bind.
  unfold PLReq_TO_handler_gut. apply twp_bind, twp_modify, twp_bind, twp_modify, twp_bind.
  unfold twp at 1, update_state. simpl. rewrite S7. simpl. apply twp_bind, twp_bind, twp_gets. simpl. rewrite S3.
  unfold _writePLReq_TO_handle. apply twp_bind, twp_gets.
  assert (E : forall w', rTO_chk_cnt (w_req w') = rTO_chk_cnt (w_req w) - 1 -> _chk_wPLReq_wait cfg ms w' = true).
  { intros w' E. unfold _chk_wPLReq_wait. rewrite E, (proj2 (Z.leb_gt _ _)) by lia. rewrite Hc.
    by destruct (negb _). }
  rewrite E by done. apply twp_bind. unfold twp at 1, update_state. simpl. apply twp_ret.
  unfold deref_and_free. apply twp_bind, twp_modify, twp_ret, twp_modify.
  destruct S1 as (T1 & T2 & T3).
  unfold phase, sound. simpl. repeat split; auto; [lia|congruence].
Qed.

(** ** Submission *)

Lemma next_create_twp w :
  sound w -> twp next_create (fun _ w' => obs w' = obs w /\ same_ctl w w' /\ num_DNUDReq (w_req w') = num_DNUDReq (w_req w)) w.
Proof.
  intros H. unfold next_create. apply twp_bind, twp_gets, twp_bind, twp_modify, twp_ret.
  split; [done|]. split; [|done]. repeat split; try done; try apply H.
Qed.

Lemma tame_gen_DNUDReqID : tame DNClientMgr_gen_DNUDReqID.
Proof. unfold DNClientMgr_gen_DNUDReqID. tamely. Qed.

Lemma tame_submit_DN mk i b :
  0 <= b < MAX_NUM_REPLICA -> (forall x y z, is_settle (mk x y z) = false /\ is_tell (mk x y z) = false) ->
  tame (submit_DNUData_Request mk i b).
Proof.
  intros Hb Hmk. unfold submit_DNUData_Request. apply tame_bind.
  { intros w H. eapply twp_mono; [by apply next_create_twp|]. simpl. tauto. }
  intros [| |].
  - apply tame_bind; [apply tame_gen_DNUDReqID|]. intros id. apply tame_bind; [by apply tame_set_bucket|]. intros _.
    apply tame_bind; [apply tame_call; apply Hmk|tamely].
  - tamely.
  - apply tame_bind; [apply tame_gen_DNUDReqID|tamely].
Qed.

Lemma submit_num mk i b w :
  wp (submit_DNUData_Request mk i b) (fun _ w' => num_DNUDReq (w_req w') = num_DNUDReq (w_req w)) w.
Proof.
  unfold submit_DNUData_Request, next_create. apply wp_bind, wp_bind, wp_gets, wp_bind, wp_modify, wp_ret.
  wp_case; [|by apply wp_ret|].
  - apply wp_bind, wp_bind, wp_modify, wp_gets, wp_bind. unfold set_bucket. apply wp_bind, wp_gets.
    destruct (_ && _); [|done]. by apply wp_modify, wp_bind, wp_modify, wp_ret.
  - by apply wp_bind, wp_bind, wp_modify, wp_gets, wp_ret.
Qed.

(** The bucket of replica [i] is [i]: the loop never leaves the array. *)
Lemma gen_write_twp n i ret w :
  sound w -> num_DNUDReq (w_req w) = i -> 0 <= i -> i + Z.of_nat n <= MAX_NUM_REPLICA ->
  twp (gen_write_loop n i ret) (fun _ w' => obs w' = obs w /\ sound w' /\ ReqRefCnt (w_req w') = ReqRefCnt (w_req w) /\
    rTO_chk_cnt (w_req w') = rTO_chk_cnt (w_req w)) w.
Proof.
  revert i ret w. induction n as [|n IH]; intros i ret w Hw Hn Hi Hle; cbn [gen_write_loop]; [by apply twp_ret|].
  unfold PLReq_allocBK_DNUDReq. apply twp_bind, twp_bind, twp_modify, twp_bind, twp_gets, twp_ret. simpl. rewrite Hn.
  replace (i + 1 - 1) with i by lia. rewrite Z.geb_leb, (proj2 (Z.leb_gt _ _)), Z.gtb_ltb, Z.ltb_irrefl by lia.
  apply twp_bind, twp_modify, twp_bind.
  set (w1 := set_w_req _ _). assert (Hw1 : sound w1) by exact Hw.
  assert (Hb : 0 <= i < MAX_NUM_REPLICA) by lia.
  pose proof (tame_submit_DN CallDNWrite i i Hb (fun _ _ _ => conj eq_refl eq_refl) w1 Hw1) as T.
  eapply twp_mono; [exact (twp_wp _ _ _ _ T (submit_num CallDNWrite i i w1))|].
  intros r w2 [[E (C1 & C2 & C3 & _)] Hn2].
  eapply twp_mono; [apply IH; [done| |lia|lia]|].
  - rewrite Hn2. simpl. lia.
  - intros _ w3 (F1 & F2 & F3 & F4). rewrite F1, F3, F4, E, C2, C3. split; [done|]. by split.
Qed.

(** A submitted write waits for its replicas. *)
Lemma submit_write_twp md w :
  wphase md PLReq_init_fsm 0 w -> num_DNUDReq (w_req w) = 0 -> 2 <= rTO_chk_cnt (w_req w) ->
  num_dnLoc md <= MAX_NUM_REPLICA ->
  twp _submit_write_PLReq (fun _ => wphase md waiting 0) w.
Proof.
  intros (S1 & S2 & S3 & S4 & S5 & S6 & S7) Hn Hc Hd. unfold _submit_write_PLReq.
  apply twp_bind, twp_modify, twp_bind. set (w1 := set_w_req _ _).
  assert (P1 : wphase md PLReq_init_fsm 1 w1).
  { phase_again S1. }
  assert (N1 : num_DNUDReq (w_req w1) = 0 /\ 2 <= rTO_chk_cnt (w_req w1)) by done.
  clearbody w1. clear - P1 N1 Hd.
  assert (A : twp PLReq_add_ReqPool (fun _ w2 => wphase md PLReq_init_fsm 1 w2 /\
    num_DNUDReq (w_req w2) = 0 /\ 2 <= rTO_chk_cnt (w_req w2)) w1).
  { apply (twp_mono _ (fun _ w2 => wphase md PLReq_init_fsm 1 w2 /\ (num_DNUDReq (w_req w2) = 0 /\ 2 <= rTO_chk_cnt (w_req w2)))).
    - apply twp_wp; [eapply phase_tame; [auto with disco|exact P1|done]|].
      unfold PLReq_add_ReqPool, test_and_set_PLReq_fea, check_PLReq_fea.
      apply wp_bind, wp_bind, wp_gets, wp_bind, wp_modify, wp_ret. wp_case; [by apply wp_ret|].
      by apply wp_bind, wp_modify, wp_ret.
    - done. }
  eapply twp_mono; [exact A|]. cbv beta. clear w1 P1 N1 A. intros _ w1 (P1 & N1 & C1).
  apply twp_bind, twp_bind, twp_modify, twp_modify.
  destruct P1 as (S1 & S2 & S3 & S4 & S5 & S6 & S7).
  apply twp_bind. unfold twp at 1, update_state. simpl. rewrite S7. simpl. apply twp_bind, twp_bind.
  eapply twp_mono; [by apply schedule_timer_twp|]. intros _ w2 (E & T1 & T2 & T3 & T4). simpl in T2, T3, T4.
  injection E as E1 E2 E3 E4 E5 E6. simpl in *.
  apply twp_bind. unfold _gen_submit_DNWriteReq. apply twp_bind, twp_gets. rewrite E3, S6.
  eapply twp_mono; [apply gen_write_twp; [done|lia|lia|unfold MAX_NUM_REPLICA in *; lia]|].
  intros _ w3 ([= F1 F2 F3 F4 F5 F6] & U1 & U2 & U3). apply twp_ret, twp_modify.
  unfold phase. simpl. split; [exact U1|]. rewrite F3, F4, F5, F6, U2, U3, E3, E4, E5, E6, T2, T3. repeat split; auto. lia.
Qed.

(** ** Runs *)

(** Acknowledgements the datanode client may deliver to a write whose replicas have
    the statuses [st]: replica [i] uses bucket [i], and its answers are legal. *)
Fixpoint acks_legal (st : list UData_state_t) (es : list pl_event) : Prop :=
  match es with
  | [] => True
  | EvReadAck _ _ _ _ :: _ => False
  | EvTimer _ :: es => acks_legal st es
  | EvWriteAck _ s bk i :: es =>
      0 <= i /\ bk = i /\ (exists c, st !! Z.to_nat i = Some c /\ ack_legal c s = true) /\
      acks_legal (<[Z.to_nat i := s]> st) es
  end.

(** The statuses after the acknowledgements. *)
Fixpoint statuses (st : list UData_state_t) (es : list pl_event) : list UData_state_t :=
  match es with
  | [] => st
  | EvWriteAck _ s _ i :: es => statuses (<[Z.to_nat i := s]> st) es
  | _ :: es => statuses st es
  end.

Definition final_status (s : UData_state_t) : Prop := s = UData_S_WRITE_OK \/ s = UData_S_DISK_FAILURE.

Definition all_final (n : Z) (st : list UData_state_t) : Prop :=
  cnt UData_S_WRITE_OK st + cnt UData_S_DISK_FAILURE st = n.

Definition liveW (n : Z) (st : list UData_state_t) (w : pl_world) : Prop :=
  gone KERNEL_IO_WRITE w \/
  exists md, wphase md waiting 0 w /\ md_wf n md /\ udata_dnLoc md = st /\
    fea_test md MDATA_FEA_UDataCIMDS = false /\ ~ all_final n st.

Lemma criteria_all_final n md : md_wf n md -> all_final n (udata_dnLoc md) -> _chk_ciMDS_criteria md = true.
Proof.
  intros [Hn Hd He Hf] H. unfold all_final in H. unfold _chk_ciMDS_criteria.
  destruct (_ =? _); [done|]. destruct (_ && _); [done|]. rewrite (proj2 (Z.eqb_eq _ _)) by lia. done.
Qed.

Lemma ack_live cfg n md i s c :
  md_wf n md -> fea_test md MDATA_FEA_UDataCIMDS = false ->
  udata_dnLoc md !! i = Some c -> ack_legal c s = true ->
  let '(md2, r) := MData_writeAck_commitResult (set_dnLoc (<[i := s]> (udata_dnLoc md)) md) s (CommitUser_min_DiskAck cfg) in
  ciMDS r = false ->
  md_wf n md2 /\ udata_dnLoc md2 = <[i := s]> (udata_dnLoc md) /\
  fea_test md2 MDATA_FEA_UDataCIMDS = false /\ ~ all_final n (<[i := s]> (udata_dnLoc md)).
Proof.
  intros W Hf Hi Hl. set (md1 := set_dnLoc _ md). set (k := CommitUser_min_DiskAck cfg).
  pose proof (acked_wf n md i c s W Hi Hl) as W1. change (acked md i s) with (count_ack md1 s) in W1.
  pose proof (writeAck_flags k md1 s) as F. pose proof (writeAck_same md1 s k) as S.
  pose proof (writeAck_result md1 s k) as R.
  destruct (MData_writeAck_commitResult md1 s k) as [md2 r]. simpl in F, S, R. intros Hr.
  assert (Hf2 : fea_test md2 MDATA_FEA_UDataCIMDS = false).
  { apply not_true_is_false. intros Ht. destruct F as (_ & [_ F] & _). rewrite F in Hr by done. done. }
  split; [by eapply md_wf_same|]. split; [|split; [done|]].
  - destruct S as (_ & <- & _). by destruct s.
  - intros Ha. destruct R as (_ & _ & _ & R). rewrite R in Hf2; [done|]. eapply criteria_all_final; [done|].
    by destruct s.
Qed.

Section write_run.
Context (cfg : pl_config) (ms : Z -> Z) (Hcfg : high_resp_write_io cfg = false).

Lemma phase_jiffies now md st c w : wphase md st c w -> wphase md st c (set_jiffies_64 now w).
Proof. intros H. exact H. Qed.

Lemma run_liveW n es st w :
  acks_legal st es -> liveW n st w -> twp (pl_run cfg ms es) (fun _ => liveW n (statuses st es)) w.
Proof.
  revert st w. unfold pl_run. induction es as [|e es IH]; intros st w Hl Hw; [by apply twp_ret|].
  cbn [for_each]. apply twp_bind. destruct Hw as [Hg|(md & P & W & <- & Hf & Hn)].
  { unfold pl_handle. apply twp_bind, twp_gets. pose proof Hg as (_ & _ & _ & _ & ->). apply twp_ret.
    destruct e; simpl in *; try done; apply IH; try tauto; by left. }
  unfold pl_handle. apply twp_bind, twp_gets. pose proof P as (_ & _ & _ & -> & _).
  destruct e as [|now s bk i|now]; [done| |]; apply twp_bind, twp_modify; apply (phase_jiffies now) in P.
  - simpl in Hl. destruct Hl as (Hi & -> & (c & Hc & Hl) & Hes).
    assert (Hlt : 0 <= i < MAX_NUM_REPLICA).
    { destruct W as [(Hn1 & _ & _ & Hlen)]. apply lookup_lt_Some in Hc. lia. }
    assert (Hup : MData_update_DNUDataStat md (Z.to_nat i) s = Some (set_dnLoc (<[Z.to_nat i := s]> (udata_dnLoc md)) md)).
    { unfold MData_update_DNUDataStat. by rewrite Hc. }
    eapply twp_mono; [by eapply writeDN_twp|]. intros ? w1. cbv beta. pose proof (ack_live cfg n md _ s c W Hf Hc Hl) as A.
    destruct (MData_writeAck_commitResult _ _ _) as [md2 r]. destruct (ciMDS r) eqn:Er; intros Hw1.
    + apply IH; [done|by left].
    + destruct (A eq_refl) as (A1 & A2 & A3 & A4). apply IH; [done|]. right. by exists md2.
  - apply twp_bind, twp_gets. destruct (work_queued _) eqn:Eq.
    + eapply twp_mono; [by eapply timer_twp|]. intros ? w1 H1. apply IH; [done|]. right. by exists md.
    + apply twp_ret. apply IH; [done|]. right. by exists md.
Qed.

End write_run.

(** A write of [hbids] blocks from [lbid] on to [n] replicas. *)
Definition write_start (lbid hbids n off timeout now counter : Z) (cr : list dn_create_t) : pl_world :=
  pl_start (PLReq_init_Req 1 (MData_init_MDItem lbid hbids n false false false) KERNEL_IO_WRITE off true true timeout now)
    now counter cr.

Lemma write_start_phase lbid hbids n off timeout now counter cr :
  let w := write_start lbid hbids n off timeout now counter cr in
  wphase (MData_init_MDItem lbid hbids n false false false) PLReq_init_fsm 0 w /\ settled w /\
  num_DNUDReq (w_req w) = 0 /\ rTO_chk_cnt (w_req w) = 5.
Proof.
  unfold write_start, PLReq_init_Req, _set_PLReq_TOValue, pl_start. cbv zeta beta iota.
  destruct (Z.quot timeout PLREQ_READ_TO_CNT =? 0); (split; [|split; [|done]]).
  all: unfold phase, sound, settled; simpl; repeat split; auto; lia.
Qed.

(** The whole life of a write: the live state and the count of outcomes. *)
Lemma write_life cfg ms md n es w0 :
  high_resp_write_io cfg = false -> 1 <= n <= MAX_NUM_REPLICA ->
  acks_legal (udata_dnLoc md) es -> md_wf n md -> fea_test md MDATA_FEA_UDataCIMDS = false ->
  ~ all_final n (udata_dnLoc md) -> wphase md PLReq_init_fsm 0 w0 -> settled w0 ->
  num_DNUDReq (w_req w0) = 0 -> rTO_chk_cnt (w_req w0) = 5 ->
  twp (_submit_write_PLReq;; pl_run cfg ms es)
    (fun _ w => liveW n (statuses (udata_dnLoc md) es) w /\ settled w) w0.
Proof.
  intros Hc Hn Hl W Hf Ha P Fr Hnum Hcnt. apply twp_wp.
  - apply twp_bind. eapply twp_mono; [apply (submit_write_twp md); [done|done|lia|]|].
    + destruct W as [(_ & -> & _)]. lia.
    + intros ? w1 P1. apply run_liveW; [done|done|]. right. by exists md.
  - apply wp_bind. eapply wp_mono; [apply (submit_settled _ cfg 0); [by right|done]|].
    intros ? ? Hs. by apply run_settled.
Qed.



(** ** Reads *)

Abbreviation rphase := (phase KERNEL_IO_READ).

(** The data of a datanode completes a read. *)
Lemma read_ok_twp md bk w :
  rphase md waiting 1 w -> 0 <= bk < MAX_NUM_REPLICA ->
  twp (read_ok bk) (fun b w' => b = true /\ rphase (MData_set_ciUser md) ended 1 w') w.
Proof.
  intros P Hb. unfold read_ok. apply twp_bind. eapply phase_tame; [auto with disco|exact P|]. clear w P. intros _ w P.
  apply twp_bind. unfold twp, update_state. pose proof P as (S1 & S2 & S3 & S4 & S5 & S6 & S7). rewrite S7. simpl.
  set (w1 := set_w_req _ _).
  assert (P1 : rphase (MData_set_ciUser md) ended 1 (set_w_req (set_mdata (MData_set_ciUser md) (w_req w1)) w1)).
  { phase_again S1. }
  apply (twp_bind (upd_md MData_set_ciUser)), twp_modify. simpl in *. rewrite S6. set (w2 := set_w_req _ w1) in *.
  clearbody w2. clear - P1. do 4 tame_step.
  apply twp_bind. unfold _PLReq_read_ciCaller. do 3 tame_step.
  eapply twp_mono; [by apply (end_twp KERNEL_IO_READ (MData_set_ciUser md) ended 1)|].
  cbv beta. intros ? w5 P5. by apply twp_ret.
Qed.

(** C36: the first datanode that delivers the data completes the read: the handler
    returns, the request is freed and its caller got its one outcome. *)
Theorem read_data_completes (cfg : pl_config) (ts ta bk i : Z) (w : pl_world) :
  settled w -> rphase (mdata_item (w_req w)) waiting 0 w -> MData_chk_ERCProt (mdata_item (w_req w)) = false ->
  0 <= bk < MAX_NUM_REPLICA -> 0 <= i -> is_Some (udata_dnLoc (mdata_item (w_req w)) !! Z.to_nat i) ->
  exists w', PLReq_readDN_endfn cfg UData_S_READ_OK ts ta bk i w = Returns w' tt /\ freed w' = true /\ settles w' = 1%nat.
Proof.
  intros Hs P He Hb Hi [c Hc].
  assert (Ho : half false w) by (apply settled_open; [done|apply P]).
  enough (T : twp (PLReq_readDN_endfn cfg UData_S_READ_OK ts ta bk i) (fun _ => gone KERNEL_IO_READ) w).
  { pose proof (twp_wp _ _ _ _ T (readDN_settled cfg UData_S_READ_OK ts ta bk i w Ho)) as H.
    apply twp_inv in H as (w' & [] & Hr & (_ & _ & _ & _ & Hg) & H1 & H2 & _).
    exists w'. split; [done|]. rewrite H1, <- H2, Hg. done. }
  remember (mdata_item (w_req w)) as md eqn:Emd. clear Hs Ho.
  destruct P as (S1 & S2 & S3 & S4 & S5 & S6 & S7). unfold PLReq_readDN_endfn. apply twp_bind, twp_modify.
  set (w1 := set_w_req _ _). assert (P1 : rphase md waiting 1 w1).
  { phase_again S1. }
  clearbody w1. clear - P1 Hb Hi Hc He. tame_step. destruct H as (S1 & S2 & S3 & S4 & S5 & S6 & S7).
  apply twp_bind. unfold update_DNUDataStat. apply twp_bind, twp_gets.
  unfold MData_update_DNUDataStat. rewrite S6, Hc. simpl. rewrite (proj2 (Z.leb_le 0 i) Hi). apply twp_modify.
  set (md1 := set_dnLoc _ md). set (w1 := set_w_req _ _). assert (P1 : rphase md1 waiting 1 w1).
  { phase_again S1. }
  clearbody w1. clear - P1 Hb He. apply twp_bind, twp_gets. pose proof P1 as (_ & _ & _ & _ & _ & -> & _).
  change (MData_chk_ERCProt md1) with (MData_chk_ERCProt md). rewrite He. simpl.
  unfold _PLReq_readDN_NonTrueMD, _PLReq_readDN_TrueMD_REP.
  destruct (negb _); [apply twp_bind, twp_gets|].
  all: apply twp_bind; eapply twp_mono; [by eapply read_ok_twp|]; intros b w2 [-> P2]; by eapply free_twp.
Qed.

Lemma read_data_completes_witness :
  let w := world_after (pl_submit demo_cfg KERNEL_IO_READ 1 (demo_start KERNEL_IO_READ 3 true))
             (demo_start KERNEL_IO_READ 3 true) in
  exists w', PLReq_readDN_endfn demo_cfg UData_S_READ_OK 15 20 0 1 w = Returns w' tt /\
    freed w' = true /\ settles w' = 1%nat.
Proof.
  intros w. apply (read_data_completes demo_cfg 15 20 0 1 w).
  - vm_compute. repeat split; lia.
  - vm_compute. repeat split; congruence.
  - reflexivity.
  - unfold MAX_NUM_REPLICA. lia.
  - lia.
  - vm_compute. eexists. reflexivity.
Defined.

(** ** A timer that waits for itself *)

Lemma blocks_bind {A B} (m : pl A) (k : A -> pl B) w :
  twp m (fun a w' => k a w' = Blocks) w -> (m ≫= k) w = Blocks.
Proof. unfold twp, mbind, thread_bind. by destruct (m w). Qed.

Lemma blocks_first {A B} (m : pl A) (k : A -> pl B) w : m w = Blocks -> (m ≫= k) w = Blocks.
Proof. unfold mbind, thread_bind. by intros ->. Qed.

(** Cancelling the timer from its own work. *)
Lemma cancel_timer_blocks w :
  Z.testbit (ReqFeature (w_req w)) 3 = true -> work_running w = true -> PLReq_cancel_timer w = Blocks.
Proof.
  intros Hon Hr. unfold PLReq_cancel_timer, _gain_PLReq_timer_ctrl, test_and_set_PLReq_fea, test_and_clear_PLReq_fea,
    check_PLReq_fea.
  destruct (Z.testbit (ReqFeature (w_req w)) 4) eqn:E4.
  - apply blocks_first. apply blocks_bind, twp_bind, twp_gets, twp_bind, twp_modify, twp_ret. simpl. by rewrite E4.
  - apply blocks_bind, twp_bind, twp_bind, twp_gets, twp_bind, twp_modify, twp_ret. simpl. rewrite E4. apply twp_ret.
    apply blocks_bind, twp_bind, twp_gets, twp_bind, twp_modify, twp_ret. simpl.
    rewrite Z.setbit_neq, Hon by lia. apply blocks_first, blocks_bind, twp_gets. simpl. by rewrite Hr.
Qed.

(** The timer of an unreplicated read waits for itself.  When the timer of a read
    with a single replica and unconfirmed metadata expires before the data came, its
    handler asks for the metadata again and cancels the timer from within the timer's
    own work: it never returns. *)
Theorem read_timer_deadlock (cfg : pl_config) (ms : Z -> Z) (w : pl_world) :
  let r := w_req w in
  rphase (mdata_item r) waiting 0 w -> 2 <= rTO_chk_cnt r ->
  Z.testbit (ReqFeature r) (PLReq_fea_num PLREQ_FEA_TIMER_ON) = true ->
  MData_chk_TrueMD (mdata_item r) = false -> num_replica (mdata_item r) <= 1 ->
  0 <= last_readDNbk_idx r < MAX_NUM_REPLICA -> 0 <= last_readReplica_idx r ->
  is_Some (udata_dnLoc (mdata_item r) !! Z.to_nat (last_readReplica_idx r)) ->
  run_timer_work cfg ms w = Blocks.
Proof.
  intros r ((_ & _ & S1) & _ & S3 & _ & _ & _ & S7) Hcnt Hon Ht Hn Hb Hi [c Hc]. subst r.
  unfold run_timer_work. apply blocks_bind, twp_modify, blocks_first.
  unfold PLReq_TO_handler_gut. apply blocks_bind, twp_modify, blocks_bind, twp_modify, blocks_bind.
  unfold twp, update_state. simpl. rewrite S7. simpl. apply blocks_first, blocks_bind, twp_gets. simpl. rewrite S3.
  unfold _readPLReq_TO_handle. apply blocks_bind, twp_gets. simpl.
  rewrite Z.gtb_ltb, (proj2 (Z.ltb_lt _ _)) by lia. apply blocks_first.
  unfold _rPLReq_TO_try_replica. apply blocks_bind, twp_gets. simpl. unfold PLReq_readDN_endfn.
  apply blocks_bind, twp_modify, blocks_bind, twp_modify, blocks_bind. unfold update_DNUDataStat.
  apply twp_bind, twp_gets. simpl. unfold MData_update_DNUDataStat. rewrite Hc. simpl.
  rewrite (proj2 (Z.leb_le 0 _) Hi). apply twp_modify, blocks_bind, twp_gets. simpl.
  change (MData_chk_TrueMD (set_dnLoc ?l ?m)) with (MData_chk_TrueMD m). rewrite Ht. simpl.
  unfold _PLReq_readDN_NonTrueMD. apply blocks_bind, twp_gets. simpl.
  rewrite Z.gtb_ltb, (proj2 (Z.ltb_ge _ _)) by lia. apply blocks_first.
  apply blocks_bind. unfold PLReq_rm_DNUDReq, set_bucket. apply twp_bind, twp_bind, twp_gets. simpl.
  rewrite S1, (proj2 (Z.leb_le 0 _)), (proj2 (Z.ltb_lt _ MAX_NUM_REPLICA)) by lia. simpl.
  apply twp_modify, twp_modify. unfold _PLReq_1st_hbidErr. apply blocks_bind. unfold twp, update_state. simpl.
  by apply blocks_first, cancel_timer_blocks.
Qed.

Lemma read_timer_deadlock_witness :
  run_timer_work demo_cfg id (world_after (pl_submit demo_cfg KERNEL_IO_READ 0 (demo_start KERNEL_IO_READ 1 false))
    (demo_start KERNEL_IO_READ 1 false)) = Blocks.
Proof.
  apply read_timer_deadlock; try (vm_compute; congruence).
  - vm_compute. repeat split; congruence.
  - vm_compute. repeat split; congruence.
  - vm_compute. eexists. reflexivity.
Defined.

(** ** A freed request that is still linked *)

Definition links (w : pl_world) : bool * bool := (in_pool w, in_caller w).

(** An operation that does not touch the lists the request is linked in. *)
Definition keeps_links {A} (m : pl A) : Prop := forall w, wp m (fun _ w' => links w' = links w) w.

Lemma links_bind {A B} (m : pl A) (k : A -> pl B) : keeps_links m -> (forall a, keeps_links (k a)) -> keeps_links (m ≫= k).
Proof.
  intros Hm Hk w. apply wp_bind. eapply wp_mono; [apply Hm|]. simpl. intros a w' E.
  eapply wp_mono; [apply Hk|]. simpl. congruence.
Qed.

Lemma links_pure {A} (m : pl A) : (forall w, wp m (fun _ w' => links w' = links w) w) -> keeps_links m.
Proof. done. Qed.

Lemma links_for_each {A} (l : list A) body : (forall x, keeps_links (body x)) -> keeps_links (for_each l body).
Proof. intros H. induction l as [|x l IH]; simpl; [by apply links_pure|]. by apply links_bind. Qed.

Ltac linkly :=
  repeat first
    [ progress intros
    | solve [auto with disco]
    | apply links_for_each
    | solve [apply links_pure; intros; reflexivity]
    | apply links_bind
    | match goal with |- keeps_links (match ?b with _ => _ end) => destruct b end ].

Lemma links_cancel_timer : keeps_links PLReq_cancel_timer.
Proof.
  unfold PLReq_cancel_timer, _gain_PLReq_timer_ctrl, _rel_PLReq_timer_ctrl, test_and_set_PLReq_fea, test_and_clear_PLReq_fea.
  linkly.
Qed.

Lemma links_cancel_bucket s i : keeps_links (cancel_bucket s i).
Proof. unfold cancel_bucket, set_bucket. linkly. Qed.
#[local] Hint Resolve links_cancel_timer links_cancel_bucket : disco.

Lemma links_hbidErr b : keeps_links (_PLReq_1st_hbidErr b).
Proof.
  unfold _PLReq_1st_hbidErr, PLReq_cancel_DNUDReq. apply links_bind; [|linkly].
  intros w. unfold wp, update_state. by destruct (PLReq_update_state _ _).
Qed.

Lemma links_deref_free b : keeps_links (deref_and_free b).
Proof. unfold deref_and_free, PLMgr_free_PLReq, _PLReq_free_allDNReq, PLReq_free_Req. linkly. Qed.

Lemma linked_md_err cfg ts ta bk i w :
  MData_chk_TrueMD (mdata_item (w_req w)) = false ->
  wp (PLReq_readDN_endfn cfg UData_S_MD_ERR ts ta bk i) (fun _ w' => links w' = links w) w.
Proof.
  intros Ht. unfold PLReq_readDN_endfn. apply wp_bind, wp_modify, wp_bind, wp_modify, wp_bind, update_stat_wp.
  intros _ md Hmd. apply wp_bind, wp_gets. simpl. unfold MData_update_DNUDataStat in Hmd. simpl in Hmd.
  destruct (udata_dnLoc _ !! _) in Hmd; [|done]. injection Hmd as <-.
  change (MData_chk_TrueMD (set_dnLoc ?l ?m)) with (MData_chk_TrueMD m). rewrite Ht. simpl.
  unfold _PLReq_readDN_NonTrueMD. apply wp_bind, wp_gets.
  assert (K : keeps_links (do_free ← (PLReq_rm_DNUDReq bk;; _PLReq_1st_hbidErr bk); deref_and_free do_free)).
  { apply links_bind; [apply links_bind|intros; apply links_deref_free].
    - unfold PLReq_rm_DNUDReq, set_bucket. linkly.
    - intros _. apply links_hbidErr. }
  eapply wp_mono; [apply K|]. cbv beta. intros _ w' E. exact E.
Qed.

Lemma hbidErr_twp md bk w :
  rphase md waiting 1 w -> 0 <= bk < MAX_NUM_REPLICA ->
  twp (PLReq_rm_DNUDReq bk;; _PLReq_1st_hbidErr bk) (fun b w' => b = true /\ rphase md ended 1 w') w.
Proof.
  intros P Hb. apply twp_bind. eapply phase_tame; [auto with disco|exact P|]. clear w P. intros _ w P.
  unfold _PLReq_1st_hbidErr. apply twp_bind. unfold twp, update_state.
  pose proof P as (S1 & S2 & S3 & S4 & S5 & S6 & S7). rewrite S7. simpl. set (w1 := set_w_req _ _).
  assert (P1 : rphase md ended 1 w1). { phase_again S1. }
  clearbody w1. clear - P1. do 3 tame_step. apply twp_bind, twp_modify, twp_ret. split; [done|]. match goal with H : phase _ _ _ _ _ |- _ => exact H end.
Qed.

(** Outdated metadata frees a request that is still linked.  When a datanode
    reports that the metadata of an unconfirmed item is outdated, the handler reports
    it to the caller and frees the request, which stays linked in the pool of the
    payload manager and in the pool of its caller. *)
Theorem md_error_frees_linked (cfg : pl_config) (ts ta bk i : Z) (w : pl_world) :
  rphase (mdata_item (w_req w)) waiting 0 w -> MData_chk_TrueMD (mdata_item (w_req w)) = false ->
  in_pool w = true -> in_caller w = true ->
  0 <= bk < MAX_NUM_REPLICA -> 0 <= i -> is_Some (udata_dnLoc (mdata_item (w_req w)) !! Z.to_nat i) ->
  exists w', PLReq_readDN_endfn cfg UData_S_MD_ERR ts ta bk i w = Returns w' tt /\
    freed w' = true /\ in_pool w' = true /\ in_caller w' = true.
Proof.
  intros P Ht Hp Hc Hb Hi [c Hl].
  enough (T : twp (PLReq_readDN_endfn cfg UData_S_MD_ERR ts ta bk i) (fun _ => gone KERNEL_IO_READ) w).
  { pose proof (twp_wp _ _ _ _ T (linked_md_err cfg ts ta bk i w Ht)) as H.
    apply twp_inv in H as (w' & [] & Hr & (_ & _ & _ & _ & Hg) & [= E1 E2]).
    exists w'. rewrite E1, E2. done. }
  remember (mdata_item (w_req w)) as md eqn:Emd. clear Hp Hc.
  destruct P as (S1 & S2 & S3 & S4 & S5 & S6 & S7). unfold PLReq_readDN_endfn. apply twp_bind, twp_modify.
  set (w1 := set_w_req _ _). assert (P1 : rphase md waiting 1 w1).
  { phase_again S1. }
  clearbody w1. clear - P1 Hb Hi Hl Ht. tame_step. destruct H as (S1 & S2 & S3 & S4 & S5 & S6 & S7).
  apply twp_bind. unfold update_DNUDataStat. apply twp_bind, twp_gets.
  unfold MData_update_DNUDataStat. rewrite S6, Hl. simpl. rewrite (proj2 (Z.leb_le 0 i) Hi). apply twp_modify.
  set (md1 := set_dnLoc _ md). set (w1 := set_w_req _ _). assert (P1 : rphase md1 waiting 1 w1).
  { phase_again S1. }
  clearbody w1. clear - P1 Hb Ht. apply twp_bind, twp_gets. pose proof P1 as (_ & _ & _ & _ & _ & -> & _).
  change (MData_chk_TrueMD md1) with (MData_chk_TrueMD md). rewrite Ht. simpl.
  unfold _PLReq_readDN_NonTrueMD. apply twp_bind, twp_gets, twp_bind.
  eapply twp_mono; [by eapply hbidErr_twp|]. intros b w2 [-> P2]. by eapply free_twp.
Qed.

Lemma md_error_frees_linked_witness :
  let w := world_after (pl_submit demo_cfg KERNEL_IO_READ 1 (demo_start KERNEL_IO_READ 3 false))
             (demo_start KERNEL_IO_READ 3 false) in
  exists w', PLReq_readDN_endfn demo_cfg UData_S_MD_ERR 15 20 0 1 w = Returns w' tt /\
    freed w' = true /\ in_pool w' = true /\ in_caller w' = true.
Proof.
  intros w. apply (md_error_frees_linked demo_cfg 15 20 0 1 w).
  - vm_compute. repeat split; congruence.
  - reflexivity.
  - reflexivity.
  - reflexivity.
  - unfold MAX_NUM_REPLICA. lia.
  - lia.
  - vm_compute. eexists. reflexivity.
Defined.
